(* ===== verification/_CoqProject ===== *)
-Q . S2P
Prelude.v
EfiBase.v
Convert.v
Firmware.v
World.v
LoaderLib.v
Board.v
Ptable.v
DevInfo.v
Gpt.v
Slots.v
SlotSpec.v
Demo.v
SlotClaims.v
DevSpec.v
DevClaims.v
Sparse.v
SparseSpec.v
Recovery.v
Fastboot.v
FastbootCmds.v
FastbootOem.v
Dispatch.v
Setup.v
FastbootSpec.v
EngineSpec.v
EngineStart.v
EngineLive.v
StorageClaims.v
SparseClaims.v
RecoveryClaims.v
FastbootClaims.v
Fdt.v
FdtSpec.v
FdtTree.v
FdtRw.v
FdtRwSpec.v
FdtWrite.v
FdtImage.v
FdtProps.v
FdtSet.v
FdtPack.v
FdtUpdate.v
FdtUpdateSpec.v
FdtListSpec.v
FdtDemo.v
FdtWriteClaims.v
Carveout.v
CarveSpec.v
CarveTree.v
CarveClaims.v
FdtClaims.v
Bootconfig.v
BootconfigSpec.v
BootImage.v
BootSpec.v
BootParams.v
BootLayoutSpec.v
BootClaims.v
DtMatch.v
Locate.v
DtQueue.v
DtQueueSpec.v
DtSpec.v
LocateSpec.v
DtUpdate.v
DtGoods.v
DtUpdateSpec.v
DtChosenSpec.v
DtTreeSpec.v
GoodsSpec.v
DtUpdateClaims.v
DtClaims.v
CmdPath.v
CmdLine.v
CmdCount.v
CmdPass.v
CmdText.v
CmdFit.v
CmdClaims.v
