(* ===== verification/Prelude.v ===== *)
(** * The storage, boot-slot, fastboot and kernel-loading core of a Qualcomm
    Android bootloader

    The program is the UEFI application [QcomModulePkg] (LinuxLoader): it finds
    the storage of the device, keeps the partition table in memory, decides
    which of two slots to boot and records every attempt in the table, keeps
    the lock state and the rollback indices, over USB takes images and flashes
    them, chooses the device tree that fits the board, puts the kernel, its
    ramdisks and that tree into memory, and writes the command line.  Below it is the UEFI firmware, above it
    the host that talks fastboot; beside it in the repository is the edk2 tree it is built in.

    ** The parts and their files

    - [Prelude] (this file): machine integers with their wrap-around, the
      control flow of a C function as a monad [M S R A] (a result, an early
      [return], or a halt: reset, access outside an object, NULL, division by
      zero, endless loop), the reasoning principles [keeps] (what a run leaves
      alone), [exits] (what an early return can be), [wp] and [ends] (total
      correctness), byte buffers and little-endian words.
    - [EfiBase]: status codes of [MdePkg/Include/Base.h], [GUARD], the string
      routines of [MdePkg/Library/BaseLib/String.c] and [SafeString.c].
      [Convert]: numbers from text ([SafeString.c]) and text from numbers and
      status codes ([MdePkg/Library/BasePrintLib]).
    - [Firmware]: the calls the loader makes into the firmware, as the class
      [Firmware]; what the UEFI specification says of them as the classes
      [BlockIoLaws], [PlatformLaws], [Crc32Laws], [VbLaws]; the build switches
      as [BuildConfig]; an in-memory instance [MemFirmware] that satisfies all
      laws and on which every theorem is tried.
    - [World]: the statics of all modelled files in one record [World], and the
      frame relations [same_globals], [same_slots], [same_state], [same_rest].
    - [LoaderLib]: [Library/BootLib/LinuxLoaderLib.c], handle selection
      ([GetBlkIOHandles]), block-wise writing, erasing, loading.
    - [Board]: the storage type, [Library/BootLib/Board.c].
    - [Ptable]: enumeration and lookup of partitions; [Gpt]: parsing, patching
      and writing a GPT image and synchronising the tables on the device with
      the one in memory; [Slots]: the A/B logic.  All three are
      [Library/BootLib/PartitionTableUpdate.c], with [RecoveryInfo.c], the
      retry conditions of [LinuxLoader.c] and [UpdateCmdLine.c].
    - [DevInfo]: [Library/BootLib/DeviceInfo.c] with the storage it calls.
    - [Sparse]: the Android sparse-image flasher of
      [Library/FastbootLib/FastbootCmds.c].
    - [Recovery]: the messages of the misc partition,
      [Library/BootLib/Recovery.c].
    - [Fastboot], [FastbootCmds], [FastbootOem], [Dispatch], [Setup]: the
      fastboot protocol of [Library/FastbootLib/FastbootCmds.c] and
      [FastbootMain.c].  [Fastboot] has the answers, the published variables
      and the download engine; [FastbootCmds] the commands that change
      storage, slots, lock state and variables; [FastbootOem] those that store
      a setting for the kernel; [Dispatch] the command table, the reception of
      a line or a packet, the USB events and the timers; [Setup] the start: the
      buffers, the variables of board and partitions, the registration.
    - [Fdt]: the part of libfdt the loader reads device trees with
      ([EmbeddedPkg/Library/FdtLib/fdt.c], [fdt_ro.c]); [FdtRw]: the node
      search that remembers first-level nodes ([Library/BootLib/FdtRw.c]);
      [FdtWrite]: the routines that change a tree in place
      ([EmbeddedPkg/Library/FdtLib/fdt_rw.c], [fdt_wip.c]); [FdtUpdate]: those
      of [FdtRw.c] and [Include/Library/FdtRw.h] that also keep the remembered
      nodes right; [DtUpdate]: what [UpdateDeviceTree] writes into the tree
      ([Library/BootLib/UpdateDeviceTree.c], [DisplayCtrl.c]); [DtGoods]: the
      nodes of disabled parts of the chip ([Library/BootLib/PartialGoods.c]),
      and [UpdateDeviceTree] as a whole; [Carveout]: the RAM partitions without the no-map regions of the tree
      ([Library/BootLib/UpdateDeviceTree.c]).
    - [BootImage]: the boot image header ([Include/Library/BootImage.h]) and
      its check; [Bootconfig]: [Library/BootLib/Bootconfig.c]; [BootParams]:
      the kind of the kernel, the load addresses, the copy of ramdisks and
      boot configuration.  All but [Bootconfig.c] are
      [Library/BootLib/BootLinux.c].
    - [DtMatch], [Locate], [DtQueue]: the choice of the device tree
      ([Library/BootLib/LocateDeviceTree.c], with the board queries of
      [Board.c], [Rtic.c] and [fdt_check_header_ext]).  [DtMatch] compares one
      tree with the board, [Locate] walks over the trees behind the kernel and
      over the table of overlays, [DtQueue] is the older choice by a queue of id
      combinations.
    - [CmdPath], [CmdLine]: the kernel command line and the boot parameters
      ([Library/BootLib/UpdateCmdLine.c], with [GetBootDevice] and
      [IsMdtpActive] of [LinuxLoaderLib.c]).  [CmdPath] names partitions as
      the kernel will see them; [CmdLine] has [UpdateCmdLine] in the blocks of
      its two passes, [count_...] and [text_...], on a record [CmdState] that
      adds the statics of that file to [World].
    - [SlotSpec], [DevSpec], [SparseSpec]: the abstract specifications and the
      lemmas that relate the operations to them.  [FastbootSpec]: the part of
      the state the download engine owns, and that no command but [download]
      and the exchange of the buffers changes it.  [EngineSpec]: the
      well-formedness [engine_ok], the step relation [engine_step] of
      everything that can happen to the engine, and its reachable states;
      [EngineStart]: the start; [EngineLive]: a download runs to its end.
      [FdtSpec], [FdtTree]: the device-tree format as an encoding of trees of
      nodes, what the reader does on any bytes and on an encoded tree;
      [FdtRwSpec]: the same for the search with the list; [FdtImage]: a blob as
      header, reservations, tokens, strings and room, what each of the splices
      does to them, and its strings block; [FdtProps], [FdtSet], [FdtPack]: the
      properties of a node, setting and appending, opening and packing on such
      an image; [FdtUpdateSpec], [FdtListSpec]: the same
      with the list, and children by name; [DtUpdateSpec], [DtChosenSpec],
      [DtTreeSpec]: the memory node, the chosen node, the whole tree and the
      room for it; [GoodsSpec]: nodes two levels below the root, the tables of
      [DtGoods] as updates of their values, and all of [UpdateDeviceTree];
      [CarveSpec], [CarveTree]: sorting, joining and cutting as operations on
      sets of addresses, and the regions a tree stands for; [BootconfigSpec],
      [BootSpec], [BootLayoutSpec]: the meaning of a boot configuration, of a
      header and of the memory after loading; [DtSpec]: the score of a tree as
      a function of its ids; [LocateSpec]: an image as a sequence of trees and
      the best of them; [DtQueueSpec]: the narrowing passes as one
      lexicographic maximum.  [CmdCount]: a text in a buffer, [AsciiStrCatS] and
      [RemoveSpace], and what a block counts, as a list of items;
      [CmdPass]: the items of every block of the first pass; [CmdText]: the
      pieces every block of the second pass appends; [CmdFit]: the pieces fit
      into what was counted, block by block and in all.
      [SlotClaims], [DevClaims], [StorageClaims], [SparseClaims],
      [RecoveryClaims], [FastbootClaims], [CarveClaims], [FdtClaims],
      [FdtWriteClaims], [BootClaims], [DtClaims], [DtUpdateClaims], [CmdClaims]: the theorems, each with a witness on the devices
      of [Demo], the trees of [FdtDemo] or a small memory.

    Functions keep the names of the source.  A C function is a [Definition] in
    the monad on [World]; a loop is a [Fixpoint] on the data it walks over or
    [for_up] with the loop's own bound; a [while] with no such bound takes fuel
    and halts with [Forever] when it runs out, and [wp_write_units] shows that
    the fuel given is enough ([DivMsgBufSize / WriteUnitSize + 1] rounds); the
    allocation loop of [FastbootCmdsInit] gets [ALLOC_ROUNDS] = 1600 rounds,
    enough by [buffer_search_ends], because the first round cuts the size to at
    most 1.5 GiB and every later one takes off at least 1 MiB of it.  The loops
    of libfdt get [fdt_rounds], one round for every byte of the blob and one
    more; [node_walk_returns] shows that this is enough on any bytes (but for
    the one property length that makes no progress), the lemmas of [FdtTree]
    that it is on trees.  The walk over the trees behind a kernel gets a round
    for every byte of the image and one more, enough because a tree it accepts
    is at least a byte long ([get_soc_dtb_at] shows it ends); the search of
    [GetMemoryLimit] gets one for every byte of the tree and one more, and
    [offline_last_fit] needs no more than the entries of the table.  An
    integer that can overflow is wrapped to its width where the source
    computes it.  [DEBUG] output and [FreePool] are left out.

    ** What the theorems show

    - Slots ([SlotClaims]): the operations refine a machine on two slot
      records (priority, active, retries, successful, unbootable): the active
      slot, [SetActiveSlot], the fallback and [FindBootableSlot]; a slot set
      active is found active; a slot that never succeeds is tried at most seven
      times; the type GUIDs of the pairs are only ever permuted; exactly the
      partitions of the active suffix carry the active bit.
    - Table on the device ([StorageClaims]): after a synchronisation the device
      holds, for every entry the table in memory knows, its GUIDs and
      attributes, with valid checksums and nothing else changed; a patched GPT
      image whose headers have the usual size is consistent; a header that parses is
      sound; a write to a partition changes exactly the bytes asked for.
    - Device state ([DevClaims]): the persistent values are a finite map of at
      most eight names; what was written survives a restart; a fresh device is
      locked when secure boot is on; changing the lock wipes the user data.
    - Sparse images ([SparseClaims]): any byte string is handled without a
      fault, and a successful flash of an image without checksum chunks leaves
      in the partition what the format says the image stands for.
    - Misc partition ([RecoveryClaims]): a merge status that was saved is the
      one read after a restart, and a failed write leaves the message in memory
      as it was; a recovery command that was written makes the next
      start boot into recovery; two pages shorter than the message are
      overrun.
    - Fastboot ([FastbootClaims]): from a successful start every sequence of
      USB reports, timers, thread runs and commands keeps the counters inside
      of the buffer and the queued receive inside of the announced download;
      the search for the buffer always ends; an accepted download completes and the buffer
      holds what was sent; a line goes to the command with the longest
      matching prefix; a locked device refuses to flash, erase and switch
      slots and writes nothing; [flash] of a raw image on one boot device puts
      the downloaded bytes into the partition and nothing else when every write
      succeeds, and says that it failed otherwise; a number is the value of its
      digits, cut at 64 bits.
    - Device tree ([FdtClaims]): on the encoding of any tree the reader
      enumerates the children of a node, finds the first property of a name
      and the node of a path; on arbitrary bytes the walk over the nodes
      that have no stuck property on their way returns and stays inside the
      blob; the remembered nodes stay in order.
    - Device-tree writing ([FdtWriteClaims]): setting a property of any node of
      any tree sets it and nothing else, or says there is no room; opening and
      packing change the room only; the list of first-level nodes names the
      same nodes afterwards.
    - The kernel's tree ([DtUpdateClaims]): [UpdateDeviceTree], up to the
      ramdisk, leaves a tree that differs from the one it was given in the
      memory node and the chosen node only, with the values it should write;
      the rest of it disables the nodes of disabled parts and no others, and
      leaves a packed tree;
      a first-level path is found wherever the list stands.
    - RAM ([CarveClaims]): the partitions the kernel is told about cover
      exactly the RAM outside the no-map regions of the tree, for regions that
      are not nested in each other.
    - Boot image ([BootClaims]): the header check accepts exactly the headers
      whose parts add up without overflow (a recovery overlay that does not
      round is left out: the code does not test it); the kernel starts where
      its header and the platform say, the device tree and the ramdisks lie in
      this order below the end of the region, and a kernel that starts above
      the device tree is refused; the assembled ramdisk of a version 4 image is
      the concatenation of its parts with a boot configuration that reads as
      the static and the dynamic text.
    - Choice of the tree ([DtClaims]): [GetSocDtb] and [GetBoardDtb] return a
      tree of the largest score among those that suit the board by the
      selection table in the source, when no tree that passes contradicts that
      table (the code scores a tree of another PMIC model or OEM lower but does
      not refuse it);
      the older path returns the first lexicographic maximum of the id
      combinations; a search for overlays is never found unnecessary.
    - Command line ([CmdClaims]): when the other parts answer, the final
      command line is the text of the image followed by every piece that is
      asked for, in order and none dropped, where there is no audio framework
      or it goes to the boot configuration (on an older header its piece is
      counted but not appended); the boot configuration holds every
      entry on a line without spaces; [RemoveSpace] is a filter in place; the
      memory limit takes off what the last fitting table entry says.
    - The theorems [failed_reset_flips_lock], [patch_gpt_empty_faults],
      [update_table_skips], [handle_unbootable_refines],
      [refused_download_length], [recovery_message_overruns],
        [no_regions_fault], [nested_region_lost], [network_boot_drops], [small_region_accepted],
      [patched_kernel_refused], [dtbo_never_skipped] and [dtb_window_exact] pin down behaviour the
      code probably does not intend.

    ** Assumptions

    The firmware is a parameter; every theorem names the laws it uses.  A
    device shows the bytes a successful write stored, reads and writes do not
    change the handle database, CRC32 is any function of the bytes.  Calls that
    allocate may fail.  An array on the stack that the source leaves
    uninitialised starts with zeros.

    The transfer buffer is the object [DataMem] at the address [mDataBuffer];
    a packet is stored by the USB driver where the queued receive says.  One
    receive is queued at a time and queueing it succeeds.  A command handler, a
    timer callback and the body of the flash thread are single steps, in any
    order; the lock calls and [WaitForFlashFinished], which keep the real ones
    apart, have no counterpart.  The handlers that are not modelled ([boot] and
    [continue]) are the parameter [other]; the theorems on the engine assume
    that they leave the engine well-formed.  The size of the memory, which
    [GetDdrSize] of [Board.c] reports, and the answers of the USB driver to a
    request for a buffer are parameters too.

    A device tree is the buffer it is read from; a read outside of it halts.
    Physical memory, where images are copied, is a total function on 64-bit
    addresses; an access that leaves the 64-bit space halts.  [LoadAddrAndDTUpdate], which works on
    the whole memory, has [UpdateDeviceTree] as a parameter; [DtUpdate] models
    it on the blob alone; what the platform package sets
    and the early-services option are arguments.  The queries of the PMIC
    driver are taken to succeed, as the [ASSERT]s of [Board.c] demand.

    For the command line the answers of the other parts are the record
    [Answers]; [answered] says that the queries return them and leave the
    statics alone, which they do once the storage type is known.  The texts of
    [LECmdLine.c], [EarlyEthernet.c], [EarlyUsbInit.c] and [IntegrityIMA.c] are
    the parameter [CmdWorld].

    ** Not modelled

    Left out: reading the boot images from their partitions and the jump to the
    kernel, so that [CmdBoot] and [CmdContinue] stay one parameter of the
    fastboot dispatch; the DDR ranks of [UpdateDeviceTree], which the package
    switches off; the overlay of the user partition and the
    application of overlays; verified boot ([Library/avb] but for the version
    test), which is mostly calls into libavb and the trusted environment; menus
    and drawing; starting and stopping the USB device; hibernation, which works
    on registers; decompression and zlib; and the edk2 tree outside of
    [QcomModulePkg] but for what the loader calls. *)
From stdpp Require Import base tactics list numbers option sorting.
From Stdlib Require Import ZArith Lia.

#[global] Open Scope Z_scope.
#[global] Set Default Goal Selector "!".

(** * Machine integers *)

Definition u8 (x : Z) : Z := x mod 2 ^ 8.
Definition u16 (x : Z) : Z := x mod 2 ^ 16.
Definition u32 (x : Z) : Z := x mod 2 ^ 32.
Definition u64 (x : Z) : Z := x mod 2 ^ 64.

(** [INT32] of an unsigned value. *)
Definition s32 (x : Z) : Z := let v := u32 x in if v <? 2 ^ 31 then v else v - 2 ^ 32.

Definition MAX_UINT32 : Z := 2 ^ 32 - 1.
Definition MAX_UINT64 : Z := 2 ^ 64 - 1.

Definition is_u8 (x : Z) : Prop := 0 <= x < 2 ^ 8.
Definition is_u32 (x : Z) : Prop := 0 <= x < 2 ^ 32.
Definition is_u64 (x : Z) : Prop := 0 <= x < 2 ^ 64.

(** Boolean comparisons of the source, turned into propositions. *)
Ltac bools :=
  repeat match goal with
  | H : _ && _ = true |- _ => apply andb_prop in H; destruct H
  | H : _ || _ = false |- _ => apply orb_false_elim in H; destruct H
  | H : negb _ = true |- _ => apply negb_true_iff in H
  | H : negb _ = false |- _ => apply negb_false_iff in H
  | H : (_ <=? _) = true |- _ => apply Z.leb_le in H
  | H : (_ <=? _) = false |- _ => apply Z.leb_gt in H
  | H : (_ <? _) = true |- _ => apply Z.ltb_lt in H
  | H : (_ <? _) = false |- _ => apply Z.ltb_ge in H
  | H : (_ =? _) = true |- _ => apply Z.eqb_eq in H
  | H : (_ =? _) = false |- _ => apply Z.eqb_neq in H
  end.

Lemma u32_range x : is_u32 (u32 x).
Proof. apply Z.mod_pos_bound; lia. Qed.
Lemma u64_range x : is_u64 (u64 x).
Proof. apply Z.mod_pos_bound; lia. Qed.
Lemma u32_small x : 0 <= x < 2 ^ 32 -> u32 x = x.
Proof. apply Z.mod_small. Qed.
Lemma u64_small x : 0 <= x < 2 ^ 64 -> u64 x = x.
Proof. apply Z.mod_small. Qed.
Lemma s32_small x : 0 <= x < 2 ^ 31 -> s32 x = x.
Proof. intros. unfold s32. rewrite u32_small by lia. by case_match eqn:E; bools; [|lia]. Qed.

(** The product of two 32-bit integers fits 64 bits. *)
Lemma mul_u32 a b : 0 <= a < 2 ^ 32 -> 0 <= b < 2 ^ 32 -> 0 <= a * b < 2 ^ 64.
Proof.
  intros. split; [lia|].
  replace (2 ^ 64) with (2 ^ 32 * 2 ^ 32) by done. apply Z.mul_lt_mono_nonneg; lia.
Qed.

(** Lists are compared, entry by entry, with [bool_decide]; [all_zero] is the
    test against a zeroed memory block. *)
Definition zeros (n : Z) : list Z := replicate (Z.to_nat n) 0.

(** * Control flow of a C function

    A function body runs on a state [S], may [return] a value of type [R]
    before its end, and may stop the machine: a system reset, an access
    outside an object, or a loop the source never leaves. *)

Inductive halt : Type :=
| ResetSystem (** [gRT->ResetSystem] does not come back *)
| OutOfBounds (** a read or a write outside the object it addresses *)
| NullDeref   (** a dereference of [NULL] *)
| DivByZero   (** an integer division by zero *)
| Forever.    (** an endless loop of the source *)

Inductive ctl (R A : Type) : Type :=
| Go (a : A)
| Return (r : R)
| Halt (h : halt).
Arguments Go {R A} a.
Arguments Return {R A} r.
Arguments Halt {R A} h.

Definition M (S R A : Type) : Type := S -> ctl R A * S.

Definition M_ret {S R A} (a : A) : M S R A := fun s => (Go a, s).
Definition M_bind {S R A B} (k : A -> M S R B) (m : M S R A) : M S R B :=
  fun s => match m s with
           | (Go a, s') => k a s'
           | (Return r, s') => (Return r, s')
           | (Halt h, s') => (Halt h, s')
           end.
#[global] Instance M_MRet {S R} : MRet (M S R) := fun A => @M_ret S R A.
#[global] Instance M_MBind {S R} : MBind (M S R) := fun A B => @M_bind S R A B.

(** [return r] in the middle of a body. *)
Definition early {S R A} (r : R) : M S R A := fun s => (Return r, s).
Definition stop {S R A} (h : halt) : M S R A := fun s => (Halt h, s).
Definition get {S R} : M S R S := fun s => (Go s, s).
Definition modify {S R} (f : S -> S) : M S R unit := fun s => (Go tt, f s).

(** A call: the callee's [return] hands its value to the caller. *)
Definition call {S R R'} (m : M S R R) : M S R' R :=
  fun s => match m s with
           | (Go r, s') => (Go r, s')
           | (Return r, s') => (Go r, s')
           | (Halt h, s') => (Halt h, s')
           end.

(** A whole run of a function: its value, or how it stopped the machine. *)
Definition run {S R} (m : M S R R) : S -> ctl Empty_set R * S := call m.

(** A value that must exist; [h] says what happens when it does not. *)
Definition need {S R A} (h : halt) (o : option A) : M S R A :=
  match o with Some a => mret a | None => stop h end.

(** [for (i = start; i < start + n; i++) body], with loop-carried locals. *)
Fixpoint for_up {S R L} (n : nat) (start : Z) (l : L)
    (body : Z -> L -> M S R (bool * L)) : M S R L :=
  match n with
  | O => mret l
  | Datatypes.S n' =>
      r ← body start l;
      if (r.1 : bool) then mret r.2 else for_up n' (start + 1) r.2 body
  end.

(** * What a computation leaves alone

    [keeps P m]: every run of [m], whether it goes on, returns early or stops
    the machine, relates the state before to the state after by [P]. *)

Definition keeps {S R A} (P : S -> S -> Prop) (m : M S R A) : Prop :=
  forall s, P s (m s).2.

Create HintDb keeps discriminated.

Section Keeps.
Context {S : Type} (P : S -> S -> Prop).
Context {HP : PreOrder P}.

Lemma keeps_ret {R A} (a : A) : keeps P (mret a : M S R A).
Proof. intros s. reflexivity. Qed.
Lemma keeps_early {R A} (r : R) : keeps P (early r : M S R A).
Proof. intros s. reflexivity. Qed.
Lemma keeps_stop {R A} h : keeps P (stop h : M S R A).
Proof. intros s. reflexivity. Qed.
Lemma keeps_get {R} : keeps P (get : M S R S).
Proof. intros s. reflexivity. Qed.
Lemma keeps_need {R A} h (o : option A) : keeps P (need h o : M S R A).
Proof. intros s. destruct o; reflexivity. Qed.
Lemma keeps_modify {R} (f : S -> S) :
  (forall s, P s (f s)) -> keeps P (modify f : M S R unit).
Proof. intros H s. apply H. Qed.

Lemma keeps_bind {R A B} (m : M S R A) (k : A -> M S R B) :
  keeps P m -> (forall a, keeps P (k a)) -> keeps P (m ≫= k).
Proof.
  intros Hm Hk s. unfold mbind, M_MBind, M_bind.
  specialize (Hm s). destruct (m s) as [[a|r|h] s']; simpl in *; [|done..].
  etrans; [exact Hm|]. apply Hk.
Qed.

Lemma keeps_call {R R'} (m : M S R R) : keeps P m -> keeps P (call m : M S R' R).
Proof.
  intros Hm s. specialize (Hm s). unfold call.
  destruct (m s) as [[a|r|h] s']; done.
Qed.

Lemma keeps_for_up {R L} n start (l : L) (body : Z -> L -> M S R (bool * L)) :
  (forall i l, keeps P (body i l)) -> keeps P (for_up n start l body).
Proof.
  intros Hb. revert start l. induction n as [|n IH]; intros start l; simpl.
  - apply keeps_ret.
  - apply keeps_bind; [apply Hb|]. intros [[] l']; [apply keeps_ret|apply IH].
Qed.
End Keeps.

#[export] Hint Resolve keeps_ret keeps_early keeps_stop keeps_get keeps_need
  keeps_bind keeps_call keeps_for_up : keeps.

(** Decompose a computation down to its state changes. *)
Ltac keeps_tac :=
  repeat first
    [ progress intros
    | solve [auto with keeps typeclass_instances]
    | match goal with
      | |- keeps _ (mbind _ _) => apply keeps_bind
      | |- keeps _ (call _) => apply keeps_call
      | |- keeps _ (for_up _ _ _ _) => apply keeps_for_up
      | |- keeps _ (modify _) => apply keeps_modify
      | |- keeps _ (let '(_, _) := ?p in _) => destruct p
      | |- keeps _ (if ?b then _ else _) => destruct b
      | |- keeps _ (match ?x with _ => _ end) => destruct x
      end ].

(** * The values a body leaves early with *)

Definition exits {S R A} (P : R -> Prop) (m : M S R A) : Prop :=
  forall s r s', m s = (Return r, s') -> P r.

Section Exits.
Context {S R : Type} (P : R -> Prop).

Lemma exits_ret {A} (a : A) : exits P (mret a : M S R A).
Proof. by intros s r s'. Qed.
Lemma exits_early {A} r : P r -> exits P (early r : M S R A).
Proof. by intros H s r' s' [= <- _]. Qed.
Lemma exits_stop {A} h : exits P (stop h : M S R A).
Proof. by intros s r s'. Qed.
Lemma exits_get : exits P (get : M S R S).
Proof. by intros s r s'. Qed.
Lemma exits_modify f : exits P (modify f : M S R unit).
Proof. by intros s r s'. Qed.
Lemma exits_need {A} h (o : option A) : exits P (need h o : M S R A).
Proof. intros s r s'. by destruct o. Qed.
Lemma exits_call {R'} (m : M S R' R') : exits P (call m : M S R R').
Proof. intros s r s'. unfold call. by destruct (m s) as [[]]. Qed.
Lemma exits_bind {A B} (m : M S R A) (k : A -> M S R B) :
  exits P m -> (forall a, exits P (k a)) -> exits P (m ≫= k).
Proof.
  intros Hm Hk s r s'. unfold mbind, M_MBind, M_bind.
  destruct (m s) as [[a|q|h] s1] eqn:E; [apply Hk| |done].
  intros [= <- <-]. by eapply Hm.
Qed.
End Exits.

Create HintDb exits discriminated.
#[export] Hint Resolve exits_ret exits_stop exits_get exits_modify exits_need
  exits_call : exits.

Ltac exits_tac :=
  repeat first
    [ progress intros
    | solve [auto with exits]
    | match goal with
      | |- exits _ (mbind _ _) => apply exits_bind
      | |- exits _ (early _) => apply exits_early
      | |- exits _ (let '(_, _) := ?p in _) => destruct p
      | |- exits _ (if ?b then _ else _) => destruct b
      | |- exits _ (match ?x with _ => _ end) => destruct x
      end ].

(** A run ends where the body ends, or with a value it leaves early with. *)
Lemma run_inv {S R} (P : R -> Prop) (m : M S R R) s r s' :
  exits P m -> run m s = (Go r, s') -> ~ P r -> m s = (Go r, s').
Proof.
  intros He Hr HP. unfold run, call in Hr.
  destruct (m s) as [[a|q|h] s1] eqn:E; simplify_eq; [done|].
  by apply He in E.
Qed.

(** * The values a body ends with *)

Definition yields {S R A} (Q : A -> Prop) (m : M S R A) : Prop :=
  forall s a s', m s = (Go a, s') -> Q a.

Section Yields.
Context {S R : Type}.

Lemma yields_ret {A} (Q : A -> Prop) (a : A) : Q a -> yields Q (mret a : M S R A).
Proof. by intros H s a' s' [= <- _]. Qed.
Lemma yields_stop {A} (Q : A -> Prop) h : yields Q (stop h : M S R A).
Proof. by intros s a s'. Qed.
Lemma yields_need {A} (Q : A -> Prop) h (o : option A) :
  (forall a, o = Some a -> Q a) -> yields Q (need h o : M S R A).
Proof. intros H s a s'. destruct o; [|done]. intros [= <- _]. by apply H. Qed.
Lemma yields_bind {A B} (P : A -> Prop) (Q : B -> Prop) (m : M S R A) (k : A -> M S R B) :
  yields P m -> (forall a, P a -> yields Q (k a)) -> yields Q (m ≫= k).
Proof.
  intros Hm Hk s b s'. unfold mbind, M_MBind, M_bind.
  destruct (m s) as [[a|q|h] s1] eqn:E; [|done..]. apply Hk. by eapply Hm.
Qed.
Lemma yields_skip {A B} (Q : B -> Prop) (m : M S R A) (k : A -> M S R B) :
  (forall a, yields Q (k a)) -> yields Q (m ≫= k).
Proof. intros Hk. by apply (yields_bind (fun _ => True)). Qed.
Lemma yields_for_up {L} (I : L -> Prop) (body : Z -> L -> M S R (bool * L)) n : forall start l,
  I l -> (forall i l, start <= i -> I l -> yields (fun r => I r.2) (body i l)) ->
  yields I (for_up n start l body).
Proof.
  induction n as [|n IH]; intros start l Hl Hb; cbn [for_up]; [by apply yields_ret|].
  eapply yields_bind; [by apply Hb|]. intros [[] l'] Hl'; [by apply yields_ret|].
  apply IH; [done|]. intros i l0 Hi. apply Hb. lia.
Qed.
End Yields.

(** * Total correctness

    [wp m E Q s]: from [s] the body does not stop the machine; it ends in a
    state with [Q], or leaves early with [E]. *)

Definition wp {S R A} (m : M S R A) (E : R -> S -> Prop) (Q : A -> S -> Prop) (s : S) : Prop :=
  match m s with
  | (Go a, s') => Q a s'
  | (Return r, s') => E r s'
  | (Halt _, _) => False
  end.

Section Wp.
Context {S R : Type}.
Implicit Types (E : R -> S -> Prop) (s : S).

Lemma wp_ret {A} (a : A) E (Q : A -> S -> Prop) s : Q a s -> wp (mret a) E Q s.
Proof. done. Qed.
Lemma wp_early {A} r E (Q : A -> S -> Prop) s : E r s -> wp (early r) E Q s.
Proof. done. Qed.
Lemma wp_get E (Q : S -> S -> Prop) s : Q s s -> wp get E Q s.
Proof. done. Qed.
Lemma wp_modify f E (Q : unit -> S -> Prop) s : Q tt (f s) -> wp (modify f) E Q s.
Proof. done. Qed.
Lemma wp_need {A} h (o : option A) E (Q : A -> S -> Prop) s a :
  o = Some a -> Q a s -> wp (need h o) E Q s.
Proof. by intros ->. Qed.

Lemma wp_bind {A B} (m : M S R A) (k : A -> M S R B) E (Q : B -> S -> Prop) s :
  wp m E (fun a => wp (k a) E Q) s -> wp (m ≫= k) E Q s.
Proof.
  unfold wp, mbind, M_MBind, M_bind. by destruct (m s) as [[a|r|h] s'].
Qed.

Lemma wp_mono {A} (m : M S R A) E E' (Q Q' : A -> S -> Prop) s :
  wp m E Q s -> (forall r s', E r s' -> E' r s') -> (forall a s', Q a s' -> Q' a s') ->
  wp m E' Q' s.
Proof. unfold wp. destruct (m s) as [[a|r|h] s']; auto. Qed.

Lemma wp_call {R'} (m : M S R' R') E (Q : R' -> S -> Prop) s :
  wp m Q Q s -> wp (call m) E Q s.
Proof. unfold wp, call. by destruct (m s) as [[a|r|h] s']. Qed.

(** A counted loop keeps an invariant on its locals and the state. *)
Lemma wp_for_up {L} n start (l : L) (body : Z -> L -> M S R (bool * L)) E
    (I : Z -> L -> S -> Prop) (Q : L -> S -> Prop) s :
  I start l s ->
  (forall i l s, start <= i < start + Z.of_nat n -> I i l s ->
    wp (body i l) E (fun r s' => if (r.1 : bool) then Q r.2 s' else I (i + 1) r.2 s') s) ->
  (forall l s, I (start + Z.of_nat n) l s -> Q l s) ->
  wp (for_up n start l body) E Q s.
Proof.
  revert start l s. induction n as [|n IH]; intros start l s HI Hb HQ; cbn [for_up].
  - apply wp_ret, HQ. by rewrite Z.add_0_r.
  - apply wp_bind. eapply wp_mono; [apply Hb; [lia|exact HI]|done|].
    intros [[] l'] s' H; [by apply wp_ret|]. simpl in *. apply IH; [done| |].
    + intros i l0 s0 Hi. apply Hb. lia.
    + intros l0 s0 H0. apply HQ. by replace (start + Z.of_nat (Datatypes.S n))
        with (start + 1 + Z.of_nat n) by lia.
Qed.

(** What a body keeps can be added to what it reaches. *)
Lemma wp_keeps {A} (P : S -> S -> Prop) (m : M S R A) E (Q : A -> S -> Prop) s :
  keeps P m -> wp m E Q s ->
  wp m (fun r s' => E r s' /\ P s s') (fun a s' => Q a s' /\ P s s') s.
Proof.
  intros Hk. specialize (Hk s). unfold wp. destruct (m s) as [[a|r|h] s']; simpl in *; tauto.
Qed.
End Wp.

Lemma wp_call_mono {S R R'} (m : M S R' R') (E : R -> S -> Prop) (P Q : R' -> S -> Prop) s :
  wp m P P s -> (forall r s', P r s' -> Q r s') -> wp (call m) E Q s.
Proof. intros H HPQ. apply wp_call. by eapply wp_mono. Qed.

Lemma wp_run {S R} (m : M S R R) (Q : R -> S -> Prop) s :
  wp m Q Q s <-> exists r s', run m s = (Go r, s') /\ Q r s'.
Proof.
  unfold wp, run, call. destruct (m s) as [[a|r|h] s']; naive_solver.
Qed.

Lemma wp_go {S R A} (m : M S R A) E (Q : A -> S -> Prop) s a s' :
  m s = (Go a, s') -> Q a s' -> wp m E Q s.
Proof. unfold wp. by intros ->. Qed.

(** One statement of a body, forward. *)
Ltac wp_step :=
  lazymatch goal with
  | |- wp (mbind _ _) _ _ _ => apply wp_bind
  | |- wp (mret _) _ _ _ => apply wp_ret
  | |- wp (early _) _ _ _ => apply wp_early
  | |- wp get _ _ _ => apply wp_get
  | |- wp (modify _) _ _ _ => apply wp_modify
  | |- wp (call _) _ _ _ => apply wp_call
  | |- wp (let '(_, _) := ?p in _) _ _ _ => destruct p eqn:?
  | |- wp (if ?b then _ else _) _ _ _ => destruct b eqn:?
  end; cbn beta.

(** How a body ends, a stop of the machine included. *)
Definition ends {S R A} (m : M S R A) (P : ctl R A -> S -> Prop) (s : S) : Prop :=
  let '(c, s') := m s in P c s'.

Lemma ends_bind {S R A B} (m : M S R A) (k : A -> M S R B) (P : ctl R B -> S -> Prop) s :
  wp m (fun r => P (Return r)) (fun a => ends (k a) P) s -> ends (m ≫= k) P s.
Proof.
  unfold wp, ends, mbind, M_MBind, M_bind. by destruct (m s) as [[a|r|h] s'].
Qed.

Lemma ends_wp {S R A} (m : M S R A) (P : ctl R A -> S -> Prop) s :
  wp m (fun r => P (Return r)) (fun a => P (Go a)) s -> ends m P s.
Proof. unfold wp, ends. by destruct (m s) as [[a|r|h] s']. Qed.

Lemma ends_bind_ends {S R A B} (m : M S R A) (k : A -> M S R B)
    (P : ctl R B -> S -> Prop) s :
  ends m (fun c s' => match c with
                      | Go a => ends (k a) P s'
                      | Return r => P (Return r) s'
                      | Halt h => P (Halt h) s'
                      end) s -> ends (m ≫= k) P s.
Proof. unfold ends, mbind, M_MBind, M_bind. by destruct (m s) as [[a|r|h] s']. Qed.

Lemma ends_call {S R R'} (m : M S R' R') (P : ctl R R' -> S -> Prop) s :
  ends m (fun c s' => match c with
                      | Go r | Return r => P (Go r) s'
                      | Halt h => P (Halt h) s'
                      end) s -> ends (call m) P s.
Proof. unfold ends, call. by destruct (m s) as [[a|r|h] s']. Qed.

(** A statement that changes nothing, whether it stops or not. *)
Lemma ends_pure {S R A B} (m : M S R A) (k : A -> M S R B) (P : ctl R B -> S -> Prop) s :
  keeps eq m -> (forall r, P (Return r) s) -> (forall h, P (Halt h) s) ->
  (forall a, ends (k a) P s) -> ends (m ≫= k) P s.
Proof.
  intros Hm Hr Hh Hk. apply ends_bind_ends. unfold ends. specialize (Hm s).
  destruct (m s) as [[a|r|h] s']; simpl in Hm; subst s'; auto. apply Hk.
Qed.

(** A statement of which only the frame is known. *)
Lemma ends_frame {S R A B} (P : S -> S -> Prop) (m : M S R A) (k : A -> M S R B)
    (Q : ctl R B -> S -> Prop) s :
  keeps P m -> (forall r s', P s s' -> Q (Return r) s') -> (forall h s', P s s' -> Q (Halt h) s') ->
  (forall a s', P s s' -> ends (k a) Q s') -> ends (m ≫= k) Q s.
Proof.
  intros Hm Hr Hh Hk. apply ends_bind_ends. unfold ends. specialize (Hm s).
  destruct (m s) as [[a|r|h] s']; simpl in Hm; auto. by apply Hk.
Qed.

Lemma ends_mono {S R A} (m : M S R A) (P Q : ctl R A -> S -> Prop) s :
  ends m P s -> (forall c s', P c s' -> Q c s') -> ends m Q s.
Proof. unfold ends. destruct (m s). auto. Qed.

Lemma ends_eq {S R A} (m : M S R A) (P : ctl R A -> S -> Prop) s c s' :
  m s = (c, s') -> P c s' -> ends m P s.
Proof. unfold ends. by intros ->. Qed.

(** Run the next statement by an equation for it. *)
Ltac wp_exec H := eapply wp_go; [apply H|]; cbn beta iota.

(** Symbolic execution of a body on a concrete state. *)
Lemma bind_go {S R A B} (m : M S R A) (k : A -> M S R B) s a s' :
  m s = (Go a, s') -> (m ≫= k) s = k a s'.
Proof. intros H. unfold mbind, M_MBind, M_bind. by rewrite H. Qed.

Lemma bind_ret {S R A B} (m : M S R A) (k : A -> M S R B) s r s' :
  m s = (Return r, s') -> (m ≫= k) s = (Return r, s').
Proof. intros H. unfold mbind, M_MBind, M_bind. by rewrite H. Qed.

Lemma bind_halt {S R A B} (m : M S R A) (k : A -> M S R B) s h s' :
  m s = (Halt h, s') -> (m ≫= k) s = (Halt h, s').
Proof. intros H. unfold mbind, M_MBind, M_bind. by rewrite H. Qed.

Lemma bind_inv_go {S R A B} (m : M S R A) (k : A -> M S R B) s b s' :
  (m ≫= k) s = (Go b, s') -> exists a s1, m s = (Go a, s1) /\ k a s1 = (Go b, s').
Proof.
  unfold mbind, M_MBind, M_bind. destruct (m s) as [[a|r|h] s1]; naive_solver.
Qed.

Lemma bind_inv_ret {S R A B} (m : M S R A) (k : A -> M S R B) s r s' :
  (m ≫= k) s = (Return r, s') ->
  m s = (Return r, s') \/ exists a s1, m s = (Go a, s1) /\ k a s1 = (Return r, s').
Proof.
  unfold mbind, M_MBind, M_bind. destruct (m s) as [[a|q|h] s1]; naive_solver.
Qed.

Ltac munfold :=
  unfold need, mbind, M_MBind, M_bind, mret, M_MRet, M_ret, early, stop, get,
    modify in *; cbn beta iota in *.

(** * Byte buffers

    A memory object is a list of byte values; an access names its offset and
    fails when it leaves the object. *)

Definition buf_read (b : list Z) (off n : Z) : option (list Z) :=
  if (0 <=? off) && (0 <=? n) && (off + n <=? Z.of_nat (length b))
  then Some (take (Z.to_nat n) (drop (Z.to_nat off) b))
  else None.

Definition buf_write (b : list Z) (off : Z) (d : list Z) : option (list Z) :=
  if (0 <=? off) && (off + Z.of_nat (length d) <=? Z.of_nat (length b))
  then Some (take (Z.to_nat off) b ++ d ++ drop (Z.to_nat off + length d) b)
  else None.

(** Little-endian loads and stores. *)
Fixpoint le_get (l : list Z) : Z :=
  match l with
  | [] => 0
  | b :: l' => Z.lor b (Z.shiftl (le_get l') 8)
  end.

Fixpoint le_put (n : nat) (v : Z) : list Z :=
  match n with
  | O => []
  | S n' => Z.land v 255 :: le_put n' (Z.shiftr v 8)
  end.

Lemma lor_shiftl_add b h : is_u8 b -> Z.lor b (Z.shiftl h 8) = b + 256 * h.
Proof.
  intros Hb. rewrite Z.shiftl_mul_pow2 by lia. change (2 ^ 8) with 256.
  pose proof (Z.add_lor_land b (h * 256)).
  enough (Z.land b (h * 256) = 0) by lia.
  apply Z.bits_inj'. intros n Hn. rewrite Z.land_spec, Z.bits_0.
  destruct (decide (n < 8)).
  - change 256 with (2 ^ 8). rewrite Z.mul_pow2_bits_low by lia. apply andb_false_r.
  - rewrite (Z.bits_above_log2 b); [done|unfold is_u8 in Hb; lia|].
    destruct (decide (b = 0)) as [->|]; [simpl; lia|].
    assert (Z.log2 b < 8); [|lia]. apply Z.log2_lt_pow2; unfold is_u8 in Hb; lia.
Qed.

Lemma land_255 v : Z.land v 255 = v mod 256.
Proof. change 255 with (Z.ones 8). by rewrite Z.land_ones. Qed.

Lemma land_255_u8 v : is_u8 (Z.land v 255).
Proof. rewrite land_255. apply Z.mod_pos_bound. lia. Qed.

Lemma length_le_put n v : length (le_put n v) = n.
Proof. revert v. induction n; intros v; simpl; auto. Qed.

Lemma le_put_u8 n v : Forall is_u8 (le_put n v).
Proof. revert v. induction n; intros v; simpl; constructor; auto using land_255_u8. Qed.

Lemma le_get_put n v : le_get (le_put n v) = v mod 2 ^ (8 * Z.of_nat n).
Proof.
  revert v. induction n as [|n IH]; intros v.
  - simpl. by rewrite Z.mod_1_r.
  - cbn [le_put le_get]. rewrite lor_shiftl_add, IH by apply land_255_u8.
    rewrite land_255, Z.shiftr_div_pow2 by lia. change (2 ^ 8) with 256.
    replace (8 * Z.of_nat (S n)) with (8 + 8 * Z.of_nat n) by lia.
    rewrite Z.pow_add_r by lia. change (2 ^ 8) with 256.
    rewrite Z.rem_mul_r; [lia|lia|]. apply Z.pow_pos_nonneg; lia.
Qed.

Lemma le_get_bound l : Forall is_u8 l -> 0 <= le_get l < 2 ^ (8 * Z.of_nat (length l)).
Proof.
  induction 1 as [|b l Hb Hl IH]; [simpl; lia|].
  cbn [le_get length]. rewrite lor_shiftl_add by done.
  replace (8 * Z.of_nat (S (length l))) with (8 + 8 * Z.of_nat (length l)) by lia.
  rewrite Z.pow_add_r by lia. change (2 ^ 8) with 256. unfold is_u8 in Hb. lia.
Qed.

Lemma le_put_get l : Forall is_u8 l -> le_put (length l) (le_get l) = l.
Proof.
  induction 1 as [|b l Hb Hl IH]; [done|].
  cbn [le_get le_put length]. rewrite lor_shiftl_add by done. unfold is_u8 in Hb. f_equal.
  - rewrite land_255, (Z.mul_comm 256), Z.mod_add by lia. apply Z.mod_small. lia.
  - rewrite Z.shiftr_div_pow2 by lia. change (2 ^ 8) with 256.
    rewrite (Z.mul_comm 256), Z.div_add, Z.div_small by lia. done.
Qed.

Lemma le_get_put_small n v : 0 <= v < 2 ^ (8 * Z.of_nat n) -> le_get (le_put n v) = v.
Proof. intros Hv. rewrite le_get_put. by apply Z.mod_small. Qed.

Lemma buf_read_Some b off n d :
  buf_read b off n = Some d <->
  0 <= off /\ 0 <= n /\ off + n <= Z.of_nat (length b) /\
  d = take (Z.to_nat n) (drop (Z.to_nat off) b).
Proof.
  unfold buf_read. case_match eqn:E.
  - bools. naive_solver.
  - split; [done|]. intros (?&?&?&_). exfalso.
    rewrite !andb_false_iff, !Z.leb_gt in E. lia.
Qed.

Lemma buf_write_Some b off d b' :
  buf_write b off d = Some b' <->
  0 <= off /\ off + Z.of_nat (length d) <= Z.of_nat (length b) /\
  b' = take (Z.to_nat off) b ++ d ++ drop (Z.to_nat off + length d) b.
Proof.
  unfold buf_write. case_match eqn:E.
  - bools. naive_solver.
  - split; [done|]. intros (?&?&_). exfalso.
    rewrite !andb_false_iff, !Z.leb_gt in E. lia.
Qed.

Lemma buf_read_in_range b off n :
  0 <= off -> 0 <= n -> off + n <= Z.of_nat (length b) ->
  exists d, buf_read b off n = Some d /\ Z.of_nat (length d) = n.
Proof.
  intros. eexists. split; [by apply buf_read_Some|].
  rewrite length_take, length_drop. lia.
Qed.

Lemma buf_write_in_range b off d :
  0 <= off -> off + Z.of_nat (length d) <= Z.of_nat (length b) ->
  is_Some (buf_write b off d).
Proof. intros. eexists. by apply buf_write_Some. Qed.

Lemma buf_write_nil b off : 0 <= off <= Z.of_nat (length b) -> buf_write b off [] = Some b.
Proof.
  intros. apply buf_write_Some. split; [lia|]. split; [simpl; lia|].
  cbn [length app]. by rewrite Nat.add_0_r, take_drop.
Qed.

Lemma length_buf_write b off d b' :
  buf_write b off d = Some b' -> length b' = length b.
Proof.
  intros (?&?&->)%buf_write_Some.
  rewrite !length_app, length_take, length_drop. lia.
Qed.

Lemma length_buf_read b off n d :
  buf_read b off n = Some d -> Z.of_nat (length d) = n.
Proof.
  intros (?&?&?&->)%buf_read_Some. rewrite length_take, length_drop. lia.
Qed.

(** Reading back what was written. *)
Lemma buf_read_write_same b off d b' :
  buf_write b off d = Some b' -> buf_read b' off (Z.of_nat (length d)) = Some d.
Proof.
  intros Hw. pose proof (length_buf_write _ _ _ _ Hw) as Hl.
  apply buf_write_Some in Hw as (?&?&->). apply buf_read_Some.
  repeat split; [lia|lia|rewrite Hl; lia|].
  rewrite drop_app_length' by (rewrite length_take; lia).
  by rewrite Nat2Z.id, take_app_length.
Qed.

(** A write leaves the ranges it does not meet as they were. *)
Lemma buf_read_write_other b off d b' o n :
  buf_write b off d = Some b' ->
  o + n <= off \/ off + Z.of_nat (length d) <= o ->
  buf_read b' o n = buf_read b o n.
Proof.
  intros Hw Ho. pose proof (length_buf_write _ _ _ _ Hw) as Hl.
  unfold buf_read. rewrite Hl.
  case_match eqn:E; [|done]. bools.
  apply buf_write_Some in Hw as (?&?&->). f_equal.
  apply list_eq. intros i.
  destruct (decide (i < Z.to_nat n)%nat); [|rewrite !lookup_take_ge by lia; done].
  rewrite !lookup_take_lt, !lookup_drop by lia. destruct Ho.
  - rewrite lookup_app_l by (rewrite length_take; lia).
    by rewrite lookup_take_lt by lia.
  - rewrite lookup_app_r by (rewrite length_take; lia).
    rewrite lookup_app_r by (rewrite length_take; lia).
    rewrite lookup_drop, length_take. f_equal. lia.
Qed.

Lemma buf_read_u8 b off n d : Forall is_u8 b -> buf_read b off n = Some d -> Forall is_u8 d.
Proof. intros Hb (_ & _ & _ & ->)%buf_read_Some. by apply Forall_take, Forall_drop. Qed.

Lemma buf_write_u8 b off d b' :
  Forall is_u8 b -> Forall is_u8 d -> buf_write b off d = Some b' -> Forall is_u8 b'.
Proof.
  intros Hb Hd (?&?&->)%buf_write_Some.
  apply Forall_app. split; [by apply Forall_take|].
  apply Forall_app. split; [done|by apply Forall_drop].
Qed.

(** Writing back what is there changes nothing. *)
Lemma buf_write_read_same b off n d :
  buf_read b off n = Some d -> buf_write b off d = Some b.
Proof.
  intros Hr. pose proof (length_buf_read _ _ _ _ Hr) as Hl.
  apply buf_read_Some in Hr as (?&?&?&->). apply buf_write_Some.
  split; [done|]. split; [lia|].
  rewrite length_take, length_drop.
  replace (Z.to_nat n `min` (length b - Z.to_nat off))%nat with (Z.to_nat n) by lia.
  rewrite <- drop_drop, take_drop. by rewrite take_drop.
Qed.

(** The last of two writes to one range wins. *)
Lemma buf_write_write b off d1 d2 b1 b2 :
  length d1 = length d2 ->
  buf_write b off d1 = Some b1 -> buf_write b1 off d2 = Some b2 ->
  buf_write b off d2 = Some b2.
Proof.
  intros Hd H1 H2. pose proof (length_buf_write _ _ _ _ H1) as Hl.
  apply buf_write_Some in H1 as (?&?&E1). apply buf_write_Some in H2 as (?&?&->).
  apply buf_write_Some. split; [done|]. split; [lia|]. subst b1.
  rewrite take_app_length' by (rewrite length_take; lia).
  rewrite <- (drop_drop _ _ (Z.to_nat off)).
  rewrite (drop_app_length' _ _ (Z.to_nat off)) by (rewrite length_take; lia).
  rewrite <- Hd, drop_app_length. done.
Qed.

(** Two adjacent writes are one write. *)
Lemma buf_write_app b off d1 d2 b1 b2 :
  buf_write b off d1 = Some b1 ->
  buf_write b1 (off + Z.of_nat (length d1)) d2 = Some b2 ->
  buf_write b off (d1 ++ d2) = Some b2.
Proof.
  intros H1 H2. pose proof (length_buf_write _ _ _ _ H1) as Hl.
  apply buf_write_Some in H1 as (?&?&E1). apply buf_write_Some in H2 as (?&?&->).
  apply buf_write_Some. split; [done|]. split; [rewrite length_app; lia|]. subst b1.
  rewrite Z2Nat.inj_add, Nat2Z.id by lia.
  rewrite (app_assoc (take (Z.to_nat off) b) d1 (drop _ b)).
  assert (Hn : length (take (Z.to_nat off) b ++ d1) = (Z.to_nat off + length d1)%nat)
    by (rewrite length_app, length_take; lia).
  rewrite take_app_length' by done. rewrite drop_app_ge by lia.
  rewrite drop_drop, Hn, length_app, <- !app_assoc. do 4 f_equal. lia.
Qed.

(** Reading a block, replacing its start and writing it back changes only that
    start. *)
Lemma buf_write_sub b off n old d new b' :
  buf_read b off n = Some old -> buf_write old 0 d = Some new ->
  buf_write b off new = Some b' -> buf_write b off d = Some b'.
Proof.
  intros Hr Hd Hw. pose proof (length_buf_read _ _ _ _ Hr) as Hn.
  pose proof (length_buf_write _ _ _ _ Hd) as Hl.
  apply buf_read_Some in Hr as (?&?&?&Eo). apply buf_write_Some in Hd as (_&?&->).
  apply buf_write_Some in Hw as (?&?&->). apply buf_write_Some.
  split; [done|]. split; [lia|]. rewrite Hl. simpl.
  replace (length old) with (Z.to_nat n) by lia.
  rewrite <- app_assoc. do 2 f_equal. subst old.
  rewrite <- !drop_drop. rewrite drop_take_drop; [done|lia].
Qed.

(** Reading inside of what was read. *)
Lemma buf_read_read b off n d o k :
  buf_read b off n = Some d -> 0 <= o -> 0 <= k -> o + k <= n ->
  buf_read d o k = buf_read b (off + o) k.
Proof.
  intros Hr Ho Hk Hn. pose proof (length_buf_read _ _ _ _ Hr) as Hl.
  apply buf_read_Some in Hr as (?&?&?&->).
  destruct (buf_read_in_range b (off + o) k) as (e & He & _); [lia..|]. rewrite He.
  apply buf_read_Some in He as (_&_&_&->). apply buf_read_Some. split_and!; [lia..|].
  rewrite Z2Nat.inj_add, <- drop_drop by lia.
  rewrite skipn_firstn_comm, take_take. f_equal. lia.
Qed.

(** Two adjacent reads are one read. *)
Lemma buf_read_app b off n1 n2 d1 d2 :
  buf_read b off n1 = Some d1 -> buf_read b (off + n1) n2 = Some d2 ->
  buf_read b off (n1 + n2) = Some (d1 ++ d2).
Proof.
  intros (?&?&?&->)%buf_read_Some (?&?&?&->)%buf_read_Some. apply buf_read_Some.
  repeat split; [lia..|].
  rewrite !Z2Nat.inj_add by lia. rewrite <- drop_drop.
  by rewrite take_take_drop.
Qed.

Create HintDb abl discriminated.
#[export] Hint Resolve u32_range u64_range land_255_u8 le_put_u8 : abl.
