(* ===== verification/EfiBase.v ===== *)
(** The base types and library routines every component uses: EFI status
    codes ([MdePkg/Include/Base.h]), the status guards of
    [Include/Library/VerifiedBoot.h], and the string routines of
    [MdePkg/Library/BaseLib] ([String.c], [SafeString.c]) that the loader
    calls on partition names, slot suffixes and device names.

    A C string is the list of its characters; the end of the list reads as the
    terminator, so an array with no terminator inside its bounds behaves as if
    one followed it. *)
From Stdlib Require Import ZArith Lia.
From Stdlib Require Ascii String.
Export Stdlib.Strings.String.StringSyntax.
From stdpp Require Import base list numbers option.
From S2P Require Import Prelude.

(** * Status codes *)

Abbreviation EFI_STATUS := Z (only parsing).

Definition ENCODE_ERROR (StatusCode : Z) : Z := Z.lor (2 ^ 63) StatusCode.
Definition EFI_SUCCESS : EFI_STATUS := 0.
Definition EFI_LOAD_ERROR : EFI_STATUS := Eval cbv in ENCODE_ERROR 1.
Definition EFI_INVALID_PARAMETER : EFI_STATUS := Eval cbv in ENCODE_ERROR 2.
Definition EFI_UNSUPPORTED : EFI_STATUS := Eval cbv in ENCODE_ERROR 3.
Definition EFI_BAD_BUFFER_SIZE : EFI_STATUS := Eval cbv in ENCODE_ERROR 4.
Definition EFI_BUFFER_TOO_SMALL : EFI_STATUS := Eval cbv in ENCODE_ERROR 5.
Definition EFI_DEVICE_ERROR : EFI_STATUS := Eval cbv in ENCODE_ERROR 7.
Definition EFI_OUT_OF_RESOURCES : EFI_STATUS := Eval cbv in ENCODE_ERROR 9.
Definition EFI_VOLUME_CORRUPTED : EFI_STATUS := Eval cbv in ENCODE_ERROR 10.
Definition EFI_VOLUME_FULL : EFI_STATUS := Eval cbv in ENCODE_ERROR 11.
Definition EFI_NO_MEDIA : EFI_STATUS := Eval cbv in ENCODE_ERROR 12.
Definition EFI_NOT_FOUND : EFI_STATUS := Eval cbv in ENCODE_ERROR 14.
Definition EFI_ACCESS_DENIED : EFI_STATUS := Eval cbv in ENCODE_ERROR 15.
Definition EFI_NOT_STARTED : EFI_STATUS := Eval cbv in ENCODE_ERROR 19.

(** [((INTN)(A)) < 0]: the top bit of the code; a warning is not an error. *)
Definition EFI_ERROR (A : EFI_STATUS) : bool := Z.testbit A 63.

Lemma EFI_ERROR_not_success A : EFI_ERROR A = true -> A <> EFI_SUCCESS.
Proof. intros H ->. discriminate. Qed.

(** The [GUARD] macro: leave the function with the status unless it is
    [EFI_SUCCESS]. *)
Definition GUARD {S} (code : M S EFI_STATUS EFI_STATUS) : M S EFI_STATUS unit :=
  Status ← call code;
  if Status =? EFI_SUCCESS then mret tt else early Status.

(** * Integer helpers of the loader headers *)

Definition BOOT_IMG_MAX_PAGE_SIZE : Z := 4096.
Definition CHECK_ADD64 (a b : Z) : bool := MAX_UINT64 - b <? a.
Definition ADD_OF (a b : Z) : Z := if MAX_UINT32 - b >? a then a + b else 0.
Definition ROUND_TO_PAGE (x y : Z) : Z := Z.land (ADD_OF x y) (Z.lnot y).

Lemma CHECK_ADD64_false a b : CHECK_ADD64 a b = false <-> a + b <= MAX_UINT64.
Proof. unfold CHECK_ADD64. rewrite Z.ltb_ge. lia. Qed.

(** For a power-of-two page the macro rounds up to a multiple of it. *)
Lemma ROUND_TO_PAGE_pow2 x k :
  0 <= k -> 0 <= x -> x + (2 ^ k - 1) < MAX_UINT32 ->
  ROUND_TO_PAGE x (2 ^ k - 1) = (x + (2 ^ k - 1)) / 2 ^ k * 2 ^ k.
Proof.
  intros Hk Hx Hlt. unfold ROUND_TO_PAGE, ADD_OF.
  replace (MAX_UINT32 - (2 ^ k - 1) >? x) with true by (symmetry; apply Z.gtb_lt; lia).
  rewrite <- Z.ldiff_land. replace (2 ^ k - 1) with (Z.ones k) at 2
    by (rewrite Z.ones_equiv; lia).
  rewrite Z.ldiff_ones_r, Z.shiftl_mul_pow2, Z.shiftr_div_pow2 by lia. done.
Qed.

(** * Strings *)

(** String literals, [L"..."] and ["..."] of the source. *)
Definition L (s : String.string) : list Z :=
  map (fun c => Z.of_N (Ascii.N_of_ascii c)) (String.list_ascii_of_string s).
#[global] Arguments L s%_string_scope.

Definition hd0 (s : list Z) : Z := match s with [] => 0 | c :: _ => c end.

(** The character [s[i]] of an array. *)
Definition char_at (s : list Z) (i : Z) : Z := default 0 (s !! Z.to_nat i).

(** The characters before the terminator. *)
Fixpoint cstr (s : list Z) : list Z :=
  match s with
  | [] => []
  | c :: s' => if c =? 0 then [] else c :: cstr s'
  end.

Definition StrLen (s : list Z) : Z := Z.of_nat (length (cstr s)).

Fixpoint StrCmp (FirstString SecondString : list Z) : Z :=
  match FirstString with
  | [] => 0 - hd0 SecondString
  | c :: First' =>
      if negb (c =? 0) && (c =? hd0 SecondString)
      then StrCmp First' (tl SecondString)
      else c - hd0 SecondString
  end.

Fixpoint StrnCmp_loop (First Second : list Z) (Length : nat) : Z :=
  match Length with
  | O => hd0 First - hd0 Second
  | S Length' =>
      if negb (hd0 First =? 0) && negb (hd0 Second =? 0) &&
         (hd0 First =? hd0 Second) && (1 <? Z.of_nat Length)
      then StrnCmp_loop (tl First) (tl Second) Length'
      else hd0 First - hd0 Second
  end.

Definition StrnCmp (First Second : list Z) (Length : Z) : Z :=
  if Length =? 0 then 0 else StrnCmp_loop First Second (Z.to_nat Length).

(** The inner loop of [StrStr]: how far [String] and [SearchStringTmp] run
    together. *)
Fixpoint StrStr_match (String SearchStringTmp : list Z) : list Z * list Z :=
  match String with
  | [] => ([], SearchStringTmp)
  | c :: String' =>
      if (c =? hd0 SearchStringTmp) && negb (c =? 0)
      then StrStr_match String' (tl SearchStringTmp)
      else (String, SearchStringTmp)
  end.

Fixpoint StrStr_loop (String SearchString : list Z) : option (list Z) :=
  match String with
  | [] => None
  | c :: FirstMatch' =>
      if c =? 0 then None
      else
        let '(String1, SearchStringTmp) := StrStr_match String SearchString in
        if hd0 SearchStringTmp =? 0 then Some String
        else if hd0 String1 =? 0 then None
        else StrStr_loop FirstMatch' SearchString
  end.

(** [StrStr] returns the tail of [String] that starts at the match. *)
Definition StrStr (String SearchString : list Z) : option (list Z) :=
  if hd0 SearchString =? 0 then Some String else StrStr_loop String SearchString.

Definition RSIZE_MAX : Z := 1000000.

Definition StrnLenS (s : list Z) (MaxSize : Z) : Z :=
  if MaxSize =? 0 then 0
  else if StrLen s <? MaxSize then StrLen s else MaxSize.

(** The copy loop of [StrnCpyS]/[StrnCatS] with the final terminator; a store
    past the end of the destination array stops the machine. *)
Definition copy_chars {S R} (Destination : list Z) (pos : Z) (Source : list Z)
    (SourceLen : Z) : M S R (list Z) :=
  need OutOfBounds
    (buf_write Destination pos (take (Z.to_nat SourceLen) (cstr Source) ++ [0])).

Definition StrnCpyS {S R} (Destination : list Z) (DestMax : Z) (Source : list Z)
    (Length : Z) : M S R (EFI_STATUS * list Z) :=
  if negb (DestMax <=? RSIZE_MAX) then mret (EFI_INVALID_PARAMETER, Destination)
  else if negb (Length <=? RSIZE_MAX) then mret (EFI_INVALID_PARAMETER, Destination)
  else if DestMax =? 0 then mret (EFI_INVALID_PARAMETER, Destination)
  else
    let SourceLen := StrnLenS Source (Z.min DestMax Length) in
    if (DestMax <=? Length) && negb (SourceLen <? DestMax)
    then mret (EFI_BUFFER_TOO_SMALL, Destination)
    else
      let SourceLen := if Length <? SourceLen then Length else SourceLen in
      d ← copy_chars Destination 0 Source SourceLen;
      mret (EFI_SUCCESS, d).

Definition StrnCatS {S R} (Destination : list Z) (DestMax : Z) (Source : list Z)
    (Length : Z) : M S R (EFI_STATUS * list Z) :=
  let DestLen := StrnLenS Destination DestMax in
  let CopyLen := DestMax - DestLen in
  if negb (DestMax <=? RSIZE_MAX) then mret (EFI_INVALID_PARAMETER, Destination)
  else if negb (Length <=? RSIZE_MAX) then mret (EFI_INVALID_PARAMETER, Destination)
  else if DestMax =? 0 then mret (EFI_INVALID_PARAMETER, Destination)
  else if CopyLen =? 0 then mret (EFI_BAD_BUFFER_SIZE, Destination)
  else
    let SourceLen := StrnLenS Source (Z.min CopyLen Length) in
    if (CopyLen <=? Length) && negb (SourceLen <? CopyLen)
    then mret (EFI_BUFFER_TOO_SMALL, Destination)
    else
      let SourceLen := if Length <? SourceLen then Length else SourceLen in
      d ← copy_chars Destination DestLen Source SourceLen;
      mret (EFI_SUCCESS, d).

(** The CHAR8 routines run the same loops on bytes. *)
Definition AsciiStrLen : list Z -> Z := StrLen.
Definition AsciiStrnCmp : list Z -> list Z -> Z -> Z := StrnCmp.
Definition AsciiStrStr : list Z -> list Z -> option (list Z) := StrStr.
Definition AsciiStrnCpyS {S R} := @StrnCpyS S R.
Definition AsciiStrnCatS {S R} := @StrnCatS S R.

(** [CompareMem] on two objects of the same size, as the test it is used for. *)
Definition MemDiffers {A} `{EqDecision A} (a b : A) : bool := bool_decide (a <> b).

(** * Facts about the string routines *)

Lemma cstr_nonzero s : Forall (fun c => c <> 0) (cstr s).
Proof.
  induction s as [|c s IH]; simpl; [constructor|].
  destruct (Z.eqb_spec c 0); constructor; auto.
Qed.

Lemma hd0_cstr s : hd0 (cstr s) = hd0 s.
Proof. destruct s as [|c s]; [done|]. simpl. by destruct (Z.eqb_spec c 0) as [->|]. Qed.

Lemma cstr_tl s : hd0 s <> 0 -> cstr s = hd0 s :: cstr (tl s).
Proof. destruct s as [|c s]; [done|]. simpl. by destruct (Z.eqb_spec c 0). Qed.

Lemma cstr_hd0_0 s : hd0 s = 0 -> cstr s = [].
Proof. destruct s as [|c s]; [done|]. simpl. by intros ->. Qed.

Lemma cstr_id s : Forall (fun c => c <> 0) s -> cstr s = s.
Proof. induction 1 as [|c s Hc Hs IH]; [done|]. simpl. by destruct (Z.eqb_spec c 0); [|rewrite IH]. Qed.

Lemma cstr_idem s : cstr (cstr s) = cstr s.
Proof. apply cstr_id, cstr_nonzero. Qed.

Lemma cstr_app_0 s r : Forall (fun c => c <> 0) s -> cstr (s ++ 0 :: r) = s.
Proof. induction 1 as [|c s Hc Hs IH]; [done|]. simpl. by destruct (Z.eqb_spec c 0); [|rewrite IH]. Qed.

Lemma StrnCmp_loop_eq0 n a b :
  StrnCmp_loop a b (S n) = 0 <-> take (S n) (cstr a) = take (S n) (cstr b).
Proof.
  revert a b. induction n as [|n IH]; intros a b.
  - cbn [StrnCmp_loop]. rewrite andb_false_r.
    destruct (decide (hd0 a = 0)) as [Ha|Ha], (decide (hd0 b = 0)) as [Hb|Hb];
      rewrite ?(cstr_hd0_0 a), ?(cstr_hd0_0 b), ?(cstr_tl a), ?(cstr_tl b) by done;
      simpl; split; intros E; try done; try lia; try (f_equal; lia); by simplify_eq; lia.
  - remember (S n) as m. cbn [StrnCmp_loop].
    replace (1 <? Z.of_nat (S m)) with true by (symmetry; apply Z.ltb_lt; lia).
    destruct (Z.eqb_spec (hd0 a) 0) as [Ha|Ha]; destruct (Z.eqb_spec (hd0 b) 0) as [Hb|Hb];
      cbn [negb andb];
      rewrite ?(cstr_hd0_0 a), ?(cstr_hd0_0 b), ?(cstr_tl a), ?(cstr_tl b) by done; simpl.
    + split; [done|lia].
    + split; [lia|done].
    + split; [lia|done].
    + destruct (Z.eqb_spec (hd0 a) (hd0 b)) as [E|E]; cbn [andb].
      * rewrite IH, E. split; [by intros ->|]. by intros [= ?].
      * split; [lia|]. intros [= ??]. done.
Qed.

(** [StrnCmp] tests equality of the first [n] characters of the strings. *)
Lemma StrnCmp_eq0 a b n :
  0 <= n ->
  StrnCmp a b n = 0 <-> take (Z.to_nat n) (cstr a) = take (Z.to_nat n) (cstr b).
Proof.
  intros Hn. unfold StrnCmp. destruct (Z.eqb_spec n 0) as [->|Hne]; [done|].
  destruct (Z.to_nat n) as [|m] eqn:E; [lia|]. apply StrnCmp_loop_eq0.
Qed.

Lemma StrCmp_eq0 a b : StrCmp a b = 0 <-> cstr a = cstr b.
Proof.
  revert b. induction a as [|c a IH]; intros b; simpl.
  - destruct (decide (hd0 b = 0)) as [Hb|Hb].
    + rewrite cstr_hd0_0 by done. split; [done|lia].
    + rewrite (cstr_tl b) by done. split; [lia|done].
  - destruct (Z.eqb_spec c 0) as [->|Hc]; simpl.
    + destruct (decide (hd0 b = 0)) as [Hb|Hb].
      * rewrite cstr_hd0_0 by done. split; [done|lia].
      * rewrite (cstr_tl b) by done. split; [lia|done].
    + destruct (Z.eqb_spec c (hd0 b)) as [E|E].
      * rewrite IH, (cstr_tl b), E by lia. split; [by intros ->|by intros [= ?]].
      * split; [lia|]. intros Heq. destruct (decide (hd0 b = 0)) as [Hb|Hb].
        { by rewrite (cstr_hd0_0 b) in Heq. }
        rewrite (cstr_tl b) in Heq by done. by injection Heq.
Qed.

(** Comparing with the length of the second string tests for a prefix. *)
Lemma StrnCmp_prefix a p :
  StrnCmp a p (StrLen p) = 0 <-> cstr p `prefix_of` cstr a.
Proof.
  rewrite StrnCmp_eq0 by (unfold StrLen; lia). unfold StrLen. rewrite Nat2Z.id.
  rewrite (firstn_all (cstr p)). split.
  - intros <-. exists (drop (length (cstr p)) (cstr a)). by rewrite take_drop.
  - intros [k ->]. by rewrite take_app_length.
Qed.

(** A copy that fits writes the string and its terminator. *)
Lemma StrnCpyS_exact {S R} (d : list Z) m (src : list Z) n (s : S) :
  0 < m <= RSIZE_MAX -> m <= Z.of_nat (length d) ->
  StrLen src <= n -> n <= RSIZE_MAX -> StrLen src < m ->
  exists d', @StrnCpyS S R d m src n s = (Go (EFI_SUCCESS, d'), s) /\
             buf_write d 0 (cstr src ++ [0]) = Some d'.
Proof.
  intros Hm Hd Hn Hr Hs. unfold StrnCpyS.
  assert (Hl : 0 <= StrLen src) by (unfold StrLen; lia).
  replace (m <=? RSIZE_MAX) with true by (symmetry; lia).
  replace (n <=? RSIZE_MAX) with true by (symmetry; lia).
  replace (m =? 0) with false by (symmetry; lia). cbn [negb].
  assert (Hsl : StrnLenS src (Z.min m n) = StrLen src).
  { unfold StrnLenS. destruct (Z.eqb_spec (Z.min m n) 0); [lia|].
    destruct (Z.ltb_spec (StrLen src) (Z.min m n)); lia. }
  rewrite Hsl. replace (StrLen src <? m) with true by (symmetry; lia).
  rewrite andb_false_r. replace (n <? StrLen src) with false by (symmetry; lia).
  unfold copy_chars. rewrite firstn_all2 by (unfold StrLen; lia).
  destruct (buf_write_in_range d 0 (cstr src ++ [0])) as [d' Hw]; [lia| |].
  { rewrite length_app. simpl. unfold StrLen in *. lia. }
  rewrite Hw. munfold. by exists d'.
Qed.

Lemma keeps_StrnCpyS {S R} (P : S -> S -> Prop) `{!PreOrder P} d m s n :
  keeps P (@StrnCpyS S R d m s n).
Proof. unfold StrnCpyS, copy_chars. keeps_tac. Qed.
Lemma keeps_StrnCatS {S R} (P : S -> S -> Prop) `{!PreOrder P} d m s n :
  keeps P (@StrnCatS S R d m s n).
Proof. unfold StrnCatS, copy_chars. keeps_tac. Qed.
Lemma keeps_GUARD {S} (P : S -> S -> Prop) `{!PreOrder P} (m : M S EFI_STATUS EFI_STATUS) :
  keeps P m -> keeps P (GUARD m).
Proof. intros. unfold GUARD. keeps_tac. Qed.
#[export] Hint Resolve keeps_StrnCpyS keeps_StrnCatS keeps_GUARD : keeps.

(** Neither routine leaves the destination when it is told its size, or when
    the number of characters to copy fits. *)
Section WpStrings.
Context {S R : Type}.

Lemma StrnLenS_le s n : 0 <= n -> 0 <= StrnLenS s n <= n.
Proof.
  intros Hn. unfold StrnLenS. destruct (Z.eqb_spec n 0); [lia|].
  destruct (Z.ltb_spec (StrLen s) n); [|lia]. unfold StrLen in *. lia.
Qed.

Lemma wp_copy_chars d pos src n (E : R -> S -> Prop) Q s :
  0 <= pos -> 0 <= n -> pos + n + 1 <= Z.of_nat (length d) ->
  (forall d', length d' = length d -> Q d' s) -> wp (copy_chars d pos src n) E Q s.
Proof.
  intros Hp Hn Hl HQ. unfold copy_chars.
  destruct (buf_write_in_range d pos (take (Z.to_nat n) (cstr src) ++ [0])) as [d' Hd].
  { done. } { rewrite length_app, length_take. simpl. lia. }
  eapply wp_need; [exact Hd|]. eauto using length_buf_write.
Qed.

Lemma wp_StrnCpyS d m src n (E : R -> S -> Prop) Q s :
  0 <= m -> 0 <= n -> m <= Z.of_nat (length d) \/ n < Z.of_nat (length d) ->
  (forall r, length r.2 = length d -> Q r s) -> wp (StrnCpyS d m src n) E Q s.
Proof.
  intros Hm Hn Hl HQ. unfold StrnCpyS. do 3 (wp_step; [by apply wp_ret, HQ|]).
  cbn zeta. bools. pose proof (StrnLenS_le src (Z.min m n)) as Hs. specialize (Hs ltac:(lia)).
  wp_step; [by apply wp_ret, HQ|]. wp_step.
  destruct (Z.ltb_spec n (StrnLenS src (Z.min m n))); [lia|].
  apply wp_copy_chars; [lia|lia| |].
  - apply andb_false_iff in Heqb2 as [Hc|Hc]; bools; lia.
  - intros d' Hd. apply wp_ret, HQ. done.
Qed.

Lemma wp_StrnCatS d m src n (E : R -> S -> Prop) Q s :
  0 <= m <= Z.of_nat (length d) -> 0 <= n ->
  (forall r, length r.2 = length d -> Q r s) -> wp (StrnCatS d m src n) E Q s.
Proof.
  intros Hm Hn HQ. unfold StrnCatS. cbn zeta. do 4 (wp_step; [by apply wp_ret, HQ|]).
  bools. pose proof (StrnLenS_le d m ltac:(lia)) as Hd.
  set (c := m - StrnLenS d m) in *.
  pose proof (StrnLenS_le src (Z.min c n) ltac:(lia)) as Hs.
  wp_step; [by apply wp_ret, HQ|]. wp_step.
  destruct (Z.ltb_spec n (StrnLenS src (Z.min c n))); [lia|].
  apply wp_copy_chars; [lia|lia| |].
  - apply andb_false_iff in Heqb3 as [Hc|Hc]; bools; lia.
  - intros d' Hl. apply wp_ret, HQ. done.
Qed.
End WpStrings.
