(* ===== verification/Convert.v ===== *)
(** Text and numbers: the conversions of [MdePkg/Library/BaseLib] that the
    commands of the host go through ([String.c], [SafeString.c]), and the
    formatted output of [MdePkg/Library/BasePrintLib] they are answered
    with. *)
From Stdlib Require Import ZArith Lia.
From stdpp Require Import base list numbers option.
From S2P Require Import Prelude EfiBase.

(** ** Digits *)

Definition InternalIsDecimalDigitCharacter (c : Z) : bool := (48 <=? c) && (c <=? 57).
Definition AsciiCharToUpper (c : Z) : Z := if (97 <=? c) && (c <=? 122) then c - 32 else c.
Definition InternalAsciiIsHexaDecimalDigitCharacter (c : Z) : bool :=
  InternalIsDecimalDigitCharacter c || ((65 <=? c) && (c <=? 70)) || ((97 <=? c) && (c <=? 102)).
Definition InternalAsciiHexCharToUintn (c : Z) : Z :=
  if InternalIsDecimalDigitCharacter c then c - 48 else 10 + AsciiCharToUpper c - 65.

(** [while (p (String[0])) String++], with the character before the one the
    pointer stops at; [prev] is the one before the string. *)
Fixpoint skip (p : Z -> bool) (prev : Z) (String : list Z) : Z * list Z :=
  match String with
  | [] => (prev, [])
  | c :: String' => if p c then skip p c String' else (prev, String)
  end.

Definition is_pad (c : Z) : bool := (c =? 32) || (c =? 9).
Definition is_zero (c : Z) : bool := c =? 48.

(** ** Numbers from text *)

(** The digit loop of [AsciiStrHexToUint64S]; the list ends the string. *)
Fixpoint hex_loop (Data : Z) (String : list Z) : Z :=
  match String with
  | [] => Data
  | c :: String' =>
      if InternalAsciiIsHexaDecimalDigitCharacter c then
        let d := InternalAsciiHexCharToUintn c in
        if Z.shiftr (MAX_UINT64 - d) 4 <? Data then MAX_UINT64
        else hex_loop (u64 (Z.shiftl Data 4) + d) String'
      else Data
  end.

(** [AsciiStrHexToUint64] of a string that has the character [prev] before
    it. *)
Definition AsciiStrHexToUint64 (prev : Z) (String : list Z) : Z :=
  let '(prev, String) := skip is_pad prev String in
  let '(prev, String) := skip is_zero prev String in
  if AsciiCharToUpper (hd0 String) =? 88 then
    if negb (prev =? 48) then 0 else hex_loop 0 (tl String)
  else hex_loop 0 String.

(** The digit loop of [StrDecimalToUintnS]. *)
Fixpoint dec_loop (Data : Z) (String : list Z) : Z :=
  match String with
  | [] => Data
  | c :: String' =>
      if InternalIsDecimalDigitCharacter c then
        if (MAX_UINT64 - (c - 48)) / 10 <? Data then MAX_UINT64
        else dec_loop (Data * 10 + (c - 48)) String'
      else Data
  end.

Definition StrDecimalToUintn (String : list Z) : Z :=
  dec_loop 0 (skip is_zero 0 (skip is_pad 0 String).2).2.

(** ** Text from strings and numbers *)

(** [AsciiStrToUnicodeStr] and [UnicodeStrToAsciiStr] into an array. *)
Definition AsciiStrToUnicodeStr {S R} (Source Destination : list Z) : M S R (list Z) :=
  need OutOfBounds (buf_write Destination 0 (map u8 (cstr Source) ++ [0])).
Definition UnicodeStrToAsciiStr {S R} (Source Destination : list Z) : M S R (list Z) :=
  need OutOfBounds (buf_write Destination 0 (map u8 (cstr Source) ++ [0])).

(** [AsciiSPrint] of a text into a buffer of [BufferSize] characters. *)
Definition AsciiSPrint {S R} (StartOfBuffer : list Z) (BufferSize : Z) (text : list Z) :
    M S R (list Z) :=
  need OutOfBounds
    (buf_write StartOfBuffer 0 (take (Z.to_nat (BufferSize - 1)) text ++ [0])).

(** [BasePrintLibValueToString]: the digits of a number, most significant
    first, with the characters of [mHexStr]. *)
Fixpoint digits (fuel : nat) (Radix Value : Z) (acc : list Z) : list Z :=
  match fuel with
  | O => acc
  | S fuel' =>
      let d := Value mod Radix in
      let acc := (if d <? 10 then 48 + d else 55 + d) :: acc in
      if Value / Radix =? 0 then acc else digits fuel' Radix (Value / Radix) acc
  end.

(** [%d], [%x] and [%08X] take an [int], [%llu] and [%llx] a 64-bit number;
    the digits above nine are capitals in all of them. *)
Definition fmt_d (v : Z) : list Z :=
  let v := u32 v in
  if v <? 2 ^ 31 then digits 20 10 v [] else 45 :: digits 20 10 (2 ^ 32 - v) [].
Definition fmt_llu (v : Z) : list Z := digits 20 10 v [].
Definition fmt_x (v : Z) : list Z := digits 16 16 (u32 v) [].
Definition fmt_llx (v : Z) : list Z := digits 16 16 v [].
Definition fmt_08X (v : Z) : list Z :=
  let t := digits 16 16 (u32 v) [] in replicate (8 - length t) 48 ++ t.

Definition WARNING_STATUS_NUMBER : Z := 5.
Definition ERROR_STATUS_NUMBER : Z := 33.
Definition mStatusString : list (list Z) := Eval cbv in
  [ L "Success"; L "Warning Unknown Glyph"; L "Warning Delete Failure";
    L "Warning Write Failure"; L "Warning Buffer Too Small"; L "Warning Stale Data";
    L "Load Error"; L "Invalid Parameter"; L "Unsupported"; L "Bad Buffer Size";
    L "Buffer Too Small"; L "Not Ready"; L "Device Error"; L "Write Protected";
    L "Out of Resources"; L "Volume Corrupt"; L "Volume Full"; L "No Media";
    L "Media changed"; L "Not Found"; L "Access Denied"; L "No Response"; L "No mapping";
    L "Time out"; L "Not started"; L "Already started"; L "Aborted"; L "ICMP Error";
    L "TFTP Error"; L "Protocol Error"; L "Incompatible Version"; L "Security Violation";
    L "CRC Error"; L "End of Media"; L "Reserved (29)"; L "Reserved (30)"; L "End of File";
    L "Invalid Language"; L "Compromised Data" ].

(** [%r] *)
Definition fmt_r (Status : EFI_STATUS) : list Z :=
  let Index := if EFI_ERROR Status then Z.land Status (2 ^ 63 - 1) else Status in
  default (fmt_08X Status)
    (if EFI_ERROR Status then
       if (0 <? Index) && (Index <=? ERROR_STATUS_NUMBER)
       then mStatusString !! Z.to_nat (Index + WARNING_STATUS_NUMBER) else None
     else if Index <=? WARNING_STATUS_NUMBER then mStatusString !! Z.to_nat Index else None).

(** ** The value of a number in text *)

(** Positional notation, most significant digit first. *)
Fixpoint positional (base : Z) (ds : list Z) : Z :=
  match ds with
  | [] => 0
  | d :: ds' => d * base ^ Z.of_nat (length ds') + positional base ds'
  end.

Definition hex_digit (c : Z) : Prop := InternalAsciiIsHexaDecimalDigitCharacter c = true.

Lemma hex_digit_bound c : hex_digit c -> 0 <= InternalAsciiHexCharToUintn c < 16.
Proof.
  unfold hex_digit, InternalAsciiIsHexaDecimalDigitCharacter, InternalAsciiHexCharToUintn,
    InternalIsDecimalDigitCharacter, AsciiCharToUpper.
  destruct (Z.leb_spec 48 c), (Z.leb_spec c 57), (Z.leb_spec 65 c), (Z.leb_spec c 70),
    (Z.leb_spec 97 c), (Z.leb_spec c 102), (Z.leb_spec c 122); simpl; intros; try done; lia.
Qed.

Lemma positional_nonneg base ds :
  0 < base -> Forall (fun d => 0 <= d) ds -> 0 <= positional base ds.
Proof.
  intros Hb. induction 1 as [|d ds Hd _ IH]; [done|]. simpl.
  assert (0 <= base ^ Z.of_nat (length ds)) by (apply Z.pow_nonneg; lia). nia.
Qed.

(** The loop computes the value, cut at the largest 64-bit number. *)
Lemma hex_loop_value ds rest v :
  Forall hex_digit ds -> InternalAsciiIsHexaDecimalDigitCharacter (hd0 rest) = false ->
  0 <= v <= MAX_UINT64 ->
  hex_loop v (ds ++ rest) =
  Z.min MAX_UINT64 (v * 16 ^ Z.of_nat (length ds)
                    + positional 16 (map InternalAsciiHexCharToUintn ds)).
Proof.
  intros Hds Hr. revert v. induction Hds as [|c ds Hc Hds IH]; intros v Hv.
  - simpl. replace (Z.min _ _) with v by lia. destruct rest as [|c rest]; [done|].
    cbn [hex_loop hd0] in *. by rewrite Hr.
  - cbn [app hex_loop length map positional]. rewrite Hc. cbn zeta.
    pose proof (hex_digit_bound c Hc) as Hd. set (d := InternalAsciiHexCharToUintn c) in *.
    rewrite Z.shiftr_div_pow2, length_map by lia. change (2 ^ 4) with 16.
    assert (Hp : 0 < 16 ^ Z.of_nat (length ds)) by (apply Z.pow_pos_nonneg; lia).
    assert (Hn : 0 <= positional 16 (map InternalAsciiHexCharToUintn ds)).
    { apply positional_nonneg; [lia|]. apply Forall_map. eapply list.Forall_impl; [exact Hds|].
      intros x Hx. simpl. pose proof (hex_digit_bound x Hx). lia. }
    rewrite Nat2Z.inj_succ, Z.pow_succ_r by lia.
    destruct (Z.ltb_spec ((MAX_UINT64 - d) / 16) v) as [Hlt|Hle].
    + assert (MAX_UINT64 < 16 * v + d); [|nia]. apply Z.nle_gt. intros Hx.
      assert (v <= (MAX_UINT64 - d) / 16) by (apply Z.div_le_lower_bound; lia). lia.
    + assert (16 * v + d <= MAX_UINT64) by (pose proof (Z.mul_div_le (MAX_UINT64 - d) 16); lia).
      rewrite Z.shiftl_mul_pow2 by lia. change (2 ^ 4) with 16.
      rewrite u64_small by (unfold MAX_UINT64 in *; lia). rewrite IH by lia.
      f_equal. lia.
Qed.

Lemma skip_none p prev s : p (hd0 s) = false -> skip p prev s = (prev, s).
Proof. destruct s as [|c s]; [done|]. simpl. by intros ->. Qed.

Lemma skip_all p prev ds rest :
  Forall (fun c => p c = true) ds -> p (hd0 rest) = false ->
  (skip p prev (ds ++ rest)).2 = rest.
Proof.
  intros Hds Hr. revert prev. induction Hds as [|c ds Hc _ IH]; intros prev; simpl.
  - by rewrite skip_none.
  - by rewrite Hc.
Qed.

(** Leading zeros do not count. *)
Lemma skip_zeros prev ds rest :
  is_zero (hd0 rest) = false ->
  exists ds' prev', skip is_zero prev (ds ++ rest) = (prev', ds' ++ rest) /\
    ds' `suffix_of` ds /\ is_zero (hd0 (ds' ++ rest)) = false /\
    positional 16 (map InternalAsciiHexCharToUintn ds')
      = positional 16 (map InternalAsciiHexCharToUintn ds).
Proof.
  intros Hr. revert prev. induction ds as [|c ds IH]; intros prev.
  - exists [], prev. simpl. by rewrite skip_none.
  - cbn [app skip]. destruct (is_zero c) eqn:Hc.
    + destruct (IH c) as (ds' & prev' & E & Hs & Hh & Hp). exists ds', prev'.
      split; [done|]. split; [by apply suffix_cons_r|]. split; [done|].
      apply Z.eqb_eq in Hc as ->. cbn [map positional]. rewrite Hp.
      change (InternalAsciiHexCharToUintn 48) with 0. lia.
    + exists (c :: ds), prev. by split_and!.
Qed.

Lemma hex_not_x c : hex_digit c -> (AsciiCharToUpper c =? 88) = false.
Proof.
  unfold hex_digit, InternalAsciiIsHexaDecimalDigitCharacter,
    InternalIsDecimalDigitCharacter, AsciiCharToUpper.
  destruct (Z.leb_spec 48 c), (Z.leb_spec c 57), (Z.leb_spec 65 c), (Z.leb_spec c 70),
    (Z.leb_spec 97 c), (Z.leb_spec c 102), (Z.leb_spec c 122); simpl; intros; try done;
    apply Z.eqb_neq; lia.
Qed.

Lemma hex_not_pad c : hex_digit c -> is_pad c = false.
Proof.
  unfold hex_digit, InternalAsciiIsHexaDecimalDigitCharacter, InternalIsDecimalDigitCharacter, is_pad.
  destruct (Z.eqb_spec c 32) as [->|]; [done|]. by destruct (Z.eqb_spec c 9) as [->|].
Qed.

(** The value of a number after pad characters: what follows it is neither a
    digit nor an [x]. *)
Lemma AsciiStrHexToUint64_value prev pad ds rest :
  Forall (fun c => is_pad c = true) pad -> Forall hex_digit ds -> ds <> [] ->
  InternalAsciiIsHexaDecimalDigitCharacter (hd0 rest) = false ->
  AsciiCharToUpper (hd0 rest) <> 88 ->
  AsciiStrHexToUint64 prev (pad ++ ds ++ rest) =
  Z.min MAX_UINT64 (positional 16 (map InternalAsciiHexCharToUintn ds)).
Proof.
  intros Hpad Hds Hne Hr Hx. unfold AsciiStrHexToUint64.
  pose proof (skip_all is_pad prev pad (ds ++ rest) Hpad) as E.
  destruct (skip is_pad prev (pad ++ ds ++ rest)) as [p1 s1]. simpl in E.
  rewrite E by (destruct Hds; [done|by apply hex_not_pad]).
  assert (Hz : is_zero (hd0 rest) = false).
  { unfold is_zero. apply Z.eqb_neq. intros Hz. by rewrite Hz in Hr. }
  destruct (skip_zeros p1 ds rest Hz) as (ds' & p2 & -> & Hsuf & Hh & <-).
  assert (Hds' : Forall hex_digit ds') by (destruct Hsuf as [k ->]; by apply Forall_app in Hds as [_ ?]).
  assert (Hx' : (AsciiCharToUpper (hd0 (ds' ++ rest)) =? 88) = false).
  { destruct Hds' as [|c ds' Hc _]; [by apply Z.eqb_neq|by apply hex_not_x]. }
  rewrite Hx', (hex_loop_value ds' rest 0) by (done || (unfold MAX_UINT64; lia)).
  by rewrite Z.mul_0_l, Z.add_0_l.
Qed.

(** A parsed number fits 64 bits. *)
Lemma hex_loop_range s v : is_u64 v -> is_u64 (hex_loop v s).
Proof.
  revert v. induction s as [|c s IH]; intros v Hv; [done|]. cbn [hex_loop].
  destruct (InternalAsciiIsHexaDecimalDigitCharacter c) eqn:Hc; [|done]. cbn zeta.
  pose proof (hex_digit_bound c Hc) as Hd. destruct (Z.ltb_spec (Z.shiftr (MAX_UINT64 -
    InternalAsciiHexCharToUintn c) 4) v) as [_|Hle]; [done|]. apply IH. revert Hle.
  rewrite Z.shiftr_div_pow2, Z.shiftl_mul_pow2 by lia. change (2 ^ 4) with 16. intros Hle.
  pose proof (Z.mul_div_le (MAX_UINT64 - InternalAsciiHexCharToUintn c) 16).
  unfold MAX_UINT64, is_u64 in *. rewrite u64_small by lia. lia.
Qed.

Lemma AsciiStrHexToUint64_range prev s : is_u64 (AsciiStrHexToUint64 prev s).
Proof.
  assert (is_u64 0) by (unfold is_u64; lia). unfold AsciiStrHexToUint64.
  destruct (skip is_pad prev s) as [p1 s1], (skip is_zero p1 s1) as [p2 s2].
  destruct (_ =? 88); [destruct (negb _); [done|]|]; by apply hex_loop_range.
Qed.
