(* ===== verification/Firmware.v ===== *)
(** The platform below the loader, as an interface.

    The loader is a UEFI application: block devices, handles, allocation,
    checksums, the UFS boot LUN, the verified-boot storage and the recovery
    service are protocols of the firmware it runs on and are not part of this
    repository.  [Firmware] is the record of the calls the modelled functions
    make; [BlockIoLaws] states what the UEFI specification says of the block
    device calls.  [MemFirmware] is an in-memory instance of both, used to run
    the model.  [BuildConfig] holds the build switches ([#ifdef]s). *)
From Stdlib Require Import ZArith Lia.
From stdpp Require Import base list numbers option.
From S2P Require Import Prelude EfiBase.

(** ** Data exchanged with the firmware *)

(** [EFI_PARTITION_ENTRY]: a GUID is its 16 bytes in memory order. *)
Record EFI_PARTITION_ENTRY := mkEntry {
  PartitionTypeGUID : list Z;
  UniquePartitionGUID : list Z;
  StartingLBA : Z;
  EndingLBA : Z;
  Attributes : Z;
  PartitionName : list Z;
}.
#[global] Instance EFI_PARTITION_ENTRY_eq : EqDecision EFI_PARTITION_ENTRY.
Proof. solve_decision. Defined.

Definition GUID_SIZE : Z := 16.
(** The first field of an [EFI_GUID]. *)
Definition Data1 (g : list Z) : Z := le_get (take 4 g).

Record EFI_BLOCK_IO_MEDIA := mkMedia {
  BlockSize : Z;
  LastBlock : Z;
  RemovableMedia : bool;
}.

(** A node of a device path, with the fields the loader looks at. *)
Record DevicePathNode := mkNode {
  dp_Type : Z;
  dp_SubType : Z;
  dp_Length : Z;
  dp_Guid : list Z;
  dp_MBRType : Z;
}.

(** [MemCardType] of [Include/Library/Board.h]. *)
Inductive MemCardType := EMMC | UFS | NAND | UNKNOWN.
#[global] Instance MemCardType_eq : EqDecision MemCardType.
Proof. solve_decision. Defined.

(** [persistent_value_type] and [DeviceInfo] of [Include/Library/DeviceInfo.h]:
    the block the verified-boot protocol stores for the loader. *)
Record persistent_value_type := mkPV {
  in_use : Z;
  name_size : Z;
  value_size : Z;
  pv_name : list Z;
  pv_value : list Z;
}.
#[global] Instance persistent_value_type_eq : EqDecision persistent_value_type.
Proof. solve_decision. Defined.

Record DeviceInfo := mkDeviceInfo {
  magic : list Z;
  is_unlocked : bool;
  is_unlock_critical : bool;
  is_charger_screen_enabled : bool;
  bootloader_version : list Z;
  radio_version : list Z;
  verity_mode : bool;
  user_public_key_length : Z;
  user_public_key : list Z;
  rollback_index : list Z;
  persistent_value : list persistent_value_type;
  GoldenSnapshot : Z;
  AudioFramework : list Z;
}.
#[global] Instance DeviceInfo_eq : EqDecision DeviceInfo.
Proof. solve_decision. Defined.

(** ** The calls *)

(** Why the PMIC powered on. *)
Record EFI_PM_PON_REASON_TYPE := mkPon {
  HARD_RESET : bool;
  SMPL : bool;
  RTC : bool;
  DC_CHG : bool;
  USB_CHG : bool;
  PON1 : bool;
  CBLPWR : bool;
  KPDPWR : bool;
}.

(** Whether the battery allows flashing. *)
Record EFI_CHARGER_EX_FLASH_INFO := mkChgFlash {
  BattCurrVoltage : Z;
  BattRequiredVoltage : Z;
  bCanFlash : bool;
}.

Class Firmware := {
  Fw : Type;

  (** boot services: handle database *)
  LocateBlkIo : Fw -> EFI_STATUS * list Z;
  LocateFs : Fw -> EFI_STATUS * list Z;
  HasBlkIo : Fw -> Z -> EFI_STATUS;
  Media : Fw -> Z -> EFI_BLOCK_IO_MEDIA;
  DevicePath : Fw -> Z -> option (list DevicePathNode);
  PartitionRecord : Fw -> Z -> option EFI_PARTITION_ENTRY;
  HasProtocol : Fw -> Z -> list Z -> bool;
  PartitionTypeOf : Fw -> Z -> option (list Z);
  HasFs : Fw -> Z -> bool;
  VolumeLabel : Fw -> Z -> option (list Z);

  (** boot services: memory and checksum *)
  AllocateZeroPool : Fw -> Z -> bool;
  CalculateCrc32 : list Z -> EFI_STATUS * Z;

  (** block I/O and erase protocols of a handle *)
  ReadBlocks : Fw -> Z -> Z -> Z -> EFI_STATUS * list Z;
  WriteBlocks : Fw -> Z -> Z -> list Z -> EFI_STATUS * Fw;
  FlushBlocks : Fw -> Z -> EFI_STATUS * Fw;
  EraseGranularity : Fw -> Z -> EFI_STATUS * Z;
  EraseBlocks : Fw -> Z -> Z -> EFI_STATUS * Fw;

  (** storage card: the variable [SharedImemBootCfgVal], the [card_type] string
      of the card-info protocol, and
      the UFS boot LUN *)
  BootCfgVal : Fw -> EFI_STATUS * Z;
  LocateCardInfo : Fw -> EFI_STATUS;
  GetCardInfo : Fw -> EFI_STATUS * list Z;
  MemCardInfo : Fw -> Z -> EFI_STATUS * Z;
  GetBootLU : Fw -> EFI_STATUS * Z;
  SetBootLU : Fw -> Z -> EFI_STATUS * Fw;

  (** recovery-info protocol: present, its state, and the boot set it selects *)
  LocateRecoveryInfo : Fw -> EFI_STATUS;
  GetRecoveryState : Fw -> EFI_STATUS * Z;
  GetBootSet : Fw -> EFI_STATUS * Z;

  (** verified-boot protocol: the device-info store *)
  LocateVb : Fw -> EFI_STATUS;
  VBReadDeviceState : Fw -> EFI_STATUS * DeviceInfo;
  VBWriteDeviceState : Fw -> DeviceInfo -> EFI_STATUS * Fw;
  VBDeviceResetState : Fw -> EFI_STATUS * Fw;
  VBIsDeviceSecure : Fw -> EFI_STATUS * bool;

  (** NAND partition-GUID protocol: located, and the GUID of a name *)
  LocateNandPartiGuid : Fw -> EFI_STATUS;
  GenGuid : Fw -> list Z -> EFI_STATUS * list Z;

  (** charger and power-on protocols; [IsOffModeCharging] with what it stores,
      if it stores anything *)
  LocateCharger : Fw -> EFI_STATUS;
  ChargerRevision : Fw -> Z;
  IsOffModeCharging : Fw -> EFI_STATUS * option bool;
  GetChargerPresence : Fw -> EFI_STATUS * bool;
  LocatePmicPon : Fw -> EFI_STATUS;
  GetPonReason : Fw -> EFI_STATUS * EFI_PM_PON_REASON_TYPE;
  WarmResetStatus : Fw -> EFI_STATUS * bool;
  IsPowerOk : Fw -> EFI_STATUS * EFI_CHARGER_EX_FLASH_INFO;
  GetBatteryPresence : Fw -> EFI_STATUS * bool;
  GetBatteryVoltage : Fw -> EFI_STATUS * Z;

  (** events, timers and threads: whether they can be set up *)
  CreateEvent : Fw -> EFI_STATUS;
  SetTimer : Fw -> EFI_STATUS;
  CreateRefreshEvent : Fw -> EFI_STATUS;
  SignalRefreshEvent : Fw -> EFI_STATUS * Fw;
  ThreadCreate : Fw -> bool;
  ThreadResume : Fw -> EFI_STATUS;

  (** UBI flasher protocol, by the name of the partition *)
  LocateUbi : Fw -> EFI_STATUS;
  UbiFlasherOpen : Fw -> list Z -> EFI_STATUS;
  UbiFlasherWrite : Fw -> list Z -> list Z -> EFI_STATUS * Fw;
  UbiFlasherClose : Fw -> list Z -> EFI_STATUS * Fw;

  (** display: its protocol, the panel, and the unlock menu, which asks the
      user; USB: waiting until a packet was sent *)
  LocateDisplayUtils : Fw -> EFI_STATUS;
  DisplayPanelConfig : Fw -> EFI_STATUS;
  DisplayUnlockMenu : Fw -> Z -> bool -> EFI_STATUS * Fw;
  WaitTransfer : Fw -> unit * Fw;

  (** chip-information protocol: located, and the serial number, the name and
      the version of the chip; the card-information protocol of a storage
      handle: present, and the serial number of the card with its length *)
  LocateChipInfo : Fw -> EFI_STATUS;
  GetSerialNumber : Fw -> EFI_STATUS * Z;
  GetChipIdString : Fw -> Z -> EFI_STATUS * list Z;
  ChipVersion : Fw -> Z;
  HasMemCardInfo : Fw -> Z -> EFI_STATUS;
  CardSerial : Fw -> Z -> EFI_STATUS * (list Z * Z);

  (** memory map: the size it needs, and its entries, type and pages, for a
      buffer of a size *)
  MemoryMapSize : Fw -> EFI_STATUS * Z;
  GetMemoryMap : Fw -> Z -> EFI_STATUS * list (Z * Z);

  (** variables of the runtime services and of the display protocol: a read
      takes the size of the buffer and gives the status, the size of the
      variable and the bytes that were stored *)
  GetVariable : Fw -> list Z -> Z -> EFI_STATUS * (Z * list Z);
  SetVariable : Fw -> list Z -> list Z -> EFI_STATUS * Fw;
  DisplayUtilsRevision : Fw -> Z;
  DisplayUtilsGetVariable : Fw -> list Z -> Z -> EFI_STATUS * (Z * list Z);
  DisplayUtilsSetVariable : Fw -> list Z -> list Z -> EFI_STATUS * Fw;

  (** kernel protocol: located, and its version *)
  LocateKernel : Fw -> EFI_STATUS;
  KernelVersion : Fw -> Z;
}.

(** What the UEFI specification says of block devices: a handle shows a byte
    array of [(LastBlock + 1) * BlockSize] bytes; a successful read returns
    the addressed range and a successful write replaces exactly that range; the
    only status of either that is not an error is [EFI_SUCCESS]. *)
Class BlockIoLaws (F : Firmware) := {
  Contents : Fw -> Z -> list Z;
  ReadBlocks_ok fw h lba n d :
    ReadBlocks fw h lba n = (EFI_SUCCESS, d) ->
    buf_read (Contents fw h) (lba * BlockSize (Media fw h)) n = Some d;
  WriteBlocks_ok fw h lba d fw' :
    WriteBlocks fw h lba d = (EFI_SUCCESS, fw') ->
    buf_write (Contents fw h) (lba * BlockSize (Media fw h)) d = Some (Contents fw' h);
  ReadBlocks_status fw h lba n :
    EFI_ERROR (ReadBlocks fw h lba n).1 = false -> (ReadBlocks fw h lba n).1 = EFI_SUCCESS;
  WriteBlocks_status fw h lba d :
    EFI_ERROR (WriteBlocks fw h lba d).1 = false -> (WriteBlocks fw h lba d).1 = EFI_SUCCESS;
  WriteBlocks_media fw h lba d h' : Media (WriteBlocks fw h lba d).2 h' = Media fw h';
  FlushBlocks_media fw h h' : Media (FlushBlocks fw h).2 h' = Media fw h';
  FlushBlocks_contents fw h h' : Contents (FlushBlocks fw h).2 h' = Contents fw h';
}.

(** The part of the platform that data transfers do not touch: the card type,
    the handle database and what it says of the block devices. *)
Definition same_platform `{Firmware} (x x' : Fw) : Prop :=
  BootCfgVal x' = BootCfgVal x /\
  LocateBlkIo x' = LocateBlkIo x /\
  (forall h, Media x' h = Media x h) /\
  (forall h, HasBlkIo x' h = HasBlkIo x h) /\
  (forall h, DevicePath x' h = DevicePath x h) /\
  (forall h, MemCardInfo x' h = MemCardInfo x h) /\
  (forall h, EraseGranularity x' h = EraseGranularity x h) /\
  (forall h g, HasProtocol x' h g = HasProtocol x h g) /\
  (forall h, PartitionTypeOf x' h = PartitionTypeOf x h) /\
  (forall h, PartitionRecord x' h = PartitionRecord x h).

#[export] Instance same_platform_po `{Firmware} : PreOrder same_platform.
Proof.
  split; [done|]. intros x y z (?&?&?&?&?&?&?&?&?&?) (?&?&?&?&?&?&?&?&?&?).
  split_and!; try congruence; intros h; try congruence; intros g; congruence.
Qed.

Class PlatformLaws (F : Firmware) := {
  WriteBlocks_platform x h lba d : same_platform x (WriteBlocks x h lba d).2;
  FlushBlocks_platform x h : same_platform x (FlushBlocks x h).2;
  SetBootLU_platform x n : same_platform x (SetBootLU x n).2;
}.

(** [CalculateCrc32] of the boot services: it refuses empty data, and otherwise
    delivers a 32-bit checksum. *)
Class Crc32Laws (F : Firmware) := {
  CalculateCrc32_ok d : d <> [] ->
    exists c, CalculateCrc32 d = (EFI_SUCCESS, c) /\ is_u32 c;
  CalculateCrc32_u32 d c : CalculateCrc32 d = (EFI_SUCCESS, c) -> is_u32 c;
}.

(** The device-state store of the verified-boot protocol: a block that was
    written with success is the block read back, and writing it does not
    withdraw the protocol. *)
Class VbLaws (F : Firmware) := {
  VBWrite_read x d x' :
    VBWriteDeviceState x d = (EFI_SUCCESS, x') -> VBReadDeviceState x' = (EFI_SUCCESS, d);
  VBWrite_locate x d : LocateVb (VBWriteDeviceState x d).2 = LocateVb x;
}.

(** Build switches of the [.dsc]/makefile. *)
Class BuildConfig := {
  USER_BUILD_VARIANT : bool;
  ENABLE_LV_ATOMIC_AB : bool;
  AB_RETRYCOUNT_DISABLE : bool;
  SUPPORT_AB_BOOT_LXC : bool;
  VERIFIED_BOOT_LE : bool;
  VERIFIED_BOOT_ENABLED : bool;
  PRODUCT_NAME : list Z;
  ENABLE_LE_VARIANT : bool;
  TARGET_BOARD_TYPE_AUTO : bool;
  HIBERNATION_SUPPORT_NO_AES : bool;
  ENABLE_UPDATE_PARTITIONS_CMDS : bool;
  ENABLE_DEVICE_CRITICAL_LOCK_UNLOCK_CMDS : bool;
  ENABLE_BOOT_CMD : bool;
  DISABLE_PARALLEL_DOWNLOAD_FLASH : bool;
  EnableBatteryVoltageCheck : bool;
  NAND_UBI_VOLUME_FLASHING_ENABLED : bool;
  SWAP_PARTITION_NAME : list Z;
}.

(** ** An in-memory platform *)

Module MemFirmware.

Record dev := mkDev {
  d_media : EFI_BLOCK_IO_MEDIA;
  d_path : list DevicePathNode;
  d_record : option EFI_PARTITION_ENTRY;
  d_type : option (list Z);
  d_data : list Z;
}.

Record state := mkState {
  m_devs : list dev;
  m_card : MemCardType;
  m_bootlun : Z;
  m_devinfo : DeviceInfo;
  m_secure : bool;
  m_recovery : option Z;
  m_reset_ok : bool;
  m_writable : bool;
}.

Definition no_media : EFI_BLOCK_IO_MEDIA := mkMedia 0 0 false.
Definition dev_at (s : state) (h : Z) : option dev := m_devs s !! Z.to_nat h.
Definition media (s : state) (h : Z) : EFI_BLOCK_IO_MEDIA :=
  match dev_at s h with Some d => d_media d | None => no_media end.
Definition contents (s : state) (h : Z) : list Z :=
  match dev_at s h with Some d => d_data d | None => [] end.
Definition set_devs (l : list dev) (s : state) : state :=
  mkState l (m_card s) (m_bootlun s) (m_devinfo s) (m_secure s) (m_recovery s)
    (m_reset_ok s) (m_writable s).
Definition set_data (l : list Z) (d : dev) : dev :=
  mkDev (d_media d) (d_path d) (d_record d) (d_type d) l.
Definition handles (s : state) : list Z := map Z.of_nat (seq 0 (length (m_devs s))).

Definition read (s : state) (h lba n : Z) : EFI_STATUS * list Z :=
  match buf_read (contents s h) (lba * BlockSize (media s h)) n with
  | Some d => (EFI_SUCCESS, d)
  | None => (EFI_INVALID_PARAMETER, [])
  end.
Definition write (s : state) (h lba : Z) (d : list Z) : EFI_STATUS * state :=
  match buf_write (contents s h) (lba * BlockSize (media s h)) d, dev_at s h with
  | Some c, Some dv => (EFI_SUCCESS, set_devs (<[Z.to_nat h := set_data c dv]> (m_devs s)) s)
  | _, _ => (EFI_INVALID_PARAMETER, s)
  end.
Definition erase (s : state) (h n : Z) : EFI_STATUS * state :=
  write s h 0 (replicate (Z.to_nat n) 0).

(** A checksum stand-in: the sum of the bytes, 32 bits wide. *)
Definition sum32 (l : list Z) : EFI_STATUS * Z := (EFI_SUCCESS, u32 (foldr Z.add 0 l)).

#[export] Instance fw : Firmware := {|
  Fw := state;
  LocateBlkIo s := (EFI_SUCCESS, handles s);
  LocateFs s := (EFI_SUCCESS, []);
  HasBlkIo _ _ := EFI_SUCCESS;
  Media := media;
  DevicePath s h := d_path <$> dev_at s h;
  PartitionRecord s h := d ← dev_at s h; d_record d;
  HasProtocol _ _ _ := false;
  PartitionTypeOf s h := d ← dev_at s h; d_type d;
  HasFs _ _ := false;
  VolumeLabel _ _ := None;
  AllocateZeroPool _ _ := true;
  CalculateCrc32 := sum32;
  ReadBlocks := read;
  WriteBlocks := write;
  FlushBlocks s _ := (EFI_SUCCESS, s);
  EraseGranularity s h := (EFI_SUCCESS, BlockSize (media s h));
  EraseBlocks := erase;
  BootCfgVal s := (EFI_SUCCESS, 0);
  LocateCardInfo _ := EFI_SUCCESS;
  GetCardInfo s := (EFI_SUCCESS, match m_card s with
    | EMMC => L "EMMC" | UFS => L "UFS" | NAND => L "NAND" | UNKNOWN => L "none" end);
  MemCardInfo _ _ := (EFI_SUCCESS, 65539);
  GetBootLU s := (EFI_SUCCESS, m_bootlun s);
  SetBootLU s n := (EFI_SUCCESS,
    mkState (m_devs s) (m_card s) n (m_devinfo s) (m_secure s) (m_recovery s)
      (m_reset_ok s) (m_writable s));
  LocateRecoveryInfo s :=
    if m_recovery s is Some _ then EFI_SUCCESS else EFI_NOT_FOUND;
  GetRecoveryState _ := (EFI_SUCCESS, 0);
  GetBootSet s := (EFI_SUCCESS, default 2 (m_recovery s));
  LocateVb _ := EFI_SUCCESS;
  VBReadDeviceState s := (EFI_SUCCESS, m_devinfo s);
  VBWriteDeviceState s d :=
    if m_writable s
    then (EFI_SUCCESS,
      mkState (m_devs s) (m_card s) (m_bootlun s) d (m_secure s) (m_recovery s)
        (m_reset_ok s) (m_writable s))
    else (EFI_DEVICE_ERROR, s);
  VBDeviceResetState s := (if m_reset_ok s then EFI_SUCCESS else EFI_DEVICE_ERROR, s);
  VBIsDeviceSecure s := (EFI_SUCCESS, m_secure s);
  LocateNandPartiGuid _ := EFI_NOT_FOUND;
  GenGuid _ _ := (EFI_NOT_FOUND, []);
  LocateCharger _ := EFI_SUCCESS;
  ChargerRevision _ := 0x10003;
  IsOffModeCharging _ := (EFI_SUCCESS, Some false);
  GetChargerPresence _ := (EFI_SUCCESS, false);
  LocatePmicPon _ := EFI_NOT_FOUND;
  GetPonReason _ := (EFI_NOT_FOUND, mkPon false false false false false false false false);
  WarmResetStatus _ := (EFI_NOT_FOUND, false);
  IsPowerOk _ := (EFI_SUCCESS, mkChgFlash 4000 3600 true);
  GetBatteryPresence _ := (EFI_SUCCESS, true);
  GetBatteryVoltage _ := (EFI_SUCCESS, 4000);
  CreateEvent _ := EFI_SUCCESS;
  SetTimer _ := EFI_SUCCESS;
  CreateRefreshEvent _ := EFI_SUCCESS;
  SignalRefreshEvent s := (EFI_SUCCESS, s);
  ThreadCreate _ := true;
  ThreadResume _ := EFI_SUCCESS;
  LocateUbi _ := EFI_NOT_FOUND;
  UbiFlasherOpen _ _ := EFI_NOT_FOUND;
  UbiFlasherWrite s _ _ := (EFI_NOT_FOUND, s);
  UbiFlasherClose s _ := (EFI_NOT_FOUND, s);
  LocateDisplayUtils _ := EFI_NOT_FOUND;
  DisplayPanelConfig _ := EFI_NOT_FOUND;
  DisplayUnlockMenu s _ _ := (EFI_UNSUPPORTED, s);
  WaitTransfer s := (tt, s);
  LocateChipInfo _ := EFI_SUCCESS;
  GetSerialNumber _ := (EFI_SUCCESS, 0x12AB34CD);
  GetChipIdString _ n := (EFI_SUCCESS, take (Z.to_nat n) (L "SM8x" ++ [0]));
  ChipVersion _ := 0x20000;
  HasMemCardInfo _ _ := EFI_SUCCESS;
  CardSerial _ _ := (EFI_SUCCESS, ([0xCD; 0x34; 0xAB; 0x12], 4));
  MemoryMapSize _ := (EFI_BUFFER_TOO_SMALL, 48);
  GetMemoryMap _ _ := (EFI_SUCCESS, [(7, 65536)]);
  GetVariable _ name n :=
    if StrCmp name (L "BootDeviceBaseAddr") =? 0 then (EFI_SUCCESS, (8, le_put 8 0x1d84000))
    else (EFI_NOT_FOUND, (n, []));
  SetVariable s _ _ := (EFI_SUCCESS, s);
  DisplayUtilsRevision _ := 0x20000;
  DisplayUtilsGetVariable _ _ n := (EFI_NOT_FOUND, (n, []));
  DisplayUtilsSetVariable s _ _ := (EFI_SUCCESS, s);
  LocateKernel _ := EFI_NOT_FOUND;
  KernelVersion _ := 0;
|}.

Lemma dev_at_set s h dv dv' :
  dev_at s h = Some dv ->
  dev_at (set_devs (<[Z.to_nat h := dv']> (m_devs s)) s) h = Some dv'.
Proof.
  unfold dev_at. simpl. intros H%lookup_lt_Some. by apply list_lookup_insert_eq.
Qed.

Lemma media_set s h dv c h' :
  dev_at s h = Some dv ->
  media (set_devs (<[Z.to_nat h := set_data c dv]> (m_devs s)) s) h' = media s h'.
Proof.
  intros H. unfold media, dev_at in *. simpl. destruct (decide (Z.to_nat h = Z.to_nat h')) as [E|E].
  - rewrite <- E, list_lookup_insert_eq by (by eapply lookup_lt_Some). by rewrite H.
  - by rewrite list_lookup_insert_ne.
Qed.

#[export] Instance laws : BlockIoLaws fw.
Proof.
  refine {| Contents := contents |}.
  - intros s h lba n d. simpl. unfold read. destruct (buf_read _ _ _); naive_solver.
  - intros s h lba d s'. simpl. unfold write.
    destruct (buf_write _ _ _) as [c|] eqn:Hw; [|done].
    destruct (dev_at s h) as [dv|] eqn:Hd; [|done]. intros [= <-].
    f_equal. unfold contents. by rewrite (dev_at_set s h dv).
  - intros s h lba n. simpl. unfold read. by destruct (buf_read _ _ _).
  - intros s h lba d. simpl. unfold write.
    destruct (buf_write _ _ _), (dev_at s h); done.
  - intros s h lba d h'. simpl. unfold write.
    destruct (buf_write _ _ _) as [c|]; [|done].
    destruct (dev_at s h) as [dv|] eqn:Hd; [|done]. by apply media_set.
  - done.
  - done.
Defined.

#[export] Instance platform_laws : PlatformLaws fw.
Proof.
  constructor; try done. intros s h lba d. simpl. unfold write.
  destruct (buf_write _ _ _) as [c|]; [|done].
  destruct (dev_at s h) as [dv|] eqn:Hd; [|done]. unfold dev_at in Hd.
  assert (Hi : forall h', dev_at (set_devs (<[Z.to_nat h := set_data c dv]> (m_devs s)) s) h' =
    if decide (Z.to_nat h = Z.to_nat h') then Some (set_data c dv) else dev_at s h').
  { intros h'. unfold dev_at. simpl. case_decide as E.
    - rewrite <- E. apply list_lookup_insert_eq. by eapply lookup_lt_Some.
    - by rewrite list_lookup_insert_ne. }
  split_and!; try done.
  - simpl. unfold handles. simpl. by rewrite length_insert.
  - intros h'. simpl. unfold media. rewrite Hi. case_decide as E; [|done].
    unfold dev_at. by rewrite <- E, Hd.
  - intros h'. simpl. rewrite Hi. case_decide as E; [|done].
    unfold dev_at. by rewrite <- E, Hd.
  - intros h'. simpl. do 2 f_equal. unfold media. rewrite Hi. case_decide as E; [|done].
    unfold dev_at. by rewrite <- E, Hd.
  - intros h'. simpl. rewrite Hi. case_decide as E; [|done]. unfold dev_at. by rewrite <- E, Hd.
  - intros h'. simpl. rewrite Hi. case_decide as E; [|done]. unfold dev_at. by rewrite <- E, Hd.
Defined.

#[export] Instance crc_laws : Crc32Laws fw.
Proof.
  constructor.
  - intros d _. eexists. split; [reflexivity|apply u32_range].
  - intros d c [= <-]. apply u32_range.
Defined.

#[export] Instance vb_laws : VbLaws fw.
Proof.
  constructor.
  - intros s d s'. simpl. destruct (m_writable s); [|done]. by intros [= <-].
  - done.
Defined.

End MemFirmware.
