(* ===== verification/World.v ===== *)
(** The state of the loader: the static variables of each modelled source file
    and the firmware below them, with the functions that update one field. *)
From Stdlib Require Import ZArith Lia.
From stdpp Require Import base list numbers option.
From S2P Require Import Prelude EfiBase Firmware.

(** ** Types of the loader's headers *)

(** [HandleInfo] of [LinuxLoaderLib.h]: the block I/O interface of a handle is
    named by the handle, the partition information by its device-path node. *)
Record HandleInfo := mkHandleInfo {
  Handle : Z;
  PartitionInfo : option DevicePathNode;
}.

(** [struct StoragePartInfo], [struct PartitionEntry] and the slot suffix of
    [PartitionTableUpdate.h]. *)
Record StoragePartInfo := mkStorage {
  HandleInfoList : list HandleInfo;
  MaxHandles : Z;
}.

Record PartitionEntry := mkPtn {
  PartEntry : EFI_PARTITION_ENTRY;
  lun : Z;
}.
#[global] Instance PartitionEntry_eq : EqDecision PartitionEntry.
Proof. solve_decision. Defined.

Definition MAX_NUM_PARTITIONS : Z := 128.
Definition MAX_LUNS : Z := 8.
Definition NO_LUN : Z := -1.
Definition INVALID_PTN : Z := -1.
Definition MAX_SLOT_SUFFIX_SZ : Z := 3.
Definition BOOT_PART_SIZE : Z := 32.

(** A zeroed entry, and reading an entry's name or attributes by index. *)
Definition zero_entry : PartitionEntry :=
  mkPtn (mkEntry (zeros 16) (zeros 16) 0 0 0 (zeros 36)) 0.
Definition Name (p : PartitionEntry) : list Z := PartitionName (PartEntry p).
Definition Attr (p : PartitionEntry) : Z := Attributes (PartEntry p).
Definition TypeGuid (p : PartitionEntry) : list Z := PartitionTypeGUID (PartEntry p).

Definition set_Attr (a : Z) (p : PartitionEntry) : PartitionEntry :=
  let e := PartEntry p in
  mkPtn (mkEntry (PartitionTypeGUID e) (UniquePartitionGUID e) (StartingLBA e)
           (EndingLBA e) a (PartitionName e)) (lun p).
Definition set_TypeGuid (g : list Z) (p : PartitionEntry) : PartitionEntry :=
  let e := PartEntry p in
  mkPtn (mkEntry g (UniquePartitionGUID e) (StartingLBA e) (EndingLBA e)
           (Attributes e) (PartitionName e)) (lun p).

(** ** The static variables *)

(** [PartitionTableUpdate.c] *)
Record PtGlobals := mkPt {
  FlashingGpt : bool;
  ParseSecondaryGpt : bool;
  Ptable : list StoragePartInfo;
  PtnEntries : list PartitionEntry;
  MaxLuns : Z;
  PartitionCount : Z;
  FirstBoot : bool;
  PtnEntriesBak : list PartitionEntry;
  HeadNode : list (list Z);
}.

(** [LinuxLoader.c] and [BootLinux.c] *)
Record LoaderGlobals := mkLd {
  BootIntoFastboot : bool;
  BootIntoRecovery : bool;
  BootDevImage : bool;
}.

(** [DeviceInfo.c] *)
Record DevGlobals := mkDev {
  DevInfo : DeviceInfo;
  FirstReadDevInfo : bool;
}.

(** [LinuxLoaderLib.c]: the root device type it stores; of [FastbootCmds.c] what
    [IsFlashSplitNeeded] looks at: the build's [EnableMultiThreadFlash] and the
    three flags; and the message block [Recovery.c] keeps once it was read. *)
Record LibGlobals := mkLib {
  StoredRootDevice : MemCardType;
  EnableMultiThreadFlash : bool;
  IsMultiThreadSupported : bool;
  FlashSplitNeeded : bool;
  UsbTimerStarted : bool;
  VirtualAbMsg : option (list Z);
}.

Definition set_StoredRootDevice (t : MemCardType) (l : LibGlobals) : LibGlobals :=
  mkLib t (EnableMultiThreadFlash l) (IsMultiThreadSupported l) (FlashSplitNeeded l)
    (UsbTimerStarted l) (VirtualAbMsg l).

Definition set_IsMultiThreadSupported (b : bool) (l : LibGlobals) : LibGlobals :=
  mkLib (StoredRootDevice l) (EnableMultiThreadFlash l) b (FlashSplitNeeded l)
    (UsbTimerStarted l) (VirtualAbMsg l).
Definition set_FlashSplitNeeded (b : bool) (l : LibGlobals) : LibGlobals :=
  mkLib (StoredRootDevice l) (EnableMultiThreadFlash l) (IsMultiThreadSupported l) b
    (UsbTimerStarted l) (VirtualAbMsg l).
Definition set_UsbTimerStarted (b : bool) (l : LibGlobals) : LibGlobals :=
  mkLib (StoredRootDevice l) (EnableMultiThreadFlash l) (IsMultiThreadSupported l)
    (FlashSplitNeeded l) b (VirtualAbMsg l).
Definition set_VirtualAbMsg (m : option (list Z)) (l : LibGlobals) : LibGlobals :=
  mkLib (StoredRootDevice l) (EnableMultiThreadFlash l) (IsMultiThreadSupported l)
    (FlashSplitNeeded l) (UsbTimerStarted l) m.

(** [FastbootCmds.c].  A variable the host can ask for: its name, and the
    string its value pointer addresses. *)
Inductive ANDROID_FASTBOOT_STATE := ExpectCmdState | ExpectDataState.
#[global] Instance ANDROID_FASTBOOT_STATE_eq : EqDecision ANDROID_FASTBOOT_STATE.
Proof. solve_decision. Defined.

Inductive var_value :=
| VStr (s : list Z)                (** a string that is not changed later *)
| VSlotSuccessful (j : nat)        (** fields of [BootSlotInfo[j]] *)
| VSlotUnbootable (j : nat)
| VSlotRetryCount (j : nat)
| VSlotCount | VCurrentSlot | VSnapshotMergeState
| VBatteryVoltage | VBatterySocOk | VChargeScreenEnable
| VBootloaderVersion | VRadioVersion.   (** fields of [DevInfo] *)

Record FASTBOOT_VAR := mkVar {
  var_name : list Z;
  var_val : var_value;
}.

(** [struct GetVarSlotInfo]; the three names are only read when they are
    published. *)
Record GetVarSlotInfo := mkSlotInfo {
  SlotSuffix : list Z;
  SlotSuccessfulVal : list Z;
  SlotUnbootableVal : list Z;
  SlotRetryCountVal : list Z;
}.

(** The handlers a command can be registered with. *)
Inductive fastboot_cmd_fn :=
| FnFlash | FnErase | FnSetActive | FnFlashingGetUnlockAbility | FnFlashingUnlock
| FnFlashingLock | FnFlashingUnLockCritical | FnFlashingLockCritical | FnBoot
| FnOemEnableChargerScreen | FnOemDisableChargerScreen | FnOemOffModeCharger
| FnOemSelectDisplayPanel | FnOemSetHwFenceValue | FnOemSetGpuPreemptionValue
| FnOemDevinfo | FnGoldenSnapshot | FnContinue | FnReboot | FnRebootBootloader | FnGetVar
| FnDownload | FnOemAudioFrameWork | FnRebootRecovery | FnRebootFastboot | FnUpdateSnapshot.
#[global] Instance fastboot_cmd_fn_eq : EqDecision fastboot_cmd_fn.
Proof. solve_decision. Defined.

Record FASTBOOT_CMD := mkCmd {
  prefix_ : list Z;
  prefix_len : Z;
  handle_ : fastboot_cmd_fn;
}.

Record FlashInfo := mkFlashInfo {
  fi_PartitionName : list Z;
  fi_PartitionSize : Z;
  fi_FlashDataBuffer : Z;
  fi_FlashNumDataBytes : Z;
}.

Record CmdInfo := mkCmdInfo {
  ci_Size : Z;
  ci_Data : list Z;
}.

(** The statics: the download state machine with its counters; the transfer
    buffer [DataMem] at address [mDataBuffer] and the two pointers into it,
    where the next download goes and what is flashed; the LUN the next
    commands address; the flash in progress with its thread and timers; the
    registered commands and the published variables with the strings they
    show; [Bdata] of the reset data; the receive that is queued at the USB
    driver, its length and the address in the transfer buffer (none: a command
    into the receive buffer); and the packets sent to the host. *)
Record FbGlobals := mkFb {
  mState : ANDROID_FASTBOOT_STATE;
  mNumDataBytes : Z;
  mFlashNumDataBytes : Z;
  mBytesReceivedSoFar : Z;
  mDataBuffer : Z;
  DataMem : list Z;
  mUsbDataBuffer : Z;
  mFlashDataBuffer : Z;
  MaxDownLoadSize : Z;
  Lun : Z;
  LunSet : bool;
  IsFlashComplete : bool;
  FlashResult : EFI_STATUS;
  FlashThread : option FlashInfo;
  UsbTimerEvent : bool;
  FlashCompleteEvent : bool;
  PendingCmd : option CmdInfo;
  cmdlist : list FASTBOOT_CMD;
  Varlist : list FASTBOOT_VAR;
  BootSlotInfo : option (list GetVarSlotInfo);
  SlotCount : Z;
  SlotSuffixArray : list Z;
  SlotCountVar : list Z;
  CurrentSlotFB : list Z;
  InitialPopulate : bool;
  SnapshotMergeState : list Z;
  StrBatteryVoltage : list Z;
  StrBatterySocOk : list Z;
  ChargeScreenEnable : list Z;
  OffModeCharge : list Z;
  IsAllowUnlock : Z;
  IsFirstEraseFlash : bool;
  ResetReason : option Z;
  RxQueue : option (Z * option Z);
  Sent : list (list Z);
}.

Definition fb_mState (x : ANDROID_FASTBOOT_STATE) (g : FbGlobals) : FbGlobals :=
  mkFb x (mNumDataBytes g) (mFlashNumDataBytes g) (mBytesReceivedSoFar g) (mDataBuffer
    g) (DataMem g) (mUsbDataBuffer g) (mFlashDataBuffer g) (MaxDownLoadSize g) (Lun g)
    (LunSet g) (IsFlashComplete g) (FlashResult g) (FlashThread g) (UsbTimerEvent g)
    (FlashCompleteEvent g) (PendingCmd g) (cmdlist g) (Varlist g) (BootSlotInfo g)
    (SlotCount g) (SlotSuffixArray g) (SlotCountVar g) (CurrentSlotFB g)
    (InitialPopulate g) (SnapshotMergeState g) (StrBatteryVoltage g) (StrBatterySocOk g)
    (ChargeScreenEnable g) (OffModeCharge g) (IsAllowUnlock g) (IsFirstEraseFlash g)
    (ResetReason g) (RxQueue g) (Sent g).
Definition fb_mNumDataBytes (x : Z) (g : FbGlobals) : FbGlobals :=
  mkFb (mState g) x (mFlashNumDataBytes g) (mBytesReceivedSoFar g) (mDataBuffer g)
    (DataMem g) (mUsbDataBuffer g) (mFlashDataBuffer g) (MaxDownLoadSize g) (Lun g)
    (LunSet g) (IsFlashComplete g) (FlashResult g) (FlashThread g) (UsbTimerEvent g)
    (FlashCompleteEvent g) (PendingCmd g) (cmdlist g) (Varlist g) (BootSlotInfo g)
    (SlotCount g) (SlotSuffixArray g) (SlotCountVar g) (CurrentSlotFB g)
    (InitialPopulate g) (SnapshotMergeState g) (StrBatteryVoltage g) (StrBatterySocOk g)
    (ChargeScreenEnable g) (OffModeCharge g) (IsAllowUnlock g) (IsFirstEraseFlash g)
    (ResetReason g) (RxQueue g) (Sent g).
Definition fb_mFlashNumDataBytes (x : Z) (g : FbGlobals) : FbGlobals :=
  mkFb (mState g) (mNumDataBytes g) x (mBytesReceivedSoFar g) (mDataBuffer g) (DataMem
    g) (mUsbDataBuffer g) (mFlashDataBuffer g) (MaxDownLoadSize g) (Lun g) (LunSet g)
    (IsFlashComplete g) (FlashResult g) (FlashThread g) (UsbTimerEvent g)
    (FlashCompleteEvent g) (PendingCmd g) (cmdlist g) (Varlist g) (BootSlotInfo g)
    (SlotCount g) (SlotSuffixArray g) (SlotCountVar g) (CurrentSlotFB g)
    (InitialPopulate g) (SnapshotMergeState g) (StrBatteryVoltage g) (StrBatterySocOk g)
    (ChargeScreenEnable g) (OffModeCharge g) (IsAllowUnlock g) (IsFirstEraseFlash g)
    (ResetReason g) (RxQueue g) (Sent g).
Definition fb_mBytesReceivedSoFar (x : Z) (g : FbGlobals) : FbGlobals :=
  mkFb (mState g) (mNumDataBytes g) (mFlashNumDataBytes g) x (mDataBuffer g) (DataMem g)
    (mUsbDataBuffer g) (mFlashDataBuffer g) (MaxDownLoadSize g) (Lun g) (LunSet g)
    (IsFlashComplete g) (FlashResult g) (FlashThread g) (UsbTimerEvent g)
    (FlashCompleteEvent g) (PendingCmd g) (cmdlist g) (Varlist g) (BootSlotInfo g)
    (SlotCount g) (SlotSuffixArray g) (SlotCountVar g) (CurrentSlotFB g)
    (InitialPopulate g) (SnapshotMergeState g) (StrBatteryVoltage g) (StrBatterySocOk g)
    (ChargeScreenEnable g) (OffModeCharge g) (IsAllowUnlock g) (IsFirstEraseFlash g)
    (ResetReason g) (RxQueue g) (Sent g).
Definition fb_mDataBuffer (x : Z) (g : FbGlobals) : FbGlobals :=
  mkFb (mState g) (mNumDataBytes g) (mFlashNumDataBytes g) (mBytesReceivedSoFar g) x
    (DataMem g) (mUsbDataBuffer g) (mFlashDataBuffer g) (MaxDownLoadSize g) (Lun g)
    (LunSet g) (IsFlashComplete g) (FlashResult g) (FlashThread g) (UsbTimerEvent g)
    (FlashCompleteEvent g) (PendingCmd g) (cmdlist g) (Varlist g) (BootSlotInfo g)
    (SlotCount g) (SlotSuffixArray g) (SlotCountVar g) (CurrentSlotFB g)
    (InitialPopulate g) (SnapshotMergeState g) (StrBatteryVoltage g) (StrBatterySocOk g)
    (ChargeScreenEnable g) (OffModeCharge g) (IsAllowUnlock g) (IsFirstEraseFlash g)
    (ResetReason g) (RxQueue g) (Sent g).
Definition fb_DataMem (x : list Z) (g : FbGlobals) : FbGlobals :=
  mkFb (mState g) (mNumDataBytes g) (mFlashNumDataBytes g) (mBytesReceivedSoFar g)
    (mDataBuffer g) x (mUsbDataBuffer g) (mFlashDataBuffer g) (MaxDownLoadSize g) (Lun
    g) (LunSet g) (IsFlashComplete g) (FlashResult g) (FlashThread g) (UsbTimerEvent g)
    (FlashCompleteEvent g) (PendingCmd g) (cmdlist g) (Varlist g) (BootSlotInfo g)
    (SlotCount g) (SlotSuffixArray g) (SlotCountVar g) (CurrentSlotFB g)
    (InitialPopulate g) (SnapshotMergeState g) (StrBatteryVoltage g) (StrBatterySocOk g)
    (ChargeScreenEnable g) (OffModeCharge g) (IsAllowUnlock g) (IsFirstEraseFlash g)
    (ResetReason g) (RxQueue g) (Sent g).
Definition fb_mUsbDataBuffer (x : Z) (g : FbGlobals) : FbGlobals :=
  mkFb (mState g) (mNumDataBytes g) (mFlashNumDataBytes g) (mBytesReceivedSoFar g)
    (mDataBuffer g) (DataMem g) x (mFlashDataBuffer g) (MaxDownLoadSize g) (Lun g)
    (LunSet g) (IsFlashComplete g) (FlashResult g) (FlashThread g) (UsbTimerEvent g)
    (FlashCompleteEvent g) (PendingCmd g) (cmdlist g) (Varlist g) (BootSlotInfo g)
    (SlotCount g) (SlotSuffixArray g) (SlotCountVar g) (CurrentSlotFB g)
    (InitialPopulate g) (SnapshotMergeState g) (StrBatteryVoltage g) (StrBatterySocOk g)
    (ChargeScreenEnable g) (OffModeCharge g) (IsAllowUnlock g) (IsFirstEraseFlash g)
    (ResetReason g) (RxQueue g) (Sent g).
Definition fb_mFlashDataBuffer (x : Z) (g : FbGlobals) : FbGlobals :=
  mkFb (mState g) (mNumDataBytes g) (mFlashNumDataBytes g) (mBytesReceivedSoFar g)
    (mDataBuffer g) (DataMem g) (mUsbDataBuffer g) x (MaxDownLoadSize g) (Lun g) (LunSet
    g) (IsFlashComplete g) (FlashResult g) (FlashThread g) (UsbTimerEvent g)
    (FlashCompleteEvent g) (PendingCmd g) (cmdlist g) (Varlist g) (BootSlotInfo g)
    (SlotCount g) (SlotSuffixArray g) (SlotCountVar g) (CurrentSlotFB g)
    (InitialPopulate g) (SnapshotMergeState g) (StrBatteryVoltage g) (StrBatterySocOk g)
    (ChargeScreenEnable g) (OffModeCharge g) (IsAllowUnlock g) (IsFirstEraseFlash g)
    (ResetReason g) (RxQueue g) (Sent g).
Definition fb_MaxDownLoadSize (x : Z) (g : FbGlobals) : FbGlobals :=
  mkFb (mState g) (mNumDataBytes g) (mFlashNumDataBytes g) (mBytesReceivedSoFar g)
    (mDataBuffer g) (DataMem g) (mUsbDataBuffer g) (mFlashDataBuffer g) x (Lun g)
    (LunSet g) (IsFlashComplete g) (FlashResult g) (FlashThread g) (UsbTimerEvent g)
    (FlashCompleteEvent g) (PendingCmd g) (cmdlist g) (Varlist g) (BootSlotInfo g)
    (SlotCount g) (SlotSuffixArray g) (SlotCountVar g) (CurrentSlotFB g)
    (InitialPopulate g) (SnapshotMergeState g) (StrBatteryVoltage g) (StrBatterySocOk g)
    (ChargeScreenEnable g) (OffModeCharge g) (IsAllowUnlock g) (IsFirstEraseFlash g)
    (ResetReason g) (RxQueue g) (Sent g).
Definition fb_Lun (x : Z) (g : FbGlobals) : FbGlobals :=
  mkFb (mState g) (mNumDataBytes g) (mFlashNumDataBytes g) (mBytesReceivedSoFar g)
    (mDataBuffer g) (DataMem g) (mUsbDataBuffer g) (mFlashDataBuffer g) (MaxDownLoadSize
    g) x (LunSet g) (IsFlashComplete g) (FlashResult g) (FlashThread g) (UsbTimerEvent
    g) (FlashCompleteEvent g) (PendingCmd g) (cmdlist g) (Varlist g) (BootSlotInfo g)
    (SlotCount g) (SlotSuffixArray g) (SlotCountVar g) (CurrentSlotFB g)
    (InitialPopulate g) (SnapshotMergeState g) (StrBatteryVoltage g) (StrBatterySocOk g)
    (ChargeScreenEnable g) (OffModeCharge g) (IsAllowUnlock g) (IsFirstEraseFlash g)
    (ResetReason g) (RxQueue g) (Sent g).
Definition fb_LunSet (x : bool) (g : FbGlobals) : FbGlobals :=
  mkFb (mState g) (mNumDataBytes g) (mFlashNumDataBytes g) (mBytesReceivedSoFar g)
    (mDataBuffer g) (DataMem g) (mUsbDataBuffer g) (mFlashDataBuffer g) (MaxDownLoadSize
    g) (Lun g) x (IsFlashComplete g) (FlashResult g) (FlashThread g) (UsbTimerEvent g)
    (FlashCompleteEvent g) (PendingCmd g) (cmdlist g) (Varlist g) (BootSlotInfo g)
    (SlotCount g) (SlotSuffixArray g) (SlotCountVar g) (CurrentSlotFB g)
    (InitialPopulate g) (SnapshotMergeState g) (StrBatteryVoltage g) (StrBatterySocOk g)
    (ChargeScreenEnable g) (OffModeCharge g) (IsAllowUnlock g) (IsFirstEraseFlash g)
    (ResetReason g) (RxQueue g) (Sent g).
Definition fb_IsFlashComplete (x : bool) (g : FbGlobals) : FbGlobals :=
  mkFb (mState g) (mNumDataBytes g) (mFlashNumDataBytes g) (mBytesReceivedSoFar g)
    (mDataBuffer g) (DataMem g) (mUsbDataBuffer g) (mFlashDataBuffer g) (MaxDownLoadSize
    g) (Lun g) (LunSet g) x (FlashResult g) (FlashThread g) (UsbTimerEvent g)
    (FlashCompleteEvent g) (PendingCmd g) (cmdlist g) (Varlist g) (BootSlotInfo g)
    (SlotCount g) (SlotSuffixArray g) (SlotCountVar g) (CurrentSlotFB g)
    (InitialPopulate g) (SnapshotMergeState g) (StrBatteryVoltage g) (StrBatterySocOk g)
    (ChargeScreenEnable g) (OffModeCharge g) (IsAllowUnlock g) (IsFirstEraseFlash g)
    (ResetReason g) (RxQueue g) (Sent g).
Definition fb_FlashResult (x : EFI_STATUS) (g : FbGlobals) : FbGlobals :=
  mkFb (mState g) (mNumDataBytes g) (mFlashNumDataBytes g) (mBytesReceivedSoFar g)
    (mDataBuffer g) (DataMem g) (mUsbDataBuffer g) (mFlashDataBuffer g) (MaxDownLoadSize
    g) (Lun g) (LunSet g) (IsFlashComplete g) x (FlashThread g) (UsbTimerEvent g)
    (FlashCompleteEvent g) (PendingCmd g) (cmdlist g) (Varlist g) (BootSlotInfo g)
    (SlotCount g) (SlotSuffixArray g) (SlotCountVar g) (CurrentSlotFB g)
    (InitialPopulate g) (SnapshotMergeState g) (StrBatteryVoltage g) (StrBatterySocOk g)
    (ChargeScreenEnable g) (OffModeCharge g) (IsAllowUnlock g) (IsFirstEraseFlash g)
    (ResetReason g) (RxQueue g) (Sent g).
Definition fb_FlashThread (x : option FlashInfo) (g : FbGlobals) : FbGlobals :=
  mkFb (mState g) (mNumDataBytes g) (mFlashNumDataBytes g) (mBytesReceivedSoFar g)
    (mDataBuffer g) (DataMem g) (mUsbDataBuffer g) (mFlashDataBuffer g) (MaxDownLoadSize
    g) (Lun g) (LunSet g) (IsFlashComplete g) (FlashResult g) x (UsbTimerEvent g)
    (FlashCompleteEvent g) (PendingCmd g) (cmdlist g) (Varlist g) (BootSlotInfo g)
    (SlotCount g) (SlotSuffixArray g) (SlotCountVar g) (CurrentSlotFB g)
    (InitialPopulate g) (SnapshotMergeState g) (StrBatteryVoltage g) (StrBatterySocOk g)
    (ChargeScreenEnable g) (OffModeCharge g) (IsAllowUnlock g) (IsFirstEraseFlash g)
    (ResetReason g) (RxQueue g) (Sent g).
Definition fb_UsbTimerEvent (x : bool) (g : FbGlobals) : FbGlobals :=
  mkFb (mState g) (mNumDataBytes g) (mFlashNumDataBytes g) (mBytesReceivedSoFar g)
    (mDataBuffer g) (DataMem g) (mUsbDataBuffer g) (mFlashDataBuffer g) (MaxDownLoadSize
    g) (Lun g) (LunSet g) (IsFlashComplete g) (FlashResult g) (FlashThread g) x
    (FlashCompleteEvent g) (PendingCmd g) (cmdlist g) (Varlist g) (BootSlotInfo g)
    (SlotCount g) (SlotSuffixArray g) (SlotCountVar g) (CurrentSlotFB g)
    (InitialPopulate g) (SnapshotMergeState g) (StrBatteryVoltage g) (StrBatterySocOk g)
    (ChargeScreenEnable g) (OffModeCharge g) (IsAllowUnlock g) (IsFirstEraseFlash g)
    (ResetReason g) (RxQueue g) (Sent g).
Definition fb_FlashCompleteEvent (x : bool) (g : FbGlobals) : FbGlobals :=
  mkFb (mState g) (mNumDataBytes g) (mFlashNumDataBytes g) (mBytesReceivedSoFar g)
    (mDataBuffer g) (DataMem g) (mUsbDataBuffer g) (mFlashDataBuffer g) (MaxDownLoadSize
    g) (Lun g) (LunSet g) (IsFlashComplete g) (FlashResult g) (FlashThread g)
    (UsbTimerEvent g) x (PendingCmd g) (cmdlist g) (Varlist g) (BootSlotInfo g)
    (SlotCount g) (SlotSuffixArray g) (SlotCountVar g) (CurrentSlotFB g)
    (InitialPopulate g) (SnapshotMergeState g) (StrBatteryVoltage g) (StrBatterySocOk g)
    (ChargeScreenEnable g) (OffModeCharge g) (IsAllowUnlock g) (IsFirstEraseFlash g)
    (ResetReason g) (RxQueue g) (Sent g).
Definition fb_PendingCmd (x : option CmdInfo) (g : FbGlobals) : FbGlobals :=
  mkFb (mState g) (mNumDataBytes g) (mFlashNumDataBytes g) (mBytesReceivedSoFar g)
    (mDataBuffer g) (DataMem g) (mUsbDataBuffer g) (mFlashDataBuffer g) (MaxDownLoadSize
    g) (Lun g) (LunSet g) (IsFlashComplete g) (FlashResult g) (FlashThread g)
    (UsbTimerEvent g) (FlashCompleteEvent g) x (cmdlist g) (Varlist g) (BootSlotInfo g)
    (SlotCount g) (SlotSuffixArray g) (SlotCountVar g) (CurrentSlotFB g)
    (InitialPopulate g) (SnapshotMergeState g) (StrBatteryVoltage g) (StrBatterySocOk g)
    (ChargeScreenEnable g) (OffModeCharge g) (IsAllowUnlock g) (IsFirstEraseFlash g)
    (ResetReason g) (RxQueue g) (Sent g).
Definition fb_cmdlist (x : list FASTBOOT_CMD) (g : FbGlobals) : FbGlobals :=
  mkFb (mState g) (mNumDataBytes g) (mFlashNumDataBytes g) (mBytesReceivedSoFar g)
    (mDataBuffer g) (DataMem g) (mUsbDataBuffer g) (mFlashDataBuffer g) (MaxDownLoadSize
    g) (Lun g) (LunSet g) (IsFlashComplete g) (FlashResult g) (FlashThread g)
    (UsbTimerEvent g) (FlashCompleteEvent g) (PendingCmd g) x (Varlist g) (BootSlotInfo
    g) (SlotCount g) (SlotSuffixArray g) (SlotCountVar g) (CurrentSlotFB g)
    (InitialPopulate g) (SnapshotMergeState g) (StrBatteryVoltage g) (StrBatterySocOk g)
    (ChargeScreenEnable g) (OffModeCharge g) (IsAllowUnlock g) (IsFirstEraseFlash g)
    (ResetReason g) (RxQueue g) (Sent g).
Definition fb_Varlist (x : list FASTBOOT_VAR) (g : FbGlobals) : FbGlobals :=
  mkFb (mState g) (mNumDataBytes g) (mFlashNumDataBytes g) (mBytesReceivedSoFar g)
    (mDataBuffer g) (DataMem g) (mUsbDataBuffer g) (mFlashDataBuffer g) (MaxDownLoadSize
    g) (Lun g) (LunSet g) (IsFlashComplete g) (FlashResult g) (FlashThread g)
    (UsbTimerEvent g) (FlashCompleteEvent g) (PendingCmd g) (cmdlist g) x (BootSlotInfo
    g) (SlotCount g) (SlotSuffixArray g) (SlotCountVar g) (CurrentSlotFB g)
    (InitialPopulate g) (SnapshotMergeState g) (StrBatteryVoltage g) (StrBatterySocOk g)
    (ChargeScreenEnable g) (OffModeCharge g) (IsAllowUnlock g) (IsFirstEraseFlash g)
    (ResetReason g) (RxQueue g) (Sent g).
Definition fb_BootSlotInfo (x : option (list GetVarSlotInfo)) (g : FbGlobals) : FbGlobals :=
  mkFb (mState g) (mNumDataBytes g) (mFlashNumDataBytes g) (mBytesReceivedSoFar g)
    (mDataBuffer g) (DataMem g) (mUsbDataBuffer g) (mFlashDataBuffer g) (MaxDownLoadSize
    g) (Lun g) (LunSet g) (IsFlashComplete g) (FlashResult g) (FlashThread g)
    (UsbTimerEvent g) (FlashCompleteEvent g) (PendingCmd g) (cmdlist g) (Varlist g) x
    (SlotCount g) (SlotSuffixArray g) (SlotCountVar g) (CurrentSlotFB g)
    (InitialPopulate g) (SnapshotMergeState g) (StrBatteryVoltage g) (StrBatterySocOk g)
    (ChargeScreenEnable g) (OffModeCharge g) (IsAllowUnlock g) (IsFirstEraseFlash g)
    (ResetReason g) (RxQueue g) (Sent g).
Definition fb_SlotCount (x : Z) (g : FbGlobals) : FbGlobals :=
  mkFb (mState g) (mNumDataBytes g) (mFlashNumDataBytes g) (mBytesReceivedSoFar g)
    (mDataBuffer g) (DataMem g) (mUsbDataBuffer g) (mFlashDataBuffer g) (MaxDownLoadSize
    g) (Lun g) (LunSet g) (IsFlashComplete g) (FlashResult g) (FlashThread g)
    (UsbTimerEvent g) (FlashCompleteEvent g) (PendingCmd g) (cmdlist g) (Varlist g)
    (BootSlotInfo g) x (SlotSuffixArray g) (SlotCountVar g) (CurrentSlotFB g)
    (InitialPopulate g) (SnapshotMergeState g) (StrBatteryVoltage g) (StrBatterySocOk g)
    (ChargeScreenEnable g) (OffModeCharge g) (IsAllowUnlock g) (IsFirstEraseFlash g)
    (ResetReason g) (RxQueue g) (Sent g).
Definition fb_SlotSuffixArray (x : list Z) (g : FbGlobals) : FbGlobals :=
  mkFb (mState g) (mNumDataBytes g) (mFlashNumDataBytes g) (mBytesReceivedSoFar g)
    (mDataBuffer g) (DataMem g) (mUsbDataBuffer g) (mFlashDataBuffer g) (MaxDownLoadSize
    g) (Lun g) (LunSet g) (IsFlashComplete g) (FlashResult g) (FlashThread g)
    (UsbTimerEvent g) (FlashCompleteEvent g) (PendingCmd g) (cmdlist g) (Varlist g)
    (BootSlotInfo g) (SlotCount g) x (SlotCountVar g) (CurrentSlotFB g) (InitialPopulate
    g) (SnapshotMergeState g) (StrBatteryVoltage g) (StrBatterySocOk g)
    (ChargeScreenEnable g) (OffModeCharge g) (IsAllowUnlock g) (IsFirstEraseFlash g)
    (ResetReason g) (RxQueue g) (Sent g).
Definition fb_SlotCountVar (x : list Z) (g : FbGlobals) : FbGlobals :=
  mkFb (mState g) (mNumDataBytes g) (mFlashNumDataBytes g) (mBytesReceivedSoFar g)
    (mDataBuffer g) (DataMem g) (mUsbDataBuffer g) (mFlashDataBuffer g) (MaxDownLoadSize
    g) (Lun g) (LunSet g) (IsFlashComplete g) (FlashResult g) (FlashThread g)
    (UsbTimerEvent g) (FlashCompleteEvent g) (PendingCmd g) (cmdlist g) (Varlist g)
    (BootSlotInfo g) (SlotCount g) (SlotSuffixArray g) x (CurrentSlotFB g)
    (InitialPopulate g) (SnapshotMergeState g) (StrBatteryVoltage g) (StrBatterySocOk g)
    (ChargeScreenEnable g) (OffModeCharge g) (IsAllowUnlock g) (IsFirstEraseFlash g)
    (ResetReason g) (RxQueue g) (Sent g).
Definition fb_CurrentSlotFB (x : list Z) (g : FbGlobals) : FbGlobals :=
  mkFb (mState g) (mNumDataBytes g) (mFlashNumDataBytes g) (mBytesReceivedSoFar g)
    (mDataBuffer g) (DataMem g) (mUsbDataBuffer g) (mFlashDataBuffer g) (MaxDownLoadSize
    g) (Lun g) (LunSet g) (IsFlashComplete g) (FlashResult g) (FlashThread g)
    (UsbTimerEvent g) (FlashCompleteEvent g) (PendingCmd g) (cmdlist g) (Varlist g)
    (BootSlotInfo g) (SlotCount g) (SlotSuffixArray g) (SlotCountVar g) x
    (InitialPopulate g) (SnapshotMergeState g) (StrBatteryVoltage g) (StrBatterySocOk g)
    (ChargeScreenEnable g) (OffModeCharge g) (IsAllowUnlock g) (IsFirstEraseFlash g)
    (ResetReason g) (RxQueue g) (Sent g).
Definition fb_InitialPopulate (x : bool) (g : FbGlobals) : FbGlobals :=
  mkFb (mState g) (mNumDataBytes g) (mFlashNumDataBytes g) (mBytesReceivedSoFar g)
    (mDataBuffer g) (DataMem g) (mUsbDataBuffer g) (mFlashDataBuffer g) (MaxDownLoadSize
    g) (Lun g) (LunSet g) (IsFlashComplete g) (FlashResult g) (FlashThread g)
    (UsbTimerEvent g) (FlashCompleteEvent g) (PendingCmd g) (cmdlist g) (Varlist g)
    (BootSlotInfo g) (SlotCount g) (SlotSuffixArray g) (SlotCountVar g) (CurrentSlotFB
    g) x (SnapshotMergeState g) (StrBatteryVoltage g) (StrBatterySocOk g)
    (ChargeScreenEnable g) (OffModeCharge g) (IsAllowUnlock g) (IsFirstEraseFlash g)
    (ResetReason g) (RxQueue g) (Sent g).
Definition fb_SnapshotMergeState (x : list Z) (g : FbGlobals) : FbGlobals :=
  mkFb (mState g) (mNumDataBytes g) (mFlashNumDataBytes g) (mBytesReceivedSoFar g)
    (mDataBuffer g) (DataMem g) (mUsbDataBuffer g) (mFlashDataBuffer g) (MaxDownLoadSize
    g) (Lun g) (LunSet g) (IsFlashComplete g) (FlashResult g) (FlashThread g)
    (UsbTimerEvent g) (FlashCompleteEvent g) (PendingCmd g) (cmdlist g) (Varlist g)
    (BootSlotInfo g) (SlotCount g) (SlotSuffixArray g) (SlotCountVar g) (CurrentSlotFB
    g) (InitialPopulate g) x (StrBatteryVoltage g) (StrBatterySocOk g)
    (ChargeScreenEnable g) (OffModeCharge g) (IsAllowUnlock g) (IsFirstEraseFlash g)
    (ResetReason g) (RxQueue g) (Sent g).
Definition fb_StrBatteryVoltage (x : list Z) (g : FbGlobals) : FbGlobals :=
  mkFb (mState g) (mNumDataBytes g) (mFlashNumDataBytes g) (mBytesReceivedSoFar g)
    (mDataBuffer g) (DataMem g) (mUsbDataBuffer g) (mFlashDataBuffer g) (MaxDownLoadSize
    g) (Lun g) (LunSet g) (IsFlashComplete g) (FlashResult g) (FlashThread g)
    (UsbTimerEvent g) (FlashCompleteEvent g) (PendingCmd g) (cmdlist g) (Varlist g)
    (BootSlotInfo g) (SlotCount g) (SlotSuffixArray g) (SlotCountVar g) (CurrentSlotFB
    g) (InitialPopulate g) (SnapshotMergeState g) x (StrBatterySocOk g)
    (ChargeScreenEnable g) (OffModeCharge g) (IsAllowUnlock g) (IsFirstEraseFlash g)
    (ResetReason g) (RxQueue g) (Sent g).
Definition fb_StrBatterySocOk (x : list Z) (g : FbGlobals) : FbGlobals :=
  mkFb (mState g) (mNumDataBytes g) (mFlashNumDataBytes g) (mBytesReceivedSoFar g)
    (mDataBuffer g) (DataMem g) (mUsbDataBuffer g) (mFlashDataBuffer g) (MaxDownLoadSize
    g) (Lun g) (LunSet g) (IsFlashComplete g) (FlashResult g) (FlashThread g)
    (UsbTimerEvent g) (FlashCompleteEvent g) (PendingCmd g) (cmdlist g) (Varlist g)
    (BootSlotInfo g) (SlotCount g) (SlotSuffixArray g) (SlotCountVar g) (CurrentSlotFB
    g) (InitialPopulate g) (SnapshotMergeState g) (StrBatteryVoltage g) x
    (ChargeScreenEnable g) (OffModeCharge g) (IsAllowUnlock g) (IsFirstEraseFlash g)
    (ResetReason g) (RxQueue g) (Sent g).
Definition fb_ChargeScreenEnable (x : list Z) (g : FbGlobals) : FbGlobals :=
  mkFb (mState g) (mNumDataBytes g) (mFlashNumDataBytes g) (mBytesReceivedSoFar g)
    (mDataBuffer g) (DataMem g) (mUsbDataBuffer g) (mFlashDataBuffer g) (MaxDownLoadSize
    g) (Lun g) (LunSet g) (IsFlashComplete g) (FlashResult g) (FlashThread g)
    (UsbTimerEvent g) (FlashCompleteEvent g) (PendingCmd g) (cmdlist g) (Varlist g)
    (BootSlotInfo g) (SlotCount g) (SlotSuffixArray g) (SlotCountVar g) (CurrentSlotFB
    g) (InitialPopulate g) (SnapshotMergeState g) (StrBatteryVoltage g) (StrBatterySocOk
    g) x (OffModeCharge g) (IsAllowUnlock g) (IsFirstEraseFlash g) (ResetReason g)
    (RxQueue g) (Sent g).
Definition fb_OffModeCharge (x : list Z) (g : FbGlobals) : FbGlobals :=
  mkFb (mState g) (mNumDataBytes g) (mFlashNumDataBytes g) (mBytesReceivedSoFar g)
    (mDataBuffer g) (DataMem g) (mUsbDataBuffer g) (mFlashDataBuffer g) (MaxDownLoadSize
    g) (Lun g) (LunSet g) (IsFlashComplete g) (FlashResult g) (FlashThread g)
    (UsbTimerEvent g) (FlashCompleteEvent g) (PendingCmd g) (cmdlist g) (Varlist g)
    (BootSlotInfo g) (SlotCount g) (SlotSuffixArray g) (SlotCountVar g) (CurrentSlotFB
    g) (InitialPopulate g) (SnapshotMergeState g) (StrBatteryVoltage g) (StrBatterySocOk
    g) (ChargeScreenEnable g) x (IsAllowUnlock g) (IsFirstEraseFlash g) (ResetReason g)
    (RxQueue g) (Sent g).
Definition fb_IsAllowUnlock (x : Z) (g : FbGlobals) : FbGlobals :=
  mkFb (mState g) (mNumDataBytes g) (mFlashNumDataBytes g) (mBytesReceivedSoFar g)
    (mDataBuffer g) (DataMem g) (mUsbDataBuffer g) (mFlashDataBuffer g) (MaxDownLoadSize
    g) (Lun g) (LunSet g) (IsFlashComplete g) (FlashResult g) (FlashThread g)
    (UsbTimerEvent g) (FlashCompleteEvent g) (PendingCmd g) (cmdlist g) (Varlist g)
    (BootSlotInfo g) (SlotCount g) (SlotSuffixArray g) (SlotCountVar g) (CurrentSlotFB
    g) (InitialPopulate g) (SnapshotMergeState g) (StrBatteryVoltage g) (StrBatterySocOk
    g) (ChargeScreenEnable g) (OffModeCharge g) x (IsFirstEraseFlash g) (ResetReason g)
    (RxQueue g) (Sent g).
Definition fb_IsFirstEraseFlash (x : bool) (g : FbGlobals) : FbGlobals :=
  mkFb (mState g) (mNumDataBytes g) (mFlashNumDataBytes g) (mBytesReceivedSoFar g)
    (mDataBuffer g) (DataMem g) (mUsbDataBuffer g) (mFlashDataBuffer g) (MaxDownLoadSize
    g) (Lun g) (LunSet g) (IsFlashComplete g) (FlashResult g) (FlashThread g)
    (UsbTimerEvent g) (FlashCompleteEvent g) (PendingCmd g) (cmdlist g) (Varlist g)
    (BootSlotInfo g) (SlotCount g) (SlotSuffixArray g) (SlotCountVar g) (CurrentSlotFB
    g) (InitialPopulate g) (SnapshotMergeState g) (StrBatteryVoltage g) (StrBatterySocOk
    g) (ChargeScreenEnable g) (OffModeCharge g) (IsAllowUnlock g) x (ResetReason g)
    (RxQueue g) (Sent g).
Definition fb_ResetReason (x : option Z) (g : FbGlobals) : FbGlobals :=
  mkFb (mState g) (mNumDataBytes g) (mFlashNumDataBytes g) (mBytesReceivedSoFar g)
    (mDataBuffer g) (DataMem g) (mUsbDataBuffer g) (mFlashDataBuffer g) (MaxDownLoadSize
    g) (Lun g) (LunSet g) (IsFlashComplete g) (FlashResult g) (FlashThread g)
    (UsbTimerEvent g) (FlashCompleteEvent g) (PendingCmd g) (cmdlist g) (Varlist g)
    (BootSlotInfo g) (SlotCount g) (SlotSuffixArray g) (SlotCountVar g) (CurrentSlotFB
    g) (InitialPopulate g) (SnapshotMergeState g) (StrBatteryVoltage g) (StrBatterySocOk
    g) (ChargeScreenEnable g) (OffModeCharge g) (IsAllowUnlock g) (IsFirstEraseFlash g)
    x (RxQueue g) (Sent g).
Definition fb_RxQueue (x : option (Z * option Z)) (g : FbGlobals) : FbGlobals :=
  mkFb (mState g) (mNumDataBytes g) (mFlashNumDataBytes g) (mBytesReceivedSoFar g)
    (mDataBuffer g) (DataMem g) (mUsbDataBuffer g) (mFlashDataBuffer g) (MaxDownLoadSize
    g) (Lun g) (LunSet g) (IsFlashComplete g) (FlashResult g) (FlashThread g)
    (UsbTimerEvent g) (FlashCompleteEvent g) (PendingCmd g) (cmdlist g) (Varlist g)
    (BootSlotInfo g) (SlotCount g) (SlotSuffixArray g) (SlotCountVar g) (CurrentSlotFB
    g) (InitialPopulate g) (SnapshotMergeState g) (StrBatteryVoltage g) (StrBatterySocOk
    g) (ChargeScreenEnable g) (OffModeCharge g) (IsAllowUnlock g) (IsFirstEraseFlash g)
    (ResetReason g) x (Sent g).
Definition fb_Sent (x : list (list Z)) (g : FbGlobals) : FbGlobals :=
  mkFb (mState g) (mNumDataBytes g) (mFlashNumDataBytes g) (mBytesReceivedSoFar g)
    (mDataBuffer g) (DataMem g) (mUsbDataBuffer g) (mFlashDataBuffer g) (MaxDownLoadSize
    g) (Lun g) (LunSet g) (IsFlashComplete g) (FlashResult g) (FlashThread g)
    (UsbTimerEvent g) (FlashCompleteEvent g) (PendingCmd g) (cmdlist g) (Varlist g)
    (BootSlotInfo g) (SlotCount g) (SlotSuffixArray g) (SlotCountVar g) (CurrentSlotFB
    g) (InitialPopulate g) (SnapshotMergeState g) (StrBatteryVoltage g) (StrBatterySocOk
    g) (ChargeScreenEnable g) (OffModeCharge g) (IsAllowUnlock g) (IsFirstEraseFlash g)
    (ResetReason g) (RxQueue g) x.

(** What is known of the boot device: [BootDeviceType] of [LinuxLoader.c] and
    the static [Type] of [CheckRootDeviceType] in [Board.c]. *)
Record RootGlobals := mkRoot {
  BootDeviceType : Z;
  RootType : MemCardType;
}.

(** [ri] is [HasRecoveryInfo] of [RecoveryInfo.c]: -1 before the first query. *)
Record World `{Firmware} := mkWorld {
  fw : Fw;
  pt : PtGlobals;
  ld : LoaderGlobals;
  dv : DevGlobals;
  lb : LibGlobals;
  ri : Z;
  fb : FbGlobals;
  rt : RootGlobals;
}.

Section Updates.
Context `{F : Firmware}.

Definition set_fw (x : Fw) (w : World) : World :=
  mkWorld F x (pt w) (ld w) (dv w) (lb w) (ri w) (fb w) (rt w).
Definition upd_pt (f : PtGlobals -> PtGlobals) (w : World) : World :=
  mkWorld F (fw w) (f (pt w)) (ld w) (dv w) (lb w) (ri w) (fb w) (rt w).
Definition upd_dv (f : DevGlobals -> DevGlobals) (w : World) : World :=
  mkWorld F (fw w) (pt w) (ld w) (f (dv w)) (lb w) (ri w) (fb w) (rt w).
Definition upd_lb (f : LibGlobals -> LibGlobals) (w : World) : World :=
  mkWorld F (fw w) (pt w) (ld w) (dv w) (f (lb w)) (ri w) (fb w) (rt w).
Definition set_ri (x : Z) (w : World) : World :=
  mkWorld F (fw w) (pt w) (ld w) (dv w) (lb w) x (fb w) (rt w).
Definition upd_fb (f : FbGlobals -> FbGlobals) (w : World) : World :=
  mkWorld F (fw w) (pt w) (ld w) (dv w) (lb w) (ri w) (f (fb w)) (rt w).
Definition set_rt (x : RootGlobals) (w : World) : World :=
  mkWorld F (fw w) (pt w) (ld w) (dv w) (lb w) (ri w) (fb w) x.
End Updates.

Definition set_FlashingGpt (x : bool) (p : PtGlobals) : PtGlobals :=
  mkPt x (ParseSecondaryGpt p) (Ptable p) (PtnEntries p) (MaxLuns p)
    (PartitionCount p) (FirstBoot p) (PtnEntriesBak p) (HeadNode p).
Definition set_ParseSecondaryGpt (x : bool) (p : PtGlobals) : PtGlobals :=
  mkPt (FlashingGpt p) x (Ptable p) (PtnEntries p) (MaxLuns p)
    (PartitionCount p) (FirstBoot p) (PtnEntriesBak p) (HeadNode p).
Definition set_Ptable (x : list StoragePartInfo) (p : PtGlobals) : PtGlobals :=
  mkPt (FlashingGpt p) (ParseSecondaryGpt p) x (PtnEntries p) (MaxLuns p)
    (PartitionCount p) (FirstBoot p) (PtnEntriesBak p) (HeadNode p).
Definition set_PtnEntries (x : list PartitionEntry) (p : PtGlobals) : PtGlobals :=
  mkPt (FlashingGpt p) (ParseSecondaryGpt p) (Ptable p) x (MaxLuns p)
    (PartitionCount p) (FirstBoot p) (PtnEntriesBak p) (HeadNode p).
Definition set_MaxLuns (x : Z) (p : PtGlobals) : PtGlobals :=
  mkPt (FlashingGpt p) (ParseSecondaryGpt p) (Ptable p) (PtnEntries p) x
    (PartitionCount p) (FirstBoot p) (PtnEntriesBak p) (HeadNode p).
Definition set_PartitionCount (x : Z) (p : PtGlobals) : PtGlobals :=
  mkPt (FlashingGpt p) (ParseSecondaryGpt p) (Ptable p) (PtnEntries p) (MaxLuns p)
    x (FirstBoot p) (PtnEntriesBak p) (HeadNode p).
Definition set_FirstBoot (x : bool) (p : PtGlobals) : PtGlobals :=
  mkPt (FlashingGpt p) (ParseSecondaryGpt p) (Ptable p) (PtnEntries p) (MaxLuns p)
    (PartitionCount p) x (PtnEntriesBak p) (HeadNode p).
Definition set_PtnEntriesBak (x : list PartitionEntry) (p : PtGlobals) : PtGlobals :=
  mkPt (FlashingGpt p) (ParseSecondaryGpt p) (Ptable p) (PtnEntries p) (MaxLuns p)
    (PartitionCount p) (FirstBoot p) x (HeadNode p).
Definition set_HeadNode (x : list (list Z)) (p : PtGlobals) : PtGlobals :=
  mkPt (FlashingGpt p) (ParseSecondaryGpt p) (Ptable p) (PtnEntries p) (MaxLuns p)
    (PartitionCount p) (FirstBoot p) (PtnEntriesBak p) x.

Abbreviation MW := (M World).

(** ** Frames *)

(** The slot table: what the A/B logic decides from.  Updating the table on
    the storage device changes none of it. *)
Definition same_slots `{Firmware} (w w' : World) : Prop :=
  PtnEntries (pt w') = PtnEntries (pt w) /\
  PartitionCount (pt w') = PartitionCount (pt w) /\
  FirstBoot (pt w') = FirstBoot (pt w) /\
  HeadNode (pt w') = HeadNode (pt w) /\
  MaxLuns (pt w') = MaxLuns (pt w) /\
  ld w' = ld w /\ dv w' = dv w /\ lb w' = lb w /\
  ri w' = ri w /\ fb w' = fb w.

(** ... and what is known of the boot device. *)
Definition same_state `{Firmware} (w w' : World) : Prop :=
  same_slots w w' /\ rt w' = rt w.

(** Everything but the firmware and the partition-table state. *)
Definition same_rest `{Firmware} (w w' : World) : Prop :=
  ld w' = ld w /\ dv w' = dv w /\ lb w' = lb w /\
  ri w' = ri w /\ fb w' = fb w.

(** Nothing at all, and nothing above the firmware. *)
Definition same_globals `{Firmware} (w w' : World) : Prop :=
  pt w' = pt w /\ ld w' = ld w /\ dv w' = dv w /\ lb w' = lb w /\
  ri w' = ri w /\ fb w' = fb w /\ rt w' = rt w.

#[export] Instance same_slots_po `{Firmware} : PreOrder same_slots.
Proof. split; [repeat split|]. intros x y z. unfold same_slots. intuition congruence. Qed.
#[export] Instance same_state_po `{Firmware} : PreOrder same_state.
Proof.
  split; [repeat split|]. intros x y z [H1 E1] [H2 E2]. split; [by etrans|congruence].
Qed.
#[export] Instance same_rest_po `{Firmware} : PreOrder same_rest.
Proof. split; [repeat split|]. intros x y z. unfold same_rest. intuition congruence. Qed.
#[export] Instance same_globals_po `{Firmware} : PreOrder same_globals.
Proof. split; [repeat split|]. intros x y z. unfold same_globals. intuition congruence. Qed.

Lemma same_globals_slots `{Firmware} w w' : same_globals w w' -> same_slots w w'.
Proof. unfold same_globals, same_slots. intros (->&->&->&->&->&->&_). repeat split. Qed.

Lemma same_globals_state `{Firmware} w w' : same_globals w w' -> same_state w w'.
Proof. intros Hg. split; [by apply same_globals_slots|apply Hg]. Qed.

Lemma keeps_weaken {S R A} (P Q : S -> S -> Prop) (m : M S R A) :
  (forall s s', P s s' -> Q s s') -> keeps P m -> keeps Q m.
Proof. intros H Hm s. apply H, Hm. Qed.

Lemma set_fw_globals `{Firmware} x w : same_globals w (set_fw x w).
Proof. repeat split. Qed.

(** ** Firmware calls as computations *)

Section Calls.
Context `{F : Firmware} {R : Type}.

Definition ask {A} (f : Fw -> A) : MW R A := fun w => (Go (f (fw w)), w).
Definition act {A} (f : Fw -> A * Fw) : MW R A :=
  fun w => let '(a, x) := f (fw w) in (Go a, set_fw x w).

Lemma keeps_ask {A} (P : World -> World -> Prop) `{!PreOrder P} (f : Fw -> A) :
  keeps P (ask f).
Proof. intros w. simpl. reflexivity. Qed.
Lemma keeps_act {A} (f : Fw -> A * Fw) : keeps same_globals (act f).
Proof. intros w. unfold act. destruct (f (fw w)). apply set_fw_globals. Qed.
Lemma keeps_act_slots {A} (f : Fw -> A * Fw) : keeps same_slots (act f).
Proof. eapply keeps_weaken; [apply same_globals_slots|apply keeps_act]. Qed.
End Calls.
#[export] Hint Resolve keeps_ask keeps_act keeps_act_slots : keeps.
