(* ===== verification/LoaderLib.v ===== *)
(** Block-device services of [Library/BootLib/LinuxLoaderLib.c]: selecting
    block I/O handles, writing an image to a partition with or without a
    flush, erasing a partition; [GetPartitionSize] of
    [PartitionTableUpdate.c] and [UfsGetSetBootLun] of [Board.c], which they
    share. *)
From Stdlib Require Import ZArith Lia.
From stdpp Require Import base list numbers option.
From S2P Require Import Prelude EfiBase Firmware World.

(** ** Selection attributes and filters ([LinuxLoaderLib.h]) *)

Definition BLK_IO_SEL_MEDIA_TYPE_REMOVABLE : Z := 0x0001.
Definition BLK_IO_SEL_MEDIA_TYPE_NON_REMOVABLE : Z := 0x0002.
Definition BLK_IO_SEL_PARTITIONED_GPT : Z := 0x0004.
Definition BLK_IO_SEL_PARTITIONED_MBR : Z := 0x0008.
Definition BLK_IO_SEL_MATCH_PARTITION_TYPE_GUID : Z := 0x0010.
Definition BLK_IO_SEL_SELECT_MOUNTED_FILESYSTEM : Z := 0x0020.
Definition BLK_IO_SEL_SELECT_BY_VOLUME_NAME : Z := 0x0040.
Definition BLK_IO_SEL_SELECT_ROOT_DEVICE_ONLY : Z := 0x0080.
Definition BLK_IO_SEL_MATCH_ROOT_DEVICE : Z := 0x0100.
Definition BLK_IO_SEL_MATCH_PARTITION_LABEL : Z := 0x0200.
Definition PARTITIONED_TYPE_MBR : Z := 0x01.
Definition PARTITIONED_TYPE_GPT : Z := 0x02.

Definition FILTERS_NEEDING_DEVICEPATH : Z :=
  Z.lor BLK_IO_SEL_PARTITIONED_MBR (Z.lor BLK_IO_SEL_PARTITIONED_GPT
    (Z.lor BLK_IO_SEL_MATCH_PARTITION_TYPE_GUID
      (Z.lor BLK_IO_SEL_SELECT_ROOT_DEVICE_ONLY BLK_IO_SEL_MATCH_ROOT_DEVICE))).

Record PartiSelectFilter := mkFilter {
  RootDeviceType : option (list Z);
  PartitionType : option (list Z);
  VolumeName : option (list Z);
  PartitionLabel : option (list Z);
}.

(** Any of the bits of [flags] set in [Sel]. *)
Definition any_bit (Sel flags : Z) : bool := negb (Z.land Sel flags =? 0).

(** An [EFI_GUID] constant in memory order. *)
Definition mkguid (d1 d2 d3 : Z) (d4 : list Z) : list Z :=
  le_put 4 d1 ++ le_put 2 d2 ++ le_put 2 d3 ++ d4.

(** What the loop of [GetBlkIOHandles] does with a handle. *)
Inductive verdict :=
| Continue                              (** [continue] *)
| Leave (Status : EFI_STATUS)           (** [return Status] *)
| Crash                                 (** a [NULL] filter is dereferenced *)
| Take (p : option DevicePathNode).     (** the handle meets the criteria *)

Definition VOLUME_LABEL_SIZE : Z := 16.
Definition upcase (c : Z) : Z := if (97 <=? c) && (c <=? 122) then c - 32 else c.

(** The label of the volume, when it can be read, against the wanted name. *)
Definition CompareVolumeLabel (FsLabel : option (list Z)) (ReqVolumeName : list Z) : Z :=
  match FsLabel with
  | None => 1
  | Some label =>
      let n := Z.to_nat (VOLUME_LABEL_SIZE - 1) in
      StrnCmp (map upcase (take n (cstr label)) ++ drop n (cstr label))
        (map upcase (take n (cstr ReqVolumeName))) VOLUME_LABEL_SIZE
  end.

Section LoaderLib.
Context `{F : Firmware}.

(** The device-path part of the selection. *)
Definition MatchDevicePath (x : Fw) (Sel : Z) (FilterData : option PartiSelectFilter)
    (h : Z) : verdict :=
  match DevicePath x h with
  | None => Continue
  | Some nodes =>
      let End := mkNode 0x7f 0xff 4 [] 0 in
      let Root := default End (head nodes) in
      let Partition := default End (list.last nodes) in
      let DevicePathDepth := Z.of_nat (length nodes) in
      let root_filter :=
        any_bit Sel (Z.lor BLK_IO_SEL_SELECT_ROOT_DEVICE_ONLY BLK_IO_SEL_MATCH_ROOT_DEVICE) in
      if root_filter && match FilterData with None => true | Some _ => false end
      then Leave EFI_INVALID_PARAMETER
      else if root_filter &&
        (negb (dp_Type Root =? 0x01) || negb (dp_SubType Root =? 0x04) ||
         negb (dp_Length Root =? 20) ||
         match FilterData ≫= RootDeviceType with
         | Some g => bool_decide (g <> dp_Guid Root)
         | None => false
         end)
      then Continue
      else if any_bit Sel BLK_IO_SEL_SELECT_ROOT_DEVICE_ONLY && (1 <? DevicePathDepth)
      then Continue
      else if (dp_Type Partition =? 0x04) && (dp_SubType Partition =? 0x01) &&
              (dp_Length Partition =? 42)
      then
        if negb (any_bit Sel BLK_IO_SEL_PARTITIONED_GPT) &&
           (dp_MBRType Partition =? PARTITIONED_TYPE_GPT) then Continue
        else if negb (any_bit Sel BLK_IO_SEL_PARTITIONED_MBR) &&
           (dp_MBRType Partition =? PARTITIONED_TYPE_MBR) then Continue
        else if any_bit Sel BLK_IO_SEL_MATCH_PARTITION_TYPE_GUID then
          match FilterData ≫= PartitionType with
          | None => Leave EFI_INVALID_PARAMETER
          | Some g =>
              if HasProtocol x h g then Take (Some Partition)
              else match PartitionTypeOf x h with
                   | None => Continue
                   | Some t => if bool_decide (t = g) then Take (Some Partition) else Continue
                   end
          end
        else Take (Some Partition)
      else if any_bit Sel BLK_IO_SEL_MATCH_PARTITION_TYPE_GUID then Continue
      else Take None
  end.

(** The file-system and label criteria, applied after the device path. *)
Definition MatchVolume (x : Fw) (Sel : Z) (FilterData : option PartiSelectFilter)
    (h : Z) (PartitionOut : option DevicePathNode) : verdict :=
  let by_fs :=
    if any_bit Sel BLK_IO_SEL_SELECT_MOUNTED_FILESYSTEM then
      if negb (HasFs x h) then Continue
      else if any_bit Sel BLK_IO_SEL_SELECT_BY_VOLUME_NAME then
        match FilterData ≫= VolumeName with
        | None => Leave EFI_INVALID_PARAMETER
        | Some n => if negb (CompareVolumeLabel (VolumeLabel x h) n =? 0)
                    then Continue else Take PartitionOut
        end
      else Take PartitionOut
    else Take PartitionOut in
  match by_fs with
  | Take _ =>
      if any_bit Sel BLK_IO_SEL_MATCH_PARTITION_LABEL then
        match PartitionRecord x h with
        | None => Continue
        | Some e =>
            match FilterData ≫= PartitionLabel with
            | None => Crash
            | Some label =>
                if negb (StrnCmp (PartitionName e) label
                           (Z.max (StrLen (PartitionName e)) (StrLen label)) =? 0)
                then Continue else Take PartitionOut
            end
        end
      else Take PartitionOut
  | v => v
  end.

(** One round of the loop of [GetBlkIOHandles]. *)
Definition MatchHandle (x : Fw) (Sel : Z) (FilterData : option PartiSelectFilter)
    (h : Z) : verdict :=
  let Status := HasBlkIo x h in
  if Status =? EFI_UNSUPPORTED then Continue
  else if negb (Status =? EFI_SUCCESS) then Leave Status
  else if RemovableMedia (Media x h) && negb (any_bit Sel BLK_IO_SEL_MEDIA_TYPE_REMOVABLE)
  then Continue
  else if negb (RemovableMedia (Media x h)) &&
          negb (any_bit Sel BLK_IO_SEL_MEDIA_TYPE_NON_REMOVABLE)
  then Continue
  else
    match (if any_bit Sel FILTERS_NEEDING_DEVICEPATH
           then MatchDevicePath x Sel FilterData h else Take None) with
    | Take p => MatchVolume x Sel FilterData h p
    | v => v
    end.

(** The loop: [acc] holds the entries stored so far, in reverse. *)
Fixpoint BlkIO_loop (x : Fw) (Sel : Z) (FilterData : option PartiSelectFilter)
    (Max : Z) (hs : list Z) (acc : list HandleInfo) :
    ctl (EFI_STATUS * list HandleInfo) (list HandleInfo) :=
  match hs with
  | [] => Go (reverse acc)
  | h :: hs' =>
      match MatchHandle x Sel FilterData h with
      | Continue => BlkIO_loop x Sel FilterData Max hs' acc
      | Leave st => Return (st, reverse acc)
      | Crash => Halt NullDeref
      | Take p =>
          let acc' := mkHandleInfo h p :: acc in
          if Max <=? Z.of_nat (length acc') then Go (reverse acc')
          else BlkIO_loop x Sel FilterData Max hs' acc'
      end
  end.

(** The defaults [GetBlkIOHandles] adds to the selection. *)
Definition SelDefaults (Sel : Z) : Z :=
  let rem := Z.lor BLK_IO_SEL_MEDIA_TYPE_REMOVABLE BLK_IO_SEL_MEDIA_TYPE_NON_REMOVABLE in
  let Sel := if Z.land Sel rem =? 0 then Z.lor Sel rem else Sel in
  let part := Z.lor BLK_IO_SEL_PARTITIONED_GPT BLK_IO_SEL_PARTITIONED_MBR in
  if Z.land part Sel =? 0 then Z.lor Sel part else Sel.

(** Returns the status, the entries of [HandleInfoPtr] that were written and
    the new value of [*MaxBlkIopCnt]. *)
Definition GetBlkIOHandles {R} (SelectionAttrib : Z)
    (FilterData : option PartiSelectFilter) (MaxBlkIopCnt : Z) :
    MW R (EFI_STATUS * list HandleInfo * Z) :=
  x ← ask id;
  let Sel := SelDefaults SelectionAttrib in
  let '(Status, hs) :=
    if any_bit Sel (Z.lor BLK_IO_SEL_SELECT_MOUNTED_FILESYSTEM
                      BLK_IO_SEL_SELECT_BY_VOLUME_NAME)
    then LocateFs x else LocateBlkIo x in
  if negb (Status =? EFI_SUCCESS) then mret (Status, [], MaxBlkIopCnt)
  else
    match BlkIO_loop x Sel FilterData MaxBlkIopCnt hs [] with
    | Go l => mret (EFI_SUCCESS, l, Z.of_nat (length l))
    | Return (st, l) => mret (st, l, MaxBlkIopCnt)
    | Halt h => stop h
    end.

(** ** Sizes *)

(** [GetPartitionSize], of a [NULL] or a valid block I/O interface. *)
Definition GetPartitionSize (x : Fw) (BlockIo : option Z) : Z :=
  match BlockIo with
  | None => 0
  | Some b =>
      let m := Media x b in
      if CHECK_ADD64 (LastBlock m) 1 then 0
      else if MAX_UINT64 / (LastBlock m + 1) <? BlockSize m then 0
      else u64 ((LastBlock m + 1) * BlockSize m)
  end.

(** ** Writing an image *)

(** [FastbootCmds.c]: whether a second thread does the flashing, and whether
    a write has to leave the bus to a transfer now and then. *)
Definition IsUseMThreadParallel (l : LibGlobals) : bool :=
  if EnableMultiThreadFlash l then IsMultiThreadSupported l else false.
Definition IsFlashSplitNeeded (l : LibGlobals) : bool :=
  if IsUseMThreadParallel l then FlashSplitNeeded l else UsbTimerStarted l.

Definition MAX_WRITE_SIZE : Z := 1024 * 1024.

(** The loop that writes the block-aligned part in units. *)
Fixpoint write_units (fuel : nat) (b : Z) (Image : list Z)
    (DivMsgBufSize WriteUnitSize Offset LeftSize : Z) : MW EFI_STATUS Z :=
  if LeftSize <=? 0 then mret Offset
  else match fuel with
       | O => stop Forever
       | S fuel' =>
           let WriteSize :=
             u32 (if WriteUnitSize <? LeftSize then WriteUnitSize else LeftSize) in
           d ← need OutOfBounds (buf_read Image (DivMsgBufSize - LeftSize) WriteSize);
           Status ← act (fun x => WriteBlocks x b Offset d);
           if negb (Status =? EFI_SUCCESS) then early Status
           else
             m ← ask (fun x => Media x b);
             write_units fuel' b Image DivMsgBufSize WriteUnitSize
               (u64 (Offset + WriteSize / BlockSize m)) (LeftSize - WriteSize)
       end.

Definition WriteBlockToPartitionNoFlush (BlockIo Handle : option Z) (Offset Size : Z)
    (Image : option (list Z)) : MW EFI_STATUS EFI_STATUS :=
  match BlockIo, Image with
  | Some b, Some img =>
      m ← ask (fun x => Media x b);
      w ← get;
      WriteBlockSize ←
        (if bool_decide (StoredRootDevice (lb w) = NAND) then
           match Handle with
           | None => early EFI_INVALID_PARAMETER
           | Some h =>
               e ← ask (fun x => EraseGranularity x h);
               if negb (e.1 =? EFI_SUCCESS) then early e.1 else mret (u32 e.2)
           end
         else mret (BlockSize m));
      if WriteBlockSize =? 0 then stop DivByZero
      else
      let DivMsgBufSize := u32 (Size / WriteBlockSize * WriteBlockSize) in
      let WriteUnitSize := ROUND_TO_PAGE MAX_WRITE_SIZE (WriteBlockSize - 1) in
      Offset ←
        (if negb (DivMsgBufSize =? 0) then
           let WriteUnitSize :=
             if IsFlashSplitNeeded (lb w) then WriteUnitSize else DivMsgBufSize in
           write_units (Z.to_nat (DivMsgBufSize / WriteUnitSize + 1)) b img
             DivMsgBufSize WriteUnitSize Offset DivMsgBufSize
         else mret Offset);
      if 0 <? Size - DivMsgBufSize then
        a ← ask (fun x => AllocateZeroPool x WriteBlockSize);
        if negb a then mret EFI_OUT_OF_RESOURCES
        else
          r ← ask (fun x => ReadBlocks x b Offset WriteBlockSize);
          if negb (r.1 =? EFI_SUCCESS) then mret r.1
          else
            tail ← need OutOfBounds (buf_read img DivMsgBufSize (Size - DivMsgBufSize));
            d ← need OutOfBounds (buf_write r.2 0 tail);
            act (fun x => WriteBlocks x b Offset d)
      else mret EFI_SUCCESS
  | _, _ => mret EFI_INVALID_PARAMETER
  end.

Definition WriteBlockToPartition (BlockIo Handle : option Z) (Offset Size : Z)
    (Image : option (list Z)) : MW EFI_STATUS EFI_STATUS :=
  Status ← call (WriteBlockToPartitionNoFlush BlockIo Handle Offset Size Image);
  if negb (Status =? EFI_SUCCESS) then mret Status
  else b ← need NullDeref BlockIo; act (fun x => FlushBlocks x b).

(** ** Erasing and writing by partition type *)

Definition ErasePartition (BlockIo Handle : option Z) : MW EFI_STATUS EFI_STATUS :=
  PartitionSize ← ask (fun x => GetPartitionSize x BlockIo);
  if PartitionSize =? 0 then mret EFI_BAD_BUFFER_SIZE
  else
    h ← need NullDeref Handle;
    e ← ask (fun x => EraseGranularity x h);
    if negb (e.1 =? EFI_SUCCESS) then mret e.1
    else
      b ← need NullDeref BlockIo;
      Status ← act (fun x => EraseBlocks x b PartitionSize);
      if negb (Status =? EFI_SUCCESS) then mret Status else mret EFI_SUCCESS.

Definition WriteToPartition (Ptype : list Z) (Msg : option (list Z)) (MsgSize : Z) :
    MW EFI_STATUS EFI_STATUS :=
  match Msg with
  | None => mret EFI_INVALID_PARAMETER
  | Some _ =>
      let BlkIOAttrib := Z.lor BLK_IO_SEL_PARTITIONED_GPT
        (Z.lor BLK_IO_SEL_MEDIA_TYPE_NON_REMOVABLE BLK_IO_SEL_MATCH_PARTITION_TYPE_GUID) in
      r ← GetBlkIOHandles BlkIOAttrib (Some (mkFilter None (Some Ptype) None None)) 1;
      let '(Status, HandleInfoList, MaxHandles) := r in
      if Status =? EFI_SUCCESS then
        if MaxHandles =? 0 then mret EFI_NO_MEDIA
        else if negb (MaxHandles =? 1) then mret EFI_LOAD_ERROR
        else
          i ← need OutOfBounds (head HandleInfoList);
          call (WriteBlockToPartition (Some (Handle i)) (Some (Handle i)) 0 MsgSize Msg)
      else mret Status
  end.

(** Reads [*ImageSize] bytes, rounded up to the block size, from the
    partition called [Pname]. *)
Definition LoadImageFromPartition (ImageSize : Z) (Pname : list Z) :
    MW (EFI_STATUS * list Z) (EFI_STATUS * list Z) :=
  let BlkIOAttrib := Z.lor BLK_IO_SEL_PARTITIONED_MBR (Z.lor BLK_IO_SEL_PARTITIONED_GPT
    (Z.lor BLK_IO_SEL_MEDIA_TYPE_NON_REMOVABLE BLK_IO_SEL_MATCH_PARTITION_LABEL)) in
  r ← GetBlkIOHandles BlkIOAttrib (Some (mkFilter None None None (Some Pname))) 1;
  let '(Status, HandleInfoList, MaxHandles) := r in
  if Status =? EFI_SUCCESS then
    if MaxHandles =? 0 then mret (EFI_NO_MEDIA, [])
    else if negb (MaxHandles =? 1) then mret (EFI_LOAD_ERROR, [])
    else
      i ← need OutOfBounds (head HandleInfoList);
      ask (fun x => ReadBlocks x (Handle i) 0
             (ROUND_TO_PAGE ImageSize (BlockSize (Media x (Handle i)) - 1)))
  else mret (Status, []).

(** ** The UFS boot LUN ([Board.c]) *)

Definition gEfiUfsLU0Guid : list Z :=
  mkguid 0x860845c1 0xbe09 0x4355 [0x8b; 0xc1; 0x30; 0xd6; 0x4f; 0xf8; 0xe6; 0x3a].
Definition EFI_MEM_CARD_INFO_PROTOCOL_REVISION : Z := 0x10003.
Definition MAX_HANDLE_INFO_LIST : Z := 128.

(** Returns the status and the value of [*UfsBootlun] afterwards. *)
Definition UfsGetSetBootLun {R} (UfsBootlun : Z) (IsGet : bool) :
    MW R (EFI_STATUS * Z) :=
  r ← GetBlkIOHandles BLK_IO_SEL_MATCH_ROOT_DEVICE
        (Some (mkFilter (Some gEfiUfsLU0Guid) None None None)) MAX_HANDLE_INFO_LIST;
  let '(Status, HandleInfoList, _) := r in
  if EFI_ERROR Status then mret (EFI_NOT_FOUND, UfsBootlun)
  else
    i ← need OutOfBounds (head HandleInfoList);
    c ← ask (fun x => MemCardInfo x (Handle i));
    if negb (c.1 =? EFI_SUCCESS) then mret (c.1, UfsBootlun)
    else if c.2 <? EFI_MEM_CARD_INFO_PROTOCOL_REVISION then mret (EFI_NOT_FOUND, UfsBootlun)
    else if IsGet then
      g ← ask GetBootLU;
      mret (c.1, if g.1 =? EFI_SUCCESS then g.2 else UfsBootlun)
    else
      s ← act (fun x => SetBootLU x UfsBootlun);
      mret (c.1, UfsBootlun).
End LoaderLib.

(** ** What the block I/O services guarantee *)

Section Frames.
Context `{F : Firmware}.

Lemma keeps_GetBlkIOHandles {R} (P : World -> World -> Prop) `{!PreOrder P} s f n :
  keeps P (GetBlkIOHandles (R := R) s f n).
Proof. unfold GetBlkIOHandles. keeps_tac. Qed.

Lemma keeps_UfsGetSetBootLun {R} v g :
  keeps same_globals (UfsGetSetBootLun (R := R) v g).
Proof.
  unfold UfsGetSetBootLun. apply keeps_bind; [apply _|apply keeps_GetBlkIOHandles, _|].
  keeps_tac.
Qed.

Lemma keeps_UfsGetSetBootLun_slots {R} v g :
  keeps same_slots (UfsGetSetBootLun (R := R) v g).
Proof. eapply keeps_weaken; [apply same_globals_slots|apply keeps_UfsGetSetBootLun]. Qed.
End Frames.
#[export] Hint Resolve keeps_GetBlkIOHandles keeps_UfsGetSetBootLun
  keeps_UfsGetSetBootLun_slots : keeps.

Section Selection.
Context `{F : Firmware}.

(** The handles that meet the criteria, in the order of the handle buffer. *)
Definition selected (x : Fw) (Sel : Z) (f : option PartiSelectFilter) (hs : list Z) :
    list HandleInfo :=
  omap (fun h => match MatchHandle x Sel f h with
                 | Take p => Some (mkHandleInfo h p)
                 | _ => None
                 end) hs.

Definition orderly (x : Fw) (Sel : Z) (f : option PartiSelectFilter) (h : Z) : Prop :=
  match MatchHandle x Sel f h with Leave _ | Crash => False | _ => True end.

Lemma BlkIO_loop_spec x Sel f Max hs acc :
  Forall (orderly x Sel f) hs ->
  (length acc < Z.to_nat (Z.max 1 Max))%nat ->
  BlkIO_loop x Sel f Max hs acc =
  Go (reverse acc ++ take (Z.to_nat (Z.max 1 Max) - length acc) (selected x Sel f hs)).
Proof.
  intros Hhs. revert acc. induction Hhs as [|h hs Hh Hhs IH]; intros acc Hacc.
  - simpl. by rewrite take_nil, app_nil_r.
  - unfold orderly in Hh. cbn [BlkIO_loop selected omap list_omap].
    destruct (MatchHandle x Sel f h) as [| | |p]; [by apply IH|done|done|].
    destruct (Z.to_nat (Z.max 1 Max) - length acc)%nat as [|k] eqn:Hk; [lia|].
    cbn [length take]. destruct (Z.leb_spec Max (Z.of_nat (S (length acc)))).
    + assert (k = 0)%nat as -> by lia. simpl. by rewrite reverse_cons.
    + rewrite IH by (simpl; lia). rewrite reverse_cons, <- app_assoc. simpl.
      do 4 f_equal. lia.
Qed.
End Selection.

(** ** Queries by root device

    The query does not look at file systems, labels or partition types: it
    neither dereferences a missing filter nor fails for one. *)
Section RootQueries.
Context `{F : Firmware}.

Definition root_sel (Sel : Z) : Prop :=
  Sel = BLK_IO_SEL_SELECT_ROOT_DEVICE_ONLY \/ Sel = BLK_IO_SEL_MATCH_ROOT_DEVICE.

Lemma MatchHandle_root x Sel f h :
  root_sel Sel ->
  MatchHandle x (SelDefaults Sel) (Some f) h =
  (let Status := HasBlkIo x h in
   if Status =? EFI_UNSUPPORTED then Continue
   else if negb (Status =? EFI_SUCCESS) then Leave Status
   else MatchDevicePath x (SelDefaults Sel) (Some f) h) /\
  MatchDevicePath x (SelDefaults Sel) (Some f) h <> Crash /\
  (forall st, MatchDevicePath x (SelDefaults Sel) (Some f) h <> Leave st).
Proof.
  intros HS. split.
  - unfold MatchHandle. cbn zeta.
    destruct (HasBlkIo x h =? EFI_UNSUPPORTED); [done|]. destruct (negb _); [done|].
    replace (any_bit (SelDefaults Sel) BLK_IO_SEL_MEDIA_TYPE_REMOVABLE) with true
      by (by destruct HS as [-> | ->]).
    replace (any_bit (SelDefaults Sel) BLK_IO_SEL_MEDIA_TYPE_NON_REMOVABLE) with true
      by (by destruct HS as [-> | ->]).
    replace (any_bit (SelDefaults Sel) FILTERS_NEEDING_DEVICEPATH) with true
      by (by destruct HS as [-> | ->]).
    rewrite !andb_false_r. cbn iota.
    destruct (MatchDevicePath _ _ _ _) as [| | |p]; [done..|]. unfold MatchVolume.
    replace (any_bit (SelDefaults Sel) BLK_IO_SEL_SELECT_MOUNTED_FILESYSTEM) with false
      by (by destruct HS as [-> | ->]).
    by replace (any_bit (SelDefaults Sel) BLK_IO_SEL_MATCH_PARTITION_LABEL) with false
      by (by destruct HS as [-> | ->]).
  - unfold MatchDevicePath.
    replace (any_bit (SelDefaults Sel) BLK_IO_SEL_MATCH_PARTITION_TYPE_GUID) with false
      by (by destruct HS as [-> | ->]).
    rewrite andb_false_r.
    destruct (DevicePath x h); [|done]. cbn zeta.
    repeat match goal with |- context [if ?b then _ else _] => destruct b end; done.
Qed.

(** A query ends without a fault, and on success it counts its entries. *)
Lemma BlkIO_loop_root x Sel f n hs acc :
  root_sel Sel ->
  match BlkIO_loop x (SelDefaults Sel) (Some f) n hs acc with
  | Halt _ => False
  | Return (st, _) => st <> EFI_SUCCESS
  | Go _ => True
  end.
Proof.
  intros HS. revert acc. induction hs as [|h hs IH]; intros acc; [done|]. cbn [BlkIO_loop].
  destruct (MatchHandle_root x Sel f h HS) as (-> & Hc & Hl). cbn zeta.
  destruct (HasBlkIo x h =? EFI_UNSUPPORTED); [apply IH|].
  destruct (Z.eqb_spec (HasBlkIo x h) EFI_SUCCESS); cbn [negb]; [|done].
  destruct (MatchDevicePath _ _ _ _) as [|st| |p]; [apply IH|by destruct (Hl st)|done|].
  cbn zeta. destruct (n <=? _); [done|apply IH].
Qed.

Lemma wp_GetBlkIOHandles_root {R} Sel f n (E : R -> World -> Prop) w :
  root_sel Sel ->
  wp (GetBlkIOHandles Sel (Some f) n) E
    (fun r w' => w' = w /\ (r.1.1 = EFI_SUCCESS -> r.2 = Z.of_nat (length r.1.2))) w.
Proof.
  intros HS. unfold GetBlkIOHandles. apply wp_bind. unfold wp at 1, ask. cbn [id].
  replace (any_bit _ _) with false by (by destruct HS as [-> | ->]).
  destruct (LocateBlkIo (fw w)) as [st hs].
  destruct (Z.eqb_spec st EFI_SUCCESS) as [->|]; cbn [negb]; [|by apply wp_ret].
  pose proof (BlkIO_loop_root (fw w) Sel f n hs [] HS) as H.
  destruct (BlkIO_loop _ _ _ _ _ _) as [l|[st l]|h]; [by apply wp_ret..|done].
Qed.

(** A query that does not look at file systems depends on the platform only. *)
Definition no_fs (Sel : Z) : Prop :=
  any_bit (SelDefaults Sel) (Z.lor BLK_IO_SEL_SELECT_MOUNTED_FILESYSTEM
                               BLK_IO_SEL_SELECT_BY_VOLUME_NAME) = false.

Lemma any_bit_lor a b c : any_bit a (Z.lor b c) = any_bit a b || any_bit a c.
Proof.
  unfold any_bit. rewrite Z.land_lor_distr_r.
  destruct (Z.eqb_spec (Z.land a b) 0) as [->|Hb], (Z.eqb_spec (Z.land a c) 0) as [->|Hc];
    cbn [negb orb]; rewrite ?Z.lor_0_l, ?Z.lor_0_r; try done.
  all: apply negb_true_iff, Z.eqb_neq; try done.
  intros [H _]%Z.lor_eq_0_iff. done.
Qed.

Lemma MatchHandle_platform x x' Sel f h :
  no_fs Sel -> same_platform x x' ->
  MatchHandle x' (SelDefaults Sel) f h = MatchHandle x (SelDefaults Sel) f h.
Proof.
  unfold no_fs. rewrite any_bit_lor. intros [Hm Hv]%orb_false_iff.
  intros (_ & _ & HM & HB & HD & _ & _ & HP & HT & HR).
  unfold MatchHandle. cbn zeta. rewrite HB, HM.
  assert (E : MatchDevicePath x' (SelDefaults Sel) f h = MatchDevicePath x (SelDefaults Sel) f h).
  { unfold MatchDevicePath. rewrite HD. destruct (DevicePath x h); [|done].
    destruct (f ≫= PartitionType) as [g|]; [by rewrite HP, HT|done]. }
  rewrite E. unfold MatchVolume. rewrite Hm, HR. done.
Qed.

Lemma query_platform {R} Sel f n (w w' : World) :
  no_fs Sel -> same_platform (fw w) (fw w') ->
  (GetBlkIOHandles (R := R) Sel f n w').1 = (GetBlkIOHandles (R := R) Sel f n w).1.
Proof.
  intros HS HP. pose proof HP as (_ & HL & _). unfold GetBlkIOHandles, ask, id. munfold.
  rewrite HS, HL. clear HL. destruct (LocateBlkIo (fw w)) as [st hs]. destruct (negb _); [done|].
  assert (E : forall acc, BlkIO_loop (fw w') (SelDefaults Sel) f n hs acc =
                          BlkIO_loop (fw w) (SelDefaults Sel) f n hs acc).
  { induction hs as [|h hs IH]; intros acc; [done|]. cbn [BlkIO_loop].
    rewrite (MatchHandle_platform _ _ _ _ _ HS HP).
    destruct (MatchHandle _ _ _ _); [by apply IH|done|done|].
    cbn zeta. destruct (n <=? _); [done|by apply IH]. }
  rewrite E. by destruct (BlkIO_loop _ _ _ _ _ _) as [l|[st' l]|h].
Qed.

Lemma GetBlkIOHandles_platform {R} Sel f n w w' :
  root_sel Sel -> same_platform (fw w) (fw w') ->
  (GetBlkIOHandles (R := R) Sel (Some f) n w').1 = (GetBlkIOHandles (R := R) Sel (Some f) n w).1.
Proof. intros HS. apply query_platform. by destruct HS as [-> | ->]. Qed.
End RootQueries.

Section Sizes.
Context `{F : Firmware}.

Lemma GetPartitionSize_mul x b :
  0 <= LastBlock (Media x b) < 2 ^ 64 -> 0 <= BlockSize (Media x b) < 2 ^ 32 ->
  GetPartitionSize x (Some b) <> 0 ->
  GetPartitionSize x (Some b) = (LastBlock (Media x b) + 1) * BlockSize (Media x b) /\
  (LastBlock (Media x b) + 1) * BlockSize (Media x b) < 2 ^ 64 /\
  0 < BlockSize (Media x b).
Proof.
  intros Hl Hb. unfold GetPartitionSize.
  destruct (CHECK_ADD64 _ _) eqn:E1; [done|]. apply CHECK_ADD64_false in E1.
  destruct (Z.ltb_spec (MAX_UINT64 / (LastBlock (Media x b) + 1)) (BlockSize (Media x b)))
    as [|E2]; [done|]. intros Hne.
  assert (Hm : (LastBlock (Media x b) + 1) * BlockSize (Media x b) <= MAX_UINT64).
  { etrans; [|apply (Z.mul_div_le MAX_UINT64 (LastBlock (Media x b) + 1)); lia].
    apply Z.mul_le_mono_nonneg_l; lia. }
  unfold MAX_UINT64 in *. rewrite u64_small in * by nia. nia.
Qed.
End Sizes.

Section Writes.
Context `{F : Firmware} `{!BlockIoLaws F}.

(** Writing the aligned part unit by unit is one write of that part. *)
Lemma write_units_ok fuel b img Div unit BS off left w off' w' :
  BlockSize (Media (fw w) b) = BS -> 0 < BS -> 0 < unit -> (BS | unit) ->
  0 < left <= Div -> Div < 2 ^ 32 -> (BS | left) -> 0 <= off ->
  Z.of_nat (length (Contents (fw w) b)) < 2 ^ 64 ->
  write_units fuel b img Div unit off left w = (Go off', w') ->
  exists d, buf_read img (Div - left) left = Some d /\
    buf_write (Contents (fw w) b) (off * BS) d = Some (Contents (fw w') b) /\
    (forall h, Media (fw w') h = Media (fw w) h) /\ off' = off + left / BS.
Proof.
  revert off left w. induction fuel as [|fuel IH]; intros off left w HBS Hpos Hu Hdu
    Hleft HDiv Hdl Hoff Hlen; cbn [write_units].
  { destruct (Z.leb_spec left 0); [lia|]. done. }
  destruct (Z.leb_spec left 0); [lia|].
  set (ws := if unit <? left then unit else left).
  assert (Hws : 0 < ws <= left /\ (BS | ws) /\ (ws < left -> ws = unit)).
  { subst ws. destruct (Z.ltb_spec unit left); repeat split; try done; lia. }
  destruct Hws as (Hws & Hdws & Hwu). rewrite (u32_small ws) by lia.
  intros Hrun. apply bind_inv_go in Hrun as (d & w0 & Hd & Hrun).
  destruct (buf_read img (Div - left) ws) as [d0|] eqn:Er; [|done].
  injection Hd as <- <-.
  apply bind_inv_go in Hrun as (st & w1 & Ha & Hrun). unfold act in Ha.
  destruct (WriteBlocks (fw w) b off d0) as [s0 x1] eqn:EW. injection Ha as <- <-.
  destruct (Z.eqb_spec s0 EFI_SUCCESS) as [->|]; [cbn [negb] in Hrun|done].
  apply bind_inv_go in Hrun as (m & w2 & Hm & Hrun). injection Hm as <- <-.
  pose proof (WriteBlocks_media (fw w) b off d0) as HM. rewrite EW in HM. simpl in HM.
  pose proof (WriteBlocks_ok _ _ _ _ _ EW) as HW. rewrite HBS in HW.
  pose proof (length_buf_read _ _ _ _ Er) as Hl0.
  pose proof (length_buf_write _ _ _ _ HW) as HlC.
  assert (Hin : off * BS + ws <= Z.of_nat (length (Contents (fw w) b))).
  { apply buf_write_Some in HW as (_ & ? & _). lia. }
  cbn [fw set_fw] in Hrun. rewrite HM, HBS in Hrun.
  destruct Hdws as [q Hq]. assert (Hqp : 0 < q) by nia.
  assert (ws / BS = q) as Ews by (rewrite Hq; apply Z.div_mul; lia).
  rewrite Ews, u64_small in Hrun by nia.
  destruct (decide (ws = left)) as [E|Hne].
  - rewrite E in *. rewrite Z.sub_diag in Hrun.
    assert (w' = set_fw x1 w /\ off' = off + q) as (-> & ->).
    { destruct fuel; cbn [write_units] in Hrun; by injection Hrun as <- <-. }
    exists d0. split; [done|]. split; [done|]. split; [done|]. by rewrite Ews.
  - edestruct (IH (off + q) (left - ws) (set_fw x1 w)) as (d2 & Hr2 & Hw2 & HM2 & Ho2);
      try eassumption; try (cbn [fw set_fw]; rewrite ?HM; congruence || lia).
    { destruct Hdl as [p Hp]. exists (p - q). lia. }
    exists (d0 ++ d2). cbn [fw set_fw] in *. split_and!.
    + replace left with (ws + (left - ws)) at 2 by lia.
      eapply buf_read_app; [done|]. replace (Div - left + ws) with (Div - (left - ws)) by lia. done.
    + eapply buf_write_app; [done|]. rewrite Hl0.
      replace (off * BS + ws) with ((off + q) * BS) by lia. done.
    + intros h'. by rewrite HM2.
    + rewrite Ho2. destruct Hdl as [p Hp]. subst left.
      rewrite Hq, <- Z.mul_sub_distr_r, !Z.div_mul by lia. lia.
Qed.

(** The write granule: the block size, or on NAND the erase granularity. *)
Definition granule (w : World) (b : Z) (h : option Z) : option Z :=
  if bool_decide (StoredRootDevice (lb w) = NAND) then
    h' ← h;
    let e := EraseGranularity (fw w) h' in
    if e.1 =? EFI_SUCCESS then Some (u32 e.2) else None
  else Some (BlockSize (Media (fw w) b)).

Definition unit_size (w : World) (wbs Div : Z) : Z :=
  if IsFlashSplitNeeded (lb w) then ROUND_TO_PAGE MAX_WRITE_SIZE (wbs - 1) else Div.

Lemma unit_size_ok w wbs k size :
  wbs = 2 ^ k -> 0 <= k -> wbs < 2 ^ 32 -> 0 < size / wbs * wbs ->
  0 < unit_size w wbs (size / wbs * wbs) /\ (wbs | unit_size w wbs (size / wbs * wbs)).
Proof.
  intros -> Hk Hlt Hpos. unfold unit_size.
  destruct (IsFlashSplitNeeded _); [|split; [done|apply Z.divide_factor_r]].
  assert (k < 32) by (apply (Z.pow_lt_mono_r_iff 2); lia).
  assert (2 ^ k <= 2 ^ 31) by (apply Z.pow_le_mono_r; lia).
  assert (0 < 2 ^ k) by (apply Z.pow_pos_nonneg; lia).
  unfold MAX_WRITE_SIZE. rewrite ROUND_TO_PAGE_pow2 by (unfold MAX_UINT32; lia).
  split; [|apply Z.divide_factor_r].
  apply Z.mul_pos_pos; [|done]. apply Z.div_str_pos. lia.
Qed.

(** The aligned part of the write, with what it leaves for the rest. *)
Definition aligned_part (b : Z) (img : list Z) (Div unit Offset : Z) : MW EFI_STATUS Z :=
  if negb (Div =? 0)
  then write_units (Z.to_nat (Div / unit + 1)) b img Div unit Offset Div
  else mret Offset.

Lemma aligned_part_ok b img Div unit BS off w off' w' :
  BlockSize (Media (fw w) b) = BS -> 0 < BS -> 0 < unit -> (BS | unit) ->
  0 < Div < 2 ^ 32 -> (BS | Div) -> 0 <= off ->
  Z.of_nat (length (Contents (fw w) b)) < 2 ^ 64 ->
  aligned_part b img Div unit off w = (Go off', w') ->
  exists d, buf_read img 0 Div = Some d /\
    buf_write (Contents (fw w) b) (off * BS) d = Some (Contents (fw w') b) /\
    (forall h, Media (fw w') h = Media (fw w) h) /\ off' = off + Div / BS.
Proof.
  intros. unfold aligned_part in *. destruct (Z.eqb_spec Div 0); [lia|].
  cbn [negb] in *.
  edestruct (write_units_ok (Z.to_nat (Div / unit + 1)) b img Div unit BS off Div w)
    as (d & Hd & ?); try eassumption; [lia..|].
  rewrite Z.sub_diag in Hd. by exists d.
Qed.

(** The write loop leaves early only with an error. *)
Lemma write_units_ret fuel b img Div unit off left w st w' :
  write_units fuel b img Div unit off left w = (Return st, w') -> st <> EFI_SUCCESS.
Proof.
  revert off left w. induction fuel as [|fuel IH]; intros off left w;
    cbn [write_units]; (destruct (left <=? 0); [done|]); [done|].
  intros Hrun. apply bind_inv_ret in Hrun as [Hrun|(d & w0 & _ & Hrun)].
  { unfold need in Hrun. by destruct (buf_read _ _ _). }
  apply bind_inv_ret in Hrun as [Hrun|(s & w1 & _ & Hrun)].
  { unfold act in Hrun. by destruct (WriteBlocks _ _ _ _). }
  destruct (Z.eqb_spec s EFI_SUCCESS); cbn [negb] in Hrun; [|by injection Hrun as <- _].
  apply bind_inv_ret in Hrun as [Hrun|(m & w2 & _ & Hrun)]; [done|]. by eapply IH.
Qed.

Lemma aligned_part_ret b img Div unit off w w' :
  ~ aligned_part b img Div unit off w = (Return EFI_SUCCESS, w').
Proof.
  unfold aligned_part. destruct (negb _); [|done].
  intros H. by apply write_units_ret in H.
Qed.

(** The read-modify-write of the last, partial block. *)
Definition partial_part (b : Z) (img : list Z) (Div Size wbs Offset : Z) :
    MW EFI_STATUS EFI_STATUS :=
  if 0 <? Size - Div then
    a ← ask (fun x => AllocateZeroPool x wbs);
    if negb a then mret EFI_OUT_OF_RESOURCES
    else
      r ← ask (fun x => ReadBlocks x b Offset wbs);
      if negb (r.1 =? EFI_SUCCESS) then mret r.1
      else
        tail ← need OutOfBounds (buf_read img Div (Size - Div));
        d ← need OutOfBounds (buf_write r.2 0 tail);
        act (fun x => WriteBlocks x b Offset d)
  else mret EFI_SUCCESS.

Lemma partial_part_ok b img Div Size wbs BS off w w' :
  BlockSize (Media (fw w) b) = BS -> 0 < Size - Div ->
  run (partial_part b img Div Size wbs off) w = (Go EFI_SUCCESS, w') ->
  exists d, buf_read img Div (Size - Div) = Some d /\
    buf_write (Contents (fw w) b) (off * BS) d = Some (Contents (fw w') b).
Proof.
  intros HBS Hs. unfold run, call, partial_part.
  destruct (Z.ltb_spec 0 (Size - Div)); [|lia].
  unfold ask, act. munfold. destruct (AllocateZeroPool _ _); cbn [negb]; [|done].
  destruct (ReadBlocks (fw w) b off wbs) as [st old] eqn:ER. cbn [fst snd].
  destruct (Z.eqb_spec st EFI_SUCCESS) as [->|]; cbn [negb]; [|naive_solver].
  destruct (buf_read img Div (Size - Div)) as [tail|] eqn:Et; [|cbn; done]. cbn [snd mret M_MRet M_ret stop].
  destruct (buf_write old 0 tail) as [d|] eqn:Ed; [|cbn; done].
  cbn beta iota zeta.
  destruct (WriteBlocks (fw w) b off d) as [st x1] eqn:EW. intros Heq. simplify_eq.
  exists tail. split; [done|]. cbn [fw set_fw].
  pose proof (ReadBlocks_ok _ _ _ _ _ ER) as HR.
  pose proof (WriteBlocks_ok _ _ _ _ _ EW) as HW.
  eapply buf_write_sub; eassumption.
Qed.

(** A successful write puts the [Size] bytes of the image at [Offset] and
    changes no other byte of the device. *)
Lemma write_no_flush_ok w b h off size img w' wbs k :
  granule w b h = Some wbs -> wbs = 2 ^ k -> 0 <= k -> wbs < 2 ^ 32 ->
  0 < BlockSize (Media (fw w) b) -> (BlockSize (Media (fw w) b) | wbs) ->
  0 <= off -> 0 < size < 2 ^ 32 ->
  Z.of_nat (length (Contents (fw w) b)) < 2 ^ 64 ->
  run (WriteBlockToPartitionNoFlush (Some b) h off size (Some img)) w
    = (Go EFI_SUCCESS, w') ->
  exists d, buf_read img 0 size = Some d /\
    buf_write (Contents (fw w) b) (off * BlockSize (Media (fw w) b)) d
      = Some (Contents (fw w') b).
Proof.
  intros Hg Hwbs Hk Hwl HB Hdv Hoff Hsize Hlen.
  set (BS := BlockSize (Media (fw w) b)) in *.
  assert (Hp : 0 < wbs) by (rewrite Hwbs; apply Z.pow_pos_nonneg; lia).
  assert (Hd1 : size / wbs * wbs <= size) by (rewrite Z.mul_comm; apply Z.mul_div_le; lia).
  assert (Hd0 : 0 <= size / wbs * wbs) by (apply Z.mul_nonneg_nonneg; [apply Z.div_pos|]; lia).
  assert (Hrun : run (WriteBlockToPartitionNoFlush (Some b) h off size (Some img)) w =
    run (o ← aligned_part b img (size / wbs * wbs)
               (unit_size w wbs (size / wbs * wbs)) off;
         partial_part b img (size / wbs * wbs) size wbs o) w).
  { unfold run, call, WriteBlockToPartitionNoFlush, granule, ask in *. munfold.
    destruct (decide (StoredRootDevice (lb w) = NAND)) as [En|En];
      [rewrite !bool_decide_eq_true_2 in * by done
      |rewrite !bool_decide_eq_false_2 in * by done].
    - destruct h as [h'|]; [|done]. cbn [option_bind] in Hg.
      destruct (Z.eqb_spec (EraseGranularity (fw w) h').1 EFI_SUCCESS) as [Ee|];
        [|done]. rewrite Ee. injection Hg as Hg.
      cbn [Z.eqb negb EFI_SUCCESS]. cbn beta iota. rewrite Hg.
      replace (wbs =? 0) with false by (symmetry; lia).
      by rewrite (u32_small (size / wbs * wbs)) by lia.
    - injection Hg as Hg. rewrite Hg.
      replace (wbs =? 0) with false by (symmetry; lia).
      by rewrite (u32_small (size / wbs * wbs)) by lia. }
  rewrite Hrun. clear Hrun Hg. set (Div := size / wbs * wbs) in *.
  assert (HdD : (BS | Div)) by (etrans; [exact Hdv|apply Z.divide_factor_r]).
  unfold run, call. destruct (decide (Div = 0)) as [E0|Hne].
  - unfold aligned_part. rewrite E0. cbn [Z.eqb negb]. munfold.
    intros Hrun. edestruct (partial_part_ok b img 0 size wbs BS off w w')
      as (d & Hr & Hw); [done|lia|exact Hrun|]. rewrite Z.sub_0_r in Hr. eauto.
  - destruct (unit_size_ok w wbs k size) as (Hu & Hud); [done..|lia|].
    fold Div in Hu, Hud. unfold mbind, M_MBind, M_bind.
    destruct (aligned_part b img Div _ off w) as [[o|r|hh] w1] eqn:EA.
    2: { intros [= -> ->]. exfalso. by eapply aligned_part_ret in EA. }
    2: { done. }
    eapply aligned_part_ok with (BS := BS) in EA as (d1 & Hr1 & Hw1 & HM1 & Ho);
      try lia; try done; [|exact (Z.divide_trans _ _ _ Hdv Hud)].
    intros Hrun. destruct (decide (size - Div = 0)) as [Es|Hs].
    + unfold partial_part in Hrun. rewrite Es in Hrun. simpl in Hrun. munfold.
      injection Hrun as <-. exists d1. replace size with Div by lia. done.
    + edestruct (partial_part_ok b img Div size wbs BS o w1 w')
        as (d2 & Hr2 & Hw2); [by rewrite HM1|lia|exact Hrun|].
      exists (d1 ++ d2). split.
      * replace size with (Div + (size - Div)) by lia. by eapply buf_read_app.
      * eapply buf_write_app; [done|].
        rewrite (length_buf_read _ _ _ _ Hr1).
        replace (off * BS + Div) with (o * BS); [done|].
        destruct HdD as [q ->]. rewrite Ho, Z.div_mul by lia. lia.
Qed.

(** ** Writes always complete *)

Context `{!PlatformLaws F}.

(** What a transfer leaves alone: the loader's state and the platform. *)
Definition io_post (w w' : World) : Prop :=
  same_globals w w' /\ same_platform (fw w) (fw w').

#[export] Instance io_post_po : PreOrder io_post.
Proof. split; [by split|]. intros x y z [H1 H2] [H3 H4]. split; by etrans. Qed.

Lemma io_post_write b lba d w : io_post w (set_fw (WriteBlocks (fw w) b lba d).2 w).
Proof. split; [apply set_fw_globals|apply WriteBlocks_platform]. Qed.

(** The granule of a handle, where there is one, is a power of two and a
    multiple of the block size. *)
Definition granule_ok (w : World) (b : Z) (h : option Z) : Prop :=
  forall wbs, granule w b h = Some wbs ->
    (exists k, 0 <= k /\ wbs = 2 ^ k) /\ wbs < 2 ^ 32 /\
    0 < BlockSize (Media (fw w) b) /\ (BlockSize (Media (fw w) b) | wbs).

Lemma granule_post w w' b h : io_post w w' -> granule w' b h = granule w b h.
Proof.
  intros [(_ & _ & _ & Hl & _) (_ & _ & HM & _ & _ & _ & HE & _)]. unfold granule.
  rewrite Hl, HM. case_bool_decide; [|done]. destruct h as [h|]; [|done]. simpl.
  by rewrite HE.
Qed.

Lemma granule_ok_post w w' b h : io_post w w' -> granule_ok w b h -> granule_ok w' b h.
Proof.
  intros Hp Hg wbs. rewrite (granule_post w w') by done. intros H.
  destruct Hp as [_ (_ & _ & -> & _)]. by apply Hg.
Qed.

(** A status that is not an error is success; on NAND the status of the erase
    protocol is passed on as it is. *)
Definition status_ok (w : World) (st : EFI_STATUS) : Prop :=
  StoredRootDevice (lb w) <> NAND -> EFI_ERROR st = false -> st = EFI_SUCCESS.

Definition io_result (w : World) (st : EFI_STATUS) (w' : World) : Prop :=
  io_post w w' /\ status_ok w st.

Lemma io_result_go w w' : io_post w w' -> io_result w EFI_SUCCESS w'.
Proof. by split. Qed.

Lemma wp_write_blocks {R} b lba d (E : R -> World -> Prop) (Q : EFI_STATUS -> World -> Prop) w :
  (forall st w', io_post w w' -> (EFI_ERROR st = false -> st = EFI_SUCCESS) -> Q st w') ->
  wp (act (fun x => WriteBlocks x b lba d)) E Q w.
Proof.
  intros HQ. unfold wp, act. pose proof (io_post_write b lba d w) as Hp.
  pose proof (WriteBlocks_status (fw w) b lba d) as Hs.
  destruct (WriteBlocks (fw w) b lba d) as [st x]. by apply HQ.
Qed.

Lemma wp_write_units fuel b img Div unit off left w :
  0 < unit -> 0 <= Div < 2 ^ 32 -> left <= Div -> Div <= Z.of_nat (length img) ->
  left <= Z.of_nat fuel * unit ->
  wp (write_units fuel b img Div unit off left) (io_result w) (fun _ => io_post w) w.
Proof.
  revert off left w. induction fuel as [|fuel IH]; intros off left w Hu HD Hl Hi Hf;
    cbn [write_units]; (destruct (Z.leb_spec left 0); [apply wp_ret; reflexivity|]); [lia|].
  set (n := if unit <? left then unit else left).
  assert (Hn : 0 < n <= left /\ left - n <= Z.of_nat fuel * unit).
  { subst n. destruct (Z.ltb_spec unit left); lia. }
  rewrite (u32_small n) by lia.
  destruct (buf_read_in_range img (Div - left) n) as (d & Hd & _); [lia..|].
  wp_step. eapply wp_need; [exact Hd|]. wp_step. apply wp_write_blocks. intros st w1 H1 Hst.
  wp_step; [apply wp_early; by split; [|intros _]|]. wp_step. unfold wp at 1, ask.
  eapply wp_mono; [apply IH; lia| |].
  - intros ? w' [H' Hs']. split; [exact (transitivity H1 H')|]. unfold status_ok in *.
    destruct H1 as [(_ & _ & _ & El & _) _]. by rewrite El in Hs'.
  - intros ? w' H'. exact (transitivity H1 H').
Qed.

(** The granule as the code determines it. *)
Lemma wp_granule b h w :
  wp (if bool_decide (StoredRootDevice (lb w) = NAND) then
      match h with
      | Some h => e ← ask (fun x => EraseGranularity x h);
          if negb (e.1 =? EFI_SUCCESS) then early e.1 else mret (u32 e.2)
      | None => early EFI_INVALID_PARAMETER end
    else mret (BlockSize (Media (fw w) b))) (io_result w)
    (fun wbs w' => w' = w /\ granule w b h = Some wbs) w.
Proof.
  unfold granule. case_bool_decide as Hn; [|by apply wp_ret].
  assert (He : forall st, io_result w st w) by (intros st; split; [reflexivity|by intros ?]).
  destruct h as [h|]; [|by apply wp_early].
  apply wp_bind. unfold wp at 1, ask. simpl.
  destruct (_ =? EFI_SUCCESS); cbn [negb]; [by apply wp_ret|by apply wp_early].
Qed.

(** The last, partial granule. *)
Lemma wp_partial_part b img Div Size wbs off w :
  0 <= Div -> Size <= Z.of_nat (length img) -> Size - Div < wbs ->
  wp (partial_part b img Div Size wbs off) (io_result w) (io_result w) w.
Proof.
  intros HD Hi Hlt. unfold partial_part.
  assert (He : io_result w EFI_SUCCESS w) by (by apply io_result_go).
  wp_step; [|by apply wp_ret]. bools.
  wp_step. unfold wp at 1, ask. wp_step; [apply wp_ret; by split|].
  wp_step. unfold wp at 1, ask. pose proof (ReadBlocks_status (fw w) b off wbs) as HS.
  destruct (ReadBlocks (fw w) b off wbs) as [st d] eqn:ER. cbn [fst snd] in *.
  destruct (Z.eqb_spec st EFI_SUCCESS) as [->|]; cbn [negb];
    [|apply wp_ret; by split; [|intros _]].
  apply ReadBlocks_ok, length_buf_read in ER.
  destruct (buf_read_in_range img Div (Size - Div)) as (t & Ht & Hlt'); [lia..|].
  wp_step. eapply wp_need; [exact Ht|].
  destruct (buf_write_in_range d 0 t) as [d' Hd']; [lia..|].
  wp_step. eapply wp_need; [exact Hd'|]. apply wp_write_blocks. intros st w1 H1 Hs.
  by split; [|intros _].
Qed.

(** A write of at most 4 GiB from a buffer that holds it ends, with a status,
    and without a fault. *)
Lemma wp_write_no_flush w b h off size img :
  granule_ok w b h -> 0 <= size < 2 ^ 32 -> size <= Z.of_nat (length img) ->
  wp (WriteBlockToPartitionNoFlush (Some b) h off size (Some img)) (io_result w)
    (io_result w) w.
Proof.
  intros Hg Hs Hi. unfold WriteBlockToPartitionNoFlush.
  wp_step. unfold wp at 1, ask. do 2 wp_step. wp_step.
  eapply wp_mono; [apply wp_granule|done|]. intros wbs ? [-> Hw].
  destruct (Hg _ Hw) as ((k & Hk & Ek) & Hlt & HB & Hdv).
  assert (Hp : 0 < wbs) by (rewrite Ek; apply Z.pow_pos_nonneg; lia).
  destruct (Z.eqb_spec wbs 0); [lia|]. cbn zeta.
  assert (Hd1 : size / wbs * wbs <= size) by (rewrite Z.mul_comm; apply Z.mul_div_le; lia).
  assert (Hd0 : 0 <= size / wbs * wbs) by (apply Z.mul_nonneg_nonneg; [apply Z.div_pos|]; lia).
  rewrite (u32_small (size / wbs * wbs)) by lia.
  pose proof (Z.mod_pos_bound size wbs Hp) as Hm.
  assert (Hsz : size - size / wbs * wbs < wbs) by (rewrite Z.mod_eq in Hm by lia; lia).
  set (Div := size / wbs * wbs) in *. wp_step.
  assert (Hal : wp (if negb (Div =? 0) then write_units (Z.to_nat (Div /
        (if IsFlashSplitNeeded (lb w) then ROUND_TO_PAGE MAX_WRITE_SIZE (wbs - 1) else Div) + 1))
        b img Div (if IsFlashSplitNeeded (lb w) then ROUND_TO_PAGE MAX_WRITE_SIZE (wbs - 1) else Div)
        off Div else mret off) (io_result w) (fun _ => io_post w) w).
  { destruct (Z.eqb_spec Div 0); cbn [negb]; [apply wp_ret; reflexivity|].
    destruct (unit_size_ok w wbs k size) as (Hu & _); [done..|lia|].
    unfold unit_size in Hu. fold Div in Hu. apply wp_write_units; [done|lia..|].
    set (u := if IsFlashSplitNeeded (lb w) then _ else _) in *.
    assert (0 <= Div / u) by (apply Z.div_pos; lia).
    rewrite Z2Nat.id by lia.
    pose proof (Z.mod_pos_bound Div u Hu). pose proof (Z.div_mod Div u). lia. }
  eapply wp_mono; [exact Hal|done|]. intros o w1 H1.
  fold (partial_part b img Div size wbs o).
  assert (Hpost : forall st w', io_result w1 st w' -> io_result w st w').
  { intros st w' [H' Hs']. split; [exact (transitivity H1 H')|]. unfold status_ok in *.
    destruct H1 as [(_ & _ & _ & El & _) _]. by rewrite El in Hs'. }
  eapply wp_mono; [apply wp_partial_part; lia|exact Hpost|exact Hpost].
Qed.

(** Without a granule the write does not succeed. *)
Lemma no_granule_no_success w b h off size img w' :
  granule w b h = None ->
  ~ run (WriteBlockToPartitionNoFlush (Some b) h off size (Some img)) w = (Go EFI_SUCCESS, w').
Proof.
  unfold granule, run, call, WriteBlockToPartitionNoFlush, ask. munfold.
  case_bool_decide; [|done]. destruct h as [h|]; [|by intros _ ?]. simpl.
  destruct (Z.eqb_spec (EraseGranularity (fw w) h).1 EFI_SUCCESS); [done|]. cbn.
  intros _ [= ?]. done.
Qed.

(** What a flushed write of [size] bytes at block [off] leaves. *)
Definition written (w : World) (b off size : Z) (img : list Z) (st : EFI_STATUS)
    (w' : World) : Prop :=
  io_post w w' /\
  (st = EFI_SUCCESS ->
   buf_write (Contents (fw w) b) (off * BlockSize (Media (fw w) b))
     (take (Z.to_nat size) img) = Some (Contents (fw w') b)).

(** The transfer itself: it ends, and with success the bytes are there. *)
Lemma write_no_flush_written w b h off size img :
  granule_ok w b h -> 0 <= off -> 0 < size < 2 ^ 32 -> size <= Z.of_nat (length img) ->
  Z.of_nat (length (Contents (fw w) b)) < 2 ^ 64 ->
  exists st w1, run (WriteBlockToPartitionNoFlush (Some b) h off size (Some img)) w = (Go st, w1) /\
    status_ok w st /\ written w b off size img st w1.
Proof.
  intros Hg Ho Hs Hl Hlen.
  pose proof (wp_write_no_flush w b h off size img Hg ltac:(lia) Hl) as Hwp.
  apply wp_run in Hwp as (st & w1 & Hrun & Hp & Hst).
  exists st, w1. do 2 (split; [done|]). split; [done|]. intros ->.
  destruct (granule w b h) as [wbs|] eqn:Eg.
  - destruct (Hg _ Eg) as ((k & Hk & Ek) & Hlt & HB & Hdv).
    destruct (write_no_flush_ok w b h off size img w1 wbs k Eg) as (d & Hd & Hw); try done.
    apply buf_read_Some in Hd as (_ & _ & _ & ->). by rewrite drop_0 in Hw.
  - exfalso. by apply (no_granule_no_success w b h off size img w1).
Qed.

(** A flushed write: the bytes are on the device, or the write reports an error. *)
Definition written_or_error (w : World) (b off size : Z) (img : list Z) (st : EFI_STATUS)
    (w' : World) : Prop :=
  written w b off size img st w' /\
  (StoredRootDevice (lb w) <> NAND ->
   EFI_ERROR st = true \/
   buf_write (Contents (fw w) b) (off * BlockSize (Media (fw w) b))
     (take (Z.to_nat size) img) = Some (Contents (fw w') b)).

Lemma wp_write_partition_result w b h off size img :
  granule_ok w b h -> 0 <= off -> 0 < size < 2 ^ 32 -> size <= Z.of_nat (length img) ->
  Z.of_nat (length (Contents (fw w) b)) < 2 ^ 64 ->
  wp (WriteBlockToPartition (Some b) h off size (Some img)) (written_or_error w b off size img)
    (written_or_error w b off size img) w.
Proof.
  intros Hg Ho Hs Hl Hlen.
  destruct (write_no_flush_written w b h off size img) as (st & w1 & Hrun & Hst & Hp & Hex); [done..|].
  unfold WriteBlockToPartition. wp_step.
  eapply (wp_go _ _ _ _ st w1).
  { unfold run, call in *. by destruct (WriteBlockToPartitionNoFlush _ _ _ _ _ w) as [[]]; simplify_eq. }
  wp_step.
  { bools. apply wp_ret. split; [done|]. intros Hn. left. specialize (Hst Hn).
    destruct (EFI_ERROR st); [done|]. by specialize (Hst eq_refl). }
  wp_step. eapply wp_need; [done|].
  unfold wp, act. pose proof (FlushBlocks_contents (fw w1) b b) as Hf.
  pose proof (FlushBlocks_platform (fw w1) b) as Hq.
  destruct (FlushBlocks (fw w1) b) as [st' x]. bools. cbn in Hf, Hq.
  assert (Hc : buf_write (Contents (fw w) b) (off * BlockSize (Media (fw w) b))
    (take (Z.to_nat size) img) = Some (Contents x b)) by (rewrite Hf; by apply Hex).
  split; [split|]; [|by intros _|by right].
  etrans; [exact Hp|]. by split; [apply set_fw_globals|].
Qed.

Lemma wp_write_partition w b h off size img :
  granule_ok w b h -> 0 <= off -> 0 < size < 2 ^ 32 -> size <= Z.of_nat (length img) ->
  Z.of_nat (length (Contents (fw w) b)) < 2 ^ 64 ->
  wp (WriteBlockToPartition (Some b) h off size (Some img)) (written w b off size img)
    (written w b off size img) w.
Proof.
  intros Hg Ho Hs Hl Hlen. eapply wp_mono; [by apply (wp_write_partition_result w b h off size img)|..];
    by intros st w' [].
Qed.
End Writes.
