(* ===== verification/Board.v ===== *)
(** [Board.c]: what kind of storage the device boots from.  The answer is kept
    in a static once it is known; a network boot is answered without asking. *)
From Stdlib Require Import ZArith Lia.
From stdpp Require Import base list numbers option.
From S2P Require Import Prelude EfiBase Firmware World LoaderLib.

Definition gEfiEmmcUserPartitionGuid : list Z :=
  mkguid 0xb615f1f5 0x5088 0x43cd [0x80; 0x9c; 0xa1; 0x6e; 0x52; 0x48; 0x7d; 0x00].
Definition gEfiNandUserPartitionGuid : list Z :=
  mkguid 0x03ef84a9 0x60ce 0x4371 [0x97; 0xcf; 0x04; 0x84; 0x5a; 0x86; 0x5b; 0x79].

Definition EFI_EMMC_NETWORK_FLASH_TYPE : Z := 14.
Definition EFI_MAX_FLASH_TYPE : Z := 0x7FFFFFFF.
Definition HANDLE_MAX_INFO_LIST : Z := 128.

(** [DeviceType[]]: the name [GetRootDeviceType] prints. *)
Definition DeviceTypeName (t : MemCardType) : list Z :=
  match t with
  | EMMC => L "EMMC"
  | UFS => L "UFS"
  | NAND => L "NAND"
  | UNKNOWN => L "Unknown"
  end.

(** [AsciiStrnCmp (BootDeviceType, name, AsciiStrLen (name)) == 0] *)
Definition is_device (BootDeviceType name : list Z) : bool :=
  AsciiStrnCmp BootDeviceType name (AsciiStrLen name) =? 0.

Section Board.
Context `{F : Firmware}.

(** [GetBootDeviceType] of [LinuxLoader.c]. *)
Definition GetBootDeviceType {R} : MW R Z :=
  w ← get;
  (if BootDeviceType (rt w) =? EFI_MAX_FLASH_TYPE then
     r ← ask BootCfgVal;
     if r.1 =? EFI_SUCCESS
     then modify (fun w => set_rt (mkRoot r.2 (RootType (rt w))) w) else mret tt
   else mret tt);;
  w ← get; mret (BootDeviceType (rt w)).

Definition GetDeviceHandleInfo {R} (MaxHandles : Z) (Type_ : MemCardType) :
    MW R (EFI_STATUS * list HandleInfo) :=
  let query g :=
    r ← GetBlkIOHandles BLK_IO_SEL_MATCH_ROOT_DEVICE
          (Some (mkFilter (Some g) None None None)) MaxHandles;
    mret (r.1.1, r.1.2) in
  match Type_ with
  | UFS => query gEfiUfsLU0Guid
  | EMMC => query gEfiEmmcUserPartitionGuid
  | NAND => query gEfiNandUserPartitionGuid
  | UNKNOWN => mret (EFI_INVALID_PARAMETER, [])
  end.

(** The card types in the order of the enumeration. *)
Definition MemCardTypes : list MemCardType := [EMMC; UFS; NAND].

Definition GetCompatibleRootDeviceType {R} : MW R MemCardType :=
  (fix scan l :=
     match l with
     | [] => mret UNKNOWN
     | t :: l' =>
         r ← GetDeviceHandleInfo HANDLE_MAX_INFO_LIST t;
         if r.1 =? EFI_SUCCESS then mret t else scan l'
     end) MemCardTypes.

Definition CheckRootDeviceType {R} : MW R MemCardType :=
  Val ← GetBootDeviceType;
  if Val =? EFI_EMMC_NETWORK_FLASH_TYPE then mret UNKNOWN
  else
    w ← get;
    (if bool_decide (RootType (rt w) = UNKNOWN) then
       Status ← ask LocateCardInfo;
       if negb (EFI_ERROR Status) then
         c ← ask GetCardInfo;
         if negb (EFI_ERROR c.1) then
           t ← (if is_device c.2 (L "UFS") then mret UFS
                else if is_device c.2 (L "EMMC") then mret EMMC
                else if is_device c.2 (L "NAND") then mret NAND
                else GetCompatibleRootDeviceType);
           modify (fun w => set_rt (mkRoot (BootDeviceType (rt w)) t) w)
         else mret tt
       else mret tt
     else mret tt);;
    w ← get; mret (RootType (rt w)).

Definition GetRootDeviceType {R} : MW R (list Z) :=
  t ← CheckRootDeviceType; mret (DeviceTypeName t).

Definition GetPageSize {R} : MW R Z :=
  t ← CheckRootDeviceType;
  r ← GetDeviceHandleInfo HANDLE_MAX_INFO_LIST t;
  if r.1 =? EFI_SUCCESS then
    i ← need OutOfBounds (head r.2);
    ask (fun x => BlockSize (Media x (Handle i)))
  else mret BOOT_IMG_MAX_PAGE_SIZE.

(** [StoreRootDeviceType] of [LinuxLoaderLib.c]. *)
Definition StoreRootDeviceType {R} : MW R unit :=
  w ← get;
  if bool_decide (StoredRootDevice (lb w) = UNKNOWN) then
    t ← CheckRootDeviceType;
    modify (upd_lb (set_StoredRootDevice t))
  else mret tt.

(** ** The answer once it is known *)

(** The statics hold the answer: no call asks the firmware again with a
    different outcome. *)
Definition settled (w : World) : Prop :=
  RootType (rt w) <> UNKNOWN /\
  (BootDeviceType (rt w) <> EFI_MAX_FLASH_TYPE \/ (BootCfgVal (fw w)).1 <> EFI_SUCCESS).

Definition card_of (w : World) : MemCardType :=
  if BootDeviceType (rt w) =? EFI_EMMC_NETWORK_FLASH_TYPE then UNKNOWN
  else RootType (rt w).

Lemma GetBootDeviceType_settled {R} w :
  settled w -> GetBootDeviceType (R := R) w = (Go (BootDeviceType (rt w)), w).
Proof.
  intros [_ Hb]. unfold GetBootDeviceType, ask. munfold.
  destruct (Z.eqb_spec (BootDeviceType (rt w)) EFI_MAX_FLASH_TYPE) as [E|]; [|done].
  destruct Hb as [Hb|Hb]; [done|].
  destruct (Z.eqb_spec (BootCfgVal (fw w)).1 EFI_SUCCESS); [done|]. done.
Qed.

Lemma CheckRootDeviceType_settled {R} w :
  settled w -> CheckRootDeviceType (R := R) w = (Go (card_of w), w).
Proof.
  intros Hs. unfold CheckRootDeviceType, card_of.
  rewrite (bind_go _ _ _ _ _ (GetBootDeviceType_settled w Hs)).
  destruct (_ =? _); [done|]. munfold.
  by rewrite bool_decide_eq_false_2 by apply Hs.
Qed.

Lemma GetRootDeviceType_settled {R} w :
  settled w -> GetRootDeviceType (R := R) w = (Go (DeviceTypeName (card_of w)), w).
Proof.
  intros Hs. unfold GetRootDeviceType.
  by rewrite (bind_go _ _ _ _ _ (CheckRootDeviceType_settled w Hs)).
Qed.

Lemma settled_frame w w' :
  rt w' = rt w -> same_platform (fw w) (fw w') -> settled w -> settled w'.
Proof. intros E (Hb & _). unfold settled. by rewrite E, Hb. Qed.

Lemma card_frame w w' : rt w' = rt w -> card_of w' = card_of w.
Proof. intros E. unfold card_of. by rewrite E. Qed.

(** The page size depends on what is known of the device and on the platform. *)
Lemma DeviceHandle_frame {R} n t w w' :
  same_platform (fw w) (fw w') ->
  (GetDeviceHandleInfo (R := R) n t w').1 = (GetDeviceHandleInfo (R := R) n t w).1 /\
  (GetDeviceHandleInfo (R := R) n t w').2 = w'.
Proof.
  intros HP. unfold GetDeviceHandleInfo. cbn zeta.
  assert (Hq : forall g,
    let m := r ← GetBlkIOHandles (R := R) BLK_IO_SEL_MATCH_ROOT_DEVICE
               (Some (mkFilter (Some g) None None None)) n; mret (r.1.1, r.1.2) in
    (m w').1 = (m w).1 /\ (m w').2 = w').
  { intros g. cbn zeta.
    pose proof (query_platform (R := R) BLK_IO_SEL_MATCH_ROOT_DEVICE
      (Some (mkFilter (Some g) None None None)) n w w' eq_refl HP) as E.
    pose proof (keeps_GetBlkIOHandles (R := R) eq BLK_IO_SEL_MATCH_ROOT_DEVICE
      (Some (mkFilter (Some g) None None None)) n w') as K.
    unfold mbind, M_MBind, M_bind.
    destruct (GetBlkIOHandles _ _ _ w') as [c u], (GetBlkIOHandles _ _ _ w) as [c' u'].
    simpl in E, K. subst c' u. by destruct c. }
  destruct t; [apply Hq..|done].
Qed.

Lemma GetPageSize_frame {R} (w w' : World) (n : Z) :
  settled w -> rt w' = rt w -> same_platform (fw w) (fw w') ->
  GetPageSize (R := R) w = (Go n, w) -> GetPageSize (R := R) w' = (Go n, w').
Proof.
  intros Hs Hr HP. unfold GetPageSize.
  rewrite (bind_go _ _ _ _ _ (CheckRootDeviceType_settled w Hs)).
  rewrite (bind_go _ _ _ _ _ (CheckRootDeviceType_settled w' (settled_frame w w' Hr HP Hs))).
  rewrite (card_frame w w' Hr).
  destruct (DeviceHandle_frame (R := R) HANDLE_MAX_INFO_LIST (card_of w) w w' HP) as [E1 E2].
  destruct (DeviceHandle_frame (R := R) HANDLE_MAX_INFO_LIST (card_of w) w w) as [_ E3]; [done|].
  unfold mbind, M_MBind, M_bind.
  destruct (GetDeviceHandleInfo _ _ w') as [c u], (GetDeviceHandleInfo _ _ w) as [c' u'].
  simpl in *. subst. destruct c' as [r|r|h]; [|done..].
  destruct (r.1 =? EFI_SUCCESS); [|by intros [= <-]].
  destruct (head r.2) as [i|]; [|done]. cbn. unfold ask. cbn.
  destruct HP as (_ & _ & HM & _). rewrite HM. by intros [= <-].
Qed.

(** The search through the card types depends on the platform only. *)
Lemma Compatible_frame {R} w w' :
  same_platform (fw w) (fw w') ->
  (GetCompatibleRootDeviceType (R := R) w').1 = (GetCompatibleRootDeviceType (R := R) w).1 /\
  (GetCompatibleRootDeviceType (R := R) w').2 = w'.
Proof.
  intros HP. unfold GetCompatibleRootDeviceType. induction MemCardTypes as [|t l IH]; [done|].
  destruct (DeviceHandle_frame (R := R) HANDLE_MAX_INFO_LIST t w w' HP) as [E1 E2].
  destruct (DeviceHandle_frame (R := R) HANDLE_MAX_INFO_LIST t w w) as [_ E3]; [done|].
  unfold mbind, M_MBind, M_bind in *. cbn beta iota in *.
  destruct (GetDeviceHandleInfo _ _ w') as [c u], (GetDeviceHandleInfo _ _ w) as [c' u'].
  simpl in E1, E2, E3. subst. destruct c' as [r|r|h]; [|done..].
  destruct (r.1 =? EFI_SUCCESS); [done|apply IH].
Qed.

Lemma GetBootDeviceType_again {R} (w w' : World) v :
  GetBootDeviceType (R := R) w = (Go v, w') ->
  GetBootDeviceType (R := R) w' = (Go v, w') /\ BootDeviceType (rt w') = v /\
  RootType (rt w') = RootType (rt w) /\ fw w' = fw w.
Proof.
  unfold GetBootDeviceType, ask. munfold.
  destruct (BootDeviceType (rt w) =? EFI_MAX_FLASH_TYPE) eqn:E;
    [|intros [= <- <-]; by rewrite E].
  destruct ((BootCfgVal (fw w)).1 =? EFI_SUCCESS) eqn:Eb;
    [|intros [= <- <-]; by rewrite E, Eb].
  intros [= <- <-]. cbn [rt fw set_rt BootDeviceType RootType].
  destruct ((BootCfgVal (fw w)).2 =? EFI_MAX_FLASH_TYPE); [|done]. cbn beta iota.
  cbn [rt fw set_rt BootDeviceType RootType]. by rewrite Eb.
Qed.

Lemma GetBootDeviceType_frame {R} (w w' : World) v :
  GetBootDeviceType (R := R) w = (Go v, w) ->
  BootDeviceType (rt w') = BootDeviceType (rt w) -> fw w' = fw w ->
  GetBootDeviceType (R := R) w' = (Go v, w').
Proof.
  unfold GetBootDeviceType, ask. munfold. intros H Hb Hf. revert H. rewrite Hb.
  destruct (BootDeviceType (rt w) =? EFI_MAX_FLASH_TYPE); [|intros [= <-]; by rewrite Hb].
  cbn beta iota. rewrite Hf. destruct (BootCfgVal (fw w)) as [st b]. cbn [fst snd].
  destruct (st =? EFI_SUCCESS); [|intros [= <-]; by rewrite Hb].
  cbn beta iota. intros [= <- E]. assert (Hb' : b = BootDeviceType (rt w)) by (by rewrite <- E).
  cbn [rt set_rt BootDeviceType].
  f_equal. destruct w' as [? ? ? ? ? ? ? [b' ty]]. simpl in *. unfold set_rt. cbn. congruence.
Qed.

(** Asking twice gives the same answer, and the second time nothing changes,
    whether the type is known or not. *)
Lemma CheckRootDeviceType_again {R} (w w' : World) t :
  CheckRootDeviceType (R := R) w = (Go t, w') -> CheckRootDeviceType (R := R) w' = (Go t, w').
Proof.
  intros H. unfold CheckRootDeviceType in H.
  apply bind_inv_go in H as (v & w1 & H1 & H2).
  apply GetBootDeviceType_again in H1 as (H1 & Hv & Hr & Hf).
  destruct (v =? EFI_EMMC_NETWORK_FLASH_TYPE) eqn:Ev.
  { injection H2 as <- <-. unfold CheckRootDeviceType. by rewrite (bind_go _ _ _ _ _ H1), Ev. }
  assert (Hw : w' = w1 \/ t <> UNKNOWN /\
    w' = set_rt (mkRoot (BootDeviceType (rt w1)) t) w1 /\ RootType (rt w1) = UNKNOWN).
  { apply bind_inv_go in H2 as (wg & w2 & [= <- <-] & H2).
    apply bind_inv_go in H2 as ([] & w3 & H3 & [= <- <-]).
    case_bool_decide as Hu; [|injection H3 as <-; by left].
    apply bind_inv_go in H3 as (Status & w4 & [= <- <-] & H3).
    destruct (negb _); [|injection H3 as <-; by left].
    apply bind_inv_go in H3 as (c & w5 & [= <- <-] & H3).
    destruct (negb _); [|injection H3 as <-; by left].
    apply bind_inv_go in H3 as (t & w6 & H4 & [= <-]).
    assert (w6 = w1) as ->.
    { repeat case_match; try by injection H4.
      pose proof (proj2 (Compatible_frame (R := R) w1 w1 (reflexivity _))) as E. by rewrite H4 in E. }
    destruct (decide (t = UNKNOWN)) as [->|]; [left|by right].
    clear -Hu. destruct w1 as [? ? ? ? ? ? ? [b ty]]. simpl in Hu. by rewrite Hu. }
  destruct Hw as [-> | (Hn & Hw & Hu)].
  { unfold CheckRootDeviceType. by rewrite (bind_go _ _ _ _ _ H1), Ev. }
  assert (H3 : GetBootDeviceType (R := R) w' = (Go v, w')).
  { apply (GetBootDeviceType_frame w1); [done|by rewrite Hw..]. }
  unfold CheckRootDeviceType. rewrite (bind_go _ _ _ _ _ H3), Ev. munfold.
  rewrite bool_decide_eq_false_2; [|by rewrite Hw]. by rewrite Hw.
Qed.

(** Asking changes the two statics only. *)
Section Frames.
Context (P : World -> World -> Prop) `{!PreOrder P}.
Context (Hrt : forall x w, P w (set_rt x w)).

Lemma keeps_GetBootDeviceType {R} : keeps P (GetBootDeviceType (R := R)).
Proof. unfold GetBootDeviceType. keeps_tac; apply Hrt. Qed.

Lemma keeps_GetDeviceHandleInfo {R} n t : keeps P (GetDeviceHandleInfo (R := R) n t).
Proof. unfold GetDeviceHandleInfo. cbn zeta. destruct t; keeps_tac. Qed.

Lemma keeps_GetCompatibleRootDeviceType {R} :
  keeps P (GetCompatibleRootDeviceType (R := R)).
Proof.
  pose proof (@keeps_GetDeviceHandleInfo). unfold GetCompatibleRootDeviceType.
  cbn [MemCardTypes]. keeps_tac; auto.
Qed.

Lemma keeps_CheckRootDeviceType {R} : keeps P (CheckRootDeviceType (R := R)).
Proof.
  pose proof (@keeps_GetBootDeviceType). pose proof (@keeps_GetCompatibleRootDeviceType).
  unfold CheckRootDeviceType. keeps_tac; auto; apply Hrt.
Qed.
End Frames.

Lemma keeps_GetRootDeviceType {R} : keeps same_slots (GetRootDeviceType (R := R)).
Proof.
  unfold GetRootDeviceType. apply keeps_bind; [apply _| |keeps_tac].
  apply keeps_CheckRootDeviceType; [apply _|]. by intros; repeat split.
Qed.
End Board.
#[export] Hint Resolve keeps_GetRootDeviceType : keeps.
