(* ===== verification/Ptable.v ===== *)
(** The partition table in memory ([PartitionTableUpdate.c]): finding the
    storage handles, filling [PtnEntries] from the partition records of the
    firmware, looking partitions up by name, and the test for A/B pairs. *)
From Stdlib Require Import ZArith Lia.
From stdpp Require Import base list numbers option.
From S2P Require Import Prelude EfiBase Firmware World LoaderLib Board.

(** ** Device GUIDs ([QcomModulePkg.dec]) *)

Definition LunGuids : list (list Z) :=
  [ gEfiUfsLU0Guid;
    mkguid 0x8d90d477 0x39a3 0x4a38 [0xab; 0x9e; 0x58; 0x6f; 0xf6; 0x9e; 0xd0; 0x51];
    mkguid 0xedf85868 0x87ec 0x4f77 [0x9c; 0xda; 0x5f; 0x10; 0xdf; 0x2f; 0xe6; 0x01];
    mkguid 0x1ae69024 0x8aeb 0x4df8 [0xbc; 0x98; 0x00; 0x32; 0xdb; 0xdf; 0x50; 0x24];
    mkguid 0xd33f1985 0xf107 0x4a85 [0xbe; 0x38; 0x68; 0xdc; 0x7a; 0xd3; 0x2c; 0xea];
    mkguid 0x4ba1d05f 0x088e 0x483f [0xa9; 0x7e; 0xb1; 0x9b; 0x9c; 0xcf; 0x59; 0xb0];
    mkguid 0x4acf98f6 0x26fa 0x44d2 [0x81; 0x32; 0x28; 0x2f; 0x2d; 0x19; 0xa4; 0xc5];
    mkguid 0x8598155f 0x34de 0x415c [0x8b; 0x55; 0x84; 0x3e; 0x33; 0x22; 0xd3; 0x6f] ].

Definition MAX_HANDLEINF_LST_SIZE : Z := 128.

(** ** Lookup by name *)

(** The index search both lookups share: entry [i] compared over the 36
    characters of its name field. *)
Fixpoint find_name (i : Z) (Pname : list Z) (l : list PartitionEntry) : Z :=
  match l with
  | [] => INVALID_PTN
  | e :: l' =>
      if StrnCmp (Name e) Pname (Z.of_nat (length (Name e))) =? 0 then i
      else find_name (i + 1) Pname l'
  end.

(** The entries in use, [PtnEntries[0 .. PartitionCount - 1]]. *)
Definition live (p : PtGlobals) : list PartitionEntry :=
  take (Z.to_nat (PartitionCount p)) (PtnEntries p).

Definition GetPartitionIndex (p : PtGlobals) (Pname : list Z) : Z :=
  find_name 0 Pname (live p).

(** The relative index of a name among the entries of one LUN. *)
Fixpoint idx_in_lun (RelativeIndex : Z) (Pname : list Z) (Lun : Z)
    (l : list PartitionEntry) : Z :=
  match l with
  | [] => INVALID_PTN
  | e :: l' =>
      if Lun =? lun e then
        if StrnCmp Pname (Name e) (Z.of_nat (length (Name e))) =? 0 then RelativeIndex
        else idx_in_lun (RelativeIndex + 1) Pname Lun l'
      else idx_in_lun RelativeIndex Pname Lun l'
  end.

Definition GetPartitionIdxInLun (p : PtGlobals) (Pname : list Z) (Lun : Z) : Z :=
  idx_in_lun 0 Pname Lun (live p).

Definition GetMaxLuns (p : PtGlobals) : Z := MaxLuns p.
Definition GetPartitionCount (p : PtGlobals) : Z := PartitionCount p.
Definition GetPartitionLunFromIndex (p : PtGlobals) (Index : Z) : option Z :=
  lun <$> PtnEntries p !! Z.to_nat Index.

(** [IsSuperPartitionExist], [IsDynamicPartitionSupport] of [BootLinux.c]. *)
Definition IsSuperPartitionExist (p : PtGlobals) : bool :=
  let PtnIdx := GetPartitionIndex p (L "super") in
  (u32 PtnIdx <? PartitionCount p) && negb (PtnIdx =? INVALID_PTN).
Definition IsDynamicPartitionSupport `{BuildConfig} (p : PtGlobals) : bool :=
  if SUPPORT_AB_BOOT_LXC then false else IsSuperPartitionExist p.

Definition MIN_SLOTS : Z := 1.

Section Enumerate.
Context `{F : Firmware}.

(** [RecoveryInfo.c]: asked once, the answer is kept in [HasRecoveryInfo]
    unless the recovery-info partition is missing. *)
Definition RECOVERY_INFO_PARTITION_FAIL : Z := 1.
Definition IsRecoveryInfo {R} : MW R bool :=
  w ← get;
  if ri w =? -1 then
    Status ← ask LocateRecoveryInfo;
    if negb (Status =? EFI_SUCCESS) then modify (set_ri 0);; mret false
    else
      r ← ask GetRecoveryState;
      (if negb (r.1 =? EFI_SUCCESS) || negb (r.2 =? RECOVERY_INFO_PARTITION_FAIL)
       then modify (set_ri 1) else mret tt);;
      w ← get; mret (ri w =? 1)
  else mret (ri w =? 1).

(** The scan of [PartitionHasMultiSlot]. *)
Fixpoint multi_slot_scan {R} (Pname : list Z) (SlotCount : Z)
    (l : list PartitionEntry) : MW R bool :=
  match l with
  | [] => mret false
  | e :: l' =>
      let Len := StrLen Pname in
      let next n := if MIN_SLOTS <? n then mret true else multi_slot_scan Pname n l' in
      if StrnCmp (Name e) Pname Len =? 0 then
        if (char_at (Name e) Len =? 95) && (char_at (Name e) (Len + 1) =? 97)
        then next (SlotCount + 1)
        else if (char_at (Name e) Len =? 95) && (char_at (Name e) (Len + 1) =? 98) then
          r ← IsRecoveryInfo;
          if (r : bool) then mret true else next (SlotCount + 1)
        else next SlotCount
      else next SlotCount
  end.

Definition PartitionHasMultiSlot {R} (Pname : list Z) : MW R bool :=
  w ← get; multi_slot_scan Pname 0 (live (pt w)).

(** The root block device of a LUN, or of the eMMC for [NO_LUN]; the last
    component is [*MaxHandles] afterwards. *)
Definition GetStorageHandle {R} (Lun MaxHandles : Z) :
    MW R (EFI_STATUS * list HandleInfo * Z) :=
  g ← (if Lun =? NO_LUN then mret gEfiEmmcUserPartitionGuid
       else need OutOfBounds (if Lun <? 0 then None else LunGuids !! Z.to_nat Lun));
  GetBlkIOHandles BLK_IO_SEL_SELECT_ROOT_DEVICE_ONLY
    (Some (mkFilter (Some g) None None None)) MaxHandles.

(** One entry of [UpdatePartitionEntries]: the partition record of the
    handle, or an empty entry that only carries the LUN. *)
Definition entry_of (x : Fw) (i : Z) (h : HandleInfo) : PartitionEntry :=
  match PartitionRecord x (Handle h) with
  | Some e => mkPtn e i
  | None => mkPtn (PartEntry zero_entry) i
  end.

(** The entries of the LUNs from [i] on; the caller cuts at the size of the
    array. *)
Fixpoint entries_of (x : Fw) (i : Z) (l : list StoragePartInfo) : list PartitionEntry :=
  match l with
  | [] => []
  | s :: l' =>
      map (fun j => match HandleInfoList s !! j with
                    | Some h => entry_of x i h
                    | None => mkPtn (PartEntry zero_entry) i
                    end) (seq 0 (Z.to_nat (MaxHandles s))) ++
      entries_of x (i + 1) l'
  end.

Definition UpdatePartitionEntries {R} : MW R unit :=
  w ← get;
  let es := take (Z.to_nat MAX_NUM_PARTITIONS)
    (entries_of (fw w) 0 (take (Z.to_nat (MaxLuns (pt w))) (Ptable (pt w)))) in
  let all := es ++ replicate (Z.to_nat MAX_NUM_PARTITIONS - length es) zero_entry in
  modify (upd_pt (fun p => set_PtnEntriesBak all (set_PtnEntries all
            (set_PartitionCount (Z.of_nat (length es)) p)))).

(** One query of [EnumeratePartitions] for the handles of a root device. *)
Definition root_handles {R} (g : list Z) : MW R (EFI_STATUS * list HandleInfo * Z) :=
  GetBlkIOHandles BLK_IO_SEL_MATCH_ROOT_DEVICE
    (Some (mkFilter (Some g) None None None)) MAX_NUM_PARTITIONS.

Definition EnumeratePartitions : MW EFI_STATUS EFI_STATUS :=
  let empty := replicate (Z.to_nat MAX_LUNS) (mkStorage [] 0) in
  modify (upd_pt (set_Ptable empty));;
  r ← root_handles gEfiNandUserPartitionGuid;
  let '(Status, l, n) := r in
  modify (upd_pt (set_Ptable (<[0%nat := mkStorage l n]> empty)));;
  if (Status =? EFI_SUCCESS) && (0 <? n) then
    modify (upd_pt (set_MaxLuns 1));; early Status
  else
  r ← root_handles gEfiEmmcUserPartitionGuid;
  let '(Status, l, n) := r in
  modify (upd_pt (set_Ptable (<[0%nat := mkStorage l n]> empty)));;
  if (Status =? EFI_SUCCESS) && (0 <? n) then
    modify (upd_pt (set_MaxLuns 1));; mret Status
  else if EFI_ERROR Status || (n =? 0) then
    Status ← for_up (Z.to_nat MAX_LUNS) 0 Status (fun i _ =>
      g ← need OutOfBounds (LunGuids !! Z.to_nat i);
      r ← root_handles g;
      let '(Status, l, n) := r in
      modify (upd_pt (fun p => set_Ptable (<[Z.to_nat i := mkStorage l n]> (Ptable p)) p));;
      mret (false, Status));
    modify (upd_pt (set_MaxLuns MAX_LUNS));;
    mret Status
  else mret EFI_NOT_FOUND.
End Enumerate.

(** ** Facts about lookup *)

(** An entry carries a name: the terminated strings agree over the field. *)
Definition names (e : PartitionEntry) (Pname : list Z) : Prop :=
  take (length (Name e)) (cstr (Name e)) = take (length (Name e)) (cstr Pname).

#[global] Instance names_dec e Pname : Decision (names e Pname).
Proof. unfold names. apply _. Defined.

Lemma find_name_spec i Pname l :
  match list_find (fun e => names e Pname) l with
  | Some (n, _) => find_name i Pname l = i + Z.of_nat n
  | None => find_name i Pname l = INVALID_PTN
  end.
Proof.
  revert i. induction l as [|e l IH]; intros i; [done|].
  cbn [list_find find_name].
  assert (Hc : (StrnCmp (Name e) Pname (Z.of_nat (length (Name e))) =? 0)
               = bool_decide (names e Pname)).
  { apply eq_true_iff_eq. rewrite Z.eqb_eq, StrnCmp_eq0, bool_decide_eq_true by lia.
    by rewrite Nat2Z.id. }
  rewrite Hc. destruct (decide (names e Pname)) as [H|H].
  - rewrite bool_decide_eq_true_2 by done. lia.
  - rewrite bool_decide_eq_false_2 by done. specialize (IH (i + 1)).
    destruct (list_find _ l) as [[n ?]|]; simpl; [lia|done].
Qed.

(** The first entry in use that carries the name, or no entry at all. *)
Lemma GetPartitionIndex_Some p Pname :
  GetPartitionIndex p Pname <> INVALID_PTN ->
  exists n e, GetPartitionIndex p Pname = Z.of_nat n /\ live p !! n = Some e /\
    PtnEntries p !! n = Some e /\ names e Pname /\
    (forall m e', (m < n)%nat -> live p !! m = Some e' -> ~ names e' Pname).
Proof.
  unfold GetPartitionIndex. intros H.
  pose proof (find_name_spec 0 Pname (live p)) as Hs.
  destruct (list_find _ (live p)) as [[n e]|] eqn:E; [|done].
  apply list_find_Some in E as (Hl & Hn & Hm).
  exists n, e. split_and!; [lia|done| |done|].
  - unfold live in Hl. by apply lookup_take_Some in Hl as [? _].
  - intros m e' Hlt He'. by eapply Hm.
Qed.

Lemma GetPartitionIndex_None p Pname :
  GetPartitionIndex p Pname = INVALID_PTN <-> Forall (fun e => ~ names e Pname) (live p).
Proof.
  unfold GetPartitionIndex. pose proof (find_name_spec 0 Pname (live p)) as Hs.
  destruct (list_find _ (live p)) as [[n e]|] eqn:E.
  - split; [unfold INVALID_PTN; lia|]. intros Hf.
    apply list_find_Some in E as (Hl & Hn & _).
    by apply (Forall_lookup_1 _ _ _ _ Hf) in Hl.
  - apply list_find_None in E. done.
Qed.

Section PtableFrames.
Context `{F : Firmware}.
Lemma keeps_GetStorageHandle {R} (P : World -> World -> Prop) `{!PreOrder P} l m :
  keeps P (GetStorageHandle (R := R) l m).
Proof. unfold GetStorageHandle. keeps_tac. Qed.
End PtableFrames.
#[export] Hint Resolve keeps_GetStorageHandle : keeps.
