(* ===== verification/DevInfo.v ===== *)
(** The device state ([DeviceInfo.c]): lock flags, verity mode, rollback
    indices, the user key and the named persistent values, kept in [DevInfo]
    and stored as one block by the verified-boot protocol. *)
From Stdlib Require Import ZArith Lia.
From stdpp Require Import base list numbers option gmap.
From S2P Require Import Prelude EfiBase Convert Firmware World LoaderLib Board Ptable.

Definition DEVICE_MAGIC : list Z := Eval cbv in L "ANDROID-BOOT!".
Definition DEVICE_MAGIC_SIZE : Z := 13.
Definition MAX_VERSION_LEN : Z := 64.
Definition MAX_VB_PARTITIONS : Z := 32.
Definition MAX_USER_KEY_SIZE : Z := 2048.
Definition MAX_NAME_SIZE : Z := 56.
Definition MAX_VALUE_SIZE : Z := 32.
Definition MAX_ENTRY_SIZE : Z := 8.
Definition MAX_AUDIO_FW_LENGTH : Z := 16.
Definition GOLDEN_SNAPSHOT_MAGIC : Z := 0x575757.
Definition UNLOCK : Z := 0.
Definition UNLOCK_CRITICAL : Z := 1.

(** [Include/Library/VerifiedBoot.h] *)
Definition NO_AVB : Z := 0.
Definition AVB_2 : Z := 2.
Definition AVB_LE : Z := 3.

(** [struct RecoveryMessage] of [Recovery.h], as the bytes it occupies. *)
Definition RECOVERY_WIPE_DATA : list Z :=
  L "recovery" ++ [10] ++ L "--wipe_data" ++ [10] ++
  L "--reason=MasterClearConfirm" ++ [10] ++ L "--locale=en_US" ++ [10].
Definition RECOVERY_COMMAND_SIZE : Z := 32.
Definition RECOVERY_STATUS_SIZE : Z := 32.
Definition RECOVERY_RECOVERY_SIZE : Z := 1024.
Definition gEfiMiscPartitionGuid : list Z :=
  mkguid 0x82ACC91F 0x357C 0x4A68 [0x9C; 0x8F; 0x68; 0x9E; 0x1B; 0x1A; 0x23; 0xA1].

(** ** Assignments to a field *)

Definition set_magic (x : list Z) (d : DeviceInfo) : DeviceInfo :=
  mkDeviceInfo x (is_unlocked d) (is_unlock_critical d) (is_charger_screen_enabled d)
    (bootloader_version d) (radio_version d) (verity_mode d) (user_public_key_length d)
    (user_public_key d) (rollback_index d) (persistent_value d) (GoldenSnapshot d)
    (AudioFramework d).
Definition set_unlocked (x : bool) (d : DeviceInfo) : DeviceInfo :=
  mkDeviceInfo (magic d) x (is_unlock_critical d) (is_charger_screen_enabled d)
    (bootloader_version d) (radio_version d) (verity_mode d) (user_public_key_length d)
    (user_public_key d) (rollback_index d) (persistent_value d) (GoldenSnapshot d)
    (AudioFramework d).
Definition set_unlock_critical (x : bool) (d : DeviceInfo) : DeviceInfo :=
  mkDeviceInfo (magic d) (is_unlocked d) x (is_charger_screen_enabled d)
    (bootloader_version d) (radio_version d) (verity_mode d) (user_public_key_length d)
    (user_public_key d) (rollback_index d) (persistent_value d) (GoldenSnapshot d)
    (AudioFramework d).
Definition set_charger (x : bool) (d : DeviceInfo) : DeviceInfo :=
  mkDeviceInfo (magic d) (is_unlocked d) (is_unlock_critical d) x
    (bootloader_version d) (radio_version d) (verity_mode d) (user_public_key_length d)
    (user_public_key d) (rollback_index d) (persistent_value d) (GoldenSnapshot d)
    (AudioFramework d).
Definition set_bootloader_version (x : list Z) (d : DeviceInfo) : DeviceInfo :=
  mkDeviceInfo (magic d) (is_unlocked d) (is_unlock_critical d)
    (is_charger_screen_enabled d) x (radio_version d) (verity_mode d)
    (user_public_key_length d) (user_public_key d) (rollback_index d)
    (persistent_value d) (GoldenSnapshot d) (AudioFramework d).
Definition set_radio_version (x : list Z) (d : DeviceInfo) : DeviceInfo :=
  mkDeviceInfo (magic d) (is_unlocked d) (is_unlock_critical d)
    (is_charger_screen_enabled d) (bootloader_version d) x (verity_mode d)
    (user_public_key_length d) (user_public_key d) (rollback_index d)
    (persistent_value d) (GoldenSnapshot d) (AudioFramework d).
Definition set_verity (x : bool) (d : DeviceInfo) : DeviceInfo :=
  mkDeviceInfo (magic d) (is_unlocked d) (is_unlock_critical d)
    (is_charger_screen_enabled d) (bootloader_version d) (radio_version d) x
    (user_public_key_length d) (user_public_key d) (rollback_index d)
    (persistent_value d) (GoldenSnapshot d) (AudioFramework d).
Definition set_user_key (n : Z) (k : list Z) (d : DeviceInfo) : DeviceInfo :=
  mkDeviceInfo (magic d) (is_unlocked d) (is_unlock_critical d)
    (is_charger_screen_enabled d) (bootloader_version d) (radio_version d) (verity_mode d)
    n k (rollback_index d) (persistent_value d) (GoldenSnapshot d) (AudioFramework d).
Definition set_rollback (x : list Z) (d : DeviceInfo) : DeviceInfo :=
  mkDeviceInfo (magic d) (is_unlocked d) (is_unlock_critical d)
    (is_charger_screen_enabled d) (bootloader_version d) (radio_version d) (verity_mode d)
    (user_public_key_length d) (user_public_key d) x (persistent_value d)
    (GoldenSnapshot d) (AudioFramework d).
Definition set_persistent (x : list persistent_value_type) (d : DeviceInfo) : DeviceInfo :=
  mkDeviceInfo (magic d) (is_unlocked d) (is_unlock_critical d)
    (is_charger_screen_enabled d) (bootloader_version d) (radio_version d) (verity_mode d)
    (user_public_key_length d) (user_public_key d) (rollback_index d) x
    (GoldenSnapshot d) (AudioFramework d).
Definition set_golden (x : Z) (d : DeviceInfo) : DeviceInfo :=
  mkDeviceInfo (magic d) (is_unlocked d) (is_unlock_critical d)
    (is_charger_screen_enabled d) (bootloader_version d) (radio_version d) (verity_mode d)
    (user_public_key_length d) (user_public_key d) (rollback_index d) (persistent_value d)
    x (AudioFramework d).
Definition set_audio (x : list Z) (d : DeviceInfo) : DeviceInfo :=
  mkDeviceInfo (magic d) (is_unlocked d) (is_unlock_critical d)
    (is_charger_screen_enabled d) (bootloader_version d) (radio_version d) (verity_mode d)
    (user_public_key_length d) (user_public_key d) (rollback_index d) (persistent_value d)
    (GoldenSnapshot d) x.

(** The block with every byte zero, and a zeroed persistent value. *)
Definition zero_pv : persistent_value_type :=
  mkPV 0 0 0 (zeros MAX_NAME_SIZE) (zeros MAX_VALUE_SIZE).
Definition zero_DevInfo : DeviceInfo :=
  mkDeviceInfo (zeros DEVICE_MAGIC_SIZE) false false false (zeros MAX_VERSION_LEN)
    (zeros MAX_VERSION_LEN) false 0 (zeros MAX_USER_KEY_SIZE) (zeros MAX_VB_PARTITIONS)
    (replicate (Z.to_nat MAX_ENTRY_SIZE) zero_pv) 0 (zeros MAX_AUDIO_FW_LENGTH).

Section Ops.
Context `{F : Firmware} `{B : BuildConfig}.

(** ** Queries *)

Definition IsSnapshotGolden (w : World) : bool :=
  GoldenSnapshot (DevInfo (dv w)) =? GOLDEN_SNAPSHOT_MAGIC.
Definition IsUnlocked (w : World) : bool := is_unlocked (DevInfo (dv w)).
Definition IsUnlockCritical (w : World) : bool := is_unlock_critical (DevInfo (dv w)).
Definition IsEnforcing (w : World) : bool := verity_mode (DevInfo (dv w)).
Definition IsChargingScreenEnable (w : World) : bool :=
  is_charger_screen_enabled (DevInfo (dv w)).

(** [VerifiedBoot.c]: which verified-boot flavour this build and this
    partition table give; a missing index is [-1], all ones as [UINT32]. *)
Definition Is_VERIFIED_BOOT_2 (p : PtGlobals) : bool :=
  VERIFIED_BOOT_ENABLED &&
  let found Pname :=
    let i := GetPartitionIndex p Pname in
    (u32 i <? GetPartitionCount p) && negb (i =? INVALID_PTN) in
  if found (L "vbmeta_a") then true else found (L "vbmeta").
Definition GetAVBVersion (p : PtGlobals) : Z :=
  if Is_VERIFIED_BOOT_2 p then AVB_2
  else if VERIFIED_BOOT_LE then AVB_LE else NO_AVB.
Definition VerifiedBootEnbled (p : PtGlobals) : bool := NO_AVB <? GetAVBVersion p.

(** ** The store ([LinuxLoaderLib.c]) *)

Definition upd_info (f : DeviceInfo -> DeviceInfo) (w : World) : World :=
  upd_dv (fun d => mkDev (f (DevInfo d)) (FirstReadDevInfo d)) w.

(** [ReadWriteDeviceInfo (WRITE_CONFIG, &DevInfo, sizeof (DevInfo))] *)
Definition WriteDevInfo {R} : MW R EFI_STATUS :=
  Status ← ask LocateVb;
  if negb (Status =? EFI_SUCCESS) then mret Status
  else w ← get; act (fun x => VBWriteDeviceState x (DevInfo (dv w))).

(** [ReadWriteDeviceInfo (READ_CONFIG, &DevInfo, sizeof (DevInfo))] *)
Definition ReadDevInfo {R} : MW R EFI_STATUS :=
  Status ← ask LocateVb;
  if negb (Status =? EFI_SUCCESS) then mret Status
  else
    r ← ask VBReadDeviceState;
    modify (upd_info (fun _ => r.2));; mret r.1.

(** The version strings, printed into a buffer. *)
Definition GetBootloaderVersion {R} (BootloaderVersion : list Z) (Len : Z) : MW R (list Z) :=
  w ← get; AsciiSPrint BootloaderVersion Len (cstr (bootloader_version (DevInfo (dv w)))).
Definition GetRadioVersion {R} (RadioVersion : list Z) (Len : Z) : MW R (list Z) :=
  w ← get; AsciiSPrint RadioVersion Len (cstr (radio_version (DevInfo (dv w)))).

Definition IsSecureBootEnabled {R} : MW R bool :=
  Status ← ask LocateVb;
  if negb (Status =? EFI_SUCCESS) then mret false
  else
    r ← ask VBIsDeviceSecure;
    if negb (r.1 =? EFI_SUCCESS) then mret false else mret r.2.

Definition ResetDeviceState {R} : MW R EFI_STATUS :=
  w ← get;
  if negb (VerifiedBootEnbled (pt w)) || (GetAVBVersion (pt w) =? AVB_LE)
  then mret EFI_SUCCESS
  else
    Status ← ask LocateVb;
    if negb (Status =? EFI_SUCCESS) then mret Status
    else act VBDeviceResetState.

(** ** Flags *)

Definition EnableChargingScreen {R} (IsEnabled : bool) : MW R EFI_STATUS :=
  w ← get;
  if negb (eqb (IsChargingScreenEnable w) IsEnabled) then
    modify (upd_info (set_charger IsEnabled));; WriteDevInfo
  else mret EFI_SUCCESS.

Definition EnableEnforcingMode {R} (IsEnabled : bool) : MW R EFI_STATUS :=
  w ← get;
  if negb (eqb (IsEnforcing w) IsEnabled) then
    modify (upd_info (set_verity IsEnabled));; WriteDevInfo
  else mret EFI_SUCCESS.

Definition SetUnlockValue {R} (State : bool) : MW R EFI_STATUS :=
  w ← get;
  if negb (eqb (IsUnlocked w) State) then
    modify (upd_info (set_unlocked State));; WriteDevInfo
  else mret EFI_SUCCESS.

Definition SetUnlockCriticalValue {R} (State : bool) : MW R EFI_STATUS :=
  w ← get;
  if negb (eqb (IsUnlockCritical w) State) then
    modify (upd_info (set_unlock_critical State));; WriteDevInfo
  else mret EFI_SUCCESS.

(** The [switch] of [SetDeviceUnlockValue]. *)
Definition set_flag {R} (Type_ : Z) (State : bool) : MW R EFI_STATUS :=
  if Type_ =? UNLOCK then SetUnlockValue State
  else if Type_ =? UNLOCK_CRITICAL then SetUnlockCriticalValue State
  else mret EFI_UNSUPPORTED.

(** [struct RecoveryMessage Msg], zeroed, with [Msg.recovery] filled in. *)
Definition recovery_message (recovery : list Z) : list Z :=
  zeros RECOVERY_COMMAND_SIZE ++ zeros RECOVERY_STATUS_SIZE ++ recovery.

(** [GetNandMiscPartiGuid] of [LinuxLoaderLib.c]. *)
Definition GetNandMiscPartiGuid {R} : MW R (EFI_STATUS * list Z) :=
  Status ← ask LocateNandPartiGuid;
  if negb (Status =? EFI_SUCCESS) then mret (Status, [])
  else ask (fun x => GenGuid x (L "misc")).

Definition SetDeviceUnlockValue (Type_ : Z) (State : bool) : MW EFI_STATUS EFI_STATUS :=
  Status ← set_flag Type_ State;
  if negb (Status =? EFI_SUCCESS) then early Status else
  Status ← ResetDeviceState;
  if negb (Status =? EFI_SUCCESS) then
    set_flag Type_ (negb State);; early Status
  else
  r ← AsciiStrnCpyS (zeros RECOVERY_RECOVERY_SIZE) RECOVERY_RECOVERY_SIZE
        RECOVERY_WIPE_DATA (AsciiStrLen RECOVERY_WIPE_DATA);
  if r.1 =? EFI_SUCCESS then
    CardType ← CheckRootDeviceType;
    Ptype ← (if bool_decide (CardType = NAND) then
               g ← GetNandMiscPartiGuid;
               if negb (g.1 =? EFI_SUCCESS) then early g.1 else mret g.2
             else mret gEfiMiscPartitionGuid);
    let Msg := recovery_message r.2 in
    call (WriteToPartition Ptype (Some Msg) (Z.of_nat (length Msg)))
  else mret r.1.

(** ** Versions, audio framework, snapshot *)

(** The three copies of [UpdateDevInfo] into one version field. *)
Definition version_string {R} (old ImgVersion : list Z) : MW R (list Z) :=
  a ← AsciiStrnCpyS old MAX_VERSION_LEN PRODUCT_NAME (AsciiStrLen PRODUCT_NAME);
  b ← AsciiStrnCatS a.2 MAX_VERSION_LEN (L "-") (AsciiStrLen (L "-"));
  c ← AsciiStrnCatS b.2 MAX_VERSION_LEN ImgVersion (AsciiStrLen ImgVersion);
  mret c.2.

Definition UpdateDevInfo {R} (Pname ImgVersion : list Z) : MW R EFI_STATUS :=
  w ← get;
  (if StrCmp Pname (L "bootloader") =? 0 then
     v ← version_string (bootloader_version (DevInfo (dv w))) ImgVersion;
     modify (upd_info (set_bootloader_version v))
   else
     v ← version_string (radio_version (DevInfo (dv w))) ImgVersion;
     modify (upd_info (set_radio_version v)));;
  WriteDevInfo.

Definition StoreAudioFrameWork {R} (CmdLine : list Z) (CmdLineLen : Z) : MW R EFI_STATUS :=
  if MAX_AUDIO_FW_LENGTH <? CmdLineLen then mret EFI_OUT_OF_RESOURCES
  else
    src ← need OutOfBounds (buf_read CmdLine 0 CmdLineLen);
    a ← need OutOfBounds (buf_write (zeros MAX_AUDIO_FW_LENGTH) 0 src);
    modify (upd_info (set_audio a));;
    WriteDevInfo.

Definition ReadAudioFrameWork {R} : MW R (EFI_STATUS * list Z) :=
  w ← get;
  if FirstReadDevInfo (dv w) then mret (EFI_NOT_STARTED, [])
  else mret (EFI_SUCCESS, AudioFramework (DevInfo (dv w))).

Definition SetSnapshotGolden {R} (Val : Z) : MW R EFI_STATUS :=
  w ← get;
  if FirstReadDevInfo (dv w) then mret EFI_NOT_STARTED
  else modify (upd_info (set_golden Val));; WriteDevInfo.

(** ** Initialisation *)

(** The block [DeviceInfoInit] writes over one without the magic. *)
Definition fresh_DevInfo (secure : bool) : DeviceInfo :=
  set_verity true (set_charger false
    (set_unlock_critical (negb secure) (set_unlocked (negb secure)
      (set_rollback (zeros MAX_VB_PARTITIONS) (set_user_key 0 (zeros MAX_USER_KEY_SIZE)
        (set_magic DEVICE_MAGIC zero_DevInfo)))))).

Definition DeviceInfoInit {R} : MW R EFI_STATUS :=
  w ← get;
  Status ← (if FirstReadDevInfo (dv w) then
              Status ← ReadDevInfo;
              (if Status =? EFI_SUCCESS
               then modify (upd_dv (fun d => mkDev (DevInfo d) false)) else mret tt);;
              mret Status
            else mret EFI_SUCCESS);
  if negb (Status =? EFI_SUCCESS) then mret Status else
  w ← get;
  if MemDiffers (magic (DevInfo (dv w))) DEVICE_MAGIC then
    modify (upd_info (fun _ => set_magic DEVICE_MAGIC zero_DevInfo));;
    secure ← IsSecureBootEnabled;
    modify (upd_info (fun _ => fresh_DevInfo secure));;
    WriteDevInfo
  else mret Status.

(** ** Rollback indices and the user key *)

Definition ReadRollbackIndex {R} (Loc : Z) : MW R (EFI_STATUS * Z) :=
  w ← get;
  if FirstReadDevInfo (dv w) then mret (EFI_NOT_STARTED, 0)
  else if MAX_VB_PARTITIONS <=? Loc then mret (EFI_INVALID_PARAMETER, 0)
  else
    v ← need OutOfBounds (rollback_index (DevInfo (dv w)) !! Z.to_nat Loc);
    mret (EFI_SUCCESS, v).

Definition WriteRollbackIndex {R} (Loc RollbackIndex : Z) : MW R EFI_STATUS :=
  w ← get;
  if FirstReadDevInfo (dv w) then mret EFI_NOT_STARTED
  else if MAX_VB_PARTITIONS <=? Loc then mret EFI_INVALID_PARAMETER
  else
    v ← need OutOfBounds (rollback_index (DevInfo (dv w)) !! Z.to_nat Loc);
    modify (upd_info (fun d =>
      set_rollback (<[Z.to_nat Loc := RollbackIndex]> (rollback_index d)) d));;
    WriteDevInfo.

Definition StoreUserKey {R} (UserKey : list Z) (UserKeySize : Z) : MW R EFI_STATUS :=
  w ← get;
  if FirstReadDevInfo (dv w) then mret EFI_NOT_STARTED
  else if MAX_USER_KEY_SIZE <? UserKeySize then mret EFI_OUT_OF_RESOURCES
  else
    src ← need OutOfBounds (buf_read UserKey 0 UserKeySize);
    k ← need OutOfBounds (buf_write (user_public_key (DevInfo (dv w))) 0 src);
    modify (upd_info (set_user_key UserKeySize k));;
    WriteDevInfo.

Definition EraseUserKey {R} : MW R EFI_STATUS :=
  w ← get;
  if FirstReadDevInfo (dv w) then mret EFI_NOT_STARTED
  else
    modify (upd_info (set_user_key 0 (zeros MAX_USER_KEY_SIZE)));;
    WriteDevInfo.

(** The key buffer and the length the caller may read of it. *)
Definition GetUserKey {R} : MW R (EFI_STATUS * list Z * Z) :=
  w ← get;
  if FirstReadDevInfo (dv w) then mret (EFI_NOT_STARTED, [], 0)
  else mret (EFI_SUCCESS, user_public_key (DevInfo (dv w)),
             user_public_key_length (DevInfo (dv w))).

(** ** Named persistent values *)

(** [NameSize == e.name_size && CompareMem (Name, e.name, NameSize) == 0] *)
Definition same_name {R} (Name : list Z) (NameSize : Z) (e : persistent_value_type) :
    MW R bool :=
  if NameSize =? name_size e then
    a ← need OutOfBounds (buf_read Name 0 NameSize);
    b ← need OutOfBounds (buf_read (pv_name e) 0 NameSize);
    mret (negb (MemDiffers a b))
  else mret false.

Fixpoint read_scan {R} (Name : list Z) (NameSize : Z) (i : nat)
    (l : list persistent_value_type) : MW R (option nat) :=
  match l with
  | [] => mret None
  | e :: l' =>
      found ← (if in_use e =? 1 then same_name Name NameSize e else mret false);
      if (found : bool) then mret (Some i) else read_scan Name NameSize (S i) l'
  end.

(** The status, [Value] and [*ValueSize] afterwards. *)
Definition ReadPersistentValue {R} (Name : option (list Z)) (NameSize : Z)
    (Value : option (list Z)) (ValueSize : option Z) :
    MW R (EFI_STATUS * option (list Z) * option Z) :=
  w ← get;
  if FirstReadDevInfo (dv w) then mret (EFI_NOT_STARTED, Value, ValueSize)
  else
    match Name, ValueSize with
    | Some Name, Some VS =>
        if NameSize =? 0 then mret (EFI_INVALID_PARAMETER, Value, ValueSize)
        else
          let l := persistent_value (DevInfo (dv w)) in
          f ← read_scan Name NameSize 0 l;
          match f with
          | None => mret (EFI_NOT_FOUND, Value, ValueSize)
          | Some i =>
              e ← need OutOfBounds (l !! i);
              if value_size e =? 0 then mret (EFI_NOT_FOUND, Value, ValueSize)
              else if VS <? value_size e
              then mret (EFI_BUFFER_TOO_SMALL, Value, Some (value_size e))
              else
                match Value with
                | None => mret (EFI_INVALID_PARAMETER, Value, ValueSize)
                | Some V =>
                    src ← need OutOfBounds (buf_read (pv_value e) 0 (value_size e));
                    V' ← need OutOfBounds (buf_write V 0 src);
                    mret (EFI_SUCCESS, Some V', Some (value_size e))
                end
          end
    | _, _ => mret (EFI_INVALID_PARAMETER, Value, ValueSize)
    end.

(** The scan of [WritePersistentValue]: the entry of the name, and the first
    entry not in use that it passed. *)
Fixpoint write_scan {R} (Name : list Z) (NameSize : Z) (i : nat) (SlotFound : option nat)
    (l : list persistent_value_type) : MW R (option nat * option nat) :=
  match l with
  | [] => mret (None, SlotFound)
  | e :: l' =>
      if in_use e =? 1 then
        found ← same_name Name NameSize e;
        if (found : bool) then mret (Some i, SlotFound)
        else write_scan Name NameSize (S i) SlotFound l'
      else
        write_scan Name NameSize (S i)
          (match SlotFound with None => Some i | _ => SlotFound end) l'
  end.

Definition set_value (Value : list Z) (ValueSize : Z) (e : persistent_value_type) :
    persistent_value_type :=
  mkPV (in_use e) (name_size e) (u16 ValueSize) (pv_name e) Value.

Definition upd_value (i : nat) (e : persistent_value_type) (w : World) : World :=
  upd_info (fun d => set_persistent (<[i := e]> (persistent_value d)) d) w.

Definition WritePersistentValue (Name : option (list Z)) (NameSize : Z)
    (Value : option (list Z)) (ValueSize : Z) : MW EFI_STATUS EFI_STATUS :=
  w ← get;
  if FirstReadDevInfo (dv w) then early EFI_NOT_STARTED else
  match Name with
  | None => early EFI_INVALID_PARAMETER
  | Some Name =>
      if NameSize =? 0 then early EFI_INVALID_PARAMETER else
      if MAX_NAME_SIZE <? NameSize then early EFI_NOT_FOUND else
      if MAX_VALUE_SIZE <? ValueSize then early EFI_BAD_BUFFER_SIZE else
      let l := persistent_value (DevInfo (dv w)) in
      f ← write_scan Name NameSize 0 None l;
      (match f with
       | (Some i, _) =>
           if ValueSize =? 0 then modify (upd_value i zero_pv)
           else
             match Value with
             | None => early EFI_INVALID_PARAMETER
             | Some V =>
                 e ← need OutOfBounds (l !! i);
                 src ← need OutOfBounds (buf_read V 0 ValueSize);
                 v ← need OutOfBounds (buf_write (pv_value e) 0 src);
                 modify (upd_value i (set_value v ValueSize e))
             end
       | (None, Some i) =>
           match Value with
           | None => early EFI_INVALID_PARAMETER
           | Some V =>
               if ValueSize =? 0 then early EFI_SUCCESS else
               e ← need OutOfBounds (l !! i);
               nm ← need OutOfBounds (buf_read Name 0 NameSize);
               n ← need OutOfBounds (buf_write (pv_name e) 0 nm);
               src ← need OutOfBounds (buf_read V 0 ValueSize);
               v ← need OutOfBounds (buf_write (pv_value e) 0 src);
               modify (upd_value i (mkPV 1 (u16 NameSize) (u16 ValueSize) n v))
           end
       | (None, None) => early EFI_INVALID_PARAMETER
       end);;
      WriteDevInfo
  end.
End Ops.
