(* ===== verification/Gpt.v ===== *)
(** The GPT on the storage device ([PartitionTableUpdate.c]): recognising and
    parsing a partition-table image, patching it for the size of the device,
    writing it, and synchronising the attributes and type GUIDs of [PtnEntries]
    with the primary and the backup table.

    A table image is one byte list; a pointer into it is an offset. *)
From Stdlib Require Import ZArith Lia Sorted.
From stdpp Require Import base list numbers option.
From S2P Require Import Prelude EfiBase Firmware World LoaderLib Board Ptable.

(** ** Constants and accessors of [PartitionTableUpdate.h] *)

Definition SUCCESS : Z := 0.
Definition FAILURE : Z := 1.
Definition PARTITION_ATTRIBUTES : Z := 1.
Definition PARTITION_GUID : Z := 2.
Definition PARTITION_ALL : Z := 3.
Definition PARTITION_ATTRIBUTES_MASK : Z := 0x1.
Definition PARTITION_GUID_MASK : Z := 0x2.
Definition PARTITION_TYPE_MBR : Z := 0.
Definition PARTITION_TYPE_GPT : Z := 1.
Definition PARTITION_TYPE_GPT_BACKUP : Z := 2.
Definition GPT_PROTECTIVE : Z := 0xEE.
Definition MBR_PARTITION_RECORD : Z := 446.
Definition OS_TYPE : Z := 4.
Definition MBR_SIGNATURE : Z := 510.
Definition MBR_SIGNATURE_BYTE_0 : Z := 0x55.
Definition MBR_SIGNATURE_BYTE_1 : Z := 0xAA.
Definition MIBIB_MAGIC1 : Z := 0xFE569FAC.
Definition MIBIB_MAGIC2 : Z := 0xCD7F127A.
Definition GPT_SIGNATURE_1 : Z := 0x54524150.
Definition GPT_SIGNATURE_2 : Z := 0x20494645.
Definition GPT_HEADER_SIZE : Z := 92.
Definition GPT_LBA : Z := 1.
Definition GPT_PART_ENTRY_SIZE : Z := 128.
Definition HEADER_SIZE_OFFSET : Z := 12.
Definition HEADER_CRC_OFFSET : Z := 16.
Definition PRIMARY_HEADER_OFFSET : Z := 24.
Definition BACKUP_HEADER_OFFSET : Z := 32.
Definition FIRST_USABLE_LBA_OFFSET : Z := 40.
Definition LAST_USABLE_LBA_OFFSET : Z := 48.
Definition PARTITION_ENTRIES_OFFSET : Z := 72.
Definition PARTITION_COUNT_OFFSET : Z := 80.
Definition PENTRY_SIZE_OFFSET : Z := 84.
Definition PARTITION_CRC_OFFSET : Z := 88.
Definition PARTITION_ENTRY_LAST_LBA : Z := 40.
Definition PARTITION_ENTRY_SIZE : Z := 128.
Definition ATTRIBUTE_FLAG_OFFSET : Z := 48.
Definition MIN_PARTITION_ARRAY_SIZE : Z := 0x4000.
Definition GPT_HDR_BLOCKS : Z := 1.
Definition MAX_PARTITION_ENTRIES_SZ : Z := MAX_NUM_PARTITIONS * PARTITION_ENTRY_SIZE.
Definition PRIMARY_HDR_LBA : Z := 1.

(** The accessor macros, on the bytes they address. *)
Definition byte_of (x : list Z) (i : nat) : Z := default 0 (x !! i).
Definition GET_LWORD_FROM_BYTE (x : list Z) : Z :=
  Z.lor (Z.lor (Z.lor (byte_of x 0) (Z.shiftl (byte_of x 1) 8))
          (Z.shiftl (byte_of x 2) 16)) (Z.shiftl (byte_of x 3) 24).
Definition GET_LLWORD_FROM_BYTE (x : list Z) : Z :=
  Z.lor (Z.lor (Z.lor (Z.lor (Z.lor (Z.lor (Z.lor (byte_of x 0)
    (Z.shiftl (byte_of x 1) 8)) (Z.shiftl (byte_of x 2) 16))
    (Z.shiftl (byte_of x 3) 24)) (Z.shiftl (byte_of x 4) 32))
    (Z.shiftl (byte_of x 5) 40)) (Z.shiftl (byte_of x 6) 48))
    (Z.shiftl (byte_of x 7) 56).
Definition PUT_LONG (y : Z) : list Z :=
  [ Z.land y 0xff; Z.land (Z.shiftr y 8) 0xff; Z.land (Z.shiftr y 16) 0xff;
    Z.land (Z.shiftr y 24) 0xff ].
Definition PUT_LONG_LONG (y : Z) : list Z :=
  [ Z.land y 0xff; Z.land (Z.shiftr y 8) 0xff; Z.land (Z.shiftr y 16) 0xff;
    Z.land (Z.shiftr y 24) 0xff; Z.land (Z.shiftr y 32) 0xff;
    Z.land (Z.shiftr y 40) 0xff; Z.land (Z.shiftr y 48) 0xff;
    Z.land (Z.shiftr y 56) 0xff ].

(** Loads and stores through a pointer: outside the object they stop. *)
Definition load {S R} (b : list Z) (off n : Z) : M S R (list Z) :=
  need OutOfBounds (buf_read b off n).
Definition load32 {S R} (b : list Z) (off : Z) : M S R Z :=
  x ← load b off 4; mret (u32 (GET_LWORD_FROM_BYTE x)).
Definition load64 {S R} (b : list Z) (off : Z) : M S R Z :=
  x ← load b off 8; mret (GET_LLWORD_FROM_BYTE x).
Definition store {S R} (b : list Z) (off : Z) (d : list Z) : M S R (list Z) :=
  need OutOfBounds (buf_write b off d).

Record GptHeaderData := mkGptHeader {
  FirstUsableLba : Z;
  PartEntrySz : Z;
  HeaderSz : Z;
  MaxPtCnt : Z;
  LastUsableLba : Z;
}.

(** ** Recognising an image *)

Section Recognise.
Context {S R : Type}.

Definition PartitionVerifyMbrSignature (Sz : Z) (Gpt : list Z) : M S R Z :=
  if Sz <=? MBR_SIGNATURE + 1 then mret FAILURE
  else
    x ← load Gpt MBR_SIGNATURE 1;
    y ← load Gpt (MBR_SIGNATURE + 1) 1;
    if negb (byte_of x 0 =? MBR_SIGNATURE_BYTE_0) || negb (byte_of y 0 =? MBR_SIGNATURE_BYTE_1)
    then mret FAILURE else mret SUCCESS.

Definition PartitionVerifyMibibImage (Image : list Z) : M S R Z :=
  x ← load32 Image 0;
  y ← load32 Image 4;
  if negb (x =? MIBIB_MAGIC1) || negb (y =? MIBIB_MAGIC2)
  then mret FAILURE else mret SUCCESS.

(** Returns the result and [*Ptype] when it was set. *)
Definition MbrGetPartitionType (Sz : Z) (Gpt : list Z) : M S R (Z * Z) :=
  let PtypeOffset := MBR_PARTITION_RECORD + OS_TYPE in
  if Sz <=? PtypeOffset then mret (FAILURE, 0)
  else x ← load Gpt PtypeOffset 1; mret (SUCCESS, byte_of x 0).

Definition PartitionGetType (Sz : Z) (Gpt : list Z) : M S R (Z * Z) :=
  Ret ← PartitionVerifyMbrSignature Sz Gpt;
  if Ret =? 0 then
    r ← MbrGetPartitionType Sz Gpt;
    if r.1 =? 0 then
      mret (r.1, if r.2 =? GPT_PROTECTIVE then PARTITION_TYPE_GPT else PARTITION_TYPE_MBR)
    else mret r
  else mret (SUCCESS, PARTITION_TYPE_GPT_BACKUP).
End Recognise.

Section Gpt.
Context `{F : Firmware}.

(** ** Parsing a header at offset [p] of the image

    Returns the result, the image afterwards (the CRC field is cleared for
    the computation and put back when it matches) and the parsed header. *)
Definition ParseGptHeader (Gpt : list Z) (p DeviceDensity BlkSz : Z) :
    MW (Z * list Z * option GptHeaderData) (Z * list Z * option GptHeaderData) :=
  s2 ← load32 Gpt p;
  s1 ← load32 Gpt (p + 4);
  if negb (s2 =? GPT_SIGNATURE_2) || negb (s1 =? GPT_SIGNATURE_1)
  then early (FAILURE, Gpt, None) else
  HeaderSz ← load32 Gpt (p + HEADER_SIZE_OFFSET);
  if HeaderSz <? GPT_HEADER_SIZE then early (FAILURE, Gpt, None) else
  if BlkSz <? HeaderSz then early (FAILURE, Gpt, None) else
  CrcOrig ← load32 Gpt (p + HEADER_CRC_OFFSET);
  Gpt ← store Gpt (p + HEADER_CRC_OFFSET) (PUT_LONG 0);
  d ← load Gpt p HeaderSz;
  let '(Status, CrcVal) := CalculateCrc32 d in
  if negb (Status =? EFI_SUCCESS) then early (FAILURE, Gpt, None) else
  if negb (CrcVal =? CrcOrig) then early (FAILURE, Gpt, None) else
  Gpt ← store Gpt (p + HEADER_CRC_OFFSET) (PUT_LONG CrcVal);
  lba ← load64 Gpt (p + PRIMARY_HEADER_OFFSET);
  let CurrentLba := u32 lba in
  FirstUsableLba ← load64 Gpt (p + FIRST_USABLE_LBA_OFFSET);
  MaxPtCnt ← load32 Gpt (p + PARTITION_COUNT_OFFSET);
  PartEntrySz ← load32 Gpt (p + PENTRY_SIZE_OFFSET);
  LastUsableLba ← load64 Gpt (p + LAST_USABLE_LBA_OFFSET);
  w ← get;
  if negb (ParseSecondaryGpt (pt w)) && negb (CurrentLba =? GPT_LBA)
  then early (FAILURE, Gpt, None) else
  if BlkSz =? 0 then stop DivByZero else
  if DeviceDensity / BlkSz <? FirstUsableLba then early (FAILURE, Gpt, None) else
  if DeviceDensity / BlkSz <? LastUsableLba then early (FAILURE, Gpt, None) else
  if negb (PartEntrySz =? GPT_PART_ENTRY_SIZE) then early (FAILURE, Gpt, None) else
  if MIN_PARTITION_ARRAY_SIZE / PartEntrySz <? MaxPtCnt
  then early (FAILURE, Gpt, None) else
  mret (SUCCESS, Gpt,
    Some (mkGptHeader FirstUsableLba PartEntrySz HeaderSz MaxPtCnt LastUsableLba)).

(** ** Patching an image for the device *)

(** The number of leading entries whose type GUID is not zero, at most [n]
    more, counting from [TotalPart]. *)
Fixpoint count_parts {R} (n : nat) (Gpt : list Z) (base TotalPart : Z) : MW R Z :=
  match n with
  | O => mret TotalPart
  | S n' =>
      x ← load64 Gpt (base + TotalPart * PARTITION_ENTRY_SIZE);
      y ← load64 Gpt (base + TotalPart * PARTITION_ENTRY_SIZE + 8);
      if negb (x =? 0) || negb (y =? 0)
      then count_parts n' Gpt base (TotalPart + 1)
      else mret TotalPart
  end.

(** [CalculateCrc32] over [n] bytes at [off]. *)
Definition crc_at {R} (b : list Z) (off n : Z) : MW R (EFI_STATUS * Z) :=
  d ← load b off n; mret (CalculateCrc32 d).

Definition PatchGpt (Gpt : list Z) (DeviceDensity PartEntryArrSz : Z)
    (GptHeader : GptHeaderData) (BlkSz : Z) : MW (Z * list Z) (Z * list Z) :=
  if BlkSz =? 0 then stop DivByZero else
  let PtnEntryBlks := u32 (MAX_PARTITION_ENTRIES_SZ / BlkSz + GPT_HDR_BLOCKS) in
  let NumSectors := DeviceDensity / BlkSz in
  let LastLba := u64 (NumSectors - u32 (PtnEntryBlks + 1)) in
  let PrimaryGptHeader := BlkSz in
  Gpt ← store Gpt (PrimaryGptHeader + BACKUP_HEADER_OFFSET) (PUT_LONG_LONG (u64 (NumSectors - 1)));
  Gpt ← store Gpt (PrimaryGptHeader + LAST_USABLE_LBA_OFFSET) (PUT_LONG_LONG LastLba);
  let Offset := u32 (2 * PartEntryArrSz) in
  let SecondaryGptHeader := Offset + BlkSz + PrimaryGptHeader in
  Gpt ← store Gpt (SecondaryGptHeader + PRIMARY_HEADER_OFFSET) (PUT_LONG_LONG 1);
  Gpt ← store Gpt (SecondaryGptHeader + LAST_USABLE_LBA_OFFSET) (PUT_LONG_LONG LastLba);
  Gpt ← store Gpt (SecondaryGptHeader + PARTITION_ENTRIES_OFFSET)
          (PUT_LONG_LONG (u64 (NumSectors - PtnEntryBlks)));
  let PartitionEntryArrStart := PrimaryGptHeader + BlkSz in
  TotalPart ← count_parts (Z.to_nat (MaxPtCnt GptHeader)) Gpt PartitionEntryArrStart 0;
  let LastPartOffset :=
    u32 (u32 (TotalPart - 1) * PARTITION_ENTRY_SIZE + PARTITION_ENTRY_LAST_LBA) in
  Gpt ← store Gpt (PrimaryGptHeader + BlkSz + LastPartOffset) (PUT_LONG_LONG LastLba);
  Gpt ← store Gpt (PrimaryGptHeader + BlkSz + LastPartOffset + PartEntryArrSz)
          (PUT_LONG_LONG LastLba);
  let n := u32 (MaxPtCnt GptHeader * PartEntrySz GptHeader) in
  c ← crc_at Gpt PartitionEntryArrStart n;
  if EFI_ERROR c.1 then early (FAILURE, Gpt) else
  Gpt ← store Gpt (PrimaryGptHeader + PARTITION_CRC_OFFSET) (PUT_LONG c.2);
  c ← crc_at Gpt (PartitionEntryArrStart + PartEntryArrSz) n;
  if EFI_ERROR c.1 then early (FAILURE, Gpt) else
  Gpt ← store Gpt (SecondaryGptHeader + PARTITION_CRC_OFFSET) (PUT_LONG c.2);
  Gpt ← store Gpt (PrimaryGptHeader + HEADER_CRC_OFFSET) (PUT_LONG 0);
  c ← crc_at Gpt PrimaryGptHeader GPT_HEADER_SIZE;
  if EFI_ERROR c.1 then early (FAILURE, Gpt) else
  Gpt ← store Gpt (PrimaryGptHeader + HEADER_CRC_OFFSET) (PUT_LONG c.2);
  Gpt ← store Gpt (SecondaryGptHeader + HEADER_CRC_OFFSET) (PUT_LONG 0);
  c ← crc_at Gpt SecondaryGptHeader GPT_HEADER_SIZE;
  if EFI_ERROR c.1 then early (FAILURE, Gpt) else
  Gpt ← store Gpt (SecondaryGptHeader + HEADER_CRC_OFFSET) (PUT_LONG c.2);
  mret (SUCCESS, Gpt).

(** ** Writing a table *)

(** [n] bytes at [off] of the image to block [lba]. *)
Definition write_at {R} (b lba : Z) (Gpt : list Z) (off n : Z) : MW R EFI_STATUS :=
  d ← load Gpt off n; act (fun x => WriteBlocks x b lba d).

(** The image buffer is cleared after a complete write; no caller reads it
    again. *)
Definition WriteGpt (Lun Sz : Z) (Gpt : list Z) : MW Z Z :=
  r ← GetStorageHandle Lun MAX_HANDLEINF_LST_SIZE;
  let '(Status, BlockIoHandle, MaxHandles) := r in
  let Ret := u32 Status in
  if negb (Ret =? 0) || negb (MaxHandles =? 1) then early Ret else
  i ← need OutOfBounds (head BlockIoHandle);
  let b := Handle i in
  DeviceDensity ← ask (fun x => GetPartitionSize x (Some b));
  if DeviceDensity =? 0 then early FAILURE else
  m ← ask (fun x => Media x b);
  let BlkSz := BlockSize m in
  if Sz <=? u32 (BlkSz * 2) then early FAILURE else
  let PrimaryGptHdr := BlkSz in
  r ← call (ParseGptHeader Gpt PrimaryGptHdr DeviceDensity BlkSz);
  let '(Ret, Gpt, h) := r in
  if negb (Ret =? 0) then early Ret else
  h1 ← need NullDeref h;
  let PartEntryArrSz := u32 (PartEntrySz h1 * MaxPtCnt h1) in
  let PartEntryArrSz := if PartEntryArrSz <? MIN_PARTITION_ARRAY_SIZE
                        then MIN_PARTITION_ARRAY_SIZE else PartEntryArrSz in
  let Offset := u32 (2 * PartEntryArrSz) in
  if Sz <? u32 (Offset + u32 (BlkSz * 3)) then early FAILURE else
  let SecondaryGptHdr := Offset + BlkSz + PrimaryGptHdr in
  modify (upd_pt (set_ParseSecondaryGpt true));;
  r ← call (ParseGptHeader Gpt SecondaryGptHdr DeviceDensity BlkSz);
  let '(Ret, Gpt, h) := r in
  if negb (Ret =? 0) then early Ret else
  h2 ← need NullDeref h;
  r ← call (PatchGpt Gpt DeviceDensity PartEntryArrSz h2 BlkSz);
  let '(Ret, Gpt) := r in
  if negb (Ret =? 0) then early Ret else
  Status ← call (ErasePartition (Some b) (Some b));
  if negb (Status =? EFI_SUCCESS) then early FAILURE else
  Status ← write_at b 0 Gpt 0 BlkSz;
  if EFI_ERROR Status then early FAILURE else
  Status ← write_at b 1 Gpt PrimaryGptHdr BlkSz;
  if EFI_ERROR Status then early FAILURE else
  BackUpGptLba ← load64 Gpt (PrimaryGptHdr + BACKUP_HEADER_OFFSET);
  Status ← write_at b BackUpGptLba Gpt SecondaryGptHdr BlkSz;
  if EFI_ERROR Status then early FAILURE else
  PartitionEntryLba ← load64 Gpt (PrimaryGptHdr + PARTITION_ENTRIES_OFFSET);
  Status ← write_at b PartitionEntryLba Gpt (PrimaryGptHdr + BlkSz) PartEntryArrSz;
  if EFI_ERROR Status then early FAILURE else
  PartitionEntryLba ← load64 Gpt (SecondaryGptHdr + PARTITION_ENTRIES_OFFSET);
  Status ← write_at b PartitionEntryLba Gpt (PrimaryGptHdr + BlkSz + PartEntryArrSz)
             PartEntryArrSz;
  if EFI_ERROR Status then early FAILURE else
  Status ← act (fun x => FlushBlocks x b);
  if EFI_ERROR Status then early FAILURE else
  modify (upd_pt (set_FlashingGpt false));;
  mret SUCCESS.

Definition UpdatePartitionTable (GptImage : list Z) (Sz Lun : Z) :
    MW EFI_STATUS EFI_STATUS :=
  r ← PartitionGetType Sz GptImage;
  if negb (r.1 =? 0) then early EFI_NOT_FOUND else
  if r.2 =? PARTITION_TYPE_GPT then
    modify (upd_pt (set_FlashingGpt true));;
    Ret ← call (WriteGpt Lun Sz GptImage);
    if negb (Ret =? 0) then early EFI_VOLUME_CORRUPTED else mret EFI_SUCCESS
  else mret EFI_UNSUPPORTED.

(** ** Synchronising [PtnEntries] with the device *)

Definition IsUpdatePartitionAttributes {R} : MW R bool :=
  w ← get; mret (MemDiffers (PtnEntries (pt w)) (PtnEntriesBak (pt w))).

(** [PtnEntriesBak[i]] changed by [f]. *)
Definition upd_Bak (i : Z) (f : PartitionEntry -> PartitionEntry) : World -> World :=
  upd_pt (fun p => set_PtnEntriesBak (alter f (Z.to_nat i) (PtnEntriesBak p)) p).

(** The locals of the entry loop: the table read from the device, the offset
    [PtnEntriesPtr] and [SkipUpdation]. *)
Record sync := mkSync { s_buf : list Z; s_ptr : Z; s_skip : bool }.

(** The type-GUID half of the loop body. *)
Definition sync_guid {R} (UpdateType i : Z) (e : PartitionEntry) (l : sync) : MW R sync :=
  if negb (Z.land UpdateType PARTITION_GUID_MASK =? 0) then
    g ← load (s_buf l) (s_ptr l) GUID_SIZE;
    if MemDiffers g (TypeGuid e) then
      b ← store (s_buf l) (s_ptr l) (TypeGuid e);
      modify (upd_Bak i (set_TypeGuid (TypeGuid e)));;
      mret (mkSync b (s_ptr l) false)
    else mret l
  else mret l.

(** One round of the entry loop; [true] is [break]. *)
Definition sync_entry {R} (UpdateType : Z) (ufs : bool) (Lun i : Z) (l : sync) :
    MW R (bool * sync) :=
  w ← get;
  e ← need OutOfBounds (PtnEntries (pt w) !! Z.to_nat i);
  if Data1 (TypeGuid e) =? 0 then mret (false, l) else
  if ufs && (Lun <? lun e) then mret (true, l) else
  if ufs && negb (lun e =? Lun) then mret (false, l) else
  Attr0 ← load64 (s_buf l) (s_ptr l + ATTRIBUTE_FLAG_OFFSET);
  l ← sync_guid UpdateType i e l;
  if negb (Z.land UpdateType PARTITION_ATTRIBUTES_MASK =? 0) then
    g ← load (s_buf l) (s_ptr l) GUID_SIZE;
    if (Data1 g =? 0) || negb (MemDiffers g (TypeGuid e)) then
      if negb (Attr0 =? Attr e) then
        b ← store (s_buf l) (s_ptr l + ATTRIBUTE_FLAG_OFFSET) (PUT_LONG_LONG (Attr e));
        modify (upd_Bak i (set_Attr (Attr e)));;
        mret (false, mkSync b (s_ptr l + PARTITION_ENTRY_SIZE) false)
      else mret (false, mkSync (s_buf l) (s_ptr l + PARTITION_ENTRY_SIZE) (s_skip l))
    else mret (false, l)
  else mret (false, mkSync (s_buf l) (s_ptr l + PARTITION_ENTRY_SIZE) (s_skip l)).

(** The checksums of a changed table: entry array at [entries], header at
    [hdr]. [None] is [goto Exit]. *)
Definition refresh_crcs {R} (b : list Z) (entries hdr : Z) : MW R (option (list Z)) :=
  MaxPtnCount ← load32 b (hdr + PARTITION_COUNT_OFFSET);
  PtnEntrySz ← load32 b (hdr + PENTRY_SIZE_OFFSET);
  if MAX_PARTITION_ENTRIES_SZ <? MaxPtnCount * PtnEntrySz then mret None else
  c ← crc_at b entries (u32 (MaxPtnCount * PtnEntrySz));
  if negb (c.1 =? EFI_SUCCESS) then mret None else
  b ← store b (hdr + PARTITION_CRC_OFFSET) (PUT_LONG c.2);
  b ← store b (hdr + HEADER_CRC_OFFSET) (PUT_LONG 0);
  c ← crc_at b hdr GPT_HEADER_SIZE;
  if negb (c.1 =? EFI_SUCCESS) then mret None else
  b ← store b (hdr + HEADER_CRC_OFFSET) (PUT_LONG c.2);
  mret (Some b).

(** One of the two tables of a device: primary for [Iter = 0], backup for
    [Iter = 1]. *)
Definition sync_table (UpdateType : Z) (ufs : bool) (Lun b BlkSz Iter Offset : Z) :
    MW unit unit :=
  let PartEntriesblocks := MAX_PARTITION_ENTRIES_SZ / BlkSz in
  let MaxGptPartEntrySzBytes := u32 ((GPT_HDR_BLOCKS + PartEntriesblocks) * BlkSz) in
  r ← ask (fun x => ReadBlocks x b Offset MaxGptPartEntrySzBytes);
  if EFI_ERROR r.1 then early tt else
  let '(entries, hdr) :=
    if Iter =? 1 then (0, PartEntriesblocks * BlkSz) else (BlkSz, 0) in
  w ← get;
  l ← for_up (Z.to_nat (PartitionCount (pt w))) 0 (mkSync r.2 entries true)
        (sync_entry UpdateType ufs Lun);
  if s_skip l then mret tt else
  o ← refresh_crcs (s_buf l) entries hdr;
  match o with
  | None => early tt
  | Some buf =>
      Status ← act (fun x => WriteBlocks x b Offset buf);
      if EFI_ERROR Status then early tt else mret tt
  end.

(** The body of the LUN loop; the local [MaxHandles] is carried over. *)
Definition sync_lun (UpdateType : Z) (BootDeviceType : list Z) (Lun MaxHandles : Z) :
    MW unit (bool * Z) :=
  let emmc := is_device BootDeviceType (L "EMMC") in
  let ufs := is_device BootDeviceType (L "UFS") in
  if negb emmc && negb ufs then early tt else
  r ← GetStorageHandle (if emmc then NO_LUN else Lun) MaxHandles;
  let '(Status, BlockIoHandle, MaxHandles) := r in
  if negb (Status =? EFI_SUCCESS) then early tt else
  if negb (MaxHandles =? 1) then mret (false, MaxHandles) else
  i ← need OutOfBounds (head BlockIoHandle);
  let b := Handle i in
  DeviceDensity ← ask (fun x => GetPartitionSize x (Some b));
  if DeviceDensity =? 0 then early tt else
  m ← ask (fun x => Media x b);
  let BlkSz := BlockSize m in
  let Bytes := u32 ((GPT_HDR_BLOCKS + MAX_PARTITION_ENTRIES_SZ / BlkSz) * BlkSz) in
  a ← ask (fun x => AllocateZeroPool x Bytes);
  if negb a then early tt else
  sync_table UpdateType ufs Lun b BlkSz 0 PRIMARY_HDR_LBA;;
  sync_table UpdateType ufs Lun b BlkSz 1
    (u32 (DeviceDensity / BlkSz - Bytes / BlkSz));;
  Status ← act (fun x => FlushBlocks x b);
  if EFI_ERROR Status then early tt else
  mret (false, MaxHandles).

Definition UpdatePartitionAttributes (UpdateType : Z) : MW unit unit :=
  changed ← IsUpdatePartitionAttributes;
  if negb changed then early tt else
  BootDeviceType ← GetRootDeviceType;
  w ← get;
  n ← for_up (Z.to_nat (MaxLuns (pt w))) 0 MAX_HANDLEINF_LST_SIZE
        (sync_lun UpdateType BootDeviceType);
  mret tt.
End Gpt.

(** ** The accessors *)

Lemma GET_LWORD_le x : length x = 4%nat -> GET_LWORD_FROM_BYTE x = le_get x.
Proof.
  intros H. do 5 (destruct x as [|? x]; try discriminate).
  unfold GET_LWORD_FROM_BYTE, byte_of. cbn [lookup list_lookup default id le_get].
  rewrite Z.shiftl_0_l, Z.lor_0_r.
  rewrite !Z.shiftl_lor, !Z.shiftl_shiftl, !Z.lor_assoc by lia. done.
Qed.

Lemma GET_LLWORD_le x : length x = 8%nat -> GET_LLWORD_FROM_BYTE x = le_get x.
Proof.
  intros H. do 9 (destruct x as [|? x]; try discriminate).
  unfold GET_LLWORD_FROM_BYTE, byte_of. cbn [lookup list_lookup default id le_get].
  rewrite Z.shiftl_0_l, Z.lor_0_r.
  rewrite !Z.shiftl_lor, !Z.shiftl_shiftl, !Z.lor_assoc by lia. done.
Qed.

Lemma PUT_LONG_le y : PUT_LONG y = le_put 4 y.
Proof. unfold PUT_LONG. cbn [le_put]. by rewrite !Z.shiftr_shiftr by lia. Qed.

Lemma PUT_LONG_LONG_le y : PUT_LONG_LONG y = le_put 8 y.
Proof. unfold PUT_LONG_LONG. cbn [le_put]. by rewrite !Z.shiftr_shiftr by lia. Qed.

(** What is stored is what is loaded back, to the width of the field. *)
Lemma GET_PUT_LONG y : GET_LWORD_FROM_BYTE (PUT_LONG y) = u32 y.
Proof. rewrite GET_LWORD_le by done. by rewrite PUT_LONG_le, le_get_put. Qed.

Lemma GET_PUT_LONG_LONG y : GET_LLWORD_FROM_BYTE (PUT_LONG_LONG y) = u64 y.
Proof. rewrite GET_LLWORD_le by done. by rewrite PUT_LONG_LONG_le, le_get_put. Qed.

(** ... and what is loaded is what is stored back. *)
Lemma PUT_GET_LONG x :
  length x = 4%nat -> Forall is_u8 x -> PUT_LONG (GET_LWORD_FROM_BYTE x) = x.
Proof.
  intros Hl Hx. rewrite PUT_LONG_le, GET_LWORD_le, <- Hl by done. by apply le_put_get.
Qed.

Lemma load_go {S R} b off n (s s' : S) d :
  @load S R b off n s = (Go d, s') -> buf_read b off n = Some d /\ s' = s.
Proof. unfold load. munfold. destruct (buf_read b off n); naive_solver. Qed.

Lemma store_go {S R} b off d (s s' : S) b' :
  @store S R b off d s = (Go b', s') -> buf_write b off d = Some b' /\ s' = s.
Proof. unfold store. munfold. destruct (buf_write b off d); naive_solver. Qed.

Lemma load32_go {S R} b off (s s' : S) v :
  @load32 S R b off s = (Go v, s') ->
  exists d, buf_read b off 4 = Some d /\ v = u32 (GET_LWORD_FROM_BYTE d) /\ s' = s.
Proof.
  unfold load32. intros (d & s1 & Hd & Hv)%bind_inv_go.
  apply load_go in Hd as [Hd ->]. injection Hv as <- <-. eauto.
Qed.

Lemma load64_go {S R} b off (s s' : S) v :
  @load64 S R b off s = (Go v, s') ->
  exists d, buf_read b off 8 = Some d /\ v = GET_LLWORD_FROM_BYTE d /\ s' = s.
Proof.
  unfold load64. intros (d & s1 & Hd & Hv)%bind_inv_go.
  apply load_go in Hd as [Hd ->]. injection Hv as <- <-. eauto.
Qed.

Lemma crc_at_go `{Firmware} {R} b off n w w' (c : Z * Z) :
  crc_at (R := R) b off n w = (Go c, w') ->
  exists d, buf_read b off n = Some d /\ c = CalculateCrc32 d /\ w' = w.
Proof.
  unfold crc_at. intros (d & w1 & Hd & Hv)%bind_inv_go.
  apply load_go in Hd as [Hd ->]. injection Hv as <- <-. eauto.
Qed.

(** Take a completed body apart, one statement at a time. *)
Ltac minv_step H :=
  match type of H with
  | (mbind _ _) _ = (Go _, _) =>
      let a := fresh "a" in let s := fresh "s" in let E := fresh "E" in
      apply bind_inv_go in H as (a & s & E & H);
      first [ apply load32_go in E as (? & ? & -> & ->)
            | apply load64_go in E as (? & ? & -> & ->)
            | apply crc_at_go in E as (? & ? & -> & ->)
            | apply load_go in E as (? & ->)
            | apply store_go in E as (? & ->)
            | injection E as <- <-
            | idtac ]
  | early _ _ = (Go _, _) => discriminate H
  | stop _ _ = (Go _, _) => discriminate H
  | (if ?c then _ else _) _ = (Go _, _) =>
      let C := fresh "C" in destruct c eqn:C
  | (let '(_, _) := ?c in _) _ = (Go _, _) =>
      let C := fresh "C" in destruct c eqn:C
  | (mret _) _ = (Go _, _) => injection H as; subst
  end.
Ltac minv H := repeat (minv_step H; cbn beta iota zeta in H).

Section GptFrames.
Context {S R : Type} (P : S -> S -> Prop) `{!PreOrder P}.
Lemma keeps_load b o n : keeps P (load b o n : M S R _).
Proof. unfold load. keeps_tac. Qed.
Lemma keeps_store b o d : keeps P (store b o d : M S R _).
Proof. unfold store. keeps_tac. Qed.
Lemma keeps_load32 b o : keeps P (load32 b o : M S R _).
Proof. unfold load32, load. keeps_tac. Qed.
Lemma keeps_load64 b o : keeps P (load64 b o : M S R _).
Proof. unfold load64, load. keeps_tac. Qed.
Lemma exits_load (Q : R -> Prop) b o n : exits Q (load b o n : M S R _).
Proof. unfold load. exits_tac. Qed.
Lemma exits_store (Q : R -> Prop) b o d : exits Q (store b o d : M S R _).
Proof. unfold store. exits_tac. Qed.
Lemma exits_load32 (Q : R -> Prop) b o : exits Q (load32 b o : M S R _).
Proof. unfold load32, load. exits_tac. Qed.
Lemma exits_load64 (Q : R -> Prop) b o : exits Q (load64 b o : M S R _).
Proof. unfold load64, load. exits_tac. Qed.
End GptFrames.
#[export] Hint Resolve keeps_load keeps_store keeps_load32 keeps_load64 : keeps.
#[export] Hint Resolve exits_load exits_store exits_load32 exits_load64 : exits.

Section Parsing.
Context `{F : Firmware}.

(** The stored header checksum at [p] is the one of [n] header bytes taken
    with the checksum field cleared. *)
Definition header_crc_ok (b : list Z) (p n : Z) : Prop :=
  exists b0 d c, buf_write b (p + HEADER_CRC_OFFSET) (PUT_LONG 0) = Some b0 /\
    buf_read b0 p n = Some d /\ buf_read b (p + HEADER_CRC_OFFSET) 4 = Some c /\
    GET_LWORD_FROM_BYTE c = (CalculateCrc32 d).2.

(** The stored checksum of the entry array. *)
Definition entries_crc_ok (b : list Z) (hdr start n : Z) : Prop :=
  exists d c, buf_read b start n = Some d /\
    buf_read b (hdr + PARTITION_CRC_OFFSET) 4 = Some c /\
    GET_LWORD_FROM_BYTE c = (CalculateCrc32 d).2.

Lemma ParseGptHeader_exits Gpt p D B :
  exits (fun r => r.1.1 = FAILURE) (ParseGptHeader Gpt p D B).
Proof. unfold ParseGptHeader. exits_tac; done. Qed.

Lemma load32_range b o d :
  Forall is_u8 b -> buf_read b o 4 = Some d -> is_u32 (GET_LWORD_FROM_BYTE d).
Proof.
  intros Hb Hd. pose proof (length_buf_read _ _ _ _ Hd) as Hl.
  rewrite GET_LWORD_le by lia. pose proof (le_get_bound d (buf_read_u8 _ _ _ _ Hb Hd)) as H.
  by replace (length d) with 4%nat in H by lia.
Qed.

(** A header that parses is sound, and the image is left as it was. *)
Lemma ParseGptHeader_sound Gpt p D B w Gpt' h w' :
  Forall is_u8 Gpt ->
  run (ParseGptHeader Gpt p D B) w = (Go (SUCCESS, Gpt', h), w') ->
  w' = w /\ Gpt' = Gpt /\ exists hd, h = Some hd /\
    header_crc_ok Gpt p (HeaderSz hd) /\
    GPT_HEADER_SIZE <= HeaderSz hd <= B /\ PartEntrySz hd = GPT_PART_ENTRY_SIZE /\
    0 <= MaxPtCnt hd <= 128 /\
    FirstUsableLba hd <= D / B /\ LastUsableLba hd <= D / B.
Proof.
  intros Hu8 Hrun. apply (run_inv _ _ _ _ _ (ParseGptHeader_exits _ _ _ _)) in Hrun;
    [|done]. unfold ParseGptHeader in Hrun. minv Hrun.
  all: try discriminate. bools. subst.
  match goal with H : buf_read Gpt (p + HEADER_CRC_OFFSET) 4 = Some ?x |- _ =>
    rename H into Hcrc; rename x into crc0 end.
  assert (Hc4 : length crc0 = 4%nat) by (apply length_buf_read in Hcrc; lia).
  pose proof (buf_read_u8 _ _ _ _ Hu8 Hcrc) as Hcu.
  match goal with
    | H0 : buf_write Gpt _ (PUT_LONG 0) = Some ?b0, H1 : buf_write ?b0 _ _ = Some ?b1 |- _ =>
      rename H0 into Hz; rename H1 into Hback
  end.
  assert (E : buf_write Gpt (p + HEADER_CRC_OFFSET) crc0 = Some Gpt').
  { rewrite u32_small in Hback by exact (load32_range _ _ _ Hu8 Hcrc).
    rewrite PUT_GET_LONG in Hback by done.
    eapply buf_write_write; [|exact Hz|exact Hback]. by rewrite Hc4. }
  rewrite (buf_write_read_same _ _ _ _ Hcrc) in E. injection E as <-.
  split; [done|]. split; [done|]. eexists. split; [done|]. cbn.
  pose proof (u32_range (GET_LWORD_FROM_BYTE x5)) as Hcnt.
  unfold is_u32 in Hcnt. rewrite C9 in *. split_and!; try done.
  - do 3 eexists. split_and!; [exact Hz|eassumption|exact Hcrc|].
    rewrite C2. cbn. symmetry. apply u32_small. exact (load32_range _ _ _ Hu8 Hcrc).
  - lia.
Qed.
End Parsing.

(** ** Checksums survive writes elsewhere, and are established by a store *)
Section Crc.
Context `{F : Firmware}.

Lemma buf_write_comm b o1 d1 o2 d2 b1 b2 :
  buf_write b o1 d1 = Some b1 -> buf_write b o2 d2 = Some b2 ->
  o1 + Z.of_nat (length d1) <= o2 \/ o2 + Z.of_nat (length d2) <= o1 ->
  exists b', buf_write b1 o2 d2 = Some b' /\ buf_write b2 o1 d1 = Some b'.
Proof.
  intros H1 H2 Hd. pose proof (length_buf_write _ _ _ _ H1) as L1.
  pose proof (length_buf_write _ _ _ _ H2) as L2.
  pose proof H1 as (?&?&E1)%buf_write_Some. pose proof H2 as (?&?&E2)%buf_write_Some.
  destruct (buf_write_in_range b1 o2 d2) as [x Hx]; [lia..|].
  destruct (buf_write_in_range b2 o1 d1) as [y Hy]; [lia..|].
  exists x. split; [done|]. rewrite Hy. f_equal.
  assert (Hlk : forall b o d b' i, buf_write b o d = Some b' ->
    b' !! i = if decide (Z.to_nat o <= i < Z.to_nat o + length d)%nat
              then d !! (i - Z.to_nat o)%nat else b !! i).
  { clear. intros b o d b' i (?&?&->)%buf_write_Some. case_decide.
    - rewrite lookup_app_r, lookup_app_l by (rewrite ?length_take; lia).
      f_equal. rewrite length_take. lia.
    - destruct (decide (i < Z.to_nat o)%nat).
      + rewrite lookup_app_l by (rewrite length_take; lia). by rewrite lookup_take_lt.
      + rewrite !lookup_app_r by (rewrite ?length_take; lia).
        rewrite lookup_drop, length_take. f_equal. lia. }
  apply list_eq. intros i.
  rewrite (Hlk _ _ _ _ i Hy), (Hlk _ _ _ _ i Hx), (Hlk _ _ _ _ i H1), (Hlk _ _ _ _ i H2).
  repeat case_decide; try done; lia.
Qed.

Lemma header_crc_ok_other b p n o d b' :
  GPT_HEADER_SIZE <= n -> header_crc_ok b p n -> buf_write b o d = Some b' ->
  o + Z.of_nat (length d) <= p \/ p + n <= o -> header_crc_ok b' p n.
Proof.
  intros Hn (b0 & x & c & Hz & Hx & Hc & E) Hw Hd.
  unfold GPT_HEADER_SIZE, HEADER_CRC_OFFSET in *.
  destruct (buf_write_comm _ _ _ _ _ _ _ Hz Hw) as (b1 & H1 & H2); [simpl; lia|].
  exists b1, x, c. split_and!; [done| | |done].
  - rewrite <- Hx. eapply buf_read_write_other; [exact H1|]. lia.
  - rewrite <- Hc. eapply buf_read_write_other; [exact Hw|]. lia.
Qed.

Lemma entries_crc_ok_other b hdr start n o d b' :
  entries_crc_ok b hdr start n -> buf_write b o d = Some b' ->
  o + Z.of_nat (length d) <= start \/ start + n <= o ->
  o + Z.of_nat (length d) <= hdr + PARTITION_CRC_OFFSET \/
    hdr + PARTITION_CRC_OFFSET + 4 <= o ->
  entries_crc_ok b' hdr start n.
Proof.
  intros (x & c & Hx & Hc & E) Hw Hd Hh. exists x, c. split_and!; [| |done].
  - rewrite <- Hx. eapply buf_read_write_other; [exact Hw|lia].
  - rewrite <- Hc. eapply buf_read_write_other; [exact Hw|lia].
Qed.

Lemma header_crc_ok_intro b b0 d st c b' p n :
  buf_write b (p + HEADER_CRC_OFFSET) (PUT_LONG 0) = Some b0 ->
  buf_read b0 p n = Some d -> CalculateCrc32 d = (st, c) -> is_u32 c ->
  buf_write b0 (p + HEADER_CRC_OFFSET) (PUT_LONG c) = Some b' ->
  header_crc_ok b' p n.
Proof.
  intros Hz Hd Hc Hu Hw.
  destruct (buf_write_in_range b' (p + HEADER_CRC_OFFSET) (PUT_LONG 0)) as [b1 H1].
  { by apply buf_write_Some in Hz as (?&_). }
  { pose proof (length_buf_write _ _ _ _ Hz). pose proof (length_buf_write _ _ _ _ Hw).
    apply buf_write_Some in Hz as (_&?&_). lia. }
  assert (b1 = b0) as ->.
  { pose proof (buf_write_write _ _ (PUT_LONG c) (PUT_LONG 0) _ _ eq_refl Hw H1) as H2.
    pose proof (buf_write_read_same _ _ _ _ (buf_read_write_same _ _ _ _ Hz)) as H3.
    simpl in H3. congruence. }
  exists b0, d, (PUT_LONG c). split_and!; [done|done| |].
  - apply (buf_read_write_same _ _ _ _ Hw).
  - rewrite GET_PUT_LONG, Hc. simpl. by apply u32_small.
Qed.

Lemma entries_crc_ok_intro b d st c b' hdr start n :
  buf_read b start n = Some d -> CalculateCrc32 d = (st, c) -> is_u32 c ->
  buf_write b (hdr + PARTITION_CRC_OFFSET) (PUT_LONG c) = Some b' ->
  hdr + PARTITION_CRC_OFFSET + 4 <= start \/ start + n <= hdr + PARTITION_CRC_OFFSET ->
  entries_crc_ok b' hdr start n.
Proof.
  intros Hd Hc Hu Hw Ho. exists d, (PUT_LONG c). split_and!.
  - rewrite <- Hd. eapply buf_read_write_other; [exact Hw|]. simpl. lia.
  - apply (buf_read_write_same _ _ _ _ Hw).
  - rewrite GET_PUT_LONG, Hc. simpl. by apply u32_small.
Qed.
End Crc.

(** ** Patching an image *)

(** Run one statement forward. *)
Lemma store_ok {S R} b off d (s : S) :
  0 <= off -> off + Z.of_nat (length d) <= Z.of_nat (length b) ->
  exists b', @store S R b off d s = (Go b', s) /\ buf_write b off d = Some b' /\
    length b' = length b.
Proof.
  intros H1 H2. destruct (buf_write_in_range b off d H1 H2) as [b' Hb].
  exists b'. unfold store. rewrite Hb. eauto using length_buf_write.
Qed.

Lemma load_ok {S R} b off n (s : S) :
  0 <= off -> 0 <= n -> off + n <= Z.of_nat (length b) ->
  exists d, @load S R b off n s = (Go d, s) /\ buf_read b off n = Some d /\
    Z.of_nat (length d) = n.
Proof.
  intros H1 H2 H3. destruct (buf_read_in_range b off n H1 H2 H3) as (d & Hd & Hl).
  exists d. unfold load. by rewrite Hd.
Qed.

Lemma load64_ok {S R} b off (s : S) :
  0 <= off -> off + 8 <= Z.of_nat (length b) ->
  exists d, @load64 S R b off s = (Go (GET_LLWORD_FROM_BYTE d), s) /\
    buf_read b off 8 = Some d.
Proof.
  intros H1 H2. destruct (load_ok (R := R) b off 8 s) as (d & Hd & Hr & _); [lia..|].
  exists d. split; [|done]. unfold load64. by rewrite (bind_go _ _ _ _ _ Hd).
Qed.

Section Patch.
Context `{F : Firmware} `{!Crc32Laws F}.

Lemma crc_at_ok {R} b off n (w : World) :
  0 <= off -> 0 < n -> off + n <= Z.of_nat (length b) ->
  exists d c, crc_at (R := R) b off n w = (Go (EFI_SUCCESS, c), w) /\
    buf_read b off n = Some d /\ CalculateCrc32 d = (EFI_SUCCESS, c) /\ is_u32 c.
Proof.
  intros. destruct (load_ok (R := R) b off n w) as (d & Hd & Hr & Hl); [lia..|].
  destruct (CalculateCrc32_ok d) as (c & Hc & Hu); [by destruct d; simpl in Hl; [lia|]|].
  exists d, c. split; [|done]. unfold crc_at.
  rewrite (bind_go _ _ _ _ _ Hd). by rewrite Hc.
Qed.

(** The entry at index [i] of the array at [base] has a type GUID. *)
Definition entry_used (b : list Z) (base i : Z) : bool :=
  match buf_read b (base + i * PARTITION_ENTRY_SIZE) 8,
        buf_read b (base + i * PARTITION_ENTRY_SIZE + 8) 8 with
  | Some x, Some y =>
      negb (GET_LLWORD_FROM_BYTE x =? 0) || negb (GET_LLWORD_FROM_BYTE y =? 0)
  | _, _ => false
  end.

(** The count is the number of leading used entries. *)
Lemma count_parts_ok {R} n b base t (w : World) :
  0 <= base -> 0 <= t ->
  base + (t + Z.of_nat n) * PARTITION_ENTRY_SIZE <= Z.of_nat (length b) ->
  exists T, count_parts (R := R) n b base t w = (Go T, w) /\ t <= T <= t + Z.of_nat n /\
    (forall i, t <= i < T -> entry_used b base i = true) /\
    (T < t + Z.of_nat n -> entry_used b base T = false).
Proof.
  unfold PARTITION_ENTRY_SIZE. revert t. induction n as [|n IH]; intros t Hb Ht Hl.
  { exists t. split; [done|]. split; [lia|]. split; lia. }
  cbn [count_parts].
  destruct (load64_ok (R := R) b (base + t * 128) w) as (x & Ex & Hx); [lia..|].
  destruct (load64_ok (R := R) b (base + t * 128 + 8) w) as (y & Ey & Hy); [lia..|].
  unfold PARTITION_ENTRY_SIZE.
  rewrite (bind_go _ _ _ _ _ Ex), (bind_go _ _ _ _ _ Ey).
  assert (Hu : entry_used b base t =
    negb (GET_LLWORD_FROM_BYTE x =? 0) || negb (GET_LLWORD_FROM_BYTE y =? 0)).
  { unfold entry_used, PARTITION_ENTRY_SIZE. by rewrite Hx, Hy. }
  destruct (negb _ || negb _).
  - destruct (IH (t + 1)) as (T & HT & Hr & Hall & Hend); [lia..|].
    exists T. split_and!; [done|lia|lia| |intros; apply Hend; lia].
    intros i Hi. destruct (decide (i = t)) as [->|]; [done|]. apply Hall. lia.
  - exists t. split_and!; [done|lia|lia|lia|done].
Qed.

Ltac fwd_store :=
  match goal with |- context [(store ?b ?o ?d ≫= ?k) ?s] =>
    let b' := fresh "b" in let E := fresh "E" in
    let W := fresh "W" in let L := fresh "L" in
    destruct (store_ok (R := Z * list Z) b o d s) as (b' & E & W & L);
    [cbn [length PUT_LONG PUT_LONG_LONG]; lia..|];
    rewrite (bind_go _ _ _ _ _ E); clear E; cbn beta zeta
  end.
Ltac fwd_crc :=
  match goal with |- context [(crc_at ?b ?o ?n ≫= ?k) ?s] =>
    let d := fresh "d" in let c := fresh "c" in let E := fresh "E" in
    let Hd := fresh "Hd" in let Hc := fresh "Hc" in let Hu := fresh "Hu" in
    destruct (crc_at_ok (R := Z * list Z) b o n s) as (d & c & E & Hd & Hc & Hu); [lia..|];
    rewrite (bind_go _ _ _ _ _ E); clear E; cbn [fst snd EFI_ERROR EFI_SUCCESS Z.testbit]
  end.

(** A read that the write in [W] does not meet. *)
Ltac skip_write :=
  match goal with
  | |- context [buf_read ?b ?o ?n] =>
      match goal with W : buf_write _ _ _ = Some b |- _ =>
        rewrite (buf_read_write_other _ _ _ _ o n W)
          by (cbn [length PUT_LONG PUT_LONG_LONG]; lia) end
  end.

(** The length of the entry array a header announces, and that of the header. *)
Definition array_size (b : list Z) (hdr : Z) : option Z :=
  x ← buf_read b (hdr + PARTITION_COUNT_OFFSET) 4;
  y ← buf_read b (hdr + PENTRY_SIZE_OFFSET) 4;
  Some (u32 (u32 (GET_LWORD_FROM_BYTE x) * u32 (GET_LWORD_FROM_BYTE y))).
Definition header_size (b : list Z) (hdr : Z) : option Z :=
  x ← buf_read b (hdr + HEADER_SIZE_OFFSET) 4; Some (u32 (GET_LWORD_FROM_BYTE x)).

(** The checksum of a header covers as many bytes as the header says. *)
Definition header_checked (b : list Z) (hdr : Z) : Prop :=
  exists n, header_size b hdr = Some n /\ header_crc_ok b hdr n.

(** A header of 92 bytes that announces an array of [n] bytes. *)
Definition header_names (b : list Z) (n hdr : Z) : Prop :=
  header_size b hdr = Some GPT_HEADER_SIZE /\ array_size b hdr = Some n.

(** The offset of the backup header inside an image with arrays of
    [MIN_PARTITION_ARRAY_SIZE] bytes. *)
Definition backup_hdr (BlkSz : Z) : Z := u32 (2 * MIN_PARTITION_ARRAY_SIZE) + BlkSz + BlkSz.

(** What a patched image satisfies: the four checksums match, both headers
    still announce their own size and an array of [n] bytes, and the geometry
    fields describe a device of [NumSectors] blocks. *)
Record patched (b : list Z) (BlkSz NumSectors LastLba n : Z) : Prop := {
  pd_primary : header_checked b BlkSz;
  pd_backup : header_checked b (backup_hdr BlkSz);
  pd_names : header_names b n BlkSz;
  pd_bak_names : header_names b n (backup_hdr BlkSz);
  pd_entries : entries_crc_ok b BlkSz (BlkSz + BlkSz) n;
  pd_bak_entries : entries_crc_ok b (backup_hdr BlkSz)
    (BlkSz + BlkSz + MIN_PARTITION_ARRAY_SIZE) n;
  pd_backup_lba : buf_read b (BlkSz + BACKUP_HEADER_OFFSET) 8
    = Some (PUT_LONG_LONG (u64 (NumSectors - 1)));
  pd_last_usable : buf_read b (BlkSz + LAST_USABLE_LBA_OFFSET) 8
    = Some (PUT_LONG_LONG LastLba);
  pd_bak_last_usable : buf_read b (backup_hdr BlkSz + LAST_USABLE_LBA_OFFSET) 8
    = Some (PUT_LONG_LONG LastLba);
}.

Lemma PatchGpt_total Gpt D h B w :
  92 <= B < 2 ^ 30 -> PartEntrySz h = GPT_PART_ENTRY_SIZE -> 1 <= MaxPtCnt h <= 128 ->
  u32 (2 * MIN_PARTITION_ARRAY_SIZE) + 3 * B <= Z.of_nat (length Gpt) ->
  entry_used Gpt (B + B) 0 = true ->
  header_names Gpt (MaxPtCnt h * GPT_PART_ENTRY_SIZE) B ->
  header_names Gpt (MaxPtCnt h * GPT_PART_ENTRY_SIZE) (backup_hdr B) ->
  exists Gpt', run (PatchGpt Gpt D MIN_PARTITION_ARRAY_SIZE h B) w
      = (Go (SUCCESS, Gpt'), w) /\
    length Gpt' = length Gpt /\
    patched Gpt' B (D / B)
      (u64 (D / B - u32 (u32 (MAX_PARTITION_ENTRIES_SZ / B + GPT_HDR_BLOCKS) + 1)))
      (MaxPtCnt h * GPT_PART_ENTRY_SIZE).
Proof.
  intros HB Hsz Hcnt Hlen Hused Hn1 Hn2. unfold run, call, PatchGpt. rewrite Hsz.
  unfold backup_hdr in *.
  replace (B =? 0) with false by (symmetry; lia). cbn beta iota zeta.
  set (LastLba := u64 (D / B - _)). set (Ptn := u32 (MAX_PARTITION_ENTRIES_SZ / B + _)).
  change (u32 (2 * MIN_PARTITION_ARRAY_SIZE)) with 32768 in *.
  rewrite (u32_small (MaxPtCnt h * _)) by (unfold GPT_PART_ENTRY_SIZE; lia).
  unfold header_names, header_size, array_size, HEADER_SIZE_OFFSET, PARTITION_COUNT_OFFSET,
    PENTRY_SIZE_OFFSET, GPT_PART_ENTRY_SIZE, BACKUP_HEADER_OFFSET, LAST_USABLE_LBA_OFFSET,
    PRIMARY_HEADER_OFFSET, PARTITION_ENTRIES_OFFSET, PARTITION_CRC_OFFSET,
    HEADER_CRC_OFFSET, GPT_HEADER_SIZE, MIN_PARTITION_ARRAY_SIZE in *.
  do 5 fwd_store.
  edestruct (count_parts_ok (R := Z * list Z) (Z.to_nat (MaxPtCnt h)) b3 (B + B) 0 w)
    as (T & ET & HT & _ & Hend); [lia|lia|unfold PARTITION_ENTRY_SIZE; lia|].
  rewrite (bind_go _ _ _ _ _ ET). cbn beta zeta.
  assert (T <> 0).
  { intros ->. assert (Hf : entry_used b3 (B + B) 0 = false) by (apply Hend; lia).
    revert Hused Hf. unfold entry_used, PARTITION_ENTRY_SIZE. repeat skip_write.
    congruence. }
  unfold PARTITION_ENTRY_SIZE, PARTITION_ENTRY_LAST_LBA.
  rewrite (u32_small (T - 1)), (u32_small (_ * 128 + 40)) by lia.
  do 2 fwd_store. fwd_crc. fwd_store. fwd_crc. do 2 fwd_store. fwd_crc.
  do 2 fwd_store. fwd_crc. fwd_store.
  eexists. split; [reflexivity|]. split; [congruence|].
  assert (Hp : header_crc_ok b9 B 92) by (eapply header_crc_ok_intro; eassumption).
  assert (He : entries_crc_ok b6 B (B + B) (MaxPtCnt h * 128)).
  { eapply entries_crc_ok_intro; try eassumption. unfold PARTITION_CRC_OFFSET. lia. }
  assert (He' : entries_crc_ok b7 (32768 + B + B) (B + B + 16384) (MaxPtCnt h * 128)).
  { eapply entries_crc_ok_intro; try eassumption. unfold PARTITION_CRC_OFFSET. lia. }
  match goal with |- patched ?c _ _ _ _ => rename c into bn end.
  assert (Hn1' : header_names bn (MaxPtCnt h * 128) B).
  { unfold header_names, header_size, array_size, HEADER_SIZE_OFFSET, PARTITION_COUNT_OFFSET,
      PENTRY_SIZE_OFFSET, GPT_HEADER_SIZE. repeat skip_write. exact Hn1. }
  assert (Hn2' : header_names bn (MaxPtCnt h * 128) (32768 + B + B)).
  { unfold header_names, header_size, array_size, HEADER_SIZE_OFFSET, PARTITION_COUNT_OFFSET,
      PENTRY_SIZE_OFFSET, GPT_HEADER_SIZE. repeat skip_write. exact Hn2. }
  split; unfold backup_hdr, GPT_HEADER_SIZE, MIN_PARTITION_ARRAY_SIZE;
    change (u32 (2 * 0x4000)) with 32768; try done.
  - exists 92. split; [apply Hn1'|].
    do 2 (eapply header_crc_ok_other; [done| |eassumption|simpl; lia]). exact Hp.
  - exists 92. split; [apply Hn2'|]. eapply header_crc_ok_intro; eassumption.
  - do 5 (eapply entries_crc_ok_other; [|eassumption|simpl; lia
            |unfold PARTITION_CRC_OFFSET; simpl; lia]). exact He.
  - do 4 (eapply entries_crc_ok_other; [|eassumption|simpl; lia
            |unfold PARTITION_CRC_OFFSET; simpl; lia]). exact He'.
  - unfold BACKUP_HEADER_OFFSET. repeat skip_write. apply (buf_read_write_same _ _ _ _ W).
  - unfold LAST_USABLE_LBA_OFFSET. repeat skip_write. apply (buf_read_write_same _ _ _ _ W0).
  - unfold LAST_USABLE_LBA_OFFSET. repeat skip_write. apply (buf_read_write_same _ _ _ _ W2).
Qed.

(** With no used entry the index of the last entry wraps around, and the
    store meant for it leaves the image. *)
Lemma PatchGpt_empty_halts Gpt D h B w :
  92 <= B < 2 ^ 30 -> 1 <= MaxPtCnt h <= 128 ->
  u32 (2 * MIN_PARTITION_ARRAY_SIZE) + 3 * B <= Z.of_nat (length Gpt) < 2 ^ 31 ->
  entry_used Gpt (B + B) 0 = false ->
  run (PatchGpt Gpt D MIN_PARTITION_ARRAY_SIZE h B) w = (Halt OutOfBounds, w).
Proof.
  intros HB Hcnt Hlen Hused. unfold run, call, PatchGpt.
  replace (B =? 0) with false by (symmetry; lia). cbn beta iota zeta.
  change (u32 (2 * MIN_PARTITION_ARRAY_SIZE)) with 32768 in *.
  unfold BACKUP_HEADER_OFFSET, LAST_USABLE_LBA_OFFSET, PRIMARY_HEADER_OFFSET,
    PARTITION_ENTRIES_OFFSET, MIN_PARTITION_ARRAY_SIZE in *.
  do 5 fwd_store.
  edestruct (count_parts_ok (R := Z * list Z) (Z.to_nat (MaxPtCnt h)) b3 (B + B) 0 w)
    as (T & ET & HT & Hall & _); [lia|lia|unfold PARTITION_ENTRY_SIZE; lia|].
  rewrite (bind_go _ _ _ _ _ ET). cbn beta zeta.
  assert (T = 0) as ->.
  { destruct (decide (T = 0)); [done|].
    assert (Hf : entry_used b3 (B + B) 0 = true) by (apply Hall; lia).
    revert Hused Hf. unfold entry_used, PARTITION_ENTRY_SIZE. repeat skip_write.
    congruence. }
  change (u32 (u32 (0 - 1) * PARTITION_ENTRY_SIZE + PARTITION_ENTRY_LAST_LBA)) with 4294967208.
  erewrite bind_halt; [reflexivity|].
  unfold store, need. destruct (buf_write b3 _ _) as [b4|] eqn:E; [|done].
  apply buf_write_Some in E as (_&E&_). simpl in E. lia.
Qed.
End Patch.

(** ** Synchronising the tables *)
Section SyncFrames.
Context `{F : Firmware}.

Lemma upd_Bak_slots i f w : same_slots w (upd_Bak i f w).
Proof. repeat split. Qed.

Lemma keeps_crc_at {R} (P : World -> World -> Prop) `{!PreOrder P} b o n :
  keeps P (crc_at (R := R) b o n).
Proof. unfold crc_at. keeps_tac. Qed.
Lemma keeps_write_at {R} b lba g o n : keeps same_slots (write_at (R := R) b lba g o n).
Proof. unfold write_at. keeps_tac. Qed.
Lemma keeps_sync_guid {R} t i e l : keeps same_slots (sync_guid (R := R) t i e l).
Proof. unfold sync_guid. keeps_tac; apply upd_Bak_slots. Qed.
Hint Resolve keeps_crc_at keeps_write_at keeps_sync_guid : keeps.
Lemma keeps_sync_entry {R} t u lu i l : keeps same_slots (sync_entry (R := R) t u lu i l).
Proof. unfold sync_entry. keeps_tac; apply upd_Bak_slots. Qed.
Lemma keeps_refresh_crcs {R} (P : World -> World -> Prop) `{!PreOrder P} b e h :
  keeps P (refresh_crcs (R := R) b e h).
Proof. unfold refresh_crcs. keeps_tac. Qed.
Hint Resolve keeps_sync_entry keeps_refresh_crcs : keeps.
Lemma keeps_sync_table t u lu b bs it o : keeps same_slots (sync_table t u lu b bs it o).
Proof. unfold sync_table. keeps_tac. Qed.
Hint Resolve keeps_sync_table : keeps.
Lemma keeps_sync_lun t d lu m : keeps same_slots (sync_lun t d lu m).
Proof. unfold sync_lun. keeps_tac. Qed.
Hint Resolve keeps_sync_lun : keeps.

(** Writing the tables back changes nothing the slot logic looks at. *)
Lemma keeps_UpdatePartitionAttributes t : keeps same_slots (UpdatePartitionAttributes t).
Proof. unfold UpdatePartitionAttributes, IsUpdatePartitionAttributes. keeps_tac. Qed.
End SyncFrames.
#[export] Hint Resolve keeps_crc_at keeps_UpdatePartitionAttributes : keeps.

Section Sync.
Context `{F : Firmware}.

(** The stored entry at [ptr] carries the type GUID and attributes of [e]. *)
Definition entry_synced (b : list Z) (ptr : Z) (e : PartitionEntry) : Prop :=
  buf_read b ptr GUID_SIZE = Some (TypeGuid e) /\
  exists x, buf_read b (ptr + ATTRIBUTE_FLAG_OFFSET) 8 = Some x /\
    GET_LLWORD_FROM_BYTE x = Attr e.

(** An entry the table can hold. *)
Definition entry_ok (e : PartitionEntry) : Prop :=
  Data1 (TypeGuid e) <> 0 /\ length (TypeGuid e) = 16%nat /\ is_u64 (Attr e).

(** The entries in use, and those the table of a LUN holds: on UFS its own,
    otherwise all. *)
Definition part_used (e : PartitionEntry) : bool := negb (Data1 (TypeGuid e) =? 0).
Definition on_table (ufs : bool) (Lun : Z) (e : PartitionEntry) : bool :=
  part_used e && (negb ufs || (lun e =? Lun)).
Definition table_entries (ufs : bool) (Lun : Z) (es : list PartitionEntry) : list PartitionEntry :=
  filter (on_table ufs Lun) es.

(** On UFS the entries in use are in the order of their LUNs. *)
Definition luns_ordered (ufs : bool) (es : list PartitionEntry) : Prop :=
  ufs = true -> StronglySorted (fun a b => lun a <= lun b) (filter part_used es).

Lemma sync_guid_all {R} i e l (w : World) :
  length (TypeGuid e) = 16%nat -> 0 <= s_ptr l ->
  s_ptr l + 16 <= Z.of_nat (length (s_buf l)) ->
  exists l' w', sync_guid (R := R) PARTITION_ALL i e l w = (Go l', w') /\
    fw w' = fw w /\ s_ptr l' = s_ptr l /\ length (s_buf l') = length (s_buf l) /\
    buf_read (s_buf l') (s_ptr l) GUID_SIZE = Some (TypeGuid e) /\
    (forall o n, o + n <= s_ptr l \/ s_ptr l + 16 <= o ->
      buf_read (s_buf l') o n = buf_read (s_buf l) o n) /\
    (s_skip l' = true -> l' = l).
Proof.
  intros Hg Hp Hl. unfold sync_guid.
  change (negb (Z.land PARTITION_ALL PARTITION_GUID_MASK =? 0)) with true. cbn iota.
  destruct (load_ok (R := R) (s_buf l) (s_ptr l) GUID_SIZE w) as (g & Eg & Hr & _);
    [unfold GUID_SIZE; lia..|].
  rewrite (bind_go _ _ _ _ _ Eg). unfold MemDiffers. case_bool_decide as Hd.
  - destruct (store_ok (R := R) (s_buf l) (s_ptr l) (TypeGuid e) w) as (b & Eb & Hw & Hlb);
      [lia..|]. rewrite (bind_go _ _ _ _ _ Eb). unfold modify. munfold.
    do 2 eexists. split; [reflexivity|]. cbn. split_and!; try done.
    + pose proof (buf_read_write_same _ _ _ _ Hw) as H. by rewrite Hg in H.
    + intros o n Ho. eapply buf_read_write_other; [exact Hw|]. lia.
  - subst g. exists l, w. split; [done|]. split_and!; done.
Qed.

Lemma sync_entry_all {R} ufs Lun i e l (w : World) :
  PtnEntries (pt w) !! Z.to_nat i = Some e -> on_table ufs Lun e = true -> entry_ok e -> 0 <= s_ptr l ->
  s_ptr l + PARTITION_ENTRY_SIZE <= Z.of_nat (length (s_buf l)) ->
  exists l' w', sync_entry (R := R) PARTITION_ALL ufs Lun i l w = (Go (false, l'), w') /\
    fw w' = fw w /\ s_ptr l' = s_ptr l + PARTITION_ENTRY_SIZE /\
    length (s_buf l') = length (s_buf l) /\ entry_synced (s_buf l') (s_ptr l) e /\
    (forall o n, o + n <= s_ptr l \/ s_ptr l + PARTITION_ENTRY_SIZE <= o ->
      buf_read (s_buf l') o n = buf_read (s_buf l) o n) /\
    (s_skip l' = true -> s_skip l = true /\ s_buf l' = s_buf l).
Proof.
  unfold PARTITION_ENTRY_SIZE. intros He Hon (Hd & Hg & Hu) Hp Hl. unfold sync_entry.
  rewrite (bind_go get _ _ w w) by done. rewrite He. unfold need.
  rewrite (bind_go (mret e) _ _ e w) by done.
  destruct (Z.eqb_spec (Data1 (TypeGuid e)) 0); [done|].
  assert (Hlun : ufs && (Lun <? lun e) = false /\ ufs && negb (lun e =? Lun) = false).
  { unfold on_table in Hon. destruct ufs; [|done]. apply andb_true_iff in Hon as [_ Hon].
    cbn [negb orb] in Hon. cbn [andb]. rewrite Hon. split; [|done]. apply Z.ltb_ge. bools. lia. }
  destruct Hlun as [-> ->].
  destruct (load64_ok (R := R) (s_buf l) (s_ptr l + ATTRIBUTE_FLAG_OFFSET) w)
    as (a & Ea & Ha); [unfold ATTRIBUTE_FLAG_OFFSET; lia..|].
  rewrite (bind_go _ _ _ _ _ Ea).
  destruct (sync_guid_all (R := R) i e l w)
    as (l1 & w1 & E1 & Hf1 & Hp1 & Hl1 & Hg1 & Ho1 & Hs1); [done|lia|lia|].
  rewrite (bind_go _ _ _ _ _ E1).
  change (negb (Z.land PARTITION_ALL PARTITION_ATTRIBUTES_MASK =? 0)) with true. cbn iota.
  destruct (load_ok (R := R) (s_buf l1) (s_ptr l1) GUID_SIZE w1) as (g & Eg & Hr & _);
    [rewrite ?Hp1, ?Hl1; unfold GUID_SIZE; lia..|].
  rewrite (bind_go _ _ _ _ _ Eg).
  assert (g = TypeGuid e) as -> by (rewrite Hp1 in Hr; congruence).
  unfold MemDiffers. rewrite bool_decide_eq_false_2 by tauto. rewrite orb_true_r.
  destruct (Z.eqb_spec (GET_LLWORD_FROM_BYTE a) (Attr e)) as [EA|NA]; cbn [negb].
  - do 2 eexists. split; [reflexivity|]. cbn. split_and!; try done; [by rewrite Hp1|split|..].
    + done.
    + exists a. split; [|done]. rewrite Ho1 by (unfold ATTRIBUTE_FLAG_OFFSET; lia). done.
    + intros o m Ho. apply Ho1. lia.
    + intros Hs. pose proof (Hs1 Hs) as E. by rewrite E in Hs |- *.
  - destruct (store_ok (R := R) (s_buf l1) (s_ptr l1 + ATTRIBUTE_FLAG_OFFSET)
      (PUT_LONG_LONG (Attr e)) w1) as (b & Eb & Hw & Hlb);
      [rewrite ?Hp1, ?Hl1; unfold ATTRIBUTE_FLAG_OFFSET; simpl; lia..|].
    rewrite (bind_go _ _ _ _ _ Eb). munfold.
    do 2 eexists. split; [reflexivity|]. cbn. unfold ATTRIBUTE_FLAG_OFFSET in *.
    split_and!; try done; [by rewrite Hp1|congruence|split|..].
    + rewrite <- Hg1. eapply buf_read_write_other; [exact Hw|]. unfold GUID_SIZE. lia.
    + exists (PUT_LONG_LONG (Attr e)). rewrite GET_PUT_LONG_LONG, u64_small by done.
      split; [|done]. rewrite <- Hp1. apply (buf_read_write_same _ _ _ _ Hw).
    + intros o m Ho. rewrite <- Ho1 by lia.
      eapply buf_read_write_other; [exact Hw|]. simpl. lia.
Qed.

(** Any other entry is passed over; behind the entries of the LUN the loop ends. *)
Lemma sync_entry_skipped {R} t ufs Lun i e l (w : World) :
  PtnEntries (pt w) !! Z.to_nat i = Some e -> on_table ufs Lun e = false ->
  sync_entry (R := R) t ufs Lun i l w = (Go (false, l), w) \/
  ufs = true /\ part_used e = true /\ Lun < lun e /\
  sync_entry (R := R) t ufs Lun i l w = (Go (true, l), w).
Proof.
  intros He Hon. unfold sync_entry. rewrite (bind_go get _ _ w w) by done. rewrite He. unfold need.
  rewrite (bind_go (mret e) _ _ e w) by done. unfold on_table, part_used in *.
  destruct (Data1 (TypeGuid e) =? 0); [by left|]. destruct ufs; [|done]. cbn [andb negb orb] in *.
  destruct (Z.ltb_spec Lun (lun e)); [by right|]. rewrite Hon. by left.
Qed.

Lemma luns_ordered_tail ufs e es : luns_ordered ufs (e :: es) -> luns_ordered ufs es.
Proof.
  intros H Hu. specialize (H Hu). rewrite filter_cons in H. case_decide; [|done].
  by apply StronglySorted_inv in H as [? _].
Qed.

Lemma table_entries_end ufs Lun e es :
  luns_ordered ufs (e :: es) -> ufs = true -> part_used e = true -> Lun < lun e ->
  table_entries ufs Lun (e :: es) = [].
Proof.
  intros H -> He Hl. specialize (H eq_refl). rewrite filter_cons_True in H by (by rewrite He).
  apply StronglySorted_inv in H as [_ H]. unfold table_entries.
  assert (Hno : Forall (fun x => ~ on_table true Lun x) (e :: es)).
  { constructor.
    - unfold on_table. cbn [negb orb]. rewrite (proj2 (Z.eqb_neq _ _)) by lia. rewrite andb_false_r. by intros [].
    - apply Forall_forall. intros x Hx Hon. apply Is_true_true, andb_true_iff in Hon as [Hi Hon].
      cbn [negb orb] in Hon. bools. rewrite Forall_forall in H.
      assert (lun e <= lun x); [apply H, list_elem_of_In, list_elem_of_filter; split; [by rewrite Hi|by apply list_elem_of_In]|lia]. }
  clear -Hno. induction Hno; [done|]. by rewrite filter_cons_False.
Qed.

(** The whole entry loop: every entry of this LUN in use ends up in the table. *)
Lemma sync_loop_all {R} ufs Lun post k l (w : World) :
  (forall j e, post !! j = Some e -> PtnEntries (pt w) !! (k + j)%nat = Some e) ->
  luns_ordered ufs post -> Forall entry_ok (table_entries ufs Lun post) -> 0 <= s_ptr l ->
  s_ptr l + Z.of_nat (length (table_entries ufs Lun post)) * PARTITION_ENTRY_SIZE
    <= Z.of_nat (length (s_buf l)) ->
  exists l' w', for_up (R := R) (length post) (Z.of_nat k) l
      (sync_entry PARTITION_ALL ufs Lun) w = (Go l', w') /\
    fw w' = fw w /\ length (s_buf l') = length (s_buf l) /\
    (forall i e, table_entries ufs Lun post !! i = Some e ->
      entry_synced (s_buf l') (s_ptr l + Z.of_nat i * PARTITION_ENTRY_SIZE) e) /\
    (forall o m, o + m <= s_ptr l \/
      s_ptr l + Z.of_nat (length (table_entries ufs Lun post)) * PARTITION_ENTRY_SIZE <= o ->
      buf_read (s_buf l') o m = buf_read (s_buf l) o m) /\
    (s_skip l' = true -> s_skip l = true /\ s_buf l' = s_buf l).
Proof.
  revert k l w. induction post as [|e post IH]; intros k l w Hes Hord Hok Hp Hbuf.
  { exists l, w. by split_and!. }
  assert (He : PtnEntries (pt w) !! Z.to_nat (Z.of_nat k) = Some e)
    by (rewrite Nat2Z.id, <- (Nat.add_0_r k); by apply Hes).
  assert (Htl : forall j x, post !! j = Some x -> PtnEntries (pt w) !! (S k + j)%nat = Some x).
  { intros j x Hj. replace (S k + j)%nat with (k + S j)%nat by lia. by apply Hes. }
  pose proof (luns_ordered_tail _ _ _ Hord) as Hord'.
  cbn [length for_up]. replace (Z.of_nat k + 1) with (Z.of_nat (S k)) by lia.
  destruct (on_table ufs Lun e) eqn:Eon.
  - assert (Et : table_entries ufs Lun (e :: post) = e :: table_entries ufs Lun post)
      by (unfold table_entries; rewrite filter_cons_True; [done|by rewrite Eon]).
    rewrite Et in *. pose proof (Forall_inv Hok) as Hoke. apply Forall_inv_tail in Hok. cbn [length] in *.
    unfold PARTITION_ENTRY_SIZE in *.
    destruct (sync_entry_all (R := R) ufs Lun (Z.of_nat k) e l w)
      as (l1 & w1 & E1 & Hf1 & Hp1 & Hl1 & Hs1 & Ho1 & Hk1);
      [done..|unfold PARTITION_ENTRY_SIZE; lia|].
    rewrite (bind_go _ _ _ _ _ E1). cbn [fst snd]. unfold PARTITION_ENTRY_SIZE in *.
    destruct (IH (S k) l1 w1) as (l2 & w2 & E2 & Hf2 & Hl2 & Hs2 & Ho2 & Hk2); [|done|done|lia|lia|].
    { destruct (keeps_sync_entry (R := R) PARTITION_ALL ufs Lun (Z.of_nat k) l w) as (HP & _).
      rewrite E1 in HP. simpl in HP. by rewrite HP. }
    exists l2, w2. split; [done|]. split_and!; [congruence|congruence| | |].
    + intros [|i] e' He'; cbn in He'.
      * injection He' as <-. rewrite Z.add_0_r. destruct Hs1 as (Hg & x & Hx & Hv).
        unfold ATTRIBUTE_FLAG_OFFSET, GUID_SIZE in *.
        split; [|exists x; split; [|done]]; rewrite Ho2 by
          (unfold ATTRIBUTE_FLAG_OFFSET, GUID_SIZE; lia); done.
      * specialize (Hs2 i e' He'). rewrite Hp1 in Hs2.
        by replace (s_ptr l + Z.of_nat (S i) * 128) with (s_ptr l + 128 + Z.of_nat i * 128) by lia.
    + intros o m Ho. rewrite Ho2 by lia. apply Ho1. lia.
    + intros Hs. destruct (Hk2 Hs) as [Ha ->]. by apply Hk1.
  - destruct (sync_entry_skipped (R := R) PARTITION_ALL ufs Lun (Z.of_nat k) e l w)
      as [E1|(Hu & Hi & Hl & E1)]; [done..| |];
      rewrite (bind_go _ _ _ _ _ E1); cbn [fst snd].
    + assert (Et : table_entries ufs Lun (e :: post) = table_entries ufs Lun post)
        by (unfold table_entries; rewrite filter_cons_False; [done|rewrite Eon; by intros []]).
      rewrite Et in *. by apply IH.
    + rewrite table_entries_end by done. exists l, w. by split_and!.
Qed.
End Sync.

Section SyncTable.
Context `{F : Firmware} `{!BlockIoLaws F} `{!Crc32Laws F}.

Definition table_crcs_ok (b : list Z) (entries hdr : Z) : Prop :=
  header_checked b hdr /\
  exists n, array_size b hdr = Some n /\ entries_crc_ok b hdr entries n.

Lemma refresh_crcs_ok {R} b entries hdr b' (w w' : World) :
  hdr + GPT_HEADER_SIZE <= entries \/ entries + MAX_PARTITION_ENTRIES_SZ <= hdr ->
  refresh_crcs (R := R) b entries hdr w = (Go (Some b'), w') ->
  w' = w /\ length b' = length b /\
  (header_size b hdr = Some GPT_HEADER_SIZE -> table_crcs_ok b' entries hdr) /\
  (forall o n, o + n <= hdr \/ hdr + GPT_HEADER_SIZE <= o ->
    buf_read b' o n = buf_read b o n).
Proof.
  intros Hlay Hrun. unfold refresh_crcs in Hrun. minv Hrun.
  all: try discriminate. cbn in *.
  match goal with H : context [PARTITION_COUNT_OFFSET] |- _ => rename H into Hx end.
  match goal with H : context [PENTRY_SIZE_OFFSET] |- _ => rename H into Hy end.
  match goal with H : buf_read b entries _ = Some ?d |- _ =>
    rename H into He; rename d into de end.
  destruct (CalculateCrc32 de) as [st c] eqn:Ec.
  match goal with H : buf_read _ hdr GPT_HEADER_SIZE = Some ?d |- _ =>
    rename H into Hh; rename d into dh end.
  destruct (CalculateCrc32 dh) as [st' c'] eqn:Ec'. cbn [fst snd] in *. bools. subst.
  pose proof (u32_range (GET_LWORD_FROM_BYTE x)) as Rx.
  pose proof (u32_range (GET_LWORD_FROM_BYTE x0)) as Ry.
  unfold is_u32 in Rx, Ry.
  set (n := u32 (GET_LWORD_FROM_BYTE x) * u32 (GET_LWORD_FROM_BYTE x0)) in *.
  unfold MAX_PARTITION_ENTRIES_SZ, MAX_NUM_PARTITIONS, PARTITION_ENTRY_SIZE in *.
  assert (0 <= n) by (subst n; apply Z.mul_nonneg_nonneg; lia).
  rewrite u32_small in He by lia.
  unfold GPT_HEADER_SIZE, HEADER_CRC_OFFSET, PARTITION_COUNT_OFFSET, PENTRY_SIZE_OFFSET,
    PARTITION_CRC_OFFSET in *.
  assert (Hfar : forall o m, o + m <= hdr + 16 \/ (hdr + 20 <= o /\ o + m <= hdr + 88) \/
      hdr + 92 <= o -> buf_read b' o m = buf_read b o m).
  { intros o m Ho.
    do 3 match goal with |- buf_read ?c _ _ = _ =>
      match goal with W : buf_write _ _ _ = Some c |- _ =>
        rewrite (buf_read_write_other _ _ _ _ o m W) by (simpl; lia) end end. done. }
  split; [done|]. split; [by repeat match goal with H : buf_write _ _ _ = Some _ |- _ =>
    apply length_buf_write in H end; congruence|].
  split; [intros Hhs; split|intros o m Ho; apply Hfar; lia].
  - exists 92. split.
    { unfold header_size, HEADER_SIZE_OFFSET in *. by rewrite Hfar by lia. }
    eapply header_crc_ok_intro; try eassumption. by eapply CalculateCrc32_u32.
  - exists n. unfold array_size, PARTITION_COUNT_OFFSET, PENTRY_SIZE_OFFSET.
    rewrite !Hfar by lia. rewrite Hx, Hy. simpl. fold n. rewrite u32_small by lia.
    split; [done|].
    eapply entries_crc_ok_other; [|eassumption|simpl; lia|unfold PARTITION_CRC_OFFSET; simpl; lia].
    eapply entries_crc_ok_other; [|eassumption|simpl; lia|unfold PARTITION_CRC_OFFSET; simpl; lia].
    eapply entries_crc_ok_intro; try eassumption; [by eapply CalculateCrc32_u32|].
    unfold PARTITION_CRC_OFFSET. lia.
Qed.

(** Where the entry array and the header of a table image are. *)
Definition table_layout (BlkSz Iter : Z) : Z * Z :=
  if Iter =? 1 then (0, MAX_PARTITION_ENTRIES_SZ / BlkSz * BlkSz) else (BlkSz, 0).

Lemma table_layout_ok BlkSz Iter entries hdr :
  GPT_HEADER_SIZE <= BlkSz -> (BlkSz | MAX_PARTITION_ENTRIES_SZ) ->
  table_layout BlkSz Iter = (entries, hdr) ->
  0 <= entries /\ 0 <= hdr /\
  entries + MAX_PARTITION_ENTRIES_SZ <= MAX_PARTITION_ENTRIES_SZ + BlkSz /\
  (hdr + GPT_HEADER_SIZE <= entries \/ entries + MAX_PARTITION_ENTRIES_SZ <= hdr).
Proof.
  unfold table_layout, GPT_HEADER_SIZE. intros HB [q Hq]. rewrite Hq.
  rewrite Z.div_mul by lia.
  destruct (Iter =? 1); intros [= <- <-]; rewrite <- Hq;
    unfold MAX_PARTITION_ENTRIES_SZ, MAX_NUM_PARTITIONS, PARTITION_ENTRY_SIZE; lia.
Qed.

(** The bytes of a header block and its entry array. *)
Lemma table_bytes BlkSz :
  GPT_HEADER_SIZE <= BlkSz -> (BlkSz | MAX_PARTITION_ENTRIES_SZ) ->
  u32 ((GPT_HDR_BLOCKS + MAX_PARTITION_ENTRIES_SZ / BlkSz) * BlkSz)
    = MAX_PARTITION_ENTRIES_SZ + BlkSz.
Proof.
  unfold GPT_HEADER_SIZE, GPT_HDR_BLOCKS. intros HB Hdv.
  assert (BlkSz <= MAX_PARTITION_ENTRIES_SZ) by (by apply Z.divide_pos_le).
  destruct Hdv as [q Hq]. rewrite Hq at 1. rewrite Z.div_mul by lia. rewrite u32_small;
    unfold MAX_PARTITION_ENTRIES_SZ, MAX_NUM_PARTITIONS, PARTITION_ENTRY_SIZE in *; lia.
Qed.

Lemma entry_synced_other b b' ptr e :
  (forall o n, ptr <= o -> o + n <= ptr + PARTITION_ENTRY_SIZE ->
    buf_read b' o n = buf_read b o n) ->
  entry_synced b ptr e -> entry_synced b' ptr e.
Proof.
  unfold entry_synced, GUID_SIZE, ATTRIBUTE_FLAG_OFFSET, PARTITION_ENTRY_SIZE.
  intros Hf (Hg & x & Hx & Hv). rewrite !Hf by lia. eauto.
Qed.

(** A table that was synchronised without an error holds every entry of its LUN
    that is in use; when it had to be rewritten, its checksums match. *)
Lemma sync_table_synced ufs Lun b BlkSz Iter Offset w w' entries hdr :
  BlockSize (Media (fw w) b) = BlkSz -> GPT_HEADER_SIZE <= BlkSz < 2 ^ 31 ->
  (BlkSz | MAX_PARTITION_ENTRIES_SZ) -> table_layout BlkSz Iter = (entries, hdr) ->
  0 <= PartitionCount (pt w) <= MAX_NUM_PARTITIONS ->
  length (PtnEntries (pt w)) = Z.to_nat MAX_NUM_PARTITIONS ->
  luns_ordered ufs (live (pt w)) -> Forall entry_ok (table_entries ufs Lun (live (pt w))) ->
  sync_table PARTITION_ALL ufs Lun b BlkSz Iter Offset w = (Go tt, w') ->
  exists old new,
    buf_read (Contents (fw w) b) (Offset * BlkSz) (MAX_PARTITION_ENTRIES_SZ + BlkSz)
      = Some old /\
    buf_write (Contents (fw w) b) (Offset * BlkSz) new = Some (Contents (fw w') b) /\
    (forall i e, table_entries ufs Lun (live (pt w)) !! i = Some e ->
      entry_synced new (entries + Z.of_nat i * PARTITION_ENTRY_SIZE) e) /\
    (header_size old hdr = Some GPT_HEADER_SIZE -> new = old \/ table_crcs_ok new entries hdr).
Proof.
  intros HBS HB Hdv Hlay Hcnt Hlen Hord Hok Hrun.
  pose proof (table_layout_ok _ _ _ _ (proj1 HB) Hdv Hlay) as (He0 & Hh0 & Hin & Hdis).
  unfold sync_table in Hrun. cbn zeta in Hrun. fold (table_layout BlkSz Iter) in Hrun.
  pose proof (table_bytes _ (proj1 HB) Hdv) as Hbytes.
  rewrite Hbytes, Hlay in Hrun. clear Hbytes Hlay.
  apply bind_inv_go in Hrun as (r & w0 & Er & Hrun). injection Er as <- <-.
  destruct (ReadBlocks (fw w) b Offset _) as [st old] eqn:ER. cbn [fst snd] in Hrun.
  destruct (EFI_ERROR st) eqn:Est; [done|].
  pose proof (ReadBlocks_status (fw w) b Offset (MAX_PARTITION_ENTRIES_SZ + BlkSz)) as Hst.
  rewrite ER in Hst. apply Hst in Est. simpl in Est. subst st. clear Hst.
  apply ReadBlocks_ok in ER. rewrite HBS in ER.
  pose proof (length_buf_read _ _ _ _ ER) as Hlo.
  cbn beta iota zeta in Hrun. rewrite (bind_go get _ _ w w) in Hrun by done.
  assert (Hn : length (live (pt w)) = Z.to_nat (PartitionCount (pt w))).
  { unfold live. rewrite length_take, Hlen. unfold MAX_NUM_PARTITIONS in *. lia. }
  assert (Hcount : Z.of_nat (length (table_entries ufs Lun (live (pt w)))) <= MAX_NUM_PARTITIONS).
  { pose proof (length_filter (on_table ufs Lun) (live (pt w))). unfold table_entries in *. lia. }
  assert (Hsel : forall i e, table_entries ufs Lun (live (pt w)) !! i = Some e -> Z.of_nat i < MAX_NUM_PARTITIONS).
  { intros i e Hi. apply lookup_lt_Some in Hi. lia. }
  destruct (sync_loop_all (R := unit) ufs Lun (live (pt w)) 0 (mkSync old entries true) w)
    as (l & w1 & El & Hf & Hll & Hsy & Hfar & Hskip); cbn [s_buf s_ptr s_skip];
    [|done|done|lia| |].
  { intros j e Hj. unfold live in Hj. by apply lookup_take_Some in Hj as [??]. }
  { rewrite Hlo. unfold MAX_PARTITION_ENTRIES_SZ, MAX_NUM_PARTITIONS, PARTITION_ENTRY_SIZE in *. lia. }
  rewrite Hn in El. change (Z.of_nat 0) with 0 in El.
  rewrite (bind_go _ _ _ _ _ El) in Hrun. cbn [s_buf s_ptr] in *.
  destruct (s_skip l) eqn:Esk.
  - injection Hrun as <-. destruct (Hskip eq_refl) as [_ Hbuf].
    exists old, old. split; [done|]. rewrite Hf.
    split; [eapply buf_write_read_same; exact ER|]. split; [|by left].
    intros i e Hi. rewrite <- Hbuf. by apply Hsy.
  - apply bind_inv_go in Hrun as (o & w2 & Eo & Hrun). destruct o as [new|]; [|done].
    eapply refresh_crcs_ok in Eo as (-> & Hln & Hcrc & Hkeep); [|exact Hdis].
    apply bind_inv_go in Hrun as (st & w3 & Ea & Hrun). unfold act in Ea.
    destruct (WriteBlocks (fw w1) b Offset new) as [s0 x1] eqn:EW. injection Ea as <- <-.
    destruct (EFI_ERROR s0) eqn:Es0; [done|]. injection Hrun as <-.
    pose proof (WriteBlocks_status (fw w1) b Offset new) as Hst. rewrite EW in Hst.
    apply Hst in Es0. simpl in Es0. subst s0. apply WriteBlocks_ok in EW.
    rewrite Hf, HBS in EW. exists old, new. split; [done|]. split; [exact EW|].
    split; [|intros Hhs; right; apply Hcrc; unfold header_size, HEADER_SIZE_OFFSET in *; rewrite Hfar; [done|
      unfold MAX_PARTITION_ENTRIES_SZ, MAX_NUM_PARTITIONS, PARTITION_ENTRY_SIZE, GPT_HEADER_SIZE in *; lia]].
    intros i e Hi. specialize (Hsel i e Hi).
    eapply entry_synced_other; [|by apply Hsy].
    intros o n Ho1 Ho2. apply Hkeep.
    unfold MAX_PARTITION_ENTRIES_SZ, MAX_NUM_PARTITIONS, PARTITION_ENTRY_SIZE in *. lia.
Qed.
End SyncTable.

(** ** Synchronising never leaves its buffers *)

Section WpMem.
Context {S R : Type}.

Lemma wp_load b off n (E : R -> S -> Prop) Q s :
  0 <= off -> 0 <= n -> off + n <= Z.of_nat (length b) ->
  (forall d, buf_read b off n = Some d -> Q d s) -> wp (load b off n) E Q s.
Proof.
  intros H1 H2 H3 HQ. destruct (load_ok (R := R) b off n s H1 H2 H3) as (d & Hd & Hr & _).
  eapply wp_go; eauto.
Qed.

Lemma wp_load32 b off (E : R -> S -> Prop) Q s :
  0 <= off -> off + 4 <= Z.of_nat (length b) ->
  (forall d, buf_read b off 4 = Some d -> Q (u32 (GET_LWORD_FROM_BYTE d)) s) ->
  wp (load32 b off) E Q s.
Proof.
  intros. unfold load32. apply wp_bind, wp_load; [lia..|]. intros d Hd. apply wp_ret. auto.
Qed.

Lemma wp_load64 b off (E : R -> S -> Prop) Q s :
  0 <= off -> off + 8 <= Z.of_nat (length b) ->
  (forall d, buf_read b off 8 = Some d -> Q (GET_LLWORD_FROM_BYTE d) s) ->
  wp (load64 b off) E Q s.
Proof.
  intros. unfold load64. apply wp_bind, wp_load; [lia..|]. intros d Hd. apply wp_ret. auto.
Qed.

Lemma wp_store b off d (E : R -> S -> Prop) Q s :
  0 <= off -> off + Z.of_nat (length d) <= Z.of_nat (length b) ->
  (forall b', buf_write b off d = Some b' -> length b' = length b -> Q b' s) ->
  wp (store b off d) E Q s.
Proof.
  intros H1 H2 HQ. destruct (store_ok (R := R) b off d s H1 H2) as (b' & Hb & Hw & Hl).
  eapply wp_go; eauto.
Qed.
End WpMem.

Section SyncTotal.
Context `{F : Firmware} `{!BlockIoLaws F} `{!PlatformLaws F}.

Lemma wp_crc_at {R} b off n (E : R -> World -> Prop) Q w :
  0 <= off -> 0 <= n -> off + n <= Z.of_nat (length b) ->
  (forall d, buf_read b off n = Some d -> Q (CalculateCrc32 d) w) ->
  wp (crc_at b off n) E Q w.
Proof.
  intros. unfold crc_at. apply wp_bind, wp_load; [lia..|]. intros d Hd. apply wp_ret. auto.
Qed.

Lemma wp_ask {R A} (f : Fw -> A) (E : R -> World -> Prop) Q w :
  Q (f (fw w)) w -> wp (ask f) E Q w.
Proof. done. Qed.
Lemma wp_act {R A} (f : Fw -> A * Fw) (E : R -> World -> Prop) Q w :
  (forall a x, f (fw w) = (a, x) -> Q a (set_fw x w)) -> wp (act f) E Q w.
Proof. unfold wp, act. destruct (f (fw w)) eqn:Ef. eauto. Qed.

(** Every usable device has blocks that hold a header and divide the entry
    array. *)
Definition geometry_ok (x : Fw) : Prop := forall h,
  GetPartitionSize x (Some h) <> 0 ->
  GPT_HEADER_SIZE <= BlockSize (Media x h) /\
  (BlockSize (Media x h) | MAX_PARTITION_ENTRIES_SZ).

Definition table_ok (p : PtGlobals) : Prop :=
  0 <= PartitionCount p <= MAX_NUM_PARTITIONS /\
  length (PtnEntries p) = Z.to_nat MAX_NUM_PARTITIONS /\
  0 <= MaxLuns p <= MAX_LUNS /\
  Forall (fun e => length (TypeGuid e) = 16%nat) (PtnEntries p).

Definition sync_ok (w : World) : Prop :=
  geometry_ok (fw w) /\ table_ok (pt w) /\ settled w.

Lemma geometry_media x x' :
  (forall h, Media x' h = Media x h) -> geometry_ok x -> geometry_ok x'.
Proof. intros HM H h. unfold GetPartitionSize. rewrite !HM. apply H. Qed.

(** The locals after a step: [k] entries were passed, the buffer kept its
    length, only the shadow copy in the loader changed. *)
Definition step_ok (w : World) (l : sync) (d : Z) (l' : sync) (w' : World) : Prop :=
  s_ptr l <= s_ptr l' <= s_ptr l + d /\ length (s_buf l') = length (s_buf l) /\
  fw w' = fw w /\ same_state w w'.

Lemma step_ok_refl w l d : 0 <= d -> step_ok w l d l w.
Proof. intros. repeat split; lia || done. Qed.

Lemma wp_sync_guid {R} t i e l (E : R -> World -> Prop) w :
  length (TypeGuid e) = 16%nat -> 0 <= s_ptr l ->
  s_ptr l + 16 <= Z.of_nat (length (s_buf l)) ->
  wp (sync_guid t i e l) E (step_ok w l 0) w.
Proof.
  intros. unfold sync_guid. wp_step; [|apply wp_ret, step_ok_refl; lia].
  wp_step. apply wp_load; [unfold GUID_SIZE; lia..|]. intros g _.
  wp_step; [|apply wp_ret, step_ok_refl; lia].
  wp_step. apply wp_store; [lia..|]. intros b _ Hb.
  wp_step. wp_step. apply wp_ret. split_and!; simpl; try lia; try done.
Qed.

Lemma wp_sync_entry {R} t u Lun i l (E : R -> World -> Prop) w :
  table_ok (pt w) -> 0 <= i < PartitionCount (pt w) -> 0 <= s_ptr l ->
  s_ptr l + PARTITION_ENTRY_SIZE <= Z.of_nat (length (s_buf l)) ->
  wp (sync_entry t u Lun i l) E (fun r w' => step_ok w l PARTITION_ENTRY_SIZE r.2 w') w.
Proof.
  unfold table_ok, MAX_NUM_PARTITIONS.
  intros (Hc & Hlen & _ & Hg) Hi Hp Hl. unfold PARTITION_ENTRY_SIZE in Hl.
  assert (Hrefl : step_ok w l PARTITION_ENTRY_SIZE l w) by (by apply step_ok_refl).
  destruct (lookup_lt_is_Some_2 (PtnEntries (pt w)) (Z.to_nat i)) as [e He]; [lia|].
  pose proof (Forall_lookup_1 _ _ _ _ Hg He) as Hge. simpl in Hge.
  unfold sync_entry. do 3 wp_step. eapply wp_need; [exact He|].
  wp_step; [by apply wp_ret|]. wp_step; [by apply wp_ret|]. wp_step; [by apply wp_ret|].
  wp_step. apply wp_load64; [unfold ATTRIBUTE_FLAG_OFFSET; lia..|]. intros a _.
  wp_step. eapply wp_mono; [apply wp_sync_guid with (E := E); lia|done|].
  intros l1 w1 (Hp1 & Hl1 & Hf1 & Hs1). rewrite Z.add_0_r in Hp1.
  assert (Hs : forall w2, fw w2 = fw w1 -> same_state w1 w2 ->
    fw w2 = fw w /\ same_state w w2) by (intros w2 ??; split; [congruence|by etrans]).
  assert (Hk : step_ok w l PARTITION_ENTRY_SIZE l1 w1)
    by (split_and!; try done; unfold PARTITION_ENTRY_SIZE; lia).
  wp_step; [|apply wp_ret; split_and!; simpl; unfold PARTITION_ENTRY_SIZE; try lia; done].
  wp_step. apply wp_load; [unfold GUID_SIZE; lia..|]. intros g _.
  wp_step; [|by apply wp_ret].
  wp_step; [|apply wp_ret; split_and!; simpl; unfold PARTITION_ENTRY_SIZE; try lia; done].
  wp_step. apply wp_store; [unfold ATTRIBUTE_FLAG_OFFSET; simpl; lia..|]. intros b _ Hb.
  do 2 wp_step. apply wp_ret. destruct (Hs (upd_Bak i (set_Attr (Attr e)) w1)); [done..|].
  split_and!; simpl; unfold PARTITION_ENTRY_SIZE; try lia; try done.
Qed.

Lemma wp_sync_loop {R} t u Lun base buf (E : R -> World -> Prop) w :
  table_ok (pt w) -> 0 <= base ->
  base + MAX_PARTITION_ENTRIES_SZ <= Z.of_nat (length buf) ->
  wp (for_up (Z.to_nat (PartitionCount (pt w))) 0 (mkSync buf base true)
        (sync_entry t u Lun)) E
    (fun l w' => length (s_buf l) = length buf /\ fw w' = fw w /\ same_state w w') w.
Proof.
  intros Ht Hb Hl.
  apply wp_for_up with (I := fun i l w' => base <= s_ptr l <= base + i * PARTITION_ENTRY_SIZE /\
    length (s_buf l) = length buf /\ fw w' = fw w /\ same_state w w').
  - simpl. split_and!; [lia|lia|done|done|reflexivity].
  - intros i l w' Hi (Hp & Hlb & Hf & Hs).
    assert (Hpt : table_ok (pt w')).
    { unfold table_ok in *. destruct Hs as [(-> & -> & _ & _ & -> & _) _]. done. }
    pose proof Hs as [(_ & Ec & _) _]. unfold table_ok, MAX_NUM_PARTITIONS in *.
    unfold MAX_PARTITION_ENTRIES_SZ, MAX_NUM_PARTITIONS, PARTITION_ENTRY_SIZE in Hl.
    eapply wp_mono; [apply wp_sync_entry with (E := E); try lia|done|].
    + done.
    + unfold PARTITION_ENTRY_SIZE in *. lia.
    + intros [[] l2] w2 (Hp2 & Hl2 & Hf2 & Hs2); cbn [fst snd] in *.
      * split_and!; [congruence|congruence|by etrans].
      * unfold PARTITION_ENTRY_SIZE in *. split_and!; [lia|lia|congruence|congruence|by etrans].
  - intros l w' (_ & ? & ? & ?). done.
Qed.

Lemma wp_refresh_crcs {R} b entries hdr (E : R -> World -> Prop) w :
  0 <= entries -> 0 <= hdr -> entries + MAX_PARTITION_ENTRIES_SZ <= Z.of_nat (length b) ->
  hdr + GPT_HEADER_SIZE <= Z.of_nat (length b) ->
  wp (refresh_crcs b entries hdr) E (fun _ w' => w' = w) w.
Proof.
  unfold GPT_HEADER_SIZE. intros. unfold refresh_crcs.
  wp_step. apply wp_load32; [unfold PARTITION_COUNT_OFFSET; lia..|]. intros x _.
  wp_step. apply wp_load32; [unfold PENTRY_SIZE_OFFSET; lia..|]. intros y _.
  pose proof (u32_range (GET_LWORD_FROM_BYTE x)) as Rx.
  pose proof (u32_range (GET_LWORD_FROM_BYTE y)) as Ry. unfold is_u32 in *.
  wp_step; [by apply wp_ret|]. bools.
  set (n := u32 (GET_LWORD_FROM_BYTE x) * u32 (GET_LWORD_FROM_BYTE y)) in *.
  assert (0 <= n) by (subst n; apply Z.mul_nonneg_nonneg; lia).
  unfold MAX_PARTITION_ENTRIES_SZ, MAX_NUM_PARTITIONS, PARTITION_ENTRY_SIZE in *.
  rewrite u32_small by lia. wp_step. apply wp_crc_at; [lia..|]. intros d _.
  wp_step; [by apply wp_ret|]. unfold PARTITION_CRC_OFFSET, HEADER_CRC_OFFSET.
  wp_step. apply wp_store; [simpl; lia..|]. intros b1 _ Hl1.
  wp_step. apply wp_store; [simpl; lia..|]. intros b2 _ Hl2.
  wp_step. apply wp_crc_at; [unfold GPT_HEADER_SIZE; lia..|]. intros d' _.
  wp_step; [by apply wp_ret|].
  wp_step. apply wp_store; [simpl; lia..|]. intros b3 _ Hl3. by apply wp_ret.
Qed.

(** What a synchronisation step leaves intact. *)
Definition sync_post (w w' : World) : Prop :=
  same_platform (fw w) (fw w') /\ same_state w w'.

#[export] Instance sync_post_po : PreOrder sync_post.
Proof.
  split; [by split|]. intros x y z [H1 H2] [H3 H4]. split; by etrans.
Qed.

Lemma sync_post_ok w w' : sync_post w w' -> sync_ok w -> sync_ok w'.
Proof.
  intros [HM [(E1 & E2 & _ & _ & E3 & _) Er]] (Hg & Ht & Hs).
  split; [by eapply geometry_media, Hg; apply HM|].
  split; [|by eapply settled_frame]. unfold table_ok in *. by rewrite E1, E2, E3.
Qed.

Lemma wp_sync_table t u Lun b BlkSz Iter Offset w :
  table_ok (pt w) -> GPT_HEADER_SIZE <= BlkSz -> (BlkSz | MAX_PARTITION_ENTRIES_SZ) ->
  wp (sync_table t u Lun b BlkSz Iter Offset)
    (fun _ => sync_post w) (fun _ => sync_post w) w.
Proof.
  intros Ht HB Hdv.
  destruct (table_layout BlkSz Iter) as [entries hdr] eqn:Hlay.
  pose proof (table_layout_ok _ _ _ _ HB Hdv Hlay) as (He0 & Hh0 & Hin & Hdis).
  assert (Hhdr : hdr <= MAX_PARTITION_ENTRIES_SZ).
  { revert Hlay. unfold table_layout. destruct Hdv as [q Hq]. unfold GPT_HEADER_SIZE in *.
    rewrite Hq, Z.div_mul, <- Hq by lia.
    destruct (Iter =? 1); intros [= <- <-]; [lia|done]. }
  pose proof (table_bytes _ HB Hdv) as Hbytes.
  unfold sync_table. cbn zeta. fold (table_layout BlkSz Iter). rewrite Hbytes, Hlay.
  wp_step. apply wp_ask. destruct (ReadBlocks (fw w) b Offset _) as [st old] eqn:ER.
  cbn [fst snd]. wp_step; [apply wp_early; reflexivity|].
  pose proof (ReadBlocks_status (fw w) b Offset (MAX_PARTITION_ENTRIES_SZ + BlkSz)) as Hst.
  rewrite ER in Hst. apply Hst in Heqb0. simpl in Heqb0. subst st.
  apply ReadBlocks_ok, length_buf_read in ER.
  wp_step. wp_step. wp_step.
  eapply wp_mono; [apply wp_sync_loop with (E := fun _ => sync_post w); [done|lia|lia]|done|].
  intros l w1 (Hl & Hf & Hs).
  assert (Hp1 : sync_post w w1) by (split; [by rewrite Hf|done]).
  wp_step; [by apply wp_ret|]. wp_step.
  eapply wp_mono; [apply wp_refresh_crcs with (E := fun _ => sync_post w); lia| |].
  { done. }
  intros o w2 ->. destruct o as [new|]; [|by apply wp_early].
  wp_step. apply wp_act. intros st x EW.
  assert (sync_post w (set_fw x w1)).
  { etrans; [exact Hp1|]. split; [by pose proof (WriteBlocks_platform (fw w1) b Offset new) as H; rewrite EW in H|].
    apply same_globals_state, set_fw_globals. }
  wp_step; [by apply wp_early|by apply wp_ret].
Qed.

Lemma wp_GetStorageHandle {R} lun n (E : R -> World -> Prop) w :
  lun = NO_LUN \/ 0 <= lun < MAX_LUNS ->
  wp (GetStorageHandle lun n) E
    (fun r w' => w' = w /\ (r.1.1 = EFI_SUCCESS -> r.2 = Z.of_nat (length r.1.2))) w.
Proof.
  intros Hl. unfold GetStorageHandle. wp_step.
  destruct (Z.eqb_spec lun NO_LUN) as [->|Hne].
  - apply wp_ret. apply wp_GetBlkIOHandles_root. by left.
  - destruct Hl as [|Hl]; [done|]. unfold MAX_LUNS in Hl.
    destruct (lookup_lt_is_Some_2 LunGuids (Z.to_nat lun)) as [g Hg]; [simpl; lia|].
    replace (lun <? 0) with false by (symmetry; lia).
    eapply wp_need; [exact Hg|]. apply wp_GetBlkIOHandles_root. by left.
Qed.

Lemma wp_sync_lun t dev lun n w :
  sync_ok w -> 0 <= lun < MAX_LUNS ->
  wp (sync_lun t dev lun n) (fun _ => sync_post w)
    (fun r w' => r.1 = false /\ sync_post w w') w.
Proof.
  intros Hok Hl. unfold sync_lun. cbn zeta.
  wp_step; [apply wp_early; reflexivity|].
  wp_step. eapply wp_mono; [apply wp_GetStorageHandle with (E := fun _ => sync_post w)|done|].
  { destruct (is_device dev (L "EMMC")); [by left|by right]. }
  intros [[st l] m] w' (-> & Hlen). cbn [fst snd] in Hlen.
  wp_step; [apply wp_early; reflexivity|]. bools. subst st. specialize (Hlen eq_refl).
  wp_step; [apply wp_ret; split; [done|reflexivity]|]. bools.
  destruct l as [|i [|]]; simpl in Hlen; [lia| |lia]. wp_step. eapply wp_need; [reflexivity|].
  wp_step. apply wp_ask. wp_step; [apply wp_early; reflexivity|]. bools.
  destruct (proj1 Hok _ Heqb1) as [HB Hdv].
  wp_step. apply wp_ask. wp_step. apply wp_ask.
  wp_step; [apply wp_early; reflexivity|]. wp_step.
  eapply wp_mono; [apply wp_sync_table; [apply Hok|done|done]|done|].
  intros ? w1 H1. wp_step.
  eapply wp_mono; [apply wp_sync_table; [apply (sync_post_ok _ _ H1 Hok)|done|done]| |].
  { intros ? w2 H2. exact (transitivity H1 H2). }
  intros ? w2 H2. wp_step. apply wp_act. intros st x Ex.
  assert (sync_post w (set_fw x w2)).
  { etrans; [exact H1|]. etrans; [exact H2|]. split.
    - pose proof (FlushBlocks_platform (fw w2) (Handle i)) as H. by rewrite Ex in H.
    - apply same_globals_state, set_fw_globals. }
  wp_step; [by apply wp_early|by apply wp_ret].
Qed.

(** Bringing the tables on the storage in line always completes. *)
Lemma wp_UpdatePartitionAttributes t w :
  sync_ok w ->
  wp (UpdatePartitionAttributes t) (fun _ => sync_post w) (fun _ => sync_post w) w.
Proof.
  intros Hok. unfold UpdatePartitionAttributes, IsUpdatePartitionAttributes.
  do 4 wp_step. wp_step; [apply wp_early; reflexivity|].
  destruct Hok as (Hg & Ht & Hs). pose proof Ht as (_ & _ & Hm & _).
  assert (Hok : sync_ok w) by done.
  wp_step. wp_exec (GetRootDeviceType_settled (R := unit) w Hs). wp_step. wp_step. wp_step.
  apply wp_for_up with (I := fun _ _ w' => sync_post w w').
  - reflexivity.
  - intros i l w' Hi Hp.
    eapply wp_mono; [apply wp_sync_lun; [by eapply sync_post_ok|lia]| |].
    + intros ? w2 H2. exact (transitivity Hp H2).
    + intros [b m] w2 [Hb H2]. simpl in *. subst b. exact (transitivity Hp H2).
  - intros ? w' H'. by apply wp_ret.
Qed.
End SyncTotal.
