(* ===== verification/Slots.v ===== *)
(** The A/B slot logic ([PartitionTableUpdate.c], [RecoveryInfo.c],
    [LinuxLoader.c]): which slot is active, making a slot active, the retry
    counter, falling back to the other slot, and the type-GUID switch of the
    partition pairs.

    A [Slot] is its suffix array, three characters; a pointer into
    [PtnEntries] is an index. *)
From Stdlib Require Import ZArith Lia.
From stdpp Require Import base list numbers option.
From S2P Require Import Prelude EfiBase Firmware World LoaderLib Board Ptable DevInfo Gpt.

Definition PART_ATT_PRIORITY_BIT : Z := 48.
Definition PART_ATT_ACTIVE_BIT : Z := 50.
Definition PART_ATT_MAX_RETRY_CNT_BIT : Z := 51.
Definition PART_ATT_SUCCESS_BIT : Z := 54.
Definition PART_ATT_UNBOOTABLE_BIT : Z := 55.
Definition PART_ATT_PRIORITY_VAL : Z := Eval cbv in Z.shiftl 0x3 48.
Definition PART_ATT_ACTIVE_VAL : Z := Eval cbv in Z.shiftl 0x1 50.
Definition PART_ATT_MAX_RETRY_COUNT_VAL : Z := Eval cbv in Z.shiftl 0x7 51.
Definition PART_ATT_SUCCESSFUL_VAL : Z := Eval cbv in Z.shiftl 0x1 54.
Definition PART_ATT_UNBOOTABLE_VAL : Z := Eval cbv in Z.shiftl 0x1 55.
Definition MAX_PRIORITY : Z := 3.

(** [Slot Slots[] = {{L"_a"}, {L"_b"}}] and [Slot = {{0}}]. *)
Definition Slot_a : list Z := L "_a" ++ [0].
Definition Slot_b : list Z := L "_b" ++ [0].
Definition Slot_empty : list Z := zeros MAX_SLOT_SUFFIX_SZ.

(** [String + n] of a [CHAR16] pointer. *)
Definition str_from (s : list Z) (n : Z) : list Z := drop (Z.to_nat n) s.

Definition IsSubStrPresentAtLast (String SearchString : list Z) : bool :=
  let SrcLen := StrLen String in
  let SearchStrLen := StrLen SearchString in
  if SrcLen <? SearchStrLen then false
  else StrnCmp (str_from String (SrcLen - SearchStrLen)) SearchString SearchStrLen =? 0.

(** [IsSuffixEmpty], of a slot that is not [NULL]. *)
Definition IsSuffixEmpty (Suffix : list Z) : bool := StrLen Suffix =? 0.

(** [!StrnCmp (s, lit, StrLen (lit))] *)
Definition starts (s lit : list Z) : bool := StrnCmp s lit (StrLen lit) =? 0.

Section Slots.
Context `{F : Firmware} `{B : BuildConfig}.

(** Change entry [i] of [PtnEntries]. *)
Definition upd_entry (i : nat) (f : PartitionEntry -> PartitionEntry) (w : World) : World :=
  upd_pt (fun p => set_PtnEntries (alter f i (PtnEntries p)) p) w.
Definition upd_attr (i : nat) (f : Z -> Z) : World -> World :=
  upd_entry i (fun e => set_Attr (f (Attr e)) e).

Definition mark_entry (ActiveSlot : list Z) (e : PartitionEntry) : PartitionEntry :=
  if IsSubStrPresentAtLast (Name e) ActiveSlot
  then set_Attr (Z.lor (Attr e) PART_ATT_ACTIVE_VAL) e
  else set_Attr (Z.land (Attr e) (Z.lnot PART_ATT_ACTIVE_VAL)) e.

Definition MarkPtnActive {R} (ActiveSlot : list Z) : MW R unit :=
  modify (upd_pt (fun p =>
    let n := Z.to_nat (PartitionCount p) in
    set_PtnEntries (map (mark_entry ActiveSlot) (take n (PtnEntries p)) ++
                    drop n (PtnEntries p)) p));;
  call (UpdatePartitionAttributes PARTITION_ATTRIBUTES).

(** [SwapPtnGuid] of two entries, either possibly [NULL]. *)
Definition SwapPtnGuid (p1 p2 : option nat) (es : list PartitionEntry) :
    list PartitionEntry :=
  match p1, p2 with
  | Some i, Some j =>
      match es !! i, es !! j with
      | Some x, Some y =>
          alter (set_TypeGuid (TypeGuid x)) j (alter (set_TypeGuid (TypeGuid y)) i es)
      | _, _ => es
      end
  | _, _ => es
  end.

(** The inner loop of [GetMultiSlotPartsList]: some later entry is the other
    half of the pair. *)
Definition pair_of (SearchString : list Z) (e : PartitionEntry) : bool :=
  if hd0 (Name e) =? 0 then false
  else
    let Len := StrLen SearchString in
    (StrLen (Name e) =? Len) && (StrnCmp (Name e) SearchString (Len - 1) =? 0) &&
    (bool_decide (is_Some (StrStr SearchString (L "_a"))) ||
     bool_decide (is_Some (StrStr SearchString (L "_b")))).

Fixpoint slot_parts (es : list PartitionEntry) : MW EFI_STATUS EFI_STATUS :=
  match es with
  | [] => mret EFI_SUCCESS
  | e :: es' =>
      let SearchString := Name e in
      if hd0 SearchString =? 0 then slot_parts es'
      else if existsb (pair_of SearchString) es' then
        a ← ask (fun x => AllocateZeroPool x 72);
        if negb a then mret EFI_OUT_OF_RESOURCES
        else
          (* the size passed is in bytes, twice the number of characters *)
          r ← StrnCpyS (zeros BOOT_PART_SIZE) (2 * BOOT_PART_SIZE) SearchString
                (StrLen SearchString - 2);
          modify (upd_pt (fun p => set_HeadNode (r.2 :: HeadNode p) p));;
          slot_parts es'
      else slot_parts es'
  end.

Definition GetMultiSlotPartsList : MW EFI_STATUS EFI_STATUS :=
  w ← get; slot_parts (live (pt w)).

(** The entry loop of [SwitchPtnSlots]: the last entries that carry the
    current and the new name. *)
Fixpoint find_pair (i : nat) (CurSlot NewSlot : list Z) (es : list PartitionEntry)
    (acc : option nat * option nat) : option nat * option nat :=
  match es with
  | [] => acc
  | e :: es' =>
      find_pair (S i) CurSlot NewSlot es'
        (if starts (Name e) CurSlot then (Some i, acc.2)
         else if starts (Name e) NewSlot then (acc.1, Some i) else acc)
  end.

(** One list node. *)
Definition switch_pair {R} (SetActive SetInactive PartName : list Z) : MW R unit :=
  c ← StrnCpyS (zeros BOOT_PART_SIZE) BOOT_PART_SIZE PartName (StrLen PartName);
  c ← StrnCatS c.2 BOOT_PART_SIZE SetInactive (StrLen SetInactive);
  n ← StrnCpyS (zeros BOOT_PART_SIZE) BOOT_PART_SIZE PartName (StrLen PartName);
  n ← StrnCatS n.2 BOOT_PART_SIZE SetActive (StrLen SetActive);
  w ← get;
  let '(PtnCurrent, PtnNew) := find_pair 0 c.2 n.2 (live (pt w)) (None, None) in
  modify (upd_pt (fun p => set_PtnEntries (SwapPtnGuid PtnCurrent PtnNew (PtnEntries p)) p)).

Fixpoint switch_pairs {R} (SetActive SetInactive : list Z) (l : list (list Z)) :
    MW R unit :=
  match l with
  | [] => mret tt
  | PartName :: l' =>
      switch_pair SetActive SetInactive PartName;;
      switch_pairs SetActive SetInactive l'
  end.

Definition SwitchPtnSlots (SetActive : list Z) : MW unit unit :=
  let SetInactive := if starts SetActive (L "_a") then Slot_b else Slot_a in
  w ← get;
  (match HeadNode (pt w) with
   | [] =>
       Status ← call GetMultiSlotPartsList;
       if negb (Status =? EFI_SUCCESS) then early tt else mret tt
   | _ => mret tt
   end);;
  w ← get;
  switch_pairs SetActive SetInactive (HeadNode (pt w));;
  BootDeviceType ← GetRootDeviceType;
  (if is_device BootDeviceType (L "UFS") then
     r ← UfsGetSetBootLun 0 true;
     let UfsBootLun :=
       if (r.2 =? 1) && starts SetActive (L "_b") then 2
       else if (r.2 =? 2) && starts SetActive (L "_a") then 1 else r.2 in
     UfsGetSetBootLun UfsBootLun false;; mret tt
   else mret tt);;
  call (UpdatePartitionAttributes PARTITION_GUID).

Definition GetPartitionEntry (p : PtGlobals) (Partition : list Z) : option nat :=
  let Index := GetPartitionIndex p Partition in
  if Index =? INVALID_PTN then None else Some (Z.to_nat Index).

Definition GetBootPartitionEntry {R} (Suffix : list Z) : MW R (option nat) :=
  w ← get;
  if StrnCmp (L "_a") Suffix (StrLen Suffix) =? 0 then
    r ← IsRecoveryInfo;
    mret (GetPartitionEntry (pt w) (if (r : bool) then L "boot" else L "boot_a"))
  else if StrnCmp (L "_b") Suffix (StrLen Suffix) =? 0 then
    mret (GetPartitionEntry (pt w) (L "boot_b"))
  else mret None.

(** The attributes of entry [i]. *)
Definition attr_of {R} (i : nat) : MW R Z :=
  w ← get; e ← need OutOfBounds (PtnEntries (pt w) !! i); mret (Attr e).

(** [GUARD (StrnCpyS (Slot->Suffix, ARRAY_SIZE (Slot->Suffix), src, StrLen (src)))] *)
Definition set_suffix (Suffix src : list Z) :
    MW (EFI_STATUS * list Z) (list Z) :=
  r ← StrnCpyS Suffix MAX_SLOT_SUFFIX_SZ src (StrLen src);
  if r.1 =? EFI_SUCCESS then mret r.2 else early r.

Definition SET_INVALID : Z := 0xFFFF.
Definition RI_GetActiveSlot (Suffix : list Z) :
    MW (EFI_STATUS * list Z) (EFI_STATUS * list Z) :=
  Status ← ask LocateRecoveryInfo;
  if negb (Status =? EFI_SUCCESS) then early (Status, Suffix) else
  r ← ask GetBootSet;
  let '(Status, BootSet) := r in
  if negb (Status =? EFI_SUCCESS) || (BootSet =? SET_INVALID)
  then early (Status, Suffix) else
  if 2 <=? BootSet then early (EFI_UNSUPPORTED, Suffix) else
  s ← set_suffix Suffix (if BootSet =? 0 then Slot_a else Slot_b);
  mret (EFI_SUCCESS, s).

Definition GetAtomicABActiveSlot (Suffix : list Z) :
    MW (EFI_STATUS * list Z) (EFI_STATUS * list Z) :=
  BootDeviceType ← GetRootDeviceType;
  if is_device BootDeviceType (L "UFS") then
    r ← UfsGetSetBootLun 0 true;
    if negb (r.1 =? EFI_SUCCESS) then early (r.1, Suffix) else
    if r.2 =? 1 then s ← set_suffix Suffix Slot_a; mret (EFI_SUCCESS, s)
    else if r.2 =? 2 then s ← set_suffix Suffix Slot_b; mret (EFI_SUCCESS, s)
    else early (EFI_DEVICE_ERROR, Suffix)
  else mret (EFI_UNSUPPORTED, Suffix).

(** The priority field of the attributes. *)
Definition BootPriority (a : Z) : Z :=
  Z.shiftr (Z.land a PART_ATT_PRIORITY_VAL) PART_ATT_PRIORITY_BIT.
Definition RetryCount (a : Z) : Z :=
  Z.shiftr (Z.land a PART_ATT_MAX_RETRY_COUNT_VAL) PART_ATT_MAX_RETRY_CNT_BIT.
Definition flag (a v : Z) : bool := negb (Z.land a v =? 0).

(** One round of the slot loop of [GetActiveSlot]; the locals are the suffix
    and [Priority]. *)
Definition active_round (s : list Z) (l : list Z * Z) :
    MW (EFI_STATUS * list Z) (list Z * Z) :=
  BootPartition ← GetBootPartitionEntry s;
  match BootPartition with
  | None => early (EFI_NOT_FOUND, l.1)
  | Some i =>
      a ← attr_of i;
      if flag a PART_ATT_ACTIVE_VAL && (l.2 <? BootPriority a)
      then s' ← set_suffix l.1 s; mret (s', BootPriority a)
      else mret l
  end.

(** The first-boot case of [GetActiveSlot]: with no attribute set at all,
    slot [_a] becomes the default. *)
Definition first_boot (Suffix : list Z) :
    MW (EFI_STATUS * list Z) (EFI_STATUS * list Z) :=
  SlotA ← GetBootPartitionEntry Slot_a;
  match SlotA with
  | None => early (EFI_NOT_FOUND, Suffix)
  | Some i =>
      a ← attr_of i;
      if negb (flag a PART_ATT_ACTIVE_VAL) && negb (flag a PART_ATT_SUCCESSFUL_VAL) &&
         negb (flag a PART_ATT_UNBOOTABLE_VAL) && (BootPriority a =? 0)
      then
        modify (upd_attr i (fun a =>
          Z.lor (Z.land a (Z.land (Z.lnot PART_ATT_SUCCESSFUL_VAL)
                             (Z.lnot PART_ATT_UNBOOTABLE_VAL)))
            (Z.lor PART_ATT_PRIORITY_VAL (Z.lor PART_ATT_ACTIVE_VAL
               PART_ATT_MAX_RETRY_COUNT_VAL))));;
        s ← set_suffix Suffix Slot_a;
        call (UpdatePartitionAttributes PARTITION_ATTRIBUTES);;
        modify (upd_pt (set_FirstBoot true));;
        early (EFI_SUCCESS, s)
      else mret (EFI_NOT_FOUND, Suffix)
  end.

(** Returns the status and the suffix; [None] is a [NULL] argument. *)
Definition GetActiveSlot (ActiveSlot : option (list Z)) :
    MW (EFI_STATUS * list Z) (EFI_STATUS * list Z) :=
  match ActiveSlot with
  | None => mret (EFI_INVALID_PARAMETER, [])
  | Some Suffix =>
      l ← active_round Slot_a (Suffix, 0);
      l ← active_round Slot_b l;
      let Suffix := l.1 in
      if ENABLE_LV_ATOMIC_AB then call (GetAtomicABActiveSlot Suffix)
      else if IsSuffixEmpty Suffix then
        r ← IsRecoveryInfo;
        if (r : bool) then call (RI_GetActiveSlot Suffix)
        else first_boot Suffix
      else mret (EFI_SUCCESS, Suffix)
  end.

Definition GetCurrentSlotSuffix {R} : MW R (list Z) :=
  IsMultiSlot ← PartitionHasMultiSlot (L "boot");
  if negb IsMultiSlot then mret Slot_empty
  else r ← call (GetActiveSlot (Some Slot_empty)); mret r.2.

Definition FindPtnActiveSlot {R} : MW R unit :=
  r ← call (GetActiveSlot (Some Slot_empty)); mret tt.

(** Bootable: not marked unbootable, and marked successful. *)
Definition IsCurrentSlotBootable : MW bool bool :=
  r ← call (GetActiveSlot (Some Slot_empty));
  if negb (r.1 =? EFI_SUCCESS) then early false else
  BootPartition ← GetBootPartitionEntry r.2;
  match BootPartition with
  | None => early false
  | Some i =>
      a ← attr_of i;
      mret (negb (flag a PART_ATT_UNBOOTABLE_VAL) && flag a PART_ATT_SUCCESSFUL_VAL)
  end.

Definition IsSlotsUbootable : MW bool bool :=
  IsMultiSlot ← PartitionHasMultiSlot (L "boot");
  if negb IsMultiSlot then early false else
  n ← for_up 2 0 0 (fun k UnbootableCount =>
    BootEntry ← GetBootPartitionEntry (if k =? 0 then Slot_a else Slot_b);
    match BootEntry with
    | None => early false
    | Some i =>
        a ← attr_of i;
        mret (false, if flag a PART_ATT_UNBOOTABLE_VAL then UnbootableCount + 1
                     else UnbootableCount)
    end);
  mret (negb (n <? 2)).

(** The slot that is not [Suffix]. *)
Definition AlternateSlot (Suffix : list Z) : list Z :=
  if StrnCmp Suffix Slot_a (StrLen Slot_a) =? 0 then Slot_b else Slot_a.

(** The part of [SetActiveSlot] for a slot that was active already: on UFS
    the boot LUN is made to match. *)
Definition match_boot_lun (CurrentSlot : list Z) : MW EFI_STATUS unit :=
  BootDeviceType ← GetRootDeviceType;
  if is_device BootDeviceType (L "UFS") then
    r ← UfsGetSetBootLun 0 true;
    if (r.2 =? 1) && starts CurrentSlot (L "_b") then UfsGetSetBootLun 2 false;; mret tt
    else if (r.2 =? 2) && starts CurrentSlot (L "_a") then UfsGetSetBootLun 1 false;; mret tt
    else mret tt
  else mret tt.

Definition SetActiveSlot (NewSlot : option (list Z)) (ResetSuccessBit : bool) :
    MW EFI_STATUS EFI_STATUS :=
  match NewSlot with
  | None => mret EFI_INVALID_PARAMETER
  | Some Suffix =>
      r ← call (GetActiveSlot (Some Slot_empty));
      if negb (r.1 =? EFI_SUCCESS) then early r.1 else
      let CurrentSlot := r.2 in
      BootEntry ← GetBootPartitionEntry Suffix;
      match BootEntry with
      | None => early EFI_NOT_FOUND
      | Some i =>
          modify (upd_attr i (fun a =>
            let a := Z.lor a (Z.lor PART_ATT_PRIORITY_VAL
                       (Z.lor PART_ATT_ACTIVE_VAL PART_ATT_MAX_RETRY_COUNT_VAL)) in
            let a := Z.land a (Z.lnot PART_ATT_UNBOOTABLE_VAL) in
            if ResetSuccessBit && flag a PART_ATT_SUCCESSFUL_VAL
            then Z.land a (Z.lnot PART_ATT_SUCCESSFUL_VAL) else a));;
          BootEntry ← GetBootPartitionEntry (AlternateSlot Suffix);
          match BootEntry with
          | None => early EFI_NOT_FOUND
          | Some j =>
              modify (upd_attr j (fun a =>
                Z.lor (Z.land a (Z.land (Z.lnot PART_ATT_PRIORITY_VAL)
                                   (Z.lnot PART_ATT_ACTIVE_VAL)))
                  (Z.shiftl (MAX_PRIORITY - 1) PART_ATT_PRIORITY_BIT)));;
              call (UpdatePartitionAttributes PARTITION_ATTRIBUTES);;
              (if StrnCmp CurrentSlot Suffix (StrLen CurrentSlot) =? 0
               then match_boot_lun CurrentSlot
               else call (SwitchPtnSlots Suffix);; MarkPtnActive Suffix);;
              mret EFI_SUCCESS
          end
      end
  end.

Definition TargetBuildVariantUser : bool := USER_BUILD_VARIANT.

(** [(Attributes & VAL) >> BIT] of the two flags. *)
Definition Unbootable (a : Z) : Z :=
  Z.shiftr (Z.land a PART_ATT_UNBOOTABLE_VAL) PART_ATT_UNBOOTABLE_BIT.
Definition BootSuccess (a : Z) : Z :=
  Z.shiftr (Z.land a PART_ATT_SUCCESSFUL_VAL) PART_ATT_SUCCESS_BIT.

(** The first step of [HandleActiveSlotUnbootable]: mark the entry, except
    right after a first boot of a build that is not for users. *)
Definition mark_unbootable {R} (i : nat) : MW R unit :=
  w ← get;
  if FirstBoot (pt w) && negb TargetBuildVariantUser
  then modify (upd_pt (set_FirstBoot false))
  else
    modify (upd_attr i (fun a =>
      Z.lor a (Z.land PART_ATT_UNBOOTABLE_VAL (Z.lnot PART_ATT_SUCCESSFUL_VAL))));;
    call (UpdatePartitionAttributes PARTITION_ATTRIBUTES).

Definition HandleActiveSlotUnbootable (ForceBootAlternateSlot : bool) :
    MW EFI_STATUS EFI_STATUS :=
  r ← call (GetActiveSlot (Some Slot_empty));
  if negb (r.1 =? EFI_SUCCESS) then early r.1 else
  let ActiveSlot := r.2 in
  BootEntry ← GetBootPartitionEntry ActiveSlot;
  match BootEntry with
  | None => early EFI_NOT_FOUND
  | Some i =>
      mark_unbootable i;;
      let Alternate := AlternateSlot ActiveSlot in
      BootEntry ← GetBootPartitionEntry Alternate;
      match BootEntry with
      | None => early EFI_NOT_FOUND
      | Some j =>
          a ← attr_of j;
          if ((Unbootable a =? 0) && (BootSuccess a =? 1)) || ForceBootAlternateSlot then
            GUARD (SetActiveSlot (Some Alternate) false);;
            stop ResetSystem
          else mret EFI_LOAD_ERROR
      end
  end.

Definition ClearUnbootable : MW EFI_STATUS EFI_STATUS :=
  r ← call (GetActiveSlot (Some Slot_empty));
  if negb (r.1 =? EFI_SUCCESS) then early r.1 else
  BootEntry ← GetBootPartitionEntry r.2;
  match BootEntry with
  | None => early EFI_NOT_FOUND
  | Some i =>
      modify (upd_attr i (fun a => Z.land a (Z.lnot PART_ATT_UNBOOTABLE_VAL)));;
      call (UpdatePartitionAttributes PARTITION_ATTRIBUTES);;
      mret EFI_SUCCESS
  end.

Definition ValidateSlotGuids (Suffix : list Z) : MW EFI_STATUS EFI_STATUS :=
  BootEntry ← GetBootPartitionEntry Suffix;
  match BootEntry with
  | None => early EFI_NOT_FOUND
  | Some i =>
      if StrLen Suffix =? 0 then stop OutOfBounds else
      let PartitionName := L "abl_" ++ [char_at Suffix (StrLen Suffix - 1)] in
      w ← get;
      match GetPartitionEntry (pt w) PartitionName with
      | None => early EFI_NOT_FOUND
      | Some j =>
          x ← need OutOfBounds (PtnEntries (pt w) !! i);
          y ← need OutOfBounds (PtnEntries (pt w) !! j);
          if negb (MemDiffers (TypeGuid x) (TypeGuid y)) then early EFI_DEVICE_ERROR else
          BootDeviceType ← GetRootDeviceType;
          if is_device BootDeviceType (L "UFS") then
            r ← UfsGetSetBootLun 0 true;
            if negb (r.1 =? EFI_SUCCESS) then early r.1 else
            if (r.2 =? 1) && (StrCmp Suffix (L "_a") =? 0) then mret EFI_SUCCESS
            else if (r.2 =? 2) && (StrCmp Suffix (L "_b") =? 0) then mret EFI_SUCCESS
            else early EFI_DEVICE_ERROR
          else if is_device BootDeviceType (L "EMMC") then mret EFI_SUCCESS
          else early EFI_DEVICE_ERROR
      end
  end.

Definition IsABRetryCountDisabled : bool := AB_RETRYCOUNT_DISABLE.
Definition IsBootDevImage (w : World) : bool := BootDevImage (ld w).

Definition CHARGER_EX_REVISION : Z := 0x10003.

(** [TargetPauseForBatteryCharge] of [UpdateCmdLine.c]: the status and
    [*BatteryStatus]. *)
Definition TargetPauseForBatteryCharge (x : Fw) : EFI_STATUS * bool :=
  let Status := LocateCharger x in
  if Status =? EFI_NOT_FOUND then (EFI_SUCCESS, false)
  else if EFI_ERROR Status then (Status, false)
  else if CHARGER_EX_REVISION <=? ChargerRevision x then
    ((IsOffModeCharging x).1, default false (IsOffModeCharging x).2)
  else
    let Status := LocatePmicPon x in
    if EFI_ERROR Status then (Status, false) else
    let '(Status, PONReason) := GetPonReason x in
    if EFI_ERROR Status then (Status, false) else
    let '(Status, WarmRtStatus) := WarmResetStatus x in
    if EFI_ERROR Status then (Status, false) else
    let IsColdBoot := negb WarmRtStatus in
    let '(Status, ChgPresent) := GetChargerPresence x in
    if EFI_ERROR Status then (Status, false) else
    (Status, IsColdBoot && (negb (HARD_RESET PONReason) && negb (KPDPWR PONReason) &&
                            (PON1 PONReason || USB_CHG PONReason) && ChgPresent)).

(** [IsABRetryCountUpdateRequired] of [LinuxLoader.c]. *)
Definition IsABRetryCountUpdateRequired (w : World) : bool :=
  negb (((TargetPauseForBatteryCharge (fw w)).2 && IsChargingScreenEnable w) ||
        BootIntoFastboot (ld w) || BootIntoRecovery (ld w)).

(** The checks of [FindBootableSlot] that leave through [out]. *)
Definition boot_checks (Suffix : list Z) (i : nat) : MW EFI_STATUS EFI_STATUS :=
  a ← attr_of i;
  (if (Unbootable a =? 0) && (BootSuccess a =? 1) then mret tt
   else if (Unbootable a =? 0) && (BootSuccess a =? 0) && (0 <? RetryCount a) then
     w ← get;
     if (negb IsABRetryCountDisabled && negb (IsBootDevImage w)) &&
        IsABRetryCountUpdateRequired w
     then
       modify (upd_attr i (fun a' =>
         Z.lor (Z.land a' (Z.lnot PART_ATT_MAX_RETRY_COUNT_VAL))
           (Z.shiftl (RetryCount a - 1) PART_ATT_MAX_RETRY_CNT_BIT)));;
       call (UpdatePartitionAttributes PARTITION_ATTRIBUTES)
     else mret tt
   else GUARD (HandleActiveSlotUnbootable false));;
  t ← CheckRootDeviceType;
  (if bool_decide (NAND <> t) then GUARD (ValidateSlotGuids Suffix) else mret tt);;
  MarkPtnActive Suffix;;
  mret EFI_SUCCESS.

Definition FindBootableSlot (BootableSlot : option (list Z)) :
    MW (EFI_STATUS * list Z) (EFI_STATUS * list Z) :=
  match BootableSlot with
  | None => mret (EFI_INVALID_PARAMETER, [])
  | Some Suffix =>
      r ← call (GetActiveSlot (Some Suffix));
      if negb (r.1 =? EFI_SUCCESS) then early r else
      let Suffix := r.2 in
      BootEntry ← GetBootPartitionEntry Suffix;
      match BootEntry with
      | None => early (EFI_NOT_FOUND, Suffix)
      | Some i =>
          r ← IsRecoveryInfo;
          if (r : bool) then mret (EFI_SUCCESS, Suffix)
          else
            Status ← call (boot_checks Suffix i);
            mret (Status, if negb (Status =? EFI_SUCCESS) then <[0%nat := 0]> Suffix
                          else Suffix)
      end
  end.
End Slots.
