(* ===== verification/SlotSpec.v ===== *)
(** What the A/B logic of [Slots.v] promises: the attribute word as the fields
    it packs, the world a device with two boot slots lives in, the effect of
    every operation on the two attribute words, and the abstract slot machine
    the operations implement. *)
From Stdlib Require Import ZArith Lia.
From stdpp Require Import base list numbers option.
From S2P Require Import Prelude EfiBase Firmware World LoaderLib Board Ptable DevInfo Gpt Slots.

(** ** The attribute word *)

(** Its fields by the bits they occupy. *)
Lemma two_bits y : y mod 4 = Z.b2z (Z.testbit y 0) + 2 * Z.b2z (Z.testbit y 1).
Proof.
  rewrite !Z.testbit_spec' by lia. rewrite Z.pow_0_r, Z.div_1_r, Z.pow_1_r.
  Z.div_mod_to_equations. lia.
Qed.

Lemma three_bits y :
  y mod 8 = Z.b2z (Z.testbit y 0) + 2 * Z.b2z (Z.testbit y 1) + 4 * Z.b2z (Z.testbit y 2).
Proof.
  rewrite !Z.testbit_spec' by lia. rewrite Z.pow_0_r, Z.div_1_r, Z.pow_1_r.
  change (2 ^ 2) with 4. Z.div_mod_to_equations. lia.
Qed.

Lemma BootPriority_bits a :
  BootPriority a = Z.b2z (Z.testbit a 48) + 2 * Z.b2z (Z.testbit a 49).
Proof.
  unfold BootPriority. rewrite Z.shiftr_land.
  change (Z.shiftr PART_ATT_PRIORITY_VAL PART_ATT_PRIORITY_BIT) with (Z.ones 2).
  rewrite Z.land_ones by lia. change (2 ^ 2) with 4. rewrite two_bits.
  by rewrite !Z.shiftr_spec by lia.
Qed.

Lemma RetryCount_bits a :
  RetryCount a = Z.b2z (Z.testbit a 51) + 2 * Z.b2z (Z.testbit a 52)
                 + 4 * Z.b2z (Z.testbit a 53).
Proof.
  unfold RetryCount. rewrite Z.shiftr_land.
  change (Z.shiftr PART_ATT_MAX_RETRY_COUNT_VAL PART_ATT_MAX_RETRY_CNT_BIT) with (Z.ones 3).
  rewrite Z.land_ones by lia. change (2 ^ 3) with 8. rewrite three_bits.
  by rewrite !Z.shiftr_spec by lia.
Qed.

Lemma land_bit a k : 0 <= k -> Z.land a (2 ^ k) = if Z.testbit a k then 2 ^ k else 0.
Proof.
  intros Hk. apply Z.bits_inj'. intros n Hn. rewrite Z.land_spec, Z.pow2_bits_eqb by lia.
  destruct (Z.testbit a k) eqn:E.
  - rewrite Z.pow2_bits_eqb by lia. destruct (Z.eqb_spec k n) as [->|]; [by rewrite E|].
    apply andb_false_r.
  - rewrite Z.bits_0. destruct (Z.eqb_spec k n) as [->|]; [by rewrite E|]. apply andb_false_r.
Qed.

Lemma flag_bit a k : 0 <= k -> flag a (2 ^ k) = Z.testbit a k.
Proof.
  intros Hk. unfold flag. rewrite land_bit by done. destruct (Z.testbit a k); [|done].
  assert (0 < 2 ^ k) by (apply Z.pow_pos_nonneg; lia).
  destruct (Z.eqb_spec (2 ^ k) 0); [lia|done].
Qed.

Lemma Unbootable_bit a : Unbootable a = Z.b2z (Z.testbit a 55).
Proof.
  unfold Unbootable. change PART_ATT_UNBOOTABLE_VAL with (2 ^ 55).
  rewrite land_bit by lia. by destruct (Z.testbit a 55).
Qed.

Lemma BootSuccess_bit a : BootSuccess a = Z.b2z (Z.testbit a 54).
Proof.
  unfold BootSuccess. change PART_ATT_SUCCESSFUL_VAL with (2 ^ 54).
  rewrite land_bit by lia. by destruct (Z.testbit a 54).
Qed.

Lemma active_bit a : flag a PART_ATT_ACTIVE_VAL = Z.testbit a 50.
Proof. apply (flag_bit a 50). lia. Qed.
Lemma success_bit a : flag a PART_ATT_SUCCESSFUL_VAL = Z.testbit a 54.
Proof. apply (flag_bit a 54). lia. Qed.
Lemma unbootable_bit a : flag a PART_ATT_UNBOOTABLE_VAL = Z.testbit a 55.
Proof. apply (flag_bit a 55). lia. Qed.

Lemma RetryCount_range a : 0 <= RetryCount a <= 7.
Proof. rewrite RetryCount_bits. repeat destruct (Z.testbit _ _); simpl; lia. Qed.
Lemma BootPriority_range a : 0 <= BootPriority a <= 3.
Proof. rewrite BootPriority_bits. repeat destruct (Z.testbit _ _); simpl; lia. Qed.

(** The five fields as one record: the view the slot logic has of a slot. *)
Record slot_state := mkSlot {
  sl_priority : Z;
  sl_active : bool;
  sl_retry : Z;
  sl_success : bool;
  sl_unbootable : bool;
}.

Definition decode (a : Z) : slot_state :=
  mkSlot (BootPriority a) (Z.testbit a 50) (RetryCount a) (Z.testbit a 54) (Z.testbit a 55).

(** Evaluate the fields of an updated word. *)
Ltac attr_bits :=
  unfold decode;
  rewrite ?BootPriority_bits, ?RetryCount_bits;
  rewrite ?Z.lor_spec, ?Z.land_spec, ?Z.lnot_spec, ?Z.lor_spec, ?Z.land_spec, ?Z.lnot_spec by lia;
  repeat match goal with
  | |- context [Z.testbit ?c ?n] =>
      is_ground c; is_ground n;
      let v := eval vm_compute in (Z.testbit c n) in change (Z.testbit c n) with v
  end;
  rewrite ?orb_true_r, ?orb_false_r, ?andb_true_r, ?andb_false_r.

(** The updates of the source, on the fields. *)
Lemma decode_activate a (rb : bool) :
  decode (let a := Z.lor a (Z.lor PART_ATT_PRIORITY_VAL
                     (Z.lor PART_ATT_ACTIVE_VAL PART_ATT_MAX_RETRY_COUNT_VAL)) in
          let a := Z.land a (Z.lnot PART_ATT_UNBOOTABLE_VAL) in
          if rb && flag a PART_ATT_SUCCESSFUL_VAL
          then Z.land a (Z.lnot PART_ATT_SUCCESSFUL_VAL) else a) =
  mkSlot 3 true 7 (negb rb && sl_success (decode a)) false.
Proof.
  cbn zeta. rewrite success_bit.
  destruct rb; cbn [andb]; [|by attr_bits].
  destruct (Z.testbit (Z.land _ _) 54) eqn:E; [by attr_bits|].
  revert E. attr_bits. intros E. by attr_bits; rewrite ?E.
Qed.

Lemma decode_deactivate a :
  decode (Z.lor (Z.land a (Z.land (Z.lnot PART_ATT_PRIORITY_VAL) (Z.lnot PART_ATT_ACTIVE_VAL)))
            (Z.shiftl (MAX_PRIORITY - 1) PART_ATT_PRIORITY_BIT)) =
  mkSlot 2 false (sl_retry (decode a)) (sl_success (decode a)) (sl_unbootable (decode a)).
Proof. by attr_bits. Qed.

Lemma decode_mark a :
  decode (Z.lor a PART_ATT_ACTIVE_VAL) =
  mkSlot (sl_priority (decode a)) true (sl_retry (decode a)) (sl_success (decode a))
    (sl_unbootable (decode a)).
Proof. by attr_bits. Qed.

Lemma decode_unmark a :
  decode (Z.land a (Z.lnot PART_ATT_ACTIVE_VAL)) =
  mkSlot (sl_priority (decode a)) false (sl_retry (decode a)) (sl_success (decode a))
    (sl_unbootable (decode a)).
Proof. by attr_bits. Qed.

Lemma decode_unbootable a :
  decode (Z.lor a (Z.land PART_ATT_UNBOOTABLE_VAL (Z.lnot PART_ATT_SUCCESSFUL_VAL))) =
  mkSlot (sl_priority (decode a)) (sl_active (decode a)) (sl_retry (decode a))
    (sl_success (decode a)) true.
Proof. by attr_bits. Qed.

Lemma decode_default a :
  decode (Z.lor (Z.land a (Z.land (Z.lnot PART_ATT_SUCCESSFUL_VAL)
                             (Z.lnot PART_ATT_UNBOOTABLE_VAL)))
            (Z.lor PART_ATT_PRIORITY_VAL (Z.lor PART_ATT_ACTIVE_VAL
               PART_ATT_MAX_RETRY_COUNT_VAL))) =
  mkSlot 3 true 7 false false.
Proof. by attr_bits. Qed.

Lemma decode_retry a r :
  0 <= r <= 7 ->
  decode (Z.lor (Z.land a (Z.lnot PART_ATT_MAX_RETRY_COUNT_VAL))
            (Z.shiftl r PART_ATT_MAX_RETRY_CNT_BIT)) =
  mkSlot (sl_priority (decode a)) (sl_active (decode a)) r (sl_success (decode a))
    (sl_unbootable (decode a)).
Proof.
  intros Hr. assert (H : r = 0 \/ r = 1 \/ r = 2 \/ r = 3 \/ r = 4 \/ r = 5 \/ r = 6 \/ r = 7)
    by lia. repeat destruct H as [->|H]; [..|subst r]; by attr_bits.
Qed.

Lemma decode_clear_unbootable a :
  decode (Z.land a (Z.lnot PART_ATT_UNBOOTABLE_VAL)) =
  mkSlot (sl_priority (decode a)) (sl_active (decode a)) (sl_retry (decode a))
    (sl_success (decode a)) false.
Proof. by attr_bits. Qed.

(** ** Names and suffixes *)

Lemma cstr_drop l n : (n <= length (cstr l))%nat -> cstr (drop n l) = drop n (cstr l).
Proof.
  revert n. induction l as [|c l IH]; intros n Hn; [by destruct n|].
  cbn [cstr] in *. destruct (Z.eqb_spec c 0) as [->|].
  - simpl in Hn. assert (n = 0)%nat as -> by lia. done.
  - destruct n as [|n]; simpl in *.
    + by destruct (Z.eqb_spec c 0).
    + apply IH. lia.
Qed.

Lemma IsSubStrPresentAtLast_spec a b :
  IsSubStrPresentAtLast a b = true <-> cstr b `suffix_of` cstr a.
Proof.
  unfold IsSubStrPresentAtLast, str_from, StrLen. cbn zeta.
  destruct (Z.ltb_spec (Z.of_nat (length (cstr a))) (Z.of_nat (length (cstr b)))) as [H|H].
  - split; [done|]. intros Hs%suffix_length. lia.
  - rewrite Z.eqb_eq, StrnCmp_eq0 by lia. rewrite Nat2Z.id, cstr_drop by lia.
    replace (Z.to_nat (_ - _)) with (length (cstr a) - length (cstr b))%nat by lia.
    rewrite (take_ge (drop _ _)) by (rewrite length_drop; lia).
    rewrite (take_ge (cstr b)) by lia. split.
    + intros <-. exists (take (length (cstr a) - length (cstr b)) (cstr a)). by rewrite take_drop.
    + intros [k ->]. rewrite length_app, Nat.add_sub. apply drop_app_length.
Qed.

(** ** The two slots of a device *)

Inductive slot := SA | SB.
#[global] Instance slot_eq : EqDecision slot.
Proof. solve_decision. Defined.

Definition other (s : slot) : slot := match s with SA => SB | SB => SA end.
Definition suffix (s : slot) : list Z := match s with SA => Slot_a | SB => Slot_b end.
Definition boot_name (s : slot) : list Z :=
  match s with SA => L "boot_a" | SB => L "boot_b" end.

Section World.
Context `{F : Firmware} `{!BlockIoLaws F} `{!PlatformLaws F}.

Definition boot_idx (w : World) (s : slot) : nat :=
  Z.to_nat (GetPartitionIndex (pt w) (boot_name s)).
Definition boot_attr (w : World) (s : slot) : Z :=
  match PtnEntries (pt w) !! boot_idx w s with Some e => Attr e | None => 0 end.
(** The abstract state: the fields of the two boot partitions. *)
Definition slots_of (w : World) (s : slot) : slot_state := decode (boot_attr w s).

(** On a UFS device the query for the boot LUN finds a handle. *)
Definition ufs_ready (w : World) : Prop :=
  card_of w = UFS -> forall R : Type,
  match (GetBlkIOHandles (R := R) BLK_IO_SEL_MATCH_ROOT_DEVICE
          (Some (mkFilter (Some gEfiUfsLU0Guid) None None None)) MAX_HANDLE_INFO_LIST w).1 with
  | Go (st, l, _) => EFI_ERROR st = false -> l <> []
  | _ => False
  end.

(** A device with an A/B pair of boot partitions and no recovery-info
    service; every name in the table is at most 33 characters long. *)
Record ab_ok (w : World) : Prop := {
  ab_sync : sync_ok w;
  ab_ri : ri w = 0;
  ab_names : Forall (fun e => length (Name e) = 36%nat /\ StrLen (Name e) <= 33)
               (PtnEntries (pt w));
  ab_boot : forall s, GetPartitionIndex (pt w) (boot_name s) <> INVALID_PTN;
  ab_ufs : ufs_ready w;
}.

Definition guid16 (e : PartitionEntry) : Prop := length (TypeGuid e) = 16%nat.

(** What no slot operation changes: names, counts, the platform and the
    state of the other components. *)
Record ab_frame (w w' : World) : Prop := {
  af_names : map Name (PtnEntries (pt w')) = map Name (PtnEntries (pt w));
  af_guids : Forall guid16 (PtnEntries (pt w)) -> Forall guid16 (PtnEntries (pt w'));
  af_count : PartitionCount (pt w') = PartitionCount (pt w);
  af_luns : MaxLuns (pt w') = MaxLuns (pt w);
  af_platform : same_platform (fw w) (fw w');
  af_rest : ld w' = ld w /\ dv w' = dv w /\ lb w' = lb w /\ ri w' = ri w /\ fb w' = fb w /\
    rt w' = rt w;
}.

#[export] Instance ab_frame_po : PreOrder ab_frame.
Proof.
  split; [by split|]. intros x y z [? ? ? ? ? ?] [? ? ? ? ? ?].
  split; [congruence|auto|congruence|congruence|by etrans|intuition congruence].
Qed.

Lemma find_name_names i P l l' :
  map Name l' = map Name l -> find_name i P l' = find_name i P l.
Proof.
  revert i l'. induction l as [|e l IH]; intros i [|e' l']; try done.
  intros [= He Hl]. cbn [find_name]. rewrite He. by destruct (_ =? 0); [|apply IH].
Qed.

Lemma index_frame w w' P :
  ab_frame w w' -> GetPartitionIndex (pt w') P = GetPartitionIndex (pt w) P.
Proof.
  intros [Hn _ Hc _ _ _]. unfold GetPartitionIndex, live. apply find_name_names.
  rewrite <- !firstn_map, Hn, Hc. done.
Qed.

Lemma boot_idx_frame w w' s : ab_frame w w' -> boot_idx w' s = boot_idx w s.
Proof. intros H. unfold boot_idx. by rewrite (index_frame _ _ _ H). Qed.

Lemma ab_settled w : ab_ok w -> settled w.
Proof. intros [(_ & _ & H) _ _ _ _]. exact H. Qed.

Lemma ab_frame_ok w w' : ab_frame w w' -> ab_ok w -> ab_ok w'.
Proof.
  intros Hf [(Hg & (Hc & Hl & Hm & H16) & Hst) Hri Hn Hb Hu].
  pose proof Hf as [En Eg Ec El Ep (_ & _ & _ & Er & _ & Ert)]. split.
  - split; [eapply geometry_media, Hg; apply Ep|].
    split; [|by eapply settled_frame]. unfold table_ok. rewrite Ec, El. split_and!; try lia; [|by apply Eg].
    rewrite <- Hl, <- (length_map Name (PtnEntries (pt w'))), En. apply length_map.
  - congruence.
  - apply (List.Forall_map Name (fun n => length n = 36%nat /\ StrLen n <= 33)).
    rewrite En. by apply List.Forall_map.
  - intros s. by rewrite (index_frame _ _ _ Hf).
  - intros Ht R. rewrite (card_frame _ _ Ert) in Ht.
    rewrite (GetBlkIOHandles_platform (R := R) _ _ _ w w'); [by apply Hu|by right|done].
Qed.

Lemma length_cstr l : (length (cstr l) <= length l)%nat.
Proof. induction l as [|c l IH]; [done|]. simpl. destruct (c =? 0); simpl; lia. Qed.

Lemma boot_entry w s :
  ab_ok w -> exists e, PtnEntries (pt w) !! boot_idx w s = Some e /\
    (boot_idx w s < Z.to_nat (PartitionCount (pt w)))%nat /\ cstr (Name e) = boot_name s.
Proof.
  intros Hok. destruct (GetPartitionIndex_Some (pt w) (boot_name s) (ab_boot _ Hok s))
    as (n & e & Hn & Hl & Hp & Hm & _).
  exists e. unfold boot_idx. rewrite Hn, Nat2Z.id. split; [done|].
  apply lookup_take_Some in Hl as [_ Hlt]. split; [done|].
  destruct (Forall_lookup_1 _ _ _ _ (ab_names _ Hok) Hp) as [H36 _].
  unfold names in Hm. rewrite H36 in Hm.
  pose proof (length_cstr (Name e)). rewrite H36 in *.
  rewrite take_ge in Hm by lia. rewrite Hm. by destruct s.
Qed.

Lemma boot_idx_inj w s s' : ab_ok w -> boot_idx w s = boot_idx w s' -> s = s'.
Proof.
  intros Hok E. destruct (boot_entry w s Hok) as (e & He & _ & H1).
  destruct (boot_entry w s' Hok) as (e' & He' & _ & H2).
  rewrite E in He. assert (e' = e) as -> by congruence. rewrite H1 in H2.
  by destruct s, s'.
Qed.

Lemma IsRecoveryInfo_no {R} w : ri w = 0 -> IsRecoveryInfo (R := R) w = (Go false, w).
Proof. intros H. unfold IsRecoveryInfo. munfold. by rewrite H. Qed.

Lemma GetBootPartitionEntry_ok {R} w s :
  ab_ok w -> GetBootPartitionEntry (R := R) (suffix s) w = (Go (Some (boot_idx w s)), w).
Proof.
  intros Hok. unfold GetBootPartitionEntry. rewrite (bind_go get _ _ w w) by done.
  assert (Hi : GetPartitionEntry (pt w) (boot_name s) = Some (boot_idx w s)).
  { unfold GetPartitionEntry. pose proof (ab_boot _ Hok s).
    by destruct (Z.eqb_spec (GetPartitionIndex (pt w) (boot_name s)) INVALID_PTN). }
  destruct s; cbn [suffix boot_name] in *.
  - change (StrnCmp (L "_a") Slot_a (StrLen Slot_a) =? 0) with true. cbn iota.
    rewrite (bind_go _ _ _ _ _ (IsRecoveryInfo_no _ (ab_ri _ Hok))). by rewrite Hi.
  - change (StrnCmp (L "_a") Slot_b (StrLen Slot_b) =? 0) with false.
    change (StrnCmp (L "_b") Slot_b (StrLen Slot_b) =? 0) with true. cbn iota. by rewrite Hi.
Qed.

Lemma attr_of_boot {R} w s :
  ab_ok w -> attr_of (R := R) (boot_idx w s) w = (Go (boot_attr w s), w).
Proof.
  intros Hok. destruct (boot_entry w s Hok) as (e & He & _).
  unfold attr_of, boot_attr. munfold. by rewrite He.
Qed.

(** The effect of an operation: the frame, and both attribute words. *)
Definition effect (f : slot -> Z -> Z) (w w' : World) : Prop :=
  ab_frame w w' /\ forall s, boot_attr w' s = f s (boot_attr w s).

Lemma effect_trans f g w1 w2 w3 :
  effect f w1 w2 -> effect g w2 w3 -> effect (fun s a => g s (f s a)) w1 w3.
Proof.
  intros [H1 E1] [H2 E2]. split; [by etrans|]. intros s. by rewrite E2, E1.
Qed.

Lemma effect_ok f w w' : effect f w w' -> ab_ok w -> ab_ok w'.
Proof. intros [H _]. by apply ab_frame_ok. Qed.

Lemma sync_post_effect w w' : sync_post w w' -> effect (fun _ a => a) w w'.
Proof.
  intros [Hp [(E1 & E2 & E3 & E4 & E5 & ? & ? & ? & ? & ?) ?]].
  assert (ab_frame w w') by (split; rewrite ?E1; tauto || congruence).
  split; [done|]. intros s. unfold boot_attr. by rewrite (boot_idx_frame w w'), E1.
Qed.

Lemma upd_attr_effect w s f :
  ab_ok w ->
  effect (fun s' a => if decide (s' = s) then f a else a) w (upd_attr (boot_idx w s) f w).
Proof.
  intros Hok. destruct (boot_entry w s Hok) as (e & He & _).
  assert (Hf : ab_frame w (upd_attr (boot_idx w s) f w)).
  { split; try done; simpl.
    - apply list_eq. intros i. rewrite !list_lookup_fmap.
      destruct (decide (i = boot_idx w s)) as [->|].
      + by rewrite list_lookup_alter_eq, He.
      + by rewrite list_lookup_alter_ne by done.
    - intros H. apply Forall_alter; [done|]. by intros x _ ?. }
  split; [done|]. intros s'. unfold boot_attr. rewrite (boot_idx_frame _ _ _ Hf).
  simpl. case_decide as E.
  - subst s'. by rewrite list_lookup_alter_eq, He.
  - rewrite list_lookup_alter_ne; [done|]. intros Hi.
    by apply E, (boot_idx_inj w).
Qed.

(** ** The steps the operations share *)

Lemma wp_update {R} t (E : R -> World -> Prop) w :
  ab_ok w ->
  wp (call (UpdatePartitionAttributes t)) E
    (fun _ w' => effect (fun _ a => a) w w' /\ same_slots w w') w.
Proof.
  intros Hok. apply wp_call. eapply wp_mono; [apply wp_UpdatePartitionAttributes, Hok| |];
    intros ? w' H; (split; [by apply sync_post_effect|apply H]).
Qed.

Definition mark (s : slot) (s' : slot) (a : Z) : Z :=
  if decide (s' = s) then Z.lor a PART_ATT_ACTIVE_VAL
  else Z.land a (Z.lnot PART_ATT_ACTIVE_VAL).

Lemma wp_MarkPtnActive {R} s (E : R -> World -> Prop) w :
  ab_ok w ->
  wp (MarkPtnActive (suffix s)) E
    (fun _ w' => effect (mark s) w w' /\ FirstBoot (pt w') = FirstBoot (pt w)) w.
Proof.
  intros Hok. unfold MarkPtnActive. do 2 wp_step.
  set (n := Z.to_nat (PartitionCount (pt w))).
  match goal with |- wp _ _ _ ?x => set (w1 := x) end.
  assert (Hm : forall e, Name (mark_entry (suffix s) e) = Name e)
    by (intros e; unfold mark_entry; by destruct (IsSubStrPresentAtLast _ _)).
  assert (Hg : forall e, guid16 e -> guid16 (mark_entry (suffix s) e))
    by (intros e; unfold mark_entry, guid16; by destruct (IsSubStrPresentAtLast _ _)).
  assert (Hf : ab_frame w w1).
  { split; try done; subst w1; simpl.
    - rewrite map_app, map_map. rewrite (map_ext _ _ Hm), <- map_app. by rewrite take_drop.
    - intros H. apply Forall_app. split; [|by apply Forall_drop].
      apply List.Forall_map. apply Forall_take with (n := n) in H.
      exact (List.Forall_impl _ Hg H). }
  assert (H1 : effect (mark s) w w1).
  { split; [done|]. intros s'. destruct (boot_entry w s' Hok) as (e & He & Hlt & Hc).
    unfold boot_attr. rewrite (boot_idx_frame _ _ _ Hf), He. subst w1. simpl. fold n in Hlt |- *.
    rewrite lookup_app_l by (rewrite length_map, length_take;
      apply lookup_lt_Some in He; lia).
    rewrite list_lookup_fmap, lookup_take_lt, He by lia. simpl. unfold mark_entry, mark.
    destruct (IsSubStrPresentAtLast (Name e) (suffix s)) eqn:Es.
    - apply IsSubStrPresentAtLast_spec in Es. rewrite Hc in Es.
      case_decide; [done|]. exfalso. destruct Es as [k Hk].
      apply (f_equal list.last) in Hk. rewrite last_app in Hk. by destruct s, s'.
    - case_decide; [|done]. subst s'. exfalso.
      apply not_true_iff_false in Es. apply Es, IsSubStrPresentAtLast_spec.
      rewrite Hc. exists (L "boot"). by destruct s. }
  eapply wp_mono; [apply wp_update with (E := E); by eapply effect_ok|done|].
  intros ? w2 [H2 Hs]. split; [exact (effect_trans _ _ _ _ _ H1 H2)|].
  by destruct Hs as (_ & _ & -> & _).
Qed.

(** A change of [PtnEntries] that keeps names, attributes and GUID sizes. *)
Lemma entries_effect w es :
  map Name es = map Name (PtnEntries (pt w)) -> map Attr es = map Attr (PtnEntries (pt w)) ->
  (Forall guid16 (PtnEntries (pt w)) -> Forall guid16 es) ->
  effect (fun _ a => a) w (upd_pt (set_PtnEntries es) w).
Proof.
  intros Hn Ha Hg. assert (Hf : ab_frame w (upd_pt (set_PtnEntries es) w)) by (by split).
  split; [done|]. intros s. unfold boot_attr. rewrite (boot_idx_frame _ _ _ Hf). simpl.
  apply (f_equal (.!! boot_idx w s)) in Ha. rewrite !list_lookup_fmap in Ha.
  destruct (es !! _), (PtnEntries (pt w) !! _); simpl in Ha; congruence.
Qed.

Lemma SwapPtnGuid_map {A} (f : PartitionEntry -> A) i j es :
  (forall g e, f (set_TypeGuid g e) = f e) -> map f (SwapPtnGuid i j es) = map f es.
Proof.
  intros Hf. assert (Ha : forall k g l, map f (alter (set_TypeGuid g) k l) = map f l).
  { intros k g l. revert k. induction l as [|e l IH]; intros [|k]; try done; simpl.
    - by rewrite Hf.
    - f_equal. apply IH. }
  unfold SwapPtnGuid. destruct i as [i|], j as [j|]; try done.
  destruct (es !! i), (es !! j); try done. by rewrite !Ha.
Qed.

Lemma SwapPtnGuid_guids i j es : Forall guid16 es -> Forall guid16 (SwapPtnGuid i j es).
Proof.
  intros H. unfold SwapPtnGuid. destruct i as [i|], j as [j|]; try done.
  destruct (es !! i) eqn:Ei, (es !! j) eqn:Ej; try done.
  pose proof (Forall_lookup_1 _ _ _ _ H Ei). pose proof (Forall_lookup_1 _ _ _ _ H Ej).
  apply Forall_alter; [|by intros]. apply Forall_alter; [done|by intros].
Qed.

Definition stay (w w' : World) : Prop :=
  effect (fun _ a => a) w w' /\ FirstBoot (pt w') = FirstBoot (pt w).

#[export] Instance stay_po : PreOrder stay.
Proof.
  split; [by repeat split|]. intros x y z [H1 E1] [H2 E2].
  split; [exact (effect_trans _ _ _ _ _ H1 H2)|congruence].
Qed.

Lemma same_globals_stay w w' :
  same_globals w w' -> same_platform (fw w) (fw w') -> stay w w'.
Proof.
  intros (Ep & El & Ed & Eb & Er & Efb & Ert) Hp. split; [|by rewrite Ep].
  assert (Hf : ab_frame w w') by (split; rewrite ?Ep; tauto).
  split; [done|]. intros s. unfold boot_attr. by rewrite (boot_idx_frame _ _ _ Hf), Ep.
Qed.

Lemma wp_switch_pair {R} a b n (E : R -> World -> Prop) w :
  wp (switch_pair a b n) E (fun _ w' => stay w w') w.
Proof.
  unfold switch_pair. assert (Hl : forall l, 0 <= StrLen l) by (intros; unfold StrLen; lia).
  wp_step. apply wp_StrnCpyS; [done|done|by left|]. intros r1 H1.
  wp_step. apply wp_StrnCatS; [by rewrite H1|done|]. intros r2 H2.
  wp_step. apply wp_StrnCpyS; [done|done|by left|]. intros r3 H3.
  wp_step. apply wp_StrnCatS; [by rewrite H3|done|]. intros r4 H4.
  do 3 wp_step. wp_step. split; [|done].
  apply (entries_effect w (SwapPtnGuid _ _ _)); [by apply SwapPtnGuid_map..|].
  apply SwapPtnGuid_guids.
Qed.

Lemma wp_switch_pairs {R} a b l (E : R -> World -> Prop) w :
  wp (switch_pairs a b l) E (fun _ w' => stay w w') w.
Proof.
  revert w. induction l as [|n l IH]; intros w; cbn [switch_pairs].
  - apply wp_ret. reflexivity.
  - wp_step. eapply wp_mono; [apply wp_switch_pair with (E := E)|done|].
    intros ? w1 H1. eapply wp_mono; [apply IH|done|].
    intros ? w2 H2. exact (transitivity H1 H2).
Qed.

Lemma wp_slot_parts es w :
  Forall (fun e => StrLen (Name e) <= 33) es ->
  wp (slot_parts es) (fun _ w' => stay w w') (fun _ w' => stay w w') w.
Proof.
  intros H. revert w. induction H as [|e es He Hes IH]; intros w; cbn [slot_parts].
  { apply wp_ret. reflexivity. }
  cbn zeta. wp_step; [apply IH|]. wp_step; [|apply IH].
  wp_step. apply wp_ask. wp_step; [apply wp_ret; reflexivity|].
  assert (Hlen : 2 <= StrLen (Name e)).
  { apply existsb_exists in Heqb0 as (e' & _ & Hp). unfold pair_of in Hp.
    destruct (hd0 (Name e') =? 0); [done|]. apply andb_prop in Hp as [_ Hp].
    assert (Hs : forall t, length t = 2%nat -> Forall (fun c => c <> 0) t ->
      is_Some (StrStr (Name e) t) -> 2 <= StrLen (Name e)).
    { clear. intros [|c1 [|c2 [|]]]; try discriminate. intros _ Hn.
      inversion_clear Hn as [|? ? Hc1 Hn']. inversion_clear Hn' as [|? ? Hc2 _].
      unfold StrStr, StrLen. simpl. destruct (Z.eqb_spec c1 0); [done|].
      induction (Name e) as [|c l IH]; simpl; [intros [? [=]]|].
      destruct (Z.eqb_spec c 0) as [|Hc]; [intros [? [=]]|]. 
      destruct (Z.eqb_spec c c1) as [->|Hne]; cbn [andb negb].
      - destruct l as [|d l']; simpl in *.
        { destruct (Z.eqb_spec c2 0); [done|]. intros [? [=]]. }
        destruct (Z.eqb_spec d 0); [|simpl; lia]. subst d.
        destruct (Z.eqb_spec 0 c2); [congruence|]. cbn [andb]. simpl.
        destruct (Z.eqb_spec c2 0); [done|]. intros [? [=]].
      - simpl. destruct (Z.eqb_spec c1 0); [done|]. destruct (Z.eqb_spec c 0); [done|].
        intros Hl%IH. simpl. lia. }
    apply orb_prop in Hp as [Hp|Hp]; apply bool_decide_eq_true in Hp;
      (eapply Hs; [| |exact Hp]; [done|by repeat constructor]). }
  wp_step. apply wp_StrnCpyS; [done|lia|right; change (length (zeros BOOT_PART_SIZE)) with 32%nat; lia|].
  intros r _. do 2 wp_step. eapply wp_mono; [apply IH| |];
    intros ? w' H'; (etrans; [|exact H']); by repeat split.
Qed.

Lemma ufs_device w : is_device (DeviceTypeName (card_of w)) (L "UFS") = true ->
  card_of w = UFS.
Proof. by destruct (card_of w). Qed.

Lemma wp_UfsGetSetBootLun {R} v g (E : R -> World -> Prop) w :
  ufs_ready w -> card_of w = UFS ->
  wp (UfsGetSetBootLun v g) E (fun _ w' => stay w w') w.
Proof.
  intros Hu Ht. specialize (Hu Ht R). unfold UfsGetSetBootLun. wp_step.
  pose proof (wp_GetBlkIOHandles_root (R := R) BLK_IO_SEL_MATCH_ROOT_DEVICE
    (mkFilter (Some gEfiUfsLU0Guid) None None None) MAX_HANDLE_INFO_LIST E w
    (or_intror eq_refl)) as Hq. unfold wp in Hq |- *.
  destruct (GetBlkIOHandles _ _ _ w) as [[[[st l] n]|r|h] w1]; [|done|done].
  destruct Hq as [-> _]. simpl in Hu.
  match goal with |- match ?m with _ => _ end => change (wp (fun _ => m) E (fun _ w' => stay w w') w) end.
  match goal with |- wp (fun _ => ?m w) _ _ _ => change (wp m E (fun _ w' => stay w w') w) end.
  wp_step; [apply wp_ret; reflexivity|]. specialize (Hu eq_refl).
  destruct l as [|i l]; [done|]. wp_step. eapply wp_need; [reflexivity|].
  wp_step. apply wp_ask. wp_step; [apply wp_ret; reflexivity|].
  wp_step; [apply wp_ret; reflexivity|]. wp_step.
  - wp_step. apply wp_ask. apply wp_ret. reflexivity.
  - wp_step. apply wp_act. intros st' x Ex. apply wp_ret.
    apply same_globals_stay; [apply set_fw_globals|].
    pose proof (SetBootLU_platform (fw w) v) as H. by rewrite Ex in H.
Qed.

Lemma stay_ok w w' : stay w w' -> ab_ok w -> ab_ok w'.
Proof. intros [H _]. by eapply effect_ok. Qed.

Lemma stay_type w w' :
  stay w w' -> card_of w' = card_of w.
Proof. intros [[H _] _]. apply card_frame, (af_rest _ _ H). Qed.

(** Switching the type GUIDs of the pairs leaves both attribute words. *)
Lemma wp_SwitchPtnSlots a w :
  ab_ok w ->
  wp (SwitchPtnSlots a) (fun _ w' => stay w w') (fun _ w' => stay w w') w.
Proof.
  intros Hok. unfold SwitchPtnSlots. cbn zeta. do 2 wp_step.
  assert (H1 : wp (match HeadNode (pt w) with
     | [] => Status ← call GetMultiSlotPartsList;
             if negb (Status =? EFI_SUCCESS) then early tt else mret tt
     | _ => mret tt end) (fun (_ : unit) w' => stay w w') (fun _ w' => stay w w') w).
  { destruct (HeadNode (pt w)); [|apply wp_ret; reflexivity].
    wp_step. apply wp_call. unfold GetMultiSlotPartsList. do 2 wp_step.
    eapply wp_mono; [apply wp_slot_parts| |].
    - unfold live. apply Forall_take. eapply List.Forall_impl, (ab_names _ Hok). by intros e [].
    - intros st w' H'. wp_step; [by apply wp_early|by apply wp_ret].
    - intros st w' H'. wp_step; [by apply wp_early|by apply wp_ret]. }
  wp_step. eapply wp_mono; [exact H1|done|]. intros ? w1 S1. do 3 wp_step.
  eapply wp_mono; [apply wp_switch_pairs with (E := fun _ w' => stay w w')|done|].
  intros ? w2 S2. assert (S2' : stay w w2) by exact (transitivity S1 S2).
  wp_step. wp_exec (GetRootDeviceType_settled (R := unit) w2
    (ab_settled _ (stay_ok _ _ S2' Hok))). wp_step.
  assert (H3 : wp (if is_device (DeviceTypeName (card_of w2)) (L "UFS") then
     r ← UfsGetSetBootLun 0 true;
     UfsGetSetBootLun (if (r.2 =? 1) && starts a (L "_b") then 2
       else if (r.2 =? 2) && starts a (L "_a") then 1 else r.2) false;; mret tt
   else mret tt) (fun (_ : unit) w' => stay w w') (fun _ w' => stay w w') w2).
  { wp_step; [|by apply wp_ret]. apply ufs_device in Heqb. wp_step.
    eapply wp_mono; [apply wp_UfsGetSetBootLun with (E := fun _ w' => stay w w');
      [apply (ab_ufs _ (stay_ok _ _ S2' Hok))|done]|done|].
    intros r w3 S3. assert (S3' : stay w w3) by exact (transitivity S2' S3). wp_step.
    eapply wp_mono; [apply wp_UfsGetSetBootLun with (E := fun _ w' => stay w w');
      [apply (ab_ufs _ (stay_ok _ _ S3' Hok))|by rewrite (stay_type _ _ S3)]|done|].
    intros ? w4 S4. apply wp_ret. exact (transitivity S3' S4). }
  eapply wp_mono; [exact H3|done|]. intros ? w5 S5.
  eapply wp_mono; [apply wp_update with (E := fun _ w' => stay w w'); exact (stay_ok _ _ S5 Hok)|done|].
  intros ? w6 [H6 Hs]. etrans; [exact S5|]. split; [done|].
  by destruct Hs as (_ & _ & -> & _).
Qed.
End World.

(** ** The abstract slot machine *)

Definition weight (x : slot_state) : Z := if sl_active x then sl_priority x else 0.

(** The active slot of highest priority; a tie goes to [_a]. *)
Definition choose (st : slot -> slot_state) : option slot :=
  if weight (st SA) <? weight (st SB) then Some SB
  else if 0 <? weight (st SA) then Some SA else None.

Definition pristine (x : slot_state) : bool :=
  negb (sl_active x) && negb (sl_success x) && negb (sl_unbootable x) &&
  (sl_priority x =? 0).
Definition fresh : slot_state := mkSlot 3 true 7 false false.
Definition upd (st : slot -> slot_state) (s : slot) (x : slot_state) : slot -> slot_state :=
  fun s' => if decide (s' = s) then x else st s'.

(** [GetActiveSlot]: the slot, and the state after a first boot. *)
Definition active_spec (st : slot -> slot_state) : option slot * (slot -> slot_state) :=
  match choose st with
  | Some s => (Some s, st)
  | None => if pristine (st SA) then (Some SA, upd st SA fresh) else (None, st)
  end.

(** [SetActiveSlot]. *)
Definition set_active_spec (st : slot -> slot_state) (s : slot) (reset : bool) :
    slot -> slot_state :=
  fun s' => let x := st s' in
    if decide (s' = s) then mkSlot 3 true 7 (negb reset && sl_success x) false
    else mkSlot 2 false (sl_retry x) (sl_success x) (sl_unbootable x).

Lemma choose_set_active st s reset : choose (set_active_spec st s reset) = Some s.
Proof. by destruct s. Qed.

Lemma choose_active st s :
  (forall s', 0 <= sl_priority (st s')) -> choose st = Some s ->
  sl_active (st s) = true /\ 0 < sl_priority (st s).
Proof.
  intros Hp. pose proof (Hp SA). pose proof (Hp SB). unfold choose, weight.
  destruct (sl_active (st SA)) eqn:EA, (sl_active (st SB)) eqn:EB;
    repeat match goal with |- context [?x <? ?y] => destruct (Z.ltb_spec x y) end;
    intros [= <-]; split; done || lia.
Qed.

Section Refinement.
Context `{F : Firmware} `{!BlockIoLaws F} `{!PlatformLaws F} `{B : BuildConfig}.
Context (Hatomic : ENABLE_LV_ATOMIC_AB = false).

Lemma active_round_ok s l w s' :
  ab_ok w -> set_suffix l.1 (suffix s) w = (Go s', w) ->
  active_round (suffix s) l w =
    (Go (if sl_active (slots_of w s) && (l.2 <? sl_priority (slots_of w s))
         then (s', sl_priority (slots_of w s)) else l), w).
Proof.
  intros Hok Hs. unfold active_round.
  rewrite (bind_go _ _ _ _ _ (GetBootPartitionEntry_ok w s Hok)).
  rewrite (bind_go _ _ _ _ _ (attr_of_boot w s Hok)), active_bit.
  unfold slots_of, decode. cbn [sl_active sl_priority].
  destruct (_ && _); [|done]. by rewrite (bind_go _ _ _ _ _ Hs).
Qed.

Lemma slots_range w s : 0 <= sl_priority (slots_of w s) <= 3 /\ 0 <= sl_retry (slots_of w s) <= 7.
Proof. split; [apply BootPriority_range|apply RetryCount_range]. Qed.

(** The two rounds compute [choose]. *)
Lemma rounds_ok w :
  ab_ok w ->
  exists p, (l ← active_round Slot_a (Slot_empty, 0); active_round Slot_b l) w =
    (Go (match choose (slots_of w) with Some s => suffix s | None => Slot_empty end, p), w).
Proof.
  intros Hok.
  erewrite bind_go by exact (active_round_ok SA (Slot_empty, 0) w Slot_a Hok eq_refl).
  pose proof (slots_range w SA) as [HA _]. pose proof (slots_range w SB) as [HB _].
  unfold choose, weight. cbn [fst snd].
  destruct (sl_active (slots_of w SA)) eqn:EA; cbn [andb].
  - destruct (Z.ltb_spec 0 (sl_priority (slots_of w SA))) as [H|H].
    + rewrite (active_round_ok SB (Slot_a, _) w Slot_b Hok eq_refl). cbn [fst snd].
      destruct (sl_active (slots_of w SB)); cbn [andb].
      * destruct (_ <? _); eauto.
      * destruct (Z.ltb_spec (sl_priority (slots_of w SA)) 0); [lia|]. eauto.
    + rewrite (active_round_ok SB (Slot_empty, _) w Slot_b Hok eq_refl). cbn [fst snd].
      destruct (sl_active (slots_of w SB)); cbn [andb].
      * replace (sl_priority (slots_of w SA)) with 0 by lia.
        destruct (0 <? _); eauto.
      * destruct (Z.ltb_spec (sl_priority (slots_of w SA)) 0); [lia|]. eauto.
  - rewrite (active_round_ok SB (Slot_empty, _) w Slot_b Hok eq_refl). cbn [fst snd].
    destruct (sl_active (slots_of w SB)); cbn [andb]; [|eauto].
    destruct (0 <? _); eauto.
Qed.

(** What a call of [GetActiveSlot] on a cleared slot delivers. *)
Definition active_result (w : World) (r : EFI_STATUS * list Z) (w' : World) : Prop :=
  ab_frame w w' /\
  (forall s, slots_of w' s = (active_spec (slots_of w)).2 s) /\
  r = match (active_spec (slots_of w)).1 with
      | Some s => (EFI_SUCCESS, suffix s)
      | None => (EFI_NOT_FOUND, Slot_empty)
      end /\
  FirstBoot (pt w') = match choose (slots_of w) with
                      | None => pristine (slots_of w SA) || FirstBoot (pt w)
                      | Some _ => FirstBoot (pt w)
                      end.

Lemma wp_GetActiveSlot w :
  ab_ok w ->
  wp (GetActiveSlot (Some Slot_empty)) (active_result w) (active_result w) w.
Proof.
  intros Hok. unfold GetActiveSlot, active_result, active_spec.
  destruct (rounds_ok w Hok) as [p Hr].
  apply bind_inv_go in Hr as (l1 & w1 & H1 & H2). wp_step. wp_exec H1.
  wp_step. wp_exec H2. rewrite Hatomic. cbn [fst].
  destruct (choose (slots_of w)) as [s|].
  { replace (IsSuffixEmpty (suffix s)) with false by (by destruct s).
    apply wp_ret. by split_and!. }
  change (IsSuffixEmpty Slot_empty) with true. cbn iota. wp_step.
  wp_exec (IsRecoveryInfo_no (R := EFI_STATUS * list Z) w (ab_ri _ Hok)). unfold first_boot. wp_step.
  wp_exec (GetBootPartitionEntry_ok (R := EFI_STATUS * list Z) w SA Hok). wp_step.
  wp_exec (attr_of_boot (R := EFI_STATUS * list Z) w SA Hok).
  rewrite active_bit, success_bit, unbootable_bit. unfold pristine, slots_of at 1 2 3 4 7.
  cbn [decode sl_active sl_success sl_unbootable sl_priority].
  destruct (_ && _) eqn:Ep.
  - do 2 wp_step. match goal with |- wp _ _ _ (upd_attr _ ?f w) =>
      pose proof (upd_attr_effect w SA f Hok) as He end.
    wp_step. eapply wp_go; [reflexivity|]. wp_step.
    eapply wp_mono; [apply wp_update with (E := fun (_ : Z * list Z) _ => False);
      by eapply effect_ok|done|].
    intros ? w2 [H3 Hs]. do 2 wp_step. apply wp_early.
    pose proof (effect_trans _ _ _ _ _ He H3) as [Hf Ha].
    split_and!; [|intros s; unfold slots_of at 1|done|by rewrite orb_true_r || done].
    + etrans; [exact Hf|]. by split.
    + unfold boot_attr. simpl. fold (boot_attr w2 s).
      change (boot_idx _ s) with (boot_idx w2 s).
      fold (boot_attr w2 s). rewrite Ha. unfold upd. case_decide; [|done]. subst s.
      apply decode_default.
  - apply wp_ret. by split_and!.
Qed.

Lemma AlternateSlot_ok s : AlternateSlot (suffix s) = suffix (other s).
Proof. by destruct s. Qed.

Lemma wp_match_boot_lun c (E : EFI_STATUS -> World -> Prop) w :
  ab_ok w -> wp (match_boot_lun c) E (fun _ w' => stay w w') w.
Proof.
  intros Hok. unfold match_boot_lun. wp_step. wp_exec (GetRootDeviceType_settled (R := EFI_STATUS) w (ab_settled _ Hok)).
  wp_step; [|apply wp_ret; reflexivity]. apply ufs_device in Heqb. wp_step.
  eapply wp_mono; [apply wp_UfsGetSetBootLun with (E := E); [apply Hok|done]|done|].
  intros r w1 S1. pose proof (stay_ok _ _ S1 Hok) as Hok1.
  assert (Hset : forall v, wp (UfsGetSetBootLun v false;; mret tt) E (fun _ w' => stay w w') w1).
  { intros v. wp_step. eapply wp_mono; [apply wp_UfsGetSetBootLun with (E := E);
      [apply Hok1|by rewrite (stay_type _ _ S1)]|done|].
    intros ? w2 S2. apply wp_ret. exact (transitivity S1 S2). }
  wp_step; [apply Hset|]. wp_step; [apply Hset|]. by apply wp_ret.
Qed.

Lemma stay_slots w w' s : stay w w' -> slots_of w' s = slots_of w s.
Proof. intros [[_ H] _]. unfold slots_of. by rewrite H. Qed.

Lemma slots_frame_eq w w' : stay w w' -> ab_frame w w'.
Proof. by intros [[H _] _]. Qed.

(** [SetActiveSlot] of one of the two slots. *)
Definition set_active_result (w : World) (s : slot) (reset : bool) (r : EFI_STATUS)
    (w' : World) : Prop :=
  ab_frame w w' /\
  let '(o, st) := active_spec (slots_of w) in
  match o with
  | None => r = EFI_NOT_FOUND /\ forall s', slots_of w' s' = slots_of w s'
  | Some _ => r = EFI_SUCCESS /\ forall s', slots_of w' s' = set_active_spec st s reset s'
  end.

(** The two attribute updates in the middle of [SetActiveSlot]. *)
Lemma set_active_words w s reset f g w1 w2 :
  f = (fun a =>
    let a := Z.lor a (Z.lor PART_ATT_PRIORITY_VAL
               (Z.lor PART_ATT_ACTIVE_VAL PART_ATT_MAX_RETRY_COUNT_VAL)) in
    let a := Z.land a (Z.lnot PART_ATT_UNBOOTABLE_VAL) in
    if reset && flag a PART_ATT_SUCCESSFUL_VAL
    then Z.land a (Z.lnot PART_ATT_SUCCESSFUL_VAL) else a) ->
  g = (fun a => Z.lor (Z.land a (Z.land (Z.lnot PART_ATT_PRIORITY_VAL)
                                   (Z.lnot PART_ATT_ACTIVE_VAL)))
                  (Z.shiftl (MAX_PRIORITY - 1) PART_ATT_PRIORITY_BIT)) ->
  effect (fun s' a => if decide (s' = s) then f a else a) w w1 ->
  effect (fun s' a => if decide (s' = other s) then g a else a) w1 w2 ->
  forall s', slots_of w2 s' = set_active_spec (slots_of w) s reset s'.
Proof.
  intros -> -> [_ H1] [_ H2] s'. unfold slots_of. rewrite H2, H1.
  unfold set_active_spec. destruct (decide (s' = s)) as [->|Hne].
  - rewrite decide_False by (by destruct s). apply decode_activate.
  - rewrite decide_True by (by destruct s, s'). apply decode_deactivate.
Qed.

Lemma mark_active w w' s :
  effect (mark s) w w' -> sl_active (slots_of w s) = true ->
  sl_active (slots_of w (other s)) = false -> forall s', slots_of w' s' = slots_of w s'.
Proof.
  intros [_ H] Ha Hb s'. unfold slots_of in *. rewrite H. unfold mark.
  case_decide as E.
  - subst s'. rewrite decode_mark. destruct (decode (boot_attr w s)); simpl in *. congruence.
  - assert (s' = other s) as -> by (by destruct s, s').
    rewrite decode_unmark. destruct (decode (boot_attr w (other s))); simpl in *. congruence.
Qed.

Lemma wp_SetActiveSlot w s reset :
  ab_ok w ->
  wp (SetActiveSlot (Some (suffix s)) reset) (set_active_result w s reset)
    (set_active_result w s reset) w.
Proof.
  intros Hok. unfold SetActiveSlot, set_active_result. wp_step.
  eapply wp_call_mono; [apply wp_GetActiveSlot, Hok|]. intros r w1 (Hf1 & Hs1 & -> & _).
  destruct (active_spec (slots_of w)) as [[c|] st] eqn:Ea; cbn [fst snd] in *.
  2: { apply wp_early. split; [done|]. split; [done|]. intros s'. rewrite Hs1. revert Ea.
    unfold active_spec. destruct (choose (slots_of w)); [done|].
    destruct (pristine _); [done|]. by intros [= <-]. }
  rewrite Z.eqb_refl. cbn [negb]. pose proof (ab_frame_ok _ _ Hf1 Hok) as Hok1. wp_step.
  wp_exec (GetBootPartitionEntry_ok (R := EFI_STATUS) w1 s Hok1). do 2 wp_step.
  match goal with |- wp _ _ _ (upd_attr _ ?f w1) =>
    pose proof (upd_attr_effect w1 s f Hok1) as H2; set (w2 := upd_attr _ f w1) in * end.
  pose proof (effect_ok _ _ _ H2 Hok1) as Hok2. wp_step. rewrite AlternateSlot_ok.
  wp_exec (GetBootPartitionEntry_ok (R := EFI_STATUS) w2 (other s) Hok2). do 2 wp_step.
  match goal with |- wp _ _ _ (upd_attr _ ?f w2) =>
    pose proof (upd_attr_effect w2 (other s) f Hok2) as H3; set (w3 := upd_attr _ f w2) in * end.
  pose proof (effect_ok _ _ _ H3 Hok2) as Hok3.
  pose proof (set_active_words w1 s reset _ _ w2 w3 eq_refl eq_refl H2 H3) as Hw3. wp_step.
  eapply wp_mono; [apply wp_update; exact Hok3|intros ? ? HE; exact HE|]. intros ? w4 [H4 Hs4].
  assert (S4 : stay w3 w4) by (split; [done|by destruct Hs4 as (_ & _ & -> & _)]).
  pose proof (stay_ok _ _ S4 Hok3) as Hok4.
  assert (Hf4 : ab_frame w w4).
  { etrans; [exact Hf1|]. etrans; [exact (proj1 H2)|]. etrans; [exact (proj1 H3)|apply H4]. }
  assert (Hst4 : forall s', slots_of w4 s' = set_active_spec st s reset s').
  { intros s'. rewrite (stay_slots _ _ _ S4), Hw3. unfold set_active_spec. by rewrite Hs1. }
  wp_step. wp_step.
  - eapply wp_mono; [apply wp_match_boot_lun, Hok4|intros ? ? HE; exact HE|]. intros ? w5 S5. apply wp_ret.
    split; [exact (transitivity Hf4 (slots_frame_eq _ _ S5))|]. split; [done|].
    intros s'. by rewrite (stay_slots _ _ _ S5), Hst4.
  - wp_step. eapply wp_call_mono; [apply wp_SwitchPtnSlots, Hok4|]. intros ? w5 S5.
    pose proof (stay_ok _ _ S5 Hok4) as Hok5.
    eapply wp_mono; [apply wp_MarkPtnActive, Hok5|intros ? ? HE; exact HE|]. intros ? w6 [H6 _]. apply wp_ret.
    split; [exact (transitivity Hf4 (transitivity (slots_frame_eq _ _ S5) (proj1 H6)))|].
    split; [done|].
    intros s'. rewrite (mark_active w5 w6 s H6), (stay_slots _ _ _ S5), Hst4; [done|..];
      rewrite (stay_slots _ _ _ S5), Hst4; by destruct s.
Qed.

(** *** Falling back *)

Definition set_unbootable (x : slot_state) : slot_state :=
  mkSlot (sl_priority x) (sl_active x) (sl_retry x) (sl_success x) true.
Definition bootable (x : slot_state) : bool := negb (sl_unbootable x) && sl_success x.

(** The state after the active slot [s] was given up; right after a first
    boot a non-user build lets it off. *)
Definition abandon (FirstBoot : bool) (st : slot -> slot_state) (s : slot) :
    slot -> slot_state :=
  if FirstBoot && negb USER_BUILD_VARIANT then st else upd st s (set_unbootable (st s)).

(** Whether [FirstBoot] is set after a call of [GetActiveSlot]. *)
Definition first_after (w : World) : bool :=
  match choose (slots_of w) with
  | None => pristine (slots_of w SA) || FirstBoot (pt w)
  | Some _ => FirstBoot (pt w)
  end.

Definition handle_result (w : World) (force : bool) (c : ctl EFI_STATUS EFI_STATUS)
    (w' : World) : Prop :=
  ab_frame w w' /\
  match active_spec (slots_of w) with
  | (None, _) => c = Return EFI_NOT_FOUND /\ forall s', slots_of w' s' = slots_of w s'
  | (Some s, st) =>
      let st2 := abandon (first_after w) st s in
      if bootable (st2 (other s)) || force
      then c = Halt ResetSystem /\
           forall s', slots_of w' s' = set_active_spec st2 (other s) false s'
      else c = Go EFI_LOAD_ERROR /\ forall s', slots_of w' s' = st2 s'
  end.

Lemma choose_ext st st' : (forall s, st' s = st s) -> choose st' = choose st.
Proof. intros H. unfold choose. by rewrite !H. Qed.

Lemma choose_after st0 s st : active_spec st0 = (Some s, st) -> choose st = Some s.
Proof.
  unfold active_spec. destruct (choose st0) as [c|] eqn:E.
  - intros [= <- <-]. done.
  - destruct (pristine (st0 SA)); [|done]. intros [= <- <-]. revert E. unfold choose, upd.
    simpl. repeat match goal with |- context [?x <? ?y] => destruct (Z.ltb_spec x y) end;
      try done; unfold weight, fresh in *; simpl in *; lia.
Qed.

Lemma choose_abandon fb0 st s c :
  choose st = Some c -> choose (abandon fb0 st s) = Some c.
Proof.
  intros <-. unfold abandon. destruct (_ && _); [done|]. unfold choose, upd.
  assert (H : forall x, weight (if decide (x = s) then set_unbootable (st s) else st x)
                        = weight (st x)).
  { intros x. case_decide; [|done]. by subst x. }
  by rewrite !H.
Qed.

Lemma bootable_bits a :
  (Unbootable a =? 0) && (BootSuccess a =? 1) = bootable (decode a).
Proof.
  rewrite Unbootable_bit, BootSuccess_bit. unfold bootable, decode. cbn [sl_unbootable sl_success].
  by destruct (Z.testbit a 55), (Z.testbit a 54).
Qed.

(** Marking the active slot, or spending the first-boot pardon. *)
Lemma wp_abandon (w : World) s (E : EFI_STATUS -> World -> Prop) :
  ab_ok w ->
  wp (mark_unbootable (boot_idx w s)) E
    (fun _ w2 => ab_frame w w2 /\
      forall s', slots_of w2 s' = abandon (FirstBoot (pt w)) (slots_of w) s s') w.
Proof.
  intros Hok. unfold abandon, mark_unbootable, TargetBuildVariantUser. do 3 wp_step.
  - apply wp_modify. split; [by split|done].
  - do 2 wp_step. match goal with |- wp _ _ _ (upd_attr _ ?f w) =>
      pose proof (upd_attr_effect w s f Hok) as H1 end.
    eapply wp_mono; [apply wp_update; by eapply effect_ok|intros ? ? HE; exact HE|].
    intros ? w2 [H2 _]. pose proof (effect_trans _ _ _ _ _ H1 H2) as [Hf Ha].
    split; [exact Hf|]. intros s'. unfold slots_of. rewrite Ha. unfold upd.
    case_decide; [|done]. subst s'. apply decode_unbootable.
Qed.

Lemma ends_HandleActiveSlotUnbootable w force :
  ab_ok w -> ends (HandleActiveSlotUnbootable force) (handle_result w force) w.
Proof.
  intros Hok. unfold HandleActiveSlotUnbootable, handle_result. apply ends_bind.
  eapply wp_call_mono; [apply wp_GetActiveSlot, Hok|]. intros r w1 (Hf1 & Hs1 & -> & Hfb).
  fold (first_after w) in Hfb.
  destruct (active_spec (slots_of w)) as [[s|] st] eqn:Ea; cbn [fst snd] in *.
  2: { eapply ends_eq; [reflexivity|]. split; [done|]. split; [done|].
    intros s'. rewrite Hs1. revert Ea. unfold active_spec.
    destruct (choose (slots_of w)); [done|]. destruct (pristine _); [done|].
    by intros [= <-]. }
  change (negb (EFI_SUCCESS =? EFI_SUCCESS)) with false. cbn iota.
  pose proof (ab_frame_ok _ _ Hf1 Hok) as Hok1. apply ends_bind.
  wp_exec (GetBootPartitionEntry_ok (R := EFI_STATUS) w1 s Hok1).
  apply ends_bind. eapply wp_mono; [apply wp_abandon, Hok1|intros ? ? HE; exact HE|].
  intros ? w2 [Hf2 Hs2]. rewrite Hfb in Hs2.
  assert (Hs2' : forall s', slots_of w2 s' = abandon (first_after w) st s s').
  { intros s'. rewrite Hs2. unfold abandon, upd. destruct (_ && _); [done|]. by rewrite !Hs1. }
  pose proof (ab_frame_ok _ _ Hf2 Hok1) as Hok2.
  rewrite AlternateSlot_ok. apply ends_bind.
  wp_exec (GetBootPartitionEntry_ok (R := EFI_STATUS) w2 (other s) Hok2). apply ends_bind.
  wp_exec (attr_of_boot (R := EFI_STATUS) w2 (other s) Hok2). rewrite bootable_bits.
  fold (slots_of w2 (other s)). rewrite Hs2'. cbn zeta.
  destruct (bootable (abandon _ st s (other s)) || force).
  2: { eapply ends_eq; [reflexivity|]. split; [by etrans|done]. }
  apply ends_bind. unfold GUARD. wp_step.
  eapply wp_call_mono; [apply wp_SetActiveSlot, Hok2|]. intros r w3 [Hf3 Hr].
  assert (Hc : choose (slots_of w2) = Some s).
  { rewrite (choose_ext _ _ Hs2'). apply choose_abandon. by eapply choose_after. }
  unfold active_spec in Hr. rewrite Hc in Hr. destruct Hr as [-> Hs3]. apply wp_ret.
  eapply ends_eq; [reflexivity|]. split; [etrans; [exact Hf1|]; by etrans|].
  split; [done|]. intros s'. rewrite Hs3. unfold set_active_spec. by rewrite Hs2'.
Qed.

(** *** Booting *)

Lemma GetActiveSlot_chosen w s :
  ab_ok w -> choose (slots_of w) = Some s ->
  GetActiveSlot (Some Slot_empty) w = (Go (EFI_SUCCESS, suffix s), w).
Proof.
  intros Hok Hc. unfold GetActiveSlot. destruct (rounds_ok w Hok) as [p Hr].
  apply bind_inv_go in Hr as (l1 & w1 & H1 & H2).
  rewrite (bind_go _ _ _ _ _ H1), (bind_go _ _ _ _ _ H2), Hatomic, Hc. cbn [fst].
  replace (IsSuffixEmpty (suffix s)) with false by (by destruct s). done.
Qed.

Definition tryable (x : slot_state) : bool :=
  negb (sl_unbootable x) && negb (sl_success x) && (0 <? sl_retry x).
Definition spend (x : slot_state) : slot_state :=
  mkSlot (sl_priority x) (sl_active x) (sl_retry x - 1) (sl_success x) (sl_unbootable x).
(** Attempts are counted in this boot mode. *)
Definition counting (w : World) : bool :=
  (negb IsABRetryCountDisabled && negb (IsBootDevImage w)) && IsABRetryCountUpdateRequired w.

Definition set_active (b : bool) (x : slot_state) : slot_state :=
  mkSlot (sl_priority x) b (sl_retry x) (sl_success x) (sl_unbootable x).
(** [MarkPtnActive] on the boot partitions. *)
Definition marked (st : slot -> slot_state) (s : slot) : slot -> slot_state :=
  fun s' => set_active (bool_decide (s' = s)) (st s').

(** The state a boot attempt of slot [s] leaves. *)
Definition attempt (count : bool) (st : slot -> slot_state) (s : slot) : slot -> slot_state :=
  if tryable (st s) && count then upd st s (spend (st s)) else st.

Definition find_result (w : World) (s : slot)
    (c : ctl (EFI_STATUS * list Z) (EFI_STATUS * list Z)) (w' : World) : Prop :=
  ab_frame w w' /\
  if bootable (slots_of w s) || tryable (slots_of w s) then
    let st1 := attempt (counting w) (slots_of w) s in
    exists Status, c = Go (Status, if Status =? EFI_SUCCESS then suffix s
                                   else <[0%nat := 0]> (suffix s)) /\
      forall s', slots_of w' s' =
        if Status =? EFI_SUCCESS then marked st1 s s' else st1 s'
  else
    let st2 := abandon (FirstBoot (pt w)) (slots_of w) s in
    if bootable (st2 (other s))
    then c = Halt ResetSystem /\
         forall s', slots_of w' s' = set_active_spec st2 (other s) false s'
    else c = Go (EFI_LOAD_ERROR, <[0%nat := 0]> (suffix s)) /\
         forall s', slots_of w' s' = st2 s'.

Lemma GetPartitionEntry_Some p n i :
  GetPartitionEntry p n = Some i -> exists e, PtnEntries p !! i = Some e.
Proof.
  unfold GetPartitionEntry.
  destruct (Z.eqb_spec (GetPartitionIndex p n) INVALID_PTN) as [|Hi]; [done|].
  intros [= <-]. apply GetPartitionIndex_Some in Hi as (k & e & -> & _ & He & _).
  rewrite Nat2Z.id. eauto.
Qed.

Lemma wp_ValidateSlotGuids w s :
  ab_ok w ->
  wp (ValidateSlotGuids (suffix s)) (fun _ => stay w) (fun _ => stay w) w.
Proof.
  intros Hok. unfold ValidateSlotGuids. wp_step.
  wp_exec (GetBootPartitionEntry_ok (R := EFI_STATUS) w s Hok).
  replace (StrLen (suffix s) =? 0) with false by (by destruct s). cbn zeta.
  do 2 wp_step. destruct (GetPartitionEntry (pt w) _) as [j|] eqn:Ej;
    [|apply wp_early; reflexivity].
  destruct (boot_entry w s Hok) as (x & Hx & _). wp_step. eapply wp_need; [exact Hx|].
  destruct (GetPartitionEntry_Some _ _ _ Ej) as [y Hy].
  wp_step. eapply wp_need; [exact Hy|]. wp_step; [apply wp_early; reflexivity|].
  wp_step. wp_exec (GetRootDeviceType_settled (R := EFI_STATUS) w (ab_settled _ Hok)). wp_step.
  - apply ufs_device in Heqb0. wp_step.
    eapply wp_mono; [apply wp_UfsGetSetBootLun; [apply Hok|done]|intros ? ? HE; exact HE|].
    intros r w1 S1. do 3 (wp_step; [by (apply wp_ret || apply wp_early)|]).
    by apply wp_early.
  - wp_step; [apply wp_ret|apply wp_early]; reflexivity.
Qed.

Lemma effect_mark_slots w w' s :
  effect (mark s) w w' -> forall s', slots_of w' s' = marked (slots_of w) s s'.
Proof.
  intros [_ H] s'. unfold slots_of, marked. rewrite H. unfold mark.
  case_decide; [rewrite bool_decide_eq_true_2 by done; apply decode_mark|].
  rewrite bool_decide_eq_false_2 by done. apply decode_unmark.
Qed.

(** The tail of [boot_checks]: validate the GUIDs, mark the slot. *)
Definition boot_tail (Suffix : list Z) : MW EFI_STATUS EFI_STATUS :=
  t ← CheckRootDeviceType;
  (if bool_decide (NAND <> t) then GUARD (ValidateSlotGuids Suffix) else mret tt);;
  MarkPtnActive Suffix;;
  mret EFI_SUCCESS.

Definition tail_post (w : World) (s : slot) (st : EFI_STATUS) (w' : World) : Prop :=
  ab_frame w w' /\ forall s', slots_of w' s' =
    if st =? EFI_SUCCESS then marked (slots_of w) s s' else slots_of w s'.

Lemma wp_boot_tail w s :
  ab_ok w -> wp (boot_tail (suffix s)) (tail_post w s) (tail_post w s) w.
Proof.
  intros Hok. unfold boot_tail. wp_step.
  wp_exec (CheckRootDeviceType_settled (R := EFI_STATUS) w (ab_settled _ Hok)). wp_step.
  assert (Hm : forall w1, stay w w1 ->
    wp (MarkPtnActive (suffix s);; mret EFI_SUCCESS) (tail_post w s) (tail_post w s) w1).
  { intros w1 S1. wp_step.
    eapply wp_mono; [apply wp_MarkPtnActive, (stay_ok _ _ S1 Hok)|intros ? ? HE; exact HE|].
    intros ? w2 [H2 _]. apply wp_ret.
    split; [exact (transitivity (slots_frame_eq _ _ S1) (proj1 H2))|]. intros s'. simpl.
    rewrite (effect_mark_slots _ _ _ H2). unfold marked. by rewrite (stay_slots _ _ _ S1). }
  wp_step; [|apply wp_ret, Hm; reflexivity]. unfold GUARD. wp_step.
  eapply wp_call_mono; [apply wp_ValidateSlotGuids, Hok|]. intros st w1 S1. cbn beta in S1.
  destruct (Z.eqb_spec st EFI_SUCCESS) as [->|Hne]; [by apply wp_ret, Hm|].
  apply wp_early. split; [by apply slots_frame_eq|]. intros s'.
  destruct (Z.eqb_spec st EFI_SUCCESS); [done|]. by apply stay_slots.
Qed.

Lemma retry_bits a :
  (Unbootable a =? 0) && (BootSuccess a =? 0) && (0 <? RetryCount a) = tryable (decode a).
Proof.
  rewrite Unbootable_bit, BootSuccess_bit. unfold tryable, decode.
  cbn [sl_unbootable sl_success sl_retry].
  by destruct (Z.testbit a 55), (Z.testbit a 54).
Qed.

(** The retry counter of a slot that may be tried. *)
Lemma wp_spend (w : World) s (E : EFI_STATUS -> World -> Prop) :
  ab_ok w -> tryable (slots_of w s) = true ->
  wp (modify (upd_attr (boot_idx w s) (fun a' =>
        Z.lor (Z.land a' (Z.lnot PART_ATT_MAX_RETRY_COUNT_VAL))
          (Z.shiftl (RetryCount (boot_attr w s) - 1) PART_ATT_MAX_RETRY_CNT_BIT)));;
      call (UpdatePartitionAttributes PARTITION_ATTRIBUTES)) E
    (fun _ w' => ab_frame w w' /\
      forall s', slots_of w' s' = upd (slots_of w) s (spend (slots_of w s)) s') w.
Proof.
  intros Hok Ht. do 2 wp_step. match goal with |- wp _ _ _ (upd_attr _ ?f w) =>
    pose proof (upd_attr_effect w s f Hok) as H1 end.
  eapply wp_mono; [apply wp_update; by eapply effect_ok|intros ? ? HE; exact HE|].
  intros ? w2 [H2 _]. pose proof (effect_trans _ _ _ _ _ H1 H2) as [Hf Ha].
  split; [exact Hf|]. intros s'. unfold slots_of at 1. rewrite Ha. unfold upd.
  case_decide; [|done]. subst s'. unfold tryable in Ht. bools.
  pose proof (RetryCount_range (boot_attr w s)).
  match goal with H : 0 < sl_retry _ |- _ => cbn [slots_of decode sl_retry] in H end.
  rewrite decode_retry by lia. done.
Qed.

Lemma ends_boot_checks w s :
  ab_ok w -> choose (slots_of w) = Some s ->
  ends (boot_checks (suffix s) (boot_idx w s)) (fun c w' =>
    find_result w s (match c with
      | Go st | Return st => Go (st, if negb (st =? EFI_SUCCESS) then <[0%nat := 0]> (suffix s)
                                     else suffix s)
      | Halt h => Halt h end) w') w.
Proof.
  intros Hok Hc. unfold boot_checks. fold (boot_tail (suffix s)).
  apply ends_bind. wp_exec (attr_of_boot (R := EFI_STATUS) w s Hok).
  rewrite bootable_bits, retry_bits. fold (slots_of w s).
  assert (Htail : forall w1 st, ab_frame w w1 -> (forall s', slots_of w1 s' = st s') ->
    (bootable (slots_of w s) || tryable (slots_of w s) = true) ->
    attempt (counting w) (slots_of w) s = st ->
    wp (boot_tail (suffix s)) (fun r => find_result w s (Go (r, if negb (r =? EFI_SUCCESS)
        then <[0%nat := 0]> (suffix s) else suffix s)))
      (fun r => find_result w s (Go (r, if negb (r =? EFI_SUCCESS)
        then <[0%nat := 0]> (suffix s) else suffix s))) w1).
  { intros w1 st Hf1 Hs1 Hcond Hst.
    assert (HT : forall r w2, tail_post w1 s r w2 -> find_result w s (Go (r,
      if negb (r =? EFI_SUCCESS) then <[0%nat := 0]> (suffix s) else suffix s)) w2).
    { intros r w2 [Hf2 Hs2]. split; [by etrans|]. rewrite Hcond. exists r.
      split; [by destruct (r =? EFI_SUCCESS)|]. intros s'. rewrite Hs2, Hst.
      unfold marked. rewrite Hs1. done. }
    eapply wp_mono; [apply wp_boot_tail, (ab_frame_ok _ _ Hf1 Hok)|exact HT|exact HT]. }
  destruct (bootable (slots_of w s)) eqn:Eb; cbn [orb] in *.
  { apply ends_wp. wp_step. apply wp_ret. apply (Htail w (slots_of w)); [reflexivity|done|done|].
    unfold attempt, tryable, bootable in *. destruct (sl_success _); [|by rewrite andb_false_r in Eb].
    by rewrite andb_false_r. }
  destruct (tryable (slots_of w s)) eqn:Et.
  - apply ends_wp. do 3 wp_step. fold (counting w). wp_step.
    + eapply wp_mono; [apply wp_spend; done|intros ? ? HE; exact HE|].
      intros ? w1 [Hf1 Hs1].
      eapply Htail; [exact Hf1|exact Hs1|done|]. unfold attempt. by rewrite Et.
    + apply wp_ret. apply (Htail w (slots_of w)); [reflexivity|done|done|].
      unfold attempt. by rewrite andb_false_r.
  - apply ends_bind_ends. unfold GUARD. apply ends_bind_ends, ends_call.
    eapply ends_mono; [apply ends_HandleActiveSlotUnbootable, Hok|].
    intros c w1 [Hf1 Hr]. unfold active_spec, first_after in Hr. rewrite Hc, orb_false_r in Hr.
    cbn zeta in *. destruct (bootable (abandon _ _ s (other s))) eqn:Egu; destruct Hr as [-> Hs1].
    + split; [done|]. rewrite Eb, Et. cbn zeta. cbn [orb]. by rewrite Egu.
    + split; [done|]. rewrite Eb, Et. cbn zeta. cbn [orb]. by rewrite Egu.
Qed.

(** [FindBootableSlot] on a device with an active slot. *)
Lemma ends_FindBootableSlot w s :
  ab_ok w -> choose (slots_of w) = Some s ->
  ends (FindBootableSlot (Some Slot_empty)) (find_result w s) w.
Proof.
  intros Hok Hc. unfold FindBootableSlot. apply ends_bind. apply wp_call.
  wp_exec (GetActiveSlot_chosen w s Hok Hc). cbn [fst snd].
  change (negb (EFI_SUCCESS =? EFI_SUCCESS)) with false. cbn iota zeta. apply ends_bind.
  wp_exec (GetBootPartitionEntry_ok (R := EFI_STATUS * list Z) w s Hok). apply ends_bind.
  wp_exec (IsRecoveryInfo_no (R := EFI_STATUS * list Z) w (ab_ri _ Hok)).
  apply ends_bind_ends, ends_call.
  eapply ends_mono; [apply ends_boot_checks; done|]. intros [st|st|h] w' H; done.
Qed.
End Refinement.
