(* ===== verification/Demo.v ===== *)
(** A small device the theorems are tried on: one eMMC with 512-byte blocks
    and a table of six partitions, three A/B pairs. *)
From Stdlib Require Import ZArith Lia.
From stdpp Require Import base list numbers option.
From S2P Require Import Prelude EfiBase Firmware World LoaderLib Board Ptable DevInfo Gpt Slots.

#[export] Existing Instances MemFirmware.laws MemFirmware.platform_laws MemFirmware.crc_laws
  MemFirmware.vb_laws.

Definition pad36 (s : list Z) : list Z := s ++ zeros (36 - Z.of_nat (length s)).
Definition demo_guid (n : Z) : list Z := replicate 16 n.

Definition demo_entry (name : list Z) (guid lba attr : Z) : PartitionEntry :=
  mkPtn (mkEntry (demo_guid guid) (demo_guid (guid + 100)) lba (lba + 7) attr (pad36 name)) 0.

(** Priority 3, active, 7 retries for the [_a] boot partition; priority 2 and
    successful for the [_b] one. *)
Definition demo_attr_a : Z := Eval cbv in Z.lor (Z.shiftl 3 48) (Z.lor (Z.shiftl 1 50) (Z.shiftl 7 51)).
Definition demo_attr_b : Z := Eval cbv in Z.lor (Z.shiftl 2 48) (Z.shiftl 1 54).

Definition demo_live : list PartitionEntry :=
  [ demo_entry (L "boot_a") 1 40 demo_attr_a; demo_entry (L "boot_b") 2 48 demo_attr_b;
    demo_entry (L "abl_a") 3 56 0; demo_entry (L "abl_b") 4 64 0;
    demo_entry (L "system_a") 5 72 0; demo_entry (L "system_b") 6 80 0 ].

Definition demo_pt : PtGlobals :=
  mkPt false false [] (demo_live ++ replicate 122 zero_entry) 1 6 false
    (demo_live ++ replicate 122 zero_entry) [].

Definition demo_devinfo : DeviceInfo :=
  mkDeviceInfo (L "ANDROID-BOOT!") false false false (zeros 64) (zeros 64) true 0
    (zeros 2048) (zeros 32) (replicate 8 (mkPV 0 0 0 (zeros 56) (zeros 32))) 0 (zeros 16).

Definition demo_media : EFI_BLOCK_IO_MEDIA := mkMedia 512 127 false.
Definition demo_dev : MemFirmware.dev :=
  MemFirmware.mkDev demo_media [mkNode 1 4 20 gEfiEmmcUserPartitionGuid 0] None None
    (zeros 65536).
Definition demo_fw : MemFirmware.state :=
  MemFirmware.mkState [demo_dev] EMMC 1 demo_devinfo true None true true.

#[export] Instance demo_build : BuildConfig :=
  {| USER_BUILD_VARIANT := false; ENABLE_LV_ATOMIC_AB := false;
     AB_RETRYCOUNT_DISABLE := false; SUPPORT_AB_BOOT_LXC := false;
     VERIFIED_BOOT_LE := false; VERIFIED_BOOT_ENABLED := true;
     PRODUCT_NAME := L "ABL"; ENABLE_LE_VARIANT := false; TARGET_BOARD_TYPE_AUTO := false;
     HIBERNATION_SUPPORT_NO_AES := false; ENABLE_UPDATE_PARTITIONS_CMDS := true;
     ENABLE_DEVICE_CRITICAL_LOCK_UNLOCK_CMDS := true; ENABLE_BOOT_CMD := false;
     DISABLE_PARALLEL_DOWNLOAD_FLASH := false; EnableBatteryVoltageCheck := false;
     NAND_UBI_VOLUME_FLASHING_ENABLED := false; SWAP_PARTITION_NAME := L "swap_a" |}.

Definition demo_fb : FbGlobals :=
  mkFb ExpectCmdState 0 0 0 0x1000 (zeros 2048) 0x1000 0x1400 1024 NO_LUN false true EFI_SUCCESS
    None false false None [] [] None 0 (zeros 10) (zeros 4) (zeros 3) false (zeros 64)
    (zeros 64) (zeros 64) (zeros 64) (zeros 64) 0 false None None [].

Definition demo : World (H := MemFirmware.fw) :=
  mkWorld MemFirmware.fw demo_fw demo_pt (mkLd false false false)
    (mkDev demo_devinfo false) (mkLib EMMC false false false true None) 0 demo_fb (mkRoot 0 EMMC).

(** The same device with other boot attributes. *)
Definition demo_with (a b : Z) : World (H := MemFirmware.fw) :=
  upd_pt (set_PtnEntries (demo_entry (L "boot_a") 1 40 a :: demo_entry (L "boot_b") 2 48 b ::
    drop 2 (PtnEntries demo_pt))) demo.

(** The device with a misc partition of eight blocks. *)
Definition demo_part (g : list Z) (n : Z) : MemFirmware.dev :=
  MemFirmware.mkDev (mkMedia 512 (n - 1) false)
    [mkNode 1 4 20 gEfiEmmcUserPartitionGuid 0; mkNode 4 1 42 (zeros 16) 2] None (Some g)
    (zeros (512 * n)).
Definition demo_misc : World (H := MemFirmware.fw) :=
  set_fw (F := MemFirmware.fw) (MemFirmware.set_devs [demo_part gEfiMiscPartitionGuid 8] demo_fw) demo.

(** The device with a vbmeta partition, whose state reset fails. *)
Definition demo_no_reset : World (H := MemFirmware.fw) :=
  set_fw (F := MemFirmware.fw)
    (MemFirmware.mkState [demo_dev] EMMC 1 demo_devinfo true None false true)
    (upd_pt (fun _ => set_PtnEntries (demo_entry (L "vbmeta_a") 7 88 0 :: PtnEntries demo_pt) demo_pt)
      demo).

(** A device that starts without a valid device-state block. *)
Definition demo_first : World (H := MemFirmware.fw) :=
  set_fw (F := MemFirmware.fw)
    (MemFirmware.mkState [demo_dev] EMMC 1 zero_DevInfo true None true true)
    (upd_dv (fun _ => mkDev zero_DevInfo true) demo).

(** Its blocks are of a sensible size. *)
Lemma demo_geometry x : MemFirmware.m_devs x = [demo_dev] -> geometry_ok (F := MemFirmware.fw) x.
Proof.
  intros Hx h. unfold GetPartitionSize, geometry_ok. simpl.
  unfold MemFirmware.media, MemFirmware.dev_at. rewrite Hx.
  destruct (Z.to_nat h) as [|n]; simpl; [|done]. intros _.
  split; [done|]. by exists 32.
Qed.
