(* ===== verification/SlotClaims.v ===== *)
(** The A/B slot theorems, with the device of [Demo.v] as their witness. *)
From Stdlib Require Import ZArith Lia.
From stdpp Require Import base list numbers option sorting.
From S2P Require Import Prelude EfiBase Firmware World LoaderLib Board Ptable DevInfo Gpt Slots SlotSpec Demo.

(** ** The demonstration device is an A/B device *)

Lemma demo_ok a b : ab_ok (F := MemFirmware.fw) (demo_with a b).
Proof.
  split.
  - split; [by apply demo_geometry|]. split; [split_and!; try done; repeat constructor|].
    split; [done|by left].
  - done.
  - cbn [demo_with upd_pt set_PtnEntries pt PtnEntries].
    constructor; [by split; vm_compute|]. constructor; [by split; vm_compute|].
    apply (bool_decide_unpack _). vm_compute. done.
  - intros s. destruct s; vm_compute; done.
  - intros Ht. discriminate Ht.
Qed.

Section Claims.
Context `{F : Firmware} `{!BlockIoLaws F} `{!PlatformLaws F} `{B : BuildConfig}.

(** *** Repeated attempts *)

(** A restart finds the table as it was left; attempts are still counted. *)
Definition restart (w w' : World) : Prop :=
  ab_ok w' /\ (forall s, slots_of w' s = slots_of w s) /\ counting w' = true.

(** [n] boots of slot [s] in a row, none of them reported successful. *)
Inductive tries (s : slot) : nat -> World -> World -> Prop :=
| tries_0 w : tries s 0 w w
| tries_S n w w1 w2 w3 :
    tries s n w w1 ->
    run (FindBootableSlot (Some Slot_empty)) w1 = (Go (EFI_SUCCESS, suffix s), w2) ->
    restart w2 w3 -> tries s (S n) w w3.

Lemma find_success w s w' :
  ab_ok w -> ENABLE_LV_ATOMIC_AB = false -> choose (slots_of w) = Some s ->
  sl_success (slots_of w s) = false -> counting w = true ->
  run (FindBootableSlot (Some Slot_empty)) w = (Go (EFI_SUCCESS, suffix s), w') ->
  0 < sl_retry (slots_of w s) /\
  forall s', slots_of w' s' = marked (upd (slots_of w) s (spend (slots_of w s))) s s'.
Proof.
  intros Hok Hat Hc Hsu Hcn Hrun.
  pose proof (ends_FindBootableSlot Hat w s Hok Hc) as He. unfold ends, run, call in *.
  destruct (FindBootableSlot _ w) as [[r|r|h] w1]; try discriminate;
    injection Hrun as -> ->; destruct He as [_ He].
  2: { exfalso. destruct (_ || _); [destruct He as (? & He & _); discriminate|].
       cbn zeta in He. destruct (bootable _); destruct He as [He _]; discriminate. }
  unfold bootable in He at 1. rewrite Hsu, andb_false_r in He. cbn [orb] in He.
  destruct (tryable (slots_of w s)) eqn:Et.
  - destruct He as (st & [= <-] & Hs). split.
    + unfold tryable in Et. bools. done.
    + intros s'. rewrite Hs. unfold attempt. by rewrite Et, Hcn.
  - exfalso. cbn zeta in He. destruct (bootable _); destruct He as [He _]; discriminate.
Qed.

Lemma choose_marked st s :
  (forall s', 0 <= sl_priority (st s')) -> choose st = Some s -> choose (marked st s) = Some s.
Proof.
  intros Hp Hc. pose proof (choose_active st s Hp Hc) as [_ Hpos].
  unfold choose, marked, weight, set_active. destruct s; simpl.
  - destruct (Z.ltb_spec (sl_priority (st SA)) 0); [lia|].
    by destruct (Z.ltb_spec 0 (sl_priority (st SA))); [|lia].
  - by destruct (Z.ltb_spec 0 (sl_priority (st SB))); [|lia].
Qed.

Lemma tries_state s n w w' :
  ENABLE_LV_ATOMIC_AB = false -> ab_ok w -> choose (slots_of w) = Some s ->
  sl_success (slots_of w s) = false -> counting w = true -> tries s n w w' ->
  ab_ok w' /\ choose (slots_of w') = Some s /\ sl_success (slots_of w' s) = false /\
  counting w' = true /\ sl_retry (slots_of w' s) + Z.of_nat n = sl_retry (slots_of w s).
Proof.
  intros Hat Hok Hc Hsu Hcn. induction 1 as [w|n w w1 w2 w3 _ IH Hrun [Hok3 [Hs3 Hcn3]]].
  { split_and!; try done. lia. }
  destruct (IH Hok Hc Hsu Hcn) as (Hok1 & Hc1 & Hsu1 & Hcn1 & Hr1).
  destruct (find_success _ _ _ Hok1 Hat Hc1 Hsu1 Hcn1 Hrun) as [Hpos Hs2].
  assert (Hst : forall s', slots_of w3 s' =
    marked (upd (slots_of w1) s (spend (slots_of w1 s))) s s')
    by (intros s'; by rewrite Hs3, Hs2).
  assert (Hp : forall s', 0 <= sl_priority (upd (slots_of w1) s (spend (slots_of w1 s)) s')).
  { intros s'. unfold upd. case_decide; apply BootPriority_range. }
  split_and!; [done| | |done|].
  - rewrite (choose_ext _ _ Hst). apply choose_marked; [done|].
    rewrite <- Hc1. unfold choose, upd. by destruct s.
  - rewrite Hst. unfold marked, upd. simpl. by rewrite decide_True.
  - rewrite Hst. unfold marked, upd, set_active, spend. rewrite decide_True by done.
    cbn [sl_retry]. lia.
Qed.
End Claims.

(** C35: GetActiveSlot refines the abstract machine.  On a device with an A/B
    pair of boot partitions the call always returns (it neither faults nor
    loops): the slot is the active one of highest priority, on a table whose
    [_a] attributes are all clear it is [_a] after those attributes were set to
    their defaults (and [FirstBoot] is recorded), and otherwise there is none
    and the status is [EFI_NOT_FOUND]; nothing else about the slots changes. *)
Theorem get_active_slot_refines `{F : Firmware} `{!BlockIoLaws F} `{!PlatformLaws F}
    `{B : BuildConfig} w :
  ENABLE_LV_ATOMIC_AB = false -> ab_ok w ->
  exists r w', run (GetActiveSlot (Some Slot_empty)) w = (Go r, w') /\ active_result w r w'.
Proof. intros Hat Hok. by apply wp_run, wp_GetActiveSlot. Qed.

Lemma get_active_slot_refines_witness :
  exists r w', run (GetActiveSlot (Some Slot_empty)) (demo_with 0 0) = (Go r, w') /\
    active_result (demo_with 0 0) r w'.
Proof.
  exact (get_active_slot_refines (demo_with 0 0) eq_refl (demo_ok 0 0)).
Defined.

(** C1: SetActiveSlot refines the abstract machine.  For either slot the call
    always returns; when some slot is active (or becomes so as a first boot)
    it succeeds and afterwards the chosen boot partition has the top priority,
    is active, has all retries and is not unbootable, its success flag cleared
    exactly when asked to, while the other one has the second priority, is not
    active and keeps its retry count and its two flags; otherwise the status
    is [EFI_NOT_FOUND] and no slot changes. *)
Theorem set_active_slot_refines `{F : Firmware} `{!BlockIoLaws F} `{!PlatformLaws F}
    `{B : BuildConfig} w s reset :
  ENABLE_LV_ATOMIC_AB = false -> ab_ok w ->
  exists r w', run (SetActiveSlot (Some (suffix s)) reset) w = (Go r, w') /\
    set_active_result w s reset r w'.
Proof. intros Hat Hok. by apply wp_run, wp_SetActiveSlot. Qed.

Lemma set_active_slot_refines_witness :
  exists r w', run (SetActiveSlot (Some (suffix SB)) true) (demo_with demo_attr_a demo_attr_b)
      = (Go r, w') /\
    set_active_result (demo_with demo_attr_a demo_attr_b) SB true r w'.
Proof. exact (set_active_slot_refines _ SB true eq_refl (demo_ok _ _)). Defined.

(** What is set is what is found.  After a successful SetActiveSlot of a
    slot, GetActiveSlot returns that slot, with success. *)
Theorem set_then_get `{F : Firmware} `{!BlockIoLaws F} `{!PlatformLaws F}
    `{B : BuildConfig} w s reset w' :
  ENABLE_LV_ATOMIC_AB = false -> ab_ok w ->
  run (SetActiveSlot (Some (suffix s)) reset) w = (Go EFI_SUCCESS, w') ->
  run (GetActiveSlot (Some Slot_empty)) w' = (Go (EFI_SUCCESS, suffix s), w').
Proof.
  intros Hat Hok Hrun. pose proof (wp_SetActiveSlot Hat w s reset Hok) as H.
  apply wp_run in H as (r & w1 & H1 & Hf & Hr). rewrite Hrun in H1. injection H1 as <- <-.
  destruct (active_spec (slots_of w)) as [[c|] st]; [|by destruct Hr]. destruct Hr as [_ Hs].
  unfold run, call. rewrite (GetActiveSlot_chosen Hat w' s); [done|by eapply ab_frame_ok|].
  rewrite (choose_ext _ _ Hs). apply choose_set_active.
Qed.

Lemma set_then_get_witness :
  exists w', run (GetActiveSlot (F := MemFirmware.fw) (B := demo_build) (Some Slot_empty)) w'
    = (Go (EFI_SUCCESS, suffix SB), w').
Proof.
  destruct (run (SetActiveSlot (Some (suffix SB)) true) (demo_with demo_attr_a demo_attr_b))
    as [c w'] eqn:E. exists w'.
  apply (set_then_get (demo_with demo_attr_a demo_attr_b) SB true w'); [done|apply demo_ok|].
  rewrite E. f_equal. apply (f_equal fst) in E. cbn [fst] in E. rewrite <- E.
  vm_compute. reflexivity.
Defined.

(** C4: FindBootableSlot refines the abstract machine, resets included.  With
    an active slot [s]: if [s] is marked successful, or may still be tried, the
    call returns; on success it names [s], has spent one retry when attempts
    are counted and [s] was not yet successful, and left exactly the entries
    of [s] active, and on a GUID mismatch the suffix is cleared.  Otherwise [s]
    is given up: if the other slot is bootable it was made active and the
    machine was reset, and if not the status is [EFI_LOAD_ERROR]. *)
Theorem find_bootable_slot_refines `{F : Firmware} `{!BlockIoLaws F} `{!PlatformLaws F}
    `{B : BuildConfig} w s :
  ENABLE_LV_ATOMIC_AB = false -> ab_ok w -> choose (slots_of w) = Some s ->
  ends (FindBootableSlot (Some Slot_empty)) (find_result w s) w.
Proof. intros. by apply ends_FindBootableSlot. Qed.

Lemma find_bootable_slot_refines_witness :
  ends (FindBootableSlot (Some Slot_empty))
    (find_result (demo_with demo_attr_a demo_attr_b) SA) (demo_with demo_attr_a demo_attr_b).
Proof.
  apply (find_bootable_slot_refines (B := demo_build) (demo_with demo_attr_a demo_attr_b) SA eq_refl (demo_ok _ _)).
  vm_compute. reflexivity.
Defined.

(** C36: A slot that never reports success is booted at most as often as its
    retry counter says: [n] boots in a row lower the counter by exactly [n], so
    there are at most seven of them. *)
Theorem retries_bounded `{F : Firmware} `{!BlockIoLaws F} `{!PlatformLaws F}
    `{B : BuildConfig} s n w w' :
  ENABLE_LV_ATOMIC_AB = false -> ab_ok w -> choose (slots_of w) = Some s ->
  sl_success (slots_of w s) = false -> counting w = true -> tries s n w w' ->
  sl_retry (slots_of w' s) = sl_retry (slots_of w s) - Z.of_nat n /\ Z.of_nat n <= 7.
Proof.
  intros Hat Hok Hc Hsu Hcn Ht.
  destruct (tries_state s n w w' Hat Hok Hc Hsu Hcn Ht) as (_ & _ & _ & _ & Hr).
  pose proof (RetryCount_range (boot_attr w s)). pose proof (RetryCount_range (boot_attr w' s)).
  unfold slots_of, decode in *. simpl in *. lia.
Qed.

Lemma retries_bounded_witness :
  let w := demo_with demo_attr_a demo_attr_b in
  let r := run (FindBootableSlot (Some Slot_empty)) w in
  sl_retry (slots_of (demo_with (boot_attr r.2 SA) (boot_attr r.2 SB)) SA)
    = sl_retry (slots_of w SA) - 1 /\ 1 <= 7.
Proof.
  intros w r.
  apply (retries_bounded (B := demo_build) SA 1 w (demo_with (boot_attr r.2 SA) (boot_attr r.2 SB))
           eq_refl (demo_ok _ _)); [vm_compute; reflexivity..|].
  apply tries_S with (w1 := w) (w2 := r.2).
  - apply tries_0.
  - assert (E : r.1 = Go (EFI_SUCCESS, suffix SA)) by (vm_compute; reflexivity).
    change (run (FindBootableSlot (Some Slot_empty)) w) with r.
    rewrite <- E. apply surjective_pairing.
  - split; [apply demo_ok|]. split; [|vm_compute; reflexivity].
    intros []; vm_compute; reflexivity.
Defined.

(** C18: Giving up the active slot.  HandleActiveSlotUnbootable never returns
    success: it marks the active slot unbootable (except that the first boot
    of a build that is not for users is pardoned once) and then either resets
    the machine, and only with the other slot made active because it is
    bootable or because the caller forced it, or returns [EFI_LOAD_ERROR] with
    the active slot still active.  The success flag of the slot given up is
    left as it was. *)
Theorem handle_unbootable_refines `{F : Firmware} `{!BlockIoLaws F} `{!PlatformLaws F}
    `{B : BuildConfig} w force :
  ENABLE_LV_ATOMIC_AB = false -> ab_ok w ->
  ends (HandleActiveSlotUnbootable force) (handle_result w force) w.
Proof. intros. by apply ends_HandleActiveSlotUnbootable. Qed.

Lemma handle_unbootable_refines_witness :
  ends (HandleActiveSlotUnbootable false)
    (handle_result (demo_with demo_attr_a demo_attr_b) false) (demo_with demo_attr_a demo_attr_b).
Proof. exact (handle_unbootable_refines (B := demo_build) _ false eq_refl (demo_ok _ _)). Defined.

(** *** The GUID switch *)

Section Guids.
Context `{F : Firmware}.

(** The type GUIDs were permuted and nothing else in the entries changed. *)
Definition guids_permuted (w w' : World) : Prop :=
  map TypeGuid (PtnEntries (pt w')) ≡ₚ map TypeGuid (PtnEntries (pt w)) /\
  map (set_TypeGuid []) (PtnEntries (pt w')) = map (set_TypeGuid []) (PtnEntries (pt w)) /\
  PartitionCount (pt w') = PartitionCount (pt w).

#[local] Instance guids_permuted_po : PreOrder guids_permuted.
Proof.
  split; [by repeat split|]. intros x y z (H1 & H2 & H3) (H4 & H5 & H6).
  split_and!; [by rewrite H4|congruence|congruence].
Qed.

Lemma same_slots_permuted w w' : same_slots w w' -> guids_permuted w w'.
Proof. intros (E1 & E2 & _). unfold guids_permuted. by rewrite E1, E2. Qed.

Lemma map_alter_guid g i es e :
  es !! i = Some e ->
  map TypeGuid (alter (set_TypeGuid g) i es) = <[i := g]> (map TypeGuid es).
Proof.
  intros He. apply list_eq. intros k. rewrite list_lookup_fmap.
  destruct (decide (k = i)) as [->|].
  - rewrite list_lookup_alter_eq, He, list_lookup_insert_eq; [done|].
    rewrite length_map. by eapply lookup_lt_Some.
  - rewrite list_lookup_alter_ne, list_lookup_insert_ne by done. by rewrite list_lookup_fmap.
Qed.

Lemma SwapPtnGuid_perm i j es :
  map TypeGuid (SwapPtnGuid i j es) ≡ₚ map TypeGuid es.
Proof.
  unfold SwapPtnGuid. destruct i as [i|], j as [j|]; try done.
  destruct (es !! i) as [x|] eqn:Ei, (es !! j) as [y|] eqn:Ej; try done.
  destruct (decide (i = j)) as [->|Hne].
  - assert (y = x) as -> by congruence.
    erewrite map_alter_guid by (rewrite list_lookup_alter_eq, Ei; done).
    erewrite map_alter_guid by done. rewrite list_insert_insert_eq, list_insert_id; [done|].
    by rewrite list_lookup_fmap, Ei.
  - erewrite map_alter_guid by (rewrite list_lookup_alter_ne, Ej; done).
    erewrite map_alter_guid by done. rewrite list_insert_insert_ne by done.
    apply Permutation_insert_swap; by rewrite list_lookup_fmap, ?Ei, ?Ej.
Qed.

Lemma keeps_slot_parts es : keeps guids_permuted (slot_parts es).
Proof.
  induction es as [|e es IH]; cbn [slot_parts]; [keeps_tac|]. cbn zeta.
  destruct (hd0 (Name e) =? 0); [exact IH|]. destruct (existsb _ es); [|exact IH].
  keeps_tac; first [exact IH|by repeat split].
Qed.

Lemma keeps_switch_pairs {R} a b l : keeps guids_permuted (switch_pairs (R := R) a b l).
Proof.
  induction l as [|n l IH]; cbn [switch_pairs]; [keeps_tac|].
  apply keeps_bind; [apply _| |intros _; exact IH]. unfold switch_pair. keeps_tac.
  split_and!; [apply SwapPtnGuid_perm|by apply SwapPtnGuid_map|done].
Qed.

Lemma keeps_SwitchPtnSlots a : keeps guids_permuted (SwitchPtnSlots a).
Proof.
  assert (Hw : forall A (m : MW unit A), keeps same_slots m -> keeps guids_permuted m).
  { intros A m. apply keeps_weaken. apply same_slots_permuted. }
  unfold SwitchPtnSlots, GetMultiSlotPartsList. cbn zeta.
  apply keeps_bind; [apply _|keeps_tac|intros w].
  apply keeps_bind; [apply _|destruct (HeadNode _); keeps_tac; apply keeps_slot_parts|intros _].
  apply keeps_bind; [apply _|keeps_tac|intros w'].
  apply keeps_bind; [apply _|apply keeps_switch_pairs|intros _].
  apply Hw. keeps_tac.
Qed.
End Guids.

(** C39: SwitchPtnSlots exchanges type GUIDs between the halves of pairs and
    does nothing else to the table in memory: however it ends, the list of
    type GUIDs is a permutation of the one before, and names, unique GUIDs,
    extents, attributes and LUNs of all entries are unchanged. *)
Theorem switch_slots_permutes `{F : Firmware} a w :
  guids_permuted w (SwitchPtnSlots a w).2.
Proof. apply keeps_SwitchPtnSlots. Qed.

(** MarkPtnActive, entry by entry: in every entry in use the active bit is
    set exactly when the partition name ends in the suffix, all other bits of
    the attributes and all other fields are unchanged, and so is the rest of
    the array. *)
Theorem mark_active_exact `{F : Firmware} {R} a w i e :
  PtnEntries (pt w) !! i = Some e ->
  exists e', PtnEntries (pt (MarkPtnActive (R := R) a w).2) !! i = Some e' /\
    set_Attr 0 e' = set_Attr 0 e /\
    forall k, 0 <= k -> Z.testbit (Attr e') k =
      if (Z.of_nat i <? PartitionCount (pt w)) && (k =? PART_ATT_ACTIVE_BIT)
      then bool_decide (cstr a `suffix_of` cstr (Name e)) else Z.testbit (Attr e) k.
Proof.
  intros He. unfold MarkPtnActive. rewrite (bind_go (modify _) _ _ tt _) by reflexivity.
  match goal with |- context [call ?m ?x] =>
    assert (Hs : same_slots x (call (R' := R) m x).2)
      by (apply keeps_call, keeps_UpdatePartitionAttributes) end.
  destruct Hs as (Es & _). rewrite Es. clear Es. cbn [pt upd_pt set_PtnEntries PtnEntries].
  set (n := Z.to_nat (PartitionCount (pt w))).
  assert (Hsuf : IsSubStrPresentAtLast (Name e) a = bool_decide (cstr a `suffix_of` cstr (Name e))).
  { apply eq_true_iff_eq. by rewrite IsSubStrPresentAtLast_spec, bool_decide_eq_true. }
  destruct (Z.ltb_spec (Z.of_nat i) (PartitionCount (pt w))) as [Hi|Hi].
  - exists (mark_entry a e). split_and!.
    + rewrite lookup_app_l by (rewrite length_map, length_take;
        apply lookup_lt_Some in He; lia).
      by rewrite list_lookup_fmap, lookup_take_lt, He by lia.
    + unfold mark_entry. by destruct (IsSubStrPresentAtLast _ _).
    + intros k Hk. unfold mark_entry. rewrite Hsuf, (Z.eqb_sym k).
      change PART_ATT_ACTIVE_VAL with (2 ^ PART_ATT_ACTIVE_BIT).
      assert (0 <= PART_ATT_ACTIVE_BIT) by done.
      destruct (bool_decide _); unfold Attr; cbn [set_Attr PartEntry Attributes];
        rewrite ?Z.lor_spec, ?Z.land_spec, ?Z.lnot_spec, Z.pow2_bits_eqb by lia;
        destruct (PART_ATT_ACTIVE_BIT =? k); cbn [andb negb];
        by rewrite ?orb_true_r, ?orb_false_r, ?andb_true_r, ?andb_false_r.
  - exists e. split_and!; try done.
    rewrite lookup_app_r by (rewrite length_map, length_take; lia).
    rewrite length_map, length_take, lookup_drop. apply lookup_lt_Some in He as Hlt.
    replace (n + _)%nat with i by lia. done.
Qed.

Lemma mark_active_exact_witness :
  exists e', PtnEntries (pt (MarkPtnActive (F := MemFirmware.fw) (R := unit) (L "_b")
      (demo_with demo_attr_a demo_attr_b)).2) !! 5%nat = Some e' /\
    set_Attr 0 e' = set_Attr 0 (demo_entry (L "system_b") 6 80 0) /\
    forall k, 0 <= k -> Z.testbit (Attr e') k =
      if (Z.of_nat 5 <? 6) && (k =? PART_ATT_ACTIVE_BIT)
      then bool_decide (cstr (L "_b") `suffix_of` cstr (pad36 (L "system_b")))
      else Z.testbit 0 k.
Proof.
  apply (mark_active_exact (F := MemFirmware.fw) (R := unit) (L "_b")
    (demo_with demo_attr_a demo_attr_b) 5 (demo_entry (L "system_b") 6 80 0)).
  vm_compute. reflexivity.
Defined.
