(* ===== verification/DevSpec.v ===== *)
(** What the device-state operations implement: the persistent values are a
    finite map of at most eight names, and what is written with success is
    what the store gives back. *)
From Stdlib Require Import ZArith Lia.
From stdpp Require Import base list numbers option gmap fin_maps.
From S2P Require Import Prelude EfiBase Firmware World LoaderLib Board Ptable DevInfo.

(** ** The map a table of persistent values represents *)

Definition pv_kv (e : persistent_value_type) : option (list Z * list Z) :=
  if in_use e =? 1
  then Some (take (Z.to_nat (name_size e)) (pv_name e),
             take (Z.to_nat (value_size e)) (pv_value e))
  else None.

Definition pv_map (l : list persistent_value_type) : gmap (list Z) (list Z) :=
  list_to_map (omap pv_kv l).

Record pv_ok (e : persistent_value_type) : Prop := {
  pv_name_len : length (pv_name e) = Z.to_nat MAX_NAME_SIZE;
  pv_value_len : length (pv_value e) = Z.to_nat MAX_VALUE_SIZE;
  pv_sizes : in_use e = 1 ->
    0 < name_size e <= MAX_NAME_SIZE /\ 0 < value_size e <= MAX_VALUE_SIZE;
}.

Definition pv_wf (l : list persistent_value_type) : Prop :=
  length l = Z.to_nat MAX_ENTRY_SIZE /\ Forall pv_ok l /\ NoDup (omap pv_kv l).*1.

Definition has_key (k : list Z) (e : persistent_value_type) : Prop :=
  fst <$> pv_kv e = Some k.
#[global] Instance has_key_dec k e : Decision (has_key k e).
Proof. unfold has_key. apply _. Defined.

(** A list with one pair in the middle, as a map. *)
Lemma map_mid (A C : list (list Z * list Z)) k v :
  NoDup (A ++ (k, v) :: C).*1 ->
  list_to_map (M := gmap (list Z) (list Z)) (A ++ (k, v) :: C) =
    <[k := v]> (list_to_map (A ++ C)) /\
  list_to_map (M := gmap (list Z) (list Z)) (A ++ C) !! k = None /\ NoDup (A ++ C).*1.
Proof.
  intros Hn.
  assert (Hp : A ++ (k, v) :: C ≡ₚ (k, v) :: A ++ C) by (symmetry; apply Permutation_middle).
  rewrite (list_to_map_proper _ _ Hn Hp). rewrite Hp in Hn. cbn in Hn.
  apply NoDup_cons in Hn as [Hk Hn]. split; [done|]. split; [|done].
  by apply not_elem_of_list_to_map_1.
Qed.

Lemma pv_split l i e :
  l !! i = Some e -> exists l1 l2, l = l1 ++ e :: l2 /\
    forall e' : persistent_value_type, <[i := e']> l = l1 ++ e' :: l2.
Proof.
  intros Hl. exists (take i l), (drop (S i) l). split; [by rewrite take_drop_middle|].
  intros e'. apply insert_take_drop. by eapply lookup_lt_Some.
Qed.

Lemma omap_mid {A C} (f : A -> option C) l1 x l2 :
  omap f (l1 ++ x :: l2) = omap f l1 ++ option_list (f x) ++ omap f l2.
Proof. rewrite omap_app. simpl. by destruct (f x). Qed.

Lemma pv_ok_insert l i e : Forall pv_ok l -> pv_ok e -> Forall pv_ok (<[i := e]> l).
Proof. intros. by apply Forall_insert. Qed.

(** Storing a value in the entry that has the name, or in a free entry. *)
Lemma pv_map_insert l i e e' k v :
  pv_wf l -> l !! i = Some e -> pv_ok e' -> pv_kv e' = Some (k, v) ->
  (fst <$> pv_kv e = Some k) \/ (pv_kv e = None /\ pv_map l !! k = None) ->
  pv_wf (<[i := e']> l) /\ pv_map (<[i := e']> l) = <[k := v]> (pv_map l).
Proof.
  intros (Hlen & Hok & Hn) Hl Hok' Hkv' Hcase.
  destruct (pv_split _ _ _ Hl) as (l1 & l2 & Hs & Hi).
  unfold pv_wf, pv_map in *. rewrite length_insert, Hi. rewrite Hs in Hn.
  rewrite Hs in Hcase |- *. rewrite !omap_mid in *. rewrite Hkv' in *. simpl in *.
  assert (Hnew : NoDup (omap pv_kv l1 ++ (k, v) :: omap pv_kv l2).*1 /\
    list_to_map (M := gmap (list Z) (list Z)) (omap pv_kv l1 ++ (k, v) :: omap pv_kv l2) =
    <[k := v]> (list_to_map (omap pv_kv l1 ++ option_list (pv_kv e) ++ omap pv_kv l2))).
  { destruct Hcase as [Hk|[He Hk]].
    - destruct (pv_kv e) as [[k0 v0]|]; [|done]. simpl in *. injection Hk as ->.
      destruct (map_mid _ _ _ _ Hn) as (E & Hnone & _).
      assert (Hn' : NoDup (omap pv_kv l1 ++ (k, v) :: omap pv_kv l2).*1)
        by (rewrite fmap_app in *; done).
      split; [done|]. destruct (map_mid _ _ _ _ Hn') as (E' & _ & _).
      by rewrite E, E', insert_insert_eq.
    - rewrite He in *. simpl in *. apply not_elem_of_list_to_map_2 in Hk.
      assert (Hn' : NoDup (omap pv_kv l1 ++ (k, v) :: omap pv_kv l2).*1).
      { assert (Hp : omap pv_kv l1 ++ (k, v) :: omap pv_kv l2 ≡ₚ
          (k, v) :: omap pv_kv l1 ++ omap pv_kv l2) by (symmetry; apply Permutation_middle).
        rewrite Hp. cbn. by apply NoDup_cons. }
      split; [done|]. by destruct (map_mid _ _ _ _ Hn') as (-> & _ & _). }
  destruct Hnew as [H1 H2]. split; [|done]. split_and!; [by subst| |done].
  rewrite <- Hi. by apply pv_ok_insert.
Qed.

(** Clearing the entry that has the name. *)
Lemma pv_map_delete l i e e' k :
  pv_wf l -> l !! i = Some e -> pv_ok e' -> pv_kv e' = None -> fst <$> pv_kv e = Some k ->
  pv_wf (<[i := e']> l) /\ pv_map (<[i := e']> l) = delete k (pv_map l).
Proof.
  intros (Hlen & Hok & Hn) Hl Hok' Hkv' Hk.
  destruct (pv_split _ _ _ Hl) as (l1 & l2 & Hs & Hi).
  unfold pv_wf, pv_map in *. rewrite length_insert, Hi. rewrite Hs in Hn |- *.
  rewrite !omap_mid in *. rewrite Hkv'. simpl.
  destruct (pv_kv e) as [[k0 v0]|]; [|done]. simpl in *. injection Hk as ->.
  destruct (map_mid _ _ _ _ Hn) as (-> & Hnone & Hn').
  rewrite delete_insert_id by done.
  split; [|done]. split_and!; [by subst| |done]. rewrite <- Hi. by apply pv_ok_insert.
Qed.

(** ** Finding an entry *)

Lemma find_has_key l k :
  pv_wf l ->
  match list_find (has_key k) l with
  | Some (_, e) => pv_map l !! k = snd <$> pv_kv e
  | None => pv_map l !! k = None
  end.
Proof.
  intros (_ & _ & Hn). destruct (list_find _ l) as [[i e]|] eqn:E.
  - apply list_find_Some in E as (Hl & Hk & _). unfold has_key in Hk.
    destruct (pv_kv e) as [[k0 v0]|] eqn:He; [|done]. simpl in *. injection Hk as ->.
    apply elem_of_list_to_map_1; [done|]. apply list_elem_of_omap. exists e.
    split; [by eapply list_elem_of_lookup_2|done].
  - apply list_find_None in E. apply not_elem_of_list_to_map_1.
    intros ((k0 & v0) & -> & He)%list_elem_of_fmap.
    apply list_elem_of_omap in He as (e & Hin & He).
    rewrite Forall_forall in E. apply (E e Hin). unfold has_key. by rewrite He.
Qed.

Lemma buf_read_all (k : list Z) : buf_read k 0 (Z.of_nat (length k)) = Some k.
Proof.
  apply buf_read_Some. repeat split; [lia..|]. by rewrite Nat2Z.id, drop_0, firstn_all.
Qed.

Section Scans.
Context `{F : Firmware}.

Lemma same_name_spec {R} k e w :
  pv_ok e -> in_use e = 1 ->
  same_name (R := R) k (Z.of_nat (length k)) e w = (Go (bool_decide (has_key k e)), w).
Proof.
  intros [Hn _ Hs] Hu. specialize (Hs Hu) as [Hs _]. unfold MAX_NAME_SIZE in *.
  set (key := take (Z.to_nat (name_size e)) (pv_name e)).
  assert (Hlk : length key = Z.to_nat (name_size e))
    by (subst key; rewrite length_take; lia).
  assert (Hiff : has_key k e <-> key = k).
  { unfold has_key, pv_kv. rewrite Hu. cbn. fold key. naive_solver. }
  rewrite (bool_decide_ext _ _ Hiff). unfold same_name.
  destruct (Z.eqb_spec (Z.of_nat (length k)) (name_size e)) as [E|E].
  - rewrite buf_read_all. munfold.
    assert (Hr : buf_read (pv_name e) 0 (Z.of_nat (length k)) = Some key).
    { apply buf_read_Some. subst key. rewrite E, drop_0. repeat split; lia. }
    rewrite Hr. unfold MemDiffers, mret, M_MRet, M_ret. do 2 f_equal.
    destruct (decide (key = k)) as [<-|Hne].
    + by rewrite bool_decide_eq_false_2, bool_decide_eq_true_2 by naive_solver.
    + by rewrite bool_decide_eq_true_2, bool_decide_eq_false_2 by naive_solver.
  - rewrite bool_decide_eq_false_2; [done|]. intros <-. apply E. rewrite Hlk. lia.
Qed.

Lemma unused_key k e : in_use e <> 1 -> ~ has_key k e.
Proof. intros H. unfold has_key, pv_kv. by destruct (Z.eqb_spec (in_use e) 1). Qed.

Lemma read_scan_spec {R} k i l w :
  Forall pv_ok l ->
  read_scan (R := R) k (Z.of_nat (length k)) i l w =
    (Go ((fun je => i + je.1)%nat <$> list_find (has_key k) l), w).
Proof.
  revert i. induction l as [|e l IH]; intros i Hok; [done|].
  apply Forall_cons in Hok as [He Hok]. cbn [read_scan list_find].
  assert (Hs : (if in_use e =? 1 then same_name (R := R) k (Z.of_nat (length k)) e
                else mret false) w = (Go (bool_decide (has_key k e)), w)).
  { destruct (Z.eqb_spec (in_use e) 1) as [Hu|Hu]; [by apply same_name_spec|].
    rewrite bool_decide_eq_false_2; [done|by apply unused_key]. }
  rewrite (bind_go _ _ _ _ _ Hs). destruct (decide (has_key k e)) as [H|H].
  - rewrite bool_decide_eq_true_2 by done. simpl. by rewrite Nat.add_0_r.
  - rewrite bool_decide_eq_false_2, IH by done.
    destruct (list_find _ l) as [[j x]|]; [|done]. simpl. by rewrite Nat.add_succ_r.
Qed.

Lemma write_scan_spec {R} k i s l w :
  Forall pv_ok l ->
  exists s', write_scan (R := R) k (Z.of_nat (length k)) i s l w =
    (Go ((fun je => i + je.1)%nat <$> list_find (has_key k) l, s'), w) /\
    (list_find (has_key k) l = None -> s' = match s with
      | Some _ => s
      | None => (fun je => i + je.1)%nat <$> list_find (fun e => in_use e <> 1) l
      end).
Proof.
  revert i s. induction l as [|e l IH]; intros i s Hok.
  { exists s. split; [done|]. by destruct s. }
  apply Forall_cons in Hok as [He Hok]. cbn [write_scan list_find].
  destruct (Z.eqb_spec (in_use e) 1) as [Hu|Hu].
  - rewrite (bind_go _ _ _ _ _ (same_name_spec (R := R) k e w He Hu)).
    destruct (decide (has_key k e)) as [H|H].
    + rewrite bool_decide_eq_true_2 by done. exists s. simpl. by rewrite Nat.add_0_r.
    + rewrite bool_decide_eq_false_2 by done.
      destruct (IH (S i) s Hok) as (s' & -> & Hs'). exists s'.
      destruct (decide (in_use e <> 1)); [done|]. split.
      * destruct (list_find (has_key k) l) as [[j x]|]; [|done]. simpl.
        by rewrite Nat.add_succ_r.
      * destruct (list_find (has_key k) l) as [[j x]|]; [done|]. intros _.
        rewrite Hs' by done. destruct s; [done|].
        destruct (list_find _ l) as [[j x]|]; [|done]. simpl. by rewrite Nat.add_succ_r.
  - destruct (decide (has_key k e)) as [H|H]; [by apply unused_key in H|].
    destruct (IH (S i) (match s with None => Some i | _ => s end) Hok) as (s' & -> & Hs').
    exists s'. destruct (decide (in_use e <> 1)); [|done]. split.
    + destruct (list_find (has_key k) l) as [[j x]|]; [|done]. simpl.
      by rewrite Nat.add_succ_r.
    + destruct (list_find (has_key k) l) as [[j x]|]; [done|]. intros _.
      rewrite Hs' by done. destruct s; [done|]. simpl. by rewrite Nat.add_0_r.
Qed.
End Scans.

(** ** The operations *)

Section Spec.
Context `{F : Firmware} `{V : !VbLaws F} `{B : BuildConfig}.

(** The block was read, and its table of persistent values is in order. *)
Definition dev_ready (w : World) : Prop :=
  FirstReadDevInfo (dv w) = false /\ pv_wf (persistent_value (DevInfo (dv w))).

(** The abstract state: the persistent values as a map. *)
Definition values (w : World) : gmap (list Z) (list Z) :=
  pv_map (persistent_value (DevInfo (dv w))).

(** The store holds the block the loader works on. *)
Definition stored (w : World) : Prop :=
  VBReadDeviceState (fw w) = (EFI_SUCCESS, DevInfo (dv w)).

(** An empty value deletes. *)
Definition put (k v : list Z) (m : gmap (list Z) (list Z)) : gmap (list Z) (list Z) :=
  match v with [] => delete k m | _ => <[k := v]> m end.

Lemma WriteDevInfo_spec {R} w :
  exists st x, WriteDevInfo (R := R) w = (Go st, set_fw x w) /\
    (st = EFI_SUCCESS -> VBReadDeviceState x = (EFI_SUCCESS, DevInfo (dv w))) /\
    LocateVb x = LocateVb (fw w).
Proof.
  unfold WriteDevInfo, ask, act. munfold.
  destruct (Z.eqb_spec (LocateVb (fw w)) EFI_SUCCESS) as [E|E]; cbn [negb].
  - destruct (VBWriteDeviceState (fw w) (DevInfo (dv w))) as [st x] eqn:EW.
    exists st, x. split_and!; [done| |].
    + intros ->. by apply VBWrite_read in EW.
    + pose proof (VBWrite_locate (fw w) (DevInfo (dv w))) as H. by rewrite EW in H.
  - exists (LocateVb (fw w)), (fw w). split_and!; [|done|done]. by destruct w.
Qed.

Lemma pv_length l : pv_wf l -> size (pv_map l) = length (omap pv_kv l).
Proof. intros (_ & _ & Hn). unfold pv_map. by apply map_size_list_to_map. Qed.

Lemma length_omap_le {A C} (f : A -> option C) l : (length (omap f l) <= length l)%nat.
Proof.
  induction l as [|x l IH]; [done|]. unfold omap in *. simpl. destruct (f x); simpl; lia.
Qed.

(** No entry is free exactly when the map is full. *)
Lemma no_free l :
  pv_wf l ->
  (list_find (fun e => in_use e <> 1) l = None <->
   size (pv_map l) = Z.to_nat MAX_ENTRY_SIZE).
Proof.
  intros Hwf. rewrite pv_length by done. destruct Hwf as (<- & _). rewrite list_find_None.
  induction l as [|e l IH]; [done|]. rewrite Forall_cons, IH.
  pose proof (length_omap_le pv_kv l). unfold omap in *. simpl.
  destruct (pv_kv e) as [p|] eqn:Ek; unfold pv_kv in Ek;
    destruct (Z.eqb_spec (in_use e) 1) as [E|E]; try done; simpl.
  - split; [intros [_ H']; by rewrite H'|]. intros [= H']. split; [tauto|done].
  - split; [tauto|]. intros H'. exfalso. lia.
Qed.

Lemma buf_write_front (b d : list Z) :
  (length d <= length b)%nat -> buf_write b 0 d = Some (d ++ drop (length d) b).
Proof. intros. apply buf_write_Some. split; [lia|]. split; [lia|]. done. Qed.

Lemma u16_small x : 0 <= x < 2 ^ 16 -> u16 x = x.
Proof. apply Z.mod_small. Qed.

(** The entry the found branch stores. *)
Lemma set_value_ok e k v0 v :
  pv_ok e -> pv_kv e = Some (k, v0) -> v <> [] ->
  (length v <= Z.to_nat MAX_VALUE_SIZE)%nat ->
  let e' := set_value (v ++ drop (length v) (pv_value e)) (Z.of_nat (length v)) e in
  pv_ok e' /\ pv_kv e' = Some (k, v).
Proof.
  intros [Hn Hv Hs] Hk Hne Hl. unfold set_value, pv_kv in *. cbn zeta.
  cbn [in_use name_size value_size pv_name pv_value]. unfold MAX_VALUE_SIZE, MAX_NAME_SIZE in *.
  rewrite u16_small by lia.
  assert (0 < length v)%nat by (destruct v; simpl; [done|lia]). split.
  - split; [done| |].
    + cbn [pv_value]. rewrite length_app, length_drop. unfold MAX_VALUE_SIZE. lia.
    + intros Hu. specialize (Hs Hu). cbn [name_size value_size] in *.
      unfold MAX_VALUE_SIZE, MAX_NAME_SIZE in *. lia.
  - destruct (in_use e =? 1); [|done]. injection Hk as <- _. do 2 f_equal.
    by rewrite Nat2Z.id, take_app_length.
Qed.

(** The entry the free-slot branch stores. *)
Lemma new_value_ok e k v :
  pv_ok e -> k <> [] -> v <> [] -> (length k <= Z.to_nat MAX_NAME_SIZE)%nat ->
  (length v <= Z.to_nat MAX_VALUE_SIZE)%nat ->
  let e' := mkPV 1 (u16 (Z.of_nat (length k))) (u16 (Z.of_nat (length v)))
    (k ++ drop (length k) (pv_name e)) (v ++ drop (length v) (pv_value e)) in
  pv_ok e' /\ pv_kv e' = Some (k, v).
Proof.
  intros [Hn Hv _] Hk Hv0 Hlk Hlv. cbn zeta. unfold MAX_VALUE_SIZE, MAX_NAME_SIZE in *.
  rewrite !u16_small by lia. unfold pv_kv. cbn [in_use name_size value_size pv_name pv_value].
  split.
  - split; cbn [in_use name_size value_size pv_name pv_value].
    + rewrite length_app, length_drop. unfold MAX_NAME_SIZE. lia.
    + rewrite length_app, length_drop. unfold MAX_VALUE_SIZE. lia.
    + intros _. unfold MAX_NAME_SIZE, MAX_VALUE_SIZE.
      destruct k; [done|]. destruct v; [done|]. simpl length in *. lia.
  - cbn. by rewrite !Nat2Z.id, !take_app_length.
Qed.

Lemma zero_pv_ok : pv_ok zero_pv.
Proof. by split. Qed.

(** Storing one entry and writing the block. *)
Lemma store_value (w : World) (i : nat) (e' : persistent_value_type) (m' : gmap (list Z) (list Z)) :
  FirstReadDevInfo (dv w) = false ->
  pv_wf (<[i := e']> (persistent_value (DevInfo (dv w)))) ->
  pv_map (<[i := e']> (persistent_value (DevInfo (dv w)))) = m' ->
  exists st w', (modify (upd_value i e');; WriteDevInfo) w = (Go (R := EFI_STATUS) st, w') /\
    dev_ready w' /\ values w' = m' /\
    DevInfo (dv w') = set_persistent (persistent_value (DevInfo (dv w'))) (DevInfo (dv w)) /\
    (st = EFI_SUCCESS -> stored w').
Proof.
  intros Hf Hwf Hm. unfold mbind, M_MBind, M_bind at 1, modify.
  destruct (WriteDevInfo_spec (R := EFI_STATUS) (upd_value i e' w)) as (st & x & -> & Hst & _).
  exists st, (set_fw x (upd_value i e' w)). by split_and!.
Qed.

(** What [WritePersistentValue] promises when the name has an entry or an
    entry is free. *)
Definition write_post (w : World) (k v : list Z) (c : ctl EFI_STATUS EFI_STATUS)
    (w' : World) : Prop :=
  dev_ready w' /\ values w' = put k v (values w) /\
  DevInfo (dv w') = set_persistent (persistent_value (DevInfo (dv w'))) (DevInfo (dv w)) /\
  match c with
  | Go st | Return st => st = EFI_SUCCESS -> stored w' \/ w' = w
  | Halt _ => False
  end.

Lemma store_post (w : World) (i : nat) (e' : persistent_value_type) (k v : list Z) :
  FirstReadDevInfo (dv w) = false ->
  pv_wf (<[i := e']> (persistent_value (DevInfo (dv w)))) ->
  pv_map (<[i := e']> (persistent_value (DevInfo (dv w)))) = put k v (values w) ->
  ends (modify (upd_value i e');; WriteDevInfo) (write_post w k v) w.
Proof.
  intros Hf Hwf Hm. destruct (store_value w i e' _ Hf Hwf Hm) as (st & w' & Hr & Hd & Hv & Hi & Hs).
  eapply ends_eq; [exact Hr|]. split_and!; auto.
Qed.

(** The branch for a name that has entry [i]. *)
Lemma write_found w i e k v0 v :
  dev_ready w -> persistent_value (DevInfo (dv w)) !! i = Some e ->
  pv_kv e = Some (k, v0) -> (length v <= Z.to_nat MAX_VALUE_SIZE)%nat ->
  ends ((if Z.of_nat (length v) =? 0 then modify (upd_value i zero_pv)
         else
           e ← need OutOfBounds (persistent_value (DevInfo (dv w)) !! i);
           src ← need OutOfBounds (buf_read v 0 (Z.of_nat (length v)));
           v' ← need OutOfBounds (buf_write (pv_value e) 0 src);
           modify (upd_value i (set_value v' (Z.of_nat (length v)) e)));; WriteDevInfo)
    (write_post w k v) w.
Proof.
  intros [Hf Hwf] Hl Ekv Hlv. pose proof Hwf as (_ & Hok & _).
  pose proof (Forall_lookup_1 _ _ _ _ Hok Hl) as He.
  destruct (Z.eqb_spec (Z.of_nat (length v)) 0) as [Ev|Ev].
  - destruct v; [|simpl in Ev; lia].
    destruct (pv_map_delete _ i e zero_pv k Hwf Hl zero_pv_ok eq_refl) as [Hwf' Hm'];
      [by rewrite Ekv|]. by apply store_post.
  - assert (Hv0 : v <> []) by (by destruct v).
    destruct (set_value_ok e k v0 v He Ekv Hv0 Hlv) as [He' Ekv'].
    destruct (pv_map_insert _ i e _ k v Hwf Hl He' Ekv') as [Hwf' Hm'];
      [left; by rewrite Ekv|].
    rewrite Hl, buf_read_all. cbn [need]. munfold.
    rewrite buf_write_front by (rewrite (pv_value_len _ He); exact Hlv). cbn [need]. munfold.
    apply store_post; [done|done|]. by destruct v.
Qed.

(** The branch that takes the free entry [i]. *)
Lemma write_free w i e k v :
  dev_ready w -> persistent_value (DevInfo (dv w)) !! i = Some e -> in_use e <> 1 ->
  values w !! k = None -> k <> [] -> (length k <= Z.to_nat MAX_NAME_SIZE)%nat ->
  (length v <= Z.to_nat MAX_VALUE_SIZE)%nat ->
  ends ((if Z.of_nat (length v) =? 0 then early EFI_SUCCESS else
         e ← need OutOfBounds (persistent_value (DevInfo (dv w)) !! i);
         nm ← need OutOfBounds (buf_read k 0 (Z.of_nat (length k)));
         n ← need OutOfBounds (buf_write (pv_name e) 0 nm);
         src ← need OutOfBounds (buf_read v 0 (Z.of_nat (length v)));
         v' ← need OutOfBounds (buf_write (pv_value e) 0 src);
         modify (upd_value i (mkPV 1 (u16 (Z.of_nat (length k)))
           (u16 (Z.of_nat (length v))) n v')));; WriteDevInfo)
    (write_post w k v) w.
Proof.
  intros [Hf Hwf] Hl Hu Hmap Hk Hlk Hlv. pose proof Hwf as (_ & Hok & _).
  pose proof (Forall_lookup_1 _ _ _ _ Hok Hl) as He.
  destruct (Z.eqb_spec (Z.of_nat (length v)) 0) as [Ev|Ev].
  - destruct v; [|simpl in Ev; lia]. split_and!; [done|..].
    + simpl. by rewrite delete_id.
    + by destruct w as [? ? ? [[]] ? ? ? ?].
    + auto.
  - assert (Hv0 : v <> []) by (by destruct v).
    destruct (new_value_ok e k v He Hk Hv0 Hlk Hlv) as [He' Ekv'].
    destruct (pv_map_insert _ i e _ k v Hwf Hl He' Ekv') as [Hwf' Hm'].
    { right. split; [|done]. unfold pv_kv. by destruct (Z.eqb_spec (in_use e) 1). }
    rewrite Hl, !buf_read_all. cbn [need]. munfold.
    rewrite (buf_write_front (pv_name e)) by (rewrite (pv_name_len _ He); exact Hlk).
    rewrite (buf_write_front (pv_value e)) by (rewrite (pv_value_len _ He); exact Hlv).
    cbn [need]. munfold. apply store_post; [done|done|]. by destruct v.
Qed.
End Spec.
