(* ===== verification/DevClaims.v ===== *)
(** The theorems on the device state, tried on the device of [Demo.v]. *)
From Stdlib Require Import ZArith Lia.
From stdpp Require Import base list numbers option gmap fin_maps.
From S2P Require Import Prelude EfiBase Firmware World LoaderLib Board Ptable DevInfo DevSpec Gpt Slots Demo.

Section Claims.
Context `{F : Firmware} `{V : !VbLaws F} `{B : BuildConfig}.

(** A run that ends with [write_post]. *)
Lemma ends_go w k v (m : MW EFI_STATUS EFI_STATUS) :
  ends m (write_post w k v) w ->
  exists st w', call (R' := Empty_set) m w = (Go st, w') /\ dev_ready w' /\
    values w' = put k v (values w) /\
    DevInfo (dv w') = set_persistent (persistent_value (DevInfo (dv w'))) (DevInfo (dv w)) /\
    (st = EFI_SUCCESS -> stored w' \/ w' = w).
Proof.
  unfold ends, write_post, call. destruct (m w) as [[st|st|h] w']; [..|tauto];
    intros (? & ? & ? & ?); by exists st, w'.
Qed.

(** C19: on a device whose block was read, writing a value of at most 32
    bytes under a name of 1 to 56 bytes always returns.  When the table is
    full and has no entry of that name it returns [EFI_INVALID_PARAMETER] and
    changes nothing.  Otherwise the table afterwards represents the map with
    the value inserted (deleted, for an empty value), every other field of
    the block is as it was, and with [EFI_SUCCESS] the store holds the block
    of the loader, unless there was nothing to delete. *)
Theorem write_persistent_refines (w : World) (k v : list Z) :
  dev_ready w -> k <> [] -> (length k <= 56)%nat -> (length v <= 32)%nat ->
  exists st w', run (WritePersistentValue (Some k) (Z.of_nat (length k)) (Some v)
                       (Z.of_nat (length v))) w = (Go st, w') /\
    dev_ready w' /\
    if bool_decide (values w !! k = None) && bool_decide (size (values w) = 8%nat)
    then st = EFI_INVALID_PARAMETER /\ w' = w
    else values w' = put k v (values w) /\
      DevInfo (dv w') = set_persistent (persistent_value (DevInfo (dv w'))) (DevInfo (dv w)) /\
      (st = EFI_SUCCESS -> stored w' \/ w' = w).
Proof.
  intros [Hf Hwf] Hk Hlk Hlv. unfold run, call, WritePersistentValue.
  rewrite (bind_go get _ _ w w) by done. rewrite Hf.
  destruct (Z.eqb_spec (Z.of_nat (length k)) 0); [by destruct k|].
  unfold MAX_NAME_SIZE, MAX_VALUE_SIZE.
  destruct (Z.ltb_spec 56 (Z.of_nat (length k))); [lia|].
  destruct (Z.ltb_spec 32 (Z.of_nat (length v))); [lia|]. cbn zeta.
  pose proof Hwf as (_ & Hok & _).
  destruct (write_scan_spec (R := EFI_STATUS) k 0 None _ w Hok) as (s' & Hs & Hfree).
  rewrite (bind_go _ _ _ _ _ Hs). clear Hs.
  pose proof (find_has_key _ k Hwf) as Hmap. fold (values w) in Hmap.
  destruct (list_find (has_key k) _) as [[i e]|] eqn:El;
    cbn [fmap option_fmap option_map fst snd Nat.add].
  - apply list_find_Some in El as (Hl & Hhk & _). unfold has_key in Hhk.
    destruct (pv_kv e) as [[k0 v0]|] eqn:Ekv; [|done]. cbn in Hhk, Hmap. injection Hhk as ->.
    rewrite Hmap, bool_decide_eq_false_2 by done. cbn [andb].
    apply ends_go. by apply (write_found w i e k v0 v).
  - rewrite Hmap, bool_decide_eq_true_2 by done. cbn [andb].
    specialize (Hfree eq_refl). cbn in Hfree. subst s'.
    pose proof (no_free _ Hwf) as Hno. fold (values w) in Hno.
    destruct (list_find (fun e => in_use e <> 1) _) as [[i e]|] eqn:Eu;
      cbn [fmap option_fmap option_map fst snd Nat.add].
    + rewrite bool_decide_eq_false_2 by (intros H8%Hno; done).
      apply list_find_Some in Eu as (Hl & Hu & _).
      apply ends_go. by apply (write_free w i e k v).
    + rewrite bool_decide_eq_true_2 by (by apply Hno).
      exists EFI_INVALID_PARAMETER, w. by split_and!.
Qed.

(** reading a named value returns what the map of the table holds: the
    value followed by the untouched rest of the buffer, its length when the
    buffer is too small, and [EFI_NOT_FOUND] for a name that is not there;
    nothing changes. *)
Theorem read_persistent_refines (w : World) (k buf : list Z) :
  dev_ready w -> k <> [] ->
  run (ReadPersistentValue (Some k) (Z.of_nat (length k)) (Some buf)
         (Some (Z.of_nat (length buf)))) w =
  (Go (match values w !! k with
       | None => (EFI_NOT_FOUND, Some buf, Some (Z.of_nat (length buf)))
       | Some v =>
           if Z.of_nat (length buf) <? Z.of_nat (length v)
           then (EFI_BUFFER_TOO_SMALL, Some buf, Some (Z.of_nat (length v)))
           else (EFI_SUCCESS, Some (v ++ drop (length v) buf), Some (Z.of_nat (length v)))
       end), w).
Proof.
  intros [Hf Hwf] Hk. unfold run, call, ReadPersistentValue.
  rewrite (bind_go get _ _ w w) by done. rewrite Hf.
  destruct (Z.eqb_spec (Z.of_nat (length k)) 0); [by destruct k|]. cbn zeta.
  pose proof Hwf as (_ & Hok & _).
  rewrite (bind_go _ _ _ _ _ (read_scan_spec (R := _) k 0 _ w Hok)).
  pose proof (find_has_key _ k Hwf) as Hmap. fold (values w) in Hmap.
  destruct (list_find (has_key k) _) as [[i e]|] eqn:El; cbn [fmap option_fmap option_map fst Nat.add].
  2: { by rewrite Hmap. }
  apply list_find_Some in El as (Hl & Hhk & _). unfold has_key in Hhk.
  destruct (pv_kv e) as [[k0 v]|] eqn:Ekv; [|done]. cbn in Hmap. rewrite Hmap, Hl.
  pose proof (Forall_lookup_1 _ _ _ _ Hok Hl) as [_ Hvl Hs]. unfold pv_kv in Ekv.
  destruct (Z.eqb_spec (in_use e) 1) as [Hu|]; [|done]. specialize (Hs Hu) as [_ Hs].
  injection Ekv as _ Ev. unfold MAX_VALUE_SIZE in *.
  assert (Hlv : value_size e = Z.of_nat (length v))
    by (rewrite <- Ev, length_take; lia).
  cbn [need]. munfold. rewrite Hlv.
  destruct (Z.eqb_spec (Z.of_nat (length v)) 0); [lia|].
  destruct (Z.ltb_spec (Z.of_nat (length buf)) (Z.of_nat (length v))); [done|].
  assert (Hr : buf_read (pv_value e) 0 (Z.of_nat (length v)) = Some v).
  { apply buf_read_Some. repeat split; [lia..|]. by rewrite drop_0, <- Hlv. }
  rewrite Hr. cbn [need]. munfold. by rewrite buf_write_front by lia.
Qed.

(** ** Rollback indices *)

(** The device restarts: memory is lost, the store is not. *)
Definition reboot (w : World) : World := upd_dv (fun _ => mkDev zero_DevInfo true) w.

Lemma init_stored {R} w d :
  FirstReadDevInfo (dv w) = true -> LocateVb (fw w) = EFI_SUCCESS ->
  VBReadDeviceState (fw w) = (EFI_SUCCESS, d) -> magic d = DEVICE_MAGIC ->
  DeviceInfoInit (R := R) w = (Go EFI_SUCCESS, upd_dv (fun _ => mkDev d false) w).
Proof.
  intros Hf Hv Hr Hm. unfold DeviceInfoInit, ReadDevInfo, ask. munfold. rewrite Hf, Hv.
  cbn. rewrite Hr. cbn. unfold MemDiffers. rewrite Hm.
  by rewrite bool_decide_eq_false_2 by naive_solver.
Qed.

(** writing a rollback index returns.  A location outside the array is
    refused and nothing changes; when the write succeeds, the location holds
    the new index and every other location its old one, at once and after a
    restart that reads the block back from the store. *)
Theorem rollback_index_roundtrip (w : World) (Loc v : Z) :
  FirstReadDevInfo (dv w) = false -> magic (DevInfo (dv w)) = DEVICE_MAGIC ->
  length (rollback_index (DevInfo (dv w))) = 32%nat -> 0 <= Loc ->
  exists st w', run (WriteRollbackIndex Loc v) w = (Go st, w') /\
    (32 <= Loc -> st = EFI_INVALID_PARAMETER /\ w' = w) /\
    (st = EFI_SUCCESS -> forall L old, rollback_index (DevInfo (dv w)) !! L = Some old ->
      let new := if Z.of_nat L =? Loc then v else old in
      run (ReadRollbackIndex (Z.of_nat L)) w' = (Go (EFI_SUCCESS, new), w') /\
      (run (DeviceInfoInit;; ReadRollbackIndex (Z.of_nat L)) (reboot w')).1
        = Go (EFI_SUCCESS, new)).
Proof.
  intros Hf Hm Hlen HL. unfold run, call, WriteRollbackIndex.
  rewrite (bind_go get _ _ w w) by done. rewrite Hf. unfold MAX_VB_PARTITIONS.
  destruct (Z.leb_spec 32 Loc) as [Hge|Hlt].
  { exists EFI_INVALID_PARAMETER, w. by split_and!. }
  destruct (lookup_lt_is_Some_2 (rollback_index (DevInfo (dv w))) (Z.to_nat Loc)) as [o Ho];
    [lia|]. rewrite Ho. cbn [need]. munfold.
  set (w1 := upd_info _ w).
  assert (Hread : forall x f L old, rollback_index (DevInfo (dv w)) !! L = Some old ->
    ReadRollbackIndex (R := EFI_STATUS * Z) (Z.of_nat L)
      (upd_dv (fun _ => mkDev (DevInfo (dv w1)) false) (set_fw x f)) =
    (Go (EFI_SUCCESS, if Z.of_nat L =? Loc then v else old),
      upd_dv (fun _ => mkDev (DevInfo (dv w1)) false) (set_fw x f))).
  { intros x f L old Hold. unfold ReadRollbackIndex. munfold. cbn.
    pose proof (lookup_lt_Some _ _ _ Hold). unfold MAX_VB_PARTITIONS.
    destruct (Z.leb_spec 32 (Z.of_nat L)); [lia|].
    rewrite Nat2Z.id, list_lookup_insert. destruct (Z.eqb_spec (Z.of_nat L) Loc) as [E|E].
    - rewrite decide_True by lia. done.
    - rewrite decide_False by lia. by rewrite Hold. }
  destruct (WriteDevInfo_spec (R := EFI_STATUS) w1) as (st & x & Hw & Hst & Hloc).
  assert (Hsucc : st = EFI_SUCCESS -> LocateVb (fw w) = EFI_SUCCESS).
  { intros ->. revert Hw. unfold WriteDevInfo, ask. munfold. subst w1. cbn.
    destruct (Z.eqb_spec (LocateVb (fw w)) EFI_SUCCESS); [done|]. cbn. congruence. }
  rewrite Hw. exists st, (set_fw x w1). split_and!; [done|lia|].
  intros -> L old Hold. cbn zeta. split.
  - specialize (Hread x w1 L old Hold). 
    replace (upd_dv _ (set_fw x w1)) with (set_fw x w1) in Hread; [by rewrite Hread|].
    subst w1. unfold upd_info, upd_dv, set_fw. cbn. by rewrite Hf.
  - unfold mbind, M_MBind, M_bind.
    rewrite (init_stored _ (DevInfo (dv w1))); [|done|cbn; rewrite Hloc; by apply Hsucc|by apply Hst|].
    + specialize (Hread x w1 L old Hold). unfold reboot, upd_dv in *. cbn in *.
      unfold mbind in Hread. by rewrite Hread.
    + done.
Qed.

(** ** Initialisation and the lock *)

(** What [IsSecureBootEnabled] answers where the protocol is there. *)
Definition secure (w : World) : bool :=
  ((VBIsDeviceSecure (fw w)).1 =? EFI_SUCCESS) && (VBIsDeviceSecure (fw w)).2.

Lemma IsSecureBootEnabled_spec {R} w :
  LocateVb (fw w) = EFI_SUCCESS -> IsSecureBootEnabled (R := R) w = (Go (secure w), w).
Proof.
  intros Hv. unfold IsSecureBootEnabled, secure, ask. munfold. rewrite Hv. cbn.
  by destruct (_ =? EFI_SUCCESS).
Qed.

(** C37: the first initialisation returns, and the block counts as read.  A
    block with the magic is taken as it is and nothing is written.  Any other
    block is replaced: both locks are closed exactly when the platform is
    known to be secure, verity is enforced, the rollback indices and the user
    key are zero; with [EFI_SUCCESS] the store holds the new block. *)
Theorem device_info_init_spec (w : World) (d : DeviceInfo) :
  FirstReadDevInfo (dv w) = true -> LocateVb (fw w) = EFI_SUCCESS ->
  VBReadDeviceState (fw w) = (EFI_SUCCESS, d) ->
  exists st w', run DeviceInfoInit w = (Go st, w') /\
    FirstReadDevInfo (dv w') = false /\
    if decide (magic d = DEVICE_MAGIC)
    then st = EFI_SUCCESS /\ DevInfo (dv w') = d /\ fw w' = fw w
    else IsUnlocked w' = negb (secure w) /\ IsUnlockCritical w' = negb (secure w) /\
      IsEnforcing w' = true /\ magic (DevInfo (dv w')) = DEVICE_MAGIC /\
      rollback_index (DevInfo (dv w')) = zeros 32 /\
      user_public_key_length (DevInfo (dv w')) = 0 /\
      user_public_key (DevInfo (dv w')) = zeros 2048 /\
      (st = EFI_SUCCESS -> stored w').
Proof.
  intros Hf Hv Hr. case_decide as Hm.
  { unfold run, call. rewrite (init_stored w d) by done. eexists _, _. split; [done|].
    by split_and!. }
  unfold run, call, DeviceInfoInit, ReadDevInfo, ask. munfold.
  rewrite Hf, Hv. cbn. rewrite Hr. cbn. unfold MemDiffers.
  rewrite bool_decide_eq_true_2 by done. cbn.
  match goal with |- context [IsSecureBootEnabled ?w1] =>
    rewrite (IsSecureBootEnabled_spec (R := EFI_STATUS) w1 Hv) end.
  match goal with |- context [WriteDevInfo ?w1] =>
    destruct (WriteDevInfo_spec (R := EFI_STATUS) w1) as (st & x & -> & Hst & _) end.
  exists st; eexists. split; [reflexivity|]. by split_and!.
Qed.

(** The flag [Type_] selects. *)
Definition lock_flag (Type_ : Z) (w : World) : bool :=
  if Type_ =? UNLOCK then IsUnlocked w else IsUnlockCritical w.

Lemma set_flag_spec {R} Type_ State w :
  Type_ = UNLOCK \/ Type_ = UNLOCK_CRITICAL ->
  exists st w', set_flag (R := R) Type_ State w = (Go st, w') /\
    lock_flag Type_ w' = State /\ rt w' = rt w /\
    (lock_flag Type_ w = State -> w' = w /\ st = EFI_SUCCESS) /\
    (st = EFI_SUCCESS -> lock_flag Type_ w <> State -> stored w').
Proof.
  intros [-> | ->]; unfold set_flag, lock_flag; cbn;
    unfold SetUnlockValue, SetUnlockCriticalValue; munfold.
  - destruct (eqb (IsUnlocked w) State) eqn:E; cbn [negb].
    + apply eqb_prop in E. exists EFI_SUCCESS, w. split_and!; [done|done|done|done|by intros].
    + apply eqb_false_iff in E.
      match goal with |- context [WriteDevInfo ?w1] =>
        destruct (WriteDevInfo_spec (R := R) w1) as (st & x & -> & Hst & _) end.
      exists st; eexists. split; [reflexivity|].
      split_and!; try done. intros H _. by apply Hst.
  - destruct (eqb (IsUnlockCritical w) State) eqn:E; cbn [negb].
    + apply eqb_prop in E. exists EFI_SUCCESS, w. split_and!; [done|done|done|done|by intros].
    + apply eqb_false_iff in E.
      match goal with |- context [WriteDevInfo ?w1] =>
        destruct (WriteDevInfo_spec (R := R) w1) as (st & x & -> & Hst & _) end.
      exists st; eexists. split; [reflexivity|].
      split_and!; try done. intros H _. by apply Hst.
Qed.

(** when a lock change is refused by the state reset although the flag
    already had the requested value, the recovery code stores the opposite
    value: a request to lock a locked device ends with the device unlocked. *)
Theorem failed_reset_flips_lock (w : World) (Type_ : Z) (State : bool) (err : EFI_STATUS) :
  Type_ = UNLOCK \/ Type_ = UNLOCK_CRITICAL -> lock_flag Type_ w = State ->
  GetAVBVersion (pt w) = AVB_2 -> LocateVb (fw w) = EFI_SUCCESS ->
  (VBDeviceResetState (fw w)).1 = err -> err <> EFI_SUCCESS ->
  exists w', run (SetDeviceUnlockValue Type_ State) w = (Go err, w') /\
    lock_flag Type_ w' = negb State.
Proof.
  intros HT Hfl Ha Hv He Hne. unfold run, call, SetDeviceUnlockValue.
  destruct (set_flag_spec (R := EFI_STATUS) Type_ State w HT) as (st & w1 & H1 & _ & _ & H2 & _).
  destruct (H2 Hfl) as [-> ->]. rewrite (bind_go _ _ _ _ _ H1). cbn [Z.eqb negb EFI_SUCCESS].
  destruct (VBDeviceResetState (fw w)) as [e x] eqn:Ex. cbn in He. subst e.
  assert (Hreset : ResetDeviceState (R := EFI_STATUS) w = (Go err, set_fw x w)).
  { unfold ResetDeviceState, VerifiedBootEnbled, ask, act. munfold. rewrite Ha. cbn. rewrite Hv. cbn.
    by rewrite Ex. }
  rewrite (bind_go _ _ _ _ _ Hreset). destruct (Z.eqb_spec err EFI_SUCCESS); [done|]. cbn [negb].
  destruct (set_flag_spec (R := EFI_STATUS) Type_ (negb State) (set_fw x w) HT)
    as (st & w2 & H3 & H4 & _). rewrite (bind_go _ _ _ _ _ H3). by exists w2.
Qed.

Lemma ResetDeviceState_spec {R} w :
  exists st x, ResetDeviceState (R := R) w = (Go st, set_fw x w).
Proof.
  unfold ResetDeviceState, ask, act. munfold. assert (Hw : set_fw (fw w) w = w) by (by destruct w).
  destruct (_ || _); [exists EFI_SUCCESS, (fw w); by rewrite Hw|].
  destruct (negb _); [exists (LocateVb (fw w)), (fw w); by rewrite Hw|].
  destruct (VBDeviceResetState (fw w)) as [st x]. by exists st, x.
Qed.

(** The recovery message that asks for a wipe, as the bytes of the
    partition. *)
Definition wipe_message : list Z :=
  zeros 64 ++ RECOVERY_WIPE_DATA ++ zeros (1024 - Z.of_nat (length RECOVERY_WIPE_DATA)).

(** a lock change that reports success has set the flag to the requested
    value, the store took the block if the value was new, and the last thing
    it did was to write the wipe request to the start of the misc partition,
    successfully: no lock change succeeds without asking for a wipe. *)
Theorem unlock_success_wipes (w w' : World) (Type_ : Z) (State : bool) :
  RootType (rt w) <> UNKNOWN -> RootType (rt w) <> NAND ->
  BootDeviceType (rt w) <> EFI_MAX_FLASH_TYPE ->
  run (SetDeviceUnlockValue Type_ State) w = (Go EFI_SUCCESS, w') ->
  (Type_ = UNLOCK \/ Type_ = UNLOCK_CRITICAL) /\
  exists w1 w2, set_flag (R := EFI_STATUS) Type_ State w = (Go EFI_SUCCESS, w1) /\
    lock_flag Type_ w1 = State /\ (lock_flag Type_ w <> State -> stored w1) /\
    dv w2 = dv w1 /\
    run (WriteToPartition gEfiMiscPartitionGuid (Some wipe_message) 1088) w2
      = (Go EFI_SUCCESS, w').
Proof.
  intros Hun Hna Hbd. unfold run, call, SetDeviceUnlockValue.
  assert (HT : (Type_ = UNLOCK \/ Type_ = UNLOCK_CRITICAL) \/
    set_flag (R := EFI_STATUS) Type_ State w = (Go EFI_UNSUPPORTED, w)).
  { unfold set_flag. destruct (Z.eqb_spec Type_ UNLOCK); [by left; left|].
    destruct (Z.eqb_spec Type_ UNLOCK_CRITICAL); [by left; right|by right]. }
  destruct HT as [HT|HT]; [|by rewrite (bind_go _ _ _ _ _ HT)].
  destruct (set_flag_spec (R := EFI_STATUS) Type_ State w HT) as (st & w1 & H1 & Hfl & Hrt & _ & Hst).
  rewrite (bind_go _ _ _ _ _ H1).
  destruct (Z.eqb_spec st EFI_SUCCESS) as [->|]; [|cbn; naive_solver]. cbn [negb].
  destruct (ResetDeviceState_spec (R := EFI_STATUS) w1) as (st & x & H2).
  rewrite (bind_go _ _ _ _ _ H2).
  destruct (Z.eqb_spec st EFI_SUCCESS) as [->|]; cbn [negb].
  2: { destruct (set_flag_spec (R := EFI_STATUS) Type_ (negb State) (set_fw x w1) HT)
         as (st' & w2 & H3 & _). rewrite (bind_go _ _ _ _ _ H3). cbn. naive_solver. }
  match goal with |- context [AsciiStrnCpyS ?a ?b ?c ?d] =>
    assert (Hcp : AsciiStrnCpyS (S := World) (R := EFI_STATUS) a b c d (set_fw x w1) =
      (Go (EFI_SUCCESS, RECOVERY_WIPE_DATA ++
        zeros (1024 - Z.of_nat (length RECOVERY_WIPE_DATA))), set_fw x w1)) by done end.
  rewrite (bind_go _ _ _ _ _ Hcp). cbn [fst snd]. rewrite Z.eqb_refl.
  assert (Hset : settled (set_fw x w1)) by (unfold settled; cbn; rewrite Hrt; auto).
  rewrite (bind_go _ _ _ _ _ (CheckRootDeviceType_settled _ Hset)).
  assert (Hc : card_of (set_fw x w1) <> NAND).
  { unfold card_of. cbn. rewrite Hrt. by destruct (_ =? _). }
  rewrite bool_decide_eq_false_2 by done.
  rewrite (bind_go (mret _) _ _ gEfiMiscPartitionGuid (set_fw x w1)) by done. cbn zeta.
  change (recovery_message _) with wipe_message.
  change (Z.of_nat (length wipe_message)) with 1088. unfold call.
  intros Hr. split; [done|]. exists w1, (set_fw x w1). split_and!; try done.
  - by apply Hst.
  - by destruct (WriteToPartition _ _ _ (set_fw x w1)) as [[]].
Qed.
End Claims.

(** ** On the demonstration device *)

Lemma demo_ready : dev_ready (F := MemFirmware.fw) demo.
Proof.
  split; [done|]. split; [done|]. split; [|constructor].
  apply Forall_replicate. by split.
Qed.

Lemma write_persistent_refines_witness :
  exists st w', run (WritePersistentValue (F := MemFirmware.fw) (Some [107; 49]) 2 (Some [1; 2; 3]) 3) demo
    = (Go st, w') /\ values w' !! [107; 49] = Some [1; 2; 3].
Proof.
  destruct (write_persistent_refines (F := MemFirmware.fw) demo [107; 49] [1; 2; 3] demo_ready)
    as (st & w' & Hr & _ & H); [done|simpl; lia..|].
  rewrite andb_false_r in H by (by apply bool_decide_eq_false_2).
  destruct H as (Hv & _). exists st, w'. split; [exact Hr|]. by rewrite Hv.
Defined.

Lemma read_persistent_refines_witness :
  run (ReadPersistentValue (F := MemFirmware.fw) (Some [107]) 1 (Some [0; 0]) (Some 2)) demo
    = (Go (EFI_NOT_FOUND, Some [0; 0], Some 2), demo).
Proof. exact (read_persistent_refines (F := MemFirmware.fw) demo [107] [0; 0] demo_ready ltac:(done)). Defined.

Lemma rollback_index_roundtrip_witness :
  exists w', run (WriteRollbackIndex (F := MemFirmware.fw) 3 17) demo = (Go EFI_SUCCESS, w') /\
    (run (DeviceInfoInit;; ReadRollbackIndex (F := MemFirmware.fw) 3) (reboot w')).1
      = Go (EFI_SUCCESS, 17).
Proof.
  destruct (rollback_index_roundtrip (F := MemFirmware.fw) demo 3 17) as (st & w' & Hr & _ & H);
    [done|done|done|lia|]. exists w'.
  assert (Hst : st = EFI_SUCCESS).
  { assert (E : (run (WriteRollbackIndex (F := MemFirmware.fw) 3 17) demo).1 = Go EFI_SUCCESS)
      by (vm_compute; done). rewrite Hr in E. by injection E. }
  rewrite Hst in *. split; [exact Hr|]. apply (H eq_refl 3%nat 0). done.
Defined.

Lemma device_info_init_spec_witness :
  exists st w', run (DeviceInfoInit (F := MemFirmware.fw)) demo_first = (Go st, w') /\
    IsUnlocked w' = false /\ IsEnforcing w' = true.
Proof.
  destruct (device_info_init_spec (F := MemFirmware.fw) demo_first zero_DevInfo)
    as (st & w' & Hr & _ & H); [done..|]. rewrite decide_False in H by done.
  destruct H as (Hu & _ & He & _). exists st, w'. split; [exact Hr|]. by split.
Defined.

Lemma failed_reset_flips_lock_witness :
  IsUnlocked demo_no_reset = false /\
  exists w', run (SetDeviceUnlockValue (F := MemFirmware.fw) UNLOCK false) demo_no_reset
    = (Go EFI_DEVICE_ERROR, w') /\ IsUnlocked w' = true.
Proof.
  split; [done|].
  apply (failed_reset_flips_lock (F := MemFirmware.fw) demo_no_reset UNLOCK false EFI_DEVICE_ERROR);
    try done. by left.
Defined.

Lemma unlock_success_wipes_witness :
  exists w', (run (SetDeviceUnlockValue (F := MemFirmware.fw) UNLOCK true) demo_misc) = (Go EFI_SUCCESS, w') /\
    exists w1, set_flag (F := MemFirmware.fw) (R := EFI_STATUS) UNLOCK true demo_misc = (Go EFI_SUCCESS, w1) /\
      lock_flag UNLOCK w1 = true.
Proof.
  destruct (run (SetDeviceUnlockValue (F := MemFirmware.fw) UNLOCK true) demo_misc) as [c w'] eqn:E.
  assert (Hc : c = Go EFI_SUCCESS).
  { change c with (c, w').1. rewrite <- E. vm_compute. done. }
  subst c. exists w'. split; [done|].
  destruct (unlock_success_wipes (F := MemFirmware.fw) demo_misc w' UNLOCK true)
    as (_ & w1 & w2 & H1 & H2 & _); [done..|exact E|]. by exists w1.
Defined.
