(* ===== verification/Sparse.v ===== *)
(** Flashing an Android sparse image ([FastbootCmds.c], [SparseFormat.h]).

    The image is the byte list [img], which the machine holds at address
    [base]; a pointer into it is an address.  Reading outside of [img] stops
    the machine. *)
From Stdlib Require Import ZArith Lia.
From stdpp Require Import base list numbers option.
From S2P Require Import Prelude EfiBase Firmware World LoaderLib Board Ptable.

Record sparse_header_t := mkSparse {
  sh_magic : Z;
  sh_major_version : Z;
  sh_minor_version : Z;
  file_hdr_sz : Z;
  chunk_hdr_sz : Z;
  blk_sz : Z;
  total_blks : Z;
  total_chunks : Z;
  image_checksum : Z;
}.

Record chunk_header_t := mkChunk {
  chunk_type : Z;
  reserved1 : Z;
  chunk_sz : Z;
  total_sz : Z;
}.

Definition SPARSE_HEADER_SIZE : Z := 28.
Definition CHUNK_HEADER_SIZE : Z := 12.
Definition SPARSE_HEADER_MAGIC : Z := 0xed26ff3a.
Definition CHUNK_TYPE_RAW : Z := 0xCAC1.
Definition CHUNK_TYPE_FILL : Z := 0xCAC2.
Definition CHUNK_TYPE_DONT_CARE : Z := 0xCAC3.
Definition CHUNK_TYPE_CRC : Z := 0xCAC4.

Record SparseImgParam := mkParam {
  TotalBlocks : Z;
  ChunkDataSz : Z;
  ImageEnd : Z;
  WrittenBlockCount : Z;
  BlockCountFactor : Z;
  PartitionSize : Z;
  sp_BlockIo : Z;
  sp_Handle : Z;
}.

Definition set_TotalBlocks (x : Z) (p : SparseImgParam) : SparseImgParam :=
  mkParam x (ChunkDataSz p) (ImageEnd p) (WrittenBlockCount p) (BlockCountFactor p)
    (PartitionSize p) (sp_BlockIo p) (sp_Handle p).
Definition set_ChunkDataSz (x : Z) (p : SparseImgParam) : SparseImgParam :=
  mkParam (TotalBlocks p) x (ImageEnd p) (WrittenBlockCount p) (BlockCountFactor p)
    (PartitionSize p) (sp_BlockIo p) (sp_Handle p).
Definition set_WrittenBlockCount (x : Z) (p : SparseImgParam) : SparseImgParam :=
  mkParam (TotalBlocks p) (ChunkDataSz p) (ImageEnd p) x (BlockCountFactor p)
    (PartitionSize p) (sp_BlockIo p) (sp_Handle p).

(** The packed structures at the start of a byte string. *)
Definition field (b : list Z) (off n : nat) : Z := le_get (take n (drop off b)).
Definition sparse_header_of (b : list Z) : sparse_header_t :=
  mkSparse (field b 0 4) (field b 4 2) (field b 6 2) (field b 8 2) (field b 10 2)
    (field b 12 4) (field b 16 4) (field b 20 4) (field b 24 4).
Definition chunk_header_of (b : list Z) : chunk_header_t :=
  mkChunk (field b 0 2) (field b 2 2) (field b 4 4) (field b 8 4).

Section Sparse.
Context `{F : Firmware}.

(** [PartitionGetInfo]: the first handle whose partition record carries the
    name, in the selected LUN or in all. *)
Definition PartitionGetInfo (PartitionName_ : list Z) :
    MW (EFI_STATUS * option Z) (EFI_STATUS * option Z) :=
  w ← get;
  let '(LunStart, LunEnd) :=
    if LunSet (fb w) then (u32 (Lun (fb w)), u32 (Lun (fb w) + 1))
    else (0, GetMaxLuns (pt w)) in
  let i0 := u16 LunStart in
  for_up (Z.to_nat (LunEnd - i0)) i0 tt (fun i _ =>
    w ← get;
    s ← need OutOfBounds (Ptable (pt w) !! Z.to_nat i);
    for_up (Z.to_nat (MaxHandles s)) 0 tt (fun j _ =>
      h ← need OutOfBounds (HandleInfoList s !! Z.to_nat j);
      e ← ask (fun x => PartitionRecord x (Handle h));
      match e with
      | None => mret (false, tt)
      | Some PartEntry =>
          if StrCmp PartitionName_ (PartitionName PartEntry) =? 0
          then early (EFI_SUCCESS, Some (Handle h)) else mret (false, tt)
      end);;
    mret (false, tt));;
  mret (EFI_NOT_FOUND, None).

Definition WriteToDisk (BlockIo Handle_ : Z) (Image : list Z) (Size offset : Z) :
    MW EFI_STATUS EFI_STATUS :=
  WriteBlockToPartitionNoFlush (Some BlockIo) (Some Handle_) offset Size (Some Image).

(** The bytes from an address on. *)
Definition at_addr (base : Z) (img : list Z) (addr : Z) : list Z :=
  drop (Z.to_nat (addr - base)) img.

(** The status with [*Image] and [*SparseImgData] afterwards.  The pointers
    to the headers and to the parameters are addresses of objects; only
    [*Image] can be [NULL]. *)
Definition HandleChunkTypeRaw (base : Z) (img : list Z) (sh : sparse_header_t)
    (ch : chunk_header_t) (Image : Z) (p : SparseImgParam) :
    MW (EFI_STATUS * Z * SparseImgParam) (EFI_STATUS * Z * SparseImgParam) :=
  if Image =? 0 then early (EFI_INVALID_PARAMETER, Image, p) else
  if negb (total_sz ch =? u64 (chunk_hdr_sz sh + ChunkDataSz p))
  then early (EFI_INVALID_PARAMETER, Image, p) else
  if CHECK_ADD64 Image (ChunkDataSz p) then early (EFI_INVALID_PARAMETER, Image, p) else
  if ImageEnd p <? Image + ChunkDataSz p
  then early (EFI_INVALID_PARAMETER, Image, p) else
  let p := set_WrittenBlockCount (u64 (TotalBlocks p * BlockCountFactor p)) p in
  Status ← call (WriteToDisk (sp_BlockIo p) (sp_Handle p) (at_addr base img Image)
                   (ChunkDataSz p) (WrittenBlockCount p));
  if EFI_ERROR Status then early (Status, Image, p) else
  if MAX_UINT32 - chunk_sz ch <? TotalBlocks p
  then early (EFI_INVALID_PARAMETER, Image, p) else
  mret (EFI_SUCCESS, Image + ChunkDataSz p,
        set_TotalBlocks (u32 (TotalBlocks p + chunk_sz ch)) p).

(** [FillBuf]: the fill value over and over, zeros where [blk_sz] is not a
    multiple of four. *)
Definition fill_buf (blk : Z) (FillVal : list Z) : list Z :=
  concat (replicate (Z.to_nat (blk / 4)) FillVal) ++ zeros (blk mod 4).

Definition HandleChunkTypeFill (base : Z) (img : list Z) (sh : sparse_header_t)
    (ch : chunk_header_t) (Image : Z) (p : SparseImgParam) :
    MW (EFI_STATUS * Z * SparseImgParam) (EFI_STATUS * Z * SparseImgParam) :=
  if Image =? 0 then early (EFI_INVALID_PARAMETER, Image, p) else
  if negb (total_sz ch =? chunk_hdr_sz sh + 4)
  then early (EFI_INVALID_PARAMETER, Image, p) else
  a ← ask (fun x => AllocateZeroPool x (blk_sz sh));
  if negb a then early (EFI_OUT_OF_RESOURCES, Image, p) else
  if CHECK_ADD64 Image 4 then early (EFI_INVALID_PARAMETER, Image, p) else
  if ImageEnd p <? Image + 4 then early (EFI_INVALID_PARAMETER, Image, p) else
  FillVal ← need OutOfBounds (buf_read img (Image - base) 4);
  let Image := Image + 4 in
  let FillBuf := fill_buf (blk_sz sh) FillVal in
  l ← for_up (Z.to_nat (chunk_sz ch)) 0 (EFI_SUCCESS, p) (fun _ l =>
        let p := l.2 in
        if PartitionSize p <? u64 (TotalBlocks p * blk_sz sh + blk_sz sh)
        then early (EFI_VOLUME_FULL, Image, p) else
        let p := set_WrittenBlockCount (u64 (TotalBlocks p * BlockCountFactor p)) p in
        Status ← call (WriteToDisk (sp_BlockIo p) (sp_Handle p) FillBuf (blk_sz sh)
                         (WrittenBlockCount p));
        if EFI_ERROR Status then early (Status, Image, p) else
        mret (false, (Status, set_TotalBlocks (u32 (TotalBlocks p + 1)) p)));
  mret (l.1, Image, l.2).

Definition ValidateChunkDataAndFlash (base : Z) (img : list Z) (sh : sparse_header_t)
    (ch : chunk_header_t) (Image : Z) (p : SparseImgParam) :
    MW (EFI_STATUS * Z * SparseImgParam) (EFI_STATUS * Z * SparseImgParam) :=
  if Image =? 0 then early (EFI_INVALID_PARAMETER, Image, p) else
  if chunk_type ch =? CHUNK_TYPE_RAW then
    r ← call (HandleChunkTypeRaw base img sh ch Image p);
    if EFI_ERROR r.1.1 then early r else mret (EFI_SUCCESS, r.1.2, r.2)
  else if chunk_type ch =? CHUNK_TYPE_FILL then
    r ← call (HandleChunkTypeFill base img sh ch Image p);
    if EFI_ERROR r.1.1 then early r else mret (EFI_SUCCESS, r.1.2, r.2)
  else if chunk_type ch =? CHUNK_TYPE_DONT_CARE then
    if MAX_UINT32 - chunk_sz ch <? TotalBlocks p
    then early (EFI_INVALID_PARAMETER, Image, p) else
    mret (EFI_SUCCESS, Image, set_TotalBlocks (u32 (TotalBlocks p + chunk_sz ch)) p)
  else if chunk_type ch =? CHUNK_TYPE_CRC then
    if negb (total_sz ch =? chunk_hdr_sz sh) then early (EFI_INVALID_PARAMETER, Image, p) else
    if MAX_UINT32 - chunk_sz ch <? TotalBlocks p
    then early (EFI_INVALID_PARAMETER, Image, p) else
    let p := set_TotalBlocks (u32 (TotalBlocks p + chunk_sz ch)) p in
    if CHECK_ADD64 Image (ChunkDataSz p) then early (EFI_INVALID_PARAMETER, Image, p) else
    let Image := u64 (Image + u32 (ChunkDataSz p)) in
    if ImageEnd p <? Image then early (EFI_INVALID_PARAMETER, Image, p) else
    mret (EFI_SUCCESS, Image, p)
  else early (EFI_INVALID_PARAMETER, Image, p).

(** One round of the chunk loop; the locals are [Image] and the
    parameters. *)
Definition sparse_chunk (base : Z) (img : list Z) (sh : sparse_header_t) (_ : Z)
    (l : Z * SparseImgParam) : MW EFI_STATUS (bool * (Z * SparseImgParam)) :=
  let '(Image, p) := l in
  if PartitionSize p <=? u64 (TotalBlocks p * blk_sz sh) then early EFI_VOLUME_FULL else
  if CHECK_ADD64 Image CHUNK_HEADER_SIZE then early EFI_INVALID_PARAMETER else
  let hdr := Image in
  let Image := Image + CHUNK_HEADER_SIZE in
  if ImageEnd p <? Image then early EFI_BAD_BUFFER_SIZE else
  b ← need OutOfBounds (buf_read img (hdr - base) CHUNK_HEADER_SIZE);
  let ch := chunk_header_of b in
  if negb (chunk_hdr_sz sh =? CHUNK_HEADER_SIZE) then early EFI_INVALID_PARAMETER else
  let p := set_ChunkDataSz (u64 (blk_sz sh * chunk_sz ch)) p in
  if PartitionSize p <? u64 (u64 (TotalBlocks p * blk_sz sh) + ChunkDataSz p)
  then early EFI_VOLUME_FULL else
  r ← call (ValidateChunkDataAndFlash base img sh ch Image p);
  if EFI_ERROR r.1.1 then early r.1.1 else mret (false, (r.1.2, r.2)).

Definition HandleSparseImgFlash (PartitionName_ : list Z) (base : Z) (img : list Z)
    (sz : Z) : MW EFI_STATUS EFI_STATUS :=
  if CHECK_ADD64 base sz then early EFI_INVALID_PARAMETER else
  let ImageEnd := base + sz in
  r ← call (PartitionGetInfo PartitionName_);
  if negb (r.1 =? EFI_SUCCESS) then early r.1 else
  match r.2 with
  | None => early EFI_VOLUME_CORRUPTED
  | Some h =>
      Size ← ask (fun x => GetPartitionSize x (Some h));
      if Size =? 0 then early EFI_BAD_BUFFER_SIZE else
      if sz <? SPARSE_HEADER_SIZE then early EFI_INVALID_PARAMETER else
      b ← need OutOfBounds (buf_read img 0 SPARSE_HEADER_SIZE);
      let sh := sparse_header_of b in
      if Size <? u64 (total_blks sh * blk_sz sh) then early EFI_VOLUME_FULL else
      let Image := base + SPARSE_HEADER_SIZE in
      if negb (file_hdr_sz sh =? SPARSE_HEADER_SIZE) then early EFI_BAD_BUFFER_SIZE else
      if blk_sz sh =? 0 then early EFI_INVALID_PARAMETER else
      BS ← ask (fun x => BlockSize (Media x h));
      if BS =? 0 then stop DivByZero else
      if negb (blk_sz sh mod BS =? 0) then early EFI_INVALID_PARAMETER else
      l ← for_up (Z.to_nat (total_chunks sh)) 0
            (Image, mkParam 0 0 ImageEnd 0 (blk_sz sh / BS) Size h h)
            (sparse_chunk base img sh);
      if negb (TotalBlocks l.2 =? total_blks sh) then mret EFI_VOLUME_CORRUPTED
      else
        Status ← act (fun x => FlushBlocks x h);
        if negb (Status =? EFI_SUCCESS) then mret EFI_DEVICE_ERROR else mret EFI_SUCCESS
  end.
End Sparse.
