(* ===== verification/SparseSpec.v ===== *)
(** Flashing a sparse image is safe on any input, and when it succeeds the
    partition holds what the format says the image stands for. *)
From Stdlib Require Import ZArith Lia.
From stdpp Require Import base list numbers option.
From S2P Require Import Prelude EfiBase Firmware World LoaderLib Board Ptable Sparse.

(** ** Field ranges *)

Lemma field_bound b off n : Forall is_u8 b -> 0 <= field b off n < 2 ^ (8 * Z.of_nat n).
Proof.
  intros Hb. unfold field. assert (Hf : Forall is_u8 (take n (drop off b)))
    by (by apply Forall_take, Forall_drop).
  pose proof (le_get_bound _ Hf) as H. rewrite length_take, length_drop in H.
  split; [lia|]. eapply Z.lt_le_trans; [apply H|]. apply Z.pow_le_mono_r; lia.
Qed.

Lemma length_fill_buf blk v :
  0 <= blk -> length v = 4%nat -> Z.of_nat (length (fill_buf blk v)) = blk.
Proof.
  intros Hb Hv. unfold fill_buf. unfold zeros.
  rewrite length_app, length_concat, length_replicate.
  assert (Hs : forall n, list_sum (map length (replicate n v)) = (n * 4)%nat).
  { induction n as [|n IH]; [done|]. simpl. rewrite IH, Hv. lia. }
  rewrite Hs. pose proof (Z.div_mod blk 4). pose proof (Z.mod_pos_bound blk 4).
  assert (0 <= blk / 4) by (apply Z.div_pos; lia). lia.
Qed.

Lemma sparse_header_range b :
  Forall is_u8 b ->
  let sh := sparse_header_of b in
  0 <= blk_sz sh < 2 ^ 32 /\ 0 <= total_blks sh < 2 ^ 32 /\ 0 <= total_chunks sh < 2 ^ 32.
Proof.
  intros Hb. cbn. split_and!; apply (field_bound _ _ 4); done.
Qed.

Lemma chunk_header_range b :
  Forall is_u8 b ->
  let ch := chunk_header_of b in 0 <= chunk_sz ch < 2 ^ 32 /\ 0 <= total_sz ch < 2 ^ 32.
Proof. intros Hb. cbn. split_and!; apply (field_bound _ _ 4); done. Qed.

(** ** What a sparse image stands for

    [chunk_step blk ch b T c b' T' c']: with [T] blocks laid out so far and the
    partition holding [c], the chunk with header [ch] and the bytes [b] after
    it leaves the bytes [b'], brings the count to [T'] and the partition to
    [c']. *)
Inductive chunk_step (blk : Z) (ch : chunk_header_t) :
  list Z -> Z -> list Z -> list Z -> Z -> list Z -> Prop :=
| step_raw d rest T c c' :
    chunk_type ch = CHUNK_TYPE_RAW ->
    total_sz ch = CHUNK_HEADER_SIZE + blk * chunk_sz ch ->
    Z.of_nat (length d) = blk * chunk_sz ch ->
    buf_write c (T * blk) d = Some c' ->
    chunk_step blk ch (d ++ rest) T c rest (T + chunk_sz ch) c'
| step_fill v rest T c c' :
    chunk_type ch = CHUNK_TYPE_FILL -> total_sz ch = CHUNK_HEADER_SIZE + 4 ->
    length v = 4%nat ->
    buf_write c (T * blk) (concat (replicate (Z.to_nat (chunk_sz ch)) (fill_buf blk v)))
      = Some c' ->
    chunk_step blk ch (v ++ rest) T c rest (T + chunk_sz ch) c'
| step_dont_care rest T c :
    chunk_type ch = CHUNK_TYPE_DONT_CARE ->
    chunk_step blk ch rest T c rest (T + chunk_sz ch) c
(* a CRC chunk with no data of its own takes as much of the image as its blocks would *)
| step_crc skip rest T c :
    chunk_type ch = CHUNK_TYPE_CRC -> total_sz ch = CHUNK_HEADER_SIZE ->
    Z.of_nat (length skip) = u32 (blk * chunk_sz ch) ->
    chunk_step blk ch (skip ++ rest) T c rest (T + chunk_sz ch) c.

(** [n] chunks, each behind its header. *)
Inductive expands (blk : Z) : nat -> list Z -> Z -> list Z -> Z -> list Z -> Prop :=
| expands_0 b T c : expands blk 0 b T c T c
| expands_S n hd b b' T T1 T2 c c1 c2 :
    Z.of_nat (length hd) = CHUNK_HEADER_SIZE ->
    chunk_step blk (chunk_header_of hd) b T c b' T1 c1 ->
    expands blk n b' T1 c1 T2 c2 ->
    expands blk (S n) (hd ++ b) T c T2 c2.

(** The format itself: a chunk is as long as its header says ([total_sz]), and
    is raw data, a pattern or a gap.  [stands_for blk n b T c T' c']: the [n]
    chunks [b] begins with, laid out from block [T] on over the contents [c],
    end at block [T'] and leave [c']. *)
Inductive lays_out (blk : Z) (ch : chunk_header_t) (data : list Z) (T : Z) (c : list Z) : list Z -> Prop :=
| lays_raw c' :
    chunk_type ch = CHUNK_TYPE_RAW -> Z.of_nat (length data) = blk * chunk_sz ch ->
    buf_write c (T * blk) data = Some c' -> lays_out blk ch data T c c'
| lays_fill c' :
    chunk_type ch = CHUNK_TYPE_FILL -> length data = 4%nat ->
    buf_write c (T * blk) (concat (replicate (Z.to_nat (chunk_sz ch)) (fill_buf blk data))) = Some c' ->
    lays_out blk ch data T c c'
| lays_gap : chunk_type ch = CHUNK_TYPE_DONT_CARE -> data = [] -> lays_out blk ch data T c c.

Inductive stands_for (blk : Z) : nat -> list Z -> Z -> list Z -> Z -> list Z -> Prop :=
| stands_0 b T c : stands_for blk 0 b T c T c
| stands_S n hd data b T T' c c1 c' :
    Z.of_nat (length hd) = CHUNK_HEADER_SIZE ->
    total_sz (chunk_header_of hd) = CHUNK_HEADER_SIZE + Z.of_nat (length data) ->
    lays_out blk (chunk_header_of hd) data T c c1 ->
    stands_for blk n b (T + chunk_sz (chunk_header_of hd)) c1 T' c' ->
    stands_for blk (S n) (hd ++ data ++ b) T c T' c'.

(** None of the first [n] chunks is a CRC chunk, and gaps have no data. *)
Fixpoint no_crc (n : nat) (b : list Z) : bool :=
  match n with
  | O => true
  | S n =>
      let ch := chunk_header_of (take (Z.to_nat CHUNK_HEADER_SIZE) b) in
      negb (chunk_type ch =? CHUNK_TYPE_CRC) &&
      (negb (chunk_type ch =? CHUNK_TYPE_DONT_CARE) || (total_sz ch =? CHUNK_HEADER_SIZE)) &&
      no_crc n (drop (Z.to_nat (total_sz ch)) b)
  end.

Lemma expands_stands blk n b T c T' c' :
  expands blk n b T c T' c' -> no_crc n b = true -> stands_for blk n b T c T' c'.
Proof.
  induction 1 as [|n hd b b' T T1 T2 c c1 c2 Hl Hst _ IH]; [constructor|].
  cbn [no_crc]. rewrite take_app_length' by lia.
  rewrite !andb_true_iff, negb_true_iff, orb_true_iff, negb_true_iff, Z.eqb_neq, Z.eqb_eq.
  rewrite Z.eqb_neq. intros [[Hc Hg] Hn].
  assert (Hdrop : forall data, total_sz (chunk_header_of hd) = CHUNK_HEADER_SIZE + Z.of_nat (length data) ->
    drop (Z.to_nat (total_sz (chunk_header_of hd))) (hd ++ data ++ b') = b').
  { intros data Ht. rewrite app_assoc. apply drop_app_length'. rewrite length_app. lia. }
  inversion Hst; subst; try done.
  - rewrite (Hdrop d) in Hn by lia. eapply stands_S; [done|lia|by apply lays_raw|by apply IH].
  - rewrite (Hdrop v) in Hn by lia. eapply stands_S; [done|lia|by apply lays_fill|by apply IH].
  - destruct Hg as [|Hg]; [done|]. pose proof (Hdrop []) as E. cbn [app length] in E.
    rewrite E in Hn by lia.
    eapply (stands_S blk n hd []); [done|cbn [length]; lia|by apply lays_gap|by apply IH].
Qed.

(** The relation from the other end, for the loop. *)
Inductive expands_to (blk : Z) (b0 : list Z) (c0 : list Z) : nat -> list Z -> Z -> list Z -> Prop :=
| expands_to_0 : expands_to blk b0 c0 0 b0 0 c0
| expands_to_S n hd b b' T T1 c c1 :
    expands_to blk b0 c0 n (hd ++ b) T c ->
    Z.of_nat (length hd) = CHUNK_HEADER_SIZE ->
    chunk_step blk (chunk_header_of hd) b T c b' T1 c1 ->
    expands_to blk b0 c0 (S n) b' T1 c1.

Lemma expands_to_expands blk b0 c0 n b T c :
  expands_to blk b0 c0 n b T c ->
  forall m T' c', expands blk m b T c T' c' -> expands blk (n + m) b0 0 c0 T' c'.
Proof.
  induction 1 as [|n hd b b' T T1 c c1 _ IH Hl Hs]; intros m T' c' H; [done|].
  replace (S n + m)%nat with (n + S m)%nat by lia. apply IH. by eapply expands_S.
Qed.

(** ** Safety and meaning *)

Section Safety.
Context `{F : Firmware} `{!BlockIoLaws F} `{!PlatformLaws F}.

(** The parameters that stay the same during a flash. *)
Definition same_param (p q : SparseImgParam) : Prop :=
  ImageEnd q = ImageEnd p /\ BlockCountFactor q = BlockCountFactor p /\
  PartitionSize q = PartitionSize p /\ sp_BlockIo q = sp_BlockIo p /\ sp_Handle q = sp_Handle p.
#[export] Instance same_param_po : PreOrder same_param.
Proof. split; [by repeat split|]. unfold same_param. intros x y z. intuition congruence. Qed.

(** The image, and where the parser stands in it. *)
Record img_ok (base : Z) (img : list Z) (sz : Z) : Prop := {
  io_base : 0 < base;
  io_end : base + sz < 2 ^ 64;
  io_size : 0 <= sz < 2 ^ 32;
  io_len : sz <= Z.of_nat (length img);
  io_u8 : Forall is_u8 img;
}.

Definition param_ok (base sz : Z) (w : World) (Image : Z) (p : SparseImgParam) : Prop :=
  ImageEnd p = base + sz /\ base <= Image <= base + sz /\
  granule_ok w (sp_BlockIo p) (Some (sp_Handle p)).

(** The bytes of the image from an address on. *)
Definition rest_at (base sz : Z) (img : list Z) (addr : Z) : list Z :=
  drop (Z.to_nat (addr - base)) (take (Z.to_nat sz) img).

Definition disk (w : World) (p : SparseImgParam) : list Z := Contents (fw w) (sp_BlockIo p).
Definition dev_block (w : World) (p : SparseImgParam) : Z :=
  BlockSize (Media (fw w) (sp_BlockIo p)).

(** The device matches the parameters, and has fewer than [2 ^ 32] blocks. *)
Record linked (blk : Z) (w : World) (p : SparseImgParam) : Prop := {
  ln_nand : StoredRootDevice (lb w) <> NAND;
  ln_block : 0 < dev_block w p;
  ln_factor : 0 < BlockCountFactor p;
  ln_blk : blk = BlockCountFactor p * dev_block w p;
  ln_size : PartitionSize p = Z.of_nat (length (disk w p));
  ln_max : PartitionSize p < 2 ^ 32 * dev_block w p;
  ln_64 : PartitionSize p < 2 ^ 64;
  ln_T : 0 <= TotalBlocks p < 2 ^ 32;
}.

Lemma linked_step blk w p w' q :
  linked blk w p -> io_post w w' -> same_param p q -> 0 <= TotalBlocks q < 2 ^ 32 ->
  length (disk w' q) = length (disk w p) -> linked blk w' q.
Proof.
  intros [H1 H2 H3 H4 H5 H6 H7 H8] [(_ & _ & _ & El & _) (_ & _ & EM & _)]
    (_ & E1 & E2 & E3 & _) HT Hd.
  unfold dev_block in *.
  split; unfold dev_block; rewrite ?El, ?EM, ?E1, ?E2, ?E3, ?Hd; done.
Qed.

(** One write of a flash: it ends, and on success the bytes are there. *)
Lemma wp_WriteToDisk {R} b h im size off w (E : R -> World -> Prop) :
  granule_ok w b (Some h) -> 0 <= size < 2 ^ 32 -> size <= Z.of_nat (length im) ->
  wp (call (WriteToDisk b h im size off)) E (fun st w' => io_post w w' /\
    (EFI_ERROR st = false -> StoredRootDevice (lb w) <> NAND ->
     0 <= off -> off * BlockSize (Media (fw w) b) <= Z.of_nat (length (Contents (fw w) b)) ->
     Z.of_nat (length (Contents (fw w) b)) < 2 ^ 64 ->
     buf_write (Contents (fw w) b) (off * BlockSize (Media (fw w) b)) (take (Z.to_nat size) im)
       = Some (Contents (fw w') b))) w.
Proof.
  intros Hg Hs Hl. pose proof (wp_write_no_flush w b (Some h) off size im Hg Hs Hl) as H.
  apply wp_run in H as (st & w' & Hrun & Hp & Hst). apply wp_call.
  change (wp (WriteToDisk b h im size off)) with
    (wp (WriteBlockToPartitionNoFlush (Some b) (Some h) off size (Some im))).
  apply wp_run. exists st, w'. split; [done|]. split; [done|].
  intros He Hn Ho Hob Hlen. specialize (Hst Hn He). subst st.
  assert (Hgr : granule w b (Some h) = Some (BlockSize (Media (fw w) b))).
  { unfold granule. by rewrite bool_decide_eq_false_2. }
  destruct (Hg _ Hgr) as ((k & Hk & Ek) & Hlt & HB & Hdv).
  destruct (decide (size = 0)) as [->|Hne].
  - assert (w' = w) as ->; [|].
    { revert Hrun. unfold run, call, WriteBlockToPartitionNoFlush, ask. munfold.
      rewrite bool_decide_eq_false_2 by done. munfold.
      destruct (Z.eqb_spec (BlockSize (Media (fw w) b)) 0); [lia|].
      rewrite Z.div_0_l, Z.mul_0_l by lia. change (u32 0) with 0. cbn. by intros [= <-]. }
    apply buf_write_nil. nia.
  - destruct (write_no_flush_ok w b (Some h) off size im w' _ k Hgr) as (d & Hd & Hw);
      try done; [lia|]. apply buf_read_Some in Hd as (_ & _ & _ & ->).
    by rewrite drop_0 in Hw.
Qed.

(** What handling one chunk guarantees: nothing else is touched, the parser
    stays inside the image, and on a device that matches the parameters the
    chunk has its meaning. *)
Definition chunk_meaning (base sz : Z) (img : list Z) (sh : sparse_header_t)
    (ch : chunk_header_t) (w : World) (Image : Z) (p : SparseImgParam) (Image' : Z)
    (p' : SparseImgParam) (w' : World) : Prop :=
  linked (blk_sz sh) w p -> TotalBlocks p * blk_sz sh <= PartitionSize p ->
  chunk_hdr_sz sh = CHUNK_HEADER_SIZE -> ChunkDataSz p = blk_sz sh * chunk_sz ch ->
  0 <= chunk_sz ch ->
  0 <= TotalBlocks p' < 2 ^ 32 /\ length (disk w' p) = length (disk w p) /\
  chunk_step (blk_sz sh) ch (rest_at base sz img Image) (TotalBlocks p) (disk w p)
    (rest_at base sz img Image') (TotalBlocks p') (disk w' p).

Definition chunk_post (base sz : Z) (img : list Z) (sh : sparse_header_t)
    (ch : chunk_header_t) (w : World) (Image : Z) (p : SparseImgParam)
    (r : EFI_STATUS * Z * SparseImgParam) (w' : World) : Prop :=
  io_post w w' /\ same_param p r.2 /\
  (EFI_ERROR r.1.1 = false -> base <= r.1.2 <= base + sz /\
    chunk_meaning base sz img sh ch w Image p r.1.2 r.2 w').

Lemma chunk_post_err base sz img sh ch w Image p st Image' q w' :
  io_post w w' -> same_param p q -> EFI_ERROR st = true ->
  chunk_post base sz img sh ch w Image p (st, Image', q) w'.
Proof. intros Hp Hs He. split; [done|]. split; [done|]. cbn [fst snd]. by rewrite He. Qed.

Lemma rest_at_split base sz img Image n :
  base <= Image -> 0 <= n -> Image + n <= base + sz -> sz <= Z.of_nat (length img) ->
  rest_at base sz img Image =
    take (Z.to_nat n) (at_addr base img Image) ++ rest_at base sz img (Image + n).
Proof.
  intros HI Hn He Hl. unfold rest_at, at_addr.
  replace (Z.to_nat (Image + n - base)) with (Z.to_nat (Image - base) + Z.to_nat n)%nat by lia.
  rewrite <- drop_drop, !skipn_firstn_comm.
  rewrite <- (take_drop (Z.to_nat n) (take _ (drop (Z.to_nat (Image - base)) img))) at 1.
  f_equal; [rewrite take_take; f_equal; lia|]. rewrite skipn_firstn_comm, drop_drop.
  by f_equal.
Qed.

(** The block number a write is addressed to. *)
Lemma write_offset blk w p :
  linked blk w p -> blk < 2 ^ 32 ->
  0 <= u64 (TotalBlocks p * BlockCountFactor p) /\
  u64 (TotalBlocks p * BlockCountFactor p) * dev_block w p = TotalBlocks p * blk.
Proof.
  intros [_ Hb Hf Hblk _ _ _ HT] Hlt. subst blk.
  rewrite u64_small by nia. nia.
Qed.

Lemma wp_HandleChunkTypeRaw base img sz sh ch w Image p :
  chunk_type ch = CHUNK_TYPE_RAW ->
  img_ok base img sz -> param_ok base sz w Image p -> 0 <= ChunkDataSz p ->
  0 <= blk_sz sh < 2 ^ 32 ->
  wp (HandleChunkTypeRaw base img sh ch Image p) (chunk_post base sz img sh ch w Image p)
    (chunk_post base sz img sh ch w Image p) w.
Proof.
  intros Hty [Hb He Hs Hl _] (Hend & HI & Hg) Hc Hblk. unfold HandleChunkTypeRaw.
  do 4 (wp_step; [apply wp_early; by apply chunk_post_err|]).
  apply CHECK_ADD64_false in Heqb1. apply Z.ltb_ge in Heqb2. rewrite Hend in Heqb2. cbn zeta.
  wp_step. eapply wp_mono.
  { apply (wp_WriteToDisk (R := EFI_STATUS * Z * SparseImgParam)); [exact Hg|cbn; lia|].
    cbn. unfold at_addr. rewrite length_drop. lia. }
  { intros ? ? HE; exact HE. }
  intros st w1 [H1 Hw]. wp_step; [apply wp_early; by apply chunk_post_err|].
  wp_step; [apply wp_early; by apply chunk_post_err|].
  apply wp_ret. split; [done|]. split; [done|]. intros _. split; [cbn; lia|].
  intros Hln HT Hch HD Hk. cbn [fst snd set_TotalBlocks set_WrittenBlockCount TotalBlocks
    ChunkDataSz WrittenBlockCount sp_BlockIo sp_Handle] in *.
  pose proof (write_offset _ _ _ Hln (proj2 Hblk)) as [Ho1 Ho2].
  pose proof Hln as [? ? ? ? HL ? ? ?]. unfold dev_block in Ho2. rewrite HL in HT.
  assert (Hd : buf_write (disk w p) (TotalBlocks p * blk_sz sh)
    (take (Z.to_nat (ChunkDataSz p)) (at_addr base img Image)) = Some (disk w1 p)).
  { unfold disk in *. rewrite <- Ho2. apply Hw; try done; lia. }
  apply Z.ltb_ge in Heqb4. unfold MAX_UINT32 in Heqb4. rewrite u32_small by lia.
  split; [lia|]. split; [by eapply length_buf_write|].
  rewrite (rest_at_split base sz img Image (ChunkDataSz p)) by lia.
  apply step_raw; [done| | |exact Hd].
  - apply negb_false_iff, Z.eqb_eq in Heqb0. rewrite Heqb0, u64_small by (unfold CHUNK_HEADER_SIZE in *; lia). lia.
  - unfold at_addr. rewrite length_take, length_drop. lia.
Qed.

(** The fill loop after [i] blocks. *)
Definition fill_inv (sh : sparse_header_t) (v : list Z) (w : World) (p : SparseImgParam)
    (i : Z) (q : SparseImgParam) (w' : World) : Prop :=
  io_post w w' /\ same_param p q /\
  (linked (blk_sz sh) w p -> TotalBlocks p * blk_sz sh <= PartitionSize p ->
    TotalBlocks q = TotalBlocks p + i /\ TotalBlocks p + i < 2 ^ 32 /\
    buf_write (disk w p) (TotalBlocks p * blk_sz sh)
      (concat (replicate (Z.to_nat i) (fill_buf (blk_sz sh) v))) = Some (disk w' p)).

Lemma fill_step sh v w p i q w1 w2 :
  fill_inv sh v w p i q w1 -> 0 <= i -> 0 <= blk_sz sh < 2 ^ 32 -> length v = 4%nat ->
  io_post w1 w2 ->
  u64 (TotalBlocks q * blk_sz sh + blk_sz sh) <= PartitionSize q ->
  (StoredRootDevice (lb w1) <> NAND ->
   0 <= u64 (TotalBlocks q * BlockCountFactor q) ->
   u64 (TotalBlocks q * BlockCountFactor q) * dev_block w1 q <= Z.of_nat (length (disk w1 q)) ->
   Z.of_nat (length (disk w1 q)) < 2 ^ 64 ->
   buf_write (disk w1 q) (u64 (TotalBlocks q * BlockCountFactor q) * dev_block w1 q)
     (fill_buf (blk_sz sh) v) = Some (disk w2 q)) ->
  fill_inv sh v w p (i + 1) (set_TotalBlocks (u32 (TotalBlocks q + 1))
    (set_WrittenBlockCount (u64 (TotalBlocks q * BlockCountFactor q)) q)) w2.
Proof.
  intros (H1 & Hq & Hf) Hi Hblk Hv H2 Hfit Hw.
  split; [exact (transitivity H1 H2)|]. split; [exact Hq|].
  intros Hln HT. destruct (Hf Hln HT) as (HTq & Hlt & Hc). cbn [TotalBlocks set_TotalBlocks].
  assert (Hlen : length (disk w1 q) = length (disk w p)).
  { unfold disk in *. destruct Hq as (_ & _ & _ & -> & _). by eapply length_buf_write. }
  assert (Hln' : linked (blk_sz sh) w1 q).
  { eapply linked_step; [exact Hln|exact H1|exact Hq| |exact Hlen]. destruct Hln; lia. }
  pose proof (write_offset _ _ _ Hln' (proj2 Hblk)) as [Ho1 Ho2].
  pose proof Hln' as [Hn Hb Hfa HB HL Hm H64 HT2].
  rewrite u64_small in Hfit by nia.
  rewrite Ho2 in Hw. specialize (Hw Hn Ho1 ltac:(nia) ltac:(lia)).
  assert (TotalBlocks q + 1 < 2 ^ 32) by nia.
  rewrite u32_small by lia. split; [lia|]. split; [lia|].
  replace (Z.to_nat (i + 1)) with (Z.to_nat i + 1)%nat by lia.
  rewrite replicate_add, concat_app. simpl. rewrite app_nil_r.
  eapply buf_write_app; [exact Hc|].
  assert (Hq4 : disk w1 p = disk w1 q /\ disk w2 p = disk w2 q).
  { unfold disk. destruct Hq as (_ & _ & _ & -> & _). done. }
  destruct Hq4 as [-> ->]. rewrite <- Hw. f_equal.
  assert (Hcl : Z.of_nat (length (concat (replicate (Z.to_nat i) (fill_buf (blk_sz sh) v))))
    = i * blk_sz sh).
  { rewrite <- (Z2Nat.id i) at 2 by done. generalize (Z.to_nat i) as n. induction n as [|n IH]; [done|].
    simpl. rewrite length_app, Nat2Z.inj_add, IH, length_fill_buf by (done || lia). lia. }
  rewrite Hcl, HTq. lia.
Qed.

Lemma wp_HandleChunkTypeFill base img sz sh ch w Image p :
  chunk_type ch = CHUNK_TYPE_FILL ->
  img_ok base img sz -> param_ok base sz w Image p -> 0 <= blk_sz sh < 2 ^ 32 ->
  0 <= chunk_sz ch ->
  wp (HandleChunkTypeFill base img sh ch Image p) (chunk_post base sz img sh ch w Image p)
    (chunk_post base sz img sh ch w Image p) w.
Proof.
  intros Hty [Hb He Hs Hl _] (Hend & HI & Hg) Hblk Hk. unfold HandleChunkTypeFill.
  do 2 (wp_step; [apply wp_early; by apply chunk_post_err|]).
  wp_step. unfold wp at 1, ask. cbn beta.
  do 3 (wp_step; [apply wp_early; by apply chunk_post_err|]).
  apply Z.ltb_ge in Heqb3. rewrite Hend in Heqb3.
  destruct (buf_read_in_range img (Image - base) 4) as (v & Hv & Hlv); [lia..|].
  wp_step. eapply wp_need; [exact Hv|]. cbn zeta. wp_step.
  apply wp_for_up with (I := fun i l w' => fill_inv sh v w p i l.2 w').
  - split; [reflexivity|]. split; [reflexivity|]. intros Hln HT. cbn [fst snd].
    split; [lia|]. split; [destruct Hln; lia|]. apply buf_write_nil. destruct Hln. nia.
  - intros i [st0 q] w1 Hi Hinv. pose proof Hinv as (H1 & Hq & _). cbn [fst snd] in *.
    wp_step; [apply wp_early; by apply chunk_post_err|]. cbn zeta. wp_step.
    eapply wp_mono.
    { apply wp_WriteToDisk with (E := chunk_post base sz img sh ch w Image p).
      - cbn. destruct Hq as (_ & _ & _ & -> & ->). by eapply granule_ok_post.
      - done.
      - rewrite length_fill_buf; lia. }
    { done. }
    intros st w2 [H2 Hw]. pose proof (transitivity H1 H2) as H12.
    wp_step; [apply wp_early; by apply chunk_post_err|]. apply wp_ret. cbn [fst snd].
    apply Z.ltb_ge in Heqb4. apply (fill_step sh v w p i q w1 w2); try done; [lia|lia|].
    intros. rewrite take_ge in Hw by (pose proof (length_fill_buf (blk_sz sh) v); lia).
    by apply Hw.
  - intros [st0 q] w1 (H1 & Hq & Hf). cbn [fst snd] in *. apply wp_ret. split; [done|]. split; [done|].
    intros _. split; [cbn; lia|]. intros Hln HT Hch HD _.
    destruct (Hf Hln HT) as (HTq & Hlt & Hc). cbn [fst snd]. rewrite HTq.
    rewrite Z.add_0_l, Z2Nat.id in * by lia. split; [destruct Hln; lia|].
    split; [by eapply length_buf_write|].
    rewrite (rest_at_split base sz img Image 4) by lia.
    apply negb_false_iff, Z.eqb_eq in Heqb0.
    apply buf_read_Some in Hv as (_ & _ & _ & Hv). unfold at_addr. rewrite <- Hv.
    apply step_fill; [done|lia|lia|exact Hc].
Qed.

Lemma wp_ValidateChunk base img sz sh ch w Image p :
  img_ok base img sz -> param_ok base sz w Image p -> 0 <= ChunkDataSz p ->
  0 <= blk_sz sh < 2 ^ 32 -> 0 <= chunk_sz ch < 2 ^ 32 ->
  wp (ValidateChunkDataAndFlash base img sh ch Image p)
    (chunk_post base sz img sh ch w Image p) (chunk_post base sz img sh ch w Image p) w.
Proof.
  intros Hi Hp Hc Hblk Hk. pose proof Hi as [Hb He Hs Hl _]. pose proof Hp as (Hend & HI & Hg).
  unfold ValidateChunkDataAndFlash.
  wp_step; [apply wp_early; by apply chunk_post_err|].
  wp_step.
  { apply Z.eqb_eq in Heqb0. wp_step. eapply wp_call_mono; [by apply wp_HandleChunkTypeRaw|].
    intros r w1 H1. cbn beta in H1. wp_step; [by apply wp_early|]. apply wp_ret.
    destruct H1 as (? & ? & H1). split; [done|]. split; [done|]. intros _. by apply H1. }
  wp_step.
  { apply Z.eqb_eq in Heqb1. wp_step.
    eapply wp_call_mono; [apply wp_HandleChunkTypeFill; done || lia|].
    intros r w1 H1. cbn beta in H1. wp_step; [by apply wp_early|]. apply wp_ret.
    destruct H1 as (? & ? & H1). split; [done|]. split; [done|]. intros _. by apply H1. }
  wp_step.
  { apply Z.eqb_eq in Heqb2. wp_step; [apply wp_early; by apply chunk_post_err|]. apply wp_ret.
    split; [reflexivity|]. split; [done|]. intros _. split; [done|].
    intros Hln _ _ _ _. apply Z.ltb_ge in Heqb3. unfold MAX_UINT32 in Heqb3.
    cbn [fst snd set_TotalBlocks TotalBlocks]. destruct Hln.
    rewrite u32_small by lia. split; [lia|]. split; [done|]. by apply step_dont_care. }
  wp_step; [|apply wp_early; by apply chunk_post_err].
  do 2 (wp_step; [apply wp_early; by apply chunk_post_err|]). cbn zeta.
  wp_step; [apply wp_early; by apply chunk_post_err|].
  wp_step; [apply wp_early; by apply chunk_post_err|].
  apply CHECK_ADD64_false in Heqb6. apply Z.ltb_ge in Heqb7. cbn in Heqb6, Heqb7.
  apply Z.eqb_eq in Heqb3. apply negb_false_iff, Z.eqb_eq in Heqb4.
  assert (0 <= u32 (ChunkDataSz p) <= ChunkDataSz p)
    by (split; [apply u32_range|apply Z.mod_le; lia]).
  unfold MAX_UINT64 in *. rewrite u64_small in Heqb7 by lia.
  apply wp_ret. split; [reflexivity|]. split; [done|]. intros _.
  cbn [fst snd set_TotalBlocks TotalBlocks ChunkDataSz]. rewrite u64_small by lia.
  split; [lia|]. intros Hln _ Hch HD _. apply Z.ltb_ge in Heqb5. unfold MAX_UINT32 in Heqb5.
  destruct Hln. rewrite (u32_small (TotalBlocks p + _)) by lia.
  cbn [TotalBlocks set_TotalBlocks]. split; [lia|]. split; [done|].
  rewrite (rest_at_split base sz img Image (u32 (ChunkDataSz p))) by lia.
  apply step_crc; [done|congruence|]. unfold at_addr. rewrite length_take, length_drop. rewrite <- HD. lia.
Qed.

(** ** The chunk loop *)

(** The state of the loop after [n] chunks: inside the image, and on a device
    that matches the header the chunks so far have their meaning. *)
Definition loop_inv (base sz : Z) (img : list Z) (blk : Z) (w : World) (p0 : SparseImgParam)
    (n : Z) (l : Z * SparseImgParam) (w' : World) : Prop :=
  io_post w w' /\ param_ok base sz w' l.1 l.2 /\ same_param p0 l.2 /\
  (linked blk w p0 -> TotalBlocks p0 = 0 -> linked blk w' l.2 /\
    expands_to blk (rest_at base sz img (base + SPARSE_HEADER_SIZE)) (disk w p0)
      (Z.to_nat n) (rest_at base sz img l.1) (TotalBlocks l.2) (disk w' l.2)).

Lemma wp_sparse_chunk base img sz sh w p0 n l w1 :
  img_ok base img sz -> 0 <= blk_sz sh < 2 ^ 32 -> 0 <= n ->
  loop_inv base sz img (blk_sz sh) w p0 n l w1 ->
  wp (sparse_chunk base img sh n l) (fun st w' => io_post w w' /\ st <> EFI_SUCCESS)
    (fun r w' => r.1 = false /\ loop_inv base sz img (blk_sz sh) w p0 (n + 1) r.2 w') w1.
Proof.
  intros Hi Hblk Hn (H1 & Hp & Hsame & Hmean). destruct l as [Image p]. cbn [fst snd] in *.
  pose proof Hi as [Hb He Hs Hl Hu]. pose proof Hp as (Hend & HI & Hg).
  assert (Herr : forall st, st <> EFI_SUCCESS -> io_post w w1 /\ st <> EFI_SUCCESS) by done.
  unfold sparse_chunk. do 2 (wp_step; [apply wp_early; by apply Herr|]). cbn zeta.
  wp_step; [apply wp_early; by apply Herr|]. apply Z.ltb_ge in Heqb1. rewrite Hend in Heqb1.
  destruct (buf_read_in_range img (Image - base) CHUNK_HEADER_SIZE) as (h & Hh & Hlh);
    [unfold CHUNK_HEADER_SIZE in *; lia..|].
  destruct (chunk_header_range h) as (Hcs & _); [by eapply buf_read_u8|].
  wp_step. eapply wp_need; [exact Hh|]. cbn zeta.
  do 2 (wp_step; [apply wp_early; by apply Herr|]). wp_step.
  set (p1 := set_ChunkDataSz _ p) in *.
  assert (Hp1 : param_ok base sz w1 (Image + CHUNK_HEADER_SIZE) p1).
  { split; [done|]. split; [unfold CHUNK_HEADER_SIZE in *; lia|done]. }
  eapply wp_call_mono; [apply (wp_ValidateChunk base img sz); [exact Hi|exact Hp1|apply u64_range|done|done]|].
  intros r w2 (H2 & Hq & Hr). cbn beta in *. pose proof (transitivity H1 H2) as H12.
  wp_step; [apply wp_early; split; [done|by apply EFI_ERROR_not_success]|]. apply wp_ret.
  destruct (Hr eq_refl) as [HI' Hm]. split; [done|]. unfold loop_inv. cbn [fst snd].
  assert (Hq' : same_param p r.2) by exact Hq.
  split; [done|]. split.
  { destruct Hq' as (E1 & _ & _ & E2 & E3). split; [congruence|]. split; [done|].
    rewrite E2, E3. by apply (granule_ok_post w1 w2). }
  split; [exact (transitivity Hsame Hq')|]. intros Hln0 HT0.
  destruct (Hmean Hln0 HT0) as [Hln Hex]. pose proof Hln as [Hna HB Hfac Hbk HL Hmx H64 HT].
  apply Z.leb_gt in Heqb. apply negb_false_iff, Z.eqb_eq in Heqb2.
  rewrite u64_small in Heqb by (by apply mul_u32).
  destruct Hm as (HT' & Hlen & Hstep).
  - constructor; assumption.
  - cbn. lia.
  - done.
  - cbn. by apply u64_small, mul_u32.
  - lia.
  - assert (Ed : disk w1 p1 = disk w1 p /\ disk w2 p1 = disk w2 r.2).
    { unfold disk. destruct Hq' as (_ & _ & _ & -> & _). done. }
    destruct Ed as [Ed1 Ed2]. rewrite Ed1, Ed2 in *. split.
    + eapply linked_step; [exact Hln|exact H2|exact Hq'|done|done].
    + replace (Z.to_nat (n + 1)) with (S (Z.to_nat n)) by lia.
      rewrite (rest_at_split base sz img Image CHUNK_HEADER_SIZE) in Hex
        by (unfold CHUNK_HEADER_SIZE in *; lia).
      apply buf_read_Some in Hh as (_ & _ & _ & Hh). unfold at_addr in Hex. rewrite <- Hh in Hex.
      eapply expands_to_S; [exact Hex|done|exact Hstep].
Qed.

(** The handle tables cover what [PartitionGetInfo] walks over. *)
Definition ptable_ok (w : World) : Prop :=
  Z.of_nat (length (Ptable (pt w))) < 2 ^ 16 /\
  (if LunSet (fb w) then 0 <= Lun (fb w) < Z.of_nat (length (Ptable (pt w)))
   else 0 <= MaxLuns (pt w) <= Z.of_nat (length (Ptable (pt w)))) /\
  Forall (fun s => 0 <= MaxHandles s <= Z.of_nat (length (HandleInfoList s))) (Ptable (pt w)).

(** The handle of a partition called [name]. *)
Definition is_partition (w : World) (name : list Z) (h : Z) : Prop :=
  exists e, PartitionRecord (fw w) h = Some e /\ cstr name = cstr (PartitionName e).

(** The handles [PartitionGetInfo] looks at: those of the selected LUN, or of
    all LUNs. *)
Definition scanned_lun (w : World) (i : Z) : Prop :=
  if LunSet (fb w) then i = Lun (fb w) else 0 <= i < MaxLuns (pt w).
Definition scanned_at (w : World) (i j h : Z) : Prop :=
  exists s hi, Ptable (pt w) !! Z.to_nat i = Some s /\ HandleInfoList s !! Z.to_nat j = Some hi /\
    0 <= j < MaxHandles s /\ Handle hi = h.
Definition scanned (w : World) (h : Z) : Prop := exists i j, scanned_lun w i /\ scanned_at w i j h.

Definition info_post (w : World) (name : list Z) (r : EFI_STATUS * option Z) (w' : World) :
    Prop :=
  w' = w /\
  (r = (EFI_NOT_FOUND, None) /\ (forall h, scanned w h -> ~ is_partition w name h) \/
   exists h, r = (EFI_SUCCESS, Some h) /\ scanned w h /\ is_partition w name h).

Lemma not_partition w name h :
  match PartitionRecord (fw w) h with
  | Some (PartEntry) => StrCmp name (PartitionName PartEntry) <> 0
  | None => True
  end -> ~ is_partition w name h.
Proof. intros H (e & He & Hn). rewrite He in H. by apply H, StrCmp_eq0. Qed.

Lemma wp_PartitionGetInfo name w :
  ptable_ok w -> wp (PartitionGetInfo name) (info_post w name) (info_post w name) w.
Proof.
  intros (H16 & Hlun & Hall). unfold PartitionGetInfo. do 2 wp_step.
  set (se := if LunSet (fb w) then _ else _).
  assert (Hse : 0 <= se.1 /\ se.1 < 2 ^ 16 /\ se.2 <= Z.of_nat (length (Ptable (pt w))) /\
    forall i, scanned_lun w i <-> se.1 <= i < se.2).
  { subst se. unfold GetMaxLuns, scanned_lun. destruct (LunSet (fb w)); cbn [fst snd];
      [rewrite !u32_small by lia|]; split_and!; try lia; done. }
  destruct se as [a b]. cbn [fst snd] in Hse. destruct Hse as (Ha & Ha' & Hb & Hsc). cbn zeta.
  replace (u16 a) with a by (symmetry; apply Z.mod_small; lia). wp_step.
  apply wp_for_up with (I := fun i _ w' => w' = w /\
    forall i' j h, a <= i' < i -> scanned_at w i' j h -> ~ is_partition w name h).
  - split; [done|lia].
  - intros i ? ? Hi [-> Hno]. do 2 wp_step.
    destruct (lookup_lt_is_Some_2 (Ptable (pt w)) (Z.to_nat i)) as [s Hs]; [lia|].
    wp_step. eapply wp_need; [exact Hs|]. wp_step.
    pose proof (Forall_lookup_1 _ _ _ _ Hall Hs) as Hm. cbn beta in Hm.
    apply wp_for_up with (I := fun j _ w' => w' = w /\
      forall j' h, 0 <= j' < j -> scanned_at w i j' h -> ~ is_partition w name h).
    + split; [done|lia].
    + intros j ? ? Hj [-> Hno'].
      destruct (lookup_lt_is_Some_2 (HandleInfoList s) (Z.to_nat j)) as [h Hh]; [lia|].
      assert (Hat : scanned_at w i j (Handle h)) by (exists s, h; split_and!; [done..|lia|lia|done]).
      assert (Hnext : ~ is_partition w name (Handle h) ->
        forall j' h', 0 <= j' < j + 1 -> scanned_at w i j' h' -> ~ is_partition w name h').
      { intros Hn j' h' Hj'. destruct (decide (j' = j)) as [->|]; [|apply Hno'; lia].
        intros (s' & hi & Hs' & Hh' & _ & <-). by simplify_eq. }
      wp_step. eapply wp_need; [exact Hh|]. wp_step. unfold wp at 1, ask. cbn beta.
      pose proof (not_partition w name (Handle h)) as Hnp.
      destruct (PartitionRecord (fw w) (Handle h)) as [e|] eqn:Ee;
        [|apply wp_ret; split; [done|by apply Hnext, Hnp]].
      wp_step; bools; [|apply wp_ret; split; [done|by apply Hnext, Hnp]].
      apply wp_early. split; [done|]. right. exists (Handle h). split; [done|].
      split; [exists i, j; split; [apply Hsc; lia|done]|]. exists e. split; [done|].
      by apply StrCmp_eq0.
    + intros ? ? [-> Hno']. apply wp_ret. split; [done|]. intros i' j h Hi'.
      destruct (decide (i' = i)) as [->|]; [|apply Hno; lia]. intros Hat.
      apply (Hno' j); [|done]. destruct Hat as (s' & hi & Hs' & _ & Hj & _). simplify_eq. lia.
  - intros ? ? [-> Hno]. apply wp_ret. split; [done|]. left. split; [done|].
    intros h (i & j & Hi & Hat). apply Hsc in Hi. apply (Hno i j); [lia|done].
Qed.

(** Every device with a size has blocks, and a proper write granule. *)
Definition disk_ok (w : World) : Prop := forall h,
  GetPartitionSize (fw w) (Some h) <> 0 ->
  0 < BlockSize (Media (fw w) h) < 2 ^ 32 /\ granule_ok w h (Some h).

(** A device that is not NAND, shows as many bytes as its size says and has
    fewer than [2 ^ 32] blocks. *)
Record plain (w : World) (h : Z) : Prop := {
  pl_nand : StoredRootDevice (lb w) <> NAND;
  pl_size : GetPartitionSize (fw w) (Some h) = Z.of_nat (length (Contents (fw w) h));
  pl_max : GetPartitionSize (fw w) (Some h) < 2 ^ 32 * BlockSize (Media (fw w) h);
}.

(** The image was written to the partition of that name, chunk by chunk. *)
Definition flashed (w : World) (name img : list Z) (sz : Z) (w' : World) : Prop :=
  let sh := sparse_header_of (take 28 img) in
  exists h, is_partition w name h /\
    (plain w h ->
     expands (blk_sz sh) (Z.to_nat (total_chunks sh)) (drop 28 (take (Z.to_nat sz) img))
       0 (Contents (fw w) h) (total_blks sh) (Contents (fw w') h)).

Definition flash_post (w : World) (name img : list Z) (sz : Z) (st : EFI_STATUS) (w' : World) :
    Prop :=
  io_post w w' /\ (st = EFI_SUCCESS -> flashed w name img sz w').

Lemma start_linked w h sh Size :
  plain w h -> Size = GetPartitionSize (fw w) (Some h) ->
  0 < BlockSize (Media (fw w) h) < 2 ^ 32 -> 0 < blk_sz sh ->
  blk_sz sh mod BlockSize (Media (fw w) h) = 0 ->
  forall e, linked (blk_sz sh) w (mkParam 0 0 e 0 (blk_sz sh / BlockSize (Media (fw w) h)) Size h h).
Proof.
  intros [Hn Hs Hm] -> HB Hb Hmod e. set (BS := BlockSize (Media (fw w) h)) in *.
  pose proof (Z.div_mod (blk_sz sh) BS ltac:(lia)) as Hdm.
  rewrite Hmod, Z.add_0_r in Hdm.
  assert (0 < blk_sz sh / BS) by nia.
  assert (0 <= GetPartitionSize (fw w) (Some h)) by lia.
  constructor; cbn [TotalBlocks BlockCountFactor PartitionSize];
    unfold dev_block, disk; cbn [sp_BlockIo]; fold BS; try done; lia.
Qed.

(** Flashing any bytes as a sparse image ends with a status, without a fault;
    it leaves the loader's own state alone, and with success the image was
    written. *)
Lemma wp_HandleSparseImgFlash name base img sz w :
  img_ok base img sz -> ptable_ok w -> disk_ok w ->
  wp (HandleSparseImgFlash name base img sz) (flash_post w name img sz)
    (flash_post w name img sz) w.
Proof.
  intros Hi Hpt HBS. pose proof Hi as [Hb He Hs Hl Hu].
  assert (Herr : forall st w', io_post w w' -> st <> EFI_SUCCESS ->
    flash_post w name img sz st w') by (intros st w' H Hst; by split).
  assert (Hstop : forall st, st <> EFI_SUCCESS -> flash_post w name img sz st w)
    by (intros st; by apply Herr).
  unfold HandleSparseImgFlash. wp_step; [apply wp_early; by apply Hstop|]. cbn zeta. wp_step.
  eapply wp_call_mono; [by apply wp_PartitionGetInfo|]. intros r ? [-> Hr]. cbn beta in *.
  destruct Hr as [[-> _]|(h & -> & _ & Hpart)]; cbn [fst snd].
  { wp_step; [apply wp_early; by apply Hstop|done]. }
  rewrite Z.eqb_refl. cbn [negb].
  wp_step. unfold wp at 1, ask. wp_step; [apply wp_early; by apply Hstop|].
  apply Z.eqb_neq in Heqb0. destruct (HBS h Heqb0) as [HB Hg].
  wp_step; [apply wp_early; by apply Hstop|]. apply Z.ltb_ge in Heqb1.
  unfold SPARSE_HEADER_SIZE in Heqb1.
  destruct (buf_read_in_range img 0 SPARSE_HEADER_SIZE) as (hd & Hh & _);
    [unfold SPARSE_HEADER_SIZE in *; lia..|].
  wp_step. eapply wp_need; [exact Hh|]. cbn zeta.
  destruct (sparse_header_range hd) as (Hblk & _ & Hch); [by eapply buf_read_u8|].
  do 3 (wp_step; [apply wp_early; by apply Hstop|]).
  wp_step. unfold wp at 1, ask. wp_step; [apply Z.eqb_eq in Heqb5; lia|].
  wp_step; [apply wp_early; by apply Hstop|]. wp_step.
  set (sh := sparse_header_of hd) in *.
  set (p0 := mkParam _ _ _ _ _ _ _ _).
  apply wp_for_up with (I := fun n l w' => loop_inv base sz img (blk_sz sh) w p0 n l w').
  - split; [reflexivity|]. split; [|split; [reflexivity|]].
    + split; [done|]. cbn. unfold SPARSE_HEADER_SIZE. split; [lia|done].
    + intros Hln _. split; [exact Hln|]. apply expands_to_0.
  - intros n l w1 Hn Hinv. eapply wp_mono; [by apply wp_sparse_chunk; [..|lia|exact Hinv]| |].
    + intros st w2 [H2 Hst]. by apply Herr.
    + intros [[] l2] w2 (Hf & H2); [done|]. exact H2.
  - intros l w1 (H1 & _ & Hsame & Hmean).
    wp_step; [apply wp_ret; by apply Herr|]. apply negb_false_iff, Z.eqb_eq in Heqb7.
    wp_step. unfold wp at 1, act.
    pose proof (FlushBlocks_platform (fw w1) h) as Hfl.
    pose proof (FlushBlocks_contents (fw w1) h h) as Hfc.
    destruct (FlushBlocks (fw w1) h) as [st x]. cbn in Hfl, Hfc.
    assert (Hio : io_post w (set_fw x w1)).
    { etrans; [exact H1|]. split; [apply set_fw_globals|done]. }
    wp_step; [apply wp_ret; by apply Herr|]. apply wp_ret. split; [done|]. intros _.
    assert (Ehd : sparse_header_of (take 28 img) = sh).
    { subst sh. f_equal. by apply buf_read_Some in Hh as (_ & _ & _ & ->). }
    unfold flashed. rewrite Ehd. exists h. split; [done|]. intros Hpl.
    apply Z.eqb_neq in Heqb4. apply negb_false_iff, Z.eqb_eq in Heqb6.
    destruct Hmean as [_ Hex].
    { apply start_linked; try done. lia. }
    { done. }
    rewrite Z.add_0_l, Z2Nat.id in Hex by lia.
    pose proof (expands_to_expands _ _ _ _ _ _ _ Hex 0 _ _ (expands_0 _ _ _ _)) as Hfin.
    rewrite Nat.add_0_r in Hfin. rewrite <- Heqb7. cbn [fw set_fw]. rewrite Hfc.
    assert (Ed : disk w1 l.2 = Contents (fw w1) h).
    { unfold disk. destruct Hsame as (_ & _ & _ & -> & _). done. }
    rewrite Ed in Hfin. unfold rest_at in Hfin. unfold SPARSE_HEADER_SIZE in Hfin.
    by replace (Z.to_nat (base + 28 - base)) with 28%nat in Hfin by lia.
Qed.
End Safety.
