(* ===== verification/Recovery.v ===== *)
(** The messages on the misc partition ([Recovery.c]): the recovery command
    that decides what boots next, and the virtual A/B message that records
    whether a snapshot merge is under way.

    A buffer that was read from the device is its byte list; a pointer into it
    is an offset. *)
From Stdlib Require Import ZArith Lia.
From stdpp Require Import base list numbers option.
From S2P Require Import Prelude EfiBase Firmware World LoaderLib Board Ptable DevInfo Gpt.

Definition MISC_VIRTUAL_AB_MESSAGE_VERSION : Z := 2.
Definition MISC_VIRTUAL_AB_MAGIC_HEADER : Z := 0x56740AB0.
Definition MISC_VIRTUALAB_OFFSET : Z := 32 * 1024.

(** [VirtualAbMergeStatus] *)
Definition NONE_MERGE_STATUS : Z := 0.
Definition UNKNOWN_MERGE_STATUS : Z := 1.
Definition SNAPSHOTTED : Z := 2.
Definition MERGING : Z := 3.
Definition CANCELLED : Z := 4.

(** The offsets of the packed [MiscVirtualABMessage]. *)
Definition AB_Version : Z := 0.
Definition AB_Magic : Z := 1.
Definition AB_MergeStatus : Z := 5.

Definition RECOVERY_BOOT_RECOVERY : list Z := Eval cbv in L "boot-recovery".
Definition RECOVERY_BOOT_FASTBOOT : list Z := Eval cbv in L "boot-fastboot".
Definition RECOVERY_MESSAGE_SIZE : Z :=
  RECOVERY_COMMAND_SIZE + RECOVERY_STATUS_SIZE + RECOVERY_RECOVERY_SIZE.

Section Recovery.
Context `{F : Firmware} `{B : BuildConfig}.

(** The query for the one partition of a type. *)
Definition by_type : Z := Z.lor BLK_IO_SEL_PARTITIONED_GPT
  (Z.lor BLK_IO_SEL_MEDIA_TYPE_NON_REMOVABLE BLK_IO_SEL_MATCH_PARTITION_TYPE_GUID).
Definition type_query {R} (Ptype : list Z) : MW R (EFI_STATUS * list HandleInfo * Z) :=
  GetBlkIOHandles by_type (Some (mkFilter None (Some Ptype) None None)) 1.

(** ** The virtual A/B message *)

Definition WriteVirtualABMessage : MW EFI_STATUS EFI_STATUS :=
  CardType ← CheckRootDeviceType;
  if bool_decide (CardType = NAND) then early EFI_UNSUPPORTED else
  PageSize ← GetPageSize;
  r ← type_query gEfiMiscPartitionGuid;
  let '(Status, HandleInfoList, MaxHandles) := r in
  if Status =? EFI_SUCCESS then
    if MaxHandles =? 0 then early EFI_NO_MEDIA else
    if negb (MaxHandles =? 1) then early EFI_LOAD_ERROR else
    i ← need OutOfBounds (head HandleInfoList);
    BS ← ask (fun x => BlockSize (Media x (Handle i)));
    if BS =? 0 then stop DivByZero else
    let Offset := u32 (MISC_VIRTUALAB_OFFSET / BS) in
    w ← get;
    call (WriteBlockToPartition (Some (Handle i)) (Some (Handle i)) Offset PageSize
            (VirtualAbMsg (lb w)))
  else early Status.

Definition put_VirtualAbMsg (m : option (list Z)) : World -> World :=
  upd_lb (set_VirtualAbMsg m).

Definition SetSnapshotMergeStatus (MergeStatus : Z) : MW EFI_STATUS EFI_STATUS :=
  w ← get;
  match VirtualAbMsg (lb w) with
  | None => early EFI_NOT_FOUND
  | Some msg =>
      Old ← load msg AB_MergeStatus 1;
      msg' ← store msg AB_MergeStatus [u8 MergeStatus];
      modify (put_VirtualAbMsg (Some msg'));;
      Status ← call WriteVirtualABMessage;
      (if negb (Status =? EFI_SUCCESS) then
         w ← get;
         m ← need NullDeref (VirtualAbMsg (lb w));
         m' ← store m AB_MergeStatus [u8 (byte_of Old 0)];
         modify (put_VirtualAbMsg (Some m'))
       else mret tt);;
      mret Status
  end.

(** The status and [*Msg], [NULL] before the call. *)
Definition ReadFromPartitionOffset (Ptype : list Z) (Size Offset : Z) :
    MW (EFI_STATUS * option (list Z)) (EFI_STATUS * option (list Z)) :=
  r ← type_query Ptype;
  let '(Status, HandleInfoList, MaxHandles) := r in
  if Status =? EFI_SUCCESS then
    if MaxHandles =? 0 then early (EFI_NO_MEDIA, None) else
    if negb (MaxHandles =? 1) then early (EFI_LOAD_ERROR, None) else
    i ← need OutOfBounds (head HandleInfoList);
    let b := Handle i in
    BS ← ask (fun x => BlockSize (Media x b));
    let MsgSize := ROUND_TO_PAGE Size (u32 (BS - 1)) in
    PartitionSize ← ask (fun x => GetPartitionSize x (Some b));
    if (PartitionSize <? MsgSize) || (PartitionSize =? 0)
    then early (EFI_OUT_OF_RESOURCES, None) else
    a ← ask (fun x => AllocateZeroPool x MsgSize);
    if negb a then early (EFI_OUT_OF_RESOURCES, None) else
    if BS =? 0 then stop DivByZero else
    if negb (Offset mod BS =? 0) then early (EFI_INVALID_PARAMETER, Some (zeros MsgSize)) else
    d ← ask (fun x => ReadBlocks x b (Offset / BS) MsgSize);
    if negb (d.1 =? EFI_SUCCESS) then early (d.1, None) else mret (d.1, Some d.2)
  else early (Status, None).

Definition GetSnapshotMergeStatus : MW Z Z :=
  w ← get;
  match VirtualAbMsg (lb w) with
  | None =>
      CardType ← CheckRootDeviceType;
      if bool_decide (CardType = NAND) then early NONE_MERGE_STATUS else
      PageSize ← GetPageSize;
      r ← call (ReadFromPartitionOffset gEfiMiscPartitionGuid PageSize MISC_VIRTUALAB_OFFSET);
      modify (put_VirtualAbMsg r.2);;
      if negb (r.1 =? EFI_SUCCESS) then early NONE_MERGE_STATUS else
      m ← need NullDeref r.2;
      Magic ← load32 m AB_Magic;
      Version ← load m AB_Version 1;
      if negb (Magic =? MISC_VIRTUAL_AB_MAGIC_HEADER) ||
         negb (byte_of Version 0 =? MISC_VIRTUAL_AB_MESSAGE_VERSION)
      then modify (put_VirtualAbMsg None) else mret tt
  | Some _ => mret tt
  end;;
  w ← get;
  match VirtualAbMsg (lb w) with
  | Some m => x ← load m AB_MergeStatus 1; mret (byte_of x 0)
  | None => mret NONE_MERGE_STATUS
  end.

(** ** The recovery message *)

Definition ReadFromPartition (Ptype : list Z) (Size : Z) :
    MW (EFI_STATUS * option (list Z)) (EFI_STATUS * option (list Z)) :=
  ReadFromPartitionOffset Ptype Size 0.

(** The type GUID of the misc partition; on NAND the driver generates it. *)
Definition misc_type {R} (CardType : MemCardType) : MW R (EFI_STATUS * list Z) :=
  if bool_decide (CardType = NAND) then GetNandMiscPartiGuid
  else mret (EFI_SUCCESS, gEfiMiscPartitionGuid).

Definition WriteRecoveryMessage (Command : list Z) : MW EFI_STATUS EFI_STATUS :=
  CardType ← CheckRootDeviceType;
  g ← misc_type CardType;
  if negb (g.1 =? EFI_SUCCESS) then early g.1 else
  PageSize ← GetPageSize;
  r ← call (ReadFromPartition g.2 (u32 (PageSize * 2)));
  if negb (r.1 =? EFI_SUCCESS) then early r.1 else
  match r.2 with
  | None => early EFI_INVALID_PARAMETER
  | Some PartitionData =>
      let Msg := if bool_decide (CardType = NAND) then PageSize else 0 in
      command ← load PartitionData Msg RECOVERY_COMMAND_SIZE;
      c ← AsciiStrnCpyS command RECOVERY_COMMAND_SIZE Command (AsciiStrLen Command);
      PartitionData ← store PartitionData Msg c.2;
      if c.1 =? EFI_SUCCESS then
        call (WriteToPartition g.2 (Some (drop (Z.to_nat Msg) PartitionData))
                RECOVERY_MESSAGE_SIZE)
      else mret c.1
  end.

(** [AsciiStrnCmp (command, s, AsciiStrLen (s)) == 0] *)
Definition is_command (command s : list Z) : bool :=
  AsciiStrnCmp command s (AsciiStrLen s) =? 0.

(** The status and [*BootIntoRecovery]. *)
Definition RecoveryInit (IntoRecovery : bool) : MW (EFI_STATUS * bool) (EFI_STATUS * bool) :=
  CardType ← CheckRootDeviceType;
  g ← misc_type CardType;
  if negb (g.1 =? EFI_SUCCESS) then early (g.1, IntoRecovery) else
  PageSize ← GetPageSize;
  r ← call (ReadFromPartition g.2 (u32 (PageSize * 2)));
  if negb (r.1 =? EFI_SUCCESS) then early (r.1, IntoRecovery) else
  match r.2 with
  | None => early (EFI_INVALID_PARAMETER, IntoRecovery)
  | Some PartitionData =>
      let Msg := if bool_decide (CardType = NAND) then PageSize else 0 in
      PartitionData ← store PartitionData (Msg + RECOVERY_COMMAND_SIZE - 1) [0];
      command ← load PartitionData Msg RECOVERY_COMMAND_SIZE;
      w ← get;
      mret (r.1, IntoRecovery || is_command command RECOVERY_BOOT_RECOVERY ||
                 (IsDynamicPartitionSupport (pt w) && is_command command RECOVERY_BOOT_FASTBOOT))
  end.

(** The status and the contents of [FfbmString]. *)
Definition GetFfbmCommand (FfbmString : list Z) (Sz : Z) :
    MW (EFI_STATUS * list Z) (EFI_STATUS * list Z) :=
  CardType ← CheckRootDeviceType;
  g ← misc_type CardType;
  if negb (g.1 =? EFI_SUCCESS) then early (g.1, FfbmString) else
  r ← call (ReadFromPartition g.2 Sz);
  if negb (r.1 =? EFI_SUCCESS) then early (r.1, FfbmString) else
  d ← need NullDeref r.2;
  FfbmData ← store d (u32 (Sz - 1)) [0];
  if is_command FfbmData (L "qmmi") || is_command FfbmData (L "ffbm-02") then
    c ← AsciiStrnCpyS FfbmString Sz (L "qmmi") (AsciiStrLen (L "qmmi"));
    mret (r.1, c.2)
  else if is_command FfbmData (L "ffbm-") then
    c ← AsciiStrnCpyS FfbmString Sz FfbmData Sz;
    mret (r.1, c.2)
  else mret (EFI_NOT_FOUND, FfbmString).
End Recovery.
