(* ===== verification/Fastboot.v ===== *)
(** The fastboot protocol engine ([FastbootCmds.c], [FastbootMain.c]): answers
    to the host, the download state machine with its two half buffers, the
    completion of USB transfers, and the published variables.

    The transfer buffer is the object [DataMem] at address [mDataBuffer];
    the pointers [mUsbDataBuffer] and [mFlashDataBuffer] are addresses in it,
    0 for [NULL].  The lock calls of the multi-threaded variant have no
    counterpart here: a handler runs as one step. *)
From Stdlib Require Import ZArith Lia.
From stdpp Require Import base list numbers option.
From S2P Require Import Prelude EfiBase Convert Firmware World LoaderLib Board Ptable DevInfo Gpt Slots.

Definition MAX_RSP_SIZE : Z := 64.
Definition MAX_GPT_NAME_SIZE : Z := 36.
Definition SLOT_ATTR_SIZE : Z := 32.
Definition ATTR_RESP_SIZE : Z := 4.
Definition SLOT_SUFFIX_ARRAY_SIZE : Z := 10.
Definition MAX_FASTBOOT_COMMAND_SIZE : Z := 64.
Definition MAX_RETRY_COUNT : Z := 7.
Definition BATT_MIN_VOLT : Z := 3200.
Definition EFI_PROTOCOL_ERROR : EFI_STATUS := Eval cbv in ENCODE_ERROR 24.
Definition EFI_NOT_READY : EFI_STATUS := Eval cbv in ENCODE_ERROR 6.
Definition EFI_ABORTED : EFI_STATUS := Eval cbv in ENCODE_ERROR 21.

(** How a USB transfer ended. *)
Inductive USB_DEVICE_TRANSFER_STATUS :=
| UsbDeviceTransferStatusCompleteOK
| UsbDeviceTransferStatusCancelled
| UsbDeviceTransferStatusOther.

Section Fastboot.
Context `{F : Firmware} `{B : BuildConfig}.

(** Reading and changing the statics of the file. *)
Definition fbget {R} : MW R FbGlobals := fun w => (Go (fb w), w).
Definition fbset {R} (f : FbGlobals -> FbGlobals) : MW R unit := modify (upd_fb f).

(** ** Answers *)

(** [FastbootAck]: the packet is cut at [MAX_RSP_SIZE - 1] characters. *)
Definition FastbootAck {R} (code Reason : list Z) : MW R unit :=
  fbset (fun g => fb_Sent (Sent g ++ [take (Z.to_nat (MAX_RSP_SIZE - 1)) (code ++ cstr Reason)]) g).
Definition FastbootFail {R} (Reason : list Z) : MW R unit := FastbootAck (L "FAIL") Reason.
Definition FastbootInfo {R} (Info : list Z) : MW R unit := FastbootAck (L "INFO") Info.
Definition FastbootOkay {R} (info : list Z) : MW R unit := FastbootAck (L "OKAY") info.

(** [AsciiSPrint] into a local array of [MAX_RSP_SIZE] characters. *)
Definition rsp {R} (text : list Z) : MW R (list Z) :=
  AsciiSPrint (zeros MAX_RSP_SIZE) MAX_RSP_SIZE text.

(** ** Variables *)

Definition FastbootPublishVar {R} (Name : list Z) (v : var_value) : MW R unit :=
  a ← ask (fun x => AllocateZeroPool x 24);
  if (a : bool) then fbset (fun g => fb_Varlist (mkVar Name v :: Varlist g) g) else mret tt.

(** The string a variable shows now; the slot fields need the slot array. *)
Definition var_text (w : World) (v : var_value) : option (list Z) :=
  let g := fb w in
  let slot j := BootSlotInfo g ≫= fun l => l !! j in
  match v with
  | VStr s => Some s
  | VSlotSuccessful j => SlotSuccessfulVal <$> slot j
  | VSlotUnbootable j => SlotUnbootableVal <$> slot j
  | VSlotRetryCount j => SlotRetryCountVal <$> slot j
  | VSlotCount => Some (SlotCountVar g)
  | VCurrentSlot => Some (CurrentSlotFB g)
  | VSnapshotMergeState => Some (SnapshotMergeState g)
  | VBatteryVoltage => Some (StrBatteryVoltage g)
  | VBatterySocOk => Some (StrBatterySocOk g)
  | VChargeScreenEnable => Some (ChargeScreenEnable g)
  | VBootloaderVersion => Some (bootloader_version (DevInfo (dv w)))
  | VRadioVersion => Some (radio_version (DevInfo (dv w)))
  end.

(** ** The data phase *)

Definition IsDisableParallelDownloadFlash : bool := DISABLE_PARALLEL_DOWNLOAD_FLASH.
Definition IsLEVariant : bool := ENABLE_LE_VARIANT.

Definition USB_BUFFER_SIZE {R} : MW R Z :=
  if negb IsLEVariant then mret (1024 * 1024 * 16) else
  t ← CheckRootDeviceType;
  if bool_decide (t = NAND) then mret (1024 * 1024 * 4) else
  t ← CheckRootDeviceType;
  if bool_decide (t = EMMC) then mret (1024 * 1024 * 4) else mret (1024 * 1024 * 16).

Definition GetXfrSize {R} : MW R Z :=
  g ← fbget;
  let BytesLeft := u64 (mNumDataBytes g - mBytesReceivedSoFar g) in
  if bool_decide (mState g = ExpectDataState) then
    n ← USB_BUFFER_SIZE;
    if BytesLeft <? n then mret BytesLeft else USB_BUFFER_SIZE
  else USB_BUFFER_SIZE.

Definition FastbootDloadBuffer (g : FbGlobals) : Z := mUsbDataBuffer g.
Definition FastbootCurrentState (g : FbGlobals) : ANDROID_FASTBOOT_STATE := mState g.

(** [UsbDeviceProtocol->Send (ENDPOINT_IN, Size, Buffer)] queues a receive. *)
Definition queue_receive {R} (Size : Z) (Buffer : option Z) : MW R unit :=
  fbset (fb_RxQueue (Some (Size, Buffer))).

Definition CmdDownload (arg : list Z) : MW unit unit :=
  fbset (fb_mNumDataBytes (AsciiStrHexToUint64 58 arg));;
  g ← fbget;
  if mNumDataBytes g =? 0 then
    FastbootFail (L "Failed to get the number of bytes to download");; early tt else
  if MaxDownLoadSize g <? mNumDataBytes g then
    FastbootFail (L "Requested download size is more than max allowed" ++ [10]);; early tt else
  c ← AsciiStrnCpyS (zeros 9) 9 arg (AsciiStrLen arg);
  fbset (fb_mState ExpectDataState);;
  fbset (fb_mBytesReceivedSoFar 0);;
  fbset (fun g => fb_Sent (Sent g ++ [L "DATA" ++ c.2]) g).

Definition StopUsbTimer {R} : MW R unit :=
  if ENABLE_UPDATE_PARTITIONS_CMDS then
    fbset (fb_UsbTimerEvent false);;
    modify (upd_lb (set_UsbTimerStarted false))
  else mret tt.

(** The timer that sends the answer once the flash is complete. *)
Definition FlashCompleteHandler : MW unit unit :=
  g ← fbget;
  if negb (IsFlashComplete g) then
    Status ← ask SetTimer;
    if EFI_ERROR Status then
      FastbootFail (L "Failed to set timer for waiting flash completely");;
      fbset (fb_FlashCompleteEvent false)
    else early tt
  else
    FastbootOkay [];;
    fbset (fb_FlashCompleteEvent false).

Definition FastbootOkayDelay {R} : MW R EFI_STATUS :=
  Status ← ask CreateEvent;
  if EFI_ERROR Status then
    FastbootFail (L "Failed to creat event for waiting flash completely");; mret Status
  else
    Status ← ask SetTimer;
    (if EFI_ERROR Status then
       FastbootFail (L "Failed to set timer for waiting flash completely")
     else fbset (fb_FlashCompleteEvent true));;
    mret Status.

(** A store to the transfer buffer by address. *)
Definition poke {R} (addr : Z) (d : list Z) : MW R unit :=
  g ← fbget;
  m ← store (DataMem g) (addr - mDataBuffer g) d;
  fbset (fb_DataMem m).

Definition AcceptData (Size Data : Z) : MW unit unit :=
  g ← fbget;
  let RemainingBytes := u64 (mNumDataBytes g - mBytesReceivedSoFar g) in
  let Size := if RemainingBytes <? Size then RemainingBytes else Size in
  fbset (fb_mBytesReceivedSoFar (u64 (mBytesReceivedSoFar g + Size)));;
  g ← fbget;
  if mBytesReceivedSoFar g =? mNumDataBytes g then
    PageSize ← GetPageSize;
    let RoundSize := u32 (ROUND_TO_PAGE (mNumDataBytes g) (u32 (PageSize - 1))) in
    (if RoundSize <? MaxDownLoadSize g
     then poke (Data + mNumDataBytes g) (zeros (u64 (RoundSize - mNumDataBytes g)))
     else mret tt);;
    fbset (fb_mState ExpectCmdState);;
    w ← get;
    if IsUseMThreadParallel (lb w) then FastbootOkay []
    else StopUsbTimer;; FastbootOkayDelay;; mret tt
  else
    n ← GetXfrSize;
    queue_receive n (Some (Data + mBytesReceivedSoFar g)).

(** ** USB completions ([FastbootMain.c]) *)

(** A packet was sent: queue the next receive. *)
Definition ProcessBulkXfrCompleteTx {R} (Status_ : USB_DEVICE_TRANSFER_STATUS) : MW R EFI_STATUS :=
  match Status_ with
  | UsbDeviceTransferStatusCompleteOK =>
      g ← fbget;
      n ← GetXfrSize;
      queue_receive n (if bool_decide (FastbootCurrentState g = ExpectDataState)
                       then Some (FastbootDloadBuffer g) else None);;
      mret EFI_SUCCESS
  | UsbDeviceTransferStatusCancelled => mret EFI_ABORTED
  | UsbDeviceTransferStatusOther => mret EFI_DEVICE_ERROR
  end.
End Fastboot.
