(* ===== verification/FastbootCmds.v ===== *)
(** The commands of the host ([FastbootCmds.c]): flashing, erasing, switching
    the slot, locking, the variables, and the dispatch of a command line.

    A [CHAR16] or [CHAR8] array on the stack is a list of its length, zeroed
    where the source leaves it uninitialised; an image is the bytes of the
    transfer buffer from its address on. *)
From Stdlib Require Import ZArith Lia.
From stdpp Require Import base list numbers option.
From S2P Require Import Prelude EfiBase Convert Firmware World LoaderLib Board Ptable DevInfo Gpt Slots Sparse Recovery Fastboot.

Definition META_HEADER_MAGIC : Z := 0xce1ad63c.
Definition META_PARTITION_NAME_SZ : Z := 72.
Definition MAX_IMAGES_IN_METAIMG : Z := 32.
Definition META_HEADER_SIZE : Z := 76.
Definition IMG_HEADER_ENTRY_SIZE : Z := 80.

(** [meta_header_t] and [img_header_entry_t] at the start of a byte string. *)
Record meta_header_t := mkMeta {
  mh_magic : Z;
  img_version : list Z;
  img_hdr_sz : Z;
}.
Record img_header_entry_t := mkImgEntry {
  ptn_name : list Z;
  start_offset : Z;
  ie_size : Z;
}.
Definition meta_header_of (b : list Z) : meta_header_t :=
  mkMeta (field b 0 4) (take 64 (drop 8 b)) (field b 74 2).
Definition img_header_entry_of (b : list Z) : img_header_entry_t :=
  mkImgEntry (take 72 b) (field b 72 4) (field b 76 4).

Definition UBI_HEADER_MAGIC : list Z := Eval cbv in L "UBI#".
Definition NORMAL_MODE : Z := 0x0.
Definition RECOVERY_MODE : Z := 0x1.
Definition FASTBOOT_MODE : Z := 0x2.

Definition CriticalPartitions : list (list Z) := Eval cbv in
  [ L "abl"; L "rpm"; L "tz"; L "sdi"; L "xbl"; L "hyp"; L "pmic"; L "bootloader";
    L "devinfo"; L "partition"; L "devcfg"; L "ddr"; L "frp"; L "cdt"; L "cmnlib";
    L "cmnlib64"; L "keymaster"; L "mdtp"; L "aop"; L "multiimgoem"; L "secdata";
    L "imagefv"; L "qupfw"; L "uefisecapp" ].
Definition VirtualAbCriticalPartitions : list (list Z) := Eval cbv in
  [ L "misc"; L "metadata"; L "userdata" ].

Definition IsCriticalPartition (PartitionName_ : list Z) : bool :=
  existsb (starts PartitionName_) CriticalPartitions.

(** [SKIP_FIRSTCHAR_IN_SLOT_SUFFIX] of an array of three characters. *)
Definition SKIP_FIRSTCHAR_IN_SLOT_SUFFIX (s : list Z) : list Z :=
  [char_at s 1; char_at s 2; char_at s 2].

Definition NamePropertyMatches (Name_ : list Z) : bool :=
  existsb (starts Name_)
    [ L "has-slot"; L "current-slot"; L "slot-retry-count"; L "slot-unbootable";
      L "slot-successful"; L "slot-suffixes"; L "partition-type:system";
      L "partition-size:system" ].

Section Cmds.
Context `{F : Firmware} `{B : BuildConfig}.

(** The bytes from an address of the transfer buffer on. *)
Definition image_at (g : FbGlobals) (addr : Z) : list Z :=
  drop (Z.to_nat (addr - mDataBuffer g)) (DataMem g).

(** ** Slot variables *)

(** A copy with the length of the source, and one behind what is there. *)
Definition cpy {R} (d : list Z) (n : Z) (s : list Z) : MW R (list Z) :=
  r ← AsciiStrnCpyS d n s (AsciiStrLen s); mret r.2.
Definition cat {R} (d : list Z) (n : Z) (s : list Z) : MW R (list Z) :=
  r ← AsciiStrnCatS d n s (AsciiStrLen s); mret r.2.

Definition slot_at {R} (j : nat) : MW R GetVarSlotInfo :=
  g ← fbget;
  l ← need NullDeref (BootSlotInfo g);
  need OutOfBounds (l !! j).
Definition put_slot {R} (j : nat) (s : GetVarSlotInfo) : MW R unit :=
  fbset (fun g => fb_BootSlotInfo ((fun l => <[j := s]> l) <$> BootSlotInfo g) g).

(** The fields of a slot that was just written or made active. *)
Definition reset_slot {R} (j : nat) : MW R unit :=
  s ← slot_at j;
  a ← cpy (SlotSuccessfulVal s) ATTR_RESP_SIZE (L "no");
  b ← cpy (SlotUnbootableVal s) ATTR_RESP_SIZE (L "no");
  c ← AsciiSPrint (SlotRetryCountVal s) ATTR_RESP_SIZE (fmt_d MAX_RETRY_COUNT);
  put_slot j (mkSlotInfo (SlotSuffix s) a b c).

Definition yes_no (b : bool) : list Z := if b then L "yes" else L "no".

(** One boot partition of [FastbootPublishSlotVars]. *)
Definition publish_slot {R} (j : nat) (Suffix : list Z) (Attributes_ : Z) : MW R unit :=
  s ← slot_at j;
  sfx ← cpy (SlotSuffix s) MAX_SLOT_SUFFIX_SZ Suffix;
  n ← cpy (zeros SLOT_ATTR_SIZE) SLOT_ATTR_SIZE (L "slot-successful:");
  a ← cpy (SlotSuccessfulVal s) ATTR_RESP_SIZE (yes_no (flag Attributes_ PART_ATT_SUCCESSFUL_VAL));
  n ← cat n SLOT_ATTR_SIZE Suffix;
  put_slot j (mkSlotInfo sfx a (SlotUnbootableVal s) (SlotRetryCountVal s));;
  FastbootPublishVar n (VSlotSuccessful j);;
  n ← cpy (zeros SLOT_ATTR_SIZE) SLOT_ATTR_SIZE (L "slot-unbootable:");
  b ← cpy (SlotUnbootableVal s) ATTR_RESP_SIZE (yes_no (flag Attributes_ PART_ATT_UNBOOTABLE_VAL));
  n ← cat n SLOT_ATTR_SIZE Suffix;
  put_slot j (mkSlotInfo sfx a b (SlotRetryCountVal s));;
  FastbootPublishVar n (VSlotUnbootable j);;
  n ← cpy (zeros SLOT_ATTR_SIZE) SLOT_ATTR_SIZE (L "slot-retry-count:");
  c ← AsciiSPrint (SlotRetryCountVal s) ATTR_RESP_SIZE (fmt_llu (RetryCount Attributes_));
  n ← cat n SLOT_ATTR_SIZE Suffix;
  put_slot j (mkSlotInfo sfx a b c);;
  FastbootPublishVar n (VSlotRetryCount j).

(** The current slot without its underscore, for [current-slot]. *)
Definition refresh_current_slot {R} : MW R unit :=
  s ← GetCurrentSlotSuffix;
  g ← fbget;
  c ← UnicodeStrToAsciiStr s (CurrentSlotFB g);
  fbset (fb_CurrentSlotFB (SKIP_FIRSTCHAR_IN_SLOT_SUFFIX c)).

(** The entry loop of [FastbootPublishSlotVars]: [arr] is
    [PartitionNameAscii], which keeps what the last name left behind. *)
Fixpoint publish_slots {R} (es : list PartitionEntry) (j : nat) (arr : list Z) : MW R unit :=
  match es with
  | [] => mret tt
  | e :: es' =>
      g ← fbget;
      if negb (Z.of_nat j <? SlotCount g) then mret tt else
      arr ← UnicodeStrToAsciiStr (Name e) arr;
      if starts arr (L "boot") then
        publish_slot j (str_from arr (AsciiStrLen (L "boot_"))) (Attr e);;
        publish_slots es' (S j) arr
      else publish_slots es' j arr
  end.

Definition FastbootPublishSlotVars {R} : MW R unit :=
  w ← get;
  publish_slots (live (pt w)) 0 (zeros MAX_GPT_NAME_SIZE);;
  FastbootPublishVar (L "has-slot:boot") (VStr (L "yes"));;
  refresh_current_slot;;
  FastbootPublishVar (L "current-slot") VCurrentSlot;;
  m ← PartitionHasMultiSlot (L "system");
  FastbootPublishVar (L "has-slot:system") (VStr (yes_no m));;
  m ← PartitionHasMultiSlot (L "modem");
  FastbootPublishVar (L "has-slot:modem") (VStr (yes_no m)).

(** The counting loop of [PopulateMultislotMetadata]. *)
Fixpoint count_slots {R} (es : list PartitionEntry) (arr : list Z) : MW R unit :=
  match es with
  | [] => mret tt
  | e :: es' =>
      arr ← UnicodeStrToAsciiStr (Name e) arr;
      (if starts arr (L "boot") then
         fbset (fun g => fb_SlotCount (u32 (SlotCount g + 1)) g);;
         let Suffix := str_from arr (AsciiStrLen (L "boot")) in
         g ← fbget;
         match AsciiStrStr (SlotSuffixArray g) Suffix with
         | Some _ => mret tt
         | None =>
             a ← cat (SlotSuffixArray g) SLOT_SUFFIX_ARRAY_SIZE Suffix;
             a ← cat a SLOT_SUFFIX_ARRAY_SIZE (L ",");
             fbset (fb_SlotSuffixArray a)
         end
       else mret tt);;
      count_slots es' arr
  end.

(** The zeroed array of [GetVarSlotInfo] structures. *)
Definition no_slot : GetVarSlotInfo :=
  mkSlotInfo (zeros MAX_SLOT_SUFFIX_SZ) (zeros ATTR_RESP_SIZE) (zeros ATTR_RESP_SIZE)
    (zeros ATTR_RESP_SIZE).
Definition SLOT_INFO_SIZE : Z := 3 + 3 * SLOT_ATTR_SIZE + 3 * ATTR_RESP_SIZE.

Definition PopulateMultislotMetadata : MW unit unit :=
  g ← fbget;
  if negb (InitialPopulate g) then
    w ← get;
    count_slots (live (pt w)) (zeros MAX_GPT_NAME_SIZE);;
    g ← fbget;
    c ← AsciiSPrint (SlotCountVar g) ATTR_RESP_SIZE (fmt_d (SlotCount g));
    fbset (fb_SlotCountVar c);;
    FastbootPublishVar (L "slot-count") VSlotCount;;
    a ← ask (fun x => AllocateZeroPool x (SlotCount g * SLOT_INFO_SIZE));
    if negb a then fbset (fb_BootSlotInfo None);; early tt else
    fbset (fb_BootSlotInfo (Some (replicate (Z.to_nat (SlotCount g)) no_slot)));;
    FastbootPublishSlotVars;;
    fbset (fb_InitialPopulate true)
  else
    for_up (Z.to_nat (SlotCount g)) 0 tt (fun i _ => reset_slot (Z.to_nat i);; mret (false, tt)).

Definition ClearFastbootVarsofAB {R} : MW R unit :=
  fbset (fun g => fb_Varlist (filter (fun v => NamePropertyMatches (var_name v) = false) (Varlist g)) g).

(** ** Finding the partition of a name *)

(** The answer, the name and the slot suffix afterwards. *)
Definition GetPartitionHasSlot {R} (PartitionName_ : list Z) (PnameMaxSize : Z)
    (SlotSuffix_ : list Z) (SlotSuffixMaxSize : Z) : MW R (bool * list Z * list Z) :=
  w ← get;
  if GetPartitionIndex (pt w) PartitionName_ =? INVALID_PTN then
    CurrentSlot ← GetCurrentSlotSuffix;
    s ← StrnCpyS SlotSuffix_ SlotSuffixMaxSize CurrentSlot (StrLen CurrentSlot);
    n ← StrnCatS PartitionName_ PnameMaxSize CurrentSlot (StrLen CurrentSlot);
    mret (true, n.2, s.2)
  else if bool_decide (is_Some (StrStr PartitionName_ (L "_a"))) ||
          bool_decide (is_Some (StrStr PartitionName_ (L "_b"))) then
    s ← StrnCpyS SlotSuffix_ SlotSuffixMaxSize
          (str_from PartitionName_ (StrLen PartitionName_ - 2)) 2;
    mret (true, PartitionName_, s.2)
  else mret (false, PartitionName_, SlotSuffix_).

(** [if (MultiSlotBoot) HasSlot = GetPartitionHasSlot (...)], with a fresh
    suffix array. *)
Definition find_slot {R} (MultiSlotBoot : bool) (PartitionName_ : list Z) (PnameMaxSize : Z) :
    MW R (bool * list Z * list Z) :=
  if MultiSlotBoot then
    GetPartitionHasSlot PartitionName_ PnameMaxSize (zeros MAX_SLOT_SUFFIX_SZ) MAX_SLOT_SUFFIX_SZ
  else mret (false, PartitionName_, zeros MAX_SLOT_SUFFIX_SZ).

Definition FastbootUpdateAttr (SlotSuffix_ : list Z) : MW unit unit :=
  SlotSuffixAscii ← UnicodeStrToAsciiStr SlotSuffix_ (zeros MAX_SLOT_SUFFIX_SZ);
  p ← StrnCpyS (zeros MAX_GPT_NAME_SIZE) (StrLen (L "boot") + 1) (L "boot") (StrLen (L "boot"));
  p ← StrnCatS p.2 (MAX_GPT_NAME_SIZE - 1) SlotSuffix_ (StrLen SlotSuffix_);
  w ← get;
  let Index := GetPartitionIndex (pt w) p.2 in
  if Index =? INVALID_PTN then early tt else
  modify (upd_attr (Z.to_nat Index) (fun a =>
    Z.lor (Z.land a (Z.land (Z.lnot PART_ATT_SUCCESSFUL_VAL) (Z.lnot PART_ATT_UNBOOTABLE_VAL)))
      (Z.lor PART_ATT_PRIORITY_VAL PART_ATT_MAX_RETRY_COUNT_VAL)));;
  call (UpdatePartitionAttributes PARTITION_ATTRIBUTES);;
  g ← fbget;
  for_up (Z.to_nat (SlotCount g)) 0 tt (fun j _ =>
    s ← slot_at (Z.to_nat j);
    (if bool_decide (is_Some (AsciiStrStr SlotSuffixAscii (SlotSuffix s)))
     then reset_slot (Z.to_nat j) else mret tt);;
    mret (false, tt)).

(** The attribute update after a boot partition was written. *)
Definition boot_written {R} (MultiSlotBoot HasSlot : bool) (PartitionName_ SlotSuffix_ : list Z) :
    MW R unit :=
  if MultiSlotBoot && HasSlot && starts PartitionName_ (L "boot")
  then call (FastbootUpdateAttr SlotSuffix_) else mret tt.

(** ** Images *)

(** UBI volumes and images go to the UBI flasher under their ASCII name. *)
Definition HandleUbiVolFlash (VolumeName_ : list Z) (Image : list Z) (Size : Z) :
    MW EFI_STATUS EFI_STATUS :=
  Status ← ask LocateUbi;
  if EFI_ERROR Status then early Status else
  n ← UnicodeStrToAsciiStr VolumeName_ (zeros MAX_GPT_NAME_SIZE);
  Status ← ask (fun x => UbiFlasherOpen x n);
  if EFI_ERROR Status then early Status else
  d ← load Image 0 Size;
  act (fun x => UbiFlasherWrite x n d);;
  act (fun x => UbiFlasherClose x n).

(** The status, and the partition name afterwards. *)
Definition HandleRawImgFlash (PartitionName_ : list Z) (PartitionMaxSize : Z)
    (Image : list Z) (Size : Z) : MW (EFI_STATUS * list Z) (EFI_STATUS * list Z) :=
  MultiSlotBoot ← PartitionHasMultiSlot (L "boot");
  o ← (if NAND_UBI_VOLUME_FLASHING_ENABLED then
         StrnCpyS (zeros MAX_GPT_NAME_SIZE) PartitionMaxSize PartitionName_ PartitionMaxSize
       else mret (EFI_SUCCESS, []));
  s ← find_slot MultiSlotBoot PartitionName_ PartitionMaxSize;
  let '(HasSlot, PartitionName_, SlotSuffix_) := s in
  r ← call (PartitionGetInfo PartitionName_);
  if negb (r.1 =? EFI_SUCCESS) then
    (if NAND_UBI_VOLUME_FLASHING_ENABLED then
       st ← call (HandleUbiVolFlash o.2 Image Size); early (st, PartitionName_)
     else early (r.1, PartitionName_)) else
  match r.2 with
  | None => early (EFI_VOLUME_CORRUPTED, PartitionName_)
  | Some h =>
      PartitionSize_ ← ask (fun x => GetPartitionSize x (Some h));
      if (PartitionSize_ <? Size) || (PartitionSize_ =? 0)
      then early (EFI_VOLUME_FULL, PartitionName_) else
      Status ← call (WriteBlockToPartition (Some h) (Some h) 0 Size (Some Image));
      boot_written MultiSlotBoot HasSlot PartitionName_ SlotSuffix_;;
      mret (Status, PartitionName_)
  end.

Definition HandleUbiImgFlash (PartitionName_ : list Z) (PartitionMaxSize : Z)
    (Image : list Z) (Size : Z) : MW (EFI_STATUS * list Z) (EFI_STATUS * list Z) :=
  MultiSlotBoot ← PartitionHasMultiSlot (L "boot");
  s ← find_slot MultiSlotBoot PartitionName_ PartitionMaxSize;
  let '(_, PartitionName_, _) := s in
  r ← call (PartitionGetInfo PartitionName_);
  if EFI_ERROR r.1 then early (r.1, PartitionName_) else
  PartitionSize_ ← ask (fun x => GetPartitionSize x r.2);
  if (PartitionSize_ <? Size) || (PartitionSize_ =? 0)
  then early (EFI_INVALID_PARAMETER, PartitionName_) else
  Status ← ask LocateUbi;
  if EFI_ERROR Status then early (Status, PartitionName_) else
  n ← UnicodeStrToAsciiStr PartitionName_ (zeros MAX_GPT_NAME_SIZE);
  Status ← ask (fun x => UbiFlasherOpen x n);
  if EFI_ERROR Status then early (Status, PartitionName_) else
  d ← load Image 0 Size;
  Status ← act (fun x => UbiFlasherWrite x n d);
  if EFI_ERROR Status then early (Status, PartitionName_) else
  Status ← act (fun x => UbiFlasherClose x n);
  mret (Status, PartitionName_).

(** One round of the loop of [HandleMetaImgFlash]: the entry at
    [img_header_entry[i]]; [true] leaves the loop. *)
Definition meta_entry (Base : Z) (Image : list Z) (Size : Z) (i : Z) (Status : EFI_STATUS) :
    MW EFI_STATUS (bool * EFI_STATUS) :=
  b ← load Image (META_HEADER_SIZE + i * IMG_HEADER_ENTRY_SIZE) IMG_HEADER_ENTRY_SIZE;
  let e := img_header_entry_of b in
  if (hd0 (ptn_name e) =? 0) || (start_offset e =? 0) || (ie_size e =? 0)
  then mret (true, Status) else
  if CHECK_ADD64 Base (start_offset e) then early EFI_BAD_BUFFER_SIZE else
  if CHECK_ADD64 (Base + start_offset e) (ie_size e) then early EFI_BAD_BUFFER_SIZE else
  if Base + Size <? Base + start_offset e + ie_size e then early EFI_INVALID_PARAMETER else
  if negb (StrLen (ptn_name e) <? MAX_GPT_NAME_SIZE) then early EFI_INVALID_PARAMETER else
  n ← AsciiStrToUnicodeStr (ptn_name e) (zeros MAX_GPT_NAME_SIZE);
  w ← get;
  if negb (IsUnlockCritical w) && IsCriticalPartition n then
    FastbootFail (L "Flashing is not allowed for Critical Partitions" ++ [10]);;
    early EFI_INVALID_PARAMETER else
  r ← call (HandleRawImgFlash n MAX_GPT_NAME_SIZE
              (drop (Z.to_nat (start_offset e)) Image) (ie_size e));
  if negb (r.1 =? EFI_SUCCESS) then early r.1 else mret (false, r.1).

Definition HandleMetaImgFlash (PartitionName_ : list Z) (Base : Z) (Image : list Z) (Size : Z) :
    MW EFI_STATUS EFI_STATUS :=
  if Size <? META_HEADER_SIZE then early EFI_INVALID_PARAMETER else
  b ← load Image 0 META_HEADER_SIZE;
  let mh := meta_header_of b in
  let images := img_hdr_sz mh / IMG_HEADER_ENTRY_SIZE in
  if MAX_IMAGES_IN_METAIMG <? images then early EFI_INVALID_PARAMETER else
  if Size <=? META_HEADER_SIZE + img_hdr_sz mh then early EFI_INVALID_PARAMETER else
  if CHECK_ADD64 Base Size then early EFI_BAD_BUFFER_SIZE else
  for_up (Z.to_nat images) 0 EFI_DEVICE_ERROR (meta_entry Base Image Size);;
  UpdateDevInfo PartitionName_ (img_version mh).

Definition FastbootErasePartition (PartitionName_ : list Z) : MW EFI_STATUS EFI_STATUS :=
  r ← call (PartitionGetInfo PartitionName_);
  if negb (r.1 =? EFI_SUCCESS) then early r.1 else
  match r.2 with
  | None => early EFI_VOLUME_CORRUPTED
  | Some h =>
      Status ← call (ErasePartition (Some h) (Some h));
      if negb (Status =? EFI_SUCCESS) then early Status else
      if StrCmp (L "userdata") PartitionName_ =? 0 then ResetDeviceState else mret Status
  end.

(** ** The flashing thread *)

(** The body of the thread, when it is scheduled; the status of the flash is
    dropped. *)
Definition SparseImgFlashThread : MW unit unit :=
  g ← fbget;
  match FlashThread g with
  | None => early tt
  | Some t =>
      if fi_FlashDataBuffer t =? 0 then early tt else
      fbset (fb_IsFlashComplete false);;
      modify (upd_lb (set_FlashSplitNeeded true));;
      g ← fbget;
      call (HandleSparseImgFlash (fi_PartitionName t) (fi_FlashDataBuffer t)
              (image_at g (fi_FlashDataBuffer t)) (fi_FlashNumDataBytes t));;
      modify (upd_lb (set_FlashSplitNeeded false));;
      fbset (fb_IsFlashComplete true);;
      fbset (fb_FlashThread None)
  end.

Definition CreateSparseImgFlashThread {R} (ThreadFlashInfo : FlashInfo) : MW R EFI_STATUS :=
  t ← ask ThreadCreate;
  if negb t then mret EFI_NOT_READY else
  Status ← ask ThreadResume;
  (if EFI_ERROR Status then mret tt else fbset (fb_FlashThread (Some ThreadFlashInfo)));;
  mret Status.

Definition HandleUsbEventsInTimer {R} : MW R EFI_STATUS :=
  g ← fbget;
  if UsbTimerEvent g then mret EFI_SUCCESS else
  Status ← ask CreateEvent;
  if EFI_ERROR Status then mret Status else
  fbset (fb_UsbTimerEvent true);;
  ask SetTimer.

(** ** The partition table *)

Definition PartitionDump : MW unit unit :=
  w ← get;
  let '(LunStart, LunEnd) :=
    if LunSet (fb w) then (u32 (Lun (fb w)), u32 (Lun (fb w) + 1))
    else (0, GetMaxLuns (pt w)) in
  let i0 := u16 LunStart in
  for_up (Z.to_nat (LunEnd - i0)) i0 tt (fun i _ =>
    s ← need OutOfBounds (Ptable (pt w) !! Z.to_nat i);
    for_up (Z.to_nat (MaxHandles s)) 0 tt (fun j _ =>
      need OutOfBounds (HandleInfoList s !! Z.to_nat j);; mret (false, tt));;
    mret (false, tt)).

Definition IsBootPtnUpdated (Lun_ : Z) : MW bool bool :=
  let Lun_ := if Lun_ =? NO_LUN then 0 else Lun_ in
  w ← get;
  s ← need OutOfBounds (if Lun_ <? 0 then None else Ptable (pt w) !! Z.to_nat Lun_);
  for_up (Z.to_nat (MaxHandles s)) 0 tt (fun j _ =>
    h ← need OutOfBounds (HandleInfoList s !! Z.to_nat j);
    e ← ask (fun x => PartitionRecord x (Handle h));
    match e with
    | None => mret (false, tt)
    | Some PartEntry_ =>
        if starts (PartitionName PartEntry_) (L "boot") then early true else mret (false, tt)
    end);;
  mret false.

Definition ReenumeratePartTable : MW EFI_STATUS EFI_STATUS :=
  fbset (fb_LunSet false);;
  Status ← ask CreateRefreshEvent;
  if negb (Status =? EFI_SUCCESS) then early Status else
  Status ← act SignalRefreshEvent;
  if negb (Status =? EFI_SUCCESS) then early Status else
  Status ← call EnumeratePartitions;
  if EFI_ERROR Status then early Status else
  UpdatePartitionEntries;;
  g ← fbget;
  BootPtnUpdated ← call (IsBootPtnUpdated (Lun g));
  (if (BootPtnUpdated : bool) then
     MultiSlotBoot ← PartitionHasMultiSlot (L "boot");
     if (MultiSlotBoot : bool) then
       r ← IsRecoveryInfo;
       if negb r then
         call (UpdatePartitionAttributes PARTITION_ALL);;
         FindPtnActiveSlot;;
         call PopulateMultislotMetadata
       else mret tt
     else
       g ← fbget;
       match BootSlotInfo g with
       | None => mret tt
       | Some _ =>
           ClearFastbootVarsofAB;;
           fbset (fb_BootSlotInfo None);;
           fbset (fb_SlotSuffixArray (zeros SLOT_SUFFIX_ARRAY_SIZE));;
           fbset (fb_InitialPopulate false)
       end
   else mret tt);;
  call PartitionDump;;
  mret Status.

(** ** Flash and erase *)

Definition ExchangeFlashAndUsbDataBuf {R} : MW R unit :=
  fbset (fun g => fb_mFlashNumDataBytes (mNumDataBytes g)
    (fb_mFlashDataBuffer (mUsbDataBuffer g) (fb_mUsbDataBuffer (mFlashDataBuffer g) g))).

Definition CheckVirtualAbCriticalPartition {R} (PartitionName_ : list Z) : MW R bool :=
  s ← call GetSnapshotMergeStatus;
  mret (((s =? MERGING) || (s =? SNAPSHOTTED)) &&
        existsb (starts PartitionName_) VirtualAbCriticalPartitions).

(** [AsciiSPrint (SnapshotMergeState, AsciiStrLen ("none") + 1, "%a", "none")] *)
Definition clear_merge_state {R} : MW R unit :=
  g ← fbget;
  s ← AsciiSPrint (SnapshotMergeState g) (AsciiStrLen (L "none") + 1) (L "none");
  fbset (fb_SnapshotMergeState s).

(** What [CmdFlash] and [CmdErase] check before they touch a partition: the
    lock state, then a snapshot that is in use.  [true] goes on. *)
Definition lock_checked (w : World) : bool :=
  (GetAVBVersion (pt w) =? AVB_LE) ||
  (negb (GetAVBVersion (pt w) =? AVB_LE) && TargetBuildVariantUser).

Definition check_lock {R} (op : list Z) (PartitionName_ : list Z) : MW R bool :=
  w ← get;
  if lock_checked w then
    if negb (IsUnlocked w) then
      FastbootFail (op ++ L " is not allowed in Lock State");; mret false
    else if negb (IsUnlockCritical w) && IsCriticalPartition PartitionName_ then
      FastbootFail (op ++ L " is not allowed for Critical Partitions" ++ [10]);; mret false
    else mret true
  else mret true.

Definition check_snapshot {R} (op : list Z) (PartitionName_ : list Z) : MW R bool :=
  w ← get;
  if IsDynamicPartitionSupport (pt w) then
    c ← CheckVirtualAbCriticalPartition PartitionName_;
    if (c : bool) then
      g ← fbget;
      t ← rsp (op ++ L " of " ++ cstr PartitionName_ ++ L " is not allowed in " ++
               cstr (SnapshotMergeState g) ++ L " state");
      FastbootFail t;; mret false
    else
      s ← call GetSnapshotMergeStatus;
      if ((s =? MERGING) || (s =? SNAPSHOTTED)) && starts PartitionName_ (L "super") then
        Status ← call (SetSnapshotMergeStatus CANCELLED);
        if negb (Status =? EFI_SUCCESS) then
          FastbootFail (L "Failed to update snapshot state to cancel");; mret false
        else clear_merge_state;; mret true
      else mret true
  else mret true.

(** The partition table of a LUN, or the table of a NAND. *)
Definition flash_table (PartitionName_ BootDeviceType_ : list Z) : MW unit unit :=
  (if is_device BootDeviceType_ (L "UFS") then
     r ← UfsGetSetBootLun 0 true;
     if negb (r.2 =? 1) then UfsGetSetBootLun 1 false;; mret tt else mret tt
   else if is_device BootDeviceType_ (L "EMMC") then
     fbset (fb_Lun NO_LUN);; fbset (fb_LunSet false)
   else mret tt);;
  call PartitionDump;;
  g ← fbget;
  let Image := image_at g (mFlashDataBuffer g) in
  Status ← (if is_device BootDeviceType_ (L "NAND") then
              Ret ← PartitionVerifyMibibImage Image;
              if negb (Ret =? 0) then
                FastbootFail (L "Error Updating partition Table" ++ [10]);; early tt
              else
                r ← call (HandleRawImgFlash PartitionName_ MAX_GPT_NAME_SIZE Image
                            (mFlashNumDataBytes g));
                mret r.1
            else call (UpdatePartitionTable Image (mFlashNumDataBytes g) (Lun g)));
  Status ← (if Status =? EFI_SUCCESS then call ReenumeratePartTable else mret Status);
  if Status =? EFI_SUCCESS then FastbootOkay []
  else FastbootFail (L "Error Updating partition Table" ++ [10]).

(** The sparse branch: the status of the set-up, the partition size and the
    name, or nothing when the command is over. *)
Inductive sparse_outcome :=
| SparseDone                       (** [return] *)
| SparseOut                        (** [goto out] *)
| SparseGo (Status : EFI_STATUS) (PartitionSize_ : Z) (Name_ : list Z).

Definition flash_sparse (PartitionName_ : list Z) : MW sparse_outcome sparse_outcome :=
  MultiSlotBoot ← PartitionHasMultiSlot (L "boot");
  s ← find_slot MultiSlotBoot PartitionName_ MAX_GPT_NAME_SIZE;
  let '(_, PartitionName_, _) := s in
  r ← call (PartitionGetInfo PartitionName_);
  if EFI_ERROR r.1 then FastbootFail (L "Partition not found");; early SparseOut else
  PartitionSize_ ← ask (fun x => GetPartitionSize x r.2);
  if PartitionSize_ =? 0 then FastbootFail (L "Partition error size");; early SparseOut else
  w ← get;
  let g := fb w in
  Status ← (if (MaxDownLoadSize g <? PartitionSize_) && negb IsDisableParallelDownloadFlash then
    Status ← (if IsUseMThreadParallel (lb w) then
        a ← ask (fun x => AllocateZeroPool x 96);
        if negb a then early SparseDone else
        n ← StrnCpyS (zeros MAX_GPT_NAME_SIZE) MAX_GPT_NAME_SIZE PartitionName_ MAX_GPT_NAME_SIZE;
        CreateSparseImgFlashThread (mkFlashInfo n.2 MAX_GPT_NAME_SIZE (mFlashDataBuffer g)
          (mFlashNumDataBytes g))
      else
        fbset (fb_IsFlashComplete false);;
        Status ← HandleUsbEventsInTimer;
        (if EFI_ERROR Status then fbset (fb_IsFlashComplete true);; StopUsbTimer
         else modify (upd_lb (set_UsbTimerStarted true)));;
        mret Status);
    (if EFI_ERROR Status then mret tt else FastbootOkay []);;
    mret Status
   else mret r.1);
  (if EFI_ERROR Status || negb (IsUseMThreadParallel (lb w)) ||
      (PartitionSize_ <=? MaxDownLoadSize g) then
     g ← fbget;
     st ← call (HandleSparseImgFlash PartitionName_ (mFlashDataBuffer g)
                  (image_at g (mFlashDataBuffer g)) (mFlashNumDataBytes g));
     fbset (fb_FlashResult st);;
     fbset (fb_IsFlashComplete true);;
     StopUsbTimer
   else mret tt);;
  mret (SparseGo Status PartitionSize_ PartitionName_).

(** The answer for an image whose result is known at the end of the
    command. *)
Definition report_flash {R} (PartitionName_ : list Z) : MW R unit :=
  g ← fbget;
  if EFI_ERROR (FlashResult g) then
    t ← rsp (if FlashResult g =? EFI_NOT_FOUND
             then L "(" ++ cstr PartitionName_ ++ L ") No such partition"
             else L "Error flashing partition : " ++ fmt_r (FlashResult g));
    FastbootFail t;;
    fbset (fb_FlashResult EFI_SUCCESS)
  else FastbootOkay [].

(** The image of a partition: sparse, UBI, meta or raw.  [false] is a
    [return] that skips the end of the command. *)
Definition flash_image (PartitionName_ : list Z) : MW bool bool :=
  g ← fbget;
  let Image := image_at g (mFlashDataBuffer g) in
  magic_ ← load32 Image 0;
  if magic_ =? SPARSE_HEADER_MAGIC then
    o ← call (flash_sparse PartitionName_);
    match o with
    | SparseDone => early false
    | SparseOut => early true
    | SparseGo Status PartitionSize_ Name_ =>
        g ← fbget;
        (if (PartitionSize_ <? MaxDownLoadSize g) ||
            ((MaxDownLoadSize g <? PartitionSize_) &&
             (IsDisableParallelDownloadFlash || negb (Status =? EFI_SUCCESS)))
         then report_flash Name_ else mret tt);;
        mret true
    end
  else
    r ← (if AsciiStrnCmp Image UBI_HEADER_MAGIC 4 =? 0 then
           call (HandleUbiImgFlash PartitionName_ MAX_GPT_NAME_SIZE Image (mFlashNumDataBytes g))
         else if magic_ =? META_HEADER_MAGIC then
           st ← call (HandleMetaImgFlash PartitionName_ (mFlashDataBuffer g) Image
                        (mFlashNumDataBytes g));
           mret (st, PartitionName_)
         else
           call (HandleRawImgFlash PartitionName_ MAX_GPT_NAME_SIZE Image (mFlashNumDataBytes g)));
    fbset (fb_FlashResult r.1);;
    report_flash r.2;;
    mret true.

(** [CmdFlash] up to the label [out]; [false] for the paths that do not get
    there. *)
Definition flash_body (arg : list Z) (data sz : Z) : MW bool bool :=
  ExchangeFlashAndUsbDataBuf;;
  g ← fbget;
  if mFlashDataBuffer g =? 0 then FastbootFail (L "No data to flash");; early false else
  if MAX_GPT_NAME_SIZE <=? AsciiStrLen arg then
    FastbootFail (L "Invalid partition name");; early false else
  PartitionName_ ← AsciiStrToUnicodeStr arg (zeros MAX_GPT_NAME_SIZE);
  ok ← check_lock (L "Flashing") PartitionName_;
  if negb ok then early false else
  ok ← check_snapshot (L "Flashing") PartitionName_;
  if negb ok then early false else
  if starts PartitionName_ (L "avb_custom_key") then
    Status ← StoreUserKey (image_at g data) sz;
    (if negb (Status =? EFI_SUCCESS) then FastbootFail (L "Flashing avb_custom_key failed")
     else FastbootOkay []);;
    early false else
  (match StrStr PartitionName_ (L ":") with
   | Some Token =>
       fbset (fb_Lun (s32 (StrDecimalToUintn (tl Token))));;
       g ← fbget;
       if MAX_LUNS <=? Lun g then
         FastbootFail (L "Invalid Lun number passed" ++ [10]);; early true
       else fbset (fb_LunSet true)
   | None => mret tt
   end);;
  BootDeviceType_ ← GetRootDeviceType;
  if starts PartitionName_ (L "partition") ||
     (starts PartitionName_ (L "mibib") && is_device BootDeviceType_ (L "NAND")) then
    call (flash_table PartitionName_ BootDeviceType_);; mret true
  else call (flash_image PartitionName_).

Definition CmdFlash (arg : list Z) (data sz : Z) : MW unit unit :=
  fbset (fb_LunSet false);;
  o ← call (flash_body arg data sz);
  if negb o then early tt else
  w ← get;
  (if starts arg (L "system") && negb (IsEnforcing w) && (FlashResult (fb w) =? EFI_SUCCESS)
   then EnableEnforcingMode true;; mret tt else mret tt);;
  fbset (fb_LunSet false).

Definition CmdErase (arg : list Z) : MW unit unit :=
  MultiSlotBoot ← PartitionHasMultiSlot (L "boot");
  if MAX_GPT_NAME_SIZE <=? AsciiStrLen arg then
    FastbootFail (L "Invalid partition name");; early tt else
  PartitionName_ ← AsciiStrToUnicodeStr arg (zeros MAX_GPT_NAME_SIZE);
  ok ← check_lock (L "Erase") PartitionName_;
  if negb ok then early tt else
  ok ← check_snapshot (L "Erase") PartitionName_;
  if negb ok then early tt else
  if starts PartitionName_ (L "avb_custom_key") then
    Status ← EraseUserKey;
    (if negb (Status =? EFI_SUCCESS) then FastbootFail (L "Erasing avb_custom_key failed")
     else FastbootOkay []);;
    early tt else
  s ← find_slot MultiSlotBoot PartitionName_ MAX_GPT_NAME_SIZE;
  let '(HasSlot, PartitionName_, SlotSuffix_) := s in
  Status ← call (FastbootErasePartition PartitionName_);
  if EFI_ERROR Status then FastbootFail (L "Check device console.")
  else boot_written MultiSlotBoot HasSlot PartitionName_ SlotSuffix_;; FastbootOkay [].

(** ** The active slot *)

(** The [do]/[while] over [BootSlotInfo] of [CmdSetActive]: nothing but the
    end of the array ends it when no slot matches. *)
Fixpoint reset_matching {R} (fuel : nat) (j : nat) (InputSlot : list Z) : MW R unit :=
  match fuel with
  | O => stop Forever
  | S fuel' =>
      s ← slot_at j;
      if bool_decide (is_Some (AsciiStrStr (SlotSuffix s) InputSlot)) then reset_slot j
      else reset_matching fuel' (S j) InputSlot
  end.

Definition CmdSetActive (Arg : list Z) : MW unit unit :=
  MultiSlotBoot ← PartitionHasMultiSlot (L "boot");
  w ← get;
  if TargetBuildVariantUser && negb (IsUnlocked w) then
    FastbootFail (L "Slot Change is not allowed in Lock State" ++ [10]);; early tt else
  if negb MultiSlotBoot then FastbootFail (L "This Command not supported");; early tt else
  stop_ ← (if IsDynamicPartitionSupport (pt w) then
             s ← call GetSnapshotMergeStatus; mret (s =? MERGING) else mret false);
  if (stop_ : bool) then
    FastbootFail (L "Slot Change is not allowed in merging state");; early tt else
  match AsciiStrStr Arg (L ":") with
  | None => FastbootFail (L "set_active _a or _b should be entered");; early tt
  | Some tail =>
      let InputSlot := tl tail in
      if MAX_SLOT_SUFFIX_SZ <=? AsciiStrLen InputSlot then
        FastbootFail (L "Invalid Slot");; early tt else
      u ← (match AsciiStrStr InputSlot (L "_") with
           | None =>
               t ← AsciiStrToUnicodeStr InputSlot (zeros MAX_SLOT_SUFFIX_SZ);
               a ← StrnCpyS (zeros MAX_SLOT_SUFFIX_SZ) MAX_SLOT_SUFFIX_SZ (L "_") (StrLen (L "_"));
               b ← StrnCatS a.2 MAX_SLOT_SUFFIX_SZ t (StrLen t);
               mret b.2
           | Some _ => AsciiStrToUnicodeStr InputSlot (zeros MAX_SLOT_SUFFIX_SZ)
           end);
      g ← fbget;
      if ((AsciiStrLen InputSlot =? MAX_SLOT_SUFFIX_SZ - 2) ||
          (AsciiStrLen InputSlot =? MAX_SLOT_SUFFIX_SZ - 1)) &&
         bool_decide (AsciiStrStr (SlotSuffixArray g) InputSlot = None) then
        FastbootFail (L "Invalid Slot Suffix");; early tt else
      n ← StrnCpyS (zeros MAX_SLOT_SUFFIX_SZ) MAX_SLOT_SUFFIX_SZ u (StrLen u);
      Status ← call (SetActiveSlot (Some n.2) true);
      if negb (Status =? EFI_SUCCESS) then FastbootFail (L "set_active failed");; early tt else
      refresh_current_slot;;
      g ← fbget;
      reset_matching (S (length (default [] (BootSlotInfo g)))) 0 InputSlot;;
      call (UpdatePartitionAttributes PARTITION_ALL);;
      FastbootOkay []
  end.

(** ** Reboots *)

(** [RebootDevice] of [ShutdownServices.c]. *)
Definition RebootDevice {R A} (RebootReason : Z) : MW R A :=
  fbset (fb_ResetReason (Some RebootReason));; stop ResetSystem.

Definition CmdReboot : MW unit unit := FastbootOkay [];; RebootDevice NORMAL_MODE.
Definition CmdRebootBootloader : MW unit unit := FastbootOkay [];; RebootDevice FASTBOOT_MODE.

Definition CmdRebootRecovery : MW unit unit :=
  Status ← call (WriteRecoveryMessage RECOVERY_BOOT_RECOVERY);
  if negb (Status =? EFI_SUCCESS) then
    FastbootFail (L "Failed to reboot to recovery mode");; early tt else
  FastbootOkay [];; RebootDevice NORMAL_MODE.

Definition CmdRebootFastboot : MW unit unit :=
  Status ← call (WriteRecoveryMessage RECOVERY_BOOT_FASTBOOT);
  if negb (Status =? EFI_SUCCESS) then
    FastbootFail (L "Failed to reboot to fastboot mode");; early tt else
  FastbootOkay [];; RebootDevice NORMAL_MODE.

Definition CmdUpdateSnapshot (Arg : list Z) : MW unit unit :=
  match AsciiStrStr Arg (L ":") with
  | Some tail =>
      let Command := tl tail in
      if starts Command (L "merge") then
        s ← call GetSnapshotMergeStatus;
        (if s =? MERGING then call CmdRebootFastboot else mret tt);;
        FastbootOkay [];; early tt
      else if starts Command (L "cancel") then
        w ← get;
        if negb (IsUnlocked w) then
          FastbootFail (L "Snapshot Cancel is not allowed in Lock State");; early tt else
        Status ← call (SetSnapshotMergeStatus CANCELLED);
        if negb (Status =? EFI_SUCCESS) then
          FastbootFail (L "Failed to update snapshot state to cancel");; early tt else
        clear_merge_state;; FastbootOkay [];; early tt
      else FastbootFail (L "Invalid snapshot-update command")
  | None => FastbootFail (L "Invalid snapshot-update command")
  end.

(** ** Lock state *)

Definition is_display_supported {R} : MW R bool :=
  l ← ask LocateDisplayUtils;
  if EFI_SUCCESS =? l then
    Status ← ask DisplayPanelConfig; mret (negb (Status =? EFI_NOT_FOUND))
  else mret true.

Definition IsEnableDisplayMenuFlagSupported : bool := negb TARGET_BOARD_TYPE_AUTO.

Definition SetDeviceUnlock (Type_ : Z) (State : bool) : MW unit unit :=
  w ← get;
  let is_unlocked_ := if Type_ =? UNLOCK then IsUnlocked w
    else if Type_ =? UNLOCK_CRITICAL then IsUnlockCritical w else false in
  if eqb State is_unlocked_ then
    t ← rsp ([9] ++ L "Device already : " ++ (if State then L "unlocked!" else L "locked!"));
    FastbootFail t;; early tt else
  if State && (IsAllowUnlock (fb w) =? 0) then
    FastbootFail (L "Flashing Unlock is not allowed" ++ [10]);; early tt else
  menu ← (if negb (GetAVBVersion (pt w) =? AVB_LE) then
            d ← is_display_supported; mret (d && IsEnableDisplayMenuFlagSupported)
          else mret false);
  if (menu : bool) then
    Status ← act (fun x => DisplayUnlockMenu x Type_ State);
    if negb (Status =? EFI_SUCCESS) then
      FastbootFail (L "Command not support: the display is not enabled");; early tt
    else FastbootOkay []
  else
    Status ← call (SetDeviceUnlockValue Type_ State);
    if negb (Status =? EFI_SUCCESS) then
      t ← rsp ([9] ++ L "Set device " ++ (if State then L "unlocked!" else L "locked!") ++
               L " failed: " ++ fmt_r Status);
      FastbootFail t;; early tt
    else
      FastbootOkay [];;
      w ← get;
      if negb (GetAVBVersion (pt w) =? AVB_LE) && negb IsEnableDisplayMenuFlagSupported
      then RebootDevice RECOVERY_MODE else mret tt.

Definition CmdFlashingUnlock : MW unit unit := SetDeviceUnlock UNLOCK true.
Definition CmdFlashingLock : MW unit unit := SetDeviceUnlock UNLOCK false.
Definition CmdFlashingLockCritical : MW unit unit := SetDeviceUnlock UNLOCK_CRITICAL false.
Definition CmdFlashingUnLockCritical : MW unit unit := SetDeviceUnlock UNLOCK_CRITICAL true.

(** Packets with information, each of which is waited for. *)
Definition inform {R} (text : list Z) : MW R unit :=
  t ← rsp text; FastbootInfo t;; act WaitTransfer.

Definition CmdFlashingGetUnlockAbility : MW unit unit :=
  g ← fbget;
  inform (L "get_unlock_ability: " ++ fmt_d (IsAllowUnlock g));;
  FastbootOkay [].

(** ** OEM commands *)

Definition CmdOemEnableChargerScreen : MW unit unit :=
  Status ← EnableChargingScreen true;
  if negb (Status =? EFI_SUCCESS) then FastbootFail (L "Failed to enable charger screen")
  else FastbootOkay [].
Definition CmdOemDisableChargerScreen : MW unit unit :=
  Status ← EnableChargingScreen false;
  if negb (Status =? EFI_SUCCESS) then FastbootFail (L "Failed to disable charger screen")
  else FastbootOkay [].

Definition CmdOemOffModeCharger (Arg : list Z) : MW unit unit :=
  match AsciiStrStr Arg (L " ") with
  | None => FastbootFail (L "Enter fastboot oem off-mode-charge 0/1");; early tt
  | Some tail =>
      let Ptr := tl tail in
      IsEnable ← (if StrCmp Ptr (L "0") =? 0 then mret false
                  else if StrCmp Ptr (L "1") =? 0 then mret true
                  else FastbootFail (L "Invalid input entered");; early tt);
      let Resp := L "Set off mode charger: " ++ zeros (MAX_RSP_SIZE - 22) in
      r ← cat Resp MAX_RSP_SIZE Arg;
      Status ← EnableChargingScreen IsEnable;
      if negb (Status =? EFI_SUCCESS) then
        r ← cat r MAX_RSP_SIZE (L ": failed"); FastbootFail r
      else r ← cat r MAX_RSP_SIZE (L ": done"); FastbootOkay r
  end.

Definition true_false (b : bool) : list Z := if b then L "true" else L "false".

Definition IsHibernationEnabled (p : PtGlobals) : bool :=
  HIBERNATION_SUPPORT_NO_AES &&
  let PtnIdx := GetPartitionIndex p SWAP_PARTITION_NAME in
  (u32 PtnIdx <? GetPartitionCount p) && negb (PtnIdx =? INVALID_PTN).

Definition CmdOemDevinfo : MW unit unit :=
  w ← get;
  inform (L "Verity mode: " ++ true_false (IsEnforcing w));;
  inform (L "Device unlocked: " ++ true_false (IsUnlocked w));;
  inform (L "Device critical unlocked: " ++ true_false (IsUnlockCritical w));;
  inform (L "Charger screen enabled: " ++ true_false (IsChargingScreenEnable w));;
  (if IsHibernationEnabled (pt w)
   then inform (L "Erase swap on restore: " ++ true_false (IsSnapshotGolden w)) else mret tt);;
  FastbootOkay [].

Definition CmdOemAudioFrameWork (Arg : list Z) : MW unit unit :=
  let Arg := if hd0 Arg =? 32 then tl Arg else Arg in
  Status ← StoreAudioFrameWork Arg (AsciiStrLen Arg);
  if negb (Status =? EFI_SUCCESS) then FastbootFail (L "Failed to store Audio framework")
  else FastbootOkay [].

(** Without a space in the argument the pointer that is compared is
    [NULL + 1]. *)
Definition CmdGoldenSnapshot (Arg : list Z) : MW unit unit :=
  if (AsciiStrLen Arg <? 7) || (8 <? AsciiStrLen Arg) then
    FastbootFail (L "Invalid input entered");; early tt else
  tail ← need NullDeref (AsciiStrStr Arg (L " "));
  let Ptr := tl tail in
  Status ← (if StrCmp Ptr (L "enable") =? 0 then SetSnapshotGolden 200
            else if StrCmp Ptr (L "disable") =? 0 then SetSnapshotGolden 0
            else FastbootFail (L "Invalid input entered");; early tt);
  if negb (Status =? EFI_SUCCESS) then FastbootFail (L "Failed to update golden-snapshot flag")
  else FastbootOkay (L "Golden-snapshot flag updated").

(** ** Variables on request *)

(** [TargetCheckBatteryStatus] and [TargetBatterySocOk] of [UpdateCmdLine.c]:
    the status with the presence and the voltage; the answer with the
    voltage. *)
Definition TargetCheckBatteryStatus (x : Fw) : EFI_STATUS * bool * Z :=
  let Status := LocateCharger x in
  if Status =? EFI_NOT_FOUND then (EFI_SUCCESS, false, 0)
  else if EFI_ERROR Status then (EFI_PROTOCOL_ERROR, false, 0) else
  let '(Status, BatteryPresent) := GetBatteryPresence x in
  if EFI_ERROR Status then (Status, BatteryPresent, 0) else
  let '(Status, BatteryVoltage) := GetBatteryVoltage x in
  if EFI_ERROR Status then (Status, BatteryPresent, BatteryVoltage) else
  ((GetChargerPresence x).1, BatteryPresent, BatteryVoltage).

Definition TargetBatterySocOk (x : Fw) : bool * Z :=
  let Status := LocateCharger x in
  if Status =? EFI_NOT_FOUND then (true, 0)
  else if EFI_ERROR Status then (false, 0)
  else if CHARGER_EX_REVISION <=? ChargerRevision x then
    let '(Status, FlashInfo_) := IsPowerOk x in
    if EFI_ERROR Status then (Status =? EFI_UNSUPPORTED, 0)
    else
      (negb (negb (bCanFlash FlashInfo_) ||
             (BattCurrVoltage FlashInfo_ <? BattRequiredVoltage FlashInfo_)),
       BattCurrVoltage FlashInfo_)
  else
    let '(Status, BatteryPresent, BatteryVoltage) := TargetCheckBatteryStatus x in
    (((Status =? EFI_SUCCESS) &&
      (negb BatteryPresent || (BatteryPresent && (BATT_MIN_VOLT <? BatteryVoltage)))) ||
     (Status =? EFI_UNSUPPORTED), BatteryVoltage).

Definition UpdateGetVarVariable {R} : MW R unit :=
  w ← get;
  let '(ok, mv) := TargetBatterySocOk (fw w) in
  let g := fb w in
  a ← AsciiSPrint (StrBatteryVoltage g) MAX_RSP_SIZE (fmt_d mv);
  b ← AsciiSPrint (StrBatterySocOk g) MAX_RSP_SIZE (yes_no ok);
  let c := fmt_d (if IsChargingScreenEnable w then 1 else 0) in
  d ← AsciiSPrint (ChargeScreenEnable g) MAX_RSP_SIZE c;
  e ← AsciiSPrint (OffModeCharge g) MAX_RSP_SIZE c;
  fbset (fun g => fb_OffModeCharge e (fb_ChargeScreenEnable d
    (fb_StrBatterySocOk b (fb_StrBatteryVoltage a g)))).

(** The variables from the newest on. *)
Fixpoint getvar_all {R} (vs : list FASTBOOT_VAR) (buf : list Z) : MW R unit :=
  match vs with
  | [] => mret tt
  | v :: vs' =>
      w ← get;
      t ← need NullDeref (var_text w (var_val v));
      a ← AsciiStrnCpyS buf MAX_RSP_SIZE (var_name v) MAX_RSP_SIZE;
      b ← cat a.2 MAX_RSP_SIZE (L ":");
      c ← AsciiStrnCatS b MAX_RSP_SIZE t MAX_RSP_SIZE;
      FastbootInfo c.2;;
      act WaitTransfer;;
      getvar_all vs' (zeros MAX_RSP_SIZE)
  end.

Definition CmdGetVarAll : MW unit unit :=
  g ← fbget;
  getvar_all (Varlist g) (zeros MAX_RSP_SIZE);;
  FastbootOkay [].

(** The search of [CmdGetVar]. *)
Fixpoint find_var (vs : list FASTBOOT_VAR) (Arg : list Z) : option var_value :=
  match vs with
  | [] => None
  | v :: vs' => if StrCmp (var_name v) Arg =? 0 then Some (var_val v) else find_var vs' Arg
  end.

(** The name asked for: a partition of an A/B pair gets the current suffix,
    behind the argument in the receive buffer. *)
Definition getvar_name (Arg : list Z) : MW unit (list Z) :=
  match AsciiStrStr Arg (L "partition-"), AsciiStrStr Arg (L ":") with
  | Some _, Some t =>
      let Token := tl t in
      if MAX_GPT_NAME_SIZE <=? AsciiStrLen Token then
        FastbootFail (L "Invalid partition name");; early tt else
      u ← AsciiStrToUnicodeStr Token (zeros MAX_GPT_NAME_SIZE);
      m ← PartitionHasMultiSlot u;
      if (m : bool) then
        CurrentSlot ← GetCurrentSlotSuffix;
        c ← UnicodeStrToAsciiStr CurrentSlot (zeros MAX_SLOT_SUFFIX_SZ);
        cat Arg (MAX_FASTBOOT_COMMAND_SIZE - AsciiStrLen (L "getvar:")) c
      else mret Arg
  | _, _ => mret Arg
  end.

Definition CmdGetVar (Arg : list Z) : MW unit unit :=
  UpdateGetVarVariable;;
  if StrCmp (L "all") Arg =? 0 then call CmdGetVarAll;; early tt else
  Arg ← getvar_name Arg;
  w ← get;
  match find_var (Varlist (fb w)) Arg with
  | Some v => t ← need NullDeref (var_text w v); FastbootOkay t
  | None => FastbootFail (L "GetVar Variable Not found")
  end.
End Cmds.
