(* ===== verification/FastbootOem.v ===== *)
(** The OEM commands that store a setting for the kernel command line
    ([FastbootCmds.c]): the display panel, hardware fences and GPU
    preemption. *)
From Stdlib Require Import ZArith Lia.
From stdpp Require Import base list numbers option.
From S2P Require Import Prelude EfiBase Convert Firmware World LoaderLib Board Ptable DevInfo Gpt Slots Sparse Recovery Fastboot FastbootCmds.

Definition MAX_DISPLAY_PANEL_OVERRIDE : Z := 256.
Definition MAX_GPU_CONFIG_OVERRIDE : Z := 256.

(** The loops over the argument.  Blanks are taken off the front; for a
    panel, a colon in front of the name asks to append. *)
Fixpoint skip_blanks (arg : list Z) : list Z :=
  match arg with
  | c :: arg' => if c =? 32 then skip_blanks arg' else arg
  | [] => []
  end.
Fixpoint panel_loop (fuel : nat) (arg : list Z) (Pos : Z) (Append : bool) : list Z * bool :=
  match fuel with
  | O => (arg, Append)
  | S fuel' =>
      if Pos <? AsciiStrLen arg then
        if char_at arg Pos =? 32 then panel_loop fuel' (tl arg) Pos Append
        else if char_at arg Pos =? 58 then panel_loop fuel' arg (Pos + 1) true
        else (arg, Append)
      else (arg, Append)
  end.

(** A round shortens what is left of the string, so its length bounds the
    rounds: more of them change nothing. *)
Lemma panel_loop_fuel n m arg Pos Append :
  0 <= Pos -> AsciiStrLen arg - Pos <= Z.of_nat n -> (n <= m)%nat ->
  panel_loop m arg Pos Append = panel_loop n arg Pos Append.
Proof.
  revert m arg Pos Append. induction n as [|n IH]; intros m arg Pos Append HP Hl Hm.
  - destruct m as [|m]; [done|]. simpl. by destruct (Z.ltb_spec Pos (AsciiStrLen arg)); [lia|].
  - destruct m as [|m]; [lia|]. cbn [panel_loop].
    destruct (Z.ltb_spec Pos (AsciiStrLen arg)); [|done].
    destruct (char_at arg Pos =? 32).
    + apply IH; [lia| |lia]. unfold AsciiStrLen, StrLen in *.
      destruct arg as [|c arg]; [simpl in *; lia|]. simpl in *.
      destruct (c =? 0); simpl in *; lia.
    + destruct (char_at arg Pos =? 58); [|done]. apply IH; lia.
Qed.

Section Oem.
Context `{F : Firmware} `{B : BuildConfig}.

(** Variables of the display: from its protocol, or from the runtime services
    where that is missing or too old; one that does not exist is no error. *)
Definition use_runtime {R} : MW R bool :=
  Status ← ask LocateDisplayUtils;
  if EFI_ERROR Status then mret true else
  r ← ask DisplayUtilsRevision; mret (r <? 0x20000).

Definition DisplaySetVariable {R} (VariableName VariableValue : list Z) : MW R EFI_STATUS :=
  rtv ← use_runtime;
  Status ← (if (rtv : bool) then act (fun x => SetVariable x VariableName VariableValue)
            else act (fun x => DisplayUtilsSetVariable x VariableName VariableValue));
  mret (if Status =? EFI_NOT_FOUND then EFI_SUCCESS else Status).

(** The status, the size afterwards, and the bytes stored. *)
Definition DisplayGetVariable {R} (VariableName : list Z) (DataSize : Z) :
    MW R (EFI_STATUS * (Z * list Z)) :=
  rtv ← use_runtime;
  r ← (if (rtv : bool) then ask (fun x => GetVariable x VariableName DataSize)
       else ask (fun x => DisplayUtilsGetVariable x VariableName DataSize));
  mret (if r.1 =? EFI_NOT_FOUND then EFI_SUCCESS else r.1, r.2).

(** The answer: the text and the outcome behind it. *)
Definition answer (text : list Z) (Status : EFI_STATUS) (failed : list Z) : MW unit unit :=
  Resp ← cpy (zeros MAX_RSP_SIZE) MAX_RSP_SIZE text;
  if EFI_ERROR Status then
    Resp ← cat Resp MAX_RSP_SIZE failed; FastbootFail Resp
  else
    Resp ← cat Resp MAX_RSP_SIZE (L ": done"); FastbootOkay Resp.

Definition CmdOemSetHwFenceValue (arg : list Z) : MW unit unit :=
  HwFenceValue ← cpy (zeros MAX_DISPLAY_PANEL_OVERRIDE) MAX_DISPLAY_PANEL_OVERRIDE
                   (L " msm_hw_fence.enable=");
  HwFenceValue ← cat HwFenceValue MAX_DISPLAY_PANEL_OVERRIDE (skip_blanks arg);
  Status ← act (fun x => SetVariable x (L "HwFenceConfiguration") (cstr HwFenceValue));
  answer (L "Set HW fence value: ") Status (L ": failed!").

Definition CmdOemSetGpuPreemptionValue (arg : list Z) : MW unit unit :=
  GpuPreemptionValue ← cpy (zeros MAX_GPU_CONFIG_OVERRIDE) MAX_GPU_CONFIG_OVERRIDE
                         (L " msm_kgsl.preempt_enable=");
  GpuPreemptionValue ← cat GpuPreemptionValue MAX_GPU_CONFIG_OVERRIDE (skip_blanks arg);
  Status ← act (fun x => SetVariable x (L "GpuConfiguration") (cstr GpuPreemptionValue));
  answer (L "Set GPU HW Preemption: ") Status (L ": failed!").

Definition CmdOemSelectDisplayPanel (arg : list Z) : MW unit unit :=
  let '(arg, Append) := panel_loop (length arg) arg 0 false in
  DisplayPanelStr ←
    (if Append then
       r ← DisplayGetVariable (L "DisplayPanelOverride") MAX_DISPLAY_PANEL_OVERRIDE;
       let '(Status, (CurStrLen, d)) := r in
       DisplayPanelStrExist ← store (zeros MAX_DISPLAY_PANEL_OVERRIDE) 0 d;
       let TotalStrLen := u64 (CurStrLen + AsciiStrLen arg) in
       if (EFI_SUCCESS =? Status) && negb (0 =? CurStrLen) &&
          (TotalStrLen <? MAX_DISPLAY_PANEL_OVERRIDE)
       then
         s ← AsciiStrnCatS (zeros MAX_DISPLAY_PANEL_OVERRIDE) MAX_DISPLAY_PANEL_OVERRIDE
               DisplayPanelStrExist CurStrLen;
         mret s.2
       else mret (zeros MAX_DISPLAY_PANEL_OVERRIDE)
     else mret (zeros MAX_DISPLAY_PANEL_OVERRIDE));
  DisplayPanelStr ← cat DisplayPanelStr MAX_DISPLAY_PANEL_OVERRIDE arg;
  Status ← DisplaySetVariable (L "DisplayPanelOverride") (cstr DisplayPanelStr);
  answer (L "Selecting Panel: ") Status (L ": failed").
End Oem.
