(* ===== verification/Dispatch.v ===== *)
(** From a USB packet to a handler ([FastbootCmds.c], [FastbootMain.c]): the
    table of commands, [AcceptCmd], and the completions of the USB driver as
    the steps of the engine. *)
From Stdlib Require Import ZArith Lia.
From stdpp Require Import base list numbers option.
From S2P Require Import Prelude EfiBase Convert Firmware World LoaderLib Board Ptable DevInfo Gpt Slots Sparse Recovery Fastboot FastbootCmds FastbootOem.

(** What a switch of the build adds to the table. *)
Definition when {A} (b : bool) (l : list A) : list A := if b then l else [].

Section Table.
Context `{B : BuildConfig}.

(** [cmd_list] of [FastbootCommandSetup], without its empty first entry. *)
Definition cmd_list : list (list Z * fastboot_cmd_fn) :=
  when ENABLE_UPDATE_PARTITIONS_CMDS
    [ (L "flash:", FnFlash); (L "erase:", FnErase); (L "set_active", FnSetActive);
      (L "flashing get_unlock_ability", FnFlashingGetUnlockAbility);
      (L "flashing unlock", FnFlashingUnlock); (L "flashing lock", FnFlashingLock) ] ++
  when ENABLE_DEVICE_CRITICAL_LOCK_UNLOCK_CMDS
    [ (L "flashing unlock_critical", FnFlashingUnLockCritical);
      (L "flashing lock_critical", FnFlashingLockCritical) ] ++
  when ENABLE_BOOT_CMD [ (L "boot", FnBoot) ] ++
  [ (L "oem enable-charger-screen", FnOemEnableChargerScreen);
    (L "oem disable-charger-screen", FnOemDisableChargerScreen);
    (L "oem off-mode-charge", FnOemOffModeCharger);
    (L "oem select-display-panel", FnOemSelectDisplayPanel);
    (L "oem set-hw-fence-value", FnOemSetHwFenceValue);
    (L "oem set-gpu-preemption", FnOemSetGpuPreemptionValue);
    (L "oem device-info", FnOemDevinfo) ] ++
  when HIBERNATION_SUPPORT_NO_AES [ (L "oem golden-snapshot", FnGoldenSnapshot) ] ++
  [ (L "continue", FnContinue); (L "reboot", FnReboot);
    (L "reboot-bootloader", FnRebootBootloader); (L "getvar:", FnGetVar);
    (L "download:", FnDownload); (L "oem audio-framework", FnOemAudioFrameWork) ].

(** What is registered where there are dynamic partitions. *)
Definition dynamic_cmds : list (list Z * fastboot_cmd_fn) :=
  [ (L "reboot-recovery", FnRebootRecovery); (L "reboot-fastboot", FnRebootFastboot);
    (L "snapshot-update", FnUpdateSnapshot) ].
End Table.

(** The search of [AcceptCmd]. *)
Fixpoint find_cmd (cs : list FASTBOOT_CMD) (Data : list Z) : option FASTBOOT_CMD :=
  match cs with
  | [] => None
  | c :: cs' =>
      if AsciiStrnCmp Data (prefix_ c) (prefix_len c) =? 0 then Some c else find_cmd cs' Data
  end.

Section Engine.
Context `{F : Firmware} `{B : BuildConfig}.

(** The handlers that are not modelled: booting an image and continuing to the
    kernel. *)
Context (other : fastboot_cmd_fn -> list Z -> Z -> Z -> MW unit unit).

Definition FastbootRegister {R} (prefix : list Z) (handle : fastboot_cmd_fn) : MW R unit :=
  a ← ask (fun x => AllocateZeroPool x 32);
  if (a : bool) then
    fbset (fun g => fb_cmdlist (mkCmd prefix (AsciiStrLen prefix) handle :: cmdlist g) g)
  else mret tt.

(** The registrations of [FastbootCommandSetup]. *)
Fixpoint register_all {R} (cs : list (list Z * fastboot_cmd_fn)) : MW R unit :=
  match cs with
  | [] => mret tt
  | c :: cs' => FastbootRegister c.1 c.2;; register_all cs'
  end.
Definition register_commands {R} : MW R unit :=
  register_all cmd_list;;
  w ← get;
  if IsDynamicPartitionSupport (pt w) then register_all dynamic_cmds else mret tt.

Definition run_handler (h : fastboot_cmd_fn) (arg : list Z) (data sz : Z) : MW unit unit :=
  match h with
  | FnFlash => CmdFlash arg data sz
  | FnErase => CmdErase arg
  | FnSetActive => CmdSetActive arg
  | FnFlashingGetUnlockAbility => CmdFlashingGetUnlockAbility
  | FnFlashingUnlock => CmdFlashingUnlock
  | FnFlashingLock => CmdFlashingLock
  | FnFlashingUnLockCritical => CmdFlashingUnLockCritical
  | FnFlashingLockCritical => CmdFlashingLockCritical
  | FnOemEnableChargerScreen => CmdOemEnableChargerScreen
  | FnOemDisableChargerScreen => CmdOemDisableChargerScreen
  | FnOemOffModeCharger => CmdOemOffModeCharger arg
  | FnOemDevinfo => CmdOemDevinfo
  | FnGoldenSnapshot => CmdGoldenSnapshot arg
  | FnReboot => CmdReboot
  | FnRebootBootloader => CmdRebootBootloader
  | FnGetVar => CmdGetVar arg
  | FnDownload => CmdDownload arg
  | FnOemAudioFrameWork => CmdOemAudioFrameWork arg
  | FnRebootRecovery => CmdRebootRecovery
  | FnRebootFastboot => CmdRebootFastboot
  | FnUpdateSnapshot => CmdUpdateSnapshot arg
  | FnOemSelectDisplayPanel => CmdOemSelectDisplayPanel arg
  | FnOemSetHwFenceValue => CmdOemSetHwFenceValue arg
  | FnOemSetGpuPreemptionValue => CmdOemSetGpuPreemptionValue arg
  | FnBoot | FnContinue => other h arg data sz
  end.

Definition AcceptCmdTimerInit {R} (Size : Z) (Data : list Z) : MW R EFI_STATUS :=
  a ← ask (fun x => AllocateZeroPool x 16);
  if negb a then mret EFI_OUT_OF_RESOURCES else
  Status ← ask CreateEvent;
  if EFI_ERROR Status then mret Status else
  Status ← ask SetTimer;
  (if EFI_ERROR Status then mret tt
   else fbset (fb_PendingCmd (Some (mkCmdInfo Size Data))));;
  mret Status.

(** A flash that is not complete defers the command; the result of the last
    one fails the next [flash] or [download].  [true] goes on. *)
Definition last_flash_ok (Size : Z) (Data : list Z) : MW unit bool :=
  if IsDisableParallelDownloadFlash then mret true else
  (if negb (starts Data (L "download")) then
     StopUsbTimer;;
     w ← get;
     if negb (IsFlashComplete (fb w)) && negb (IsUseMThreadParallel (lb w)) then
       Status ← AcceptCmdTimerInit Size Data;
       if Status =? EFI_SUCCESS then early tt else mret tt
     else mret tt
   else mret tt);;
  g ← fbget;
  if negb (FlashResult g =? EFI_SUCCESS) &&
     (starts Data (L "flash") || starts Data (L "download")) then
    t ← rsp (L "Error: Last flash failed : " ++ fmt_r (FlashResult g));
    FastbootFail t;;
    fbset (fb_FlashResult EFI_SUCCESS);;
    mret false
  else mret true.

(** The battery is checked at the first erase or flash after the host asked
    for a partition type. *)
Definition battery_ok (Data : list Z) : MW unit bool :=
  if negb EnableBatteryVoltageCheck then mret true else
  w ← get;
  if IsFirstEraseFlash (fb w) then
    if starts Data (L "erase") || starts Data (L "flash") then
      if negb (TargetBatterySocOk (fw w)).1 then
        FastbootFail (L "Warning: battery's capacity is very low" ++ [10]);; mret false
      else fbset (fb_IsFirstEraseFlash false);; mret true
    else mret true
  else
    (if starts Data (L "getvar:partition-type") then fbset (fb_IsFirstEraseFlash true)
     else mret tt);;
    mret true.

(** [Data] is the receive buffer. *)
Definition AcceptCmd (Size : Z) (Data : option (list Z)) : MW unit unit :=
  match Data with
  | None => FastbootFail (L "Invalid input command");; early tt
  | Some Data =>
      let Size := if MAX_FASTBOOT_COMMAND_SIZE <? Size then MAX_FASTBOOT_COMMAND_SIZE else Size in
      Data ← store Data Size [0];
      ok ← last_flash_ok Size Data;
      if negb ok then early tt else
      ok ← battery_ok Data;
      if negb ok then early tt else
      g ← fbget;
      match find_cmd (cmdlist g) Data with
      | Some c =>
          run_handler (handle_ c) (drop (Z.to_nat (prefix_len c)) Data) (mUsbDataBuffer g)
            (u32 (mBytesReceivedSoFar g))
      | None => FastbootFail (L "unknown command")
      end
  end.

(** The deferred command, when its timer fires. *)
Definition AcceptCmdHandler : MW unit unit :=
  g ← fbget;
  match PendingCmd g with
  | None => mret tt
  | Some c =>
      fbset (fb_PendingCmd None);;
      call (AcceptCmd (ci_Size c) (Some (ci_Data c)))
  end.

(** [DataReady] in the command state and in the data state. *)
Definition DataReady (Size : Z) (Data : list Z + Z) : MW unit unit :=
  g ← fbget;
  match mState g, Data with
  | ExpectCmdState, inl buf => AcceptCmd Size (Some buf)
  | ExpectDataState, inr addr => AcceptData Size addr
  | _, _ => mret tt
  end.

(** A transfer from the host ended with [Size] bytes; [gRxBuffer] is the
    receive buffer for commands. *)
Definition ProcessBulkXfrCompleteRx (Status_ : USB_DEVICE_TRANSFER_STATUS) (Size : Z)
    (gRxBuffer : list Z) : MW EFI_STATUS EFI_STATUS :=
  match Status_ with
  | UsbDeviceTransferStatusCompleteOK =>
      g ← fbget;
      (if bool_decide (FastbootCurrentState g = ExpectDataState)
       then call (DataReady Size (inr (FastbootDloadBuffer g)))
       else call (DataReady Size (inl gRxBuffer)));;
      mret EFI_SUCCESS
  | UsbDeviceTransferStatusCancelled => mret EFI_ABORTED
  | UsbDeviceTransferStatusOther => mret EFI_DEVICE_ERROR
  end.

(** What the USB driver reports; a received transfer comes with the bytes the
    driver stored and the receive buffer for commands afterwards. *)
Inductive usb_event :=
| UsbConnected
| UsbDisconnected
| UsbReceived (Status_ : USB_DEVICE_TRANSFER_STATUS) (d gRxBuffer : list Z)
| UsbSent (Status_ : USB_DEVICE_TRANSFER_STATUS)
| UsbNoEvent.

(** The driver fills the buffer of the receive that was queued. *)
Definition driver_stores {R} (d : list Z) : MW R unit :=
  g ← fbget;
  match RxQueue g with
  | Some (_, Some addr) => poke addr d
  | _ => mret tt
  end;;
  fbset (fb_RxQueue None).

Definition HandleUsbEvents (e : usb_event) : MW EFI_STATUS EFI_STATUS :=
  match e with
  | UsbConnected => queue_receive 511 None;; mret EFI_SUCCESS
  | UsbDisconnected | UsbNoEvent => mret EFI_SUCCESS
  | UsbReceived st d gRxBuffer =>
      driver_stores d;;
      ProcessBulkXfrCompleteRx st (Z.of_nat (length d)) gRxBuffer
  | UsbSent st => ProcessBulkXfrCompleteTx st
  end.
End Engine.
