(* ===== verification/Setup.v ===== *)
(** How fastboot starts ([FastbootCmds.c], [Board.c]): the transfer buffer, the
    variables it publishes, the commands it registers. *)
From Stdlib Require Import ZArith Lia.
From stdpp Require Import base list numbers option.
From S2P Require Import Prelude EfiBase Convert Firmware World LoaderLib Board Ptable DevInfo Gpt Slots Sparse Recovery Fastboot FastbootCmds FastbootOem Dispatch.

Definition MAX_GET_VAR_NAME_SIZE : Z := 32.
Definition FS_SUPERBLOCK_OFFSET : Z := 0x400.
Definition EXT_MAGIC_OFFSET_SB : Z := 0x38.
Definition EXT_FS_MAGIC : Z := 0xEF53.
Definition F2FS_MAGIC_OFFSET_SB : Z := 0x0.
Definition F2FS_FS_MAGIC : Z := 0xF2F52010.
Definition NAND_PAGES_PER_BLOCK : Z := 64.
Definition EFICHIPINFO_MAX_ID_LENGTH : Z := 16.
Definition EFI_KERNEL_PROTOCOL_VER_LOCK_API : Z := 0x00010005.

Inductive FS_SIGNATURE := EXT_FS_SIGNATURE | F2FS_FS_SIGNATURE | UNKNOWN_FS_SIGNATURE.

(** Name and default type of the partitions in [part_info]. *)
Definition part_info : list (list Z * list Z) := Eval cbv in
  [ (L "system", L "ext4"); (L "userdata", L "ext4"); (L "cache", L "ext4") ].

(** [ToLower] of [LinuxLoaderLib.c], up to the terminator. *)
Fixpoint ToLower (Str : list Z) : list Z :=
  match Str with
  | [] => []
  | c :: Str' =>
      if c =? 0 then Str
      else (if (65 <=? c) && (c <=? 90) then c + 32 else c) :: ToLower Str'
  end.

(** ** The board *)

Section Board.
Context `{F : Firmware} `{B : BuildConfig}.

(** The status, and the array [StrSerialNum] of [Len] characters. *)
Definition BoardSerialNum (StrSerialNum : list Z) (Len : Z) :
    MW (EFI_STATUS * list Z) (EFI_STATUS * list Z) :=
  Type_ ← CheckRootDeviceType;
  if bool_decide (Type_ = UNKNOWN) then
    Status ← ask LocateChipInfo;
    if negb (Status =? EFI_SUCCESS) then early (Status, StrSerialNum) else
    r ← ask GetSerialNumber;
    if negb (r.1 =? EFI_SUCCESS) then early (r.1, StrSerialNum) else
    s ← AsciiSPrint StrSerialNum Len (fmt_x r.2);
    early (r.1, ToLower s)
  else
  r ← GetDeviceHandleInfo HANDLE_MAX_INFO_LIST Type_;
  if EFI_ERROR r.1 then early (r.1, StrSerialNum) else
  i ← need OutOfBounds (head r.2);
  Status ← ask (fun x => HasMemCardInfo x (Handle i));
  if negb (Status =? EFI_SUCCESS) then early (Status, StrSerialNum) else
  c ← ask (fun x => CardSerial x (Handle i));
  let '(st, (product_serial_num, serial_num_len)) := c in
  if st =? EFI_SUCCESS then
    if bool_decide (Type_ = UFS) then
      d ← load product_serial_num 0 serial_num_len;
      let crc := CalculateCrc32 d in
      if negb (crc.1 =? EFI_SUCCESS) then early (crc.1, StrSerialNum) else
      s ← AsciiSPrint StrSerialNum Len (fmt_x crc.2);
      mret (crc.1, ToLower s)
    else
      d ← load product_serial_num 0 4;
      s ← AsciiSPrint StrSerialNum Len (fmt_x (field d 0 4));
      mret (Status, ToLower s)
  else mret (Status, StrSerialNum).

(** The array afterwards; a failed query leaves it as it was. *)
Definition BoardHwPlatformName (StrHwPlatform : list Z) (Len : Z) : MW (list Z) (list Z) :=
  let ChipIdValidLen := 4 in
  Status ← ask LocateChipInfo;
  if EFI_ERROR Status then early StrHwPlatform else
  r ← ask (fun x => GetChipIdString x
             (if Len <? EFICHIPINFO_MAX_ID_LENGTH then Len else EFICHIPINFO_MAX_ID_LENGTH));
  if EFI_ERROR r.1 then early StrHwPlatform else
  s ← store StrHwPlatform 0 r.2;
  store s (if Len <? ChipIdValidLen then Len - 1 else ChipIdValidLen - 1) [0].

Definition BoardPlatformChipVersion {R} : MW R Z := ask ChipVersion.

(** ** What the host can ask of a partition *)

(** The super block that tells the file system; a read that fails leaves the
    zeroed buffer. *)
Definition CheckPartitionFsSignature (PartName : list Z) : MW FS_SIGNATURE FS_SIGNATURE :=
  r ← call (PartitionGetInfo PartName);
  if negb (r.1 =? EFI_SUCCESS) then early UNKNOWN_FS_SIGNATURE else
  match r.2 with
  | None => early UNKNOWN_FS_SIGNATURE
  | Some b =>
      BlkSz ← ask (fun x => BlockSize (Media x b));
      a ← ask (fun x => AllocateZeroPool x BlkSz);
      if negb a then early UNKNOWN_FS_SIGNATURE else
      if BlkSz =? 0 then stop DivByZero else
      let SuperBlkLba := FS_SUPERBLOCK_OFFSET / BlkSz in
      d ← ask (fun x => ReadBlocks x b SuperBlkLba BlkSz);
      let Buffer := if EFI_ERROR d.1 then zeros BlkSz else d.2 in
      let FsSuperBlk := if SuperBlkLba =? 0 then FS_SUPERBLOCK_OFFSET else 0 in
      ext ← load Buffer (FsSuperBlk + EXT_MAGIC_OFFSET_SB) 2;
      if field ext 0 2 =? EXT_FS_MAGIC then mret EXT_FS_SIGNATURE else
      f2 ← load Buffer (FsSuperBlk + F2FS_MAGIC_OFFSET_SB) 4;
      if field f2 0 4 =? F2FS_FS_MAGIC then mret F2FS_FS_SIGNATURE
      else mret UNKNOWN_FS_SIGNATURE
  end.

(** The loop of [GetPartitionType] over [part_info]. *)
Fixpoint type_loop {R} (ps : list (list Z * list Z)) (PartName AsciiPartName PartType : list Z) :
    MW R (list Z) :=
  match ps with
  | [] => mret PartType
  | p :: ps' =>
      if starts AsciiPartName p.1 then
        s ← call (CheckPartitionFsSignature PartName);
        t ← cpy PartType MAX_GET_VAR_NAME_SIZE
              (match s with
               | EXT_FS_SIGNATURE => L "ext4"
               | F2FS_FS_SIGNATURE => L "f2fs"
               | UNKNOWN_FS_SIGNATURE => p.2
               end);
        type_loop ps' PartName AsciiPartName t
      else type_loop ps' PartName AsciiPartName PartType
  end.

Definition GetPartitionType {R} (PartName PartType : list Z) : MW R (EFI_STATUS * list Z) :=
  t ← cpy PartType MAX_GET_VAR_NAME_SIZE (L "raw");
  AsciiPartName ← UnicodeStrToAsciiStr PartName (zeros MAX_GET_VAR_NAME_SIZE);
  t ← type_loop part_info PartName AsciiPartName t;
  mret (EFI_SUCCESS, t).

Definition GetPartitionSizeViaName (PartName PartSize : list Z) :
    MW (EFI_STATUS * list Z) (EFI_STATUS * list Z) :=
  r ← call (PartitionGetInfo PartName);
  if negb (r.1 =? EFI_SUCCESS) then early (r.1, PartSize) else
  match r.2 with
  | None => early (EFI_VOLUME_CORRUPTED, PartSize)
  | Some b =>
      n ← ask (fun x => GetPartitionSize x (Some b));
      if n =? 0 then early (EFI_BAD_BUFFER_SIZE, PartSize) else
      s ← AsciiSPrint PartSize MAX_RSP_SIZE (L " 0x" ++ fmt_llx n);
      mret (EFI_SUCCESS, s)
  end.

(** One entry of [PublishGetVarPartitionInfo]: its fields of
    [PublishedPartInfo] start zeroed; [true] when both variables were
    published. *)
Definition publish_part {R} (e : PartitionEntry) : MW R bool :=
  part_name ← UnicodeStrToAsciiStr (Name e) (zeros MAX_GET_VAR_NAME_SIZE);
  n ← cpy (zeros MAX_GET_VAR_NAME_SIZE) MAX_GET_VAR_NAME_SIZE (L "partition-size:");
  n ← AsciiStrnCatS n MAX_GET_VAR_NAME_SIZE part_name (AsciiStrLen part_name);
  size ← (if negb (EFI_ERROR n.1)
          then call (GetPartitionSizeViaName (Name e) (zeros MAX_RSP_SIZE))
          else mret (n.1, zeros MAX_RSP_SIZE));
  t ← cpy (zeros MAX_GET_VAR_NAME_SIZE) MAX_GET_VAR_NAME_SIZE (L "partition-type:");
  t ← AsciiStrnCatS t MAX_GET_VAR_NAME_SIZE part_name (AsciiStrLen part_name);
  type ← (if negb (EFI_ERROR t.1) then GetPartitionType (Name e) (zeros MAX_RSP_SIZE)
          else mret (t.1, zeros MAX_RSP_SIZE));
  (if size.1 =? EFI_SUCCESS then FastbootPublishVar n.2 (VStr size.2) else mret tt);;
  (if type.1 =? EFI_SUCCESS then FastbootPublishVar t.2 (VStr type.2) else mret tt);;
  mret ((size.1 =? EFI_SUCCESS) && (type.1 =? EFI_SUCCESS)).

Fixpoint PublishGetVarPartitionInfo {R} (es : list PartitionEntry) (RetStatus : EFI_STATUS) :
    MW R EFI_STATUS :=
  match es with
  | [] => mret RetStatus
  | e :: es' =>
      if char_at (Name e) 0 =? 0 then PublishGetVarPartitionInfo es' RetStatus else
      ok ← publish_part e;
      PublishGetVarPartitionInfo es' (if (ok : bool) then RetStatus else EFI_INVALID_PARAMETER)
  end.

(** ** Commands and variables *)

(** The buffers as [FastbootCommandSetup] lays them out. *)
Definition setup_buffers {R} (Base Size : Z) : MW R unit :=
  t ← CheckRootDeviceType;
  fbset (fun g => fb_mDataBuffer Base (fb_mNumDataBytes Size (fb_mFlashNumDataBytes Size
    (fb_mUsbDataBuffer Base
      (fb_mFlashDataBuffer (if bool_decide (t = NAND) then Base else Base + MaxDownLoadSize g)
         g))))).

(** The flag in the last byte of the [frp] partition. *)
Definition ReadAllowUnlockValue : MW EFI_STATUS EFI_STATUS :=
  r ← call (PartitionGetInfo (L "frp"));
  if negb (r.1 =? EFI_SUCCESS) then early r.1 else
  match r.2 with
  | None => early EFI_NOT_FOUND
  | Some b =>
      m ← ask (fun x => Media x b);
      a ← ask (fun x => AllocateZeroPool x (BlockSize m));
      if negb a then early EFI_OUT_OF_RESOURCES else
      d ← ask (fun x => ReadBlocks x b (LastBlock m) (BlockSize m));
      if negb (d.1 =? EFI_SUCCESS) then early d.1 else
      v ← load d.2 (BlockSize m - 1) 1;
      fbset (fb_IsAllowUnlock (Z.land (byte_of v 0) 0x01));;
      mret d.1
  end.

(** [AsciiSPrint] into one of the zeroed statics, and the variable that shows
    it. *)
Definition publish_text {R} (Name_ text : list Z) : MW R unit :=
  s ← rsp text; FastbootPublishVar Name_ (VStr s).

(** The variables before the battery, in the order of the source. *)
Definition publish_board (MultiSlotBoot : bool) (StrSerialNum : list Z) : MW EFI_STATUS unit :=
  FastbootPublishVar (L "kernel") (VStr (L "uefi"));;
  g ← fbget;
  publish_text (L "max-download-size") (fmt_llu (MaxDownLoadSize g));;
  w ← get;
  (if IsDynamicPartitionSupport (pt w)
   then FastbootPublishVar (L "is-userspace") (VStr (L "no")) else mret tt);;
  publish_text (L "product") (cstr PRODUCT_NAME);;
  FastbootPublishVar (L "serialno") (VStr StrSerialNum);;
  secure ← IsSecureBootEnabled;
  FastbootPublishVar (L "secure") (VStr (yes_no secure));;
  (if MultiSlotBoot then
     FindPtnActiveSlot;;
     r ← IsRecoveryInfo;
     if negb r then call PopulateMultislotMetadata else mret tt
   else mret tt);;
  w ← get;
  PublishGetVarPartitionInfo (live (pt w)) EFI_SUCCESS;;
  HWPlatformBuf ← call (BoardHwPlatformName (zeros MAX_RSP_SIZE) MAX_RSP_SIZE);
  DeviceType ← GetRootDeviceType;
  publish_text (L "variant") (cstr HWPlatformBuf ++ L " " ++ DeviceType);;
  BlkSize ← GetPageSize;
  publish_text (L "logical-block-size") (L " 0x" ++ fmt_x BlkSize);;
  t ← CheckRootDeviceType;
  let BlkSize := if bool_decide (t = NAND) then u32 (NAND_PAGES_PER_BLOCK * BlkSize) else BlkSize in
  publish_text (L "erase-block-size") (L " 0x" ++ fmt_x BlkSize);;
  FastbootPublishVar (L "version-bootloader") VBootloaderVersion;;
  FastbootPublishVar (L "version-baseband") VRadioVersion.

(** The variables from the battery on. *)
Definition publish_state {R} : MW R unit :=
  UpdateGetVarVariable;;
  FastbootPublishVar (L "battery-voltage") VBatteryVoltage;;
  FastbootPublishVar (L "battery-soc-ok") VBatterySocOk;;
  FastbootPublishVar (L "charger-screen-enabled") VChargeScreenEnable;;
  FastbootPublishVar (L "off-mode-charge") VChargeScreenEnable;;
  w ← get;
  FastbootPublishVar (L "unlocked") (VStr (yes_no (IsUnlocked w)));;
  v ← BoardPlatformChipVersion;
  publish_text (L "hw-revision") (fmt_x v);;
  FastbootPublishVar (L "parallel-download-flash")
    (VStr (yes_no (negb IsDisableParallelDownloadFlash))).

(** [VabSnapshotMergeStatus] of what [snapshot-update-status] shows. *)
Definition merge_text (SnapshotMergeStatus : Z) : list Z :=
  if SnapshotMergeStatus =? SNAPSHOTTED then L "snapshotted"
  else if SnapshotMergeStatus =? MERGING then L "merging" else L "none".

Definition publish_merge {R} : MW R unit :=
  s ← call GetSnapshotMergeStatus;
  g ← fbget;
  t ← AsciiSPrint (SnapshotMergeState g) (AsciiStrLen (merge_text s) + 1) (merge_text s);
  fbset (fb_SnapshotMergeState t);;
  FastbootPublishVar (L "snapshot-update-status") VSnapshotMergeState.

Definition FastbootCommandSetup (Base Size : Z) : MW EFI_STATUS EFI_STATUS :=
  MultiSlotBoot ← PartitionHasMultiSlot (L "boot");
  setup_buffers Base Size;;
  r ← call (BoardSerialNum (zeros MAX_RSP_SIZE) MAX_RSP_SIZE);
  if negb (r.1 =? EFI_SUCCESS) then early r.1 else
  publish_board MultiSlotBoot r.2;;
  publish_state;;
  register_commands;;
  w ← get;
  (if IsDynamicPartitionSupport (pt w) then publish_merge else mret tt);;
  Status ← call ReadAllowUnlockValue;
  if negb (Status =? EFI_SUCCESS) then early Status else mret EFI_SUCCESS.

(** Threads are used where the kernel protocol has locks. *)
Definition InitMultiThreadEnv {R} : MW R unit :=
  if IsDisableParallelDownloadFlash then mret tt else
  Status ← ask LocateKernel;
  v ← ask KernelVersion;
  if negb (Status =? EFI_SUCCESS) || (v <? EFI_KERNEL_PROTOCOL_VER_LOCK_API) then mret tt
  else modify (upd_lb (set_IsMultiThreadSupported true)).
End Board.

(** ** Start *)

Section Start.
Context `{F : Firmware} `{B : BuildConfig}.

(** [AllocateTransferBuffer] of the USB driver: a status and an address. *)
Context (AllocateTransferBuffer : Z -> EFI_STATUS * Z).

Definition MIN_BUFFER_SIZE : Z := 67108864.
Definition MAX_BUFFER_SIZE : Z := 1610612736.
Definition EFI_PAGE_SIZE : Z := 4096.
Definition DDR_128MB : Z := 0x8000000.

(** The sizes for a memory of [Ddr] bytes, or an error. *)
Definition GetBufferSize (Ddr : EFI_STATUS * Z) : Z * Z :=
  if EFI_ERROR Ddr.1 then (MAX_BUFFER_SIZE, MIN_BUFFER_SIZE)
  else if Ddr.2 <=? DDR_128MB then (36700160, 16777216)
  else (MAX_BUFFER_SIZE, MIN_BUFFER_SIZE).

Definition EFI_FREE_MEM_DIVISOR {R} (BYTES : Z) : MW R Z :=
  let le := u64 (BYTES * 90) / 100 in
  let other := u64 (BYTES * 3) / 4 in
  if negb IsLEVariant then mret other else
  t ← CheckRootDeviceType;
  if bool_decide (t = NAND) then mret le else
  t ← CheckRootDeviceType;
  if bool_decide (t = EMMC) then mret le else mret other.

(** [LOCAL_ROUND_TO_PAGE (x, EFI_PAGE_SIZE)] *)
Definition round_to_page (x : Z) : Z := Z.land (u64 (x + (EFI_PAGE_SIZE - 1))) (Z.lnot (EFI_PAGE_SIZE - 1)).

(** The [do]/[while] of [FastbootCmdsInit]: the size and the buffer, or the
    status the function returns. *)
Fixpoint alloc_loop (fuel : nat) (MaxBufferSize MinBufferSize Size : Z) :
    MW EFI_STATUS (Z * (EFI_STATUS * Z)) :=
  match fuel with
  | O => stop Forever
  | S fuel' =>
      n ← EFI_FREE_MEM_DIVISOR Size;
      let n := round_to_page n in
      if n <? MinBufferSize then early EFI_OUT_OF_RESOURCES else
      let n := if MaxBufferSize <? n then MaxBufferSize else n in
      let r := AllocateTransferBuffer n in
      if EFI_ERROR r.1 then alloc_loop fuel' MaxBufferSize MinBufferSize n else mret (n, r)
  end.

(** A round takes at least a tenth of the size, so at least a megabyte from a
    size of at least 16 megabytes: after the first round there are less than
    1600. *)
Definition ALLOC_ROUNDS : nat := 1600.

(** The largest free chunk of the memory map. *)
Definition EfiConventionalMemory : Z := 7.
Fixpoint max_free (MaxFree : Z) (MemMap : list (Z * Z)) : Z :=
  match MemMap with
  | [] => MaxFree
  | (Type_, NumberOfPages) :: MemMap' =>
      max_free (if (Type_ =? EfiConventionalMemory) && (MaxFree <? NumberOfPages)
                then NumberOfPages else MaxFree) MemMap'
  end.
Definition GetMaxAllocatableMemory {R} : MW R Z :=
  r ← ask MemoryMapSize;
  if negb (r.1 =? EFI_BUFFER_TOO_SMALL) then mret 0 else
  if CHECK_ADD64 r.2 EFI_PAGE_SIZE then mret 0 else
  let MemMapSize := r.2 + EFI_PAGE_SIZE in
  a ← ask (fun x => AllocateZeroPool x MemMapSize);
  if negb a then mret 0 else
  r ← ask (fun x => GetMemoryMap x MemMapSize);
  if EFI_ERROR r.1 then mret 0 else
  mret (u64 (Z.shiftl (max_free 0 r.2) 12)).

(** The first part of [FastbootCmdsInit]: the transfer buffer, with
    [MaxDownLoadSize] set to what a download may use of it; [Ddr] is the
    result of [GetDdrSize]. *)
Definition find_buffer (Ddr : EFI_STATUS * Z) : MW EFI_STATUS Z :=
  fbset (fun g => fb_mDataBuffer 0 (fb_mUsbDataBuffer 0 (fb_mFlashDataBuffer 0 g)));;
  Status ← ask CreateEvent;
  if EFI_ERROR Status then early Status else
  let '(MaxBufferSize, MinBufferSize) := GetBufferSize Ddr in
  MaxFree ← GetMaxAllocatableMemory;
  fbset (fb_MaxDownLoadSize MaxFree);;
  if MaxFree =? 0 then early EFI_OUT_OF_RESOURCES else
  r ← alloc_loop ALLOC_ROUNDS MaxBufferSize MinBufferSize MaxFree;
  let '(Size, (Status, FastBootBuffer)) := r in
  fbset (fb_MaxDownLoadSize Size);;
  if negb (Status =? EFI_SUCCESS) then early Status else
  fbset (fb_DataMem (zeros Size));;
  t ← CheckRootDeviceType;
  fbset (fb_MaxDownLoadSize (if bool_decide (t = NAND) then Size else Size / 2));;
  mret FastBootBuffer.

(** The outcome of [FastbootCommandSetup] is not looked at. *)
Definition FastbootCmdsInit (Ddr : EFI_STATUS * Z) : MW EFI_STATUS EFI_STATUS :=
  FastBootBuffer ← find_buffer Ddr;
  g ← fbget;
  call (FastbootCommandSetup FastBootBuffer (MaxDownLoadSize g));;
  InitMultiThreadEnv;;
  mret EFI_SUCCESS.
End Start.
