(* ===== verification/FastbootSpec.v ===== *)
(** What the commands of the host may do to the protocol engine: the fields
    that describe the data phase, their invariant, and the operations that
    leave them alone. *)
From Stdlib Require Import ZArith Lia.
From stdpp Require Import base list numbers option.
From S2P Require Import Prelude EfiBase Convert Firmware World LoaderLib Board Ptable DevInfo Gpt Slots Sparse Recovery Fastboot FastbootCmds FastbootOem Dispatch Setup.

Section Core.
Context `{F : Firmware} `{B : BuildConfig}.

(** The engine: the state, the counters, the buffers, the table of commands,
    the deferred command and the queued receive. *)
Record engine := mkEngine {
  e_state : ANDROID_FASTBOOT_STATE;
  e_num : Z;
  e_received : Z;
  e_base : Z;
  e_mem : list Z;
  e_usb : Z;
  e_flash : Z;
  e_max : Z;
  e_cmds : list FASTBOOT_CMD;
  e_pending : option CmdInfo;
  e_rx : option (Z * option Z);
}.
Definition engine_of (g : FbGlobals) : engine :=
  mkEngine (mState g) (mNumDataBytes g) (mBytesReceivedSoFar g) (mDataBuffer g) (DataMem g)
    (mUsbDataBuffer g) (mFlashDataBuffer g) (MaxDownLoadSize g) (cmdlist g) (PendingCmd g)
    (RxQueue g).

Definition same_engine (w w' : World) : Prop := engine_of (fb w') = engine_of (fb w).
#[export] Instance same_engine_po : PreOrder same_engine.
Proof. split; [done|]. unfold same_engine. intros x y z. congruence. Qed.
End Core.

Create HintDb engine discriminated.

Ltac unfold_head t := lazymatch t with ?f _ => unfold_head f | ?c => unfold c end.

(** Decompose a computation, unfolding what the database does not know. *)
Ltac engine_tac :=
  repeat first
    [ progress intros
    | solve [auto with engine keeps typeclass_instances]
    | match goal with
      | |- keeps _ (mbind _ _) => apply keeps_bind
      | |- keeps _ (call _) => apply keeps_call
      | |- keeps _ (for_up _ _ _ _) => apply keeps_for_up
      | |- keeps _ (modify _) => apply keeps_modify; intros; reflexivity
      | |- keeps _ (let '(_, _) := ?p in _) => destruct p
      | |- keeps _ (if ?b then _ else _) => destruct b
      | |- keeps _ (match ?x with _ => _ end) => destruct x
      | |- keeps _ ?m => unfold_head m; cbv zeta
      end ].

Section Callees.
Context `{F : Firmware} `{B : BuildConfig}.

(** ** Storage and slots *)

Lemma engine_act {R A} (f : Fw -> A * Fw) : keeps same_engine (act (R := R) f).
Proof. intros w. unfold act. by destruct (f (fw w)). Qed.
#[local] Hint Resolve engine_act : engine.

Lemma engine_write_units fuel b img Div unit off left :
  keeps same_engine (write_units fuel b img Div unit off left).
Proof. revert off left. induction fuel as [|fuel IH]; intros off left; simpl; engine_tac. Qed.
#[local] Hint Resolve engine_write_units : engine.
Lemma engine_WriteBlockToPartition b h o n d : keeps same_engine (WriteBlockToPartition b h o n d).
Proof. engine_tac. Qed.
#[local] Hint Resolve engine_WriteBlockToPartition : engine.
Lemma engine_WriteToPartition t m n : keeps same_engine (WriteToPartition t m n).
Proof. engine_tac. Qed.
Lemma engine_ErasePartition b h : keeps same_engine (ErasePartition b h).
Proof. engine_tac. Qed.
Lemma engine_CheckRootDeviceType {R} : keeps same_engine (CheckRootDeviceType (R := R)).
Proof. by apply keeps_CheckRootDeviceType; [apply _|]. Qed.
#[local] Hint Resolve engine_CheckRootDeviceType : engine.
Lemma engine_GetRootDeviceType {R} : keeps same_engine (GetRootDeviceType (R := R)).
Proof. engine_tac. Qed.
#[local] Hint Resolve engine_WriteToPartition engine_ErasePartition
  engine_GetRootDeviceType : engine.

Lemma engine_multi_slot_scan {R} n c l : keeps same_engine (multi_slot_scan (R := R) n c l).
Proof. revert c. induction l as [|e l IH]; intros c; simpl; engine_tac. Qed.
#[local] Hint Resolve engine_multi_slot_scan : engine.
Lemma engine_PartitionHasMultiSlot {R} n : keeps same_engine (PartitionHasMultiSlot (R := R) n).
Proof. engine_tac. Qed.
#[local] Hint Resolve engine_PartitionHasMultiSlot : engine.
Lemma engine_EnumeratePartitions : keeps same_engine EnumeratePartitions.
Proof. engine_tac. Qed.
Lemma engine_UpdatePartitionAttributes t : keeps same_engine (UpdatePartitionAttributes t).
Proof. engine_tac. Qed.
#[local] Hint Resolve engine_EnumeratePartitions engine_UpdatePartitionAttributes : engine.

Lemma engine_count_parts {R} n g b t : keeps same_engine (count_parts (R := R) n g b t).
Proof. revert b t. induction n as [|n IH]; intros b t; simpl; engine_tac. Qed.
#[local] Hint Resolve engine_count_parts : engine.
Lemma engine_UpdatePartitionTable i n l : keeps same_engine (UpdatePartitionTable i n l).
Proof. engine_tac. Qed.

Lemma engine_slot_parts es : keeps same_engine (slot_parts es).
Proof. induction es as [|e es IH]; simpl; engine_tac. Qed.
Lemma engine_switch_pairs {R} a b l : keeps same_engine (switch_pairs (R := R) a b l).
Proof. induction l as [|e l IH]; simpl; engine_tac. Qed.
#[local] Hint Resolve engine_UpdatePartitionTable engine_slot_parts engine_switch_pairs : engine.
Lemma engine_GetCurrentSlotSuffix {R} : keeps same_engine (GetCurrentSlotSuffix (R := R)).
Proof. engine_tac. Qed.
Lemma engine_FindPtnActiveSlot {R} : keeps same_engine (FindPtnActiveSlot (R := R)).
Proof. engine_tac. Qed.
Lemma engine_SetActiveSlot s b : keeps same_engine (SetActiveSlot s b).
Proof. engine_tac. Qed.
Lemma engine_HandleSparseImgFlash n b i s : keeps same_engine (HandleSparseImgFlash n b i s).
Proof. engine_tac. Qed.
Lemma engine_WriteRecoveryMessage c : keeps same_engine (WriteRecoveryMessage c).
Proof. engine_tac. Qed.
Lemma engine_SetSnapshotMergeStatus s : keeps same_engine (SetSnapshotMergeStatus s).
Proof. engine_tac. Qed.
Lemma engine_GetSnapshotMergeStatus : keeps same_engine GetSnapshotMergeStatus.
Proof. engine_tac. Qed.
Lemma engine_SetDeviceUnlockValue t b : keeps same_engine (SetDeviceUnlockValue t b).
Proof. engine_tac. Qed.
End Callees.

#[export] Hint Resolve engine_act engine_WriteBlockToPartition engine_WriteToPartition
  engine_ErasePartition engine_CheckRootDeviceType engine_GetRootDeviceType
  engine_PartitionHasMultiSlot engine_EnumeratePartitions engine_UpdatePartitionAttributes
  engine_UpdatePartitionTable engine_GetCurrentSlotSuffix engine_FindPtnActiveSlot
  engine_SetActiveSlot engine_HandleSparseImgFlash engine_WriteRecoveryMessage
  engine_SetSnapshotMergeStatus engine_GetSnapshotMergeStatus engine_SetDeviceUnlockValue
  : engine.

(** ** The commands *)

Section Commands.
Context `{F : Firmware} `{B : BuildConfig}.

Lemma engine_fbget {R} : keeps same_engine (fbget (R := R)).
Proof. by intros w. Qed.
#[local] Hint Resolve engine_fbget : engine.
Lemma engine_publish_slots {R} es j arr : keeps same_engine (publish_slots (R := R) es j arr).
Proof. revert j arr. induction es as [|e es IH]; intros j arr; simpl; engine_tac. Qed.
Lemma engine_count_slots {R} es arr : keeps same_engine (count_slots (R := R) es arr).
Proof. revert arr. induction es as [|e es IH]; intros arr; simpl; engine_tac. Qed.
Lemma engine_reset_matching {R} n j s : keeps same_engine (reset_matching (R := R) n j s).
Proof. revert j. induction n as [|n IH]; intros j; simpl; engine_tac. Qed.
Lemma engine_getvar_all {R} vs b : keeps same_engine (getvar_all (R := R) vs b).
Proof. revert b. induction vs as [|v vs IH]; intros b; simpl; engine_tac. Qed.
#[local] Hint Resolve engine_publish_slots engine_count_slots engine_reset_matching
  engine_getvar_all : engine.

Lemma engine_PopulateMultislotMetadata : keeps same_engine PopulateMultislotMetadata.
Proof. engine_tac. Qed.
Lemma engine_HandleRawImgFlash n m i s : keeps same_engine (HandleRawImgFlash n m i s).
Proof. engine_tac. Qed.
#[local] Hint Resolve engine_PopulateMultislotMetadata engine_HandleRawImgFlash : engine.
Lemma engine_ReenumeratePartTable : keeps same_engine ReenumeratePartTable.
Proof. engine_tac. Qed.
#[local] Hint Resolve engine_ReenumeratePartTable : engine.
Lemma engine_check_snapshot {R} o n : keeps same_engine (check_snapshot (R := R) o n).
Proof. engine_tac. Qed.
Lemma engine_flash_table n t : keeps same_engine (flash_table n t).
Proof. engine_tac. Qed.
Lemma engine_flash_sparse n : keeps same_engine (flash_sparse n).
Proof. engine_tac. Qed.
#[local] Hint Resolve engine_check_snapshot engine_flash_table engine_flash_sparse : engine.
Lemma engine_flash_image n : keeps same_engine (flash_image n).
Proof. engine_tac. Qed.
Lemma engine_CmdErase a : keeps same_engine (CmdErase a).
Proof. engine_tac. Qed.
Lemma engine_CmdSetActive a : keeps same_engine (CmdSetActive a).
Proof. engine_tac. Qed.
Lemma engine_SetDeviceUnlock t b : keeps same_engine (SetDeviceUnlock t b).
Proof. engine_tac. Qed.
Lemma engine_CmdUpdateSnapshot a : keeps same_engine (CmdUpdateSnapshot a).
Proof. engine_tac. Qed.
Lemma engine_CmdGetVar a : keeps same_engine (CmdGetVar a).
Proof. engine_tac. Qed.
Lemma engine_SparseImgFlashThread : keeps same_engine SparseImgFlashThread.
Proof. engine_tac. Qed.

(** The commands that leave the engine alone: all but [download], [flash],
    which exchanges the buffers, and those outside of the model. *)
Definition plain_cmd (h : fastboot_cmd_fn) : bool :=
  match h with
  | FnDownload | FnFlash | FnBoot | FnContinue => false
  | _ => true
  end.
Lemma engine_run_handler other h a d n :
  plain_cmd h = true -> keeps same_engine (run_handler other h a d n).
Proof. intros Hp. unfold run_handler. destruct h; try discriminate Hp; clear; engine_tac. Qed.
End Commands.

#[export] Hint Resolve engine_fbget engine_PopulateMultislotMetadata engine_HandleRawImgFlash
  engine_ReenumeratePartTable engine_check_snapshot engine_flash_table engine_flash_sparse
  engine_flash_image engine_CmdErase engine_CmdSetActive engine_SetDeviceUnlock
  engine_CmdUpdateSnapshot engine_CmdGetVar engine_SparseImgFlashThread : engine.
