(* ===== verification/EngineSpec.v ===== *)
(** The data phase is safe: an invariant of the protocol engine that every
    event keeps, so that no receive the driver is given leaves the transfer
    buffer; and it makes progress: a download that was accepted ends. *)
From Stdlib Require Import ZArith Lia.
From stdpp Require Import base list numbers option relations.
From S2P Require Import Prelude EfiBase Convert Firmware World LoaderLib Board Ptable DevInfo Gpt Slots Sparse Recovery Fastboot FastbootCmds FastbootOem Dispatch Setup FastbootSpec.

(** ** The invariant *)

(** [n] bytes at [a] lie in the transfer buffer. *)
Definition inside (e : engine) (a n : Z) : Prop :=
  e_base e <= a /\ a + n <= e_base e + Z.of_nat (length (e_mem e)).

(** A [download] is registered under its name only. *)
Definition cmd_ok (c : FASTBOOT_CMD) : Prop :=
  handle_ c = FnDownload ->
  prefix_ c = L "download:" /\ prefix_len c = AsciiStrLen (L "download:").

Record engine_ok (e : engine) : Prop := mkEngineOk {
  ok_max : 0 < e_max e < 2 ^ 31;
  ok_usb : inside e (e_usb e) (e_max e);
  ok_flash : inside e (e_flash e) (e_max e);
  ok_data : e_state e = ExpectDataState -> 0 <= e_received e <= e_num e /\ e_num e <= e_max e;
  ok_rx : forall n a, e_rx e = Some (n, Some a) -> 0 <= n /\ inside e a n;
  ok_cmds : Forall cmd_ok (e_cmds e);
  ok_pending : forall c, e_pending e = Some c -> starts (ci_Data c) (L "download") = false;
}.

(** Cutting a string does not give it a new prefix. *)
Lemma cstr_cut a r s : cstr (a ++ 0 :: r) `prefix_of` cstr (a ++ s).
Proof.
  induction a as [|c a IH]; simpl; [apply prefix_nil|].
  destruct (c =? 0); [apply prefix_nil|by apply prefix_cons].
Qed.
Lemma starts_cut d n d' p :
  buf_write d n [0] = Some d' -> starts d' p = true -> starts d p = true.
Proof.
  unfold starts. rewrite !Z.eqb_eq, !StrnCmp_prefix. intros H%buf_write_Some Hp.
  destruct H as (_ & _ & ->). etrans; [exact Hp|].
  rewrite <- (take_drop (Z.to_nat n) d) at 3. apply cstr_cut.
Qed.

(** What is found under [download:] starts with [download]. *)
Lemma find_cmd_in cs d c : find_cmd cs d = Some c ->
  c ∈ cs /\ AsciiStrnCmp d (prefix_ c) (prefix_len c) = 0.
Proof.
  induction cs as [|c' cs IH]; [done|]. simpl. destruct (Z.eqb_spec (AsciiStrnCmp d (prefix_ c')
    (prefix_len c')) 0) as [E|E].
  - intros [= <-]. split; [left|done].
  - intros H. destruct (IH H). split; [by right|done].
Qed.
Lemma found_download cs d c :
  Forall cmd_ok cs -> find_cmd cs d = Some c -> handle_ c = FnDownload ->
  starts d (L "download") = true.
Proof.
  intros Hcs Hc Hh. apply find_cmd_in in Hc as [Hin Hc].
  rewrite list.Forall_forall in Hcs. destruct (Hcs c Hin Hh) as [Hp Hl]. rewrite Hp, Hl in Hc.
  unfold starts. rewrite Z.eqb_eq. unfold AsciiStrnCmp, AsciiStrLen in Hc.
  rewrite StrnCmp_prefix in *. etrans; [|exact Hc]. by exists (L ":").
Qed.

Section Invariant.
Context `{F : Firmware} `{B : BuildConfig}.

Definition keeps_ok (w w' : World) : Prop :=
  engine_ok (engine_of (fb w)) -> engine_ok (engine_of (fb w')).
#[export] Instance keeps_ok_po : PreOrder keeps_ok.
Proof. split; [by intros w Hw|]. intros x y z Hxy Hyz H. apply Hyz, Hxy, H. Qed.

Lemma same_engine_ok {R A} (m : MW R A) : keeps same_engine m -> keeps keeps_ok m.
Proof. apply keeps_weaken. intros w w' E. unfold keeps_ok. by rewrite E. Qed.

(** A change of the statics that keeps the invariant. *)
Lemma ok_fbset {R} f :
  (forall g, engine_ok (engine_of g) -> engine_ok (engine_of (f g))) ->
  keeps keeps_ok (fbset (R := R) f).
Proof. intros Hf w. unfold keeps_ok. apply Hf. Qed.

Lemma ok_exchange {R} : keeps keeps_ok (ExchangeFlashAndUsbDataBuf (R := R)).
Proof. apply ok_fbset. intros g []. by constructor. Qed.

Lemma ok_CmdFlash a d n : keeps keeps_ok (CmdFlash a d n).
Proof.
  unfold CmdFlash, flash_body.
  apply keeps_bind; [apply _|by apply same_engine_ok; engine_tac|]. intros _.
  apply keeps_bind; [apply _| |by intros; apply same_engine_ok; engine_tac].
  apply keeps_call. apply keeps_bind; [apply _|apply ok_exchange|].
  intros _. apply same_engine_ok. engine_tac.
Qed.

(** A download starts from the command state. *)
Lemma ok_CmdDownload a w :
  mState (fb w) = ExpectCmdState -> engine_ok (engine_of (fb w)) ->
  ends (CmdDownload a) (fun _ w' => engine_ok (engine_of (fb w'))) w.
Proof.
  intros Hc Hok. pose proof (AsciiStrHexToUint64_range 58 a) as Hn. unfold is_u64 in Hn.
  unfold CmdDownload. set (n := AsciiStrHexToUint64 58 a) in *.
  apply ends_bind, wp_modify. set (w1 := upd_fb _ w).
  assert (H1 : engine_ok (engine_of (fb w1))).
  { destruct Hok. constructor; try done. simpl. intros Hd. congruence. }
  apply ends_bind. apply (wp_go _ _ _ _ (fb w1) w1); [done|]. cbn beta.
  destruct (mNumDataBytes (fb w1) =? 0) eqn:Hz; [by apply ends_wp|].
  destruct (MaxDownLoadSize (fb w1) <? mNumDataBytes (fb w1)) eqn:Hm; [by apply ends_wp|].
  apply ends_pure; [|done..|].
  { keeps_tac. }
  intros c. apply ends_wp. simpl in Hz, Hm. destruct Hok. constructor; try done. simpl. lia.
Qed.

(** The invariant after a run that does not stop the machine. *)
Definition live_ok {R A} (c : ctl R A) (w : World) : Prop :=
  match c with Halt _ => True | _ => engine_ok (engine_of (fb w)) end.

Lemma live_keeps {R A} (m : MW R A) w :
  keeps keeps_ok m -> engine_ok (engine_of (fb w)) -> ends m live_ok w.
Proof.
  intros Hm Hw. unfold ends. specialize (Hm w). destruct (m w) as [[]]; [by apply Hm..|done].
Qed.

(** A store by address keeps the length of the buffer. *)
Lemma ok_poke {R} a d : keeps keeps_ok (poke (R := R) a d).
Proof.
  intros w Hw. unfold poke. unfold mbind, M_MBind, M_bind, fbget.
  unfold store, need. destruct (buf_write _ _ _) as [m|] eqn:E; [|done].
  assert (Hl : length m = length (DataMem (fb w))) by (by eapply length_buf_write).
  destruct Hw. constructor; unfold inside in *; simpl in *; rewrite ?Hl; auto.
Qed.

(** The end of a data phase. *)
Lemma ok_state_cmd {R} : keeps keeps_ok (fbset (R := R) (fb_mState ExpectCmdState)).
Proof. apply ok_fbset. intros g []. by constructor. Qed.
Lemma ok_data_done {R} p a n :
  keeps keeps_ok (
    ((if p : bool then poke (R := R) a n else mret tt);;
     fbset (fb_mState ExpectCmdState);;
     w ← get;
     if IsUseMThreadParallel (lb w) then FastbootOkay []
     else StopUsbTimer;; FastbootOkayDelay;; mret tt)).
Proof.
  apply keeps_bind; [apply _|destruct p; [apply ok_poke|by apply keeps_ret, _]|].
  intros _. apply keeps_bind; [apply _|apply ok_state_cmd|].
  intros _. apply same_engine_ok. engine_tac.
Qed.

(** The next receive asks for what is left at most. *)
Lemma ends_USB_BUFFER_SIZE {R} w :
  ends (USB_BUFFER_SIZE (R := R))
    (fun c w' => same_engine w w' /\ forall n, c = Go n -> 0 < n) w.
Proof.
  unfold USB_BUFFER_SIZE.
  assert (Hl : forall w1 n, same_engine w w1 -> 0 < n ->
    ends (mret n : MW R Z) (fun c w' => same_engine w w' /\ forall n, c = Go n -> 0 < n) w1).
  { intros w1 n H1 Hn. apply ends_wp, wp_ret. split; [done|]. by intros m [= <-]. }
  destruct (negb IsLEVariant); [by apply Hl|].
  apply (ends_frame same_engine); [auto with engine|done..|]. intros t w1 H1.
  destruct (bool_decide (t = NAND)); [by apply Hl|].
  apply (ends_frame same_engine); [auto with engine|..].
  1,2: intros; split; [by etrans|done].
  intros t' w2 H2. destruct (bool_decide (t' = EMMC)); (apply Hl; [by etrans|done]).
Qed.

(** Asking for the size again gives the same size. *)
Lemma USB_BUFFER_SIZE_again {R} (w w' : World) n :
  USB_BUFFER_SIZE (R := R) w = (Go n, w') -> USB_BUFFER_SIZE (R := R) w' = (Go n, w').
Proof.
  unfold USB_BUFFER_SIZE. destruct (negb IsLEVariant); [by intros [= <- <-]|].
  intros H. apply bind_inv_go in H as (t & w1 & H1 & H2).
  pose proof (CheckRootDeviceType_again _ _ _ H1) as H1'.
  case_bool_decide as Ht.
  { injection H2 as <- <-. rewrite (bind_go _ _ _ _ _ H1'). by rewrite bool_decide_eq_true_2. }
  apply bind_inv_go in H2 as (t' & w2 & H2 & H3). rewrite H1' in H2. injection H2 as <- <-.
  assert (w' = w1) as -> by (by destruct (bool_decide (t = EMMC)); injection H3).
  rewrite (bind_go _ _ _ _ _ H1'), bool_decide_eq_false_2 by done.
  by rewrite (bind_go _ _ _ _ _ H1').
Qed.

Lemma ends_GetXfrSize {R} w :
  ends (GetXfrSize (R := R))
    (fun c w' => same_engine w w' /\ forall n, c = Go n -> 0 <= n /\
      (mState (fb w) = ExpectDataState ->
       n <= u64 (mNumDataBytes (fb w) - mBytesReceivedSoFar (fb w)))) w.
Proof.
  unfold GetXfrSize. apply ends_bind. apply (wp_go _ _ _ _ (fb w) w); [done|]. cbn beta zeta.
  pose proof (u64_range (mNumDataBytes (fb w) - mBytesReceivedSoFar (fb w))) as Hu.
  unfold is_u64 in Hu. set (left_ := u64 _) in *. case_bool_decide as Hs.
  - pose proof (ends_USB_BUFFER_SIZE (R := R) w) as He. unfold ends in He.
    apply ends_bind_ends. unfold ends at 1.
    destruct (USB_BUFFER_SIZE w) as [[n|r|h] w1] eqn:E; destruct He as [H1 Hn]; [|by split..].
    specialize (Hn n eq_refl). destruct (Z.ltb_spec left_ n).
    + apply ends_wp, wp_ret. split; [done|]. intros m [= <-]. lia.
    + eapply ends_eq; [by eapply USB_BUFFER_SIZE_again|]. split; [done|]. intros m [= <-]. lia.
  - eapply ends_mono; [apply ends_USB_BUFFER_SIZE|].
    intros c w1 [H1 Hn]. split; [done|]. intros n ->. specialize (Hn n eq_refl). split; [lia|done].
Qed.

(** A receive that fits keeps the invariant. *)
Lemma ok_queue g n a :
  engine_ok (engine_of g) -> 0 <= n -> inside (engine_of g) a n ->
  engine_ok (engine_of (fb_RxQueue (Some (n, Some a)) g)).
Proof. intros [] Hn Hi. constructor; try done. simpl. by intros n' a' [= <- <-]. Qed.
Lemma ok_queue_cmd g n :
  engine_ok (engine_of g) -> engine_ok (engine_of (fb_RxQueue (Some (n, None)) g)).
Proof. intros []. by constructor. Qed.
Lemma ok_queue_none g : engine_ok (engine_of g) -> engine_ok (engine_of (fb_RxQueue None g)).
Proof. intros []. by constructor. Qed.

(** Data for the buffer. *)
Lemma ok_AcceptData Size w :
  0 <= Size -> mState (fb w) = ExpectDataState -> engine_ok (engine_of (fb w)) ->
  ends (AcceptData Size (mUsbDataBuffer (fb w))) live_ok w.
Proof.
  intros HS Hst Hok. pose proof (ok_data _ Hok Hst) as [Hr Hn]. simpl in Hr, Hn.
  pose proof (ok_max _ Hok) as Hmax. simpl in Hmax.
  set (a := mUsbDataBuffer (fb w)). unfold AcceptData.
  apply ends_bind. apply (wp_go _ _ _ _ (fb w) w); [done|]. cbn beta zeta.
  set (left_ := u64 (mNumDataBytes (fb w) - mBytesReceivedSoFar (fb w))).
  assert (Hl : left_ = mNumDataBytes (fb w) - mBytesReceivedSoFar (fb w)).
  { apply u64_small. lia. }
  set (n := if left_ <? Size then left_ else Size).
  assert (Hn0 : 0 <= n <= left_) by (subst n; destruct (Z.ltb_spec left_ Size); lia).
  apply ends_bind, wp_modify. set (w1 := upd_fb _ w).
  assert (H1 : engine_of (fb w1) = engine_of (fb_mBytesReceivedSoFar
    (mBytesReceivedSoFar (fb w) + n) (fb w))).
  { unfold w1. simpl. rewrite u64_small by lia. done. }
  assert (Hok1 : engine_ok (engine_of (fb w1))).
  { rewrite H1. destruct Hok. constructor; try done. simpl. lia. }
  apply ends_bind. apply (wp_go _ _ _ _ (fb w1) w1); [done|]. cbn beta zeta.
  replace (mBytesReceivedSoFar (fb w1)) with (mBytesReceivedSoFar (fb w) + n)
    by (symmetry; exact (f_equal e_received H1)).
  change (mNumDataBytes (fb w1)) with (mNumDataBytes (fb w)).
  destruct (Z.eqb_spec (mBytesReceivedSoFar (fb w) + n) (mNumDataBytes (fb w))) as [He|He].
  - apply live_keeps; [|done]. apply keeps_bind; [apply _|apply same_engine_ok; engine_tac|].
    intros Page. apply ok_data_done.
  - apply ends_bind_ends. eapply ends_mono; [apply ends_GetXfrSize|].
    intros [k|r|h] w2 [H2 Hk]; [| |done].
    + specialize (Hk k eq_refl) as [Hk0 Hk]. specialize (Hk Hst). apply ends_wp, wp_modify.
      assert (Hw2 : engine_ok (engine_of (fb w2))) by (by rewrite H2).
      apply ok_queue; [done..|]. unfold inside. rewrite H2, H1. simpl.
      pose proof (ok_usb _ Hok) as [Ha Hb]. simpl in Ha, Hb. revert Hk.
      change (mNumDataBytes (fb w1)) with (mNumDataBytes (fb w)).
      rewrite (f_equal e_received H1 : mBytesReceivedSoFar (fb w1) = _). simpl.
      rewrite u64_small by lia. subst a. lia.
    + red. by rewrite H2.
Qed.

Lemma ok_Tx st w :
  engine_ok (engine_of (fb w)) -> ends (ProcessBulkXfrCompleteTx (R := EFI_STATUS) st) live_ok w.
Proof.
  intros Hok. unfold ProcessBulkXfrCompleteTx. destruct st; [|by apply ends_wp..].
  apply ends_bind. apply (wp_go _ _ _ _ (fb w) w); [done|]. cbn beta.
  apply ends_bind_ends. eapply ends_mono; [apply ends_GetXfrSize|].
  intros [k|r|h] w1 [H1 Hk]; [|by red; rewrite H1|done].
  specialize (Hk k eq_refl) as [Hk0 Hk]. apply ends_wp, wp_bind, wp_modify, wp_ret.
  assert (Hw1 : engine_ok (engine_of (fb w1))) by (by rewrite H1).
  case_bool_decide as Hs; [|by apply ok_queue_cmd].
  apply ok_queue; [done..|]. unfold inside. rewrite H1. simpl.
  pose proof (ok_usb _ Hok) as [Ha Hb]. pose proof (ok_data _ Hok Hs) as [Hr Hn].
  pose proof (ok_max _ Hok). simpl in *. specialize (Hk Hs). unfold FastbootDloadBuffer.
  rewrite u64_small in Hk by lia. lia.
Qed.

(** ** Commands *)

Context (other : fastboot_cmd_fn -> list Z -> Z -> Z -> MW unit unit).
Context (other_ok : forall h a d n, keeps keeps_ok (other h a d n)).

Lemma ok_run_handler h a d n w :
  engine_ok (engine_of (fb w)) -> (h = FnDownload -> mState (fb w) = ExpectCmdState) ->
  ends (run_handler other h a d n) live_ok w.
Proof.
  intros Hok Hd. destruct (decide (h = FnDownload)) as [->|Hnd].
  { eapply ends_mono; [by apply ok_CmdDownload; auto|]. by intros [] w'. }
  apply live_keeps; [|done]. destruct (plain_cmd h) eqn:Hp.
  { by apply same_engine_ok, engine_run_handler. }
  destruct h; try discriminate Hp; [apply ok_CmdFlash|apply other_ok..|by destruct Hnd].
Qed.

(** The invariant, and the state the engine is in. *)
Definition keeps_phase (w w' : World) : Prop :=
  keeps_ok w w' /\ mState (fb w') = mState (fb w).
#[export] Instance keeps_phase_po : PreOrder keeps_phase.
Proof.
  split; [by intros w; split|]. intros x y z [H1 E1] [H2 E2].
  split; [by etrans|congruence].
Qed.
Lemma same_engine_phase {R A} (m : MW R A) : keeps same_engine m -> keeps keeps_phase m.
Proof.
  apply keeps_weaken. intros w w' E. split; [unfold keeps_ok; by rewrite E|].
  exact (f_equal e_state E).
Qed.

Lemma phase_defer {R} n d :
  starts d (L "download") = false -> keeps keeps_phase (AcceptCmdTimerInit (R := R) n d).
Proof.
  intros Hd. assert (Hp : keeps keeps_phase (fbset (R := R) (fb_PendingCmd (Some (mkCmdInfo n d))))).
  { intros w. split; [|done]. intros []. constructor; try done. by intros c [= <-]. }
  assert (Ha : forall A (f : Fw -> A), keeps keeps_phase (ask (R := R) f)).
  { intros A f. apply keeps_ask, _. }
  unfold AcceptCmdTimerInit. keeps_tac; auto.
Qed.

Lemma phase_last_flash n d : keeps keeps_phase (last_flash_ok n d).
Proof.
  unfold last_flash_ok. destruct IsDisableParallelDownloadFlash; [apply keeps_ret, _|].
  apply keeps_bind; [apply _| |intros _; apply same_engine_phase; engine_tac].
  destruct (starts d (L "download")) eqn:Hd; [apply keeps_ret, _|]. cbn [negb].
  apply keeps_bind; [apply _|apply same_engine_phase; engine_tac|]. intros _.
  apply keeps_bind; [apply _|apply keeps_get, _|]. intros w.
  destruct (_ && _); [|apply keeps_ret, _].
  apply keeps_bind; [apply _|by apply phase_defer|]. intros st.
  destruct (_ =? _); [apply keeps_early, _|apply keeps_ret, _].
Qed.

Lemma ok_AcceptCmd n d w :
  engine_ok (engine_of (fb w)) ->
  (mState (fb w) = ExpectCmdState \/ starts d (L "download") = false) ->
  ends (AcceptCmd other n (Some d)) live_ok w.
Proof.
  intros Hok Hst. unfold AcceptCmd. apply ends_bind_ends.
  set (n' := if _ <? n then _ else n).
  unfold store, need. destruct (buf_write d n' [0]) as [d'|] eqn:Hd; [|done]. unfold ends at 1. simpl.
  assert (Hst' : mState (fb w) = ExpectCmdState \/ starts d' (L "download") = false).
  { destruct Hst as [|Hst]; [by left|right]. destruct (starts d' _) eqn:E; [|done].
    by rewrite (starts_cut _ _ _ _ Hd E) in Hst. }
  apply (ends_frame keeps_phase); [apply phase_last_flash|by intros r w' [Hk _]; apply Hk|done|].
  intros ok w1 [Hk1 Hs1]. destruct ok; [|by apply ends_wp, wp_early, Hk1]. simpl.
  apply (ends_frame keeps_phase); [apply same_engine_phase; engine_tac| |done|].
  { intros r w' [Hk _]. by apply Hk, Hk1. }
  intros ok w2 [Hk2 Hs2]. destruct ok; [|by apply ends_wp, wp_early, Hk2, Hk1]. simpl.
  apply ends_bind. apply (wp_go _ _ _ _ (fb w2) w2); [done|]. cbn beta.
  assert (Hok2 : engine_ok (engine_of (fb w2))) by auto.
  destruct (find_cmd (cmdlist (fb w2)) d') as [c|] eqn:Hc; [|by apply ends_wp].
  apply ok_run_handler; [done|]. intros Hh. rewrite Hs2, Hs1.
  destruct Hst' as [|Hst']; [done|].
  by rewrite (found_download _ _ _ (ok_cmds _ Hok2) Hc Hh) in Hst'.
Qed.

(** ** Events *)

Lemma ok_Rx st n rx w :
  0 <= n -> engine_ok (engine_of (fb w)) ->
  ends (ProcessBulkXfrCompleteRx other st n rx) live_ok w.
Proof.
  intros Hn Hok. unfold ProcessBulkXfrCompleteRx. destruct st; [|by apply ends_wp..].
  apply ends_bind. apply (wp_go _ _ _ _ (fb w) w); [done|]. cbn beta.
  unfold FastbootCurrentState, FastbootDloadBuffer.
  assert (Hr : forall m : MW unit unit, ends m live_ok w ->
    ends (call m ≫= fun _ => mret EFI_SUCCESS : MW EFI_STATUS EFI_STATUS) live_ok w).
  { intros m Hm. apply ends_bind_ends, ends_call. eapply ends_mono; [exact Hm|].
    intros [|[]|] w'; [by intros H; apply ends_wp..|done]. }
  case_bool_decide as Hs; apply Hr; unfold DataReady; apply ends_bind;
    apply (wp_go _ _ _ _ (fb w) w); try done; cbn beta.
  - rewrite Hs. by apply ok_AcceptData.
  - destruct (mState (fb w)) eqn:Hst; [by apply ok_AcceptCmd; [|left]|done].
Qed.

Lemma ok_driver_stores {R} d : keeps keeps_ok (driver_stores (R := R) d).
Proof.
  unfold driver_stores. apply keeps_bind; [apply _|by apply same_engine_ok, engine_fbget|].
  intros g. apply keeps_bind; [apply _| |intros _; apply ok_fbset, ok_queue_none].
  destruct (RxQueue g) as [[n [a|]]|]; [apply ok_poke|apply keeps_ret, _..].
Qed.

Lemma ok_HandleUsbEvents e w :
  engine_ok (engine_of (fb w)) -> ends (HandleUsbEvents other e) live_ok w.
Proof.
  intros Hok. destruct e as [| |st d rx|st|]; simpl.
  - by apply ends_wp, wp_bind, wp_modify, wp_ret, ok_queue_cmd.
  - by apply ends_wp.
  - apply (ends_frame keeps_ok); [apply ok_driver_stores|by intros r w' H; apply H|done|].
    intros _ w' H. apply ok_Rx; [lia|by apply H].
  - by apply ok_Tx.
  - by apply ends_wp.
Qed.

Lemma ok_AcceptCmdHandler w :
  engine_ok (engine_of (fb w)) -> ends (AcceptCmdHandler other) live_ok w.
Proof.
  intros Hok. unfold AcceptCmdHandler. apply ends_bind.
  apply (wp_go _ _ _ _ (fb w) w); [done|]. cbn beta.
  destruct (PendingCmd (fb w)) as [c|] eqn:Hc; [|by apply ends_wp].
  apply ends_bind, wp_modify, ends_call. set (w1 := upd_fb _ w).
  eapply ends_mono; [apply ok_AcceptCmd|by intros [] w'].
  - destruct Hok. by constructor.
  - right. by apply (ok_pending _ Hok).
Qed.

(** One event of the engine: a report of the USB driver, the flashing thread,
    or one of the two timers.  An event that stops the machine has no
    successor. *)
Inductive engine_step (w w' : World) : Prop :=
| step_usb e st : run (HandleUsbEvents other e) w = (Go st, w') -> engine_step w w'
| step_thread : run SparseImgFlashThread w = (Go tt, w') -> engine_step w w'
| step_flash_timer : run FlashCompleteHandler w = (Go tt, w') -> engine_step w w'
| step_cmd_timer : run (AcceptCmdHandler other) w = (Go tt, w') -> engine_step w w'.

Lemma live_run {R} (m : MW R R) w r w' :
  ends m live_ok w -> run m w = (Go r, w') -> engine_ok (engine_of (fb w')).
Proof.
  unfold ends, run, call. destruct (m w) as [[a|q|h] w1]; [by intros H [= _ <-]..|done].
Qed.

Lemma step_ok_engine w w' :
  engine_ok (engine_of (fb w)) -> engine_step w w' -> engine_ok (engine_of (fb w')).
Proof.
  intros Hok [e st H|H|H|H]; (eapply live_run; [|exact H]).
  - by apply ok_HandleUsbEvents.
  - apply live_keeps; [|done]. apply same_engine_ok; auto with engine.
  - apply live_keeps; [|done]. apply same_engine_ok. clear. engine_tac.
  - by apply ok_AcceptCmdHandler.
Qed.

Definition reachable : World -> World -> Prop := rtc engine_step.

Lemma reachable_ok w w' :
  engine_ok (engine_of (fb w)) -> reachable w w' -> engine_ok (engine_of (fb w')).
Proof. intros Hok. induction 1; eauto using step_ok_engine. Qed.
End Invariant.
