(* ===== verification/EngineStart.v ===== *)
(** How the engine starts: the transfer buffer is found in a bounded number of
    rounds, and the engine that is laid out over it satisfies the invariant. *)
From Stdlib Require Import ZArith Lia.
From stdpp Require Import base list numbers option relations.
From S2P Require Import Prelude EfiBase Convert Firmware World LoaderLib Board Ptable DevInfo Gpt Slots Sparse Recovery Fastboot FastbootCmds FastbootOem Dispatch Setup FastbootSpec EngineSpec.

(** ** The size of the buffer *)

Lemma round_to_page_bounds x : 0 <= x < 2 ^ 63 -> x <= round_to_page x < x + 4096.
Proof.
  intros Hx. unfold round_to_page, EFI_PAGE_SIZE. rewrite u64_small by lia.
  rewrite <- Z.ldiff_land. change (4096 - 1) with (Z.ones 12).
  rewrite Z.ldiff_ones_r, Z.shiftl_mul_pow2, Z.shiftr_div_pow2 by lia.
  change (Z.ones 12) with 4095. change (2 ^ 12) with 4096.
  pose proof (Z.div_mod (x + 4095) 4096). pose proof (Z.mod_pos_bound (x + 4095) 4096). lia.
Qed.

Section Start.
Context `{F : Firmware} `{B : BuildConfig}.
Context (AllocateTransferBuffer : Z -> EFI_STATUS * Z).

(** What a round leaves of a size: at most nine tenths. *)
Lemma FREE_MEM_DIVISOR_settled {R} n w :
  settled w -> 0 <= n < 2 ^ 64 ->
  exists d, EFI_FREE_MEM_DIVISOR (R := R) n w = (Go d, w) /\ 0 <= d < 2 ^ 62 /\
    (n <= 2 ^ 32 -> 10 * d <= 9 * n).
Proof.
  intros Hs Hn. unfold EFI_FREE_MEM_DIVISOR. cbn zeta.
  set (le := u64 (n * 90) / 100). set (ot := u64 (n * 3) / 4).
  assert (Hle : 0 <= le < 2 ^ 62 /\ (n <= 2 ^ 32 -> 10 * le <= 9 * n)).
  { pose proof (u64_range (n * 90)) as Hu. unfold is_u64 in Hu. subst le. split.
    - split; [apply Z.div_pos; lia|apply Z.div_lt_upper_bound; lia].
    - intros Hb. rewrite u64_small by lia. pose proof (Z.mul_div_le (n * 90) 100). lia. }
  assert (Hot : 0 <= ot < 2 ^ 62 /\ (n <= 2 ^ 32 -> 10 * ot <= 9 * n)).
  { pose proof (u64_range (n * 3)) as Hu. unfold is_u64 in Hu. subst ot. split.
    - split; [apply Z.div_pos; lia|apply Z.div_lt_upper_bound; lia].
    - intros Hb. rewrite u64_small by lia. pose proof (Z.mul_div_le (n * 3) 4). lia. }
  destruct (negb IsLEVariant); [by exists ot|].
  rewrite (bind_go _ _ _ _ _ (CheckRootDeviceType_settled w Hs)).
  destruct (bool_decide (card_of w = NAND)); [by exists le|].
  rewrite (bind_go _ _ _ _ _ (CheckRootDeviceType_settled w Hs)).
  destruct (bool_decide (card_of w = EMMC)); [by exists le|by exists ot].
Qed.

Definition MEGABYTE : Z := 1048576.

(** The loop ends: each round but the first takes a megabyte. *)
Lemma wp_alloc_loop fuel MaxB MinB Size w :
  settled w -> 16 * MEGABYTE <= MinB <= MaxB -> MaxB < 2 ^ 31 -> 0 < Size < 2 ^ 64 ->
  (Size <= MaxB /\ Size <= MEGABYTE * Z.of_nat fuel \/
   0 < Z.of_nat fuel /\ MaxB <= MEGABYTE * (Z.of_nat fuel - 1)) ->
  wp (alloc_loop AllocateTransferBuffer fuel MaxB MinB Size)
    (fun r w' => r = EFI_OUT_OF_RESOURCES /\ w' = w)
    (fun r w' => w' = w /\ MinB <= r.1 <= MaxB /\ r.2 = AllocateTransferBuffer r.1 /\
       EFI_ERROR r.2.1 = false) w.
Proof.
  intros Hs HB HM. revert Size. unfold MEGABYTE in *.
  induction fuel as [|fuel IH]; intros Size HS Hf; [lia|]. cbn [alloc_loop].
  destruct (FREE_MEM_DIVISOR_settled (R := EFI_STATUS) Size w Hs) as (d & Hd & Hd0 & Hd9); [lia|].
  apply wp_bind. eapply wp_go; [exact Hd|]. cbn beta zeta.
  pose proof (round_to_page_bounds d) as Hr. set (n := round_to_page d) in *.
  destruct (Z.ltb_spec n MinB) as [Hlt|Hge]; [apply wp_early; by split|].
  set (m := if MaxB <? n then MaxB else n).
  assert (Hm : MinB <= m <= MaxB /\ m <= n) by (subst m; destruct (Z.ltb_spec MaxB n); lia).
  destruct (EFI_ERROR (AllocateTransferBuffer m).1) eqn:He; [|apply wp_ret; simpl; split_and!; try done; lia].
  apply IH; [lia|]. left. split; [lia|].
  destruct Hf as [[Hf1 Hf2]|Hf]; [|lia]. assert (10 * d <= 9 * Size) by (apply Hd9; lia). lia.
Qed.

(** ** The table *)

Lemma ok_FastbootRegister {R} p h :
  cmd_ok (mkCmd p (AsciiStrLen p) h) -> keeps keeps_ok (FastbootRegister (R := R) p h).
Proof.
  intros Hc. unfold FastbootRegister. apply keeps_bind; [apply _|apply keeps_ask, _|].
  intros []; [|apply keeps_ret, _]. apply ok_fbset. intros g []. constructor; try done.
  by constructor.
Qed.
Lemma ok_register_all {R} cs :
  Forall (fun c => cmd_ok (mkCmd c.1 (AsciiStrLen c.1) c.2)) cs ->
  keeps keeps_ok (register_all (R := R) cs).
Proof.
  induction 1 as [|c cs Hc _ IH]; simpl; [apply keeps_ret, _|].
  apply keeps_bind; [apply _|by apply ok_FastbootRegister|done].
Qed.

Lemma when_Forall {A} (P : A -> Prop) b l : Forall P l -> Forall P (when b l).
Proof. by destruct b; [|constructor]. Qed.
Lemma cmd_list_ok : Forall (fun c => cmd_ok (mkCmd c.1 (AsciiStrLen c.1) c.2)) cmd_list.
Proof. unfold cmd_list. rewrite !Forall_app. split_and!; try apply when_Forall; by repeat constructor. Qed.

Lemma ok_register_commands {R} : keeps keeps_ok (register_commands (R := R)).
Proof.
  unfold register_commands. apply keeps_bind; [apply _|apply ok_register_all, cmd_list_ok|].
  intros _. apply keeps_bind; [apply _|apply keeps_get, _|]. intros w.
  destruct (IsDynamicPartitionSupport _); [|apply keeps_ret, _].
  apply ok_register_all. by repeat constructor.
Qed.

Lemma wp_register_all {R} cs (E : R -> World -> Prop) (Q : unit -> World -> Prop) w :
  (forall w', Q tt w') -> wp (register_all (R := R) cs) E Q w.
Proof.
  intros HQ. revert w. induction cs as [|c cs IH]; intros w; [apply HQ|]. cbn [register_all].
  unfold FastbootRegister. apply wp_bind, wp_bind. apply wp_ask.
  destruct (AllocateZeroPool (fw w) 32); [apply wp_modify|apply wp_ret]; apply IH.
Qed.
Lemma wp_register_commands {R} (E : R -> World -> Prop) w :
  engine_ok (engine_of (fb w)) ->
  wp (register_commands (R := R)) E (fun _ w' => engine_ok (engine_of (fb w'))) w.
Proof.
  intros Hok. eapply wp_mono; [apply (wp_keeps keeps_ok _ E (fun _ _ => True))| |].
  - apply ok_register_commands.
  - unfold register_commands. apply wp_bind, wp_register_all. intros w'.
    apply wp_bind, wp_get. destruct (IsDynamicPartitionSupport _); [by apply wp_register_all|done].
  - by intros r w' [H _].
  - intros _ w' [_ H]. by apply H.
Qed.

(** Whether boot has two slots is found out without touching the device. *)
Definition but_ri (w w' : World) : Prop := exists x, w' = set_ri x w.
Lemma wp_IsRecoveryInfo {R} (E : R -> World -> Prop) w :
  wp (IsRecoveryInfo (R := R)) E (fun _ w' => w' = w \/ but_ri w w') w.
Proof.
  unfold IsRecoveryInfo. apply wp_bind, wp_get. destruct (ri w =? -1); [|by apply wp_ret; left].
  apply wp_bind, wp_ask. destruct (negb _).
  { apply wp_bind, wp_modify, wp_ret. right. by eexists. }
  apply wp_bind, wp_ask. apply wp_bind. destruct (_ || _).
  - apply wp_modify, wp_bind, wp_get, wp_ret. right. by eexists.
  - apply wp_ret, wp_bind, wp_get, wp_ret. by left.
Qed.
Lemma wp_multi_slot_scan {R} n c l (E : R -> World -> Prop) w :
  wp (multi_slot_scan (R := R) n c l) E (fun _ w' => w' = w \/ but_ri w w') w.
Proof.
  assert (Ht : forall w w1 w2, (w1 = w \/ but_ri w w1) -> (w2 = w1 \/ but_ri w1 w2) ->
    (w2 = w \/ but_ri w w2)).
  { intros w0 w1 w2 [->|[x ->]] [->|[y ->]]; [by left|right; by exists y|right; by exists x|].
    right. by exists y. }
  revert c w. induction l as [|e l IH]; intros c w; cbn [multi_slot_scan]; [by left|].
  cbn zeta. assert (Hn : forall m w1, (w1 = w \/ but_ri w w1) ->
    wp (if MIN_SLOTS <? m then mret true else multi_slot_scan n m l) E
      (fun _ w' => w' = w \/ but_ri w w') w1).
  { intros m w1 H1. destruct (MIN_SLOTS <? m); [by apply wp_ret|].
    eapply wp_mono; [apply IH|intros r w2 H; exact H|]. intros b w2 H2. by eapply Ht. }
  destruct (_ =? 0); [|by apply Hn; left]. destruct (_ && _); [by apply Hn; left|].
  destruct (_ && _); [|by apply Hn; left].
  apply wp_bind. eapply wp_mono; [apply wp_IsRecoveryInfo|intros r w2 H; exact H|].
  intros [] w1 H1; [by apply wp_ret|by apply Hn].
Qed.

(** ** The start *)

(** The statics of the engine as the program starts with them. *)
Definition at_rest (g : FbGlobals) : Prop :=
  mState g = ExpectCmdState /\ cmdlist g = [] /\ PendingCmd g = None /\ RxQueue g = None.

Lemma GetBufferSize_bounds Ddr :
  16 * MEGABYTE <= (GetBufferSize Ddr).2 <= (GetBufferSize Ddr).1 /\
  (GetBufferSize Ddr).1 <= 1536 * MEGABYTE.
Proof.
  unfold GetBufferSize, MEGABYTE, MAX_BUFFER_SIZE, MIN_BUFFER_SIZE.
  destruct (EFI_ERROR _); [simpl; lia|]. destruct (_ <=? _); simpl; lia.
Qed.

(** The layout over a buffer of [Size] bytes. *)
Lemma ok_layout g Base Size (nand : bool) :
  at_rest g -> 2 <= Size < 2 ^ 31 ->
  let Max := if nand then Size else Size / 2 in
  engine_ok (engine_of
    (fb_mDataBuffer Base (fb_mNumDataBytes Max (fb_mFlashNumDataBytes Max
      (fb_mUsbDataBuffer Base (fb_mFlashDataBuffer (if nand then Base else Base + Max)
        (fb_MaxDownLoadSize Max (fb_DataMem (zeros Size) g)))))))).
Proof.
  intros (Hst & Hc & Hp & Hq) HS Max.
  assert (HM : 0 < Max < 2 ^ 31 /\ (if nand then Max else Max + Max) <= Size).
  { subst Max. destruct nand; [lia|]. pose proof (Z.div_mod Size 2).
    pose proof (Z.mod_pos_bound Size 2). lia. }
  assert (Hlen : Z.of_nat (length (zeros Size)) = Size).
  { unfold zeros. rewrite length_replicate. lia. }
  constructor; unfold inside; cbn -[Max zeros]; rewrite ?Hst, ?Hc, ?Hp, ?Hq, ?Hlen; try done;
    destruct nand; lia.
Qed.

(** *** The buffer *)

Lemma max_free_nonneg n l : 0 <= n -> 0 <= max_free n l.
Proof.
  revert n. induction l as [|[t p] l IH]; intros n Hn; [done|]. simpl. apply IH.
  destruct (_ =? _); [|done]. simpl. destruct (Z.ltb_spec n p); lia.
Qed.
Lemma wp_GetMaxAllocatableMemory {R} (E : R -> World -> Prop) w :
  wp (GetMaxAllocatableMemory (R := R)) E (fun n w' => w' = w /\ 0 <= n < 2 ^ 64) w.
Proof.
  unfold GetMaxAllocatableMemory. apply wp_bind, wp_ask.
  destruct (negb _); [by apply wp_ret|]. destruct (CHECK_ADD64 _ _); [by apply wp_ret|].
  apply wp_bind, wp_ask. destruct (negb _); [by apply wp_ret|].
  apply wp_bind, wp_ask. destruct (EFI_ERROR _); [by apply wp_ret|].
  apply wp_ret. split; [done|]. apply u64_range.
Qed.

(** A buffer of [Size] bytes that no download uses yet. *)
Record buffer_ready (w : World) (Size : Z) : Prop := mkReady {
  br_settled : settled w;
  br_rest : at_rest (fb w);
  br_size : 2 <= Size < 2 ^ 31;
  br_mem : DataMem (fb w) = zeros Size;
  br_max : MaxDownLoadSize (fb w) = if bool_decide (card_of w = NAND) then Size else Size / 2;
}.

Lemma wp_find_buffer Ddr w :
  settled w -> at_rest (fb w) ->
  wp (find_buffer AllocateTransferBuffer Ddr) (fun r _ => r <> EFI_SUCCESS)
    (fun Base w' => exists Size, AllocateTransferBuffer Size = (EFI_SUCCESS, Base) /\
       (GetBufferSize Ddr).2 <= Size <= (GetBufferSize Ddr).1 /\ card_of w' = card_of w /\
       buffer_ready w' Size) w.
Proof.
  intros Hs Hrest. unfold find_buffer.
  apply wp_bind, wp_modify. apply wp_bind, wp_ask. cbn beta.
  destruct (EFI_ERROR (CreateEvent _)) eqn:He; [apply wp_early; by intros E; rewrite E in He|].
  pose proof (GetBufferSize_bounds Ddr) as HB.
  destruct (GetBufferSize Ddr) as [MaxB MinB]. cbn [fst snd] in *. unfold MEGABYTE in HB.
  apply wp_bind. eapply wp_mono; [apply wp_GetMaxAllocatableMemory|intros r w' H; exact H|].
  intros Free w1 [-> HF].
  apply wp_bind, wp_modify. destruct (Z.eqb_spec Free 0) as [|Hf]; [by apply wp_early|].
  apply wp_bind. eapply wp_mono.
  { apply wp_alloc_loop; [exact Hs|unfold MEGABYTE; lia..|right].
    unfold MEGABYTE, ALLOC_ROUNDS. lia. }
  { by intros r w' [-> _]. }
  intros [Size [Status Base]] w' (-> & HS & HA & Her). cbn [fst snd] in HS, HA, Her.
  apply wp_bind, wp_modify. destruct (Z.eqb_spec Status EFI_SUCCESS) as [->|Hne]; [|by apply wp_early].
  cbn [negb]. apply wp_bind, wp_modify. apply wp_bind.
  eapply wp_go; [by apply CheckRootDeviceType_settled|]. cbn beta zeta.
  apply wp_bind, wp_modify, wp_ret. exists Size. split_and!; [done|lia..|done|].
  constructor; try done. lia.
Qed.

(** *** Variables and commands *)

Lemma engine_type_loop {R} ps n a t : keeps same_engine (type_loop (R := R) ps n a t).
Proof. revert t. induction ps as [|p ps IH]; intros t; simpl; engine_tac. Qed.
#[local] Hint Resolve engine_type_loop : engine.
Lemma engine_publish_part {R} e : keeps same_engine (publish_part (R := R) e).
Proof. engine_tac. Qed.
#[local] Hint Resolve engine_publish_part : engine.
Lemma engine_PublishGetVarPartitionInfo {R} es s :
  keeps same_engine (PublishGetVarPartitionInfo (R := R) es s).
Proof. revert s. induction es as [|e es IH]; intros s; simpl; engine_tac. Qed.
#[local] Hint Resolve engine_PublishGetVarPartitionInfo : engine.
Lemma engine_BoardSerialNum s n : keeps same_engine (BoardSerialNum s n).
Proof. engine_tac. Qed.
Lemma engine_publish_board m s : keeps same_engine (publish_board m s).
Proof. engine_tac. Qed.
Lemma engine_publish_state {R} : keeps same_engine (publish_state (R := R)).
Proof. engine_tac. Qed.
Lemma engine_publish_merge {R} : keeps same_engine (publish_merge (R := R)).
Proof. engine_tac. Qed.
Lemma engine_ReadAllowUnlockValue : keeps same_engine ReadAllowUnlockValue.
Proof. engine_tac. Qed.
#[local] Hint Resolve engine_BoardSerialNum engine_publish_board engine_publish_state
  engine_publish_merge engine_ReadAllowUnlockValue : engine.

Lemma ends_FastbootCommandSetup Base w Size :
  buffer_ready w Size -> ends (FastbootCommandSetup Base (MaxDownLoadSize (fb w))) live_ok w.
Proof.
  intros [Hs Hr HS Hm Hx]. unfold FastbootCommandSetup, PartitionHasMultiSlot.
  apply ends_bind, wp_bind, wp_get.
  eapply wp_mono; [apply wp_multi_slot_scan| |].
  { intros r w1 H. exact H. }
  intros ms w1 H1. assert (Hw1 : settled w1 /\ fb w1 = fb w /\ card_of w1 = card_of w)
    by (by destruct H1 as [-> | [x ->]]). destruct Hw1 as (Hs1 & Hf1 & Hc1).
  unfold setup_buffers. apply ends_bind, wp_bind.
  eapply wp_go; [by apply CheckRootDeviceType_settled|]. cbn beta. apply wp_modify.
  match goal with |- ends _ _ ?x => set (w2 := x) end.
  assert (Hok : engine_ok (engine_of (fb w2))).
  { pose proof (ok_layout (fb w) Base Size (bool_decide (card_of w = NAND)) Hr HS) as H.
    unfold w2. cbn [fb upd_fb]. rewrite Hf1, Hc1, Hx. cbn zeta in H. rewrite <- Hm, <- Hx in H.
    rewrite Hx in H. revert H. by destruct (fb w); cbn in *; subst. }
  apply live_keeps; [|exact Hok].
  apply keeps_bind; [apply _|apply same_engine_ok; engine_tac|]. intros sn.
  destruct (negb _); [apply keeps_early, _|].
  apply keeps_bind; [apply _|apply same_engine_ok; engine_tac|]. intros _.
  apply keeps_bind; [apply _|apply same_engine_ok; engine_tac|]. intros _.
  apply keeps_bind; [apply _|apply ok_register_commands|]. intros _.
  apply same_engine_ok. engine_tac.
Qed.

Lemma wp_InitMultiThreadEnv {R} (E : R -> World -> Prop) w :
  wp (InitMultiThreadEnv (R := R)) E (fun _ w' => same_engine w w') w.
Proof.
  unfold InitMultiThreadEnv. destruct IsDisableParallelDownloadFlash; [by apply wp_ret|].
  apply wp_bind, wp_ask, wp_bind, wp_ask. by destruct (_ || _); [apply wp_ret|apply wp_modify].
Qed.

(** A start that succeeds leaves a well-formed engine. *)
Lemma FastbootCmdsInit_ok Ddr w w0 :
  settled w -> at_rest (fb w) ->
  run (FastbootCmdsInit AllocateTransferBuffer Ddr) w = (Go EFI_SUCCESS, w0) ->
  engine_ok (engine_of (fb w0)).
Proof.
  intros Hs Hr. pose proof (wp_find_buffer Ddr w Hs Hr) as H. unfold wp in H.
  enough (He : ends (FastbootCmdsInit AllocateTransferBuffer Ddr) (fun c w' =>
    match c with Go _ => engine_ok (engine_of (fb w')) | Return r => r <> EFI_SUCCESS
    | Halt _ => True end) w).
  { unfold run, call. unfold ends in He.
    destruct (FastbootCmdsInit AllocateTransferBuffer Ddr w) as [[r|r|h] w1]; [| |done];
      intros [= -> ->]; [done|by destruct He]. }
  unfold FastbootCmdsInit. apply ends_bind_ends. unfold ends at 1.
  destruct (find_buffer AllocateTransferBuffer Ddr w) as [[Base|r|h] w1]; [|done..].
  destruct H as (Size & _ & _ & _ & Hb).
  apply ends_bind. apply (wp_go _ _ _ _ (fb w1) w1); [done|]. cbn beta.
  apply ends_bind_ends, ends_call.
  eapply ends_mono; [by apply (ends_FastbootCommandSetup Base w1 Size)|].
  intros [r|r|h] w2 H2; [| |done]; apply ends_bind;
    (eapply wp_mono; [apply wp_InitMultiThreadEnv|intros s w3 HE; exact HE|]);
    intros ? w3 H3; apply ends_wp, wp_ret; rewrite H3; exact H2.
Qed.
End Start.
