(* ===== verification/EngineLive.v ===== *)
(** A download that was accepted ends: every packet of data is stored behind
    the one before, and the last one brings the engine back to the commands. *)
From Stdlib Require Import ZArith Lia.
From stdpp Require Import base list numbers option relations.
From S2P Require Import Prelude EfiBase Convert Firmware World LoaderLib Board Ptable DevInfo Gpt Slots Sparse Recovery Fastboot FastbootCmds FastbootOem Dispatch Setup FastbootSpec EngineSpec.

Section Live.
Context `{F : Firmware} `{B : BuildConfig}.
Context (other : fastboot_cmd_fn -> list Z -> Z -> Z -> MW unit unit).

(** The size of one transfer on the device. *)
Definition usb_size (w : World) : Z :=
  if IsLEVariant && bool_decide (card_of w = NAND \/ card_of w = EMMC)
  then 1024 * 1024 * 4 else 1024 * 1024 * 16.

Lemma usb_size_pos w : 0 < usb_size w.
Proof. unfold usb_size. by destruct (_ && _). Qed.

Lemma USB_BUFFER_SIZE_settled {R} w :
  settled w -> USB_BUFFER_SIZE (R := R) w = (Go (usb_size w), w).
Proof.
  intros Hs. unfold USB_BUFFER_SIZE, usb_size. destruct IsLEVariant; [|done]. cbn [negb andb].
  rewrite (bind_go _ _ _ _ _ (CheckRootDeviceType_settled w Hs)).
  destruct (decide (card_of w = NAND)) as [Hn|Hn].
  { rewrite !bool_decide_eq_true_2 by auto. done. }
  rewrite bool_decide_eq_false_2 by done.
  rewrite (bind_go _ _ _ _ _ (CheckRootDeviceType_settled w Hs)).
  destruct (decide (card_of w = EMMC)) as [He|He].
  { rewrite !bool_decide_eq_true_2 by auto. done. }
  rewrite !bool_decide_eq_false_2 by tauto. done.
Qed.

Lemma GetXfrSize_settled {R} w :
  settled w -> mState (fb w) = ExpectDataState ->
  GetXfrSize (R := R) w =
  (Go (Z.min (u64 (mNumDataBytes (fb w) - mBytesReceivedSoFar (fb w))) (usb_size w)), w).
Proof.
  intros Hs Hd. unfold GetXfrSize. rewrite (bind_go _ _ w (fb w) w) by done. cbn zeta.
  rewrite bool_decide_eq_true_2 by done.
  rewrite (bind_go _ _ _ _ _ (USB_BUFFER_SIZE_settled w Hs)).
  destruct (Z.ltb_spec (u64 (mNumDataBytes (fb w) - mBytesReceivedSoFar (fb w))) (usb_size w)).
  - unfold mret, M_MRet, M_ret. do 2 f_equal. lia.
  - rewrite USB_BUFFER_SIZE_settled by done. do 2 f_equal. lia.
Qed.

(** The engine in the middle of a download: [pre] was received, and the
    driver was given the place behind it. *)
Record downloading (w : World) (pre : list Z) (N : Z) : Prop := mkDownloading {
  dl_settled : settled w;
  dl_ok : engine_ok (engine_of (fb w));
  dl_state : mState (fb w) = ExpectDataState;
  dl_num : mNumDataBytes (fb w) = N;
  dl_received : mBytesReceivedSoFar (fb w) = Z.of_nat (length pre);
  dl_queue : RxQueue (fb w) = Some (Z.min (N - Z.of_nat (length pre)) (usb_size w),
                                    Some (mUsbDataBuffer (fb w) + Z.of_nat (length pre)));
  dl_bytes : buf_read (DataMem (fb w)) (mUsbDataBuffer (fb w) - mDataBuffer (fb w))
               (Z.of_nat (length pre)) = Some pre;
}.

Lemma downloading_bounds w pre N : downloading w pre N ->
  Z.of_nat (length pre) <= N < 2 ^ 31 /\ N <= MaxDownLoadSize (fb w) /\
  mDataBuffer (fb w) <= mUsbDataBuffer (fb w) /\
  mUsbDataBuffer (fb w) + MaxDownLoadSize (fb w)
    <= mDataBuffer (fb w) + Z.of_nat (length (DataMem (fb w))).
Proof.
  intros [_ Hok Hst Hn Hr _ _]. pose proof (ok_data _ Hok Hst) as [H1 H2].
  pose proof (ok_max _ Hok). pose proof (ok_usb _ Hok) as [H3 H4]. simpl in *. lia.
Qed.

(** The driver stores a packet. *)
Lemma stores_at {R} w pre N d :
  downloading w pre N -> Z.of_nat (length pre) + Z.of_nat (length d) <= N ->
  exists m, buf_write (DataMem (fb w))
      (mUsbDataBuffer (fb w) - mDataBuffer (fb w) + Z.of_nat (length pre)) d = Some m /\
    driver_stores (R := R) d w = (Go tt, upd_fb (fun g => fb_RxQueue None (fb_DataMem m g)) w).
Proof.
  intros Hd Hn. pose proof (downloading_bounds _ _ _ Hd) as Hb. destruct Hd.
  destruct (buf_write_in_range (DataMem (fb w))
    (mUsbDataBuffer (fb w) - mDataBuffer (fb w) + Z.of_nat (length pre)) d) as [m Hm]; [lia..|].
  exists m. split; [done|]. unfold driver_stores, poke, store.
    rewrite (bind_go _ _ w (fb w) w) by done. rewrite dl_queue0.
    unfold mbind, M_MBind, M_bind, fbget.
    replace (mUsbDataBuffer (fb w) + Z.of_nat (length pre) - mDataBuffer (fb w))
      with (mUsbDataBuffer (fb w) - mDataBuffer (fb w) + Z.of_nat (length pre)) by lia.
    by rewrite Hm.
Qed.

(** [AcceptData] of a packet that does not complete the data, and of the one
    that does. *)
Lemma AcceptData_more w n a :
  settled w -> mState (fb w) = ExpectDataState -> 0 <= n -> 0 <= mBytesReceivedSoFar (fb w) ->
  mBytesReceivedSoFar (fb w) + n < mNumDataBytes (fb w) < 2 ^ 31 ->
  let r := mBytesReceivedSoFar (fb w) + n in
  AcceptData n a w =
  (Go tt, upd_fb (fun g => fb_RxQueue
     (Some (Z.min (mNumDataBytes g - r) (usb_size w), Some (a + r)))
     (fb_mBytesReceivedSoFar r g)) w).
Proof.
  intros Hs Hst Hn Hr Hlt r. unfold AcceptData. rewrite (bind_go _ _ w (fb w) w) by done.
  cbv beta zeta. rewrite (u64_small (mNumDataBytes (fb w) - _)) by lia.
  destruct (Z.ltb_spec (mNumDataBytes (fb w) - mBytesReceivedSoFar (fb w)) n); [lia|].
  rewrite u64_small by lia. fold r.
  set (w1 := upd_fb (fb_mBytesReceivedSoFar r) w).
  rewrite (bind_go _ _ w tt w1) by done. rewrite (bind_go _ _ w1 (fb w1) w1) by done.
  cbn [fb w1 upd_fb mBytesReceivedSoFar mNumDataBytes fb_mBytesReceivedSoFar].
  destruct (Z.eqb_spec r (mNumDataBytes (fb w))); [lia|].
  rewrite (bind_go _ _ _ _ _ (GetXfrSize_settled w1 Hs Hst)).
  cbn [fb w1 upd_fb mBytesReceivedSoFar mNumDataBytes fb_mBytesReceivedSoFar].
  rewrite u64_small by lia. done.
Qed.

(** The end of the data: an answer, or the timer that sends it. *)
Definition answered (g g' : FbGlobals) : Prop :=
  FlashCompleteEvent g' = true \/ exists p, Sent g' = Sent g ++ [p].

Lemma wp_finish (P : FbGlobals -> Prop) w :
  (forall g s, P g -> P (fb_Sent s g)) -> (forall g b, P g -> P (fb_FlashCompleteEvent b g)) ->
  (forall g b, P g -> P (fb_UsbTimerEvent b g)) -> P (fb w) ->
  wp (w ← get; if IsUseMThreadParallel (lb w) then FastbootOkay []
      else StopUsbTimer;; FastbootOkayDelay;; mret tt : MW unit unit)
    (fun _ _ => False) (fun _ w' => P (fb w') /\ answered (fb w) (fb w')) w.
Proof.
  intros Hsent Hev Htm Hw. apply wp_bind, wp_get.
  destruct (IsUseMThreadParallel (lb w)).
  { apply wp_modify. split; [by apply Hsent|]. right. by eexists. }
  apply wp_bind. set (Q := fun (_ : unit) (w' : World) =>
    P (fb w') /\ Sent (fb w') = Sent (fb w)).
  assert (H1 : wp (StopUsbTimer (R := unit)) (fun _ _ => False) Q w).
  { unfold StopUsbTimer. destruct ENABLE_UPDATE_PARTITIONS_CMDS; [|by apply wp_ret].
    apply wp_bind, wp_modify, wp_modify. split; [by apply Htm|done]. }
  eapply wp_mono; [exact H1|done|]. intros _ w1 [HP Hs]. unfold FastbootOkayDelay.
  apply wp_bind, wp_bind, wp_ask. destruct (EFI_ERROR _).
  { apply wp_bind, wp_modify, wp_ret, wp_ret. split; [by apply Hsent|right].
    simpl. rewrite Hs. by eexists. }
  apply wp_bind, wp_ask. apply wp_bind. destruct (EFI_ERROR _); apply wp_modify, wp_ret, wp_ret.
  - split; [by apply Hsent|right]. simpl. rewrite Hs. by eexists.
  - split; [by apply Hev|by left].
Qed.

(** The rest of the last page fits when it is filled. *)
Lemma round_page N k Max :
  0 < N <= Max -> Max < 2 ^ 31 -> 0 <= k <= 20 ->
  let r := u32 (ROUND_TO_PAGE N (u32 (2 ^ k - 1))) in
  N <= r /\ u64 (r - N) = r - N.
Proof.
  intros HN HM Hk r. assert (Hp : 0 < 2 ^ k <= 2 ^ 20).
  { split; [apply Z.pow_pos_nonneg; lia|apply Z.pow_le_mono_r; lia]. }
  assert (Hr : r = (N + (2 ^ k - 1)) / 2 ^ k * 2 ^ k).
  { subst r. rewrite (u32_small (2 ^ k - 1)), ROUND_TO_PAGE_pow2 by (unfold MAX_UINT32; lia).
    apply u32_small. pose proof (Z.div_mod (N + (2 ^ k - 1)) (2 ^ k)).
    pose proof (Z.mod_pos_bound (N + (2 ^ k - 1)) (2 ^ k)). nia. }
  pose proof (Z.div_mod (N + (2 ^ k - 1)) (2 ^ k)).
  pose proof (Z.mod_pos_bound (N + (2 ^ k - 1)) (2 ^ k)).
  assert (HNr : N <= r < N + 2 ^ k) by nia. split; [lia|]. apply u64_small. lia.
Qed.

Lemma wp_AcceptData_last w n a k m :
  mState (fb w) = ExpectDataState -> 0 <= n -> 0 <= mBytesReceivedSoFar (fb w) ->
  mBytesReceivedSoFar (fb w) + n = mNumDataBytes (fb w) -> 0 < mNumDataBytes (fb w) ->
  mNumDataBytes (fb w) <= MaxDownLoadSize (fb w) < 2 ^ 31 -> 0 <= k <= 20 ->
  (forall f, GetPageSize (R := unit) (upd_fb f w) = (Go (2 ^ k), upd_fb f w)) ->
  mDataBuffer (fb w) <= a ->
  a + MaxDownLoadSize (fb w) <= mDataBuffer (fb w) + Z.of_nat (length (DataMem (fb w))) ->
  buf_read (DataMem (fb w)) (a - mDataBuffer (fb w)) (mNumDataBytes (fb w)) = Some m ->
  wp (AcceptData n a) (fun _ _ => False)
    (fun _ w' => (mState (fb w') = ExpectCmdState /\
      mUsbDataBuffer (fb w') = mUsbDataBuffer (fb w) /\ mDataBuffer (fb w') = mDataBuffer (fb w) /\
      buf_read (DataMem (fb w')) (a - mDataBuffer (fb w)) (mNumDataBytes (fb w)) = Some m) /\
      answered (fb w) (fb w')) w.
Proof.
  intros Hst Hn Hr Hlast HN HM Hk Hpage Ha Hend Hm. unfold AcceptData.
  apply wp_bind. eapply wp_go; [reflexivity|]. cbv beta zeta.
  rewrite (u64_small (mNumDataBytes (fb w) - _)) by lia.
  destruct (Z.ltb_spec (mNumDataBytes (fb w) - mBytesReceivedSoFar (fb w)) n); [lia|].
  rewrite u64_small by lia. rewrite Hlast.
  apply wp_bind, wp_modify. apply wp_bind. eapply wp_go; [reflexivity|].
  cbn [fb upd_fb mBytesReceivedSoFar mNumDataBytes fb_mBytesReceivedSoFar].
  rewrite Z.eqb_refl. apply wp_bind. eapply wp_go; [apply Hpage|]. cbv beta zeta.
  destruct (round_page (mNumDataBytes (fb w)) k (MaxDownLoadSize (fb w))) as [Hr1 Hr2]; [lia..|].
  set (r := u32 _) in *. rewrite Hr2. apply wp_bind.
  set (w1 := upd_fb _ w). apply (wp_mono _ (fun _ _ => False) _ (fun _ w2 =>
    exists mem, w2 = upd_fb (fb_DataMem mem) w1 /\
      buf_read mem (a - mDataBuffer (fb w)) (mNumDataBytes (fb w)) = Some m)); [|done|].
  { change (MaxDownLoadSize (fb_mBytesReceivedSoFar _ (fb w))) with (MaxDownLoadSize (fb w)).
    destruct (Z.ltb_spec r (MaxDownLoadSize (fb w))).
    - unfold poke. apply wp_bind. eapply wp_go; [reflexivity|]. cbv beta.
      assert (Hz : Z.of_nat (length (zeros (r - mNumDataBytes (fb w)))) = r - mNumDataBytes (fb w)).
      { unfold zeros. rewrite length_replicate. lia. }
      destruct (buf_write_in_range (DataMem (fb w)) (a + mNumDataBytes (fb w) - mDataBuffer (fb w))
        (zeros (r - mNumDataBytes (fb w)))) as [mem Hw]; [lia|lia|].
      apply wp_bind. eapply wp_need; [exact Hw|]. apply wp_modify. exists mem. split; [done|].
      rewrite (buf_read_write_other _ _ _ _ _ _ Hw); [done|left; lia].
    - apply wp_ret. by exists (DataMem (fb w)). }
  intros _ w2 (mem & -> & Hmem). apply wp_bind, wp_modify. set (w3 := upd_fb _ _).
  eapply wp_mono; [apply (wp_finish (fun g => mState g = ExpectCmdState /\
    mUsbDataBuffer g = mUsbDataBuffer (fb w) /\ mDataBuffer g = mDataBuffer (fb w) /\
    buf_read (DataMem g) (a - mDataBuffer (fb w)) (mNumDataBytes (fb w)) = Some m))|done|done]; done.
Qed.

(** ** A sequence of packets *)

Definition packet (d : list Z) : usb_event := UsbReceived UsbDeviceTransferStatusCompleteOK d [].

(** A packet goes to [AcceptData]. *)
Lemma packet_accepted w d (Q : EFI_STATUS -> World -> Prop) w1 :
  driver_stores (R := EFI_STATUS) d w = (Go tt, w1) -> mState (fb w1) = ExpectDataState ->
  wp (AcceptData (Z.of_nat (length d)) (mUsbDataBuffer (fb w1))) (fun _ _ => False)
    (fun _ => Q EFI_SUCCESS) w1 ->
  wp (HandleUsbEvents other (packet d)) Q Q w.
Proof.
  intros Hs Hst Hq. unfold HandleUsbEvents, packet. apply wp_bind. eapply wp_go; [exact Hs|].
  unfold ProcessBulkXfrCompleteRx. apply wp_bind. eapply wp_go; [reflexivity|]. cbn beta.
  unfold FastbootCurrentState, FastbootDloadBuffer. rewrite bool_decide_eq_true_2 by done.
  apply wp_bind, wp_call. unfold DataReady. apply wp_bind. eapply wp_go; [reflexivity|].
  cbn beta. rewrite Hst. eapply wp_mono; [exact Hq|done|]. intros [] w' H. by apply wp_ret.
Qed.

(** The device a download runs on does not change under it. *)
Definition same_place (w w' : World) : Prop :=
  fw w' = fw w /\ rt w' = rt w /\ Sent (fb w') = Sent (fb w) /\
  mUsbDataBuffer (fb w') = mUsbDataBuffer (fb w) /\ mDataBuffer (fb w') = mDataBuffer (fb w).

(** Bytes behind the ones that are there. *)
Lemma received_app mem mem' off pre d :
  buf_read mem off (Z.of_nat (length pre)) = Some pre ->
  buf_write mem (off + Z.of_nat (length pre)) d = Some mem' ->
  buf_read mem' off (Z.of_nat (length (pre ++ d))) = Some (pre ++ d).
Proof.
  intros Hr Hw. rewrite length_app, Nat2Z.inj_add. apply buf_read_app.
  - rewrite (buf_read_write_other _ _ _ _ _ _ Hw); [done|lia].
  - by eapply buf_read_write_same.
Qed.

Lemma packet_more w pre N d :
  downloading w pre N -> Z.of_nat (length pre) + Z.of_nat (length d) < N ->
  exists w', run (HandleUsbEvents other (packet d)) w = (Go EFI_SUCCESS, w') /\
    downloading w' (pre ++ d) N /\ same_place w w'.
Proof.
  intros Hd Hlt. pose proof (downloading_bounds _ _ _ Hd) as Hb.
  destruct (stores_at (R := EFI_STATUS) w pre N d Hd) as (m & Hm & Hs); [lia|].
  pose proof (ok_driver_stores (R := EFI_STATUS) d w (dl_ok _ _ _ Hd)) as Hok1.
  rewrite Hs in Hok1. cbn [snd] in Hok1. set (w1 := upd_fb _ w) in Hs, Hok1.
  assert (Hr1 : mBytesReceivedSoFar (fb w1) = Z.of_nat (length pre)) by apply Hd.
  assert (Hn1 : mNumDataBytes (fb w1) = N) by apply Hd.
  assert (Hst1 : mState (fb w1) = ExpectDataState) by apply Hd.
  pose proof (AcceptData_more w1 (Z.of_nat (length d)) (mUsbDataBuffer (fb w1)) (dl_settled _ _ _ Hd)
    Hst1 ltac:(lia) ltac:(lia) ltac:(lia)) as Ha.
  pose proof (ok_AcceptData (Z.of_nat (length d)) w1 ltac:(lia) Hst1 Hok1) as Hok2.
  unfold ends in Hok2. rewrite Ha in Hok2. unfold live_ok in Hok2.
  cbn zeta in Ha, Hok2. rewrite Hr1 in Ha, Hok2.
  set (w2 := upd_fb (fun g => fb_RxQueue _ _) w1) in Ha, Hok2.
  assert (Hw2 : downloading w2 (pre ++ d) N /\ same_place w w2).
  { destruct Hd as [H1 H2 H3 H4 H5 H6 H7]. split; [|done].
    constructor; try done; cbn -[usb_size]; rewrite ?length_app.
    - lia.
    - rewrite H4. do 3 f_equal; [f_equal; lia|f_equal; lia].
    - rewrite <- length_app. by eapply received_app. }
  assert (Hok : wp (HandleUsbEvents other (packet d))
    (fun st w' => st = EFI_SUCCESS /\ w' = w2) (fun st w' => st = EFI_SUCCESS /\ w' = w2) w).
  { apply (packet_accepted _ _ _ w1); [done..|]. by eapply wp_go; [exact Ha|]. }
  apply wp_run in Hok as (st & w' & Hrun & -> & ->). by exists w2.
Qed.

Lemma packet_last w pre N d k :
  downloading w pre N -> Z.of_nat (length pre) + Z.of_nat (length d) = N -> 0 < N ->
  0 <= k <= 20 -> GetPageSize (R := unit) w = (Go (2 ^ k), w) ->
  exists w', run (HandleUsbEvents other (packet d)) w = (Go EFI_SUCCESS, w') /\
    mState (fb w') = ExpectCmdState /\ mUsbDataBuffer (fb w') = mUsbDataBuffer (fb w) /\
    mDataBuffer (fb w') = mDataBuffer (fb w) /\
    buf_read (DataMem (fb w')) (mUsbDataBuffer (fb w) - mDataBuffer (fb w)) N = Some (pre ++ d) /\
    answered (fb w) (fb w').
Proof.
  intros Hd Hlast HN Hk Hpage. pose proof (downloading_bounds _ _ _ Hd) as Hb.
  destruct (stores_at (R := EFI_STATUS) w pre N d Hd) as (m & Hm & Hs); [lia|].
  set (w1 := upd_fb _ w) in Hs. pose proof Hd as [H1 H2 H3 H4 H5 H6 H7].
  assert (Hlen : length m = length (DataMem (fb w))) by (by eapply length_buf_write).
  pose proof (received_app _ _ _ _ _ H7 Hm) as Hread.
  pose proof (ok_max _ H2) as Hmax. simpl in Hmax.
  rewrite length_app, Nat2Z.inj_add, Hlast in Hread.
  set (Q := fun (st : EFI_STATUS) (w' : World) => st = EFI_SUCCESS /\
    (mState (fb w') = ExpectCmdState /\ mUsbDataBuffer (fb w') = mUsbDataBuffer (fb w) /\
    mDataBuffer (fb w') = mDataBuffer (fb w) /\
    buf_read (DataMem (fb w')) (mUsbDataBuffer (fb w) - mDataBuffer (fb w)) N = Some (pre ++ d)) /\
    answered (fb w) (fb w')).
  assert (Hok : wp (HandleUsbEvents other (packet d)) Q Q w).
  { apply (packet_accepted _ _ _ w1); [done..|].
    eapply wp_mono; [apply (wp_AcceptData_last w1 _ _ k (pre ++ d))|done|]; simpl; try lia; try done.
    - intros f. by apply (GetPageSize_frame w).
    - by rewrite H4.
    - intros [] w' H. split; [done|]. simpl in H. by rewrite H4 in H. }
  apply wp_run in Hok as (st & w' & Hrun & -> & (? & ? & ? & ?) & ?). by exists w'.
Qed.

(** The packets of a data phase, one after the other. *)
Fixpoint receive_all (ds : list (list Z)) : MW EFI_STATUS EFI_STATUS :=
  match ds with
  | [] => mret EFI_SUCCESS
  | d :: ds' => call (HandleUsbEvents other (packet d));; receive_all ds'
  end.

Lemma run_bind_call {R A} (m : MW R R) (k : R -> MW A A) w r w' :
  run m w = (Go r, w') -> run (call m ≫= k) w = run (k r) w'.
Proof.
  unfold run, call, mbind, M_MBind, M_bind. destruct (m w) as [[a|q|h] w1]; by intros [= <- <-].
Qed.

Lemma receive_completes ds w pre N k :
  downloading w pre N -> N = Z.of_nat (length pre + length (concat ds)) ->
  ds <> [] -> Forall (fun d => d <> []) ds ->
  0 <= k <= 20 -> GetPageSize (R := unit) w = (Go (2 ^ k), w) ->
  exists w', run (receive_all ds) w = (Go EFI_SUCCESS, w') /\
    mState (fb w') = ExpectCmdState /\ mUsbDataBuffer (fb w') = mUsbDataBuffer (fb w) /\
    mDataBuffer (fb w') = mDataBuffer (fb w) /\
    buf_read (DataMem (fb w')) (mUsbDataBuffer (fb w) - mDataBuffer (fb w)) N
      = Some (pre ++ concat ds) /\
    answered (fb w) (fb w').
Proof.
  intros Hd HN Hne Hall Hk. revert w pre Hd HN Hne.
  induction Hall as [|d ds Hdn Hall IH]; intros w pre Hd HN Hne Hp; [done|].
  simpl in HN. rewrite length_app in HN. cbn [receive_all concat].
  assert (Hpos : (0 < length d)%nat) by (destruct d; [done|simpl; lia]).
  destruct ds as [|d' ds].
  - destruct (packet_last w pre N d k) as (w' & Hr & H); [done|simpl in HN; lia..|done|done|].
    exists w'. rewrite (run_bind_call _ _ _ _ _ Hr). simpl concat. by rewrite app_nil_r.
  - destruct (packet_more w pre N d) as (w1 & Hr & Hd1 & Hf & Ht & HS & Hu & Hb); [done| |].
    { inversion Hall as [|? ? Hd' _]. subst. destruct d'; [done|]. simpl. lia. }
    destruct (IH w1 (pre ++ d)) as (w' & Hr' & H1 & H2 & H3 & H4 & H5); [done| |done| |].
    { rewrite length_app. lia. }
    { apply (GetPageSize_frame w); [apply Hd|done|by rewrite Hf|done]. }
    exists w'. rewrite (run_bind_call _ _ _ _ _ Hr). rewrite Hu, Hb in *.
    rewrite <- (app_assoc pre d) in H4. split_and!; try done.
    destruct H5 as [|[p Hp']]; [by left|right; exists p; by rewrite <- HS].
Qed.

(** ** The start of a download *)

Lemma CmdDownload_accepts arg w :
  let N := AsciiStrHexToUint64 58 arg in
  0 < N <= MaxDownLoadSize (fb w) ->
  exists p, run (CmdDownload arg) w =
    (Go tt, upd_fb (fun g => fb_Sent (Sent g ++ [p]) (fb_mBytesReceivedSoFar 0
       (fb_mState ExpectDataState (fb_mNumDataBytes N g)))) w).
Proof.
  intros N HN. assert (Hw : wp (CmdDownload arg)
    (fun _ _ => False) (fun _ w' => exists p, w' = upd_fb (fun g => fb_Sent (Sent g ++ [p])
      (fb_mBytesReceivedSoFar 0 (fb_mState ExpectDataState (fb_mNumDataBytes N g)))) w) w).
  { unfold CmdDownload. fold N. apply wp_bind, wp_modify. apply wp_bind.
    eapply wp_go; [reflexivity|]. cbn beta.
    cbn [fb upd_fb mNumDataBytes fb_mNumDataBytes MaxDownLoadSize].
    destruct (Z.eqb_spec N 0); [lia|]. destruct (Z.ltb_spec (MaxDownLoadSize (fb w)) N); [lia|].
    apply wp_bind. apply wp_StrnCpyS; [lia|unfold AsciiStrLen, StrLen; lia|left; simpl; lia|].
    intros r _. do 2 (apply wp_bind, wp_modify). apply wp_modify. by eexists. }
  unfold wp in Hw. unfold run, call. destruct (CmdDownload arg w) as [[[]|[]|h] w'];
    [|done..]. destruct Hw as [p ->]. by exists p.
Qed.

Lemma download_begins arg w :
  let N := AsciiStrHexToUint64 58 arg in
  settled w -> engine_ok (engine_of (fb w)) -> mState (fb w) = ExpectCmdState ->
  0 < N <= MaxDownLoadSize (fb w) ->
  exists w1 w2, run (CmdDownload arg) w = (Go tt, w1) /\
    run (HandleUsbEvents other (UsbSent UsbDeviceTransferStatusCompleteOK)) w1
      = (Go EFI_SUCCESS, w2) /\
    downloading w2 [] N /\ fw w2 = fw w /\ rt w2 = rt w /\
    mUsbDataBuffer (fb w2) = mUsbDataBuffer (fb w) /\ mDataBuffer (fb w2) = mDataBuffer (fb w).
Proof.
  intros N Hs Hok Hst HN. destruct (CmdDownload_accepts arg w HN) as [p Hr].
  pose proof (ok_max _ Hok) as Hmax. pose proof (ok_usb _ Hok) as [Hu1 Hu2]. simpl in Hmax, Hu1, Hu2.
  fold N in Hr. set (w1 := upd_fb _ w) in Hr. exists w1.
  assert (Hok1 : engine_ok (engine_of (fb w1))).
  { destruct Hok. constructor; try done. simpl. lia. }
  assert (Hx : GetXfrSize (R := EFI_STATUS) w1 = (Go (Z.min N (usb_size w1)), w1)).
  { rewrite GetXfrSize_settled by done. simpl mNumDataBytes. simpl mBytesReceivedSoFar.
    by rewrite Z.sub_0_r, u64_small by lia. }
  set (w2 := upd_fb (fb_RxQueue (Some (Z.min N (usb_size w1), Some (mUsbDataBuffer (fb w1))))) w1).
  exists w2. split; [done|].
  assert (Ht : run (HandleUsbEvents other (UsbSent UsbDeviceTransferStatusCompleteOK)) w1
    = (Go EFI_SUCCESS, w2)).
  { unfold run, call, HandleUsbEvents, ProcessBulkXfrCompleteTx.
    rewrite (bind_go _ _ w1 (fb w1) w1) by done. by rewrite (bind_go _ _ _ _ _ Hx). }
  pose proof (usb_size_pos w1) as Hp.
  split; [done|]. split; [|done]. constructor; try done; simpl.
  - apply ok_queue; [done|lia|]. unfold inside. simpl. lia.
  - by rewrite Z.sub_0_r, Z.add_0_r.
  - apply buf_read_Some. simpl. split_and!; [lia..|done].
Qed.
End Live.
