(* ===== verification/StorageClaims.v ===== *)
(** The theorems on the block I/O services, the partition table in memory and
    the GPT on the device, tried on small inputs. *)
From Stdlib Require Import ZArith Lia.
From stdpp Require Import base list numbers option.
From S2P Require Import Prelude EfiBase Firmware World LoaderLib Board Ptable DevInfo Gpt Slots Demo.

(** ** Block I/O *)

Section Blocks.
Context `{F : Firmware} `{!BlockIoLaws F} `{!PlatformLaws F}.

(** C33: writing [size] bytes of a buffer that holds them to a device always
    ends with a status and without a fault; with [EFI_SUCCESS] exactly these
    bytes are on the device from block [off] on and no other byte changed,
    whatever the write unit and the last partial block are. *)
Theorem write_to_partition_exact (w : World) (b : Z) (h : option Z) (off size : Z)
    (img : list Z) :
  granule_ok w b h -> 0 <= off -> 0 < size < 2 ^ 32 -> size <= Z.of_nat (length img) ->
  Z.of_nat (length (Contents (fw w) b)) < 2 ^ 64 ->
  exists st w', run (WriteBlockToPartition (Some b) h off size (Some img)) w = (Go st, w') /\
    same_globals w w' /\
    (st = EFI_SUCCESS ->
     buf_write (Contents (fw w) b) (off * BlockSize (Media (fw w) b))
       (take (Z.to_nat size) img) = Some (Contents (fw w') b)).
Proof.
  intros Hg Ho Hs Hl Hlen.
  pose proof (wp_write_partition w b h off size img Hg Ho Hs Hl Hlen) as H.
  apply wp_run in H as (st & w' & Hr & [[Hsg _] Hw]). by exists st, w'.
Qed.

(** [GetPartitionSize] is the number of blocks times the block size, and 0
    where that product does not fit 64 bits. *)
Theorem partition_size_exact (x : Fw) (b : Z) :
  0 <= LastBlock (Media x b) < 2 ^ 64 -> 0 <= BlockSize (Media x b) < 2 ^ 32 ->
  GetPartitionSize x (Some b) =
    let n := (LastBlock (Media x b) + 1) * BlockSize (Media x b) in
    if n <? 2 ^ 64 then n else 0.
Proof.
  intros Hl Hb. cbn zeta. unfold GetPartitionSize. cbn zeta.
  set (L := LastBlock (Media x b)) in *. set (S := BlockSize (Media x b)) in *.
  destruct (CHECK_ADD64 L 1) eqn:E1.
  { assert (L = 2 ^ 64 - 1) as ->.
    { destruct (decide (L + 1 <= MAX_UINT64)) as [H|H]; [|unfold MAX_UINT64 in H; lia].
      apply CHECK_ADD64_false in H. congruence. }
    destruct (Z.ltb_spec ((2 ^ 64 - 1 + 1) * S) (2 ^ 64)); lia. }
  apply CHECK_ADD64_false in E1. unfold MAX_UINT64 in *.
  assert (Hiff : (2 ^ 64 - 1) / (L + 1) < S <-> ~ (L + 1) * S < 2 ^ 64).
  { split.
    - intros H Hn. assert (S <= (2 ^ 64 - 1) / (L + 1)); [|lia].
      apply Z.div_le_lower_bound; lia.
    - intros Hn. apply Z.div_lt_upper_bound; lia. }
  destruct (Z.ltb_spec ((2 ^ 64 - 1) / (L + 1)) S) as [H|H];
    destruct (Z.ltb_spec ((L + 1) * S) (2 ^ 64)); try lia.
  rewrite u64_small by lia. lia.
Qed.

(** a query that no handle makes fail returns [EFI_SUCCESS] with the
    handles that meet the criteria, in the order of the handle buffer and cut
    at the capacity of the caller's list (one entry at least is stored), and
    the count of what it stored. *)
Theorem handles_selected {R : Type} (w : World) (Attrib : Z) (f : option PartiSelectFilter)
    (Max : Z) (hs : list Z) :
  let Sel := SelDefaults Attrib in
  any_bit Sel (Z.lor BLK_IO_SEL_SELECT_MOUNTED_FILESYSTEM BLK_IO_SEL_SELECT_BY_VOLUME_NAME)
    = false ->
  LocateBlkIo (fw w) = (EFI_SUCCESS, hs) -> Forall (orderly (fw w) Sel f) hs ->
  GetBlkIOHandles (R := R) Attrib f Max w =
    (let l := take (Z.to_nat (Z.max 1 Max)) (selected (fw w) Sel f hs) in
     Go (EFI_SUCCESS, l, Z.of_nat (length l)), w).
Proof.
  intros Sel Hfs Hloc Hall. unfold GetBlkIOHandles, ask, id. munfold. fold Sel.
  rewrite Hfs, Hloc. cbn [Z.eqb negb EFI_SUCCESS].
  rewrite BlkIO_loop_spec by (done || (simpl; lia)). by rewrite Nat.sub_0_r.
Qed.

(** once the root device type is known it is answered from memory: the
    firmware is not asked, nothing changes, and the answer stays the same as
    long as the two statics do. *)
Theorem root_type_cached {R : Type} (w w' : World) :
  settled w -> rt w' = rt w -> same_platform (fw w) (fw w') ->
  CheckRootDeviceType (R := R) w = (Go (card_of w), w) /\
  CheckRootDeviceType (R := R) w' = (Go (card_of w), w').
Proof.
  intros Hs Hr Hp. split; [by apply CheckRootDeviceType_settled|].
  rewrite <- (card_frame w w' Hr). by apply CheckRootDeviceType_settled, (settled_frame w w').
Qed.
End Blocks.

(** ** The table in memory *)

(** the index [GetPartitionIndex] returns is the first entry in use that
    carries the name; [INVALID_PTN] says that none does. *)
Theorem partition_index_first (p : PtGlobals) (Pname : list Z) :
  match list_find (fun e => names e Pname) (live p) with
  | Some (n, e) => GetPartitionIndex p Pname = Z.of_nat n /\ PtnEntries p !! n = Some e
  | None => GetPartitionIndex p Pname = INVALID_PTN
  end.
Proof.
  pose proof (find_name_spec 0 Pname (live p)) as Hs.
  destruct (list_find _ (live p)) as [[n e]|] eqn:E; [|done]. split; [by rewrite Z.add_0_l in Hs|].
  apply list_find_Some in E as (Hl & _ & _). unfold live in Hl.
  by apply lookup_take_Some in Hl as [? _].
Qed.

Section Entries.
Context `{F : Firmware} `{!BlockIoLaws F} `{!PlatformLaws F} `{!Crc32Laws F}.

(** after [UpdatePartitionEntries] the array has its 128 entries, the
    count is that of the records taken over and never more than 128, the
    entries in use are the partition records of the LUNs in order, and the
    copy the next synchronisation compares with is the same array. *)
Theorem entries_enumerated {R : Type} (w w' : World) :
  UpdatePartitionEntries (R := R) w = (Go tt, w') ->
  length (PtnEntries (pt w')) = 128%nat /\ 0 <= PartitionCount (pt w') <= 128 /\
  live (pt w') = take 128 (entries_of (fw w) 0
    (take (Z.to_nat (MaxLuns (pt w))) (Ptable (pt w)))) /\
  PtnEntriesBak (pt w') = PtnEntries (pt w') /\ fw w' = fw w.
Proof.
  unfold UpdatePartitionEntries. munfold. intros [= <-]. cbn.
  set (es := take _ _). assert (length es <= 128)%nat by (subst es; rewrite length_take; unfold MAX_NUM_PARTITIONS; lia).
  split_and!; try done; try lia.
  - rewrite length_app, length_replicate. unfold MAX_NUM_PARTITIONS. lia.
  - unfold live. cbn. rewrite Nat2Z.id. by rewrite take_app_length.
Qed.

(** ** The GPT of an image and of the device *)

(** a header that [ParseGptHeader] accepts has the checksum it claims over
    the length it claims, at least 92 and at most one block; entries of 128
    bytes, at most 128 of them; and its usable range is on the device.  The
    image and the state are left as they were. *)
Theorem parse_gpt_header_sound (Gpt : list Z) (p D BS : Z) (w w' : World) (Gpt' : list Z)
    (h : option GptHeaderData) :
  Forall is_u8 Gpt ->
  run (ParseGptHeader Gpt p D BS) w = (Go (SUCCESS, Gpt', h), w') ->
  w' = w /\ Gpt' = Gpt /\ exists hd, h = Some hd /\
    header_crc_ok Gpt p (HeaderSz hd) /\
    GPT_HEADER_SIZE <= HeaderSz hd <= BS /\ PartEntrySz hd = GPT_PART_ENTRY_SIZE /\
    0 <= MaxPtCnt hd <= 128 /\
    FirstUsableLba hd <= D / BS /\ LastUsableLba hd <= D / BS.
Proof. apply ParseGptHeader_sound. Qed.

(** C20: patching an image whose first entry is used and that is as large as
    its layout always succeeds: both copies of the header and of the entry
    array carry matching checksums, and the backup location and the last
    usable block are those of the device.  Both headers of the image announce 92
    bytes for themselves and the array of the parsed header, up to 128 entries
    of 128 bytes; they still do, so each checksum covers what its header names. *)
Theorem patch_gpt_valid (Gpt : list Z) (D BS : Z) (h : GptHeaderData) (w : World) :
  92 <= BS < 2 ^ 30 -> PartEntrySz h = GPT_PART_ENTRY_SIZE -> 1 <= MaxPtCnt h <= 128 ->
  u32 (2 * MIN_PARTITION_ARRAY_SIZE) + 3 * BS <= Z.of_nat (length Gpt) ->
  entry_used Gpt (BS + BS) 0 = true ->
  header_names Gpt (MaxPtCnt h * GPT_PART_ENTRY_SIZE) BS ->
  header_names Gpt (MaxPtCnt h * GPT_PART_ENTRY_SIZE) (backup_hdr BS) ->
  exists Gpt', run (PatchGpt Gpt D MIN_PARTITION_ARRAY_SIZE h BS) w = (Go (SUCCESS, Gpt'), w) /\
    length Gpt' = length Gpt /\
    patched Gpt' BS (D / BS)
      (u64 (D / BS - u32 (u32 (MAX_PARTITION_ENTRIES_SZ / BS + GPT_HDR_BLOCKS) + 1)))
      (MaxPtCnt h * GPT_PART_ENTRY_SIZE).
Proof. apply PatchGpt_total. Qed.

(** an image whose first entry is not used makes [PatchGpt] store outside
    of the image: the index of the last partition wraps around. *)
Theorem patch_gpt_empty_faults (Gpt : list Z) (D BS : Z) (h : GptHeaderData) (w : World) :
  92 <= BS < 2 ^ 30 -> 1 <= MaxPtCnt h <= 128 ->
  u32 (2 * MIN_PARTITION_ARRAY_SIZE) + 3 * BS <= Z.of_nat (length Gpt) < 2 ^ 31 ->
  entry_used Gpt (BS + BS) 0 = false ->
  run (PatchGpt Gpt D MIN_PARTITION_ARRAY_SIZE h BS) w = (Halt OutOfBounds, w).
Proof. apply PatchGpt_empty_halts. Qed.

(** C5: the table of a device or LUN (the primary one or the backup) that a full
    update ([PARTITION_ALL]) synchronised without an error holds, one after the
    other and in their order, the type GUID and the attributes of the entries it
    has to hold: those in use (with a non-zero first word of the type GUID), on
    UFS those of its LUN.  Only the blocks of that table changed, and when they
    did and the header announces the 92 bytes the code takes it to have, the
    checksums of the header and of the array it announces match.  Each of these entries has a type GUID of 16 bytes and 64-bit
    attributes; on UFS the entries in use are in the order of their LUNs; the
    block size divides the size of the array. *)
Theorem sync_table_holds (ufs : bool) (Lun b BS Iter Offset entries hdr : Z) (w w' : World) :
  BlockSize (Media (fw w) b) = BS -> GPT_HEADER_SIZE <= BS < 2 ^ 31 ->
  (BS | MAX_PARTITION_ENTRIES_SZ) -> table_layout BS Iter = (entries, hdr) ->
  0 <= PartitionCount (pt w) <= MAX_NUM_PARTITIONS ->
  length (PtnEntries (pt w)) = Z.to_nat MAX_NUM_PARTITIONS ->
  luns_ordered ufs (live (pt w)) -> Forall entry_ok (table_entries ufs Lun (live (pt w))) ->
  sync_table PARTITION_ALL ufs Lun b BS Iter Offset w = (Go tt, w') ->
  exists old new,
    buf_read (Contents (fw w) b) (Offset * BS) (MAX_PARTITION_ENTRIES_SZ + BS) = Some old /\
    buf_write (Contents (fw w) b) (Offset * BS) new = Some (Contents (fw w') b) /\
    (forall i e, table_entries ufs Lun (live (pt w)) !! i = Some e ->
      entry_synced new (entries + Z.of_nat i * PARTITION_ENTRY_SIZE) e) /\
    (header_size old hdr = Some GPT_HEADER_SIZE -> new = old \/ table_crcs_ok new entries hdr).
Proof. apply sync_table_synced. Qed.

(** [UpdatePartitionAttributes] returns from any table in order on any
    device with sensible blocks; it changes neither the table in memory nor
    any other state of the loader, and keeps the conditions it needs. *)
Theorem update_attributes_returns (t : Z) (w : World) :
  sync_ok w ->
  exists w', run (UpdatePartitionAttributes t) w = (Go tt, w') /\ same_slots w w' /\ sync_ok w'.
Proof.
  intros Hok. pose proof (wp_UpdatePartitionAttributes t w Hok) as H.
  apply wp_run in H as ([] & w' & Hr & Hp). exists w'. split_and!; [done|apply Hp|].
  by eapply sync_post_ok.
Qed.

(** flashing a GPT image onto a LUN for which the query finds no handle,
    or more than one, reports [EFI_SUCCESS] although nothing was written. *)
Theorem update_table_skips (GptImage : list Z) (Sz Lun n : Z) (l : list HandleInfo)
    (w : World) :
  PartitionGetType (R := EFI_STATUS) Sz GptImage w = (Go (SUCCESS, PARTITION_TYPE_GPT), w) ->
  (forall R w0, fw w0 = fw w ->
    GetStorageHandle (R := R) Lun MAX_HANDLEINF_LST_SIZE w0 = (Go (EFI_SUCCESS, l, n), w0)) ->
  n <> 1 ->
  run (UpdatePartitionTable GptImage Sz Lun) w
    = (Go EFI_SUCCESS, upd_pt (set_FlashingGpt true) w).
Proof.
  intros Ht Hh Hn. unfold run, call, UpdatePartitionTable.
  rewrite (bind_go _ _ _ _ _ Ht). cbn [fst snd]. munfold. unfold call, WriteGpt.
  change (negb (SUCCESS =? 0)) with false. rewrite Z.eqb_refl. cbn iota beta.
  rewrite (bind_go _ _ _ _ _ (Hh Z (upd_pt (set_FlashingGpt true) w) eq_refl)).
  change (u32 EFI_SUCCESS =? 0) with true. cbn [negb orb].
  by destruct (Z.eqb_spec n 1).
Qed.
End Entries.


(** ** The theorems tried *)

Lemma write_to_partition_exact_witness :
  exists w', run (WriteBlockToPartition (F := MemFirmware.fw) (Some 0) None 1 3 (Some [7; 8; 9])) demo
    = (Go EFI_SUCCESS, w') /\
    buf_write (zeros 65536) 512 [7; 8; 9] = Some (MemFirmware.contents (fw w') 0).
Proof.
  destruct (write_to_partition_exact (F := MemFirmware.fw) demo 0 None 1 3 [7; 8; 9])
    as (st & w' & Hr & _ & H); [|done..|].
  { intros wbs [= <-]. split_and!; [by exists 9|done..|]. by exists 1. }
  assert (E : (run (WriteBlockToPartition (F := MemFirmware.fw) (Some 0) None 1 3 (Some [7; 8; 9])) demo).1
    = Go EFI_SUCCESS) by (vm_compute; done).
  rewrite Hr in E. injection E as ->. exists w'. split; [exact Hr|]. exact (H eq_refl).
Defined.

Lemma partition_size_exact_witness :
  GetPartitionSize (F := MemFirmware.fw) demo_fw (Some 0) = 65536.
Proof. rewrite (partition_size_exact (F := MemFirmware.fw) demo_fw 0); done. Defined.

Lemma handles_selected_witness :
  GetBlkIOHandles (F := MemFirmware.fw) (R := unit) BLK_IO_SEL_SELECT_ROOT_DEVICE_ONLY
    (Some (mkFilter (Some gEfiEmmcUserPartitionGuid) None None None)) 4 demo =
  (Go (EFI_SUCCESS, [mkHandleInfo 0 None], 1), demo).
Proof.
  rewrite (handles_selected (F := MemFirmware.fw) demo BLK_IO_SEL_SELECT_ROOT_DEVICE_ONLY
    (Some (mkFilter (Some gEfiEmmcUserPartitionGuid) None None None)) 4 [0]); [done..|].
  by repeat constructor.
Defined.

Lemma root_type_cached_witness :
  CheckRootDeviceType (F := MemFirmware.fw) (R := unit) demo_misc = (Go EMMC, demo_misc).
Proof.
  apply (root_type_cached (F := MemFirmware.fw) demo_misc demo_misc); [|done..].
  split; [done|by left].
Defined.

Lemma entries_enumerated_witness :
  exists w', UpdatePartitionEntries (F := MemFirmware.fw) (R := unit) demo = (Go tt, w') /\
    live (pt w') = [].
Proof.
  destruct (UpdatePartitionEntries (F := MemFirmware.fw) (R := unit) demo) as [c w'] eqn:E.
  assert (Hc : c = Go tt) by (change c with (c, w').1; rewrite <- E; reflexivity).
  subst c. exists w'. split; [done|].
  destruct (entries_enumerated (F := MemFirmware.fw) (R := unit) demo w' E) as (_ & _ & -> & _).
  reflexivity.
Defined.

(** A header of 92 bytes for the device of 128 blocks. *)
Definition demo_header (crc : Z) : list Z :=
  PUT_LONG GPT_SIGNATURE_2 ++ PUT_LONG GPT_SIGNATURE_1 ++ zeros 4 ++ PUT_LONG 92 ++
  PUT_LONG crc ++ zeros 4 ++ PUT_LONG_LONG 1 ++ PUT_LONG_LONG 127 ++ PUT_LONG_LONG 34 ++
  PUT_LONG_LONG 94 ++ zeros 16 ++ PUT_LONG_LONG 2 ++ PUT_LONG 128 ++ PUT_LONG 128 ++ PUT_LONG 0.
Definition demo_crc : Z := Eval vm_compute in (MemFirmware.sum32 (demo_header 0)).2.

Lemma parse_gpt_header_sound_witness :
  exists Gpt' h w', run (ParseGptHeader (F := MemFirmware.fw) (demo_header demo_crc) 0 65536 512) demo
    = (Go (SUCCESS, Gpt', Some h), w') /\
    header_crc_ok (F := MemFirmware.fw) (demo_header demo_crc) 0 (HeaderSz h).
Proof.
  destruct (run (ParseGptHeader (F := MemFirmware.fw) (demo_header demo_crc) 0 65536 512) demo)
    as [c w'] eqn:E.
  assert (Hc : c = Go (SUCCESS, demo_header demo_crc, Some (mkGptHeader 34 128 92 128 94)))
    by (change c with (c, w').1; rewrite <- E; vm_compute; reflexivity).
  subst c. do 3 eexists. split; [done|].
  destruct (parse_gpt_header_sound (F := MemFirmware.fw) (demo_header demo_crc) 0 65536 512 demo w'
    (demo_header demo_crc) (Some (mkGptHeader 34 128 92 128 94)))
    as (_ & _ & hd & [= <-] & H & _); [|exact E|exact H].
  apply (bool_decide_unpack _). vm_compute. done.
Defined.

(** An image of both copies whose every byte is [v]. *)
Definition demo_image (v : Z) : list Z := replicate (Z.to_nat 34304) v.

(** An image whose headers announce 92 bytes and 128 entries of 128 bytes. *)
Definition demo_gpt_header : list Z :=
  replicate 12 1 ++ PUT_LONG 92 ++ replicate 64 1 ++ PUT_LONG 128 ++ PUT_LONG 128 ++ replicate 424 1.
Definition demo_gpt : list Z :=
  replicate 512 1 ++ demo_gpt_header ++ replicate (Z.to_nat 32768) 1 ++ demo_gpt_header.

Lemma patch_gpt_valid_witness :
  exists Gpt', run (PatchGpt (F := MemFirmware.fw) demo_gpt 65536 MIN_PARTITION_ARRAY_SIZE
    (mkGptHeader 34 128 92 128 94) 512) demo = (Go (SUCCESS, Gpt'), demo) /\
    length Gpt' = length demo_gpt /\ header_checked (F := MemFirmware.fw) Gpt' 512.
Proof.
  destruct (patch_gpt_valid (F := MemFirmware.fw) demo_gpt 65536 512
    (mkGptHeader 34 128 92 128 94) demo) as (Gpt' & H & Hl & Hp); [done..| | | | |].
  - vm_compute. done.
  - vm_compute. done.
  - split; vm_compute; reflexivity.
  - split; vm_compute; reflexivity.
  - exists Gpt'. do 2 (split; [done|]). apply Hp.
Defined.

Lemma patch_gpt_empty_faults_witness :
  run (PatchGpt (F := MemFirmware.fw) (demo_image 0) 65536 MIN_PARTITION_ARRAY_SIZE
    (mkGptHeader 34 128 92 128 94) 512) demo = (Halt OutOfBounds, demo).
Proof.
  apply (patch_gpt_empty_faults (F := MemFirmware.fw)); [done..| |].
  - unfold demo_image. rewrite length_replicate. done.
  - vm_compute. done.
Defined.

Lemma sync_table_holds_witness :
  exists w' old new,
    sync_table (F := MemFirmware.fw) PARTITION_ALL true 0 0 512 0 1 demo = (Go tt, w') /\
    buf_read (zeros 65536) 512 16896 = Some old /\
    buf_write (zeros 65536) 512 new = Some (MemFirmware.contents (fw w') 0) /\
    entry_synced new 512 (demo_entry (L "boot_a") 1 40 demo_attr_a).
Proof.
  destruct (sync_table (F := MemFirmware.fw) PARTITION_ALL true 0 0 512 0 1 demo) as [c w'] eqn:E.
  assert (Hc : c = Go tt) by (change c with (c, w').1; rewrite <- E; vm_compute; reflexivity).
  subst c. exists w'.
  destruct (sync_table_holds (F := MemFirmware.fw) true 0 0 512 0 1 512 0 demo w')
    as (old & new & Hr & Hw & He & _);
    [reflexivity|by split|by exists 32|reflexivity|by split|reflexivity| | |exact E|].
  - clear E. intros _. repeat (constructor; [|repeat (constructor; [done|]); constructor]). constructor.
  - clear E. repeat (constructor; [by split|]). constructor.
  - exists old, new. split; [reflexivity|]. split; [exact Hr|]. split; [exact Hw|].
    exact (He 0%nat _ eq_refl).
Defined.

Lemma update_attributes_returns_witness :
  exists w', run (UpdatePartitionAttributes (F := MemFirmware.fw) PARTITION_ALL) demo = (Go tt, w') /\
    same_slots demo w'.
Proof.
  destruct (update_attributes_returns (F := MemFirmware.fw) PARTITION_ALL demo) as (w' & Hr & Hs & _);
    [|by exists w'].
  split; [by apply demo_geometry|]. split; [split_and!; try done; repeat constructor|].
  split; [done|by left].
Defined.

(** The device seen by a query for a LUN that is not there. *)
Lemma update_table_skips_witness :
  run (UpdatePartitionTable (F := MemFirmware.fw)
    (zeros 450 ++ [0xEE] ++ zeros 59 ++ [0x55; 0xAA]) 512 3) demo
  = (Go EFI_SUCCESS, upd_pt (set_FlashingGpt true) demo).
Proof.
  apply (update_table_skips (F := MemFirmware.fw)
    (zeros 450 ++ [0xEE] ++ zeros 59 ++ [0x55; 0xAA]) 512 3 0 [] demo); [reflexivity| |done].
  intros R w0 Hw. unfold GetStorageHandle, GetBlkIOHandles, ask, id. munfold.
  cbn beta iota zeta delta [Z.eqb NO_LUN Z.ltb Z.compare LunGuids]. destruct w0. cbn in Hw |- *.
  subst. reflexivity.
Defined.
