(* ===== verification/SparseClaims.v ===== *)
(** The theorems on flashing a sparse image, tried on a small one. *)
From Stdlib Require Import ZArith Lia.
From stdpp Require Import base list numbers option.
From S2P Require Import Prelude EfiBase Firmware World LoaderLib Board Ptable DevInfo Gpt Slots Demo Sparse SparseSpec.

Section Claims.
Context `{F : Firmware} `{!BlockIoLaws F} `{!PlatformLaws F}.

(** C12: flashing any bytes whatsoever as a sparse image ends with a status:
    no header or chunk, however malformed, makes the parser read outside of
    the image or divide by zero, and only the device can have changed. *)
Theorem sparse_flash_safe (w : World) (name : list Z) (base : Z) (img : list Z) (sz : Z) :
  img_ok base img sz -> ptable_ok w -> disk_ok w ->
  exists st w', run (HandleSparseImgFlash name base img sz) w = (Go st, w') /\
    same_globals w w' /\ same_platform (fw w) (fw w').
Proof.
  intros Hi Hp Hd.
  destruct (proj1 (wp_run _ _ _) (wp_HandleSparseImgFlash name base img sz w Hi Hp Hd))
    as (st & w' & Hr & [[Hg Hpl] _]). by exists st, w'.
Qed.

(** C2: when a flash of an image without CRC chunks reports success, a partition
    of that name holds exactly what the image stands for: the raw chunks, the
    fill pattern repeated, and its former bytes where a chunk says they do not
    matter, block after block and as many blocks in all as the header announces,
    every chunk being as long as its own header says.  The device is not NAND,
    shows as many bytes as its size says and has fewer than 2^32 blocks, and a
    chunk of the third kind carries no data. *)
Theorem sparse_flash_meaning (w w' : World) (name : list Z) (base : Z) (img : list Z) (sz : Z) :
  img_ok base img sz -> ptable_ok w -> disk_ok w -> (forall h, is_partition w name h -> plain w h) ->
  let sh := sparse_header_of (take 28 img) in
  let chunks := drop 28 (take (Z.to_nat sz) img) in
  no_crc (Z.to_nat (total_chunks sh)) chunks = true ->
  run (HandleSparseImgFlash name base img sz) w = (Go EFI_SUCCESS, w') ->
  exists h, is_partition w name h /\
    stands_for (blk_sz sh) (Z.to_nat (total_chunks sh)) chunks 0 (Contents (fw w) h) (total_blks sh) (Contents (fw w') h).
Proof.
  intros Hi Hp Hd Hpl sh chunks Hno Hrun.
  destruct (proj1 (wp_run _ _ _) (wp_HandleSparseImgFlash name base img sz w Hi Hp Hd))
    as (st & w1 & Hr & [_ H]). rewrite Hrun in Hr. injection Hr as <- <-.
  destruct (H eq_refl) as (h & Hn & He). exists h. split; [done|]. apply expands_stands; [by apply He, Hpl|done].
Qed.
End Claims.

(** A partition of four blocks. *)
Definition demo_flash : World (H := MemFirmware.fw) :=
  set_fw (F := MemFirmware.fw) (MemFirmware.set_devs [MemFirmware.mkDev (mkMedia 512 3 false) []
    (Some (PartEntry (demo_entry (L "misc") 9 0 0))) None (replicate 2048 7)] demo_fw)
    (upd_pt (set_Ptable [mkStorage [mkHandleInfo 0 None] 1]) demo).

Definition u32_bytes (x : Z) : list Z := PUT_LONG x.
Definition u16_bytes (x : Z) : list Z := take 2 (PUT_LONG x).
Definition demo_chunk (ty n : Z) (d : list Z) : list Z :=
  u16_bytes ty ++ u16_bytes 0 ++ u32_bytes n ++ u32_bytes (12 + Z.of_nat (length d)) ++ d.

(** One raw block, one block left as it is, two blocks of a pattern. *)
Definition demo_sparse : list Z :=
  u32_bytes SPARSE_HEADER_MAGIC ++ u16_bytes 1 ++ u16_bytes 0 ++ u16_bytes 28 ++ u16_bytes 12 ++
  u32_bytes 512 ++ u32_bytes 4 ++ u32_bytes 3 ++ u32_bytes 0 ++
  demo_chunk CHUNK_TYPE_RAW 1 (replicate 512 5) ++ demo_chunk CHUNK_TYPE_DONT_CARE 1 [] ++
  demo_chunk CHUNK_TYPE_FILL 2 [1; 2; 3; 4].

Lemma demo_sparse_ok : img_ok 1000 demo_sparse 580.
Proof.
  split; [lia|lia|lia|by vm_compute|]. apply (bool_decide_unpack _). vm_compute. done.
Qed.
Lemma demo_flash_ptable : ptable_ok demo_flash.
Proof. split_and!; try done. by repeat constructor. Qed.
Lemma demo_flash_disk : disk_ok (F := MemFirmware.fw) demo_flash.
Proof.
  intros h. unfold GetPartitionSize, granule_ok, granule. simpl.
  unfold MemFirmware.media, MemFirmware.dev_at. simpl.
  destruct (Z.to_nat h) as [|n]; simpl; [|done]. intros _. split; [done|].
  intros wbs [= <-]. split_and!; [by exists 9|done..|by exists 1].
Qed.
Lemma demo_flash_plain name h :
  is_partition (F := MemFirmware.fw) demo_flash name h -> plain (F := MemFirmware.fw) demo_flash h.
Proof.
  intros (e & He & _). destruct (Z.to_nat h) as [|n] eqn:Eh.
  2: { cbn in He. unfold MemFirmware.dev_at in He. rewrite Eh in He. discriminate He. }
  split; [done| |]; unfold GetPartitionSize.
  all: change (Media (fw demo_flash) h) with (MemFirmware.media (fw demo_flash) h).
  all: try change (Contents (fw demo_flash) h) with (MemFirmware.contents (fw demo_flash) h).
  all: unfold MemFirmware.contents, MemFirmware.media, MemFirmware.dev_at; rewrite Eh.
  all: vm_compute; reflexivity.
Qed.

Lemma sparse_flash_safe_witness :
  exists st w', run (HandleSparseImgFlash (F := MemFirmware.fw) (L "misc") 1000 demo_sparse 580) demo_flash
    = (Go st, w').
Proof.
  destruct (sparse_flash_safe (F := MemFirmware.fw) demo_flash (L "misc") 1000 demo_sparse 580
    demo_sparse_ok demo_flash_ptable demo_flash_disk) as (st & w' & H & _). by exists st, w'.
Defined.

Lemma sparse_flash_meaning_witness :
  exists w' h, run (HandleSparseImgFlash (F := MemFirmware.fw) (L "misc") 1000 demo_sparse 580) demo_flash
    = (Go EFI_SUCCESS, w') /\
    stands_for 512 3 (drop 28 (take 580 demo_sparse)) 0 (MemFirmware.contents (fw demo_flash) h) 4
      (MemFirmware.contents (fw w') h).
Proof.
  destruct (run (HandleSparseImgFlash (F := MemFirmware.fw) (L "misc") 1000 demo_sparse 580) demo_flash)
    as [c w'] eqn:E.
  assert (Hc : c = Go EFI_SUCCESS) by (change c with (c, w').1; rewrite <- E; vm_compute; reflexivity).
  subst c. exists w'.
  destruct (sparse_flash_meaning (F := MemFirmware.fw) demo_flash w' (L "misc") 1000 demo_sparse 580
    demo_sparse_ok demo_flash_ptable demo_flash_disk (demo_flash_plain (L "misc")) eq_refl E) as (h & _ & H).
  exists h. split; [reflexivity|]. exact H.
Defined.
