(* ===== verification/RecoveryClaims.v ===== *)
(** The theorems on the messages of the misc partition: what was written there
    is what the next boot reads, tried on a device with 4 KiB blocks. *)
From Stdlib Require Import ZArith Lia.
From stdpp Require Import base list numbers option.
From S2P Require Import Prelude EfiBase Firmware World LoaderLib Board Ptable DevInfo Gpt Slots Recovery Demo.

Section Misc.
Context `{F : Firmware} `{B : BuildConfig} `{!BlockIoLaws F} `{!PlatformLaws F}.

(** The device has one misc partition [b], it is not on NAND, and its blocks
    divide the place of the virtual A/B message. *)
Record misc_at (w : World) (b PS : Z) : Prop := {
  misc_settled : settled w;
  misc_card : card_of w <> NAND;
  misc_stored : StoredRootDevice (lb w) <> NAND;
  misc_page R : GetPageSize (R := R) w = (Go PS, w);
  misc_pages : 0 < PS < 2 ^ 30;
  misc_found R : exists p,
    type_query (R := R) gEfiMiscPartitionGuid w = (Go (EFI_SUCCESS, [mkHandleInfo b p], 1), w);
  misc_block : exists k, 0 <= k <= 15 /\ BlockSize (Media (fw w) b) = 2 ^ k;
  misc_len : Z.of_nat (length (Contents (fw w) b)) < 2 ^ 64;
}.

(** It stays where it is while only data moves. *)
Lemma misc_at_frame w w' b PS :
  rt w' = rt w -> same_platform (fw w) (fw w') ->
  StoredRootDevice (lb w') = StoredRootDevice (lb w) ->
  length (Contents (fw w') b) = length (Contents (fw w) b) ->
  misc_at w b PS -> misc_at w' b PS.
Proof.
  intros Hr HP Hst Hlen [H1 H2 H3 H4 H5 H6 H7 H8]. constructor; try congruence.
  - by apply (settled_frame w w').
  - by rewrite (card_frame w w').
  - intros R. by apply (GetPageSize_frame w w').
  - intros R. destruct (H6 R) as [p E]. exists p. unfold type_query in *.
    pose proof (query_platform (R := R) by_type
      (Some (mkFilter None (Some gEfiMiscPartitionGuid) None None)) 1 w w' eq_refl HP) as Q.
    pose proof (keeps_GetBlkIOHandles (R := R) eq by_type
      (Some (mkFilter None (Some gEfiMiscPartitionGuid) None None)) 1 w') as K.
    rewrite E in Q. destruct (GetBlkIOHandles _ _ _ w') as [c u]. simpl in Q, K. by subst.
  - destruct HP as (_ & _ & HM & _). by rewrite HM.
Qed.

Lemma misc_granule w b PS : misc_at w b PS -> granule_ok w b (Some b).
Proof.
  intros [_ _ Hst _ _ _ (k & Hk & Ek) _] wbs. unfold granule.
  rewrite bool_decide_eq_false_2 by done. intros [= <-]. rewrite Ek.
  assert (0 < 2 ^ k) by (apply Z.pow_pos_nonneg; lia).
  assert (2 ^ k < 2 ^ 32) by (apply Z.pow_lt_mono_r; lia).
  split_and!; [exists k; by split; [lia|]|done|done|done].
Qed.

(** The bytes a message of [Size] bytes is read with. *)
Definition read_size (w : World) (b Size : Z) : Z :=
  ROUND_TO_PAGE Size (u32 (BlockSize (Media (fw w) b) - 1)).

Lemma read_size_le w b PS Size :
  misc_at w b PS -> 0 < Size < 2 ^ 31 -> Size <= read_size w b Size.
Proof.
  intros [_ _ _ _ _ _ (k & Hk & Ek) _] HS. unfold read_size. rewrite Ek.
  assert (0 < 2 ^ k) by (apply Z.pow_pos_nonneg; lia).
  assert (2 ^ k <= 2 ^ 15) by (apply Z.pow_le_mono_r; lia).
  rewrite u32_small, ROUND_TO_PAGE_pow2 by (unfold MAX_UINT32; lia).
  pose proof (Z.mod_pos_bound (Size + (2 ^ k - 1)) (2 ^ k)).
  pose proof (Z.div_mod (Size + (2 ^ k - 1)) (2 ^ k)). lia.
Qed.

Lemma misc_offset w b PS :
  misc_at w b PS -> 0 < BlockSize (Media (fw w) b) /\
  MISC_VIRTUALAB_OFFSET mod BlockSize (Media (fw w) b) = 0 /\
  u32 (MISC_VIRTUALAB_OFFSET / BlockSize (Media (fw w) b)) * BlockSize (Media (fw w) b)
    = MISC_VIRTUALAB_OFFSET /\
  MISC_VIRTUALAB_OFFSET / BlockSize (Media (fw w) b) * BlockSize (Media (fw w) b)
    = MISC_VIRTUALAB_OFFSET /\
  0 <= u32 (MISC_VIRTUALAB_OFFSET / BlockSize (Media (fw w) b)).
Proof.
  intros [_ _ _ _ _ _ (k & Hk & ->) _].
  assert (H0 : 0 < 2 ^ k) by (apply Z.pow_pos_nonneg; lia).
  assert (E : MISC_VIRTUALAB_OFFSET = 2 ^ (15 - k) * 2 ^ k).
  { rewrite <- Z.pow_add_r by lia. by replace (15 - k + k) with 15 by lia. }
  assert (0 < 2 ^ (15 - k) <= 2 ^ 15).
  { split; [apply Z.pow_pos_nonneg; lia|apply Z.pow_le_mono_r; lia]. }
  rewrite E, Z.div_mul, Z.mod_mul, u32_small by lia. lia.
Qed.

(** ** Reading *)

(** The partition can deliver what a message of [Size] bytes at [Offset] is
    read with. *)
Definition readable (w : World) (b Size Offset : Z) : Prop :=
  read_size w b Size <= GetPartitionSize (fw w) (Some b) /\
  GetPartitionSize (fw w) (Some b) <> 0 /\
  AllocateZeroPool (fw w) (read_size w b Size) = true /\
  (ReadBlocks (fw w) b (Offset / BlockSize (Media (fw w) b)) (read_size w b Size)).1
    = EFI_SUCCESS.

Lemma read_misc w b PS Size Offset :
  misc_at w b PS -> readable w b Size Offset ->
  Offset / BlockSize (Media (fw w) b) * BlockSize (Media (fw w) b) = Offset ->
  exists d, ReadFromPartitionOffset gEfiMiscPartitionGuid Size Offset w
      = (Go (EFI_SUCCESS, Some d), w) /\
    buf_read (Contents (fw w) b) Offset (read_size w b Size) = Some d.
Proof.
  intros Hm (Hs & Hz & Ha & Hr) HO.
  destruct (misc_offset _ _ _ Hm) as (HB & _). destruct (misc_found _ _ _ Hm (EFI_STATUS * option (list Z))) as [p Hq].
  destruct (ReadBlocks _ _ _ _) as [st d] eqn:ER. simpl in Hr. subst st.
  exists d. split; [|rewrite <- HO; by apply ReadBlocks_ok].
  unfold ReadFromPartitionOffset. rewrite (bind_go _ _ _ _ _ Hq). unfold ask. munfold.
  cbn [head Handle Z.eqb EFI_SUCCESS negb Pos.eqb]. unfold mret, M_MRet, M_ret.
  fold (read_size w b Size).
  destruct (Z.ltb_spec (GetPartitionSize (fw w) (Some b)) (read_size w b Size)); [lia|].
  destruct (Z.eqb_spec (GetPartitionSize (fw w) (Some b)) 0); [lia|]. cbn [orb].
  rewrite Ha. cbn [negb].
  destruct (Z.eqb_spec (BlockSize (Media (fw w) b)) 0); [lia|].
  rewrite (Z.mod_eq Offset) by lia. rewrite (Z.mul_comm (BlockSize _)), HO, Z.sub_diag.
  cbn [Z.eqb negb]. rewrite ER. done.
Qed.

(** ** The virtual A/B message *)

Lemma put_back m m' l :
  VirtualAbMsg l = m -> set_VirtualAbMsg m (set_VirtualAbMsg m' l) = l.
Proof. destruct l. cbn. by intros <-. Qed.

(** The message in memory is a whole page with a valid header. *)
Definition ab_valid (msg : list Z) : Prop :=
  exists v m, buf_read msg AB_Version 1 = Some v /\ buf_read msg AB_Magic 4 = Some m /\
    byte_of v 0 = MISC_VIRTUAL_AB_MESSAGE_VERSION /\
    u32 (GET_LWORD_FROM_BYTE m) = MISC_VIRTUAL_AB_MAGIC_HEADER.

(** Where the outcome of [SetSnapshotMergeStatus] is. *)
Definition merge_saved (s : Z) (msg : list Z) (w : World) (b PS : Z) (st : EFI_STATUS)
    (w' : World) : Prop :=
  rt w' = rt w /\ same_platform (fw w) (fw w') /\
  StoredRootDevice (lb w') = StoredRootDevice (lb w) /\
  (st <> EFI_SUCCESS -> lb w' = lb w) /\
  (st = EFI_SUCCESS -> exists msg', buf_write msg AB_MergeStatus [u8 s] = Some msg' /\
     VirtualAbMsg (lb w') = Some msg' /\
     buf_write (Contents (fw w) b) MISC_VIRTUALAB_OFFSET (take (Z.to_nat PS) msg')
       = Some (Contents (fw w') b)).

Lemma wp_WriteVirtualABMessage w b PS msg :
  misc_at w b PS -> VirtualAbMsg (lb w) = Some msg -> PS <= Z.of_nat (length msg) ->
  wp WriteVirtualABMessage
    (written w b (u32 (MISC_VIRTUALAB_OFFSET / BlockSize (Media (fw w) b))) PS msg)
    (written w b (u32 (MISC_VIRTUALAB_OFFSET / BlockSize (Media (fw w) b))) PS msg) w.
Proof.
  intros Hm Hv Hl. destruct (misc_offset _ _ _ Hm) as (HB & _ & _ & _ & Ho).
  destruct (misc_found _ _ _ Hm EFI_STATUS) as [p Hq]. pose proof (misc_pages _ _ _ Hm).
  unfold WriteVirtualABMessage.
  wp_step. wp_exec (@CheckRootDeviceType_settled F EFI_STATUS w (misc_settled _ _ _ Hm)).
  rewrite bool_decide_eq_false_2 by apply (misc_card _ _ _ Hm).
  wp_step. wp_exec (misc_page _ _ _ Hm). wp_step. wp_exec Hq. cbn [Z.eqb EFI_SUCCESS negb Pos.eqb].
  wp_step. eapply wp_need; [done|]. cbn [Handle]. wp_step. unfold wp at 1, ask.
  wp_step; [bools; lia|]. cbn zeta. do 2 wp_step. rewrite Hv. wp_step.
  apply wp_write_partition; [by eapply misc_granule|lia..|apply (misc_len _ _ _ Hm)].
Qed.

Lemma wp_SetSnapshotMergeStatus s w b PS msg :
  misc_at w b PS -> VirtualAbMsg (lb w) = Some msg -> Forall is_u8 msg ->
  6 <= PS <= Z.of_nat (length msg) ->
  wp (SetSnapshotMergeStatus s) (merge_saved s msg w b PS) (merge_saved s msg w b PS) w.
Proof.
  intros Hm Hv H8 Hl. unfold SetSnapshotMergeStatus. do 2 wp_step. rewrite Hv.
  unfold AB_MergeStatus. wp_step. apply wp_load; [lia..|]. intros old Hold.
  wp_step. apply wp_store; [simpl; lia..|]. intros msg' Hw Hl'. do 2 wp_step.
  set (w1 := put_VirtualAbMsg (Some msg') w).
  assert (Hm1 : misc_at w1 b PS) by (by apply (misc_at_frame w w1)).
  destruct (misc_offset _ _ _ Hm1) as (_ & _ & Ho & _).
  wp_step. eapply wp_call_mono; [apply (wp_WriteVirtualABMessage w1 b PS msg'); [done|done|lia]|].
  intros st w2 [[Hsg HP] Hst]. rewrite Ho in Hst.
  pose proof Hsg as (_ & _ & _ & Hlb & _ & _ & Hrt).
  destruct (Z.eqb_spec st EFI_SUCCESS) as [->|Hne]; cbn [negb].
  - do 2 wp_step. apply wp_ret. unfold merge_saved. rewrite Hlb. split_and!; try done.
    intros _. exists msg'. split_and!; [done|done|by apply Hst].
  - do 3 wp_step. wp_step. rewrite Hlb. eapply wp_need; [done|]. wp_step.
    apply wp_store; [simpl; lia..|]. intros m' Hw' _. wp_step. apply wp_ret.
    assert (m' = msg) as ->.
    { pose proof (length_buf_read _ _ _ _ Hold) as Hlo.
      pose proof (buf_read_u8 _ _ _ _ H8 Hold) as Ho8.
      destruct old as [|o [|]]; [simpl in Hlo; lia| |simpl in Hlo; lia].
      assert (is_u8 o) as Ho1 by (by inversion Ho8). unfold byte_of in Hw'. simpl in Hw'.
      assert (u8 o = o) as Hu by (unfold u8; apply Z.mod_small, Ho1). rewrite Hu in Hw'.
      apply (buf_write_write msg 5 [u8 s] [o] msg' m') in Hw; [|done|done].
      apply buf_write_read_same in Hold. congruence. }
    unfold merge_saved. split_and!; try done.
    + cbn. by rewrite Hlb.
    + intros _. cbn. rewrite Hlb. by apply put_back.
Qed.

(** The fields of a message, read back from a page that starts with it. *)
Lemma page_field msg PS page n d o k :
  buf_write page MISC_VIRTUALAB_OFFSET (take (Z.to_nat PS) msg) = Some d ->
  0 <= PS <= n -> PS <= Z.of_nat (length msg) -> 0 <= o -> 0 <= k -> o + k <= PS ->
  forall d', buf_read d MISC_VIRTUALAB_OFFSET n = Some d' -> buf_read d' o k = buf_read msg o k.
Proof.
  intros Hw HP Hl Ho Hk Hok d' Hd'.
  rewrite (buf_read_read _ _ _ _ _ _ Hd') by lia.
  pose proof (buf_read_write_same _ _ _ _ Hw) as Hs.
  assert (Hp : buf_read msg 0 PS = Some (take (Z.to_nat PS) msg)).
  { apply buf_read_Some. by split_and!; [lia..|]. }
  rewrite (length_buf_read _ _ _ _ Hp) in Hs.
  rewrite <- (buf_read_read _ _ _ _ o k Hs) by lia.
  by rewrite (buf_read_read _ _ _ _ o k Hp) by lia.
Qed.

(** What a restart finds on a partition with the message [msg]. *)
Lemma GetSnapshotMergeStatus_reads w b PS msg page x :
  misc_at w b PS -> VirtualAbMsg (lb w) = None -> readable w b PS MISC_VIRTUALAB_OFFSET ->
  6 <= PS <= Z.of_nat (length msg) -> ab_valid msg -> buf_read msg AB_MergeStatus 1 = Some [x] ->
  buf_write page MISC_VIRTUALAB_OFFSET (take (Z.to_nat PS) msg) = Some (Contents (fw w) b) ->
  exists w', run GetSnapshotMergeStatus w = (Go x, w') /\ fw w' = fw w.
Proof.
  intros Hm Hv Hr Hl (v & m & Ev & Em & Hver & Hmag) Ex Hpage.
  destruct (misc_offset _ _ _ Hm) as (_ & _ & _ & Ho & _). pose proof (misc_pages _ _ _ Hm) as HP.
  destruct (read_misc _ _ _ _ _ Hm Hr Ho) as (d & Hd & Hdc).
  pose proof (read_size_le _ _ _ PS Hm ltac:(lia)) as Hrs.
  assert (Hf : forall o k, 0 <= o -> 0 <= k -> o + k <= 6 -> buf_read d o k = buf_read msg o k).
  { intros o k ? ? ?. eapply (page_field msg PS _ (read_size w b PS)); [exact Hpage|lia..|exact Hdc]. }
  set (Q := fun (r : Z) (w' : World) => r = x /\ fw w' = fw w).
  enough (H : wp GetSnapshotMergeStatus Q Q w).
  { apply wp_run in H as (r & w' & Hrun & -> & E). by exists w'. }
  unfold GetSnapshotMergeStatus. do 2 wp_step. rewrite Hv. wp_step. wp_step.
  wp_exec (@CheckRootDeviceType_settled F Z w (misc_settled _ _ _ Hm)).
  rewrite bool_decide_eq_false_2 by apply (misc_card _ _ _ Hm).
  wp_step. wp_exec (misc_page _ _ _ Hm). wp_step. wp_step. eapply wp_go; [exact Hd|].
  do 2 wp_step. cbn [fst snd negb Z.eqb EFI_SUCCESS]. wp_step. eapply wp_need; [done|].
  unfold load32, load. rewrite !Hf, Em, Ev by (unfold AB_Version, AB_Magic; lia).
  wp_step. wp_step. eapply wp_need; [done|]. wp_step. wp_step. eapply wp_need; [done|].
  rewrite Hver, Hmag. rewrite !Z.eqb_refl. cbn [negb orb]. do 3 wp_step.
  cbn [put_VirtualAbMsg upd_lb lb set_VirtualAbMsg VirtualAbMsg].
  wp_step. rewrite Hf, Ex by (unfold AB_MergeStatus; lia). eapply wp_need; [done|].
  by apply wp_ret.
Qed.

(** ** The recovery message *)

Lemma wp_write_misc w b PS msg n :
  misc_at w b PS -> 0 < n < 2 ^ 32 -> n <= Z.of_nat (length msg) ->
  wp (WriteToPartition gEfiMiscPartitionGuid (Some msg) n) (written w b 0 n msg)
    (written w b 0 n msg) w.
Proof.
  intros Hm Hn Hl. destruct (misc_found _ _ _ Hm EFI_STATUS) as [p Hq].
  unfold WriteToPartition. wp_step. wp_exec Hq. cbn [Z.eqb EFI_SUCCESS negb Pos.eqb].
  wp_step. eapply wp_need; [done|]. cbn [Handle]. wp_step.
  apply wp_write_partition; [by eapply misc_granule|lia..|apply (misc_len _ _ _ Hm)].
Qed.

(** A write that succeeds had the bytes to write. *)
Lemma write_misc_fits w b PS msg n w' :
  misc_at w b PS -> 0 < n < 2 ^ 32 -> Z.of_nat (length msg) < n ->
  ~ run (WriteToPartition gEfiMiscPartitionGuid (Some msg) n) w = (Go EFI_SUCCESS, w').
Proof.
  intros Hm Hn Hlt. destruct (misc_found _ _ _ Hm EFI_STATUS) as [p Hq].
  pose proof (misc_granule _ _ _ Hm) as Hg.
  destruct (granule w b (Some b)) as [wbs|] eqn:Eg.
  2: { unfold granule in Eg. by rewrite bool_decide_eq_false_2 in Eg by apply (misc_stored _ _ _ Hm). }
  destruct (Hg _ Eg) as ((k & Hk & Ek) & Hw & HB & Hdv).
  unfold run, call, WriteToPartition. rewrite (bind_go _ _ _ _ _ Hq).
  cbn [Z.eqb EFI_SUCCESS negb Pos.eqb]. rewrite (bind_go _ _ _ (mkHandleInfo b p) w) by done.
  cbn [Handle]. unfold call, WriteBlockToPartition.
  destruct (call (R' := EFI_STATUS) (WriteBlockToPartitionNoFlush (Some b) (Some b) 0 n (Some msg)) w)
    as [[st|st|h] w1] eqn:E; unfold call in E.
  2: by destruct (WriteBlockToPartitionNoFlush _ _ _ _ _ w) as [[]].
  2: by rewrite (bind_halt _ _ _ _ _ E).
  rewrite (bind_go _ _ _ _ _ E). destruct (Z.eqb_spec st EFI_SUCCESS) as [->|]; cbn [negb].
  2: by intros [= ?].
  edestruct (write_no_flush_ok w b (Some b) 0 n msg w1 wbs k Eg) as (d & Hd & _); try done.
  { apply (misc_len _ _ _ Hm). }
  { unfold run, call. by destruct (WriteBlockToPartitionNoFlush _ _ _ _ _ w) as [[]]; simplify_eq. }
  apply buf_read_Some in Hd as (_ & _ & ? & _). lia.
Qed.

(** A string at the start of a block of which a longer start is written back. *)
Lemma prefix_written C n PD d PD' k C' :
  buf_read C 0 n = Some PD -> buf_write PD 0 d = Some PD' ->
  Z.of_nat (length d) <= k <= n ->
  buf_write C 0 (take (Z.to_nat k) PD') = Some C' -> buf_write C 0 d = Some C'.
Proof.
  intros Hr Hw Hk HC. pose proof (length_buf_read _ _ _ _ Hr) as Hl.
  pose proof Hr as (_ & Hn & Hb & _)%buf_read_Some.
  assert (Hk' : buf_read C 0 k = Some (take (Z.to_nat k) PD)).
  { change 0 with (0 + 0) at 1. rewrite <- (buf_read_read C 0 n PD 0 k) by (done || lia).
    apply buf_read_Some. split_and!; [done|lia|lia|by rewrite drop_0]. }
  eapply (buf_write_sub C 0 k _ d (take (Z.to_nat k) PD')); [exact Hk'| |exact HC].
  apply buf_write_Some in Hw as (_ & Hd & ->). apply buf_write_Some. split; [done|].
  rewrite length_take. split; [lia|]. change (Z.to_nat 0) with 0%nat. rewrite !take_0, !app_nil_l, !Nat.add_0_l.
  rewrite take_app_ge by lia. by rewrite skipn_firstn_comm.
Qed.

(** What [WriteRecoveryMessage] leaves. *)
Definition command_saved (cmd : list Z) (w : World) (b : Z) (st : EFI_STATUS) (w' : World) : Prop :=
  io_post w w' /\
  (st = EFI_SUCCESS ->
   buf_write (Contents (fw w) b) 0 (cstr cmd ++ [0]) = Some (Contents (fw w') b)).

Lemma wp_WriteRecoveryMessage cmd w b PS :
  misc_at w b PS -> RECOVERY_MESSAGE_SIZE <= 2 * PS -> StrLen cmd < RECOVERY_COMMAND_SIZE ->
  readable w b (2 * PS) 0 ->
  wp (WriteRecoveryMessage cmd) (command_saved cmd w b) (command_saved cmd w b) w.
Proof.
  intros Hm HP Hc Hr. destruct (misc_offset _ _ _ Hm) as (HB & _).
  pose proof (misc_pages _ _ _ Hm) as HPS. pose proof (read_size_le _ _ _ (2 * PS) Hm ltac:(lia)) as Hn.
  destruct (read_misc _ _ _ _ _ Hm Hr) as (d & Hd & Hdc); [by rewrite Z.div_0_l by lia|].
  pose proof (length_buf_read _ _ _ _ Hdc) as Hld.
  unfold WriteRecoveryMessage, misc_type.
  unfold RECOVERY_MESSAGE_SIZE, RECOVERY_COMMAND_SIZE, RECOVERY_STATUS_SIZE, RECOVERY_RECOVERY_SIZE in *.
  wp_step. wp_exec (@CheckRootDeviceType_settled F EFI_STATUS w (misc_settled _ _ _ Hm)).
  rewrite !bool_decide_eq_false_2 by apply (misc_card _ _ _ Hm).
  do 2 wp_step. cbn [fst snd Z.eqb EFI_SUCCESS negb].
  wp_step. wp_exec (misc_page _ _ _ Hm). rewrite u32_small, Z.mul_comm by lia.
  wp_step. wp_step. eapply wp_go; [exact Hd|]. cbn [fst snd Z.eqb EFI_SUCCESS negb].
  wp_step. apply wp_load; [lia..|]. intros c Hcr. pose proof (length_buf_read _ _ _ _ Hcr) as Hlc.
  destruct (@StrnCpyS_exact World EFI_STATUS c 32 cmd (AsciiStrLen cmd) w) as (c' & Ec & Hc');
    [unfold RSIZE_MAX; lia|lia|done|unfold RSIZE_MAX, AsciiStrLen; lia|done|].
  wp_step. wp_exec Ec. cbn [fst snd]. pose proof (length_buf_write _ _ _ _ Hc') as Hlc'.
  wp_step. apply wp_store; [lia..|]. intros d' Hd' Hl'. cbn [Z.eqb EFI_SUCCESS]. wp_step.
  assert (Hdd : buf_write d 0 (cstr cmd ++ [0]) = Some d') by (by eapply buf_write_sub).
  eapply wp_mono; [apply (wp_write_misc w b PS); [done|lia|rewrite length_drop; lia]| |];
    intros st w' [Hp Hw]; (split; [done|]; intros Hst); specialize (Hw Hst).
  all: eapply prefix_written; [exact Hdc|exact Hdd| |exact Hw].
  all: rewrite length_app; unfold StrLen in *; simpl; lia.
Qed.

(** The command field as a restart sees it. *)
Lemma command_field C cmd C' n d d' c :
  StrLen cmd < 32 -> buf_write C 0 (cstr cmd ++ [0]) = Some C' ->
  32 <= n -> buf_read C' 0 n = Some d -> buf_write d 31 [0] = Some d' ->
  buf_read d' 0 32 = Some c -> cstr c = cstr cmd.
Proof.
  intros Hs Hw Hn Hr Hd Hc. unfold StrLen in Hs. set (l := length (cstr cmd)) in *.
  pose proof (buf_read_write_same _ _ _ _ Hw) as H1.
  assert (El : Z.of_nat (length (cstr cmd ++ [0])) = Z.of_nat l + 1)
    by (rewrite length_app; simpl; lia). rewrite El in H1.
  assert (H2 : buf_read d 0 (Z.of_nat l + 1) = Some (cstr cmd ++ [0])).
  { by rewrite (buf_read_read _ _ _ _ _ _ Hr) by lia. }
  assert (H3 : buf_read d' 0 (Z.of_nat l + 1) = Some (cstr cmd ++ [0])).
  { destruct (decide (l = 31%nat)) as [E|].
    - apply (buf_read_app d' 0 (Z.of_nat l) 1); [|rewrite E; by apply buf_read_write_same in Hd].
      rewrite (buf_read_write_other d 31 [0] d') by (done || lia).
      rewrite <- (Z.add_0_l 0), <- (buf_read_read d 0 (Z.of_nat l + 1) _ 0 (Z.of_nat l) H2) by lia.
      apply buf_read_Some. split_and!; [lia..|]. rewrite drop_0, Nat2Z.id. subst l.
      by rewrite take_app_length.
    - by rewrite (buf_read_write_other d 31 [0] d') by (done || lia). }
  rewrite <- (Z.add_0_l 0), <- (buf_read_read d' 0 32 c 0 (Z.of_nat l + 1) Hc) in H3 by lia.
  apply buf_read_Some in H3 as (_ & _ & _ & H3). rewrite drop_0 in H3.
  rewrite <- (take_drop (Z.to_nat (Z.of_nat l + 1)) c), <- H3, <- app_assoc.
  apply cstr_app_0, cstr_nonzero.
Qed.

Lemma is_command_cstr c c' s : cstr c = cstr c' -> is_command c s = is_command c' s.
Proof.
  intros E. unfold is_command, AsciiStrnCmp, AsciiStrLen.
  pose proof (StrnCmp_prefix c s) as H1. pose proof (StrnCmp_prefix c' s) as H2.
  rewrite E in H1. apply eq_true_iff_eq. rewrite !Z.eqb_eq. tauto.
Qed.

(** What [RecoveryInit] decides from a command. *)
Definition wants_recovery (w : World) (cmd : list Z) : bool :=
  is_command cmd RECOVERY_BOOT_RECOVERY ||
  (IsDynamicPartitionSupport (pt w) && is_command cmd RECOVERY_BOOT_FASTBOOT).

Lemma RecoveryInit_reads r C cmd w b PS :
  misc_at w b PS -> RECOVERY_COMMAND_SIZE <= 2 * PS -> StrLen cmd < RECOVERY_COMMAND_SIZE ->
  readable w b (2 * PS) 0 -> buf_write C 0 (cstr cmd ++ [0]) = Some (Contents (fw w) b) ->
  run (RecoveryInit r) w = (Go (EFI_SUCCESS, r || wants_recovery w cmd), w).
Proof.
  intros Hm HP Hc Hr HC. destruct (misc_offset _ _ _ Hm) as (HB & _).
  pose proof (misc_pages _ _ _ Hm) as HPS. pose proof (read_size_le _ _ _ (2 * PS) Hm ltac:(lia)) as Hn.
  destruct (read_misc _ _ _ _ _ Hm Hr) as (d & Hd & Hdc); [by rewrite Z.div_0_l by lia|].
  pose proof (length_buf_read _ _ _ _ Hdc) as Hld.
  set (Q := fun x (w' : World) => x = (EFI_SUCCESS, r || wants_recovery w cmd) /\ w' = w).
  enough (H : wp (RecoveryInit r) Q Q w) by (by apply wp_run in H as (? & ? & ? & -> & ->)).
  unfold RecoveryInit, misc_type. unfold RECOVERY_COMMAND_SIZE in *.
  wp_step. wp_exec (@CheckRootDeviceType_settled F (EFI_STATUS * bool) w (misc_settled _ _ _ Hm)).
  rewrite !bool_decide_eq_false_2 by apply (misc_card _ _ _ Hm).
  do 2 wp_step. cbn [fst snd Z.eqb EFI_SUCCESS negb].
  wp_step. wp_exec (misc_page _ _ _ Hm). rewrite u32_small, Z.mul_comm by lia.
  wp_step. wp_step. eapply wp_go; [exact Hd|]. cbn [fst snd Z.eqb EFI_SUCCESS negb].
  wp_step. apply wp_store; [simpl; lia..|]. intros d' Hd' Hl'.
  wp_step. apply wp_load; [lia..|]. intros c Hcr. do 2 wp_step. apply wp_ret.
  assert (E : cstr c = cstr cmd) by (eapply command_field; [done|exact HC| |exact Hdc|exact Hd'|exact Hcr]; lia).
  unfold Q, wants_recovery. by rewrite !(is_command_cstr c cmd _ E), orb_assoc.
Qed.

(** C32: On a device that is not NAND and whose two pages hold the recovery
    message (1088 bytes), writing a recovery command of less than 32 characters
    returns a status without a fault; with [EFI_SUCCESS] only the command and
    its terminator changed on the misc partition, and every later start on
    unchanged storage that can read the two pages decides by that command:
    recovery for [boot-recovery], and for [boot-fastboot] where there are
    dynamic partitions.  The other conditions ([misc_at], [readable]): the kind
    of device is already known, the page size is the same at every query and
    below 2^30, there is a partition of the misc type, its block size is a power
    of two of at most 32 KB, it has at least the two pages rounded up to blocks,
    their buffer can be allocated and read, and it holds less than 2^64 bytes. *)
Theorem recovery_command_roundtrip (cmd : list Z) (w : World) (b PS : Z) :
  misc_at w b PS -> RECOVERY_MESSAGE_SIZE <= 2 * PS -> StrLen cmd < RECOVERY_COMMAND_SIZE ->
  readable w b (2 * PS) 0 ->
  exists st w1, run (WriteRecoveryMessage cmd) w = (Go st, w1) /\
    (st = EFI_SUCCESS ->
     buf_write (Contents (fw w) b) 0 (cstr cmd ++ [0]) = Some (Contents (fw w1) b) /\
     forall w2 r, fw w2 = fw w1 -> rt w2 = rt w1 -> lb w2 = lb w1 ->
       readable w2 b (2 * PS) 0 ->
       run (RecoveryInit r) w2 = (Go (EFI_SUCCESS, r || wants_recovery w2 cmd), w2)).
Proof.
  intros Hm HP Hc Hr. pose proof (wp_WriteRecoveryMessage cmd w b PS Hm HP Hc Hr) as H.
  apply wp_run in H as (st & w1 & Hrun & [[Hsg Hpl] Hw]). exists st, w1. split; [done|].
  intros Hst. specialize (Hw Hst). split; [done|]. intros w2 r Ef Ert Elb Hr2.
  destruct Hsg as (_ & _ & _ & Hlb & _ & _ & Hrt).
  apply (RecoveryInit_reads r (Contents (fw w) b) cmd w2 b PS);
    [|unfold RECOVERY_MESSAGE_SIZE, RECOVERY_STATUS_SIZE, RECOVERY_RECOVERY_SIZE in HP; lia|done|done|by rewrite Ef].
  apply (misc_at_frame w w2); [congruence|by rewrite Ef|congruence| |done].
  rewrite Ef. by eapply length_buf_write.
Qed.

(** with pages of which two are shorter than the recovery message (two of
    512 bytes, as on an eMMC) the write of a command cannot succeed inside of the
    buffer it was read into: the message that is written ends beyond it. *)
Theorem recovery_message_overruns (cmd : list Z) (w : World) (b PS : Z) :
  misc_at w b PS -> RECOVERY_COMMAND_SIZE <= 2 * PS -> StrLen cmd < RECOVERY_COMMAND_SIZE ->
  readable w b (2 * PS) 0 -> read_size w b (2 * PS) < RECOVERY_MESSAGE_SIZE ->
  (run (WriteRecoveryMessage cmd) w).1 <> Go EFI_SUCCESS.
Proof.
  intros Hm HP Hc Hr Hlt Hrun. destruct (misc_offset _ _ _ Hm) as (HB & _).
  destruct (run (WriteRecoveryMessage cmd) w) as [o w'] eqn:Ho. simpl in Hrun. subst o.
  rename Ho into Hrun.
  pose proof (misc_pages _ _ _ Hm) as HPS. pose proof (read_size_le _ _ _ (2 * PS) Hm ltac:(lia)) as Hn.
  destruct (read_misc _ _ _ _ _ Hm Hr) as (d & Hd & Hdc); [by rewrite Z.div_0_l by lia|].
  pose proof (length_buf_read _ _ _ _ Hdc) as Hld. revert Hrun.
  unfold run, call, WriteRecoveryMessage, misc_type. unfold RECOVERY_COMMAND_SIZE in *.
  rewrite (bind_go _ _ _ _ _ (@CheckRootDeviceType_settled F EFI_STATUS w (misc_settled _ _ _ Hm))).
  rewrite !bool_decide_eq_false_2 by apply (misc_card _ _ _ Hm).
  rewrite (bind_go _ _ _ (EFI_SUCCESS, gEfiMiscPartitionGuid) w) by done.
  cbn [fst snd Z.eqb EFI_SUCCESS negb].
  rewrite (bind_go _ _ _ _ _ (misc_page _ _ _ Hm EFI_STATUS)).
  rewrite u32_small, (Z.mul_comm PS) by lia.
  rewrite (bind_go _ _ _ (EFI_SUCCESS, Some d) w) by (unfold call, ReadFromPartition; by rewrite Hd).
  cbn [fst snd Z.eqb EFI_SUCCESS negb].
  destruct (load_ok (R := EFI_STATUS) d 0 32 w) as (c & Ec & Hcr & Hlc); [lia..|].
  rewrite (bind_go _ _ _ _ _ Ec).
  destruct (@StrnCpyS_exact World EFI_STATUS c 32 cmd (AsciiStrLen cmd) w) as (c' & Ec' & Hc');
    [unfold RSIZE_MAX; lia|lia|done|unfold RSIZE_MAX, AsciiStrLen; lia|done|].
  unfold AsciiStrnCpyS. rewrite (bind_go _ _ _ _ _ Ec'). cbn [fst snd Z.eqb EFI_SUCCESS].
  pose proof (length_buf_write _ _ _ _ Hc') as Hl'.
  destruct (store_ok (R := EFI_STATUS) d 0 c' w) as (d' & Ed & _ & Hld'); [lia..|].
  rewrite (bind_go _ _ _ _ _ Ed). intros Hrun.
  apply (write_misc_fits w b PS (drop (Z.to_nat 0) d') RECOVERY_MESSAGE_SIZE w' Hm); [done| |].
  - rewrite length_drop. lia.
  - unfold run, call in *. by destruct (WriteToPartition _ _ _ w) as [[]].
Qed.

(** setting the merge status always ends with a status.  With
    [EFI_SUCCESS] the message in memory has the new status and its first page
    is on the misc partition at 32 KiB, no other byte of which changed; with any other
    status the message in memory is as it was. *)
Theorem set_merge_status_exact (s : Z) (w : World) (b PS : Z) (msg : list Z) :
  misc_at w b PS -> VirtualAbMsg (lb w) = Some msg -> Forall is_u8 msg ->
  6 <= PS <= Z.of_nat (length msg) ->
  exists st w', run (SetSnapshotMergeStatus s) w = (Go st, w') /\
    (st <> EFI_SUCCESS -> lb w' = lb w) /\
    (st = EFI_SUCCESS -> exists msg', buf_write msg AB_MergeStatus [u8 s] = Some msg' /\
       VirtualAbMsg (lb w') = Some msg' /\
       buf_write (Contents (fw w) b) MISC_VIRTUALAB_OFFSET (take (Z.to_nat PS) msg')
         = Some (Contents (fw w') b)).
Proof.
  intros Hm Hv H8 Hl. pose proof (wp_SetSnapshotMergeStatus s w b PS msg Hm Hv H8 Hl) as H.
  apply wp_run in H as (st & w' & Hr & (_ & _ & _ & H1 & H2)). by exists st, w'.
Qed.

(** C31: a merge status that was saved with [EFI_SUCCESS] is the status that
    [GetSnapshotMergeStatus] finds after a restart: in a loader that has not
    read the message yet and sees the same storage. *)
Theorem merge_status_roundtrip (s : Z) (w w1 w2 : World) (b PS : Z) (msg : list Z) :
  misc_at w b PS -> VirtualAbMsg (lb w) = Some msg -> Forall is_u8 msg ->
  6 <= PS <= Z.of_nat (length msg) -> ab_valid msg ->
  run (SetSnapshotMergeStatus s) w = (Go EFI_SUCCESS, w1) ->
  fw w2 = fw w1 -> rt w2 = rt w1 -> StoredRootDevice (lb w2) = StoredRootDevice (lb w1) ->
  VirtualAbMsg (lb w2) = None -> readable w2 b PS MISC_VIRTUALAB_OFFSET ->
  exists w3, run GetSnapshotMergeStatus w2 = (Go (u8 s), w3) /\ fw w3 = fw w2.
Proof.
  intros Hm Hv H8 Hl (v & m & Ev & Em & Hver & Hmag) Hrun Hf Hrt Hst Hn Hrd.
  pose proof (wp_SetSnapshotMergeStatus s w b PS msg Hm Hv H8 Hl) as H.
  apply wp_run in H as (st & w' & Hr & (Ert & EP & Est & _ & H2)).
  rewrite Hrun in Hr. injection Hr as <- <-.
  destruct (H2 eq_refl) as (msg' & Hw & _ & Hc).
  assert (Hl' : length msg' = length msg) by (by eapply length_buf_write).
  apply (GetSnapshotMergeStatus_reads w2 b PS msg' (Contents (fw w) b) (u8 s)); try done.
  - apply (misc_at_frame w w2); [congruence|by rewrite Hf|congruence| |done].
    rewrite Hf. by eapply length_buf_write.
  - by rewrite Hl'.
  - exists v, m. unfold AB_Version, AB_Magic, AB_MergeStatus in *.
    by rewrite !(buf_read_write_other msg _ _ msg' _ _ Hw) by lia.
  - by apply buf_read_write_same in Hw.
  - by rewrite Hf.
Qed.
End Misc.

(** ** The theorems tried *)

(** A misc partition of [n] blocks of [bs] bytes, and a valid message. *)
Definition demo_misc_of (bs n : Z) : World (H := MemFirmware.fw) :=
  set_fw (F := MemFirmware.fw) (MemFirmware.set_devs [MemFirmware.mkDev (mkMedia bs (n - 1) false)
    [mkNode 1 4 20 gEfiEmmcUserPartitionGuid 0; mkNode 4 1 42 (zeros 16) 2] None
    (Some gEfiMiscPartitionGuid) (zeros (bs * n))] demo_fw) demo.
Definition demo_msg : list Z := [2; 0xB0; 0x0A; 0x74; 0x56; 2] ++ zeros 4090.
Definition demo_merging : World (H := MemFirmware.fw) :=
  put_VirtualAbMsg (F := MemFirmware.fw) (Some demo_msg) (demo_misc_of 4096 16).

Lemma demo_misc_at bs k n w :
  bs = 2 ^ k -> 0 <= k <= 15 -> 0 < bs < 2 ^ 30 -> Z.of_nat (length (zeros (bs * n))) < 2 ^ 64 ->
  fw w = fw (demo_misc_of bs n) -> rt w = rt demo -> StoredRootDevice (lb w) = EMMC ->
  misc_at (F := MemFirmware.fw) w 0 bs.
Proof.
  intros Hk Hk1 Hk2 Hl Hf Hr Hs. destruct w as [f ? ? ? l ? ? r]. cbn in Hf, Hr, Hs. subst f r.
  constructor; try done; cbn.
  - split; [done|]. by left.
  - by rewrite Hs.
  - by eexists.
  - by exists k.
Qed.

Lemma set_merge_status_exact_witness :
  exists st w', run (SetSnapshotMergeStatus (F := MemFirmware.fw) MERGING) demo_merging = (Go st, w') /\
    (st <> EFI_SUCCESS -> VirtualAbMsg (lb w') = Some demo_msg).
Proof.
  destruct (set_merge_status_exact (F := MemFirmware.fw) MERGING demo_merging 0 4096 demo_msg)
    as (st & w' & Hr & He & _).
  - by apply (demo_misc_at 4096 12 16).
  - reflexivity.
  - apply (bool_decide_unpack _). vm_compute. reflexivity.
  - vm_compute. by split.
  - exists st, w'. split; [exact Hr|]. intros Hne. by rewrite (He Hne).
Defined.

Lemma merge_status_roundtrip_witness :
  exists w1 w3, run (SetSnapshotMergeStatus (F := MemFirmware.fw) MERGING) demo_merging
      = (Go EFI_SUCCESS, w1) /\
    run (GetSnapshotMergeStatus (F := MemFirmware.fw))
      (put_VirtualAbMsg (F := MemFirmware.fw) None w1) = (Go MERGING, w3).
Proof.
  destruct (run (SetSnapshotMergeStatus (F := MemFirmware.fw) MERGING) demo_merging) as [c w1] eqn:E.
  assert (Hc : c = Go EFI_SUCCESS) by (change c with (c, w1).1; rewrite <- E; vm_compute; reflexivity).
  assert (Hd : bool_decide (readable (F := MemFirmware.fw) (put_VirtualAbMsg (F := MemFirmware.fw) None w1)
    0 4096 MISC_VIRTUALAB_OFFSET) = true).
  { change w1 with (c, w1).2. rewrite <- E. vm_compute. reflexivity. }
  apply bool_decide_eq_true_1 in Hd. subst c.
  destruct (merge_status_roundtrip (F := MemFirmware.fw) MERGING demo_merging w1
    (put_VirtualAbMsg (F := MemFirmware.fw) None w1) 0 4096 demo_msg) as (w3 & Hr & _).
  - clear E Hd. by apply (demo_misc_at 4096 12 16).
  - reflexivity.
  - clear E Hd. apply (bool_decide_unpack _). vm_compute. reflexivity.
  - clear E Hd. vm_compute. by split.
  - clear E Hd. by do 2 eexists.
  - exact E.
  - reflexivity.
  - reflexivity.
  - reflexivity.
  - reflexivity.
  - exact Hd.
  - exists w1, w3. split; [reflexivity|exact Hr].
Defined.

Lemma recovery_command_roundtrip_witness :
  exists w1 w2, run (WriteRecoveryMessage (F := MemFirmware.fw) RECOVERY_BOOT_RECOVERY)
      (demo_misc_of 4096 16) = (Go EFI_SUCCESS, w1) /\
    run (RecoveryInit (F := MemFirmware.fw) false) w1 = (Go (EFI_SUCCESS, true), w2).
Proof.
  destruct (recovery_command_roundtrip (F := MemFirmware.fw) RECOVERY_BOOT_RECOVERY
    (demo_misc_of 4096 16) 0 4096) as (st & w1 & Hr & H).
  - by apply (demo_misc_at 4096 12 16).
  - done.
  - done.
  - apply (bool_decide_unpack _). vm_compute. reflexivity.
  - assert (E : (run (WriteRecoveryMessage (F := MemFirmware.fw) RECOVERY_BOOT_RECOVERY)
      (demo_misc_of 4096 16)).1 = Go EFI_SUCCESS) by (vm_compute; reflexivity).
    assert (Hd : bool_decide (readable (F := MemFirmware.fw)
      (run (WriteRecoveryMessage (F := MemFirmware.fw) RECOVERY_BOOT_RECOVERY) (demo_misc_of 4096 16)).2
      0 (2 * 4096) 0) = true) by (vm_compute; reflexivity).
    rewrite Hr in E, Hd. injection E as ->. apply bool_decide_eq_true_1 in Hd.
    exists w1, w1. split; [exact Hr|].
    destruct (H eq_refl) as [_ Hi]. apply (Hi w1 false); [reflexivity..|exact Hd].
Defined.

Lemma recovery_message_overruns_witness :
  (run (WriteRecoveryMessage (F := MemFirmware.fw) RECOVERY_BOOT_RECOVERY) (demo_misc_of 512 8)).1
    <> Go EFI_SUCCESS.
Proof.
  apply (recovery_message_overruns (F := MemFirmware.fw) RECOVERY_BOOT_RECOVERY
    (demo_misc_of 512 8) 0 512).
  - by apply (demo_misc_at 512 9 8).
  - done.
  - done.
  - apply (bool_decide_unpack _). vm_compute. reflexivity.
  - done.
Defined.
