(* ===== verification/FastbootClaims.v ===== *)
(** The properties of the fastboot protocol: numbers and commands mean what
    their reference definitions say, a locked device refuses, the data phase
    stays in its buffer and ends, and a raw image arrives unchanged. *)
From Stdlib Require Import ZArith Lia.
From stdpp Require Import base list numbers option relations sorting.
From S2P Require Import Prelude EfiBase Convert Firmware World LoaderLib Board Ptable DevInfo Gpt Slots Demo Sparse SparseSpec Recovery Fastboot FastbootCmds FastbootOem Dispatch Setup FastbootSpec EngineSpec EngineStart EngineLive.

(** ** Numbers *)

(** the number of a [download] command is the value of its digits in
    positional notation to the base 16, cut at the largest 64-bit number,
    whatever leading blanks and zeros it has and whatever follows it. *)
Theorem hex_number_value (prev : Z) (pad ds rest : list Z) :
  Forall (fun c => is_pad c = true) pad -> Forall hex_digit ds -> ds <> [] ->
  InternalAsciiIsHexaDecimalDigitCharacter (hd0 rest) = false ->
  AsciiCharToUpper (hd0 rest) <> 88 ->
  AsciiStrHexToUint64 prev (pad ++ ds ++ rest) =
  Z.min MAX_UINT64 (positional 16 (map InternalAsciiHexCharToUintn ds)).
Proof. apply AsciiStrHexToUint64_value. Qed.

(** ** A locked device *)

Section Lock.
Context `{F : Firmware} `{B : BuildConfig}.

(** A command that was refused: the device, the table and the device state
    are as they were, and the answer is a failure. *)
Definition refused (w w' : World) : Prop :=
  fw w' = fw w /\ pt w' = pt w /\ dv w' = dv w /\ lb w' = lb w /\
  exists reason, Sent (fb w') = Sent (fb w) ++ [take 63 (L "FAIL" ++ reason)].

Lemma refused_Fail {R} w w1 reason (E : R -> World -> Prop) (Q : unit -> World -> Prop) :
  fw w1 = fw w -> pt w1 = pt w -> dv w1 = dv w -> lb w1 = lb w ->
  Sent (fb w1) = Sent (fb w) ->
  (forall w', refused w w' -> Q tt w') -> wp (FastbootFail (R := R) reason) E Q w1.
Proof.
  intros H1 H2 H3 H4 H5 HQ. apply wp_modify, HQ. split_and!; try done.
  exists (cstr reason). simpl. by rewrite H5.
Qed.

(** The partition an argument names. *)
Lemma arg_name {S R} arg (E : R -> S -> Prop) (Q : list Z -> S -> Prop) s :
  Forall is_u8 arg -> AsciiStrLen arg < MAX_GPT_NAME_SIZE ->
  (forall n, cstr n = cstr arg -> Q n s) ->
  wp (AsciiStrToUnicodeStr arg (zeros MAX_GPT_NAME_SIZE)) E Q s.
Proof.
  intros Hu Hl HQ. unfold AsciiStrToUnicodeStr. unfold AsciiStrLen, StrLen, MAX_GPT_NAME_SIZE in Hl.
  assert (Hm : map u8 (cstr arg) = cstr arg).
  { clear -Hu. induction Hu as [|c arg Hc _ IH]; [done|]. simpl. destruct (c =? 0); [done|].
    simpl. rewrite IH. f_equal. by apply Z.mod_small. }
  rewrite Hm. destruct (buf_write_in_range (zeros MAX_GPT_NAME_SIZE) 0 (cstr arg ++ [0]))
    as [n Hn]; [done|rewrite length_app; simpl; lia|].
  eapply wp_need; [exact Hn|]. apply HQ. apply buf_write_Some in Hn as (_ & _ & ->).
  simpl take. rewrite app_nil_l, <- app_assoc. apply cstr_app_0, cstr_nonzero.
Qed.

Lemma starts_cstr a b p : cstr a = cstr b -> starts a p = starts b p.
Proof.
  intros H. unfold starts. apply Bool.eq_iff_eq_true. rewrite !Z.eqb_eq, !StrnCmp_prefix.
  by rewrite H.
Qed.
Lemma critical_cstr a b : cstr a = cstr b -> IsCriticalPartition a = IsCriticalPartition b.
Proof.
  intros H. unfold IsCriticalPartition. induction CriticalPartitions as [|p l IH]; [done|].
  simpl. by rewrite IH, (starts_cstr a b).
Qed.

(** The lock, or the lock of the critical partitions, forbids writing to the
    partition an argument names. *)
Definition locked_for (w : World) (arg : list Z) : Prop :=
  lock_checked w = true /\
  (IsUnlocked w = false \/ IsUnlockCritical w = false /\ IsCriticalPartition arg = true).

Lemma wp_check_lock {R} op n arg w w1 (E : R -> World -> Prop) (Q : bool -> World -> Prop) :
  locked_for w arg -> cstr n = cstr arg ->
  fw w1 = fw w -> pt w1 = pt w -> dv w1 = dv w -> lb w1 = lb w -> Sent (fb w1) = Sent (fb w) ->
  (forall w', refused w w' -> Q false w') -> wp (check_lock (R := R) op n) E Q w1.
Proof.
  intros [Hl Hu] Hn H1 H2 H3 H4 H5 HQ. unfold check_lock. apply wp_bind, wp_get.
  unfold lock_checked in *. rewrite H2. unfold lock_checked in Hl. rewrite Hl.
  unfold IsUnlocked, IsUnlockCritical in *. rewrite H3, (critical_cstr _ _ Hn).
  destruct Hu as [-> | [-> ->]]; cbn [negb andb].
  - apply wp_bind. eapply refused_Fail; [done..|]. intros w' Hw. by apply wp_ret, HQ.
  - destruct (is_unlocked _); cbn [negb]; apply wp_bind; (eapply refused_Fail; [done..|]);
      intros w' Hw; by apply wp_ret, HQ.
Qed.

Lemma flash_refused arg data sz w :
  Forall is_u8 arg -> locked_for w arg ->
  wp (CmdFlash arg data sz) (fun _ => refused w) (fun _ => refused w) w.
Proof.
  intros Hu Hl. unfold CmdFlash. apply wp_bind, wp_modify. apply wp_bind, wp_call.
  apply (wp_mono _ (fun o w' => o = false /\ refused w w') _ (fun o w' => o = false /\ refused w w')).
  2,3: intros o w' [-> Hr]; by apply wp_early.
  unfold flash_body. apply wp_bind, wp_modify. apply wp_bind. eapply wp_go; [reflexivity|].
  cbn beta. destruct (mFlashDataBuffer _ =? 0).
  { apply wp_bind. eapply refused_Fail; [done..|]. intros w' Hr. by apply wp_early. }
  destruct (Z.leb_spec MAX_GPT_NAME_SIZE (AsciiStrLen arg)).
  { apply wp_bind. eapply refused_Fail; [done..|]. intros w' Hr. by apply wp_early. }
  apply wp_bind, arg_name; [done..|]. intros n Hn.
  apply wp_bind. eapply wp_check_lock; [exact Hl|exact Hn|done..|]. intros w' Hr. by apply wp_early.
Qed.

Lemma erase_refused arg w :
  Forall is_u8 arg -> locked_for w arg ->
  wp (CmdErase arg) (fun _ => refused w) (fun _ => refused w) w.
Proof.
  intros Hu Hl. unfold CmdErase. apply wp_bind. unfold PartitionHasMultiSlot.
  apply wp_bind, wp_get. eapply wp_mono; [apply wp_multi_slot_scan|intros r w' H; exact H|].
  intros ms w1 H1. assert (Hw1 : fw w1 = fw w /\ pt w1 = pt w /\ dv w1 = dv w /\ lb w1 = lb w /\
    Sent (fb w1) = Sent (fb w)) by (by destruct H1 as [-> | [x ->]]).
  destruct Hw1 as (? & ? & ? & ? & ?).
  destruct (Z.leb_spec MAX_GPT_NAME_SIZE (AsciiStrLen arg)).
  { apply wp_bind. eapply refused_Fail; [done..|]. intros w' Hr. by apply wp_early. }
  apply wp_bind, arg_name; [done..|]. intros n Hn.
  apply wp_bind. eapply wp_check_lock; [exact Hl|exact Hn|done..|]. intros w' Hr. by apply wp_early.
Qed.

Lemma set_active_refused arg w :
  TargetBuildVariantUser = true -> IsUnlocked w = false ->
  wp (CmdSetActive arg) (fun _ => refused w) (fun _ => refused w) w.
Proof.
  intros Hv Hl. unfold CmdSetActive. apply wp_bind. unfold PartitionHasMultiSlot.
  apply wp_bind, wp_get. eapply wp_mono; [apply wp_multi_slot_scan|intros r w' H; exact H|].
  intros ms w1 H1. assert (Hw1 : fw w1 = fw w /\ pt w1 = pt w /\ dv w1 = dv w /\ lb w1 = lb w /\
    Sent (fb w1) = Sent (fb w)) by (by destruct H1 as [-> | [x ->]]).
  destruct Hw1 as (? & ? & Hd & ? & ?). apply wp_bind, wp_get.
  unfold IsUnlocked in *. rewrite Hv, Hd, Hl. cbn [negb andb].
  apply wp_bind. eapply refused_Fail; [done..|]. intros w' Hr. by apply wp_early.
Qed.

(** C14: while the lock, or the lock of the critical partitions, covers a
    partition, [flash] and [erase] of it end with a failure that is sent to the
    host and leave the storage, the partition table and the device state as
    they were; on a locked user build so does every [set_active]. *)
Theorem locked_device_refuses (w : World) (arg : list Z) (data sz : Z) :
  Forall is_u8 arg -> locked_for w arg ->
  (exists w', run (CmdFlash arg data sz) w = (Go tt, w') /\ refused w w') /\
  (exists w', run (CmdErase arg) w = (Go tt, w') /\ refused w w') /\
  (TargetBuildVariantUser = true -> IsUnlocked w = false ->
   exists w', run (CmdSetActive arg) w = (Go tt, w') /\ refused w w').
Proof.
  intros Hu Hl. split_and!.
  - destruct (proj1 (wp_run _ _ _) (flash_refused arg data sz w Hu Hl)) as ([] & w' & H). by exists w'.
  - destruct (proj1 (wp_run _ _ _) (erase_refused arg w Hu Hl)) as ([] & w' & H). by exists w'.
  - intros Hv Hk. destruct (proj1 (wp_run _ _ _) (set_active_refused arg w Hv Hk)) as ([] & w' & H).
    by exists w'.
Qed.
End Lock.

(** ** The data phase *)

Section DataPhase.
Context `{F : Firmware} `{B : BuildConfig}.
Context (other : fastboot_cmd_fn -> list Z -> Z -> Z -> MW unit unit).
Context (AllocateTransferBuffer : Z -> EFI_STATUS * Z).

(** the search for the transfer buffer always ends, whatever memory there
    is and whatever the driver answers: either the start reports an error, or a
    buffer was allocated whose size is within the bounds for this memory, the
    engine over it is idle, and a download may use all of it on NAND and half
    of it elsewhere, where the other half is being flashed. *)
Theorem buffer_search_ends (w : World) (Ddr : EFI_STATUS * Z) :
  settled w -> at_rest (fb w) ->
  (exists st w', st <> EFI_SUCCESS /\
     run (FastbootCmdsInit AllocateTransferBuffer Ddr) w = (Go st, w')) \/
  (exists Size Base w', find_buffer AllocateTransferBuffer Ddr w = (Go Base, w') /\
     AllocateTransferBuffer Size = (EFI_SUCCESS, Base) /\
     (GetBufferSize Ddr).2 <= Size <= (GetBufferSize Ddr).1 /\ at_rest (fb w') /\
     length (DataMem (fb w')) = Z.to_nat Size /\
     MaxDownLoadSize (fb w') = (if bool_decide (card_of w = NAND) then Size else Size / 2)).
Proof.
  intros Hs Hr. pose proof (wp_find_buffer AllocateTransferBuffer Ddr w Hs Hr) as H.
  unfold wp in H. unfold run, call, FastbootCmdsInit, mbind, M_MBind, M_bind.
  destruct (find_buffer AllocateTransferBuffer Ddr w) as [[Base|r|h] w']; [right|left|done].
  - destruct H as (Size & HA & HB & Hc & [_ Hrest _ Hmem Hmax]). exists Size, Base, w'.
    split_and!; try done; [lia..| |by rewrite Hmax, Hc].
    rewrite Hmem. unfold zeros. by rewrite length_replicate.
  - by exists r, w'.
Qed.

(** C13: from a start that succeeded, any sequence of USB reports, timers, thread
    runs and commands, deferred ones included, keeps the engine well formed, so
    that every transfer the driver was given stores into the transfer buffer
    and nowhere else, and a data phase never expects more than the largest
    download. *)
Theorem engine_well_formed (w w0 w' : World) (Ddr : EFI_STATUS * Z) :
  settled w -> at_rest (fb w) -> (forall h a d n, keeps keeps_ok (other h a d n)) ->
  run (FastbootCmdsInit AllocateTransferBuffer Ddr) w = (Go EFI_SUCCESS, w0) ->
  reachable other w0 w' ->
  engine_ok (engine_of (fb w')) /\
  (forall n a d, RxQueue (fb w') = Some (n, Some a) -> Z.of_nat (length d) <= n ->
   exists m, driver_stores (R := EFI_STATUS) d w' =
       (Go tt, upd_fb (fun g => fb_RxQueue None (fb_DataMem m g)) w') /\
     buf_write (DataMem (fb w')) (a - mDataBuffer (fb w')) d = Some m).
Proof.
  intros Hs Hr Ho Hi Hreach.
  pose proof (FastbootCmdsInit_ok AllocateTransferBuffer Ddr w w0 Hs Hr Hi) as H0.
  pose proof (reachable_ok other Ho _ _ H0 Hreach) as Hok. split; [done|].
  intros n a d Hq Hd. destruct (ok_rx _ Hok n a Hq) as (Hn & Ha & Hb). simpl in Ha, Hb.
  destruct (buf_write_in_range (DataMem (fb w')) (a - mDataBuffer (fb w')) d) as [m Hm]; [lia..|].
  exists m. split; [|done]. unfold driver_stores, poke, store.
  rewrite (bind_go _ _ w' (fb w') w') by done. rewrite Hq.
  unfold mbind, M_MBind, M_bind, fbget. by rewrite Hm.
Qed.

(** C17: a download that is accepted ends: after the answer was sent, packets
    that add up to the announced size bring the engine back to the commands,
    with the data in the half of the buffer that belongs to the USB driver, in
    order, and with an answer to the host sent or its timer armed. *)
Theorem download_completes (w : World) (arg : list Z) (ds : list (list Z)) (k : Z) :
  let N := AsciiStrHexToUint64 58 arg in
  settled w -> engine_ok (engine_of (fb w)) -> mState (fb w) = ExpectCmdState ->
  0 < N <= MaxDownLoadSize (fb w) -> Z.of_nat (length (concat ds)) = N ->
  Forall (fun d => d <> []) ds -> 0 <= k <= 20 ->
  GetPageSize (R := unit) w = (Go (2 ^ k), w) ->
  exists w1 w2 w3, run (CmdDownload arg) w = (Go tt, w1) /\
    run (HandleUsbEvents other (UsbSent UsbDeviceTransferStatusCompleteOK)) w1
      = (Go EFI_SUCCESS, w2) /\
    run (receive_all other ds) w2 = (Go EFI_SUCCESS, w3) /\
    mState (fb w3) = ExpectCmdState /\ mUsbDataBuffer (fb w3) = mUsbDataBuffer (fb w) /\
    buf_read (DataMem (fb w3)) (mUsbDataBuffer (fb w) - mDataBuffer (fb w)) N
      = Some (concat ds) /\
    answered (fb w2) (fb w3).
Proof.
  intros N Hs Hok Hst HN Hlen Hall Hk Hp.
  destruct (download_begins other arg w Hs Hok Hst HN) as (w1 & w2 & H1 & H2 & Hd & Hf & Ht & Hu & Hb).
  fold N in Hd. destruct (receive_completes other ds w2 [] N k) as (w3 & H3 & H4 & H5 & H6 & H7 & H8).
  - done.
  - simpl. lia.
  - intros ->. simpl in Hlen. lia.
  - done.
  - done.
  - by apply (GetPageSize_frame w); [..|rewrite Hf|].
  - exists w1, w2, w3. rewrite Hu, Hb in *. by split_and!.
Qed.

(** a [download] that is refused because it is too large leaves the size it
    asked for behind: the next [flash] takes that size for its image, which
    then reaches past the end of the transfer buffer. *)
Theorem refused_download_length (w : World) (arg : list Z) :
  let N := AsciiStrHexToUint64 58 arg in
  0 <= MaxDownLoadSize (fb w) < N ->
  exists w1 w2, run (CmdDownload arg) w = (Go tt, w1) /\
    Sent (fb w1) = Sent (fb w) ++
      [L "FAILRequested download size is more than max allowed" ++ [10]] /\
    ExchangeFlashAndUsbDataBuf (R := unit) w1 = (Go tt, w2) /\
    mFlashNumDataBytes (fb w2) = N /\
    (Z.of_nat (length (DataMem (fb w))) < N ->
     load (S := World) (R := unit) (image_at (fb w2) (mFlashDataBuffer (fb w2))) 0
       (mFlashNumDataBytes (fb w2)) w2 = (Halt OutOfBounds, w2)).
Proof.
  intros N HM. set (w1 := upd_fb (fun g => fb_Sent (Sent g ++
    [L "FAILRequested download size is more than max allowed" ++ [10]])
    (fb_mNumDataBytes N g)) w).
  assert (H1 : run (CmdDownload arg) w = (Go tt, w1)).
  { unfold run, call, CmdDownload. fold N.
    rewrite (bind_go _ _ w tt (upd_fb (fb_mNumDataBytes N) w)) by done.
    rewrite (bind_go _ _ _ (fb (upd_fb (fb_mNumDataBytes N) w))
      (upd_fb (fb_mNumDataBytes N) w)) by done.
    cbn [fb upd_fb mNumDataBytes fb_mNumDataBytes MaxDownLoadSize].
    destruct (Z.eqb_spec N 0); [lia|]. by destruct (Z.ltb_spec (MaxDownLoadSize (fb w)) N); [|lia]. }
  exists w1. eexists. split; [exact H1|]. split; [done|]. split; [reflexivity|]. split; [done|].
  intros Hlen. unfold load, need.
  match goal with |- context [buf_read ?b ?o ?n] => destruct (buf_read b o n) as [d|] eqn:E end;
    [exfalso|done].
  apply buf_read_Some in E as (_ & _ & E & _). unfold image_at in E.
  rewrite length_drop in E. change (mFlashNumDataBytes _) with N in E.
  change (DataMem _) with (DataMem (fb w)) in E. lia.
Qed.
End DataPhase.

(** ** Commands *)

(** The reference: of the entries whose prefix the line has, one with the
    longest prefix. *)
Definition has_prefix (d : list Z) (c : FASTBOOT_CMD) : bool :=
  AsciiStrnCmp d (prefix_ c) (prefix_len c) =? 0.
Fixpoint longest_match (cs : list FASTBOOT_CMD) (d : list Z) : option FASTBOOT_CMD :=
  match cs with
  | [] => None
  | c :: cs' =>
      if has_prefix d c then
        match longest_match cs' d with
        | Some c' => if prefix_len c <? prefix_len c' then Some c' else Some c
        | None => Some c
        end
      else longest_match cs' d
  end.

(** No entry hides a longer one behind it. *)
Definition no_hiding (c c' : FASTBOOT_CMD) : Prop :=
  prefix_len c < prefix_len c' -> ~ prefix_ c `prefix_of` prefix_ c'.
Definition entry_wf (c : FASTBOOT_CMD) : Prop :=
  prefix_len c = AsciiStrLen (prefix_ c) /\ cstr (prefix_ c) = prefix_ c.

Lemma has_prefix_spec d c : entry_wf c -> has_prefix d c = true <-> prefix_ c `prefix_of` cstr d.
Proof.
  intros [Hl Hc]. unfold has_prefix. rewrite Z.eqb_eq, Hl. unfold AsciiStrnCmp, AsciiStrLen.
  by rewrite StrnCmp_prefix, Hc.
Qed.

Lemma longest_match_in cs d c : longest_match cs d = Some c -> c ∈ cs /\ has_prefix d c = true.
Proof.
  revert c. induction cs as [|c' cs IH]; intros c; [done|]. simpl.
  destruct (has_prefix d c') eqn:Hp.
  - destruct (longest_match cs d) as [c''|] eqn:E.
    + destruct (_ <? _); intros [= <-]; [|by split; [left|]].
      destruct (IH c'' eq_refl). by split; [right|].
    + intros [= <-]. by split; [left|].
  - intros H. destruct (IH c H). by split; [right|].
Qed.

Lemma find_longest cs d :
  Forall entry_wf cs -> StronglySorted no_hiding cs -> find_cmd cs d = longest_match cs d.
Proof.
  intros Hwf. induction 1 as [|c cs Hs IH Hall]; [done|]. inversion Hwf as [|? ? Hc Hcs]. subst.
  cbn [find_cmd longest_match]. fold (has_prefix d c). destruct (has_prefix d c) eqn:Hp; [|by apply IH].
  destruct (longest_match cs d) as [c'|] eqn:E; [|done].
  apply longest_match_in in E as [Hin Hp']. rewrite list.Forall_forall in Hall, Hcs.
  destruct (Z.ltb_spec (prefix_len c) (prefix_len c')) as [Hlt|]; [exfalso|done].
  apply (Hall c' Hin Hlt). apply has_prefix_spec in Hp; [|done].
  apply has_prefix_spec in Hp'; [|by apply Hcs]. destruct (Hcs c' Hin) as [Hl' Hc'], Hc as [Hl Hc].
  rewrite Hl, Hl' in Hlt. unfold AsciiStrLen, StrLen in Hlt. rewrite Hc, Hc' in Hlt.
  destruct (prefix_weak_total _ _ _ Hp Hp') as [|H]; [done|].
  apply prefix_length in H. lia.
Qed.

Section Table.
Context `{F : Firmware} `{B : BuildConfig}.

Definition entry_of_cmd (c : list Z * fastboot_cmd_fn) : FASTBOOT_CMD :=
  mkCmd c.1 (AsciiStrLen c.1) c.2.

(** The table with every switch on. *)
Definition full_list : list (list Z * fastboot_cmd_fn) := Eval cbv in
  [ (L "flash:", FnFlash); (L "erase:", FnErase); (L "set_active", FnSetActive);
    (L "flashing get_unlock_ability", FnFlashingGetUnlockAbility);
    (L "flashing unlock", FnFlashingUnlock); (L "flashing lock", FnFlashingLock);
    (L "flashing unlock_critical", FnFlashingUnLockCritical);
    (L "flashing lock_critical", FnFlashingLockCritical); (L "boot", FnBoot);
    (L "oem enable-charger-screen", FnOemEnableChargerScreen);
    (L "oem disable-charger-screen", FnOemDisableChargerScreen);
    (L "oem off-mode-charge", FnOemOffModeCharger);
    (L "oem select-display-panel", FnOemSelectDisplayPanel);
    (L "oem set-hw-fence-value", FnOemSetHwFenceValue);
    (L "oem set-gpu-preemption", FnOemSetGpuPreemptionValue);
    (L "oem device-info", FnOemDevinfo); (L "oem golden-snapshot", FnGoldenSnapshot);
    (L "continue", FnContinue); (L "reboot", FnReboot);
    (L "reboot-bootloader", FnRebootBootloader); (L "getvar:", FnGetVar);
    (L "download:", FnDownload); (L "oem audio-framework", FnOemAudioFrameWork) ].

Lemma when_sublist {A} b (l : list A) : when b l `sublist_of` l.
Proof. destruct b; [done|apply sublist_nil_l]. Qed.
Lemma cmd_list_full : cmd_list `sublist_of` full_list.
Proof.
  unfold cmd_list. change full_list with (take 6 full_list ++ take 2 (drop 6 full_list) ++
    take 1 (drop 8 full_list) ++ take 7 (drop 9 full_list) ++ take 1 (drop 16 full_list) ++
    drop 17 full_list).
  repeat apply sublist_app; (apply when_sublist || reflexivity).
Qed.

(** A decision procedure for a whole table. *)
#[local] Instance no_hiding_dec c c' : Decision (no_hiding c c').
Proof. unfold no_hiding. apply _. Defined.
#[local] Instance entry_wf_dec c : Decision (entry_wf c).
Proof. unfold entry_wf. apply _. Defined.
Fixpoint table_ordered (cs : list FASTBOOT_CMD) : bool :=
  match cs with
  | [] => true
  | c :: cs' => bool_decide (entry_wf c) && forallb (fun c' => bool_decide (no_hiding c c')) cs' &&
                table_ordered cs'
  end.
Lemma table_ordered_spec cs :
  table_ordered cs = true -> Forall entry_wf cs /\ StronglySorted no_hiding cs.
Proof.
  induction cs as [|c cs IH]; [split; constructor|]. simpl. rewrite !andb_true_iff, forallb_forall.
  rewrite bool_decide_eq_true. intros [[Hc Hall] Hcs]. destruct (IH Hcs).
  split; constructor; try done. apply list.Forall_forall. intros c' Hin.
  by apply (bool_decide_unpack _), Is_true_true, Hall, list_elem_of_In.
Qed.
Lemma full_table_ordered :
  table_ordered (reverse (map entry_of_cmd (full_list ++ dynamic_cmds))) = true.
Proof. vm_compute. reflexivity. Qed.

Lemma Forall_sub {A} (P : A -> Prop) (l k : list A) :
  l `sublist_of` k -> Forall P k -> Forall P l.
Proof. intros Hs. rewrite !list.Forall_forall. eauto using elem_of_sublist. Qed.
Lemma reverse_map_sub {A C} (f : A -> C) (l k : list A) :
  l `sublist_of` k -> reverse (map f l) `sublist_of` reverse (map f k).
Proof.
  induction 1; simpl; rewrite ?reverse_cons;
    [done|by apply sublist_app|by apply sublist_inserts_r].
Qed.
Lemma sorted_sublist {A} (P : A -> A -> Prop) (l k : list A) :
  l `sublist_of` k -> StronglySorted P k -> StronglySorted P l.
Proof.
  induction 1 as [|x l k Hs IH|x l k Hs IH]; intros H; [done| |]; inversion H; subst; [|by apply IH].
  constructor; [by apply IH|]. by eapply Forall_sub.
Qed.

(** What is registered is the table without the entries there was no memory
    for, the last one first. *)
Lemma register_all_sublist {R} cs (w : World) :
  exists l w', l `sublist_of` reverse (map entry_of_cmd cs) /\
    register_all (R := R) cs w = (Go tt, w') /\ cmdlist (fb w') = l ++ cmdlist (fb w).
Proof.
  revert w. induction cs as [|c cs IH]; intros w; [by exists [], w|]. cbn [register_all].
  set (w1 := if AllocateZeroPool (fw w) 32
    then upd_fb (fun g => fb_cmdlist (entry_of_cmd c :: cmdlist g) g) w else w).
  assert (H1 : FastbootRegister (R := R) c.1 c.2 w = (Go tt, w1)).
  { unfold FastbootRegister, ask. subst w1. munfold. by destruct (AllocateZeroPool (fw w) 32). }
  rewrite (bind_go _ _ _ _ _ H1). destruct (IH w1) as (l & w' & Hl & Hr & E).
  cbn [map]. rewrite reverse_cons. subst w1. destruct (AllocateZeroPool (fw w) 32).
  - exists (l ++ [entry_of_cmd c]), w'. split; [by apply sublist_app|]. split; [done|].
    rewrite E. simpl. by rewrite <- app_assoc.
  - exists l, w'. split; [by apply sublist_inserts_r|done].
Qed.

Lemma register_commands_sublist {R} (w : World) :
  cmdlist (fb w) = [] ->
  cmdlist (fb (register_commands (R := R) w).2) `sublist_of`
    reverse (map entry_of_cmd (cmd_list ++ dynamic_cmds)).
Proof.
  intros Hw. unfold register_commands. rewrite map_app, reverse_app.
  destruct (register_all_sublist (R := R) cmd_list w) as (l & w1 & Hl & Hr & E).
  rewrite Hw, app_nil_r in E. rewrite (bind_go _ _ _ _ _ Hr), (bind_go _ _ w1 w1 w1) by done.
  destruct (IsDynamicPartitionSupport (pt w1)).
  - destruct (register_all_sublist (R := R) dynamic_cmds w1) as (l' & w2 & Hl' & -> & E').
    cbn [snd]. rewrite E', E. by apply sublist_app.
  - change (cmdlist (fb w1) `sublist_of` reverse (map entry_of_cmd dynamic_cmds) ++
      reverse (map entry_of_cmd cmd_list)). rewrite E. by apply sublist_inserts_l.
Qed.

(** C21: the command a line is dispatched to is the one with the longest prefix
    among those that were registered, whatever the build switches are and
    whichever registrations failed for lack of memory. *)
Theorem dispatch_longest_prefix {R : Type} (w : World) (d : list Z) :
  cmdlist (fb w) = [] ->
  let cs := cmdlist (fb (register_commands (R := R) w).2) in
  find_cmd cs d = longest_match cs d.
Proof.
  intros Hw cs.
  assert (Hs : cs `sublist_of` reverse (map entry_of_cmd (full_list ++ dynamic_cmds))).
  { etrans; [by apply register_commands_sublist|]. rewrite !map_app, !reverse_app.
    apply sublist_app; [done|]. apply reverse_map_sub, cmd_list_full. }
  destruct (table_ordered_spec _ full_table_ordered) as [H1 H2].
  apply find_longest; [by eapply Forall_sub|by eapply sorted_sublist].
Qed.
End Table.

(** ** Raw images *)

Section Raw.
Context `{F : Firmware} `{B : BuildConfig} `{!BlockIoLaws F} `{!PlatformLaws F}.

(** A handle of some LUN of the partition table. *)
Definition listed (w : World) (h : Z) : Prop :=
  exists i j, 0 <= i < MaxLuns (pt w) /\ scanned_at w i j h.

(** What flashing a raw image leaves of the device: the image at the start of a
    partition of that name, or an error of the write; or an untouched device
    and the reason: no handle has that name, or its partition is too small. *)
Definition raw_flashed (w : World) (name img : list Z) (Size : Z) (st : EFI_STATUS)
    (x' : Fw) : Prop :=
  (exists h, listed w h /\ is_partition w name h /\ Size <= GetPartitionSize (fw w) (Some h) /\
     (EFI_ERROR st = true \/
      buf_write (Contents (fw w) h) 0 (take (Z.to_nat Size) img) = Some (Contents x' h))) \/
  x' = fw w /\ st = EFI_NOT_FOUND /\ (forall h, listed w h -> ~ is_partition w name h) \/
  x' = fw w /\ st = EFI_VOLUME_FULL /\ exists h, listed w h /\ is_partition w name h /\
     (GetPartitionSize (fw w) (Some h) < Size \/ GetPartitionSize (fw w) (Some h) = 0).

(** The partitions of a name can be written to. *)
Definition writable (w : World) (name : list Z) : Prop := forall h,
  is_partition w name h -> GetPartitionSize (fw w) (Some h) <> 0 ->
  granule_ok w h (Some h) /\ Z.of_nat (length (Contents (fw w) h)) < 2 ^ 64.

(** No boot partition of an A/B pair. *)
Definition ab_boot (e : PartitionEntry) : bool :=
  (StrnCmp (Name e) (L "boot") 4 =? 0) && (char_at (Name e) 4 =? 95) &&
  ((char_at (Name e) 5 =? 97) || (char_at (Name e) 5 =? 98)).
Definition single_boot (w : World) : Prop := Forall (fun e => ab_boot e = false) (live (pt w)).

Lemma single_boot_scan {R} l (w : World) :
  Forall (fun e => ab_boot e = false) l ->
  multi_slot_scan (R := R) (L "boot") 0 l w = (Go false, w).
Proof.
  induction 1 as [|e l He _ IH]; [done|]. cbn [multi_slot_scan]. cbn zeta.
  change (StrLen (L "boot")) with 4. change (4 + 1) with 5. revert He. unfold ab_boot.
  destruct (_ =? 0); [|done]. destruct (char_at (Name e) 4 =? 95); [|done]. cbn [andb].
  destruct (_ =? 97); [done|]. by destruct (_ =? 98).
Qed.

Lemma wp_HandleRawImgFlash w name img Size n :
  NAND_UBI_VOLUME_FLASHING_ENABLED = false ->
  single_boot w -> ptable_ok w -> writable w name ->
  LunSet (fb w) = false -> StoredRootDevice (lb w) <> NAND ->
  0 < Size < 2 ^ 32 -> Size <= Z.of_nat (length img) ->
  let post r w' := r.2 = name /\ same_globals w w' /\ raw_flashed w name img Size r.1 (fw w') in
  wp (HandleRawImgFlash name n img Size) post post w.
Proof.
  intros Hubi Hms Hpt Hdev Hlun Hnand Hsz Hlen post. unfold HandleRawImgFlash.
  assert (Hsc : forall h, scanned w h <-> listed w h).
  { intros h. unfold scanned, listed, scanned_lun. by rewrite Hlun. }
  apply wp_bind. eapply wp_go; [exact (single_boot_scan _ w Hms)|]. rewrite Hubi.
  apply wp_bind, wp_ret. apply wp_bind, wp_ret. cbn beta iota.
  apply wp_bind. eapply wp_call_mono; [by apply wp_PartitionGetInfo|].
  intros r w1 (-> & [[-> Hno] | (h & -> & Hl & Hh)]).
  { apply wp_early. split; [done|]. split; [done|]. right. left. do 2 (split; [done|]).
    intros h Hl. by apply Hno, Hsc. }
  apply Hsc in Hl.
  cbn [fst snd]. change (negb (EFI_SUCCESS =? EFI_SUCCESS)) with false. cbn iota.
  apply wp_bind, wp_ask.
  destruct ((GetPartitionSize (fw w) (Some h) <? Size) ||
            (GetPartitionSize (fw w) (Some h) =? 0)) eqn:Hfull.
  { apply wp_early. apply orb_true_iff in Hfull. rewrite Z.ltb_lt, Z.eqb_eq in Hfull.
    split; [done|]. split; [done|]. right. right. split_and!; [done..|]. by exists h. }
  apply orb_false_iff in Hfull as [Hf1 Hf2]. apply Z.ltb_ge in Hf1. apply Z.eqb_neq in Hf2.
  destruct (Hdev h Hh Hf2) as [Hg Hc].
  apply wp_bind. eapply wp_call_mono; [by apply wp_write_partition_result|].
  intros st w' [[[Hsg _] _] Hw]. unfold boot_written. cbn [andb]. apply wp_bind, wp_ret, wp_ret.
  split; [done|]. split; [done|]. left. exists h. do 3 (split; [done|]). by apply Hw.
Qed.

(** The answer at the end of a flash. *)
Definition flash_answer (st : EFI_STATUS) (g g' : FbGlobals) : Prop :=
  if EFI_ERROR st then exists reason, Sent g' = Sent g ++ [take 63 (L "FAIL" ++ reason)]
  else Sent g' = Sent g ++ [L "OKAY"].

Lemma wp_rsp {R} text (E : R -> World -> Prop) (Q : list Z -> World -> Prop) w :
  (forall t, Q t w) -> wp (rsp (R := R) text) E Q w.
Proof.
  intros HQ. unfold rsp, AsciiSPrint.
  destruct (buf_write_in_range (zeros MAX_RSP_SIZE) 0
    (take (Z.to_nat (MAX_RSP_SIZE - 1)) text ++ [0])) as [t Ht]; [done| |].
  { rewrite length_app, length_take. change (length (zeros MAX_RSP_SIZE)) with 64%nat.
    cbn [length]. unfold MAX_RSP_SIZE. lia. }
  eapply wp_need; [exact Ht|apply HQ].
Qed.

Lemma wp_report_flash {R} name (E : R -> World -> Prop) w :
  wp (report_flash (R := R) name) E (fun _ w' => fw w' = fw w /\
    flash_answer (FlashResult (fb w)) (fb w) (fb w')) w.
Proof.
  unfold report_flash, flash_answer. apply wp_bind. eapply wp_go; [reflexivity|]. cbn beta.
  destruct (EFI_ERROR (FlashResult (fb w))).
  - apply wp_bind, wp_rsp. intros t. apply wp_bind, wp_modify, wp_modify.
    split; [done|]. by exists (cstr t).
  - by apply wp_modify.
Qed.

(** An image that is neither sparse nor UBI nor a meta image goes to the
    partition as it is. *)
Definition magic_of (img : list Z) : Z := u32 (GET_LWORD_FROM_BYTE (take 4 img)).
Definition raw_image (img : list Z) : Prop :=
  4 <= Z.of_nat (length img) /\ magic_of img <> SPARSE_HEADER_MAGIC /\
  magic_of img <> META_HEADER_MAGIC /\ AsciiStrnCmp img UBI_HEADER_MAGIC 4 <> 0.

Lemma wp_flash_image w name :
  let img := image_at (fb w) (mFlashDataBuffer (fb w)) in
  let N := mFlashNumDataBytes (fb w) in
  NAND_UBI_VOLUME_FLASHING_ENABLED = false -> raw_image img ->
  single_boot w -> ptable_ok w -> writable w name ->
  LunSet (fb w) = false -> StoredRootDevice (lb w) <> NAND ->
  0 < N < 2 ^ 32 -> N <= Z.of_nat (length img) ->
  let post o w' := o = true /\ exists st, raw_flashed w name img N st (fw w') /\
    flash_answer st (fb w) (fb w') in
  wp (flash_image name) post post w.
Proof.
  intros img N Hubi (H4 & Hs & Hm & Hu) Hb Hpt Hdev Hlun Hnand HN Hlen post. unfold flash_image.
  apply wp_bind. eapply wp_go; [reflexivity|]. cbv beta zeta. fold img N.
  apply wp_bind, wp_load32; [lia..|]. intros d Hd.
  apply buf_read_Some in Hd as (_ & _ & _ & ->). rewrite drop_0. change (Z.to_nat 4) with 4%nat.
  fold (magic_of img).
  apply Z.eqb_neq in Hs, Hm, Hu. rewrite Hs, Hu, Hm.
  apply wp_bind. eapply wp_call_mono; [by apply wp_HandleRawImgFlash|].
  intros [st nm] w1 (Hn & Hsg & Hr). cbn [fst snd] in *. subst nm.
  apply wp_bind, wp_modify. apply wp_bind.
  eapply wp_mono; [apply wp_report_flash|intros r w' H; exact H|].
  intros [] w2 [Hf Ha]. apply wp_ret. split; [done|]. exists st. rewrite Hf. split; [done|].
  destruct Hsg as (_ & _ & _ & _ & _ & Hfb & _). simpl in Ha. unfold flash_answer in *.
  rewrite <- Hfb. done.
Qed.

Lemma no_colon n : Forall (fun c => c <> 58) (cstr n) -> StrStr n (L ":") = None.
Proof.
  unfold StrStr. change (hd0 (L ":") =? 0) with false. cbn iota. change (L ":") with [58].
  induction n as [|c n IH]; [done|]. cbn [cstr StrStr_loop].
  destruct (Z.eqb_spec c 0) as [|Hc]; [done|]. inversion 1 as [|? ? H58 Hn]. subst.
  cbn [StrStr_match hd0]. replace (c =? 58) with false by (symmetry; by apply Z.eqb_neq).
  cbn [andb hd0]. change (58 =? 0) with false. cbn iota.
  replace (c =? 0) with false by (symmetry; by apply Z.eqb_neq). by apply IH.
Qed.

(** The lock lets the partition an argument names be written. *)
Definition open_for (w : World) (arg : list Z) : Prop :=
  lock_checked w = true ->
  IsUnlocked w = true /\ (IsUnlockCritical w = true \/ IsCriticalPartition arg = false).

Lemma check_lock_open {R} op n arg w f :
  open_for w arg -> cstr n = cstr arg ->
  check_lock (R := R) op n (upd_fb f w) = (Go true, upd_fb f w).
Proof.
  intros Ho Hn. unfold check_lock. rewrite (bind_go _ _ _ (upd_fb f w) (upd_fb f w)) by done.
  change (lock_checked (upd_fb f w)) with (lock_checked w).
  change (IsUnlocked (upd_fb f w)) with (IsUnlocked w).
  change (IsUnlockCritical (upd_fb f w)) with (IsUnlockCritical w).
  destruct (lock_checked w) eqn:El; [|done]. destruct (Ho El) as [-> [-> | Hc]]; [done|].
  cbn [negb]. rewrite (critical_cstr _ _ Hn), Hc. by rewrite andb_false_r.
Qed.

(** A plain [flash] of a partition: the name of a partition and no other
    request, on an unlocked device without dynamic partitions. *)
Record plain_flash (w : World) (arg : list Z) : Prop := {
  pf_bytes : Forall is_u8 arg;
  pf_len : AsciiStrLen arg < MAX_GPT_NAME_SIZE;
  pf_open : open_for w arg;
  pf_static : IsDynamicPartitionSupport (pt w) = false;
  pf_key : starts arg (L "avb_custom_key") = false;
  pf_lun : Forall (fun c => c <> 58) (cstr arg);
  pf_table : starts arg (L "partition") = false;
  pf_mibib : starts arg (L "mibib") = false;
  pf_system : starts arg (L "system") = false;
  pf_settled : settled w;
  pf_data : mUsbDataBuffer (fb w) <> 0;
}.

(** C16: [flash] of a raw image either writes exactly the bytes of the last
    download, taken from the half of the buffer the USB driver filled, to the
    start of a partition of that name that is large enough, or the write to that
    partition ends with an error; when no handle of any LUN has that name
    ([EFI_NOT_FOUND]), or the partition is empty or too small
    ([EFI_VOLUME_FULL]), nothing is written.  The answer is [FAIL] exactly when
    the status is an error, and [OKAY] otherwise.
    This is a plain flash: the lock lets the partition be written, the device is
    not NAND (and the build without UBI volume flashing), has no dynamic
    partitions and no slotted boot partition, the image of at least four bytes
    is neither sparse nor UBI nor a meta image, and the name is that of no
    table, boot loader image, system partition or key and names no LUN. *)
Theorem flash_writes_download (w : World) (arg : list Z) (data sz : Z) :
  let img := image_at (fb w) (mUsbDataBuffer (fb w)) in
  let N := mNumDataBytes (fb w) in
  NAND_UBI_VOLUME_FLASHING_ENABLED = false ->
  plain_flash w arg -> raw_image img -> single_boot w ->
  ptable_ok (upd_fb (fb_LunSet false) w) -> writable w arg -> StoredRootDevice (lb w) <> NAND ->
  0 < N < 2 ^ 32 -> N <= Z.of_nat (length img) ->
  exists st w', run (CmdFlash arg data sz) w = (Go tt, w') /\
    raw_flashed w arg img N st (fw w') /\ flash_answer st (fb w) (fb w').
Proof.
  intros img N Hubi [Hu Hl Ho Hd Hk Hc Ht Hmi Hsy Hs Hdata] Hraw Hb Hpt Hdev Hnand HN Hlen.
  set (Q := fun (_ : unit) w' => exists st, raw_flashed w arg img N st (fw w') /\
    flash_answer st (fb w) (fb w')).
  enough (H : wp (CmdFlash arg data sz) Q Q w).
  { apply wp_run in H as ([] & w' & Hr & st & H). by exists st, w'. }
  unfold CmdFlash. apply wp_bind, wp_modify. apply wp_bind, wp_call.
  apply (wp_mono _ (fun o w' => o = true /\ Q tt w') _ (fun o w' => o = true /\ Q tt w')).
  2,3: intros o w' [-> Hq]; cbn [negb]; apply wp_bind, wp_get; rewrite Hsy; cbn [andb];
    by apply wp_bind, wp_ret, wp_modify.
  unfold flash_body. apply wp_bind, wp_modify.
  match goal with |- wp _ _ _ ?x => set (w2 := x) end.
  apply wp_bind. eapply wp_go; [reflexivity|]. cbn beta.
  change (mFlashDataBuffer (fb w2)) with (mUsbDataBuffer (fb w)).
  apply Z.eqb_neq in Hdata. rewrite Hdata.
  destruct (Z.leb_spec MAX_GPT_NAME_SIZE (AsciiStrLen arg)); [lia|].
  apply wp_bind, arg_name; [done..|]. intros n Hn.
  apply wp_bind. eapply wp_go; [by apply (check_lock_open _ _ arg w (fun g => _))|]. cbn [negb].
  apply wp_bind. unfold check_snapshot. apply wp_bind, wp_get.
  change (IsDynamicPartitionSupport _) with (IsDynamicPartitionSupport (pt w)). rewrite Hd.
  apply wp_ret. cbn [negb].
  rewrite !(starts_cstr _ _ _ Hn), Hk. apply wp_bind. rewrite no_colon by (by rewrite Hn).
  apply wp_ret. apply wp_bind. eapply wp_go; [by apply (GetRootDeviceType_settled w2)|]. cbn beta.
  rewrite ?(starts_cstr _ _ _ Hn), Ht, Hmi. cbn [orb andb].
    assert (His : forall h, is_partition w2 n h <-> is_partition w arg h).
  { intros h. unfold is_partition. by rewrite Hn. }
  assert (Hpost : forall o w', (o = true /\ exists st, raw_flashed w2 n img N st (fw w') /\
    flash_answer st (fb w2) (fb w')) -> o = true /\ Q tt w').
  { intros o w' (-> & st & Hf & Ha). split; [done|]. exists st. split; [|done].
    unfold raw_flashed in *. by setoid_rewrite His in Hf. }
  apply wp_call. eapply wp_mono; [apply (wp_flash_image w2 n); try done|apply Hpost|apply Hpost].
  intros h Hh. by apply Hdev, His.
Qed.
End Raw.

(** ** The theorems at work *)

Lemma hex_number_value_witness : AsciiStrHexToUint64 58 (L " 0a0" ++ [0]) = 160.
Proof.
  change (L " 0a0" ++ [0]) with (L " " ++ L "0a0" ++ [0]).
  rewrite (hex_number_value 58 (L " ") (L "0a0") [0]); [done|by repeat constructor..|done|done|done].
Defined.

(** The build that ships. *)
Definition demo_user : BuildConfig :=
  {| USER_BUILD_VARIANT := true; ENABLE_LV_ATOMIC_AB := false;
     AB_RETRYCOUNT_DISABLE := false; SUPPORT_AB_BOOT_LXC := false;
     VERIFIED_BOOT_LE := false; VERIFIED_BOOT_ENABLED := true;
     PRODUCT_NAME := L "ABL"; ENABLE_LE_VARIANT := false; TARGET_BOARD_TYPE_AUTO := false;
     HIBERNATION_SUPPORT_NO_AES := false; ENABLE_UPDATE_PARTITIONS_CMDS := true;
     ENABLE_DEVICE_CRITICAL_LOCK_UNLOCK_CMDS := true; ENABLE_BOOT_CMD := false;
     DISABLE_PARALLEL_DOWNLOAD_FLASH := false; EnableBatteryVoltageCheck := false;
     NAND_UBI_VOLUME_FLASHING_ENABLED := false; SWAP_PARTITION_NAME := L "swap_a" |}.

Lemma locked_device_refuses_witness :
  exists w', run (CmdErase (F := MemFirmware.fw) (B := demo_user) (L "userdata" ++ [0])) demo
    = (Go tt, w') /\ fw w' = fw demo.
Proof.
  destruct (locked_device_refuses (F := MemFirmware.fw) (B := demo_user) demo
    (L "userdata" ++ [0]) 0 0) as (_ & (w' & Hr & Hf & _) & _).
  - by repeat constructor.
  - by split; [|left].
  - by exists w'.
Defined.

Definition demo_other : fastboot_cmd_fn -> list Z -> Z -> Z ->
    M (World (H := MemFirmware.fw)) unit unit :=
  fun _ _ _ _ => FastbootFail (F := MemFirmware.fw) [].
Definition demo_alloc (n : Z) : EFI_STATUS * Z := (EFI_SUCCESS, 0x80000000).

Lemma demo_settled : settled (F := MemFirmware.fw) demo.
Proof. split; [done|by left]. Qed.
Lemma demo_at_rest : at_rest (fb demo).
Proof. done. Qed.
Lemma demo_engine_ok : engine_ok (engine_of (fb demo)).
Proof. constructor; unfold inside; try done; vm_compute; by intros. Qed.

Lemma buffer_search_ends_witness :
  (exists st w', st <> EFI_SUCCESS /\
     run (FastbootCmdsInit (F := MemFirmware.fw) demo_alloc (EFI_SUCCESS, 2 ^ 32)) demo
       = (Go st, w')) \/
  (exists Base w', find_buffer (F := MemFirmware.fw) demo_alloc (EFI_SUCCESS, 2 ^ 32) demo
     = (Go Base, w')).
Proof.
  destruct (buffer_search_ends (F := MemFirmware.fw) demo_alloc demo (EFI_SUCCESS, 2 ^ 32)
    demo_settled demo_at_rest) as [H|(Size & Base & w' & H & _)]; [by left|right].
  by exists Base, w'.
Defined.

(** The device with one LUN and one partition. *)
Definition demo_start : World (H := MemFirmware.fw) :=
  upd_pt (fun p => set_Ptable [mkStorage [mkHandleInfo 0 None] 1] (set_PartitionCount 1
    (set_PtnEntries [demo_entry (L "misc") 9 0 0] p))) demo.

Lemma engine_well_formed_witness :
  exists w0 w', run (FastbootCmdsInit (F := MemFirmware.fw) demo_alloc (EFI_SUCCESS, 2 ^ 32))
      demo_start = (Go EFI_SUCCESS, w0) /\
    reachable demo_other w0 w' /\ engine_ok (engine_of (fb w')).
Proof.
  destruct (run (FastbootCmdsInit (F := MemFirmware.fw) demo_alloc (EFI_SUCCESS, 2 ^ 32))
    demo_start) as [c w0] eqn:E.
  assert (Hc : c = Go EFI_SUCCESS) by (change c with (c, w0).1; rewrite <- E; lazy; reflexivity).
  subst c. set (w' := upd_fb (fb_RxQueue (Some (511, None))) w0).
  assert (Hr : reachable (F := MemFirmware.fw) demo_other w0 w').
  { apply rtc_once. by apply (step_usb demo_other w0 w' UsbConnected EFI_SUCCESS). }
  exists w0, w'. split; [done|]. split; [done|].
  destruct (engine_well_formed (F := MemFirmware.fw) demo_other demo_alloc demo_start w0 w'
    (EFI_SUCCESS, 2 ^ 32) demo_settled demo_at_rest) as [H _]; [|done..].
  intros h a d n. apply ok_fbset. intros g []. by constructor.
Defined.

Lemma download_completes_witness :
  exists w3, buf_read (DataMem (fb (H := MemFirmware.fw) w3)) 0 3 = Some [1; 2; 3].
Proof.
  destruct (download_completes (F := MemFirmware.fw) demo_other demo (L "00000003" ++ [0])
    [[1; 2]; [3]] 9) as (w1 & w2 & w3 & _ & _ & _ & _ & _ & H & _).
  - exact demo_settled.
  - exact demo_engine_ok.
  - done.
  - done.
  - done.
  - by repeat constructor.
  - done.
  - reflexivity.
  - by exists w3.
Defined.

Lemma refused_download_length_witness :
  exists w1, run (CmdDownload (F := MemFirmware.fw) (L "ffffffff" ++ [0])) demo = (Go tt, w1) /\
    mFlashNumDataBytes (fb ((ExchangeFlashAndUsbDataBuf (R := unit) w1).2)) = 4294967295.
Proof.
  destruct (refused_download_length (F := MemFirmware.fw) demo (L "ffffffff" ++ [0]))
    as (w1 & w2 & H1 & _ & H2 & H3 & _); [done|].
  exists w1. split; [done|]. by rewrite H2.
Defined.

Lemma dispatch_longest_prefix_witness :
  handle_ <$> longest_match
    (cmdlist (fb (register_commands (F := MemFirmware.fw) (R := unit) demo).2))
    (L "reboot-bootloader") = Some FnRebootBootloader.
Proof. rewrite <- (dispatch_longest_prefix (F := MemFirmware.fw) demo); reflexivity. Defined.

(** A device with one partition of four blocks and a downloaded image of five
    bytes. *)
Definition demo_raw : World (H := MemFirmware.fw) :=
  set_fw (F := MemFirmware.fw) (MemFirmware.set_devs [MemFirmware.mkDev (mkMedia 512 3 false) []
    (Some (PartEntry (demo_entry (L "misc") 9 0 0))) None (replicate 2048 7)] demo_fw)
    (upd_fb (fun g => fb_mNumDataBytes 5 (fb_DataMem ([1; 2; 3; 4; 5] ++ zeros 2043) g))
      (upd_pt (fun p => set_Ptable [mkStorage [mkHandleInfo 0 None] 1] (set_PartitionCount 0 p)) demo)).

Lemma demo_raw_writable name : writable (F := MemFirmware.fw) demo_raw name.
Proof.
  intros h _. unfold GetPartitionSize, granule_ok, granule. cbn -[replicate].
  unfold MemFirmware.contents, MemFirmware.media, MemFirmware.dev_at. cbn -[replicate].
  destruct (Z.to_nat h) as [|n]; cbn -[replicate]; [|intros Hn; by destruct Hn].
  intros _. split; [|rewrite length_replicate; lia].
  intros wbs [= <-]. split_and!; [by exists 9|done..|by exists 1].
Qed.

Lemma flash_writes_download_witness :
  exists st w', run (CmdFlash (F := MemFirmware.fw) (L "misc" ++ [0]) 0 0) demo_raw = (Go tt, w') /\
    raw_flashed (F := MemFirmware.fw) demo_raw (L "misc" ++ [0])
      ([1; 2; 3; 4; 5] ++ zeros 2043) 5 st (fw w').
Proof.
  destruct (flash_writes_download (F := MemFirmware.fw) demo_raw (L "misc" ++ [0]) 0 0)
    as (st & w' & Hr & Hf & _).
  - done.
  - constructor; try done.
    + by repeat constructor.
    + by repeat constructor.
    + apply demo_settled.
  - by split_and!.
  - by constructor.
  - split_and!; try done. by repeat constructor.
  - apply demo_raw_writable.
  - done.
  - done.
  - done.
  - by exists st, w'.
Defined.
