(* ===== verification/Fdt.v ===== *)
(** The flattened device tree reader the loader is linked with:
    [EmbeddedPkg/Library/FdtLib] ([fdt.c], [fdt_ro.c]).

    A blob is the list of its bytes, from the address the loader holds to the
    end of the memory object; a pointer into it is the offset of the byte it
    points at, [NULL] is [None].  An access outside the object stops the
    machine.  Structure-block offsets are [int]s, sizes and header fields
    [uint32_t]s, with the conversions of the source written out.

    Loops get as many rounds as the blob has bytes, and one more; [Forever]
    stands for a loop that would still run then. *)
From Stdlib Require Import ZArith Lia.
From stdpp Require Import base list numbers option.
From S2P Require Import Prelude EfiBase.

(** [fdt32_to_cpu], [fdt64_to_cpu]: the most significant byte comes first. *)
Definition be_get (b : list Z) : Z := le_get (reverse b).

Definition FDT_MAGIC : Z := 0xd00dfeed.
Definition FDT_SW_MAGIC : Z := Eval cbv in MAX_UINT32 - FDT_MAGIC.
Definition FDT_TAGSIZE : Z := 4.
Definition FDT_BEGIN_NODE : Z := 1.
Definition FDT_END_NODE : Z := 2.
Definition FDT_PROP : Z := 3.
Definition FDT_NOP : Z := 4.
Definition FDT_END : Z := 9.
Definition FDT_FIRST_SUPPORTED_VERSION : Z := 0x10.
Definition FDT_LAST_SUPPORTED_VERSION : Z := 0x11.
Definition FDT_ERR_NOTFOUND : Z := 1.
Definition FDT_ERR_BADOFFSET : Z := 4.
Definition FDT_ERR_BADPATH : Z := 5.
Definition FDT_ERR_BADSTATE : Z := 7.
Definition FDT_ERR_TRUNCATED : Z := 8.
Definition FDT_ERR_BADMAGIC : Z := 9.
Definition FDT_ERR_BADVERSION : Z := 10.
Definition FDT_ERR_BADSTRUCTURE : Z := 11.
Definition FDT_ERR_INTERNAL : Z := 13.
(** [sizeof (struct fdt_property)]: tag, length and name offset. *)
Definition FDT_PROPERTY_SIZE : Z := 12.

(** The macros compute in [size_t] and are stored in an [int]. *)
Definition FDT_ALIGN (x a : Z) : Z := Z.land (u64 (x + a - 1)) (u64 (Z.lnot (a - 1))).
Definition FDT_TAGALIGN (x : Z) : Z := s32 (FDT_ALIGN x FDT_TAGSIZE).

(** [memchr] and [ScanMem8]: the position of the first byte equal to [c]. *)
Fixpoint memchr (s : list Z) (c : Z) : option nat :=
  match s with
  | [] => None
  | x :: s' => if x =? c then Some O else S <$> memchr s' c
  end.

Section Fdt.
Context {S R : Type}.
Variable fdt : list Z.

Definition fdt_rounds : nat := Datatypes.S (length fdt).

(** A byte and a big-endian word of the blob. *)
Definition fdt8 (p : Z) : M S R Z :=
  b ← need OutOfBounds (buf_read fdt p 1); mret (be_get b).
Definition fdt32 (p : Z) : M S R Z :=
  b ← need OutOfBounds (buf_read fdt p 4); mret (be_get b).
Definition fdt64 (p : Z) : M S R Z :=
  b ← need OutOfBounds (buf_read fdt p 8); mret (be_get b).

(** The header fields. *)
Definition fdt_magic : M S R Z := fdt32 0.
Definition fdt_totalsize : M S R Z := fdt32 4.
Definition fdt_off_dt_struct : M S R Z := fdt32 8.
Definition fdt_off_dt_strings : M S R Z := fdt32 12.
Definition fdt_off_mem_rsvmap : M S R Z := fdt32 16.
Definition fdt_version : M S R Z := fdt32 20.
Definition fdt_last_comp_version : M S R Z := fdt32 24.
Definition fdt_size_dt_strings : M S R Z := fdt32 32.
Definition fdt_size_dt_struct : M S R Z := fdt32 36.

(** The part of [fdt_check_header] on magic and version: 0 when it holds. *)
Definition check_magic : M S R Z :=
  magic ← fdt_magic;
  if magic =? FDT_MAGIC then
    version ← fdt_version;
    if version <? FDT_FIRST_SUPPORTED_VERSION then mret (- FDT_ERR_BADVERSION)
    else
      last ← fdt_last_comp_version;
      if last >? FDT_LAST_SUPPORTED_VERSION then mret (- FDT_ERR_BADVERSION)
      else mret 0
  else if magic =? FDT_SW_MAGIC then
    size ← fdt_size_dt_struct;
    if size =? 0 then mret (- FDT_ERR_BADSTATE) else mret 0
  else mret (- FDT_ERR_BADMAGIC).

Definition fdt_check_header : M S R Z :=
  err ← check_magic;
  if negb (err =? 0) then mret err
  else
    off_struct ← fdt_off_dt_struct;
    size_struct ← fdt_size_dt_struct;
    off_strings ← fdt_off_dt_strings;
    size_strings ← fdt_size_dt_strings;
    totalsize ← fdt_totalsize;
    if off_struct >? MAX_UINT32 - size_struct then mret (- FDT_ERR_BADOFFSET)
    else if off_strings >? MAX_UINT32 - size_strings then mret (- FDT_ERR_BADOFFSET)
    else if u32 (off_struct + size_struct) >? totalsize then mret (- FDT_ERR_BADOFFSET)
    else if u32 (off_strings + size_strings) >? totalsize then mret (- FDT_ERR_BADOFFSET)
    else mret 0.

Definition raw_offset_ptr (offset : Z) : M S R Z :=
  off ← fdt_off_dt_struct; mret (off + offset).

(** [fdt_offset_ptr]: [len] bytes of the structure block at [offset]. *)
Definition fdt_offset_ptr (offset len : Z) : M S R (option Z) :=
  off ← fdt_off_dt_struct;
  let absoffset := u32 (offset + off) in
  totalsize ← fdt_totalsize;
  if (absoffset <? u32 offset) || (u32 (absoffset + len) <? absoffset)
     || (u32 (absoffset + len) >? totalsize) then mret None
  else
    version ← fdt_version;
    size_struct ← fdt_size_dt_struct;
    if (0x11 <=? version) &&
       ((u32 (offset + len) <? u32 offset) || (u32 (offset + len) >? size_struct))
    then mret None
    else p ← raw_offset_ptr offset; mret (Some p).

(** The name of a [FDT_BEGIN_NODE] tag: the offset after its terminator. *)
Fixpoint skip_name (fuel : nat) (offset : Z) : M S R (option Z) :=
  match fuel with
  | O => stop Forever
  | Datatypes.S fuel' =>
      p ← fdt_offset_ptr offset 1;
      match p with
      | None => mret None
      | Some p =>
          c ← fdt8 p;
          if c =? 0 then mret (Some (s32 (offset + 1))) else skip_name fuel' (s32 (offset + 1))
      end
  end.

(** Where the tag's own data ends, [None] for a premature end. *)
Definition tag_end (tag offset : Z) : M S R (option Z) :=
  if tag =? FDT_BEGIN_NODE then skip_name fdt_rounds offset
  else if tag =? FDT_PROP then
    lenp ← fdt_offset_ptr offset 4;
    match lenp with
    | None => mret None
    | Some lenp =>
        len ← fdt32 lenp;
        mret (Some (s32 (offset + (FDT_PROPERTY_SIZE - FDT_TAGSIZE + len))))
    end
  else if (tag =? FDT_END) || (tag =? FDT_END_NODE) || (tag =? FDT_NOP) then mret (Some offset)
  else mret None.

(** Returns the tag and [*nextoffset]. *)
Definition fdt_next_tag (startoffset : Z) : M S R (Z * Z) :=
  tagp ← fdt_offset_ptr startoffset FDT_TAGSIZE;
  match tagp with
  | None => mret (FDT_END, - FDT_ERR_TRUNCATED)
  | Some tagp =>
      tag ← fdt32 tagp;
      e ← tag_end tag (s32 (startoffset + FDT_TAGSIZE));
      match e with
      | None => mret (FDT_END, - FDT_ERR_BADSTRUCTURE)
      | Some offset =>
          p ← fdt_offset_ptr startoffset (u32 (offset - startoffset));
          match p with
          | None => mret (FDT_END, - FDT_ERR_BADSTRUCTURE)
          | Some _ => mret (tag, FDT_TAGALIGN offset)
          end
      end
  end.

(** [_fdt_check_node_offset] and [_fdt_check_prop_offset]: the offset after the
    tag, which must be the given one. *)
Definition check_tag_offset (want offset : Z) : M S R Z :=
  if (offset <? 0) || negb (Z.rem offset FDT_TAGSIZE =? 0) then mret (- FDT_ERR_BADOFFSET)
  else
    t ← fdt_next_tag offset;
    if negb (t.1 =? want) then mret (- FDT_ERR_BADOFFSET) else mret t.2.
Definition fdt_check_node_offset : Z -> M S R Z := check_tag_offset FDT_BEGIN_NODE.
Definition fdt_check_prop_offset : Z -> M S R Z := check_tag_offset FDT_PROP.

(** [fdt_next_node]: returns the offset and [*depth]; [depth] is [None] for a
    [NULL] pointer. *)
Fixpoint next_node_loop (fuel : nat) (offset : Z) (depth : option Z) :
    M S R (Z * option Z) :=
  match fuel with
  | O => stop Forever
  | Datatypes.S fuel' =>
      t ← fdt_next_tag offset;
      let '(tag, nextoffset) := t in
      if tag =? FDT_BEGIN_NODE then mret (offset, (fun d => d + 1) <$> depth)
      else if tag =? FDT_END_NODE then
        match depth with
        | Some d =>
            if d - 1 <? 0 then mret (nextoffset, Some (d - 1))
            else next_node_loop fuel' nextoffset (Some (d - 1))
        | None => next_node_loop fuel' nextoffset None
        end
      else if tag =? FDT_END then
        if (0 <=? nextoffset)
           || ((nextoffset =? - FDT_ERR_TRUNCATED) && bool_decide (depth = None))
        then mret (- FDT_ERR_NOTFOUND, depth)
        else mret (nextoffset, depth)
      else next_node_loop fuel' nextoffset depth
  end.

Definition fdt_next_node (offset : Z) (depth : option Z) : M S R (Z * option Z) :=
  if 0 <=? offset then
    nextoffset ← fdt_check_node_offset offset;
    if nextoffset <? 0 then mret (nextoffset, depth)
    else next_node_loop fdt_rounds nextoffset depth
  else next_node_loop fdt_rounds 0 depth.

Definition depth_of (d : option Z) : Z := default 0 d.

Definition fdt_first_subnode (offset : Z) : M S R Z :=
  n ← fdt_next_node offset (Some 0);
  if (n.1 <? 0) || negb (depth_of n.2 =? 1) then mret (- FDT_ERR_NOTFOUND) else mret n.1.

Fixpoint next_subnode_loop (fuel : nat) (offset depth : Z) : M S R Z :=
  match fuel with
  | O => stop Forever
  | Datatypes.S fuel' =>
      n ← fdt_next_node offset (Some depth);
      let depth := depth_of n.2 in
      if (n.1 <? 0) || (depth <? 1) then mret (- FDT_ERR_NOTFOUND)
      else if depth >? 1 then next_subnode_loop fuel' n.1 depth
      else mret n.1
  end.
Definition fdt_next_subnode (offset : Z) : M S R Z :=
  next_subnode_loop fdt_rounds offset 1.

(** ** Names and properties *)

(** [strlen] of a string inside the blob. *)
Definition strlen_at (p : Z) : M S R Z :=
  n ← need OutOfBounds (if 0 <=? p then memchr (drop (Z.to_nat p) fdt) 0 else None);
  mret (Z.of_nat n).

(** [memcmp (p, s, len) == 0]. *)
Definition mem_eq (p : Z) (s : list Z) (len : Z) : M S R bool :=
  b ← need OutOfBounds (buf_read fdt p len);
  s ← need OutOfBounds (buf_read s 0 len);
  mret (bool_decide (b = s)).

(** [_fdt_nodename_eq]: the name, or the name with its unit address left out. *)
Definition fdt_nodename_eq (offset : Z) (s : list Z) (len : Z) : M S R bool :=
  p ← fdt_offset_ptr (s32 (offset + FDT_TAGSIZE)) (u32 (len + 1));
  match p with
  | None => mret false
  | Some p =>
      e ← mem_eq p s len;
      if negb e then mret false
      else
        c ← fdt8 (p + len);
        if c =? 0 then mret true
        else mret (negb (bool_decide (is_Some (memchr (take (Z.to_nat len) s) 64))) && (c =? 64))
  end.

Definition fdt_string (stroffset : Z) : M S R Z :=
  off ← fdt_off_dt_strings; mret (off + stroffset).

Definition fdt_string_eq (stroffset : Z) (s : list Z) (len : Z) : M S R bool :=
  p ← fdt_string stroffset;
  n ← strlen_at p;
  if n =? len then mem_eq p s len else mret false.

Fixpoint nextprop (fuel : nat) (offset : Z) : M S R Z :=
  match fuel with
  | O => stop Forever
  | Datatypes.S fuel' =>
      t ← fdt_next_tag offset;
      let '(tag, nextoffset) := t in
      if tag =? FDT_END then
        if 0 <=? nextoffset then mret (- FDT_ERR_BADSTRUCTURE) else mret nextoffset
      else if tag =? FDT_PROP then mret offset
      else if tag =? FDT_NOP then nextprop fuel' nextoffset
      else mret (- FDT_ERR_NOTFOUND)
  end.

Definition fdt_first_property_offset (nodeoffset : Z) : M S R Z :=
  offset ← fdt_check_node_offset nodeoffset;
  if offset <? 0 then mret offset else nextprop fdt_rounds offset.
Definition fdt_next_property_offset (offset : Z) : M S R Z :=
  offset ← fdt_check_prop_offset offset;
  if offset <? 0 then mret offset else nextprop fdt_rounds offset.

(** Returns the property and [*lenp]. *)
Definition fdt_get_property_by_offset (offset : Z) : M S R (option Z * Z) :=
  err ← fdt_check_prop_offset offset;
  if err <? 0 then mret (None, err)
  else
    prop ← raw_offset_ptr offset;
    len ← fdt32 (prop + 4);
    mret (Some prop, s32 len).

Fixpoint property_loop (fuel : nat) (offset : Z) (name : list Z) (namelen : Z) :
    M S R (option Z * Z) :=
  match fuel with
  | O => stop Forever
  | Datatypes.S fuel' =>
      if offset <? 0 then mret (None, offset)
      else
        p ← fdt_get_property_by_offset offset;
        match p.1 with
        | None => mret (None, - FDT_ERR_INTERNAL)
        | Some prop =>
            nameoff ← fdt32 (prop + 8);
            e ← fdt_string_eq (s32 nameoff) name namelen;
            if (e : bool) then mret (Some prop, p.2)
            else
              offset ← fdt_next_property_offset offset;
              property_loop fuel' offset name namelen
        end
  end.

Definition fdt_get_property_namelen (offset : Z) (name : list Z) (namelen : Z) :
    M S R (option Z * Z) :=
  offset ← fdt_first_property_offset offset;
  property_loop fdt_rounds offset name namelen.
Definition fdt_get_property (nodeoffset : Z) (name : list Z) : M S R (option Z * Z) :=
  fdt_get_property_namelen nodeoffset name (AsciiStrLen name).

(** A pointer to the value of the property, and its length. *)
Definition fdt_getprop_namelen (nodeoffset : Z) (name : list Z) (namelen : Z) :
    M S R (option Z * Z) :=
  p ← fdt_get_property_namelen nodeoffset name namelen;
  mret ((fun prop => prop + FDT_PROPERTY_SIZE) <$> p.1, p.2).
Definition fdt_getprop (nodeoffset : Z) (name : list Z) : M S R (option Z * Z) :=
  fdt_getprop_namelen nodeoffset name (AsciiStrLen name).

(** ** Paths *)

Fixpoint subnode_loop (fuel : nat) (offset depth : Z) (name : list Z) (namelen : Z) :
    M S R Z :=
  match fuel with
  | O => stop Forever
  | Datatypes.S fuel' =>
      if (offset <? 0) || (depth <? 0) then
        if depth <? 0 then mret (- FDT_ERR_NOTFOUND) else mret offset
      else
        e ← (if depth =? 1 then fdt_nodename_eq offset name namelen else mret false);
        if (e : bool) then mret offset
        else
          n ← fdt_next_node offset (Some depth);
          subnode_loop fuel' n.1 (depth_of n.2) name namelen
  end.

Definition fdt_subnode_offset_namelen (offset : Z) (name : list Z) (namelen : Z) : M S R Z :=
  err ← fdt_check_header;
  if negb (err =? 0) then mret err
  else subnode_loop fdt_rounds offset 0 name namelen.

Fixpoint drop_slashes (p : list Z) : list Z :=
  match p with
  | c :: p' => if c =? 47 then drop_slashes p' else p
  | [] => []
  end.

(** The components of a path, from [offset]. *)
Fixpoint path_loop (fuel : nat) (p : list Z) (offset : Z) : M S R Z :=
  match fuel with
  | O => stop Forever
  | Datatypes.S fuel' =>
      match drop_slashes p with
      | [] => mret offset
      | p =>
          let namelen := default (length p) (memchr p 47) in
          offset ← (fdt_subnode_offset_namelen offset p (Z.of_nat namelen) : M S R Z);
          if offset <? 0 then mret offset
          else path_loop fuel' (drop namelen p) offset
      end
  end.

(** An absolute path, which looks at no alias. *)
Definition absolute_path_offset (path : list Z) : M S R Z :=
  err ← fdt_check_header;
  if negb (err =? 0) then mret err
  else path_loop (Datatypes.S (length path)) path 0.

(** Returns the alias, a string inside the blob. *)
Definition fdt_get_alias_namelen (name : list Z) (namelen : Z) : M S R (option Z) :=
  aliasoffset ← absolute_path_offset (L "/aliases");
  if aliasoffset <? 0 then mret None
  else p ← fdt_getprop_namelen aliasoffset name namelen; mret p.1.

(** The bytes of a string of the blob, up to its terminator. *)
Definition string_at (p : Z) : M S R (list Z) :=
  n ← strlen_at p;
  need OutOfBounds (buf_read fdt p n).

(** An alias that names itself is followed until the stack ends. *)
Fixpoint path_offset (fuel : nat) (path : list Z) : M S R Z :=
  match fuel with
  | O => stop Forever
  | Datatypes.S fuel' =>
      err ← fdt_check_header;
      if negb (err =? 0) then mret err
      else if hd0 path =? 47 then path_loop (Datatypes.S (length path)) path 0
      else
        let q := default (length path) (memchr path 47) in
        a ← fdt_get_alias_namelen path (Z.of_nat q);
        match a with
        | None => mret (- FDT_ERR_BADPATH)
        | Some a =>
            target ← string_at a;
            offset ← path_offset fuel' target;
            path_loop (Datatypes.S (length path)) (drop q path) offset
        end
  end.
Definition fdt_path_offset (path : list Z) : M S R Z := path_offset fdt_rounds path.
End Fdt.
