(* ===== verification/FdtSpec.v ===== *)
(** The format the device tree reader decodes, and what its functions do on a
    blob of that format.

    A structure block is an encoding of a list of tags ([tok]): [encs] leaves
    open what pads a tag to four bytes, [enc] is the encoding with zeros.  A
    device tree is the list of tags of its nodes ([flatten]).  [fdt_next_tag] decodes the
    encoding tag by tag, the node walk of [fdt.c] follows the tree, and the
    property search of [fdt_ro.c] finds the first property of a name. *)
From Stdlib Require Import ZArith Lia.
From stdpp Require Import base list numbers option.
From S2P Require Import Prelude EfiBase Fdt.

(** * The encoding *)

Definition be_put (n : nat) (v : Z) : list Z := reverse (le_put n v).

(** Zeros up to a multiple of four bytes. *)
Definition pad4 (l : list Z) : list Z := l ++ zeros ((- Z.of_nat (length l)) mod 4).

Inductive tok : Type :=
| TBegin (name : list Z)
| TProp (nameoff : Z) (value : list Z)
| TNop
| TEndNode
| TEnd.

Definition tag_of (t : tok) : Z :=
  match t with
  | TBegin _ => FDT_BEGIN_NODE
  | TProp _ _ => FDT_PROP
  | TNop => FDT_NOP
  | TEndNode => FDT_END_NODE
  | TEnd => FDT_END
  end.

(** What follows the tag word. *)
Definition tok_body (t : tok) : list Z :=
  match t with
  | TBegin name => pad4 (name ++ [0])
  | TProp nameoff value =>
      be_put 4 (Z.of_nat (length value)) ++ be_put 4 nameoff ++ pad4 value
  | _ => []
  end.
Definition enc_tok (t : tok) : list Z := be_put 4 (tag_of t) ++ tok_body t.
Definition enc (ts : list tok) : list Z := mjoin (map enc_tok ts).

(** The data of a tag, and the tag with any padding behind its data. *)
Definition tok_data (t : tok) : list Z :=
  match t with
  | TBegin name => name ++ [0]
  | TProp nameoff value => be_put 4 (Z.of_nat (length value)) ++ be_put 4 nameoff ++ value
  | _ => []
  end.
Definition enc_as (t : tok) (b : list Z) : Prop :=
  exists pad, b = be_put 4 (tag_of t) ++ tok_data t ++ pad /\
    Z.of_nat (length pad) = (- Z.of_nat (length (tok_data t))) mod 4.

(** The block encodes the tags. *)
Inductive encs : list tok -> list Z -> Prop :=
| encs_nil : encs [] []
| encs_cons t b ts block : enc_as t b -> encs ts block -> encs (t :: ts) (b ++ block).

Definition tok_ok (t : tok) : Prop :=
  match t with
  | TBegin name => Forall (fun c => is_u8 c /\ c <> 0) name
  | TProp nameoff value => is_u32 nameoff /\ Forall is_u8 value
  | _ => True
  end.

(** A tree: the properties name their string by its offset. *)
Inductive dnode : Type :=
| DNode (name : list Z) (props : list (Z * list Z)) (children : list dnode).

Definition node_name (n : dnode) : list Z := let 'DNode name _ _ := n in name.
Definition node_props (n : dnode) : list (Z * list Z) := let 'DNode _ ps _ := n in ps.
Definition node_children (n : dnode) : list dnode := let 'DNode _ _ cs := n in cs.

Definition prop_toks (ps : list (Z * list Z)) : list tok := map (fun p => TProp p.1 p.2) ps.

Fixpoint flatten (n : dnode) : list tok :=
  let 'DNode name ps cs := n in
  TBegin name :: prop_toks ps ++ mjoin (map flatten cs) ++ [TEndNode].
Definition flatten_all (cs : list dnode) : list tok := mjoin (map flatten cs).

(** A whole blob, as the compiler of device trees lays it out: header, memory
    reservations, structure block and strings. *)
Definition mk_blob (block strings : list Z) : list Z :=
  let n := Z.of_nat (length block) in
  let m := Z.of_nat (length strings) in
  be_put 4 FDT_MAGIC ++ be_put 4 (56 + n + m) ++ be_put 4 56 ++ be_put 4 (56 + n) ++
  be_put 4 40 ++ be_put 4 17 ++ be_put 4 16 ++ be_put 4 0 ++ be_put 4 m ++ be_put 4 n ++
  zeros 16 ++ block ++ strings.
Definition tree_block (t : dnode) : list Z := enc (flatten t ++ [TEnd]).

(** * Words of a blob *)

Lemma length_be_put n v : length (be_put n v) = n.
Proof. unfold be_put. by rewrite length_reverse, length_le_put. Qed.

Lemma be_get_put n v : be_get (be_put n v) = v mod 2 ^ (8 * Z.of_nat n).
Proof. unfold be_get, be_put. by rewrite reverse_involutive, le_get_put. Qed.

Lemma be_get_put_small n v : 0 <= v < 2 ^ (8 * Z.of_nat n) -> be_get (be_put n v) = v.
Proof. intros. rewrite be_get_put. by apply Z.mod_small. Qed.

Lemma be_put_u8 n v : Forall is_u8 (be_put n v).
Proof. unfold be_put. apply Forall_reverse, le_put_u8. Qed.

Lemma be_get_bound b : Forall is_u8 b -> 0 <= be_get b < 2 ^ (8 * Z.of_nat (length b)).
Proof.
  intros H. unfold be_get. rewrite <- length_reverse. apply le_get_bound.
  by apply Forall_reverse.
Qed.

(** The word at [p], when it lies inside. *)
Definition word (fdt : list Z) (p : Z) : option Z := be_get <$> buf_read fdt p 4.

Section Words.
Context {S R : Type}.
Implicit Types (s : S).

Lemma fdt32_word fdt p v s : word fdt p = Some v -> fdt32 (R := R) fdt p s = (Go v, s).
Proof.
  unfold word, fdt32. intros (b & Hb & ->)%fmap_Some. munfold. by rewrite Hb.
Qed.

Lemma word_u32 fdt p v : Forall is_u8 fdt -> word fdt p = Some v -> is_u32 v.
Proof.
  intros Hu (b & Hb & ->)%fmap_Some. pose proof (length_buf_read _ _ _ _ Hb) as Hl.
  apply buf_read_u8 in Hb; [|done]. apply be_get_bound in Hb.
  replace (8 * Z.of_nat (length b)) with 32 in Hb by lia. done.
Qed.

Lemma word_in_range fdt p :
  0 <= p -> p + 4 <= Z.of_nat (length fdt) -> exists v, word fdt p = Some v.
Proof.
  intros. destruct (buf_read_in_range fdt p 4) as (d & Hd & _); [lia..|].
  exists (be_get d). unfold word. by rewrite Hd.
Qed.
End Words.

(** * A blob with a sane header *)

(** The blob is at least a header, its bytes are bytes, and its total size is
    inside the object that holds it and can be rounded up as an [int]. *)
Record blob_ok (fdt : list Z) (total off size version : Z) : Prop := {
  ok_u8 : Forall is_u8 fdt;
  ok_total : word fdt 4 = Some total;
  ok_total_in : total <= Z.of_nat (length fdt) /\ total <= 2 ^ 31 - 4;
  ok_off : word fdt 8 = Some off;
  ok_version : word fdt 20 = Some version;
  ok_size : word fdt 36 = Some size;
}.

Lemma blob_ok_bounds fdt total off size version :
  blob_ok fdt total off size version ->
  0 <= total <= 2 ^ 31 - 4 /\ is_u32 off /\ is_u32 version /\ is_u32 size.
Proof.
  intros [Hu Ht [Hl Hl'] Ho Hv Hs]. apply word_u32 in Ht, Ho, Hv, Hs; [|done..].
  unfold is_u32 in *. lia.
Qed.

Definition is_int (x : Z) : Prop := - 2 ^ 31 <= x < 2 ^ 31.

Lemma s32_int x : is_int (s32 x).
Proof.
  unfold s32, is_int. pose proof (u32_range x) as H. unfold is_u32 in H.
  case_match eqn:E; bools; lia.
Qed.

(** Rounding an offset up to a multiple of four. *)
Definition align4 (x : Z) : Z := (x + 3) / 4 * 4.

Lemma FDT_ALIGN_4 x : 0 <= x < 2 ^ 63 -> FDT_ALIGN x 4 = align4 x.
Proof.
  intros Hx. unfold FDT_ALIGN, align4. rewrite (u64_small (x + 4 - 1)) by lia.
  replace (u64 (Z.lnot (4 - 1))) with (Z.land (Z.lnot 3) (Z.ones 64)) by reflexivity.
  rewrite Z.land_assoc, (Z.land_comm _ (Z.ones 64)), Z.land_assoc.
  rewrite (Z.land_comm (Z.ones 64)), Z.land_ones, Z.mod_small by lia.
  rewrite <- Z.ldiff_land. change 3 with (Z.ones 2) at 1.
  rewrite Z.ldiff_ones_r, Z.shiftl_mul_pow2, Z.shiftr_div_pow2 by lia.
  change (2 ^ 2) with 4. do 2 f_equal. lia.
Qed.

Lemma align4_bounds x : x <= align4 x <= x + 3.
Proof. unfold align4. pose proof (Z.div_mod (x + 3) 4). pose proof (Z.mod_pos_bound (x + 3) 4). lia. Qed.

Lemma align4_id x : (4 | x) -> align4 x = x.
Proof.
  intros [k ->]. unfold align4. rewrite Z.div_add_l by lia. change (3 / 4) with 0. lia.
Qed.

Lemma align4_divide x : (4 | align4 x).
Proof. exists ((x + 3) / 4). done. Qed.

Lemma FDT_TAGALIGN_small x : 0 <= x <= 2 ^ 31 - 4 -> FDT_TAGALIGN x = align4 x.
Proof.
  intros. unfold FDT_TAGALIGN, FDT_TAGSIZE. rewrite FDT_ALIGN_4 by lia. apply s32_small.
  pose proof (align4_bounds x). pose proof (align4_divide x) as [k Hk]. lia.
Qed.

Section Safe.
Context {S R : Type} (fdt : list Z) (total off size version : Z).
Context (Hok : blob_ok fdt total off size version).
Implicit Types (s : S).

(** [fdt_offset_ptr] as a test on its arguments. *)
Definition ptr_null (offset len : Z) : bool :=
  (u32 (offset + off) <? u32 offset) || (u32 (u32 (offset + off) + len) <? u32 (offset + off))
  || (u32 (u32 (offset + off) + len) >? total)
  || ((0x11 <=? version) &&
      ((u32 (offset + len) <? u32 offset) || (u32 (offset + len) >? size))).

Lemma fdt_offset_ptr_run offset len s :
  fdt_offset_ptr (R := R) fdt offset len s =
  (Go (if ptr_null offset len then None else Some (off + offset)), s).
Proof.
  unfold fdt_offset_ptr, raw_offset_ptr, ptr_null, fdt_off_dt_struct, fdt_totalsize,
    fdt_version, fdt_size_dt_struct. destruct Hok as [_ Ht _ Ho Hv Hs].
  rewrite (bind_go _ _ _ _ _ (fdt32_word _ _ _ _ Ho)).
  rewrite (bind_go _ _ _ _ _ (fdt32_word _ _ _ _ Ht)).
  case_match eqn:E1; [done|]. rewrite orb_false_l.
  rewrite (bind_go _ _ _ _ _ (fdt32_word _ _ _ _ Hv)).
  rewrite (bind_go _ _ _ _ _ (fdt32_word _ _ _ _ Hs)).
  case_match; [done|].
  erewrite bind_go; [done|].
  by rewrite (bind_go _ _ _ _ _ (fdt32_word _ _ _ _ Ho)).
Qed.

(** A pointer it returns has all its bytes inside the blob. *)
Lemma ptr_null_false offset len :
  is_int offset -> is_u32 len -> ptr_null offset len = false ->
  0 <= offset /\ off + offset + len <= total /\ offset + len < 2 ^ 31.
Proof.
  intros Ho Hl H. apply blob_ok_bounds in Hok as (Ht & Hof & _ & _).
  unfold ptr_null in H. rewrite !orb_false_iff in H. destruct H as [[[H1 H2] H3] _].
  rewrite Z.gtb_ltb in H3. bools. unfold is_int, is_u32, u32 in *.
  assert (Hpos : 0 <= offset).
  { destruct (decide (0 <= offset)); [done|exfalso].
    replace (offset mod 2 ^ 32) with (offset + 2 ^ 32) in * by
      (apply (Z.mod_unique _ _ (-1)); lia).
    destruct (decide (0 <= offset + off)).
    - rewrite (Z.mod_small (offset + off)) in H1 by lia. lia.
    - replace ((offset + off) mod 2 ^ 32) with (offset + off + 2 ^ 32) in * by
        (apply (Z.mod_unique _ _ (-1)); lia).
      destruct (decide (offset + off + 2 ^ 32 + len < 2 ^ 32)).
      + rewrite Z.mod_small in H3 by lia. lia.
      + replace ((offset + off + 2 ^ 32 + len) mod 2 ^ 32) with (offset + off + len) in H2 by
          (apply (Z.mod_unique _ _ 1); lia). lia. }
  rewrite (Z.mod_small offset) in H1 by lia.
  assert (Hno : offset + off < 2 ^ 32).
  { destruct (decide (offset + off < 2 ^ 32)); [done|exfalso].
    replace ((offset + off) mod 2 ^ 32) with (offset + off - 2 ^ 32) in H1 by
      (apply (Z.mod_unique _ _ 1); lia). lia. }
  rewrite (Z.mod_small (offset + off)) in * by lia.
  destruct (decide (offset + off + len < 2 ^ 32)).
  - rewrite Z.mod_small in H3 by lia. lia.
  - replace ((offset + off + len) mod 2 ^ 32) with (offset + off + len - 2 ^ 32) in H2 by
      (apply (Z.mod_unique _ _ 1); lia). lia.
Qed.

Lemma word_inside p : 0 <= p -> p + 4 <= total -> exists v, word fdt p = Some v /\ is_u32 v.
Proof.
  intros. pose proof (ok_total_in _ _ _ _ _ Hok).
  destruct (word_in_range fdt p) as [v Hv]; [lia..|]. exists v. split; [done|].
  by eapply word_u32, Hv; apply Hok.
Qed.

Lemma fdt8_inside p s : 0 <= p -> p + 1 <= total -> exists c, fdt8 (R := R) fdt p s = (Go c, s).
Proof.
  intros. pose proof (ok_total_in _ _ _ _ _ Hok).
  destruct (buf_read_in_range fdt p 1) as (d & Hd & _); [lia..|].
  exists (be_get d). unfold fdt8. munfold. by rewrite Hd.
Qed.

Lemma skip_name_safe fuel offset s :
  is_int offset -> (0 < fuel)%nat -> (0 <= offset -> total - (off + offset) < Z.of_nat fuel) ->
  exists r, skip_name (R := R) fdt fuel offset s = (Go r, s) /\
    forall e, r = Some e -> offset < e /\ off + e <= total.
Proof.
  pose proof (blob_ok_bounds _ _ _ _ _ Hok) as (Ht & Hof & _ & _). unfold is_u32 in Hof.
  revert offset. induction fuel as [|fuel IH]; intros offset Hi Hf Hm; [lia|].
  cbn [skip_name]. rewrite (bind_go _ _ _ _ _ (fdt_offset_ptr_run _ _ _)).
  destruct (ptr_null offset 1) eqn:E; [by eexists|].
  apply ptr_null_false in E as (Ho & Hb & Hlt); [|done|done].
  destruct (fdt8_inside (off + offset) s) as [c Hc]; [lia..|].
  rewrite (bind_go _ _ _ _ _ Hc), s32_small by lia.
  destruct (c =? 0).
  - eexists. split; [done|]. intros e [= <-]. lia.
  - destruct (IH (offset + 1)) as (r & Hr & Hs); [unfold is_int in *; lia|lia|lia|].
    exists r. split; [done|]. intros e He. specialize (Hs e He). lia.
Qed.

(** The length word of a property that makes its encoding end where it begins. *)
Definition STUCK_LEN : Z := 0xFFFFFFF4.

Definition known_tag (tag : Z) : Prop :=
  tag = FDT_BEGIN_NODE \/ tag = FDT_PROP \/ tag = FDT_END \/ tag = FDT_END_NODE \/ tag = FDT_NOP.

Lemma tag_end_safe tag start s :
  0 <= start -> off + start + 4 <= total -> start + 4 < 2 ^ 31 ->
  exists r, tag_end (R := R) fdt tag (start + 4) s = (Go r, s) /\
    forall e, r = Some e -> known_tag tag /\ is_int e /\
      (start < e /\ off + e <= total \/
       tag = FDT_PROP /\ exists len, word fdt (off + start + 4) = Some len /\ is_u32 len /\
         e = s32 (start + 12 + len)).
Proof.
  intros H0 Hb Hlt. pose proof (blob_ok_bounds _ _ _ _ _ Hok) as (Ht & Hof & _ & _).
  unfold is_u32 in Hof. unfold tag_end, known_tag.
  destruct (Z.eqb_spec tag FDT_BEGIN_NODE) as [Ht1|Ht1].
  { destruct (skip_name_safe (fdt_rounds fdt) (start + 4) s) as (r & Hr & Hs);
      [unfold is_int; lia|unfold fdt_rounds; lia| |].
    { pose proof (ok_total_in _ _ _ _ _ Hok). unfold fdt_rounds. lia. }
    exists r. split; [done|]. intros e He. specialize (Hs e He). unfold is_int. lia. }
  destruct (Z.eqb_spec tag FDT_PROP) as [Ht2|Ht2].
  { rewrite (bind_go _ _ _ _ _ (fdt_offset_ptr_run _ _ _)).
    destruct (ptr_null (start + 4) 4) eqn:E; [by eexists|].
    apply ptr_null_false in E as (Ho & Hb' & Hlt'); [|unfold is_int; lia|done].
    destruct (word_inside (off + (start + 4))) as (len & Hw & Hlen); [lia..|].
    rewrite (bind_go _ _ _ _ _ (fdt32_word _ _ _ _ Hw)). eexists. split; [done|].
    intros e [= <-]. split; [auto|]. split; [apply s32_int|]. right. split; [done|].
    exists len. rewrite Z.add_assoc in Hw. split_and!; [done|done|].
    f_equal. unfold FDT_PROPERTY_SIZE, FDT_TAGSIZE. lia. }
  case_match eqn:E; [|by eexists]. eexists. split; [done|]. intros e [= <-].
  rewrite !orb_true_iff, !Z.eqb_eq in E. unfold is_int. split; [tauto|]. lia.
Qed.

Lemma int_of_distance start e :
  is_int e -> 0 <= start -> start + u32 (e - start) < 2 ^ 31 -> e = start + u32 (e - start).
Proof.
  unfold is_int, u32. intros He H0 H.
  pose proof (Z.div_mod (e - start) (2 ^ 32)). pose proof (Z.mod_pos_bound (e - start) (2 ^ 32)).
  lia.
Qed.

Lemma stuck_distance start len :
  is_u32 len -> u32 (s32 (start + 12 + len) - start) = 0 -> len = STUCK_LEN.
Proof.
  unfold is_u32, s32, u32, STUCK_LEN. intros Hl H.
  pose proof (Z.div_mod (start + 12 + len) (2 ^ 32)).
  pose proof (Z.mod_pos_bound (start + 12 + len) (2 ^ 32)).
  pose proof (Z.div_mod ((if (start + 12 + len) mod 2 ^ 32 <? 2 ^ 31
    then (start + 12 + len) mod 2 ^ 32 else (start + 12 + len) mod 2 ^ 32 - 2 ^ 32) - start) (2 ^ 32)).
  case_match; lia.
Qed.

(** A property of the length [STUCK_LEN] at an offset. *)
Definition stuck_at (o : Z) : Prop := word fdt (off + o) = Some FDT_PROP /\ word fdt (off + o + 4) = Some STUCK_LEN.

(** [fdt_next_tag] reads inside the blob and returns: an end with an error, or
    a tag of the format and the offset after it. *)
Lemma next_tag_safe start s :
  is_int start ->
  exists tag next, fdt_next_tag (R := R) fdt start s = (Go (tag, next), s) /\
    (tag = FDT_END /\ next < 0 \/
     known_tag tag /\ 0 <= start <= next /\ off + start + 4 <= total /\ off + next <= total + 3 /\
     (start < next \/ stuck_at start)).
Proof.
  intros Hi. pose proof (blob_ok_bounds _ _ _ _ _ Hok) as (Ht & Hof & _ & _).
  unfold is_u32 in Hof. unfold fdt_next_tag, FDT_TAGSIZE.
  rewrite (bind_go _ _ _ _ _ (fdt_offset_ptr_run _ _ _)).
  destruct (ptr_null start 4) eqn:E; [do 2 eexists; split; [done|]; by left|].
  apply ptr_null_false in E as (Ho & Hb & Hlt); [|done|done].
  destruct (word_inside (off + start)) as (tag & Hw & Htag); [lia..|].
  rewrite (bind_go _ _ _ _ _ (fdt32_word _ _ _ _ Hw)), s32_small by lia.
  destruct (tag_end_safe tag start s) as (r & Hr & Hs); [lia..|].
  rewrite (bind_go _ _ _ _ _ Hr).
  destruct r as [e|]; [|do 2 eexists; split; [done|]; by left].
  rewrite (bind_go _ _ _ _ _ (fdt_offset_ptr_run _ _ _)).
  destruct (ptr_null start (u32 (e - start))) eqn:E2; [do 2 eexists; split; [done|]; by left|].
  apply ptr_null_false in E2 as (_ & Hb2 & Hlt2); [|done|apply u32_range].
  destruct (Hs e eq_refl) as (Hk & Hie & Hcase).
  pose proof (int_of_distance start e Hie Ho Hlt2) as He.
  pose proof (u32_range (e - start)) as Hur. unfold is_u32 in Hur.
  do 2 eexists. split; [done|]. right. rewrite FDT_TAGALIGN_small by lia.
  pose proof (align4_bounds e). split_and!; [done|lia|lia|lia|lia|].
  destruct (decide (start < align4 e)) as [|Hn]; [by left|right].
  destruct Hcase as [?|(-> & len & Hwl & Hlen & ->)]; [lia|].
  split; [done|]. rewrite Hwl. f_equal. apply (stuck_distance start); [done|]. lia.
Qed.

(** The offsets of the tags a walk from [start] comes to. *)
Inductive on_walk (start : Z) : Z -> Prop :=
| on_walk_start : on_walk start start
| on_walk_next o tag next s :
    on_walk start o -> fdt_next_tag (R := R) fdt o s = (Go (tag, next), s) -> tag <> FDT_END -> on_walk start next.

(** The node walk: every round moves on, unless a property is stuck. *)
Definition no_stuck_property (start : Z) : Prop := forall o, on_walk start o -> ~ stuck_at o.

Lemma next_node_loop_safe start fuel offset depth s :
  no_stuck_property start -> on_walk start offset -> 0 <= offset -> off + offset <= total + 3 -> (0 < fuel)%nat ->
  total + 3 - (off + offset) < Z.of_nat fuel ->
  exists r d, next_node_loop (R := R) fdt fuel offset depth s = (Go (r, d), s) /\ r <= total + 3 - off.
Proof.
  intros Hns. pose proof (blob_ok_bounds _ _ _ _ _ Hok) as (Ht & Hof & _ & _). unfold is_u32 in Hof.
  revert offset depth. induction fuel as [|fuel IH]; intros offset depth Hw0 H0 Hb Hf Hm; [lia|].
  cbn [next_node_loop].
  destruct (next_tag_safe offset s) as (tag & next & Hn & Hcase); [unfold is_int; lia|].
  rewrite (bind_go _ _ _ _ _ Hn). cbv beta iota.
  assert (Hgo : tag <> FDT_END -> forall d,
    exists r d', next_node_loop (R := R) fdt fuel next d s = (Go (r, d'), s) /\ r <= total + 3 - off).
  { intros Hne d. destruct Hcase as [[? _]|(_ & Hle & Hb4 & Hb3 & [Hlt|Hst])];
      [done| |by destruct (Hns offset)]. apply IH; try lia. by eapply on_walk_next. }
  repeat case_match; bools; try (do 2 eexists; split; [done|]; unfold FDT_ERR_NOTFOUND; destruct Hcase; lia);
    apply Hgo; unfold FDT_END, FDT_END_NODE in *; lia.
Qed.
Lemma check_tag_offset_safe want offset s :
  is_int offset -> want <> FDT_END ->
  exists r, check_tag_offset (R := R) fdt want offset s = (Go r, s) /\
    (0 <= r -> 0 <= offset <= r /\ off + r <= total + 3 /\
       on_walk offset r /\ (offset < r \/ stuck_at offset)).
Proof.
  intros Hi Hwant. unfold check_tag_offset, FDT_ERR_BADOFFSET.
  case_match; [eexists; split; [done|lia]|].
  destruct (next_tag_safe offset s Hi) as (tag & next & Hn & Hcase).
  rewrite (bind_go _ _ _ _ _ Hn). case_match eqn:Et; [eexists; split; [done|lia]|].
  eexists. split; [done|]. simpl in *. intros Hr. apply negb_false_iff, Z.eqb_eq in Et. subst tag.
  destruct Hcase as [|(_ & ? & ? & ? & Hc)]; [lia|]. split_and!; [lia..| |exact Hc].
  eapply on_walk_next; [apply on_walk_start|exact Hn|done].
Qed.

(** [fdt_next_node] reads inside the blob and returns, from any offset. *)
Lemma next_node_safe offset depth s :
  no_stuck_property (Z.max 0 offset) -> 4 <= off <= total -> is_int offset ->
  exists r d, fdt_next_node (R := R) fdt offset depth s = (Go (r, d), s) /\
    (0 <= r -> off + r <= total + 3).
Proof.
  intros Hns Hoff Hi. unfold fdt_next_node. pose proof (ok_total_in _ _ _ _ _ Hok) as Hl.
  destruct (0 <=? offset) eqn:E; bools.
  - rewrite Z.max_r in Hns by lia.
    destruct (check_tag_offset_safe FDT_BEGIN_NODE offset s Hi) as (r & Hr & Hs); [done|].
    unfold fdt_check_node_offset. rewrite (bind_go _ _ _ _ _ Hr).
    case_match eqn:E2; [do 2 eexists; split; [done|]; bools; lia|]. bools.
    destruct (Hs E2) as (H1 & H2 & Hw & [H3|Hp]); [|by destruct (Hns _ (on_walk_start offset))].
    destruct (next_node_loop_safe offset (fdt_rounds fdt) r depth s Hns Hw) as (q & d & Hq & Hle);
      [lia|lia|unfold fdt_rounds; lia|unfold fdt_rounds; lia|].
    exists q, d. split; [done|lia].
  - rewrite Z.max_l in Hns by lia.
    destruct (next_node_loop_safe 0 (fdt_rounds fdt) 0 depth s Hns (on_walk_start 0)) as (q & d & Hq & Hle);
      [lia|lia|unfold fdt_rounds; lia|unfold fdt_rounds; lia|].
    exists q, d. split; [done|lia].
Qed.

(** A stuck property: the walk stays at its offset for ever. *)
Lemma stuck_walk fuel offset depth s :
  fdt_next_tag (R := R) fdt offset s = (Go (FDT_PROP, offset), s) ->
  next_node_loop (R := R) fdt fuel offset depth s = (Halt Forever, s).
Proof.
  intros H. induction fuel as [|fuel IH]; [done|]. cbn [next_node_loop].
  rewrite (bind_go _ _ _ _ _ H). exact IH.
Qed.
End Safe.
