(* ===== verification/FdtTree.v ===== *)
(** What the device tree reader computes on the encoding of a tree: tags come
    back one by one, the subnode walk enumerates the children of a node, and a
    property search finds the first property with the name. *)
From Stdlib Require Import ZArith Lia.
From stdpp Require Import base list numbers option sets.
From S2P Require Import Prelude EfiBase Fdt FdtSpec.

(** * Lengths of the encoding *)

Lemma buf_read_mid pre d post :
  buf_read (pre ++ d ++ post) (Z.of_nat (length pre)) (Z.of_nat (length d)) = Some d.
Proof.
  apply buf_read_Some. rewrite !length_app. split_and!; [lia..|].
  by rewrite !Nat2Z.id, drop_app_length, take_app_length.
Qed.

Lemma length_pad4 l : Z.of_nat (length (pad4 l)) = align4 (Z.of_nat (length l)).
Proof.
  unfold pad4, zeros, align4. rewrite length_app, length_replicate.
  set (n := Z.of_nat (length l)).
  pose proof (Z.mod_pos_bound (- n) 4). pose proof (Z.div_mod (- n) 4).
  pose proof (Z.mod_pos_bound (n + 3) 4). pose proof (Z.div_mod (n + 3) 4). lia.
Qed.

Lemma align4_plus a n : (4 | a) -> align4 (a + n) = a + align4 n.
Proof.
  intros [k ->]. unfold align4. replace (k * 4 + n + 3) with (k * 4 + (n + 3)) by lia.
  rewrite Z.div_add_l by lia. lia.
Qed.

Lemma enc_tok_divide t : (4 | Z.of_nat (length (enc_tok t))).
Proof.
  unfold enc_tok. rewrite length_app, length_be_put, Nat2Z.inj_add.
  apply Z.divide_add_r; [by exists 1|].
  destruct t; cbn [tok_body]; try by exists 0.
  - rewrite length_pad4. apply align4_divide.
  - rewrite !length_app, !length_be_put, !Nat2Z.inj_add, length_pad4.
    repeat apply Z.divide_add_r; [by exists 1..|apply align4_divide].
Qed.

Lemma enc_app a b : enc (a ++ b) = enc a ++ enc b.
Proof. unfold enc. by rewrite map_app, join_app. Qed.

Lemma enc_divide ts : (4 | Z.of_nat (length (enc ts))).
Proof.
  induction ts as [|t ts IH]; [by exists 0|].
  change (t :: ts) with ([t] ++ ts). rewrite enc_app, length_app, Nat2Z.inj_add.
  apply Z.divide_add_r; [|done]. unfold enc. simpl. rewrite app_nil_r. apply enc_tok_divide.
Qed.

Lemma enc_cons t ts : enc (t :: ts) = enc_tok t ++ enc ts.
Proof. done. Qed.

(** The offset of what follows some tags. *)
Definition pos (ts : list tok) : Z := Z.of_nat (length (enc ts)).

Lemma pos_app a b : pos (a ++ b) = pos a + pos b.
Proof. unfold pos. rewrite enc_app, length_app. lia. Qed.

Lemma tok_len_pos t : 4 <= Z.of_nat (length (enc_tok t)).
Proof. unfold enc_tok. rewrite length_app, length_be_put. lia. Qed.

Lemma pos_count ts : 4 * Z.of_nat (length ts) <= pos ts.
Proof.
  unfold pos. induction ts as [|t ts IH]; [done|]. rewrite enc_cons, length_app. simpl length.
  pose proof (tok_len_pos t). lia.
Qed.

(** * Encodings with any padding *)

Lemma enc_tok_as t : enc_as t (enc_tok t).
Proof.
  assert (Hz : forall l : list Z, exists pad, pad4 l = l ++ pad /\
    Z.of_nat (length pad) = (- Z.of_nat (length l)) mod 4).
  { intros l. eexists. split; [reflexivity|]. unfold zeros. rewrite length_replicate.
    pose proof (Z.mod_pos_bound (- Z.of_nat (length l)) 4). lia. }
  unfold enc_as, enc_tok. destruct t as [name|nameoff value| | |]; cbn [tok_body tok_data];
    try by exists [].
  - destruct (Hz (name ++ [0])) as (pad & -> & Hp). by exists pad.
  - destruct (Hz value) as (pad & -> & Hp). exists pad. split; [by rewrite <- !app_assoc|].
    rewrite Hp, !length_app, !length_be_put, !Nat2Z.inj_add.
    replace (- (Z.of_nat 4 + (Z.of_nat 4 + Z.of_nat (length value))))
      with (- Z.of_nat (length value) + (-2) * 4) by lia.
    by rewrite Z_mod_plus_full.
Qed.

Lemma enc_as_inj_length t b b' : enc_as t b -> enc_as t b' -> length b = length b'.
Proof. intros (p & -> & Hp) (p' & -> & Hp'). rewrite !length_app. lia. Qed.

Lemma enc_as_length t b : enc_as t b -> length b = length (enc_tok t).
Proof. intros H. eapply enc_as_inj_length, enc_tok_as. exact H. Qed.

Lemma enc_encs ts : encs ts (enc ts).
Proof. induction ts as [|t ts IH]; [constructor|]. rewrite enc_cons. by constructor; [apply enc_tok_as|]. Qed.

Lemma encs_pos ts block : encs ts block -> Z.of_nat (length block) = pos ts.
Proof.
  unfold pos. induction 1 as [|t b ts block Hb _ IH]; [done|].
  rewrite enc_cons, !length_app, (enc_as_length _ _ Hb). lia.
Qed.

Lemma encs_app a b x y : encs a x -> encs b y -> encs (a ++ b) (x ++ y).
Proof.
  intros Ha Hb. induction Ha as [|t c ts block Hc _ IH]; [done|].
  rewrite <- app_assoc. cbn [app]. by constructor.
Qed.

Lemma encs_app_inv a b block :
  encs (a ++ b) block -> exists x y, block = x ++ y /\ encs a x /\ encs b y.
Proof.
  revert block. induction a as [|t a IH]; intros block H; [exists [], block; by split_and!; [|constructor|]|].
  inversion H as [|? c ? block' Hc Hr]; subst. destruct (IH _ Hr) as (x & y & -> & Hx & Hy).
  exists (c ++ x), y. split_and!; [by rewrite app_assoc|by constructor|done].
Qed.

Lemma encs_tok t block : encs [t] block <-> enc_as t block.
Proof.
  split.
  - intros H. inversion H as [|? c ? block' Hc Hr]; subst. inversion Hr; subst. by rewrite app_nil_r.
  - intros H. rewrite <- (app_nil_r block). by constructor; [|constructor].
Qed.

(** * Decoding *)

(** The blob holds [block] as its structure block. *)
Record holds (fdt : list Z) (off : Z) (block : list Z) (total version : Z) : Prop := {
  h_ok : blob_ok fdt total off (Z.of_nat (length block)) version;
  h_in : off + Z.of_nat (length block) <= total;
  h_at : buf_read fdt off (Z.of_nat (length block)) = Some block;
}.

Section Decode.
Context {S R : Type} (fdt : list Z) (off : Z) (block : list Z) (total version : Z).
Context (H : holds fdt off block total version).
Implicit Types (s : S).

Lemma holds_bounds : 0 <= off /\ Z.of_nat (length block) <= 2 ^ 31 - 4.
Proof.
  destruct H as [Hok Hin Hat]. apply blob_ok_bounds in Hok as (? & ? & _). unfold is_u32 in *. lia.
Qed.

Lemma ptr_in o n :
  0 <= o -> 0 <= n -> o + n <= Z.of_nat (length block) ->
  ptr_null total off (Z.of_nat (length block)) version o n = false.
Proof.
  intros. pose proof holds_bounds. destruct H as [Hok Hin Hat].
  apply blob_ok_bounds in Hok as (? & ? & _). unfold is_u32 in *.
  unfold ptr_null. rewrite (u32_small o), (u32_small (o + off)), (u32_small (o + off + n)),
    (u32_small (o + n)) by lia.
  rewrite !orb_false_iff, andb_false_iff, !orb_false_iff, !Z.gtb_ltb, !Z.ltb_ge, Z.leb_gt. lia.
Qed.

Lemma offset_ptr_in o n s :
  0 <= o -> 0 <= n -> o + n <= Z.of_nat (length block) ->
  fdt_offset_ptr (R := R) fdt o n s = (Go (Some (off + o)), s).
Proof. intros. erewrite fdt_offset_ptr_run by apply H. by rewrite ptr_in. Qed.

Lemma block_read o n d : buf_read block o n = Some d -> buf_read fdt (off + o) n = Some d.
Proof.
  intros Hr. pose proof Hr as (? & ? & ? & _)%buf_read_Some.
  rewrite <- (buf_read_read fdt off (Z.of_nat (length block)) block); [done|apply H|lia..].
Qed.

Lemma read_part pre d post :
  block = pre ++ d ++ post ->
  buf_read fdt (off + Z.of_nat (length pre)) (Z.of_nat (length d)) = Some d.
Proof. intros Hb. apply block_read. rewrite Hb. apply buf_read_mid. Qed.

Lemma word_part pre v post :
  block = pre ++ be_put 4 v ++ post -> is_u32 v ->
  word fdt (off + Z.of_nat (length pre)) = Some v.
Proof.
  intros Hb Hv. apply read_part in Hb. unfold word. rewrite length_be_put in Hb.
  change (Z.of_nat 4) with 4 in Hb. rewrite Hb. simpl. by rewrite be_get_put_small.
Qed.

Lemma skip_name_part fuel pre name post s :
  block = pre ++ (name ++ [0]) ++ post -> Forall (fun c => is_u8 c /\ c <> 0) name ->
  (length name < fuel)%nat ->
  skip_name (R := R) fdt fuel (Z.of_nat (length pre)) s =
  (Go (Some (Z.of_nat (length pre) + Z.of_nat (length name) + 1)), s).
Proof.
  intros Hb Hn Hf. revert pre fuel Hb Hf.
  induction Hn as [|c name [Hc Hc0] Hn IH]; intros pre fuel Hb Hf;
    (destruct fuel as [|fuel]; [simpl in Hf; lia|]); pose proof holds_bounds as [_ Hl];
    rewrite Hb in Hl; rewrite !length_app in Hl; simpl length in Hl;
    assert (Hp : fdt_offset_ptr (R := R) fdt (Z.of_nat (length pre)) 1 s =
      (Go (Some (off + Z.of_nat (length pre))), s))
      by (apply offset_ptr_in; [lia..|rewrite Hb, !length_app; simpl length; lia]);
    cbn [skip_name]; rewrite (bind_go _ _ _ _ _ Hp);
    cbv beta iota; rewrite s32_small by lia.
  - assert (Hr : buf_read fdt (off + Z.of_nat (length pre)) 1 = Some [0])
      by by apply (read_part pre [0] post).
    erewrite bind_go by (unfold fdt8; munfold; by rewrite Hr).
    simpl. by rewrite Z.add_0_r.
  - assert (Hr : buf_read fdt (off + Z.of_nat (length pre)) 1 = Some [c])
      by by apply (read_part pre [c] ((name ++ [0]) ++ post)).
    erewrite bind_go by (unfold fdt8; munfold; by rewrite Hr).
    replace (be_get [c]) with c by (unfold be_get; simpl; by rewrite Z.lor_0_r).
    rewrite (proj2 (Z.eqb_neq c 0)) by done.
    replace (Z.of_nat (length pre) + 1) with (Z.of_nat (length (pre ++ [c])))
      by (rewrite length_app; simpl; lia).
    rewrite (IH (pre ++ [c])).
    + do 3 f_equal. rewrite length_app. simpl. lia.
    + rewrite Hb. by rewrite <- !app_assoc.
    + simpl in Hf. lia.
Qed.

Lemma tag_u32 t : is_u32 (tag_of t).
Proof. by destruct t. Qed.

Lemma block_in_fdt : (length block <= length fdt)%nat.
Proof. destruct H as [[_ _ [? _] _ _ _] ? _]. pose proof holds_bounds. lia. Qed.

(** The end of the data of a tag that is there in full. *)
Definition ends_at (pre : list Z) (t : tok) (e : Z) : Prop :=
  Z.of_nat (length pre) <= e <= Z.of_nat (length block) /\
  align4 (e - Z.of_nat (length pre)) = Z.of_nat (length (enc_tok t)).

Lemma begin_end pre name b post s :
  block = pre ++ b ++ post -> enc_as (TBegin name) b -> tok_ok (TBegin name) ->
  exists e, skip_name (R := R) fdt (fdt_rounds fdt) (Z.of_nat (length pre) + 4) s = (Go (Some e), s) /\
    ends_at pre (TBegin name) e.
Proof.
  intros Hb Has Ht. pose proof block_in_fdt as Hf. pose proof (enc_as_length _ _ Has) as Hbl.
  destruct Has as (pad & -> & Hpad). cbn [tag_of tok_data] in *.
  assert (Hl : Z.of_nat (length block) = Z.of_nat (length pre) + Z.of_nat (length (enc_tok (TBegin name))) +
    Z.of_nat (length post)) by (rewrite <- Hbl, Hb, !length_app; lia).
  replace (Z.of_nat (length pre) + 4) with (Z.of_nat (length (pre ++ be_put 4 FDT_BEGIN_NODE)))
    by (rewrite length_app, length_be_put; lia).
  assert (He : Z.of_nat (length (enc_tok (TBegin name))) = 4 + align4 (Z.of_nat (length name) + 1)).
  { unfold enc_tok, tok_body. rewrite length_app, length_be_put, Nat2Z.inj_add, length_pad4, length_app.
    simpl length. do 2 f_equal. lia. }
  pose proof (align4_bounds (Z.of_nat (length name) + 1)) as Ha.
  eexists. split.
  - eapply (skip_name_part _ _ name (pad ++ post)).
    + rewrite Hb. by rewrite <- !app_assoc.
    + done.
    + unfold fdt_rounds. rewrite He in Hl. lia.
  - unfold ends_at. rewrite length_app, length_be_put. split; [lia|].
    rewrite He, <- align4_plus by (by exists 1). f_equal. lia.
Qed.

Lemma prop_end pre nameoff value b post s :
  block = pre ++ b ++ post -> enc_as (TProp nameoff value) b -> tok_ok (TProp nameoff value) ->
  exists e, tag_end (R := R) fdt FDT_PROP (Z.of_nat (length pre) + 4) s = (Go (Some e), s) /\
    ends_at pre (TProp nameoff value) e.
Proof.
  intros Hb Has Ht. pose proof holds_bounds as [_ Hmax]. pose proof (enc_as_length _ _ Has) as Hbl.
  destruct Has as (pad & -> & Hpad). cbn [tag_of tok_data] in *.
  assert (Hl : Z.of_nat (length block) = Z.of_nat (length pre) +
    Z.of_nat (length (enc_tok (TProp nameoff value))) + Z.of_nat (length post))
    by (rewrite <- Hbl, Hb, !length_app; lia).
  assert (He : Z.of_nat (length (enc_tok (TProp nameoff value))) = 12 + align4 (Z.of_nat (length value))).
  { unfold enc_tok, tok_body. rewrite !length_app, !length_be_put, !Nat2Z.inj_add, length_pad4. lia. }
  pose proof (align4_bounds (Z.of_nat (length value))) as Ha.
  exists (Z.of_nat (length pre) + 12 + Z.of_nat (length value)). split.
  - unfold tag_end. cbn [FDT_BEGIN_NODE FDT_PROP Z.eqb Pos.eqb].
    erewrite bind_go by (apply offset_ptr_in; lia). cbv beta iota.
    erewrite bind_go by (apply fdt32_word;
      replace (Z.of_nat (length pre) + 4) with (Z.of_nat (length (pre ++ be_put 4 FDT_PROP)))
        by (rewrite length_app, length_be_put; lia);
      eapply (word_part _ (Z.of_nat (length value)));
        [rewrite Hb, <- !app_assoc; reflexivity|unfold is_u32; lia]).
    unfold FDT_PROPERTY_SIZE, FDT_TAGSIZE. munfold. rewrite s32_small by lia. do 3 f_equal. lia.
  - unfold ends_at. split; [lia|]. rewrite He.
    replace (Z.of_nat (length pre) + 12 + Z.of_nat (length value) - Z.of_nat (length pre))
      with (12 + Z.of_nat (length value)) by lia.
    by rewrite align4_plus by (by exists 3).
Qed.

Lemma tag_end_tok pre t b post s :
  block = pre ++ b ++ post -> enc_as t b -> tok_ok t ->
  exists e, tag_end (R := R) fdt (tag_of t) (Z.of_nat (length pre) + 4) s = (Go (Some e), s) /\
    ends_at pre t e.
Proof.
  intros Hb Has Ht. destruct t as [name|nameoff value| | |].
  1: by eapply begin_end.
  1: by eapply prop_end.
  all: pose proof (enc_as_length _ _ Has) as Hl; unfold enc_tok in Hl; cbn [tok_body] in Hl;
    rewrite length_app, length_be_put in Hl; simpl in Hl;
    exists (Z.of_nat (length pre) + 4); split; [reflexivity|]; unfold ends_at;
    rewrite Hb, !length_app, Hl; unfold enc_tok; rewrite length_app, length_be_put; cbn [tok_body length];
    split; [lia|];
    replace (Z.of_nat (length pre) + 4 - Z.of_nat (length pre)) with 4 by lia; reflexivity.
Qed.

(** A tag of the block is decoded, and the next one follows. *)
Lemma next_tag_tok pre t b post s :
  block = pre ++ b ++ post -> enc_as t b -> tok_ok t -> (4 | Z.of_nat (length pre)) ->
  fdt_next_tag (R := R) fdt (Z.of_nat (length pre)) s =
  (Go (tag_of t, Z.of_nat (length pre) + Z.of_nat (length (enc_tok t))), s).
Proof.
  intros Hb Has Ht H4. pose proof holds_bounds as [_ Hmax]. pose proof (tok_len_pos t) as Htl.
  assert (Hl : Z.of_nat (length block) = Z.of_nat (length pre) +
    Z.of_nat (length (enc_tok t)) + Z.of_nat (length post))
    by (rewrite <- (enc_as_length _ _ Has), Hb, !length_app; lia).
  unfold fdt_next_tag, FDT_TAGSIZE.
  erewrite bind_go by (apply offset_ptr_in; lia). cbv beta iota.
  destruct (tag_end_tok pre t b post s Hb Has Ht) as (e & He & [He1 He2]).
  destruct Has as (pad & -> & _).
  erewrite bind_go by (apply fdt32_word; eapply (word_part pre (tag_of t) ((tok_data t ++ pad) ++ post));
    [by rewrite Hb; rewrite <- !app_assoc|apply tag_u32]).
  rewrite s32_small by lia.
  rewrite (bind_go _ _ _ _ _ He). cbv beta iota. rewrite u32_small by lia.
  erewrite bind_go by (apply offset_ptr_in; lia). cbv beta iota. munfold.
  rewrite FDT_TAGALIGN_small by lia. rewrite <- He2, <- align4_plus by done.
  by replace (Z.of_nat (length pre) + (e - Z.of_nat (length pre))) with e by lia.
Qed.
End Decode.

(** The blob holds a structure block that encodes the tags. *)
Definition holds_toks (fdt : list Z) (off : Z) (toks : list tok) (total version : Z) : Prop :=
  exists block, encs toks block /\ holds fdt off block total version.

Section Toks.
Context (fdt : list Z) (off : Z) (toks : list tok) (total version : Z).
Context (H : holds_toks fdt off toks total version).

Lemma toks_ok : blob_ok fdt total off (pos toks) version.
Proof. destruct H as (block & Hb & [Hok _ _]). by rewrite (encs_pos _ _ Hb) in Hok. Qed.

Lemma toks_in : off + pos toks <= total.
Proof. destruct H as (block & Hb & [_ Hin _]). by rewrite (encs_pos _ _ Hb) in Hin. Qed.

Lemma toks_bounds : 0 <= off /\ pos toks <= 2 ^ 31 - 4.
Proof.
  destruct H as (block & Hb & Hh). rewrite <- (encs_pos _ _ Hb). by eapply holds_bounds.
Qed.

Lemma toks_ptr_in {S R} o n (s : S) :
  0 <= o -> 0 <= n -> o + n <= pos toks ->
  fdt_offset_ptr (R := R) fdt o n s = (Go (Some (off + o)), s).
Proof.
  destruct H as (block & Hb & Hh). rewrite <- (encs_pos _ _ Hb). by eapply offset_ptr_in.
Qed.

(** The bytes of one tag of the block. *)
Lemma toks_split pre t post :
  toks = pre ++ t :: post ->
  exists bpre b bpost, holds fdt off (bpre ++ b ++ bpost) total version /\ enc_as t b /\
    Z.of_nat (length bpre) = pos pre /\ Z.of_nat (length bpost) = pos post.
Proof.
  intros ->. destruct H as (block & Hb & Hh).
  apply encs_app_inv in Hb as (x & y & -> & Hx & Hy).
  inversion Hy as [|? b ? z Hbt Hz]; subst. exists x, b, z.
  split_and!; [done|done|by apply encs_pos..].
Qed.
End Toks.

(** * The node walk *)

(** Where [fdt_next_node] stops in the tags [suf] that follow [pre]. *)
Fixpoint scan (pre suf : list tok) (d : Z) : Z * Z :=
  match suf with
  | [] => (- FDT_ERR_NOTFOUND, d)
  | t :: suf' =>
      match t with
      | TBegin _ => (pos pre, d + 1)
      | TEndNode => if d - 1 <? 0 then (pos (pre ++ [t]), d - 1) else scan (pre ++ [t]) suf' (d - 1)
      | TEnd => (- FDT_ERR_NOTFOUND, d)
      | _ => scan (pre ++ [t]) suf' d
      end
  end.

Lemma scan_props pre ps suf d :
  scan pre (prop_toks ps ++ suf) d = scan (pre ++ prop_toks ps) suf d.
Proof.
  revert pre. induction ps as [|p ps IH]; intros pre; simpl; [by rewrite app_nil_r|].
  rewrite IH. by rewrite <- app_assoc.
Qed.

Lemma scan_forest pre c cs suf d :
  scan pre (flatten_all (c :: cs) ++ suf) d = (pos pre, d + 1).
Proof. by destruct c. Qed.

Fixpoint nodes (n : dnode) : nat :=
  let 'DNode _ _ cs := n in Datatypes.S (list_sum (map nodes cs)).

Lemma dnode_rect_all (P : dnode -> Prop) :
  (forall name ps cs, Forall P cs -> P (DNode name ps cs)) -> forall n, P n.
Proof.
  intros HP. fix IH 1. intros [name ps cs]. apply HP.
  induction cs as [|c cs IHcs]; constructor; [apply IH|exact IHcs].
Qed.

Lemma nodes_toks n : (nodes n <= length (flatten n))%nat.
Proof.
  induction n as [name ps cs IH] using dnode_rect_all. simpl.
  rewrite !length_app. simpl.
  enough (list_sum (map nodes cs) <= length (mjoin (map flatten cs)))%nat by lia.
  induction IH as [|c cs Hc _ IHcs]; simpl; [done|]. rewrite length_app. lia.
Qed.

Section Walk.
Context {S R : Type} (fdt : list Z) (off : Z) (toks : list tok) (total version : Z).
Context (H : holds_toks fdt off toks total version) (Hts : Forall tok_ok toks).
Implicit Types (s : S).

Lemma next_tag_at pre t post s :
  toks = pre ++ t :: post ->
  fdt_next_tag (R := R) fdt (pos pre) s = (Go (tag_of t, pos (pre ++ [t])), s).
Proof.
  intros Ht. destruct (toks_split _ _ _ _ _ H _ _ _ Ht) as (bpre & b & bpost & Hh & Has & Hl & _).
  rewrite <- Hl at 1. erewrite next_tag_tok; [|exact Hh|reflexivity|exact Has| |].
  - rewrite Hl, pos_app. unfold pos, enc. simpl. by rewrite app_nil_r.
  - rewrite Forall_forall in Hts. apply Hts. rewrite Ht. set_solver.
  - rewrite Hl. apply enc_divide.
Qed.

Lemma next_node_loop_scan fuel pre suf d s :
  toks = pre ++ suf -> TEnd ∈ suf -> (length suf < fuel)%nat ->
  next_node_loop (R := R) fdt fuel (pos pre) (Some d) s =
  (Go ((scan pre suf d).1, Some (scan pre suf d).2), s).
Proof.
  revert pre fuel d. induction suf as [|t suf IH]; intros pre fuel d Ht He Hf; [set_solver|].
  destruct fuel as [|fuel]; [simpl in Hf; lia|]. cbn [next_node_loop].
  rewrite (bind_go _ _ _ _ _ (next_tag_at _ _ _ _ Ht)).
  assert (Hnext : forall d, t <> TEnd -> next_node_loop (R := R) fdt fuel (pos (pre ++ [t])) (Some d) s =
    (Go ((scan (pre ++ [t]) suf d).1, Some (scan (pre ++ [t]) suf d).2), s)).
  { intros d' Hne. apply IH; [by rewrite <- app_assoc|set_solver|simpl in Hf; lia]. }
  destruct t; simpl; try (apply Hnext; done); try done.
  - case_match; [done|]. by apply Hnext.
  - pose proof (Zle_0_nat (length (enc (pre ++ [TEnd])))) as Hp. unfold pos.
    by rewrite (proj2 (Z.leb_le _ _) Hp).
Qed.

Lemma length_toks_fdt : (length toks <= length fdt)%nat.
Proof.
  destruct H as (block & Hb & Hh). pose proof (block_in_fdt _ _ _ _ _ Hh).
  pose proof (pos_count toks). pose proof (encs_pos _ _ Hb). lia.
Qed.

(** From a node, [fdt_next_node] scans what follows the node's tag. *)
Lemma next_node_scan pre name suf d s :
  toks = pre ++ TBegin name :: suf -> TEnd ∈ suf ->
  fdt_next_node (R := R) fdt (pos pre) (Some d) s =
  (Go ((scan (pre ++ [TBegin name]) suf d).1, Some (scan (pre ++ [TBegin name]) suf d).2), s).
Proof.
  intros Ht He. unfold fdt_next_node, fdt_check_node_offset, check_tag_offset.
  assert (Hp : 0 <= pos pre) by apply Zle_0_nat.
  rewrite (proj2 (Z.leb_le _ _) Hp), (proj2 (Z.ltb_ge _ _) Hp).
  assert (Hm : Z.rem (pos pre) FDT_TAGSIZE = 0)
    by (apply Z.rem_divide; [done|apply enc_divide]). rewrite Hm. cbn [orb negb Z.eqb].
  erewrite bind_go by (rewrite (bind_go _ _ _ _ _ (next_tag_at _ _ _ _ Ht)); reflexivity).
  cbn [snd]. rewrite (proj2 (Z.ltb_ge _ _)) by apply Zle_0_nat.
  apply next_node_loop_scan; [by rewrite <- app_assoc|done|].
  pose proof length_toks_fdt as Hl. rewrite Ht, length_app in Hl. simpl in Hl. unfold fdt_rounds. lia.
Qed.

(** A walk [W] that goes from node to node with [fdt_next_node] and does
    nothing else below the first level; [K] is what it does with the node that
    comes next.  It steps over a subtree as a whole. *)
Section Walker.
Context (W : nat -> Z -> Z -> M S R Z) (K : nat -> Z * Z -> M S R Z).
Context (HW : forall fuel pre name suf d s,
  toks = pre ++ TBegin name :: suf -> TEnd ∈ suf -> 2 <= d ->
  W (Datatypes.S fuel) (pos pre) d s = K fuel (scan (pre ++ [TBegin name]) suf d) s).
Context (HK : forall fuel o d s, 0 <= o -> 2 <= d -> K fuel (o, d) s = W fuel o d s).

Definition below (n : dnode) : list tok :=
  prop_toks (node_props n) ++ flatten_all (node_children n) ++ [TEndNode].

Lemma flatten_below n : flatten n = TBegin (node_name n) :: below n.
Proof. by destruct n. Qed.

Definition skips (n : dnode) : Prop := forall fuel pre suf d s,
  toks = pre ++ flatten n ++ suf -> TEnd ∈ suf -> 1 <= d -> (nodes n <= Datatypes.S fuel)%nat ->
  K fuel (scan (pre ++ [TBegin (node_name n)]) (below n ++ suf) d) s =
  K (Datatypes.S fuel - nodes n) (scan (pre ++ flatten n) suf (d - 1)) s.

Lemma forest_skipped cs fuel pre suf d s :
  Forall skips cs -> toks = pre ++ flatten_all cs ++ suf -> TEnd ∈ suf -> 1 <= d ->
  (list_sum (map nodes cs) <= fuel)%nat ->
  K fuel (scan pre (flatten_all cs ++ suf) d) s =
  K (fuel - list_sum (map nodes cs)) (scan (pre ++ flatten_all cs) suf d) s.
Proof.
  intros Hcs. revert fuel pre. induction Hcs as [|c cs Hc Hcs IH]; intros fuel pre Ht He Hd Hf.
  { unfold flatten_all in *. simpl in *. by rewrite app_nil_r, Nat.sub_0_r. }
  unfold flatten_all in *. cbn [map mjoin list_join] in *. simpl list_sum in *.
  rewrite <- !app_assoc in *.
  assert (Hn : (0 < nodes c)%nat) by (destruct c; simpl; lia).
  destruct fuel as [|fuel]; [lia|].
  transitivity (W (Datatypes.S fuel) (pos pre) (d + 1) s).
  { rewrite flatten_below. cbn [app scan]. apply HK; [apply Zle_0_nat|lia]. }
  rewrite flatten_below, <- app_comm_cons in Ht.
  rewrite (HW _ _ _ _ _ _ Ht) by (set_solver || lia).
  rewrite app_comm_cons, <- flatten_below in Ht.
  rewrite (Hc fuel pre (mjoin (map flatten cs) ++ suf)); [|done|set_solver|lia|lia].
  replace (d + 1 - 1) with d by lia.
  rewrite IH; [|by rewrite <- app_assoc|done|done|lia].
  rewrite <- app_assoc. by replace (Datatypes.S fuel - nodes c - list_sum (map nodes cs))%nat
    with (Datatypes.S fuel - (nodes c + list_sum (map nodes cs)))%nat by lia.
Qed.

Lemma subtree_skipped n : skips n.
Proof.
  induction n as [name ps cs IH] using dnode_rect_all.
  intros fuel pre suf d s Ht He Hd Hf. unfold below. cbn [flatten nodes node_name node_props node_children] in *.
  change (mjoin (map flatten cs)) with (flatten_all cs) in *.
  rewrite <- !app_assoc, scan_props. rewrite <- app_comm_cons, <- !app_assoc in Ht.
  rewrite forest_skipped; [|done|by rewrite Ht, <- !app_assoc|set_solver|lia|lia].
  cbn [app scan]. rewrite (proj2 (Z.ltb_ge (d - 1) 0)) by lia.
  replace ((((pre ++ [TBegin name]) ++ prop_toks ps) ++ flatten_all cs) ++ [TEndNode])
    with (pre ++ TBegin name :: prop_toks ps ++ flatten_all cs ++ [TEndNode])
    by (by rewrite <- !app_assoc).
  by replace (Datatypes.S fuel - Datatypes.S (list_sum (map nodes cs)))%nat
    with (fuel - list_sum (map nodes cs))%nat by lia.
Qed.
End Walker.

(** The rest of [fdt_next_subnode] once the next node is known. *)
Definition after (fuel : nat) (n : Z * Z) : M S R Z :=
  if (n.1 <? 0) || (n.2 <? 1) then mret (- FDT_ERR_NOTFOUND)
  else if n.2 >? 1 then next_subnode_loop fdt fuel n.1 n.2 else mret n.1.

Lemma next_subnode_step fuel pre name suf d s :
  toks = pre ++ TBegin name :: suf -> TEnd ∈ suf ->
  next_subnode_loop (R := R) fdt (Datatypes.S fuel) (pos pre) d s =
  after fuel (scan (pre ++ [TBegin name]) suf d) s.
Proof.
  intros Ht He. cbn [next_subnode_loop]. by rewrite (bind_go _ _ _ _ _ (next_node_scan _ _ _ _ _ Ht He)).
Qed.

Lemma after_below fuel o d s :
  0 <= o -> 2 <= d -> after fuel (o, d) s = next_subnode_loop (R := R) fdt fuel o d s.
Proof.
  intros. unfold after. cbn [fst snd].
  rewrite (proj2 (Z.ltb_ge o 0)), (proj2 (Z.ltb_ge d 1)) by lia.
  by rewrite (proj2 (Z.gtb_lt d 1)) by lia.
Qed.

(** ** The children of a node *)

Definition child_pos (pre : list tok) (n : dnode) (i : nat) : Z :=
  pos (pre ++ TBegin (node_name n) :: prop_toks (node_props n) ++ flatten_all (take i (node_children n))).

Section Children.
Context (pre suf : list tok) (n : dnode).
Context (Ht : toks = pre ++ flatten n ++ suf) (He : TEnd ∈ suf).

Lemma node_split i c :
  node_children n !! i = Some c ->
  toks = (pre ++ TBegin (node_name n) :: prop_toks (node_props n) ++
          flatten_all (take i (node_children n))) ++ flatten c ++
         flatten_all (drop (Datatypes.S i) (node_children n)) ++ TEndNode :: suf.
Proof.
  intros Hi. rewrite Ht. destruct n as [name ps cs]. cbn [node_name node_props node_children flatten] in *.
  rewrite <- (take_drop_middle cs i c Hi) at 1. unfold flatten_all.
  rewrite map_app, join_app. cbn [map mjoin list_join]. simplify_list_eq. done.
Qed.

Lemma first_subnode_at s :
  fdt_first_subnode (R := R) fdt (pos pre) s =
  (Go (match node_children n with [] => - FDT_ERR_NOTFOUND | _ => child_pos pre n 0 end), s).
Proof.
  unfold fdt_first_subnode, child_pos. destruct n as [name ps cs].
  cbn [node_name node_props node_children flatten] in *.
  rewrite <- app_comm_cons, <- !app_assoc in Ht.
  rewrite (bind_go _ _ _ _ _ (next_node_scan _ _ _ _ _ Ht ltac:(set_solver))).
  rewrite scan_props. cbn [fst snd]. destruct cs as [|[cn cps ccs] cs].
  - cbn [map mjoin list_join app scan]. change (0 - 1 <? 0) with true.
    cbn [fst snd depth_of default]. change (0 - 1 =? 1) with false. by rewrite orb_true_r.
  - cbn [flatten map mjoin list_join app scan fst snd depth_of default].
    rewrite (proj2 (Z.ltb_ge _ _)) by apply Zle_0_nat. cbn [orb negb Z.add Z.eqb Pos.eqb].
    unfold flatten_all. cbn. rewrite <- app_assoc. simpl. by rewrite app_nil_r.
Qed.

Lemma next_subnode_at i s :
  (i < length (node_children n))%nat ->
  fdt_next_subnode (R := R) fdt (child_pos pre n i) s =
  (Go (if decide (Datatypes.S i < length (node_children n))%nat then child_pos pre n (Datatypes.S i)
       else - FDT_ERR_NOTFOUND), s).
Proof.
  intros Hi. destruct (lookup_lt_is_Some_2 _ _ Hi) as [c Hc]. unfold fdt_next_subnode, child_pos.
  pose proof (node_split i c Hc) as Hsp.
  assert (Hf : (nodes c <= fdt_rounds fdt)%nat).
  { pose proof (nodes_toks c). pose proof length_toks_fdt as Hl. rewrite Hsp, !length_app in Hl.
    unfold fdt_rounds. lia. }
  unfold fdt_rounds in *. pose proof Hsp as Hsp'. rewrite flatten_below, <- app_comm_cons in Hsp'.
  erewrite next_subnode_step; [|exact Hsp'|set_solver].
  rewrite (subtree_skipped _ _ (fun f p nm sf d s h1 h2 _ => next_subnode_step f p nm sf d s h1 h2)
    after_below c _ _ _ _ _ Hsp); [|set_solver|lia|done].
  change (1 - 1) with 0. unfold after. case_decide as Hd.
  - destruct (lookup_lt_is_Some_2 _ _ Hd) as [c' Hc'].
    rewrite (drop_S _ _ _ Hc'). destruct c' as [cn cps ccs].
    unfold flatten_all at 1 2 3 4 5. cbn [flatten map mjoin list_join app scan fst snd].
    rewrite (proj2 (Z.ltb_ge _ _)) by apply Zle_0_nat. cbn [orb Z.ltb Z.gtb Z.add Z.compare Pos.compare].
    rewrite (take_S_r _ _ _ Hc). unfold flatten_all. rewrite map_app, join_app. simpl.
    munfold. rewrite app_nil_r. by rewrite <- !app_assoc, <- app_comm_cons, <- !app_assoc.
  - rewrite drop_ge by lia. cbn [flatten_all map mjoin list_join app scan].
    change (0 - 1 <? 0) with true. cbn [fst snd].
    change (0 - 1 <? 1) with true. by rewrite orb_true_r.
Qed.
End Children.
End Walk.

(** * Properties *)

(** The string of the strings block at an offset. *)
Definition str_at (fdt : list Z) (nameoff : Z) (name : list Z) : Prop :=
  exists offs, word fdt 12 = Some offs /\ 0 <= nameoff < 2 ^ 31 /\
    Forall (fun c => c <> 0) name /\
    buf_read fdt (offs + nameoff) (Z.of_nat (length name) + 1) = Some (name ++ [0]).

Lemma memchr_app_0 name post :
  Forall (fun c => c <> 0) name -> memchr (name ++ 0 :: post) 0 = Some (length name).
Proof.
  induction 1 as [|c name Hc _ IH]; [done|]. simpl. rewrite (proj2 (Z.eqb_neq c 0)) by done.
  by rewrite IH.
Qed.

Lemma cstr_nonzero_id q : Forall (fun c => c <> 0) q -> cstr q = q.
Proof.
  induction 1 as [|c q Hc _ IH]; [done|]. simpl. rewrite (proj2 (Z.eqb_neq c 0)) by done.
  by rewrite IH.
Qed.

Lemma buf_read_whole l : buf_read l 0 (Z.of_nat (length l)) = Some l.
Proof. apply buf_read_Some. split_and!; [lia..|]. by rewrite drop_0, Nat2Z.id, take_ge. Qed.

Lemma buf_read_prefix b p d e n :
  buf_read b p n = Some (d ++ e) -> buf_read b p (Z.of_nat (length d)) = Some d.
Proof.
  intros Hr. pose proof (length_buf_read _ _ _ _ Hr) as Hl. rewrite length_app in Hl.
  pose proof (buf_read_mid [] d e) as Hm. simpl in Hm.
  rewrite (buf_read_read _ _ _ _ _ _ Hr) in Hm by lia. by rewrite Z.add_0_r in Hm.
Qed.

Section Strings.
Context {S R : Type} (fdt : list Z).
Implicit Types (s : S).

Lemma strlen_at_str p name s :
  Forall (fun c => c <> 0) name ->
  buf_read fdt p (Z.of_nat (length name) + 1) = Some (name ++ [0]) ->
  strlen_at (R := R) fdt p s = (Go (Z.of_nat (length name)), s).
Proof.
  intros Hn Hr. pose proof Hr as (Hp & _ & _ & Hd)%buf_read_Some. unfold strlen_at.
  rewrite (proj2 (Z.leb_le _ _) Hp).
  replace (memchr (drop (Z.to_nat p) fdt) 0) with (Some (length name)); [done|].
  rewrite <- (take_drop (Z.to_nat (Z.of_nat (length name) + 1)) (drop (Z.to_nat p) fdt)).
  rewrite <- Hd, <- app_assoc. symmetry. by apply memchr_app_0.
Qed.

Lemma string_eq_str nameoff name q s :
  str_at fdt nameoff name -> Forall (fun c => c <> 0) q ->
  fdt_string_eq (R := R) fdt (s32 nameoff) q (AsciiStrLen q) s = (Go (bool_decide (name = q)), s).
Proof.
  intros (offs & Hw & Hb & Hn & Hr) Hq. rewrite s32_small by done.
  unfold fdt_string_eq, fdt_string, fdt_off_dt_strings, AsciiStrLen, StrLen.
  rewrite cstr_nonzero_id by done.
  erewrite bind_go by (rewrite (bind_go _ _ _ _ _ (fdt32_word _ _ _ _ Hw)); reflexivity).
  rewrite (bind_go _ _ _ _ _ (strlen_at_str _ _ _ Hn Hr)).
  destruct (Z.eqb_spec (Z.of_nat (length name)) (Z.of_nat (length q))) as [Hl|Hl].
  - unfold mem_eq. apply buf_read_prefix in Hr. rewrite Hl in Hr.
    rewrite Hr. munfold. by rewrite buf_read_whole.
  - rewrite bool_decide_false; [done|]. congruence.
Qed.
End Strings.

(** The value of the first property with the name. *)
Fixpoint lookup_prop (strs : Z -> list Z) (ps : list (Z * list Z)) (q : list Z) :
    option (list Z) :=
  match ps with
  | [] => None
  | p :: ps' => if bool_decide (strs p.1 = q) then Some p.2 else lookup_prop strs ps' q
  end.

(** The properties before the first one with the name, that one, and the rest. *)
Fixpoint split_prop (strs : Z -> list Z) (ps : list (Z * list Z)) (q : list Z) :
    option (list (Z * list Z) * (Z * list Z) * list (Z * list Z)) :=
  match ps with
  | [] => None
  | p :: ps' =>
      if bool_decide (strs p.1 = q) then Some ([], p, ps')
      else (fun x => (p :: x.1.1, x.1.2, x.2)) <$> split_prop strs ps' q
  end.

Lemma split_prop_app strs ps q ps1 p ps2 :
  split_prop strs ps q = Some (ps1, p, ps2) -> ps = ps1 ++ p :: ps2 /\ strs p.1 = q.
Proof.
  revert ps1. induction ps as [|p' ps IH]; intros ps1; simpl; [done|].
  case_bool_decide as E; [intros [= <- <- <-]; done|].
  intros ([[x1 x2] x3] & Hx & [= -> -> ->])%fmap_Some. cbn [fst snd] in *.
  destruct (IH _ Hx) as [-> ?]. done.
Qed.

Lemma lookup_split strs ps q : lookup_prop strs ps q = (fun x => x.1.2.2) <$> split_prop strs ps q.
Proof.
  induction ps as [|p ps IH]; simpl; [done|]. case_bool_decide; [done|].
  rewrite IH. by destruct (split_prop strs ps q) as [[[? ?] ?]|].
Qed.

Section Props.
Context {S R : Type} (fdt : list Z) (off : Z) (toks : list tok) (total version : Z).
Context (H : holds_toks fdt off toks total version) (Hts : Forall tok_ok toks).
Context (strs : Z -> list Z).
Implicit Types (s : S).

Lemma nextprop_at pre t post s :
  toks = pre ++ t :: post -> (t <> TNop /\ t <> TEnd) ->
  nextprop (R := R) fdt (fdt_rounds fdt) (pos pre) s =
  (Go (match t with TProp _ _ => pos pre | _ => - FDT_ERR_NOTFOUND end), s).
Proof.
  intros Ht [Hn Hd]. unfold fdt_rounds. cbn [nextprop].
  rewrite (bind_go _ _ _ _ _ (next_tag_at _ _ _ _ _ H Hts _ _ _ _ Ht)). by destruct t.
Qed.

Lemma check_offset_at pre t post s :
  toks = pre ++ t :: post ->
  check_tag_offset (R := R) fdt (tag_of t) (pos pre) s = (Go (pos (pre ++ [t])), s).
Proof.
  intros Ht. unfold check_tag_offset. assert (Hp : 0 <= pos pre) by apply Zle_0_nat.
  rewrite (proj2 (Z.ltb_ge _ _) Hp).
  assert (Hm : Z.rem (pos pre) FDT_TAGSIZE = 0) by (apply Z.rem_divide; [done|apply enc_divide]).
  rewrite Hm. cbn [orb negb Z.eqb].
  rewrite (bind_go _ _ _ _ _ (next_tag_at _ _ _ _ _ H Hts _ _ _ _ Ht)).
  cbn [fst snd]. by rewrite Z.eqb_refl.
Qed.

Lemma property_at pre nameoff value post s :
  toks = pre ++ TProp nameoff value :: post ->
  fdt_get_property_by_offset (R := R) fdt (pos pre) s =
    (Go (Some (off + pos pre), Z.of_nat (length value)), s) /\
  fdt32 (R := R) fdt (off + pos pre + 8) s = (Go nameoff, s) /\
  buf_read fdt (off + pos pre + FDT_PROPERTY_SIZE) (Z.of_nat (length value)) = Some value.
Proof.
  intros Ht. destruct (toks_split _ _ _ _ _ H _ _ _ Ht) as (bpre & b & bpost & Hh & Has & Hl & _).
  destruct Has as (pad & -> & _). cbn [tag_of tok_data] in Hh. rewrite <- Hl.
  assert (Hto : is_u32 nameoff).
  { rewrite Forall_forall in Hts. apply (Hts (TProp nameoff value)). rewrite Ht. set_solver. }
  pose proof (holds_bounds _ _ _ _ _ Hh) as [_ Hmax].
  assert (Hlen : Z.of_nat (length value) <= 2 ^ 31 - 4 - 12)
    by (rewrite !length_app, !length_be_put in Hmax; lia).
  split_and!.
  - unfold fdt_get_property_by_offset, fdt_check_prop_offset, raw_offset_ptr, fdt_off_dt_struct.
    rewrite Hl, (bind_go _ _ _ _ _ (check_offset_at _ _ _ _ Ht)), <- Hl.
    rewrite (proj2 (Z.ltb_ge _ _)) by apply Zle_0_nat.
    erewrite bind_go by (erewrite bind_go by (apply fdt32_word, Hh); reflexivity).
    assert (Hw : word fdt (off + Z.of_nat (length bpre) + 4) = Some (Z.of_nat (length value))).
    { replace (off + Z.of_nat (length bpre) + 4) with (off + Z.of_nat (length (bpre ++ be_put 4 FDT_PROP)))
        by (rewrite length_app, length_be_put; lia).
      eapply word_part; [exact Hh|rewrite <- !app_assoc; reflexivity|unfold is_u32; lia]. }
    rewrite (bind_go _ _ _ _ _ (fdt32_word _ _ _ _ Hw)). by rewrite s32_small by lia.
  - apply fdt32_word.
    replace (off + Z.of_nat (length bpre) + 8) with (off + Z.of_nat (length (bpre ++ be_put 4 FDT_PROP ++
      be_put 4 (Z.of_nat (length value)))))
      by (rewrite !length_app, !length_be_put; lia).
    eapply word_part; [exact Hh|rewrite <- !app_assoc; reflexivity|done].
  - replace (off + Z.of_nat (length bpre) + FDT_PROPERTY_SIZE) with (off + Z.of_nat (length (bpre ++
      be_put 4 FDT_PROP ++ be_put 4 (Z.of_nat (length value)) ++ be_put 4 nameoff)))
      by (rewrite !length_app, !length_be_put; unfold FDT_PROPERTY_SIZE; lia).
    eapply read_part; [exact Hh|]. by rewrite <- !app_assoc.
Qed.

(** The search from one property on: [rest] begins with a node's end or a
    subnode. *)
Definition found (ps : list (Z * list Z)) (q : list Z) (r : option Z * Z) : Prop :=
  match lookup_prop strs ps q with
  | Some v => exists p, r = (Some p, Z.of_nat (length v)) /\
      buf_read fdt (p + FDT_PROPERTY_SIZE) (Z.of_nat (length v)) = Some v
  | None => r = (None, - FDT_ERR_NOTFOUND)
  end.

(** Where the search over the properties that follow [pre] ends. *)
Definition located (pre : list tok) (ps : list (Z * list Z)) (q : list Z) (r : option Z * Z) : Prop :=
  r = match split_prop strs ps q with
      | Some (ps1, p, _) => (Some (off + pos (pre ++ prop_toks ps1)), Z.of_nat (length p.2))
      | None => (None, - FDT_ERR_NOTFOUND)
      end.

Definition ends_props (rest : list tok) : Prop :=
  exists t post, rest = t :: post /\ match t with TBegin _ | TEndNode => True | _ => False end.

Lemma property_loop_at ps fuel pre rest q s :
  toks = pre ++ prop_toks ps ++ rest -> ends_props rest ->
  Forall (fun p => str_at fdt p.1 (strs p.1)) ps -> Forall (fun c => c <> 0) q ->
  (length ps < fuel)%nat ->
  exists r, (offset ← nextprop fdt (fdt_rounds fdt) (pos pre);
             property_loop fdt fuel offset q (AsciiStrLen q) : M S R _) s = (Go r, s) /\ located pre ps q r.
Proof.
  intros Ht Hrest Hps Hq. revert pre fuel Ht. induction Hps as [|[no v] ps Hp Hps IH];
    intros pre fuel Ht Hf; (destruct fuel as [|fuel]; [simpl in Hf; lia|]).
  - destruct Hrest as (t & post & -> & Hk). simpl in Ht.
    erewrite bind_go by (eapply nextprop_at; [exact Ht|by destruct t]).
    exists (None, - FDT_ERR_NOTFOUND). split; [|done]. by destruct t.
  - cbn [prop_toks map app fst snd] in *.
    erewrite bind_go by (by eapply nextprop_at). cbv beta iota.
    cbn [property_loop]. rewrite (proj2 (Z.ltb_ge _ _)) by apply Zle_0_nat.
    destruct (property_at _ _ _ _ s Ht) as (H1 & H2 & H3).
    rewrite (bind_go _ _ _ _ _ H1). cbn [fst snd].
    rewrite (bind_go _ _ _ _ _ H2), (bind_go _ _ _ _ _ (string_eq_str _ _ _ _ _ Hp Hq)).
    unfold located. cbn [split_prop fst snd]. case_bool_decide as Hd.
    + eexists. split; [done|]. cbn [prop_toks map]. by rewrite app_nil_r.
    + unfold fdt_next_property_offset, fdt_check_prop_offset.
      destruct (IH (pre ++ [TProp no v]) fuel) as (r & Hr & Hfr);
        [by rewrite <- app_assoc|simpl in Hf; lia|].
      exists r. split; [|unfold located in *; destruct (split_prop strs ps q) as [[[ps1 p] ps2]|];
        cbn [fmap option_fmap option_map fst snd]; [|done]; rewrite Hfr; by rewrite <- app_assoc].
      rewrite <- Hr. unfold mbind, M_MBind, M_bind.
      pose proof (check_offset_at _ _ _ s Ht) as Hc. cbn [tag_of] in Hc. rewrite Hc.
      by rewrite (proj2 (Z.ltb_ge _ _)) by apply Zle_0_nat.
Qed.

Lemma get_property_located pre suf n q s :
  toks = pre ++ flatten n ++ suf ->
  Forall (fun p => str_at fdt p.1 (strs p.1)) (node_props n) -> Forall (fun c => c <> 0) q ->
  exists r, fdt_get_property (R := R) fdt (pos pre) q s = (Go r, s) /\
    located (pre ++ [TBegin (node_name n)]) (node_props n) q r.
Proof.
  intros Ht Hps Hq. destruct n as [name ps cs]. cbn [flatten node_props node_name] in *.
  rewrite <- app_comm_cons, <- !app_assoc in Ht.
  unfold fdt_get_property, fdt_get_property_namelen, fdt_first_property_offset, fdt_check_node_offset.
  destruct (property_loop_at ps (fdt_rounds fdt) (pre ++ [TBegin name])
    (mjoin (map flatten cs) ++ [TEndNode] ++ suf) q s) as (r & Hr & Hf).
  - by rewrite <- app_assoc.
  - destruct cs as [|[cn cps ccs] cs]; by do 2 eexists.
  - done.
  - done.
  - pose proof (length_toks_fdt _ _ _ _ _ H) as Hl. rewrite Ht, !length_app in Hl. simpl in Hl.
    rewrite !length_app in Hl. unfold prop_toks in Hl. rewrite length_map in Hl. unfold fdt_rounds. lia.
  - exists r. split; [|exact Hf]. rewrite <- Hr. unfold mbind, M_MBind, M_bind.
    pose proof (check_offset_at _ _ _ s Ht) as Hc. cbn [tag_of] in Hc. rewrite Hc.
    by rewrite (proj2 (Z.ltb_ge _ _)) by apply Zle_0_nat.
Qed.

Lemma get_property_at pre suf n q s :
  toks = pre ++ flatten n ++ suf ->
  Forall (fun p => str_at fdt p.1 (strs p.1)) (node_props n) -> Forall (fun c => c <> 0) q ->
  exists r, fdt_get_property (R := R) fdt (pos pre) q s = (Go r, s) /\ found (node_props n) q r.
Proof.
  intros Ht Hps Hq. destruct (get_property_located pre suf n q s Ht Hps Hq) as (r & Hr & Hl).
  exists r. split; [done|]. unfold found, located in *. rewrite lookup_split.
  destruct (split_prop strs (node_props n) q) as [[[ps1 p] ps2]|] eqn:E; [|done].
  apply split_prop_app in E as [E _]. cbn [fmap option_fmap option_map fst snd].
  eexists. split; [exact Hl|]. destruct n as [name ps cs]. cbn [flatten node_props node_name] in *.
  subst ps. unfold prop_toks in Ht. rewrite map_app in Ht. cbn [map] in Ht.
  eapply (property_at ((pre ++ [TBegin name]) ++ prop_toks ps1) p.1 p.2 (prop_toks ps2 ++ mjoin (map flatten cs) ++ [TEndNode] ++ suf) s).
  rewrite Ht. unfold prop_toks. simplify_list_eq. done.
Qed.

(** [fdt_getprop] returns the value of the first property with the name. *)
Lemma getprop_at pre suf n q s :
  toks = pre ++ flatten n ++ suf ->
  Forall (fun p => str_at fdt p.1 (strs p.1)) (node_props n) -> Forall (fun c => c <> 0) q ->
  exists r, fdt_getprop (R := R) fdt (pos pre) q s = (Go r, s) /\
    match lookup_prop strs (node_props n) q with
    | Some v => exists p, r = (Some p, Z.of_nat (length v)) /\
        buf_read fdt p (Z.of_nat (length v)) = Some v
    | None => r = (None, - FDT_ERR_NOTFOUND)
    end.
Proof.
  intros Ht Hps Hq. destruct (get_property_at pre suf n q s Ht Hps Hq) as (r & Hr & Hf).
  unfold fdt_getprop, fdt_getprop_namelen. unfold fdt_get_property in Hr.
  rewrite (bind_go _ _ _ _ _ Hr). eexists. split; [done|]. unfold found in Hf.
  destruct (lookup_prop _ _ _); [destruct Hf as (p & -> & Hp)|subst r; done].
  by exists (p + FDT_PROPERTY_SIZE).
Qed.
End Props.
