(* ===== verification/FdtRw.v ===== *)
(** Node search with a list of the first-level nodes
    ([QcomModulePkg/Library/BootLib/FdtRw.c]).

    The state is [NodeList], the linked list of the names and offsets of the
    first-level nodes met so far, from the largest offset to the smallest.
    [pool] says whether the memory pool serves a request of a size.  A path is
    the memory from its pointer on, terminator included: [ScanMem8] reads past
    the end of a name. *)
From Stdlib Require Import ZArith Lia.
From stdpp Require Import base list numbers option.
From S2P Require Import Prelude EfiBase Fdt.

Record FDT_FIRST_LEVEL_NODE := mkFirst { NodeName : list Z; NodeOffset : Z }.
Definition FIRST_LEVEL_NODE_SIZE : Z := 24.

Definition EnableNewNodeSearchFuc : bool := true.

(** [ScanMem8 (Buffer, Length, Value)], as the test for [NULL] it is used for. *)
Definition ScanMem8 {S R} (Buffer : list Z) (Length Value : Z) : M S R bool :=
  if Length =? 0 then mret false
  else match memchr (take (Z.to_nat Length) Buffer) Value with
       | Some _ => mret true
       | None => if Z.of_nat (length Buffer) <? Length then stop OutOfBounds else mret false
       end.

Section FdtRw.
Context {R : Type}.
Variable pool : Z -> bool.

Abbreviation MN := (M (list FDT_FIRST_LEVEL_NODE)).

Definition FdtDeleteNodeList : MN R unit := modify (fun _ => []).

(** The name up to ['{']. *)
Definition GetNodeNameLen (NodeName : list Z) : Z :=
  let s := cstr NodeName in Z.of_nat (default (length s) (memchr s 123)).

Definition IsNodeAdded (NodeName_ : list Z) (NameLen : Z) (NodeList : list FDT_FIRST_LEVEL_NODE) :
    bool :=
  existsb (fun Node => AsciiStrnCmp (NodeName Node) NodeName_ NameLen =? 0) NodeList.

(** Before the first node with a smaller offset. *)
Fixpoint insert_node (Node : FDT_FIRST_LEVEL_NODE) (NodeList : list FDT_FIRST_LEVEL_NODE) :
    list FDT_FIRST_LEVEL_NODE :=
  match NodeList with
  | [] => [Node]
  | CurNode :: Next =>
      if NodeOffset Node >? NodeOffset CurNode then Node :: NodeList
      else CurNode :: insert_node Node Next
  end.

Definition FdtAddToNodeList (NodeName_ : list Z) (NodeOffset_ : Z) : MN R unit :=
  let NameLen := GetNodeNameLen NodeName_ in
  NodeList ← get;
  if IsNodeAdded NodeName_ NameLen NodeList then mret tt
  else if pool FIRST_LEVEL_NODE_SIZE && pool (NameLen + 1) then
    modify (insert_node (mkFirst (take (Z.to_nat NameLen) (cstr NodeName_)) NodeOffset_))
  else FdtDeleteNodeList.

(** Returns whether the node was found, and [*NodeOffset]. *)
Definition FdtFindNodeFromList (Name : list Z) (NameLen : Z)
    (NodeList : list FDT_FIRST_LEVEL_NODE) : bool * Z :=
  match NodeList with
  | [] => (false, 0)
  | First :: _ =>
      match find (fun Node => AsciiStrnCmp (NodeName Node) Name NameLen =? 0) NodeList with
      | Some Node => (true, NodeOffset Node)
      | None => (false, NodeOffset First)
      end
  end.

Fixpoint shift_nodes (NodeOffset_ DiffLen : Z) (NodeList : list FDT_FIRST_LEVEL_NODE) :
    list FDT_FIRST_LEVEL_NODE :=
  match NodeList with
  | [] => []
  | Node :: Next =>
      if NodeOffset Node >? NodeOffset_
      then mkFirst (NodeName Node) (s32 (NodeOffset Node + DiffLen)) ::
           shift_nodes NodeOffset_ DiffLen Next
      else NodeList
  end.

Definition FdtUpdateNodeOffsetInList (NodeOffset_ DiffLen : Z) : MN R unit :=
  if DiffLen =? 0 then mret tt else modify (shift_nodes NodeOffset_ DiffLen).

Section Search.
Variable Fdt : list Z.

Definition FdtNodeNameEq (Offset : Z) (Source : list Z) (Len : Z) : MN R bool :=
  Ptr ← fdt_offset_ptr Fdt (s32 (Offset + FDT_TAGSIZE)) (u32 (Len + 1));
  match Ptr with
  | None => mret false
  | Some Ptr =>
      e ← mem_eq Fdt Ptr Source Len;
      if negb e then mret false
      else
        c ← fdt8 Fdt (Ptr + Len);
        if c =? 0 then mret true
        else
          at_ ← ScanMem8 Source 64 (u8 Len);
          mret (negb at_ && (c =? 64))
  end.

(** The loop of [FdtSubnodeOffsetNamelen]; nodes of the first level are put on
    the list as they are met. *)
Fixpoint subnode_scan (fuel : nat) (Offset Depth : Z) (Name : list Z) (NameLen Level : Z) :
    MN R Z :=
  match fuel with
  | O => stop Forever
  | S fuel' =>
      if (Offset <? 0) || (Depth <? 0) then mret (if Depth <? 0 then -1 else Offset)
      else
        let next :=
          n ← fdt_next_node Fdt Offset (Some Depth);
          subnode_scan fuel' n.1 (depth_of n.2) Name NameLen Level in
        if Depth =? 1 then
          Ptr ← (if Level =? 0
                 then fdt_offset_ptr Fdt (s32 (Offset + FDT_TAGSIZE)) (u32 (NameLen + 1))
                 else mret (Some 0));
          match Ptr with
          | None => mret 0
          | Some Ptr =>
              (if Level =? 0 then
                 name ← string_at Fdt Ptr;
                 FdtAddToNodeList name Offset
               else mret tt);;
              e ← FdtNodeNameEq Offset Name NameLen;
              if (e : bool) then mret Offset else next
          end
        else next
  end.

Definition FdtSubnodeOffsetNamelen (Offset : Z) (Name : list Z) (NameLen Level : Z) : MN R Z :=
  Ret ← fdt_check_header Fdt;
  if negb (Ret =? 0) then mret Ret
  else if Level =? 0 then
    NodeList ← get;
    let '(Ret, Offset) := FdtFindNodeFromList Name NameLen NodeList in
    if (Ret : bool) then mret Offset
    else subnode_scan (fdt_rounds Fdt) Offset (if Offset =? 0 then 0 else 1) Name NameLen Level
  else subnode_scan (fdt_rounds Fdt) Offset 0 Name NameLen Level.

Fixpoint path_scan (fuel : nat) (Ptr : list Z) (Offset Level : Z) : MN R Z :=
  match fuel with
  | O => stop Forever
  | S fuel' =>
      if hd0 Ptr =? 0 then mret Offset
      else
        let Ptr := drop_slashes Ptr in
        if hd0 Ptr =? 0 then mret Offset
        else
          let NameLen := default (length (cstr Ptr)) (memchr (cstr Ptr) 47) in
          Offset ← FdtSubnodeOffsetNamelen Offset Ptr (Z.of_nat NameLen) Level;
          if Offset <? 0 then mret Offset
          else path_scan fuel' (drop NameLen Ptr) Offset (Level + 1)
  end.

Fixpoint FdtPathOffset_fuel (fuel : nat) (Path : list Z) : MN R Z :=
  match fuel with
  | O => stop Forever
  | S fuel' =>
      if EnableNewNodeSearchFuc then
        Ret ← fdt_check_header Fdt;
        if negb (Ret =? 0) then mret Ret
        else if hd0 Path =? 47 then path_scan (S (length Path)) Path 0 0
        else
          let Qtr := default (length (cstr Path)) (memchr (cstr Path) 47) in
          Ptr ← fdt_get_alias_namelen Fdt Path (Z.of_nat Qtr);
          match Ptr with
          | None => mret (- FDT_ERR_BADPATH)
          | Some Ptr =>
              Offset ← FdtPathOffset_fuel fuel' (drop (Z.to_nat Ptr) Fdt);
              path_scan (S (length Path)) (drop Qtr Path) Offset 0
          end
      else fdt_path_offset Fdt (cstr Path)
  end.
Definition FdtPathOffset (Path : list Z) : MN R Z := FdtPathOffset_fuel (fdt_rounds Fdt) Path.

(** 0 when there is no such property. *)
Definition FdtGetPropLen (Offset : Z) (Name : list Z) : MN R Z :=
  p ← fdt_get_property Fdt Offset Name;
  match p.1 with
  | Some _ => mret (if p.2 <? 0 then 0 else p.2)
  | None => mret 0
  end.
End Search.
End FdtRw.
