(* ===== verification/FdtRwSpec.v ===== *)
(** The node list of [FdtRw.c]: its order, what an update of the offsets does
    to it, and what a search that starts with an empty list finds. *)
From Stdlib Require Import ZArith Lia.
From stdpp Require Import base list numbers option sets sorting.
From S2P Require Import Prelude EfiBase Fdt FdtSpec FdtTree FdtRw.

(** * Order *)

Definition later (a b : FDT_FIRST_LEVEL_NODE) : Prop := NodeOffset b <= NodeOffset a.
Definition desc : list FDT_FIRST_LEVEL_NODE -> Prop := StronglySorted later.

Lemma insert_node_desc n nl : desc nl -> desc (insert_node n nl).
Proof.
  unfold desc. induction 1 as [|c nl Hs IH Hc]; simpl; [repeat constructor|].
  rewrite Z.gtb_ltb. case_match eqn:E; bools.
  - constructor; [by constructor|]. constructor; [unfold later; lia|].
    eapply Forall_impl; [exact Hc|]. unfold later. intros x Hx. lia.
  - constructor; [done|]. clear IH. induction Hc as [|x nl Hx Hc IHc]; simpl; [by repeat constructor|].
    apply StronglySorted_inv in Hs as [Hs _].
    case_match; repeat constructor; auto.
Qed.

(** An update of the offsets, as the map it stands for. *)
Definition shifted (o d : Z) (n : FDT_FIRST_LEVEL_NODE) : FDT_FIRST_LEVEL_NODE :=
  if NodeOffset n >? o then mkFirst (NodeName n) (s32 (NodeOffset n + d)) else n.

Lemma shift_nodes_map o d nl : desc nl -> shift_nodes o d nl = map (shifted o d) nl.
Proof.
  unfold desc. induction 1 as [|c nl Hs IH Hc]; simpl; [done|]. unfold shifted at 1.
  case_match eqn:E; [by rewrite IH|].
  f_equal. clear IH Hs. rewrite Z.gtb_ltb in E. bools.
  induction Hc as [|x nl Hx Hc IHc]; simpl; [done|]. unfold shifted at 1. unfold later in Hx.
  rewrite Z.gtb_ltb, (proj2 (Z.ltb_ge _ _)) by lia. by f_equal.
Qed.

(** Every step of a search keeps the order. *)
Definition keeps_order (a b : list FDT_FIRST_LEVEL_NODE) : Prop := desc a -> desc b.
#[global] Instance keeps_order_preorder : PreOrder keeps_order.
Proof. split; unfold keeps_order; [by intros x Hx|]. intros x y z ? ? ?. auto. Qed.

Section Order.
Context {R : Type} (pool : Z -> bool) (Fdt : list Z).

(** The reader of the blob leaves the list alone. *)
Ltac reads := repeat first
  [ progress intros
  | solve [auto with keeps typeclass_instances]
  | match goal with
    | |- keeps _ (mbind _ _) => apply keeps_bind; [apply _|..]
    | |- keeps _ (if ?b then _ else _) => destruct b
    | |- keeps _ (match ?x with _ => _ end) => destruct x
    | |- keeps _ (let '(_, _) := ?p in _) => destruct p
    end ].

Section Pure.
Context {S : Type} (P : S -> S -> Prop) {HP : PreOrder P}.

Lemma keeps_fdt32 p : keeps P (fdt32 (R := R) Fdt p).
Proof. unfold fdt32. reads. Qed.
Lemma keeps_fdt8 p : keeps P (fdt8 (R := R) Fdt p).
Proof. unfold fdt8. reads. Qed.
Hint Resolve keeps_fdt32 keeps_fdt8 : keeps.
Lemma keeps_offset_ptr o n : keeps P (fdt_offset_ptr (R := R) Fdt o n).
Proof.
  unfold fdt_offset_ptr, raw_offset_ptr, fdt_off_dt_struct, fdt_totalsize, fdt_version,
    fdt_size_dt_struct. reads.
Qed.
Hint Resolve keeps_offset_ptr : keeps.
Lemma keeps_skip_name fuel o : keeps P (skip_name (R := R) Fdt fuel o).
Proof. revert o. induction fuel as [|fuel IH]; intros o; cbn [skip_name]; reads; apply IH. Qed.
Hint Resolve keeps_skip_name : keeps.
Lemma keeps_next_tag o : keeps P (fdt_next_tag (R := R) Fdt o).
Proof. unfold fdt_next_tag, tag_end. reads. Qed.
Hint Resolve keeps_next_tag : keeps.
Lemma keeps_check_tag w o : keeps P (check_tag_offset (R := R) Fdt w o).
Proof. unfold check_tag_offset. reads. Qed.
Hint Resolve keeps_check_tag : keeps.
Lemma keeps_next_node_loop fuel o d : keeps P (next_node_loop (R := R) Fdt fuel o d).
Proof. revert o d. induction fuel as [|fuel IH]; intros o d; cbn [next_node_loop]; reads; apply IH. Qed.
Hint Resolve keeps_next_node_loop : keeps.
Lemma keeps_next_node o d : keeps P (fdt_next_node (R := R) Fdt o d).
Proof. unfold fdt_next_node, fdt_check_node_offset. reads. Qed.
Lemma keeps_check_header : keeps P (fdt_check_header (R := R) Fdt).
Proof.
  unfold fdt_check_header, check_magic, fdt_magic, fdt_version, fdt_last_comp_version,
    fdt_size_dt_struct, fdt_off_dt_struct, fdt_off_dt_strings, fdt_size_dt_strings, fdt_totalsize.
  reads.
Qed.
Lemma keeps_mem_eq p b n : keeps P (mem_eq (R := R) Fdt p b n).
Proof. unfold mem_eq. reads. Qed.
Lemma keeps_strlen p : keeps P (strlen_at (R := R) Fdt p).
Proof. unfold strlen_at. reads. Qed.
Hint Resolve keeps_next_node keeps_check_header keeps_mem_eq keeps_strlen : keeps.
Lemma keeps_string_at p : keeps P (string_at (R := R) Fdt p).
Proof. unfold string_at. reads. Qed.
Lemma keeps_string_eq o q n : keeps P (fdt_string_eq (R := R) Fdt o q n).
Proof. unfold fdt_string_eq, fdt_string, fdt_off_dt_strings. reads. Qed.
Lemma keeps_nodename_eq o q n : keeps P (fdt_nodename_eq (R := R) Fdt o q n).
Proof. unfold fdt_nodename_eq. reads. Qed.
Lemma keeps_nextprop fuel o : keeps P (nextprop (R := R) Fdt fuel o).
Proof. revert o. induction fuel as [|fuel IH]; intros o; cbn [nextprop]; reads; apply IH. Qed.
Hint Resolve keeps_string_at keeps_string_eq keeps_nextprop keeps_nodename_eq : keeps.
Lemma keeps_property_loop fuel o q n : keeps P (property_loop (R := R) Fdt fuel o q n).
Proof.
  revert o. induction fuel as [|fuel IH]; intros o; cbn [property_loop];
    unfold fdt_get_property_by_offset, fdt_check_prop_offset, raw_offset_ptr, fdt_off_dt_struct,
      fdt_next_property_offset, fdt_check_prop_offset; reads; apply IH.
Qed.
Hint Resolve keeps_property_loop : keeps.
Lemma keeps_getprop_namelen o q n : keeps P (fdt_getprop_namelen (R := R) Fdt o q n).
Proof.
  unfold fdt_getprop_namelen, fdt_get_property_namelen, fdt_first_property_offset,
    fdt_check_node_offset. reads.
Qed.
Lemma keeps_subnode_loop fuel o d q n : keeps P (subnode_loop (R := R) Fdt fuel o d q n).
Proof. revert o d. induction fuel as [|fuel IH]; intros o d; cbn [subnode_loop]; reads; apply IH. Qed.
Hint Resolve keeps_subnode_loop keeps_getprop_namelen : keeps.
Lemma keeps_path_loop fuel p o : keeps P (path_loop (R := R) Fdt fuel p o).
Proof.
  revert p o. induction fuel as [|fuel IH]; intros p o; cbn [path_loop];
    unfold fdt_subnode_offset_namelen; reads; apply IH.
Qed.
Hint Resolve keeps_path_loop : keeps.
Lemma keeps_get_alias q n : keeps P (fdt_get_alias_namelen (R := R) Fdt q n).
Proof. unfold fdt_get_alias_namelen, absolute_path_offset. reads. Qed.
End Pure.
End Order.

#[export] Hint Resolve keeps_fdt32 keeps_fdt8 keeps_offset_ptr keeps_next_node keeps_check_header
  keeps_mem_eq keeps_string_at keeps_get_alias : keeps.

Section Invariant.
Context {R : Type} (pool : Z -> bool) (Fdt : list Z).

Lemma keeps_add name o : keeps keeps_order (FdtAddToNodeList (R := R) pool name o).
Proof.
  unfold FdtAddToNodeList, FdtDeleteNodeList. keeps_tac; unfold keeps_order; intros.
  - by apply insert_node_desc.
  - constructor.
Qed.
Hint Resolve keeps_add : keeps.

Lemma keeps_name_eq o q n : keeps keeps_order (FdtNodeNameEq (R := R) Fdt o q n).
Proof. unfold FdtNodeNameEq, ScanMem8. keeps_tac. Qed.
Hint Resolve keeps_name_eq : keeps.

Lemma keeps_subnode_scan fuel o d q n l :
  keeps keeps_order (subnode_scan (R := R) pool Fdt fuel o d q n l).
Proof.
  revert o d. induction fuel as [|fuel IH]; intros o d; cbn [subnode_scan]; keeps_tac.
Qed.
Hint Resolve keeps_subnode_scan : keeps.

Lemma keeps_path_scan fuel p o l : keeps keeps_order (path_scan (R := R) pool Fdt fuel p o l).
Proof.
  revert p o l. induction fuel as [|fuel IH]; intros p o l; cbn [path_scan];
    unfold FdtSubnodeOffsetNamelen; keeps_tac.
Qed.
Hint Resolve keeps_path_scan : keeps.

Lemma keeps_path_offset p : keeps keeps_order (FdtPathOffset (R := R) pool Fdt p).
Proof.
  unfold FdtPathOffset. generalize (fdt_rounds Fdt) as fuel. intros fuel. revert p.
  induction fuel as [|fuel IH]; intros p; cbn [FdtPathOffset_fuel EnableNewNodeSearchFuc]; keeps_tac.
Qed.
End Invariant.

(** * A search that finds its node *)

(** The name [q] stands for a node called [q], or called [q] with a unit
    address. *)
Definition name_matches (name q : list Z) : Prop := name = q \/ exists unit, name = q ++ 64 :: unit.

Section Find.
Context {R : Type} (pool : Z -> bool).
Context (fdt : list Z) (off : Z) (toks : list tok) (total version : Z).
Context (H : holds_toks fdt off toks total version) (Hts : Forall tok_ok toks).
Implicit Types (nl : list FDT_FIRST_LEVEL_NODE).

(** The bytes at the name of a node. *)
Lemma name_bytes pre name post :
  toks = pre ++ TBegin name :: post ->
  exists bpre rest, holds fdt off (bpre ++ (name ++ [0]) ++ rest) total version /\
    Z.of_nat (length bpre) = pos pre + 4 /\
    Z.of_nat (length (bpre ++ (name ++ [0]) ++ rest)) = pos toks /\
    Forall (fun c => is_u8 c /\ c <> 0) name /\ pos post <= Z.of_nat (length rest).
Proof.
  intros Ht. destruct (toks_split _ _ _ _ _ H _ _ _ Ht) as (bpre & b & bpost & Hh & Has & Hl & Hl').
  pose proof (enc_as_length _ _ Has) as Hbl. destruct Has as (pad & -> & _). cbn [tag_of tok_data] in *.
  exists (bpre ++ be_put 4 FDT_BEGIN_NODE), (pad ++ bpost). split_and!.
  - rewrite <- !app_assoc in *. done.
  - rewrite length_app, length_be_put. lia.
  - rewrite Ht, pos_app. unfold pos in *. rewrite enc_cons, (length_app (enc_tok _)), <- Hbl.
    rewrite !length_app in *. lia.
  - rewrite Forall_forall in Hts. apply (Hts (TBegin name)). rewrite Ht. set_solver.
  - rewrite length_app. lia.
Qed.

Lemma name_string pre name post nl :
  toks = pre ++ TBegin name :: post ->
  string_at (R := R) fdt (off + (pos pre + 4)) nl = (Go name, nl).
Proof.
  intros Ht. destruct (name_bytes _ _ _ Ht) as (bpre & rest & Hh & Hl & _ & Hn & _). rewrite <- Hl.
  pose proof (read_part _ _ _ _ _ Hh _ _ _ eq_refl) as Hr. rewrite (length_app name), Nat2Z.inj_add in Hr.
  unfold string_at. erewrite bind_go by (eapply strlen_at_str; [|exact Hr];
    eapply Forall_impl; [exact Hn|]; by intros ? []).
  apply buf_read_prefix in Hr. by rewrite Hr.
Qed.

(** ** The comparison of a name *)

Section Name.
Context (q extra : list Z) (Hq : Forall (fun c => is_u8 c /\ c <> 0) q).
Definition Source : list Z := q ++ extra.
Context (Hmem : (64 <= length Source)%nat).
Definition qlen : Z := Z.of_nat (length q).

Lemma scan_mem nl v : exists b, ScanMem8 (R := R) Source 64 v nl = (Go b, nl).
Proof.
  unfold ScanMem8. cbn [Z.eqb Pos.eqb]. destruct (memchr _ _); [by eexists|].
  rewrite (proj2 (Z.ltb_ge _ _)) by lia. by eexists.
Qed.

(** There is room for the name and a terminator at a node. *)
Definition room (pre : list tok) : Prop :=
  pos pre + 4 + (qlen + 1) <= pos toks.

Lemma room_ptr pre nl :
  room pre ->
  fdt_offset_ptr (R := R) fdt (s32 (pos pre + FDT_TAGSIZE)) (u32 (qlen + 1)) nl =
  (Go (Some (off + (pos pre + 4))), nl).
Proof.
  unfold room, FDT_TAGSIZE. intros Hr. pose proof (toks_bounds _ _ _ _ _ H) as [_ Hmax].
  assert (0 <= pos pre) by apply Zle_0_nat. assert (0 <= qlen) by apply Zle_0_nat.
  rewrite s32_small, u32_small by lia. by eapply toks_ptr_in; [exact H|lia..].
Qed.

(** The bytes the comparison reads. *)
Lemma name_read pre name post :
  toks = pre ++ TBegin name :: post -> room pre ->
  exists b c, buf_read fdt (off + (pos pre + 4)) qlen = Some b /\
    buf_read fdt (off + (pos pre + 4) + qlen) 1 = Some [c] /\
    (name = q -> b = q /\ c = 0) /\
    (~ name_matches name q -> b = q -> c <> 0 /\ c <> 64).
Proof.
  intros Ht Hr. destruct (name_bytes _ _ _ Ht) as (o & rest & Hb & Ho & Htot & Hn & _). unfold room in Hr.
  rewrite <- Ho in *. rewrite <- Htot in Hr. set (text := (name ++ [0]) ++ rest) in *.
  assert (Hl : (length q < length text)%nat)
    by (rewrite length_app in Hr; unfold qlen in Hr; lia).
  destruct (lookup_lt_is_Some_2 text (length q)) as [c Hc]; [done|].
  assert (Hsplit : text = take (length q) text ++ [c] ++ drop (S (length q)) text)
    by (symmetry; by apply take_drop_middle).
  assert (Hlq : length (take (length q) text) = length q) by (rewrite length_take; lia).
  exists (take (length q) text), c. split_and!.
  - pose proof (read_part _ _ _ _ _ Hb o (take (length q) text) (drop (length q) text)) as Hp.
    rewrite Hlq in Hp. apply Hp. by rewrite take_drop.
  - pose proof (read_part _ _ _ _ _ Hb (o ++ take (length q) text) [c] (drop (S (length q)) text)) as Hp.
    rewrite length_app, Hlq, Nat2Z.inj_add, Z.add_assoc in Hp. apply Hp.
    by rewrite <- app_assoc, <- Hsplit.
  - intros ->. subst text. rewrite <- app_assoc in *. rewrite take_app_length in *.
    split; [done|]. rewrite lookup_app_r, Nat.sub_diag in Hc by lia. by simplify_eq.
  - intros Hm Hbq. subst text. rewrite <- app_assoc in *.
    assert (Hlen : (length q < length name)%nat).
    { destruct (decide (length q < length name)%nat) as [|Hge]; [done|exfalso].
      destruct (decide (length name = length q)) as [He|He].
      - apply Hm. left. rewrite <- Hbq, <- He. symmetry. apply take_app_length.
      - assert (H0 : q !! length name = Some 0).
        { rewrite <- Hbq, lookup_take_lt by lia. by rewrite lookup_app_r, Nat.sub_diag by lia. }
        rewrite Forall_lookup in Hq. by apply Hq in H0 as []. }
    rewrite lookup_app_l in Hc by done. split.
    + rewrite Forall_lookup in Hn. by apply Hn in Hc as [].
    + intros ->. apply Hm. right. exists (drop (S (length q)) name).
      rewrite take_app_le in Hbq by lia. rewrite <- Hbq at 1. symmetry. by apply take_drop_middle.
Qed.

Lemma Source_read : buf_read Source 0 qlen = Some q.
Proof. unfold Source, qlen. apply (buf_read_mid [] q extra). Qed.

Lemma byte_at p c nl : buf_read fdt p 1 = Some [c] -> fdt8 (R := R) fdt p nl = (Go c, nl).
Proof. intros Hr. unfold fdt8. munfold. rewrite Hr. unfold be_get. simpl. by rewrite Z.lor_0_r. Qed.

Lemma name_eq_at pre name post nl :
  toks = pre ++ TBegin name :: post -> room pre -> name = q \/ ~ name_matches name q ->
  FdtNodeNameEq (R := R) fdt (pos pre) Source qlen nl = (Go (bool_decide (name = q)), nl).
Proof.
  intros Ht Hr Hcase. unfold FdtNodeNameEq. rewrite (bind_go _ _ _ _ _ (room_ptr _ _ Hr)).
  destruct (name_read _ _ _ Ht Hr) as (b & c & Hb & Hc & Hyes & Hno).
  unfold mem_eq. erewrite bind_go by (rewrite Hb, Source_read; reflexivity).
  destruct Hcase as [Hn|Hn].
  - destruct (Hyes Hn) as [-> ->]. rewrite !bool_decide_true by done. cbn [negb].
    by rewrite (bind_go _ _ _ _ _ (byte_at _ _ _ Hc)).
  - rewrite (bool_decide_false (name = q)) by (intros ->; apply Hn; by left).
    case_bool_decide as Hbq; [|done]. destruct (Hno Hn Hbq) as [Hc0 Hc64].
    cbn [negb]. rewrite (bind_go _ _ _ _ _ (byte_at _ _ _ Hc)), (proj2 (Z.eqb_neq c 0)) by done.
    destruct (scan_mem nl (u8 qlen)) as [at_ Hat]. rewrite (bind_go _ _ _ _ _ Hat).
    rewrite (proj2 (Z.eqb_neq c 64)) by done. by rewrite andb_false_r.
Qed.

(** ** The walk over the first level *)

Lemma add_runs name o nl : exists nl', FdtAddToNodeList (R := R) pool name o nl = (Go tt, nl').
Proof.
  unfold FdtAddToNodeList, FdtDeleteNodeList. munfold. repeat case_match; by eexists.
Qed.

Definition look (fuel : nat) (n : Z * Z) : M (list FDT_FIRST_LEVEL_NODE) R Z :=
  subnode_scan pool fdt fuel n.1 n.2 Source qlen 0.

Lemma look_below fuel pre name suf d nl :
  toks = pre ++ TBegin name :: suf -> TEnd ∈ suf -> d <> 1 -> 0 <= d ->
  subnode_scan (R := R) pool fdt (S fuel) (pos pre) d Source qlen 0 nl =
  look fuel (scan (pre ++ [TBegin name]) suf d) nl.
Proof.
  intros Ht He Hd H0. cbn [subnode_scan].
  rewrite (proj2 (Z.ltb_ge (pos pre) 0)) by apply Zle_0_nat.
  rewrite (proj2 (Z.ltb_ge d 0)), (proj2 (Z.eqb_neq d 1)) by lia. cbn [orb].
  by rewrite (bind_go _ _ _ _ _ (next_node_scan _ _ _ _ _ H Hts _ _ _ _ _ Ht He)).
Qed.

(** At a node of the first level. *)
Lemma look_child fuel pre name suf nl nl' :
  toks = pre ++ TBegin name :: suf -> TEnd ∈ suf -> room pre ->
  name = q \/ ~ name_matches name q ->
  FdtAddToNodeList (R := R) pool name (pos pre) nl = (Go tt, nl') ->
  subnode_scan (R := R) pool fdt (S fuel) (pos pre) 1 Source qlen 0 nl =
    (if bool_decide (name = q) then (Go (pos pre), nl')
     else look fuel (scan (pre ++ [TBegin name]) suf 1) nl').
Proof.
  intros Ht He Hr Hcase Ha. cbn [subnode_scan].
  rewrite (proj2 (Z.ltb_ge (pos pre) 0)) by apply Zle_0_nat. cbn [orb Z.ltb Z.eqb Pos.eqb Z.compare].
  rewrite (bind_go _ _ _ _ _ (room_ptr _ _ Hr)). cbv beta iota.
  erewrite bind_go by (rewrite (bind_go _ _ _ _ _ (name_string _ _ _ _ Ht)); exact Ha).
  rewrite (bind_go _ _ _ _ _ (name_eq_at _ _ _ _ Ht Hr Hcase)).
  case_bool_decide; [done|].
  by rewrite (bind_go _ _ _ _ _ (next_node_scan _ _ _ _ _ H Hts _ _ _ _ _ Ht He)).
Qed.

Lemma room_before pre n post :
  toks = pre ++ TBegin n :: post -> n = q \/ TBegin q ∈ post -> room pre.
Proof.
  intros Ht Hin. unfold room, qlen.
  assert (Hq4 : forall ts, TBegin q ∈ ts -> Z.of_nat (length q) + 5 <= pos ts).
  { intros ts (a & b & ->)%list_elem_of_split. rewrite pos_app. unfold pos at 2.
    rewrite enc_cons, length_app. unfold enc_tok, tok_body. rewrite length_app, length_be_put.
    rewrite !Nat2Z.inj_add, length_pad4. pose proof (align4_bounds (Z.of_nat (length (q ++ [0])))).
    rewrite length_app in *. simpl length in *. assert (0 <= pos a) by apply Zle_0_nat. lia. }
  change (Z.of_nat (length (enc toks))) with (pos toks). rewrite Ht, pos_app.
  assert (Hc : TBegin n :: post = [TBegin n] ++ post) by done.
  destruct Hin as [->|Hin].
  - specialize (Hq4 (TBegin q :: post)). set_unfold. specialize (Hq4 ltac:(auto)). lia.
  - specialize (Hq4 _ Hin). rewrite Hc, pos_app. pose proof (pos_count [TBegin n]). simpl length in *. lia.
Qed.

Lemma child_begin cs i c : cs !! i = Some c -> TBegin (node_name c) ∈ flatten_all cs.
Proof.
  intros Hi. apply list_elem_of_split_length in Hi as (a & b & -> & _).
  unfold flatten_all. rewrite map_app, join_app. simpl. rewrite flatten_below.
  apply elem_of_app. right. apply elem_of_cons. by left.
Qed.

(** The walk ends at the child of the name; [nls] are the lists the nodes
    visited leave. *)
Lemma find_child_lists cs : forall i c fuel pre suf (nls : nat -> list FDT_FIRST_LEVEL_NODE),
  cs !! i = Some c -> node_name c = q ->
  (forall j c', (j < i)%nat -> cs !! j = Some c' -> ~ name_matches (node_name c') q) ->
  (forall j c', (j <= i)%nat -> cs !! j = Some c' ->
    FdtAddToNodeList (R := R) pool (node_name c') (pos (pre ++ flatten_all (take j cs))) (nls j) = (Go tt, nls (S j))) ->
  toks = pre ++ flatten_all cs ++ suf -> TEnd ∈ suf ->
  (list_sum (map nodes cs) <= fuel)%nat ->
  subnode_scan (R := R) pool fdt fuel (pos pre) 1 Source qlen 0 (nls O) =
    (Go (pos (pre ++ flatten_all (take i cs))), nls (S i)).
Proof.
  induction cs as [|c0 cs IH]; intros i c fuel pre suf nls Hi Hc Hno Hadd Ht He Hf; [done|].
  change (flatten_all (c0 :: cs)) with (flatten c0 ++ flatten_all cs) in Ht.
  simpl list_sum in Hf. assert (Hn0 : (0 < nodes c0)%nat) by (destruct c0; simpl; lia).
  destruct fuel as [|fuel]; [lia|]. pose proof Ht as Ht'.
  rewrite flatten_below, <- !app_assoc, <- app_comm_cons in Ht'.
  pose proof (Hadd O c0 (Nat.le_0_l i) eq_refl) as Ha. cbn [take] in Ha.
  change (flatten_all []) with (@nil tok) in Ha. rewrite app_nil_r in Ha.
  assert (Hl : subnode_scan (R := R) pool fdt (S fuel) (pos pre) 1 Source qlen 0 (nls O) =
    (if bool_decide (node_name c0 = q) then (Go (pos pre), nls 1%nat)
     else look fuel (scan (pre ++ [TBegin (node_name c0)]) (below c0 ++ flatten_all cs ++ suf) 1) (nls 1%nat))).
  { apply look_child; [exact Ht'|set_solver| | |exact Ha].
    - eapply room_before; [exact Ht'|]. destruct i as [|i]; [left; naive_solver|right].
      simpl in Hi. pose proof (child_begin _ _ _ Hi). rewrite Hc in *. set_solver.
    - destruct i as [|i]; [left; naive_solver|right]. apply (Hno 0%nat); [lia|done]. }
  rewrite Hl. destruct i as [|i]; simpl in Hi.
  - injection Hi as ->. rewrite bool_decide_true by done. simpl. by rewrite app_nil_r.
  - rewrite bool_decide_false by (intros Heq; eapply (Hno 0%nat); [lia|done|by left]).
    rewrite (subtree_skipped fdt off toks total version H Hts (fun f o d => look f (o, d)) look
      (fun f p nm sf d s h1 h2 h3 => look_below f p nm sf d s h1 h2 ltac:(lia) ltac:(lia))
      (fun f o d s _ _ => eq_refl) c0 _ _ _ _ _ ltac:(by rewrite Ht, <- app_assoc));
      [|set_solver|lia|lia].
    destruct cs as [|c1 cs]; [done|]. change (1 - 1) with 0.
    rewrite scan_forest. unfold look. cbn [fst snd]. change (0 + 1) with 1.
    rewrite (IH i c (S fuel - nodes c0)%nat (pre ++ flatten c0) suf (fun j => nls (S j)));
      [|done|done| | |by rewrite Ht, <- !app_assoc|done|simpl in *; lia].
    + unfold flatten_all. simpl. by rewrite <- !app_assoc.
    + intros j c' Hj Hj'. eapply (Hno (S j)); [lia|done].
    + intros j c' Hj Hj'. rewrite <- app_assoc. apply (Hadd (S j) c'); [lia|done].
Qed.

Lemma find_child cs i c fuel pre suf nl :
  cs !! i = Some c -> node_name c = q ->
  (forall j c', (j < i)%nat -> cs !! j = Some c' -> ~ name_matches (node_name c') q) ->
  toks = pre ++ flatten_all cs ++ suf -> TEnd ∈ suf ->
  (list_sum (map nodes cs) <= fuel)%nat ->
  exists nl', subnode_scan (R := R) pool fdt fuel (pos pre) 1 Source qlen 0 nl =
    (Go (pos (pre ++ flatten_all (take i cs))), nl').
Proof.
  intros Hi Hc Hno Ht He Hf.
  set (add := fun j l => match cs !! j with
    | Some c' => (FdtAddToNodeList (R := R) pool (node_name c') (pos (pre ++ flatten_all (take j cs))) l).2
    | None => l
    end).
  set (nls := fix nls j := match j with O => nl | S j => add j (nls j) end).
  exists (nls (S i)). change nl with (nls O) at 1. eapply find_child_lists; try done.
  intros j c' _ Hj. change (nls (S j)) with (add j (nls j)). unfold add. rewrite Hj.
  match goal with |- ?x = _ => destruct x as [r l] eqn:E end.
  destruct (add_runs (node_name c') (pos (pre ++ flatten_all (take j cs))) (nls j)) as [l' Hl'].
  rewrite E in Hl'. by injection Hl' as -> _.
Qed.
End Name.
End Find.

(** * A blob that holds a tree *)

Definition tree_toks (root : dnode) : list tok := flatten root ++ [TEnd].

Record tree_blob (fdt : list Z) (off : Z) (root : dnode) (strs : Z -> list Z)
    (total version : Z) : Prop := {
  tb_holds : holds_toks fdt off (tree_toks root) total version;
  tb_toks : Forall tok_ok (tree_toks root);
  tb_magic : word fdt 0 = Some FDT_MAGIC;
  tb_version : 16 <= version;
  tb_last : exists last, word fdt 24 = Some last /\ last <= 17;
  tb_strings : exists offs size, word fdt 12 = Some offs /\ word fdt 32 = Some size /\
    offs + size <= total;
  tb_names : forall nameoff value, TProp nameoff value ∈ flatten root ->
    str_at fdt nameoff (strs nameoff);
}.

(** The words of a header that passes [fdt_check_header]. *)
Record header_words (fdt : list Z) (total off size offs ssize : Z) : Prop := {
  hw_magic : word fdt 0 = Some FDT_MAGIC;
  hw_total : word fdt 4 = Some total;
  hw_off : word fdt 8 = Some off;
  hw_size : word fdt 36 = Some size;
  hw_offs : word fdt 12 = Some offs;
  hw_ssize : word fdt 32 = Some ssize;
  hw_version : exists version, word fdt 20 = Some version /\ 16 <= version;
  hw_last : exists last, word fdt 24 = Some last /\ last <= 17;
  hw_u32 : is_u32 total /\ is_u32 off /\ is_u32 size /\ is_u32 offs /\ is_u32 ssize;
  hw_struct : off + size <= total;
  hw_strings : offs + ssize <= total;
}.

Lemma check_header_words {S R} fdt total off size offs ssize (s : S) :
  header_words fdt total off size offs ssize -> fdt_check_header (R := R) fdt s = (Go 0, s).
Proof.
  intros [Hm Htot Hwo Hws Ho Hs (version & Hwv & Hv) (last & Hl & Hl17) (? & ? & ? & ? & ?) Hin Hos].
  unfold is_u32 in *.
  unfold fdt_check_header, check_magic, fdt_magic, fdt_version, fdt_last_comp_version,
    fdt_off_dt_struct, fdt_size_dt_struct, fdt_off_dt_strings, fdt_size_dt_strings, fdt_totalsize.
  erewrite bind_go; cycle 1.
  { rewrite (bind_go _ _ _ _ _ (fdt32_word _ _ _ _ Hm)), Z.eqb_refl.
    rewrite (bind_go _ _ _ _ _ (fdt32_word _ _ _ _ Hwv)).
    rewrite (proj2 (Z.ltb_ge version FDT_FIRST_SUPPORTED_VERSION)) by done.
    rewrite (bind_go _ _ _ _ _ (fdt32_word _ _ _ _ Hl)), Z.gtb_ltb.
    rewrite (proj2 (Z.ltb_ge _ last)) by done. reflexivity. }
  cbn [negb Z.eqb].
  rewrite (bind_go _ _ _ _ _ (fdt32_word _ _ _ _ Hwo)), (bind_go _ _ _ _ _ (fdt32_word _ _ _ _ Hws)),
    (bind_go _ _ _ _ _ (fdt32_word _ _ _ _ Ho)), (bind_go _ _ _ _ _ (fdt32_word _ _ _ _ Hs)),
    (bind_go _ _ _ _ _ (fdt32_word _ _ _ _ Htot)).
  unfold MAX_UINT32. rewrite !Z.gtb_ltb, !u32_small by lia.
  by rewrite !(proj2 (Z.ltb_ge _ _)) by lia.
Qed.

Section Tree.
Context {R : Type} (pool : Z -> bool).
Context (fdt : list Z) (off : Z) (root : dnode) (strs : Z -> list Z) (total version : Z).
Context (T : tree_blob fdt off root strs total version).

Lemma tree_header : exists offs ssize,
  header_words fdt total off (pos (tree_toks root)) offs ssize.
Proof.
  destruct T as [Hh _ Hm Hv Hl (offs & ssize & Ho & Hs & Hos) _]. exists offs, ssize.
  pose proof (toks_ok _ _ _ _ _ Hh) as Hok. pose proof (toks_in _ _ _ _ _ Hh) as Hin.
  pose proof (blob_ok_bounds _ _ _ _ _ Hok) as (Ht & Hoff & _ & Hsz).
  pose proof (word_u32 _ _ _ (ok_u8 _ _ _ _ _ Hok) Ho). pose proof (word_u32 _ _ _ (ok_u8 _ _ _ _ _ Hok) Hs).
  destruct Hok as [_ Htot _ Hwo Hwv Hws]. split; try done; [by exists version|unfold is_u32 in *; split_and!; lia].
Qed.

Lemma header_checked {S} (s : S) : fdt_check_header (R := R) fdt s = (Go 0, s).
Proof. destruct tree_header as (offs & ssize & H). by eapply check_header_words. Qed.

(** A path of one component is one search. *)
Lemma path_offset_single (q extra : list Z) (o : Z) nl nl' :
  Forall (fun c => is_u8 c /\ c <> 0 /\ c <> 47) q -> q <> [] -> 0 <= o ->
  FdtSubnodeOffsetNamelen (R := R) pool fdt 0 (q ++ 0 :: extra) (Z.of_nat (length q)) 0 nl = (Go o, nl') ->
  FdtPathOffset (R := R) pool fdt (47 :: q ++ 0 :: extra) nl = (Go o, nl').
Proof.
  intros Hq Hne Ho Hrun. unfold FdtPathOffset, fdt_rounds.
  cbn [FdtPathOffset_fuel EnableNewNodeSearchFuc].
  rewrite (bind_go _ _ _ _ _ (header_checked _)). cbn [negb Z.eqb hd0 Pos.eqb].
  cbn [path_scan hd0 Z.eqb drop_slashes Pos.eqb length].
  assert (Hcs : cstr (q ++ 0 :: extra) = q).
  { clear -Hq. induction Hq as [|x q (_ & Hx & _) _ IH]; simpl; [done|].
    rewrite (proj2 (Z.eqb_neq x 0)) by done. by rewrite IH. }
  assert (Hsl : memchr q 47 = None).
  { clear -Hq. induction Hq as [|x q (_ & _ & Hx) _ IH]; simpl; [done|].
    rewrite (proj2 (Z.eqb_neq x 47)) by done. by rewrite IH. }
  assert (Hds : drop_slashes (q ++ 0 :: extra) = q ++ 0 :: extra /\ (hd0 (q ++ 0 :: extra) =? 0) = false).
  { destruct q as [|x q']; [done|]. apply Forall_cons in Hq as [(_ & H0 & H47) _]. simpl.
    by rewrite (proj2 (Z.eqb_neq x 0)), (proj2 (Z.eqb_neq x 47)) by done. }
  destruct Hds as [-> ->]. rewrite Hcs, Hsl. cbn [default]. rewrite (bind_go _ _ _ _ _ Hrun).
  rewrite (proj2 (Z.ltb_ge _ _)) by done.
  rewrite drop_app_length. by destruct (length (q ++ 0 :: extra)).
Qed.

(** A node that is on the list is taken from it. *)
Lemma path_offset_listed (q extra : list Z) (o : Z) nl :
  Forall (fun c => is_u8 c /\ c <> 0 /\ c <> 47) q -> q <> [] -> 0 <= o ->
  FdtFindNodeFromList (q ++ 0 :: extra) (Z.of_nat (length q)) nl = (true, o) ->
  FdtPathOffset (R := R) pool fdt (47 :: q ++ 0 :: extra) nl = (Go o, nl).
Proof.
  intros Hq Hne Ho Hfind. apply path_offset_single; [done..|].
  unfold FdtSubnodeOffsetNamelen. rewrite (bind_go _ _ _ _ _ (header_checked _)). cbn [negb Z.eqb].
  erewrite bind_go by reflexivity. by rewrite Hfind.
Qed.

(** The first level, searched with an empty list. *)
Lemma path_offset_child (q extra : list Z) (i : nat) (c : dnode) :
  Forall (fun c => is_u8 c /\ c <> 0 /\ c <> 47) q -> q <> [] ->
  (64 <= length (q ++ 0%Z :: extra))%nat ->
  node_children root !! i = Some c -> node_name c = q ->
  (forall j c', (j < i)%nat -> node_children root !! j = Some c' -> ~ name_matches (node_name c') q) ->
  exists nl, FdtPathOffset (R := R) pool fdt (47 :: q ++ 0 :: extra) [] = (Go (child_pos [] root i), nl).
Proof.
  intros Hq Hne Hmem Hi Hc Hno.
  assert (Hq' : Forall (fun c => is_u8 c /\ c <> 0) q)
    by (eapply Forall_impl; [exact Hq|by intros ? (?&?&?)]).
  destruct T as [Hh Hts _ _ _ _ _].
  assert (Hroot : tree_toks root = [] ++ TBegin (node_name root) :: (below root ++ [TEnd]))
    by (unfold tree_toks; by rewrite flatten_below).
  destruct (find_child (R := R) pool fdt off (tree_toks root) total version Hh Hts q (0 :: extra) Hq' Hmem
    (node_children root) i c (length fdt)
    ([TBegin (node_name root)] ++ prop_toks (node_props root)) ([TEndNode; TEnd]) []) as [nl Hf].
  { done. } { done. } { done. }
  { unfold tree_toks. rewrite flatten_below. unfold below. simpl. by rewrite <- !app_assoc. }
  { set_solver. }
  { pose proof (length_toks_fdt _ _ _ _ _ Hh) as Hl. pose proof (nodes_toks root) as Hn.
    unfold tree_toks in Hl. rewrite length_app in Hl. destruct root as [rn rps rcs]. simpl in *. lia. }
  assert (Hrun : FdtSubnodeOffsetNamelen (R := R) pool fdt 0 (q ++ 0 :: extra)
    (Z.of_nat (length q)) 0 [] = (Go (child_pos [] root i), nl)).
  { unfold FdtSubnodeOffsetNamelen, child_pos. rewrite (bind_go _ _ _ _ _ (header_checked _)).
    cbn [negb Z.eqb]. erewrite bind_go by reflexivity. cbn [FdtFindNodeFromList Z.eqb].
    pose proof (look_below (R := R) pool fdt off (tree_toks root) total version Hh Hts q (0 :: extra) Hmem
      (length fdt) [] _ _ 0 [] Hroot ltac:(set_solver) ltac:(lia) ltac:(lia)) as Hlook.
    change (pos []) with 0 in Hlook. unfold Source, qlen in Hlook. unfold fdt_rounds. rewrite Hlook.
    unfold look, below. rewrite <- !app_assoc, scan_props.
    destruct (node_children root) as [|c0 cs] eqn:Ecs; [done|].
    rewrite scan_forest. exact Hf. }
  exists nl. apply path_offset_single; [done|done|apply Zle_0_nat|exact Hrun].
Qed.
End Tree.
