(* ===== verification/FdtWrite.v ===== *)
(** Writing a flattened device tree in place
    ([EmbeddedPkg/Library/FdtLib/fdt_rw.c], with [_fdt_find_string] and
    [fdt_move] of [fdt.c] and what [fdt_wip.c] and [fdt_ro.c] lend it).

    The state is the memory from the address of the blob to the end of the
    object that holds it; a pointer is an offset into it, and a comparison of
    pointers one of offsets.  The readers of [Fdt.v] run on the bytes as they
    are at that moment. *)
From Stdlib Require Import ZArith Lia.
From stdpp Require Import base list numbers option.
From S2P Require Import Prelude EfiBase Fdt FdtSpec.

Definition FDT_ERR_EXISTS : Z := 2.
Definition FDT_ERR_NOSPACE : Z := 3.
Definition FDT_ERR_BADLAYOUT : Z := 12.
(** [FDT_ALIGN (sizeof (struct fdt_header), 8)]. *)
Definition FDT_HEADER_ALIGNED : Z := 40.
(** [sizeof (struct fdt_reserve_entry)] and [sizeof (struct fdt_node_header)]. *)
Definition FDT_RESERVE_SIZE : Z := 16.
Definition FDT_NODE_HEADER_SIZE : Z := 4.

Section FdtWrite.
Context {R : Type}.

Abbreviation MB := (M (list Z)).

(** A read-only function on the blob as it is now. *)
Definition reading {A} (f : list Z -> MB R A) : MB R A := b ← get; f b.

(** [memcpy] into the blob, [cpu_to_fdt32] stores, [memcpy] out of an object
    of the caller, [memmove] inside the blob. *)
Definition store (p : Z) (d : list Z) : MB R unit :=
  b ← get; b' ← need OutOfBounds (buf_write b p d); modify (fun _ => b').
Definition store32 (p v : Z) : MB R unit := store p (be_put 4 v).
Definition store64 (p v : Z) : MB R unit := store p (be_put 8 v).
Definition copy_in (p : Z) (val : list Z) (len : Z) : MB R unit :=
  d ← need OutOfBounds (buf_read val 0 len); store p d.
Definition memmove (dst src n : Z) : MB R unit :=
  b ← get; d ← need OutOfBounds (buf_read b src n); store dst d.

Definition fdt_set_magic (v : Z) : MB R unit := store32 0 v.
Definition fdt_set_totalsize (v : Z) : MB R unit := store32 4 v.
Definition fdt_set_off_dt_struct (v : Z) : MB R unit := store32 8 v.
Definition fdt_set_off_dt_strings (v : Z) : MB R unit := store32 12 v.
Definition fdt_set_version (v : Z) : MB R unit := store32 20 v.
Definition fdt_set_last_comp_version (v : Z) : MB R unit := store32 24 v.
Definition fdt_set_boot_cpuid_phys (v : Z) : MB R unit := store32 28 v.
Definition fdt_set_size_dt_strings (v : Z) : MB R unit := store32 32 v.
Definition fdt_set_size_dt_struct (v : Z) : MB R unit := store32 36 v.

(** ** The checks *)

Definition fdt_blocks_misordered (mem_rsv_size struct_size : Z) : MB R bool :=
  rsvmap ← reading fdt_off_mem_rsvmap;
  off_struct ← reading fdt_off_dt_struct;
  off_strings ← reading fdt_off_dt_strings;
  size_strings ← reading fdt_size_dt_strings;
  totalsize ← reading fdt_totalsize;
  mret ((rsvmap <? FDT_HEADER_ALIGNED)
        || (off_struct <? u32 (rsvmap + mem_rsv_size))
        || (off_strings <? u32 (off_struct + struct_size))
        || (totalsize <? u32 (off_strings + size_strings))).

Definition fdt_rw_check_header : MB R Z :=
  err ← reading fdt_check_header;
  if negb (err =? 0) then mret err
  else
    version ← reading fdt_version;
    if version <? 17 then mret (- FDT_ERR_BADVERSION)
    else
      size_struct ← reading fdt_size_dt_struct;
      misordered ← fdt_blocks_misordered FDT_RESERVE_SIZE size_struct;
      if (misordered : bool) then mret (- FDT_ERR_BADLAYOUT)
      else
        version ← reading fdt_version;
        (if version >? 17 then fdt_set_version 17 else mret tt);;
        mret 0.

(** [FDT_RW_CHECK_HEADER]: the body runs when the header passes. *)
Definition rw_checked (body : MB R Z) : MB R Z :=
  err ← fdt_rw_check_header;
  if negb (err =? 0) then mret err else body.

(** ** Making room *)

Definition fdt_data_size : MB R Z :=
  off ← reading fdt_off_dt_strings;
  size ← reading fdt_size_dt_strings;
  mret (s32 (off + size)).

Definition fdt_splice (p oldlen newlen : Z) : MB R Z :=
  endp ← fdt_data_size;
  totalsize ← reading fdt_totalsize;
  if (p + oldlen <? p) || (p + oldlen >? endp) then mret (- FDT_ERR_BADOFFSET)
  else if (p <? 0) || (endp - oldlen + newlen <? 0) then mret (- FDT_ERR_BADOFFSET)
  else if endp - oldlen + newlen >? totalsize then mret (- FDT_ERR_NOSPACE)
  else
    memmove (p + newlen) (p + oldlen) (endp - p - oldlen);;
    mret 0.

Definition fdt_splice_mem_rsv (p oldn newn : Z) : MB R Z :=
  let delta := s32 ((newn - oldn) * FDT_RESERVE_SIZE) in
  err ← fdt_splice p (s32 (oldn * FDT_RESERVE_SIZE)) (s32 (newn * FDT_RESERVE_SIZE));
  if negb (err =? 0) then mret err
  else
    off_struct ← reading fdt_off_dt_struct;
    fdt_set_off_dt_struct (off_struct + delta);;
    off_strings ← reading fdt_off_dt_strings;
    fdt_set_off_dt_strings (off_strings + delta);;
    mret 0.

Definition fdt_splice_struct (p oldlen newlen : Z) : MB R Z :=
  let delta := s32 (newlen - oldlen) in
  err ← fdt_splice p oldlen newlen;
  if negb (err =? 0) then mret err
  else
    size ← reading fdt_size_dt_struct;
    fdt_set_size_dt_struct (size + delta);;
    off ← reading fdt_off_dt_strings;
    fdt_set_off_dt_strings (off + delta);;
    mret 0.

Definition fdt_splice_string (newlen : Z) : MB R Z :=
  off ← reading fdt_off_dt_strings;
  size ← reading fdt_size_dt_strings;
  err ← fdt_splice (off + size) 0 newlen;
  if negb (err =? 0) then mret err
  else
    size ← reading fdt_size_dt_strings;
    fdt_set_size_dt_strings (size + newlen);;
    mret 0.

(** ** The strings block *)

(** [_fdt_find_string]: the first place of the table with the string and its
    terminator. *)
Fixpoint find_string_loop (fuel : nat) (p last : Z) (s : list Z) (len : Z) : MB R (option Z) :=
  match fuel with
  | O => stop Forever
  | Datatypes.S fuel' =>
      if p <=? last then
        e ← reading (fun b => mem_eq b p s len);
        if (e : bool) then mret (Some p) else find_string_loop fuel' (p + 1) last s len
      else mret None
  end.
Definition fdt_find_string (strtab tabsize : Z) (s : list Z) : MB R (option Z) :=
  let len := s32 (AsciiStrLen s + 1) in
  b ← get;
  find_string_loop (fdt_rounds b) strtab (strtab + s32 tabsize - len) (cstr s ++ [0]) len.

Definition fdt_find_add_string (s : list Z) : MB R Z :=
  strtab ← reading fdt_off_dt_strings;
  let len := s32 (AsciiStrLen s + 1) in
  size ← reading fdt_size_dt_strings;
  p ← fdt_find_string strtab size s;
  match p with
  | Some p => mret (s32 (p - strtab))
  | None =>
      size ← reading fdt_size_dt_strings;
      let new := strtab + size in
      err ← fdt_splice_string len;
      if negb (err =? 0) then mret err
      else
        copy_in new (cstr s ++ [0]) len;;
        mret (s32 (new - strtab))
  end.

(** ** Memory reservations *)

Fixpoint num_mem_rsv_loop (fuel : nat) (b : list Z) (off i : Z) : MB R Z :=
  match fuel with
  | O => stop Forever
  | Datatypes.S fuel' =>
      size ← fdt64 b (off + i * FDT_RESERVE_SIZE + 8);
      if negb (size =? 0) then num_mem_rsv_loop fuel' b off (i + 1) else mret i
  end.
Definition fdt_num_mem_rsv : MB R Z :=
  off ← reading fdt_off_mem_rsvmap;
  b ← get;
  num_mem_rsv_loop (fdt_rounds b) b off 0.

Definition fdt_add_mem_rsv (address size : Z) : MB R Z :=
  rw_checked (
    n ← fdt_num_mem_rsv;
    off ← reading fdt_off_mem_rsvmap;
    let re := off + n * FDT_RESERVE_SIZE in
    err ← fdt_splice_mem_rsv re 0 1;
    if negb (err =? 0) then mret err
    else store64 re address;; store64 (re + 8) size;; mret 0).

Definition fdt_del_mem_rsv (n : Z) : MB R Z :=
  off ← reading fdt_off_mem_rsvmap;
  let re := off + n * FDT_RESERVE_SIZE in
  rw_checked (
    count ← fdt_num_mem_rsv;
    if n >=? count then mret (- FDT_ERR_NOTFOUND)
    else fdt_splice_mem_rsv re 1 0).

(** ** Properties *)

(** Both return the error and the property. *)
Definition fdt_resize_property (nodeoffset : Z) (name : list Z) (len : Z) : MB R (Z * Z) :=
  p ← reading (fun b => fdt_get_property b nodeoffset name);
  match p.1 with
  | None => mret (p.2, 0)
  | Some prop =>
      err ← fdt_splice_struct (prop + FDT_PROPERTY_SIZE) (FDT_TAGALIGN p.2) (FDT_TAGALIGN len);
      if negb (err =? 0) then mret (err, prop)
      else store32 (prop + 4) len;; mret (0, prop)
  end.

Definition fdt_add_property (nodeoffset : Z) (name : list Z) (len : Z) : MB R (Z * Z) :=
  nextoffset ← reading (fun b => fdt_check_node_offset b nodeoffset);
  if nextoffset <? 0 then mret (nextoffset, 0)
  else
    namestroff ← fdt_find_add_string name;
    if namestroff <? 0 then mret (namestroff, 0)
    else
      prop ← reading (fun b => raw_offset_ptr b nextoffset);
      let proplen := s32 (FDT_PROPERTY_SIZE + FDT_TAGALIGN len) in
      err ← fdt_splice_struct prop 0 proplen;
      if negb (err =? 0) then mret (err, prop)
      else
        store32 prop FDT_PROP;;
        store32 (prop + 8) namestroff;;
        store32 (prop + 4) len;;
        mret (0, prop).

(** [fdt_setprop_placeholder]: the error and [*prop_data]. *)
Definition fdt_setprop_placeholder (nodeoffset : Z) (name : list Z) (len : Z) : MB R (Z * Z) :=
  err ← fdt_rw_check_header;
  if negb (err =? 0) then mret (err, 0)
  else
    r ← fdt_resize_property nodeoffset name len;
    r ← (if r.1 =? - FDT_ERR_NOTFOUND then fdt_add_property nodeoffset name len else mret r);
    if negb (r.1 =? 0) then mret (r.1, 0) else mret (0, r.2 + FDT_PROPERTY_SIZE).

Definition fdt_setprop (nodeoffset : Z) (name val : list Z) (len : Z) : MB R Z :=
  r ← fdt_setprop_placeholder nodeoffset name len;
  if negb (r.1 =? 0) then mret r.1
  else
    (if negb (len =? 0) then copy_in r.2 val len else mret tt);;
    mret 0.

(** The body of [fdt_appendprop] and [fdt_appendprop_str]: the second puts a
    space where the old value had its terminator ([join]). *)
Definition appendprop_with (join : bool) (nodeoffset : Z) (name val : list Z) (len : Z) : MB R Z :=
  rw_checked (
    p ← reading (fun b => fdt_get_property b nodeoffset name);
    match p.1 with
    | Some prop =>
        let oldlen := p.2 in
        let newlen := s32 (len + oldlen) in
        let data := prop + FDT_PROPERTY_SIZE in
        err ← fdt_splice_struct data (FDT_TAGALIGN oldlen) (FDT_TAGALIGN newlen);
        if negb (err =? 0) then mret err
        else
          store32 (prop + 4) newlen;;
          (if join then store (data + oldlen - 1) [0x20] else mret tt);;
          copy_in (data + oldlen) val len;;
          mret 0
    | None =>
        r ← fdt_add_property nodeoffset name len;
        if negb (r.1 =? 0) then mret r.1
        else copy_in (r.2 + FDT_PROPERTY_SIZE) val len;; mret 0
    end).
Definition fdt_appendprop : Z -> list Z -> list Z -> Z -> MB R Z := appendprop_with false.
Definition fdt_appendprop_str : Z -> list Z -> list Z -> Z -> MB R Z := appendprop_with true.

Definition fdt_delprop (nodeoffset : Z) (name : list Z) : MB R Z :=
  rw_checked (
    p ← reading (fun b => fdt_get_property b nodeoffset name);
    match p.1 with
    | None => mret p.2
    | Some prop => fdt_splice_struct prop (s32 (FDT_PROPERTY_SIZE + FDT_TAGALIGN p.2)) 0
    end).

(** The one-liners of [libfdt.h]. *)
Definition fdt_setprop_u32 (nodeoffset : Z) (name : list Z) (val : Z) : MB R Z :=
  fdt_setprop nodeoffset name (be_put 4 val) 4.
Definition fdt_setprop_u64 (nodeoffset : Z) (name : list Z) (val : Z) : MB R Z :=
  fdt_setprop nodeoffset name (be_put 8 val) 8.
Definition fdt_appendprop_u32 (nodeoffset : Z) (name : list Z) (val : Z) : MB R Z :=
  fdt_appendprop nodeoffset name (be_put 4 val) 4.
Definition fdt_appendprop_u64 (nodeoffset : Z) (name : list Z) (val : Z) : MB R Z :=
  fdt_appendprop nodeoffset name (be_put 8 val) 8.
Definition fdt_appendprop_string (nodeoffset : Z) (name str : list Z) : MB R Z :=
  fdt_appendprop_str nodeoffset name (cstr str ++ [0]) (s32 (AsciiStrLen str + 1)).

(** [fdt_setprop_inplace]: a value of the same length. *)
Definition fdt_setprop_inplace_namelen_partial (nodeoffset : Z) (name : list Z) (namelen idx : Z)
    (val : list Z) (len : Z) : MB R Z :=
  p ← reading (fun b => fdt_getprop_namelen b nodeoffset name namelen);
  match p.1 with
  | None => mret p.2
  | Some propval =>
      if u32 p.2 <? u32 (len + idx) then mret (- FDT_ERR_NOSPACE)
      else copy_in (propval + idx) val len;; mret 0
  end.
Definition fdt_setprop_inplace (nodeoffset : Z) (name val : list Z) (len : Z) : MB R Z :=
  p ← reading (fun b => fdt_getprop b nodeoffset name);
  match p.1 with
  | None => mret p.2
  | Some _ =>
      if negb (p.2 =? len) then mret (- FDT_ERR_NOSPACE)
      else fdt_setprop_inplace_namelen_partial nodeoffset name (AsciiStrLen name) 0 val len
  end.

(** ** Nodes *)

Definition fdt_get_name (nodeoffset : Z) : MB R (option Z * Z) :=
  nh ← reading (fun b => raw_offset_ptr b nodeoffset);
  err ← reading fdt_check_header;
  if negb (err =? 0) then mret (None, err)
  else
    err ← reading (fun b => fdt_check_node_offset b nodeoffset);
    if err <? 0 then mret (None, err)
    else
      len ← reading (fun b => strlen_at b (nh + FDT_NODE_HEADER_SIZE));
      mret (Some (nh + FDT_NODE_HEADER_SIZE), s32 len).

Definition fdt_set_name (nodeoffset : Z) (name : list Z) : MB R Z :=
  rw_checked (
    n ← fdt_get_name nodeoffset;
    match n.1 with
    | None => mret n.2
    | Some namep =>
        let newlen := s32 (AsciiStrLen name) in
        err ← fdt_splice_struct namep (FDT_TAGALIGN (s32 (n.2 + 1))) (FDT_TAGALIGN (s32 (newlen + 1)));
        if negb (err =? 0) then mret err
        else copy_in namep (cstr name ++ [0]) (s32 (newlen + 1));; mret 0
    end).

(** Past the properties: returns the offset of the tag after them. *)
Fixpoint skip_properties (fuel : nat) (b : list Z) (nextoffset : Z) : MB R Z :=
  match fuel with
  | O => stop Forever
  | Datatypes.S fuel' =>
      t ← fdt_next_tag b nextoffset;
      if (t.1 =? FDT_PROP) || (t.1 =? FDT_NOP) then skip_properties fuel' b t.2
      else mret nextoffset
  end.

Definition fdt_add_subnode_namelen (parentoffset : Z) (name : list Z) (namelen : Z) : MB R Z :=
  rw_checked (
    offset ← reading (fun b => fdt_subnode_offset_namelen b parentoffset name namelen);
    if 0 <=? offset then mret (- FDT_ERR_EXISTS)
    else if negb (offset =? - FDT_ERR_NOTFOUND) then mret offset
    else
      t ← reading (fun b => fdt_next_tag b parentoffset);
      offset ← reading (fun b => skip_properties (fdt_rounds b) b t.2);
      nh ← reading (fun b => raw_offset_ptr b offset);
      let space := FDT_TAGALIGN (s32 (namelen + 1)) in
      let nodelen := s32 (FDT_NODE_HEADER_SIZE + space + FDT_TAGSIZE) in
      err ← fdt_splice_struct nh 0 nodelen;
      if negb (err =? 0) then mret err
      else
        store32 nh FDT_BEGIN_NODE;;
        store (nh + FDT_NODE_HEADER_SIZE) (zeros space);;
        copy_in (nh + FDT_NODE_HEADER_SIZE) name namelen;;
        store32 (nh + nodelen - FDT_TAGSIZE) FDT_END_NODE;;
        mret offset).
Definition fdt_add_subnode (parentoffset : Z) (name : list Z) : MB R Z :=
  fdt_add_subnode_namelen parentoffset name (AsciiStrLen name).

Fixpoint node_end_loop (fuel : nat) (b : list Z) (offset depth : Z) : MB R Z :=
  match fuel with
  | O => stop Forever
  | Datatypes.S fuel' =>
      if (0 <=? offset) && (0 <=? depth) then
        n ← fdt_next_node b offset (Some depth);
        node_end_loop fuel' b n.1 (depth_of n.2)
      else mret offset
  end.
Definition fdt_node_end_offset (offset : Z) : MB R Z :=
  reading (fun b => node_end_loop (fdt_rounds b) b offset 0).

Definition fdt_del_node (nodeoffset : Z) : MB R Z :=
  rw_checked (
    endoffset ← fdt_node_end_offset nodeoffset;
    if endoffset <? 0 then mret endoffset
    else
      p ← reading (fun b => raw_offset_ptr b nodeoffset);
      fdt_splice_struct p (endoffset - nodeoffset) 0).

(** ** The whole blob *)

(** [_fdt_packblocks (fdt, fdt + new, ...)]. *)
Definition fdt_packblocks (new mem_rsv_size struct_size : Z) : MB R unit :=
  let mem_rsv_off := FDT_HEADER_ALIGNED in
  let struct_off := u32 (mem_rsv_off + mem_rsv_size) in
  let strings_off := u32 (struct_off + struct_size) in
  rsvmap ← reading fdt_off_mem_rsvmap;
  memmove (new + mem_rsv_off) rsvmap mem_rsv_size;;
  store32 (new + 16) mem_rsv_off;;
  off_struct ← reading fdt_off_dt_struct;
  memmove (new + struct_off) off_struct struct_size;;
  store32 (new + 8) struct_off;;
  store32 (new + 36) struct_size;;
  off_strings ← reading fdt_off_dt_strings;
  size_strings ← reading fdt_size_dt_strings;
  memmove (new + strings_off) off_strings size_strings;;
  store32 (new + 12) strings_off;;
  size_strings ← reading fdt_size_dt_strings;
  store32 (new + 32) size_strings.

(** [fdt_move (fdt, fdt, bufsize)]. *)
Definition fdt_move (bufsize : Z) : MB R Z :=
  err ← reading fdt_check_header;
  if negb (err =? 0) then mret err
  else
    totalsize ← reading fdt_totalsize;
    if totalsize >? u32 bufsize then mret (- FDT_ERR_NOSPACE)
    else
      totalsize ← reading fdt_totalsize;
      memmove 0 0 totalsize;;
      mret 0.

(** The size of the structure block of an old version, tag by tag. *)
Fixpoint struct_size_loop (fuel : nat) (b : list Z) (struct_size : Z) : MB R Z :=
  match fuel with
  | O => stop Forever
  | Datatypes.S fuel' =>
      t ← fdt_next_tag b struct_size;
      if negb (t.1 =? FDT_END) then struct_size_loop fuel' b t.2 else mret t.2
  end.

(** [fdt_open_into (fdt, fdt, bufsize)], the call the loader makes. *)
Definition fdt_open_into (bufsize : Z) : MB R Z :=
  totalsize ← reading fdt_totalsize;
  let fdtend := totalsize in
  err ← reading fdt_check_header;
  if negb (err =? 0) then mret err
  else
    n ← fdt_num_mem_rsv;
    let mem_rsv_size := s32 ((n + 1) * FDT_RESERVE_SIZE) in
    version ← reading fdt_version;
    struct_size ←
      (if version >=? 17 then size ← reading fdt_size_dt_struct; mret (s32 size)
       else reading (fun b => struct_size_loop (fdt_rounds b) b 0));
    if (version <? 17) && (struct_size <? 0) then mret struct_size
    else
      misordered ← fdt_blocks_misordered mem_rsv_size struct_size;
      if negb misordered then
        err ← fdt_move bufsize;
        if negb (err =? 0) then mret err
        else
          fdt_set_version 17;;
          fdt_set_size_dt_struct struct_size;;
          fdt_set_totalsize bufsize;;
          mret 0
      else
        size_strings ← reading fdt_size_dt_strings;
        let newsize := s32 (FDT_HEADER_ALIGNED + mem_rsv_size + struct_size + size_strings) in
        if bufsize <? newsize then mret (- FDT_ERR_NOSPACE)
        else
          let overlaps := (newsize >? 0) && (0 <? fdtend) in
          let tmp := if overlaps then fdtend else 0 in
          if overlaps && (tmp + newsize >? bufsize) then mret (- FDT_ERR_NOSPACE)
          else
            fdt_packblocks tmp mem_rsv_size struct_size;;
            memmove 0 tmp newsize;;
            fdt_set_magic FDT_MAGIC;;
            fdt_set_totalsize bufsize;;
            fdt_set_version 17;;
            fdt_set_last_comp_version 16;;
            cpuid ← reading (fun b => fdt32 b 28);
            fdt_set_boot_cpuid_phys cpuid;;
            mret 0.

Definition fdt_pack : MB R Z :=
  rw_checked (
    n ← fdt_num_mem_rsv;
    let mem_rsv_size := s32 ((n + 1) * FDT_RESERVE_SIZE) in
    size ← reading fdt_size_dt_struct;
    fdt_packblocks 0 mem_rsv_size (s32 size);;
    size ← fdt_data_size;
    fdt_set_totalsize size;;
    mret 0).
End FdtWrite.
