(* ===== verification/FdtImage.v ===== *)
(** A blob as the pieces it is laid out in, and what making room does to the
    pieces.

    An [image] is a device tree in the order the writer insists on: header,
    what lies before the structure block (the reservations among it), the
    structure block, the strings, and the rest of the object.  [render] gives
    its bytes.  Every step of the writer turns the bytes of one image into the
    bytes of another.

    The second half is the strings block: finding a string, adding one, and the
    names of the properties. *)
From Stdlib Require Import ZArith Lia.
From stdpp Require Import base list numbers option.
From S2P Require Import Prelude EfiBase Fdt FdtSpec FdtTree FdtRw FdtRwSpec FdtWrite.

Lemma bind_assoc {S R A B C} (m : M S R A) (f : A -> M S R B) (g : B -> M S R C) s :
  ((m ≫= f) ≫= g) s = (m ≫= (fun a => f a ≫= g)) s.
Proof. unfold mbind, M_MBind, M_bind. by destruct (m s) as [[?|?|?] ?]. Qed.

(** * Reads and writes of a concatenation *)

Lemma buf_read_at pre d post o n :
  o = Z.of_nat (length pre) -> n = Z.of_nat (length d) ->
  buf_read (pre ++ d ++ post) o n = Some d.
Proof. intros -> ->. apply buf_read_mid. Qed.

Lemma buf_write_at pre old d post o :
  o = Z.of_nat (length pre) -> length d = length old ->
  buf_write (pre ++ old ++ post) o d = Some (pre ++ d ++ post).
Proof.
  intros -> Hl. apply buf_write_Some. rewrite !length_app. split_and!; [lia..|].
  rewrite Nat2Z.id, take_app_length, Hl. do 2 f_equal.
  by rewrite drop_app_add, drop_app_length.
Qed.

(** [memmove] of [C], which follows [A] and [B], to [newlen] behind [A]. *)
Lemma memmove_concat {R} A B C D newlen :
  0 <= newlen -> Z.of_nat (length A) + newlen + Z.of_nat (length C) <= Z.of_nat (length (A ++ B ++ C ++ D)) ->
  exists J D', memmove (R := R) (Z.of_nat (length A) + newlen) (Z.of_nat (length A) + Z.of_nat (length B))
      (Z.of_nat (length C)) (A ++ B ++ C ++ D) = (Go tt, A ++ J ++ C ++ D') /\
    J = take (Z.to_nat newlen) (B ++ C ++ D) /\
    D' = drop (Z.to_nat newlen + length C) (B ++ C ++ D) /\
    Z.of_nat (length J) = newlen /\
    newlen + Z.of_nat (length D') = Z.of_nat (length B) + Z.of_nat (length D).
Proof.
  intros Hn Hl. rewrite !length_app in Hl.
  set (rest := B ++ C ++ D). set (k := Z.to_nat newlen).
  assert (Hlr : length rest = (length B + (length C + length D))%nat)
    by (subst rest; by rewrite !length_app).
  assert (Hrest : (k + length C <= length rest)%nat) by lia.
  exists (take k rest), (drop (k + length C) rest). split_and!; [|done|done| |].
  - unfold memmove, store. unfold mbind at 1, M_MBind at 1, M_bind at 1, get at 1.
    erewrite bind_go; cycle 1.
    { assert (Hr : buf_read (A ++ rest) (Z.of_nat (length A) + Z.of_nat (length B))
        (Z.of_nat (length C)) = Some C).
      { subst rest. rewrite app_assoc. apply buf_read_at; [rewrite length_app; lia|done]. }
      rewrite Hr. reflexivity. }
    assert (Hw : buf_write (A ++ rest) (Z.of_nat (length A) + newlen) C =
      Some ((A ++ take k rest) ++ C ++ drop (k + length C) rest)).
    { rewrite <- (take_drop k rest) at 1. rewrite <- (take_drop (length C) (drop k rest)) at 1.
      rewrite drop_drop, app_assoc. apply buf_write_at.
      - rewrite length_app, length_take. lia.
      - rewrite length_take, length_drop. lia. }
    munfold. rewrite Hw. by rewrite <- app_assoc.
  - rewrite length_take. lia.
  - rewrite length_drop. lia.
Qed.

(** * A list of header words *)

Definition be_words (ws : list Z) : list Z := mjoin (map (be_put 4) ws).

Lemma length_be_words ws : length (be_words ws) = (4 * length ws)%nat.
Proof.
  induction ws as [|w ws IH]; [done|]. change (be_words (w :: ws)) with (be_put 4 w ++ be_words ws).
  rewrite length_app, length_be_put, IH. cbn [length]. lia.
Qed.

Lemma be_words_app a b : be_words (a ++ b) = be_words a ++ be_words b.
Proof. unfold be_words. by rewrite map_app, join_app. Qed.

Lemma be_words_cons w ws : be_words (w :: ws) = be_put 4 w ++ be_words ws.
Proof. done. Qed.

Lemma be_words_split ws i v rest :
  ws !! i = Some v ->
  be_words ws ++ rest = be_words (take i ws) ++ be_put 4 v ++ (be_words (drop (S i) ws) ++ rest).
Proof.
  intros Hi. rewrite <- (take_drop_middle ws i v Hi) at 1.
  rewrite be_words_app, be_words_cons. by rewrite <- !app_assoc.
Qed.

Lemma word_words ws i v rest :
  ws !! i = Some v -> is_u32 v -> word (be_words ws ++ rest) (4 * Z.of_nat i) = Some v.
Proof.
  intros Hi Hv. unfold word. rewrite (be_words_split _ _ _ _ Hi).
  apply lookup_lt_Some in Hi. rewrite buf_read_at.
  - simpl. by rewrite be_get_put_small.
  - rewrite length_be_words, length_take. lia.
  - by rewrite length_be_put.
Qed.

Lemma store32_words {R} ws i v w rest :
  ws !! i = Some w ->
  store32 (R := R) (4 * Z.of_nat i) v (be_words ws ++ rest) = (Go tt, be_words (<[i := v]> ws) ++ rest).
Proof.
  intros Hi. pose proof (lookup_lt_Some _ _ _ Hi) as Hlt.
  assert (Hw : buf_write (be_words ws ++ rest) (4 * Z.of_nat i) (be_put 4 v) =
    Some (be_words (<[i := v]> ws) ++ rest)).
  { rewrite (be_words_split _ _ _ _ Hi), insert_take_drop by done.
    rewrite (buf_write_at _ _ (be_put 4 v)).
    - rewrite be_words_app, be_words_cons. by rewrite <- !app_assoc.
    - rewrite length_be_words, length_take. lia.
    - by rewrite !length_be_put. }
  unfold store32, store. munfold. by rewrite Hw.
Qed.

Lemma words_u8 ws : Forall is_u8 (be_words ws).
Proof. unfold be_words. induction ws as [|w ws IH]; [done|]. cbn [map mjoin list_join]. apply Forall_app. split; [apply be_put_u8|done]. Qed.

(** * Images *)

Abbreviation zlen l := (Z.of_nat (length l)).

Record image : Type := mkImage {
  im_total : Z;        (** [totalsize] *)
  im_rsvmap : Z;       (** [off_mem_rsvmap] *)
  im_last : Z;         (** [last_comp_version] *)
  im_cpu : Z;          (** [boot_cpuid_phys] *)
  im_front : list Z;   (** from the header to the structure block *)
  im_block : list Z;
  im_gap : list Z;
  im_tab : list Z;     (** the strings *)
  im_tail : list Z;    (** from the strings to the end of the object *)
}.

Definition im_off (i : image) : Z := 40 + zlen (im_front i).
Definition im_offs (i : image) : Z := im_off i + zlen (im_block i) + zlen (im_gap i).
Definition im_end (i : image) : Z := im_offs i + zlen (im_tab i).
(** The bytes the writer may still use. *)
Definition room (i : image) : Z := im_total i - im_end i.

Definition header (i : image) : list Z :=
  [FDT_MAGIC; im_total i; im_off i; im_offs i; im_rsvmap i; 17; im_last i; im_cpu i;
   zlen (im_tab i); zlen (im_block i)].
Definition body (i : image) : list Z :=
  im_front i ++ im_block i ++ im_gap i ++ im_tab i ++ im_tail i.
Definition render (i : image) : list Z := be_words (header i) ++ body i.

Record image_ok (i : image) : Prop := {
  io_u8 : Forall is_u8 (body i);
  io_room : 0 <= room i;
  io_total : im_total i <= 2 ^ 31 - 4;
  io_object : im_total i <= im_end i + zlen (im_tail i);
  io_rsvmap : 40 <= im_rsvmap i /\ im_rsvmap i + 16 <= im_off i;
  io_last : 0 <= im_last i <= 17;
  io_cpu : is_u32 (im_cpu i);
}.

(** The same image with another structure block, or with other strings. *)
Definition with_block (i : image) (block tail : list Z) : image :=
  mkImage (im_total i) (im_rsvmap i) (im_last i) (im_cpu i) (im_front i) block (im_gap i) (im_tab i) tail.
Definition with_tab (i : image) (tab tail : list Z) : image :=
  mkImage (im_total i) (im_rsvmap i) (im_last i) (im_cpu i) (im_front i) (im_block i) (im_gap i) tab tail.

Lemma s32_id x : is_int x -> s32 x = x.
Proof.
  unfold is_int, s32, u32. intros Hx. destruct (decide (0 <= x)).
  - rewrite Z.mod_small by lia. by rewrite (proj2 (Z.ltb_lt _ _)) by lia.
  - replace (x mod 2 ^ 32) with (x + 2 ^ 32) by (apply (Z.mod_unique _ _ (-1)); lia).
    rewrite (proj2 (Z.ltb_ge _ _)) by lia. lia.
Qed.

Lemma zlen_nonneg {A} (l : list A) : 0 <= zlen l.
Proof. apply Zle_0_nat. Qed.

(** [lia] with the lengths of an image. *)
Ltac im_lia :=
  unfold room, im_end, im_offs, im_off, is_u32, is_int in *;
  cbn [im_total im_rsvmap im_last im_cpu im_front im_block im_gap im_tab im_tail with_block with_tab] in *;
  rewrite ?length_app, ?Nat2Z.inj_add in *; lia.

Section Image.
Context {R : Type} (i : image) (Hi : image_ok i).

Lemma length_render : zlen (render i) = im_end i + zlen (im_tail i).
Proof. unfold render, body. rewrite length_app, length_be_words, !length_app. simpl length. im_lia. Qed.

Lemma header_u32 : Forall is_u32 (header i).
Proof.
  destruct Hi. repeat constructor; unfold FDT_MAGIC; im_lia.
Qed.

Lemma word_header k v : header i !! k = Some v -> word (render i) (4 * Z.of_nat k) = Some v.
Proof.
  intros Hk. apply word_words; [done|]. pose proof header_u32 as H. rewrite Forall_lookup in H. by eapply H.
Qed.

Lemma read_header {S} k v (s : S) :
  header i !! k = Some v -> fdt32 (R := R) (render i) (4 * Z.of_nat k) s = (Go v, s).
Proof. intros Hk. by apply fdt32_word, word_header. Qed.

Lemma reading_header k v :
  header i !! k = Some v ->
  reading (fun b => fdt32 (R := R) b (4 * Z.of_nat k)) (render i) = (Go v, render i).
Proof. intros Hk. unfold reading. munfold. by apply read_header. Qed.

Lemma read_total : reading (R := R) fdt_totalsize (render i) = (Go (im_total i), render i).
Proof. by apply (reading_header 1). Qed.
Lemma read_off : reading (R := R) fdt_off_dt_struct (render i) = (Go (im_off i), render i).
Proof. by apply (reading_header 2). Qed.
Lemma read_offs : reading (R := R) fdt_off_dt_strings (render i) = (Go (im_offs i), render i).
Proof. by apply (reading_header 3). Qed.
Lemma read_rsvmap : reading (R := R) fdt_off_mem_rsvmap (render i) = (Go (im_rsvmap i), render i).
Proof. by apply (reading_header 4). Qed.
Lemma read_version : reading (R := R) fdt_version (render i) = (Go 17, render i).
Proof. by apply (reading_header 5). Qed.
Lemma read_size_strings : reading (R := R) fdt_size_dt_strings (render i) = (Go (zlen (im_tab i)), render i).
Proof. by apply (reading_header 8). Qed.
Lemma read_size_struct : reading (R := R) fdt_size_dt_struct (render i) = (Go (zlen (im_block i)), render i).
Proof. by apply (reading_header 9). Qed.

Lemma render_u8 : Forall is_u8 (render i).
Proof. apply Forall_app. split; [apply words_u8|apply Hi]. Qed.

Lemma render_ok : blob_ok (render i) (im_total i) (im_off i) (zlen (im_block i)) 17.
Proof.
  pose proof length_render as Hl. destruct Hi. split.
  - apply render_u8.
  - by apply (word_header 1).
  - rewrite Hl. split; [done|]. im_lia.
  - by apply (word_header 2).
  - by apply (word_header 5).
  - by apply (word_header 9).
Qed.

Lemma render_holds : holds (render i) (im_off i) (im_block i) (im_total i) 17.
Proof.
  split; [apply render_ok|destruct Hi; im_lia|].
  unfold render, body. rewrite !app_assoc, <- (app_assoc _ (im_gap i)), <- (app_assoc _ (im_gap i ++ _)), <- (app_assoc _ (im_block i)).
  apply buf_read_at; [|done]. rewrite length_app, length_be_words. simpl length. im_lia.
Qed.

Lemma render_header :
  header_words (render i) (im_total i) (im_off i) (zlen (im_block i)) (im_offs i) (zlen (im_tab i)).
Proof.
  pose proof header_u32 as Hu. unfold header in Hu. rewrite !list.Forall_cons in Hu.
  destruct Hi. split.
  - by apply (word_header 0).
  - by apply (word_header 1).
  - by apply (word_header 2).
  - by apply (word_header 9).
  - by apply (word_header 3).
  - by apply (word_header 8).
  - exists 17. split; [by apply (word_header 5)|lia].
  - exists (im_last i). split; [by apply (word_header 6)|lia].
  - tauto.
  - im_lia.
  - im_lia.
Qed.

Lemma render_check : reading (R := R) fdt_check_header (render i) = (Go 0, render i).
Proof. unfold reading. munfold. eapply check_header_words, render_header. Qed.
End Image.

(** * The checks and the splices on an image *)

Section Splice.
Context {R : Type} (i : image) (Hi : image_ok i).

Lemma misordered_run rsv_size struct_size :
  rsv_size = FDT_RESERVE_SIZE -> struct_size = zlen (im_block i) ->
  fdt_blocks_misordered (R := R) rsv_size struct_size (render i) = (Go false, render i).
Proof.
  intros -> ->. unfold fdt_blocks_misordered, FDT_RESERVE_SIZE, FDT_HEADER_ALIGNED.
  rewrite (bind_go _ _ _ _ _ (read_rsvmap i Hi)), (bind_go _ _ _ _ _ (read_off i Hi)),
    (bind_go _ _ _ _ _ (read_offs i Hi)), (bind_go _ _ _ _ _ (read_size_strings i Hi)),
    (bind_go _ _ _ _ _ (read_total i Hi)).
  destruct Hi. rewrite !u32_small by im_lia.
  by rewrite !(proj2 (Z.ltb_ge _ _)) by im_lia.
Qed.

Lemma rw_check_run : fdt_rw_check_header (R := R) (render i) = (Go 0, render i).
Proof.
  unfold fdt_rw_check_header. rewrite (bind_go _ _ _ _ _ (render_check i Hi)). cbn [negb Z.eqb].
  rewrite (bind_go _ _ _ _ _ (read_version i Hi)). change (17 <? 17) with false. cbn iota.
  rewrite (bind_go _ _ _ _ _ (read_size_struct i Hi)).
  rewrite (bind_go _ _ _ _ _ (misordered_run _ _ eq_refl eq_refl)). cbn iota.
  by rewrite (bind_go _ _ _ _ _ (read_version i Hi)).
Qed.

Lemma rw_checked_run m : rw_checked (R := R) m (render i) = m (render i).
Proof. unfold rw_checked. by rewrite (bind_go _ _ _ _ _ rw_check_run). Qed.

Lemma data_size_run : fdt_data_size (R := R) (render i) = (Go (im_end i), render i).
Proof.
  unfold fdt_data_size. rewrite (bind_go _ _ _ _ _ (read_offs i Hi)), (bind_go _ _ _ _ _ (read_size_strings i Hi)).
  destruct Hi. rewrite s32_small; [done|im_lia].
Qed.

(** No room: nothing is written. *)
Lemma splice_full p oldlen newlen :
  0 <= oldlen -> 0 <= newlen -> 0 <= p -> p + oldlen <= im_end i -> room i < newlen - oldlen ->
  fdt_splice (R := R) p oldlen newlen (render i) = (Go (- FDT_ERR_NOSPACE), render i).
Proof.
  intros. unfold fdt_splice. rewrite (bind_go _ _ _ _ _ data_size_run), (bind_go _ _ _ _ _ (read_total i Hi)).
  rewrite !Z.gtb_ltb, !(proj2 (Z.ltb_ge _ _)) by im_lia. cbn [orb].
  by rewrite (proj2 (Z.ltb_lt _ _)) by im_lia.
Qed.

(** The pieces around [B], which becomes [J]. *)
Lemma splice_pieces A B C newlen :
  render i = A ++ B ++ C ++ im_tail i -> 0 <= newlen -> newlen - zlen B <= room i ->
  exists J tail, fdt_splice (R := R) (zlen A) (zlen B) newlen (render i) = (Go 0, A ++ J ++ C ++ tail) /\
    zlen J = newlen /\ newlen + zlen tail = zlen B + zlen (im_tail i) /\ Forall is_u8 J /\ Forall is_u8 tail /\
    forall n, (n <= length B)%nat -> Z.of_nat n <= newlen -> take n J = take n B.
Proof.
  intros Hr Hn Hroom. pose proof (length_render i) as Hl. rewrite Hr, !length_app in Hl.
  pose proof (zlen_nonneg A). pose proof (zlen_nonneg C). pose proof (zlen_nonneg B).
  destruct (memmove_concat (R := R) A B C (im_tail i) newlen) as (J & tail & Hm & HJ & Ht & HlJ & Hlt);
    [done|destruct Hi; rewrite !length_app; im_lia|].
  assert (Hu : Forall is_u8 (B ++ C ++ im_tail i)).
  { pose proof (render_u8 i Hi) as Hu. rewrite Hr in Hu. by apply Forall_app in Hu as [_ Hu]. }
  exists J, tail. split_and!; [|done|done|rewrite HJ; by apply Forall_take|rewrite Ht; by apply Forall_drop|].
  - unfold fdt_splice. rewrite (bind_go _ _ _ _ _ data_size_run), (bind_go _ _ _ _ _ (read_total i Hi)).
    assert (He : zlen A + zlen B + zlen C = im_end i) by lia.
    rewrite !Z.gtb_ltb, !(proj2 (Z.ltb_ge _ _)) by im_lia. cbn [orb].
    replace (im_end i - zlen A - zlen B) with (zlen C) by lia.
    rewrite Hr, (bind_go _ _ _ _ _ Hm). done.
  - intros n Hn1 Hn2. rewrite HJ, take_take, Nat.min_l by lia. by rewrite take_app_le.
Qed.

(** The words stored after a splice of the structure block. *)
Lemma after_struct_splice total off offs rsvmap last cpu tab size delta rest :
  is_u32 offs -> is_u32 size ->
  (size ← reading (R := R) fdt_size_dt_struct;
   fdt_set_size_dt_struct (size + delta);;
   off ← reading fdt_off_dt_strings;
   fdt_set_off_dt_strings (off + delta);;
   mret 0 : M (list Z) R Z)
    (be_words [FDT_MAGIC; total; off; offs; rsvmap; 17; last; cpu; tab; size] ++ rest) =
  (Go 0, be_words [FDT_MAGIC; total; off; offs + delta; rsvmap; 17; last; cpu; tab; size + delta] ++ rest).
Proof.
  intros Ho Hs.
  assert (Hrd : forall ws k v, ws !! k = Some v -> is_u32 v ->
    reading (fun b => fdt32 (R := R) b (4 * Z.of_nat k)) (be_words ws ++ rest) = (Go v, be_words ws ++ rest)).
  { intros ws k v Hk Hv. unfold reading. munfold. by apply fdt32_word, word_words. }
  erewrite bind_go by (by apply (Hrd _ 9%nat size)).
  erewrite bind_go by exact (store32_words [FDT_MAGIC; total; off; offs; rsvmap; 17; last; cpu; tab; size] 9
    (size + delta) size rest eq_refl).
  cbn [insert list_insert].
  erewrite bind_go by (by apply (Hrd _ 3%nat offs)).
  erewrite bind_go by exact (store32_words
    [FDT_MAGIC; total; off; offs; rsvmap; 17; last; cpu; tab; size + delta] 3 (offs + delta) offs rest eq_refl).
  done.
Qed.

(** [_fdt_splice_struct] on a part [B] of the structure block. *)
Lemma splice_struct_room X B Y newlen :
  im_block i = X ++ B ++ Y -> 0 <= newlen -> newlen - zlen B <= room i ->
  exists J tail, let i' := with_block i (X ++ J ++ Y) tail in
    fdt_splice_struct (R := R) (im_off i + zlen X) (zlen B) newlen (render i) = (Go 0, render i') /\
    image_ok i' /\ zlen J = newlen /\ room i' = room i - (newlen - zlen B) /\ Forall is_u8 J /\
    forall n, (n <= length B)%nat -> Z.of_nat n <= newlen -> take n J = take n B.
Proof.
  intros Hb Hn Hroom.
  destruct (splice_pieces (be_words (header i) ++ im_front i ++ X) B (Y ++ im_gap i ++ im_tab i) newlen)
    as (J & tail & Hs & HlJ & Hlt & HuJ & Hut & Hpre); [|done|done|].
  { unfold render, body. rewrite Hb. by rewrite <- !app_assoc. }
  assert (Hp : zlen (be_words (header i) ++ im_front i ++ X) = im_off i + zlen X)
    by (rewrite !length_app, length_be_words; simpl length; im_lia).
  rewrite Hp in Hs. exists J, tail. cbn zeta.
  assert (Hlb : zlen (im_block i) = zlen X + zlen B + zlen Y) by (rewrite Hb, !length_app; lia).
  split_and!; [|split; cbn [im_last im_cpu with_block]|done| |done|done].
  - unfold fdt_splice_struct. rewrite (bind_go _ _ _ _ _ Hs). cbn [negb Z.eqb].
    rewrite <- !app_assoc. rewrite s32_id by (destruct Hi; pose proof (zlen_nonneg B); im_lia).
    unfold header. rewrite after_struct_splice.
    + unfold render, header, body. cbn [im_front im_block im_gap im_tab im_tail im_total im_rsvmap im_last im_cpu with_block].
      assert (Eo : im_offs (with_block i (X ++ J ++ Y) tail) = im_offs i + (newlen - zlen B)) by im_lia.
      assert (Es : zlen (X ++ J ++ Y) = zlen (im_block i) + (newlen - zlen B)) by im_lia.
      rewrite Eo, Es. by rewrite <- !app_assoc.
    + destruct Hi. im_lia.
    + destruct Hi. im_lia.
  - pose proof (io_u8 i Hi) as Hu. unfold body in *. cbn [im_front im_block im_gap im_tab im_tail with_block].
    rewrite Hb in Hu. rewrite !Forall_app in *. tauto.
  - destruct Hi. im_lia.
  - apply Hi.
  - destruct Hi. im_lia.
  - destruct Hi. im_lia.
  - apply Hi.
  - apply Hi.
  - im_lia.
Qed.

Lemma splice_struct_full X B Y newlen :
  im_block i = X ++ B ++ Y -> 0 <= newlen -> room i < newlen - zlen B ->
  fdt_splice_struct (R := R) (im_off i + zlen X) (zlen B) newlen (render i) =
  (Go (- FDT_ERR_NOSPACE), render i).
Proof.
  intros Hb Hn Hroom. unfold fdt_splice_struct.
  assert (Hlb : zlen (im_block i) = zlen X + zlen B + zlen Y) by (rewrite Hb, !length_app; lia).
  assert (Hf : fdt_splice (R := R) (im_off i + zlen X) (zlen B) newlen (render i) =
    (Go (- FDT_ERR_NOSPACE), render i)) by (apply splice_full; im_lia).
  by rewrite (bind_go _ _ _ _ _ Hf).
Qed.
End Splice.

(** The string at an offset of the table. *)
Definition tab_str (tab : list Z) (o : Z) (name : list Z) : Prop :=
  0 <= o /\ Forall (fun c => c <> 0) name /\ buf_read tab o (zlen name + 1) = Some (name ++ [0]).
Definition tab_name (tab : list Z) (o : Z) : list Z := cstr (drop (Z.to_nat o) tab).
Definition named (tab : list Z) (o : Z) : Prop := tab_str tab o (tab_name tab o).

Lemma buf_read_grow b x o n d : buf_read b o n = Some d -> buf_read (b ++ x) o n = Some d.
Proof.
  intros (? & ? & ? & ->)%buf_read_Some. apply buf_read_Some. rewrite length_app. split_and!; [lia..|].
  rewrite drop_app_le, take_app_le by (rewrite ?length_drop; lia). done.
Qed.

Lemma tab_str_grow tab x o name : tab_str tab o name -> tab_str (tab ++ x) o name.
Proof. intros (? & ? & ?). split_and!; [done..|by apply buf_read_grow]. Qed.

Lemma tab_str_name tab o name : tab_str tab o name -> tab_name tab o = name.
Proof.
  intros (Ho & Hn & (_ & _ & Hl & Hd)%buf_read_Some). unfold tab_name.
  rewrite <- (take_drop (Z.to_nat (zlen name + 1)) (drop (Z.to_nat o) tab)), <- Hd, <- app_assoc.
  by apply cstr_app_0.
Qed.

Lemma tab_str_named tab o name : tab_str tab o name -> named tab o.
Proof. intros H. unfold named. by rewrite (tab_str_name _ _ _ H). Qed.

Lemma named_grow tab x o : named tab o -> named (tab ++ x) o /\ tab_name (tab ++ x) o = tab_name tab o.
Proof.
  intros H. apply (tab_str_grow _ x) in H. split; [by eapply tab_str_named|by apply tab_str_name].
Qed.

(** Two images that differ in the structure block, the rest of the object and
    in strings behind those of the first. *)
Record extends (i i' : image) : Prop := {
  ex_total : im_total i' = im_total i;
  ex_rsvmap : im_rsvmap i' = im_rsvmap i;
  ex_last : im_last i' = im_last i;
  ex_cpu : im_cpu i' = im_cpu i;
  ex_front : im_front i' = im_front i;
  ex_gap : im_gap i' = im_gap i;
  ex_tab : exists new, im_tab i' = im_tab i ++ new;
}.

#[export] Instance extends_preorder : PreOrder extends.
Proof.
  split.
  - intros i. split; try done. exists []. by rewrite app_nil_r.
  - intros i j k [? ? ? ? ? ? [x Hx]] [? ? ? ? ? ? [y Hy]]. split; try congruence.
    exists (x ++ y). by rewrite Hy, Hx, app_assoc.
Qed.

Lemma with_block_extends i b t : extends i (with_block i b t).
Proof. split; try done. exists []. by rewrite app_nil_r. Qed.

Section Strings.
Context {R : Type} (i : image) (Hi : image_ok i).

Lemma tab_read o n d : buf_read (im_tab i) o n = Some d -> buf_read (render i) (im_offs i + o) n = Some d.
Proof.
  intros H. pose proof H as (? & ? & ? & _)%buf_read_Some.
  rewrite <- (buf_read_read (render i) (im_offs i) (zlen (im_tab i)) (im_tab i)); [done| |lia..].
  unfold render, body. rewrite !app_assoc. rewrite <- (app_assoc _ (im_tab i)). apply buf_read_at; [|done].
  rewrite !length_app, length_be_words. simpl length. im_lia.
Qed.

Lemma tab_bounds o name : tab_str (im_tab i) o name -> 0 <= o /\ o + zlen name + 1 <= zlen (im_tab i).
Proof. intros (? & _ & (_ & _ & ? & _)%buf_read_Some). lia. Qed.

Lemma tab_str_at o name : tab_str (im_tab i) o name -> str_at (render i) o name.
Proof.
  intros H. pose proof (tab_bounds _ _ H). destruct H as (Ho & Hn & Hr). exists (im_offs i).
  split; [by apply (word_header i Hi 3)|]. split; [destruct Hi; im_lia|]. split; [done|]. by apply tab_read.
Qed.

Lemma copy_in_run {R'} p val s n b : n = zlen val ->
  buf_write s p val = Some b -> copy_in (R := R') p val n s = (Go tt, b).
Proof. intros -> H. unfold copy_in, store. munfold. rewrite buf_read_whole. by rewrite H. Qed.

(** [_fdt_find_string] returns, with the string or without. *)
Lemma find_string_loop_run q k fuel :
  Forall (fun c => c <> 0) q -> 0 <= k -> (zlen (im_tab i) - (zlen q + 1) - k + 1 < Z.of_nat fuel) -> (0 < fuel)%nat ->
  exists r, find_string_loop (R := R) fuel (im_offs i + k) (im_offs i + zlen (im_tab i) - (zlen q + 1))
      (q ++ [0]) (zlen q + 1) (render i) = (Go r, render i) /\
    forall p, r = Some p -> tab_str (im_tab i) (p - im_offs i) q.
Proof.
  intros Hq. revert k. induction fuel as [|fuel IH]; intros k Hk Hf H0; [lia|]. cbn [find_string_loop].
  destruct (Z.leb_spec (im_offs i + k) (im_offs i + zlen (im_tab i) - (zlen q + 1))) as [Hle|Hgt];
    [|by exists None].
  destruct (buf_read_in_range (im_tab i) k (zlen q + 1)) as (d & Hd & Hl); [lia..|].
  assert (Hm : reading (R := R) (fun b => mem_eq b (im_offs i + k) (q ++ [0]) (zlen q + 1)) (render i) =
    (Go (bool_decide (d = q ++ [0])), render i)).
  { unfold reading, mem_eq. munfold. rewrite (tab_read _ _ _ Hd).
    replace (zlen q + 1) with (zlen (q ++ [0])) by (rewrite length_app; simpl; lia).
    by rewrite buf_read_whole. }
  rewrite (bind_go _ _ _ _ _ Hm). case_bool_decide as E.
  - eexists. split; [done|]. intros p [= <-]. replace (im_offs i + k - im_offs i) with k by lia.
    subst d. by split_and!.
  - destruct (IH (k + 1)) as (r & Hr & Hp); [lia..|]. exists r. split; [|done].
    by rewrite <- Z.add_assoc.
Qed.

Lemma find_string_run q :
  Forall (fun c => c <> 0) q -> zlen q + 1 < 2 ^ 31 ->
  exists r, fdt_find_string (R := R) (im_offs i) (zlen (im_tab i)) q (render i) = (Go r, render i) /\
    forall p, r = Some p -> tab_str (im_tab i) (p - im_offs i) q.
Proof.
  intros Hq Hl. unfold fdt_find_string, AsciiStrLen, StrLen. rewrite cstr_nonzero_id by done.
  rewrite !s32_small by (destruct Hi; im_lia).
  destruct (find_string_loop_run q 0 (fdt_rounds (render i)) Hq) as (r & Hr & Hp).
  - lia.
  - pose proof (length_render i). unfold fdt_rounds. im_lia.
  - unfold fdt_rounds. lia.
  - exists r. split; [|done]. munfold. by rewrite Z.add_0_r in Hr.
Qed.

(** The string table grows by [new]. *)
Lemma splice_string_room n :
  0 <= n -> n <= room i ->
  exists J tail, let i' := with_tab i (im_tab i ++ J) tail in
    fdt_splice_string (R := R) n (render i) = (Go 0, render i') /\ zlen J = n /\ image_ok i'.
Proof.
  intros Hn Hroom.
  destruct (splice_pieces (R := R) i Hi (be_words (header i) ++ im_front i ++ im_block i ++ im_gap i ++ im_tab i) [] [] n)
    as (J & tail & Hs & HlJ & Hlt & HuJ & Hut & _); [|done|cbn [length]; lia|].
  { unfold render, body. by rewrite <- !app_assoc. }
  assert (Hp : zlen (be_words (header i) ++ im_front i ++ im_block i ++ im_gap i ++ im_tab i) =
    im_offs i + zlen (im_tab i)) by (rewrite !length_app, length_be_words; simpl length; im_lia).
  rewrite Hp in Hs. change (zlen []) with 0 in Hs. exists J, tail. cbn zeta. split_and!; [|done|].
  - unfold fdt_splice_string.
    rewrite (bind_go _ _ _ _ _ (read_offs i Hi)), (bind_go _ _ _ _ _ (read_size_strings i Hi)).
    rewrite (bind_go _ _ _ _ _ Hs). cbn [negb Z.eqb app]. rewrite <- !app_assoc. unfold header.
    match goal with |- context [be_words ?ws ++ ?rest] =>
      set (w := ws); set (r := rest) end.
    erewrite bind_go by (unfold reading; munfold; apply fdt32_word, (word_words w 8); [done|destruct Hi; im_lia]).
    erewrite bind_go by exact (store32_words w 8 (zlen (im_tab i) + n) (zlen (im_tab i)) r eq_refl).
    subst w r. unfold render, header, body. cbn [im_front im_block im_gap im_tab im_tail im_total im_rsvmap im_last im_cpu with_tab].
    assert (Eo : im_offs (with_tab i (im_tab i ++ J) tail) = im_offs i) by im_lia.
    assert (Es : zlen (im_tab i ++ J) = zlen (im_tab i) + n) by im_lia.
    rewrite Eo, Es. by rewrite <- !app_assoc.
  - pose proof (io_u8 i Hi) as Hu. unfold body in Hu. rewrite !Forall_app in Hu.
    destruct Hi. split; unfold body; cbn [im_last im_cpu im_front im_block im_gap im_tab im_tail with_tab]; try done; try im_lia.
    rewrite !Forall_app. tauto.
Qed.

Lemma with_tab_id : with_tab i (im_tab i ++ []) (im_tail i) = i.
Proof. rewrite app_nil_r. by destruct i. Qed.
End Strings.

(** The outcome of [_fdt_find_add_string]. *)
Definition string_added (i : image) (q : list Z) (c : Z) (i' : image) : Prop :=
  (c = - FDT_ERR_NOSPACE /\ i' = i /\ room i < zlen q + 1) \/
  (0 <= c /\ tab_str (im_tab i') c q /\ image_ok i' /\ extends i i' /\ im_block i' = im_block i /\
   room i - (zlen q + 1) <= room i' <= room i).

Lemma find_add_string_run {R} i q :
  image_ok i -> Forall (fun c => is_u8 c /\ c <> 0) q -> zlen q + 1 < 2 ^ 31 ->
  exists c i', fdt_find_add_string (R := R) q (render i) = (Go c, render i') /\ string_added i q c i'.
Proof.
  intros Hi Hq Hl.
  assert (Hq0 : Forall (fun c => c <> 0) q) by (eapply list.Forall_impl; [exact Hq|by intros ? []]).
  destruct (find_string_run (R := R) i Hi q Hq0 Hl) as (r & Hr & Hp).
  unfold fdt_find_add_string, AsciiStrLen, StrLen. rewrite cstr_nonzero_id, s32_small by (done || lia).
  rewrite (bind_go _ _ _ _ _ (read_offs i Hi)), (bind_go _ _ _ _ _ (read_size_strings i Hi)).
  rewrite (bind_go _ _ _ _ _ Hr). destruct r as [p|].
  { specialize (Hp p eq_refl). pose proof (tab_bounds i _ _ Hp). exists (p - im_offs i), i.
    rewrite s32_small by (destruct Hi; im_lia). split; [done|]. right.
    split_and!; [lia|done|done|reflexivity|done|lia|lia]. }
  rewrite (bind_go _ _ _ _ _ (read_size_strings i Hi)).
  destruct (decide (zlen q + 1 <= room i)) as [Hroom|Hroom].
  - destruct (splice_string_room (R := R) i Hi (zlen q + 1)) as (J & tail & Hs & HlJ & Hok); [lia|done|].
    rewrite (bind_go _ _ _ _ _ Hs). cbn [negb Z.eqb].
    exists (zlen (im_tab i)), (with_tab i (im_tab i ++ q ++ [0]) tail).
    assert (Hlq : zlen (q ++ [0]) = zlen q + 1) by (rewrite length_app; simpl; lia).
    split.
    + erewrite bind_go; cycle 1.
      { apply copy_in_run; [by rewrite Hlq|]. unfold render, body.
        cbn [im_front im_block im_gap im_tab im_tail with_tab]. rewrite <- (app_assoc _ J).
        rewrite !app_assoc, <- (app_assoc _ J). apply buf_write_at; [|lia].
        rewrite !length_app, length_be_words. simpl length. im_lia. }
      rewrite s32_small by (destruct Hi; im_lia).
      replace (im_offs i + zlen (im_tab i) - im_offs i) with (zlen (im_tab i)) by lia.
      unfold mret, M_MRet, M_ret. f_equal.
      unfold render, body, header. cbn [im_front im_block im_gap im_tab im_tail im_total im_rsvmap im_last im_cpu with_tab].
      assert (Eo : im_offs (with_tab i (im_tab i ++ q ++ [0]) tail) = im_offs (with_tab i (im_tab i ++ J) tail)) by done.
      assert (Es : zlen (im_tab i ++ q ++ [0]) = zlen (im_tab i ++ J))
        by (rewrite !(length_app (im_tab i)); lia).
      rewrite Eo, Es. by rewrite <- !app_assoc.
    + right. split_and!; try done.
      * lia.
      * split_and!; [lia|done|]. cbn [im_tab with_tab]. apply buf_read_Some. rewrite !length_app. simpl length.
        split_and!; [lia..|]. rewrite Nat2Z.id, drop_app_length, take_ge; [done|rewrite length_app; simpl; lia].
      * pose proof (io_u8 _ Hok) as Hu. unfold body in Hu. cbn [im_front im_block im_gap im_tab im_tail with_tab] in Hu.
        rewrite !Forall_app in Hu.
        destruct Hok. split; unfold body in *; cbn [im_last im_cpu im_front im_block im_gap im_tab im_tail with_tab] in *; try done; try im_lia.
        rewrite !Forall_app. assert (Forall is_u8 q) by (eapply list.Forall_impl; [exact Hq|by intros ? []]).
        assert (Forall is_u8 [0]) by (repeat constructor; done). tauto.
      * split; try done. by exists (q ++ [0]).
      * im_lia.
      * pose proof (zlen_nonneg q). im_lia.
  - exists (- FDT_ERR_NOSPACE), i. split; [|left; split_and!; [done|done|lia]].
    assert (Hs : fdt_splice_string (R := R) (zlen q + 1) (render i) = (Go (- FDT_ERR_NOSPACE), render i)).
    { unfold fdt_splice_string.
      rewrite (bind_go _ _ _ _ _ (read_offs i Hi)), (bind_go _ _ _ _ _ (read_size_strings i Hi)).
      assert (Hf : fdt_splice (R := R) (im_offs i + zlen (im_tab i)) 0 (zlen q + 1) (render i) =
        (Go (- FDT_ERR_NOSPACE), render i)) by (apply splice_full; [done|im_lia..]).
      by rewrite (bind_go _ _ _ _ _ Hf). }
    by rewrite (bind_go _ _ _ _ _ Hs).
Qed.
