(* ===== verification/FdtProps.v ===== *)
(** What [fdt_setprop], [fdt_appendprop] and [fdt_appendprop_str] do to the tree
    an image encodes. *)
From Stdlib Require Import ZArith Lia.
From stdpp Require Import base list numbers option sets.
From S2P Require Import Prelude EfiBase Fdt FdtSpec FdtTree FdtRw FdtRwSpec FdtWrite FdtImage.

(** * An image of a list of tags *)

Record image_of (i : image) (toks : list tok) : Prop := {
  if_ok : image_ok i;
  if_block : encs toks (im_block i);
  if_toks : Forall tok_ok toks;
  if_names : forall o v, TProp o v ∈ toks -> named (im_tab i) o;
}.

Definition names (i : image) : Z -> list Z := tab_name (im_tab i).

Lemma image_toks i toks : image_of i toks -> holds_toks (render i) (im_off i) toks (im_total i) 17.
Proof. intros [Hok Hb _ _]. exists (im_block i). split; [done|by apply render_holds]. Qed.

Lemma prop_elem (p : Z * list Z) ps : p ∈ ps -> TProp p.1 p.2 ∈ prop_toks ps.
Proof. intros H. apply list_elem_of_fmap. by exists p. Qed.

Lemma image_props i pre n suf :
  image_of i (pre ++ flatten n ++ suf) ->
  Forall (fun p => str_at (render i) p.1 (names i p.1)) (node_props n).
Proof.
  intros [Hok _ _ Hn]. apply list.Forall_forall. intros p Hp. apply tab_str_at; [done|].
  apply (Hn p.1 p.2). apply prop_elem in Hp. destruct n. cbn [flatten node_props] in *.
  rewrite !elem_of_app, elem_of_cons, !elem_of_app. tauto.
Qed.

(** The tags of a node around its properties. *)
Lemma flatten_props n pre suf ps1 ps2 :
  node_props n = ps1 ++ ps2 ->
  pre ++ flatten n ++ suf =
  ((pre ++ [TBegin (node_name n)]) ++ prop_toks ps1) ++
  prop_toks ps2 ++ flatten_all (node_children n) ++ TEndNode :: suf.
Proof.
  destruct n as [name ps cs]. cbn [flatten node_props node_name node_children]. intros ->.
  unfold prop_toks, flatten_all. rewrite map_app. simplify_list_eq. done.
Qed.

(** The same node with other properties. *)
Definition with_props (n : dnode) (ps : list (Z * list Z)) : dnode :=
  DNode (node_name n) ps (node_children n).

Lemma get_prop_run {R} i pre n suf q :
  image_of i (pre ++ flatten n ++ suf) -> Forall (fun c => c <> 0) q ->
  reading (R := R) (fun b => fdt_get_property b (pos pre) q) (render i) =
  (Go (match split_prop (names i) (node_props n) q with
       | Some (ps1, p, _) =>
           (Some (im_off i + pos ((pre ++ [TBegin (node_name n)]) ++ prop_toks ps1)), zlen p.2)
       | None => (None, - FDT_ERR_NOTFOUND)
       end), render i).
Proof.
  intros Hi Hq.
  destruct (get_property_located (R := R) (render i) (im_off i) _ (im_total i) 17 (image_toks _ _ Hi)
    (if_toks _ _ Hi) (names i) pre suf n q (render i) eq_refl (image_props _ _ _ _ Hi) Hq) as (r & Hr & Hl).
  unfold reading. munfold. rewrite Hr. unfold located in Hl. by rewrite Hl.
Qed.

(** * Pieces of the structure block *)

Definition prop_head (len o : Z) : list Z := be_put 4 FDT_PROP ++ be_put 4 len ++ be_put 4 o.

Lemma length_prop_head len o : zlen (prop_head len o) = 12.
Proof. done. Qed.

Lemma pad_mod n : (- n) mod 4 = align4 n - n.
Proof.
  unfold align4. pose proof (Z.mod_pos_bound (- n) 4). pose proof (Z.div_mod (- n) 4).
  pose proof (Z.mod_pos_bound (n + 3) 4). pose proof (Z.div_mod (n + 3) 4). lia.
Qed.

Lemma enc_as_prop o v b :
  enc_as (TProp o v) b <->
  exists pad, b = prop_head (zlen v) o ++ v ++ pad /\ zlen (v ++ pad) = align4 (zlen v).
Proof.
  unfold enc_as, prop_head. cbn [tag_of tok_data].
  assert (Hm : (- zlen (be_put 4 (zlen v) ++ be_put 4 o ++ v)) mod 4 = align4 (zlen v) - zlen v).
  { rewrite pad_mod, !length_app, !length_be_put, !Nat2Z.inj_add.
    rewrite Z.add_assoc, align4_plus by (by exists 2). lia. }
  rewrite Hm. split; intros (pad & -> & Hp); exists pad; rewrite <- !app_assoc; split; try done;
    rewrite length_app in *; lia.
Qed.

Lemma image_split i a t b :
  image_of i (a ++ t :: b) ->
  exists X B Y, im_block i = X ++ B ++ Y /\ encs a X /\ enc_as t B /\ encs b Y /\ zlen X = pos a.
Proof.
  intros Hi. pose proof (if_block _ _ Hi) as (X & Z & HX & Ha & Hb)%encs_app_inv.
  inversion Hb as [|? B ? Y Ht HY]; subst. exists X, B, Y. split_and!; [done..|by apply encs_pos].
Qed.

Lemma image_part i a b :
  image_of i (a ++ b) -> exists X Y, im_block i = X ++ Y /\ encs a X /\ encs b Y /\ zlen X = pos a.
Proof.
  intros Hi. pose proof (if_block _ _ Hi) as (X & Y & HX & Ha & Hb)%encs_app_inv.
  exists X, Y. split_and!; [done..|by apply encs_pos].
Qed.

(** A store inside the structure block. *)
Lemma store_block {R} i X old d Y :
  image_ok i -> im_block i = X ++ old ++ Y -> length d = length old -> Forall is_u8 d ->
  let i' := with_block i (X ++ d ++ Y) (im_tail i) in
  buf_write (render i) (im_off i + zlen X) d = Some (render i') /\
  store (R := R) (im_off i + zlen X) d (render i) = (Go tt, render i') /\ image_ok i' /\ room i' = room i.
Proof.
  intros Hi Hb Hl Hd i'.
  assert (Hbl : zlen (X ++ d ++ Y) = zlen (im_block i)) by (rewrite Hb, !length_app; lia).
  assert (Hw : buf_write (render i) (im_off i + zlen X) d = Some (render i')).
  { assert (Hr : forall e, be_words (header i) ++ im_front i ++ (X ++ e ++ Y) ++ im_gap i ++ im_tab i ++ im_tail i =
      (be_words (header i) ++ im_front i ++ X) ++ e ++ Y ++ im_gap i ++ im_tab i ++ im_tail i)
      by (intros e; by rewrite <- !app_assoc).
    unfold render, body. replace (header i') with (header i)
      by (unfold header, im_offs; cbn [im_block with_block i']; by rewrite Hbl).
    cbn [im_front im_block im_gap im_tab im_tail with_block i']. rewrite Hb, !Hr.
    apply buf_write_at; [|done]. rewrite !length_app, length_be_words. simpl length. im_lia. }
  split_and!; [done| |split; unfold body in *; cbn [im_last im_cpu im_rsvmap im_total with_block i']|].
  - unfold store. munfold. by rewrite Hw.
  - pose proof (io_u8 _ Hi) as Hu. unfold body in Hu. rewrite Hb in Hu. subst i'.
    cbn [im_front im_block im_gap im_tab im_tail with_block]. rewrite !Forall_app in *. tauto.
  - destruct Hi. subst i'. im_lia.
  - apply Hi.
  - destruct Hi. subst i'. im_lia.
  - destruct Hi. subst i'. im_lia.
  - apply Hi.
  - apply Hi.
  - subst i'. im_lia.
Qed.

(** The image whose block has the property [o], [v] between [a] and [b]. *)
Lemma prop_put i i' a m b X Y o v pad :
  image_of i (a ++ m ++ b) -> image_ok i' -> extends i i' -> encs a X -> encs b Y ->
  im_block i' = X ++ (prop_head (zlen v) o ++ v ++ pad) ++ Y -> zlen (v ++ pad) = align4 (zlen v) ->
  is_u32 o -> Forall is_u8 v -> named (im_tab i') o ->
  image_of i' (a ++ TProp o v :: b).
Proof.
  intros Hi Hok Hex Ha Hb Hbl Hp Ho Hv Hn. split; [done| | |].
  - rewrite Hbl. apply encs_app; [done|]. constructor; [|done]. apply enc_as_prop. by exists pad.
  - pose proof (if_toks _ _ Hi) as Ht. rewrite !Forall_app in Ht. apply Forall_app. split; [tauto|].
    constructor; [done|tauto].
  - intros o' v' Hin. destruct (ex_tab _ _ Hex) as [new Hnew].
    assert (Hcase : TProp o' v' ∈ a ++ m ++ b \/ o' = o) by set_solver.
    destruct Hcase as [Hold| ->]; [|done]. rewrite Hnew. eapply named_grow, (if_names _ _ Hi), Hold.
Qed.

(** * Resizing the value of a property *)

Lemma align4_small n : 0 <= n <= 2 ^ 31 - 4 -> 0 <= align4 n <= 2 ^ 31 - 4.
Proof.
  intros. pose proof (align4_bounds n). pose proof (align4_divide n) as [k Hk]. lia.
Qed.

(** The property at the end of [a], with its value and padding [J]. *)
Record prop_at (i : image) (a b : list tok) (len o : Z) (X J Y : list Z) : Prop := {
  pa_ok : image_ok i;
  pa_block : im_block i = X ++ (prop_head len o ++ J) ++ Y;
  pa_before : encs a X;
  pa_after : encs b Y;
  pa_pos : zlen X = pos a;
  pa_len : zlen J = align4 len;
  pa_u8 : Forall is_u8 J;
}.

Lemma image_prop_at i a o old b :
  image_of i (a ++ TProp o old :: b) ->
  exists X pad Y, prop_at i a b (zlen old) o X (old ++ pad) Y.
Proof.
  intros Hi. destruct (image_split _ _ _ _ Hi) as (X & B & Y & Hbl & Ha & HB & Hb & Hp).
  apply enc_as_prop in HB as (pad & -> & Hpad). exists X, pad, Y. split; try done; [apply Hi|].
  pose proof (io_u8 _ (if_ok _ _ Hi)) as Hu. unfold body in Hu. rewrite Hbl, !Forall_app in Hu.
  apply Forall_app. tauto.
Qed.

Lemma value_room {R} i a b o old pad X Y len :
  prop_at i a b (zlen old) o X (old ++ pad) Y ->
  0 <= len <= 2 ^ 31 - 4 -> zlen old <= 2 ^ 31 - 4 -> align4 len - align4 (zlen old) <= room i ->
  exists i1 i' J, fdt_splice_struct (R := R) (im_off i + pos a + FDT_PROPERTY_SIZE) (FDT_TAGALIGN (zlen old))
      (FDT_TAGALIGN len) (render i) = (Go 0, render i1) /\
    store32 (R := R) (im_off i + pos a + 4) len (render i1) = (Go tt, render i') /\
    prop_at i' a b len o X J Y /\ extends i i' /\ im_tab i' = im_tab i /\
    room i' = room i - (align4 len - align4 (zlen old)) /\
    (forall n, (n <= length old)%nat -> Z.of_nat n <= len -> take n J = take n old).
Proof.
  intros [Hok Hbl Ha Hb Hp HlJ _] Hlen Hold Hroom.
  pose proof (align4_bounds len). pose proof (align4_small len Hlen).
  assert (Hbl' : im_block i = (X ++ prop_head (zlen old) o) ++ (old ++ pad) ++ Y)
    by (rewrite Hbl; by rewrite <- !app_assoc).
  destruct (splice_struct_room (R := R) i Hok _ _ _ (align4 len) Hbl') as (J & tail & Hs & Hok1 & Hl & Hr1 & Hu & Hpre);
    [lia|lia|]. cbn zeta in *.
  set (i1 := with_block i _ tail) in *.
  assert (Hb1 : im_block i1 = (X ++ be_put 4 FDT_PROP) ++ be_put 4 (zlen old) ++ (be_put 4 o ++ J ++ Y))
    by (cbn [im_block with_block i1]; unfold prop_head; by rewrite <- !app_assoc).
  destruct (store_block (R := R) i1 _ _ (be_put 4 len) _ Hok1 Hb1) as (_ & Hst & Hok2 & Hr2);
    [done|apply be_put_u8|]. cbn zeta in *.
  eexists i1, _, J. split_and!.
  - rewrite !FDT_TAGALIGN_small by lia. rewrite <- HlJ. unfold FDT_PROPERTY_SIZE.
    replace (im_off i + pos a + 12) with (im_off i + zlen (X ++ prop_head (zlen old) o))
      by (rewrite length_app, Nat2Z.inj_add, length_prop_head; lia).
    exact Hs.
  - unfold store32. replace (im_off i + pos a + 4) with (im_off i1 + zlen (X ++ be_put 4 FDT_PROP))
      by (rewrite length_app, length_be_put; unfold i1; im_lia).
    exact Hst.
  - split; try done. cbn [im_block with_block i1]. unfold prop_head. by rewrite <- !app_assoc.
  - split; try done. exists []. by rewrite app_nil_r.
  - done.
  - rewrite Hr2, Hr1, HlJ. lia.
  - intros n Hn Hnl. rewrite Hpre; [by rewrite take_app_le by lia| |lia].
    rewrite length_app. lia.
Qed.

Lemma value_full {R} i a b o old pad X Y len :
  prop_at i a b (zlen old) o X (old ++ pad) Y ->
  0 <= len <= 2 ^ 31 - 4 -> zlen old <= 2 ^ 31 - 4 -> room i < align4 len - align4 (zlen old) ->
  fdt_splice_struct (R := R) (im_off i + pos a + FDT_PROPERTY_SIZE) (FDT_TAGALIGN (zlen old))
      (FDT_TAGALIGN len) (render i) = (Go (- FDT_ERR_NOSPACE), render i).
Proof.
  intros [Hok Hbl Ha Hb Hp HlJ _] Hlen Hold Hroom. pose proof (align4_bounds len).
  rewrite !FDT_TAGALIGN_small by lia. rewrite <- HlJ. unfold FDT_PROPERTY_SIZE.
  replace (im_off i + pos a + 12) with (im_off i + zlen (X ++ prop_head (zlen old) o))
    by (rewrite length_app, Nat2Z.inj_add, length_prop_head; lia).
  apply (splice_struct_full i Hok _ _ Y); [rewrite Hbl; by rewrite <- !app_assoc|lia|lia].
Qed.

(** Bytes of the value. *)
Lemma value_store {R} i a b len o X J1 old J2 Y d :
  prop_at i a b len o X (J1 ++ old ++ J2) Y -> length d = length old -> Forall is_u8 d ->
  exists i', buf_write (render i) (im_off i + pos a + FDT_PROPERTY_SIZE + zlen J1) d = Some (render i') /\
    store (R := R) (im_off i + pos a + FDT_PROPERTY_SIZE + zlen J1) d (render i) = (Go tt, render i') /\
    prop_at i' a b len o X (J1 ++ d ++ J2) Y /\ extends i i' /\ im_tab i' = im_tab i /\ room i' = room i.
Proof.
  intros [Hok Hbl Ha Hb Hp HlJ Hu] Hd Hdu.
  assert (Hbl' : im_block i = (X ++ prop_head len o ++ J1) ++ old ++ (J2 ++ Y))
    by (rewrite Hbl; by rewrite <- !app_assoc).
  destruct (store_block (R := R) i _ _ d _ Hok Hbl' Hd Hdu) as (Hw & Hst & Hok2 & Hr2). cbn zeta in *.
  replace (im_off i + zlen (X ++ prop_head len o ++ J1)) with (im_off i + pos a + FDT_PROPERTY_SIZE + zlen J1)
    in * by (rewrite !length_app, !Nat2Z.inj_add, length_prop_head; unfold FDT_PROPERTY_SIZE; lia).
  eexists. split_and!; [exact Hw|exact Hst| |apply with_block_extends|done|done].
  split; try done.
  - cbn [im_block with_block]. by rewrite <- !app_assoc.
  - rewrite !length_app in *. lia.
  - rewrite !Forall_app in *. tauto.
Qed.

(** The value copied over the first bytes. *)
Lemma value_copy {R} i a b len o X J Y v :
  prop_at i a b len o X J Y -> zlen v <= zlen J -> Forall is_u8 v ->
  exists i', copy_in (R := R) (im_off i + pos a + FDT_PROPERTY_SIZE) v (zlen v) (render i) = (Go tt, render i') /\
    prop_at i' a b len o X (v ++ drop (length v) J) Y /\ extends i i' /\ im_tab i' = im_tab i /\ room i' = room i.
Proof.
  intros Hp Hl Hv.
  assert (HJ : J = [] ++ take (length v) J ++ drop (length v) J) by by rewrite app_nil_l, take_drop.
  rewrite HJ in Hp. destruct (value_store (R := R) _ _ _ _ _ _ _ _ _ _ v Hp) as (i' & Hw & _ & Hp' & ? & ? & ?);
    [rewrite length_take; lia|done|].
  exists i'. split_and!; [|done..]. apply copy_in_run; [done|].
  cbn [length Z.of_nat] in Hw. by rewrite Z.add_0_r in Hw.
Qed.

(** * A new property *)

(** What comes of adding a property: no room, for the string or for the
    property, or the property with a value yet to be filled in. *)
Definition prop_added (i : image) (a b : list tok) (q : list Z) (len : Z) (r : Z * Z) (i' : image) : Prop :=
  extends i i' /\
  ((r.1 = - FDT_ERR_NOSPACE /\ image_ok i' /\ im_block i' = im_block i /\
    room i < zlen q + 1 + FDT_PROPERTY_SIZE + align4 len) \/
   (exists o X J Y, r = (0, im_off i + pos a) /\ prop_at i' a b len o X J Y /\ is_u32 o /\
      tab_str (im_tab i') o q /\
      room i - (zlen q + 1 + FDT_PROPERTY_SIZE + align4 len) <= room i')).

Lemma three_words (J : list Z) n :
  zlen J = 12 + n -> 0 <= n ->
  exists w0 w1 w2 J', J = w0 ++ w1 ++ w2 ++ J' /\ length w0 = 4%nat /\ length w1 = 4%nat /\
    length w2 = 4%nat /\ zlen J' = n.
Proof.
  intros Hl Hn. exists (take 4 J), (take 4 (drop 4 J)), (take 4 (drop 8 J)), (drop 12 J).
  rewrite !length_take, !length_drop. split_and!; [|lia..].
  rewrite <- (take_drop 4 J) at 1. f_equal. rewrite <- (take_drop 4 (drop 4 J)) at 1. f_equal.
  rewrite drop_drop. rewrite <- (take_drop 4 (drop (4 + 4) J)) at 1. by rewrite drop_drop.
Qed.

Lemma new_prop_stores {R} i a b X J Y len o :
  image_ok i -> im_block i = X ++ J ++ Y -> encs a X -> encs b Y -> zlen X = pos a ->
  zlen J = 12 + align4 len -> 0 <= len -> Forall is_u8 J ->
  exists i' J', (store32 (R := R) (im_off i + pos a) FDT_PROP;;
      store32 (im_off i + pos a + 8) o;;
      store32 (im_off i + pos a + 4) len;;
      mret (0, im_off i + pos a)) (render i) = (Go (0, im_off i + pos a), render i') /\
    prop_at i' a b len o X J' Y /\ extends i i' /\ im_tab i' = im_tab i /\ room i' = room i.
Proof.
  intros Hok Hbl Ha Hb Hp Hl Hlen Hu. pose proof (align4_bounds len).
  destruct (three_words J _ Hl ltac:(lia)) as (w0 & w1 & w2 & J' & -> & H0 & H1 & H2 & H3).
  assert (Hb1 : im_block i = X ++ w0 ++ (w1 ++ w2 ++ J' ++ Y)) by (rewrite Hbl; by rewrite <- !app_assoc).
  destruct (store_block (R := R) i _ _ (be_put 4 FDT_PROP) _ Hok Hb1) as (_ & Hs1 & Hok1 & Hr1);
    [by rewrite length_be_put|apply be_put_u8|]. cbn zeta in *.
  set (i1 := with_block i _ _) in *.
  assert (Hb2 : im_block i1 = (X ++ be_put 4 FDT_PROP ++ w1) ++ w2 ++ (J' ++ Y))
    by (cbn [im_block with_block i1]; by rewrite <- !app_assoc).
  destruct (store_block (R := R) i1 _ _ (be_put 4 o) _ Hok1 Hb2) as (_ & Hs2 & Hok2 & Hr2);
    [by rewrite length_be_put|apply be_put_u8|]. cbn zeta in *.
  set (i2 := with_block i1 _ _) in *.
  assert (Hb3 : im_block i2 = (X ++ be_put 4 FDT_PROP) ++ w1 ++ (be_put 4 o ++ J' ++ Y))
    by (cbn [im_block with_block i2]; by rewrite <- !app_assoc).
  destruct (store_block (R := R) i2 _ _ (be_put 4 len) _ Hok2 Hb3) as (_ & Hs3 & Hok3 & Hr3);
    [by rewrite length_be_put|apply be_put_u8|]. cbn zeta in *.
  change (im_off i1) with (im_off i) in *. change (im_off i2) with (im_off i) in *.
  rewrite !length_app, length_be_put, H1, !Nat2Z.inj_add in Hs2. rewrite length_app, length_be_put, Nat2Z.inj_add in Hs3.
  rewrite Hp in *. eexists _, J'. split_and!.
  - unfold store32. rewrite (bind_go _ _ _ _ _ Hs1).
    replace (im_off i + pos a + 8) with (im_off i + (pos a + (Z.of_nat 4 + Z.of_nat 4))) by lia.
    rewrite (bind_go _ _ _ _ _ Hs2).
    replace (im_off i + pos a + 4) with (im_off i + (pos a + Z.of_nat 4)) by lia.
    rewrite (bind_go _ _ _ _ _ Hs3). reflexivity.
  - split; try done.
    + cbn [im_block with_block]. unfold prop_head. by rewrite <- !app_assoc.
    + rewrite !Forall_app in Hu. tauto.
  - split; try done. exists []. by rewrite app_nil_r.
  - done.
  - lia.
Qed.

Lemma add_property_run {R} i pre name b q len :
  image_of i ((pre ++ [TBegin name]) ++ b) ->
  Forall (fun c => is_u8 c /\ c <> 0) q -> zlen q + 1 < 2 ^ 31 -> 0 <= len <= 2 ^ 31 - 32 ->
  exists r i', fdt_add_property (R := R) (pos pre) q len (render i) = (Go r, render i') /\
    prop_added i (pre ++ [TBegin name]) b q len r i'.
Proof.
  intros Hi Hq Hql Hlen. pose proof (if_ok _ _ Hi) as Hok. pose proof (align4_bounds len) as Hal.
  pose proof (align4_divide len) as [k Hk]. set (a := pre ++ [TBegin name]) in *.
  unfold fdt_add_property, fdt_check_node_offset.
  assert (Hc : reading (R := R) (fun b => check_tag_offset b FDT_BEGIN_NODE (pos pre)) (render i) = (Go (pos a), render i)).
  { unfold reading. munfold. refine (check_offset_at _ _ _ _ _ (image_toks _ _ Hi) (if_toks _ _ Hi) pre (TBegin name) b _ _).
    unfold a. by rewrite <- app_assoc. }
  rewrite (bind_go _ _ _ _ _ Hc), (proj2 (Z.ltb_ge _ _)) by apply Zle_0_nat.
  destruct (find_add_string_run (R := R) i q Hok Hq Hql) as (o & i1 & Hs & Hadd).
  rewrite (bind_go _ _ _ _ _ Hs). destruct Hadd as [(-> & -> & Hfull)|(Ho & Hstr & Hok1 & Hex & Hbl1 & Hroom1)].
  { eexists _, i. split; [reflexivity|]. split; [reflexivity|]. left. cbn [fst].
    split_and!; [done..|]. unfold FDT_PROPERTY_SIZE. lia. }
  rewrite (proj2 (Z.ltb_ge _ _)) by done.
  assert (Hraw : reading (R := R) (fun b => raw_offset_ptr b (pos a)) (render i1) = (Go (im_off i1 + pos a), render i1)).
  { unfold raw_offset_ptr, reading. munfold. pose proof (read_off (R := R) i1 Hok1) as Hrd. unfold reading in Hrd. munfold.
    by rewrite Hrd. }
  rewrite (bind_go _ _ _ _ _ Hraw). rewrite FDT_TAGALIGN_small, s32_small by (unfold FDT_PROPERTY_SIZE; lia).
  destruct (image_part _ _ _ Hi) as (X & Y & Hbl & Ha & Hb & Hp).
  assert (Hbl2 : im_block i1 = X ++ [] ++ Y) by (by rewrite Hbl1, Hbl).
  assert (Hoff : im_off i1 = im_off i) by (unfold im_off; by rewrite (ex_front _ _ Hex)).
  unfold FDT_PROPERTY_SIZE.
  destruct (decide (12 + align4 len <= room i1)) as [Hr|Hr].
  - destruct (splice_struct_room (R := R) i1 Hok1 X [] Y (12 + align4 len) Hbl2)
      as (J & tail & Hsp & Hok2 & HlJ & Hr2 & Hu & _); [lia|cbn [length]; lia|]. cbn zeta in *.
    rewrite Hp in Hsp. rewrite (bind_go _ _ _ _ _ Hsp). cbn [negb Z.eqb].
    destruct (new_prop_stores (R := R) (with_block i1 (X ++ J ++ Y) tail) a b X J Y len o Hok2 eq_refl Ha Hb Hp HlJ)
      as (i3 & J' & Hst & Hpa & Hex3 & Htab3 & Hr3); [lia|done|].
    change (im_off (with_block i1 (X ++ J ++ Y) tail)) with (im_off i1) in Hst.
    eexists _, i3. split; [exact Hst|]. split.
    { etrans; [exact Hex|]. etrans; [apply with_block_extends|exact Hex3]. }
    right. exists o, X, J', Y. rewrite Hoff. split_and!; [done|done| |by rewrite Htab3|].
    + pose proof (tab_bounds _ _ _ Hstr). destruct Hok1. im_lia.
    + rewrite Hr3, Hr2. cbn [length]. unfold FDT_PROPERTY_SIZE. lia.
  - pose proof (splice_struct_full (R := R) i1 Hok1 X [] Y (12 + align4 len) Hbl2 ltac:(lia) ltac:(cbn [length]; lia)) as Hsp.
    rewrite Hp in Hsp. rewrite (bind_go _ _ _ _ _ Hsp). cbn [negb].
    eexists _, i1. split; [reflexivity|]. split; [done|]. left. cbn [fst].
    split_and!; [done..|]. unfold FDT_PROPERTY_SIZE. lia.
Qed.
