(* ===== verification/FdtSet.v ===== *)
(** [fdt_setprop], [fdt_appendprop] and [fdt_appendprop_str] on a tree. *)
From Stdlib Require Import ZArith Lia.
From stdpp Require Import base list numbers option sets.
From S2P Require Import Prelude EfiBase Fdt FdtSpec FdtTree FdtRw FdtRwSpec FdtWrite FdtImage FdtProps.

(** The value [q] of the properties goes through [f], or [v] comes in front,
    with the name at [o]. *)
Definition update_prop (strs : Z -> list Z) (ps : list (Z * list Z)) (q : list Z)
    (f : list Z -> list Z) (o : Z) (v : list Z) : list (Z * list Z) :=
  match split_prop strs ps q with
  | Some (ps1, p, ps2) => ps1 ++ (p.1, f p.2) :: ps2
  | None => (o, v) :: ps
  end.

(** The bytes an update needs, the name among them when it is new. *)
Definition update_need (strs : Z -> list Z) (ps : list (Z * list Z)) (q : list Z)
    (f : list Z -> list Z) (v : list Z) : Z :=
  match split_prop strs ps q with
  | Some (_, p, _) => align4 (zlen (f p.2)) - align4 (zlen p.2)
  | None => zlen q + 1 + FDT_PROPERTY_SIZE + align4 (zlen v)
  end.

(** The outcome of an update of the node [n]: the new tree, or no room and the
    old one. *)
Definition updated (i : image) (pre : list tok) (n : dnode) (suf : list tok) (q : list Z)
    (f : list Z -> list Z) (v : list Z) (c : Z) (i' : image) : Prop :=
  extends i i' /\
  ((c = 0 /\ room i - update_need (names i) (node_props n) q f v <= room i' /\ exists o, tab_str (im_tab i') o q /\
      image_of i' (pre ++ flatten (with_props n (update_prop (names i) (node_props n) q f o v)) ++ suf)) \/
   (c = - FDT_ERR_NOSPACE /\ image_of i' (pre ++ flatten n ++ suf) /\
      room i < update_need (names i) (node_props n) q f v)).

(** Where the property is, or where a new one goes. *)
Section Update.
Context {R : Type} (i : image) (pre : list tok) (n : dnode) (suf : list tok).
Context (Hi : image_of i (pre ++ flatten n ++ suf)).

Definition at_prop (ps1 : list (Z * list Z)) : list tok := (pre ++ [TBegin (node_name n)]) ++ prop_toks ps1.
Definition behind (ps2 : list (Z * list Z)) : list tok :=
  prop_toks ps2 ++ flatten_all (node_children n) ++ TEndNode :: suf.

Lemma at_behind ps1 p ps2 :
  node_props n = ps1 ++ p :: ps2 ->
  pre ++ flatten n ++ suf = at_prop ps1 ++ TProp p.1 p.2 :: behind ps2.
Proof. intros Hps. by rewrite (flatten_props n pre suf ps1 (p :: ps2) Hps). Qed.

Lemma with_props_toks ps1 ps2 :
  pre ++ flatten (with_props n (ps1 ++ ps2)) ++ suf = at_prop ps1 ++ prop_toks ps2 ++ behind [].
Proof.
  rewrite (flatten_props (with_props n (ps1 ++ ps2)) pre suf ps1 ps2 eq_refl). done.
Qed.

Lemma prop_there ps1 p ps2 q :
  split_prop (names i) (node_props n) q = Some (ps1, p, ps2) ->
  node_props n = ps1 ++ p :: ps2 /\ named (im_tab i) p.1 /\ tab_str (im_tab i) p.1 q /\
  is_u32 p.1 /\ zlen p.2 <= 2 ^ 31 - 72 /\ Forall is_u8 p.2 /\
  exists X pad Y, prop_at i (at_prop ps1) (behind ps2) (zlen p.2) p.1 X (p.2 ++ pad) Y.
Proof.
  intros Hsp. destruct (split_prop_app _ _ _ _ _ _ Hsp) as [Hps Hq].
  pose proof Hi as Hi'. rewrite (at_behind _ _ _ Hps) in Hi'.
  assert (Hin : TProp p.1 p.2 ∈ at_prop ps1 ++ TProp p.1 p.2 :: behind ps2).
  { rewrite elem_of_app, elem_of_cons. tauto. }
  pose proof (if_names _ _ Hi' _ _ Hin) as Hn. pose proof (if_toks _ _ Hi') as Ht.
  rewrite list.Forall_forall in Ht. destruct (Ht _ Hin) as [Hu Hv].
  destruct (image_prop_at _ _ _ _ _ Hi') as (X & pad & Y & Hpa).
  split_and!; [done|done|unfold names in Hq; unfold named in Hn; by rewrite Hq in Hn|apply Hu| |done|by exists X, pad, Y].
  destruct Hpa as [Hok Hbl _ _ _ _ _]. assert (Hl : zlen (prop_head (zlen p.2) p.1 ++ p.2) <= zlen (im_block i))
    by (rewrite Hbl, !length_app; lia).
  rewrite length_app, Nat2Z.inj_add, length_prop_head in Hl. destruct Hok. im_lia.
Qed.

(** The new value is in place of the old one. *)
Lemma prop_replaced i' ps1 p ps2 q f v X pad Y :
  split_prop (names i) (node_props n) q = Some (ps1, p, ps2) ->
  prop_at i' (at_prop ps1) (behind ps2) (zlen (f p.2)) p.1 X (f p.2 ++ pad) Y ->
  extends i i' -> Forall is_u8 (f p.2) ->
  room i - (align4 (zlen (f p.2)) - align4 (zlen p.2)) <= room i' -> updated i pre n suf q f v 0 i'.
Proof.
  intros Hsp Hpa Hex Hv Hroom. destruct (prop_there _ _ _ _ Hsp) as (Hps & Hn & Hq & Hu & _).
  destruct (ex_tab _ _ Hex) as [new Hnew].
  split; [done|]. left. split; [done|]. split; [unfold update_need; by rewrite Hsp|]. exists p.1. split; [rewrite Hnew; by apply tab_str_grow|].
  unfold update_prop. rewrite Hsp, with_props_toks. cbn [prop_toks map app fst snd].
  destruct Hpa as [Hok Hbl Ha Hb _ Hl _].
  apply (prop_put i i' (at_prop ps1) [TProp p.1 p.2] (behind ps2) X Y p.1 (f p.2) pad); try done.
  - cbn [app]. by rewrite <- (at_behind _ _ _ Hps).
  - rewrite Hnew. by eapply named_grow.
Qed.

Lemma prop_new i' q f v o X pad Y :
  split_prop (names i) (node_props n) q = None ->
  prop_at i' (at_prop []) (behind (node_props n)) (zlen v) o X (v ++ pad) Y ->
  extends i i' -> Forall is_u8 v -> is_u32 o -> tab_str (im_tab i') o q ->
  room i - (zlen q + 1 + FDT_PROPERTY_SIZE + align4 (zlen v)) <= room i' -> updated i pre n suf q f v 0 i'.
Proof.
  intros Hsp Hpa Hex Hv Ho Hq Hroom. split; [done|]. left. split; [done|].
  split; [unfold update_need; by rewrite Hsp|]. exists o. split; [done|].
  unfold update_prop. rewrite Hsp. change ((o, v) :: node_props n) with ([] ++ (o, v) :: node_props n).
  rewrite with_props_toks. destruct Hpa as [Hok Hbl Ha Hb _ Hl _]. cbn [prop_toks map app fst snd].
  apply (prop_put i i' (at_prop []) [] (behind (node_props n)) X Y o v pad); try done.
  - cbn [app]. pose proof (flatten_props n pre suf [] (node_props n) eq_refl) as Hf.
    unfold at_prop, behind. by rewrite <- Hf.
  - by eapply tab_str_named.
Qed.
End Update.

(** The joined value of [fdt_appendprop_str]. *)
Definition joined (v : list Z) (join : bool) (old : list Z) : list Z :=
  (if join then take (length old - 1) old ++ [0x20] else old) ++ v.

Lemma joined_length v join old : (join = true -> old <> []) -> zlen (joined v join old) = zlen old + zlen v.
Proof.
  intros Hj. unfold joined. rewrite length_app. destruct join; [|lia].
  rewrite length_app, length_take. destruct old; [by destruct Hj|]. simpl. lia.
Qed.

(** * The three routines *)

Section SetProp.
Context {R : Type} (i : image) (pre : list tok) (n : dnode) (suf : list tok) (q v : list Z).
Context (Hi : image_of i (pre ++ flatten n ++ suf)).
Context (Hq : Forall (fun c => is_u8 c /\ c <> 0) q) (Hql : zlen q + 1 < 2 ^ 31).
Context (Hv : Forall is_u8 v) (Hvl : zlen v <= 2 ^ 31 - 32).

Lemma q_nonzero : Forall (fun c => c <> 0) q.
Proof. eapply list.Forall_impl; [exact Hq|]. by intros ? []. Qed.

(** The copy of the value, left out for an empty one. *)
Lemma value_fill i1 a b o X J Y :
  prop_at i1 a b (zlen v) o X J Y ->
  exists i2 pad, (if negb (zlen v =? 0) then copy_in (R := R) (im_off i1 + pos a + FDT_PROPERTY_SIZE) v (zlen v)
      else mret tt) (render i1) = (Go tt, render i2) /\
    prop_at i2 a b (zlen v) o X (v ++ pad) Y /\ extends i1 i2 /\ im_tab i2 = im_tab i1 /\ room i2 = room i1.
Proof.
  intros Hpa. destruct (Z.eqb_spec (zlen v) 0) as [Hz|Hz].
  - exists i1, J. destruct v; [|simpl in Hz; lia]. done.
  - pose proof (align4_bounds (zlen v)).
    destruct (value_copy (R := R) _ _ _ _ _ _ _ _ v Hpa) as (i2 & Hw & Hpa2 & Hex2 & Htab2 & Hr2);
      [rewrite (pa_len _ _ _ _ _ _ _ _ Hpa); lia|done|]. by exists i2, (drop (length v) J).
Qed.

(** A new property: no room, or the value is all that is missing. *)
Lemma new_prop_run f :
  split_prop (names i) (node_props n) q = None ->
  exists r i1, fdt_add_property (R := R) (pos pre) q (zlen v) (render i) = (Go r, render i1) /\
    (r.1 = - FDT_ERR_NOSPACE /\ updated i pre n suf q f v (- FDT_ERR_NOSPACE) i1 \/
     exists a b o X J Y, r = (0, im_off i1 + pos a) /\ prop_at i1 a b (zlen v) o X J Y /\
       forall i2 pad, prop_at i2 a b (zlen v) o X (v ++ pad) Y -> extends i1 i2 -> im_tab i2 = im_tab i1 ->
         room i2 = room i1 -> updated i pre n suf q f v 0 i2).
Proof.
  intros Hsp. pose proof (flatten_props n pre suf [] (node_props n) eq_refl) as Hf.
  pose proof Hi as Hi'. rewrite Hf in Hi'. cbn [prop_toks map] in Hi'. rewrite app_nil_r in Hi'.
  pose proof (align4_bounds (zlen v)) as Hal.
  destruct (add_property_run (R := R) i pre (node_name n) _ q (zlen v) Hi' Hq Hql ltac:(lia))
    as (r & i1 & Hr & Hex & [(Hc & Hok1 & Hbl1 & Hneed)|(o & X & J & Y & -> & Hpa & Ho & Hstr & Hrm)]);
    exists r, i1 || exists (0, im_off i + pos (pre ++ [TBegin (node_name n)])), i1; (split; [exact Hr|]).
  - left. split; [done|]. split; [done|]. right. split; [done|]. unfold update_need. rewrite Hsp. split; [|done].
    destruct (ex_tab _ _ Hex) as [new Hnew]. split; [done|rewrite Hbl1; apply Hi|apply Hi|].
    intros o w Hin. rewrite Hnew. eapply named_grow, (if_names _ _ Hi), Hin.
  - right. assert (Hoff : im_off i1 = im_off i) by (unfold im_off; by rewrite (ex_front _ _ Hex)).
    exists (pre ++ [TBegin (node_name n)]). do 5 eexists. rewrite Hoff. split_and!; [reflexivity|exact Hpa|].
    intros i2 pad Hpa2 Hex2 Htab2 Hr2.
    eapply (prop_new i pre n suf Hi); [done| |by etrans|done|exact Ho|by rewrite Htab2|by rewrite Hr2].
    unfold at_prop. cbn [prop_toks map]. rewrite app_nil_r. exact Hpa2.
Qed.

(** The property that is there, with room for [len] bytes. *)
Lemma resize_run ps1 p ps2 len :
  split_prop (names i) (node_props n) q = Some (ps1, p, ps2) -> 0 <= len <= 2 ^ 31 - 4 ->
  let prop := im_off i + pos (at_prop pre n ps1) in
  if decide (align4 len - align4 (zlen p.2) <= room i) then
    exists i' X J Y, fdt_resize_property (R := R) (pos pre) q len (render i) = (Go (0, prop), render i') /\
      prop_at i' (at_prop pre n ps1) (behind n suf ps2) len p.1 X J Y /\ extends i i' /\
      room i' = room i - (align4 len - align4 (zlen p.2))
  else fdt_resize_property (R := R) (pos pre) q len (render i) = (Go (- FDT_ERR_NOSPACE, prop), render i).
Proof.
  intros Hsp Hlen. destruct (prop_there i pre n suf Hi _ _ _ _ Hsp) as (Hps & _ & _ & _ & Hol & _ & X & pad & Y & Hpa).
  cbn zeta. unfold fdt_resize_property.
  rewrite (bind_go _ _ _ _ _ (get_prop_run i pre n suf q Hi q_nonzero)), Hsp. cbn [fst snd].
  fold (at_prop pre n ps1). case_decide as Hroom.
  - destruct (value_room (R := R) _ _ _ _ _ _ _ _ len Hpa Hlen ltac:(lia) Hroom)
      as (i1 & i2 & J & H1 & H2 & Hpa2 & Hex & _ & Hr & _). exists i2, X, J, Y.
    rewrite (bind_go _ _ _ _ _ H1). cbn [negb Z.eqb]. rewrite (bind_go _ _ _ _ _ H2). done.
  - by rewrite (bind_go _ _ _ _ _ (value_full _ _ _ _ _ _ _ _ len Hpa Hlen ltac:(lia) ltac:(lia))).
Qed.

Lemma setprop_run :
  exists c i', fdt_setprop (R := R) (pos pre) q v (zlen v) (render i) = (Go c, render i') /\
    updated i pre n suf q (fun _ => v) v c i'.
Proof.
  pose proof (if_ok _ _ Hi) as Hok. unfold fdt_setprop, fdt_setprop_placeholder.
  rewrite bind_assoc, (bind_go _ _ _ _ _ (rw_check_run i Hok)). cbn [negb Z.eqb]. rewrite bind_assoc.
  destruct (split_prop (names i) (node_props n) q) as [[[ps1 p] ps2]|] eqn:Hsp.
  - pose proof (resize_run _ _ _ (zlen v) Hsp ltac:(lia)) as Hres. cbn zeta in Hres. case_decide as Hroom.
    + destruct Hres as (i1 & X & J & Y & Hr & Hpa & Hex & Hrm). rewrite (bind_go _ _ _ _ _ Hr), bind_assoc.
      erewrite bind_go by reflexivity. erewrite bind_go by reflexivity. cbn [fst snd negb Z.eqb].
      destruct (value_fill _ _ _ _ _ _ _ Hpa) as (i2 & pad & Hw & Hpa2 & Hex2 & _ & Hr2).
      replace (im_off i1) with (im_off i) in Hw by (unfold im_off; by rewrite (ex_front _ _ Hex)).
      rewrite (bind_go _ _ _ _ _ Hw). exists 0, i2. split; [done|].
      eapply (prop_replaced i pre n suf Hi); [done|exact Hpa2|by etrans|done|lia].
    + rewrite (bind_go _ _ _ _ _ Hres), bind_assoc.
      erewrite bind_go by reflexivity. erewrite bind_go by reflexivity. cbn [fst snd negb Z.eqb].
      exists (- FDT_ERR_NOSPACE), i. split; [done|]. split; [reflexivity|]. right. split_and!; [done|done|].
      unfold update_need. rewrite Hsp. lia.
  - assert (Hres : fdt_resize_property (R := R) (pos pre) q (zlen v) (render i) = (Go (- FDT_ERR_NOTFOUND, 0), render i)).
    { unfold fdt_resize_property. by rewrite (bind_go _ _ _ _ _ (get_prop_run i pre n suf q Hi q_nonzero)), Hsp. }
    rewrite (bind_go _ _ _ _ _ Hres), bind_assoc. cbn [fst snd]. rewrite Z.eqb_refl.
    destruct (new_prop_run (fun _ => v) Hsp) as (r & i1 & Hr & [[Hc Hu]|(a & b & o & X & J & Y & -> & Hpa & Hu)]);
      rewrite (bind_go _ _ _ _ _ Hr).
    + cbn beta. rewrite Hc. erewrite bind_go by reflexivity. cbn [fst snd negb Z.eqb].
      eexists _, i1. split; [reflexivity|done].
    + erewrite bind_go by reflexivity. cbn [fst snd negb Z.eqb].
      destruct (value_fill _ _ _ _ _ _ _ Hpa) as (i2 & pad & Hw & Hpa2 & Hex2 & Htab2 & Hr2).
      rewrite (bind_go _ _ _ _ _ Hw). exists 0, i2. split; [done|]. by eapply Hu.
Qed.

(** The new part, behind what is kept of the old value. *)
Lemma append_fill i1 a b len o X w J Y :
  prop_at i1 a b len o X (w ++ J) Y -> zlen v <= zlen J ->
  exists i2 pad, copy_in (R := R) (im_off i1 + pos a + FDT_PROPERTY_SIZE + zlen w) v (zlen v) (render i1) =
      (Go tt, render i2) /\ prop_at i2 a b len o X ((w ++ v) ++ pad) Y /\ extends i1 i2 /\ room i2 = room i1.
Proof.
  intros Hpa Hl. rewrite <- (take_drop (length v) J) in Hpa.
  destruct (value_store (R := R) _ _ _ _ _ _ _ _ _ _ v Hpa) as (i2 & Hw & _ & Hpa2 & Hex & _ & Hr);
    [rewrite length_take; lia|done|].
  exists i2, (drop (length v) J). split_and!; [by apply copy_in_run|by rewrite <- app_assoc|done|done].
Qed.

(** The stores behind the splice: the space over the terminator, then the new part. *)
Lemma join_fill join i1 a b o X old J Y :
  prop_at i1 a b (zlen (joined v join old)) o X J Y -> take (length old) J = old ->
  (join = true -> old <> []) ->
  exists i2 pad, (let data := im_off i1 + pos a + FDT_PROPERTY_SIZE in
      (if join then store (R := R) (data + zlen old - 1) [0x20] else mret tt);;
      copy_in (data + zlen old) v (zlen v);; mret 0) (render i1) = (Go 0, render i2) /\
    prop_at i2 a b (zlen (joined v join old)) o X (joined v join old ++ pad) Y /\ extends i1 i2 /\ room i2 = room i1.
Proof.
  intros Hpa Hold Hj. cbn zeta. pose proof (joined_length v join old Hj) as Hjl.
  pose proof (align4_bounds (zlen (joined v join old))) as Hal. pose proof (pa_len _ _ _ _ _ _ _ _ Hpa) as HlJ.
  assert (HlJ2 : zlen v <= zlen (drop (length old) J)) by (rewrite length_drop; lia).
  rewrite <- (take_drop (length old) J), Hold in Hpa. destruct join.
  - destruct (exists_last (Hj eq_refl)) as (old' & c & ->).
    rewrite <- app_assoc in Hpa.
    destruct (value_store (R := R) _ _ _ _ _ _ _ _ _ _ [0x20] Hpa) as (i2 & _ & Hw & Hpa2 & Hex2 & _ & Hr2);
      [done|by repeat constructor|].
    rewrite length_app in *. cbn [length] in *.
    replace (im_off i1 + pos a + FDT_PROPERTY_SIZE + Z.of_nat (length old' + 1) - 1)
      with (im_off i1 + pos a + FDT_PROPERTY_SIZE + zlen old') by lia.
    rewrite (bind_go _ _ _ _ _ Hw). rewrite app_assoc in Hpa2.
    destruct (append_fill _ _ _ _ _ _ _ _ _ Hpa2 HlJ2) as (i3 & pad & Hc & Hpa3 & Hex3 & Hr3).
    replace (im_off i1) with (im_off i2) by (unfold im_off; by rewrite (ex_front _ _ Hex2)).
    rewrite length_app in Hc. cbn [length] in Hc. rewrite (bind_go _ _ _ _ _ Hc).
    exists i3, pad. split; [done|]. split; [|split; [by etrans|lia]].
    unfold joined at 2. rewrite length_app. cbn [length]. by rewrite Nat.add_sub, take_app_length.
  - erewrite bind_go by reflexivity.
    destruct (append_fill _ _ _ _ _ _ _ _ _ Hpa HlJ2) as (i2 & pad & Hc & Hpa2 & Hex2 & Hr2).
    rewrite (bind_go _ _ _ _ _ Hc). by exists i2, pad.
Qed.

Lemma appendprop_run join :
  (forall ps1 p ps2, split_prop (names i) (node_props n) q = Some (ps1, p, ps2) ->
     (join = true -> p.2 <> []) /\ zlen p.2 + zlen v <= 2 ^ 31 - 32) ->
  exists c i', appendprop_with (R := R) join (pos pre) q v (zlen v) (render i) = (Go c, render i') /\
    updated i pre n suf q (joined v join) v c i'.
Proof.
  intros Hold. pose proof (if_ok _ _ Hi) as Hok. unfold appendprop_with. rewrite (rw_checked_run i Hok).
  rewrite (bind_go _ _ _ _ _ (get_prop_run i pre n suf q Hi q_nonzero)).
  destruct (split_prop (names i) (node_props n) q) as [[[ps1 p] ps2]|] eqn:Hsp; cbn [fst snd].
  - destruct (Hold _ _ _ eq_refl) as [Hj Hlen]. fold (at_prop pre n ps1).
    destruct (prop_there i pre n suf Hi _ _ _ _ Hsp) as (Hps & _ & _ & _ & Hol & Hou & X & pad & Y & Hpa).
    pose proof (joined_length v join p.2 Hj) as Hjl.
    rewrite s32_small by lia. rewrite (Z.add_comm (zlen v)), <- Hjl.
    destruct (decide (align4 (zlen (joined v join p.2)) - align4 (zlen p.2) <= room i)) as [Hroom|Hroom].
    + destruct (value_room (R := R) _ _ _ _ _ _ _ _ (zlen (joined v join p.2)) Hpa ltac:(lia) ltac:(lia) Hroom)
        as (i1 & i2 & J & H1 & H2 & Hpa2 & Hex & Htab & Hrm & Hpre).
      rewrite (bind_go _ _ _ _ _ H1). cbn [negb Z.eqb]. rewrite (bind_go _ _ _ _ _ H2).
      replace (im_off i) with (im_off i2) by (unfold im_off; by rewrite (ex_front _ _ Hex)).
      destruct (join_fill join _ _ _ _ _ p.2 _ _ Hpa2) as (i3 & pad3 & Hfill & Hpa3 & Hex3 & Hr3);
        [rewrite Hpre by lia; by rewrite take_ge|done|].
      cbn zeta in Hfill. rewrite Hfill. exists 0, i3. split; [done|].
      eapply (prop_replaced i pre n suf Hi); [done|exact Hpa3|by etrans| |lia].
      unfold joined. apply Forall_app. split; [|done]. destruct join; [|done].
      apply Forall_app. split; [by apply Forall_take|by repeat constructor].
    + rewrite (bind_go _ _ _ _ _ (value_full _ _ _ _ _ _ _ _ (zlen (joined v join p.2)) Hpa ltac:(lia) ltac:(lia) ltac:(lia))).
      cbn [negb Z.eqb Z.opp]. eexists _, i. split; [reflexivity|]. split; [reflexivity|]. right.
      split_and!; [done|done|]. unfold update_need. rewrite Hsp. lia.
  - destruct (new_prop_run (joined v join) Hsp) as (r & i1 & Hr & [[Hc Hu]|(a & b & o & X & J & Y & -> & Hpa & Hu)]);
      rewrite (bind_go _ _ _ _ _ Hr).
    + rewrite Hc. eexists _, i1. split; [reflexivity|done].
    + cbn [fst snd negb Z.eqb]. pose proof (align4_bounds (zlen v)).
      destruct (value_copy (R := R) _ _ _ _ _ _ _ _ v Hpa) as (i2 & Hw & Hpa2 & Hex2 & Htab2 & Hr2);
        [rewrite (pa_len _ _ _ _ _ _ _ _ Hpa); lia|done|].
      rewrite (bind_go _ _ _ _ _ Hw). exists 0, i2. split; [done|]. by eapply Hu.
Qed.
End SetProp.
