(* ===== verification/FdtPack.v ===== *)
(** [fdt_open_into] in place and [fdt_pack]: the room behind a tree, before the
    loader writes into it and after. *)
From Stdlib Require Import ZArith Lia.
From stdpp Require Import base list numbers option sets.
From S2P Require Import Prelude EfiBase Fdt FdtSpec FdtTree FdtRw FdtRwSpec FdtWrite FdtImage FdtProps.

(** * The reservations *)

Definition rsv_entry (r : Z * Z) : list Z := be_put 8 r.1 ++ be_put 8 r.2.
Definition rsv_bytes (rs : list (Z * Z)) : list Z := mjoin (map rsv_entry rs) ++ zeros 16.
Definition rsv_ok (rs : list (Z * Z)) : Prop := Forall (fun r => 0 < r.2 < 2 ^ 64) rs.

Lemma length_rsv_bytes rs : zlen (rsv_bytes rs) = 16 * zlen rs + 16.
Proof.
  unfold rsv_bytes. rewrite length_app, Nat2Z.inj_add. change (zlen (zeros 16)) with 16.
  assert (Hl : zlen (mjoin (map rsv_entry rs)) = 16 * zlen rs); [|lia].
  induction rs as [|r rs IH]; [done|].
  change (mjoin (map rsv_entry (r :: rs))) with (rsv_entry r ++ mjoin (map rsv_entry rs)).
  rewrite length_app. unfold rsv_entry at 1. rewrite length_app, !length_be_put. cbn [length]. lia.
Qed.

Lemma rsv_u8 rs : Forall is_u8 (rsv_bytes rs).
Proof.
  apply Forall_app. split; [|by repeat constructor].
  induction rs as [|r rs IH]; [done|]. cbn [map mjoin list_join]. apply Forall_app. split; [|done].
  apply Forall_app. split; apply be_put_u8.
Qed.

(** The image has the reservations [rs] in front of its structure block. *)
Definition reserves (i : image) (rs : list (Z * Z)) : Prop :=
  rsv_ok rs /\ exists g0 g1, im_front i = g0 ++ rsv_bytes rs ++ g1 /\ im_rsvmap i = 40 + zlen g0.

Lemma num_rsv_loop {R} fuel pre rs post done s :
  rsv_ok rs -> (length rs < fuel)%nat ->
  num_mem_rsv_loop (R := R) fuel (pre ++ rsv_bytes rs ++ post) (zlen pre - 16 * done) done s =
  (Go (done + zlen rs), s).
Proof.
  intros Hok Hf. revert pre done fuel Hf. induction Hok as [|[a z] rs Hz Hok IH];
    intros pre done fuel Hf; (destruct fuel as [|fuel]; [cbn [length] in Hf; lia|]); cbn [num_mem_rsv_loop];
    unfold FDT_RESERVE_SIZE; replace (zlen pre - 16 * done + done * 16 + 8) with (zlen pre + 8) by lia.
  - assert (Hr : buf_read (pre ++ rsv_bytes [] ++ post) (zlen pre + 8) 8 = Some (zeros 8)).
    { change (rsv_bytes []) with (zeros 8 ++ zeros 8). rewrite <- app_assoc, app_assoc.
      apply buf_read_at; [rewrite length_app; change (length (zeros 8)) with 8%nat; lia|done]. }
    unfold fdt64. rewrite Hr. erewrite bind_go by reflexivity. cbn. by rewrite Z.add_0_r.
  - assert (Hr : buf_read (pre ++ rsv_bytes ((a, z) :: rs) ++ post) (zlen pre + 8) 8 = Some (be_put 8 z)).
    { unfold rsv_bytes. cbn [map mjoin list_join]. unfold rsv_entry at 1. cbn [fst snd].
      rewrite <- !app_assoc, app_assoc. apply buf_read_at; [rewrite length_app, length_be_put; lia|by rewrite length_be_put]. }
    cbn [snd] in Hz. unfold fdt64. rewrite Hr. erewrite bind_go by reflexivity.
    rewrite be_get_put_small by lia. rewrite (proj2 (Z.eqb_neq z 0)) by lia. cbn [negb].
    assert (He : pre ++ rsv_bytes ((a, z) :: rs) ++ post = (pre ++ rsv_entry (a, z)) ++ rsv_bytes rs ++ post)
      by (unfold rsv_bytes; cbn [map mjoin list_join]; by rewrite <- !app_assoc).
    rewrite He. replace (zlen pre - 16 * done) with (zlen (pre ++ rsv_entry (a, z)) - 16 * (done + 1))
      by (rewrite length_app; unfold rsv_entry; rewrite length_app, !length_be_put; lia).
    rewrite IH by (cbn [length] in Hf; lia). cbn [length]. do 2 f_equal. lia.
Qed.

(** [memmove] of [C] down over [B]; what was between [C] and [E] and what [C]
    left behind is [y]. *)
Lemma memmove_down {R} A B C D E dst src n :
  dst = zlen A -> src = zlen A + zlen B -> n = zlen C -> Forall is_u8 (B ++ C ++ D) ->
  exists y, memmove (R := R) dst src n (A ++ B ++ C ++ D ++ E) = (Go tt, A ++ C ++ y ++ E) /\
    zlen y = zlen B + zlen D /\ Forall is_u8 y.
Proof.
  intros -> -> -> Hu.
  destruct (memmove_concat (R := R) A B C (D ++ E) 0) as (J & D' & Hm & HJ & HD & HlJ & HlD);
    [lia|rewrite !length_app; lia|].
  assert (J = []) as -> by (destruct J; [done|simpl in HlJ; lia]).
  exists (drop (length C) (B ++ C ++ D)). split_and!.
  - rewrite Z.add_0_r in Hm. rewrite Hm, HD. cbn [app Z.to_nat Nat.add].
    replace (B ++ C ++ D ++ E) with ((B ++ C ++ D) ++ E) by (by rewrite <- !app_assoc).
    rewrite drop_app_le; [done|rewrite !length_app; lia].
  - rewrite length_drop, !length_app. lia.
  - by apply Forall_drop.
Qed.

(** Reading a word of a header in front of anything. *)
Lemma reading_words {R} ws k v rest :
  ws !! k = Some v -> is_u32 v ->
  reading (fun b => fdt32 (R := R) b (4 * Z.of_nat k)) (be_words ws ++ rest) = (Go v, be_words ws ++ rest).
Proof. intros Hk Hv. unfold reading. munfold. by apply fdt32_word, word_words. Qed.

Section Pack.
Context {R : Type} (i : image) (rs : list (Z * Z)).
Context (Hi : image_ok i) (Hrs : reserves i rs).

Definition rsv_size : Z := 16 * zlen rs + 16.

Lemma reserve_bounds : 0 < rsv_size /\ im_rsvmap i + rsv_size <= im_off i.
Proof.
  destruct Hrs as (_ & g0 & g1 & Hf & Hm). unfold rsv_size. split; [lia|].
  rewrite Hm. unfold im_off. rewrite Hf, !length_app, !Nat2Z.inj_add, length_rsv_bytes. lia.
Qed.

Lemma num_rsv_run : fdt_num_mem_rsv (R := R) (render i) = (Go (zlen rs), render i).
Proof.
  destruct Hrs as (Hok & g0 & g1 & Hf & Hm). unfold fdt_num_mem_rsv.
  rewrite (bind_go _ _ _ _ _ (read_rsvmap i Hi)). erewrite bind_go by reflexivity.
  assert (He : render i = (be_words (header i) ++ g0) ++ rsv_bytes rs ++
    (g1 ++ im_block i ++ im_gap i ++ im_tab i ++ im_tail i))
    by (unfold render, body; rewrite Hf; by rewrite <- !app_assoc).
  pose proof (num_rsv_loop (R := R) (fdt_rounds (render i)) (be_words (header i) ++ g0) rs
    (g1 ++ im_block i ++ im_gap i ++ im_tab i ++ im_tail i) 0 (render i) Hok) as Hn.
  rewrite <- He in Hn. rewrite length_app, length_be_words in Hn. simpl length in Hn.
  replace (im_rsvmap i) with (Z.of_nat (40 + length g0) - 16 * 0) by lia. apply Hn.
  pose proof (length_render i) as Hl. pose proof reserve_bounds. unfold fdt_rounds, rsv_size in *. im_lia.
Qed.

Lemma rsv_size_run : s32 ((zlen rs + 1) * FDT_RESERVE_SIZE) = rsv_size.
Proof.
  pose proof reserve_bounds. unfold rsv_size, FDT_RESERVE_SIZE in *. rewrite s32_small; [lia|].
  destruct Hi. im_lia.
Qed.

(** ** More room *)

Definition with_total (t : Z) : image :=
  mkImage t (im_rsvmap i) (im_last i) (im_cpu i) (im_front i) (im_block i) (im_gap i) (im_tab i) (im_tail i).

Lemma with_total_ok t :
  im_total i <= t <= 2 ^ 31 - 4 -> t <= zlen (render i) -> image_ok (with_total t).
Proof.
  intros Ht Hl. rewrite length_render in Hl.
  destruct Hi. split; unfold body in *; unfold room, im_end, im_offs, im_off in *;
    cbn [im_total im_rsvmap im_last im_cpu im_front im_block im_gap im_tab im_tail with_total] in *; try done; lia.
Qed.

Lemma open_into_run t :
  im_total i <= t <= 2 ^ 31 - 4 -> t <= zlen (render i) ->
  fdt_open_into (R := R) t (render i) = (Go 0, render (with_total t)).
Proof.
  intros Ht Hl. pose proof reserve_bounds as [Hp Hb]. unfold fdt_open_into.
  rewrite (bind_go _ _ _ _ _ (read_total i Hi)), (bind_go _ _ _ _ _ (render_check i Hi)). cbn [negb Z.eqb].
  rewrite (bind_go _ _ _ _ _ num_rsv_run), rsv_size_run.
  rewrite (bind_go _ _ _ _ _ (read_version i Hi)). change (17 >=? 17) with true. cbn iota.
  rewrite bind_assoc, (bind_go _ _ _ _ _ (read_size_struct i Hi)). erewrite bind_go by reflexivity.
  change (17 <? 17) with false. cbn [andb]. rewrite s32_small by (destruct Hi; im_lia).
  assert (Hm : fdt_blocks_misordered (R := R) rsv_size (zlen (im_block i)) (render i) = (Go false, render i)).
  { unfold fdt_blocks_misordered, FDT_HEADER_ALIGNED.
    rewrite (bind_go _ _ _ _ _ (read_rsvmap i Hi)), (bind_go _ _ _ _ _ (read_off i Hi)),
      (bind_go _ _ _ _ _ (read_offs i Hi)), (bind_go _ _ _ _ _ (read_size_strings i Hi)),
      (bind_go _ _ _ _ _ (read_total i Hi)).
    destruct Hi. rewrite !u32_small by im_lia. by rewrite !(proj2 (Z.ltb_ge _ _)) by im_lia. }
  rewrite (bind_go _ _ _ _ _ Hm). cbn [negb]. unfold fdt_move. rewrite bind_assoc.
  rewrite (bind_go _ _ _ _ _ (render_check i Hi)). cbn [negb Z.eqb].
  rewrite bind_assoc, (bind_go _ _ _ _ _ (read_total i Hi)).
  assert (H0 : 0 <= im_total i) by (destruct Hi; im_lia).
  rewrite u32_small, Z.gtb_ltb, (proj2 (Z.ltb_ge _ _)) by lia.
  rewrite bind_assoc, (bind_go _ _ _ _ _ (read_total i Hi)), bind_assoc.
  assert (Hmv : memmove (R := R) 0 0 (im_total i) (render i) = (Go tt, render i)).
  { destruct (buf_read_in_range (render i) 0 (im_total i)) as (d & Hd & _);
      [lia|done|rewrite length_render; destruct Hi; im_lia|].
    unfold memmove, store. munfold. rewrite Hd. by rewrite (buf_write_read_same _ _ _ _ Hd). }
  rewrite (bind_go _ _ _ _ _ Hmv). erewrite bind_go by reflexivity. cbn [negb Z.eqb].
  unfold render at 1, header.
  erewrite bind_go by exact (store32_words [FDT_MAGIC; im_total i; im_off i; im_offs i; im_rsvmap i; 17;
    im_last i; im_cpu i; zlen (im_tab i); zlen (im_block i)] 5 17 17 (body i) eq_refl). cbn [insert list_insert].
  erewrite bind_go by exact (store32_words [FDT_MAGIC; im_total i; im_off i; im_offs i; im_rsvmap i; 17;
    im_last i; im_cpu i; zlen (im_tab i); zlen (im_block i)] 9 _ _ (body i) eq_refl). cbn [insert list_insert].
  erewrite bind_go by exact (store32_words [FDT_MAGIC; im_total i; im_off i; im_offs i; im_rsvmap i; 17;
    im_last i; im_cpu i; zlen (im_tab i); zlen (im_block i)] 1 t _ (body i) eq_refl).
  reflexivity.
Qed.
(** ** No room left *)

Definition packed (tail : list Z) : image :=
  mkImage (40 + rsv_size + zlen (im_block i) + zlen (im_tab i)) 40 (im_last i) (im_cpu i)
    (rsv_bytes rs) (im_block i) [] (im_tab i) tail.

Lemma packblocks_run g0 g1 :
  im_front i = g0 ++ rsv_bytes rs ++ g1 -> im_rsvmap i = 40 + zlen g0 ->
  exists tail, fdt_packblocks (R := R) 0 rsv_size (zlen (im_block i)) (render i) =
    (Go tt, be_words [FDT_MAGIC; im_total i; 40 + rsv_size; 40 + rsv_size + zlen (im_block i); 40; 17;
       im_last i; im_cpu i; zlen (im_tab i); zlen (im_block i)] ++
     rsv_bytes rs ++ im_block i ++ im_tab i ++ tail) /\ Forall is_u8 tail /\
    zlen tail = zlen (im_tail i) + zlen g0 + zlen g1 + zlen (im_gap i).
Proof.
  intros Hf Hm. pose proof reserve_bounds as [Hp Hb].
  assert (Hlr : zlen (rsv_bytes rs) = rsv_size) by apply length_rsv_bytes.
  pose proof (io_u8 i Hi) as Hu. unfold body in Hu. rewrite Hf, !Forall_app in Hu.
  assert (Hoff : im_off i = 40 + zlen g0 + rsv_size + zlen g1) by (unfold im_off; rewrite Hf, !length_app; lia).
  assert (Htot : im_offs i + zlen (im_tab i) <= 2 ^ 31 - 4) by (destruct Hi; im_lia).
  assert (Hoffs : im_offs i = im_off i + zlen (im_block i) + zlen (im_gap i)) by done.
  set (rest := im_block i ++ im_gap i ++ im_tab i ++ im_tail i).
  assert (Hr0 : render i = be_words (header i) ++ g0 ++ rsv_bytes rs ++ g1 ++ rest)
    by (unfold render, body; rewrite Hf; by rewrite <- !app_assoc).
  unfold fdt_packblocks, FDT_HEADER_ALIGNED. rewrite !Z.add_0_l, (u32_small (40 + rsv_size)), u32_small by lia.
  rewrite Hr0. unfold header.
  erewrite bind_go by (apply (reading_words _ 4); [reflexivity|unfold is_u32; lia]).
  destruct (memmove_down (R := R) (be_words (header i)) g0 (rsv_bytes rs) g1 rest 40 (im_rsvmap i) rsv_size)
    as (y1 & Hm1 & Hl1 & Hu1); [done|rewrite Hm; done|done|rewrite !Forall_app; tauto|].
  unfold header in Hm1. rewrite (bind_go _ _ _ _ _ Hm1).
  erewrite bind_go by (refine (store32_words _ 4 40 _ _ _); reflexivity). cbn [insert list_insert].
  erewrite bind_go by (apply (reading_words _ 2); [reflexivity|unfold is_u32; lia]).
  match goal with |- context [be_words ?ws ++ _] =>
    destruct (memmove_down (R := R) (be_words ws ++ rsv_bytes rs) y1 (im_block i) (im_gap i) (im_tab i ++ im_tail i)
      (40 + rsv_size) (im_off i) (zlen (im_block i))) as (y2 & Hm2 & Hl2 & Hu2) end;
    [rewrite length_app, length_be_words; cbn [length]; lia|rewrite length_app, length_be_words; cbn [length]; lia|done
    |rewrite !Forall_app; tauto|].
  unfold rest at 1. rewrite <- app_assoc in Hm2. rewrite (bind_go _ _ _ _ _ Hm2). rewrite <- app_assoc.
  erewrite bind_go by (refine (store32_words _ 2 (40 + rsv_size) _ _ _); reflexivity). cbn [insert list_insert].
  erewrite bind_go by (refine (store32_words _ 9 (zlen (im_block i)) _ _ _); reflexivity). cbn [insert list_insert].
  erewrite bind_go by (apply (reading_words _ 3); [reflexivity|unfold is_u32; lia]).
  erewrite bind_go by (apply (reading_words _ 8); [reflexivity|unfold is_u32; lia]).
  match goal with |- context [be_words ?ws ++ _] =>
    destruct (memmove_down (R := R) (be_words ws ++ rsv_bytes rs ++ im_block i) y2 (im_tab i) [] (im_tail i)
      (40 + rsv_size + zlen (im_block i)) (im_offs i) (zlen (im_tab i))) as (y3 & Hm3 & Hl3 & Hu3) end;
    [rewrite !length_app, length_be_words; cbn [length]; lia|rewrite !length_app, length_be_words; cbn [length]; lia|done
    |rewrite app_nil_r, Forall_app; tauto|].
  rewrite <- !app_assoc in Hm3. cbn [app] in Hm3. rewrite (bind_go _ _ _ _ _ Hm3).
  erewrite bind_go by (refine (store32_words _ 3 (40 + rsv_size + zlen (im_block i)) _ _ _); reflexivity). cbn [insert list_insert].
  erewrite bind_go by (apply (reading_words _ 8); [reflexivity|unfold is_u32; lia]).
  exists (y3 ++ im_tail i). split_and!.
  - refine (store32_words _ 8 (zlen (im_tab i)) _ _ _). reflexivity.
  - apply Forall_app. tauto.
  - rewrite length_app. cbn [length] in *. lia.
Qed.

Lemma packed_ok tail :
  Forall is_u8 tail -> image_ok (packed tail).
Proof.
  intros Ht. pose proof reserve_bounds as [Hp Hb]. pose proof (io_u8 i Hi) as Hu. unfold body in Hu.
  rewrite !Forall_app in Hu. assert (Hlr : zlen (rsv_bytes rs) = rsv_size) by apply length_rsv_bytes.
  destruct Hi. split; unfold body, room, im_end, im_offs, im_off in *;
    cbn [im_total im_rsvmap im_last im_cpu im_front im_block im_gap im_tab im_tail packed length] in *; try done;
    try (pose proof (zlen_nonneg (im_gap i)); lia).
  - cbn [app]. rewrite !Forall_app. pose proof (rsv_u8 rs). tauto.
  - unfold rsv_size in *. lia.
Qed.

Lemma pack_run :
  exists tail, fdt_pack (R := R) (render i) = (Go 0, render (packed tail)) /\ image_ok (packed tail) /\
    zlen (render (packed tail)) = zlen (render i).
Proof.
  destruct Hrs as (Hok & g0 & g1 & Hf & Hm). destruct (packblocks_run g0 g1 Hf Hm) as (tail & Hpb & Hut & Hlt).
  pose proof reserve_bounds as [Hp Hb]. exists tail. pose proof (packed_ok tail Hut) as Hpok.
  assert (Hlr : zlen (rsv_bytes rs) = rsv_size) by apply length_rsv_bytes.
  assert (Hend : im_end i <= 2 ^ 31 - 4) by (destruct Hi; im_lia).
  split_and!; [|done|].
  - unfold fdt_pack. rewrite (rw_checked_run i Hi), (bind_go _ _ _ _ _ num_rsv_run), rsv_size_run.
    rewrite (bind_go _ _ _ _ _ (read_size_struct i Hi)), s32_small by im_lia.
    rewrite (bind_go _ _ _ _ _ Hpb). unfold fdt_data_size. rewrite bind_assoc.
    erewrite bind_go by (apply (reading_words _ 3); [reflexivity|im_lia]). rewrite bind_assoc.
    erewrite bind_go by (apply (reading_words _ 8); [reflexivity|im_lia]).
    erewrite bind_go by reflexivity. rewrite s32_small by im_lia.
    erewrite bind_go by (refine (store32_words _ 1 (40 + rsv_size + zlen (im_block i) + zlen (im_tab i)) _ _ _); reflexivity).
    cbn [insert list_insert]. unfold render, header, body, im_offs, im_off.
    cbn [im_total im_rsvmap im_last im_cpu im_front im_block im_gap im_tab im_tail packed length app].
    by rewrite Hlr, Z.add_0_r.
  - rewrite !length_render. unfold im_end, im_offs, im_off.
    cbn [im_total im_rsvmap im_last im_cpu im_front im_block im_gap im_tab im_tail packed length app].
    rewrite Hf, !length_app. lia.
Qed.
End Pack.

(** A tree in an image is in every image with the same block and strings. *)
Lemma image_of_same i i' toks :
  image_of i toks -> image_ok i' -> im_block i' = im_block i -> im_tab i' = im_tab i -> image_of i' toks.
Proof. intros [? ? ? ?] Hok Hb Ht. split; [done|by rewrite Hb|done|by rewrite Ht]. Qed.
