(* ===== verification/FdtUpdate.v ===== *)
(** Changing the tree while the list of first-level nodes is kept up to date
    ([QcomModulePkg/Library/BootLib/FdtRw.c], the macro [FdtPropUpdateFunc] of
    [Include/Library/FdtRw.h]).

    The state is the blob, the list, and what the update of the tree remembers
    from call to call: whether [dev_tree_add_mem_info] and
    [dev_tree_add_mem_infoV64] have been called, and how many random numbers
    were asked for. *)
From Stdlib Require Import ZArith Lia.
From stdpp Require Import base list numbers option.
From S2P Require Import Prelude EfiBase Fdt FdtSpec FdtRw FdtWrite.

Record DtState := mkDtState {
  dt_blob : list Z;
  dt_nodes : list FDT_FIRST_LEVEL_NODE;
  mem_info_cnt : bool;
  mem_info_cntV64 : bool;
  dt_seeds : nat;
}.

Abbreviation MD := (M DtState).

Section FdtUpdate.
Context {R : Type}.
Variable pool : Z -> bool.

(** A function of [fdt_rw.c], and one of [FdtRw.c] or a reader. *)
Definition on_blob {A} (m : M (list Z) R A) : MD R A := fun s =>
  let r := m (dt_blob s) in
  (r.1, mkDtState r.2 (dt_nodes s) (mem_info_cnt s) (mem_info_cntV64 s) (dt_seeds s)).
Definition on_nodes {A} (m : list Z -> M (list FDT_FIRST_LEVEL_NODE) R A) : MD R A := fun s =>
  let r := m (dt_blob s) (dt_nodes s) in
  (r.1, mkDtState (dt_blob s) r.2 (mem_info_cnt s) (mem_info_cntV64 s) (dt_seeds s)).

(** The new length, as the list takes it: a property that had none before is
    taken for a new one. *)
Definition new_length (OldLen NewLen : Z) : Z :=
  if (OldLen =? 0) && negb (NewLen =? 0) then s32 (FDT_PROPERTY_SIZE + FDT_TAGALIGN NewLen) else NewLen.

Definition FdtPropUpdateFunc (Offset : Z) (Name : list Z) (Update : M (list Z) R Z) : MD R Z :=
  if EnableNewNodeSearchFuc then
    OldLen ← on_nodes (fun b => FdtGetPropLen b Offset Name);
    RetValue ← on_blob Update;
    if RetValue =? 0 then
      NewLen ← on_nodes (fun b => FdtGetPropLen b Offset Name);
      on_nodes (fun _ => FdtUpdateNodeOffsetInList Offset
        (s32 (FDT_TAGALIGN (new_length OldLen NewLen) - FDT_TAGALIGN OldLen)));;
      mret RetValue
    else mret RetValue
  else on_blob Update.

Definition FdtSetProp (Offset : Z) (Name Val : list Z) (Len : Z) : MD R Z :=
  if EnableNewNodeSearchFuc then
    OldLen ← on_nodes (fun b => FdtGetPropLen b Offset Name);
    Ret ← on_blob (fdt_setprop Offset Name Val Len);
    if Ret =? 0 then
      NewLen ← on_nodes (fun b => FdtGetPropLen b Offset Name);
      on_nodes (fun _ => FdtUpdateNodeOffsetInList Offset
        (s32 (FDT_TAGALIGN (new_length OldLen NewLen) - FDT_TAGALIGN OldLen)));;
      mret Ret
    else mret Ret
  else on_blob (fdt_setprop Offset Name Val Len).

(** The name goes on the list whatever came of the node. *)
Definition FdtAddSubnode (ParentOffset : Z) (Name : list Z) : MD R Z :=
  Offset ← on_blob (fdt_add_subnode_namelen ParentOffset Name (AsciiStrLen Name));
  (if EnableNewNodeSearchFuc then
     (if Offset >? 0 then
        let NewLen := s32 (FDT_NODE_HEADER_SIZE + FDT_TAGALIGN (s32 (AsciiStrLen Name + 1)) + FDT_TAGSIZE) in
        on_nodes (fun _ => FdtUpdateNodeOffsetInList Offset (s32 (FDT_TAGALIGN NewLen - FDT_TAGALIGN 0)))
      else mret tt);;
     on_nodes (fun _ => FdtAddToNodeList pool Name Offset)
   else mret tt);;
  mret Offset.
End FdtUpdate.
