(* ===== verification/FdtUpdateSpec.v ===== *)
(** What an update does to the values of a node, to the rest of the tree and to
    the list of first-level nodes. *)
From Stdlib Require Import ZArith Lia.
From stdpp Require Import base list numbers option sets sorting.
From S2P Require Import Prelude EfiBase Fdt FdtSpec FdtTree FdtRw FdtRwSpec FdtWrite FdtImage FdtProps FdtSet FdtUpdate.

(** The value of a property of a node of the tree in an image. *)
Definition value (i : image) (n : dnode) (q : list Z) : option (list Z) :=
  lookup_prop (names i) (node_props n) q.

(** ** Values after an update *)

Lemma lookup_same strs strs' ps q :
  (forall p, p ∈ ps -> strs' p.1 = strs p.1) -> lookup_prop strs' ps q = lookup_prop strs ps q.
Proof.
  induction ps as [|p ps IH]; intros H; [done|]. cbn [lookup_prop].
  rewrite (H p) by apply list_elem_of_here. case_bool_decide; [done|].
  apply IH. intros p' Hp'. apply H. by apply list_elem_of_further.
Qed.

Lemma lookup_app strs ps1 ps2 q :
  lookup_prop strs (ps1 ++ ps2) q =
  match lookup_prop strs ps1 q with Some v => Some v | None => lookup_prop strs ps2 q end.
Proof. induction ps1 as [|p ps1 IH]; [done|]. cbn [lookup_prop app]. by case_bool_decide. Qed.

Lemma split_before strs ps q ps1 p ps2 :
  split_prop strs ps q = Some (ps1, p, ps2) -> lookup_prop strs ps1 q = None.
Proof.
  revert ps1. induction ps as [|p' ps IH]; intros ps1; cbn [split_prop]; [done|].
  case_bool_decide as E; [by intros [= <- _ _]|].
  intros ([[x1 x2] x3] & Hx & [= -> -> ->])%fmap_Some. cbn [fst snd lookup_prop] in *.
  rewrite bool_decide_false by done. by apply IH.
Qed.

Lemma lookup_update strs ps q f o v q' :
  (split_prop strs ps q = None -> strs o = q) ->
  lookup_prop strs (update_prop strs ps q f o v) q' =
  if bool_decide (q' = q) then Some (match lookup_prop strs ps q with Some old => f old | None => v end)
  else lookup_prop strs ps q'.
Proof.
  intros Ho. unfold update_prop. rewrite (lookup_split strs ps q).
  destruct (split_prop strs ps q) as [[[ps1 p] ps2]|] eqn:E.
  - destruct (split_prop_app _ _ _ _ _ _ E) as [-> Hq]. pose proof (split_before _ _ _ _ _ _ E) as Hb.
    rewrite !lookup_app. cbn [lookup_prop fmap option_fmap option_map fst snd]. rewrite Hq.
    destruct (decide (q' = q)) as [->|Hd]; [by rewrite Hb, !bool_decide_true|].
    rewrite !bool_decide_false by congruence. done.
  - cbn [lookup_prop fmap option_fmap option_map fst snd]. rewrite (Ho eq_refl).
    case_bool_decide as Hd; case_bool_decide as Hd'; try done; congruence.
Qed.

(** The names of the old properties are the same in an image that extends it. *)
Lemma names_extends i i' pre n suf :
  image_of i (pre ++ flatten n ++ suf) -> extends i i' ->
  forall p, p ∈ node_props n -> names i' p.1 = names i p.1.
Proof.
  intros Hi Hex p Hp. destruct (ex_tab _ _ Hex) as [new Hnew]. unfold names. rewrite Hnew.
  apply named_grow, (if_names _ _ Hi p.1 p.2). apply prop_elem in Hp.
  destruct n. cbn [flatten node_props] in *. rewrite !elem_of_app, elem_of_cons, !elem_of_app. tauto.
Qed.

Lemma split_same strs strs' ps q :
  (forall p, p ∈ ps -> strs' p.1 = strs p.1) -> split_prop strs' ps q = split_prop strs ps q.
Proof.
  induction ps as [|p ps IH]; intros H; [done|]. cbn [split_prop].
  rewrite (H p) by apply list_elem_of_here. case_bool_decide; [done|].
  rewrite IH; [done|]. intros p' Hp'. apply H. by apply list_elem_of_further.
Qed.

(** A node whose properties named in [qs] may have changed; the rest of the
    tree is as it was. *)
Record changed (i : image) (pre : list tok) (n : dnode) (suf : list tok) (qs : list (list Z))
    (i' : image) (n' : dnode) : Prop := {
  ch_image : image_of i' (pre ++ flatten n' ++ suf);
  ch_name : node_name n' = node_name n;
  ch_children : node_children n' = node_children n;
  ch_extends : extends i i';
  ch_values : forall q, q ∉ qs -> value i' n' q = value i n q;
}.

Lemma changed_refl i pre n suf : image_of i (pre ++ flatten n ++ suf) -> changed i pre n suf [] i n.
Proof. by split. Qed.

Lemma changed_trans i pre n suf qs i1 n1 qs' i2 n2 :
  changed i pre n suf qs i1 n1 -> changed i1 pre n1 suf qs' i2 n2 -> changed i pre n suf (qs ++ qs') i2 n2.
Proof.
  intros [? ? ? ? H1] [? ? ? ? H2]. split; [done|congruence|congruence|by etrans|].
  intros q Hq. rewrite H2, H1; [done|set_solver..].
Qed.

Lemma updated_changed i pre n suf q f v i' :
  image_of i (pre ++ flatten n ++ suf) -> updated i pre n suf q f v 0 i' ->
  exists o, let n' := with_props n (update_prop (names i) (node_props n) q f o v) in changed i pre n suf [q] i' n' /\
    value i' n' q = Some (match value i n q with Some old => f old | None => v end) /\
    room i - update_need (names i) (node_props n) q f v <= room i'.
Proof.
  intros Hi (Hex & [(_ & Hroom & o & Ho & Hi')|(Hc & _)]); [|done].
  pose proof (names_extends _ _ _ _ _ Hi Hex) as Hn.
  exists o. cbn zeta. split; [|split; [|exact Hroom]].
  - split; [exact Hi'|done|done|done|]. intros q' Hq'. unfold value. cbn [with_props node_props].
    unfold update_prop. rewrite <- (split_same _ _ _ _ Hn).
    change (lookup_prop (names i') (update_prop (names i') (node_props n) q f o v) q' =
      lookup_prop (names i) (node_props n) q').
    rewrite lookup_update by (intros _; by apply tab_str_name).
    rewrite bool_decide_false by set_solver. by apply lookup_same.
  - unfold value. cbn [with_props node_props]. unfold update_prop. rewrite <- (split_same _ _ _ _ Hn).
    change (lookup_prop (names i') (update_prop (names i') (node_props n) q f o v) q =
      Some (match lookup_prop (names i) (node_props n) q with Some old => f old | None => v end)).
    rewrite lookup_update by (intros _; by apply tab_str_name).
    rewrite bool_decide_true by done. by rewrite (lookup_same _ _ _ _ Hn).
Qed.

(** The value as [fdt_getprop] finds it. *)
Lemma getprop_value {R S} i pre n suf q v (s : S) :
  image_of i (pre ++ flatten n ++ suf) -> Forall (fun c => c <> 0) q -> value i n q = Some v ->
  exists p, fdt_getprop (R := R) (render i) (pos pre) q s = (Go (Some p, zlen v), s) /\
    buf_read (render i) p (zlen v) = Some v.
Proof.
  intros Hi Hq Hv. destruct (getprop_at (R := R) (render i) (im_off i) _ (im_total i) 17 (image_toks _ _ Hi)
    (if_toks _ _ Hi) (names i) pre suf n q s eq_refl (image_props _ _ _ _ Hi) Hq) as (r & Hr & Hf).
  unfold value in Hv. rewrite Hv in Hf. destruct Hf as (p & -> & Hp). by exists p.
Qed.

(** What an update needs at most. *)
Lemma need_set strs ps q v :
  update_need strs ps q (fun _ => v) v <= zlen q + 1 + FDT_PROPERTY_SIZE + align4 (zlen v).
Proof.
  unfold update_need. destruct (split_prop strs ps q) as [[[ps1 p] ps2]|]; [|lia].
  pose proof (align4_bounds (zlen p.2)). unfold FDT_PROPERTY_SIZE. lia.
Qed.

Lemma align4_add_le a b : align4 (a + b) <= align4 a + align4 b.
Proof.
  destruct (align4_divide a) as [k Hk], (align4_divide b) as [l Hl], (align4_divide (a + b)) as [m Hm].
  pose proof (align4_bounds a). pose proof (align4_bounds b). pose proof (align4_bounds (a + b)). lia.
Qed.

(** ** The list of first-level nodes *)

(** A place in the tags around the properties of a node: at most at the node, or
    behind its properties. *)
Definition place : Type := list tok + list tok.
Definition head (pre : list tok) (n : dnode) : list tok :=
  pre ++ TBegin (node_name n) :: prop_toks (node_props n).
Definition rest (n : dnode) (suf : list tok) : list tok :=
  flatten_all (node_children n) ++ TEndNode :: suf.
Definition place_ok (pre : list tok) (n : dnode) (suf : list tok) (p : place) : Prop :=
  match p with
  | inl a => exists b, pre = a ++ b
  | inr x => exists y, rest n suf = x ++ y
  end.
Definition place_pos (pre : list tok) (n : dnode) (p : place) : Z :=
  match p with inl a => pos a | inr x => pos (head pre n ++ x) end.

(** The list with the nodes at some places. *)
Definition listing (pre : list tok) (n : dnode) (marks : list (list Z * place)) :
    list FDT_FIRST_LEVEL_NODE := map (fun m => mkFirst m.1 (place_pos pre n m.2)) marks.

Lemma head_rest pre n suf : pre ++ flatten n ++ suf = head pre n ++ rest n suf.
Proof.
  rewrite (flatten_props n pre suf (node_props n) [] (eq_sym (app_nil_r _))).
  unfold head, rest. cbn [prop_toks map app]. by rewrite <- !app_assoc.
Qed.

Lemma pos_prop_toks_cons o v ps : pos (prop_toks ((o, v) :: ps)) = 12 + align4 (zlen v) + pos (prop_toks ps).
Proof.
  change (prop_toks ((o, v) :: ps)) with ([TProp o v] ++ prop_toks ps).
  rewrite pos_app. f_equal. unfold pos, enc. cbn [map mjoin list_join]. rewrite app_nil_r.
  unfold enc_tok, tok_body. rewrite !length_app, !length_be_put, !Nat2Z.inj_add, length_pad4. lia.
Qed.

Lemma pos_prop_toks_app ps1 ps2 : pos (prop_toks (ps1 ++ ps2)) = pos (prop_toks ps1) + pos (prop_toks ps2).
Proof. unfold prop_toks. by rewrite map_app, pos_app. Qed.

(** How far the update moves what is behind the properties. *)
Definition moved (strs : Z -> list Z) (ps : list (Z * list Z)) (q : list Z) (f : list Z -> list Z) (v : list Z) : Z :=
  match split_prop strs ps q with
  | Some (_, p, _) => align4 (zlen (f p.2)) - align4 (zlen p.2)
  | None => 12 + align4 (zlen v)
  end.

Lemma pos_update strs ps q f o v :
  pos (prop_toks (update_prop strs ps q f o v)) = pos (prop_toks ps) + moved strs ps q f v.
Proof.
  unfold update_prop, moved. destruct (split_prop strs ps q) as [[[ps1 [o' w]] ps2]|] eqn:E.
  - destruct (split_prop_app _ _ _ _ _ _ E) as [-> _]. cbn [fst snd].
    rewrite !pos_prop_toks_app, !pos_prop_toks_cons. lia.
  - rewrite pos_prop_toks_cons. lia.
Qed.

Lemma pos_head pre n : pos (head pre n) = pos pre + pos [TBegin (node_name n)] + pos (prop_toks (node_props n)).
Proof.
  unfold head. change (TBegin (node_name n) :: prop_toks (node_props n)) with
    ([TBegin (node_name n)] ++ prop_toks (node_props n)). rewrite !pos_app. lia.
Qed.

Lemma pos_nonneg ts : 0 <= pos ts.
Proof. apply Zle_0_nat. Qed.

Section ListUpdate.
Context {R : Type} (i : image) (pre : list tok) (n : dnode) (suf : list tok) (q : list Z).
Context (Hi : image_of i (pre ++ flatten n ++ suf)) (Hq : Forall (fun c => c <> 0) q).

(** [FdtGetPropLen]: 0 for no property. *)
Lemma prop_len_run {S} (s : S) :
  (p ← fdt_get_property (render i) (pos pre) q;
   match p.1 with Some _ => mret (if p.2 <? 0 then 0 else p.2) | None => mret 0 end : M S R Z) s =
  (Go (match value i n q with Some v => zlen v | None => 0 end), s).
Proof.
  destruct (get_property_located (R := R) (render i) (im_off i) _ (im_total i) 17 (image_toks _ _ Hi)
    (if_toks _ _ Hi) (names i) pre suf n q s eq_refl (image_props _ _ _ _ Hi) Hq) as (r & Hr & Hl).
  rewrite (bind_go _ _ _ _ _ Hr). unfold located in Hl. rewrite Hl. unfold value. rewrite lookup_split.
  destruct (split_prop (names i) (node_props n) q) as [[[ps1 p] ps2]|]; [|done].
  cbn [fst snd fmap option_fmap option_map]. by rewrite (proj2 (Z.ltb_ge _ _)) by apply Zle_0_nat.
Qed.

Definition len_of (o : option (list Z)) : Z := match o with Some v => zlen v | None => 0 end.

(** The distance the macro computes from the two lengths. *)
Definition distance (OldLen NewLen : Z) : Z :=
  s32 (FDT_TAGALIGN (new_length OldLen NewLen) - FDT_TAGALIGN OldLen).

Lemma get_prop_len_run nl :
  FdtGetPropLen (R := R) (render i) (pos pre) q nl = (Go (len_of (value i n q)), nl).
Proof. unfold FdtGetPropLen. rewrite prop_len_run. by destruct (value i n q). Qed.

(** The state the macro leaves, whatever the outcome. *)
Definition after_update (s : DtState) (c : Z) (i' : image) (old new : Z) : DtState :=
  mkDtState (render i')
    (if c =? 0 then (if distance old new =? 0 then dt_nodes s else shift_nodes (pos pre) (distance old new) (dt_nodes s))
     else dt_nodes s)
    (mem_info_cnt s) (mem_info_cntV64 s) (dt_seeds s).

Lemma prop_update_run s Update c f v i' :
  dt_blob s = render i -> Update (render i) = (Go c, render i') -> updated i pre n suf q f v c i' ->
  FdtPropUpdateFunc (R := R) (pos pre) q Update s =
  (Go c, after_update s c i' (len_of (value i n q))
     (zlen (match value i n q with Some old => f old | None => v end))).
Proof.
  intros Hs Hu Hupd. unfold FdtPropUpdateFunc. cbn [EnableNewNodeSearchFuc].
  erewrite bind_go; cycle 1.
  { unfold on_nodes; cbn beta. rewrite Hs, get_prop_len_run; reflexivity. }
  erewrite bind_go by (unfold on_blob; cbn [dt_blob]; rewrite Hu; reflexivity).
  cbn [dt_blob dt_nodes mem_info_cnt mem_info_cntV64 dt_seeds fst snd]. unfold after_update.
  pose proof Hupd as Hupd'. destruct Hupd as (Hex & [(-> & _)|(-> & _)]); [|done]. cbn [Z.eqb].
  destruct (updated_changed _ _ _ _ _ _ _ _ Hi Hupd') as (o & [Hi' _ _ _ _] & Hval & _).
  set (n' := with_props n (update_prop (names i) (node_props n) q f o v)) in *.
  erewrite bind_go; cycle 1.
  { unfold on_nodes. cbn [dt_blob dt_nodes]. unfold FdtGetPropLen.
    destruct (get_property_located (R := R) (render i') (im_off i') _ (im_total i') 17 (image_toks _ _ Hi')
      (if_toks _ _ Hi') (names i') pre suf n' q (dt_nodes s) eq_refl (image_props _ _ _ _ Hi') Hq) as (r & Hr & Hl).
    rewrite (bind_go _ _ _ _ _ Hr). unfold located in Hl. rewrite Hl. unfold value in Hval.
    rewrite lookup_split in Hval.
    destruct (split_prop (names i') (node_props n') q) as [[[ps1 p] ps2]|]; [|discriminate].
    cbn [fst snd fmap option_fmap option_map] in *. rewrite (proj2 (Z.ltb_ge _ _)) by apply Zle_0_nat.
    injection Hval as ->. reflexivity. }
  cbn [dt_blob dt_nodes mem_info_cnt mem_info_cntV64 dt_seeds fst snd].
  unfold on_nodes, FdtUpdateNodeOffsetInList. fold (distance (len_of (value i n q))
    (zlen (match value i n q with Some old => f old | None => v end))).
  destruct (_ =? 0); munfold; done.
Qed.
End ListUpdate.

(** ** The list stays right *)

Lemma head_bounds i pre n suf x y :
  image_of i (pre ++ flatten n ++ suf) -> rest n suf = x ++ y ->
  pos pre < pos (head pre n ++ x) /\ pos (head pre n ++ x) <= 2 ^ 31 - 4.
Proof.
  intros Hi Hx. pose proof (toks_bounds _ _ _ _ _ (image_toks _ _ Hi)) as [_ Hb].
  rewrite head_rest, Hx, app_assoc, pos_app in Hb. pose proof (pos_nonneg y). pose proof (pos_nonneg x).
  pose proof (pos_nonneg (prop_toks (node_props n))). rewrite pos_app, pos_head in *.
  assert (4 <= pos [TBegin (node_name n)]) by (pose proof (pos_count [TBegin (node_name n)]) as Hc; exact Hc).
  lia.
Qed.

Lemma distance_moved strs ps q f v :
  match split_prop strs ps q with Some (_, p, _) => p.2 <> [] /\ zlen p.2 <= 2 ^ 31 - 32 | None => v <> [] end ->
  zlen (match lookup_prop strs ps q with Some old => f old | None => v end) <= 2 ^ 31 - 32 ->
  distance (len_of (lookup_prop strs ps q)) (zlen (match lookup_prop strs ps q with Some old => f old | None => v end)) =
  moved strs ps q f v.
Proof.
  unfold distance, moved, new_length. rewrite lookup_split.
  destruct (split_prop strs ps q) as [[[ps1 p] ps2]|] eqn:E; cbn [fst snd fmap option_fmap option_map len_of].
  - intros [Hne Hps] Hl. destruct (split_prop_app _ _ _ _ _ _ E) as [-> _].
    rewrite (proj2 (Z.eqb_neq _ _)) by (destruct (p.2); [done|simpl; lia]). cbn [andb].
    pose proof (align4_small (zlen (f p.2)) ltac:(lia)). pose proof (align4_small (zlen p.2) ltac:(lia)).
    rewrite !FDT_TAGALIGN_small by lia. apply s32_id. unfold is_int. lia.
  - intros Hne Hl. cbn [Z.eqb]. rewrite (proj2 (Z.eqb_neq (zlen v) 0)) by (destruct v; [done|simpl; lia]).
    cbn [andb negb]. pose proof (align4_bounds (zlen v)). pose proof (align4_divide (zlen v)) as [k Hk].
    unfold FDT_PROPERTY_SIZE. rewrite (FDT_TAGALIGN_small (zlen v)), (s32_small (12 + align4 (zlen v))) by lia.
    rewrite FDT_TAGALIGN_small by lia. rewrite align4_id by (exists (3 + k); lia).
    replace (FDT_TAGALIGN 0) with 0 by reflexivity. rewrite s32_small by lia. lia.
Qed.

(** The new list is the list of the same nodes where they are now. *)
Lemma listing_moved i pre n suf q f o v i' marks :
  image_of i (pre ++ flatten n ++ suf) ->
  let n' := with_props n (update_prop (names i) (node_props n) q f o v) in
  image_of i' (pre ++ flatten n' ++ suf) ->
  Forall (fun m => place_ok pre n suf m.2) marks -> desc (listing pre n marks) ->
  let d := moved (names i) (node_props n) q f v in
  (if d =? 0 then listing pre n marks else shift_nodes (pos pre) d (listing pre n marks)) = listing pre n' marks.
Proof.
  intros Hi n' Hi' Hm Hd d.
  assert (Hh : pos (head pre n') = pos (head pre n) + d).
  { rewrite !pos_head. cbn [n' with_props node_name node_props]. rewrite pos_update. subst d. lia. }
  assert (Hall : map (shifted (pos pre) d) (listing pre n marks) = listing pre n' marks).
  { unfold listing. rewrite map_map. apply map_ext_Forall. eapply list.Forall_impl; [exact Hm|].
    intros [nm [a|x]] Hok; cbn [place_ok snd fst place_pos] in *; unfold shifted; cbn [NodeOffset NodeName].
    - destruct Hok as [b ->]. rewrite pos_app, Z.gtb_ltb. pose proof (pos_nonneg b).
      by rewrite (proj2 (Z.ltb_ge _ _)) by lia.
    - destruct Hok as [y Hy]. destruct (head_bounds _ _ _ _ _ _ Hi Hy) as [H1 H2].
      assert (Hy' : rest n' suf = x ++ y) by done.
      destruct (head_bounds _ _ _ _ _ _ Hi' Hy') as [H3 H4]. pose proof (pos_nonneg pre).
      rewrite Z.gtb_ltb, (proj2 (Z.ltb_lt _ _)) by lia. f_equal.
      rewrite !pos_app in *. rewrite Hh in *. rewrite s32_small by lia. lia. }
  destruct (Z.eqb_spec d 0) as [Hz|Hz]; [|by rewrite shift_nodes_map].
  unfold listing. apply map_ext. intros [nm [a|x]]; cbn [fst snd place_pos]; [done|].
  rewrite !pos_app, Hh, Hz. by rewrite Z.add_0_r.
Qed.

(** The list of a state names the nodes at some places, from the last one on. *)
Record tracks (pre : list tok) (n : dnode) (suf : list tok) (marks : list (list Z * place)) (s : DtState) : Prop := {
  tr_places : Forall (fun m => place_ok pre n suf m.2) marks;
  tr_nodes : dt_nodes s = listing pre n marks;
  tr_desc : desc (dt_nodes s);
}.

Lemma place_order pre n n' suf p1 p2 :
  place_ok pre n suf p1 -> place_ok pre n suf p2 -> place_pos pre n p2 <= place_pos pre n p1 ->
  place_pos pre n' p2 <= place_pos pre n' p1.
Proof.
  destruct p1 as [a1|x1], p2 as [a2|x2]; cbn [place_ok place_pos]; intros H1 H2; rewrite ?pos_app; [done|..].
  - destruct H1 as [b ->]. rewrite pos_head, pos_app. pose proof (pos_nonneg b). pose proof (pos_nonneg x2).
    pose proof (pos_nonneg (prop_toks (node_props n))).
    pose proof (pos_count [TBegin (node_name n)]) as Hc. cbn [length] in Hc. lia.
  - destruct H2 as [b ->]. rewrite !pos_head, !pos_app. pose proof (pos_nonneg b). pose proof (pos_nonneg x1).
    pose proof (pos_nonneg (prop_toks (node_props n'))). pose proof (pos_nonneg [TBegin (node_name n')]). lia.
  - lia.
Qed.

Lemma listing_desc pre n n' suf marks :
  Forall (fun m => place_ok pre n suf m.2) marks -> desc (listing pre n marks) -> desc (listing pre n' marks).
Proof.
  unfold desc. induction 1 as [|m marks Hm Hms IH]; intros Hd; [constructor|].
  apply StronglySorted_inv in Hd as [Hd Hh]. constructor; [by apply IH|].
  apply list.Forall_forall. intros x Hx.
  change (x ∈ listing pre n' marks) in Hx. apply list_elem_of_fmap in Hx as (m' & -> & Hm').
  pose proof (proj1 (list.Forall_forall _ _) Hms m' Hm') as Hp.
  pose proof (proj1 (list.Forall_forall _ _) Hh _ (list_elem_of_fmap_2 _ _ _ Hm')) as Hlater.
  unfold later in *. cbn [NodeOffset] in *.
  by eapply place_order.
Qed.

(** An update of a property that has a value before and after keeps the list
    right. *)
Lemma update_tracks i pre n suf q f o v i' s marks :
  image_of i (pre ++ flatten n ++ suf) ->
  let n' := with_props n (update_prop (names i) (node_props n) q f o v) in
  image_of i' (pre ++ flatten n' ++ suf) ->
  (forall old, value i n q = Some old -> old <> []) -> v <> [] ->
  zlen (match value i n q with Some old => f old | None => v end) <= 2 ^ 31 - 32 ->
  tracks pre n suf marks s ->
  tracks pre n' suf marks (after_update pre s 0 i' (len_of (value i n q))
    (zlen (match value i n q with Some old => f old | None => v end))).
Proof.
  intros Hi n' Hi' Hold Hv Hl [Hm Hnl Hd]. rewrite Hnl in Hd.
  pose proof (listing_moved i pre n suf q f o v i' marks Hi Hi' Hm Hd) as Hlm. cbn zeta in Hlm. fold n' in Hlm.
  assert (Hnew : dt_nodes (after_update pre s 0 i' (len_of (value i n q))
    (zlen (match value i n q with Some old => f old | None => v end))) = listing pre n' marks).
  { unfold after_update. cbn [dt_nodes Z.eqb]. rewrite Hnl.
    unfold value in *. rewrite (distance_moved (names i) (node_props n) q f v); [exact Hlm| |done].
    rewrite lookup_split in Hold.
    destruct (split_prop (names i) (node_props n) q) as [[[ps1 p] ps2]|] eqn:E; [|done].
    destruct (prop_there i pre n suf Hi _ _ _ _ E) as (_ & _ & _ & _ & Hpl & _).
    split; [|lia]. by apply Hold. }
  split; [exact Hm|exact Hnew|]. rewrite Hnew. by eapply listing_desc.
Qed.
