(* ===== verification/FdtListSpec.v ===== *)
(** The list of first-level nodes across searches: it names the children of
    the root met so far, the last one first, and a search goes on from there.

    The second half is what [fdt_subnode_offset] and [fdt_path_offset] find in a
    tree, and what [FdtPathOffset] answers for a first-level node that is not
    there. *)
From Stdlib Require Import ZArith Lia.
From stdpp Require Import base list numbers option sets sorting.
From S2P Require Import Prelude EfiBase Fdt FdtSpec FdtTree FdtRw FdtRwSpec.

(** The first [k] children of the root. *)
Definition first_nodes (root : dnode) (k : nat) : list FDT_FIRST_LEVEL_NODE :=
  rev (imap (fun j c => mkFirst (node_name c) (child_pos [] root j)) (take k (node_children root))).

(** The names of the first level do not start with the name of a later node,
    and can be told from their end in the blob. *)
Record names_apart (root : dnode) : Prop := {
  na_prefix : forall j j' c c', (j < j')%nat -> node_children root !! j = Some c ->
    node_children root !! j' = Some c' -> ~ node_name c' `prefix_of` node_name c;
  na_chars : forall j c, node_children root !! j = Some c -> Forall (fun x => x <> 0 /\ x <> 123) (node_name c);
}.

(** No other child has a name that starts with the name of the child [i]. *)
Definition alone (root : dnode) (i : nat) (q : list Z) : Prop :=
  forall j c, j <> i -> node_children root !! j = Some c -> ~ q `prefix_of` node_name c.

Lemma elem_first_nodes root k x :
  x ∈ first_nodes root k <->
  exists j c, (j < k)%nat /\ node_children root !! j = Some c /\ x = mkFirst (node_name c) (child_pos [] root j).
Proof.
  unfold first_nodes. rewrite list_elem_of_In, <- in_rev, <- list_elem_of_In.
  rewrite elem_of_lookup_imap. split.
  - intros (j & c & -> & Hj). apply lookup_take_Some in Hj as [Hj Hlt]. by exists j, c.
  - intros (j & c & Hlt & Hj & ->). exists j, c. split; [done|]. by apply lookup_take_Some.
Qed.

Lemma first_nodes_S root k c :
  node_children root !! k = Some c ->
  first_nodes root (S k) = mkFirst (node_name c) (child_pos [] root k) :: first_nodes root k.
Proof.
  intros Hk. unfold first_nodes. rewrite (take_S_r _ _ _ Hk), imap_app, rev_app_distr. cbn [imap rev app].
  rewrite length_take, Nat.min_l, Nat.add_0_r; [done|]. apply lookup_lt_Some in Hk. lia.
Qed.

Lemma child_pos_S root j c :
  node_children root !! j = Some c -> child_pos [] root (S j) = child_pos [] root j + pos (flatten c).
Proof.
  intros Hj. unfold child_pos. rewrite (take_S_r _ _ _ Hj). unfold flatten_all.
  rewrite map_app, join_app. cbn [map mjoin list_join]. rewrite app_nil_r, !app_comm_cons, !app_assoc, (pos_app _ (flatten c)).
  done.
Qed.

Lemma child_pos_lt root j c : node_children root !! j = Some c -> child_pos [] root j < child_pos [] root (S j).
Proof.
  intros Hj. rewrite (child_pos_S _ _ _ Hj). destruct c as [nm ps cs].
  pose proof (pos_count (flatten (DNode nm ps cs))) as Hc. cbn [flatten length] in *. lia.
Qed.

Lemma child_pos_positive root j : 0 < child_pos [] root j.
Proof.
  unfold child_pos. cbn [app]. match goal with |- 0 < pos ?ts => pose proof (pos_count ts) as Hc end.
  cbn [length] in Hc. lia.
Qed.

Lemma first_nodes_below root k x : x ∈ first_nodes root k -> NodeOffset x < child_pos [] root k \/ (length (node_children root) < k)%nat.
Proof.
  rewrite elem_first_nodes. intros (j & c & Hlt & Hj & ->). cbn [NodeOffset].
  destruct (decide (k <= length (node_children root))%nat) as [Hk|]; [left|right; lia].
  induction k as [|k IH]; [lia|].
  destruct (lookup_lt_is_Some_2 (node_children root) k ltac:(lia)) as [ck Hck].
  pose proof (child_pos_lt _ _ _ Hck). destruct (decide (j = k)) as [->|]; [done|].
  specialize (IH ltac:(lia) ltac:(lia)). lia.
Qed.

Lemma first_nodes_desc root k : (k <= length (node_children root))%nat -> desc (first_nodes root k).
Proof.
  unfold desc. induction k as [|k IH]; intros Hk; [constructor|].
  destruct (lookup_lt_is_Some_2 (node_children root) k ltac:(lia)) as [c Hc].
  rewrite (first_nodes_S _ _ _ Hc). constructor; [apply IH; lia|].
  apply list.Forall_forall. intros x Hx. unfold later. cbn [NodeOffset].
  destruct (first_nodes_below _ _ _ Hx); lia.
Qed.

(** ** Adding and finding *)

Lemma cmp_prefix a b extra :
  Forall (fun c => c <> 0) a -> Forall (fun c => c <> 0) b ->
  (AsciiStrnCmp a (b ++ extra) (Z.of_nat (length b)) =? 0) = bool_decide (b `prefix_of` a).
Proof.
  intros Ha Hb. apply eq_true_iff_eq. rewrite Z.eqb_eq, bool_decide_eq_true. unfold AsciiStrnCmp.
  rewrite StrnCmp_eq0 by apply Zle_0_nat.
  assert (Hc : cstr (b ++ extra) = b ++ cstr extra).
  { clear -Hb. induction Hb as [|x b Hx _ IH]; [done|]. simpl. by rewrite (proj2 (Z.eqb_neq x 0)), IH by done. }
  rewrite Hc, (cstr_id a) by done. rewrite Nat2Z.id. change @firstn with @take. rewrite take_app_length. split.
  - intros <-. exists (drop (length b) a). by rewrite take_drop.
  - intros [z ->]. by rewrite take_app_length.
Qed.

Lemma find_unique {A} (f : A -> bool) l x :
  x ∈ l -> f x = true -> (forall y, y ∈ l -> f y = true -> y = x) -> find f l = Some x.
Proof.
  intros Hx Hf Hu. induction l as [|y l IH]; [by apply not_elem_of_nil in Hx|]. simpl.
  destruct (f y) eqn:E; [f_equal; apply Hu; [by left|done]|].
  apply IH; [set_unfold; destruct Hx; [congruence|done]|]. intros z Hz. apply Hu. by right.
Qed.

Lemma find_nothing {A} (f : A -> bool) l : (forall y, y ∈ l -> f y = false) -> find f l = None.
Proof.
  induction l as [|y l IH]; intros H; [done|]. simpl. rewrite (H y) by by left. apply IH. intros z Hz. apply H. by right.
Qed.

Section FirstLevel.
Context {R : Type} (pool : Z -> bool) (Hpool : forall n, pool n = true).
Context (root : dnode) (Hna : names_apart root).

Lemma first_name j c : node_children root !! j = Some c -> Forall (fun x => x <> 0) (node_name c).
Proof. intros Hj. eapply list.Forall_impl; [exact (na_chars _ Hna _ _ Hj)|]. by intros ? []. Qed.

Lemma name_len j c : node_children root !! j = Some c -> GetNodeNameLen (node_name c) = Z.of_nat (length (node_name c)).
Proof.
  intros Hj. unfold GetNodeNameLen. rewrite (cstr_id _ (first_name _ _ Hj)).
  assert (Hm : memchr (node_name c) 123 = None); [|by rewrite Hm].
  pose proof (na_chars _ Hna _ _ Hj) as Hc. clear -Hc. induction Hc as [|x l [_ Hx] Hl IH]; simpl; [done|].
  rewrite (proj2 (Z.eqb_neq x 123)) by done. by rewrite IH.
Qed.

Lemma added_b k c j :
  node_children root !! j = Some c ->
  IsNodeAdded (node_name c) (Z.of_nat (length (node_name c))) (first_nodes root k) = bool_decide (j < k)%nat.
Proof.
  intros Hj. apply eq_true_iff_eq. unfold IsNodeAdded. rewrite existsb_exists, bool_decide_eq_true.
  pose proof (first_name _ _ Hj) as Hn.
  assert (Hcmp : forall a, Forall (fun x => x <> 0) a ->
    (AsciiStrnCmp a (node_name c) (Z.of_nat (length (node_name c))) =? 0) = bool_decide (node_name c `prefix_of` a)).
  { intros a Ha. pose proof (cmp_prefix a (node_name c) [] Ha Hn) as H. by rewrite app_nil_r in H. }
  split.
  - intros (x & (j' & c' & Hlt & Hj' & ->)%list_elem_of_In%elem_first_nodes & Hc). cbn [NodeName] in Hc.
    rewrite Hcmp in Hc by (by eapply first_name). apply bool_decide_eq_true in Hc.
    destruct (decide (j < k)%nat) as [|Hge]; [done|]. exfalso. eapply (na_prefix _ Hna j' j); [lia|done..].
  - intros Hlt. exists (mkFirst (node_name c) (child_pos [] root j)). split.
    + apply list_elem_of_In, elem_first_nodes. by exists j, c.
    + cbn [NodeName]. rewrite Hcmp by done. by apply bool_decide_eq_true.
Qed.

Lemma add_first j c k :
  node_children root !! j = Some c -> (k <= length (node_children root))%nat ->
  FdtAddToNodeList (R := R) pool (node_name c) (child_pos [] root j) (first_nodes root (Nat.max j k)) =
  (Go tt, first_nodes root (Nat.max (S j) k)).
Proof.
  intros Hj Hk. pose proof (lookup_lt_Some _ _ _ Hj) as Hlt. unfold FdtAddToNodeList. rewrite (name_len _ _ Hj).
  erewrite bind_go by reflexivity.
  rewrite (added_b (Nat.max j k) c j Hj).
  destruct (decide (j < k)%nat) as [Hjk|Hjk].
  - rewrite bool_decide_true by lia. by replace (Nat.max (S j) k) with (Nat.max j k) by lia.
  - rewrite bool_decide_false by lia. rewrite !Hpool. cbn [andb]. unfold modify. f_equal.
    replace (Nat.max j k) with j by lia. replace (Nat.max (S j) k) with (S j) by lia.
    rewrite (first_nodes_S _ _ _ Hj), (cstr_id _ (first_name _ _ Hj)), Nat2Z.id, firstn_all.
    pose proof (first_nodes_below root j) as Hb. destruct (first_nodes root j) as [|x l]; [done|].
    cbn [insert_node NodeOffset]. rewrite Z.gtb_ltb, (proj2 (Z.ltb_lt _ _)); [done|].
    destruct (Hb x); [by left|done|lia].
Qed.

(** The head of the list: where a search goes on. *)
Definition last_pos (k : nat) : Z := match k with O => 0 | S k' => child_pos [] root k' end.

Lemma find_first i c q extra k :
  node_children root !! i = Some c -> node_name c = q -> alone root i q -> (k <= length (node_children root))%nat ->
  q <> [] ->
  FdtFindNodeFromList (q ++ 0 :: extra) (Z.of_nat (length q)) (first_nodes root k) =
  if decide (i < k)%nat then (true, child_pos [] root i) else (false, last_pos k).
Proof.
  intros Hi Hc Hal Hk Hne. pose proof (first_name _ _ Hi) as Hq. rewrite Hc in Hq.
  assert (Hfind : find (fun Node => AsciiStrnCmp (NodeName Node) (q ++ 0 :: extra) (Z.of_nat (length q)) =? 0)
    (first_nodes root k) = if decide (i < k)%nat then Some (mkFirst q (child_pos [] root i)) else None).
  { case_decide as Hik.
    - apply find_unique.
      + apply elem_first_nodes. exists i, c. by rewrite Hc.
      + cbn [NodeName]. rewrite cmp_prefix by done. by apply bool_decide_eq_true.
      + intros y (j & c' & Hlt & Hj & ->)%elem_first_nodes Hf. cbn [NodeName] in Hf.
        rewrite cmp_prefix in Hf by (done || by eapply first_name). apply bool_decide_eq_true in Hf.
        destruct (decide (j = i)) as [->|Hji]; [congruence|]. exfalso. by eapply Hal.
    - apply find_nothing. intros y (j & c' & Hlt & Hj & ->)%elem_first_nodes. cbn [NodeName].
      rewrite cmp_prefix by (done || by eapply first_name). apply bool_decide_eq_false. apply (Hal j); [lia|done]. }
  unfold FdtFindNodeFromList. rewrite Hfind. destruct k as [|k].
  - by rewrite decide_False by lia.
  - destruct (lookup_lt_is_Some_2 (node_children root) k ltac:(lia)) as [ck Hck].
    rewrite (first_nodes_S _ _ _ Hck). by case_decide.
Qed.

Lemma alone_matches i q j c :
  alone root i q -> j <> i -> node_children root !! j = Some c -> ~ name_matches (node_name c) q.
Proof.
  intros Hal Hji Hj [Hm|[unit Hm]]; apply (Hal j c Hji Hj); rewrite Hm; [done|by eexists].
Qed.

(** The walk from the [m]th child on, which is the last one on the list or the
    first one of all. *)
Lemma walk_from fdt off toks total version q extra i c m k fuel suf :
  holds_toks fdt off toks total version -> Forall tok_ok toks -> TEnd ∈ suf ->
  Forall (fun c => is_u8 c /\ c <> 0) q -> (64 <= length (q ++ 0%Z :: extra))%nat ->
  toks = TBegin (node_name root) :: prop_toks (node_props root) ++ flatten_all (node_children root) ++ suf ->
  node_children root !! i = Some c -> node_name c = q -> alone root i q ->
  (m <= i)%nat -> (k <= S m)%nat -> (m = O \/ k = S m) -> (length (enc toks) <= fuel)%nat ->
  subnode_scan (R := R) pool fdt fuel (child_pos [] root m) 1 (q ++ 0 :: extra) (Z.of_nat (length q)) 0
    (first_nodes root k) = (Go (child_pos [] root i), first_nodes root (S i)).
Proof.
  intros Hh Hts He Hq Hmem Ht Hi Hc Hal Hmi Hkm Hmk Hf.
  set (pre := TBegin (node_name root) :: prop_toks (node_props root) ++ flatten_all (take m (node_children root))).
  pose proof (lookup_lt_Some _ _ _ Hi) as Hlt.
  assert (Hsplit : flatten_all (node_children root) =
    flatten_all (take m (node_children root)) ++ flatten_all (drop m (node_children root)))
    by (unfold flatten_all; by rewrite <- join_app, <- map_app, take_drop).
  assert (Hcp : forall j, child_pos [] root (m + j) = pos (pre ++ flatten_all (take j (drop m (node_children root))))).
  { intros j. unfold child_pos, pre. rewrite <- take_take_drop. unfold flatten_all. rewrite map_app, join_app.
    simpl. by rewrite <- app_assoc. }
  assert (Hk : (k <= length (node_children root))%nat) by lia.
  pose proof (find_child_lists (R := R) pool fdt off toks total version Hh Hts q (0 :: extra) Hq Hmem
    (drop m (node_children root)) (i - m)%nat c fuel pre suf
    (fun j => first_nodes root (Nat.max (m + j) k))) as Hfind.
  replace (first_nodes root k) with (first_nodes root (Nat.max (m + 0) k)) by (f_equal; lia).
  replace (child_pos [] root m) with (pos pre) by (rewrite <- (Nat.add_0_r m), Hcp; cbn [take]; by rewrite app_nil_r).
  unfold Source, qlen in Hfind. rewrite Hfind; clear Hfind.
  - rewrite <- Hcp. do 3 f_equal; lia.
  - rewrite lookup_drop. by replace (m + (i - m))%nat with i by lia.
  - done.
  - intros j c' Hj Hj'. rewrite lookup_drop in Hj'. eapply alone_matches; [done| |done]. lia.
  - intros j c' Hj Hj'. rewrite lookup_drop in Hj'. rewrite <- Hcp.
    replace (m + S j)%nat with (S (m + j)) by lia. by apply add_first.
  - rewrite Ht, Hsplit. unfold pre. simpl. by rewrite <- !app_assoc.
  - done.
  - assert (Hn : forall cs, (list_sum (map nodes cs) <= length (flatten_all cs))%nat).
    { clear. induction cs as [|c cs IH]; [done|]. unfold flatten_all in *.
      change (list_sum (map nodes (c :: cs))) with (nodes c + list_sum (map nodes cs))%nat.
      change (mjoin (map flatten (c :: cs))) with (flatten c ++ mjoin (map flatten cs)).
      rewrite length_app. pose proof (nodes_toks c). lia. }
    specialize (Hn (drop m (node_children root))). pose proof (pos_count toks) as Hcount.
    assert (length (flatten_all (drop m (node_children root))) <= length toks)%nat
      by (rewrite Ht, Hsplit; cbn [length]; rewrite !length_app; lia).
    unfold pos in Hcount. lia.
Qed.

(** The path of a first-level node, whatever number of them is on the list. *)
Lemma path_offset_first fdt off strs total version q extra i c k :
  tree_blob fdt off root strs total version ->
  Forall (fun c => is_u8 c /\ c <> 0 /\ c <> 47) q -> q <> [] -> (64 <= length (q ++ 0%Z :: extra))%nat ->
  node_children root !! i = Some c -> node_name c = q -> alone root i q ->
  (k <= length (node_children root))%nat ->
  FdtPathOffset (R := R) pool fdt (47 :: q ++ 0 :: extra) (first_nodes root k) =
  (Go (child_pos [] root i), first_nodes root (Nat.max (S i) k)).
Proof.
  intros T Hq Hne Hmem Hi Hc Hal Hk.
  assert (Hq' : Forall (fun c => is_u8 c /\ c <> 0) q)
    by (eapply list.Forall_impl; [exact Hq|by intros ? (?&?&?)]).
  pose proof (child_pos_positive root i) as Hpos.
  pose proof (find_first i c q extra k Hi Hc Hal Hk Hne) as Hfind.
  eapply path_offset_single; [exact T|done|done|lia|].
  unfold FdtSubnodeOffsetNamelen. rewrite (bind_go _ _ _ _ _ (header_checked fdt off root strs total version T _)). cbn [negb Z.eqb].
  erewrite bind_go by reflexivity. rewrite Hfind. case_decide as Hik.
  - by replace (Nat.max (S i) k) with k by lia.
  - replace (Nat.max (S i) k) with (S i) by lia.
    destruct T as [Hh Hts _ _ _ _ _].
    assert (Ht : tree_toks root = TBegin (node_name root) :: prop_toks (node_props root) ++
      flatten_all (node_children root) ++ [TEndNode; TEnd]).
    { unfold tree_toks. rewrite flatten_below. unfold below. simpl. by rewrite <- !app_assoc. }
    assert (Hlen : (length (enc (tree_toks root)) <= length fdt)%nat).
    { destruct Hh as (block & Hb & Hh). pose proof (block_in_fdt _ _ _ _ _ Hh). apply encs_pos in Hb.
      unfold pos in Hb. lia. }
    destruct k as [|k]; cbn [last_pos].
    + cbn [Z.eqb].
      assert (Hroot : tree_toks root = [] ++ TBegin (node_name root) :: (below root ++ [TEnd]))
        by (unfold tree_toks; by rewrite flatten_below).
      pose proof (look_below (R := R) pool fdt off (tree_toks root) total version Hh Hts q (0 :: extra) Hmem
        (length fdt) [] _ _ 0 (first_nodes root 0) Hroot ltac:(set_solver) ltac:(lia) ltac:(lia)) as Hlook.
      change (pos []) with 0 in Hlook. unfold Source, qlen in Hlook. unfold fdt_rounds. rewrite Hlook.
      unfold look, below. rewrite <- !app_assoc, scan_props.
      destruct (node_children root) as [|c0 cs] eqn:Ecs; [done|]. rewrite scan_forest. cbn [fst snd].
      change (0 + 1) with 1. unfold Source, qlen.
      assert (Hcp0 : child_pos [] root 0 = pos (([] ++ [TBegin (node_name root)]) ++ prop_toks (node_props root)))
        by (unfold child_pos; cbn [take app]; by rewrite app_nil_r).
      rewrite <- Hcp0. rewrite <- Ecs in *.
      eapply (walk_from fdt off (tree_toks root)); try done; [set_solver|lia|lia|by left].
    + assert (Hz : child_pos [] root k =? 0 = false) by (apply Z.eqb_neq; pose proof (child_pos_positive root k); lia).
      rewrite Hz. eapply (walk_from fdt off (tree_toks root)); try done; [set_solver|lia|by right|unfold fdt_rounds; lia].
Qed.
End FirstLevel.

(** * Children by name *)

(** The name [q] is the name of a node, or its name without the unit address
    when [q] has none. *)
Definition calls (q name : list Z) : bool :=
  bool_decide (name = q) || (negb (bool_decide (64 ∈ q)) && bool_decide (q ++ [64] `prefix_of` name)).

Lemma memchr_elem l c : is_Some (memchr l c) <-> c ∈ l.
Proof.
  induction l as [|x l IH]; simpl; [split; [by intros []|by intros ?%not_elem_of_nil]|].
  destruct (Z.eqb_spec x c) as [->|Hne].
  - split; [intros _; by left|by eexists].
  - rewrite elem_of_cons, fmap_is_Some, IH. split; [by right|]. by intros [->|].
Qed.

Section Subnode.
Context {S R : Type} (fdt : list Z) (off : Z) (toks : list tok) (total : Z).
Context (H : holds_toks fdt off toks total 17) (Hts : Forall tok_ok toks).
Implicit Types (s : S).

(** A pointer of which not all bytes are in the structure block is [NULL]. *)
Lemma toks_ptr_out o n s :
  0 <= o -> 0 <= n -> pos toks < o + n -> o + n < 2 ^ 32 ->
  fdt_offset_ptr (R := R) fdt o n s = (Go None, s).
Proof.
  intros Ho Hn Hlt Hb. rewrite (fdt_offset_ptr_run _ _ _ _ _ (toks_ok _ _ _ _ _ H)).
  enough (ptr_null total off (pos toks) 17 o n = true) as -> by done.
  unfold ptr_null. rewrite !orb_true_iff, andb_true_iff, orb_true_iff. right. split; [done|right].
  rewrite u32_small by lia. by rewrite Z.gtb_ltb, Z.ltb_lt.
Qed.

Section Name.
Context (q extra : list Z) (Hq : Forall (fun c => is_u8 c /\ c <> 0) q) (Hl : Z.of_nat (length q) < 2 ^ 29).

Let str : list Z := q ++ extra.
Let len : Z := Z.of_nat (length q).

Lemma calls_head name : Forall (fun c => c <> 0) name ->
  forall rest c, take (length q) (name ++ 0 :: rest) = q -> (name ++ 0 :: rest) !! length q = Some c ->
  calls q name = (c =? 0) || (negb (bool_decide (64 ∈ q)) && (c =? 64)).
Proof.
  intros Hn rest c Ht Hc.
  assert (Hle : (length q <= length name)%nat).
  { destruct (decide (length q <= length name)%nat) as [|Hgt]; [done|exfalso].
    assert (H0 : q !! length name = Some 0)
      by (rewrite <- Ht, lookup_take_lt by lia; by rewrite lookup_app_r, Nat.sub_diag by lia).
    rewrite Forall_lookup in Hq. by apply Hq in H0 as []. }
  rewrite take_app_le in Ht by done. pose proof (take_drop (length q) name) as Hsp. rewrite Ht in Hsp.
  set (tl := drop (length q) name) in *.
  assert (Hc' : (tl ++ 0 :: rest) !! 0%nat = Some c)
    by (rewrite <- Hsp, <- app_assoc, lookup_app_r, Nat.sub_diag in Hc by lia; exact Hc).
  unfold calls. rewrite <- Hsp. destruct tl as [|x tl]; simpl in Hc'; injection Hc' as <-.
  - rewrite app_nil_r, bool_decide_true by done. done.
  - assert (Hx : x <> 0).
    { rewrite <- Hsp in Hn. apply list.Forall_app in Hn as [_ Hn]. by inversion Hn. }
    rewrite (bool_decide_false (q ++ x :: tl = q)).
    2:{ intros He. apply (f_equal length) in He. rewrite length_app in He. simpl in He. lia. }
    rewrite (proj2 (Z.eqb_neq x 0)) by done. cbn [orb]. f_equal. apply eq_true_iff_eq.
    rewrite bool_decide_eq_true, Z.eqb_eq. split.
    + intros [z Hz]. rewrite <- app_assoc in Hz. apply app_inv_head in Hz. by injection Hz as ->.
    + intros ->. exists tl. by rewrite <- app_assoc.
Qed.

Lemma calls_short name : calls q name = true -> (length q <= length name)%nat.
Proof.
  unfold calls. rewrite orb_true_iff, andb_true_iff, !bool_decide_eq_true.
  intros [->|[_ [z ->]]]; [done|]. rewrite !length_app. lia.
Qed.

Lemma nodename_eq_at pre name post s :
  toks = pre ++ TBegin name :: post ->
  fdt_nodename_eq (R := R) fdt (pos pre) str len s = (Go (calls q name), s).
Proof.
  intros Ht. pose proof (toks_bounds _ _ _ _ _ H) as [_ Hmax].
  destruct (name_bytes (fun _ => true) _ _ _ _ _ H Hts _ _ _ Ht) as (o & rest & Hb & Ho & Htot & Hn & Hpost).
  assert (Hn0 : Forall (fun c => c <> 0) name) by (eapply list.Forall_impl; [exact Hn|]; by intros ? []).
  assert (0 <= pos pre) by apply Zle_0_nat.
  assert (Hpt : pos pre + 5 <= pos toks) by (rewrite <- Htot, !length_app; cbn [length]; lia).
  assert (Hlen : 0 <= len < 2 ^ 29) by (unfold len; lia).
  unfold fdt_nodename_eq, FDT_TAGSIZE. rewrite s32_small, u32_small by lia.
  destruct (decide (pos pre + 4 + (len + 1) <= pos toks)) as [Hr|Hr]; cycle 1.
  { rewrite (bind_go _ _ _ _ _ (toks_ptr_out (pos pre + 4) (len + 1) s ltac:(lia) ltac:(lia) ltac:(lia) ltac:(lia))).
    destruct (calls q name) eqn:E; [exfalso|done]. apply calls_short in E.
    apply Hr. rewrite <- Htot, !length_app. cbn [length]. lia. }
  rewrite (bind_go _ _ _ _ _ (toks_ptr_in _ _ _ _ _ H (pos pre + 4) (len + 1) s ltac:(lia) ltac:(lia) ltac:(lia))).
  rewrite <- Ho in *. set (text := (name ++ [0]) ++ rest) in *.
  assert (Hlt : (length q < length text)%nat) by (rewrite length_app in Htot; lia).
  destruct (lookup_lt_is_Some_2 text (length q)) as [c Hc]; [done|].
  assert (Hlq : length (take (length q) text) = length q) by (rewrite length_take; lia).
  assert (H1 : buf_read fdt (off + Z.of_nat (length o)) len = Some (take (length q) text)).
  { pose proof (read_part _ _ _ _ _ Hb o (take (length q) text) (drop (length q) text)) as Hp.
    rewrite Hlq in Hp. apply Hp. by rewrite take_drop. }
  assert (H2 : buf_read fdt (off + Z.of_nat (length o) + len) 1 = Some [c]).
  { pose proof (read_part _ _ _ _ _ Hb (o ++ take (length q) text) [c] (drop (Datatypes.S (length q)) text)) as Hp.
    rewrite length_app, Hlq, Nat2Z.inj_add, Z.add_assoc in Hp. apply Hp.
    rewrite <- app_assoc. f_equal. symmetry. by apply take_drop_middle. }
  unfold mem_eq. erewrite bind_go; cycle 1.
  { rewrite H1. unfold str, len. pose proof (buf_read_mid [] q extra) as Hm. cbn [app length] in Hm.
    change (Z.of_nat 0) with 0 in Hm. rewrite Hm. reflexivity. }
  assert (Htext : text = name ++ 0 :: rest) by (unfold text; by rewrite <- app_assoc).
  case_bool_decide as Heq; cbn [negb].
  - erewrite bind_go by (unfold fdt8; munfold; by rewrite H2).
    replace (be_get [c]) with c by (unfold be_get; simpl; by rewrite Z.lor_0_r).
    rewrite Htext in *. rewrite (calls_head name Hn0 rest c Heq Hc).
    destruct (c =? 0); [done|]. cbn [orb]. unfold len, str. rewrite Nat2Z.id, take_app_length.
    by rewrite (bool_decide_ext _ _ (memchr_elem q 64)).
  - destruct (calls q name) eqn:E; [exfalso; apply Heq|done]. unfold calls in E.
    rewrite orb_true_iff, andb_true_iff, !bool_decide_eq_true in E. rewrite Htext.
    destruct E as [->|[_ [z ->]]]; rewrite <- ?app_assoc; apply take_app_length.
Qed.

(** ** The walk over the children *)

Definition sub (fuel : nat) (n : Z * Z) : M S R Z := subnode_loop fdt fuel n.1 n.2 str len.

Lemma sub_other fuel pre name suf d s :
  toks = pre ++ TBegin name :: suf -> TEnd ∈ suf -> d <> 1 -> 0 <= d ->
  subnode_loop (R := R) fdt (Datatypes.S fuel) (pos pre) d str len s = sub fuel (scan (pre ++ [TBegin name]) suf d) s.
Proof.
  intros Ht He Hd H0. cbn [subnode_loop].
  rewrite (proj2 (Z.ltb_ge (pos pre) 0)) by apply Zle_0_nat.
  rewrite (proj2 (Z.ltb_ge d 0)), (proj2 (Z.eqb_neq d 1)) by lia. cbn [orb].
  erewrite bind_go by reflexivity. cbv beta iota.
  by rewrite (bind_go _ _ _ _ _ (next_node_scan _ _ _ _ _ H Hts _ _ _ _ _ Ht He)).
Qed.

Lemma sub_child fuel pre name suf s :
  toks = pre ++ TBegin name :: suf -> TEnd ∈ suf ->
  subnode_loop (R := R) fdt (Datatypes.S fuel) (pos pre) 1 str len s =
  if calls q name then (Go (pos pre), s) else sub fuel (scan (pre ++ [TBegin name]) suf 1) s.
Proof.
  intros Ht He. cbn [subnode_loop]. rewrite (proj2 (Z.ltb_ge (pos pre) 0)) by apply Zle_0_nat.
  cbn [orb Z.ltb Z.eqb Pos.eqb Z.compare]. rewrite (bind_go _ _ _ _ _ (nodename_eq_at _ _ _ _ Ht)).
  destruct (calls q name); [done|].
  by rewrite (bind_go _ _ _ _ _ (next_node_scan _ _ _ _ _ H Hts _ _ _ _ _ Ht He)).
Qed.

(** The first child the name calls. *)
Definition called (cs : list dnode) : option nat :=
  fst <$> list_find (fun c => calls q (node_name c) = true) cs.

Lemma called_cons c cs :
  called (c :: cs) = if calls q (node_name c) then Some O else Datatypes.S <$> called cs.
Proof.
  unfold called. cbn [list_find]. case_decide as E; [by rewrite E|].
  destruct (calls q (node_name c)); [done|]. by destruct (list_find _ cs) as [[? ?]|].
Qed.

Lemma sub_children cs : forall pre suf fuel s,
  toks = pre ++ flatten_all cs ++ TEndNode :: suf -> TEnd ∈ suf -> (list_sum (map nodes cs) < fuel)%nat ->
  sub fuel (scan pre (flatten_all cs ++ TEndNode :: suf) 0) s =
  (Go (match called cs with Some b => pos (pre ++ flatten_all (take b cs)) | None => - FDT_ERR_NOTFOUND end), s).
Proof.
  induction cs as [|c0 cs IH]; intros pre suf fuel s Ht He Hf.
  - destruct fuel as [|fuel]; [lia|]. cbn [flatten_all map mjoin list_join app scan].
    change (0 - 1 <? 0) with true. unfold sub. cbn [fst snd subnode_loop].
    change (0 - 1 <? 0) with true. by rewrite orb_true_r.
  - rewrite scan_forest. change (flatten_all (c0 :: cs)) with (flatten c0 ++ flatten_all cs) in Ht.
    simpl list_sum in Hf. assert (Hn0 : (0 < nodes c0)%nat) by (destruct c0; simpl; lia).
    destruct fuel as [|fuel]; [lia|]. pose proof Ht as Ht'.
    rewrite flatten_below, <- !app_assoc, <- app_comm_cons in Ht'.
    unfold sub at 1. cbn [fst snd]. change (0 + 1) with 1.
    rewrite (sub_child _ _ _ _ _ Ht') by set_solver. rewrite called_cons.
    destruct (calls q (node_name c0)).
    { cbn [take flatten_all map mjoin list_join]. by rewrite app_nil_r. }
    rewrite (subtree_skipped fdt off toks total 17 H Hts (fun f o d => sub f (o, d)) sub
      (fun f p nm sf d s h1 h2 h3 => sub_other f p nm sf d s h1 h2 ltac:(lia) ltac:(lia))
      (fun f o d s _ _ => eq_refl) c0 _ _ _ _ _ ltac:(by rewrite Ht, <- app_assoc)); [|set_solver|lia|lia].
    change (1 - 1) with 0.
    rewrite IH; [|by rewrite Ht, <- !app_assoc|done|lia].
    destruct (called cs) as [b|]; [|done]. cbn [fmap option_fmap option_map take].
    do 3 f_equal. change (flatten_all (c0 :: take b cs)) with (flatten c0 ++ flatten_all (take b cs)).
    by rewrite app_assoc.
Qed.

Lemma subnode_at pre n suf s :
  (forall s, fdt_check_header (R := R) fdt s = (Go 0, s)) ->
  toks = pre ++ flatten n ++ suf -> TEnd ∈ suf ->
  fdt_subnode_offset_namelen (R := R) fdt (pos pre) str len s =
  (Go (match called (node_children n) with Some b => child_pos pre n b | None => - FDT_ERR_NOTFOUND end), s).
Proof.
  intros Hh Ht He. unfold fdt_subnode_offset_namelen. rewrite (bind_go _ _ _ _ _ (Hh s)). cbn [negb Z.eqb].
  pose proof (nodes_toks n) as Hn. pose proof (length_toks_fdt _ _ _ _ _ H) as Hlf.
  rewrite Ht, !length_app in Hlf. rewrite flatten_below, <- app_comm_cons in Ht.
  unfold fdt_rounds. rewrite (sub_other _ _ _ _ 0 s Ht) by (set_solver || lia).
  unfold below in *. rewrite <- !app_assoc, scan_props. cbn [app].
  rewrite sub_children; [|by rewrite Ht, <- !app_assoc|done|destruct n; simpl in *; lia].
  destruct (called (node_children n)) as [b|]; [|done]. unfold child_pos. by rewrite <- !app_assoc.
Qed.
End Name.
End Subnode.

(** * Paths *)

Lemma memchr_none l c : c ∉ l -> memchr l c = None.
Proof. intros Hc. destruct (memchr l c) eqn:E; [|done]. exfalso. apply Hc, memchr_elem. by rewrite E. Qed.

(** The characters of a component of a path. *)
Definition component (q : list Z) : Prop := Forall (fun c => is_u8 c /\ c <> 0 /\ c <> 47) q /\ q <> [].

Lemma component_chars q : component q -> Forall (fun c => is_u8 c /\ c <> 0) q.
Proof. intros [Hq _]. eapply list.Forall_impl; [exact Hq|]. by intros ? (?&?&?). Qed.

Lemma component_head q extra : component q -> drop_slashes (47 :: q ++ extra) = q ++ extra.
Proof.
  intros [Hq Hne]. destruct q as [|x q]; [done|]. apply Forall_cons in Hq as [(_ & _ & Hx) _]. simpl.
  by rewrite (proj2 (Z.eqb_neq x 47)) by done.
Qed.

Lemma component_noslash q : component q -> 47 ∉ q.
Proof. intros [Hq _] Hin. rewrite Forall_forall in Hq. by apply Hq in Hin as (_ & _ & ?). Qed.

Lemma path_first {S R} fdt off root strs total q (s : S) :
  tree_blob fdt off root strs total 17 -> component q -> Z.of_nat (length q) < 2 ^ 29 ->
  fdt_path_offset (R := R) fdt (47 :: q) s =
  (Go (match called q (node_children root) with Some a => child_pos [] root a | None => - FDT_ERR_NOTFOUND end), s).
Proof.
  intros T Hq Hl. unfold fdt_path_offset, fdt_rounds. cbn [path_offset].
  rewrite (bind_go _ _ _ _ _ (header_checked fdt off root strs total 17 T s)). cbn [negb Z.eqb hd0 Pos.eqb].
  cbn [length path_loop]. pose proof (component_head q [] Hq) as Hd. rewrite app_nil_r in Hd. rewrite Hd.
  destruct Hq as [Hq Hne]. pose proof (component_noslash q ltac:(by split)) as Hns.
  pose proof (subnode_at (S := S) (R := R) fdt off (tree_toks root) total ltac:(apply T) ltac:(apply T) q []
    (component_chars q ltac:(by split)) Hl [] root [TEnd] s
    (fun s => header_checked fdt off root strs total 17 T s) eq_refl ltac:(set_solver)) as Hsub.
  rewrite app_nil_r in Hsub. change (pos []) with 0 in Hsub.
  destruct q as [|x q]; [done|]. rewrite (memchr_none _ _ Hns). cbn [default]. rewrite (bind_go _ _ _ _ _ Hsub).
  destruct (called (x :: q) (node_children root)) as [a|]; [|done].
  rewrite (proj2 (Z.ltb_ge _ _)) by apply Zle_0_nat. rewrite drop_ge by done. done.
Qed.

(** * A first-level node that is not there *)

Section Missing.
Context {R : Type} (pool : Z -> bool) (Hpool : forall n, pool n = true).
Context (root : dnode) (Hna : names_apart root).
Implicit Types (nl : list FDT_FIRST_LEVEL_NODE).

(** No name of the first level starts with [q]. *)
Definition missing (q : list Z) : Prop :=
  forall j c, node_children root !! j = Some c -> ~ q `prefix_of` node_name c.

Lemma pos_begin name : 8 <= pos [TBegin name].
Proof.
  unfold pos, enc. cbn [map mjoin list_join]. rewrite app_nil_r. unfold enc_tok, tok_body.
  rewrite length_app, length_be_put, Nat2Z.inj_add, length_pad4, length_app. cbn [length].
  pose proof (align4_bounds (Z.of_nat (length name + 1))).
  destruct (align4_divide (Z.of_nat (length name + 1))) as [k Hk]. lia.
Qed.

Lemma pos_in ts t : t ∈ ts -> 4 <= pos ts.
Proof.
  intros (a & b & ->)%list_elem_of_split. pose proof (pos_count (a ++ t :: b)) as Hc.
  rewrite length_app in Hc. cbn [length] in Hc. lia.
Qed.

Section Walk.
Context (fdt : list Z) (off : Z) (toks : list tok) (total version : Z).
Context (H : holds_toks fdt off toks total version) (Hts : Forall tok_ok toks).
Context (q extra : list Z) (Hq : Forall (fun c => is_u8 c /\ c <> 0) q) (Hl : (length q <= 15)%nat).
Context (Hmem : (64 <= length (q ++ extra))%nat).

Lemma miss_children cs : forall fuel pre suf (nls : nat -> list FDT_FIRST_LEVEL_NODE),
  (forall j c, cs !! j = Some c -> ~ name_matches (node_name c) q) ->
  (forall j c, cs !! j = Some c ->
    FdtAddToNodeList (R := R) pool (node_name c) (pos (pre ++ flatten_all (take j cs))) (nls j) = (Go tt, nls (S j))) ->
  toks = pre ++ flatten_all cs ++ TEndNode :: suf -> TEnd ∈ suf ->
  (list_sum (map nodes cs) < fuel)%nat ->
  look (R := R) pool fdt q extra fuel (scan pre (flatten_all cs ++ TEndNode :: suf) 0) (nls O) = (Go (-1), nls (length cs)).
Proof.
  induction cs as [|c0 cs IH]; intros fuel pre suf nls Hno Hadd Ht He Hf.
  - destruct fuel as [|fuel]; [lia|]. cbn [flatten_all map mjoin list_join app scan].
    change (0 - 1 <? 0) with true. unfold look. cbn [fst snd subnode_scan length].
    change (0 - 1 <? 0) with true. by rewrite orb_true_r.
  - rewrite scan_forest. change (flatten_all (c0 :: cs)) with (flatten c0 ++ flatten_all cs) in Ht.
    simpl list_sum in Hf. assert (Hn0 : (0 < nodes c0)%nat) by (destruct c0; simpl; lia).
    destruct fuel as [|fuel]; [lia|]. pose proof Ht as Ht'.
    rewrite flatten_below, <- !app_assoc, <- app_comm_cons in Ht'.
    pose proof (Hadd O c0 eq_refl) as Ha. cbn [take] in Ha.
    change (flatten_all []) with (@nil tok) in Ha. rewrite app_nil_r in Ha.
    assert (Hroom : FdtRwSpec.room toks q pre).
    { unfold FdtRwSpec.room, qlen. rewrite Ht', pos_app.
      change (TBegin (node_name c0) :: below c0 ++ flatten_all cs ++ TEndNode :: suf) with
        ([TBegin (node_name c0)] ++ below c0 ++ flatten_all cs ++ [TEndNode] ++ suf).
      rewrite !pos_app. pose proof (pos_begin (node_name c0)).
      pose proof (pos_in (below c0) TEndNode ltac:(unfold below; set_solver)).
      pose proof (pos_in suf TEnd He). pose proof (pos_in [TEndNode] TEndNode ltac:(set_solver)).
      assert (0 <= pos (flatten_all cs)) by apply Zle_0_nat. lia. }
    assert (Hm : ~ name_matches (node_name c0) q) by by apply (Hno O).
    unfold look at 1. cbn [fst snd]. change (0 + 1) with 1.
    rewrite (look_child (R := R) pool fdt off toks total version H Hts q extra Hq Hmem _ _ _ _ _ _ Ht'
      ltac:(set_solver) Hroom ltac:(by right) Ha).
    rewrite bool_decide_false by (intros Heq; apply Hm; by left).
    rewrite (subtree_skipped fdt off toks total version H Hts
      (fun f o d => look pool fdt q extra f (o, d)) (look pool fdt q extra)
      (fun f p nm sf d s h1 h2 h3 => look_below pool fdt off toks total version H Hts q extra Hmem f p nm sf d s h1 h2
        ltac:(lia) ltac:(lia))
      (fun f o d s _ _ => eq_refl) c0 _ _ _ _ _ ltac:(by rewrite Ht, <- app_assoc)); [|set_solver|lia|lia].
    change (1 - 1) with 0. apply (IH _ (pre ++ flatten c0) suf (fun j => nls (S j))).
    + intros j c Hj. by apply (Hno (S j)).
    + intros j c Hj. rewrite <- app_assoc. by apply (Hadd (S j)).
    + by rewrite Ht, <- !app_assoc.
    + done.
    + lia.
Qed.
End Walk.

Lemma find_missing q extra k :
  Forall (fun c => c <> 0) q -> missing q -> (k <= length (node_children root))%nat ->
  FdtFindNodeFromList (q ++ extra) (Z.of_nat (length q)) (first_nodes root k) = (false, last_pos root k).
Proof.
  intros Hq Hm Hk.
  assert (Hfind : find (fun Node => AsciiStrnCmp (NodeName Node) (q ++ extra) (Z.of_nat (length q)) =? 0)
    (first_nodes root k) = None).
  { apply find_nothing. intros y (j & c & Hlt & Hj & ->)%elem_first_nodes. cbn [NodeName].
    rewrite cmp_prefix by (done || by eapply first_name). apply bool_decide_eq_false. by apply (Hm j). }
  unfold FdtFindNodeFromList. rewrite Hfind. destruct k as [|k]; [done|].
  destruct (lookup_lt_is_Some_2 (node_children root) k ltac:(lia)) as [ck Hck].
  by rewrite (first_nodes_S _ _ _ Hck).
Qed.

Lemma missing_matches q j c : missing q -> node_children root !! j = Some c -> ~ name_matches (node_name c) q.
Proof. intros Hm Hj [He|[unit He]]; apply (Hm j c Hj); rewrite He; [done|by eexists]. Qed.

Lemma children_nodes cs : (list_sum (map nodes cs) <= length (flatten_all cs))%nat.
Proof.
  induction cs as [|c cs IH]; [done|]. unfold flatten_all in *.
  change (list_sum (map nodes (c :: cs))) with (nodes c + list_sum (map nodes cs))%nat.
  change (mjoin (map flatten (c :: cs))) with (flatten c ++ mjoin (map flatten cs)).
  rewrite length_app. pose proof (nodes_toks c). lia.
Qed.

(** The walk over the children from the [m]th on puts all of them on the list. *)
Lemma walk_missing fdt off strs total version q extra m k fuel :
  tree_blob fdt off root strs total version -> Forall (fun c => is_u8 c /\ c <> 0) q -> (length q <= 15)%nat ->
  (64 <= length (q ++ extra))%nat -> missing q -> (m <= length (node_children root))%nat ->
  (k <= length (node_children root))%nat -> (length fdt <= fuel)%nat -> (k = m \/ k = S m) ->
  look (R := R) pool fdt q extra fuel
    (scan (TBegin (node_name root) :: prop_toks (node_props root) ++ flatten_all (take m (node_children root)))
       (flatten_all (drop m (node_children root)) ++ [TEndNode; TEnd]) 0) (first_nodes root k) =
  (Go (-1), first_nodes root (length (node_children root))).
Proof.
  intros T Hq Hl Hmem Hm Hmk Hk Hf Hkm. destruct T as [Hh Hts _ _ _ _ _].
  set (pre := TBegin (node_name root) :: prop_toks (node_props root) ++ flatten_all (take m (node_children root))).
  assert (Ht : tree_toks root = pre ++ flatten_all (drop m (node_children root)) ++ [TEndNode; TEnd]).
  { unfold tree_toks, pre. rewrite flatten_below. unfold below.
    rewrite <- (take_drop m (node_children root)) at 1. unfold flatten_all. rewrite map_app, join_app.
    simpl. by rewrite <- !app_assoc. }
  assert (Hcp : forall j, child_pos [] root (m + j) = pos (pre ++ flatten_all (take j (drop m (node_children root))))).
  { intros j. unfold child_pos, pre. rewrite <- take_take_drop. unfold flatten_all. rewrite map_app, join_app.
    simpl. by rewrite <- app_assoc. }
  pose proof (length_toks_fdt _ _ _ _ _ Hh) as Hlen. rewrite Ht, !length_app in Hlen. cbn [length] in Hlen.
  pose proof (children_nodes (drop m (node_children root))) as Hn.
  pose proof (miss_children fdt off (tree_toks root) total version Hh Hts q extra Hq Hl Hmem
    (drop m (node_children root)) fuel pre [TEnd] (fun j => first_nodes root (Nat.max (m + j) k))) as Hmiss.
  cbn beta in Hmiss. rewrite length_drop in Hmiss.
  replace (Nat.max (m + 0) k) with k in Hmiss by lia.
  replace (Nat.max (m + (length (node_children root) - m)) k) with (length (node_children root)) in Hmiss by lia.
  apply Hmiss; [..|set_solver|lia].
  - intros j c Hj. rewrite lookup_drop in Hj. by eapply missing_matches.
  - intros j c Hj. rewrite lookup_drop in Hj. rewrite <- Hcp. replace (m + S j)%nat with (S (m + j)) by lia.
    by apply add_first.
  - exact Ht.
Qed.

Lemma path_missing fdt off strs total version q extra k :
  tree_blob fdt off root strs total version -> component q -> (length q <= 15)%nat ->
  (64 <= length (q ++ extra))%nat -> hd0 extra = 0 \/ hd0 extra = 47 -> extra <> [] -> missing q ->
  (k <= length (node_children root))%nat ->
  FdtPathOffset (R := R) pool fdt (47 :: q ++ extra) (first_nodes root k) =
  (Go (-1), first_nodes root (length (node_children root))).
Proof.
  intros T Hq Hl Hmem Hex Hne Hm Hk. pose proof (component_chars _ Hq) as Hc. pose proof (component_noslash _ Hq) as Hns.
  assert (Hc0 : Forall (fun c => c <> 0) q) by (eapply list.Forall_impl; [exact Hc|]; by intros ? []).
  assert (Hsub : FdtSubnodeOffsetNamelen (R := R) pool fdt 0 (q ++ extra) (Z.of_nat (length q)) 0 (first_nodes root k) =
    (Go (-1), first_nodes root (length (node_children root)))).
  { unfold FdtSubnodeOffsetNamelen. rewrite (bind_go _ _ _ _ _ (header_checked fdt off root strs total version T _)).
    cbn [negb Z.eqb]. erewrite bind_go by reflexivity. rewrite (find_missing q extra k Hc0 Hm Hk).
    destruct k as [|k]; cbn [last_pos].
    - cbn [Z.eqb]. pose proof T as [Hh Hts _ _ _ _ _].
      assert (Hroot : tree_toks root = [] ++ TBegin (node_name root) :: (below root ++ [TEnd]))
        by (unfold tree_toks; by rewrite flatten_below).
      pose proof (look_below (R := R) pool fdt off (tree_toks root) total version Hh Hts q extra Hmem
        (length fdt) [] _ _ 0 (first_nodes root 0) Hroot ltac:(set_solver) ltac:(lia) ltac:(lia)) as Hlook.
      change (pos []) with 0 in Hlook. unfold Source, qlen in Hlook. unfold fdt_rounds. rewrite Hlook.
      unfold below. rewrite <- !app_assoc, scan_props.
      pose proof (walk_missing fdt off strs total version q extra 0 0 (length fdt) T Hc Hl Hmem Hm) as Hw.
      cbn [take drop flatten_all map mjoin list_join] in Hw. rewrite app_nil_r in Hw. apply Hw; lia.
    - destruct (lookup_lt_is_Some_2 (node_children root) k ltac:(lia)) as [ck Hck].
      rewrite (proj2 (Z.eqb_neq _ 0)) by (pose proof (child_pos_positive root k); lia).
      pose proof (walk_missing fdt off strs total version q extra k (S k) (fdt_rounds fdt) T Hc Hl Hmem Hm) as Hw.
      rewrite (drop_S _ _ _ Hck), scan_forest in Hw. unfold look in Hw. cbn [fst snd] in Hw.
      change (0 + 1) with 1 in Hw. apply Hw; unfold fdt_rounds; lia. }
  unfold FdtPathOffset, fdt_rounds. cbn [FdtPathOffset_fuel EnableNewNodeSearchFuc].
  rewrite (bind_go _ _ _ _ _ (header_checked fdt off root strs total version T _)). cbn [negb Z.eqb hd0 Pos.eqb length].
  cbn [path_scan hd0 Z.eqb Pos.eqb]. rewrite (component_head q extra Hq).
  assert (Hh0 : (hd0 (q ++ extra) =? 0) = false).
  { destruct Hq as [_ Hqn]. destruct q as [|x q]; [done|]. apply Forall_cons in Hc0 as [Hx _]. by apply Z.eqb_neq. }
  rewrite Hh0.
  assert (Hlen : default (length (cstr (q ++ extra))) (memchr (cstr (q ++ extra)) 47) = length q).
  { destruct extra as [|x extra]; [done|]. cbn [hd0] in Hex. destruct Hex as [-> | ->].
    - rewrite cstr_app_0 by done. by rewrite memchr_none.
    - assert (Hcs : cstr (q ++ 47 :: extra) = q ++ 47 :: cstr extra).
      { clear -Hc0. induction Hc0 as [|y q Hy _ IH]; [done|]. simpl. by rewrite (proj2 (Z.eqb_neq y 0)), IH by done. }
      rewrite Hcs. clear -Hns. induction q as [|y q IH]; [done|]. simpl.
      rewrite (proj2 (Z.eqb_neq y 47)) by set_solver. specialize (IH ltac:(set_solver)).
      destruct (memchr (q ++ 47 :: cstr extra) 47) eqn:E; simpl in *; [lia|].
      exfalso. assert (is_Some (memchr (q ++ 47 :: cstr extra) 47)) as [? Hs] by (apply memchr_elem; set_solver). congruence. }
  rewrite Hlen. by rewrite (bind_go _ _ _ _ _ Hsub).
Qed.
End Missing.
