(* ===== verification/FdtDemo.v ===== *)
(** A device tree to run the theorems on, with a check that a blob holds a tree,
    and an image of a tree to run the theorems about the writer on, with a check
    that an image is one. *)
From Stdlib Require Import ZArith Lia.
From stdpp Require Import base list numbers option sets.
From S2P Require Import Prelude EfiBase Fdt FdtSpec FdtTree FdtRw FdtRwSpec FdtWrite FdtImage FdtProps FdtPack.

(** * A check *)

Definition byte_b (x : Z) : bool := (0 <=? x) && (x <? 2 ^ 8).

Definition tok_b (t : tok) : bool :=
  match t with
  | TBegin name => forallb (fun c => byte_b c && negb (c =? 0)) name
  | TProp nameoff value => (0 <=? nameoff) && (nameoff <? 2 ^ 32) && forallb byte_b value
  | _ => true
  end.

Definition name_b (fdt : list Z) (strs : Z -> list Z) (t : tok) : bool :=
  match t with
  | TProp nameoff _ =>
      match word fdt 12 with
      | Some offs =>
          (0 <=? nameoff) && (nameoff <? 2 ^ 31) &&
          forallb (fun c => negb (c =? 0)) (strs nameoff) &&
          bool_decide (buf_read fdt (offs + nameoff) (Z.of_nat (length (strs nameoff)) + 1) =
                       Some (strs nameoff ++ [0]))
      | None => false
      end
  | _ => true
  end.

Definition word_is (fdt : list Z) (p : Z) (f : Z -> bool) : bool :=
  match word fdt p with Some v => f v | None => false end.

Definition tree_check (fdt : list Z) (off : Z) (root : dnode) (strs : Z -> list Z)
    (total version : Z) : bool :=
  let block := enc (tree_toks root) in
  let n := Z.of_nat (length block) in
  forallb byte_b fdt && word_is fdt 4 (Z.eqb total) && (total <=? Z.of_nat (length fdt)) &&
  (total <=? 2 ^ 31 - 4) && word_is fdt 8 (Z.eqb off) && word_is fdt 20 (Z.eqb version) &&
  word_is fdt 36 (Z.eqb n) && (off + n <=? total) && bool_decide (buf_read fdt off n = Some block) &&
  forallb tok_b (tree_toks root) && word_is fdt 0 (Z.eqb FDT_MAGIC) && (16 <=? version) &&
  word_is fdt 24 (fun last => last <=? 17) &&
  word_is fdt 12 (fun offs => word_is fdt 32 (fun size => offs + size <=? total)) &&
  forallb (name_b fdt strs) (flatten root).

Lemma Forall_b {A} (f : A -> bool) (P : A -> Prop) l :
  (forall x, f x = true -> P x) -> forallb f l = true -> Forall P l.
Proof.
  intros Hf. induction l as [|x l IH]; simpl; [done|]. intros [H1 H2]%andb_prop. constructor; auto.
Qed.

Lemma byte_b_ok x : byte_b x = true -> is_u8 x.
Proof. unfold byte_b, is_u8. intros. bools. done. Qed.

Lemma tok_b_ok t : tok_b t = true -> tok_ok t.
Proof.
  destruct t; simpl; try done.
  - apply Forall_b. intros c Hc. apply andb_prop in Hc as [H1 H2]. bools. split; [by apply byte_b_ok|done].
  - intros H. apply andb_prop in H as [H1 H2]. bools. split; [done|]. by apply (Forall_b _ _ _ byte_b_ok).
Qed.

Lemma word_is_ok fdt p f : word_is fdt p f = true -> exists v, word fdt p = Some v /\ f v = true.
Proof. unfold word_is. destruct (word fdt p) as [v|]; [|done]. by exists v. Qed.

Lemma word_is_eq fdt p v : word_is fdt p (Z.eqb v) = true -> word fdt p = Some v.
Proof. intros (x & Hx & ->%Z.eqb_eq)%word_is_ok. done. Qed.

Lemma name_b_ok fdt strs nameoff value :
  name_b fdt strs (TProp nameoff value) = true -> str_at fdt nameoff (strs nameoff).
Proof.
  simpl. destruct (word fdt 12) as [offs|] eqn:E; [|done]. intros H.
  apply andb_prop in H as [H1 H2]. apply andb_prop in H1 as [H1 H3]. bools.
  exists offs. split_and!; [done|lia|lia| |by apply bool_decide_eq_true in H2].
  eapply Forall_b; [|exact H3]. intros c Hc. by apply negb_true_iff, Z.eqb_neq in Hc.
Qed.

Lemma tree_check_ok fdt off root strs total version :
  tree_check fdt off root strs total version = true -> tree_blob fdt off root strs total version.
Proof.
  unfold tree_check. intros H. repeat (apply andb_prop in H as [H ?]).
  split; [eexists; split; [apply enc_encs|split; [split|..]]|..].
  - by apply (Forall_b _ _ _ byte_b_ok).
  - by apply word_is_eq.
  - bools. lia.
  - by apply word_is_eq.
  - by apply word_is_eq.
  - by apply word_is_eq.
  - bools. done.
  - by eapply bool_decide_eq_true.
  - by apply (Forall_b _ _ _ tok_b_ok).
  - by apply word_is_eq.
  - bools. done.
  - match goal with Hw : word_is fdt 24 _ = true |- _ => apply word_is_ok in Hw as (v & Hv & Hle) end.
    exists v. bools. done.
  - match goal with Hw : word_is fdt 12 _ = true |- _ => apply word_is_ok in Hw as (v & Hv & Hz0) end.
    apply word_is_ok in Hz0 as (z & Hz & Hle). exists v, z. bools. done.
  - match goal with Hn : forallb (name_b fdt strs) _ = true |- _ =>
      apply (Forall_b _ (fun t => name_b fdt strs t = true)) in Hn; [|done];
      rewrite Forall_forall in Hn end.
    intros no v Hin. eapply name_b_ok. eauto.
Qed.

(** * The tree *)

Definition demo_strings : list Z :=
  L "reg" ++ [0] ++ L "no-map" ++ [0] ++ L "status" ++ [0] ++ L "#address-cells" ++ [0].
Definition demo_strs (o : Z) : list Z :=
  if o =? 0 then L "reg" else if o =? 4 then L "no-map" else if o =? 11 then L "status"
  else L "#address-cells".
Definition cells (a n : Z) : list Z := be_put 8 a ++ be_put 8 n.

Definition demo_reserved : dnode :=
  DNode (L "reserved-memory") []
    [ DNode (L "hyp@80000000") [(4, []); (0, cells 0x80000000 0x600000)] [];
      DNode (L "adsp@86000000") [(4, []); (0, cells 0x86000000 0x1000000)] [];
      DNode (L "cont@9c000000") [(0, cells 0x9c000000 0x2400000)] [];
      DNode (L "xbl@80600000") [(4, []); (0, cells 0x80600000 0x40000)] [DNode (L "sub") [] []];
      DNode (L "old@90000000") [(4, []); (0, cells 0x90000000 0x100000); (11, L "disabled" ++ [0])] [] ].
Definition demo_root : dnode :=
  DNode [] [(18, be_put 4 2)]
    [ DNode (L "memory@80000000") [(0, cells 0 0)] []; demo_reserved; DNode (L "soc") [] [] ].
Definition demo_fdt : list Z := Eval vm_compute in mk_blob (tree_block demo_root) demo_strings.

Definition demo_total : Z := Eval vm_compute in Z.of_nat (length demo_fdt).

Lemma demo_tree : tree_blob demo_fdt 56 demo_root demo_strs demo_total 17.
Proof. apply tree_check_ok. vm_cast_no_check (eq_refl true). Qed.

(** * A check *)

Definition image_ok_b (i : image) : bool :=
  forallb byte_b (body i) && (0 <=? room i) && (im_total i <=? 2 ^ 31 - 4) &&
  (im_total i <=? im_end i + zlen (im_tail i)) && (40 <=? im_rsvmap i) && (im_rsvmap i + 16 <=? im_off i) &&
  (0 <=? im_last i) && (im_last i <=? 17) && (0 <=? im_cpu i) && (im_cpu i <? 2 ^ 32).

Definition named_b (tab : list Z) (t : tok) : bool :=
  match t with
  | TProp o _ => (0 <=? o) &&
      bool_decide (buf_read tab o (zlen (tab_name tab o) + 1) = Some (tab_name tab o ++ [0]))
  | _ => true
  end.

Definition image_check (i : image) (toks : list tok) : bool :=
  image_ok_b i && bool_decide (im_block i = enc toks) && forallb tok_b toks && forallb (named_b (im_tab i)) toks.

Lemma image_check_ok i toks : image_check i toks = true -> image_of i toks.
Proof.
  unfold image_check, image_ok_b. intros H. repeat (apply andb_prop in H as [H ?]). split.
  - split; try (by apply (Forall_b _ _ _ byte_b_ok)); bools; unfold is_u32; lia.
  - match goal with E : bool_decide (im_block i = _) = true |- _ => apply bool_decide_eq_true in E as -> end.
    apply enc_encs.
  - by apply (Forall_b _ _ _ tok_b_ok).
  - intros o v Hin. match goal with Hb : forallb (named_b _) toks = true |- _ => rename Hb into Hn end.
    rewrite forallb_forall in Hn. apply list_elem_of_In in Hin. specialize (Hn _ Hin). cbn [named_b] in Hn.
    apply andb_prop in Hn as [Ho Hr]. apply bool_decide_eq_true in Hr. bools. split_and!; [done|apply cstr_nonzero|done].
Qed.

(** * A tree *)

Definition wr_tab : list Z :=
  L "reg" ++ [0] ++ L "bootargs" ++ [0] ++ L "#address-cells" ++ [0] ++ L "#size-cells" ++ [0].
Definition wr_memory : dnode := DNode (L "memory") [(0, cells 0 0)] [].
Definition wr_chosen : dnode := DNode (L "chosen") [(4, L "quiet" ++ [0])] [].
Definition wr_soc : dnode := DNode (L "soc") [] [].
Definition wr_root : dnode :=
  DNode [] [(13, be_put 4 2); (28, be_put 4 2)] [wr_memory; wr_chosen; wr_soc].
Definition wr_rsv : list (Z * Z) := [(0x80000000, 0x1000)].

(** The tree with [extra] bytes to write to in an object of 4000 more. *)
Definition wr_image (extra : Z) : image :=
  let block := enc (tree_toks wr_root) in
  mkImage (40 + zlen (rsv_bytes wr_rsv) + zlen block + zlen wr_tab + extra) 40 16 0
    (rsv_bytes wr_rsv) block [] wr_tab (zeros 4000).

Lemma wr_ok : image_of (wr_image 1000) (tree_toks wr_root).
Proof. apply image_check_ok. vm_cast_no_check (eq_refl true). Qed.

Lemma wr_tight : image_of (wr_image 8) (tree_toks wr_root).
Proof. apply image_check_ok. vm_cast_no_check (eq_refl true). Qed.

Lemma wr_reserves extra : reserves (wr_image extra) wr_rsv.
Proof.
  split; [by repeat constructor|]. exists [], []. split; [by rewrite app_nil_r|done].
Qed.

(** The tags before and after the memory node and the chosen node. *)
Definition wr_pre1 : list tok :=
  TBegin [] :: TProp 13 (be_put 4 2) :: TProp 28 (be_put 4 2) :: [].
Definition wr_pre2 : list tok := wr_pre1 ++ flatten wr_memory.
Definition wr_suf2 : list tok := flatten wr_soc ++ [TEndNode; TEnd].
Definition wr_suf1 : list tok := flatten wr_chosen ++ wr_suf2.

Lemma wr_memory_at : tree_toks wr_root = wr_pre1 ++ flatten wr_memory ++ wr_suf1.
Proof. reflexivity. Qed.
Lemma wr_chosen_at : tree_toks wr_root = wr_pre2 ++ flatten wr_chosen ++ wr_suf2.
Proof. reflexivity. Qed.
