(* ===== verification/FdtWriteClaims.v ===== *)
(** What is claimed of the writer of the device tree and of the list of
    first-level nodes that follows it. *)
From Stdlib Require Import ZArith Lia.
From stdpp Require Import base list numbers option sets sorting.
From S2P Require Import Prelude EfiBase Fdt FdtSpec FdtTree FdtRw FdtRwSpec FdtDemo FdtWrite FdtImage FdtProps FdtSet FdtPack.
From S2P Require Import FdtUpdate FdtUpdateSpec.

(** C7: [fdt_setprop] refines setting a property of a node of the tree.  On the
    bytes of a tree, at the offset of any of its nodes, it ends without a fault
    in one of two ways.  With 0 the bytes are those of the tree with the
    property set: the node keeps its name, its children and every other value,
    what comes before and after it is the same, and [fdt_getprop] finds the new
    value.  With -[FDT_ERR_NOSPACE], only when the room behind the strings is
    less than the property needs, they are those of the tree as it was.  In both
    cases nothing in front of the structure block changes. *)
Theorem setprop_refines {R S} i pre n suf q v (s : S) :
  image_of i (pre ++ flatten n ++ suf) ->
  Forall (fun c => is_u8 c /\ c <> 0) q -> zlen q + 1 < 2 ^ 31 -> Forall is_u8 v -> zlen v <= 2 ^ 31 - 32 ->
  exists c i', fdt_setprop (R := R) (pos pre) q v (zlen v) (render i) = (Go c, render i') /\ extends i i' /\
    ((c = 0 /\ exists n', changed i pre n suf [q] i' n' /\ value i' n' q = Some v /\
        exists p, fdt_getprop (R := R) (render i') (pos pre) q s = (Go (Some p, zlen v), s) /\
          buf_read (render i') p (zlen v) = Some v) \/
     (c = - FDT_ERR_NOSPACE /\ image_of i' (pre ++ flatten n ++ suf) /\
        room i < update_need (names i) (node_props n) q (fun _ => v) v)).
Proof.
  intros Hi Hq Hql Hv Hvl. destruct (setprop_run (R := R) i pre n suf q v Hi Hq Hql Hv Hvl) as (c & i' & Hr & Hupd).
  exists c, i'. split; [done|]. split; [apply Hupd|]. pose proof Hupd as (_ & [(-> & _)|(-> & Hi' & Hn)]); [left|by right].
  destruct (updated_changed _ _ _ _ _ _ _ _ Hi Hupd) as (o & Hch & Hval & _).
  set (n' := with_props n (update_prop (names i) (node_props n) q (fun _ => v) o v)) in *.
  assert (Hval' : value i' n' q = Some v) by (rewrite Hval; by destruct (value i n q)).
  split; [done|]. exists n'. split; [done|]. split; [done|].
  apply (getprop_value i' pre n' suf); [apply Hch|by apply (q_nonzero q)|done].
Qed.

(** The status of the soc node: set where there is room, refused where there
    is not. *)
Lemma setprop_refines_witness :
  let v := L "okay" ++ [0] in
  let pre := wr_pre2 ++ flatten wr_chosen in
  (exists c i', fdt_setprop (R := unit) (pos pre) (L "status") v (zlen v) (render (wr_image 1000)) = (Go c, render i') /\
    extends (wr_image 1000) i' /\
    ((c = 0 /\ exists n', changed (wr_image 1000) pre wr_soc [TEndNode; TEnd] [L "status"] i' n' /\
        value i' n' (L "status") = Some v /\
        exists p, fdt_getprop (R := unit) (render i') (pos pre) (L "status") tt = (Go (Some p, zlen v), tt) /\
          buf_read (render i') p (zlen v) = Some v) \/
     (c = - FDT_ERR_NOSPACE /\ image_of i' (pre ++ flatten wr_soc ++ [TEndNode; TEnd]) /\
        room (wr_image 1000) < update_need (names (wr_image 1000)) (node_props wr_soc) (L "status") (fun _ => v) v))) /\
  (fdt_setprop (R := unit) (pos pre) (L "status") v (zlen v) (render (wr_image 1000))).1 = Go 0 /\
  (fdt_setprop (R := unit) (pos pre) (L "status") v (zlen v) (render (wr_image 8))).1 = Go (- FDT_ERR_NOSPACE).
Proof.
  cbn zeta. split; [|split; vm_compute; reflexivity].
  apply (setprop_refines (wr_image 1000) (wr_pre2 ++ flatten wr_chosen) wr_soc [TEndNode; TEnd] (L "status")
    (L "okay" ++ [0]) tt wr_ok); [repeat constructor; discriminate|reflexivity|repeat constructor; discriminate|discriminate].
Defined.

(** C23: [FdtSetProp] keeps the list of first-level nodes right.  When the list
    names nodes that lie in front of the changed node (or are it) and nodes
    that lie behind its properties, in descending order, then after the update
    the same names stand at the offsets the same nodes have now, whether the
    property was new, replaced by a value of another length, or there was no
    room.  The value, and the one it replaces if there is one, must not be
    empty. *)
Theorem setprop_keeps_node_list {R} i pre n suf q v s marks :
  image_of i (pre ++ flatten n ++ suf) -> dt_blob s = render i ->
  Forall (fun c => is_u8 c /\ c <> 0) q -> zlen q + 1 < 2 ^ 31 -> Forall is_u8 v -> zlen v <= 2 ^ 31 - 32 ->
  v <> [] -> (forall old, value i n q = Some old -> old <> []) ->
  Forall (fun m => place_ok pre n suf m.2) marks -> dt_nodes s = listing pre n marks -> desc (dt_nodes s) ->
  exists c s' i' n', FdtSetProp (R := R) (pos pre) q v (zlen v) s = (Go c, s') /\ dt_blob s' = render i' /\
    image_of i' (pre ++ flatten n' ++ suf) /\ node_name n' = node_name n /\ node_children n' = node_children n /\
    dt_nodes s' = listing pre n' marks.
Proof.
  intros Hi Hs Hq Hql Hv Hvl Hne Hold Hm Hnl Hd.
  destruct (setprop_run (R := R) i pre n suf q v Hi Hq Hql Hv Hvl) as (c & i' & Hr & Hupd).
  pose proof (prop_update_run (R := R) i pre n suf q Hi (q_nonzero q Hq) s _ c (fun _ => v) v i' Hs Hr Hupd) as Hrun.
  destruct Hupd as (_ & [(-> & _ & o & _ & Hi')|(-> & Hi' & _)]).
  - destruct (update_tracks i pre n suf q (fun _ => v) o v i' s marks Hi Hi' Hold Hne) as [_ Hnl' _];
      [by destruct (value i n q)|by split|].
    by eexists 0, _, i', _.
  - by eexists _, _, i', n.
Qed.

(** The list with the three nodes of the tree; the memory node changes. *)
Definition wr_marks : list (list Z * place) :=
  [ (L "soc", inr (TEndNode :: flatten wr_chosen)); (L "chosen", inr [TEndNode]); (L "memory", inl wr_pre1) ].
Definition wr_state : DtState :=
  mkDtState (render (wr_image 1000)) (listing wr_pre1 wr_memory wr_marks) false false 0.

Lemma setprop_keeps_node_list_witness :
  exists c s' i' n', FdtSetProp (R := unit) (pos wr_pre1) (L "device_type") (L "memory" ++ [0]) 7 wr_state = (Go c, s') /\
    dt_blob s' = render i' /\ image_of i' (wr_pre1 ++ flatten n' ++ wr_suf1) /\
    node_name n' = node_name wr_memory /\ node_children n' = node_children wr_memory /\
    dt_nodes s' = listing wr_pre1 n' wr_marks.
Proof.
  apply (setprop_keeps_node_list (wr_image 1000) wr_pre1 wr_memory wr_suf1 (L "device_type") (L "memory" ++ [0])
    wr_state wr_marks wr_ok).
  - reflexivity.
  - repeat constructor; discriminate.
  - reflexivity.
  - repeat constructor; discriminate.
  - discriminate.
  - discriminate.
  - discriminate.
  - repeat constructor; simpl; [by exists wr_suf2|by exists wr_suf1|by exists []].
  - reflexivity.
  - repeat constructor; vm_compute; discriminate.
Defined.

(** C24: [fdt_open_into] and [fdt_pack] change the room behind a tree and nothing
    of the tree.  Opening a tree in place to a size the object has succeeds and
    adds exactly the difference to the room.  Packing succeeds, leaves no room,
    and moves the blocks together without changing the length of the object.
    Both keep the tree and the memory reservations. *)
Theorem open_and_pack {R} i toks rs t :
  image_of i toks -> reserves i rs -> im_total i <= t <= 2 ^ 31 - 4 -> t <= zlen (render i) ->
  (exists i1, fdt_open_into (R := R) t (render i) = (Go 0, render i1) /\ image_of i1 toks /\ reserves i1 rs /\
     room i1 = room i + (t - im_total i)) /\
  (exists i2, fdt_pack (R := R) (render i) = (Go 0, render i2) /\ image_of i2 toks /\ reserves i2 rs /\
     room i2 = 0 /\ im_total i2 <= im_total i /\ zlen (render i2) = zlen (render i)).
Proof.
  intros Hi Hrs Ht Hl. pose proof (if_ok _ _ Hi) as Hok. split.
  - exists (with_total i t). split; [by eapply open_into_run|].
    split; [apply (image_of_same i); [done|by apply with_total_ok|done..]|]. split; [exact Hrs|].
    unfold room, im_end, im_offs, im_off, with_total. cbn [im_total im_front im_block im_gap im_tab]. lia.
  - destruct (pack_run (R := R) i rs Hok Hrs) as (tail & Hr & Hpok & Hlen). exists (packed i rs tail).
    split; [done|]. split; [by apply (image_of_same i)|].
    pose proof (reserve_bounds i rs Hrs) as [_ Hb]. pose proof (length_rsv_bytes rs) as Hlr.
    split; [split; [apply Hrs|exists [], []; by rewrite app_nil_r]|].
    destruct Hok. unfold rsv_size in *. unfold room, im_end, im_offs, im_off, packed, rsv_size in *.
    cbn [im_total im_front im_block im_gap im_tab length] in *. pose proof (zlen_nonneg (im_gap i)).
    split; [lia|]. split; [lia|exact Hlen].
Qed.

Lemma open_and_pack_witness :
  (exists i1, fdt_open_into (R := unit) 2000 (render (wr_image 8)) = (Go 0, render i1) /\
     image_of i1 (tree_toks wr_root) /\ reserves i1 wr_rsv /\
     room i1 = room (wr_image 8) + (2000 - im_total (wr_image 8))) /\
  (exists i2, fdt_pack (R := unit) (render (wr_image 8)) = (Go 0, render i2) /\ image_of i2 (tree_toks wr_root) /\
     reserves i2 wr_rsv /\ room i2 = 0 /\ im_total i2 <= im_total (wr_image 8) /\
     zlen (render i2) = zlen (render (wr_image 8))).
Proof.
  apply (open_and_pack (wr_image 8) (tree_toks wr_root) wr_rsv 2000 wr_tight (wr_reserves 8)).
  - vm_compute. split; discriminate.
  - vm_compute. discriminate.
Defined.

(** * What goes wrong with empty properties *)

(** The chosen node with an empty property: giving it a
    value of four bytes moves what follows by four, the list goes on by sixteen. *)
Definition empty_root : dnode :=
  DNode [] [] [DNode (L "chosen") [(4, [])] []; wr_soc].
Definition empty_image : image :=
  let block := enc (tree_toks empty_root) in
  mkImage (40 + zlen (rsv_bytes wr_rsv) + zlen block + zlen wr_tab + 500) 40 16 0
    (rsv_bytes wr_rsv) block [] wr_tab (zeros 1000).
Definition empty_pre : list tok := [TBegin []].
Definition soc_place : place := inr [TEndNode].
Definition empty_state : DtState :=
  mkDtState (render empty_image)
    (listing empty_pre (DNode (L "chosen") [(4, [])] []) [(L "soc", soc_place)]) false false 0.

Example empty_value_misplaces_list :
  let r := FdtSetProp (R := unit) (pos empty_pre) (L "bootargs") (L "abc" ++ [0]) 4 empty_state in
  r.1 = Go 0 /\ dt_nodes r.2 = [mkFirst (L "soc") 52] /\
  listing empty_pre (DNode (L "chosen") [(4, L "abc" ++ [0])] []) [(L "soc", soc_place)] = [mkFirst (L "soc") 40].
Proof. vm_compute. done. Qed.

(** Appending a string to an empty property puts the space over the last byte
    of the offset of its name: the property is called otherwise afterwards. *)
Example empty_append_renames :
  let r := fdt_appendprop_string (R := unit) (pos empty_pre) (L "bootargs") (L "abc" ++ [0]) (render empty_image) in
  r.1 = Go 0 /\
  (fdt_getprop (R := unit) (render empty_image) (pos empty_pre) (L "bootargs") tt).1 = Go (Some 104, 0) /\
  (fdt_getprop (R := unit) r.2 (pos empty_pre) (L "bootargs") tt).1 = Go (None, - FDT_ERR_NOTFOUND).
Proof. vm_compute. done. Qed.
