(* ===== verification/Carveout.v ===== *)
(** The memory map handed to the kernel ([UpdateDeviceTree.c]): the regions of
    [/reserved-memory] that must not be mapped are read from the device tree,
    sorted, joined, and taken out of the RAM partitions.

    Arrays of the source are lists of their full length; an index outside
    stops the machine.  The arrays on the stack start with whatever was there,
    so their first contents are arguments.  [pool] says whether the memory
    pool serves a request. *)
From Stdlib Require Import ZArith Lia.
From stdpp Require Import base list numbers option.
From S2P Require Import Prelude EfiBase Fdt FdtRw.

Record CarveoutMemRegion := mkRegion { StartAddr : Z; Size : Z }.
Record RamPartitionEntry := mkRam { Base : Z; AvailableLength : Z }.

Definition NUM_NOMAP_REGIONS : Z := 50.
Definition NUM_RAM_PARTITIONS : Z := 30.
Definition DEFAULT_CELL_SIZE : Z := 2.
Definition RAM_ENTRY_SIZE : Z := 16.

(** Array accesses. *)
Definition arr {S R A} (a : list A) (i : Z) : M S R A :=
  need OutOfBounds (if 0 <=? i then a !! Z.to_nat i else None).
Definition arr_set {S R A} (a : list A) (i : Z) (x : A) : M S R (list A) :=
  if (0 <=? i) && (i <? Z.of_nat (length a)) then mret (<[Z.to_nat i := x]> a)
  else stop OutOfBounds.

(** A string literal, and the bytes that follow it in memory. *)
Definition literal (rodata : list Z) (s : String.string) : list Z := L s ++ 0 :: rodata.
#[global] Arguments literal rodata s%_string_scope.

(** The first address behind a region and behind a partition. *)
Definition region_end (r : CarveoutMemRegion) : Z := u64 (StartAddr r + Size r).
Definition ram_end (p : RamPartitionEntry) : Z := u64 (Base p + AvailableLength p).

Section Arrays.
Context {S : Type}.

(** ** Sorting *)

(** The body of the inner loop: swaps two neighbours. *)
Definition sort_step {R} (j : Z) (st : bool * list CarveoutMemRegion) :
    M S R (bool * (bool * list CarveoutMemRegion)) :=
  let '(IsSorted, NoMapRegions) := st in
  x ← arr NoMapRegions j;
  y ← arr NoMapRegions (u32 (j + 1));
  if StartAddr x >? StartAddr y then
    NoMapRegions ← arr_set NoMapRegions j y;
    NoMapRegions ← arr_set NoMapRegions (u32 (j + 1)) x;
    mret (false, (false, NoMapRegions))
  else mret (false, (IsSorted, NoMapRegions)).

(** [IsSorted] is set before the loops and never again. *)
Definition SortNoMapRegions {R} (NoMapRegions : list CarveoutMemRegion) (NumNoMapReg : Z) :
    M S R (list CarveoutMemRegion) :=
  r ← for_up (Z.to_nat (u32 (NumNoMapReg - 1))) 0 (true, NoMapRegions) (fun i st =>
        st ← for_up (Z.to_nat (u32 (NumNoMapReg - i - 1))) 0 st sort_step;
        mret (st.1, st));
  mret r.2.

(** ** Joining *)

Record combine_state := mkCombine {
  cb_Start : Z;
  cb_NumReg : Z;
  cb_Regions : list CarveoutMemRegion;
}.

(** The region being built gets a new end. *)
Definition set_end {R} (c : combine_state) (End : Z) : M S R combine_state :=
  r ← arr (cb_Regions c) (cb_NumReg c);
  a ← arr_set (cb_Regions c) (cb_NumReg c) (mkRegion (StartAddr r) (u64 (End - cb_Start c)));
  mret (mkCombine (cb_Start c) (cb_NumReg c) a).

Definition combine_step (NoMapRegions : list CarveoutMemRegion) (i : Z) (c : combine_state) :
    M S (EFI_STATUS * list CarveoutMemRegion * option Z) (bool * combine_state) :=
  cur ← arr NoMapRegions i;
  next ← arr NoMapRegions (u32 (i + 1));
  if StartAddr next =? region_end cur then
    c ← set_end c (region_end next); mret (false, c)
  else if StartAddr next >? region_end cur then
    let NumReg := cb_NumReg c + 1 in
    if NUM_NOMAP_REGIONS <=? NumReg then early (EFI_OUT_OF_RESOURCES, cb_Regions c, None)
    else
      a ← arr_set (cb_Regions c) NumReg
            (mkRegion (StartAddr next) (u64 (region_end next - StartAddr next)));
      mret (false, mkCombine (StartAddr next) NumReg a)
  else if StartAddr next <? region_end cur then
    c ← set_end c (region_end next); mret (false, c)
  else mret (false, c).

(** Returns the status, the array and [*NumCombNoMapReg] when it is set. *)
Definition CombineNoMapRegions (NoMapRegions : list CarveoutMemRegion) (NumNoMapReg : Z)
    (CombNoMapRegions : list CarveoutMemRegion) :
    M S (EFI_STATUS * list CarveoutMemRegion * option Z)
        (EFI_STATUS * list CarveoutMemRegion * option Z) :=
  first ← arr NoMapRegions 0;
  a ← arr_set CombNoMapRegions 0
        (mkRegion (StartAddr first) (u64 (region_end first - StartAddr first)));
  c ← for_up (Z.to_nat (u32 (NumNoMapReg - 1))) 0 (mkCombine (StartAddr first) 0 a)
        (combine_step NoMapRegions);
  mret (EFI_SUCCESS, cb_Regions c, Some (u32 (cb_NumReg c + 1))).

(** ** Taking the regions out of the RAM partitions *)

Record carve_state := mkCarve {
  cv_part : RamPartitionEntry;             (** [RamPartitions[i]] *)
  cv_checked : bool;                       (** [PtnChecked] *)
  cv_num : Z;                              (** [NumModRamPartitions] *)
  cv_updated : list RamPartitionEntry;     (** [UpdatedRamPartitions] *)
}.

(** A stored entry. *)
Definition emit {R} (p : RamPartitionEntry) (c : carve_state) : M S R carve_state :=
  a ← arr_set (cv_updated c) (cv_num c) p;
  mret (mkCarve (cv_part c) (cv_checked c) (u32 (cv_num c + 1)) a).

Definition with_part (p : RamPartitionEntry) (b : bool) (c : carve_state) : carve_state :=
  mkCarve p b (cv_num c) (cv_updated c).

(** The region lies inside the partition. *)
Definition carve_inside {R} (r : CarveoutMemRegion) (c : carve_state) : M S R (bool * carve_state) :=
  let p := cv_part c in
  c ← (if StartAddr r >? Base p then
         c ← emit (mkRam (Base p) (u64 (StartAddr r - Base p))) c;
         mret (with_part (mkRam (region_end r) (u64 (ram_end p - region_end r))) true c)
       else if StartAddr r =? Base p then
         mret (with_part (mkRam (region_end r) (u64 (AvailableLength p - Size r))) true c)
       else mret c);
  if AvailableLength (cv_part c) =? 0 then mret (true, c)
  else if region_end r <? ram_end (cv_part c) then mret (false, with_part (cv_part c) false c)
  else mret (false, c).

(** The body of the loop over the regions; [true] is [break]. *)
Definition carve_step {R} (Comb : list CarveoutMemRegion) (j : Z) (c : carve_state) :
    M S R (bool * carve_state) :=
  r ← arr Comb j;
  let p := cv_part c in
  if (StartAddr r <=? Base p) && (ram_end p <=? region_end r)
  then mret (true, with_part p true c)
  else if StartAddr r >? ram_end p then mret (true, c)
  else if region_end r <? Base p then mret (false, c)
  else if (Base p <=? StartAddr r) && (region_end r <=? ram_end p) then carve_inside r c
  else if (StartAddr r >? Base p) && (region_end r >? ram_end p) then
    c ← emit (mkRam (Base p) (u64 (StartAddr r - Base p))) c;
    mret (true, with_part p true c)
  else if (StartAddr r <? Base p) && (region_end r <? ram_end p) then
    mret (false, with_part (mkRam (region_end r) (u64 (ram_end p - region_end r))) (cv_checked c) c)
  else mret (false, c).

(** The body of the loop over the partitions. *)
Definition carve_partition (RamPartitions : list RamPartitionEntry)
    (Comb : list CarveoutMemRegion) (NumCombNoMapReg i : Z) (st : Z * list RamPartitionEntry) :
    M S (EFI_STATUS * list RamPartitionEntry * option Z) (bool * (Z * list RamPartitionEntry)) :=
  p ← arr RamPartitions i;
  if AvailableLength p =? 0 then
    c ← emit p (mkCarve p false st.1 st.2);
    mret (false, (cv_num c, cv_updated c))
  else
    c ← for_up (Z.to_nat NumCombNoMapReg) 0 (mkCarve p false st.1 st.2) (carve_step Comb);
    c ← (if cv_checked c then mret c else emit (cv_part c) c);
    if NUM_RAM_PARTITIONS <=? cv_num c then early (EFI_OUT_OF_RESOURCES, cv_updated c, None)
    else mret (false, (cv_num c, cv_updated c)).
End Arrays.

Section Carveout.
Context {R : Type}.
Variable pool : Z -> bool.
Abbreviation MN := (M (list FDT_FIRST_LEVEL_NODE)).

(** Returns the status, [UpdatedRamPartitions] and [*NumUpdRamPartitions] when
    it is set. *)
Definition UpdateRamPartitions (RamPartitionsList : list RamPartitionEntry) (NumPartitions : Z)
    (CombNoMapRegions : list CarveoutMemRegion) (NumCombNoMapReg : Z)
    (UpdatedRamPartitions : list RamPartitionEntry) :
    MN (EFI_STATUS * list RamPartitionEntry * option Z)
       (EFI_STATUS * list RamPartitionEntry * option Z) :=
  if negb (pool (NumPartitions * RAM_ENTRY_SIZE))
  then mret (EFI_OUT_OF_RESOURCES, UpdatedRamPartitions, None)
  else
    RamPartitions ← need OutOfBounds
      (if NumPartitions <=? Z.of_nat (length RamPartitionsList)
       then Some (take (Z.to_nat NumPartitions) RamPartitionsList) else None);
    st ← for_up (Z.to_nat NumPartitions) 0 (0, UpdatedRamPartitions)
           (carve_partition RamPartitions CombNoMapRegions NumCombNoMapReg);
    mret (EFI_SUCCESS, st.2, Some st.1).

(** ** Reading the regions *)

Section Read.
Variable Fdt : list Z.
(** The bytes that follow the string literals in memory. *)
Variable rodata : list Z.

(** Returns the status and [*MemoryCellLen] when it is set. *)
Definition QueryMemoryCellSize : MN R (EFI_STATUS * option Z) :=
  RootOffset ← fdt_path_offset Fdt (L "/");
  if RootOffset <? 0 then mret (EFI_NOT_FOUND, None)
  else
    Prop1 ← fdt_getprop Fdt RootOffset (L "#address-cells");
    match Prop1 with
    | (Some Prop1, PropLen) =>
        if PropLen >? 0 then
          AddrCellSize ← fdt32 Fdt Prop1;
          Prop2 ← fdt_getprop Fdt RootOffset (L "#size-cells");
          match Prop2 with
          | (Some Prop2, PropLen) =>
              if PropLen >? 0 then
                SizeCellSize ← fdt32 Fdt Prop2;
                if (AddrCellSize >? DEFAULT_CELL_SIZE) || (SizeCellSize >? DEFAULT_CELL_SIZE)
                   || (SizeCellSize =? 0) || (AddrCellSize =? 0)
                then mret (EFI_INVALID_PARAMETER, None)
                else if AddrCellSize =? SizeCellSize then mret (EFI_SUCCESS, Some AddrCellSize)
                else mret (EFI_INVALID_PARAMETER, None)
              else mret (EFI_NOT_FOUND, None)
          | (None, _) => mret (EFI_NOT_FOUND, None)
          end
        else mret (EFI_NOT_FOUND, None)
    | (None, _) => mret (EFI_NOT_FOUND, None)
    end.

Definition IsCarveoutRemovalEnabled : MN R bool :=
  ResMemOffset ← FdtPathOffset pool Fdt (literal rodata "/reserved-memory");
  if ResMemOffset <? 0 then mret false
  else
    p ← fdt_get_property Fdt ResMemOffset (L "removes_carveout_region");
    mret (bool_decide (is_Some p.1)).

(** [AsciiStrnCmp (status, "disabled", PropLen)] reads the property. *)
Definition status_disabled (status PropLen : Z) : MN R bool :=
  b ← need OutOfBounds (buf_read Fdt status PropLen);
  mret (AsciiStrnCmp b (L "disabled") PropLen =? 0).

(** The [reg] of one subnode, [None] when it is passed over. *)
Definition no_map_reg (SubNodeOffset : Z) : MN R (option Z) :=
  p ← fdt_get_property Fdt SubNodeOffset (L "no-map");
  match p.1 with
  | None => mret None
  | Some _ =>
      s ← fdt_getprop Fdt SubNodeOffset (L "status");
      d ← (match s.1 with
           | Some status => status_disabled status s.2
           | None => mret false
           end);
      if (d : bool) then mret None
      else RegProp ← fdt_getprop Fdt SubNodeOffset (L "reg"); mret RegProp.1
  end.

Fixpoint no_map_loop (fuel : nat) (SubNodeOffset NumReg : Z) (NoMapRegs : list CarveoutMemRegion) :
    MN R (EFI_STATUS * list CarveoutMemRegion * Z) :=
  match fuel with
  | O => stop Forever
  | Datatypes.S fuel' =>
      if SubNodeOffset <? 0 then mret (EFI_SUCCESS, NoMapRegs, NumReg)
      else
        RegProp ← no_map_reg SubNodeOffset;
        match RegProp with
        | None =>
            next ← fdt_next_subnode Fdt SubNodeOffset;
            no_map_loop fuel' next NumReg NoMapRegs
        | Some RegProp =>
            if NUM_NOMAP_REGIONS <=? NumReg then mret (EFI_OUT_OF_RESOURCES, NoMapRegs, 0)
            else
              start ← fdt64 Fdt RegProp;
              size ← fdt64 Fdt (RegProp + 8);
              NoMapRegs ← arr_set NoMapRegs NumReg (mkRegion start size);
              next ← fdt_next_subnode Fdt SubNodeOffset;
              no_map_loop fuel' next (NumReg + 1) NoMapRegs
        end
  end.

(** Returns the status, [NoMapRegs] and [*NumNoMapReg], which the caller has
    set to 0. *)
Definition GetNoMapRegions (NoMapRegs : list CarveoutMemRegion) :
    MN R (EFI_STATUS * list CarveoutMemRegion * Z) :=
  ResMemOffset ← FdtPathOffset pool Fdt (literal rodata "/reserved-memory");
  if ResMemOffset <? 0 then mret (EFI_NOT_FOUND, NoMapRegs, 0)
  else
    SubNodeOffset ← fdt_first_subnode Fdt ResMemOffset;
    no_map_loop (fdt_rounds Fdt) SubNodeOffset 0 NoMapRegs.
End Read.

(** The whole of it; [stack1] and [stack2] are the contents the local arrays
    start with, and the result is the status, [UpdatedRamPartitions] and
    [*NumUpdPartitions] when it is set. *)
Definition GetUpdatedRamPartitions (Fdt rodata : list Z)
    (stack1 stack2 : list CarveoutMemRegion)
    (RamPartitions : list RamPartitionEntry) (NumPartitions : Z)
    (UpdatedRamPartitions : list RamPartitionEntry) :
    MN R (EFI_STATUS * list RamPartitionEntry * option Z) :=
  r ← GetNoMapRegions Fdt rodata stack1;
  let '(Status, NoMapRegions, NumNoMapReg) := r in
  if negb (Status =? EFI_SUCCESS) then mret (Status, UpdatedRamPartitions, None)
  else
    NoMapRegions ← SortNoMapRegions NoMapRegions NumNoMapReg;
    r ← call (CombineNoMapRegions NoMapRegions NumNoMapReg stack2);
    let '(Status, CombinedNoMapRegions, NumComb) := r in
    if negb (Status =? EFI_SUCCESS) then mret (Status, UpdatedRamPartitions, None)
    else
      call (UpdateRamPartitions RamPartitions NumPartitions CombinedNoMapRegions
              (default 0 NumComb) UpdatedRamPartitions).
End Carveout.
