(* ===== verification/CarveSpec.v ===== *)
(** The no-map regions: the bubble sort that orders them by address, and what
    joining them and taking them out of the RAM partitions does to the set of
    addresses. *)
From Stdlib Require Import ZArith Lia.
From stdpp Require Import base list numbers option sets sorting.
From S2P Require Import Prelude EfiBase Fdt FdtRw Carveout.

Definition below_start (a b : CarveoutMemRegion) : Prop := StartAddr a <= StartAddr b.
Definition by_start : list CarveoutMemRegion -> Prop := StronglySorted below_start.

(** * Array accesses *)

Section Arr.
Context {S R A : Type}.
Implicit Types (s : S) (a : list A).

Lemma arr_app pre x post s :
  arr (R := R) (pre ++ x :: post) (Z.of_nat (length pre)) s = (Go (x : A), s).
Proof.
  unfold arr. rewrite (proj2 (Z.leb_le 0 (Z.of_nat (length pre)))) by lia.
  by rewrite Nat2Z.id, list_lookup_middle.
Qed.

Lemma arr_lookup a i x s : a !! i = Some x -> arr (R := R) a (Z.of_nat i) s = (Go x, s).
Proof.
  intros Hi. unfold arr. rewrite (proj2 (Z.leb_le 0 (Z.of_nat i))) by lia. by rewrite Nat2Z.id, Hi.
Qed.

Lemma arr_set_in a i x s :
  (i < length a)%nat -> arr_set (R := R) a (Z.of_nat i) x s = (Go (<[i := x]> a), s).
Proof.
  intros Hi. unfold arr_set.
  rewrite (proj2 (Z.leb_le 0 (Z.of_nat i))), (proj2 (Z.ltb_lt _ _)) by lia. by rewrite Nat2Z.id.
Qed.
End Arr.

(** * One pass *)

Fixpoint pass (k : nat) (l : list CarveoutMemRegion) : list CarveoutMemRegion :=
  match k, l with
  | Datatypes.S k', x :: y :: l' =>
      if StartAddr x >? StartAddr y then y :: pass k' (x :: l') else x :: pass k' (y :: l')
  | _, _ => l
  end.

Lemma pass_perm k l : pass k l ≡ₚ l.
Proof.
  revert l. induction k as [|k IH]; intros l; [done|]. destruct l as [|x [|y l]]; [done..|].
  cbn [pass]. case_match; rewrite IH; [apply perm_swap|done].
Qed.

Lemma length_pass k l : length (pass k l) = length l.
Proof. by rewrite pass_perm. Qed.

Lemma pass_app k f b : length f = S k -> pass k (f ++ b) = pass k f ++ b.
Proof.
  revert f. induction k as [|k IH]; intros f Hf; [done|].
  destruct f as [|x [|y f]]; try done. cbn [app pass].
  case_match; rewrite app_comm_cons, IH by (simpl in *; lia); done.
Qed.

(** The largest entry ends up behind the others. *)
Lemma pass_last k l :
  length l = S k -> exists front m, pass k l = front ++ [m] /\ length front = k /\
    Forall (fun x => below_start x m) front.
Proof.
  revert l. induction k as [|k IH]; intros l Hl.
  - destruct l as [|x [|]]; try done. by exists [], x.
  - destruct l as [|x [|y l]]; try done. cbn [pass].
    assert (Hgo : forall a c, below_start c a -> exists front m,
      c :: pass k (a :: l) = front ++ [m] /\ length front = S k /\
      Forall (fun x => below_start x m) front).
    { intros a c Hca. destruct (IH (a :: l)) as (front & m & Hp & Hlen & Hf); [simpl in *; lia|].
      exists (c :: front), m. rewrite Hp. split_and!; [done|simpl; lia|]. constructor; [|done].
      assert (Ha : a ∈ front ++ [m]) by (rewrite <- Hp, pass_perm; set_solver).
      unfold below_start in *. rewrite Forall_forall in Hf.
      apply elem_of_app in Ha as [Ha|Ha]; [apply Hf in Ha; lia|]. set_unfold. destruct Ha; naive_solver. }
    case_match eqn:E; rewrite Z.gtb_ltb in E; bools; apply Hgo; unfold below_start; lia.
Qed.

Section Pass.
Context {S R : Type}.
Implicit Types (s : S).

(** The inner loop is a pass, and [IsSorted] says that it met no disorder. *)
Lemma pass_loop m : forall pre l b s,
  (m < length l)%nat -> Z.of_nat (length (pre ++ l)) < 2 ^ 32 ->
  exists b', for_up (R := R) m (Z.of_nat (length pre)) (b, pre ++ l) sort_step s =
      (Go (b', pre ++ pass m l), s) /\
    (b' = true -> b = true /\ pass m l = l /\
       forall i x y, (i < m)%nat -> l !! i = Some x -> l !! (Datatypes.S i) = Some y -> below_start x y).
Proof.
  induction m as [|m IH]; intros pre l b s Hm Hmax.
  - exists b. split; [done|]. intros ->. split_and!; [done|by destruct l as [|? [|]]|lia].
  - destruct l as [|x [|y l]]; [simpl in Hm; lia..|]. cbn [for_up pass].
    rewrite length_app in Hmax. simpl length in Hmax.
    assert (Hj : u32 (Z.of_nat (length pre) + 1) = Z.of_nat (length (pre ++ [x])))
      by (rewrite u32_small, length_app by lia; simpl; lia).
    assert (Hx : arr (R := R) (pre ++ x :: y :: l) (Z.of_nat (length pre)) s = (Go x, s)) by apply arr_app.
    assert (Hy : arr (R := R) (pre ++ x :: y :: l) (u32 (Z.of_nat (length pre) + 1)) s = (Go y, s)).
    { rewrite Hj. pose proof (arr_app (S := S) (R := R) (pre ++ [x]) y l s) as Ha.
      by rewrite <- app_assoc in Ha. }
    assert (Hnext : forall a c b1, exists b', for_up (R := R) m (Z.of_nat (length pre) + 1)
      (b1, pre ++ c :: a :: l) sort_step s = (Go (b', pre ++ c :: pass m (a :: l)), s) /\
      (b' = true -> b1 = true /\ pass m (a :: l) = a :: l /\
       forall i x y, (i < m)%nat -> (a :: l) !! i = Some x -> (a :: l) !! (Datatypes.S i) = Some y ->
         below_start x y)).
    { intros a c b1. destruct (IH (pre ++ [c]) (a :: l) b1 s) as (b' & Hr & Hb);
        [simpl in *; lia|rewrite !length_app; simpl; lia|].
      exists b'. split; [|exact Hb]. rewrite length_app, <- !app_assoc in Hr. simpl in Hr.
      rewrite <- Hr. f_equal. lia. }
    assert (Hstep : sort_step (R := R) (Z.of_nat (length pre)) (b, pre ++ x :: y :: l) s =
      (Go (false, if StartAddr x >? StartAddr y then (false, pre ++ y :: x :: l)
                  else (b, pre ++ x :: y :: l)), s)).
    { unfold sort_step. rewrite (bind_go _ _ _ _ _ Hx), (bind_go _ _ _ _ _ Hy). case_match; [|done].
      erewrite bind_go by (apply arr_set_in; rewrite length_app; simpl; lia).
      rewrite Hj. erewrite bind_go by (apply arr_set_in; rewrite length_insert, !length_app; simpl; lia).
      rewrite insert_app_r_alt, Nat.sub_diag by lia. simpl.
      rewrite length_app. simpl. rewrite insert_app_r_alt by lia.
      by replace (length pre + 1 - length pre)%nat with 1%nat by lia. }
    rewrite (bind_go _ _ _ _ _ Hstep). cbn [fst snd]. case_match eqn:E.
    + destruct (Hnext x y false) as (b' & Hr & Hb). exists b'. split; [exact Hr|].
      intros Hb'. by apply Hb in Hb' as [? _].
    + destruct (Hnext y x b) as (b' & Hr & Hb). exists b'. split; [exact Hr|].
      intros Hb'. destruct (Hb Hb') as (-> & Hp & Hs). split_and!; [done|by rewrite Hp|].
      intros [|i] a c Hi Ha Hc; simplify_eq/=.
      * rewrite Z.gtb_ltb in E. bools. done.
      * eapply Hs; [|done..]. lia.
Qed.
End Pass.

#[global] Instance below_start_trans : Transitive below_start.
Proof. unfold below_start. intros x y z. lia. Qed.

Lemma neighbours_sorted l :
  (forall i x y, l !! i = Some x -> l !! (S i) = Some y -> below_start x y) -> by_start l.
Proof.
  intros Hl. apply Sorted_StronglySorted; [apply _|].
  induction l as [|x l IH]; [constructor|]. constructor.
  - apply IH. intros i a b Ha Hb. by apply (Hl (S i)).
  - destruct l as [|y l]; constructor. by apply (Hl 0%nat).
Qed.

(** What the passes have left behind is in place. *)
Definition settled (f b : list CarveoutMemRegion) : Prop :=
  by_start b /\ forall x y, x ∈ f -> y ∈ b -> below_start x y.

Section Sort.
Context {S R : Type}.
Implicit Types (s : S).

Definition sort_body (n : Z) (i : Z) (st : bool * list CarveoutMemRegion) :
    M S R (bool * (bool * list CarveoutMemRegion)) :=
  st ← for_up (Z.to_nat (u32 (n - i - 1))) 0 st sort_step;
  mret (st.1, st).

Lemma sort_loop m : forall f b rest flag s,
  length f = Datatypes.S m -> settled f b -> Z.of_nat (length ((f ++ b) ++ rest)) < 2 ^ 32 ->
  exists flag' l', for_up (R := R) m (Z.of_nat (length b)) (flag, (f ++ b) ++ rest)
      (sort_body (Z.of_nat (length (f ++ b)))) s = (Go (flag', l' ++ rest), s) /\
    l' ≡ₚ f ++ b /\ by_start l'.
Proof.
  induction m as [|m IH]; intros f b rest flag s Hf [Hb Hfb] Hmax.
  - exists flag, (f ++ b). split; [done|]. split; [done|]. apply StronglySorted_app_2; [done| |done].
    destruct f as [|x [|]]; try done. repeat constructor.
  - cbn [for_up]. pose proof Hmax as Hmax'. rewrite !length_app in Hmax'.
    assert (Hn : Z.to_nat (u32 (Z.of_nat (length (f ++ b)) - Z.of_nat (length b) - 1)) = Datatypes.S m)
      by (rewrite length_app, u32_small by lia; lia).
    destruct (pass_loop (R := R) (Datatypes.S m) [] ((f ++ b) ++ rest) flag s) as (flag' & Hp & Hflag);
      [rewrite !length_app; lia|done|].
    rewrite <- app_assoc, (pass_app (Datatypes.S m) f) in Hp, Hflag by lia.
    assert (Hbody : sort_body (Z.of_nat (length (f ++ b))) (Z.of_nat (length b)) (flag, f ++ b ++ rest) s
      = (Go (flag', (flag', pass (Datatypes.S m) f ++ b ++ rest)), s)).
    { unfold sort_body. rewrite Hn. erewrite bind_go by exact Hp. done. }
    rewrite <- app_assoc, (bind_go _ _ _ _ _ Hbody). cbn [fst snd]. destruct flag'.
    + destruct (Hflag eq_refl) as (_ & Hsame & Hnb). exists true, (f ++ b).
      assert (Hpf : pass (Datatypes.S m) f = f) by by apply app_inj_1 in Hsame as [? _]; [|by rewrite length_pass].
      rewrite Hpf, <- app_assoc. split; [done|]. split; [done|].
      apply StronglySorted_app_2; [done| |done]. apply neighbours_sorted. intros i x y Hx Hy.
      pose proof (lookup_lt_Some _ _ _ Hy). apply (Hnb i); [lia| |];
        by rewrite lookup_app_l by (eapply lookup_lt_Some; eauto).
    + destruct (pass_last (Datatypes.S m) f) as (front & mx & Hpl & Hlf & Hall); [done|].
      assert (Hperm : front ++ mx :: b ≡ₚ f ++ b).
      { rewrite <- (pass_perm (Datatypes.S m) f), Hpl. by rewrite <- app_assoc. }
      destruct (IH front (mx :: b) rest false s) as (fl & l' & Hr & Hl' & Hs); [done| | |].
      * assert (Hmf : forall x, x ∈ front ++ [mx] -> x ∈ f) by (intros x; by rewrite <- Hpl, pass_perm).
        split.
        -- constructor; [done|]. apply Forall_forall. intros y Hy. apply Hfb; [apply Hmf|]; set_solver.
        -- intros x y Hx Hy. apply elem_of_cons in Hy as [->|Hy].
           ++ rewrite Forall_forall in Hall. by apply Hall.
           ++ apply Hfb; [apply Hmf|]; set_solver.
      * rewrite length_app, Hperm. by rewrite <- length_app.
      * exists fl, l'. split; [|split; [by rewrite Hl'|done]].
        rewrite <- Hr. rewrite Hpl. simpl length.
        replace (Z.of_nat (Datatypes.S (length b))) with (Z.of_nat (length b) + 1) by lia.
        replace (length (front ++ mx :: b)) with (length (f ++ b)) by (by rewrite Hperm).
        by rewrite <- !app_assoc.
Qed.

(** The sort of the first [n] entries of an array. *)
Lemma SortNoMapRegions_sorts l rest s :
  l <> [] -> Z.of_nat (length (l ++ rest)) < 2 ^ 32 ->
  exists l', SortNoMapRegions (R := R) (l ++ rest) (Z.of_nat (length l)) s = (Go (l' ++ rest), s) /\
    l' ≡ₚ l /\ by_start l'.
Proof.
  intros Hne Hmax. rewrite length_app in Hmax.
  assert (Hl : (0 < length l)%nat) by (destruct l; [done|simpl; lia]).
  destruct (sort_loop (length l - 1) l [] rest true s) as (fl & l' & Hr & Hp & Hs).
  - lia.
  - split; [constructor|set_solver].
  - rewrite app_nil_r, length_app. lia.
  - rewrite app_nil_r in *. exists l'. split; [|done]. unfold SortNoMapRegions.
    replace (Z.to_nat (u32 (Z.of_nat (length l) - 1))) with (length l - 1)%nat
      by (rewrite u32_small by lia; lia).
    by erewrite bind_go by exact Hr.
Qed.
End Sort.

(** * No regions at all *)

Section Overrun.
Context {S R : Type}.
Implicit Types (s : S).

Lemma sort_overrun m : forall j a b s,
  (j < length a)%nat -> (length a <= j + m)%nat -> Z.of_nat (length a) < 2 ^ 32 ->
  for_up (R := R) m (Z.of_nat j) (b, a) sort_step s = (Halt OutOfBounds, s).
Proof.
  induction m as [|m IH]; intros j a b s Hj Hm Hmax; [lia|]. cbn [for_up].
  destruct (lookup_lt_is_Some_2 a j Hj) as [x Hx].
  assert (Hu : u32 (Z.of_nat j + 1) = Z.of_nat (Datatypes.S j)) by (rewrite u32_small by lia; lia).
  destruct (decide (Datatypes.S j < length a)%nat) as [Hlt|Hge].
  - destruct (lookup_lt_is_Some_2 a _ Hlt) as [y Hy].
    assert (Hstep : exists b' a', sort_step (R := R) (Z.of_nat j) (b, a) s = (Go (false, (b', a')), s)
      /\ length a' = length a).
    { unfold sort_step. rewrite (bind_go _ _ _ _ _ (arr_lookup _ _ _ _ Hx)), Hu.
      rewrite (bind_go _ _ _ _ _ (arr_lookup _ _ _ _ Hy)). case_match; [|by do 2 eexists].
      erewrite bind_go by by apply arr_set_in.
      erewrite bind_go by (apply arr_set_in; by rewrite length_insert).
      do 2 eexists. split; [done|]. by rewrite !length_insert. }
    destruct Hstep as (b' & a' & Hs & Hl). rewrite (bind_go _ _ _ _ _ Hs). cbn [fst snd].
    replace (Z.of_nat j + 1) with (Z.of_nat (Datatypes.S j)) by lia. apply IH; lia.
  - apply bind_halt. unfold sort_step. rewrite (bind_go _ _ _ _ _ (arr_lookup _ _ _ _ Hx)).
    apply bind_halt. rewrite Hu. unfold arr.
    rewrite (proj2 (Z.leb_le 0 (Z.of_nat (Datatypes.S j)))) by lia.
    rewrite Nat2Z.id, (proj2 (lookup_ge_None a (Datatypes.S j))) by lia. done.
Qed.

(** With no region in it the array is read to its end and beyond. *)
Lemma SortNoMapRegions_none a s :
  a <> [] -> Z.of_nat (length a) < 2 ^ 32 ->
  SortNoMapRegions (R := R) a 0 s = (Halt OutOfBounds, s).
Proof.
  intros Hne Hmax. unfold SortNoMapRegions. apply bind_halt.
  assert (H0 : (0 < length a)%nat) by (destruct a; [done|simpl; lia]).
  change (u32 (0 - 1)) with (2 ^ 32 - 1).
  destruct (Z.to_nat (2 ^ 32 - 1)) as [|m] eqn:Em; [lia|]. cbn [for_up].
  apply bind_halt, bind_halt. change (u32 (0 - 0 - 1)) with (2 ^ 32 - 1). rewrite Em.
  apply (sort_overrun _ 0); lia.
Qed.
End Overrun.

(** * Addresses *)

Definition in_region (r : CarveoutMemRegion) (x : Z) : Prop :=
  StartAddr r <= x < StartAddr r + Size r.
Definition in_ram (p : RamPartitionEntry) (x : Z) : Prop :=
  Base p <= x < Base p + AvailableLength p.
Definition reserved (rs : list CarveoutMemRegion) (x : Z) : Prop := exists r, r ∈ rs /\ in_region r x.
Definition usable (ps : list RamPartitionEntry) (x : Z) : Prop := exists p, p ∈ ps /\ in_ram p x.

(** The end of a region or a partition is an address. *)
Definition region_ok (r : CarveoutMemRegion) : Prop :=
  0 <= StartAddr r /\ 0 <= Size r /\ StartAddr r + Size r < 2 ^ 64.
Definition ram_ok (p : RamPartitionEntry) : Prop :=
  0 <= Base p /\ 0 <= AvailableLength p /\ Base p + AvailableLength p < 2 ^ 64.

Lemma region_end_ok r : region_ok r -> region_end r = StartAddr r + Size r.
Proof. unfold region_ok, region_end. intros. apply u64_small. lia. Qed.
Lemma ram_end_ok p : ram_ok p -> ram_end p = Base p + AvailableLength p.
Proof. unfold ram_ok, ram_end. intros. apply u64_small. lia. Qed.

Lemma reserved_nil x : ~ reserved [] x.
Proof. intros (r & Hr & _). set_solver. Qed.
Lemma reserved_cons r rs x : reserved (r :: rs) x <-> in_region r x \/ reserved rs x.
Proof. unfold reserved. set_solver. Qed.
Lemma reserved_app a b x : reserved (a ++ b) x <-> reserved a x \/ reserved b x.
Proof. unfold reserved. set_solver. Qed.
Lemma usable_nil x : ~ usable [] x.
Proof. intros (r & Hr & _). set_solver. Qed.
Lemma usable_cons p ps x : usable (p :: ps) x <-> in_ram p x \/ usable ps x.
Proof. unfold usable. set_solver. Qed.
Lemma usable_app a b x : usable (a ++ b) x <-> usable a x \/ usable b x.
Proof. unfold usable. set_solver. Qed.

#[global] Instance reserved_proper : Proper (Permutation ==> eq ==> iff) reserved.
Proof. intros a b Hab x y ->. unfold reserved. by setoid_rewrite Hab. Qed.

(** * Joining *)

(** Ordered regions of which none ends before one that starts earlier. *)
Definition no_nesting (rs : list CarveoutMemRegion) : Prop :=
  forall a b, a ∈ rs -> b ∈ rs -> StartAddr a <= StartAddr b ->
    StartAddr a + Size a <= StartAddr b + Size b.

(** Regions with a gap between any two. *)
Definition apart (a b : CarveoutMemRegion) : Prop := StartAddr a + Size a < StartAddr b.

Section Join.
Context {S : Type}.
Context (l rest : list CarveoutMemRegion).
Context (Hsort : by_start l) (Hok : Forall region_ok l) (Hnest : no_nesting l).
Context (Hmax : Z.of_nat (length l) <= NUM_NOMAP_REGIONS).

(** The regions joined after the first [i + 1]: those that are complete, and
    the one that is being built. *)
Record built (i : nat) (done : list CarveoutMemRegion) (cur : CarveoutMemRegion) : Prop := {
  bu_len : (length done <= i)%nat;
  bu_ok : Forall region_ok (done ++ [cur]);
  bu_end : exists r, l !! i = Some r /\ StartAddr cur <= StartAddr r /\
    StartAddr cur + Size cur = StartAddr r + Size r;
  bu_apart : StronglySorted apart (done ++ [cur]);
  bu_cover : forall x, reserved (done ++ [cur]) x <-> reserved (take (Datatypes.S i) l) x;
  bu_starts : sublist (map StartAddr (done ++ [cur])) (map StartAddr (take (Datatypes.S i) l));
}.

Lemma built_next i done cur n :
  built i done cur -> l !! Datatypes.S i = Some n ->
  region_ok n /\ region_ok cur /\ StartAddr cur <= StartAddr n /\
  StartAddr cur + Size cur <= StartAddr n + Size n.
Proof.
  intros [_ Hcok (r & Hr & Hrs & Hre) _ _ _] Hn.
  assert (Hrn : StartAddr r <= StartAddr n).
  { rewrite <- (take_drop_middle l i r Hr) in Hsort. apply StronglySorted_app_1_r in Hsort.
    apply StronglySorted_inv in Hsort as [_ Hf]. rewrite Forall_lookup in Hf.
    apply (Hf 0%nat). by rewrite lookup_drop, Nat.add_0_r. }
  apply Forall_app in Hcok as [_ Hcok]. apply Forall_cons in Hcok as [Hcok _].
  assert (StartAddr r + Size r <= StartAddr n + Size n)
    by (apply Hnest; eauto using list_elem_of_lookup_2).
  rewrite Forall_lookup in Hok. split_and!; [eauto|done|lia|lia].
Qed.

(** The next region touches the one being built, or overlaps it. *)
Lemma built_touch i done cur n :
  built i done cur -> l !! Datatypes.S i = Some n -> StartAddr n <= StartAddr cur + Size cur ->
  built (Datatypes.S i) done (mkRegion (StartAddr cur) (StartAddr n + Size n - StartAddr cur)).
Proof.
  intros Hb Hn Ht. destruct (built_next _ _ _ _ Hb Hn) as (Hno & Hco & Hs & He).
  destruct Hb as [Hl Hbo _ Hap Hcov Hsub]. unfold region_ok in *. split.
  - lia.
  - apply Forall_app in Hbo as [? _]. apply Forall_app. split; [done|]. repeat constructor; simpl; lia.
  - exists n. simpl. split_and!; [done|lia|lia].
  - apply StronglySorted_app in Hap as (H1 & H2 & _).
    apply StronglySorted_app_2; [|done|repeat constructor]. intros x1 x2 Hx1 Hx2.
    apply list_elem_of_singleton in Hx2 as ->. apply (H1 x1 cur Hx1). set_solver.
  - intros x. specialize (Hcov x). rewrite (take_S_r _ _ _ Hn), !reserved_app, !reserved_cons in *.
    assert (Hin : in_region (mkRegion (StartAddr cur) (StartAddr n + Size n - StartAddr cur)) x <->
      in_region cur x \/ in_region n x) by (unfold in_region; simpl; lia).
    pose proof (reserved_nil x). tauto.
  - rewrite (take_S_r _ _ _ Hn), map_app. rewrite map_app in *. apply sublist_inserts_r. exact Hsub.
Qed.

(** The next region starts behind a gap. *)
Lemma built_gap i done cur n :
  built i done cur -> l !! Datatypes.S i = Some n -> StartAddr cur + Size cur < StartAddr n ->
  built (Datatypes.S i) (done ++ [cur]) n.
Proof.
  intros Hb Hn Ht. destruct (built_next _ _ _ _ Hb Hn) as (Hno & Hco & Hs & He).
  destruct Hb as [Hl Hbo _ Hap Hcov Hsub]. split.
  - rewrite length_app. simpl. lia.
  - apply Forall_app. split; [done|]. by constructor.
  - exists n. split_and!; [done|lia|lia].
  - apply StronglySorted_app_2; [|done|repeat constructor]. intros x1 x2 Hx1 Hx2.
    apply list_elem_of_singleton in Hx2 as ->. unfold apart.
    apply elem_of_app in Hx1 as [Hx1|Hx1]; [|by apply list_elem_of_singleton in Hx1 as ->].
    apply (StronglySorted_app_1_elem_of _ _ _ x1 cur) in Hap; [unfold apart in Hap|done|set_solver].
    unfold region_ok in Hco. lia.
  - intros x. specialize (Hcov x). rewrite (take_S_r _ _ _ Hn), !reserved_app in *. tauto.
  - rewrite (take_S_r _ _ _ Hn), !(map_app _ _ [n]). by apply sublist_app.
Qed.

(** The locals of the loop hold what is built. *)
Definition joined (i : nat) (c : combine_state) : Prop :=
  exists done cur junk, built i done cur /\ cb_Regions c = done ++ cur :: junk /\
    cb_NumReg c = Z.of_nat (length done) /\ cb_Start c = StartAddr cur /\
    length (cb_Regions c) = Z.to_nat NUM_NOMAP_REGIONS.

Lemma set_end_joined i c n (s : S) {R} :
  joined i c -> l !! Datatypes.S i = Some n ->
  (forall r, l !! i = Some r -> StartAddr n <= StartAddr r + Size r) ->
  exists c', set_end (R := R) c (StartAddr n + Size n) s = (Go c', s) /\ joined (Datatypes.S i) c'.
Proof.
  intros (done & cur & junk & Hb & Hregs & Hnum & Hst & Hlen) Hn Ht.
  destruct (built_next _ _ _ _ Hb Hn) as (Hno & Hco & Hs & He). unfold region_ok in *.
  unfold set_end. rewrite Hregs, Hnum. erewrite bind_go by apply arr_app.
  erewrite bind_go by (apply arr_set_in; rewrite length_app; simpl; lia).
  eexists. split; [done|]. rewrite Hst, u64_small by lia.
  rewrite insert_app_r_alt, Nat.sub_diag by lia. cbn [insert list_insert].
  eexists done, _, junk. split_and!; [|done|done|done|].
  - apply built_touch; [done|done|]. destruct (bu_end _ _ _ Hb) as (r & Hr & _ & Hre).
    rewrite Hre. by apply Ht.
  - simpl. rewrite Hregs in Hlen. by rewrite length_app in *.
Qed.

Lemma combine_step_joined i c (s : S) :
  (Datatypes.S i < length l)%nat -> joined i c ->
  exists c', combine_step (l ++ rest) (Z.of_nat i) c s = (Go (false, c'), s) /\ joined (Datatypes.S i) c'.
Proof.
  intros Hi Hj. pose proof Hj as (done & cur & junk & Hb & Hregs & Hnum & Hst & Hlen).
  destruct (lookup_lt_is_Some_2 l _ Hi) as [n Hn].
  destruct (bu_end _ _ _ Hb) as (r & Hr & Hrs & Hre). pose proof (bu_len _ _ _ Hb) as Hdl.
  destruct (built_next _ _ _ _ Hb Hn) as (Hno & Hco & Hs & He).
  assert (Hro : region_ok r) by (rewrite Forall_lookup in Hok; eauto).
  unfold combine_step. unfold NUM_NOMAP_REGIONS in *.
  erewrite bind_go by (apply arr_lookup; rewrite lookup_app_l by lia; exact Hr).
  replace (u32 (Z.of_nat i + 1)) with (Z.of_nat (Datatypes.S i)) by (rewrite u32_small by lia; lia).
  erewrite bind_go by (apply arr_lookup; rewrite lookup_app_l by lia; exact Hn).
  rewrite !region_end_ok by done.
  assert (Htouch : StartAddr n <= StartAddr r + Size r ->
    exists c', (c0 ← set_end c (StartAddr n + Size n); mret (false, c0) :
      M S (EFI_STATUS * list CarveoutMemRegion * option Z) _) s =
      (Go (false, c'), s) /\ joined (Datatypes.S i) c').
  { intros Ht. destruct (set_end_joined (R := EFI_STATUS * list CarveoutMemRegion * option Z) i c n s Hj Hn)
      as (c' & Hc' & Hj'); [intros r' Hr'; by simplify_eq|].
    exists c'. by rewrite (bind_go _ _ _ _ _ Hc'). }
  destruct (Z.eqb_spec (StartAddr n) (StartAddr r + Size r)) as [He'|He']; [apply Htouch; lia|].
  rewrite Z.gtb_ltb. destruct (Z.ltb_spec (StartAddr r + Size r) (StartAddr n)) as [Hlt|Hge];
    [|rewrite (proj2 (Z.ltb_lt _ _)) by lia; apply Htouch; lia].
  rewrite (proj2 (Z.leb_gt _ _)) by lia. rewrite Hnum, Hregs. rewrite Hregs, length_app in Hlen.
  destruct junk as [|j0 junk]; [simpl in Hlen; lia|].
  replace (Z.of_nat (length done) + 1) with (Z.of_nat (Datatypes.S (length done))) by lia.
  erewrite bind_go by (apply arr_set_in; rewrite length_app; simpl; lia).
  eexists. split; [done|]. exists (done ++ [cur]), n, junk. cbn [cb_Regions cb_NumReg cb_Start].
  unfold region_ok in Hno. rewrite u64_small by lia.
  replace (StartAddr n + Size n - StartAddr n) with (Size n) by lia.
  rewrite insert_app_r_alt by lia. replace (Datatypes.S (length done) - length done)%nat with 1%nat by lia.
  rewrite <- app_assoc, !length_app. destruct n as [ns nsz]. cbn [length insert list_insert app] in *.
  unfold NUM_NOMAP_REGIONS. split_and!; [|done|lia|done|lia].
  apply built_gap; [done|done|]. simpl in *. lia.
Qed.

(** Joining keeps the addresses and leaves gaps. *)
Lemma CombineNoMapRegions_joins comb (s : S) :
  l <> [] -> length comb = Z.to_nat NUM_NOMAP_REGIONS ->
  exists o junk, CombineNoMapRegions (l ++ rest) (Z.of_nat (length l)) comb s =
      (Go (EFI_SUCCESS, o ++ junk, Some (Z.of_nat (length o))), s) /\
    sublist (map StartAddr o) (map StartAddr l) /\ Forall region_ok o /\ StronglySorted apart o /\
    (forall x, reserved o x <-> reserved l x).
Proof.
  intros Hne Hlen. assert (Hex : exists r0 l0, l = r0 :: l0) by (destruct l; eauto; done).
  destruct Hex as (r0 & l0 & El). pose proof Hmax as Hm.
  assert (H0 : l !! 0%nat = Some r0) by by rewrite El.
  assert (Hr0 : region_ok r0) by (rewrite Forall_lookup in Hok; eauto).
  assert (Hll : length l = Datatypes.S (length l0)) by by rewrite El.
  unfold CombineNoMapRegions. unfold NUM_NOMAP_REGIONS in Hm, Hlen.
  erewrite bind_go by (apply (arr_lookup _ 0); rewrite lookup_app_l by lia; exact H0).
  destruct comb as [|c0 comb]; [simpl in Hlen; lia|].
  erewrite bind_go by (apply (arr_set_in _ 0); simpl; lia). cbn [insert list_insert].
  rewrite region_end_ok by done. replace (StartAddr r0 + Size r0 - StartAddr r0) with (Size r0) by lia.
  assert (Hinit : joined 0 (mkCombine (StartAddr r0) 0 (r0 :: comb))).
  { exists [], r0, comb. split_and!; [|done|done|done|done]. split; simpl.
    - lia.
    - by constructor.
    - exists r0. split_and!; [done|lia|lia].
    - repeat constructor.
    - intros x. by rewrite (take_S_r _ _ _ H0).
    - by rewrite (take_S_r _ _ _ H0). }
  assert (Hloop : wp (for_up (Z.to_nat (u32 (Z.of_nat (length l) - 1))) 0
    (mkCombine (StartAddr r0) 0 (r0 :: comb)) (combine_step (l ++ rest)))
    (fun _ _ => False) (fun c s' => s' = s /\ joined (length l0) c) s).
  { rewrite u32_small, Hll by lia.
    replace (Z.to_nat (Z.of_nat (Datatypes.S (length l0)) - 1)) with (length l0) by lia.
    apply (wp_for_up _ _ _ _ _ (fun i c s' => s' = s /\ joined (Z.to_nat i) c)).
    - done.
    - intros i c s' Hi [-> Hj].
      destruct (combine_step_joined (Z.to_nat i) c s) as (c' & Hc & Hj'); [lia|done|].
      rewrite Z2Nat.id in Hc by lia. eapply wp_go; [exact Hc|]. simpl. split; [done|].
      by replace (Z.to_nat (i + 1)) with (Datatypes.S (Z.to_nat i)) by lia.
    - intros c s' [-> Hj]. split; [done|]. by replace (Z.to_nat (0 + Z.of_nat (length l0))) with (length l0) in Hj by lia. }
  unfold wp in Hloop. destruct (for_up _ _ _ _ s) as [[c|r|h] s'] eqn:Ef; [|done..].
  destruct Hloop as [-> (done & cur & junk & Hb & Hregs & Hnum & Hst & Hcl)].
  assert (Hr : r0 = mkRegion (StartAddr r0) (Size r0)) by by destruct r0.
  rewrite u64_small by (unfold region_ok in Hr0; lia). rewrite <- Hr.
  rewrite (bind_go _ _ _ _ _ Ef). exists (done ++ [cur]), junk. destruct Hb as [Hbl Hbo _ Hap Hcov Hsub].
  rewrite Hregs, Hnum, length_app, <- app_assoc. simpl length.
  rewrite take_ge in Hsub, Hcov by lia. split_and!; [|done|done|done|done].
  munfold. rewrite u32_small by lia. do 3 f_equal. f_equal. lia.
Qed.
End Join.

(** * Taking regions out of a partition *)

Lemma apart_by_start o : Forall region_ok o -> StronglySorted apart o -> by_start o.
Proof.
  intros Hok. induction 1 as [|a o Hs IH Ha]; [constructor|].
  apply Forall_cons in Hok as [Hao Hok]. constructor; [by apply IH|].
  eapply Forall_impl; [exact Ha|]. unfold apart, below_start, region_ok in *. intros b. lia.
Qed.

(** A region that starts inside a partition splits it. *)
Definition splits (p : RamPartitionEntry) (r : CarveoutMemRegion) : Prop :=
  Base p < StartAddr r < Base p + AvailableLength p.
#[global] Instance splits_dec p r : Decision (splits p r).
Proof. unfold splits. apply _. Defined.
Definition pieces (rs : list CarveoutMemRegion) (p : RamPartitionEntry) : nat :=
  S (length (filter (splits p) rs)).

Lemma pieces_mono rs p q :
  (forall r, splits q r -> splits p r) -> (pieces rs q <= pieces rs p)%nat.
Proof.
  intros Hpq. unfold pieces. induction rs as [|r rs IH]; [done|]. rewrite !filter_cons.
  repeat case_decide; simpl in *; try lia. exfalso. auto.
Qed.

Lemma pieces_skip rs p r : (pieces rs p <= pieces (r :: rs) p)%nat.
Proof. unfold pieces. rewrite filter_cons. case_decide; simpl; lia. Qed.

(** Regions from [e] on do not meet a partition that ends at [e]. *)
Lemma beyond r rs p x :
  by_start (r :: rs) -> Base p + AvailableLength p <= StartAddr r ->
  in_ram p x -> ~ reserved (r :: rs) x.
Proof.
  intros Hs He Hx (q & Hq & Hin). apply StronglySorted_inv in Hs as [_ Hf].
  unfold in_ram, in_region in *. apply elem_of_cons in Hq as [->|Hq]; [lia|].
  rewrite Forall_forall in Hf. apply Hf in Hq. unfold below_start in Hq. lia.
Qed.

Definition piece_ok (p : RamPartitionEntry) : Prop := ram_ok p /\ 0 < AvailableLength p.

(** Comparisons whose outcome follows from the context. *)
Ltac decide_bools :=
  repeat match goal with
  | |- context [?a >? ?b] => rewrite (Z.gtb_ltb a b)
  | |- context [?a <? ?b] =>
      first [rewrite (proj2 (Z.ltb_lt a b)) by lia | rewrite (proj2 (Z.ltb_ge a b)) by lia]
  | |- context [?a <=? ?b] =>
      first [rewrite (proj2 (Z.leb_le a b)) by lia | rewrite (proj2 (Z.leb_gt a b)) by lia]
  end; cbn [andb].

Section Carve.
Context {S R : Type} (Comb : list CarveoutMemRegion).
Implicit Types (s : S).

(** The loop over the regions with the store that follows it. *)
Definition carve_rest (n : nat) (j : Z) (c : carve_state) : M S R carve_state :=
  c ← for_up n j c (carve_step Comb);
  if cv_checked c then mret c else emit (cv_part c) c.

(** The state between two regions: [out] is stored, [free] is not yet. *)
Definition at_work (p : RamPartitionEntry) (b : bool) (out free : list RamPartitionEntry) : carve_state :=
  mkCarve p b (Z.of_nat (length out)) (out ++ free).

Lemma emit_run q p b out f free s :
  Z.of_nat (length (out ++ f :: free)) < 2 ^ 32 ->
  emit (R := R) q (at_work p b out (f :: free)) s = (Go (at_work p b (out ++ [q]) free), s).
Proof.
  intros Hl. unfold emit, at_work. rewrite length_app in Hl. cbn [cv_updated cv_num cv_part cv_checked length] in *.
  erewrite bind_go by (apply arr_set_in; rewrite length_app; simpl; lia).
  rewrite insert_app_r_alt, Nat.sub_diag by lia. cbn [insert list_insert].
  munfold. rewrite u32_small, length_app, <- app_assoc by lia. simpl. do 3 f_equal. lia.
Qed.

(** What the loop over [rs] leaves of [p]. *)
Definition leaves (rs : list CarveoutMemRegion) (p : RamPartitionEntry) (E : list RamPartitionEntry) : Prop :=
  Forall piece_ok E /\ (length E <= pieces rs p)%nat /\
  forall x, usable E x <-> in_ram p x /\ ~ reserved rs x.

(** The run from a state stores such pieces. *)
Definition carves (n : nat) (j : Z) (c : carve_state) (rs : list CarveoutMemRegion)
    (p : RamPartitionEntry) (out free : list RamPartitionEntry) : Prop :=
  forall s, exists E b p', carve_rest n j c s = (Go (at_work p' b (out ++ E) (drop (length E) free)), s) /\
    leaves rs p E.

Lemma usable_one q x : usable [q] x <-> in_ram q x.
Proof. rewrite usable_cons. pose proof (usable_nil x). tauto. Qed.

(** The loop stops here: the partition is used up, or the rest of it is kept. *)
Lemma carve_break n j c c' rs p out f free :
  (forall s, carve_step Comb j c s = (Go (true, c'), s) :> ctl R _ * S) ->
  Z.of_nat (length (out ++ f :: free)) < 2 ^ 32 ->
  (exists E b q, c' = at_work q b (out ++ E) (drop (length E) (f :: free)) /\
     b = true /\ leaves rs p E) \/
  (exists q, c' = at_work q false out (f :: free) /\ leaves rs p [q]) ->
  carves (Datatypes.S n) j c rs p out (f :: free).
Proof.
  intros Hs Hmax Hc s. unfold carve_rest. cbn [for_up].
  destruct Hc as [(E & b & q & -> & -> & Hl)|(q & -> & Hl)].
  - exists E, true, q. split; [|done].
    erewrite bind_go by (rewrite (bind_go _ _ _ _ _ (Hs s)); reflexivity). done.
  - exists [q], false, q. split; [|done].
    erewrite bind_go by (rewrite (bind_go _ _ _ _ _ (Hs s)); reflexivity).
    transitivity (emit (R := R) q (at_work q false out (f :: free)) s); [reflexivity|].
    by rewrite emit_run.
Qed.

(** The loop goes on with the part behind the region. *)
Lemma carve_continue n j c q rs rs' p E1 out free :
  (forall s, carve_step Comb j c s = (Go (false, at_work q false (out ++ E1) (drop (length E1) free)), s)
     :> ctl R _ * S) ->
  carves n (j + 1) (at_work q false (out ++ E1) (drop (length E1) free)) rs' q (out ++ E1)
    (drop (length E1) free) ->
  Forall piece_ok E1 -> (length E1 + pieces rs' q <= pieces rs p)%nat ->
  (forall x, in_ram p x /\ ~ reserved rs x <-> usable E1 x \/ in_ram q x /\ ~ reserved rs' x) ->
  carves (Datatypes.S n) j c rs p out free.
Proof.
  intros Hs Hgo HE1 Hlen Hx s. destruct (Hgo s) as (E & b & p' & Hr & HE & Hle & Hu).
  exists (E1 ++ E), b, p'. unfold carve_rest in *. cbn [for_up]. split.
  - unfold mbind, M_MBind, M_bind in *. rewrite Hs. cbn [fst snd]. rewrite Hr.
    by rewrite <- app_assoc, length_app, drop_drop.
  - split_and!; [by apply Forall_app|rewrite length_app; lia|].
    intros x. rewrite usable_app, Hu, Hx. done.
Qed.

Lemma leaves_none rs p : (forall x, in_ram p x -> reserved rs x) -> leaves rs p [].
Proof.
  intros Hx. split_and!; [constructor|simpl; lia|]. intros x. pose proof (usable_nil x).
  split; [done|]. intros [H1 H2]. by apply Hx in H1.
Qed.

Lemma leaves_one rs p q :
  piece_ok q -> (forall x, in_ram q x <-> in_ram p x /\ ~ reserved rs x) -> leaves rs p [q].
Proof.
  intros Hq Hx. split_and!; [by constructor|unfold pieces; simpl; lia|].
  intros x. by rewrite usable_one.
Qed.

(** One region [r] against the partition [p]. *)
Section OneRegion.
Context (n : nat) (j : Z) (r : CarveoutMemRegion) (rs : list CarveoutMemRegion) (p : RamPartitionEntry).
Context (out : list RamPartitionEntry) (f : RamPartitionEntry) (free : list RamPartitionEntry).
Context (Hj : forall s, arr Comb j s = (Go r, s) :> ctl R _ * S).
Context (Hr : region_ok r) (Hs : by_start (r :: rs)) (Hp : piece_ok p).
Context (Hmax : Z.of_nat (length (out ++ f :: free)) < 2 ^ 32).
Context (IH : forall q out free, piece_ok q -> (pieces rs q <= length free)%nat ->
  Z.of_nat (length (out ++ free)) < 2 ^ 32 ->
  carves n (j + 1) (at_work q false out free) rs q out free).
Context (Hroom : (pieces (r :: rs) p <= length (f :: free))%nat).

Lemma step_unfold s :
  carve_step Comb j (at_work p false out (f :: free)) s =
  (if (StartAddr r <=? Base p) && (ram_end p <=? region_end r)
   then mret (true, at_work p true out (f :: free))
   else if StartAddr r >? ram_end p then mret (true, at_work p false out (f :: free))
   else if region_end r <? Base p then mret (false, at_work p false out (f :: free))
   else if (Base p <=? StartAddr r) && (region_end r <=? ram_end p)
   then carve_inside r (at_work p false out (f :: free))
   else if (StartAddr r >? Base p) && (region_end r >? ram_end p) then
     c ← emit (mkRam (Base p) (u64 (StartAddr r - Base p))) (at_work p false out (f :: free));
     mret (true, with_part p true c)
   else if (StartAddr r <? Base p) && (region_end r <? ram_end p) then
     mret (false, at_work (mkRam (region_end r) (u64 (ram_end p - region_end r))) false out (f :: free))
   else mret (false, at_work p false out (f :: free)) : M S R _) s.
Proof. unfold carve_step. by rewrite (bind_go _ _ _ _ _ (Hj s)). Qed.

(** The pieces before and behind a region. *)
Definition before : RamPartitionEntry := mkRam (Base p) (StartAddr r - Base p).
Definition behind : RamPartitionEntry :=
  mkRam (StartAddr r + Size r) (Base p + AvailableLength p - (StartAddr r + Size r)).

Lemma behind_ok :
  Base p <= StartAddr r + Size r < Base p + AvailableLength p -> piece_ok behind.
Proof. unfold piece_ok, ram_ok, region_ok, behind in *. simpl. lia. Qed.
Lemma before_ok :
  Base p < StartAddr r <= Base p + AvailableLength p -> piece_ok before.
Proof. unfold piece_ok, ram_ok, region_ok, before in *. simpl. lia. Qed.

Lemma behind_pieces : Base p <= StartAddr r + Size r -> (pieces rs behind <= pieces rs p)%nat.
Proof. intros Hb. apply pieces_mono. unfold splits, behind. simpl. intros q. lia. Qed.

Lemma rest_pieces q : (pieces rs q <= pieces rs p)%nat -> (pieces rs q <= length (f :: free))%nat.
Proof. intros. pose proof (pieces_skip rs p r). lia. Qed.

(** Later regions start at or behind the start of [r]. *)
Lemma later_start x : reserved rs x -> StartAddr r <= x.
Proof.
  intros (q & Hq & Hin). apply StronglySorted_inv in Hs as [_ Hf]. rewrite Forall_forall in Hf.
  apply Hf in Hq. unfold below_start, in_region in *. lia.
Qed.

Lemma go_on E1 q :
  (forall s, carve_step Comb j (at_work p false out (f :: free)) s =
     (Go (false, at_work q false (out ++ E1) (drop (length E1) (f :: free))), s) :> ctl R _ * S) ->
  piece_ok q -> (pieces rs q <= pieces rs p)%nat -> Forall piece_ok E1 ->
  (length E1 + pieces rs p <= pieces (r :: rs) p)%nat ->
  (forall x, in_ram p x /\ ~ reserved (r :: rs) x <-> usable E1 x \/ in_ram q x /\ ~ reserved rs x) ->
  carves (Datatypes.S n) j (at_work p false out (f :: free)) (r :: rs) p out (f :: free).
Proof.
  intros Hstep Hq Hle HE Hlen Hx. apply (carve_continue n j _ q (r :: rs) rs p E1); [exact Hstep| |done|lia|exact Hx].
  apply IH; [done|rewrite length_drop; lia|].
  rewrite !length_app, length_drop in *. lia.
Qed.

Lemma ends_plain : region_end r = StartAddr r + Size r /\ ram_end p = Base p + AvailableLength p.
Proof. split; [by apply region_end_ok|apply ram_end_ok, Hp]. Qed.

Lemma emit_before s :
  Base p < StartAddr r ->
  emit (R := R) (mkRam (Base p) (u64 (StartAddr r - Base p))) (at_work p false out (f :: free)) s =
  (Go (at_work p false (out ++ [before]) free), s).
Proof.
  intros Hlt. rewrite u64_small; [by apply emit_run|].
  unfold piece_ok, ram_ok, region_ok in *. lia.
Qed.

(** The rest of a partition behind a region that lies inside it. *)
Lemma rest_is_behind :
  StartAddr r + Size r <= Base p + AvailableLength p ->
  mkRam (region_end r) (u64 (ram_end p - region_end r)) = behind.
Proof.
  intros. destruct ends_plain as [-> ->]. rewrite u64_small; [done|].
  unfold piece_ok, ram_ok, region_ok in *. lia.
Qed.

Lemma inside_splits s :
  Base p < StartAddr r -> StartAddr r + Size r <= Base p + AvailableLength p ->
  carve_inside (R := R) r (at_work p false out (f :: free)) s =
  (Go (if StartAddr r + Size r =? Base p + AvailableLength p
       then (true, at_work behind true (out ++ [before]) free)
       else (false, at_work behind false (out ++ [before]) free)), s).
Proof.
  intros Hlt Hle. unfold carve_inside. cbn [cv_part at_work].
  rewrite (proj2 (Z.gtb_lt _ _)) by done.
  erewrite bind_go by (rewrite (bind_go _ _ _ _ _ (emit_before s Hlt)), (rest_is_behind Hle); reflexivity).
  cbn [cv_part with_part]. unfold behind at 1. cbn [AvailableLength].
  destruct (Z.eqb_spec (StartAddr r + Size r) (Base p + AvailableLength p)) as [He|He].
  - rewrite (proj2 (Z.eqb_eq _ _)) by lia. done.
  - rewrite (proj2 (Z.eqb_neq _ _)) by lia. rewrite (ram_end_ok behind).
    + destruct ends_plain as [-> _]. unfold behind at 1 2. cbn [Base AvailableLength].
      rewrite (proj2 (Z.ltb_lt _ _)) by lia. done.
    + apply behind_ok. unfold region_ok in Hr. lia.
Qed.

Lemma inside_head s :
  Base p = StartAddr r -> StartAddr r + Size r < Base p + AvailableLength p ->
  carve_inside (R := R) r (at_work p false out (f :: free)) s =
  (Go (false, at_work behind false out (f :: free)), s).
Proof.
  intros Heq Hlt. unfold carve_inside. cbn [cv_part at_work].
  rewrite Z.gtb_ltb, (proj2 (Z.ltb_ge _ _)), (proj2 (Z.eqb_eq (StartAddr r) _)) by lia.
  assert (Hpart : mkRam (region_end r) (u64 (AvailableLength p - Size r)) = behind).
  { destruct ends_plain as [-> _]. unfold behind. f_equal.
    rewrite u64_small; unfold piece_ok, ram_ok, region_ok in *; lia. }
  rewrite Hpart. erewrite bind_go by reflexivity. cbn [cv_part with_part].
  assert (Hb : piece_ok behind) by (apply behind_ok; unfold region_ok in Hr; lia).
  rewrite (proj2 (Z.eqb_neq (AvailableLength behind) 0)) by (destruct Hb; lia).
  rewrite (ram_end_ok behind) by apply Hb. destruct ends_plain as [-> _].
  unfold behind at 1 2. cbn [Base AvailableLength]. by rewrite (proj2 (Z.ltb_lt _ _)) by lia.
Qed.

(** Addresses before and behind a region that starts inside. *)
Lemma split_addresses x :
  Base p <= StartAddr r -> StartAddr r + Size r <= Base p + AvailableLength p ->
  in_ram p x /\ ~ reserved (r :: rs) x <-> in_ram before x \/ in_ram behind x /\ ~ reserved rs x.
Proof.
  intros H1 H2. rewrite reserved_cons. pose proof (later_start x) as Hl.
  unfold in_ram, in_region, before, behind, region_ok in *. simpl.
  destruct (decide (x < StartAddr r)) as [Hlt|Hge].
  - split; [lia|]. intros Hx. assert (~ reserved rs x) by (intros Hres; apply Hl in Hres; lia).
    split; [lia|]. intros [?|?]; [lia|done].
  - split.
    + intros [Hx Hn]. right. assert (~ StartAddr r <= x < StartAddr r + Size r) by tauto.
      split; [lia|tauto].
    + intros [Hx|[Hx Hn]]; [lia|]. split; [lia|]. intros [?|?]; [lia|done].
Qed.

(** ** The six ways a region and a partition can lie *)

Ltac arith := unfold piece_ok, ram_ok, region_ok in *; lia.
Ltac step_by := intros s; rewrite step_unfold; destruct ends_plain as [-> ->];
  decide_bools; cbn [andb].

Lemma region_covers :
  StartAddr r <= Base p -> Base p + AvailableLength p <= StartAddr r + Size r ->
  carves (Datatypes.S n) j (at_work p false out (f :: free)) (r :: rs) p out (f :: free).
Proof.
  intros H1 H2. eapply carve_break; [step_by; reflexivity|done|]. left. exists [], true, p.
  rewrite app_nil_r. split_and!; [done|done|]. apply leaves_none. intros x Hx.
  apply reserved_cons. left. unfold in_ram, in_region in *. lia.
Qed.

Lemma region_after :
  Base p + AvailableLength p < StartAddr r ->
  carves (Datatypes.S n) j (at_work p false out (f :: free)) (r :: rs) p out (f :: free).
Proof.
  intros H1. assert (0 < AvailableLength p) by arith.
  eapply carve_break; [step_by; reflexivity|done|]. right. exists p.
  split; [done|]. apply leaves_one; [done|]. intros x. split; [|tauto]. intros Hx.
  split; [done|]. apply (beyond r rs p); [done|lia|done].
Qed.

Lemma region_before :
  StartAddr r + Size r < Base p ->
  carves (Datatypes.S n) j (at_work p false out (f :: free)) (r :: rs) p out (f :: free).
Proof.
  intros H1. assert (0 < AvailableLength p /\ 0 <= Size r) by arith.
  apply (go_on [] p); rewrite ?app_nil_r; [step_by; reflexivity|done..| |].
  - apply pieces_skip.
  - intros x. pose proof (usable_nil x). rewrite reserved_cons.
    assert (~ (in_ram p x /\ in_region r x)) by (unfold in_ram, in_region; lia). tauto.
Qed.

(** At the head of the partition, or over it. *)
Lemma region_head :
  StartAddr r <= Base p -> Base p <= StartAddr r + Size r < Base p + AvailableLength p ->
  carves (Datatypes.S n) j (at_work p false out (f :: free)) (r :: rs) p out (f :: free).
Proof.
  intros H1 H2. assert (0 < AvailableLength p) by arith.
  apply (go_on [] behind); rewrite ?app_nil_r.
  - destruct (decide (StartAddr r = Base p)) as [Heq|Hne].
    + step_by. apply inside_head; lia.
    + pose proof rest_is_behind as Hrest. destruct ends_plain as [Hre Hra].
      rewrite Hre, Hra in Hrest. step_by. by rewrite Hrest by lia.
  - by apply behind_ok.
  - apply behind_pieces. lia.
  - constructor.
  - apply pieces_skip.
  - intros x. pose proof (usable_nil x). rewrite reserved_cons.
    assert (in_ram behind x <-> in_ram p x /\ ~ in_region r x)
      by (unfold in_ram, in_region, behind; simpl; lia). tauto.
Qed.

Lemma region_inside :
  Base p < StartAddr r -> StartAddr r + Size r < Base p + AvailableLength p ->
  carves (Datatypes.S n) j (at_work p false out (f :: free)) (r :: rs) p out (f :: free).
Proof.
  intros H1 H2. assert (0 <= Size r) by arith. apply (go_on [before] behind).
  - step_by. rewrite inside_splits by lia. by rewrite (proj2 (Z.eqb_neq _ _)) by lia.
  - apply behind_ok. lia.
  - apply behind_pieces. lia.
  - constructor; [|constructor]. apply before_ok. lia.
  - unfold pieces. rewrite filter_cons_True by (unfold splits; lia). simpl. lia.
  - intros x. rewrite split_addresses, usable_one by lia. done.
Qed.

(** Up to the end of the partition, or over it. *)
Lemma region_tail :
  Base p < StartAddr r <= Base p + AvailableLength p ->
  Base p + AvailableLength p <= StartAddr r + Size r ->
  carves (Datatypes.S n) j (at_work p false out (f :: free)) (r :: rs) p out (f :: free).
Proof.
  intros H1 H2. assert (0 <= Size r /\ 0 < AvailableLength p) by arith.
  assert (Hl : leaves (r :: rs) p [before]).
  { apply leaves_one; [by apply before_ok|]. intros x. rewrite reserved_cons.
    pose proof (later_start x) as Hx. unfold in_ram, in_region, before in *. simpl.
    split; [|lia]. intros Hb. split; [lia|]. intros [?|?%Hx]; lia. }
  destruct (decide (StartAddr r + Size r = Base p + AvailableLength p)) as [Heq|Hne].
  - eapply carve_break; [|done|left; exists [before], true, behind; split_and!; done].
    step_by. rewrite inside_splits by lia. by rewrite Heq, Z.eqb_refl.
  - eapply carve_break; [|done|left; exists [before], true, p; split_and!; done].
    step_by. by rewrite (bind_go _ _ _ _ _ (emit_before s ltac:(lia))).
Qed.

(** One region is cut out as the addresses say, and the loop goes on or stops. *)
Lemma one_region :
  carves (Datatypes.S n) j (at_work p false out (f :: free)) (r :: rs) p out (f :: free).
Proof.
  destruct (decide (StartAddr r <= Base p)) as [H1|H1];
  destruct (decide (Base p + AvailableLength p <= StartAddr r + Size r)) as [H2|H2].
  - by apply region_covers.
  - destruct (decide (StartAddr r + Size r < Base p)); [by apply region_before|].
    apply region_head; lia.
  - destruct (decide (Base p + AvailableLength p < StartAddr r)); [by apply region_after|].
    apply region_tail; lia.
  - apply region_inside; lia.
Qed.
End OneRegion.

(** All regions. *)
Lemma all_regions junk rs : forall pre p out free,
  Comb = pre ++ rs ++ junk -> Forall region_ok rs -> by_start rs -> piece_ok p ->
  (pieces rs p <= length free)%nat -> Z.of_nat (length (out ++ free)) < 2 ^ 32 ->
  carves (length rs) (Z.of_nat (length pre)) (at_work p false out free) rs p out free.
Proof.
  induction rs as [|r rs IH]; intros pre p out free Hc Hok Hs Hp Hroom Hmax;
    (destruct free as [|f free]; [unfold pieces in Hroom; simpl in Hroom; lia|]).
  - intros s. exists [p], false, p. unfold carve_rest. cbn [for_up length].
    erewrite bind_go by reflexivity. split.
    + transitivity (emit (R := R) p (at_work p false out (f :: free)) s); [reflexivity|].
      by rewrite emit_run.
    + apply leaves_one; [done|]. intros x. pose proof (reserved_nil x). tauto.
  - apply Forall_cons in Hok as [Hr Hok]. cbn [length]. apply one_region; try done.
    + intros s. rewrite Hc. apply arr_app.
    + intros q out' free' Hq Hroom' Hmax'.
      replace (Z.of_nat (length pre) + 1) with (Z.of_nat (length (pre ++ [r])))
        by (rewrite length_app; simpl; lia).
      apply IH; try done; [by rewrite Hc, <- app_assoc|by apply StronglySorted_inv in Hs as []].
Qed.
End Carve.

(** * All partitions *)

Definition total_pieces (rs : list CarveoutMemRegion) (ps : list RamPartitionEntry) : nat :=
  list_sum (map (pieces rs) ps).

Lemma total_pieces_cons rs p ps : total_pieces rs (p :: ps) = (pieces rs p + total_pieces rs ps)%nat.
Proof. done. Qed.

Section Partitions.
Context {S : Type}.
Context (rs junk : list CarveoutMemRegion).
Context (Hok : Forall region_ok rs) (Hsort : by_start rs).
Implicit Types (s : S).

(** One partition: its pieces are stored behind the others. *)
Lemma carve_partition_run ps i p out free s :
  ps !! i = Some p -> ram_ok p -> (pieces rs p <= length free)%nat ->
  (length out + pieces rs p < Z.to_nat NUM_RAM_PARTITIONS)%nat ->
  Z.of_nat (length (out ++ free)) < 2 ^ 32 ->
  exists E, carve_partition ps (rs ++ junk) (Z.of_nat (length rs)) (Z.of_nat i)
      (Z.of_nat (length out), out ++ free) s =
      (Go (false, (Z.of_nat (length (out ++ E)), (out ++ E) ++ drop (length E) free)), s) /\
    (length E <= pieces rs p)%nat /\ Forall ram_ok E /\
    (forall x, usable E x <-> in_ram p x /\ ~ reserved rs x).
Proof.
  intros Hi Hp Hroom Hnum Hmax. unfold carve_partition.
  rewrite (bind_go _ _ _ _ _ (arr_lookup _ _ _ _ Hi)). cbn [fst snd].
  destruct free as [|f free]; [unfold pieces in Hroom; simpl in Hroom; lia|].
  destruct (Z.eqb_spec (AvailableLength p) 0) as [H0|H0].
  - exists [p]. erewrite bind_go by (apply (emit_run (R := _) p p false out f free s Hmax)).
    split_and!; [done|unfold pieces; simpl; lia|by constructor|]. intros x.
    assert (~ in_ram p x) by (unfold in_ram; lia). rewrite usable_one. tauto.
  - assert (Hpo : piece_ok p) by (split; [done|unfold ram_ok in Hp; lia]).
    destruct (all_regions (R := EFI_STATUS * list RamPartitionEntry * option Z) (rs ++ junk) junk rs
      [] p out (f :: free) eq_refl Hok Hsort Hpo Hroom Hmax s) as (E & b & p' & Hr & HE & Hle & Hu).
    exists E. unfold carve_rest in Hr. rewrite Nat2Z.id.
    split_and!; [|done|eapply Forall_impl; [exact HE|by intros ? []]|done].
    apply bind_inv_go in Hr as (c & s1 & Hc & Hr). rewrite (bind_go _ _ _ _ _ Hc).
    rewrite (bind_go _ _ _ _ _ Hr). cbn [cv_num cv_updated at_work].
    unfold NUM_RAM_PARTITIONS in *. by rewrite (proj2 (Z.leb_gt _ _)) by (rewrite length_app; lia).
Qed.

Lemma all_partitions ps : forall pre post out free s,
  Forall ram_ok ps -> (total_pieces rs ps <= length free)%nat ->
  (length out + total_pieces rs ps < Z.to_nat NUM_RAM_PARTITIONS)%nat ->
  Z.of_nat (length (out ++ free)) < 2 ^ 32 ->
  exists E, for_up (length ps) (Z.of_nat (length pre)) (Z.of_nat (length out), out ++ free)
      (carve_partition (pre ++ ps ++ post) (rs ++ junk) (Z.of_nat (length rs))) s =
      (Go (Z.of_nat (length (out ++ E)), (out ++ E) ++ drop (length E) free), s) /\
    (length E <= total_pieces rs ps)%nat /\ Forall ram_ok E /\
    (forall x, usable E x <-> usable ps x /\ ~ reserved rs x).
Proof.
  induction ps as [|p ps IH]; intros pre post out free s Hps Hroom Hnum Hmax.
  - exists []. rewrite app_nil_r. split_and!; [done|simpl; lia|constructor|].
    intros x. pose proof (usable_nil x). tauto.
  - apply Forall_cons in Hps as [Hp Hps]. rewrite total_pieces_cons in *.
    destruct (carve_partition_run (pre ++ p :: ps ++ post) (length pre) p out free s)
      as (E1 & Hr1 & Hl1 & Hk1 & Hu1); [by rewrite list_lookup_middle|done|lia|lia|done|].
    cbn [for_up length]. rewrite <- app_comm_cons, (bind_go _ _ _ _ _ Hr1). cbn [fst snd].
    destruct (IH (pre ++ [p]) post (out ++ E1) (drop (length E1) free) s)
      as (E2 & Hr2 & Hl2 & Hk2 & Hu2); [done|rewrite length_drop; lia|rewrite length_app; lia| |].
    { rewrite !length_app, length_drop in *. lia. }
    exists (E1 ++ E2). split_and!.
    + rewrite length_app in Hr2. simpl length in Hr2. rewrite <- (app_assoc pre [p]) in Hr2.
      replace (Z.of_nat (length pre) + 1) with (Z.of_nat (length pre + 1)) by lia.
      simpl in Hr2. rewrite Hr2. by rewrite <- !app_assoc, drop_drop, !length_app.
    + rewrite length_app. lia.
    + by apply Forall_app.
    + intros x. rewrite usable_app, usable_cons, Hu1, Hu2. tauto.
Qed.
End Partitions.

(** [UpdateRamPartitions]: what is left of the partitions. *)
Lemma UpdateRamPartitions_carves pool ps more rs junk upd nl :
  pool (Z.of_nat (length ps) * RAM_ENTRY_SIZE) = true ->
  Forall ram_ok ps -> Forall region_ok rs -> by_start rs ->
  (total_pieces rs ps < Z.to_nat NUM_RAM_PARTITIONS)%nat ->
  length upd = Z.to_nat NUM_NOMAP_REGIONS ->
  exists E free, UpdateRamPartitions pool (ps ++ more) (Z.of_nat (length ps)) (rs ++ junk)
      (Z.of_nat (length rs)) upd nl =
      (Go (EFI_SUCCESS, E ++ free, Some (Z.of_nat (length E))), nl) /\
    (length E < Z.to_nat NUM_RAM_PARTITIONS)%nat /\ Forall ram_ok E /\
    (forall x, usable E x <-> usable ps x /\ ~ reserved rs x).
Proof.
  intros Hpool Hps Hrs Hs Hnum Hl. unfold UpdateRamPartitions. rewrite Hpool. cbn [negb].
  rewrite (proj2 (Z.leb_le _ _)) by (rewrite length_app; lia).
  rewrite Nat2Z.id, take_app_length. erewrite bind_go by reflexivity.
  unfold NUM_RAM_PARTITIONS, NUM_NOMAP_REGIONS in *.
  destruct (all_partitions rs junk Hrs Hs ps [] [] [] upd nl) as (E & Hr & Hle & Hk & Hu);
    [done|lia|unfold NUM_RAM_PARTITIONS; simpl length; lia|simpl; lia|].
  cbn [app length] in Hr. rewrite app_nil_r in Hr. change (Z.of_nat 0) with 0 in Hr.
  exists E, (drop (length E) upd). rewrite (bind_go _ _ _ _ _ Hr).
  split_and!; [done|lia|done|done].
Qed.

(** ** Pieces depend on the starts only *)

Definition starts_inside (p : RamPartitionEntry) (a : Z) : Prop :=
  Base p < a < Base p + AvailableLength p.
#[global] Instance starts_inside_dec p a : Decision (starts_inside p a).
Proof. unfold starts_inside. apply _. Defined.

Lemma pieces_starts rs p :
  pieces rs p = S (length (filter (starts_inside p) (map StartAddr rs))).
Proof.
  unfold pieces. f_equal. induction rs as [|r rs IH]; [done|]. cbn [map]. rewrite !filter_cons.
  unfold splits at 1, starts_inside at 1. repeat case_decide; simpl; unfold splits, starts_inside in *; lia.
Qed.

Lemma filter_sublist_le (P : Z -> Prop) `{!forall x, Decision (P x)} a b :
  sublist a b -> (length (filter P a) <= length (filter P b))%nat.
Proof. induction 1; rewrite ?filter_cons; repeat case_decide; simpl; lia. Qed.

Lemma total_pieces_le o rs ps :
  sublist (map StartAddr o) (map StartAddr rs) -> (total_pieces o ps <= total_pieces rs ps)%nat.
Proof.
  intros Hs. induction ps as [|p ps IH]; [done|]. rewrite !total_pieces_cons, !pieces_starts. pose proof (filter_sublist_le (starts_inside p) _ _ Hs). lia.
Qed.

Lemma total_pieces_perm rs rs' ps : rs ≡ₚ rs' -> total_pieces rs ps = total_pieces rs' ps.
Proof.
  intros Hp. unfold total_pieces. f_equal. apply map_ext. intros p. unfold pieces. by rewrite Hp.
Qed.
