(* ===== verification/CarveTree.v ===== *)
(** Reading the no-map regions of a device tree, and the whole of
    [GetUpdatedRamPartitions] on a tree. *)
From Stdlib Require Import ZArith Lia.
From stdpp Require Import base list numbers option sets sorting.
From S2P Require Import Prelude EfiBase Fdt FdtSpec FdtTree FdtRw FdtRwSpec Carveout CarveSpec.

(** * The regions of a tree *)

Definition disabled (status : list Z) : bool :=
  AsciiStrnCmp status (L "disabled") (Z.of_nat (length status)) =? 0.

Section Regions.
Variable strs : Z -> list Z.

(** Whether a subnode of [/reserved-memory] must not be mapped. *)
Definition no_map (n : dnode) : bool :=
  bool_decide (is_Some (lookup_prop strs (node_props n) (L "no-map"))) &&
  negb (match lookup_prop strs (node_props n) (L "status") with
        | Some v => disabled v
        | None => false
        end).

(** Its region: two 64-bit cells. *)
Definition child_region (n : dnode) : option CarveoutMemRegion :=
  if no_map n then
    (fun v => mkRegion (be_get (take 8 v)) (be_get (take 8 (drop 8 v)))) <$>
    lookup_prop strs (node_props n) (L "reg")
  else None.
Definition no_map_regions (n : dnode) : list CarveoutMemRegion :=
  omap child_region (node_children n).

(** The [reg] of such a node has its two cells. *)
Definition reg_cells (n : dnode) : Prop :=
  no_map n = true -> forall v, lookup_prop strs (node_props n) (L "reg") = Some v -> (16 <= length v)%nat.
End Regions.

Lemma literal_nonzero s :
  Forall (fun c => negb (c =? 0) = true) (L s) -> Forall (fun c => c <> 0) (L s).
Proof. intros H. eapply Forall_impl; [exact H|]. intros c Hc. by apply negb_true_iff, Z.eqb_neq in Hc. Qed.

Lemma length_flatten_all cs : (length cs <= length (flatten_all cs))%nat.
Proof.
  induction cs as [|c cs IH]; [done|].
  change (flatten_all (c :: cs)) with (flatten c ++ flatten_all cs).
  rewrite length_app, flatten_below. simpl. lia.
Qed.

Section OnTree.
Context {R : Type} (pool : Z -> bool) (rodata : list Z).
Context (fdt : list Z) (off : Z) (root : dnode) (strs : Z -> list Z) (total version : Z).
Context (T : tree_blob fdt off root strs total version).
Implicit Types (nl : list FDT_FIRST_LEVEL_NODE).

Section Node.
Context (pre suf : list tok) (n : dnode).
Context (Ht : tree_toks root = pre ++ flatten n ++ suf).

Lemma node_names : Forall (fun p => str_at fdt p.1 (strs p.1)) (node_props n).
Proof.
  apply Forall_forall. intros [no v] Hp. eapply (tb_names _ _ _ _ _ _ T).
  assert (Hin : TProp no v ∈ tree_toks root).
  { rewrite Ht, flatten_below. unfold below. apply elem_of_app. right. apply elem_of_app. left.
    apply elem_of_cons. right. apply elem_of_app. left. unfold prop_toks.
    apply list_elem_of_fmap. by exists (no, v). }
  unfold tree_toks in Hin. apply elem_of_app in Hin as [Hin|Hin]; [exact Hin|]. set_solver.
Qed.

Lemma value_of q nl :
  Forall (fun c => c <> 0) q ->
  exists r, fdt_getprop (R := R) fdt (pos pre) q nl = (Go r, nl) /\
    match lookup_prop strs (node_props n) q with
    | Some v => exists p, r = (Some p, Z.of_nat (length v)) /\
        buf_read fdt p (Z.of_nat (length v)) = Some v
    | None => r = (None, - FDT_ERR_NOTFOUND)
    end.
Proof.
  intros Hq. eapply getprop_at; [apply T|apply T|exact Ht|apply node_names|done].
Qed.

Lemma has_property q nl :
  Forall (fun c => c <> 0) q ->
  exists r, fdt_get_property (R := R) fdt (pos pre) q nl = (Go r, nl) /\
    (is_Some r.1 <-> is_Some (lookup_prop strs (node_props n) q)).
Proof.
  intros Hq. destruct (get_property_at (R := R) fdt off _ total version (tb_holds _ _ _ _ _ _ T)
    (tb_toks _ _ _ _ _ _ T) strs pre suf n q nl Ht node_names Hq) as (r & Hr & Hf).
  exists r. split; [done|]. unfold found in Hf.
  destruct (lookup_prop _ _ _); [destruct Hf as (p & -> & _)|subst r]; simpl; split; by intros [? ?].
Qed.

Lemma fdt64_part p v k nl :
  buf_read fdt p (Z.of_nat (length v)) = Some v -> (k + 8 <= length v)%nat ->
  fdt64 (R := R) fdt (p + Z.of_nat k) nl = (Go (be_get (take 8 (drop k v))), nl).
Proof.
  intros Hr Hk. unfold fdt64.
  rewrite <- (buf_read_read _ _ _ _ (Z.of_nat k) 8 Hr) by lia.
  assert (Hv : buf_read v (Z.of_nat k) 8 = Some (take 8 (drop k v)))
    by (apply buf_read_Some; rewrite Nat2Z.id; split_and!; [lia..|done]).
  by rewrite Hv.
Qed.

(** One subnode is read as its region. *)
Lemma no_map_reg_at nl :
  reg_cells strs n ->
  exists r, no_map_reg (R := R) fdt (pos pre) nl = (Go r, nl) /\
    match child_region strs n with
    | Some reg => exists p, r = Some p /\
        fdt64 (R := R) fdt p nl = (Go (StartAddr reg), nl) /\
        fdt64 (R := R) fdt (p + 8) nl = (Go (Size reg), nl)
    | None => r = None
    end.
Proof.
  intros Hreg. unfold no_map_reg.
  destruct (has_property (L "no-map") nl) as (r1 & Hr1 & Hs1); [by apply literal_nonzero; repeat constructor|].
  rewrite (bind_go _ _ _ _ _ Hr1). unfold child_region, reg_cells, no_map in *.
  destruct (bool_decide_reflect (is_Some (lookup_prop strs (node_props n) (L "no-map")))) as [Hnm|Hnm];
    cbn [andb] in *.
  2: { destruct r1.1; [exfalso; apply Hnm, Hs1; by eexists|]. by exists None. }
  destruct r1.1 as [q1|]; [|by apply Hs1 in Hnm as [? ?]].
  destruct (value_of (L "status") nl) as (r2 & Hr2 & Hv2); [by apply literal_nonzero; repeat constructor|].
  rewrite (bind_go _ _ _ _ _ Hr2).
  set (dis := match lookup_prop strs (node_props n) (L "status") with Some v => disabled v | None => false end) in *.
  assert (Hdis : (match r2.1 with Some status => status_disabled fdt status r2.2 | None => mret false end
    : M _ R bool) nl = (Go dis, nl)).
  { subst dis. destruct (lookup_prop strs (node_props n) (L "status")) as [v|]; [|by subst r2].
    destruct Hv2 as (p & -> & Hp). cbn [fst snd]. unfold status_disabled. munfold. by rewrite Hp. }
  rewrite (bind_go _ _ _ _ _ Hdis). destruct dis; cbn [negb] in *; [by exists None|].
  destruct (value_of (L "reg") nl) as (r3 & Hr3 & Hv3); [by apply literal_nonzero; repeat constructor|].
  rewrite (bind_go _ _ _ _ _ Hr3). eexists. split; [done|].
  destruct (lookup_prop strs (node_props n) (L "reg")) as [v|]; simpl; [|by subst r3].
  destruct Hv3 as (p & -> & Hp). specialize (Hreg eq_refl v eq_refl). exists p. split; [done|].
  pose proof (fdt64_part p v 0 nl Hp ltac:(lia)) as H0. rewrite Z.add_0_r, drop_0 in H0.
  pose proof (fdt64_part p v 8 nl Hp ltac:(lia)) as H8. split; [exact H0|exact H8].
Qed.
End Node.

(** ** All subnodes *)

Section Subnodes.
Context (pre suf : list tok) (rm : dnode).
Context (Ht : tree_toks root = pre ++ flatten rm ++ suf) (He : TEnd ∈ suf).
Context (Hcells : Forall (reg_cells strs) (node_children rm)).

Definition sub (i : nat) : Z :=
  if decide (i < length (node_children rm))%nat then child_pos pre rm i else - FDT_ERR_NOTFOUND.

Lemma first_sub nl : fdt_first_subnode (R := R) fdt (pos pre) nl = (Go (sub 0), nl).
Proof.
  rewrite (first_subnode_at _ _ _ _ _ (tb_holds _ _ _ _ _ _ T) (tb_toks _ _ _ _ _ _ T) _ _ _ Ht He).
  unfold sub. by destruct (node_children rm).
Qed.

Lemma next_sub i nl :
  (i < length (node_children rm))%nat ->
  fdt_next_subnode (R := R) fdt (sub i) nl = (Go (sub (S i)), nl).
Proof.
  intros Hi. unfold sub at 1. rewrite decide_True by done.
  by rewrite (next_subnode_at _ _ _ _ _ (tb_holds _ _ _ _ _ _ T) (tb_toks _ _ _ _ _ _ T) _ _ _ Ht He).
Qed.

Lemma no_map_loop_at k : forall i fuel out free nl,
  (length (node_children rm) - i)%nat = k -> (k < fuel)%nat ->
  Z.of_nat (length (out ++ omap (child_region strs) (drop i (node_children rm)))) <= NUM_NOMAP_REGIONS ->
  length (out ++ free) = Z.to_nat NUM_NOMAP_REGIONS ->
  no_map_loop (R := R) fdt fuel (sub i) (Z.of_nat (length out)) (out ++ free) nl =
  (Go (EFI_SUCCESS,
       (out ++ omap (child_region strs) (drop i (node_children rm))) ++
         drop (length (omap (child_region strs) (drop i (node_children rm)))) free,
       Z.of_nat (length (out ++ omap (child_region strs) (drop i (node_children rm))))), nl).
Proof.
  induction k as [|k IH]; intros i fuel out free nl Hk Hf Hmax Hlen;
    (destruct fuel as [|fuel]; [lia|]); cbn [no_map_loop].
  - unfold sub. rewrite decide_False by lia. rewrite drop_ge by lia. simpl. by rewrite app_nil_r.
  - assert (Hi : (i < length (node_children rm))%nat) by lia.
    destruct (lookup_lt_is_Some_2 _ _ Hi) as [c Hc].
    assert (Hpos : sub i <? 0 = false)
      by (unfold sub; rewrite decide_True by done; apply Z.ltb_ge, Zle_0_nat). rewrite Hpos.
    destruct (no_map_reg_at _ _ c (node_split _ _ _ _ _ (tb_holds _ _ _ _ _ _ T)
      (tb_toks _ _ _ _ _ _ T) _ _ _ Ht i c Hc) nl) as (r & Hr & Hm).
    { rewrite Forall_lookup in Hcells. by eapply Hcells. }
    assert (Hsub : sub i = child_pos pre rm i) by (unfold sub; by rewrite decide_True).
    rewrite Hsub. unfold child_pos at 1. rewrite (bind_go _ _ _ _ _ Hr).
    rewrite (drop_S _ _ _ Hc) in Hmax |- *. cbn [omap list_omap] in *.
    pose proof (next_sub i nl Hi) as Hn. rewrite Hsub in Hn.
    destruct (child_region strs c) as [reg|].
    + destruct Hm as (p & -> & H0 & H8). rewrite length_app in Hmax. simpl in Hmax.
      unfold NUM_NOMAP_REGIONS in *. rewrite (proj2 (Z.leb_gt _ _)) by lia.
      rewrite (bind_go _ _ _ _ _ H0), (bind_go _ _ _ _ _ H8).
      destruct free as [|f free]; [rewrite app_nil_r in Hlen; lia|].
      erewrite bind_go by (apply arr_set_in; rewrite length_app; simpl; lia).
      rewrite insert_app_r_alt, Nat.sub_diag by lia. cbn [insert list_insert].
      rewrite (bind_go _ _ _ _ _ Hn).
      assert (Hreg : mkRegion (StartAddr reg) (Size reg) = reg) by by destruct reg. rewrite Hreg.
      replace (Z.of_nat (length out) + 1) with (Z.of_nat (length (out ++ [reg])))
        by (rewrite length_app; simpl; lia).
      replace (out ++ reg :: free) with ((out ++ [reg]) ++ free) by (by rewrite <- app_assoc).
      rewrite IH; [|lia|lia|rewrite !length_app; simpl; lia|rewrite !length_app in *; simpl in *; lia].
      by rewrite <- !app_assoc.
    + subst r. rewrite (bind_go _ _ _ _ _ Hn). apply IH; [lia|lia|done|done].
Qed.
End Subnodes.

(** ** The whole of [/reserved-memory] *)

Definition res_name : list Z := L "reserved-memory".

(** The node [rm] is the one the name stands for, and the node list is empty or
    has the node already. *)
Record reserved_node (k : nat) (rm : dnode) nl : Prop := {
  rn_at : node_children root !! k = Some rm;
  rn_name : node_name rm = res_name;
  rn_first : forall j c, (j < k)%nat -> node_children root !! j = Some c ->
    ~ name_matches (node_name c) res_name;
  rn_list : nl = [] \/
    FdtFindNodeFromList (res_name ++ 0 :: rodata) 15 nl = (true, child_pos [] root k);
}.

Lemma reserved_found k rm nl :
  (48 <= length rodata)%nat -> reserved_node k rm nl ->
  exists nl', FdtPathOffset (R := R) pool fdt (literal rodata "/reserved-memory") nl =
    (Go (child_pos [] root k), nl').
Proof.
  intros Hro [Hat Hname Hfirst Hlist].
  assert (Hq : Forall (fun c => is_u8 c /\ c <> 0 /\ c <> 47) res_name)
    by (repeat constructor; discriminate || done).
  change (literal rodata "/reserved-memory") with (47 :: res_name ++ 0 :: rodata).
  destruct Hlist as [->|Hl].
  - eapply path_offset_child; [exact T|done|done| |done|done|done].
    rewrite length_app. simpl. lia.
  - exists nl. eapply path_offset_listed; [exact T|done|done|apply Zle_0_nat|done].
Qed.

Lemma GetNoMapRegions_tree k rm nl stack :
  (48 <= length rodata)%nat -> reserved_node k rm nl ->
  Forall (reg_cells strs) (node_children rm) ->
  Z.of_nat (length (no_map_regions strs rm)) <= NUM_NOMAP_REGIONS ->
  length stack = Z.to_nat NUM_NOMAP_REGIONS ->
  exists nl', GetNoMapRegions (R := R) pool fdt rodata stack nl =
    (Go (EFI_SUCCESS, no_map_regions strs rm ++ drop (length (no_map_regions strs rm)) stack,
         Z.of_nat (length (no_map_regions strs rm))), nl').
Proof.
  intros Hro Hrn Hcells Hmax Hlen. destruct (reserved_found k rm nl Hro Hrn) as [nl' Hp].
  exists nl'. unfold GetNoMapRegions. rewrite (bind_go _ _ _ _ _ Hp).
  rewrite (proj2 (Z.ltb_ge _ _)) by apply Zle_0_nat.
  pose proof (node_split _ _ _ _ _ (tb_holds _ _ _ _ _ _ T) (tb_toks _ _ _ _ _ _ T) [] [TEnd] root eq_refl
    k rm (rn_at _ _ _ Hrn)) as Hsp.
  assert (He : TEnd ∈ flatten_all (drop (S k) (node_children root)) ++ [TEndNode; TEnd]) by set_solver.
  unfold child_pos. rewrite (bind_go _ _ _ _ _ (first_sub _ _ _ Hsp He Hcells nl')).
  etransitivity;
    [apply (no_map_loop_at _ _ _ Hsp He Hcells (length (node_children rm)) 0 (fdt_rounds fdt) [] stack nl')|].
  - lia.
  - pose proof (length_toks_fdt _ _ _ _ _ (tb_holds _ _ _ _ _ _ T)) as Hl. rewrite Hsp, !length_app in Hl.
    assert (length (node_children rm) <= length (flatten rm))%nat; [|unfold fdt_rounds; lia].
    rewrite flatten_below. unfold below. simpl. rewrite !length_app.
    pose proof (length_flatten_all (node_children rm)). lia.
  - done.
  - done.
  - done.
Qed.

(** Sorting and joining on top of it. *)
Lemma no_nesting_perm a b : a ≡ₚ b -> no_nesting a -> no_nesting b.
Proof. unfold no_nesting. intros Hp Ha x y. rewrite <- !Hp. apply Ha. Qed.
End OnTree.
