(* ===== verification/CarveClaims.v ===== *)
(** What the removal of the no-map regions from the RAM partitions promises. *)
From Stdlib Require Import ZArith Lia.
From stdpp Require Import base list numbers option sets sorting.
From S2P Require Import Prelude EfiBase Fdt FdtSpec FdtTree FdtRw FdtRwSpec FdtDemo Carveout CarveSpec CarveTree.

(** What the caller provides: arrays of the declared lengths, partitions whose
    ends are addresses, and memory for the copy of the partitions. *)
Record carve_args (pool : Z -> bool) (rodata : list Z) (stack1 stack2 : list CarveoutMemRegion)
    (ps upd : list RamPartitionEntry) : Prop := {
  ca_rodata : (48 <= length rodata)%nat;
  ca_stack1 : length stack1 = Z.to_nat NUM_NOMAP_REGIONS;
  ca_stack2 : length stack2 = Z.to_nat NUM_NOMAP_REGIONS;
  ca_parts : Forall ram_ok ps;
  ca_pool : pool (Z.of_nat (length ps) * RAM_ENTRY_SIZE) = true;
  ca_upd : length upd = Z.to_nat NUM_NOMAP_REGIONS;
}.

(** What the device tree provides: regions whose ends are addresses and of
    which none is nested in another, and few enough pieces of RAM. *)
Record regions_fit (regs : list CarveoutMemRegion) (ps : list RamPartitionEntry) : Prop := {
  rf_some : regs <> [];
  rf_max : Z.of_nat (length regs) <= NUM_NOMAP_REGIONS;
  rf_ok : Forall region_ok regs;
  rf_nest : no_nesting regs;
  rf_pieces : (total_pieces regs ps < Z.to_nat NUM_RAM_PARTITIONS)%nat;
}.

(** Sorting and joining, as one step. *)
Lemma sort_and_join {R S} regs rest comb ps (s : S) :
  regions_fit regs ps -> length comb = Z.to_nat NUM_NOMAP_REGIONS ->
  Z.of_nat (length (regs ++ rest)) < 2 ^ 32 ->
  exists l o junk,
    SortNoMapRegions (R := R) (regs ++ rest) (Z.of_nat (length regs)) s = (Go (l ++ rest), s) /\
    CombineNoMapRegions (l ++ rest) (Z.of_nat (length regs)) comb s =
      (Go (EFI_SUCCESS, o ++ junk, Some (Z.of_nat (length o))), s) /\
    Forall region_ok o /\ by_start o /\ (total_pieces o ps <= total_pieces regs ps)%nat /\
    (forall x, reserved o x <-> reserved regs x).
Proof.
  intros [Hne Hmax Hok Hnest _] Hcomb Hlen.
  destruct (SortNoMapRegions_sorts (R := R) regs rest s Hne Hlen) as (l & Hsort & Hp & Hs).
  pose proof (Permutation_length Hp) as Hl.
  assert (Hokl : Forall region_ok l) by by rewrite Hp.
  destruct (CombineNoMapRegions_joins l rest Hs Hokl (no_nesting_perm _ _ (symmetry Hp) Hnest)
    ltac:(lia) comb s) as (o & junk & Hc & Hsub & Hoko & Hap & Hres).
  { intros ->. apply Hne. by apply Permutation_nil. }
  { done. }
  exists l, o, junk. rewrite <- Hl at 2. split_and!; [done|done|done|by apply apart_by_start| |].
  - rewrite <- (total_pieces_perm _ _ ps Hp). by apply total_pieces_le.
  - intros x. by rewrite Hres, Hp.
Qed.

(** C3: Given a device tree whose [/reserved-memory] has at least one and at
    most 50 no-map subnodes with two 64-bit cells each, none nested in another,
    and fewer than 30 pieces of RAM in all, [GetUpdatedRamPartitions] succeeds,
    and the partitions it returns cover exactly the RAM outside the regions:
    an address is in one of them if and only if it is in one of the partitions
    given and in no enabled no-map region of the tree. *)
Theorem carveouts_removed {R} pool fdt rodata off root strs total version k rm nl stack1 stack2 ps more upd :
  tree_blob fdt off root strs total version -> reserved_node rodata root k rm nl ->
  Forall (reg_cells strs) (node_children rm) ->
  carve_args pool rodata stack1 stack2 ps upd -> regions_fit (no_map_regions strs rm) ps ->
  exists E free nl',
    GetUpdatedRamPartitions (R := R) pool fdt rodata stack1 stack2 (ps ++ more)
      (Z.of_nat (length ps)) upd nl =
      (Go (EFI_SUCCESS, E ++ free, Some (Z.of_nat (length E))), nl') /\
    Forall ram_ok E /\ (length E < Z.to_nat NUM_RAM_PARTITIONS)%nat /\
    (forall x, usable E x <-> usable ps x /\ ~ reserved (no_map_regions strs rm) x).
Proof.
  intros T Hrn Hcells [Hro Hs1 Hs2 Hps Hpool Hupd] Hfit.
  destruct (GetNoMapRegions_tree (R := R) pool rodata fdt off root strs total version T k rm nl stack1
    Hro Hrn Hcells (rf_max _ _ Hfit) Hs1) as [nl' Hget].
  set (regs := no_map_regions strs rm) in *.
  destruct (sort_and_join (R := R) regs (drop (length regs) stack1) stack2 ps nl' Hfit Hs2)
    as (l & o & junk & Hsort & Hcomb & Hok & Hby & Hle & Hres).
  { rewrite length_app, length_drop, Hs1. pose proof (rf_max _ _ Hfit). unfold NUM_NOMAP_REGIONS in *. lia. }
  destruct (UpdateRamPartitions_carves pool ps more o junk upd nl' Hpool Hps Hok Hby) as
    (E & free & Hupdate & Hnum & HE & Hcover); [|done|].
  { pose proof (rf_pieces _ _ Hfit). lia. }
  exists E, free, nl'. split_and!; [|done|done|].
  - unfold GetUpdatedRamPartitions. rewrite (bind_go _ _ _ _ _ Hget). cbn [negb Z.eqb EFI_SUCCESS].
    rewrite (bind_go _ _ _ _ _ Hsort).
    erewrite bind_go by (unfold call; rewrite Hcomb; reflexivity). cbn [negb Z.eqb EFI_SUCCESS from_option id].
    unfold call. by rewrite Hupdate.
  - intros x. by rewrite Hcover, Hres.
Qed.

(** * The example tree *)

Definition demo_zeros : list Z := replicate 64 0.
Definition demo_stack : list CarveoutMemRegion := replicate 50 (mkRegion 77 77).
Definition demo_ram : list RamPartitionEntry :=
  [mkRam 0x80000000 0x10000000; mkRam 0x100000000 0x80000000].
Definition demo_upd : list RamPartitionEntry := replicate 50 (mkRam 0 0).
Definition demo_regions : list CarveoutMemRegion :=
  [mkRegion 0x80000000 0x600000; mkRegion 0x86000000 0x1000000; mkRegion 0x80600000 0x40000].

Lemma demo_regions_of : no_map_regions demo_strs demo_reserved = demo_regions.
Proof. vm_compute. reflexivity. Qed.

Lemma demo_reserved_node : reserved_node demo_zeros demo_root 1 demo_reserved [].
Proof.
  split; [done|done| |by left]. intros [|j] c Hj Hc; [|lia]. simplify_eq/=.
  intros [H|[u H]]; vm_compute in H; discriminate.
Qed.

Lemma demo_cells : Forall (reg_cells demo_strs) (node_children demo_reserved).
Proof.
  repeat constructor; intros _ v Hv; vm_compute in Hv; simplify_eq; simpl; lia.
Qed.

Lemma demo_args : carve_args (fun _ => true) demo_zeros demo_stack demo_stack demo_ram demo_upd.
Proof.
  split; try reflexivity; [vm_compute; lia|]. repeat constructor; vm_compute; discriminate || reflexivity.
Qed.

Lemma demo_fit : regions_fit (no_map_regions demo_strs demo_reserved) demo_ram.
Proof.
  rewrite demo_regions_of. split; [done|vm_compute; discriminate| | |vm_compute; lia].
  - repeat constructor; vm_compute; discriminate || reflexivity.
  - intros a b Ha Hb. unfold demo_regions in *. set_unfold.
    destruct_or?; subst; simpl; lia.
Qed.

Lemma carveouts_removed_witness : exists E free nl',
    GetUpdatedRamPartitions (R := unit) (fun _ => true) demo_fdt demo_zeros demo_stack demo_stack
      (demo_ram ++ []) (Z.of_nat (length demo_ram)) demo_upd [] =
      (Go (EFI_SUCCESS, E ++ free, Some (Z.of_nat (length E))), nl') /\
    Forall ram_ok E /\ (length E < Z.to_nat NUM_RAM_PARTITIONS)%nat /\
    (forall x, usable E x <-> usable demo_ram x /\ ~ reserved (no_map_regions demo_strs demo_reserved) x).
Proof.
  exact (carveouts_removed (fun _ => true) demo_fdt demo_zeros 56 demo_root demo_strs demo_total 17
    1 demo_reserved [] demo_stack demo_stack demo_ram [] demo_upd
    demo_tree demo_reserved_node demo_cells demo_args demo_fit).
Defined.

Example demo_carved :
  (fun r => match r.1 with Go (s, a, n) => Some (s, take 4 a, n) | _ => None end)
    (GetUpdatedRamPartitions (R := unit) (fun _ => true) demo_fdt demo_zeros demo_stack demo_stack
       demo_ram 2 demo_upd []) =
  Some (EFI_SUCCESS,
        [mkRam 0x80640000 0x59c0000; mkRam 0x87000000 0x9000000; mkRam 0x100000000 0x80000000; mkRam 0 0],
        Some 3).
Proof. vm_compute. reflexivity. Qed.

(** * The steps *)

(** [SortNoMapRegions] on an array whose first entries are the regions
    leaves a permutation of them in ascending order of their addresses, and
    does not touch the entries behind them. *)
Theorem regions_sorted {R S} l rest (s : S) :
  l <> [] -> Z.of_nat (length (l ++ rest)) < 2 ^ 32 ->
  exists l', SortNoMapRegions (R := R) (l ++ rest) (Z.of_nat (length l)) s = (Go (l' ++ rest), s) /\
    l' ≡ₚ l /\ by_start l'.
Proof. apply SortNoMapRegions_sorts. Qed.

Lemma regions_sorted_witness :
  exists l', SortNoMapRegions (R := unit) (demo_regions ++ demo_stack) (Z.of_nat 3) tt = (Go (l' ++ demo_stack), tt) /\
    l' ≡ₚ demo_regions /\ by_start l'.
Proof. apply (regions_sorted demo_regions demo_stack tt); [done|vm_compute; reflexivity]. Defined.

(** [CombineNoMapRegions] on ascending regions of which none is nested in
    another succeeds: the regions it writes start at some of the given ones,
    lie apart with a gap between any two, and cover the same addresses. *)
Theorem regions_joined {S} l rest comb (s : S) :
  l <> [] -> by_start l -> Forall region_ok l -> no_nesting l ->
  Z.of_nat (length l) <= NUM_NOMAP_REGIONS -> length comb = Z.to_nat NUM_NOMAP_REGIONS ->
  exists o junk, CombineNoMapRegions (l ++ rest) (Z.of_nat (length l)) comb s =
      (Go (EFI_SUCCESS, o ++ junk, Some (Z.of_nat (length o))), s) /\
    sublist (map StartAddr o) (map StartAddr l) /\ Forall region_ok o /\ StronglySorted apart o /\
    (forall x, reserved o x <-> reserved l x).
Proof. intros. by apply CombineNoMapRegions_joins. Qed.

Lemma regions_joined_witness :
  exists o junk, CombineNoMapRegions ([mkRegion 0 16; mkRegion 16 16; mkRegion 24 16; mkRegion 64 8] ++ [])
      (Z.of_nat 4) demo_stack tt =
      (Go (EFI_SUCCESS, o ++ junk, Some (Z.of_nat (length o))), tt) /\
    sublist (map StartAddr o) (map StartAddr [mkRegion 0 16; mkRegion 16 16; mkRegion 24 16; mkRegion 64 8]) /\
    Forall region_ok o /\ StronglySorted apart o /\
    (forall x, reserved o x <-> reserved [mkRegion 0 16; mkRegion 16 16; mkRegion 24 16; mkRegion 64 8] x).
Proof.
  apply (regions_joined [mkRegion 0 16; mkRegion 16 16; mkRegion 24 16; mkRegion 64 8] [] demo_stack tt).
  - done.
  - repeat constructor; vm_compute; discriminate.
  - repeat constructor; vm_compute; discriminate || reflexivity.
  - intros a b Ha Hb. set_unfold. destruct_or?; subst; simpl; lia.
  - vm_compute. discriminate.
  - reflexivity.
Defined.

(** When [/reserved-memory] has no enabled no-map subnode,
    [GetUpdatedRamPartitions] does not return the partitions unchanged: the
    count 0 wraps in the bounds of the sorting loops, which run past the end of
    the array of regions. *)
Theorem no_regions_fault {R} pool fdt rodata off root strs total version k rm nl stack1 stack2 ps upd :
  tree_blob fdt off root strs total version -> reserved_node rodata root k rm nl ->
  carve_args pool rodata stack1 stack2 ps upd -> no_map_regions strs rm = [] ->
  Forall (reg_cells strs) (node_children rm) ->
  exists nl',
    GetUpdatedRamPartitions (R := R) pool fdt rodata stack1 stack2 ps (Z.of_nat (length ps)) upd nl =
      (Halt OutOfBounds, nl').
Proof.
  intros T Hrn [Hro Hs1 Hs2 Hps Hpool Hupd] Hnone Hcells.
  destruct (GetNoMapRegions_tree (R := R) pool rodata fdt off root strs total version T k rm nl stack1
    Hro Hrn Hcells) as [nl' Hget]; [rewrite Hnone; done|done|].
  exists nl'. unfold GetUpdatedRamPartitions. rewrite (bind_go _ _ _ _ _ Hget), Hnone.
  cbn [negb Z.eqb EFI_SUCCESS length app Z.of_nat]. rewrite drop_0. apply bind_halt, SortNoMapRegions_none.
  - by destruct stack1.
  - rewrite Hs1. done.
Qed.

(** The same tree with nothing to reserve. *)
Definition bare_reserved : dnode := DNode (L "reserved-memory") [] [DNode (L "cma") [] []].
Definition bare_root : dnode := DNode [] [] [bare_reserved].
Definition bare_fdt : list Z := Eval vm_compute in mk_blob (tree_block bare_root) demo_strings.
Definition bare_total : Z := Eval vm_compute in Z.of_nat (length bare_fdt).

Lemma bare_tree : tree_blob bare_fdt 56 bare_root demo_strs bare_total 17.
Proof. apply tree_check_ok. vm_cast_no_check (eq_refl true). Qed.

Lemma bare_reserved_node : reserved_node demo_zeros bare_root 0 bare_reserved [].
Proof. split; [done|done| |by left]. intros j c Hj. lia. Qed.

Lemma no_regions_fault_witness :
  exists nl',
    GetUpdatedRamPartitions (R := unit) (fun _ => true) bare_fdt demo_zeros demo_stack demo_stack
      demo_ram (Z.of_nat 2) demo_upd [] = (Halt OutOfBounds, nl').
Proof.
  apply (no_regions_fault (fun _ => true) bare_fdt demo_zeros 56 bare_root demo_strs bare_total 17
    0 bare_reserved [] demo_stack demo_stack demo_ram demo_upd bare_tree bare_reserved_node demo_args).
  - reflexivity.
  - repeat constructor; intros _ v Hv; vm_compute in Hv; discriminate.
Defined.

(** * Where it goes wrong *)

(** C40: A region nested in the one before it makes that one shorter:
    [CombineNoMapRegions] gives the pair the end of the inner region, so the
    addresses of the outer region behind it are no longer reserved. *)
Theorem nested_region_lost {S} a b comb (s : S) :
  region_ok a -> region_ok b -> length comb = Z.to_nat NUM_NOMAP_REGIONS ->
  StartAddr a <= StartAddr b ->
  StartAddr b < StartAddr a + Size a -> StartAddr b + Size b < StartAddr a + Size a ->
  exists o junk, CombineNoMapRegions [a; b] 2 comb s = (Go (EFI_SUCCESS, [o] ++ junk, Some 1), s) /\
    (forall x, StartAddr b + Size b <= x < StartAddr a + Size a ->
       reserved [a; b] x /\ ~ reserved [o] x).
Proof.
  intros Ha Hb Hlen Hab Hin Hend. destruct comb as [|c0 comb]; [done|].
  pose proof (region_end_ok _ Ha) as Ea. pose proof (region_end_ok _ Hb) as Eb. unfold region_ok in *.
  exists (mkRegion (StartAddr a) (StartAddr b + Size b - StartAddr a)), comb. split.
  - assert (Hset : forall x y, arr_set (R := EFI_STATUS * list CarveoutMemRegion * option Z)
      (x :: comb) 0 y s = (Go (y :: comb), s)) by done.
    unfold CombineNoMapRegions. erewrite bind_go by reflexivity. rewrite (bind_go _ _ _ _ _ (Hset _ _)).
    change (Z.to_nat (u32 (2 - 1))) with 1%nat. cbn [for_up].
    assert (Hstep : forall st, st = StartAddr a -> forall r, combine_step [a; b] 0 (mkCombine st 0 (r :: comb)) s =
      (Go (false, mkCombine st 0 (mkRegion (StartAddr r) (StartAddr b + Size b - StartAddr a) :: comb)), s)).
    { intros st -> r. unfold combine_step. do 2 (erewrite bind_go by reflexivity).
      rewrite Ea, Eb, (proj2 (Z.eqb_neq _ _)), Z.gtb_ltb, (proj2 (Z.ltb_ge _ _)), (proj2 (Z.ltb_lt _ _)) by lia.
      erewrite bind_go by reflexivity. cbn [cb_Start]. by rewrite (u64_small (StartAddr b + Size b - StartAddr a)) by lia. }
    erewrite bind_go by (rewrite (bind_go _ _ _ _ _ (Hstep _ eq_refl _)); reflexivity). done.
  - intros x Hx. rewrite !reserved_cons. unfold in_region. simpl.
    split; [left; lia|]. intros [?|?%reserved_nil]; [lia|done].
Qed.

Lemma nested_region_lost_witness :
  exists o junk, CombineNoMapRegions [mkRegion 0x80000000 0x10000; mkRegion 0x80001000 0x1000] 2 demo_stack tt =
      (Go (EFI_SUCCESS, [o] ++ junk, Some 1), tt) /\
    (forall x, 0x80001000 + 0x1000 <= x < 0x80000000 + 0x10000 ->
       reserved [mkRegion 0x80000000 0x10000; mkRegion 0x80001000 0x1000] x /\ ~ reserved [o] x).
Proof.
  apply (nested_region_lost (mkRegion 0x80000000 0x10000) (mkRegion 0x80001000 0x1000) demo_stack tt);
    repeat split; vm_compute; discriminate || reflexivity.
Defined.

(** 51 pieces of one partition: the array of 50 is overrun before the count of
    30 is looked at. *)
Example pieces_overrun :
  fst (UpdateRamPartitions (fun _ => true) [mkRam 0x80000000 0x10000000] 1
         (map (fun i => mkRegion (0x80001000 + 0x2000 * Z.of_nat i) 0x1000) (seq 0 50)) 50 demo_upd []) =
  Halt OutOfBounds.
Proof. vm_compute. reflexivity. Qed.
