(* ===== verification/FdtClaims.v ===== *)
(** What the device tree reader and the node search promise. *)
From Stdlib Require Import ZArith Lia.
From stdpp Require Import base list numbers option sets sorting.
From S2P Require Import Prelude EfiBase Fdt FdtSpec FdtTree FdtRw FdtRwSpec FdtDemo.

(** [fdt_next_tag] decodes what the format encodes: at the offset of any
    tag of a structure block it returns that tag and the offset of the next
    one, padding included. *)
Theorem tag_decoded {S R} fdt off toks total version pre t post (s : S) :
  holds_toks fdt off toks total version -> Forall tok_ok toks -> toks = pre ++ t :: post ->
  fdt_next_tag (R := R) fdt (pos pre) s = (Go (tag_of t, pos (pre ++ [t])), s).
Proof. intros H Hts. by eapply next_tag_at. Qed.

Lemma tag_decoded_witness :
  fdt_next_tag (R := unit) demo_fdt (pos [TBegin []]) tt =
  (Go (FDT_PROP, pos ([TBegin []] ++ [TProp 18 (be_put 4 2)])), tt).
Proof.
  exact (tag_decoded demo_fdt 56 (tree_toks demo_root) demo_total 17 [TBegin []] (TProp 18 (be_put 4 2)) _ tt
    (tb_holds _ _ _ _ _ _ demo_tree) (tb_toks _ _ _ _ _ _ demo_tree) eq_refl).
Defined.

(** [fdt_first_subnode] and [fdt_next_subnode] enumerate the children of a
    node: from the offset of any node of the tree the first call returns its
    first child, every further call the following one, whatever lies below
    them, and the call on the last child returns [-FDT_ERR_NOTFOUND]. *)
Theorem subnodes_enumerated {S R} fdt off toks total version pre suf n (s : S) :
  holds_toks fdt off toks total version -> Forall tok_ok toks ->
  toks = pre ++ flatten n ++ suf -> TEnd ∈ suf ->
  fdt_first_subnode (R := R) fdt (pos pre) s =
    (Go (match node_children n with [] => - FDT_ERR_NOTFOUND | _ => child_pos pre n 0 end), s) /\
  forall i, (i < length (node_children n))%nat ->
    fdt_next_subnode (R := R) fdt (child_pos pre n i) s =
    (Go (if decide (Datatypes.S i < length (node_children n))%nat then child_pos pre n (Datatypes.S i)
         else - FDT_ERR_NOTFOUND), s).
Proof.
  intros H Hts Ht He. split; [by eapply first_subnode_at|]. intros i Hi. by eapply next_subnode_at.
Qed.

Lemma subnodes_enumerated_witness :
  fdt_first_subnode (R := unit) demo_fdt (pos []) tt = (Go (child_pos [] demo_root 0), tt) /\
  forall i, (i < 3)%nat ->
    fdt_next_subnode (R := unit) demo_fdt (child_pos [] demo_root i) tt =
    (Go (if decide (Datatypes.S i < 3)%nat then child_pos [] demo_root (Datatypes.S i)
         else - FDT_ERR_NOTFOUND), tt).
Proof.
  exact (subnodes_enumerated demo_fdt 56 (tree_toks demo_root) demo_total 17 [] [TEnd] demo_root tt
    (tb_holds _ _ _ _ _ _ demo_tree) (tb_toks _ _ _ _ _ _ demo_tree) eq_refl
    ltac:(apply list_elem_of_here)).
Defined.

(** C34: [fdt_getprop] on the offset of any node returns a pointer to the value
    of the first property of that name, with its length, and no pointer with
    [-FDT_ERR_NOTFOUND] when the node has no such property (those of its
    subnodes do not count). *)
Theorem property_found {S R} fdt off toks total version strs pre suf n q (s : S) :
  holds_toks fdt off toks total version -> Forall tok_ok toks ->
  toks = pre ++ flatten n ++ suf ->
  Forall (fun p => str_at fdt p.1 (strs p.1)) (node_props n) -> Forall (fun c => c <> 0) q ->
  exists r, fdt_getprop (R := R) fdt (pos pre) q s = (Go r, s) /\
    match lookup_prop strs (node_props n) q with
    | Some v => exists p, r = (Some p, Z.of_nat (length v)) /\
        buf_read fdt p (Z.of_nat (length v)) = Some v
    | None => r = (None, - FDT_ERR_NOTFOUND)
    end.
Proof. intros H Hts. by eapply getprop_at. Qed.

Lemma property_found_witness :
  exists r, fdt_getprop (R := unit) demo_fdt (pos []) (L "#address-cells") tt = (Go r, tt) /\
    match lookup_prop demo_strs (node_props demo_root) (L "#address-cells") with
    | Some v => exists p, r = (Some p, Z.of_nat (length v)) /\
        buf_read demo_fdt p (Z.of_nat (length v)) = Some v
    | None => r = (None, - FDT_ERR_NOTFOUND)
    end.
Proof.
  apply (property_found demo_fdt 56 (tree_toks demo_root) demo_total 17 demo_strs [] [TEnd] demo_root _ tt
    (tb_holds _ _ _ _ _ _ demo_tree) (tb_toks _ _ _ _ _ _ demo_tree) eq_refl).
  - repeat constructor. apply (tb_names _ _ _ _ _ _ demo_tree 18 (be_put 4 2)). vm_compute. set_solver.
  - repeat constructor; discriminate.
Defined.

(** [FdtPathOffset] with an empty node list finds the first-level node of
    the name: the child of the root called [q], when no earlier child is called
    [q] with or without a unit address and the name is followed by enough
    memory for the scan that reads past it. *)
Theorem path_found {R} pool fdt off root strs total version q extra i c :
  tree_blob fdt off root strs total version ->
  Forall (fun c => is_u8 c /\ c <> 0 /\ c <> 47) q -> q <> [] -> (64 <= length (q ++ 0%Z :: extra))%nat ->
  node_children root !! i = Some c -> node_name c = q ->
  (forall j c', (j < i)%nat -> node_children root !! j = Some c' -> ~ name_matches (node_name c') q) ->
  exists nl, FdtPathOffset (R := R) pool fdt (47 :: q ++ 0 :: extra) [] = (Go (child_pos [] root i), nl).
Proof. intros T. by eapply path_offset_child. Qed.

Lemma path_found_witness :
  exists nl, FdtPathOffset (R := unit) (fun _ => true) demo_fdt (47 :: L "soc" ++ 0 :: replicate 60 0) [] =
    (Go (child_pos [] demo_root 2), nl).
Proof.
  apply (path_found (fun _ => true) demo_fdt 56 demo_root demo_strs demo_total 17 (L "soc") (replicate 60 0)
    2 (DNode (L "soc") [] []) demo_tree).
  - repeat constructor; discriminate.
  - discriminate.
  - vm_compute. lia.
  - reflexivity.
  - reflexivity.
  - intros [|[|j]] c' Hj Hc; [| |lia]; vm_compute in Hc; simplify_eq;
      intros [H|[u H]]; vm_compute in H; discriminate.
Defined.




(** The node list stays in descending order of the offsets through every
    search, whatever the blob, the path and the memory pool do; and on an
    ordered list [FdtUpdateNodeOffsetInList], which stops at the first offset
    that is not larger, moves every node behind the changed one and no other. *)
Theorem node_list_ordered {R} pool fdt path o d nl :
  desc nl ->
  desc (FdtPathOffset (R := R) pool fdt path nl).2 /\
  FdtUpdateNodeOffsetInList (R := R) o d nl =
    (Go tt, if d =? 0 then nl else
      map (fun n => if NodeOffset n >? o then mkFirst (NodeName n) (s32 (NodeOffset n + d)) else n) nl).
Proof.
  intros Hd. split; [by apply keeps_path_offset|].
  unfold FdtUpdateNodeOffsetInList. destruct (d =? 0); [done|].
  munfold. by rewrite shift_nodes_map.
Qed.

Definition literal_path (s : String.string) : list Z := L s ++ 0 :: replicate 64 0.
#[global] Arguments literal_path s%_string_scope.
Definition demo_list : list FDT_FIRST_LEVEL_NODE := [mkFirst (L "soc") 500; mkFirst (L "memory") 40].

Lemma node_list_ordered_witness :
  desc (FdtPathOffset (R := unit) (fun _ => true) demo_fdt (literal_path "/soc") demo_list).2 /\
  FdtUpdateNodeOffsetInList (R := unit) 100 8 demo_list =
    (Go tt, map (fun n => if NodeOffset n >? 100 then mkFirst (NodeName n) (s32 (NodeOffset n + 8)) else n)
       demo_list).
Proof.
  apply (node_list_ordered (fun _ => true) demo_fdt (literal_path "/soc") 100 8 demo_list).
  repeat constructor. vm_compute. discriminate.
Defined.

(** * Where the search with a list differs *)

(** A path is looked up by a prefix of the names on the list: with the children
    [soc-dbg] and [soc], the first search finds [/soc], a second one [soc-dbg]. *)
Definition twin_root : dnode := DNode [] [] [DNode (L "soc-dbg") [] []; DNode (L "soc") [] []].
Definition twin_fdt : list Z := Eval vm_compute in mk_blob (tree_block twin_root) demo_strings.

Example second_search_differs :
  let run := FdtPathOffset (R := unit) (fun _ => true) twin_fdt (literal_path "/soc") in
  let one := run [] in
  one.1 = Go (child_pos [] twin_root 1) /\ (run one.2).1 = Go (child_pos [] twin_root 0).
Proof. vm_compute. done. Qed.

(** A name longer than what is left of the structure block: the search returns
    0, the root, where [fdt_path_offset] reports that there is no such node. *)
Example missing_node_is_root :
  let path := literal_path "/a-node-that-is-not-there-at-all" in
  fst (FdtPathOffset (R := unit) (fun _ => true) twin_fdt path []) = Go 0 /\
  fst (fdt_path_offset (R := unit) twin_fdt (cstr path) tt) = Go (- FDT_ERR_NOTFOUND).
Proof. vm_compute. done. Qed.

(** A property whose length is 0xFFFFFFF4 makes the node walk go round for
    ever: no number of rounds is enough. *)
Definition stuck_block : list Z :=
  enc [TBegin []] ++ be_put 4 FDT_PROP ++ be_put 4 STUCK_LEN ++ be_put 4 0 ++ enc [TEndNode; TEnd].
Definition stuck_fdt : list Z := Eval vm_compute in mk_blob stuck_block demo_strings.

Example stuck_property_loops fuel depth :
  next_node_loop (R := unit) stuck_fdt fuel 8 depth tt = (Halt Forever, tt).
Proof. apply stuck_walk. vm_compute. reflexivity. Qed.
