(* ===== verification/Bootconfig.v ===== *)
(** The boot configuration behind the ramdisk
    ([QcomModulePkg/Library/BootLib/Bootconfig.c]).

    The state is the physical memory, a byte for every address: the loader
    copies to load addresses that are no objects of its own.  An access that
    leaves the 64-bit address space stops the machine. *)
From Stdlib Require Import ZArith Lia.
From stdpp Require Import base list numbers option.
From S2P Require Import Prelude EfiBase.

(** * Memory *)

Definition memory : Type := Z -> Z.

Definition mem_read (m : memory) (a n : Z) : list Z := map (fun i => m (a + i)) (seqZ 0 n).

Definition mem_write (m : memory) (a : Z) (d : list Z) : memory :=
  fun x => if (a <=? x) && (x <? a + Z.of_nat (length d)) then nth (Z.to_nat (x - a)) d 0 else m x.

Definition in_space (a n : Z) : bool := (0 <=? a) && (a + n <=? 2 ^ 64).

Definition load {R} (a n : Z) : M memory R (list Z) :=
  if in_space a n then m ← get; mret (mem_read m a n) else stop OutOfBounds.
Definition store {R} (a : Z) (d : list Z) : M memory R unit :=
  if in_space a (Z.of_nat (length d)) then modify (fun m => mem_write m a d) else stop OutOfBounds.

(** [gBS->CopyMem (Destination, Source, Length)] between two addresses; the
    source is read as it was before. *)
Definition CopyMem {R} (Destination Source Length : Z) : M memory R unit :=
  d ← load Source Length; store Destination d.

(** * The trailer *)

Definition V4_BOOTCONFIG_MAGIC_SIZE : Z := 12.
Definition V4_BOOTCONFIG_SIZE_SIZE : Z := 4.
Definition V4_BOOTCONFIG_CHECKSUM_SIZE : Z := 4.
Definition V4_BOOTCONFIG_TRAILER : Z :=
  V4_BOOTCONFIG_MAGIC_SIZE + V4_BOOTCONFIG_SIZE_SIZE + V4_BOOTCONFIG_CHECKSUM_SIZE.
Definition Magic : list Z := L "#BOOTCONFIG" ++ [10].

(** [ALIGN (v, a)] on 64-bit addresses. *)
Definition ALIGN (v a : Z) : Z := u64 (Z.lor (u64 (v - 1)) (a - 1) + 1).

Section Bootconfig.
Context {R : Type}.

Definition IsTrailerPresent (BootconfigEndAddr : Z) : M memory R bool :=
  TrailMagicBuffer ← load (u64 (BootconfigEndAddr - V4_BOOTCONFIG_MAGIC_SIZE)) V4_BOOTCONFIG_MAGIC_SIZE;
  mret (AsciiStrnCmp (TrailMagicBuffer ++ [0]) Magic V4_BOOTCONFIG_MAGIC_SIZE =? 0).

Definition Checksum (Buffer : list Z) : Z := fold_left (fun Sum b => u32 (Sum + b)) Buffer 0.

(** Returns the address behind the trailer, 0 on an error. *)
Definition AddBootConfigTrailer (BootconfigStartAddr BootconfigSize : Z) : M memory R Z :=
  if BootconfigStartAddr =? 0 then mret 0
  else if BootconfigSize =? 0 then mret 0
  else
    let End := ALIGN (u64 (BootconfigStartAddr + BootconfigSize)) 4 in
    let BootconfigSize := u32 (End - BootconfigStartAddr) in
    t ← IsTrailerPresent End;
    if (t : bool) then mret 0
    else
      store End (le_put 4 BootconfigSize);;
      d ← load BootconfigStartAddr BootconfigSize;
      store (u64 (End + V4_BOOTCONFIG_SIZE_SIZE)) (le_put 4 (Checksum d));;
      store (u64 (End + V4_BOOTCONFIG_SIZE_SIZE + V4_BOOTCONFIG_CHECKSUM_SIZE)) Magic;;
      mret (u64 (End + V4_BOOTCONFIG_MAGIC_SIZE + V4_BOOTCONFIG_SIZE_SIZE + V4_BOOTCONFIG_CHECKSUM_SIZE)).

(** [Params] is the object the pointer names, [None] for [NULL]. *)
Definition AddBootconfigParameters (Params : option (list Z)) (ParamSize BootconfigStartAddr BootconfigSize : Z) :
    M memory R Z :=
  if ParamSize =? 0 then mret 0
  else match Params with
  | None => mret 0
  | Some Params =>
      if BootconfigStartAddr =? 0 then mret 0
      else
        let End := u64 (BootconfigStartAddr + BootconfigSize) in
        t ← IsTrailerPresent End;
        let End := if (t : bool) then u64 (End - V4_BOOTCONFIG_TRAILER) else End in
        let CopiedBytes := if (t : bool) then 0 - V4_BOOTCONFIG_TRAILER else 0 in
        p ← need OutOfBounds (buf_read Params 0 ParamSize);
        store End p;;
        let CopiedBytes := s32 (CopiedBytes + ParamSize) in
        AddBootConfigTrailer BootconfigStartAddr (u32 (BootconfigSize + CopiedBytes))
  end.
End Bootconfig.
