(* ===== verification/BootconfigSpec.v ===== *)
(** What the boot configuration code leaves in memory, and how a kernel reads
    it back. *)
From Stdlib Require Import ZArith Lia.
From stdpp Require Import base list numbers option.
From S2P Require Import Prelude EfiBase Bootconfig.

(** * Memory *)

Lemma length_mem_read m a n : length (mem_read m a n) = Z.to_nat n.
Proof. unfold mem_read. by rewrite length_map, length_seqZ. Qed.

Lemma mem_read_ext m m' a n :
  (forall x, a <= x < a + n -> m x = m' x) -> mem_read m a n = mem_read m' a n.
Proof.
  intros H. unfold mem_read. apply map_ext_in. intros i Hi. apply list_elem_of_In, elem_of_seqZ in Hi.
  apply H. lia.
Qed.

Lemma mem_read_app m a n k :
  0 <= n -> 0 <= k -> mem_read m a (n + k) = mem_read m a n ++ mem_read m (a + n) k.
Proof.
  intros Hn Hk. unfold mem_read. rewrite seqZ_app, map_app by done. f_equal.
  rewrite <- (Z.add_0_r (0 + n)), <- fmap_add_seqZ. change (?f <$> ?l) with (map f l).
  rewrite map_map. apply map_ext. intros i. f_equal. lia.
Qed.

Lemma mem_read_lookup m a n i :
  (i < Z.to_nat n)%nat -> mem_read m a n !! i = Some (m (a + Z.of_nat i)).
Proof.
  intros Hi. unfold mem_read. change (map ?f ?l) with (f <$> l). rewrite list_lookup_fmap.
  rewrite lookup_seqZ_lt by lia. done.
Qed.

Lemma mem_write_out m a d x : x < a \/ a + Z.of_nat (length d) <= x -> mem_write m a d x = m x.
Proof. intros H. unfold mem_write. case_match eqn:E; [|done]. apply andb_prop in E as [E1 E2]. bools. lia. Qed.

Lemma mem_read_written m a d : mem_read (mem_write m a d) a (Z.of_nat (length d)) = d.
Proof.
  apply list_eq. intros i. destruct (decide (i < length d)%nat) as [Hi|Hi].
  - rewrite mem_read_lookup by lia. unfold mem_write.
    rewrite (proj2 (Z.leb_le _ _)), (proj2 (Z.ltb_lt _ _)) by lia. cbn [andb].
    replace (Z.to_nat (a + Z.of_nat i - a)) with i by lia.
    destruct (lookup_lt_is_Some_2 d i Hi) as [x Hx]. rewrite Hx. f_equal. by apply nth_lookup_Some.
  - rewrite (lookup_ge_None_2 d) by lia. apply lookup_ge_None_2. rewrite length_mem_read. lia.
Qed.

Lemma mem_write_app m a d e x :
  mem_write (mem_write m a d) (a + Z.of_nat (length d)) e x = mem_write m a (d ++ e) x.
Proof.
  destruct (decide (x < a \/ a + Z.of_nat (length (d ++ e)) <= x)) as [Ho|Hi].
  { rewrite length_app in Ho. rewrite !mem_write_out; [done|rewrite length_app|..]; lia. }
  rewrite length_app in Hi. unfold mem_write. rewrite length_app.
  rewrite (proj2 (Z.leb_le a x)), (proj2 (Z.ltb_lt x (a + Z.of_nat (length d + length e)))) by lia.
  cbn [andb]. destruct (Z.leb_spec (a + Z.of_nat (length d)) x).
  - rewrite (proj2 (Z.ltb_lt _ _)) by lia. cbn [andb]. rewrite app_nth2 by lia. f_equal. lia.
  - cbn [andb]. rewrite (proj2 (Z.ltb_lt _ _)) by lia. rewrite app_nth1 by lia. done.
Qed.

Lemma mem_write_ext m m' a d x : m x = m' x -> mem_write m a d x = mem_write m' a d x.
Proof. intros H. unfold mem_write. by case_match. Qed.

Lemma mem_write_read m a n x : mem_write m a (mem_read m a n) x = m x.
Proof.
  unfold mem_write. case_match eqn:E; [|done]. apply andb_prop in E as [E1 E2]. rewrite length_mem_read in E2. bools.
  apply nth_lookup_Some. rewrite mem_read_lookup by lia. do 2 f_equal. lia.
Qed.

Lemma mem_load_go {R} m a n : in_space a n = true -> load (R := R) a n m = (Go (mem_read m a n), m).
Proof. intros H. unfold load. by rewrite H. Qed.
Lemma mem_store_go {R} m a d :
  in_space a (Z.of_nat (length d)) = true -> store (R := R) a d m = (Go tt, mem_write m a d).
Proof. intros H. unfold store. by rewrite H. Qed.
Lemma in_space_ok a n : 0 <= a -> a + n <= 2 ^ 64 -> in_space a n = true.
Proof. intros. unfold in_space. by rewrite (proj2 (Z.leb_le _ _)), (proj2 (Z.leb_le _ _)) by lia. Qed.

(** * Reading a boot configuration back

    As the format defines it: the magic at the end, the size and the checksum
    before it, and the text before those. *)
Definition bootconfig_of (m : memory) (End : Z) : option (list Z) :=
  if bool_decide (mem_read m (End - 12) 12 = Magic) then
    let size := le_get (mem_read m (End - 20) 4) in
    let text := mem_read m (End - 20 - size) size in
    if le_get (mem_read m (End - 16) 4) =? Checksum text then Some text else None
  else None.

(** * The trailer *)

Lemma length_Magic : Z.of_nat (length Magic) = 12.
Proof. reflexivity. Qed.

Lemma cstr_prefix s : cstr s `prefix_of` s.
Proof.
  induction s as [|c s IH]; simpl; [done|]. case_match; [apply prefix_nil|by apply prefix_cons].
Qed.

Lemma magic_cmp b : length b = 12%nat -> AsciiStrnCmp (b ++ [0]) Magic 12 = 0 <-> b = Magic.
Proof.
  intros Hb. unfold AsciiStrnCmp. rewrite StrnCmp_eq0 by lia. change (cstr Magic) with Magic.
  change (take (Z.to_nat 12) Magic) with Magic. split.
  - intros Ht. destruct (cstr_prefix (b ++ [0])) as [k Hk].
    assert (Hc : (12 <= length (cstr (b ++ [0%Z])))%nat).
    { apply (f_equal length) in Ht. rewrite length_take in Ht. change (length Magic) with 12%nat in Ht. lia. }
    apply (f_equal (take 12)) in Hk. rewrite take_app_le in Hk by lia.
    rewrite take_app_le in Hk by done. rewrite take_ge in Hk by lia. rewrite Hk. exact Ht.
  - intros ->. reflexivity.
Qed.

Lemma trailer_present {R} m End :
  12 <= End -> End <= 2 ^ 64 ->
  IsTrailerPresent (R := R) End m = (Go (bool_decide (mem_read m (End - 12) 12 = Magic)), m).
Proof.
  intros H1 H2. unfold IsTrailerPresent, V4_BOOTCONFIG_MAGIC_SIZE.
  rewrite u64_small by lia. erewrite bind_go by (apply mem_load_go, in_space_ok; lia).
  unfold mret, M_MRet, M_ret. do 2 f_equal.
  pose proof (magic_cmp (mem_read m (End - 12) 12)) as Hc. rewrite length_mem_read in Hc. specialize (Hc eq_refl).
  case_bool_decide as Hd; [by apply Z.eqb_eq, Hc|]. apply Z.eqb_neq. intros H0. by apply Hd, Hc.
Qed.

(** The address is rounded up to a multiple of four. *)
Definition aligned (a : Z) : Z := (a + 3) / 4 * 4.

Lemma ALIGN_4 a : 0 < a -> a + 3 < 2 ^ 64 -> ALIGN a 4 = aligned a.
Proof.
  intros H0 H1. unfold ALIGN, aligned. rewrite (u64_small (a - 1)) by lia. change (4 - 1) with (Z.ones 2).
  assert (Hor : Z.lor (a - 1) (Z.ones 2) = (a - 1) / 4 * 4 + 3).
  { pose proof (Z.add_lor_land (Z.ldiff (a - 1) (Z.ones 2)) (Z.ones 2)) as Hadd.
    rewrite Z.ldiff_ones_r, Z.shiftl_mul_pow2, Z.shiftr_div_pow2 in Hadd by lia.
    change (2 ^ 2) with 4 in Hadd. change (Z.ones 2) with 3 in *.
    assert (Hl : Z.lor ((a - 1) / 4 * 4) 3 = Z.lor (a - 1) 3).
    { change 3 with (Z.ones 2). change 4 with (2 ^ 2).
      rewrite <- Z.shiftr_div_pow2, <- Z.shiftl_mul_pow2, <- Z.ldiff_ones_r by lia.
      apply Z.bits_inj'. intros n Hn. rewrite !Z.lor_spec, Z.ldiff_spec.
      by destruct (Z.testbit (a - 1) n), (Z.testbit (Z.ones 2) n). }
    assert (Hn : Z.land ((a - 1) / 4 * 4) 3 = 0).
    { change 3 with (Z.ones 2). rewrite Z.land_ones by lia. change (2 ^ 2) with 4. by apply Z.mod_mul. }
    lia. }
  rewrite Hor. pose proof (Z.div_mod (a - 1) 4). pose proof (Z.div_mod (a + 3) 4).
  pose proof (Z.mod_pos_bound (a - 1) 4). pose proof (Z.mod_pos_bound (a + 3) 4).
  rewrite u64_small; lia.
Qed.

Lemma aligned_bounds a : a <= aligned a < a + 4 /\ (4 | aligned a).
Proof.
  unfold aligned. pose proof (Z.div_mod (a + 3) 4). pose proof (Z.mod_pos_bound (a + 3) 4).
  split; [lia|]. by exists ((a + 3) / 4).
Qed.

(** The bytes of a trailer. *)
Definition trailer (text : list Z) : list Z :=
  le_put 4 (Z.of_nat (length text)) ++ le_put 4 (Checksum text) ++ Magic.

Lemma length_trailer text : Z.of_nat (length (trailer text)) = 20.
Proof. unfold trailer. by rewrite !length_app, !length_le_put. Qed.

(** What [AddBootConfigTrailer] does to a region that has no trailer. *)
Lemma trailer_added {R} m Start Size :
  12 <= Start -> 0 < Size < 2 ^ 31 -> aligned (Start + Size) + 20 < 2 ^ 64 ->
  let End := aligned (Start + Size) in
  mem_read m (End - 12) 12 <> Magic ->
  exists m', AddBootConfigTrailer (R := R) Start Size m = (Go (End + 20), m') /\
    forall x, m' x = mem_write m End (trailer (mem_read m Start (End - Start))) x.
Proof.
  intros Hs Hn Hb End Hno. pose proof (aligned_bounds (Start + Size)) as [Ha _]. fold End in Ha, Hb.
  unfold AddBootConfigTrailer. rewrite (proj2 (Z.eqb_neq _ _)), (proj2 (Z.eqb_neq _ _)) by lia.
  rewrite (u64_small (Start + Size)), ALIGN_4 by lia. fold End.
  rewrite u32_small by lia.
  erewrite bind_go by (apply trailer_present; lia). rewrite bool_decide_false by done.
  unfold V4_BOOTCONFIG_SIZE_SIZE, V4_BOOTCONFIG_CHECKSUM_SIZE, V4_BOOTCONFIG_MAGIC_SIZE.
  rewrite !u64_small by lia.
  erewrite bind_go by (apply mem_store_go, in_space_ok; rewrite ?length_le_put; lia).
  erewrite bind_go by (apply mem_load_go, in_space_ok; lia).
  erewrite bind_go by (apply mem_store_go, in_space_ok; rewrite ?length_le_put; lia).
  erewrite bind_go by (apply mem_store_go, in_space_ok; rewrite ?length_Magic; lia).
  eexists. split; [unfold mret, M_MRet, M_ret; do 2 f_equal; lia|]. intros x.
  set (text := mem_read m Start (End - Start)).
  rewrite (mem_read_ext _ m) by (intros y Hy; apply mem_write_out; lia). fold text.
  assert (Hl : Z.of_nat (length text) = End - Start) by (unfold text; rewrite length_mem_read; lia).
  unfold trailer. rewrite <- Hl, <- mem_write_app, <- mem_write_app, !length_le_put.
  done.
Qed.

(** A trailer is read back. *)
Lemma Checksum_u32 text : is_u32 (Checksum text).
Proof.
  unfold Checksum. assert (Hg : forall t a, is_u32 a -> is_u32 (fold_left (fun Sum b => u32 (Sum + b)) t a)).
  { induction t as [|b t IH]; intros a Ha; simpl; [done|]. apply IH, u32_range. }
  by apply Hg.
Qed.

Lemma bootconfig_read m Start text :
  Z.of_nat (length text) < 2 ^ 32 ->
  mem_read m Start (Z.of_nat (length (text ++ trailer text))) = text ++ trailer text ->
  bootconfig_of m (Start + Z.of_nat (length text) + 20) = Some text.
Proof.
  intros Hl Hm. set (n := Z.of_nat (length text)) in *.
  rewrite length_app, Nat2Z.inj_add, length_trailer in Hm. fold n in Hm.
  rewrite mem_read_app in Hm by lia. apply app_inj_1 in Hm as [Ht Hr]; [|rewrite length_mem_read; lia].
  change 20 with (4 + (4 + 12)) in Hr. rewrite !mem_read_app in Hr by lia. unfold trailer in Hr.
  apply app_inj_1 in Hr as [Hsz Hr]; [|by rewrite length_mem_read, length_le_put].
  apply app_inj_1 in Hr as [Hck Hmg]; [|by rewrite length_mem_read, length_le_put].
  unfold bootconfig_of.
  replace (Start + n + 20 - 12) with (Start + n + 4 + 4) by lia.
  replace (Start + n + 20 - 16) with (Start + n + 4) by lia.
  replace (Start + n + 20 - 20) with (Start + n) by lia.
  rewrite Hmg, Hsz, Hck, bool_decide_true by done. fold n.
  rewrite !le_get_put_small; [|change (8 * Z.of_nat 4) with 32; lia|apply Checksum_u32].
  replace (Start + n - n) with Start by lia. by rewrite Ht, Z.eqb_refl.
Qed.

(** Adding a count that may be negative. *)
Lemma u32_add_s32 a x : u32 (a + s32 x) = u32 (a + x).
Proof.
  unfold s32. cbv zeta. unfold u32. case_match; [by rewrite Z.add_mod_idemp_r|].
  replace (a + (x mod 2 ^ 32 - 2 ^ 32)) with (a + x mod 2 ^ 32 + (-1) * 2 ^ 32) by lia.
  by rewrite Z.mod_add, Z.add_mod_idemp_r.
Qed.

(** * Appending parameters *)

(** The text of a region: all of it, or what is before its trailer. *)
Definition config_at (m : memory) (Start Size : Z) (text : list Z) : Prop :=
  if bool_decide (mem_read m (Start + Size - 12) 12 = Magic)
  then 20 <= Size /\ text = mem_read m Start (Size - 20)
  else text = mem_read m Start Size.

Lemma config_length m Start Size text :
  0 <= Size -> config_at m Start Size text ->
  text = mem_read m Start (Z.of_nat (length text)) /\
  Z.of_nat (length text) =
    Size - (if bool_decide (mem_read m (Start + Size - 12) 12 = Magic) then 20 else 0).
Proof.
  intros Hs. unfold config_at. case_bool_decide; [intros [H20 ->]|intros ->];
    rewrite length_mem_read, Z2Nat.id by lia; split; done || lia.
Qed.

Section Append.
Context {R : Type} (m : memory) (Start Size : Z) (text params : list Z).
Context (Hcfg : config_at m Start Size text) (Hsize : 0 <= Size) (Hstart : 12 <= Start).
Context (Hp : params <> []).
Definition grown : Z := Z.of_nat (length (text ++ params)).
Definition new_end : Z := aligned (Start + grown).
Context (Hmax : Size + Z.of_nat (length params) < 2 ^ 31) (Hspace : Start + Size + Z.of_nat (length params) + 24 < 2 ^ 64).

(** The bytes up to the next multiple of four stay what they were. *)
Definition padding : list Z := mem_read m (Start + grown) (new_end - (Start + grown)).
Definition new_text : list Z := text ++ params ++ padding.

Lemma append_bounds :
  0 <= grown <= Size + Z.of_nat (length params) /\ Start + grown <= new_end < Start + grown + 4.
Proof.
  destruct (config_length _ _ _ _ Hsize Hcfg) as [_ Hl]. unfold new_end.
  pose proof (aligned_bounds (Start + grown)) as [Ha _]. split; [|exact Ha].
  unfold grown. rewrite length_app. case_bool_decide; lia.
Qed.

Lemma length_new_text : Z.of_nat (length new_text) = new_end - Start.
Proof.
  pose proof append_bounds as [_ Hb]. unfold new_text, padding. rewrite !length_app, length_mem_read.
  unfold grown in *. rewrite length_app in *. lia.
Qed.

Definition written : memory := mem_write m (Start + Z.of_nat (length text)) params.

Lemma written_text : mem_read written Start (new_end - Start) = new_text.
Proof.
  pose proof append_bounds as [_ Hb]. destruct (config_length _ _ _ _ Hsize Hcfg) as [Ht _].
  assert (Hg : grown = Z.of_nat (length text) + Z.of_nat (length params))
    by (unfold grown; rewrite length_app; lia).
  replace (new_end - Start) with
    (Z.of_nat (length text) + (Z.of_nat (length params) + (new_end - (Start + grown)))) by lia.
  rewrite !mem_read_app by lia. unfold new_text, written. f_equal; [|f_equal].
  - rewrite Ht at 3. apply mem_read_ext. intros x Hx. apply mem_write_out. lia.
  - apply mem_read_written.
  - unfold padding. rewrite <- Z.add_assoc, <- Hg. apply mem_read_ext. intros x Hx. apply mem_write_out. lia.
Qed.

Lemma params_appended :
  mem_read written (new_end - 12) 12 <> Magic ->
  exists m', AddBootconfigParameters (R := R) (Some params) (Z.of_nat (length params)) Start Size m =
      (Go (new_end + 20), m') /\
    (forall x, m' x = mem_write m (Start + Z.of_nat (length text))
                        (params ++ padding ++ trailer new_text) x).
Proof.
  intros Hno. pose proof append_bounds as [Hg Hb].
  destruct (config_length _ _ _ _ Hsize Hcfg) as [_ Hl].
  assert (Hgl : grown = Z.of_nat (length text) + Z.of_nat (length params))
    by (unfold grown; rewrite length_app; lia).
  assert (0 < Z.of_nat (length params)) by (destruct params; [done|simpl; lia]).
  unfold AddBootconfigParameters. rewrite (proj2 (Z.eqb_neq _ _)), (proj2 (Z.eqb_neq _ _)) by lia.
  rewrite (u64_small (Start + Size)) by lia.
  erewrite bind_go by (apply trailer_present; lia).
  set (t := bool_decide (mem_read m (Start + Size - 12) 12 = Magic)) in *. unfold V4_BOOTCONFIG_TRAILER,
    V4_BOOTCONFIG_MAGIC_SIZE, V4_BOOTCONFIG_SIZE_SIZE, V4_BOOTCONFIG_CHECKSUM_SIZE.
  change (12 + 4 + 4) with 20.
  replace (if t then u64 (Start + Size - 20) else Start + Size) with (Start + Z.of_nat (length text))
    by (destruct t; rewrite ?u64_small by lia; lia).
  assert (Hrd : buf_read params 0 (Z.of_nat (length params)) = Some params)
    by (apply buf_read_Some; split_and!; [lia..|by rewrite drop_0, Nat2Z.id, take_ge]).
  erewrite bind_go by (rewrite Hrd; reflexivity).
  erewrite bind_go by (apply mem_store_go, in_space_ok; lia). fold written.
  replace (u32 (Size + s32 ((if t then 0 - 20 else 0) + Z.of_nat (length params)))) with grown
    by (rewrite u32_add_s32, u32_small; destruct t; lia).
  destruct (trailer_added (R := R) written Start grown) as (m' & Hm' & Hx);
    [done|lia|fold new_end; lia|exact Hno|]. fold new_end in Hm', Hx.
  exists m'. split; [done|]. intros x. rewrite Hx, written_text.
  rewrite <- !mem_write_app. fold written.
  replace (Start + Z.of_nat (length text) + Z.of_nat (length params)) with (Start + grown) by lia.
  replace (Start + grown + Z.of_nat (length padding)) with new_end
    by (unfold padding; rewrite length_mem_read; lia).
  apply mem_write_ext. unfold padding. rewrite (mem_read_ext m written), mem_write_read; [done|].
  intros y Hy. symmetry. apply mem_write_out. lia.
Qed.

(** The new configuration is read back, and nothing else has changed. *)
Lemma params_read_back :
  mem_read written (new_end - 12) 12 <> Magic ->
  exists m', AddBootconfigParameters (R := R) (Some params) (Z.of_nat (length params)) Start Size m =
      (Go (new_end + 20), m') /\
    bootconfig_of m' (new_end + 20) = Some new_text /\
    config_at m' Start (new_end + 20 - Start) new_text /\
    (forall x, x < Start + Z.of_nat (length text) \/ new_end + 20 <= x -> m' x = m x).
Proof.
  intros Hno. destruct (params_appended Hno) as (m' & Hrun & Hx). exists m'. split; [done|].
  pose proof append_bounds as [Hg Hb]. pose proof length_new_text as Hl.
  destruct (config_length _ _ _ _ Hsize Hcfg) as [Ht _].
  assert (Hd : Z.of_nat (length text) + Z.of_nat (length (params ++ padding ++ trailer new_text)) =
    new_end + 20 - Start).
  { pose proof (length_trailer new_text). unfold new_text in Hl at 1.
    rewrite !length_app in *. lia. }
  assert (Hread : mem_read m' Start (Z.of_nat (length (new_text ++ trailer new_text))) =
    new_text ++ trailer new_text).
  { rewrite length_app, Nat2Z.inj_add, length_trailer, Hl.
    replace (new_end - Start + 20) with
      (Z.of_nat (length text) + Z.of_nat (length (params ++ padding ++ trailer new_text))) by lia.
    rewrite mem_read_app by lia. unfold new_text at 2. rewrite <- !app_assoc. f_equal.
    - rewrite Ht at 2. apply mem_read_ext. intros x Hr. rewrite Hx. apply mem_write_out. lia.
    - rewrite (mem_read_ext _ _ _ _ (fun x _ => Hx x)). apply mem_read_written. }
  pose proof (bootconfig_read m' Start new_text ltac:(lia) Hread) as Hbc.
  replace (Start + Z.of_nat (length new_text) + 20) with (new_end + 20) in Hbc by lia.
  split_and!; [done| |].
  - unfold config_at. rewrite bool_decide_true.
    + split; [lia|]. replace (new_end + 20 - Start - 20) with (Z.of_nat (length new_text)) by lia.
      rewrite length_app, Nat2Z.inj_add, mem_read_app in Hread by lia.
      apply app_inj_1 in Hread as [H1 _]; [done|]. by rewrite length_mem_read, Nat2Z.id.
    + replace (Start + (new_end + 20 - Start) - 12) with (new_end + 20 - 12) by lia.
      unfold bootconfig_of in Hbc. by case_bool_decide.
  - intros x Hr. rewrite Hx. apply mem_write_out. lia.
Qed.
End Append.
