(* ===== verification/BootImage.v ===== *)
(** Boot image headers ([BootImage.h]) and the checks on them
    ([CheckImageHeader], [GetImage] and the image sizes of [BootLinux.c]).

    A header is the buffer it was read into; a field is read at its offset in
    the packed structure. *)
From Stdlib Require Import ZArith Lia.
From stdpp Require Import base list numbers option.
From S2P Require Import Prelude EfiBase.

Definition BOOT_MAGIC : list Z := L "ANDROID!".
Definition VENDOR_BOOT_MAGIC : list Z := L "VNDRBOOT".
Definition BOOT_ARGS_SIZE : Z := 512.
Definition BOOT_EXTRA_ARGS_SIZE : Z := 1024.
Definition DTBO_MAX_SIZE_ALLOWED : Z := 24 * 1024 * 1024.

Definition BOOT_HEADER_VERSION_ZERO : Z := 0.
Definition BOOT_HEADER_VERSION_ONE : Z := 1.
Definition BOOT_HEADER_VERSION_TWO : Z := 2.
Definition BOOT_HEADER_VERSION_THREE : Z := 3.
Definition BOOT_HEADER_VERSION_FOUR : Z := 4.

(** * Layouts *)

Definition sizeof_boot_img_hdr : Z := 8 + 10 * 4 + 16 + BOOT_ARGS_SIZE + 8 * 4 + BOOT_EXTRA_ARGS_SIZE.
Definition sizeof_boot_img_hdr_v1 : Z := 16.
Definition sizeof_boot_img_hdr_v2 : Z := 12.
Definition BOOT_IMAGE_HEADER_V1_RECOVERY_DTBO_SIZE_OFFSET : Z := sizeof_boot_img_hdr.
Definition BOOT_IMAGE_HEADER_V2_OFFSET : Z := sizeof_boot_img_hdr_v1.

Section Fields.
Context {S R : Type}.
Definition rd (n : Z) (b : list Z) (off : Z) : M S R Z := need OutOfBounds (le_get <$> buf_read b off n).
Definition has_magic (b magic : list Z) : M S R bool :=
  m ← need OutOfBounds (buf_read b 0 (Z.of_nat (length magic))); mret (bool_decide (m = magic)).

(** [boot_img_hdr] *)
Definition v0_kernel_size (b : list Z) := rd 4 b 8.
Definition v0_ramdisk_size (b : list Z) := rd 4 b 16.
Definition v0_second_size (b : list Z) := rd 4 b 24.
Definition v0_page_size (b : list Z) := rd 4 b 36.
Definition v0_header_version (b : list Z) := rd 4 b 40.
(** [boot_img_hdr_v1] and [boot_img_hdr_v2], behind it *)
Definition v1_recovery_dtbo_size (b : list Z) := rd 4 b sizeof_boot_img_hdr.
Definition v1_recovery_dtbo_offset (b : list Z) := rd 8 b (sizeof_boot_img_hdr + 4).
Definition v1_header_size (b : list Z) := rd 4 b (sizeof_boot_img_hdr + 12).
Definition v2_dtb_size (b : list Z) :=
  rd 4 b (BOOT_IMAGE_HEADER_V1_RECOVERY_DTBO_SIZE_OFFSET + BOOT_IMAGE_HEADER_V2_OFFSET).
(** [boot_img_hdr_v3] and [boot_img_hdr_v4], which agree up to the command
    line *)
Definition v3_kernel_size (b : list Z) := rd 4 b 8.
Definition v3_ramdisk_size (b : list Z) := rd 4 b 12.
(** [vendor_boot_img_hdr_v3] and [vendor_boot_img_hdr_v4], which begins with
    it *)
Definition vendor_page_size (b : list Z) := rd 4 b 12.
Definition vendor_ramdisk_size (b : list Z) := rd 4 b 24.
Definition vendor_dtb_size (b : list Z) := rd 4 b 2100.
End Fields.

(** * [CheckImageHeader] *)

(** What it writes through its pointers. *)
Record check_out := mkOut { ImageSizeActual : Z; PageSize : Z }.
Abbreviation MC := (M check_out EFI_STATUS).

Definition set_PageSize (p : Z) : MC unit := modify (fun o => mkOut (ImageSizeActual o) p).

(** [ROUND_TO_PAGE] with the mask of a page. *)
Definition page_round (Size Page : Z) : Z := ROUND_TO_PAGE Size (u32 (Page - 1)).

(** [if (Size && !Actual) return EFI_BAD_BUFFER_SIZE]. *)
Definition no_overflow (Size Actual : Z) : MC unit :=
  if negb (Size =? 0) && (Actual =? 0) then early EFI_BAD_BUFFER_SIZE else mret tt.

(** The sizes read from the headers. *)
Record hdr_sizes := mkHdr { KernelSize : Z; RamdiskSize : Z; DtSize : Z }.

(** The branch for version 3, and for version 4, whose structures have the
    same fields. *)
Definition vendor_header (ImageHdrBuffer : list Z) (VendorImageHdrBuffer : option (list Z))
    (BootIntoRecovery : bool) (RecoveryHdrBuffer : option (list Z)) : MC hdr_sizes :=
  Vendor ← need NullDeref VendorImageHdrBuffer;
  m ← has_magic Vendor VENDOR_BOOT_MAGIC;
  if negb m then early EFI_NO_MEDIA
  else
    KernelSize ← v3_kernel_size ImageHdrBuffer;
    RamdiskSize ← v3_ramdisk_size ImageHdrBuffer;
    VendorRamdiskSize ← vendor_ramdisk_size Vendor;
    Page ← vendor_page_size Vendor;
    set_PageSize Page;;
    DtSize ← vendor_dtb_size Vendor;
    if Page >? BOOT_IMG_MAX_PAGE_SIZE then early EFI_BAD_BUFFER_SIZE
    else
      no_overflow VendorRamdiskSize (page_round VendorRamdiskSize Page);;
      match RecoveryHdrBuffer with
      | Some Recovery =>
          if BootIntoRecovery then
            RecoveryRamdiskSize ← v3_ramdisk_size Recovery;
            no_overflow RecoveryRamdiskSize (page_round RecoveryRamdiskSize Page)
          else mret tt
      | None => mret tt
      end;;
      mret (mkHdr KernelSize RamdiskSize DtSize).

Definition old_header (ImageHdrBuffer : list Z) : MC hdr_sizes :=
  KernelSize ← v0_kernel_size ImageHdrBuffer;
  RamdiskSize ← v0_ramdisk_size ImageHdrBuffer;
  SecondSize ← v0_second_size ImageHdrBuffer;
  Page ← v0_page_size ImageHdrBuffer;
  set_PageSize Page;;
  mret (mkHdr KernelSize RamdiskSize 0).

Definition read_sizes (HeaderVersion : Z) (ImageHdrBuffer : list Z)
    (VendorImageHdrBuffer : option (list Z)) (BootIntoRecovery : bool)
    (RecoveryHdrBuffer : option (list Z)) : MC hdr_sizes :=
  if HeaderVersion <? BOOT_HEADER_VERSION_THREE then old_header ImageHdrBuffer
  else if HeaderVersion =? BOOT_HEADER_VERSION_THREE then
    vendor_header ImageHdrBuffer VendorImageHdrBuffer BootIntoRecovery RecoveryHdrBuffer
  else if HeaderVersion =? BOOT_HEADER_VERSION_FOUR then
    vendor_header ImageHdrBuffer VendorImageHdrBuffer BootIntoRecovery RecoveryHdrBuffer
  else mret (mkHdr 0 0 0).

(** [ADD_OF] on the size of the image so far, and its check. *)
Definition add_size (Size : Z) : MC unit :=
  o ← get;
  modify (fun o => mkOut (ADD_OF (ImageSizeActual o) Size) (PageSize o));;
  o ← get;
  if ImageSizeActual o =? 0 then early EFI_BAD_BUFFER_SIZE else mret tt.

(** The recovery overlay of versions 1 and 2. *)
Definition recovery_dtbo (HeaderVersion : Z) (ImageHdrBuffer : list Z) : MC unit :=
  header_size ← v1_header_size ImageHdrBuffer;
  if negb (header_size =?
      if HeaderVersion =? BOOT_HEADER_VERSION_ONE
      then sizeof_boot_img_hdr_v1 + sizeof_boot_img_hdr
      else BOOT_IMAGE_HEADER_V1_RECOVERY_DTBO_SIZE_OFFSET + BOOT_IMAGE_HEADER_V2_OFFSET +
           sizeof_boot_img_hdr_v2)
  then early EFI_BAD_BUFFER_SIZE
  else
    recovery_dtbo_size ← v1_recovery_dtbo_size ImageHdrBuffer;
    o ← get;
    let RecoveryDtboActual := page_round recovery_dtbo_size (PageSize o) in
    if RecoveryDtboActual >? DTBO_MAX_SIZE_ALLOWED then early EFI_BAD_BUFFER_SIZE
    else
      recovery_dtbo_offset ← v1_recovery_dtbo_offset ImageHdrBuffer;
      if CHECK_ADD64 recovery_dtbo_offset RecoveryDtboActual then early EFI_BAD_BUFFER_SIZE
      else add_size RecoveryDtboActual.

(** The rounded size of the device tree; versions 0 and 1 have none. *)
Definition dt_size (HeaderVersion : Z) (ImageHdrBuffer : list Z) (DtSize Page : Z) : MC Z :=
  DtSize ← (if HeaderVersion =? BOOT_HEADER_VERSION_TWO then v2_dtb_size ImageHdrBuffer
            else mret DtSize);
  if BOOT_HEADER_VERSION_TWO <=? HeaderVersion then
    let DtSizeActual := page_round DtSize Page in
    no_overflow DtSize DtSizeActual;;
    mret DtSizeActual
  else mret 0.

(** The size of the image, starting from the header's page. *)
Definition total_size (HeaderVersion : Z) (ImageHdrBuffer : list Z) (BootIntoRecovery : bool)
    (KernelSizeActual RamdiskSizeActual DtSizeActual : Z) : MC unit :=
  modify (fun o => mkOut (PageSize o) (PageSize o));;
  add_size KernelSizeActual;;
  add_size RamdiskSizeActual;;
  (if HeaderVersion <? BOOT_HEADER_VERSION_THREE then add_size DtSizeActual else mret tt);;
  if BootIntoRecovery && (HeaderVersion >? BOOT_HEADER_VERSION_ZERO)
     && (HeaderVersion <? BOOT_HEADER_VERSION_THREE)
  then recovery_dtbo HeaderVersion ImageHdrBuffer else mret tt.

Definition CheckImageHeader (ImageHdrBuffer : list Z) (ImageHdrSize : Z)
    (VendorImageHdrBuffer : option (list Z)) (BootIntoRecovery : bool)
    (RecoveryHdrBuffer : option (list Z)) : MC EFI_STATUS :=
  m ← has_magic ImageHdrBuffer BOOT_MAGIC;
  if negb m then early EFI_NO_MEDIA
  else
    HeaderVersion ← v0_header_version ImageHdrBuffer;
    h ← read_sizes HeaderVersion ImageHdrBuffer VendorImageHdrBuffer BootIntoRecovery RecoveryHdrBuffer;
    o ← get;
    let Page := PageSize o in
    if (KernelSize h =? 0) || (Page =? 0) then early EFI_BAD_BUFFER_SIZE
    else if negb (Page =? ImageHdrSize) && (Page >? BOOT_IMG_MAX_PAGE_SIZE)
    then early EFI_BAD_BUFFER_SIZE
    else
      let KernelSizeActual := page_round (KernelSize h) Page in
      if KernelSizeActual =? 0 then early EFI_BAD_BUFFER_SIZE
      else
        let RamdiskSizeActual := page_round (RamdiskSize h) Page in
        no_overflow (RamdiskSize h) RamdiskSizeActual;;
        DtSizeActual ← dt_size HeaderVersion ImageHdrBuffer (DtSize h) Page;
        total_size HeaderVersion ImageHdrBuffer BootIntoRecovery
          KernelSizeActual RamdiskSizeActual DtSizeActual;;
        mret EFI_SUCCESS.

(** * Where the device tree is *)

Section Window.
Context {S R : Type}.

Definition GetNumberOfPages (ImageSize PageSize : Z) : M S R Z :=
  if PageSize =? 0 then stop DivByZero else mret (u32 (u32 (ImageSize + PageSize) - 1) / PageSize).

(** [DtbOffset] and [ImageSize] of [DTBImgCheckAndAppendDT], for header
    versions with a device tree of their own. *)
Definition dtb_window (HeaderVersion PageSize KernelSize RamdiskSize SecondSize VendorRamdiskSize : Z)
    (ImageBuffer VendorImageBuffer : list Z) : M S R (Z * Z) :=
  let NumHeaderPages := 1 in
  NumKernelPages ← GetNumberOfPages KernelSize PageSize;
  NumRamdiskPages ← GetNumberOfPages RamdiskSize PageSize;
  NumSecondPages ← GetNumberOfPages SecondSize PageSize;
  if HeaderVersion =? BOOT_HEADER_VERSION_TWO then
    recovery_dtbo_size ← v1_recovery_dtbo_size ImageBuffer;
    NumRecoveryDtboPages ← GetNumberOfPages recovery_dtbo_size PageSize;
    let DtbOffset := u32 (PageSize * u32 (NumHeaderPages + NumKernelPages + NumRamdiskPages +
                                          NumSecondPages + NumRecoveryDtboPages)) in
    dtb_size ← v2_dtb_size ImageBuffer;
    mret (DtbOffset, u32 (dtb_size + DtbOffset))
  else
    NumVendorRamdiskPages ← GetNumberOfPages VendorRamdiskSize PageSize;
    let DtbOffset := u32 (PageSize * u32 (NumHeaderPages + NumVendorRamdiskPages)) in
    dtb_size ← vendor_dtb_size VendorImageBuffer;
    mret (DtbOffset, u32 (dtb_size + DtbOffset)).
End Window.

(** * The images that are loaded *)

Record ImageData := mkImage { Name : list Z; Buffer : Z; ImgSize : Z }.

(** The first image whose name starts with [ImageName]; [Images] is the part
    of the array that is in use. *)
Fixpoint find_image (Images : list ImageData) (ImageName : list Z) : option ImageData :=
  match Images with
  | [] => None
  | i :: rest =>
      if AsciiStrnCmp (Name i) ImageName (AsciiStrLen ImageName) =? 0 then Some i
      else find_image rest ImageName
  end.

(** Returns the status, and the buffer and the size when they are set. *)
Definition GetImage (Images : list ImageData) (ImageName : list Z) : EFI_STATUS * option (Z * Z) :=
  match find_image Images ImageName with
  | Some i => (EFI_SUCCESS, Some (Buffer i, ImgSize i))
  | None => (EFI_NOT_FOUND, None)
  end.
