(* ===== verification/BootSpec.v ===== *)
(** What the check of a boot image header decides, and the size it computes. *)
From Stdlib Require Import ZArith Lia.
From stdpp Require Import base list numbers option.
From S2P Require Import Prelude EfiBase BootImage.

(** * Rounding to a page *)

Lemma split_bits a y : Z.ldiff a y + Z.land a y = a.
Proof.
  rewrite <- Z.add_lor_land, Z.lor_ldiff_and.
  assert (H : Z.land (Z.ldiff a y) (Z.land a y) = 0); [|lia].
  apply Z.bits_inj'. intros n Hn. rewrite !Z.land_spec, Z.ldiff_spec, Z.bits_0.
  by destruct (Z.testbit a n), (Z.testbit y n).
Qed.

Lemma land_le_r a y : 0 <= y -> Z.land a y <= y.
Proof.
  intros Hy. pose proof (split_bits y a) as H. rewrite (Z.land_comm y a) in H.
  assert (0 <= Z.ldiff y a); [|lia]. apply Z.ldiff_nonneg. by left.
Qed.

Lemma ldiff_bounds x y : 0 <= y -> x <= Z.ldiff (x + y) y <= x + y.
Proof.
  intros Hy. pose proof (split_bits (x + y) y). pose proof (land_le_r (x + y) y Hy).
  assert (0 <= Z.land (x + y) y) by (apply Z.land_nonneg; by right). lia.
Qed.

(** A size that can be rounded up without an overflow. *)
Definition rounds (x p : Z) : Prop := x = 0 \/ x + p - 1 < MAX_UINT32.
#[global] Instance rounds_dec x p : Decision (rounds x p).
Proof. unfold rounds. apply _. Defined.

Lemma page_round_ok x p :
  0 <= x -> 0 < p < 2 ^ 32 -> rounds x p -> x <= page_round x p <= x + p - 1.
Proof.
  intros Hx Hp Hr. unfold page_round, ROUND_TO_PAGE, ADD_OF. rewrite u32_small, Z.gtb_ltb by lia.
  unfold rounds, MAX_UINT32 in *.
  rewrite (proj2 (Z.ltb_lt _ _)), <- Z.ldiff_land by lia. pose proof (ldiff_bounds x (p - 1)). lia.
Qed.

Lemma page_round_overflow x p : 0 < p < 2 ^ 32 -> ~ rounds x p -> page_round x p = 0.
Proof.
  intros Hp Hr. unfold page_round, ROUND_TO_PAGE, ADD_OF. rewrite u32_small, Z.gtb_ltb by lia.
  unfold rounds, MAX_UINT32 in *. rewrite (proj2 (Z.ltb_ge _ _)) by lia. apply Z.land_0_l.
Qed.

Lemma page_round_zero_page x : 0 <= x -> page_round x 0 = 0.
Proof.
  intros Hx. unfold page_round, ROUND_TO_PAGE, ADD_OF. change (u32 (0 - 1)) with (2 ^ 32 - 1).
  unfold MAX_UINT32. rewrite Z.gtb_ltb, (proj2 (Z.ltb_ge _ _)) by lia. apply Z.land_0_l.
Qed.

Lemma no_overflow_test x p :
  0 <= x -> 0 < p < 2 ^ 32 -> negb (x =? 0) && (page_round x p =? 0) = negb (bool_decide (rounds x p)).
Proof.
  intros Hx Hp. case_bool_decide as H; cbn [negb].
  - pose proof (page_round_ok x p Hx Hp H).
    destruct (Z.eqb_spec x 0); [done|]. cbn [negb andb]. apply Z.eqb_neq. lia.
  - rewrite (page_round_overflow x p Hp H).
    destruct (Z.eqb_spec x 0); [|done]. exfalso. apply H. by left.
Qed.

Lemma page_round_0 p : 0 < p < 2 ^ 32 -> page_round 0 p = 0.
Proof.
  intros Hp. unfold page_round, ROUND_TO_PAGE, ADD_OF. rewrite u32_small, Z.gtb_ltb by lia.
  unfold MAX_UINT32. case_match; [|apply Z.land_0_l]. rewrite <- Z.ldiff_land. apply Z.ldiff_diag.
Qed.

(** For a page of a power of two it is the next multiple. *)
Lemma page_round_pow2 x k :
  0 <= k < 32 -> 0 <= x -> rounds x (2 ^ k) -> page_round x (2 ^ k) = (x + 2 ^ k - 1) / 2 ^ k * 2 ^ k.
Proof.
  intros Hk Hx Hr. assert (0 < 2 ^ k < 2 ^ 32).
  { split; [apply Z.pow_pos_nonneg; lia|apply Z.pow_lt_mono_r; lia]. }
  unfold page_round. rewrite u32_small by lia. unfold rounds, MAX_UINT32 in Hr.
  destruct (decide (x + 2 ^ k - 1 < MAX_UINT32)) as [Hlt|Hge].
  - rewrite ROUND_TO_PAGE_pow2 by lia. by replace (x + (2 ^ k - 1)) with (x + 2 ^ k - 1) by lia.
  - exfalso. unfold MAX_UINT32 in Hge. lia.
Qed.

(** * The fields *)

Definition hdr_field (n : Z) (b : list Z) (off : Z) : Z :=
  le_get (take (Z.to_nat n) (drop (Z.to_nat off) b)).

Lemma rd_go {S R} n b off (s : S) :
  0 <= off -> 0 <= n -> off + n <= Z.of_nat (length b) ->
  rd (R := R) n b off s = (Go (hdr_field n b off), s).
Proof.
  intros Ho Hn Hl. unfold rd, buf_read.
  rewrite !(proj2 (Z.leb_le _ _)) by lia. done.
Qed.

Lemma hdr_field_range n b off :
  Forall is_u8 b -> 0 <= n -> 0 <= off -> off + n <= Z.of_nat (length b) ->
  0 <= hdr_field n b off < 2 ^ (8 * n).
Proof.
  intros Hb Hn Ho Hl. unfold hdr_field.
  pose proof (le_get_bound (take (Z.to_nat n) (drop (Z.to_nat off) b))) as H.
  rewrite length_take, length_drop in H.
  replace (8 * Z.of_nat (Z.to_nat n `min` (length b - Z.to_nat off))) with (8 * n) in H by lia.
  apply H, Forall_take, Forall_drop, Hb.
Qed.

Lemma has_magic_go {S R} b (magic : list Z) (s : S) :
  Z.of_nat (length magic) <= Z.of_nat (length b) ->
  has_magic (R := R) b magic s = (Go (bool_decide (take (length magic) b = magic)), s).
Proof.
  intros Hl. unfold has_magic, buf_read. rewrite !(proj2 (Z.leb_le _ _)) by lia.
  cbn [andb]. by rewrite Nat2Z.id, drop_0.
Qed.

(** * When a header is accepted *)

Section Check.
Context (image : list Z) (ImageHdrSize : Z) (vendor : list Z).
Context (BootIntoRecovery : bool) (recovery : option (list Z)).
(** The buffers hold bytes and are as long as the structures read from them. *)
Context (Himage : Forall is_u8 image) (Hvendor : Forall is_u8 vendor).
Context (Himage_len : 1660 <= Z.of_nat (length image)) (Hvendor_len : 2128 <= Z.of_nat (length vendor)).
Context (Hrecovery : forall r, recovery = Some r -> Forall is_u8 r /\ 1660 <= Z.of_nat (length r)).

Definition version : Z := hdr_field 4 image 40.
Definition is_old : bool := version <? 3.
Definition page : Z := if is_old then hdr_field 4 image 36 else hdr_field 4 vendor 12.
Definition kernel : Z := hdr_field 4 image 8.
Definition ramdisk : Z := if is_old then hdr_field 4 image 16 else hdr_field 4 image 12.
Definition dtb : Z :=
  if is_old then if version =? 2 then hdr_field 4 image 1648 else 0 else hdr_field 4 vendor 2100.
Definition recovery_overlay : bool := BootIntoRecovery && (0 <? version) && is_old.
Definition overlay_size : Z := hdr_field 4 image 1632.
Definition overlay : Z := if recovery_overlay then page_round overlay_size page else 0.

(** The parts that are rounded on their own and not added. *)
Definition vendor_ok : Prop :=
  take 8 vendor = VENDOR_BOOT_MAGIC /\ page <= 4096 /\ rounds (hdr_field 4 vendor 24) page /\
  (BootIntoRecovery = true -> forall r, recovery = Some r -> rounds (hdr_field 4 r 12) page).

(** The size of the image: its header, its kernel, its ramdisk, and for the
    old versions its device tree and its recovery overlay. *)
Definition image_size : Z :=
  page + page_round kernel page + page_round ramdisk page +
  (if is_old then page_round dtb page else 0) + overlay.

Record fits : Prop := {
  fit_magic : take 8 image = BOOT_MAGIC;
  fit_version : version <= 4;
  fit_vendor : is_old = false -> vendor_ok;
  fit_kernel : 0 < kernel;
  fit_page : 0 < page /\ (page = ImageHdrSize \/ page <= 4096);
  fit_rounds : rounds kernel page /\ rounds ramdisk page /\ rounds dtb page;
  fit_overlay : recovery_overlay = true ->
    rounds overlay_size page /\
    hdr_field 4 image 1644 = (if version =? 1 then 1648 else 1660) /\
    overlay <= DTBO_MAX_SIZE_ALLOWED /\ hdr_field 8 image 1636 + overlay <= MAX_UINT64;
  fit_size : image_size < MAX_UINT32;
}.

Lemma image_range n off :
  0 <= n -> 0 <= off -> off + n <= 1660 -> 0 <= hdr_field n image off < 2 ^ (8 * n).
Proof. intros. apply hdr_field_range; [done|lia..]. Qed.
Lemma vendor_range n off :
  0 <= n -> 0 <= off -> off + n <= 2128 -> 0 <= hdr_field n vendor off < 2 ^ (8 * n).
Proof. intros. apply hdr_field_range; [done|lia..]. Qed.

Lemma fields_range :
  0 <= version < 2 ^ 32 /\ 0 <= page < 2 ^ 32 /\ 0 <= kernel < 2 ^ 32 /\ 0 <= ramdisk < 2 ^ 32 /\
  0 <= dtb < 2 ^ 32.
Proof.
  unfold version, page, kernel, ramdisk, dtb, is_old.
  repeat case_match; split_and!; try lia; first [apply image_range; lia | apply vendor_range; lia].
Qed.

(** An early return means that the header is not one that fits. *)
Definition refused (st : EFI_STATUS) (_ : check_out) : Prop := st <> EFI_SUCCESS /\ ~ fits.

Context (ven : option (list Z)) (Hven : is_old = false -> ven = Some vendor).

Lemma wp_no_overflow x (Q : unit -> check_out -> Prop) o :
  0 <= x -> (~ rounds x page -> ~ fits) -> ((0 < page -> rounds x page) -> Q tt o) ->
  wp (no_overflow x (page_round x page)) refused Q o.
Proof.
  intros Hx Hno Hyes. unfold no_overflow. pose proof fields_range as (_ & Hp & _).
  destruct (decide (page = 0)) as [Hp0|Hp0].
  { case_match; [apply wp_early; split; [done|]|apply wp_ret, Hyes; lia].
    intros F. pose proof (fit_page F). lia. }
  rewrite no_overflow_test by lia.
  case_bool_decide; cbn [negb]; [by apply wp_ret, Hyes|]. apply wp_early. split; [done|auto].
Qed.

Lemma wp_rd {S R} n b off E (Q : Z -> S -> Prop) o :
  0 <= off -> 0 <= n -> off + n <= Z.of_nat (length b) -> Q (hdr_field n b off) o ->
  wp (R := R) (rd n b off) E Q o.
Proof. intros ? ? ? HQ. by eapply wp_go; [apply rd_go|]. Qed.

Lemma vendor_header_spec o :
  version = 3 \/ version = 4 ->
  wp (vendor_header image ven BootIntoRecovery recovery) refused
    (fun h o' => h = mkHdr kernel ramdisk dtb /\ PageSize o' = page /\ (0 < page -> vendor_ok)) o.
Proof.
  intros Hv. assert (Hold : is_old = false) by (unfold is_old; apply Z.ltb_ge; lia).
  pose proof fields_range as (_ & Hp & _). unfold vendor_header.
  rewrite (Hven Hold). wp_step. eapply wp_go; [reflexivity|]. cbn beta.
  wp_step. eapply wp_go; [apply has_magic_go; simpl; lia|]. cbn beta.
  case_bool_decide as Hm; cbn [negb]; [|apply wp_early; split; [done|]].
  2: { intros F. apply (fit_vendor F) in Hold as [? _]. by apply Hm. }
  do 4 (wp_step; apply wp_rd; [lia..|]). wp_step. apply wp_modify. wp_step. apply wp_rd; [lia..|].
  assert (Epage : hdr_field 4 vendor 12 = page) by (unfold page; by rewrite Hold). rewrite Epage.
  unfold BOOT_IMG_MAX_PAGE_SIZE. rewrite Z.gtb_ltb. destruct (Z.ltb_spec 4096 page).
  { apply wp_early. split; [done|]. intros F. apply (fit_vendor F) in Hold as (_ & ? & _). lia. }
  wp_step. apply wp_no_overflow; [apply vendor_range; lia|..].
  { intros Hr F. by apply (fit_vendor F) in Hold as (_ & _ & ? & _). }
  intros Hvr. wp_step.
  assert (Hsizes : mkHdr (hdr_field 4 image 8) (hdr_field 4 image 12) (hdr_field 4 vendor 2100) =
    mkHdr kernel ramdisk dtb) by (unfold kernel, ramdisk, dtb; by rewrite Hold).
  destruct recovery as [r|] eqn:Er; [destruct BootIntoRecovery eqn:Eb|].
  - destruct (Hrecovery r eq_refl) as [Hr8 Hrl]. wp_step. apply wp_rd; [lia..|].
    apply wp_no_overflow; [apply hdr_field_range; [done|lia..]|..].
    { intros Hr F. apply (fit_vendor F) in Hold as (_ & _ & _ & Hrec). rewrite Er, Eb in Hrec. eauto. }
    intros Hrr. apply wp_ret. split_and!; [done|done|]. intros Hpos.
    split_and!; [done|done|auto|]. rewrite Er. intros _ ? [= <-]. auto.
  - do 2 apply wp_ret. split_and!; [done|done|]. intros Hpos. split_and!; [done|done|auto|].
    rewrite Eb. done.
  - do 2 apply wp_ret. split_and!; [done|done|]. intros Hpos. split_and!; [done|done|auto|].
    rewrite Er. done.
Qed.

Lemma read_sizes_spec o :
  wp (read_sizes version image ven BootIntoRecovery recovery) refused
    (fun h o' => if decide (version <= 4)
       then h = mkHdr kernel ramdisk (if is_old then 0 else dtb) /\ PageSize o' = page /\
            (is_old = false -> 0 < page -> vendor_ok)
       else h = mkHdr 0 0 0) o.
Proof.
  unfold read_sizes, BOOT_HEADER_VERSION_THREE, BOOT_HEADER_VERSION_FOUR. fold is_old.
  pose proof (vendor_header_spec o) as Hspec.
  destruct is_old eqn:Hold.
  - destruct (decide (version <= 4)) as [Hv|Hv]; [|unfold is_old in Hold; lia]. unfold old_header.
    do 4 (wp_step; apply wp_rd; [lia..|]). wp_step. apply wp_modify, wp_ret.
    unfold kernel, ramdisk, page. by rewrite Hold.
  - pose proof Hold as Hold'. unfold is_old in Hold'. bools.
    destruct (Z.eqb_spec version 3) as [E3|E3]; [|destruct (Z.eqb_spec version 4) as [E4|E4]].
    all: destruct (decide (version <= 4)) as [Hv|Hv]; [|first [lia | by apply wp_ret]].
    3: lia.
    all: eapply wp_mono; [apply Hspec; auto|done|];
      intros h o' (-> & Hp & Hok); auto.
Qed.

Lemma wp_add_size x (Q : unit -> check_out -> Prop) o :
  0 < ImageSizeActual o -> 0 <= x -> (MAX_UINT32 <= ImageSizeActual o + x -> ~ fits) ->
  (ImageSizeActual o + x < MAX_UINT32 -> Q tt (mkOut (ImageSizeActual o + x) (PageSize o))) ->
  wp (add_size x) refused Q o.
Proof.
  intros H0 Hx Hno Hyes. unfold add_size. wp_step. apply wp_get. wp_step. apply wp_modify. wp_step.
  apply wp_get. cbn [ImageSizeActual]. unfold ADD_OF. rewrite Z.gtb_ltb.
  destruct (Z.ltb_spec (ImageSizeActual o) (MAX_UINT32 - x)).
  - rewrite (proj2 (Z.eqb_neq _ _)) by lia. apply wp_ret, Hyes. lia.
  - cbn [Z.eqb]. apply wp_early. split; [done|]. apply Hno. lia.
Qed.

Lemma recovery_dtbo_spec o :
  recovery_overlay = true -> PageSize o = page -> 0 < page -> 0 < ImageSizeActual o ->
  ImageSizeActual o + overlay = image_size ->
  wp (recovery_dtbo version image) refused
    (fun _ o' => o' = mkOut image_size page /\ image_size < MAX_UINT32 /\
       hdr_field 4 image 1644 = (if version =? 1 then 1648 else 1660) /\
       overlay <= DTBO_MAX_SIZE_ALLOWED /\ hdr_field 8 image 1636 + overlay <= MAX_UINT64) o.
Proof.
  intros Hro Hpage Hpos Hsz Hsum. unfold recovery_dtbo, v1_header_size, v1_recovery_dtbo_size, v1_recovery_dtbo_offset.
  change (if version =? BOOT_HEADER_VERSION_ONE then sizeof_boot_img_hdr_v1 + sizeof_boot_img_hdr
    else BOOT_IMAGE_HEADER_V1_RECOVERY_DTBO_SIZE_OFFSET + BOOT_IMAGE_HEADER_V2_OFFSET +
         sizeof_boot_img_hdr_v2) with (if version =? 1 then 1648 else 1660).
  change (sizeof_boot_img_hdr + 12) with 1644. change (sizeof_boot_img_hdr + 4) with 1636.
  change sizeof_boot_img_hdr with 1632. wp_step. apply wp_rd; [lia..|].
  destruct (Z.eqb_spec (hdr_field 4 image 1644) (if version =? 1 then 1648 else 1660)) as [Eh|Eh]; cbn [negb].
  2: { apply wp_early. split; [done|]. intros F. by apply (fit_overlay F) in Hro as (_ & ? & _). }
  wp_step. apply wp_rd; [lia..|].
  wp_step. apply wp_get. rewrite Hpage.
  assert (Ho : page_round (hdr_field 4 image 1632) page = overlay) by (unfold overlay; by rewrite Hro).
  rewrite Ho, Z.gtb_ltb. destruct (Z.ltb_spec DTBO_MAX_SIZE_ALLOWED overlay) as [Hbig|Hbig].
  { apply wp_early. split; [done|]. intros F. apply (fit_overlay F) in Hro as (_ & _ & ? & _). lia. }
  wp_step. apply wp_rd; [lia..|].
  destruct (CHECK_ADD64 _ _) eqn:Ec.
  { apply wp_early. split; [done|]. intros F. apply (fit_overlay F) in Hro as (_ & _ & _ & H%CHECK_ADD64_false).
    congruence. }
  apply CHECK_ADD64_false in Ec.
  assert (H0 : 0 <= overlay).
  { pose proof fields_range as (_ & Hp & _). rewrite <- Ho. set (x := hdr_field 4 image 1632).
    assert (0 <= x) by (apply image_range; lia).
    destruct (decide (rounds x page)) as [Hr|Hr];
      [pose proof (page_round_ok x page ltac:(lia) ltac:(lia) Hr); lia|rewrite page_round_overflow by (done || lia); lia]. }
  apply wp_add_size; [done|done| |].
  - rewrite Hsum. intros Hge F. pose proof (fit_size F). lia.
  - rewrite Hsum, Hpage. intros. split_and!; auto.
Qed.

(** The sizes, when they round. *)
Lemma rounded_nonneg x : 0 <= x -> 0 < page -> 0 <= page_round x page.
Proof.
  intros Hx Hp. pose proof fields_range as (_ & Hp' & _).
  destruct (decide (rounds x page)) as [Hr|Hr];
    [pose proof (page_round_ok x page ltac:(lia) ltac:(lia) Hr); lia|].
  rewrite page_round_overflow by (done || lia). lia.
Qed.

(** The device tree size, and what of it is added. *)
Lemma dtb_read :
  (if version =? 2 then hdr_field 4 image 1648 else if is_old then 0 else dtb) = dtb.
Proof.
  unfold dtb. destruct (Z.eqb_spec version 2) as [E|E].
  - unfold is_old. rewrite E. done.
  - by destruct is_old.
Qed.

Lemma dt_size_spec o :
  0 < page ->
  wp (dt_size version image (if is_old then 0 else dtb) page) refused
    (fun d o' => d = page_round dtb page /\ rounds dtb page /\ o' = o) o.
Proof.
  intros Hpos. pose proof fields_range as (Hv & Hp & _ & _ & Hd). unfold dt_size, BOOT_HEADER_VERSION_TWO.
  wp_step. apply (wp_mono _ refused refused (fun d o' => d = dtb /\ o' = o)).
  - pose proof dtb_read as Hdt. destruct (version =? 2); [|by apply wp_ret].
    apply wp_rd; [done|done|change (1648 + 4 <= Z.of_nat (length image)); lia|]. split; [exact Hdt|done].
  - done.
  - intros d o' [-> ->]. destruct (Z.leb_spec 2 version).
    + wp_step. apply wp_no_overflow; [lia|intros Hn F; by destruct (fit_rounds F) as (_ & _ & ?)|].
      intros Hrd. apply wp_ret. auto.
    + apply wp_ret. assert (Hz : dtb = 0).
      { unfold dtb, is_old. by rewrite (proj2 (Z.ltb_lt _ _)), (proj2 (Z.eqb_neq _ _)) by lia. }
      rewrite Hz, page_round_0 by lia. split_and!; [done|by left|done].
Qed.

(** No part of the sum is larger than the whole. *)
Lemma parts_nonneg :
  0 < page -> 0 <= page_round kernel page /\ 0 <= page_round ramdisk page /\
  0 <= (if is_old then page_round dtb page else 0) /\ 0 <= overlay.
Proof.
  intros Hpos. pose proof fields_range as (_ & _ & Hk & Hr & Hd).
  split_and!; [apply rounded_nonneg; lia..| |].
  - destruct is_old; [|lia]. apply rounded_nonneg; lia.
  - unfold overlay. case_match; [|lia]. apply rounded_nonneg; [apply image_range|]; lia.
Qed.

Lemma total_size_spec o :
  0 < page -> PageSize o = page ->
  wp (total_size version image BootIntoRecovery (page_round kernel page) (page_round ramdisk page)
        (page_round dtb page)) refused
    (fun _ o' => o' = mkOut image_size page /\ image_size < MAX_UINT32 /\
       (recovery_overlay = true ->
        hdr_field 4 image 1644 = (if version =? 1 then 1648 else 1660) /\
        overlay <= DTBO_MAX_SIZE_ALLOWED /\ hdr_field 8 image 1636 + overlay <= MAX_UINT64)) o.
Proof.
  intros Hpos Hpage. destruct (parts_nonneg Hpos) as (Hk0 & Hr0 & Hd0 & Ho0).
  assert (Htoo : forall part, part <= image_size -> MAX_UINT32 <= part -> ~ fits).
  { intros part Hle Hge F. pose proof (fit_size F). lia. }
  unfold total_size. wp_step. apply wp_modify. rewrite Hpage. wp_step.
  apply wp_add_size; cbn [ImageSizeActual PageSize]; [done|done|apply Htoo; unfold image_size; lia|].
  intros _. wp_step.
  apply wp_add_size; cbn [ImageSizeActual PageSize]; [lia|done|apply Htoo; unfold image_size; lia|].
  intros Hsz. wp_step. unfold BOOT_HEADER_VERSION_THREE. fold is_old.
  apply (wp_mono _ refused refused
    (fun _ o => o = mkOut (image_size - overlay) page /\ image_size - overlay < MAX_UINT32)); [|done|].
  - unfold image_size in *. destruct is_old.
    + apply wp_add_size; cbn [ImageSizeActual PageSize]; [lia|done|apply Htoo; lia|]. intros.
      split; [f_equal; lia|lia].
    + apply wp_ret. split; [f_equal; lia|lia].
  - intros _ o2 [-> Hsz2]. unfold BOOT_HEADER_VERSION_ZERO. rewrite Z.gtb_ltb. fold recovery_overlay.
    destruct recovery_overlay eqn:Ero.
    + eapply wp_mono; [apply recovery_dtbo_spec; cbn [ImageSizeActual PageSize]; auto; unfold image_size; lia|done|].
      intros _ o3 (-> & Hlt & H1). auto.
    + apply wp_ret. assert (overlay = 0) as Hz by (unfold overlay; by rewrite Ero). rewrite Hz in *.
      split_and!; [f_equal; lia|lia|done].
Qed.

(** The check does not look whether the recovery overlay rounds: a header with
    one that does not is left out. *)
Lemma CheckImageHeader_decides o :
  (recovery_overlay = true -> rounds overlay_size page) ->
  wp (CheckImageHeader image ImageHdrSize ven BootIntoRecovery recovery) refused
    (fun st o' => st = EFI_SUCCESS /\ fits /\ o' = mkOut image_size page) o.
Proof.
  intros Hovr. pose proof fields_range as (Hv & Hp & Hk & Hr & Hd).
  unfold CheckImageHeader. wp_step. eapply wp_go; [apply has_magic_go; simpl; lia|]. cbn beta.
  case_bool_decide as Hm; cbn [negb]; [|apply wp_early; split; [done|]; intros F; by apply Hm, (fit_magic F)].
  wp_step. apply wp_rd; [lia..|]. fold version. wp_step.
  eapply wp_mono; [apply read_sizes_spec|done|]. intros h o1 Hh. cbn beta. wp_step. apply wp_get.
  destruct (decide (version <= 4)) as [H4|H4].
  2: { subst h. cbn [KernelSize Z.eqb orb]. apply wp_early. split; [done|]. intros F. pose proof (fit_version F). lia. }
  destruct Hh as (-> & Hpage & Hvok). rewrite Hpage. cbn [KernelSize RamdiskSize DtSize].
  destruct ((kernel =? 0) || (page =? 0)) eqn:E0.
  { apply wp_early. split; [done|]. intros F. pose proof (fit_kernel F). pose proof (fit_page F).
    apply orb_prop in E0 as [?|?]; bools; lia. }
  apply orb_false_elim in E0 as [Ek Ep]. bools.
  assert (Hpos : 0 < page) by lia. rewrite Z.gtb_ltb. unfold BOOT_IMG_MAX_PAGE_SIZE.
  destruct (negb (page =? ImageHdrSize) && (4096 <? page)) eqn:Ebig.
  { apply wp_early. split; [done|]. intros F. apply andb_prop in Ebig as [E1 E2]. bools.
    pose proof (fit_page F). lia. }
  destruct (decide (rounds kernel page)) as [Hrk|Hrk].
  2: { rewrite page_round_overflow by (done || lia). apply wp_early. split; [done|].
       intros F. by destruct (fit_rounds F). }
  pose proof (page_round_ok kernel page ltac:(lia) ltac:(lia) Hrk) as Hkr.
  rewrite (proj2 (Z.eqb_neq _ _)) by lia. wp_step.
  apply wp_no_overflow; [lia|intros Hn F; by destruct (fit_rounds F) as (_ & ? & _)|].
  intros Hrr. wp_step. eapply wp_mono; [by apply dt_size_spec|done|]. intros d o2 (-> & Hrd & ->). wp_step.
  eapply wp_mono; [by apply total_size_spec|done|]. intros _ o2 (-> & Hlt & Hov). apply wp_ret.
  split_and!; [done| |done]. apply andb_false_iff in Ebig.
  split; auto; [lia|]. split; [done|]. destruct Ebig; bools; auto.
Qed.

(** With a page of a power of two, the rounded parts are the next multiples. *)
Definition whole_pages (x : Z) : Z := (x + page - 1) / page * page.
Definition pages_size : Z :=
  page + whole_pages kernel + whole_pages ramdisk + (if is_old then whole_pages dtb else 0) +
  (if recovery_overlay then whole_pages overlay_size else 0).

Lemma image_size_pages k : fits -> page = 2 ^ k -> 0 <= k < 32 -> image_size = pages_size.
Proof.
  intros F Hpage Hk. pose proof fields_range as (_ & _ & Hkn & Hrd & Hdt).
  destruct (fit_rounds F) as (Hrk & Hrr & Hrdt).
  assert (H : forall x, 0 <= x -> rounds x page -> page_round x page = whole_pages x).
  { intros x Hx. unfold whole_pages. rewrite Hpage. by apply page_round_pow2. }
  unfold image_size, pages_size, overlay. rewrite (H kernel), (H ramdisk), (H dtb) by (done || lia).
  destruct recovery_overlay eqn:Ero; [|done]. rewrite H; [done| |by apply (fit_overlay F)].
  unfold overlay_size. apply image_range; lia.
Qed.

(** * The device tree of a version 2 image *)

Definition second : Z := hdr_field 4 image 24.

Lemma pages_of {S R} x k (o : S) :
  0 <= k < 32 -> 0 <= x -> rounds x (2 ^ k) ->
  exists n, GetNumberOfPages (R := R) x (2 ^ k) o = (Go n, o) /\ 0 <= n /\ 2 ^ k * n = page_round x (2 ^ k).
Proof.
  intros Hk Hx Hr. assert (0 < 2 ^ k < 2 ^ 32).
  { split; [apply Z.pow_pos_nonneg; lia|apply Z.pow_lt_mono_r; lia]. }
  exists ((x + 2 ^ k - 1) / 2 ^ k). unfold rounds, MAX_UINT32 in Hr.
  assert (Hlt : x + 2 ^ k < 2 ^ 32 + 1) by lia. split_and!.
  - unfold GetNumberOfPages. rewrite (proj2 (Z.eqb_neq _ _)) by lia.
    destruct (decide (x + 2 ^ k = 2 ^ 32)) as [E|E]; [lia|]. by rewrite (u32_small (x + 2 ^ k)), u32_small by lia.
  - apply Z.div_pos; lia.
  - rewrite page_round_pow2 by done. lia.
Qed.

(** The offset of the device tree, against the size the image was loaded
    with. *)
Lemma dtb_window_v2 {S R} (o : S) k vr (vb : list Z) :
  fits -> version = 2 -> page = 2 ^ k -> 0 <= k < 32 -> rounds second page -> rounds overlay_size page ->
  image_size + page_round second page + page_round overlay_size page < 2 ^ 32 ->
  exists DtbOffset, dtb_window (R := R) 2 page kernel ramdisk second vr image vb o =
      (Go (DtbOffset, dtb + DtbOffset), o) /\
    DtbOffset + page_round dtb page =
      image_size + page_round second page +
      (if recovery_overlay then 0 else page_round overlay_size page).
Proof.
  intros F Hv Hpage Hk Hrs Hro Hmax. pose proof fields_range as (_ & Hp & Hkn & Hrd & Hdt).
  destruct (fit_rounds F) as (Hrk & Hrr & Hrdt). rewrite Hpage in *.
  assert (Hs0 : 0 <= second) by (apply image_range; lia).
  assert (Ho0 : 0 <= overlay_size) by (apply image_range; lia).
  assert (Hpos : 0 < 2 ^ k) by (apply Z.pow_pos_nonneg; lia).
  destruct (pages_of (R := R) kernel k o Hk ltac:(lia) Hrk) as (nk & Ek & Hk0 & Mk).
  destruct (pages_of (R := R) ramdisk k o Hk ltac:(lia) Hrr) as (nr & Er & Hr0 & Mr).
  destruct (pages_of (R := R) second k o Hk ltac:(lia) Hrs) as (ns & Es & Hns & Ms).
  destruct (pages_of (R := R) overlay_size k o Hk ltac:(lia) Hro) as (no & Eo & Hno & Mo).
  assert (Hold : is_old = true) by (unfold is_old; by rewrite Hv).
  pose proof (page_round_ok dtb (2 ^ k) ltac:(lia) ltac:(lia) Hrdt) as Hd.
  assert (Hsz : image_size = 2 ^ k * (1 + nk + nr) + page_round dtb (2 ^ k) +
    (if recovery_overlay then 2 ^ k * no else 0)).
  { unfold image_size, overlay. rewrite Hold, Hpage, Mo. fold overlay_size. lia. }
  exists (2 ^ k * (1 + nk + nr + ns + no)). split.
  - unfold dtb_window. rewrite (bind_go _ _ _ _ _ Ek), (bind_go _ _ _ _ _ Er), (bind_go _ _ _ _ _ Es).
    cbn [Z.eqb Pos.eqb BOOT_HEADER_VERSION_TWO].
    erewrite bind_go by (apply (rd_go 4 image 1632); lia). rewrite (bind_go _ _ _ _ _ Eo).
    assert (Hle : 1 + nk + nr + ns + no <= 2 ^ k * (1 + nk + nr + ns + no)) by nia.
    rewrite (u32_small (1 + nk + nr + ns + no)), (u32_small (2 ^ k * _)) by (destruct recovery_overlay; lia).
    erewrite bind_go by (apply (rd_go 4 image 1648); lia).
    assert (Hdf : hdr_field 4 image 1648 = dtb) by (unfold dtb; by rewrite Hold, Hv). rewrite Hdf.
    by rewrite u32_small by (destruct recovery_overlay; lia).
  - destruct recovery_overlay; lia.
Qed.
End Check.
