(* ===== verification/BootParams.v ===== *)
(** Where the kernel, the device tree and the ramdisk go ([BootLinux.c]): the
    load addresses, the offsets in the boot image, and the copy of the
    ramdisks and of the boot configuration.

    The state is the [BootParamlist] and the physical memory; a buffer is the
    address it starts at.  Build options and settings of the platform package
    are arguments. *)
From Stdlib Require Import ZArith Lia.
From stdpp Require Import base list numbers option.
From S2P Require Import Prelude EfiBase Fdt Bootconfig BootImage.

Definition DT_SIZE_2MB : Z := 2 * 1024 * 1024.
Definition KERNEL_32BIT_LOAD_OFFSET : Z := 0x8000.
Definition KERNEL_64BIT_LOAD_OFFSET : Z := 0x80000.
Definition KERNEL64_HDR_MAGIC : Z := 0x644D5241.
Definition PATCHED_KERNEL_MAGIC : list Z := L "UNCOMPRESSED_IMG".
Definition PATCHED_KERNEL_HEADER_SIZE : Z := 20.

(** [LOCAL_ROUND_TO_PAGE] on 32-bit operands. *)
Definition LOCAL_ROUND_TO_PAGE (x y : Z) : Z := Z.land (u32 (x + u32 (y - 1))) (u32 (Z.lnot (u32 (y - 1)))).

(** * The parameter list *)

Record Images := mkImages {
  ImageBuffer : Z;
  VendorImageBuffer : Z;
  RecoveryImageBuffer : Z;
  RamdiskBuffer : Z;
}.
Record Addresses := mkAddrs {
  BaseMemory : Z;
  KernelLoadAddr : Z;
  KernelEndAddr : Z;
  RamdiskLoadAddr : Z;
  DeviceTreeLoadAddr : Z;
}.
Record Sizes := mkSizes {
  bp_PageSize : Z;
  bp_KernelSize : Z;
  bp_RamdiskSize : Z;
  bp_VendorRamdiskSize : Z;
  bp_RecoveryRamdiskSize : Z;
  bp_DtSize : Z;
  VendorRamdiskTableSize : Z;
  VendorBootconfigSize : Z;
  RamdiskOffset : Z;
  KernelSizeActual : Z;
}.
Record Mode := mkMode {
  BootingWith32BitKernel : bool;
  BootingWithPatchedKernel : bool;
  BootingWithGzipPkgKernel : bool;
}.
Record BootParamlist := mkBoot {
  images : Images;
  addrs : Addresses;
  sizes : Sizes;
  mode : Mode;
  FinalCmdLine : list Z;
  FinalBootConfig : option (list Z);
  FinalBootConfigLen : Z;
}.
Record BootState := mkState { bp : BootParamlist; mem : memory }.
Abbreviation MB := (M BootState).

Definition set_addrs {R} (a : Addresses) : MB R unit :=
  modify (fun s => let b := bp s in
    mkState (mkBoot (images b) a (sizes b) (mode b) (FinalCmdLine b) (FinalBootConfig b)
               (FinalBootConfigLen b)) (mem s)).
Definition set_mode {R} (k : Mode) : MB R unit :=
  modify (fun s => let b := bp s in
    mkState (mkBoot (images b) (addrs b) (sizes b) k (FinalCmdLine b) (FinalBootConfig b)
               (FinalBootConfigLen b)) (mem s)).
Definition set_VendorBootconfigSize {R} (n : Z) : MB R unit :=
  modify (fun s => let b := bp s in let z := sizes b in
    mkState (mkBoot (images b) (addrs b)
               (mkSizes (bp_PageSize z) (bp_KernelSize z) (bp_RamdiskSize z) (bp_VendorRamdiskSize z)
                  (bp_RecoveryRamdiskSize z) (bp_DtSize z) (VendorRamdiskTableSize z) n
                  (RamdiskOffset z) (KernelSizeActual z))
               (mode b) (FinalCmdLine b) (FinalBootConfig b) (FinalBootConfigLen b)) (mem s)).

(** A computation on the memory alone. *)
Definition on_mem {R A} (m : M memory R A) : MB R A :=
  fun s => let '(r, h) := m (mem s) in (r, mkState (bp s) h).
Definition ld {R} (n a : Z) : MB R Z := on_mem (d ← load a n; mret (le_get d)).

(** * The kind of kernel *)

(** Offsets in [Kernel64Hdr]. *)
Definition KH_TextOffset : Z := 8.
Definition KH_ImageSize : Z := 16.
Definition KH_magic_64 : Z := 56.

Definition is_gzip_package {R} (buf len : Z) : MB R bool :=
  if (len <? 10) || (buf =? 0) then mret false
  else
    b ← on_mem (load buf 3);
    mret (bool_decide (b = [0x1f; 0x8b; 0x08])).

Section Boot.
Context {R : Type}.

Definition UpdateKernelModeAndPkg : MB R EFI_STATUS :=
  s ← get;
  let b := bp s in
  let Kptr := u64 (ImageBuffer (images b) + bp_PageSize (sizes b)) in
  let k := mode b in
  gz ← is_gzip_package Kptr (bp_KernelSize (sizes b));
  if (gz : bool) then
    set_mode (mkMode false (BootingWithPatchedKernel k) true);;
    mret EFI_SUCCESS
  else
    t ← on_mem (load Kptr 16);
    let patched := AsciiStrnCmp t PATCHED_KERNEL_MAGIC 16 =? 0 in
    let Kptr := if patched then u64 (Kptr + PATCHED_KERNEL_HEADER_SIZE) else Kptr in
    magic_64 ← ld 4 (u64 (Kptr + KH_magic_64));
    set_mode (mkMode (negb (magic_64 =? KERNEL64_HDR_MAGIC))
                (patched || BootingWithPatchedKernel k) (BootingWithGzipPkgKernel k));;
    mret EFI_SUCCESS.

(** * Load addresses *)

Section Platform.
(** [ENABLE_EARLY_SERVICES] and its two addresses. *)
Variable EarlyServicesEnabled : bool.
Variables KERNEL_LOAD_ADDRESS KERNEL_SIZE_RESERVED : Z.
(** [QueryBootParams]: the variables KernelBaseAddr and KernelSize, when both
    are set. *)
Variable QueryBootParams : option (Z * Z).
(** [PcdGet32] of the package. *)
Variables Pcd_KernelLoadAddress Pcd_KernelLoadAddress32 : Z.
Variables Pcd_RamdiskEndAddress Pcd_RamdiskEndAddress32 : Z.

Definition QueryEarlyServiceBootParams : Z * Z :=
  if EarlyServicesEnabled then (KERNEL_LOAD_ADDRESS, KERNEL_SIZE_RESERVED) else (0, 0).

(** The offset of the kernel in its region. *)
Definition kernel_offset (b : BootParamlist) : MB R Z :=
  if BootingWith32BitKernel (mode b) then mret KERNEL_32BIT_LOAD_OFFSET
  else
    let Kptr := u64 (ImageBuffer (images b) + bp_PageSize (sizes b)) in
    if BootingWithGzipPkgKernel (mode b) then mret KERNEL_64BIT_LOAD_OFFSET
    else
      ImageSize ← ld 8 (u64 (Kptr + KH_ImageSize));
      if negb (ImageSize =? 0) then ld 8 (u64 (Kptr + KH_TextOffset))
      else mret KERNEL_64BIT_LOAD_OFFSET.

(** The kernel's address and the end of the region. *)
Definition kernel_region (b : BootParamlist) : MB R (Z * Z) :=
  let '(KernelLoadAddr_new, KernelSizeReserved_new) := QueryEarlyServiceBootParams in
  match QueryBootParams with
  | Some (KernelLoadAddr, KernelSizeReserved) =>
      o ← kernel_offset b;
      mret (u64 ((if EarlyServicesEnabled then KernelLoadAddr_new else KernelLoadAddr) + o),
            if EarlyServicesEnabled then u64 (KernelLoadAddr_new + KernelSizeReserved_new)
            else u64 (KernelLoadAddr + KernelSizeReserved))
  | None =>
      let base := if EarlyServicesEnabled then KernelLoadAddr_new else BaseMemory (addrs b) in
      let k := BootingWith32BitKernel (mode b) in
      mret (Z.lor base (if k then Pcd_KernelLoadAddress32 else Pcd_KernelLoadAddress),
            u64 (base + if k then Pcd_RamdiskEndAddress32 else Pcd_RamdiskEndAddress))
  end.

(** The three ramdisks together. *)
Definition total_ramdisk (z : Sizes) : Z :=
  u32 (bp_RamdiskSize z + bp_VendorRamdiskSize z + bp_RecoveryRamdiskSize z).

Definition UpdateBootParams : MB R EFI_STATUS :=
  s ← get;
  let b := bp s in
  let z := sizes b in
  r ← kernel_region b;
  let '(KernelLoad, KernelEnd) := r in
  let Ramdisk := u64 (KernelEnd -
    u32 (LOCAL_ROUND_TO_PAGE (total_ramdisk z) (bp_PageSize z) + bp_PageSize z)) in
  let DeviceTree := u64 (Ramdisk - u32 (DT_SIZE_2MB + bp_PageSize z)) in
  set_addrs (mkAddrs (BaseMemory (addrs b)) KernelLoad KernelEnd Ramdisk DeviceTree);;
  if DeviceTree <=? KernelLoad then mret EFI_BUFFER_TOO_SMALL else mret EFI_SUCCESS.
End Platform.

(** * Copying the ramdisks *)

(** [GetInitrdStartAddr] ([UpdateDeviceTree.c]). *)
Definition GetInitrdStartAddr {S} (Fdt : list Z) : M S R Z :=
  Ret ← fdt_path_offset Fdt (L "/chosen");
  if Ret <? 0 then mret 0
  else
    p ← fdt_getprop Fdt Ret (L "linux,initrd-start");
    match p.1 with
    | Some InitrdStartProp =>
        if p.2 >? 0 then fdt32 Fdt InitrdStartProp else mret 0
    | None => mret 0
    end.

(** The device tree in memory. *)
Definition fdt_in (m : memory) (a : Z) : list Z := mem_read m a (be_get (mem_read m (a + 4) 4)).

Section Load.
(** Fields of [BootInfo], and [IsRecoveryHasNoKernel]. *)
Variable HeaderVersion : Z.
Variables HasBootInitRamdisk BootIntoRecovery IsRecoveryHasNoKernel : bool.
(** [UpdateDeviceTree (fdt, cmdline, ramdisk, RamDiskSize, BootWith32Bit)]. *)
Variable UpdateDeviceTree : Z -> list Z -> Z -> Z -> bool -> MB R EFI_STATUS.

(** The address the ramdisk goes to, with the one the device tree may give. *)
Definition ramdisk_address (TotalRamdiskSize : Z) : MB R Z :=
  s ← get;
  let b := bp s in
  let a := addrs b in
  RamdiskLoadAddr_ ← GetInitrdStartAddr (fdt_in (mem s) (DeviceTreeLoadAddr a));
  if RamdiskLoadAddr_ >? 0 then
    let r := u64 (RamdiskLoadAddr_ -
      u32 (LOCAL_ROUND_TO_PAGE TotalRamdiskSize (bp_PageSize (sizes b)) + bp_PageSize (sizes b))) in
    set_addrs (mkAddrs (BaseMemory a) (KernelLoadAddr a) (KernelEndAddr a) r (DeviceTreeLoadAddr a));;
    mret r
  else mret (RamdiskLoadAddr a).

(** The vendor ramdisk, the recovery ramdisk when there is one, and the
    ramdisk, one behind the other; returns the address behind them. *)
Definition copy_ramdisks (RamdiskImageBuffer Ramdisk : Z) : MB R Z :=
  s ← get;
  let b := bp s in
  let z := sizes b in
  let g := images b in
  Ramdisk ←
    (if BOOT_HEADER_VERSION_THREE <=? HeaderVersion then
       on_mem (CopyMem Ramdisk (u64 (VendorImageBuffer g + bp_PageSize z)) (bp_VendorRamdiskSize z));;
       let Ramdisk := u64 (Ramdisk + bp_VendorRamdiskSize z) in
       if BootIntoRecovery && IsRecoveryHasNoKernel && negb (bp_RecoveryRamdiskSize z =? 0) then
         on_mem (CopyMem Ramdisk (u64 (RecoveryImageBuffer g + bp_PageSize z)) (bp_RecoveryRamdiskSize z));;
         mret (u64 (Ramdisk + bp_RecoveryRamdiskSize z))
       else mret Ramdisk
     else mret Ramdisk);
  on_mem (CopyMem Ramdisk (u64 (RamdiskImageBuffer + RamdiskOffset z)) (bp_RamdiskSize z));;
  mret (u64 (Ramdisk + bp_RamdiskSize z)).

(** The static and the dynamic boot configuration of version 4; returns the
    size of the ramdisk with it. *)
Definition load_bootconfig (Ramdisk TotalRamdiskSize : Z) : MB R Z :=
  s ← get;
  let b := bp s in
  let z := sizes b in
  let page x := LOCAL_ROUND_TO_PAGE x (bp_PageSize z) in
  let BootconfigAddr := u64 (VendorImageBuffer (images b) + bp_PageSize z +
    page (bp_VendorRamdiskSize z) + page (bp_DtSize z) + page (VendorRamdiskTableSize z)) in
  on_mem (CopyMem Ramdisk BootconfigAddr (VendorBootconfigSize z));;
  End ← (match FinalBootConfig b with
         | Some c => on_mem (AddBootconfigParameters (Some c) (FinalBootConfigLen b) Ramdisk
                               (VendorBootconfigSize z))
         | None => on_mem (AddBootconfigParameters (Some [10; 0]) 2 Ramdisk (VendorBootconfigSize z))
         end);
  if End =? 0 then mret TotalRamdiskSize
  else
    let n := u32 (End - Ramdisk) in
    set_VendorBootconfigSize n;;
    mret (u32 (TotalRamdiskSize + n)).

(** A 32-bit kernel is copied here. *)
Definition copy_kernel32 : MB R EFI_STATUS :=
  s ← get;
  let b := bp s in
  let a := addrs b in
  let n := KernelSizeActual (sizes b) in
  if BootingWith32BitKernel (mode b) then
    if CHECK_ADD64 (KernelLoadAddr a) n then mret EFI_BAD_BUFFER_SIZE
    else if u64 (KernelLoadAddr a + n) >? DeviceTreeLoadAddr a then mret EFI_INVALID_PARAMETER
    else
      on_mem (CopyMem (KernelLoadAddr a) (u64 (ImageBuffer (images b) + bp_PageSize (sizes b))) n);;
      mret EFI_SUCCESS
  else mret EFI_SUCCESS.

(** [RamdiskEndAddr] is 0 when it is used. *)
Definition LoadAddrAndDTUpdate : MB R EFI_STATUS :=
  s ← get;
  let b := bp s in
  let z := sizes b in
  let RamdiskImageBuffer :=
    if HasBootInitRamdisk && (BOOT_HEADER_VERSION_FOUR <=? HeaderVersion)
    then RamdiskBuffer (images b) else ImageBuffer (images b) in
  let TotalRamdiskSize := total_ramdisk z in
  Ramdisk ← ramdisk_address TotalRamdiskSize;
  let RamdiskEndAddr := 0 in
  if u64 (RamdiskEndAddr - Ramdisk) <? TotalRamdiskSize then mret EFI_BAD_BUFFER_SIZE
  else if CHECK_ADD64 RamdiskImageBuffer (RamdiskOffset z) then mret EFI_BAD_BUFFER_SIZE
  else
    Behind ← copy_ramdisks RamdiskImageBuffer Ramdisk;
    Status ← copy_kernel32;
    if negb (Status =? EFI_SUCCESS) then mret Status
    else
      TotalRamdiskSize ←
        (if HeaderVersion >? BOOT_HEADER_VERSION_THREE
         then load_bootconfig Behind TotalRamdiskSize else mret TotalRamdiskSize);
      Status ← UpdateDeviceTree (DeviceTreeLoadAddr (addrs b)) (FinalCmdLine b) Ramdisk
                 TotalRamdiskSize (BootingWith32BitKernel (mode b));
      mret Status.
End Load.
End Boot.
