(* ===== verification/BootLayoutSpec.v ===== *)
(** Where the load addresses end up, and what the copies leave in memory. *)
From Stdlib Require Import ZArith Lia.
From stdpp Require Import base list numbers option.
From S2P Require Import Prelude EfiBase Fdt Bootconfig BootconfigSpec BootImage BootSpec BootParams.

(** * Rounding *)

Lemma land_mod32 a b : 0 <= a < 2 ^ 32 -> Z.land a (u32 b) = Z.land a b.
Proof.
  intros Ha. unfold u32. rewrite <- Z.land_ones by lia.
  rewrite (Z.land_comm b), Z.land_assoc, Z.land_ones, Z.mod_small by lia. done.
Qed.

Lemma local_round_ok x p :
  0 <= x -> 0 < p -> x + p - 1 < 2 ^ 32 -> x <= LOCAL_ROUND_TO_PAGE x p <= x + p - 1.
Proof.
  intros Hx Hp Hlt. unfold LOCAL_ROUND_TO_PAGE. rewrite (u32_small (p - 1)), (u32_small (x + _)) by lia.
  rewrite land_mod32, <- Z.ldiff_land by lia. pose proof (ldiff_bounds x (p - 1)). lia.
Qed.

(** * The region of the kernel *)

Lemma on_mem_load {R} s a n :
  in_space a n = true -> on_mem (R := R) (load a n) s = (Go (mem_read (mem s) a n), s).
Proof. intros H. unfold on_mem. rewrite mem_load_go by done. by destruct s. Qed.

Lemma ld_go {R} s a n :
  in_space a n = true -> ld (R := R) n a s = (Go (le_get (mem_read (mem s) a n)), s).
Proof. intros H. unfold ld, on_mem. rewrite (bind_go _ _ _ _ _ (mem_load_go _ _ _ H)). by destruct s. Qed.

(** What the load addresses are made of: the region the platform answers with,
    or the memory behind its base and the fixed offsets of the package, and
    the header of the kernel, one page into the image. *)
Section Region.
Context (early : bool) (early_base early_size : Z) (query : option (Z * Z)).
Context (at64 at32 end64 end32 : Z) (s : BootState).

(** The start of the region: the one of the early services when they run. *)
Definition region_base : Z :=
  if early then early_base else
  match query with Some (base, _) => base | None => BaseMemory (addrs (bp s)) end.

Definition region_size : Z :=
  match query with
  | Some (_, size) => if early then early_size else size
  | None => if BootingWith32BitKernel (mode (bp s)) then end32 else end64
  end.

(** A field of the header of a 64-bit kernel: [TextOffset] at 8 and
    [ImageSize] at 16, eight bytes each (Documentation/arm64/booting). *)
Definition image_page : Z := ImageBuffer (images (bp s)) + bp_PageSize (sizes (bp s)).
Definition arm64_field (at_ : Z) : Z := le_get (mem_read (mem s) (image_page + at_) 8).

(** How far into the region the kernel goes: 32 KB for 32 bits, 512 KB for a
    compressed kernel or one that does not give its size, and what the header
    asks for otherwise. *)
Definition text_offset : Z :=
  if BootingWith32BitKernel (mode (bp s)) then 0x8000
  else if BootingWithGzipPkgKernel (mode (bp s)) || (arm64_field 16 =? 0) then 0x80000
  else arm64_field 8.

Definition kernel_start : Z :=
  match query with
  | Some _ => region_base + text_offset
  | None => Z.lor region_base (if BootingWith32BitKernel (mode (bp s)) then at32 else at64)
  end.
Definition region_end : Z := region_base + region_size.

(** The header is in memory and no address overflows. *)
Record region_fits : Prop := {
  rf_header : 0 < image_page /\ image_page + 24 <= 2 ^ 64;
  rf_start : 0 <= kernel_start < 2 ^ 64;
  rf_end : 0 <= region_end < 2 ^ 64;
}.

Lemma kernel_offset_is {R} :
  region_fits -> kernel_offset (R := R) (bp s) s = (Go text_offset, s).
Proof.
  intros [[H0 H1] _ _]. unfold kernel_offset, text_offset, arm64_field.
  destruct (BootingWith32BitKernel _); [done|]. destruct (BootingWithGzipPkgKernel _); [done|].
  fold image_page. unfold KH_ImageSize, KH_TextOffset. rewrite (u64_small image_page), !u64_small by lia.
  erewrite bind_go by (apply ld_go, in_space_ok; lia). cbn [orb].
  destruct (Z.eqb_spec (le_get (mem_read (mem s) (image_page + 16) 8)) 0); [done|].
  apply ld_go, in_space_ok; lia.
Qed.

Lemma kernel_region_is {R} :
  region_fits ->
  kernel_region (R := R) early early_base early_size query at64 at32 end64 end32 (bp s) s =
    (Go (kernel_start, region_end), s).
Proof.
  intros Hfit. pose proof (kernel_offset_is (R := R) Hfit) as Ho. destruct Hfit as [_ Hs He].
  unfold kernel_region, QueryEarlyServiceBootParams, kernel_start, region_end, region_base, region_size in *.
  destruct query as [[base size]|]; destruct early; cbv beta iota zeta in *.
  1,2: rewrite (bind_go _ _ _ _ _ Ho), !u64_small by lia; done.
  all: rewrite (u64_small (_ + _)) by lia; done.
Qed.
End Region.

(** * Load addresses *)

Section Layout.
Context {R : Type} (early : bool) (ka ks : Z) (query : option (Z * Z)) (p1 p2 p3 p4 : Z).
Context (s : BootState).
Let b := bp s.
Let z := sizes b.

(** The ramdisks together, and the room kept for them. *)
Definition ramdisks : Z := bp_RamdiskSize z + bp_VendorRamdiskSize z + bp_RecoveryRamdiskSize z.
Definition room_for_ramdisks : Z := LOCAL_ROUND_TO_PAGE ramdisks (bp_PageSize z) + bp_PageSize z.

Record sizes_fit : Prop := {
  sf_page : 0 < bp_PageSize z <= 4096;
  sf_ramdisks : 0 <= ramdisks /\ ramdisks + 2 * bp_PageSize z < 2 ^ 32;
}.

Lemma room_bounds :
  sizes_fit -> ramdisks + bp_PageSize z <= room_for_ramdisks < 2 ^ 32.
Proof.
  intros [Hp Hr]. unfold room_for_ramdisks.
  pose proof (local_round_ok ramdisks (bp_PageSize z)). lia.
Qed.

Lemma UpdateBootParams_run KernelLoad KernelEnd :
  sizes_fit -> kernel_region (R := R) early ka ks query p1 p2 p3 p4 b s = (Go (KernelLoad, KernelEnd), s) ->
  let Ramdisk := u64 (KernelEnd - room_for_ramdisks) in
  let DeviceTree := u64 (Ramdisk - (DT_SIZE_2MB + bp_PageSize z)) in
  UpdateBootParams (R := R) early ka ks query p1 p2 p3 p4 s =
    (Go (if DeviceTree <=? KernelLoad then EFI_BUFFER_TOO_SMALL else EFI_SUCCESS),
     mkState (mkBoot (images b) (mkAddrs (BaseMemory (addrs b)) KernelLoad KernelEnd Ramdisk DeviceTree)
       (sizes b) (mode b) (FinalCmdLine b) (FinalBootConfig b) (FinalBootConfigLen b)) (mem s)).
Proof.
  intros Hfit Hreg Ramdisk DeviceTree. pose proof (room_bounds Hfit) as Hb. destruct Hfit as [Hp Hr].
  unfold UpdateBootParams. erewrite bind_go by reflexivity. rewrite (bind_go _ _ _ _ _ Hreg). cbv beta iota.
  assert (Ht : total_ramdisk (sizes (bp s)) = ramdisks) by (unfold total_ramdisk; apply u32_small; fold b z; unfold ramdisks in *; lia).
  rewrite Ht. fold b z. fold room_for_ramdisks.
  rewrite (u32_small room_for_ramdisks), (u32_small (DT_SIZE_2MB + bp_PageSize z)) by (unfold DT_SIZE_2MB; lia).
  fold Ramdisk DeviceTree. erewrite bind_go by reflexivity. by case_match.
Qed.
End Layout.

(** The three addresses in their order, when the end of the region is high
    enough. *)
Lemma layout_ordered {R} early ka ks query p1 p2 p3 p4 s KernelLoad KernelEnd :
  let z := sizes (bp s) in
  sizes_fit s -> kernel_region (R := R) early ka ks query p1 p2 p3 p4 (bp s) s = (Go (KernelLoad, KernelEnd), s) ->
  ramdisks s + DT_SIZE_2MB + 3 * bp_PageSize z <= KernelEnd < 2 ^ 64 ->
  exists st s', UpdateBootParams (R := R) early ka ks query p1 p2 p3 p4 s = (Go st, s') /\
    let a := addrs (bp s') in
    KernelLoadAddr a = KernelLoad /\ KernelEndAddr a = KernelEnd /\
    DeviceTreeLoadAddr a + DT_SIZE_2MB + bp_PageSize z = RamdiskLoadAddr a /\
    RamdiskLoadAddr a + ramdisks s + bp_PageSize z <= KernelEnd <
      RamdiskLoadAddr a + ramdisks s + 2 * bp_PageSize z /\
    st = (if decide (KernelLoad < DeviceTreeLoadAddr a) then EFI_SUCCESS else EFI_BUFFER_TOO_SMALL) /\
    mem s' = mem s.
Proof.
  intros z Hfit Hreg He. pose proof (room_bounds s Hfit) as Hb. destruct (sf_page _ Hfit) as [Hp0 Hp1].
  destruct (sf_ramdisks _ Hfit) as [Hr0 Hr1].
  assert (Hb2 : room_for_ramdisks s <= ramdisks s + 2 * bp_PageSize z - 1).
  { unfold room_for_ramdisks. fold z. pose proof (local_round_ok (ramdisks s) (bp_PageSize z)). fold z in Hp0, Hr1. lia. }
  do 2 eexists. split; [by apply UpdateBootParams_run|]. fold z.
  cbn [addrs bp mem KernelLoadAddr KernelEndAddr DeviceTreeLoadAddr RamdiskLoadAddr].
  fold z in Hp0, Hp1, Hb.
  rewrite (u64_small (KernelEnd - _)) by (unfold DT_SIZE_2MB in *; lia).
  rewrite (u64_small (KernelEnd - _ - _)) by (unfold DT_SIZE_2MB in *; lia).
  split_and!; [done|done|lia|lia|lia| |done].
  case_decide; [rewrite (proj2 (Z.leb_gt _ _))|rewrite (proj2 (Z.leb_le _ _))]; (done || lia).
Qed.

(** A region smaller than the ramdisk is taken for one with room: the address
    of the ramdisk wraps. *)
Lemma layout_wrapped {R} early ka ks query p1 p2 p3 p4 s KernelLoad KernelEnd :
  sizes_fit s -> kernel_region (R := R) early ka ks query p1 p2 p3 p4 (bp s) s = (Go (KernelLoad, KernelEnd), s) ->
  0 <= KernelLoad < 2 ^ 63 -> 0 <= KernelEnd < room_for_ramdisks s ->
  exists s', UpdateBootParams (R := R) early ka ks query p1 p2 p3 p4 s = (Go EFI_SUCCESS, s') /\
    KernelEnd < DeviceTreeLoadAddr (addrs (bp s')) < RamdiskLoadAddr (addrs (bp s')).
Proof.
  intros Hfit Hreg Hl He. pose proof (room_bounds s Hfit) as Hb. destruct (sf_page _ Hfit) as [Hp0 Hp1].
  assert (Hw : u64 (KernelEnd - room_for_ramdisks s) = KernelEnd - room_for_ramdisks s + 2 ^ 64).
  { unfold u64. symmetry. apply Z.mod_unique_pos with (q := -1); lia. }
  eexists. rewrite (UpdateBootParams_run (R := R) _ _ _ _ _ _ _ _ s KernelLoad KernelEnd Hfit Hreg). rewrite Hw.
  rewrite (u64_small (_ + 2 ^ 64 - _)) by (unfold DT_SIZE_2MB; lia).
  rewrite (proj2 (Z.leb_gt _ _)) by (unfold DT_SIZE_2MB; lia). split; [done|].
  cbn [addrs bp DeviceTreeLoadAddr RamdiskLoadAddr]. unfold DT_SIZE_2MB. lia.
Qed.

(** * A kernel with the patched header *)

Section Patched.
Context {R : Type} (s : BootState) (Kptr : Z).
Let b := bp s.
Context (HK : Kptr = ImageBuffer (images b) + bp_PageSize (sizes b)) (HK0 : 0 < Kptr) (HK1 : Kptr + 100 <= 2 ^ 64).
Context (Hmagic : mem_read (mem s) Kptr 16 = PATCHED_KERNEL_MAGIC).

Lemma patched_not_gzip len : is_gzip_package (R := R) Kptr len s = (Go false, s).
Proof.
  unfold is_gzip_package. rewrite (proj2 (Z.eqb_neq Kptr 0)) by lia. rewrite orb_false_r.
  case_match; [done|]. erewrite bind_go by (apply on_mem_load, in_space_ok; lia).
  assert (Hm : mem_read (mem s) Kptr 3 = take 3 PATCHED_KERNEL_MAGIC).
  { rewrite <- Hmagic. change 16 with (3 + 13). rewrite mem_read_app, take_app_le by (rewrite ?length_mem_read; lia).
    rewrite take_ge; [done|rewrite length_mem_read; lia]. }
  by rewrite Hm.
Qed.

Lemma patched_mode :
  le_get (mem_read (mem s) (Kptr + 76) 4) = KERNEL64_HDR_MAGIC ->
  UpdateKernelModeAndPkg (R := R) s =
    (Go EFI_SUCCESS, mkState (mkBoot (images b) (addrs b) (sizes b)
       (mkMode false true (BootingWithGzipPkgKernel (mode b))) (FinalCmdLine b) (FinalBootConfig b)
       (FinalBootConfigLen b)) (mem s)).
Proof.
  intros H64. unfold UpdateKernelModeAndPkg. erewrite bind_go by reflexivity. fold b. rewrite <- HK.
  cbv zeta. rewrite (u64_small Kptr) by lia. rewrite (bind_go _ _ _ _ _ (patched_not_gzip _)).
  erewrite bind_go by (apply on_mem_load, in_space_ok; lia). rewrite Hmagic.
  change (AsciiStrnCmp PATCHED_KERNEL_MAGIC PATCHED_KERNEL_MAGIC 16 =? 0) with true. cbv iota zeta.
  unfold PATCHED_KERNEL_HEADER_SIZE, KH_magic_64. rewrite (u64_small (Kptr + 20)), u64_small by lia.
  replace (Kptr + 20 + 56) with (Kptr + 76) by lia.
  erewrite bind_go by (apply ld_go, in_space_ok; lia). rewrite H64. done.
Qed.

(** Eight bytes of the name are taken for the offset of the kernel's text. *)
Lemma patched_offset :
  BootingWith32BitKernel (mode b) = false -> BootingWithGzipPkgKernel (mode b) = false ->
  le_get (mem_read (mem s) (Kptr + 16) 8) <> 0 ->
  kernel_offset (R := R) b s = (Go (le_get (drop 8 PATCHED_KERNEL_MAGIC)), s).
Proof.
  intros H32 Hgz Hsz. unfold kernel_offset. rewrite H32, Hgz, <- HK. unfold KH_ImageSize, KH_TextOffset.
  rewrite (u64_small Kptr), !u64_small by lia.
  erewrite bind_go by (apply ld_go, in_space_ok; lia).
  rewrite (proj2 (Z.eqb_neq _ _)) by done. cbn [negb].
  rewrite ld_go by (apply in_space_ok; lia). do 3 f_equal.
  rewrite <- Hmagic. change 16 with (8 + 8). rewrite mem_read_app by lia.
  by rewrite drop_app_ge, length_mem_read, drop_0 by (rewrite length_mem_read; lia).
Qed.
End Patched.

(** * The ramdisks in memory *)

(** [m] is [m0] with [d] written at [a]. *)
Definition with_at (m0 m : memory) (a : Z) (d : list Z) : Prop := forall x, m x = mem_write m0 a d x.

(** A source that the bytes from [a] up to [e] do not touch. *)
Definition apart_from (a e src n : Z) : Prop := src + n <= a \/ e <= src.

Lemma mem_read_with m0 m a d src n :
  with_at m0 m a d -> apart_from a (a + Z.of_nat (length d)) src n -> mem_read m src n = mem_read m0 src n.
Proof.
  intros Hw Ha. apply mem_read_ext. intros x Hx. rewrite Hw. apply mem_write_out. unfold apart_from in Ha. lia.
Qed.

Lemma with_at_read m0 m a d : with_at m0 m a d -> mem_read m a (Z.of_nat (length d)) = d.
Proof. intros Hw. rewrite (mem_read_ext _ _ _ _ (fun x _ => Hw x)). apply mem_read_written. Qed.

Lemma with_at_nil m a : with_at m m a [].
Proof. intros x. symmetry. apply mem_write_out. simpl. lia. Qed.

(** A copy of the next piece. *)
Lemma copy_next {R} m0 m a d dst src n :
  with_at m0 m a d -> dst = a + Z.of_nat (length d) -> 0 <= a -> 0 <= n -> dst + n <= 2 ^ 64 ->
  0 <= src -> src + n <= 2 ^ 64 -> apart_from a (dst + n) src n ->
  exists m', CopyMem (R := R) dst src n m = (Go tt, m') /\ with_at m0 m' a (d ++ mem_read m0 src n).
Proof.
  intros Hw -> Ha Hn Hd Hs Hs2 Hap. unfold CopyMem.
  erewrite bind_go by (apply mem_load_go, in_space_ok; lia).
  rewrite (mem_read_with _ _ _ _ _ _ Hw) by (unfold apart_from in *; lia).
  eexists. split; [apply mem_store_go, in_space_ok; rewrite ?length_mem_read; lia|].
  intros x. rewrite <- mem_write_app. by apply mem_write_ext.
Qed.

Lemma on_mem_go {R A} (f : M memory R A) s a m' :
  f (mem s) = (Go a, m') -> on_mem f s = (Go a, mkState (bp s) m').
Proof. intros H. unfold on_mem. by rewrite H. Qed.

Section Ramdisk.
Context {R : Type} (version_ : Z) (has_init into_recovery no_kernel : bool).
Context (s : BootState).
Let b := bp s.
Let z := sizes b.
Let g := images b.
Let m := mem s.
Let Rd := RamdiskLoadAddr (addrs b).

Definition use_recovery : bool := into_recovery && no_kernel && negb (bp_RecoveryRamdiskSize z =? 0).
Definition ramdisk_image : Z :=
  if has_init && (4 <=? version_) then RamdiskBuffer g else ImageBuffer g.

(** The sources of the pieces. *)
Definition vendor_piece : Z * Z := (VendorImageBuffer g + bp_PageSize z, bp_VendorRamdiskSize z).
Definition recovery_piece : Z * Z := (RecoveryImageBuffer g + bp_PageSize z, bp_RecoveryRamdiskSize z).
Definition ramdisk_piece : Z * Z := (ramdisk_image + RamdiskOffset z, bp_RamdiskSize z).
Definition piece (p : Z * Z) : list Z := mem_read m p.1 p.2.

(** The ramdisk the kernel gets. *)
Definition whole_ramdisk : list Z :=
  piece vendor_piece ++ (if use_recovery then piece recovery_piece else []) ++ piece ramdisk_piece.

(** A piece is somewhere in the address space, and not where the ramdisk goes. *)
Definition piece_ok (e : Z) (p : Z * Z) : Prop :=
  0 <= p.1 /\ 0 <= p.2 < 2 ^ 32 /\ p.1 + p.2 < 2 ^ 64 /\ apart_from Rd e p.1 p.2.

Record pieces_ok (e : Z) : Prop := {
  po_vendor : piece_ok e vendor_piece;
  po_recovery : piece_ok e recovery_piece;
  po_ramdisk : piece_ok e ramdisk_piece;
  po_start : 12 <= Rd;
  po_end : Rd + Z.of_nat (length whole_ramdisk) <= e < 2 ^ 64;
}.

Lemma length_piece p e : piece_ok e p -> Z.of_nat (length (piece p)) = p.2.
Proof. intros (_ & H & _). unfold piece. rewrite length_mem_read. lia. Qed.

Lemma recovery_copied e m1 :
  pieces_ok e -> with_at m m1 Rd (piece vendor_piece) ->
  let front := piece vendor_piece ++ if use_recovery then piece recovery_piece else [] in
  exists m2, (if into_recovery && no_kernel && negb (bp_RecoveryRamdiskSize z =? 0) then
      on_mem (CopyMem (Rd + vendor_piece.2) recovery_piece.1 (bp_RecoveryRamdiskSize z));;
      mret (u64 (Rd + vendor_piece.2 + bp_RecoveryRamdiskSize z))
    else mret (Rd + vendor_piece.2) : MB R Z) (mkState b m1) =
      (Go (Rd + Z.of_nat (length front)), mkState b m2) /\ with_at m m2 Rd front.
Proof.
  intros [Hvp Hrp Hdp Hs He] W1 front. pose proof (length_piece _ _ Hvp) as Lv.
  pose proof (length_piece _ _ Hrp) as Lr. destruct Hvp as (_ & Hv2 & _), Hrp as (Hr1 & Hr2 & Hr3 & Hr4).
  assert (Hl : Z.of_nat (length front) <= Z.of_nat (length whole_ramdisk))
    by (unfold front, whole_ramdisk; rewrite !length_app; lia).
  unfold front in *. clear front. fold use_recovery. change (bp_RecoveryRamdiskSize z) with recovery_piece.2.
  destruct use_recovery.
  - rewrite length_app in Hl.
    destruct (copy_next (R := R) m m1 Rd (piece vendor_piece) (Rd + vendor_piece.2) recovery_piece.1 recovery_piece.2)
      as (m2 & H2 & W2); [done|lia..|unfold apart_from in *; lia|].
    exists m2. split; [|exact W2]. erewrite bind_go by (apply on_mem_go; exact H2).
    rewrite u64_small by lia. rewrite length_app, Nat2Z.inj_add, Lv, Lr, Z.add_assoc. done.
  - exists m1. rewrite app_nil_r, Lv. done.
Qed.

Lemma copy_ramdisks_run e :
  3 <= version_ -> pieces_ok e ->
  exists m', copy_ramdisks (R := R) version_ into_recovery no_kernel ramdisk_image Rd s =
      (Go (Rd + Z.of_nat (length whole_ramdisk)), mkState b m') /\ with_at m m' Rd whole_ramdisk.
Proof.
  intros Hv Hok. pose proof Hok as [Hvp Hrp Hdp Hs He]. pose proof (length_piece _ _ Hvp) as Lv.
  pose proof (length_piece _ _ Hrp) as Lr. pose proof (length_piece _ _ Hdp) as Ld.
  assert (Hl : Z.of_nat (length whole_ramdisk) =
    vendor_piece.2 + (if use_recovery then recovery_piece.2 else 0) + ramdisk_piece.2).
  { unfold whole_ramdisk. rewrite !length_app. destruct use_recovery; cbn [length]; lia. }
  destruct Hvp as (Hv1 & Hv2 & Hv3 & Hv4), Hrp as (Hr1 & Hr2 & Hr3 & Hr4), Hdp as (Hd1 & Hd2 & Hd3 & Hd4).
  unfold apart_from in *.
  assert (Hur : 0 <= if use_recovery then recovery_piece.2 else 0) by (destruct use_recovery; lia).
  unfold copy_ramdisks. erewrite bind_go by reflexivity. fold b z g.
  unfold BOOT_HEADER_VERSION_THREE. rewrite (proj2 (Z.leb_le 3 version_)) by done.
  change (VendorImageBuffer g + bp_PageSize z) with vendor_piece.1.
  change (RecoveryImageBuffer g + bp_PageSize z) with recovery_piece.1.
  change (ramdisk_image + RamdiskOffset z) with ramdisk_piece.1.
  change (bp_VendorRamdiskSize z) with vendor_piece.2. change (bp_RamdiskSize z) with ramdisk_piece.2.
  rewrite (u64_small vendor_piece.1), (u64_small recovery_piece.1), (u64_small ramdisk_piece.1) by lia.
  destruct (copy_next (R := R) m m Rd [] Rd vendor_piece.1 vendor_piece.2) as (m1 & H1 & W1);
    [apply with_at_nil|simpl; lia|lia|lia|lia|lia|lia|unfold apart_from; lia|].
  rewrite app_nil_l in W1. fold (piece vendor_piece) in W1.
  destruct (recovery_copied e m1 Hok W1) as (m2 & H2 & W2).
  set (front := piece vendor_piece ++ if use_recovery then piece recovery_piece else []) in *.
  assert (Hf : Z.of_nat (length front) = vendor_piece.2 + if use_recovery then recovery_piece.2 else 0).
  { unfold front. rewrite length_app. destruct use_recovery; cbn [length]; lia. }
  destruct (copy_next (R := R) m m2 Rd front (Rd + Z.of_nat (length front)) ramdisk_piece.1 ramdisk_piece.2)
    as (m3 & H3 & W3); [done|lia..|unfold apart_from; lia|].
  exists m3. split.
  - erewrite bind_go; [|erewrite bind_go by (apply on_mem_go; exact H1); rewrite (u64_small (Rd + _)) by lia; exact H2].
    erewrite bind_go by (apply on_mem_go; exact H3). rewrite u64_small by lia.
    unfold mret, M_MRet, M_ret. do 2 f_equal. lia.
  - unfold whole_ramdisk. rewrite app_assoc. exact W3.
Qed.

(** ** The boot configuration behind it *)

(** The last twelve bytes are not the magic of a trailer. *)
Definition no_magic_tail (d : list Z) : Prop := (12 <= length d)%nat /\ drop (length d - 12) d <> Magic.

Lemma tail_read m0 m1 a d :
  with_at m0 m1 a d -> no_magic_tail d -> mem_read m1 (a + Z.of_nat (length d) - 12) 12 <> Magic.
Proof.
  intros Hw [Hl Hd]. apply with_at_read in Hw.
  replace (Z.of_nat (length d)) with (Z.of_nat (length d - 12) + 12) in Hw by lia.
  rewrite mem_read_app in Hw by lia.
  replace (a + Z.of_nat (length d) - 12) with (a + Z.of_nat (length d - 12)) by lia.
  rewrite <- Hw in Hd at 2. rewrite drop_app_ge in Hd by (rewrite length_mem_read; lia).
  by rewrite length_mem_read, Nat2Z.id, Nat.sub_diag, drop_0 in Hd.
Qed.

(** Bytes that are there already may be counted in. *)
Lemma with_at_grow m0 m1 a d n :
  with_at m0 m1 a d -> with_at m0 m1 a (d ++ mem_read m0 (a + Z.of_nat (length d)) n).
Proof.
  intros Hw x. rewrite <- mem_write_app, Hw.
  rewrite (mem_read_ext m0 (mem_write m0 a d)); [by rewrite mem_write_read|].
  intros y Hy. symmetry. apply mem_write_out. lia.
Qed.

Definition config_piece : Z * Z :=
  (VendorImageBuffer g + bp_PageSize z + LOCAL_ROUND_TO_PAGE (bp_VendorRamdiskSize z) (bp_PageSize z) +
     LOCAL_ROUND_TO_PAGE (bp_DtSize z) (bp_PageSize z) +
     LOCAL_ROUND_TO_PAGE (VendorRamdiskTableSize z) (bp_PageSize z), VendorBootconfigSize z).

Section Config.
Context (e : Z) (params : list Z).
Context (Hpieces : pieces_ok e) (Hconfig : piece_ok e config_piece).
Context (Hparams : FinalBootConfig b = Some params /\ FinalBootConfigLen b = Z.of_nat (length params) /\ params <> []).
(** The ramdisk, the static and the dynamic configuration, and the bytes up to
    a multiple of four. *)
Definition front : list Z := whole_ramdisk ++ piece config_piece.
Definition behind : Z := Rd + Z.of_nat (length (front ++ params)).
Definition pad : list Z := mem_read m behind (aligned behind - behind).
Definition config : list Z := piece config_piece ++ params ++ pad.
Definition End_ : Z := Rd + Z.of_nat (length whole_ramdisk) + Z.of_nat (length config) + 20.
Context (Hend : End_ + 4 <= e) (Hsmall : Z.of_nat (length (front ++ params)) < 2 ^ 31 - 64).
Context (Hmagic : no_magic_tail front) (Hmagic2 : no_magic_tail (front ++ params ++ pad)).

Definition Start : Z := Rd + Z.of_nat (length whole_ramdisk).

Lemma config_lengths :
  0 <= config_piece.2 /\ Z.of_nat (length front) = Z.of_nat (length whole_ramdisk) + config_piece.2 /\
  behind = Start + config_piece.2 + Z.of_nat (length params) /\ behind <= aligned behind < behind + 4 /\
  Z.of_nat (length config) = config_piece.2 + Z.of_nat (length params) + (aligned behind - behind) /\
  End_ = aligned behind + 20.
Proof.
  pose proof (length_piece _ _ Hconfig) as Lc. pose proof (aligned_bounds behind) as [Hab _].
  assert (Hbeh : behind = Start + config_piece.2 + Z.of_nat (length params))
    by (unfold behind, Start, front; rewrite !length_app; lia).
  assert (Lcfg : Z.of_nat (length config) = config_piece.2 + Z.of_nat (length params) + (aligned behind - behind)).
  { unfold config, pad. rewrite !length_app, length_mem_read. lia. }
  split_and!; [apply Hconfig|unfold front; rewrite length_app; lia|done|lia|lia|done|].
  unfold End_. unfold Start in *. lia.
Qed.

(** The static configuration is copied. *)
Lemma static_copied m1 :
  with_at m m1 Rd whole_ramdisk ->
  exists m2, CopyMem (R := R) Start config_piece.1 config_piece.2 m1 = (Go tt, m2) /\
    with_at m m2 Rd front /\ config_at m2 Start config_piece.2 (piece config_piece).
Proof.
  intros W1. pose proof (po_start _ Hpieces) as Hs. pose proof (po_end _ Hpieces) as He.
  destruct config_lengths as (_ & Lf & Hb & Hab & Lc & HE). destruct Hconfig as (Hc1 & Hc2 & Hc3 & Hc4).
  destruct (copy_next (R := R) m m1 Rd whole_ramdisk Start config_piece.1 config_piece.2) as (m2 & H2 & W2);
    [done|done|lia..|unfold apart_from in *; lia|]. fold (piece config_piece) in W2. fold front in W2.
  exists m2. split_and!; [done|done|]. unfold config_at. rewrite bool_decide_false.
  - pose proof (with_at_read _ _ _ _ W2) as Hr. rewrite Lf, mem_read_app in Hr by lia.
    apply app_inj_1 in Hr as [_ Hr]; [done|]. by rewrite length_mem_read, Nat2Z.id.
  - replace (Start + config_piece.2 - 12) with (Rd + Z.of_nat (length front) - 12) by (unfold Start; lia).
    by eapply tail_read.
Qed.

(** The dynamic one is appended. *)
Lemma dynamic_appended m2 :
  with_at m m2 Rd front -> config_at m2 Start config_piece.2 (piece config_piece) ->
  exists m3, AddBootconfigParameters (R := R) (Some params) (Z.of_nat (length params)) Start config_piece.2 m2 =
      (Go End_, m3) /\
    bootconfig_of m3 End_ = Some config /\
    (forall x, x < Start + config_piece.2 \/ End_ <= x -> m3 x = m2 x).
Proof.
  intros W2 Hcfg. pose proof (po_start _ Hpieces) as Hs. pose proof (po_end _ Hpieces) as He.
  destruct config_lengths as (H0 & Lf & Hb & Hab & Lc & HE). pose proof (length_piece _ _ Hconfig) as Lp.
  destruct Hparams as (_ & _ & Hne). rewrite length_app in Hsmall.
  assert (Hg : Start + grown (piece config_piece) params = behind)
    by (unfold grown; rewrite length_app, Hb; lia).
  assert (Hn : new_end Start (piece config_piece) params = aligned behind) by (unfold new_end; by rewrite Hg).
  assert (Hpad : padding m2 Start (piece config_piece) params = pad).
  { unfold padding, pad. rewrite Hg, Hn. eapply mem_read_with; [exact W2|]. unfold apart_from, Start in *. lia. }
  assert (Hw : with_at m (written m2 Start (piece config_piece) params) Rd (front ++ params)).
  { intros x. rewrite <- mem_write_app. unfold written. rewrite Lp.
    replace (Rd + Z.of_nat (length front)) with (Start + config_piece.2) by (unfold Start; lia).
    by apply mem_write_ext. }
  apply (with_at_grow _ _ _ _ (aligned behind - behind)) in Hw. fold behind in Hw. fold pad in Hw.
  rewrite <- app_assoc in Hw. pose proof (tail_read _ _ _ _ Hw Hmagic2) as Htail.
  replace (Rd + Z.of_nat (length (front ++ params ++ pad)) - 12) with
    (new_end Start (piece config_piece) params - 12) in Htail.
  2: { rewrite Hn, !length_app. unfold pad. rewrite length_mem_read. unfold Start in Hb. lia. }
  destruct (params_read_back (R := R) m2 Start config_piece.2 (piece config_piece) params Hcfg)
    as (m3 & Hrun & Hbc & _ & Hframe); [done|unfold Start; lia|done|lia|lia|done|].
  exists m3. rewrite Hn, <- HE in Hrun, Hbc, Hframe. unfold new_text in Hbc. rewrite Hpad in Hbc.
  rewrite Lp in Hframe. done.
Qed.

Lemma load_bootconfig_run m1 :
  with_at m m1 Rd whole_ramdisk ->
  exists s', load_bootconfig (R := R) Start (Z.of_nat (length whole_ramdisk)) (mkState b m1) =
      (Go (End_ - Rd), s') /\
    mem_read (mem s') Rd (Z.of_nat (length whole_ramdisk)) = whole_ramdisk /\
    bootconfig_of (mem s') End_ = Some config /\
    (forall x, x < Rd \/ End_ <= x -> mem s' x = m x).
Proof.
  intros W1. pose proof (po_start _ Hpieces) as Hs. pose proof (po_end _ Hpieces) as He.
  destruct config_lengths as (H0 & Lf & Hb & Hab & Lc & HE). destruct Hparams as (Hp1 & Hp2 & Hp3).
  destruct Hconfig as (Hc1 & Hc2 & Hc3 & _).
  destruct (static_copied m1 W1) as (m2 & H2 & W2 & Hcfg).
  destruct (dynamic_appended m2 W2 Hcfg) as (m3 & H3 & Hbc & Hframe).
  rewrite length_app in Hsmall. unfold load_bootconfig. erewrite bind_go by reflexivity. cbv zeta. cbn [bp]. fold z g.
  change (VendorImageBuffer g + bp_PageSize z + LOCAL_ROUND_TO_PAGE (bp_VendorRamdiskSize z) (bp_PageSize z) +
     LOCAL_ROUND_TO_PAGE (bp_DtSize z) (bp_PageSize z) +
     LOCAL_ROUND_TO_PAGE (VendorRamdiskTableSize z) (bp_PageSize z)) with config_piece.1.
  change (VendorBootconfigSize z) with config_piece.2. rewrite (u64_small config_piece.1) by lia.
  erewrite bind_go by (apply on_mem_go; exact H2). rewrite Hp1, Hp2.
  erewrite bind_go by (apply on_mem_go; exact H3).
  rewrite (proj2 (Z.eqb_neq _ _)) by (unfold Start in *; lia).
  erewrite bind_go by reflexivity. unfold Start in *.
  rewrite (u32_small (End_ - _)), u32_small by lia. eexists. split_and!.
  - unfold mret, M_MRet, M_ret. do 2 f_equal. lia.
  - cbn [mem]. rewrite (mem_read_ext m3 m2) by (intros x Hx; apply Hframe; lia).
    pose proof (with_at_read _ _ _ _ W2) as Hr. rewrite Lf, mem_read_app in Hr by lia.
    apply app_inj_1 in Hr as [Hr _]; [done|]. by rewrite length_mem_read, Nat2Z.id.
  - done.
  - intros x Hx. cbn [mem]. rewrite Hframe by lia. rewrite W2. apply mem_write_out. lia.
Qed.

(** The whole of it, on an image of version 4 for a 64-bit kernel, when the
    device tree gives no other address. *)
Lemma LoadAddrAndDTUpdate_run (UDT : Z -> list Z -> Z -> Z -> bool -> MB R EFI_STATUS) :
  3 < version_ -> BootingWith32BitKernel (mode b) = false ->
  (use_recovery = true \/ bp_RecoveryRamdiskSize z = 0) ->
  0 <= ramdisk_image -> 0 <= RamdiskOffset z ->
  GetInitrdStartAddr (R := R) (fdt_in m (DeviceTreeLoadAddr (addrs b))) s = (Go 0, s) ->
  exists s', LoadAddrAndDTUpdate (R := R) version_ has_init into_recovery no_kernel UDT s =
      UDT (DeviceTreeLoadAddr (addrs b)) (FinalCmdLine b) Rd (End_ - Rd) false s' /\
    mem_read (mem s') Rd (Z.of_nat (length whole_ramdisk)) = whole_ramdisk /\
    bootconfig_of (mem s') End_ = Some config /\
    (forall x, x < Rd \/ End_ <= x -> mem s' x = m x).
Proof.
  intros Hv H32 Hrec Hi0 Ho0 Hinit. pose proof (po_start _ Hpieces) as Hs. pose proof (po_end _ Hpieces) as He.
  destruct (copy_ramdisks_run e ltac:(lia) Hpieces) as (m1 & Hcopy & W1).
  destruct (load_bootconfig_run m1 W1) as (s' & Hload & Hrest). exists s'. split; [|exact Hrest].
  assert (Htot : total_ramdisk z = Z.of_nat (length whole_ramdisk)).
  { pose proof (length_piece _ _ (po_vendor _ Hpieces)) as Lv.
    pose proof (length_piece _ _ (po_recovery _ Hpieces)) as Lr.
    pose proof (length_piece _ _ (po_ramdisk _ Hpieces)) as Ld.
    destruct config_lengths as (H0 & Lf & _). rewrite length_app in Hsmall. unfold whole_ramdisk in *.
    rewrite !length_app in *. unfold vendor_piece, recovery_piece, ramdisk_piece in Lv, Lr, Ld.
    cbn [snd] in Lv, Lr, Ld. unfold total_ramdisk.
    destruct use_recovery; cbn [length] in *; [|destruct Hrec; [done|]];
      rewrite u32_small; unfold vendor_piece, recovery_piece, ramdisk_piece in *; lia. }
  unfold LoadAddrAndDTUpdate. erewrite bind_go by reflexivity. fold b z g. cbv zeta.
  change (if has_init && (BOOT_HEADER_VERSION_FOUR <=? version_) then RamdiskBuffer g else ImageBuffer g)
    with ramdisk_image.
  assert (Haddr : ramdisk_address (R := R) (total_ramdisk z) s = (Go Rd, s)).
  { unfold ramdisk_address. erewrite bind_go by reflexivity. fold b m. by rewrite (bind_go _ _ _ _ _ Hinit). }
  rewrite (bind_go _ _ _ _ _ Haddr), Htot.
  assert (Hw : u64 (0 - Rd) = 2 ^ 64 - Rd) by (unfold u64; symmetry; apply Z.mod_unique_pos with (q := -1); lia).
  rewrite Hw, (proj2 (Z.ltb_ge _ _)) by lia.
  destruct (po_ramdisk _ Hpieces) as (Hd1 & Hd2 & Hd3 & _). unfold ramdisk_piece in Hd3. cbn [fst snd] in Hd3.
  rewrite (proj2 (CHECK_ADD64_false _ _)) by (unfold ramdisk_piece in Hd2; cbn [fst snd] in Hd2; unfold MAX_UINT64; lia).
  rewrite (bind_go _ _ _ _ _ Hcopy).
  erewrite bind_go by (unfold copy_kernel32; erewrite bind_go by reflexivity; cbn [bp]; rewrite H32; reflexivity).
  cbn [negb Z.eqb EFI_SUCCESS]. rewrite Z.gtb_ltb, (proj2 (Z.ltb_lt _ _)) by (unfold BOOT_HEADER_VERSION_THREE; lia).
  rewrite (bind_go _ _ _ _ _ Hload), H32. unfold mbind, M_MBind, M_bind. by destruct (UDT _ _ _ _ _ s') as [[]].
Qed.
End Config.
End Ramdisk.
