(* ===== verification/BootClaims.v ===== *)
(** What the check of the boot image, the load addresses and the copies of the
    ramdisks promise. *)
From Stdlib Require Import ZArith Lia.
From stdpp Require Import base list numbers option.
From S2P Require Import Prelude EfiBase Fdt FdtSpec FdtTree FdtRw FdtRwSpec FdtDemo Bootconfig BootconfigSpec BootImage BootSpec BootParams BootLayoutSpec.

(** * The header *)

(** The buffers of a check hold bytes and are as long as the structures. *)
Record header_buffers (image vendor : list Z) (recovery ven : option (list Z)) : Prop := {
  hb_image : Forall is_u8 image /\ 1660 <= Z.of_nat (length image);
  hb_vendor : Forall is_u8 vendor /\ 2128 <= Z.of_nat (length vendor);
  hb_recovery : forall r, recovery = Some r -> Forall is_u8 r /\ 1660 <= Z.of_nat (length r);
  hb_given : is_old image = false -> ven = Some vendor;
}.

(** C15: [CheckImageHeader] decides the boot image header: it returns
    [EFI_SUCCESS] exactly for the headers that fit: the magics are right, the
    version is at most 4, the kernel is not empty, the page size is not 0 and
    either the size of the header that was read or at most 4096, kernel,
    ramdisk and device tree round up to pages below 2^32 - 1, from version 3 on
    so do the vendor ramdisk and the ramdisk of a given recovery image, with a
    page of at most 4096 bytes, and the sum of the rounded parts is below
    2^32 - 1; a recovery overlay (version 1 or 2, booting into recovery) has a
    header of the right size, at most 24 MB and an offset that does not
    overflow.  The image size it then reports is the exact sum of the rounded
    parts (header, kernel, ramdisk, and for versions below 3 the device tree
    and the recovery overlay), and the page size is the one of the header; with
    a page of a power of two a rounded part is the next multiple of the page,
    otherwise (the code does not test it) it is what the mask makes of it.  The
    conditions: the buffers hold bytes and are as long as the structures (1660
    and 2128), a vendor header is given for versions from 3 on, and a recovery
    overlay that is looked at has a size that rounds up without an overflow
    (the code does not test that). *)
Theorem image_header_decided image ImageHdrSize vendor BootIntoRecovery recovery ven o :
  header_buffers image vendor recovery ven ->
  (recovery_overlay image BootIntoRecovery = true -> rounds (overlay_size image) (page image vendor)) ->
  exists st o', run (CheckImageHeader image ImageHdrSize ven BootIntoRecovery recovery) o = (Go st, o') /\
    (st = EFI_SUCCESS <-> fits image ImageHdrSize vendor BootIntoRecovery recovery) /\
    (st = EFI_SUCCESS ->
     o' = mkOut (image_size image vendor BootIntoRecovery) (page image vendor) /\
     forall k, 0 <= k < 32 -> page image vendor = 2 ^ k ->
       ImageSizeActual o' = pages_size image vendor BootIntoRecovery).
Proof.
  intros [[Hi Hil] [Hv Hvl] Hr Hg] Hovl.
  pose proof (CheckImageHeader_decides image ImageHdrSize vendor BootIntoRecovery recovery
    Hi Hv Hil Hvl Hr ven Hg o Hovl) as H.
  set (Q := fun st o' => st <> EFI_SUCCESS /\ ~ fits image ImageHdrSize vendor BootIntoRecovery recovery \/
    st = EFI_SUCCESS /\ fits image ImageHdrSize vendor BootIntoRecovery recovery /\
      o' = mkOut (image_size image vendor BootIntoRecovery) (page image vendor)).
  apply (wp_mono _ _ Q _ Q) in H; [|by left|by right].
  apply wp_run in H as (st & o' & Hrun & HQ). exists st, o'. split; [done|].
  destruct HQ as [[Hst Hf]|(-> & Hf & ->)]; [done|]. split; [done|]. intros _. split; [done|].
  intros k Hk Hpage. by eapply image_size_pages.
Qed.

(** A version 2 header. *)
Definition demo_hdr (kernel ramdisk second page overlay dtb : Z) : list Z := Eval cbv [app] in
  BOOT_MAGIC ++ le_put 4 kernel ++ zeros 4 ++ le_put 4 ramdisk ++ zeros 4 ++ le_put 4 second ++ zeros 8 ++
  le_put 4 page ++ le_put 4 2 ++ zeros (1632 - 44) ++
  le_put 4 overlay ++ zeros 8 ++ le_put 4 1660 ++ le_put 4 dtb ++ zeros 8.
Definition hdr2 : list Z := Eval vm_compute in demo_hdr 20000 3000 0 2048 0 5000.

Lemma hdr2_buffers : header_buffers hdr2 (zeros 2128) None None.
Proof.
  split; [split; [|done]|split; [|done]|done|by intros [=]].
  - apply (Forall_b _ _ _ byte_b_ok). vm_compute. reflexivity.
  - apply (Forall_b _ _ _ byte_b_ok). vm_compute. reflexivity.
Qed.

(** The same header with a recovery overlay, booting into recovery. *)
Definition hdr2r : list Z := Eval vm_compute in demo_hdr 20000 3000 0 2048 7000 5000.

Lemma hdr2r_buffers : header_buffers hdr2r (zeros 2128) None None.
Proof.
  split; [split; [|done]|split; [|done]|done|by intros [=]].
  - apply (Forall_b _ _ _ byte_b_ok). vm_compute. reflexivity.
  - apply (Forall_b _ _ _ byte_b_ok). vm_compute. reflexivity.
Qed.

Lemma image_header_decided_witness :
  exists st o', run (CheckImageHeader hdr2r 4096 None true None) (mkOut 0 0) = (Go st, o') /\
    (st = EFI_SUCCESS <-> fits hdr2r 4096 (zeros 2128) true None) /\
    (st = EFI_SUCCESS -> o' = mkOut (image_size hdr2r (zeros 2128) true) (page hdr2r (zeros 2128)) /\
       forall k, 0 <= k < 32 -> page hdr2r (zeros 2128) = 2 ^ k ->
         ImageSizeActual o' = pages_size hdr2r (zeros 2128) true).
Proof.
  apply (image_header_decided hdr2r 4096 (zeros 2128) true None None (mkOut 0 0) hdr2r_buffers).
  intros _. right. vm_compute. reflexivity.
Defined.

Example hdr2_accepted :
  run (CheckImageHeader hdr2 4096 None false None) (mkOut 0 0) = (Go EFI_SUCCESS, mkOut 32768 2048).
Proof. vm_compute. reflexivity. Qed.

Lemma hdr2_fits : fits hdr2 4096 (zeros 2128) false None.
Proof.
  destruct (CheckImageHeader_decides hdr2 4096 (zeros 2128) false None
    (proj1 (hb_image _ _ _ _ hdr2_buffers)) (proj1 (hb_vendor _ _ _ _ hdr2_buffers))
    (proj2 (hb_image _ _ _ _ hdr2_buffers)) (proj2 (hb_vendor _ _ _ _ hdr2_buffers)) ltac:(done) None ltac:(by intros [=])
    (mkOut 0 0) ltac:(done)) as (_ & H & _). exact H.
Qed.

(** The header of a network or flashless boot is checked with no vendor
    header: one of version 3 dereferences [NULL]. *)
Example network_boot_faults :
  let hdr3 := BOOT_MAGIC ++ zeros 32 ++ le_put 4 3 ++ zeros 1616 in
  run (CheckImageHeader hdr3 4096 None false None) (mkOut 0 0) = (Halt NullDeref, mkOut 0 0).
Proof. vm_compute. reflexivity. Qed.

(** A recovery overlay whose size overflows when it is rounded counts as
    empty. *)
Example overlay_overflow_accepted :
  run (CheckImageHeader (demo_hdr 20000 3000 0 2048 0xfffffff0 5000) 4096 None true None) (mkOut 0 0) =
  (Go EFI_SUCCESS, mkOut 32768 2048).
Proof. vm_compute. reflexivity. Qed.

(** The offset [DTBImgCheckAndAppendDT] computes for the device tree of a
    version 2 image lies, against the size the image was loaded with, too far
    by the pages of the second stage and, unless it boots into recovery, by
    those of the recovery overlay, which the size does not count: the tree is
    inside the image when there are neither, and never when they are larger
    than the tree. *)
Theorem dtb_window_exact {S R} image ImageHdrSize vendor BootIntoRecovery recovery ven k vr vb (o : S) :
  header_buffers image vendor recovery ven -> fits image ImageHdrSize vendor BootIntoRecovery recovery ->
  version image = 2 -> page image vendor = 2 ^ k -> 0 <= k < 32 ->
  rounds (second image) (page image vendor) -> rounds (overlay_size image) (page image vendor) ->
  let uncounted := page_round (second image) (page image vendor) +
    (if recovery_overlay image BootIntoRecovery then 0 else page_round (overlay_size image) (page image vendor)) in
  image_size image vendor BootIntoRecovery + page_round (second image) (page image vendor) +
    page_round (overlay_size image) (page image vendor) < 2 ^ 32 ->
  exists DtbOffset,
    dtb_window (R := R) 2 (page image vendor) (kernel image) (ramdisk image) (second image) vr image vb o =
      (Go (DtbOffset, dtb image vendor + DtbOffset), o) /\
    DtbOffset + page_round (dtb image vendor) (page image vendor) =
      image_size image vendor BootIntoRecovery + uncounted /\
    (uncounted = 0 -> dtb image vendor + DtbOffset <= image_size image vendor BootIntoRecovery) /\
    (page_round (dtb image vendor) (page image vendor) <= uncounted ->
     image_size image vendor BootIntoRecovery <= DtbOffset).
Proof.
  intros [[Hi Hil] [Hv Hvl] Hr Hg] F H2 Hp Hk Hs Ho uncounted Hmax.
  destruct (dtb_window_v2 (R := R) image ImageHdrSize vendor BootIntoRecovery recovery Hi Hv Hil Hvl o k vr vb
    F H2 Hp Hk Hs Ho Hmax) as (d & Hd & Hsum).
  pose proof (fields_range image vendor Hi Hv Hil Hvl) as (_ & Hpr & _ & _ & Hdt).
  pose proof (page_round_ok (dtb image vendor) (page image vendor) ltac:(lia)
    ltac:(pose proof (fit_page _ _ _ _ _ F); lia) ltac:(by destruct (fit_rounds _ _ _ _ _ F) as (_ & _ & ?))) as Hb.
  exists d. unfold uncounted. split_and!; [done|lia|lia|lia].
Qed.

Lemma dtb_window_exact_witness :
  exists DtbOffset,
    dtb_window (R := unit) 2 2048 20000 3000 0 0 hdr2 [] tt = (Go (DtbOffset, 5000 + DtbOffset), tt) /\
    DtbOffset + 6144 = 32768 + 0 /\ (0 = 0 -> 5000 + DtbOffset <= 32768) /\
    (6144 <= 0 -> 32768 <= DtbOffset).
Proof.
  apply (dtb_window_exact hdr2 4096 (zeros 2128) false None None 11 0 [] tt hdr2_buffers hdr2_fits);
    try reflexivity; try (vm_compute; split; [discriminate|reflexivity]); left; reflexivity.
Defined.

(** * Load addresses *)

(** C29: On an image without the patched header, [UpdateBootParams] puts the
    kernel where the platform and the kernel's header ask for it (at the base
    of the region it is given plus 32 KB, 512 KB or the text offset of the
    header; with no such region at the fixed offset of the package), the end of
    the region at its base plus its size, the ramdisk so that the ramdisks and
    one page, and less than two, are left below that end, and the device tree 2
    MB and one page below the ramdisk; it returns [EFI_SUCCESS] when the start
    of the kernel lies below the device tree and [EFI_BUFFER_TOO_SMALL]
    otherwise, and writes no memory.  The kernel's own size is not looked at:
    nothing is stated on where the kernel ends.  The conditions: the page has 1
    to 4096 bytes, the ramdisks and two pages stay below 2^32, the kernel's
    header can be read, no address of the region overflows 64 bits, and the
    region's end is an address not below the ramdisks, 2 MB and three pages
    together. *)
Theorem boot_layout_ordered {R} early early_base early_size query at64 at32 end64 end32 s :
  let page := bp_PageSize (sizes (bp s)) in
  let start := kernel_start early early_base query at64 at32 s in
  let end_ := region_end early early_base early_size query end64 end32 s in
  sizes_fit s -> BootingWithPatchedKernel (mode (bp s)) = false ->
  region_fits early early_base early_size query at64 at32 end64 end32 s ->
  ramdisks s + DT_SIZE_2MB + 3 * page <= end_ ->
  exists st s', UpdateBootParams (R := R) early early_base early_size query at64 at32 end64 end32 s = (Go st, s') /\
    let a := addrs (bp s') in
    KernelLoadAddr a = start /\ KernelEndAddr a = end_ /\
    DeviceTreeLoadAddr a + DT_SIZE_2MB + page = RamdiskLoadAddr a /\
    RamdiskLoadAddr a + ramdisks s + page <= end_ < RamdiskLoadAddr a + ramdisks s + 2 * page /\
    st = (if decide (start < DeviceTreeLoadAddr a) then EFI_SUCCESS else EFI_BUFFER_TOO_SMALL) /\
    mem s' = mem s.
Proof.
  intros page start end_ Hfit _ Hreg Hroom. pose proof (rf_end _ _ _ _ _ _ _ _ _ Hreg) as [_ He].
  apply (layout_ordered (R := R)); [done|by apply kernel_region_is|done].
Qed.

(** A state with a ramdisk of one, a vendor ramdisk of four and a kernel of
    two megabytes. *)
Definition demo_boot (m : memory) (patched : bool) : BootState :=
  mkState (mkBoot (mkImages 0x90000000 0x91000000 0 0) (mkAddrs 0x80000000 0 0 0 0)
    (mkSizes 4096 0x200000 0x100000 0x400000 0 0 0 0 0x1000 0x200000) (mkMode false patched false) [] None 0) m.
Definition demo_query : option (Z * Z) := Some (0x80000000, 0x8000000).

Lemma demo_boot_fits m p : sizes_fit (demo_boot m p).
Proof. split; vm_compute; split; discriminate || reflexivity. Qed.

Lemma boot_layout_ordered_witness :
  exists st s', UpdateBootParams (R := unit) false 0 0 demo_query 0x80000 0x8000 0x5600000 0x3c00000
      (demo_boot (fun _ => 0) false) = (Go st, s') /\
    let a := addrs (bp s') in
    KernelLoadAddr a = 0x80080000 /\ KernelEndAddr a = 0x88000000 /\
    DeviceTreeLoadAddr a + DT_SIZE_2MB + 4096 = RamdiskLoadAddr a /\
    RamdiskLoadAddr a + 0x500000 + 4096 <= 0x88000000 < RamdiskLoadAddr a + 0x500000 + 2 * 4096 /\
    st = (if decide (0x80080000 < DeviceTreeLoadAddr a) then EFI_SUCCESS else EFI_BUFFER_TOO_SMALL) /\
    mem s' = (fun _ => 0).
Proof.
  apply (boot_layout_ordered false 0 0 demo_query 0x80000 0x8000 0x5600000 0x3c00000 (demo_boot (fun _ => 0) false)
    (demo_boot_fits _ _) eq_refl).
  - split; vm_compute; split; discriminate || reflexivity.
  - vm_compute. discriminate.
Defined.

(** The end of the kernel is not compared with anything: one of two megabytes
    that starts one megabyte below the device tree is accepted. *)
Example kernel_over_device_tree :
  let s := demo_boot (mem_write (fun _ => 0) 0x90001000 (zeros 8 ++ le_put 8 0x79fe000 ++ le_put 8 0x200000)) false in
  let r := UpdateBootParams (R := unit) false 0 0 (Some (0x80000000, 0x8200000)) 0x80000 0x8000 0x5600000 0x3c00000 s in
  bp_KernelSize (sizes (bp s)) = 0x200000 /\ r.1 = Go EFI_SUCCESS /\
  DeviceTreeLoadAddr (addrs (bp r.2)) - KernelLoadAddr (addrs (bp r.2)) = 0x100000.
Proof. vm_compute. auto. Qed.

(** A region too small for the ramdisks is not refused: the address of the
    ramdisk wraps below zero, the device tree lands above the end of the
    region, which is what the check looks at, and [UpdateBootParams] returns
    [EFI_SUCCESS]. *)
Theorem small_region_accepted {R} early ka ks query p1 p2 p3 p4 s KernelLoad KernelEnd :
  sizes_fit s ->
  kernel_region (R := R) early ka ks query p1 p2 p3 p4 (bp s) s = (Go (KernelLoad, KernelEnd), s) ->
  0 <= KernelLoad < 2 ^ 63 -> 0 <= KernelEnd < room_for_ramdisks s ->
  exists s', UpdateBootParams (R := R) early ka ks query p1 p2 p3 p4 s = (Go EFI_SUCCESS, s') /\
    KernelEnd < DeviceTreeLoadAddr (addrs (bp s')) < RamdiskLoadAddr (addrs (bp s')).
Proof. apply layout_wrapped. Qed.

Lemma small_region_accepted_witness :
  exists s', UpdateBootParams (R := unit) false 0 0 (Some (0x100000, 0x400000)) 0 0 0 0
      (demo_boot (fun _ => 0) false) = (Go EFI_SUCCESS, s') /\
    0x500000 < DeviceTreeLoadAddr (addrs (bp s')) < RamdiskLoadAddr (addrs (bp s')).
Proof.
  apply (small_region_accepted false 0 0 (Some (0x100000, 0x400000)) 0 0 0 0 (demo_boot (fun _ => 0) false)
    0x180000 0x500000 (demo_boot_fits _ _)).
  - vm_compute. reflexivity.
  - vm_compute. split; [discriminate|reflexivity].
  - vm_compute. split; [discriminate|reflexivity].
Defined.

(** A 64-bit kernel with the patched header ("UNCOMPRESSED_IMG" in front
    of the kernel) is recognised by [UpdateKernelModeAndPkg], but
    [UpdateBootParams] reads the load offset at the header instead of behind
    it, takes half of the name for it, and refuses the image with
    [EFI_BUFFER_TOO_SMALL], however large the region is. *)
Theorem patched_kernel_refused {R} ka ks p1 p2 p3 p4 s Kptr base size :
  Kptr = ImageBuffer (images (bp s)) + bp_PageSize (sizes (bp s)) -> 0 < Kptr -> Kptr + 100 <= 2 ^ 64 ->
  mem_read (mem s) Kptr 16 = PATCHED_KERNEL_MAGIC ->
  le_get (mem_read (mem s) (Kptr + 76) 4) = KERNEL64_HDR_MAGIC ->
  le_get (mem_read (mem s) (Kptr + 16) 8) <> 0 ->
  BootingWithGzipPkgKernel (mode (bp s)) = false ->
  sizes_fit s -> 0 <= base -> 0 <= size -> base + size < 2 ^ 62 ->
  room_for_ramdisks s + DT_SIZE_2MB + bp_PageSize (sizes (bp s)) <= base + size ->
  exists s', (UpdateKernelModeAndPkg ≫= fun _ => UpdateBootParams (R := R) false ka ks (Some (base, size)) p1 p2 p3 p4) s =
      (Go EFI_BUFFER_TOO_SMALL, s') /\ BootingWithPatchedKernel (mode (bp s')) = true.
Proof.
  intros HK HK0 HK1 Hm H64 Hsz Hgz Hfit Hb0 Hs0 Hbs Hroom.
  rewrite (bind_go _ _ _ _ _ (patched_mode s Kptr HK HK0 HK1 Hm H64)), Hgz.
  match goal with |- exists s', UpdateBootParams _ _ _ _ _ _ _ _ ?s1 = _ /\ _ => set (s1_ := s1) end.
  pose proof (patched_offset (R := R) s1_ Kptr HK HK0 HK1 Hm eq_refl eq_refl Hsz) as Hoff.
  assert (Hreg : kernel_region (R := R) false ka ks (Some (base, size)) p1 p2 p3 p4 (bp s1_) s1_ =
    (Go (base + 0x474D495F44455353, base + size), s1_)).
  { unfold kernel_region. cbn [QueryEarlyServiceBootParams]. rewrite (bind_go _ _ _ _ _ Hoff).
    change (le_get (drop 8 PATCHED_KERNEL_MAGIC)) with 0x474D495F44455353.
    pose proof (room_bounds s Hfit). pose proof (sf_page _ Hfit). pose proof (sf_ramdisks _ Hfit).
    unfold DT_SIZE_2MB in *. rewrite (u64_small (base + _)), (u64_small (base + size)) by lia. done. }
  pose proof (sf_page _ Hfit). pose proof (sf_ramdisks _ Hfit). pose proof (room_bounds s Hfit).
  assert (Hfit1 : sizes_fit s1_) by (destruct Hfit; by split).
  rewrite (UpdateBootParams_run (R := R) false ka ks (Some (base, size)) p1 p2 p3 p4 s1_ _ _ Hfit1 Hreg).
  change (room_for_ramdisks s1_) with (room_for_ramdisks s). change (sizes (bp s1_)) with (sizes (bp s)).
  unfold DT_SIZE_2MB in *. rewrite (u64_small (base + size - _)), u64_small by lia.
  rewrite (proj2 (Z.leb_le _ _)) by lia. eexists. split; [done|done].
Qed.

(** A patched kernel in memory. *)
Definition patched_memory : memory :=
  mem_write (fun _ => 0) 0x90001000 (PATCHED_KERNEL_MAGIC ++ le_put 4 0x1f0000 ++ zeros 56 ++ le_put 4 KERNEL64_HDR_MAGIC).

Lemma patched_kernel_refused_witness :
  exists s', (UpdateKernelModeAndPkg ≫= fun _ =>
      UpdateBootParams (R := unit) false 0 0 (Some (0x80000000, 0x8000000)) 0 0 0 0) (demo_boot patched_memory false) =
    (Go EFI_BUFFER_TOO_SMALL, s') /\ BootingWithPatchedKernel (mode (bp s')) = true.
Proof.
  apply (patched_kernel_refused 0 0 0 0 0 0 (demo_boot patched_memory false) 0x90001000 0x80000000 0x8000000);
    try reflexivity; try apply demo_boot_fits; vm_compute; discriminate.
Defined.

(** * The boot configuration *)

(** C30: [AddBootconfigParameters] appends the parameters to the boot
    configuration, to the text before the trailer when there is one, and
    returns the address behind the new trailer, which stands at the next
    multiple of four behind the text: what the format defines as the
    configuration that ends at the address returned is the old text, the
    parameters and up to three bytes of padding, under a trailer with their
    size and checksum; no byte outside is changed.  The padding is whatever was
    in memory.  The conditions: a configuration that ends in the magic has at
    least the 20 bytes of a trailer, the parameters are not empty, they and the
    old configuration stay below 2^31 bytes together and below the end of the
    address space, the configuration starts at 12 or above, and the grown text
    with its padding does not itself end in the magic of a trailer (then the
    function takes it for one and returns 0). *)
Theorem bootconfig_appended {R} m Start Size text params :
  config_at m Start Size text -> 0 <= Size -> 12 <= Start -> params <> [] ->
  Size + Z.of_nat (length params) < 2 ^ 31 -> Start + Size + Z.of_nat (length params) + 24 < 2 ^ 64 ->
  mem_read (written m Start text params) (new_end Start text params - 12) 12 <> Magic ->
  exists m' pad, AddBootconfigParameters (R := R) (Some params) (Z.of_nat (length params)) Start Size m =
      (Go (Start + Z.of_nat (length (text ++ params ++ pad)) + 20), m') /\
    (length pad < 4)%nat /\ pad = mem_read m (Start + Z.of_nat (length (text ++ params))) (Z.of_nat (length pad)) /\
    bootconfig_of m' (Start + Z.of_nat (length (text ++ params ++ pad)) + 20) = Some (text ++ params ++ pad) /\
    (forall x, x < Start + Z.of_nat (length text) \/
               Start + Z.of_nat (length (text ++ params ++ pad)) + 20 <= x -> m' x = m x).
Proof.
  intros Hc H0 Hs Hp Hm Hsp Hno.
  destruct (params_read_back (R := R) m Start Size text params Hc H0 Hs Hp Hm Hsp Hno) as (m' & Hrun & Hbc & _ & Hfr).
  pose proof (append_bounds m Start Size text params Hc H0) as [_ Hb].
  pose proof (length_new_text m Start Size text params Hc H0) as Hl. unfold new_text in Hl, Hbc.
  exists m', (padding m Start text params).
  replace (Start + Z.of_nat (length (text ++ params ++ padding m Start text params)) + 20)
    with (new_end Start text params + 20) by lia.
  assert (Hlp : Z.of_nat (length (padding m Start text params)) = new_end Start text params - (Start + grown text params))
    by (unfold padding; rewrite length_mem_read; lia).
  split_and!; [done|lia| |done|done]. rewrite Hlp. done.
Qed.

Lemma bootconfig_appended_witness :
  exists m' pad, AddBootconfigParameters (R := unit) (Some (L "a=1")) (Z.of_nat 3) 4096 3 (mem_write (fun _ => 7) 4096 (L "b=2")) =
      (Go (4096 + Z.of_nat (length (L "b=2" ++ L "a=1" ++ pad)) + 20), m') /\
    (length pad < 4)%nat /\
    pad = mem_read (mem_write (fun _ => 7) 4096 (L "b=2")) (4096 + Z.of_nat (length (L "b=2" ++ L "a=1"))) (Z.of_nat (length pad)) /\
    bootconfig_of m' (4096 + Z.of_nat (length (L "b=2" ++ L "a=1" ++ pad)) + 20) = Some (L "b=2" ++ L "a=1" ++ pad) /\
    (forall x, x < 4096 + Z.of_nat (length (L "b=2")) \/
               4096 + Z.of_nat (length (L "b=2" ++ L "a=1" ++ pad)) + 20 <= x ->
     m' x = mem_write (fun _ => 7) 4096 (L "b=2") x).
Proof.
  apply (bootconfig_appended (mem_write (fun _ => 7) 4096 (L "b=2")) 4096 3 (L "b=2") (L "a=1"));
    try done; vm_compute; discriminate.
Defined.

(** * The copies *)

(** What the earlier steps leave for [LoadAddrAndDTUpdate] on an image of
    version 4: the ramdisks and the static configuration lie in memory outside
    the [e - RamdiskLoadAddr] bytes the ramdisk goes to, there are dynamic
    parameters, the kernel has 64 bits, the device tree names no other place
    for the ramdisk, and no piece ends in the magic of a trailer. *)
Record load_ready {R} (version_ : Z) (has_init into_recovery no_kernel : bool) (s : BootState)
    (e : Z) (params : list Z) : Prop := {
  lr_version : 3 < version_;
  lr_pieces : pieces_ok version_ has_init into_recovery no_kernel s e;
  lr_config : piece_ok s e (config_piece s);
  lr_params : FinalBootConfig (bp s) = Some params /\
    FinalBootConfigLen (bp s) = Z.of_nat (length params) /\ params <> [];
  lr_end : End_ version_ has_init into_recovery no_kernel s params + 4 <= e;
  lr_small : Z.of_nat (length (front version_ has_init into_recovery no_kernel s ++ params)) < 2 ^ 31 - 64;
  lr_magic : no_magic_tail (front version_ has_init into_recovery no_kernel s) /\
    no_magic_tail (front version_ has_init into_recovery no_kernel s ++ params ++
      pad version_ has_init into_recovery no_kernel s params);
  lr_64 : BootingWith32BitKernel (mode (bp s)) = false;
  lr_recovery : use_recovery into_recovery no_kernel s = true \/ bp_RecoveryRamdiskSize (sizes (bp s)) = 0;
  lr_offset : 0 <= ramdisk_image version_ has_init s /\ 0 <= RamdiskOffset (sizes (bp s));
  lr_initrd : GetInitrdStartAddr (R := R) (fdt_in (mem s) (DeviceTreeLoadAddr (addrs (bp s)))) s = (Go 0, s);
}.

(** C11: On an image of a header version above 3 with a 64-bit kernel,
    [LoadAddrAndDTUpdate] leaves at the ramdisk's address the vendor ramdisk,
    the recovery ramdisk when it is used and the ramdisk, one behind the other,
    and directly behind them a boot configuration that reads as the static text
    and the dynamic parameters (and up to three bytes of padding, whatever was
    in memory); it changes no other byte, and tells [UpdateDeviceTree] the
    address and the size of it all, trailer included.  The conditions
    ([load_ready]): the device tree names no linux,initrd-start; the dynamic
    parameters are given and not empty; the recovery ramdisk is used or has
    size 0; the ramdisks and the static configuration lie in the address space,
    each smaller than 2^32 and outside the destination; the destination starts
    at 12 or above and ends, with four bytes to spare, at an [e] below 2^64; all
    the bytes put together stay below 2^31 - 64; offsets and addresses are not
    negative; and the twelve bytes before the dynamic parameters, like the last
    twelve behind them, are not the magic of a trailer. *)
Theorem ramdisk_assembled {R} version_ has_init into_recovery no_kernel s e params
    (UDT : Z -> list Z -> Z -> Z -> bool -> MB R EFI_STATUS) :
  load_ready (R := R) version_ has_init into_recovery no_kernel s e params ->
  let Ramdisk := RamdiskLoadAddr (addrs (bp s)) in
  let whole := whole_ramdisk version_ has_init into_recovery no_kernel s in
  let text := piece s (config_piece s) ++ params ++ pad version_ has_init into_recovery no_kernel s params in
  let End := Ramdisk + Z.of_nat (length whole) + Z.of_nat (length text) + 20 in
  exists s', LoadAddrAndDTUpdate (R := R) version_ has_init into_recovery no_kernel UDT s =
      UDT (DeviceTreeLoadAddr (addrs (bp s))) (FinalCmdLine (bp s)) Ramdisk (End - Ramdisk) false s' /\
    mem_read (mem s') Ramdisk (Z.of_nat (length whole)) = whole /\
    bootconfig_of (mem s') End = Some text /\
    (forall x, x < Ramdisk \/ End <= x -> mem s' x = mem s x).
Proof.
  intros [Hv Hp Hc Hpar He Hsm [Hm1 Hm2] H64 Hrec [Ho1 Ho2] Hi].
  by eapply LoadAddrAndDTUpdate_run.
Qed.

(** An image of version 4 in memory, at small addresses. *)
Definition v4_memory : memory :=
  mem_write (mem_write (mem_write (mem_write (fun x => x mod 251) 0x4000 demo_fdt)
    0x1010 (L "vendor!!")) 0x2020 (L "ramdisk.")) 0x1040 (L "x=1; y=2").
Definition v4_state : BootState :=
  mkState (mkBoot (mkImages 0x2000 0x1000 0x3000 0) (mkAddrs 0 0 0 0x8000 0x4000)
    (mkSizes 16 8 8 8 0 9 3 8 0x20 8) (mkMode false false false) (L "console") (Some (L "; z=3")) 5) v4_memory.

Lemma v4_ready : load_ready (R := unit) 4 false false false v4_state 0x9000 (L "; z=3").
Proof.
  split; try (vm_compute; split_and?; (discriminate || reflexivity)).
  - split; try (vm_compute; split_and?; (discriminate || reflexivity || (right; discriminate) || (left; discriminate))).
  - vm_compute. split_and!; (discriminate || reflexivity || (left; discriminate)).
  - split; (split; [vm_compute; lia|vm_compute; discriminate]).
  - by right.
Qed.

Lemma ramdisk_assembled_witness :
  let whole := whole_ramdisk 4 false false false v4_state in
  let text := piece v4_state (config_piece v4_state) ++ L "; z=3" ++ pad 4 false false false v4_state (L "; z=3") in
  let End := 0x8000 + Z.of_nat (length whole) + Z.of_nat (length text) + 20 in
  exists s', LoadAddrAndDTUpdate (R := unit) 4 false false false (fun _ _ _ _ _ => mret EFI_SUCCESS) v4_state =
      (mret EFI_SUCCESS : MB unit EFI_STATUS) s' /\
    mem_read (mem s') 0x8000 (Z.of_nat (length whole)) = whole /\
    bootconfig_of (mem s') End = Some text /\
    (forall x, x < 0x8000 \/ End <= x -> mem s' x = mem v4_state x).
Proof.
  exact (ramdisk_assembled 4 false false false v4_state 0x9000 (L "; z=3") (fun _ _ _ _ _ => mret EFI_SUCCESS) v4_ready).
Defined.

(** What the kernel gets there. *)
Example v4_loaded :
  (fun r => (r.1, mem_read (mem r.2) 0x8000 52))
    (LoadAddrAndDTUpdate (R := unit) 4 false false false (fun _ _ _ n _ => mret n) v4_state) =
  (Go 52, L "vendor!!ramdisk.x=1; y=2; z=3" ++ [167; 168; 169] ++
     le_put 4 16 ++ le_put 4 (Checksum (L "x=1; y=2; z=3" ++ [167; 168; 169])) ++ Magic).
Proof. vm_compute. reflexivity. Qed.
