(* ===== verification/DtMatch.v ===== *)
(** How well a device tree fits the board: [LocateDeviceTree.c] from
    [ReadBestPmicMatch] to [ReadDtbFindMatch], with the board queries of
    [Board.c] they use.

    A device tree is the buffer from its first byte on; a property is the
    offset of its value in that buffer.  A query of the PMIC driver is taken to
    succeed, as the [ASSERT]s of [Board.c] demand. *)
From Stdlib Require Import ZArith Lia.
From stdpp Require Import base list numbers option.
From S2P Require Import Prelude EfiBase Fdt.

Definition BIT (x : Z) : Z := Z.shiftl 1 x.

(** [DTMATCH_PARAMS]; the PMIC entries in between are reached from the first
    one with a step of [PMIC_SHIFT_IDX]. *)
Definition NONE_MATCH : Z := 0.
Definition OEM_FLAVOR_DEFAULT_MATCH : Z := 1.
Definition OEM_FLAVOR_EXACT_MATCH : Z := 2.
Definition PMIC_MATCH_BEST_REV_IDX0 : Z := 3.
Definition PMIC_MATCH_EXACT_REV_IDX0 : Z := 4.
Definition VARIANT_MINOR_BEST_MATCH : Z := 11.
Definition VARIANT_MINOR_EXACT_MATCH : Z := 12.
Definition VARIANT_MAJOR_BEST_MATCH : Z := 13.
Definition VARIANT_MAJOR_EXACT_MATCH : Z := 14.
Definition VERSION_BEST_MATCH : Z := 15.
Definition VERSION_EXACT_MATCH : Z := 16.
Definition FOUNDRYID_DEFAULT_MATCH : Z := 17.
Definition FOUNDRYID_EXACT_MATCH : Z := 18.
Definition PMIC_MATCH_DEFAULT_MODEL_IDX0 : Z := 19.
Definition PMIC_MATCH_EXACT_MODEL_IDX0 : Z := 20.
Definition PMIC_MATCH_EXACT_MODEL_IDXF : Z := 50.
Definition HLOS_SUBTYPE_EXACT_MATCH : Z := 51.
Definition SUBTYPE_DEFAULT_MATCH : Z := 52.
Definition SUBTYPE_EXACT_MATCH : Z := 53.
Definition DDR_MATCH : Z := 54.
Definition VARIANT_MATCH : Z := 55.
Definition SOC_MATCH : Z := 56.

Definition SOC_MASK : Z := 0xffff.
Definition VARIANT_MASK : Z := 0x000000ff.
Definition VARIANT_MINOR_MASK : Z := 0x0000ff00.
Definition VARIANT_MAJOR_MASK : Z := 0x00ff0000.
Definition PMIC_MODEL_MASK : Z := 0x000000ff.
Definition PMIC_REV_MASK : Z := 0xffffff00.
Definition PMIC_SHIFT_IDX : Z := 2.
Definition PLATFORM_FOUNDRY_SHIFT : Z := 16.
Definition PLATFORM_SUBTYPE_SHIFT_ID : Z := 0x18.
Definition FOUNDRY_ID_MASK : Z := 0x00ff0000.
Definition PLATFORM_SUBTYPE_MASK : Z := 0x000000ff.
Definition OEM_ID_MASK : Z := 0xff000000.
Definition OEM_ID_SHIFT : Z := 24.
Definition DDR_MASK : Z := 0x00000700.

Definition PMIC_IDX4 : Z := 4.
Definition MAX_PMIC_IDX : Z := 0xF.
Definition PLAT_ID_SIZE : Z := 8.
Definition BOARD_ID_SIZE : Z := 8.

(** The sixteen exact-model bits lie [PMIC_SHIFT_IDX] apart. *)
Definition ALL_BITS_SET : Z :=
  fold_left Z.lor
    (map (fun i => BIT (PMIC_MATCH_EXACT_MODEL_IDX0 + Z.of_nat i * PMIC_SHIFT_IDX)) (seq 0 16))
    (Z.lor (BIT SOC_MATCH) (Z.lor (BIT VARIANT_MATCH)
      (Z.lor (BIT SUBTYPE_EXACT_MATCH) (BIT FOUNDRYID_EXACT_MATCH)))).

Definition CheckAllBitsSet (DtMatchVal : Z) : bool := Z.land DtMatchVal ALL_BITS_SET =? ALL_BITS_SET.

(** * The board *)

Record EFI_PM_DEVICE_INFO := mkPmic {
  PmicModel : Z;
  PmicAllLayerRevision : Z;
  PmicMetalRevision : Z;
  PmicVariantRevision : Z;
}.

(** [platform_board_info], and what the PMIC driver says of the PMIC of an
    index: its revision, its data, and its extended data when it has them. *)
Record BoardInfo := mkBoard {
  platform : Z;
  version : Z;
  subtype : Z;
  OEMVariantID : Z;
  RawChipId : Z;
  ChipVersion : Z;
  FoundryId : Z;
  HlosSubType : Z;
  PmicRevision : Z;
  PmicInfo : Z -> EFI_PM_DEVICE_INFO;
  PmicInfoExt : Z -> option EFI_PM_DEVICE_INFO;
}.

Definition EFI_PLATFORMINFO_TYPE_RUMI : Z := 0x0F.
Definition PMIC_EXT_VERSION : Z := 0x0000000000010003.

Section Board.
Variable board : BoardInfo.

Definition BoardPlatformRawChipId : Z := RawChipId board.
Definition BoardPlatformChipVersion : Z := ChipVersion board.
Definition BoardPlatformFoundryId : Z := FoundryId board.
Definition BoardPlatformType : Z := platform board.
Definition BoardPlatformSubType : Z := subtype board.
Definition BoardOEMVariantId : Z := OEMVariantID board.
Definition BoardPlatformHlosSubType : Z := HlosSubType board.
Definition BoardTargetId : Z :=
  Z.lor (u32 (Z.shiftl (Z.land (subtype board) 0xff) 24))
    (Z.lor (Z.shiftl (Z.land (Z.shiftr (version board) 16) 0xff) 16)
      (Z.lor (Z.shiftl (Z.land (version board) 0xff) 8) (Z.land (platform board) 0xff))).

Definition BoardPmicModel (PmicDeviceIndex : Z) : Z :=
  if BoardPlatformType =? EFI_PLATFORMINFO_TYPE_RUMI then 0
  else PmicModel (PmicInfo board PmicDeviceIndex).

Definition BoardPmicTarget (PmicDeviceIndex : Z) : Z :=
  if BoardPlatformType =? EFI_PLATFORMINFO_TYPE_RUMI then 0
  else if PmicRevision board <=? PMIC_EXT_VERSION then
    match PmicInfoExt board PmicDeviceIndex with
    | None => 0
    | Some p =>
        Z.lor (u32 (Z.shiftl (PmicVariantRevision p) 24))
          (Z.lor (u32 (Z.shiftl (PmicAllLayerRevision p) 16))
            (Z.lor (u32 (Z.shiftl (PmicMetalRevision p) 8)) (PmicModel p)))
    end
  else
    let p := PmicInfo board PmicDeviceIndex in
    Z.lor (u32 (Z.shiftl (PmicAllLayerRevision p) 16))
      (Z.lor (u32 (Z.shiftl (PmicMetalRevision p) 8)) (PmicModel p)).

(** * What is known of a tree *)

Record PmicIdInfo := mkPmicId {
  pi_Model : list Z;
  pi_Rev : list Z;
  pi_MatchVal : Z;
}.
Definition no_pmic : PmicIdInfo := mkPmicId (zeros MAX_PMIC_IDX) (zeros MAX_PMIC_IDX) 0.

Record DtInfo := mkDt {
  DtPlatformId : Z;
  DtSocRev : Z;
  DtFoundryId : Z;
  DtVariantId : Z;
  DtVariantMajor : Z;
  DtVariantMinor : Z;
  DtPlatformSubtype : Z;
  DtOEMVariantId : Z;
  DtPmicModel : list Z;
  DtPmicRev : list Z;
  DtMatchVal : Z;
  Dtb : Z;
}.
Definition no_dt : DtInfo := mkDt 0 0 0 0 0 0 0 0 (zeros MAX_PMIC_IDX) (zeros MAX_PMIC_IDX) 0 0.

Definition set_match (v : Z) (d : DtInfo) : DtInfo :=
  mkDt (DtPlatformId d) (DtSocRev d) (DtFoundryId d) (DtVariantId d) (DtVariantMajor d)
    (DtVariantMinor d) (DtPlatformSubtype d) (DtOEMVariantId d) (DtPmicModel d) (DtPmicRev d) v (Dtb d).
Definition add_match (b : Z) (d : DtInfo) : DtInfo := set_match (Z.lor (DtMatchVal d) (BIT b)) d.
Definition set_plat (id rev foundry : Z) (d : DtInfo) : DtInfo :=
  mkDt id rev foundry (DtVariantId d) (DtVariantMajor d) (DtVariantMinor d) (DtPlatformSubtype d)
    (DtOEMVariantId d) (DtPmicModel d) (DtPmicRev d) (DtMatchVal d) (Dtb d).
Definition set_board (variant major minor sub : Z) (d : DtInfo) : DtInfo :=
  mkDt (DtPlatformId d) (DtSocRev d) (DtFoundryId d) variant major minor sub
    (DtOEMVariantId d) (DtPmicModel d) (DtPmicRev d) (DtMatchVal d) (Dtb d).
Definition set_oem (oem : Z) (d : DtInfo) : DtInfo :=
  mkDt (DtPlatformId d) (DtSocRev d) (DtFoundryId d) (DtVariantId d) (DtVariantMajor d)
    (DtVariantMinor d) (DtPlatformSubtype d) oem (DtPmicModel d) (DtPmicRev d) (DtMatchVal d) (Dtb d).
Definition set_pmic (model rev : list Z) (d : DtInfo) : DtInfo :=
  mkDt (DtPlatformId d) (DtSocRev d) (DtFoundryId d) (DtVariantId d) (DtVariantMajor d)
    (DtVariantMinor d) (DtPlatformSubtype d) (DtOEMVariantId d) model rev (DtMatchVal d) (Dtb d).
Definition set_Dtb (p : Z) (d : DtInfo) : DtInfo :=
  mkDt (DtPlatformId d) (DtSocRev d) (DtFoundryId d) (DtVariantId d) (DtVariantMajor d)
    (DtVariantMinor d) (DtPlatformSubtype d) (DtOEMVariantId d) (DtPmicModel d) (DtPmicRev d)
    (DtMatchVal d) p.

Section Match.
Context {S R : Type}.
(** The device tree. *)
Variable fdt : list Z.

(** An element of one of the arrays. *)
Definition elem (l : list Z) (i : Z) : M S R Z :=
  need OutOfBounds (if 0 <=? i then l !! Z.to_nat i else None).
Definition set_elem (l : list Z) (i v : Z) : M S R (list Z) :=
  if (0 <=? i) && (i <? Z.of_nat (length l)) then mret (<[Z.to_nat i := v]> l) else stop OutOfBounds.

(** ** The PMICs *)

(** The body of the loop over the PMICs of an entry; [true] is [break]. *)
Definition pmic_step (PmicProp Idx : Z) (cur : PmicIdInfo) : M S R (bool * PmicIdInfo) :=
  v ← fdt32 fdt (PmicProp + 4 * Idx);
  _ ← elem (pi_Model cur) Idx;
  let model := Z.land v PMIC_MODEL_MASK in
  let rev := Z.land v PMIC_REV_MASK in
  revs ← set_elem (pi_Rev cur) Idx rev;
  models ← set_elem (pi_Model cur) Idx model;
  let with_match m := mkPmicId models revs m in
  if negb (model =? BoardPmicModel Idx) && negb (model =? 0)
  then mret (true, with_match (BIT NONE_MATCH))
  else
    let m := Z.lor (pi_MatchVal cur)
      (BIT ((if model =? BoardPmicModel Idx then PMIC_MATCH_EXACT_MODEL_IDX0
             else PMIC_MATCH_DEFAULT_MODEL_IDX0) + Idx * PMIC_SHIFT_IDX)) in
    if Idx <? PMIC_IDX4 then
      let target := Z.land (BoardPmicTarget Idx) PMIC_REV_MASK in
      if rev =? target
      then mret (false, with_match (Z.lor m (BIT (PMIC_MATCH_EXACT_REV_IDX0 + Idx * PMIC_SHIFT_IDX))))
      else if rev <? target
      then mret (false, with_match (Z.lor m (BIT (PMIC_MATCH_BEST_REV_IDX0 + Idx * PMIC_SHIFT_IDX))))
      else mret (true, with_match m)
    else mret (false, with_match m).

(** Equal match values: the entry with a larger revision somewhere. *)
Definition pmic_tie (PmicMaxIdx : Z) (best cur : PmicIdInfo) : M S R PmicIdInfo :=
  for_up (Z.to_nat (u32 PmicMaxIdx)) 0 best (fun Idx best =>
    b ← elem (pi_Rev best) Idx;
    c ← elem (pi_Rev cur) Idx;
    mret (false, if b <? c then cur else best)).

(** The entry at [PmicProp] against the best one so far. *)
Definition pmic_entry (PmicMaxIdx PmicProp : Z) (best : PmicIdInfo) : M S R PmicIdInfo :=
  cur ← for_up (Z.to_nat (u32 PmicMaxIdx)) 0 no_pmic (pmic_step PmicProp);
  if pi_MatchVal best <? pi_MatchVal cur then mret cur
  else if pi_MatchVal best =? pi_MatchVal cur then pmic_tie PmicMaxIdx best cur
  else mret best.

(** [PmicProp] advances by the size of an entry. *)
Definition ReadBestPmicMatch (PmicProp PmicMaxIdx PmicEntCount : Z) : M S R PmicIdInfo :=
  for_up (Z.to_nat PmicEntCount) 0 no_pmic (fun PmicEntIdx best =>
    best ← pmic_entry PmicMaxIdx (PmicProp + PmicEntIdx * (4 * PmicMaxIdx)) best;
    mret (false, best)).

(** ** Platform and board *)

Definition GetPlatformMatchDtb (cur : DtInfo) (PlatProp : option Z) (LenPlatId MinPlatIdLen : Z) :
    M S R (EFI_STATUS * DtInfo) :=
  match PlatProp with
  | Some PlatProp =>
      if (LenPlatId >? 0) && (Z.rem LenPlatId MinPlatIdLen =? 0) then
        id ← fdt32 fdt PlatProp;
        let cur := set_plat id (DtSocRev cur) (DtFoundryId cur) cur in
        if negb (Z.land BoardPlatformRawChipId SOC_MASK =? Z.land id SOC_MASK)
        then mret (EFI_NOT_FOUND, set_match (BIT NONE_MATCH) cur)
        else
          let cur := add_match SOC_MATCH cur in
          rev ← fdt32 fdt (PlatProp + 4);
          let cur := set_plat id rev (DtFoundryId cur) cur in
          let cur := if rev =? BoardPlatformChipVersion then add_match VERSION_EXACT_MATCH cur
                     else if rev <? BoardPlatformChipVersion then add_match VERSION_BEST_MATCH cur
                     else cur in
          let foundry := Z.land id FOUNDRY_ID_MASK in
          let cur := set_plat id rev foundry cur in
          if foundry =? u32 (Z.shiftl BoardPlatformFoundryId PLATFORM_FOUNDRY_SHIFT)
          then mret (EFI_SUCCESS, add_match FOUNDRYID_EXACT_MATCH cur)
          else if foundry =? 0 then mret (EFI_SUCCESS, add_match FOUNDRYID_DEFAULT_MATCH cur)
          else mret (EFI_NOT_FOUND, set_match (BIT NONE_MATCH) cur)
      else mret (EFI_SUCCESS, cur)
  | None => mret (EFI_SUCCESS, cur)
  end.

(** The tests on the version numbers, which never fail. *)
Definition match_variant (cur : DtInfo) : DtInfo :=
  let target mask := Z.land BoardTargetId mask in
  let cur := if DtVariantMajor cur =? target VARIANT_MAJOR_MASK
             then add_match VARIANT_MAJOR_EXACT_MATCH cur
             else if DtVariantMajor cur <? target VARIANT_MAJOR_MASK
             then add_match VARIANT_MAJOR_BEST_MATCH cur else cur in
  let cur := if DtVariantMinor cur =? target VARIANT_MINOR_MASK
             then add_match VARIANT_MINOR_EXACT_MATCH cur
             else if DtVariantMinor cur <? target VARIANT_MINOR_MASK
             then add_match VARIANT_MINOR_BEST_MATCH cur else cur in
  if DtPlatformSubtype cur =? BoardPlatformHlosSubType
  then add_match HLOS_SUBTYPE_EXACT_MATCH cur else cur.

Definition match_subtype (cur : DtInfo) : EFI_STATUS * DtInfo :=
  let sub := Z.land (DtPlatformSubtype cur) PLATFORM_SUBTYPE_MASK in
  if negb (sub =? BoardPlatformSubType) && negb (sub =? 0)
  then (EFI_NOT_FOUND, set_match (BIT NONE_MATCH) cur)
  else
    let cur := add_match (if sub =? BoardPlatformSubType then SUBTYPE_EXACT_MATCH
                          else SUBTYPE_DEFAULT_MATCH) cur in
    (EFI_SUCCESS,
     if Z.land (DtPlatformSubtype cur) DDR_MASK =? Z.land BoardPlatformHlosSubType DDR_MASK
     then add_match DDR_MATCH cur else cur).

Definition GetBoardMatchDtb (cur : DtInfo) (BoardProp : option Z) (LenBoardId : Z) :
    M S R (EFI_STATUS * DtInfo) :=
  match BoardProp with
  | Some BoardProp =>
      if (LenBoardId >? 0) && (Z.rem LenBoardId BOARD_ID_SIZE =? 0) then
        variant ← fdt32 fdt BoardProp;
        sub ← fdt32 fdt (BoardProp + 4);
        let sub := if sub =? 0 then Z.shiftr variant PLATFORM_SUBTYPE_SHIFT_ID else sub in
        let cur := set_board (Z.land variant VARIANT_MASK) (Z.land variant VARIANT_MAJOR_MASK)
                     (Z.land variant VARIANT_MINOR_MASK) sub cur in
        if negb (DtVariantId cur =? BoardPlatformType) && negb (DtVariantId cur =? 0)
        then mret (EFI_NOT_FOUND, set_match (BIT NONE_MATCH) cur)
        else
          let cur := if DtVariantId cur =? BoardPlatformType then add_match VARIANT_MATCH cur else cur in
          mret (match_subtype (match_variant cur))
      else mret (EFI_SUCCESS, cur)
  | None => mret (EFI_SUCCESS, cur)
  end.
(** ** The whole tree *)

(** The loop over the platform ids: the best of them is kept in [temp]. *)
Definition plat_step (PlatProp LenPlatId Idx : Z) (st : DtInfo * DtInfo) :
    M S R (bool * (DtInfo * DtInfo)) :=
  let '(cur, temp) := st in
  r ← GetPlatformMatchDtb (set_match NONE_MATCH cur) (Some (PlatProp + Idx * PLAT_ID_SIZE))
        (LenPlatId - Idx * PLAT_ID_SIZE) PLAT_ID_SIZE;
  let '(Status, cur) := r in
  mret (false, (cur, if (Status =? EFI_SUCCESS) && (DtMatchVal cur >? DtMatchVal temp)
                     then cur else temp)).

(** Returns [false] when the search ends here ([goto cleanup]). *)
Definition match_platform (RootOffset : Z) (cur : DtInfo) : M S R (bool * DtInfo) :=
  p ← fdt_getprop fdt RootOffset (L "qcom,msm-id");
  match p.1 with
  | Some PlatProp =>
      if (p.2 >? 0) && (Z.rem p.2 PLAT_ID_SIZE =? 0) then
        st ← for_up (Z.to_nat (u32 (Z.quot p.2 PLAT_ID_SIZE))) 0 (cur, set_match NONE_MATCH cur)
               (plat_step PlatProp p.2);
        let cur := st.2 in
        mret (negb (DtMatchVal cur =? NONE_MATCH), cur)
      else mret (true, cur)
  | None => mret (true, cur)
  end.

(** The first [n] elements of [src] over those of [dst]. *)
Definition copy_elems (n : Z) (dst src : list Z) : M S R (list Z) :=
  for_up (Z.to_nat (u32 n)) 0 dst (fun Idx dst =>
    v ← elem src Idx; dst ← set_elem dst Idx v; mret (false, dst)).

Definition match_pmic (RootOffset : Z) (cur : DtInfo) : M S R (bool * DtInfo) :=
  p ← fdt_getprop fdt RootOffset (L "qcom,pmic-id");
  match p.1 with
  | Some PmicProp =>
      if p.2 >? 0 then
        q ← fdt_getprop fdt RootOffset (L "qcom,pmic-id-size");
        PmicMaxIdx ← (match q.1 with
                      | Some PmicPropSz =>
                          if q.2 >? 0 then n ← fdt32 fdt PmicPropSz; mret (s32 n) else mret PMIC_IDX4
                      | None => mret PMIC_IDX4
                      end);
        let PmicEntSz := s32 (u64 (PmicMaxIdx * 4)) in
        if PmicEntSz =? 0 then stop DivByZero
        else if negb (Z.rem p.2 PmicEntSz =? 0) then mret (false, cur)
        else
          best ← ReadBestPmicMatch PmicProp PmicMaxIdx (u32 (Z.quot p.2 PmicEntSz));
          let cur := set_match (Z.lor (DtMatchVal cur) (pi_MatchVal best)) cur in
          models ← copy_elems PmicMaxIdx (DtPmicModel cur) (pi_Model best);
          revs ← copy_elems PmicMaxIdx (DtPmicRev cur) (pi_Rev best);
          mret (true, set_pmic models revs cur)
      else mret (true, cur)
  | None => mret (true, cur)
  end.

(** [oem_variant_id] is used without a change of its byte order. *)
Definition match_oem (RootOffset : Z) (cur : DtInfo) : M S R DtInfo :=
  if BoardOEMVariantId =? 0 then mret cur
  else
    p ← fdt_getprop fdt RootOffset (L "qcom,oem-id");
    match p.1 with
    | Some OemVarProp =>
        if p.2 >? 0 then
          b ← need OutOfBounds (buf_read fdt OemVarProp 4);
          let cur := set_oem (Z.shiftr (Z.land (le_get b) OEM_ID_MASK) OEM_ID_SHIFT) cur in
          mret (add_match (if DtOEMVariantId cur =? BoardOEMVariantId then OEM_FLAVOR_EXACT_MATCH
                           else NONE_MATCH) cur)
        else mret (add_match OEM_FLAVOR_DEFAULT_MATCH cur)
    | None => mret (add_match OEM_FLAVOR_DEFAULT_MATCH cur)
    end.

(** Everything up to the label [cleanup]. *)
Definition match_tree (RootOffset : Z) (cur : DtInfo) : M S R DtInfo :=
  r ← match_platform RootOffset (set_match 0 cur);
  let '(more, cur) := r in
  if negb more then mret cur
  else
    p ← fdt_getprop fdt RootOffset (L "qcom,board-id");
    r ← GetBoardMatchDtb cur p.1 p.2;
    let '(Status, cur) := r in
    if negb (Status =? EFI_SUCCESS) then mret cur
    else
      r ← match_pmic RootOffset cur;
      let '(more, cur) := r in
      if negb more then mret cur else match_oem RootOffset cur.

(** Two trees with the same match value: whether the later one is taken. *)
Definition rev_at (i : nat) (d : DtInfo) : Z := default 0 (DtPmicRev d !! i).
Definition tie_break (best cur : DtInfo) : bool :=
  (DtSocRev best <? DtSocRev cur) || (DtVariantMajor best <? DtVariantMajor cur) ||
  (DtVariantMinor best <? DtVariantMinor cur) || (rev_at 0 best <? rev_at 0 cur) ||
  (rev_at 1 best <? rev_at 1 cur) || (rev_at 2 best <? rev_at 2 cur) ||
  (rev_at 3 best <? rev_at 3 cur) || (DtPlatformSubtype best >? DtPlatformSubtype cur) ||
  (DtOEMVariantId best <? DtOEMVariantId cur).

(** The part behind [cleanup]: [true] when the tree is taken. *)
Definition taken (ExactMatch : Z) (best cur : DtInfo) : bool :=
  negb (Z.land (DtMatchVal cur) (BIT ExactMatch) =? 0) &&
  ((DtMatchVal best <? DtMatchVal cur) ||
   ((DtMatchVal best =? DtMatchVal cur) && tie_break best cur)).

(** Returns [FindBestMatch], [*CurDtbInfo] and [*BestDtbInfo]. *)
Definition ReadDtbFindMatch (cur best : DtInfo) (ExactMatch : Z) : M S R (bool * DtInfo * DtInfo) :=
  RootOffset ← fdt_path_offset fdt (L "/");
  if RootOffset <? 0 then mret (false, set_match 0 cur, best)
  else
    cur ← match_tree RootOffset cur;
    let t := taken ExactMatch best cur in
    mret (t, cur, if t then cur else best).
End Match.
End Board.
