(* ===== verification/Locate.v ===== *)
(** Which device tree is used: the walks over the trees appended to the kernel
    and over the table of overlays ([GetSocDtb], [GetBoardDtb] of
    [LocateDeviceTree.c]), [GetRticDtb] ([Rtic.c]) and the header check
    [fdt_check_header_ext] ([UpdateDeviceTree.c]).

    An image is the address it was loaded at and the bytes from there on; a
    pointer into it is an address. *)
From Stdlib Require Import ZArith Lia.
From stdpp Require Import base list numbers option.
From S2P Require Import Prelude EfiBase Fdt DtMatch.

(** The statics of [LocateDeviceTree.c] and [Rtic.c], and what was passed to
    the hypervisor. *)
Record LocState := mkLoc {
  DtboNeed : bool;
  DtbIdx : Z;
  DtboIdx : Z;
  DtbCount : Z;
  Hyp_Call_Done : bool;
  HypNotify : list (list Z);
}.
Abbreviation ML := (M LocState).

Definition set_DtboNeed {R} (b : bool) : ML R unit := modify (fun s =>
  mkLoc b (DtbIdx s) (DtboIdx s) (DtbCount s) (Hyp_Call_Done s) (HypNotify s)).
Definition set_DtbIdx {R} (i : Z) : ML R unit := modify (fun s =>
  mkLoc (DtboNeed s) i (DtboIdx s) (DtbCount s) (Hyp_Call_Done s) (HypNotify s)).
Definition set_DtboIdx {R} (i : Z) : ML R unit := modify (fun s =>
  mkLoc (DtboNeed s) (DtbIdx s) i (DtbCount s) (Hyp_Call_Done s) (HypNotify s)).
Definition set_DtbCount {R} (i : Z) : ML R unit := modify (fun s =>
  mkLoc (DtboNeed s) (DtbIdx s) (DtboIdx s) i (Hyp_Call_Done s) (HypNotify s)).
Definition notify {R} (d : list (list Z)) : ML R unit := modify (fun s =>
  mkLoc (DtboNeed s) (DtbIdx s) (DtboIdx s) (DtbCount s) true (d ++ HypNotify s)).

Definition GetDtboIdx {R} : ML R Z := s ← get; mret (DtboIdx s).
Definition GetDtbIdx {R} : ML R Z := s ← get; mret (DtbIdx s).
Definition GetDtboNeeded {R} : ML R bool := s ← get; mret (DtboNeed s).

(** * Headers *)

(** [fdt_check_header_ext] on the header at the address [start]. *)
Definition fdt_check_header_ext {S R} (start : Z) (fdt : list Z) : M S R Z :=
  total ← fdt_totalsize fdt;
  let fdt_end := u64 (start + total) in
  if fdt_end <=? start then mret FDT_ERR_BADOFFSET
  else
    off ← fdt_off_dt_struct fdt;
    size ← fdt_size_dt_struct fdt;
    let sum := ADD_OF off size in
    if (sum =? 0) || CHECK_ADD64 start sum || (u64 (start + sum) >? fdt_end)
    then mret FDT_ERR_BADOFFSET
    else
      off ← fdt_off_dt_strings fdt;
      size ← fdt_size_dt_strings fdt;
      let sum := ADD_OF off size in
      if (sum =? 0) || CHECK_ADD64 start sum || (u64 (start + sum) >? fdt_end)
      then mret FDT_ERR_BADOFFSET
      else
        rsv ← fdt_off_mem_rsvmap fdt;
        if u64 (start + rsv) >? fdt_end then mret FDT_ERR_BADOFFSET else mret 0.

(** * The data for the hypervisor *)

Definition RTIC_ID_SIZE : Z := 0x4.
Definition RTIC_ID : Z := 1.

(** [Scm]: the protocol was found. *)
Definition TxMpdatatoQhee {R} (Scm : bool) (MpData : list Z) : ML R unit :=
  s ← get;
  if Hyp_Call_Done s then mret tt else notify (if Scm then [MpData] else []).

Definition GetRticDtb {R} (Scm : bool) (pool : Z -> bool) (fdt : list Z) : ML R bool :=
  RootOffset ← fdt_path_offset fdt (L "/");
  if RootOffset <? 0 then mret false
  else
    p ← fdt_getprop fdt RootOffset (L "qcom,rtic-id");
    match p.1 with
    | Some RticProp =>
        if (p.2 >? 0) && (Z.rem p.2 RTIC_ID_SIZE =? 0) then
          Id ← fdt32 fdt RticProp;
          if negb (Id =? RTIC_ID) then mret false
          else
            q ← fdt_getprop fdt RootOffset (L "MP_DATA");
            match q.1 with
            | Some MpDataProp =>
                if q.2 <=? 0 then mret false
                else if negb (pool q.2) then mret false
                else
                  MpData ← need OutOfBounds (buf_read fdt MpDataProp q.2);
                  TxMpdatatoQhee Scm MpData;;
                  mret true
            | None => mret false
            end
        else mret false
    | None => mret false
    end.

(** * The trees behind the kernel *)

Definition FDT_HEADER_SIZE : Z := 40.

(** [DtboTableHdr] and [DtboTableEntry] *)
Definition DTBO_ENTRY_SIZE : Z := 32.
Definition dtbo_DtEntryCount {S R} (img : list Z) : M S R Z := fdt32 img 16.
Definition dtbo_DtEntryOffset {S R} (img : list Z) : M S R Z := fdt32 img 20.
Definition dtbo_DtOffset {S R} (img : list Z) (entry : Z) : M S R Z := fdt32 img (entry + 4).

Section Locate.
Context {R : Type}.
Variable board : BoardInfo.
Variables (Scm : bool) (pool : Z -> bool).
(** The address of the copy of a header on the stack. *)
Variable Stack : Z.

(** The image at the address [Kernel]. *)
Section Soc.
Variables (Kernel : Z) (image : list Z).

(** The bytes at an address of the image. *)
Definition image_from (a : Z) : list Z := drop (Z.to_nat (a - Kernel)) image.

(** The header test of both walks: the size of the tree at [a] when it is
    one and ends before [KernelEnd]. *)
Definition dtb_at (KernelEnd a : Z) : ML R (option Z) :=
  hdr ← need OutOfBounds (buf_read image (a - Kernel) FDT_HEADER_SIZE);
  DtbSize ← fdt_totalsize hdr;
  err ← fdt_check_header hdr;
  if negb (err =? 0) then mret None
  else
    err ← fdt_check_header_ext Stack hdr;
    if negb (err =? 0) || (u64 (a + DtbSize) <? a) || (u64 (a + DtbSize) >? KernelEnd)
    then mret None else mret (Some DtbSize).

(** The body of the loop; [cur] is not reset between the trees. *)
Definition soc_tree (a DtbCount : Z) (st : DtInfo * DtInfo) : ML R (DtInfo * DtInfo) :=
  let '(cur, best) := st in
  let fdt := image_from a in
  r ← ReadDtbFindMatch board fdt (set_Dtb a cur) best SOC_MATCH;
  let '(found, cur, best) := r in
  (if found : bool then set_DtbIdx DtbCount else mret tt);;
  (if negb (DtMatchVal cur =? 0) then
     if negb (Z.land (DtMatchVal cur) (BIT SOC_MATCH) =? 0) && CheckAllBitsSet (DtMatchVal cur)
     then set_DtboNeed false else mret tt
   else GetRticDtb Scm pool fdt;; mret tt);;
  mret (cur, best).

Fixpoint soc_loop (fuel : nat) (KernelEnd a DtbCount : Z) (st : DtInfo * DtInfo) :
    ML R (DtInfo * DtInfo) :=
  match fuel with
  | O => stop Forever
  | Datatypes.S fuel' =>
      if negb (u64 (a + FDT_HEADER_SIZE) <? KernelEnd) then mret st
      else
        n ← dtb_at KernelEnd a;
        match n with
        | None => mret st
        | Some DtbSize =>
            st ← soc_tree a DtbCount st;
            soc_loop fuel' KernelEnd (u64 (a + DtbSize)) (s32 (DtbCount + 1)) st
        end
  end.

(** Returns the address of the tree, or [None] for [NULL].  Every tree is at
    least a byte long, so there are no more rounds than bytes. *)
Definition GetSocDtb (KernelSize DtbOffset : Z) : ML R (option Z) :=
  let KernelEnd := u64 (Kernel + KernelSize) in
  if DtbOffset =? 0 then mret None
  else if u64 (Kernel + DtbOffset) <? Kernel then mret None
  else
    st ← soc_loop (Datatypes.S (Z.to_nat KernelSize)) KernelEnd (u64 (Kernel + DtbOffset)) 0 (no_dt, no_dt);
    mret (if Dtb st.2 =? 0 then None else Some (Dtb st.2)).
End Soc.

(** * The overlay table *)

(** The body of the loop; [true] is [break]. *)
Definition board_tree (DtboImgBuffer : Z) (img : list Z) (First DtboCount : Z) (st : DtInfo * DtInfo) :
    ML (option Z) (bool * (DtInfo * DtInfo)) :=
  let '(cur, best) := st in
  DtOffset ← dtbo_DtOffset img (First + DtboCount * DTBO_ENTRY_SIZE);
  if CHECK_ADD64 DtboImgBuffer DtOffset then early None
  else
    let BoardDtb := u64 (DtboImgBuffer + DtOffset) in
    let fdt := drop (Z.to_nat DtOffset) img in
    err ← fdt_check_header fdt;
    err ← (if negb (err =? 0) then mret err else fdt_check_header_ext BoardDtb fdt);
    if negb (err =? 0) then mret (true, (cur, best))
    else
      r ← ReadDtbFindMatch board fdt (set_Dtb BoardDtb cur) best VARIANT_MATCH;
      let '(found, cur, best) := r in
      (if found : bool then set_DtboIdx (s32 DtboCount) else mret tt);;
      mret (false, (cur, best)).

Definition GetBoardDtb (DtboImgBuffer : Z) (img : list Z) : ML (option Z) (option Z) :=
  if DtboImgBuffer =? 0 then mret None
  else
    First ← dtbo_DtEntryOffset img;
    if CHECK_ADD64 DtboImgBuffer First then mret None
    else
      Count ← dtbo_DtEntryCount img;
      st ← for_up (Z.to_nat Count) 0 (no_dt, no_dt) (board_tree DtboImgBuffer img First);
      mret (if Dtb st.2 =? 0 then None else Some (Dtb st.2)).
End Locate.
