(* ===== verification/DtQueue.v ===== *)
(** The older choice of a device tree ([LocateDeviceTree.c]): every tree
    appended to the kernel contributes the combinations of its ids to a queue,
    the queue is narrowed down criterion by criterion, and the tree of the
    first entry that is left is copied to its place ([DeviceTreeAppended]).

    The queue is the list of its entries; a loop that deletes nodes while it
    walks goes back to the node before, so it sees every node once.  An entry
    is copied into the queue when [node] (the two allocations of
    [dt_entry_list_init]) says so. *)
From Stdlib Require Import ZArith Lia.
From stdpp Require Import base list numbers option.
From S2P Require Import Prelude EfiBase Fdt DtMatch Locate.

Definition DEV_TREE_MAGIC : Z := 0x54444351.
Definition DEV_TREE_VERSION_V1 : Z := 1.
Definition DEV_TREE_VERSION_V2 : Z := 2.
Definition DEV_TREE_VERSION_V3 : Z := 3.
Definition DEV_TREE_HEADER_SIZE : Z := 12.
Definition DT_ENTRY_V1_SIZE : Z := 0xC.
Definition PMIC_ID_SIZE : Z := 16.

Record dt_entry := mkEntry {
  platform_id : Z;
  variant_id : Z;
  board_hw_subtype : Z;
  soc_rev : Z;
  pmic_rev : list Z;
  offset : Z;
  size : Z;
  Idx : Z;
}.
Definition sizeof_dt_entry : Z := 48.
Definition sizeof_dt_entry_v1 : Z := 20.
Definition sizeof_dt_entry_v2 : Z := 24.

Inductive dt_entry_info : Type :=
| DTB_FOUNDRY | DTB_DDR | DTB_SOC | DTB_MAJOR_MINOR | DTB_PMIC0 | DTB_PMIC1 | DTB_PMIC2 | DTB_PMIC3
| DTB_PMIC_MODEL | DTB_PANEL_TYPE | DTB_BOOT_DEVICE.

Definition pmic (i : nat) (e : dt_entry) : Z := default 0 (pmic_rev e !! i).

(** [DeviceTreeValidate]: returns 0 or -1, and [*DeviceTreeSize]; the buffer
    is little-endian. *)
Definition DeviceTreeValidate {S R} (DeviceTreeBuff : list Z) : M S R (Z * option Z) :=
  let word off := need OutOfBounds (le_get <$> buf_read DeviceTreeBuff off 4) in
  magic ← word 0;
  if negb (magic =? DEV_TREE_MAGIC) then mret (-1, None)
  else
    version ← word 4;
    let entry_size :=
      if version =? DEV_TREE_VERSION_V1 then Some sizeof_dt_entry_v1
      else if version =? DEV_TREE_VERSION_V2 then Some sizeof_dt_entry_v2
      else if version =? DEV_TREE_VERSION_V3 then Some sizeof_dt_entry else None in
    match entry_size with
    | None => mret (-1, None)
    | Some dt_entry_size =>
        num_entries ← word 8;
        let hdr_size := u64 (num_entries * dt_entry_size + DEV_TREE_HEADER_SIZE) in
        let hdr_size := Z.shiftr hdr_size 12 + (if Z.land hdr_size 0xFFF =? 0 then 0 else 1) in
        mret (0, Some (u32 hdr_size))
    end.

Section Queue.
Variable board : BoardInfo.

(** * Narrowing down *)

(** The condition of [platform_dt_absolute_match]. *)
Definition absolute_match (e : dt_entry) : bool :=
  (Z.land (platform_id e) 0x0000ffff =? Z.land (BoardPlatformRawChipId board) 0x0000ffff) &&
  (Z.land (variant_id e) 0x000000ff =? BoardPlatformType board) &&
  (Z.land (board_hw_subtype e) 0xff =? BoardPlatformSubType board) &&
  (Z.land (board_hw_subtype e) 0x700 =? Z.land (BoardPlatformHlosSubType board) 0x700) &&
  (soc_rev e <=? BoardPlatformChipVersion board) &&
  (Z.land (variant_id e) 0x00ffff00 <=? Z.land (BoardTargetId board) 0x00ffff00) &&
  (pmic 0 e <=? BoardPmicTarget board 0) && (pmic 1 e <=? BoardPmicTarget board 1) &&
  (pmic 2 e <=? BoardPmicTarget board 2) && (pmic 3 e <=? BoardPmicTarget board 3).

(** Returns the value of the C function and the queue. *)
Definition platform_dt_absolute_match (node : bool) (e : dt_entry) (dt_list : list dt_entry) :
    Z * list dt_entry :=
  if absolute_match e && node then (1, dt_list ++ [e]) else (0, dt_list).

(** [current_info], [board_info] and the initial [best_info] of the criteria
    [platform_dt_absolute_compat_match] knows; the four PMIC models together
    are one value. *)
Definition compat_info (dtb_info : dt_entry_info) : option ((dt_entry -> list Z) * list Z * list Z) :=
  match dtb_info with
  | DTB_FOUNDRY =>
      Some (fun e => [Z.land (platform_id e) 0x00ff0000],
            [u32 (Z.shiftl (BoardPlatformFoundryId board) 16)], [0])
  | DTB_DDR =>
      Some (fun e => [Z.land (board_hw_subtype e) 0x700],
            [Z.land (BoardPlatformHlosSubType board) 0x700], [0])
  | DTB_PMIC_MODEL =>
      Some (fun e => map (fun i => Z.land (pmic i e) 0xff) (seq 0 4),
            map (fun i => BoardPmicModel board (Z.of_nat i)) (seq 0 4), [0; 0; 0; 0])
  | _ => None
  end.

(** The entries that agree with the board, or with 0 when there are none. *)
Definition platform_dt_absolute_compat_match (dt_list : list dt_entry) (dtb_info : dt_entry_info) :
    Z * list dt_entry :=
  match compat_info dtb_info with
  | None => (match dt_list with [] => 1 | _ => 0 end, dt_list)
  | Some (current, board_info, zero) =>
      let best := if existsb (fun e => bool_decide (current e = board_info)) dt_list
                  then board_info else zero in
      (1, filter (fun e => current e = best) dt_list)
  end.

(** The same for [update_dtb_entry_node]. *)
Definition version_info (dtb_info : dt_entry_info) : option ((dt_entry -> Z) * Z) :=
  match dtb_info with
  | DTB_SOC => Some (soc_rev, BoardPlatformChipVersion board)
  | DTB_MAJOR_MINOR =>
      Some (fun e => Z.land (variant_id e) 0x00ffff00, Z.land (BoardTargetId board) 0x00ffff00)
  | DTB_PMIC0 => Some (pmic 0, BoardPmicTarget board 0)
  | DTB_PMIC1 => Some (pmic 1, BoardPmicTarget board 1)
  | DTB_PMIC2 => Some (pmic 2, BoardPmicTarget board 2)
  | DTB_PMIC3 => Some (pmic 3, BoardPmicTarget board 3)
  | _ => None
  end.

(** The first loop: [best_info] and the queue without the entries that are
    deleted on the way. *)
Fixpoint scan_best (current : dt_entry -> Z) (board_info best_info : Z) (dt_list : list dt_entry) :
    Z * list dt_entry :=
  match dt_list with
  | [] => (best_info, [])
  | e :: rest =>
      if current e =? board_info then (current e, e :: rest)
      else
        let best_info := if (current e <? board_info) && (current e >? best_info)
                         then current e else best_info in
        let '(b, rest) := scan_best current board_info best_info rest in
        (b, if current e <? best_info then rest else e :: rest)
  end.

Definition update_dtb_entry_node (dt_list : list dt_entry) (dtb_info : dt_entry_info) :
    Z * list dt_entry :=
  match version_info dtb_info with
  | None => (match dt_list with [] => 1 | _ => 0 end, dt_list)
  | Some (current, board_info) =>
      let '(best_info, dt_list) := scan_best current board_info 0 dt_list in
      (1, filter (fun e => current e = best_info) dt_list)
  end.

(** Returns the entry and the queue. *)
Definition platform_dt_match_best (dt_list : list dt_entry) : option dt_entry * list dt_entry :=
  let compat dt_list i := (platform_dt_absolute_compat_match dt_list i).2 in
  let update dt_list i := (update_dtb_entry_node dt_list i).2 in
  let dt_list := compat dt_list DTB_FOUNDRY in
  let dt_list := compat dt_list DTB_DDR in
  let dt_list := compat dt_list DTB_PMIC_MODEL in
  let dt_list := update dt_list DTB_SOC in
  let dt_list := update dt_list DTB_MAJOR_MINOR in
  let dt_list := update dt_list DTB_PMIC0 in
  let dt_list := update dt_list DTB_PMIC1 in
  let dt_list := update dt_list DTB_PMIC2 in
  let dt_list := update dt_list DTB_PMIC3 in
  (head dt_list, dt_list).

(** * The entries of a tree *)

Variable pool : Z -> bool.

Section Tree.
Context {R : Type}.
Variable fdt : list Z.

(** [n] consecutive words. *)
Fixpoint words_at (n : nat) (p : Z) : ML R (list Z) :=
  match n with
  | O => mret []
  | Datatypes.S n' => w ← fdt32 fdt p; rest ← words_at n' (p + 4); mret (w :: rest)
  end.

(** [n] consecutive structures of [k] words. *)
Fixpoint structs_at (k n : nat) (p : Z) : ML R (list (list Z)) :=
  match n with
  | O => mret []
  | Datatypes.S n' =>
      s ← words_at k p; rest ← structs_at k n' (p + 4 * Z.of_nat k); mret (s :: rest)
  end.
End Tree.

(** The subtype of a board id, from its variant when it is 0. *)
Definition board_of (b : list Z) : Z * Z :=
  match b with
  | [variant; sub] => (variant, if sub =? 0 then Z.shiftr variant 0x18 else sub)
  | _ => (0, 0)
  end.
Definition plat_of (p : list Z) : Z * Z := match p with [id; rev] => (id, rev) | _ => (0, 0) end.

Definition merge_entries (dtb dtb_size DtbCount : Z) (plats boards : list (Z * Z)) (pmics : list (list Z)) :
    list dt_entry :=
  p ← plats; b ← boards; v ← pmics;
  [mkEntry p.1 b.1 b.2 p.2 v dtb dtb_size DtbCount].

Definition DeviceTreeCompatible (fdt : list Z) (dtb dtb_size : Z) (dtb_list : list dt_entry) :
    ML (bool * list dt_entry) (bool * list dt_entry) :=
  let Exit := early (false, dtb_list) in
  root_offset ← fdt_path_offset fdt (L "/");
  if root_offset <? 0 then Exit
  else
    model ← fdt_getprop fdt root_offset (L "model");
    if bool_decide (is_Some model.1) && (model.2 >? 0) && negb (pool model.2) then Exit
    else
      pmic ← fdt_getprop fdt root_offset (L "qcom,pmic-id");
      board_id ← fdt_getprop fdt root_offset (L "qcom,board-id");
      let has_pmic := bool_decide (is_Some pmic.1) && (pmic.2 >? 0) in
      let has_board := bool_decide (is_Some board_id.1) && (board_id.2 >? 0) in
      if has_pmic && has_board &&
         negb ((Z.rem pmic.2 PMIC_ID_SIZE =? 0) && (Z.rem board_id.2 BOARD_ID_SIZE =? 0)) then Exit
      else if negb has_pmic && has_board && negb (Z.rem board_id.2 BOARD_ID_SIZE =? 0) then Exit
      else
        let dtb_ver := if has_board then if has_pmic then DEV_TREE_VERSION_V3 else DEV_TREE_VERSION_V2
                       else DEV_TREE_VERSION_V1 in
        let min_plat_id_len := if has_board then PLAT_ID_SIZE else DT_ENTRY_V1_SIZE in
        plat ← fdt_getprop fdt root_offset (L "qcom,msm-id");
        match plat.1, board_id.1 with
        | Some plat_prop, Some board_prop =>
            if (plat.2 <=? 0) || negb (Z.rem plat.2 min_plat_id_len =? 0) then Exit
            else if dtb_ver =? DEV_TREE_VERSION_V1 then mret (false, dtb_list)
            else
              let board_data_count := Z.quot board_id.2 BOARD_ID_SIZE in
              let msm_data_count := Z.quot plat.2 PLAT_ID_SIZE in
              (* [len_pmic_id] is converted to [size_t] *)
              let pmic_data_count := u32 (u64 pmic.2 / PMIC_ID_SIZE) in
              if negb (pool (BOARD_ID_SIZE * board_data_count)) then Exit
              else if negb (pool (PLAT_ID_SIZE * msm_data_count)) then Exit
              else if (dtb_ver =? DEV_TREE_VERSION_V3) && negb (pool (PMIC_ID_SIZE * (pmic.2 / PMIC_ID_SIZE)))
              then Exit
              else
                boards ← structs_at fdt 2 (Z.to_nat board_data_count) board_prop;
                plats ← structs_at fdt 2 (Z.to_nat msm_data_count) plat_prop;
                if negb (pmic_data_count =? 0) &&
                   (MAX_UINT64 / pmic_data_count <? u32 (msm_data_count * board_data_count)) then Exit
                else
                  pmics ← (match pmic.1 with
                           | Some pmic_prop =>
                               if dtb_ver =? DEV_TREE_VERSION_V3
                               then structs_at fdt 4 (Z.to_nat pmic_data_count) pmic_prop
                               else mret [map (fun i => BoardPmicTarget board (Z.of_nat i)) (seq 0 4)]
                           | None => mret [map (fun i => BoardPmicTarget board (Z.of_nat i)) (seq 0 4)]
                           end);
                  let NumEntries := u64 (msm_data_count * board_data_count * Z.of_nat (length pmics)) in
                  if negb (pool (u64 (sizeof_dt_entry * NumEntries))) then Exit
                  else
                    s ← get;
                    set_DtbCount (u32 (DtbCount s + 1));;
                    let entries := merge_entries dtb dtb_size (u32 (DtbCount s + 1))
                                     (map plat_of plats) (map board_of boards) pmics in
                    let node := pool 24 && pool sizeof_dt_entry in
                    mret (true, fold_left (fun q e => (platform_dt_absolute_match node e q).2)
                                  entries dtb_list)
        | Some _, None =>
            (* version 1 *)
            if (plat.2 <=? 0) || negb (Z.rem plat.2 min_plat_id_len =? 0) then Exit
            else mret (false, dtb_list)
        | None, _ => Exit
        end.

(** * The trees behind the kernel *)

Variable Scm : bool.
(** The address of the copy of a header on the stack. *)
Variable Stack : Z.

Fixpoint appended_loop {R} (kernel : Z) (image : list Z) (fuel : nat) (kernel_end dtb : Z)
    (queue : list dt_entry) : ML R (list dt_entry) :=
  match fuel with
  | O => stop Forever
  | Datatypes.S fuel' =>
      if negb (u64 (dtb + FDT_HEADER_SIZE) <? kernel_end) then mret queue
      else
        n ← dtb_at Stack kernel image kernel_end dtb;
        match n with
        | None => mret queue
        | Some dtb_size =>
            let fdt := image_from kernel image dtb in
            r ← call (DeviceTreeCompatible fdt dtb dtb_size queue);
            (if r.1 : bool then mret tt else GetRticDtb Scm pool fdt;; mret tt);;
            appended_loop kernel image fuel' kernel_end (u64 (dtb + dtb_size)) r.2
        end
  end.

(** What [DeviceTreeAppended] leaves behind when it finds a tree: the bytes
    copied to [tags], their number, and the image without the first magic. *)
Record appended := mkAppended {
  ap_tags : list Z;
  ap_DtbSize : Z;
  ap_image : list Z;
}.

(** [FreedIdx] is what the field [Idx] of the chosen entry holds after the
    queue was freed, when it is read. *)
Definition DeviceTreeAppended {R} (kernel : Z) (image : list Z) (kernel_size dtb_offset tags : Z)
    (BaseMem : EFI_STATUS) (RamdiskLoadAddr FreedIdx : Z) : ML R (option appended) :=
  let kernel_end := u64 (kernel + kernel_size) in
  if negb (pool 24) then mret None
  else if dtb_offset =? 0 then mret None
  else if u64 (kernel + dtb_offset) <? kernel then mret None
  else
    queue ← appended_loop kernel image (Datatypes.S (Z.to_nat kernel_size)) kernel_end
              (u64 (kernel + dtb_offset)) [];
    match (platform_dt_match_best queue).1 with
    | None => mret None
    | Some best =>
        if offset best =? 0 then mret None
        else if negb (BaseMem =? EFI_SUCCESS) then mret None
        else if u64 (RamdiskLoadAddr - tags) >? RamdiskLoadAddr then mret None
        else if u64 (RamdiskLoadAddr - tags) <? size best then mret None
        else
          d ← need OutOfBounds (buf_read image (offset best - kernel) (size best));
          set_DtbIdx (s32 FreedIdx);;
          image ← need OutOfBounds (buf_write image dtb_offset [0; 0; 0; 0]);
          mret (Some (mkAppended d (size best) image))
    end.
End Queue.
