(* ===== verification/DtQueueSpec.v ===== *)
(** What the narrowing of the queue ([DtQueue]) amounts to: the entries that
    agree with the board where it matters, and of these the lexicographically
    largest by their versions. *)
From Stdlib Require Import ZArith Lia.
From stdpp Require Import base list numbers option sets.
From S2P Require Import Prelude EfiBase Fdt DtMatch Locate DtQueue.

(** * A lexicographic maximum, key by key *)

Fixpoint lex_le (a b : list Z) : bool :=
  match a, b with
  | x :: a', y :: b' => (x <? y) || ((x =? y) && lex_le a' b')
  | _, _ => true
  end.

Section Narrow.
Context {A : Type}.
Implicit Types (f : A -> Z) (fs : list (A -> Z)) (l : list A).

Definition max_of f l : Z := fold_right (fun e m => Z.max (f e) m) 0 l.
Definition keep_max f l : list A := filter (fun e => f e = max_of f l) l.
Definition keys fs (e : A) : list Z := map (fun f => f e) fs.
Definition narrow fs l : list A := fold_left (fun l f => keep_max f l) fs l.

(** [e] is not below any element of [l]. *)
Definition tops fs l (e : A) : Prop := Forall (fun e' => lex_le (keys fs e') (keys fs e) = true) l.
#[export] Instance tops_dec fs l e : Decision (tops fs l e).
Proof. unfold tops. apply _. Defined.

Lemma max_of_ge f l e : e ∈ l -> f e <= max_of f l.
Proof. induction 1; simpl; lia. Qed.

Lemma max_of_nonneg f l : 0 <= max_of f l.
Proof. induction l; simpl; lia. Qed.

Lemma max_of_in f l : Forall (fun e => 0 <= f e) l -> l <> [] -> exists e, e ∈ l /\ f e = max_of f l.
Proof.
  induction 1 as [|e l He Hl IH]; [done|]. intros _. destruct l as [|e' l].
  - exists e. simpl. split; [left|lia].
  - destruct IH as (x & Hx & Hm); [done|].
    change (max_of f (e :: e' :: l)) with (Z.max (f e) (max_of f (e' :: l))).
    destruct (Z.le_gt_cases (f e) (max_of f (e' :: l))).
    + exists x. split; [by right|lia].
    + exists e. split; [left|lia].
Qed.

Lemma filter_ext_in (P Q : A -> Prop) `{!forall x, Decision (P x), !forall x, Decision (Q x)} l :
  (forall x, x ∈ l -> P x <-> Q x) -> filter P l = filter Q l.
Proof.
  intros Hl. induction l as [|x l IH]; [done|]. rewrite !filter_cons, IH by (intros; apply Hl; by right).
  pose proof (Hl x ltac:(left)). by repeat case_decide; try tauto.
Qed.

Lemma tops_cons f fs l e :
  Forall (fun e => 0 <= f e) l -> e ∈ l ->
  tops (f :: fs) l e <-> f e = max_of f l /\ tops fs (keep_max f l) e.
Proof.
  intros Hl He. unfold tops, keep_max. rewrite !Forall_forall. split.
  - intros H. assert (Hm : f e = max_of f l).
    { destruct (max_of_in f l Hl) as (x & Hx & Hm); [by intros ->; inversion He|].
      specialize (H x Hx). pose proof (max_of_ge f l e He). simpl in H.
      apply orb_true_iff in H as [H|[H _]%andb_prop]; bools; lia. }
    split; [done|]. intros x [Hx1 Hx2]%list_elem_of_filter. specialize (H x Hx2). simpl in H.
    apply orb_true_iff in H as [H|[_ H]%andb_prop]; [bools; lia|done].
  - intros [Hm H] x Hx. simpl. pose proof (max_of_ge f l x Hx).
    destruct (Z.lt_ge_cases (f x) (f e)); apply orb_true_iff; [left; by apply Z.ltb_lt|right].
    rewrite (proj2 (Z.eqb_eq (f x) (f e))) by lia. apply H. apply list_elem_of_filter. split; [lia|done].
Qed.

Lemma keep_max_sublist f l : forall P : A -> Prop, Forall P l -> Forall P (keep_max f l).
Proof. intros P HP. unfold keep_max. apply Forall_forall. intros x [_ Hx]%list_elem_of_filter.
  by eapply Forall_forall in HP. Qed.

(** Keeping the maximum of each key in turn keeps the lexicographic maxima. *)
Lemma narrow_tops fs l :
  Forall (fun e => Forall (fun f => 0 <= f e) fs) l -> narrow fs l = filter (tops fs l) l.
Proof.
  revert l. induction fs as [|f fs IH]; intros l Hl.
  - simpl. induction l as [|x l IHl]; [done|]. rewrite filter_cons.
    rewrite decide_True by (unfold tops; apply Forall_forall; done). f_equal.
    rewrite IHl at 1 by (by inversion Hl). apply filter_ext_in. intros y _. unfold tops. simpl.
    by rewrite !Forall_forall.
  - assert (Hf : Forall (fun e => 0 <= f e) l).
    { eapply Forall_impl; [exact Hl|]. intros e He. by inversion He. }
    change (narrow (f :: fs) l) with (narrow fs (keep_max f l)). rewrite IH.
    + transitivity (filter (tops fs (keep_max f l)) (filter (fun e => f e = max_of f l) l)); [done|].
      rewrite list_filter_filter. apply filter_ext_in. intros x Hx.
      rewrite (tops_cons f fs l x Hf Hx). tauto.
    + apply keep_max_sublist. eapply Forall_impl; [exact Hl|]. intros e He. by inversion He.
Qed.
End Narrow.

(** * The stages *)

Lemma scan_best_max cur bi best l :
  Forall (fun e => 0 <= cur e <= bi) l -> 0 <= best <= bi ->
  (scan_best cur bi best l).1 = Z.max best (max_of cur l) /\
  filter (fun e => cur e = (scan_best cur bi best l).1) (scan_best cur bi best l).2 =
  filter (fun e => cur e = (scan_best cur bi best l).1) l.
Proof.
  intros Hl. revert best. induction Hl as [|e l He Hl IH]; intros best Hb; [split; [simpl; lia|done]|].
  cbn [scan_best max_of fold_right]. fold (max_of cur l). destruct (Z.eqb_spec (cur e) bi) as [Heq|Hne].
  - cbn [fst snd]. split; [|done].
    assert (Hm : max_of cur l <= bi); [|lia].
    clear -Hl He. induction Hl; simpl; lia.
  - set (best' := if (cur e <? bi) && (cur e >? best) then cur e else best).
    assert (Hb' : best' = Z.max best (cur e)).
    { unfold best'. rewrite Z.gtb_ltb. destruct (Z.ltb_spec (cur e) bi), (Z.ltb_spec best (cur e)); simpl; lia. }
    destruct (IH best') as [IH1 IH2]; [lia|].
    destruct (scan_best cur bi best' l) as [b r] eqn:Es. cbn [fst snd] in *.
    split; [lia|]. rewrite (filter_cons _ e l). destruct (Z.ltb_spec (cur e) best').
    + rewrite decide_False by lia. done.
    + rewrite filter_cons. by destruct (decide (cur e = b)); rewrite IH2.
Qed.

Section Best.
Variable board : BoardInfo.

(** The values of an entry and of the board are words. *)
Record entry_ok (e : dt_entry) : Prop := {
  eo_soc : 0 <= soc_rev e;
  eo_pmic : forall i, 0 <= pmic i e;
}.

Definition versions : list (dt_entry -> Z) :=
  [soc_rev; fun e => Z.land (variant_id e) 0x00ffff00; pmic 0; pmic 1; pmic 2; pmic 3].

(** The entries with the value the board has, or with 0 when no entry has
    it. *)
Definition preferred {A} `{EqDecision A} (f : dt_entry -> A) (want none : A) (l : list dt_entry) : list dt_entry :=
  if decide (Exists (fun e => f e = want) l) then filter (fun e => f e = want) l
  else filter (fun e => f e = none) l.

Definition foundry (e : dt_entry) : Z := Z.land (platform_id e) 0x00ff0000.
Definition models (e : dt_entry) : list Z := map (fun i => Z.land (pmic i e) 0xff) (seq 0 4).

(** The entries of the right foundry, and of these the ones of the right
    PMICs. *)
Definition compatible (l : list dt_entry) : list dt_entry :=
  preferred models (map (fun i => BoardPmicModel board (Z.of_nat i)) (seq 0 4)) [0; 0; 0; 0]
    (preferred foundry (u32 (Z.shiftl (BoardPlatformFoundryId board) 16)) 0 l).

Definition best_entries (l : list dt_entry) : list dt_entry :=
  filter (tops versions (compatible l)) (compatible l).

Lemma existsb_Exists {A} `{EqDecision A} (f : dt_entry -> A) v l :
  existsb (fun e => bool_decide (f e = v)) l = bool_decide (Exists (fun e => f e = v) l).
Proof.
  symmetry. destruct (existsb _ l) eqn:E.
  - apply existsb_exists in E as (x & Hx & Hv). apply bool_decide_eq_true in Hv.
    apply bool_decide_eq_true, Exists_exists. exists x. split; [by apply list_elem_of_In|done].
  - apply bool_decide_eq_false. intros (x & Hx & Hv)%Exists_exists.
    rewrite <- not_true_iff_false in E. apply E, existsb_exists. exists x.
    split; [by apply list_elem_of_In|by apply bool_decide_eq_true].
Qed.

Lemma compat_preferred info current want none l :
  compat_info board info = Some (current, want, none) ->
  (platform_dt_absolute_compat_match board l info).2 = preferred current want none l.
Proof.
  intros E. unfold platform_dt_absolute_compat_match, preferred. rewrite E. cbn [snd].
  rewrite existsb_Exists. case_bool_decide; by case_decide.
Qed.

Lemma preferred_single (f : dt_entry -> Z) want none l :
  preferred (fun e => [f e]) [want] [none] l = preferred f want none l.
Proof.
  unfold preferred. destruct (decide (Exists (fun e => f e = want) l)) as [He|He].
  - rewrite decide_True by (eapply Exists_impl; [exact He|]; by intros ? ->).
    apply filter_ext_in. intros. split; [by intros [= ->]|by intros ->].
  - rewrite decide_False; [|intros H; apply He; eapply Exists_impl; [exact H|]; by intros ? [= ->]].
    apply filter_ext_in. intros. split; [by intros [= ->]|by intros ->].
Qed.

Lemma preferred_all {A} `{EqDecision A} (f : dt_entry -> A) want none l :
  Forall (fun e => f e = want) l -> preferred f want none l = l.
Proof.
  intros Hl. unfold preferred.
  assert (Hid : filter (fun e => f e = want) l = l).
  { induction Hl as [|e l He Hl IH]; [done|]. by rewrite filter_cons, decide_True, IH. }
  destruct l as [|e l]; [by destruct (decide _)|].
  rewrite decide_True; [done|]. left. by inversion Hl.
Qed.

Lemma preferred_Forall {A} `{EqDecision A} (f : dt_entry -> A) want none l (P : dt_entry -> Prop) :
  Forall P l -> Forall P (preferred f want none l).
Proof.
  intros HP. unfold preferred. case_decide; apply Forall_forall; intros x [_ Hx]%list_elem_of_filter;
    by eapply Forall_forall in HP.
Qed.

Lemma update_keep_max info current bi l :
  version_info board info = Some (current, bi) -> Forall (fun e => 0 <= current e <= bi) l ->
  (update_dtb_entry_node board l info).2 = keep_max current l.
Proof.
  intros E Hl. destruct l as [|e0 l0]; [unfold update_dtb_entry_node; by rewrite E|].
  assert (0 <= bi) by (inversion Hl; lia). set (l := e0 :: l0) in *. unfold update_dtb_entry_node. rewrite E.
  destruct (scan_best_max current bi 0 l Hl) as [H1 H2]; [lia|].
  destruct (scan_best current bi 0 l) as [b r]. cbn [fst snd] in *. rewrite H2. unfold keep_max.
  pose proof (max_of_nonneg current l). apply filter_ext_in. intros. lia.
Qed.

(** The bounds [platform_dt_absolute_match] guarantees. *)
Lemma absolute_bounds e :
  absolute_match board e = true ->
  Z.land (board_hw_subtype e) 0x700 = Z.land (BoardPlatformHlosSubType board) 0x700 /\
  soc_rev e <= BoardPlatformChipVersion board /\
  Z.land (variant_id e) 0x00ffff00 <= Z.land (BoardTargetId board) 0x00ffff00 /\
  pmic 0 e <= BoardPmicTarget board 0 /\ pmic 1 e <= BoardPmicTarget board 1 /\
  pmic 2 e <= BoardPmicTarget board 2 /\ pmic 3 e <= BoardPmicTarget board 3.
Proof. unfold absolute_match. intros H. repeat (apply andb_prop in H as [H ?]). bools. done. Qed.

Definition fits_board (e : dt_entry) : Prop := absolute_match board e = true /\ entry_ok e.

Lemma version_bounds info current bi e :
  version_info board info = Some (current, bi) -> fits_board e -> 0 <= current e <= bi.
Proof.
  intros E [(_ & H1 & H2 & H3 & H4 & H5 & H6)%absolute_bounds [Hs Hp]].
  destruct info; simplify_eq/=; auto.
  split; [|done]. apply Z.land_nonneg. by right.
Qed.

Lemma update_stage info current bi l :
  version_info board info = Some (current, bi) -> Forall fits_board l ->
  (update_dtb_entry_node board l info).2 = keep_max current l /\ Forall fits_board (keep_max current l).
Proof.
  intros E Hl. split; [|by apply keep_max_sublist]. eapply update_keep_max; [exact E|].
  eapply Forall_impl; [exact Hl|]. intros e. by eapply version_bounds.
Qed.

Lemma match_best_spec l :
  Forall fits_board l ->
  platform_dt_match_best board l = (head (best_entries l), best_entries l).
Proof.
  intros Hl. unfold platform_dt_match_best.
  rewrite (compat_preferred DTB_FOUNDRY _ _ _ l eq_refl), preferred_single.
  set (l1 := preferred _ _ _ l). assert (H1 : Forall fits_board l1) by by apply preferred_Forall.
  rewrite (compat_preferred DTB_DDR _ _ _ l1 eq_refl), preferred_single, preferred_all; cycle 1.
  { eapply Forall_impl; [exact H1|]. intros e [He _]. by apply absolute_bounds in He as (? & _). }
  rewrite (compat_preferred DTB_PMIC_MODEL _ _ _ l1 eq_refl).
  set (l2 := preferred _ _ _ l1). assert (H2 : Forall fits_board l2) by by apply preferred_Forall.
  destruct (update_stage DTB_SOC _ _ l2 eq_refl H2) as [-> H3].
  destruct (update_stage DTB_MAJOR_MINOR _ _ _ eq_refl H3) as [-> H4].
  destruct (update_stage DTB_PMIC0 _ _ _ eq_refl H4) as [-> H5].
  destruct (update_stage DTB_PMIC1 _ _ _ eq_refl H5) as [-> H6].
  destruct (update_stage DTB_PMIC2 _ _ _ eq_refl H6) as [-> H7].
  destruct (update_stage DTB_PMIC3 _ _ _ eq_refl H7) as [-> _].
  assert (Hn : narrow versions l2 = best_entries l).
  { unfold best_entries. change (compatible l) with l2. apply narrow_tops.
    eapply Forall_impl; [exact H2|]. intros e He.
    pose proof (fun info current bi Ev => version_bounds info current bi e Ev He) as Hv.
    pose proof (Hv DTB_SOC _ _ eq_refl). pose proof (Hv DTB_MAJOR_MINOR _ _ eq_refl).
    pose proof (Hv DTB_PMIC0 _ _ eq_refl). pose proof (Hv DTB_PMIC1 _ _ eq_refl).
    pose proof (Hv DTB_PMIC2 _ _ eq_refl). pose proof (Hv DTB_PMIC3 _ _ eq_refl).
    unfold versions. rewrite !Forall_cons. split_and!; [tauto..|done]. }
  unfold narrow, versions in Hn. simpl in Hn. by rewrite Hn.
Qed.
End Best.
