(* ===== verification/DtSpec.v ===== *)
(** How well a tree fits, as a function of the ids in its root node, and that
    [ReadDtbFindMatch] computes it whatever trees were looked at before. *)
From Stdlib Require Import ZArith Lia.
From stdpp Require Import base list numbers option sets.
From S2P Require Import Prelude EfiBase Fdt FdtSpec FdtTree FdtRw FdtRwSpec DtMatch.

(** * Ids *)

Definition words (l : list Z) : list Z := mjoin (map (be_put 4) l).

(** The ids a root node carries: platforms, board, PMICs with their number per
    entry, OEM. *)
Record tree_ids := mkIds {
  ti_msm : list (Z * Z);
  ti_board : option (Z * Z);
  ti_pmic : list (list Z);
  ti_width : nat;
  ti_oem : option Z;
}.

Definition pairs (l : list (Z * Z)) : list Z := mjoin (map (fun p => [p.1; p.2]) l).

(** Properties that hold these ids, in the layout the source expects. *)
Record has_ids (prop : list Z -> option (list Z)) (t : tree_ids) : Prop := {
  hi_msm : prop (L "qcom,msm-id") =
    match ti_msm t with [] => None | _ => Some (words (pairs (ti_msm t))) end;
  hi_board : match ti_board t with
             | None => prop (L "qcom,board-id") = None
             | Some p => exists more, prop (L "qcom,board-id") = Some (words (pairs (p :: more)))
             end;
  hi_pmic : prop (L "qcom,pmic-id") =
    match ti_pmic t with [] => None | _ => Some (words (mjoin (ti_pmic t))) end;
  hi_entry : Forall (fun e => length e = ti_width t) (ti_pmic t);
  hi_width : (1 <= ti_width t <= 15)%nat;
  hi_size : prop (L "qcom,pmic-id-size") = Some (be_put 4 (Z.of_nat (ti_width t))) \/
    (prop (L "qcom,pmic-id-size") = None /\ ti_width t = 4%nat);
  hi_oem : match ti_oem t with
           | None => prop (L "qcom,oem-id") = None
           | Some v => exists more, prop (L "qcom,oem-id") = Some (be_put 4 v ++ more)
           end;
  hi_words : Forall is_u32 (pairs (ti_msm t)) /\ Forall is_u32 (mjoin (ti_pmic t)) /\
    match ti_board t with Some (a, b) => is_u32 a /\ is_u32 b | None => True end;
  hi_small : Z.of_nat (length (words (pairs (ti_msm t)))) < 2 ^ 31 /\
    Z.of_nat (length (words (mjoin (ti_pmic t)))) < 2 ^ 31;
}.

(** * The score *)

(** The bits whose condition holds. *)
Definition bits (l : list (bool * Z)) : Z :=
  fold_right (fun cb acc => Z.lor (if (cb.1 : bool) then BIT cb.2 else 0) acc) 0 l.

Section Score.
Variable board : BoardInfo.

(** [None]: the tree is not for this chip. *)
Definition plat_score (p : Z * Z) : option Z :=
  let foundry := Z.land p.1 FOUNDRY_ID_MASK in
  let own := u32 (Z.shiftl (BoardPlatformFoundryId board) PLATFORM_FOUNDRY_SHIFT) in
  if negb (Z.land (BoardPlatformRawChipId board) SOC_MASK =? Z.land p.1 SOC_MASK) ||
     (negb (foundry =? own) && negb (foundry =? 0))
  then None
  else Some (bits [ (true, SOC_MATCH);
                    (p.2 =? BoardPlatformChipVersion board, VERSION_EXACT_MATCH);
                    (p.2 <? BoardPlatformChipVersion board, VERSION_BEST_MATCH);
                    (foundry =? own, FOUNDRYID_EXACT_MATCH);
                    (negb (foundry =? own), FOUNDRYID_DEFAULT_MATCH) ]).

(** The best of the platforms. *)
Definition best_plat (l : list (Z * Z)) : Z :=
  fold_right (fun p acc => Z.max (default 0 (plat_score p)) acc) 0 l.

Definition board_score (p : Z * Z) : option Z :=
  let '(variant, sub) := p in
  let sub := if sub =? 0 then Z.shiftr variant PLATFORM_SUBTYPE_SHIFT_ID else sub in
  let field mask := Z.land variant mask in
  let target mask := Z.land (BoardTargetId board) mask in
  let own := Z.land sub PLATFORM_SUBTYPE_MASK =? BoardPlatformSubType board in
  if (negb (field VARIANT_MASK =? BoardPlatformType board) && negb (field VARIANT_MASK =? 0)) ||
     (negb own && negb (Z.land sub PLATFORM_SUBTYPE_MASK =? 0))
  then None
  else Some (bits [ (field VARIANT_MASK =? BoardPlatformType board, VARIANT_MATCH);
                    (field VARIANT_MAJOR_MASK =? target VARIANT_MAJOR_MASK, VARIANT_MAJOR_EXACT_MATCH);
                    (field VARIANT_MAJOR_MASK <? target VARIANT_MAJOR_MASK, VARIANT_MAJOR_BEST_MATCH);
                    (field VARIANT_MINOR_MASK =? target VARIANT_MINOR_MASK, VARIANT_MINOR_EXACT_MATCH);
                    (field VARIANT_MINOR_MASK <? target VARIANT_MINOR_MASK, VARIANT_MINOR_BEST_MATCH);
                    (sub =? BoardPlatformHlosSubType board, HLOS_SUBTYPE_EXACT_MATCH);
                    (own, SUBTYPE_EXACT_MATCH);
                    (negb own, SUBTYPE_DEFAULT_MATCH);
                    (Z.land sub DDR_MASK =? Z.land (BoardPlatformHlosSubType board) DDR_MASK, DDR_MATCH) ]).

(** An entry of PMICs from the [i]-th on: a wrong model voids the entry, a
    revision that is too new ends it. *)
Fixpoint pmic_score (i : nat) (acc : Z) (vs : list Z) : Z :=
  match vs with
  | [] => acc
  | v :: vs' =>
      let Idx := Z.of_nat i in
      let model := Z.land v PMIC_MODEL_MASK in
      let rev := Z.land v PMIC_REV_MASK in
      let target := Z.land (BoardPmicTarget board Idx) PMIC_REV_MASK in
      let own := model =? BoardPmicModel board Idx in
      if negb own && negb (model =? 0) then BIT NONE_MATCH
      else
        let acc := Z.lor acc (BIT ((if own then PMIC_MATCH_EXACT_MODEL_IDX0
                                    else PMIC_MATCH_DEFAULT_MODEL_IDX0) + Idx * PMIC_SHIFT_IDX)) in
        if Idx <? PMIC_IDX4 then
          if target <? rev then acc
          else pmic_score (S i)
                 (Z.lor acc (BIT ((if rev =? target then PMIC_MATCH_EXACT_REV_IDX0
                                   else PMIC_MATCH_BEST_REV_IDX0) + Idx * PMIC_SHIFT_IDX))) vs'
        else pmic_score (S i) acc vs'
  end.
Definition best_pmic (l : list (list Z)) : Z :=
  fold_right (fun e acc => Z.max (pmic_score 0 0 e) acc) 0 l.

Definition oem_score (oem : option Z) : Z :=
  if BoardOEMVariantId board =? 0 then 0
  else match oem with
       | None => BIT OEM_FLAVOR_DEFAULT_MATCH
       | Some v => if v mod 256 =? BoardOEMVariantId board then BIT OEM_FLAVOR_EXACT_MATCH
                   else BIT NONE_MATCH
       end.

(** The match value of a tree.  It ranks the trees; which of them fit at all is
    said by [suits] below, from the table in front of [ReadDtbFindMatch]: a PMIC
    of another model or another OEM id lowers the value, where the table rules
    the tree out. *)
Definition score (t : tree_ids) : Z :=
  let plat := best_plat (ti_msm t) in
  if bool_decide (ti_msm t <> []) && (plat =? 0) then 0
  else match default (Some 0) (board_score <$> ti_board t) with
       | None => BIT NONE_MATCH
       | Some b => Z.lor (Z.lor (Z.lor plat b) (best_pmic (ti_pmic t))) (oem_score (ti_oem t))
       end.

(** The selection table: which ids a tree for this board may have.  The platform
    is the board's, of its foundry or of none, and not newer than its chip; the
    variant is the board's, its version not newer, of its subtype or of none;
    each PMIC is of the board's model or of none, and the first four are not
    newer; the OEM is the board's.  An id that is missing fits every board. *)
Definition platform_suits (p : Z * Z) : bool :=
  let foundry := Z.land p.1 FOUNDRY_ID_MASK in
  (Z.land p.1 SOC_MASK =? Z.land (BoardPlatformRawChipId board) SOC_MASK) &&
  ((foundry =? u32 (Z.shiftl (BoardPlatformFoundryId board) PLATFORM_FOUNDRY_SHIFT)) || (foundry =? 0)) &&
  (p.2 <=? BoardPlatformChipVersion board).

Definition variant_suits (p : Z * Z) : bool :=
  let '(variant, sub) := p in
  let subtype := Z.land (if sub =? 0 then Z.shiftr variant PLATFORM_SUBTYPE_SHIFT_ID else sub) PLATFORM_SUBTYPE_MASK in
  let not_newer mask := Z.land variant mask <=? Z.land (BoardTargetId board) mask in
  (Z.land variant VARIANT_MASK =? BoardPlatformType board) &&
  not_newer VARIANT_MAJOR_MASK && not_newer VARIANT_MINOR_MASK &&
  ((subtype =? BoardPlatformSubType board) || (subtype =? 0)).

Definition pmic_suits (e : list Z) : bool :=
  forallb (fun iv : nat * Z =>
    let Idx := Z.of_nat iv.1 in
    let model := Z.land iv.2 PMIC_MODEL_MASK in
    ((model =? BoardPmicModel board Idx) || (model =? 0)) &&
    ((PMIC_IDX4 <=? Idx) || (Z.land iv.2 PMIC_REV_MASK <=? Z.land (BoardPmicTarget board Idx) PMIC_REV_MASK)))
    (imap pair e).

Definition suits (t : tree_ids) : bool :=
  (bool_decide (ti_msm t = []) || existsb platform_suits (ti_msm t)) &&
  (match ti_board t with None => true | Some p => variant_suits p end) &&
  (bool_decide (ti_pmic t = []) || existsb pmic_suits (ti_pmic t)) &&
  ((BoardOEMVariantId board =? 0) ||
   match ti_oem t with None => true | Some v => v mod 256 =? BoardOEMVariantId board end).
End Score.

(** * Reading the words of a property *)

Lemma words_cons w l : words (w :: l) = be_put 4 w ++ words l.
Proof. done. Qed.

Lemma words_app a b : words (a ++ b) = words a ++ words b.
Proof. unfold words. by rewrite map_app, join_app. Qed.

Lemma length_words l : length (words l) = (4 * length l)%nat.
Proof. induction l as [|w l IH]; [done|]. rewrite words_cons, length_app, length_be_put, IH. simpl. lia. Qed.

Lemma length_pairs l : length (pairs l) = (2 * length l)%nat.
Proof. induction l as [|w l IH]; [done|]. unfold pairs in *. simpl. rewrite IH. lia. Qed.

(** The words of [l] are in [fdt] at [p]. *)
Definition words_in (fdt : list Z) (p : Z) (l : list Z) : Prop :=
  0 <= p /\ Forall is_u32 l /\ buf_read fdt p (4 * Z.of_nat (length l)) = Some (words l).

Section Read.
Context {S R : Type} (fdt : list Z).
Implicit Types (s : S).

Lemma words_in_value p l :
  Forall is_u32 l -> buf_read fdt p (Z.of_nat (length (words l))) = Some (words l) -> words_in fdt p l.
Proof.
  intros Hl Hr. pose proof Hr as (Hp & _ & _ & _)%buf_read_Some. split; [done|]. split; [done|].
  rewrite length_words in Hr. by replace (4 * Z.of_nat (length l)) with (Z.of_nat (4 * length l)) by lia.
Qed.

Lemma words_in_app p a b :
  words_in fdt p (a ++ b) -> words_in fdt p a /\ words_in fdt (p + 4 * Z.of_nat (length a)) b.
Proof.
  intros (Hp & [Ha Hb]%Forall_app & Hr). rewrite words_app, length_app in Hr.
  pose proof (buf_read_mid [] (words a) (words b)) as H1. pose proof (buf_read_mid (words a) (words b) []) as H2.
  rewrite app_nil_r in H2. cbn [app] in H1. rewrite (length_words a) in H1, H2. rewrite (length_words b) in H2.
  rewrite (buf_read_read _ _ _ _ _ _ Hr) in H1 by (rewrite ?length_nil; lia).
  rewrite (buf_read_read _ _ _ _ _ _ Hr) in H2 by lia. rewrite length_nil, Z.add_0_r in H1.
  split; (split; [lia|]); (split; [done|]).
  - rewrite <- H1. f_equal. lia.
  - rewrite <- H2. f_equal; lia.
Qed.

Lemma words_in_word p w l s : words_in fdt p (w :: l) -> fdt32 (R := R) fdt p s = (Go w, s).
Proof.
  intros H. apply (words_in_app p [w] l) in H as [(_ & Hw & Hr) _]. apply fdt32_word. unfold word.
  replace (buf_read fdt p 4) with (Some (words [w])) by (by rewrite <- Hr).
  simpl. f_equal. rewrite words_cons. change (words []) with (@nil Z). rewrite app_nil_r.
  apply be_get_put_small. by inversion Hw.
Qed.

Lemma words_in_tail p w l : words_in fdt p (w :: l) -> words_in fdt (p + 4) l.
Proof. intros H. by apply (words_in_app p [w] l) in H as [_ H]. Qed.
End Read.

(** * The root of a tree *)

Section Root.
Context {S R : Type} (fdt : list Z) (off : Z) (root : dnode) (strs : Z -> list Z) (total version : Z).
Context (T : tree_blob fdt off root strs total version).
Implicit Types (s : S).

Lemma root_path s : fdt_path_offset (R := R) fdt (L "/") s = (Go 0, s).
Proof.
  unfold fdt_path_offset, fdt_rounds. cbn [path_offset].
  by rewrite (bind_go _ _ _ _ _ (header_checked _ _ _ _ _ _ T s)).
Qed.

(** A property of the root. *)
Definition root_prop (q : list Z) : option (list Z) := lookup_prop strs (node_props root) q.

Lemma root_names : Forall (fun p => str_at fdt p.1 (strs p.1)) (node_props root).
Proof.
  apply Forall_forall. intros [no v] Hp. apply (tb_names _ _ _ _ _ _ T no v).
  destruct root as [name ps cs]. cbn [flatten node_props] in *. right.
  apply elem_of_app. left. unfold prop_toks. apply list_elem_of_fmap. by exists (no, v).
Qed.

Lemma getprop_none q s :
  root_prop q = None -> Forall (fun c => c <> 0) q ->
  fdt_getprop (R := R) fdt 0 q s = (Go (None, - FDT_ERR_NOTFOUND), s).
Proof.
  intros Hp Hq. destruct (getprop_at (R := R) _ _ _ _ _ (tb_holds _ _ _ _ _ _ T)
    (tb_toks _ _ _ _ _ _ T) strs [] [TEnd] root q s) as (r & Hr & Hl); [done|by apply root_names|done|].
  unfold root_prop in Hp. rewrite Hp in Hl. by subst r.
Qed.

Lemma getprop_some q v s :
  root_prop q = Some v -> Forall (fun c => c <> 0) q ->
  exists p, fdt_getprop (R := R) fdt 0 q s = (Go (Some p, Z.of_nat (length v)), s) /\
    buf_read fdt p (Z.of_nat (length v)) = Some v.
Proof.
  intros Hp Hq. destruct (getprop_at (R := R) _ _ _ _ _ (tb_holds _ _ _ _ _ _ T)
    (tb_toks _ _ _ _ _ _ T) strs [] [TEnd] root q s) as (r & Hr & Hl); [done|by apply root_names|done|].
  unfold root_prop in Hp. rewrite Hp in Hl. destruct Hl as (p & -> & Hv). by exists p.
Qed.
End Root.

(** Names in the source are without a terminator inside. *)
Ltac no_nul := vm_compute; repeat constructor; discriminate.

(** What no part of the match changes, with the sizes of the arrays. *)
Definition info_of (a : Z) (d : DtInfo) : Prop :=
  Dtb d = a /\ length (DtPmicModel d) = 15%nat /\ length (DtPmicRev d) = 15%nat.

Lemma bits_pair (a b : bool) x y l :
  negb (a && b) = true -> bits ((a, x) :: (b, y) :: l) =
  Z.lor (if a then BIT x else if b then BIT y else 0) (bits l).
Proof. destruct a, b; simpl; try done; intros _; by rewrite ?Z.lor_0_l. Qed.

Lemma bits_one (a : bool) x l : bits ((a, x) :: l) = Z.lor (if a then BIT x else 0) (bits l).
Proof. done. Qed.

Lemma add_if (c : bool) b d :
  DtMatchVal (if c then add_match b d else d) = Z.lor (DtMatchVal d) (if c then BIT b else 0).
Proof. destruct c; [done|]. by rewrite Z.lor_0_r. Qed.

Lemma add_if_else (c e : bool) b x d :
  DtMatchVal (if c then add_match b d else if e then add_match x d else d) =
  Z.lor (DtMatchVal d) (if c then BIT b else if e then BIT x else 0).
Proof. destruct c, e; try done; by rewrite Z.lor_0_r. Qed.

Lemma eq_or_below a b : negb ((a =? b) && (a <? b)) = true.
Proof. destruct (Z.eqb_spec a b), (Z.ltb_spec a b); try done; lia. Qed.

Lemma BIT_pos b : 0 <= b -> 0 < BIT b.
Proof. intros. unfold BIT. rewrite Z.shiftl_1_l. lia. Qed.

Lemma bits_nonneg l : Forall (fun cb => 0 <= cb.2) l -> 0 <= bits l.
Proof.
  induction 1 as [|[c b] l Hb _ IH]; [done|]. rewrite bits_one. apply Z.lor_nonneg. split; [|done].
  destruct c; [|done]. pose proof (BIT_pos b Hb). lia.
Qed.

Section Match.
Context {S R : Type} (board : BoardInfo) (fdt : list Z).
Implicit Types (s : S).

Lemma plat_at a cur p id rev l len s :
  words_in fdt p (id :: rev :: l) -> 0 < len -> Z.rem len PLAT_ID_SIZE = 0 ->
  info_of a cur -> DtMatchVal cur = 0 ->
  exists st cur', GetPlatformMatchDtb (R := R) board fdt cur (Some p) len PLAT_ID_SIZE s = (Go (st, cur'), s) /\
    info_of a cur' /\
    match plat_score board (id, rev) with
    | Some v => st = EFI_SUCCESS /\ DtMatchVal cur' = v
    | None => st = EFI_NOT_FOUND
    end.
Proof.
  intros Hw Hlen Hrem Ha Hm. unfold GetPlatformMatchDtb.
  rewrite Z.gtb_ltb, (proj2 (Z.ltb_lt _ _) Hlen), (proj2 (Z.eqb_eq _ _) Hrem). cbn [andb].
  rewrite (bind_go _ _ _ _ _ (words_in_word _ _ _ _ _ Hw)). unfold plat_score. cbn [fst snd].
  destruct (Z.land (BoardPlatformRawChipId board) SOC_MASK =? Z.land id SOC_MASK); cycle 1.
  { do 2 eexists. split; [done|]. by split. }
  cbn [negb orb].
  rewrite (bind_go _ _ _ _ _ (words_in_word _ _ _ _ _ (words_in_tail _ _ _ _ Hw))).
  set (own := u32 _). set (f := Z.land id FOUNDRY_ID_MASK).
  set (c2 := if rev =? BoardPlatformChipVersion board then add_match _ _ else _).
  assert (H2 : info_of a c2 /\ DtMatchVal c2 = Z.lor (BIT SOC_MATCH)
    (if rev =? BoardPlatformChipVersion board then BIT VERSION_EXACT_MATCH
     else if rev <? BoardPlatformChipVersion board then BIT VERSION_BEST_MATCH else 0)).
  { split; [unfold c2; by destruct (rev =? BoardPlatformChipVersion board), (rev <? BoardPlatformChipVersion board)|]. unfold c2. rewrite add_if_else.
    cbn [set_plat add_match set_match DtMatchVal]. by rewrite Hm, Z.lor_0_l. }
  clearbody c2. destruct H2 as [Ha2 Hm2].
  rewrite bits_one, bits_pair by apply eq_or_below.
  destruct (f =? own) eqn:Ef; cbn [negb andb orb].
  - do 2 eexists. split; [done|]. split; [done|]. split; [done|].
    cbn [add_match set_match set_plat DtMatchVal]. rewrite Hm2. simpl bits.
    by rewrite ?Z.lor_0_r, ?Z.lor_0_l, ?Z.lor_assoc.
  - destruct (f =? 0); cbn [negb]; (do 2 eexists; split; [done|]; split; [done|]); [|done].
    split; [done|]. cbn [add_match set_match set_plat DtMatchVal]. rewrite Hm2. simpl bits.
    by rewrite ?Z.lor_0_r, ?Z.lor_0_l, ?Z.lor_assoc.
Qed.

Lemma plat_score_nonneg p v : plat_score board p = Some v -> 0 <= v.
Proof.
  unfold plat_score. destruct (_ || _); [done|]. intros Hb. apply (inj Some) in Hb as <-.
  apply bits_nonneg. by rewrite !Forall_cons.
Qed.

Lemma best_plat_nonneg l : 0 <= best_plat board l.
Proof. induction l; simpl; lia. Qed.

Lemma plat_loop a P len l : forall k cur temp s,
  words_in fdt (P + k * PLAT_ID_SIZE) (pairs l) -> len = (k + Z.of_nat (length l)) * PLAT_ID_SIZE ->
  info_of a cur -> info_of a temp -> 0 <= DtMatchVal temp ->
  exists cur' temp', for_up (R := R) (length l) k (cur, temp) (plat_step board fdt P len) s = (Go (cur', temp'), s) /\
    info_of a temp' /\ DtMatchVal temp' = Z.max (DtMatchVal temp) (best_plat board l).
Proof.
  unfold PLAT_ID_SIZE in *. induction l as [|[id rev] l IH]; intros k cur temp s Hw Hlen Hc Ht Hm.
  - exists cur, temp. split; [done|]. split; [done|]. simpl. lia.
  - destruct (plat_at a (set_match NONE_MATCH cur) (P + k * PLAT_ID_SIZE) id rev (pairs l)
      (len - k * PLAT_ID_SIZE) s) as (st & cur' & Hr & Ha' & Hs); [done| | |done|done|].
    { unfold PLAT_ID_SIZE. simpl length in Hlen. lia. }
    { unfold PLAT_ID_SIZE. simpl length in Hlen. subst len.
      replace ((k + _) * 8 - k * 8) with (Z.of_nat (Datatypes.S (length l)) * 8) by lia. apply Z.rem_mul. lia. }
    set (temp' := if (st =? EFI_SUCCESS) && (DtMatchVal cur' >? DtMatchVal temp) then cur' else temp).
    assert (Ht' : info_of a temp' /\
      DtMatchVal temp' = Z.max (DtMatchVal temp) (default 0 (plat_score board (id, rev)))).
    { unfold temp'. destruct (plat_score board (id, rev)) as [v|]; simpl default.
      - destruct Hs as [-> <-]. rewrite Z.eqb_refl, Z.gtb_ltb. cbn [andb].
        destruct (Z.ltb_spec (DtMatchVal temp) (DtMatchVal cur')); split; try done; lia.
      - subst st. split; [done|]. simpl. lia. }
    assert (Hstep : plat_step (R := R) board fdt P len k (cur, temp) s = (Go (false, (cur', temp')), s)).
    { unfold plat_step. by rewrite (bind_go _ _ _ _ _ Hr). }
    clearbody temp'. destruct Ht' as [Ht'1 Ht'2].
    cbn [length for_up]. rewrite (bind_go _ _ _ _ _ Hstep). cbn [fst snd].
    destruct (IH (k + 1) cur' temp' s) as (c2 & t2 & Hr2 & Ht2 & Hm2); [|simpl length in Hlen; lia|done|done|lia|].
    { apply (words_in_app _ _ [id; rev]) in Hw as [_ Hw]. unfold pairs.
      replace (P + (k + 1) * 8) with (P + k * 8 + 4 * Z.of_nat (length [id; rev])) by (simpl; lia). done. }
    exists c2, t2. split; [exact Hr2|]. split; [done|]. rewrite Hm2, Ht'2. simpl. lia.
Qed.

Lemma match_variant_val d a :
  info_of a d -> info_of a (match_variant board d) /\ DtVariantId (match_variant board d) = DtVariantId d /\
  DtPlatformSubtype (match_variant board d) = DtPlatformSubtype d /\
  DtMatchVal (match_variant board d) = Z.lor (DtMatchVal d)
    (bits [ (DtVariantMajor d =? Z.land (BoardTargetId board) VARIANT_MAJOR_MASK, VARIANT_MAJOR_EXACT_MATCH);
            (DtVariantMajor d <? Z.land (BoardTargetId board) VARIANT_MAJOR_MASK, VARIANT_MAJOR_BEST_MATCH);
            (DtVariantMinor d =? Z.land (BoardTargetId board) VARIANT_MINOR_MASK, VARIANT_MINOR_EXACT_MATCH);
            (DtVariantMinor d <? Z.land (BoardTargetId board) VARIANT_MINOR_MASK, VARIANT_MINOR_BEST_MATCH);
            (DtPlatformSubtype d =? BoardPlatformHlosSubType board, HLOS_SUBTYPE_EXACT_MATCH) ]).
Proof.
  intros Ha. rewrite !bits_pair by apply eq_or_below. unfold match_variant.
  set (d1 := if DtVariantMajor d =? _ then _ else _).
  assert (H1 : info_of a d1 /\ DtVariantId d1 = DtVariantId d /\ DtVariantMinor d1 = DtVariantMinor d /\
    DtPlatformSubtype d1 = DtPlatformSubtype d).
  { unfold d1. destruct (DtVariantMajor d =? _); [done|]. by destruct (DtVariantMajor d <? _). }
  destruct H1 as (Ha1 & Hv1 & Hn1 & Hs1).
  set (d2 := if DtVariantMinor d1 =? _ then _ else _).
  assert (H2 : info_of a d2 /\ DtVariantId d2 = DtVariantId d /\ DtPlatformSubtype d2 = DtPlatformSubtype d).
  { unfold d2. destruct (DtVariantMinor d1 =? _); [done|]. by destruct (DtVariantMinor d1 <? _). }
  destruct H2 as (Ha2 & Hv2 & Hs2).
  split_and!; [destruct (DtPlatformSubtype d2 =? _); assumption..|].
  rewrite add_if, Hs2. unfold d2. rewrite add_if_else, Hn1. unfold d1. rewrite add_if_else.
  simpl bits. by rewrite Z.lor_0_r, !Z.lor_assoc.
Qed.

Lemma match_subtype_val d a :
  info_of a d ->
  let sub := Z.land (DtPlatformSubtype d) PLATFORM_SUBTYPE_MASK in
  let own := sub =? BoardPlatformSubType board in
  info_of a (match_subtype board d).2 /\
  if negb own && negb (sub =? 0)
  then (match_subtype board d).1 = EFI_NOT_FOUND /\ DtMatchVal (match_subtype board d).2 = BIT NONE_MATCH
  else (match_subtype board d).1 = EFI_SUCCESS /\
    DtMatchVal (match_subtype board d).2 = Z.lor (DtMatchVal d)
      (bits [ (own, SUBTYPE_EXACT_MATCH); (negb own, SUBTYPE_DEFAULT_MATCH);
              (Z.land (DtPlatformSubtype d) DDR_MASK =? Z.land (BoardPlatformHlosSubType board) DDR_MASK,
               DDR_MATCH) ]).
Proof.
  intros Ha sub own. rewrite bits_pair by (by destruct own). unfold match_subtype. fold sub. fold own.
  destruct (negb own && negb (sub =? 0)); [done|]. cbn [fst snd].
  split; [destruct (Z.land _ DDR_MASK =? _); exact Ha|]. split; [done|]. rewrite add_if. simpl bits. rewrite Z.lor_0_r, Z.lor_assoc.
  by destruct own.
Qed.

Lemma board_at a cur p variant sub l len s :
  words_in fdt p (variant :: sub :: l) -> 0 < len -> Z.rem len BOARD_ID_SIZE = 0 -> info_of a cur ->
  exists st cur', GetBoardMatchDtb (R := R) board fdt cur (Some p) len s = (Go (st, cur'), s) /\
    info_of a cur' /\
    match board_score board (variant, sub) with
    | Some v => st = EFI_SUCCESS /\ DtMatchVal cur' = Z.lor (DtMatchVal cur) v
    | None => st <> EFI_SUCCESS /\ DtMatchVal cur' = BIT NONE_MATCH
    end.
Proof.
  intros Hw Hlen Hrem Ha. unfold GetBoardMatchDtb.
  rewrite Z.gtb_ltb, (proj2 (Z.ltb_lt _ _) Hlen), (proj2 (Z.eqb_eq _ _) Hrem). cbn [andb].
  rewrite (bind_go _ _ _ _ _ (words_in_word _ _ _ _ _ Hw)).
  rewrite (bind_go _ _ _ _ _ (words_in_word _ _ _ _ _ (words_in_tail _ _ _ _ Hw))).
  unfold board_score. set (sub' := if sub =? 0 then _ else _).
  set (d0 := set_board _ _ _ _ cur). change (DtVariantId d0) with (Z.land variant VARIANT_MASK).
  set (own := Z.land variant VARIANT_MASK =? BoardPlatformType board).
  destruct (negb own && negb (Z.land variant VARIANT_MASK =? 0)); cbn [orb].
  { do 2 eexists. split; [done|]. by split. }
  set (d1 := if own then add_match VARIANT_MATCH d0 else d0).
  assert (H1 : info_of a d1 /\ DtMatchVal d1 = Z.lor (DtMatchVal cur) (if own then BIT VARIANT_MATCH else 0) /\
    DtVariantMajor d1 = Z.land variant VARIANT_MAJOR_MASK /\
    DtVariantMinor d1 = Z.land variant VARIANT_MINOR_MASK /\ DtPlatformSubtype d1 = sub').
  { unfold d1. rewrite add_if. by destruct own. }
  clearbody d1. destruct H1 as (Ha1 & Hm1 & Hmaj & Hmin & Hsub).
  destruct (match_variant_val d1 a Ha1) as (Ha2 & _ & Hsub2 & Hm2). rewrite Hmaj, Hmin, Hsub in Hm2.
  destruct (match_subtype_val (match_variant board d1) a Ha2) as [Ha3 Hm3]. rewrite Hsub2, Hsub in Hm3.
  rewrite (surjective_pairing (match_subtype board (match_variant board d1))).
  do 2 eexists. split; [done|]. split; [done|].
  destruct (negb _ && negb _); destruct Hm3 as [-> Hm3]; [done|]. split; [done|].
  rewrite Hm3, Hm2, Hm1. simpl bits. by rewrite ?Z.lor_0_r, !Z.lor_assoc.
Qed.

(** ** PMICs *)

Definition pmic_ok (d : PmicIdInfo) : Prop := length (pi_Model d) = 15%nat /\ length (pi_Rev d) = 15%nat.

Lemma elem_in (l : list Z) (i : nat) s :
  (i < length l)%nat -> exists v, elem (R := R) l (Z.of_nat i) s = (Go v, s).
Proof.
  intros Hi. unfold elem. rewrite (proj2 (Z.leb_le _ _)) by lia. rewrite Nat2Z.id.
  destruct (lookup_lt_is_Some_2 l i Hi) as [v ->]. by exists v.
Qed.

Lemma set_elem_in (l : list Z) (i : nat) v s :
  (i < length l)%nat -> set_elem (R := R) l (Z.of_nat i) v s = (Go (<[i := v]> l), s).
Proof.
  intros Hi. unfold set_elem. rewrite (proj2 (Z.leb_le _ _)) by lia.
  by rewrite (proj2 (Z.ltb_lt _ _)), Nat2Z.id by lia.
Qed.

(** One step, and what it does to the match value. *)
Lemma pmic_step_at P i v l cur s :
  words_in fdt (P + 4 * Z.of_nat i) (v :: l) -> (i < 15)%nat -> pmic_ok cur ->
  exists b cur', pmic_step (R := R) board fdt P (Z.of_nat i) cur s = (Go (b, cur'), s) /\ pmic_ok cur' /\
    pmic_score board i (pi_MatchVal cur) (v :: l) =
    if b then pi_MatchVal cur' else pmic_score board (Datatypes.S i) (pi_MatchVal cur') l.
Proof.
  intros Hw Hi [Hm Hr]. unfold pmic_step.
  rewrite (bind_go _ _ _ _ _ (words_in_word _ _ _ _ _ Hw)).
  destruct (elem_in (pi_Model cur) i s) as [x Hx]; [lia|]. rewrite (bind_go _ _ _ _ _ Hx).
  erewrite (bind_go _ _ _ _ _ (set_elem_in _ _ _ _ _)). erewrite (bind_go _ _ _ _ _ (set_elem_in _ _ _ _ _)).
  Unshelve. 2-3: lia.
  cbn [pmic_score].
  set (own := Z.land v PMIC_MODEL_MASK =? _). set (rev := Z.land v PMIC_REV_MASK).
  set (target := Z.land (BoardPmicTarget board _) _). cbn [pi_MatchVal].
  assert (Hok : forall m, pmic_ok (mkPmicId (<[i:=Z.land v PMIC_MODEL_MASK]> (pi_Model cur))
    (<[i:=rev]> (pi_Rev cur)) m)) by (intros m; split; cbn; by rewrite length_insert).
  destruct (negb own && negb _); [do 2 eexists; by split_and!|].
  destruct (Z.of_nat i <? PMIC_IDX4); [|do 2 eexists; by split_and!].
  destruct (Z.eqb_spec rev target) as [He|He].
  - rewrite (proj2 (Z.ltb_ge target rev)) by lia. do 2 eexists. by split_and!.
  - destruct (Z.ltb_spec rev target).
    + rewrite (proj2 (Z.ltb_ge target rev)) by lia. do 2 eexists. by split_and!.
    + rewrite (proj2 (Z.ltb_lt target rev)) by lia. do 2 eexists. by split_and!.
Qed.

Lemma pmic_loop P vs : forall i cur s,
  words_in fdt (P + 4 * Z.of_nat i) vs -> (i + length vs <= 15)%nat -> pmic_ok cur ->
  exists cur', for_up (length vs) (Z.of_nat i) cur (pmic_step (R := R) board fdt P) s = (Go cur', s) /\
    pmic_ok cur' /\ pi_MatchVal cur' = pmic_score board i (pi_MatchVal cur) vs.
Proof.
  induction vs as [|v vs IH]; intros i cur s Hw Hi Hok; [by exists cur|].
  simpl in Hi. destruct (pmic_step_at P i v vs cur s Hw) as (b & cur' & Hr & Hok' & Hs); [lia|done|].
  rewrite Hs. cbn [length for_up]. rewrite (bind_go _ _ _ _ _ Hr). cbn [fst snd].
  destruct b; [by exists cur'|].
  replace (Z.of_nat i + 1) with (Z.of_nat (Datatypes.S i)) by lia. apply IH; [|lia|done].
  apply words_in_tail in Hw. by replace (P + 4 * Z.of_nat (Datatypes.S i)) with (P + 4 * Z.of_nat i + 4) by lia.
Qed.

Lemma pmic_tie_at w best cur s :
  (w <= 15)%nat -> pmic_ok best -> pmic_ok cur ->
  pmic_tie (R := R) (Z.of_nat w) best cur s = (Go best, s) \/
  pmic_tie (R := R) (Z.of_nat w) best cur s = (Go cur, s).
Proof.
  intros Hw Hb Hc. unfold pmic_tie. rewrite u32_small, Nat2Z.id by lia.
  assert (H : exists i, 0 = Z.of_nat i /\ (i + w <= 15)%nat) by (exists 0%nat; lia).
  destruct H as (i & -> & Hi). revert i Hi best Hb.
  induction w as [|w IH]; intros i Hi best Hb; [by left|].
  cbn [for_up]. destruct (elem_in (pi_Rev best) i s) as [x Hx]; [destruct Hb; lia|].
  destruct (elem_in (pi_Rev cur) i s) as [y Hy]; [destruct Hc; lia|].
  set (best' := if x <? y then cur else best).
  assert (Hstep : (b ← elem (pi_Rev best) (Z.of_nat i); c ← elem (pi_Rev cur) (Z.of_nat i);
    mret (false, if b <? c then cur else best) : M S R (bool * PmicIdInfo)) s = (Go (false, best'), s)).
  { by rewrite (bind_go _ _ _ _ _ Hx), (bind_go _ _ _ _ _ Hy). }
  rewrite (bind_go _ _ _ _ _ Hstep). cbn [fst snd].
  replace (Z.of_nat i + 1) with (Z.of_nat (Datatypes.S i)) by lia.
  destruct (IH ltac:(lia) (Datatypes.S i) ltac:(lia) best' ltac:(unfold best'; by destruct (x <? y))) as [->| ->].
  - unfold best'. destruct (x <? y); auto.
  - auto.
Qed.

Lemma pmic_entry_at P e best s :
  words_in fdt P e -> (length e <= 15)%nat -> pmic_ok best ->
  exists best', pmic_entry (R := R) board fdt (Z.of_nat (length e)) P best s = (Go best', s) /\
    pmic_ok best' /\ pi_MatchVal best' = Z.max (pi_MatchVal best) (pmic_score board 0 0 e).
Proof.
  intros Hw He Hb. unfold pmic_entry. rewrite (u32_small (Z.of_nat (length e))), Nat2Z.id by lia.
  destruct (pmic_loop P e 0 no_pmic s) as (cur & Hr & Hc & Hm); [by rewrite Z.add_0_r|lia|done|].
  rewrite (bind_go _ _ _ _ _ Hr). change (pi_MatchVal no_pmic) with 0 in Hm. rewrite <- Hm.
  destruct (Z.ltb_spec (pi_MatchVal best) (pi_MatchVal cur)).
  - exists cur. split_and!; [done|exact Hc|lia].
  - destruct (Z.eqb_spec (pi_MatchVal best) (pi_MatchVal cur)) as [Heq|_].
    + destruct (pmic_tie_at (length e) best cur s He Hb Hc) as [-> | ->]; eexists;
        (split; [done|]); (split; [done|lia]).
    + exists best. split_and!; [done|exact Hb|lia].
Qed.

Lemma pmic_entries P w l : forall k best s,
  words_in fdt (P + k * (4 * Z.of_nat w)) (mjoin l) -> Forall (fun e => length e = w) l ->
  (w <= 15)%nat -> pmic_ok best ->
  exists best', for_up (length l) k best (fun PmicEntIdx best =>
      best ← pmic_entry (R := R) board fdt (Z.of_nat w) (P + PmicEntIdx * (4 * Z.of_nat w)) best;
      mret (false, best)) s = (Go best', s) /\ pmic_ok best' /\
    (0 <= pi_MatchVal best -> pi_MatchVal best' = Z.max (pi_MatchVal best) (best_pmic board l)).
Proof.
  induction l as [|e l IH]; intros k best s Hw Hl Hwd Hb.
  - exists best. split; [done|]. split; [done|]. simpl. lia.
  - apply Forall_cons in Hl as [He Hl]. cbn [length for_up mjoin list_join] in *.
    apply words_in_app in Hw as [Hw1 Hw2].
    destruct (pmic_entry_at _ e best s Hw1) as (b1 & Hr & Hb1 & Hm1); [lia|done|]. rewrite He in Hr.
    rewrite (bind_go _ _ _ _ _ (bind_go _ _ _ _ _ Hr)). cbn [fst snd].
    destruct (IH (k + 1) b1 s) as (b2 & Hr2 & Hb2 & Hm2); [|done|done|done|].
    { by replace (P + (k + 1) * (4 * Z.of_nat w)) with (P + k * (4 * Z.of_nat w) + 4 * Z.of_nat (length e)) by lia. }
    exists b2. split; [exact Hr2|]. split; [done|]. intros H0. rewrite Hm2 by lia. simpl. lia.
Qed.

Lemma read_best_pmic P w l s :
  words_in fdt P (mjoin l) -> Forall (fun e => length e = w) l -> (w <= 15)%nat ->
  exists best, ReadBestPmicMatch (R := R) board fdt P (Z.of_nat w) (Z.of_nat (length l)) s = (Go best, s) /\
    pmic_ok best /\ pi_MatchVal best = best_pmic board l.
Proof.
  intros Hw Hl Hwd. unfold ReadBestPmicMatch. rewrite Nat2Z.id.
  destruct (pmic_entries P w l 0 no_pmic s) as (b & Hr & Hb & Hm); [by rewrite Z.add_0_r|done..|].
  exists b. split; [done|]. split; [done|]. rewrite Hm by done. simpl.
  assert (0 <= best_pmic board l) by (clear; induction l; simpl; lia). lia.
Qed.

Lemma copy_elems_at n dst src s :
  (n <= 15)%nat -> length dst = 15%nat -> length src = 15%nat ->
  exists l, copy_elems (R := R) (Z.of_nat n) dst src s = (Go l, s) /\ length l = 15%nat.
Proof.
  intros Hn Hd Hs. unfold copy_elems. rewrite u32_small, Nat2Z.id by lia.
  assert (H : exists i, 0 = Z.of_nat i /\ (i + n <= 15)%nat) by (exists 0%nat; lia).
  destruct H as (i & -> & Hi). clear Hn. revert i Hi dst Hd.
  induction n as [|n IH]; intros i Hi dst Hd; [by exists dst|].
  cbn [for_up]. destruct (elem_in src i s) as [v Hv]; [lia|].
  rewrite (bind_go _ _ _ _ _ (eq_trans (bind_go _ _ _ _ _ Hv)
    (bind_go _ _ _ _ _ (set_elem_in dst i v s ltac:(lia))))). cbn [fst snd].
  replace (Z.of_nat i + 1) with (Z.of_nat (Datatypes.S i)) by lia. apply IH; [lia|]. by rewrite length_insert.
Qed.
End Match.


Lemma oem_byte v : Z.shiftr (Z.land (le_get (be_put 4 v)) OEM_ID_MASK) OEM_ID_SHIFT = v mod 256.
Proof.
  assert (Hb : exists b1 b2 b3, is_u8 b1 /\ is_u8 b2 /\ is_u8 b3 /\ be_put 4 v = [b1; b2; b3; v mod 256]).
  { exists (Z.land (Z.shiftr (Z.shiftr (Z.shiftr v 8) 8) 8) 255), (Z.land (Z.shiftr (Z.shiftr v 8) 8) 255),
      (Z.land (Z.shiftr v 8) 255). split_and!; [apply land_255_u8..|].
    unfold be_put. simpl. by rewrite (land_255 v). }
  destruct Hb as (b1 & b2 & b3 & H1 & H2 & H3 & ->).
  assert (H0 : is_u8 (v mod 256)) by (unfold is_u8; change (2 ^ 8) with 256; apply Z.mod_pos_bound; lia).
  generalize dependent (v mod 256). intros b0 H0. unfold is_u8 in *.
  cbn [le_get]. rewrite !lor_shiftl_add by done. unfold OEM_ID_MASK, OEM_ID_SHIFT.
  rewrite Z.shiftr_land. change (Z.shiftr 0xff000000 24) with 255. rewrite land_255, Z.shiftr_div_pow2 by lia.
  replace (_ / 2 ^ 24) with b0; [apply Z.mod_small; lia|].
  apply Z.div_unique with (b1 + 256 * b2 + 256 * 256 * b3); change (2 ^ 24) with 16777216; lia.
Qed.

(** * The whole tree *)

Section Whole.
Context {S R : Type} (board : BoardInfo).
Context (fdt : list Z) (off : Z) (root : dnode) (strs : Z -> list Z) (total version : Z) (t : tree_ids).
Context (T : tree_blob fdt off root strs total version) (I : has_ids (root_prop root strs) t).
Implicit Types (s : S).

Lemma quot_words n k : 0 < k -> Z.quot (k * Z.of_nat n) k = Z.of_nat n.
Proof. intros. rewrite Z.mul_comm. apply Z.quot_mul. lia. Qed.

Lemma match_platform_at a cur s :
  info_of a cur -> DtMatchVal cur = 0 ->
  exists cur', match_platform (R := R) board fdt 0 cur s =
      (Go (negb (bool_decide (ti_msm t <> []) && (best_plat board (ti_msm t) =? 0)), cur'), s) /\
    info_of a cur' /\ DtMatchVal cur' = best_plat board (ti_msm t).
Proof.
  intros Ha Hm. pose proof (hi_msm _ _ I) as Hp. destruct (hi_words _ _ I) as [Hw _].
  destruct (hi_small _ _ I) as [Hs _]. unfold match_platform. destruct (ti_msm t) as [|x l] eqn:E.
  { rewrite (bind_go _ _ _ _ _ (getprop_none _ _ _ _ _ _ T _ _ Hp ltac:(no_nul))). cbn [fst snd].
    exists cur. split; [done|]. split; [done|]. by rewrite Hm. }
  destruct (getprop_some (R := R) _ _ _ _ _ _ T _ _ s Hp ltac:(no_nul)) as (p & Hr & Hv).
  rewrite (bind_go _ _ _ _ _ Hr). cbn [fst snd]. set (l' := x :: l) in *.
  assert (Hlen : Z.of_nat (length (words (pairs l'))) = PLAT_ID_SIZE * Z.of_nat (length l')).
  { rewrite length_words, length_pairs. unfold PLAT_ID_SIZE. lia. }
  rewrite Hlen in *. unfold PLAT_ID_SIZE in Hlen, Hs.
  rewrite Z.gtb_ltb, (proj2 (Z.ltb_lt 0 _)) by (unfold PLAT_ID_SIZE, l'; simpl; lia).
  rewrite (Z.mul_comm PLAT_ID_SIZE), Z.rem_mul by done. cbn [andb Z.eqb].
  rewrite Z.quot_mul by done. rewrite u32_small by lia. rewrite Nat2Z.id.
  destruct (plat_loop (R := R) board fdt a p (Z.of_nat (length l') * PLAT_ID_SIZE) l' 0 cur (set_match NONE_MATCH cur) s)
    as (c & temp & Hl & Ht & Hmt); [|lia|done|done|done|].
  { rewrite Z.mul_0_l, Z.add_0_r. apply words_in_value; [done|]. rewrite length_words, length_pairs.
    rewrite <- Hv. f_equal. unfold PLAT_ID_SIZE. lia. }
  rewrite (bind_go _ _ _ _ _ Hl). cbn [fst snd]. exists temp.
  pose proof (best_plat_nonneg board l'). change (DtMatchVal (set_match NONE_MATCH cur)) with 0 in Hmt.
  rewrite Z.max_r in Hmt by done. rewrite Hmt. rewrite bool_decide_true by done. by split.
Qed.

Lemma match_board_at a cur s :
  info_of a cur ->
  exists q st cur', fdt_getprop (R := R) fdt 0 (L "qcom,board-id") s = (Go q, s) /\
    GetBoardMatchDtb (R := R) board fdt cur q.1 q.2 s = (Go (st, cur'), s) /\ info_of a cur' /\
    match default (Some 0) (board_score board <$> ti_board t) with
    | Some b => st = EFI_SUCCESS /\ DtMatchVal cur' = Z.lor (DtMatchVal cur) b
    | None => st <> EFI_SUCCESS /\ DtMatchVal cur' = BIT NONE_MATCH
    end.
Proof.
  intros Ha. pose proof (hi_board _ _ I) as Hp. destruct (hi_words _ _ I) as (_ & _ & Hw).
  destruct (ti_board t) as [[variant sub]|]; cycle 1.
  { exists (None, - FDT_ERR_NOTFOUND), EFI_SUCCESS, cur.
    split; [by apply (getprop_none _ _ _ _ _ _ T _ _ Hp ltac:(no_nul))|]. split; [done|]. split; [done|]. split; [done|]. by rewrite Z.lor_0_r. }
  destruct Hp as [more Hp].
  destruct (getprop_some (R := R) _ _ _ _ _ _ T _ _ s Hp ltac:(no_nul)) as (p & Hr & Hv).
  destruct (board_at (R := R) board fdt a cur p variant sub [] (Z.of_nat (length (words (pairs ((variant, sub) :: more))))) s)
    as (st & cur' & Hb & Ha' & Hs); [| | |done|].
  - destruct Hw. apply words_in_value; [by rewrite !Forall_cons|].
    change (words (pairs ((variant, sub) :: more))) with (words ([variant; sub] ++ pairs more)) in Hv.
    rewrite words_app in Hv. by apply buf_read_prefix in Hv.
  - rewrite length_words, length_pairs. simpl. lia.
  - rewrite length_words, length_pairs.
    replace (Z.of_nat _) with (Z.of_nat (length ((variant, sub) :: more)) * BOARD_ID_SIZE)
      by (unfold BOARD_ID_SIZE; lia). by apply Z.rem_mul.
  - exists (Some p, Z.of_nat (length (words (pairs ((variant, sub) :: more))))), st, cur'. done.
Qed.

Lemma pmic_width s :
  exists q, fdt_getprop (R := R) fdt 0 (L "qcom,pmic-id-size") s = (Go q, s) /\
    (match q.1 with
     | Some PmicPropSz => if q.2 >? 0 then n ← fdt32 fdt PmicPropSz; mret (s32 n) else mret PMIC_IDX4
     | None => mret PMIC_IDX4
     end : M S R Z) s = (Go (Z.of_nat (ti_width t)), s).
Proof.
  pose proof (hi_width _ _ I) as Hwd. destruct (hi_size _ _ I) as [Hp|[Hp Hw]].
  - destruct (getprop_some (R := R) _ _ _ _ _ _ T _ _ s Hp ltac:(no_nul)) as (p & Hr & Hv).
    eexists. split; [exact Hr|]. rewrite length_be_put in Hv. cbn [fst snd].
    rewrite length_be_put. change (Z.of_nat 4 >? 0) with true. cbv iota.
    rewrite (bind_go _ _ _ _ _ (fdt32_word _ _ (Z.of_nat (ti_width t)) _
      ltac:(unfold word; change 4 with (Z.of_nat 4); rewrite Hv; simpl; f_equal; apply be_get_put_small; lia))).
    by rewrite s32_small by lia.
  - exists (None, - FDT_ERR_NOTFOUND). split; [by apply (getprop_none _ _ _ _ _ _ T _ _ Hp ltac:(no_nul))|].
    by rewrite Hw.
Qed.

Lemma match_pmic_at a cur s :
  info_of a cur ->
  exists cur', match_pmic (R := R) board fdt 0 cur s = (Go (true, cur'), s) /\ info_of a cur' /\
    DtMatchVal cur' = Z.lor (DtMatchVal cur) (best_pmic board (ti_pmic t)).
Proof.
  intros Ha. pose proof (hi_pmic _ _ I) as Hp. destruct (hi_words _ _ I) as (_ & Hw & _).
  destruct (hi_small _ _ I) as [_ Hsm]. pose proof (hi_width _ _ I) as Hwd. pose proof (hi_entry _ _ I) as He.
  unfold match_pmic. destruct (ti_pmic t) as [|e l] eqn:E.
  { rewrite (bind_go _ _ _ _ _ (getprop_none _ _ _ _ _ _ T _ _ Hp ltac:(no_nul))). cbn [fst snd].
    exists cur. split; [done|]. split; [done|]. by rewrite Z.lor_0_r. }
  destruct (getprop_some (R := R) _ _ _ _ _ _ T _ _ s Hp ltac:(no_nul)) as (p & Hr & Hv).
  rewrite (bind_go _ _ _ _ _ Hr). cbn [fst snd]. set (l' := e :: l) in *.
  assert (Hlen : length (mjoin l') = (ti_width t * length l')%nat).
  { clear -He. induction He as [|x l' Hx _ IH]; [simpl; lia|]. simpl. rewrite length_app. simpl in IH. lia. }
  assert (Hn : Z.of_nat (length (words (mjoin l'))) = Z.of_nat (length l') * (4 * Z.of_nat (ti_width t))).
  { rewrite length_words, Hlen. lia. }
  assert (Hpos : 0 < Z.of_nat (length l')) by (unfold l'; simpl; lia).
  rewrite Z.gtb_ltb, (proj2 (Z.ltb_lt 0 _)) by nia.
  destruct (pmic_width s) as (q & Hq & Hqw). rewrite (bind_go _ _ _ _ _ Hq), (bind_go _ _ _ _ _ Hqw).
  rewrite (Z.mul_comm (Z.of_nat (ti_width t)) 4), u64_small, s32_small by lia.
  rewrite (proj2 (Z.eqb_neq (4 * Z.of_nat (ti_width t)) 0)) by lia. rewrite Hn.
  rewrite Z.rem_mul, Z.quot_mul by lia. cbn [Z.eqb negb]. rewrite (u32_small (Z.of_nat (length l'))) by nia.
  destruct (read_best_pmic (R := R) board fdt p (ti_width t) l' s) as (best & Hb & [Hb1 Hb2] & Hm); [|done|lia|].
  { by apply words_in_value. }
  rewrite (bind_go _ _ _ _ _ Hb). destruct Ha as (Ha & Hl1 & Hl2).
  destruct (copy_elems_at (R := R) (ti_width t) (DtPmicModel cur) (pi_Model best) s) as (ms & H1 & H1l); [lia|done..|].
  destruct (copy_elems_at (R := R) (ti_width t) (DtPmicRev cur) (pi_Rev best) s) as (rs & H2 & H2l); [lia|done..|].
  rewrite (bind_go _ _ _ _ _ H1), (bind_go _ _ _ _ _ H2). eexists. split; [done|]. split; [done|].
  by rewrite <- Hm.
Qed.

Lemma match_oem_at a cur s :
  info_of a cur ->
  exists cur', match_oem (R := R) board fdt 0 cur s = (Go cur', s) /\ info_of a cur' /\
    DtMatchVal cur' = Z.lor (DtMatchVal cur) (oem_score board (ti_oem t)).
Proof.
  intros Ha. pose proof (hi_oem _ _ I) as Hp. unfold match_oem, oem_score.
  destruct (BoardOEMVariantId board =? 0).
  { exists cur. split; [done|]. split; [done|]. by rewrite Z.lor_0_r. }
  destruct (ti_oem t) as [v|]; cycle 1.
  { rewrite (bind_go _ _ _ _ _ (getprop_none _ _ _ _ _ _ T _ _ Hp ltac:(no_nul))). by eexists. }
  destruct Hp as [more Hp].
  destruct (getprop_some (R := R) _ _ _ _ _ _ T _ _ s Hp ltac:(no_nul)) as (p & Hr & Hv).
  rewrite (bind_go _ _ _ _ _ Hr). cbn [fst snd]. rewrite length_app, length_be_put.
  rewrite Z.gtb_ltb, (proj2 (Z.ltb_lt 0 _)) by lia. apply buf_read_prefix in Hv. rewrite length_be_put in Hv.
  change 4 with (Z.of_nat 4). rewrite Hv. eexists. split; [done|]. split; [done|].
  cbn [add_match set_match set_oem DtMatchVal DtOEMVariantId]. rewrite oem_byte. by destruct (_ =? _).
Qed.

(** The match value is the score of the ids, whatever is known of the tree
    before. *)
Lemma match_tree_at a cur s :
  info_of a cur ->
  exists cur', match_tree (R := R) board fdt 0 cur s = (Go cur', s) /\ info_of a cur' /\
    DtMatchVal cur' = score board t.
Proof.
  intros Ha. unfold match_tree, score.
  destruct (match_platform_at a (set_match 0 cur) s) as (c1 & H1 & Ha1 & Hm1); [done|done|].
  rewrite (bind_go _ _ _ _ _ H1). destruct (bool_decide _ && _) eqn:Ep; cbn [negb].
  { exists c1. split; [done|]. split; [done|]. rewrite Hm1.
    apply andb_prop in Ep as [_ Ep]. bools. done. }
  destruct (match_board_at a c1 s Ha1) as (q & st & c2 & Hq & H2 & Ha2 & Hm2).
  rewrite (bind_go _ _ _ _ _ Hq), (bind_go _ _ _ _ _ H2).
  destruct (default _ _) as [b|]; destruct Hm2 as [Hst Hm2]; cycle 1.
  { rewrite (proj2 (Z.eqb_neq _ _) Hst). by exists c2. }
  rewrite (proj2 (Z.eqb_eq _ _) Hst). cbn [negb].
  destruct (match_pmic_at a c2 s Ha2) as (c3 & H3 & Ha3 & Hm3). rewrite (bind_go _ _ _ _ _ H3). cbn [negb].
  destruct (match_oem_at a c3 s Ha3) as (c4 & H4 & Ha4 & Hm4). rewrite H4. exists c4.
  split; [done|]. split; [done|]. by rewrite Hm4, Hm3, Hm2, Hm1.
Qed.

(** [ReadDtbFindMatch] on the tree. *)
Lemma find_match_at a cur best E s :
  info_of a cur ->
  exists cur', info_of a cur' /\ DtMatchVal cur' = score board t /\
    ReadDtbFindMatch (R := R) board fdt cur best E s =
    (Go (taken E best cur', cur', if taken E best cur' then cur' else best), s).
Proof.
  intros Ha. unfold ReadDtbFindMatch.
  rewrite (bind_go _ _ _ _ _ (root_path _ _ _ _ _ _ T s)). cbn [Z.ltb Z.compare].
  destruct (match_tree_at a cur s Ha) as (cur' & Hr & Ha' & Hm). rewrite (bind_go _ _ _ _ _ Hr).
  by exists cur'.
Qed.
End Whole.
