(* ===== verification/LocateSpec.v ===== *)
(** The walks of [Locate] and [DtQueue] over images made of device trees. *)
From Stdlib Require Import ZArith Lia.
From stdpp Require Import base list numbers option sets.
From S2P Require Import Prelude EfiBase Fdt FdtSpec FdtTree FdtRw FdtRwSpec DtMatch Locate DtSpec.

(** * A tree in a larger object *)

Lemma buf_read_left b rest p n d : buf_read b p n = Some d -> buf_read (b ++ rest) p n = Some d.
Proof.
  intros (Hp & Hn & Hl & ->)%buf_read_Some. apply buf_read_Some.
  rewrite length_app. split_and!; [lia..|].
  rewrite drop_app_le by lia. rewrite take_app_le; [done|]. rewrite length_drop. lia.
Qed.

Lemma buf_read_shift pre b p n d :
  buf_read b p n = Some d -> buf_read (pre ++ b) (Z.of_nat (length pre) + p) n = Some d.
Proof.
  intros (Hp & Hn & Hl & ->)%buf_read_Some. apply buf_read_Some. rewrite length_app.
  split_and!; [lia..|].
  replace (Z.to_nat (_ + p)) with (length pre + Z.to_nat p)%nat by lia. by rewrite <- drop_drop, drop_app_length.
Qed.

Lemma word_app b rest p v : word b p = Some v -> word (b ++ rest) p = Some v.
Proof.
  unfold word. intros H. destruct (buf_read b p 4) as [d|] eqn:E; [|done]. by rewrite (buf_read_left _ _ _ _ _ E).
Qed.

Lemma word_take b n p v : word b p = Some v -> p + 4 <= Z.of_nat n -> word (take n b) p = Some v.
Proof.
  unfold word. intros H Hn. destruct (buf_read b p 4) as [d|] eqn:E; [|done].
  apply buf_read_Some in E as (Hp & _ & Hl & ->).
  replace (buf_read (take n b) p 4) with (Some (take (Z.to_nat 4) (drop (Z.to_nat p) b))); [done|].
  symmetry. apply buf_read_Some. rewrite length_take. split_and!; [lia..|].
  rewrite skipn_firstn_comm, take_take. f_equal. lia.
Qed.

Lemma tree_blob_app b rest off root strs total version :
  Forall is_u8 rest -> tree_blob b off root strs total version ->
  tree_blob (b ++ rest) off root strs total version.
Proof.
  intros Hu [(block & Henc & [[Hb Ht [Hl Hl'] Ho Hv Hs] Hin Hat]) Htoks Hm Hv16 (last & Hla & Hl17) (o & n & Ho' & Hn & Hle) Hnames].
  split; [exists block; split; [done|split; [split|..]]|..]; try done.
  - by apply Forall_app.
  - by apply word_app.
  - rewrite length_app. lia.
  - by apply word_app.
  - by apply word_app.
  - by apply word_app.
  - by apply buf_read_left.
  - by apply word_app.
  - exists last. split; [by apply word_app|done].
  - exists o, n. split; [by apply word_app|]. split; [by apply word_app|done].
  - intros no v (offs & Hw & Hb1 & Hb2 & Hr)%Hnames. exists offs.
    split; [by apply word_app|]. split; [done|]. split; [done|]. by apply buf_read_left.
Qed.

Lemma word_of_take b n p v rest : word (take n b) p = Some v -> word (b ++ rest) p = Some v.
Proof.
  intros H. apply word_app. rewrite <- (take_drop n b). by apply word_app.
Qed.

Lemma header_take_app b n rest total off size offs ssize :
  header_words (take n b) total off size offs ssize -> header_words (b ++ rest) total off size offs ssize.
Proof.
  intros [? ? ? ? ? ? (v & ? & ?) (la & ? & ?) ? ? ?]. split; try done; try (by eapply word_of_take).
  - exists v. split; [by eapply word_of_take|done].
  - exists la. split; [by eapply word_of_take|done].
Qed.

(** A file that is a device tree with ids, as the build tools write it. *)
Record dtb_file (b : list Z) (t : tree_ids) : Prop := {
  df_tree : exists off root strs version,
    tree_blob b off root strs (Z.of_nat (length b)) version /\ has_ids (root_prop root strs) t;
  df_strings : exists offs ssize, word b 12 = Some offs /\ word b 32 = Some ssize /\ 0 < offs + ssize;
  df_long : 40 < Z.of_nat (length b);
  df_rsvmap : exists rsv, word b 16 = Some rsv /\ rsv <= Z.of_nat (length b);
}.

Section File.
Context (b : list Z) (t : tree_ids) (F : dtb_file b t).

Lemma file_u8 : Forall is_u8 b.
Proof. destruct (df_tree _ _ F) as (off & root & strs & version & [(? & _ & [Hok _ _]) _ _ _ _ _ _] & _). apply Hok. Qed.

Lemma file_short : Z.of_nat (length b) <= 2 ^ 31 - 4.
Proof. destruct (df_tree _ _ F) as (off & root & strs & version & [(? & _ & [Hok _ _]) _ _ _ _ _ _] & _). apply Hok. Qed.

(** Its first 40 bytes are a header that passes both checks. *)
Lemma file_header : exists off size offs ssize rsv,
  header_words (take 40 b) (Z.of_nat (length b)) off size offs ssize /\ 0 < size /\ 0 < offs + ssize /\
  word (take 40 b) 16 = Some rsv /\ rsv <= Z.of_nat (length b).
Proof.
  destruct F as [(off & root & strs & version & T & _) (o & n & Ho & Hn & Hpos) _ (rsv & Hr & Hr')].
  destruct (tree_header _ _ _ _ _ _ T) as (offs & ssize & [H1 H2 H3 H4 H5 H6 (v & H7 & Hv) (la & H8 & Hla) H9 H10 H11]).
  rewrite H5 in Ho. rewrite H6 in Hn. simplify_eq.
  exists off, (pos (tree_toks root)), o, n, rsv.
  split_and!; [|unfold tree_toks, pos; rewrite enc_app, length_app; change (length (enc [TEnd])) with 4%nat; lia
    |done|by apply word_take|done].
  split; try done; try (by apply word_take).
  - exists v. split; [by apply word_take|done].
  - exists la. split; [by apply word_take|done].
Qed.
End File.

(** [fdt_check_header_ext] at an address with room above. *)
Lemma check_ext_words {S R} start fdt total off size offs ssize rsv (s : S) :
  header_words fdt total off size offs ssize -> 0 < total -> 0 < size -> 0 < offs + ssize ->
  word fdt 16 = Some rsv -> 0 <= rsv <= total -> total < 2 ^ 31 -> 0 <= start -> start + total < 2 ^ 64 ->
  fdt_check_header_ext (R := R) start fdt s = (Go 0, s).
Proof.
  intros [_ Htot Hwo Hws Ho Hs _ _ (? & ? & ? & ? & ?) Hin Hos] Hpos Hsz Hst Hr Hr' Ht Hs0 Hs1. unfold is_u32 in *.
  unfold fdt_check_header_ext, fdt_off_dt_struct, fdt_size_dt_struct, fdt_off_dt_strings, fdt_size_dt_strings,
    fdt_totalsize, fdt_off_mem_rsvmap.
  rewrite (bind_go _ _ _ _ _ (fdt32_word _ _ _ _ Htot)), u64_small by lia.
  rewrite (proj2 (Z.leb_gt _ _)) by lia.
  rewrite (bind_go _ _ _ _ _ (fdt32_word _ _ _ _ Hwo)), (bind_go _ _ _ _ _ (fdt32_word _ _ _ _ Hws)).
  assert (Hadd : forall a c, 0 <= a -> 0 <= c -> a + c <= total -> ADD_OF a c = a + c).
  { intros a c Ha Hc Hac. unfold ADD_OF, MAX_UINT32. rewrite Z.gtb_ltb, (proj2 (Z.ltb_lt _ _)); lia. }
  assert (Hck : forall c, 0 <= c <= total -> CHECK_ADD64 start c = false).
  { intros c Hc. unfold CHECK_ADD64, MAX_UINT64. apply Z.ltb_ge. lia. }
  rewrite !Hadd, Hck, Z.gtb_ltb by lia.
  rewrite (proj2 (Z.eqb_neq (off + size) 0)), u64_small, (proj2 (Z.ltb_ge _ _)) by lia. cbn [orb].
  rewrite (bind_go _ _ _ _ _ (fdt32_word _ _ _ _ Ho)), (bind_go _ _ _ _ _ (fdt32_word _ _ _ _ Hs)).
  rewrite !Hadd, Hck, Z.gtb_ltb by lia.
  rewrite (proj2 (Z.eqb_neq (offs + ssize) 0)), u64_small, (proj2 (Z.ltb_ge _ _)) by lia. cbn [orb].
  rewrite (bind_go _ _ _ _ _ (fdt32_word _ _ _ _ Hr)), Z.gtb_ltb, u64_small, (proj2 (Z.ltb_ge _ _)) by lia.
  done.
Qed.

(** * Choosing *)

Section Choose.
Variable board : BoardInfo.

Lemma pmic_score_nonneg vs : forall i acc, 0 <= acc -> 0 <= pmic_score board i acc vs.
Proof.
  assert (Hb : forall x, 0 <= x -> 0 <= BIT x) by (intros x Hx; pose proof (BIT_pos x Hx); lia).
  induction vs as [|v vs IH]; intros i acc Ha; [done|]. cbn [pmic_score].
  unfold PMIC_MATCH_EXACT_MODEL_IDX0, PMIC_MATCH_DEFAULT_MODEL_IDX0, PMIC_MATCH_EXACT_REV_IDX0,
    PMIC_MATCH_BEST_REV_IDX0, PMIC_SHIFT_IDX.
  assert (H : forall c : bool, 0 <= Z.lor acc (BIT ((if c then 20 else 19) + Z.of_nat i * 2))).
  { intros c. apply Z.lor_nonneg. split; [done|]. apply Hb. destruct c; lia. }
  destruct (_ && _); [done|]. destruct (_ <? PMIC_IDX4); [|by apply IH].
  destruct (_ <? _); [done|]. apply IH, Z.lor_nonneg. split; [done|]. apply Hb. destruct (_ =? _); lia.
Qed.

Lemma board_score_nonneg p v : board_score board p = Some v -> 0 <= v.
Proof.
  unfold board_score. destruct p. destruct (_ || _); [done|]. intros Hb. apply (inj Some) in Hb as <-.
  apply bits_nonneg. by rewrite !Forall_cons.
Qed.

Lemma score_nonneg t : 0 <= score board t.
Proof.
  unfold score. destruct (_ && _); [done|]. pose proof (best_plat_nonneg board (ti_msm t)).
  destruct (default _ _) as [b|] eqn:E; [|done]. rewrite !Z.lor_nonneg. split_and!; [done| | |].
  - destruct (ti_board t) as [p|]; cbn in E; [by eapply board_score_nonneg|by simplify_eq].
  - clear. induction (ti_pmic t) as [|e l IH]; simpl; [done|]. lia.
  - unfold oem_score. destruct (_ =? 0); [done|]. destruct (ti_oem t); [|done]. by destruct (_ =? _).
Qed.

(** A tree with the bit [E] in its score may be taken. *)
Definition wanted (E : Z) (t : tree_ids) : Prop := Z.land (score board t) (BIT E) <> 0.

Lemma wanted_testbit E t : 0 <= E -> wanted E t <-> Z.testbit (score board t) E = true.
Proof.
  intros HE. unfold wanted, BIT. rewrite Z.shiftl_1_l. split; intros H.
  - destruct (Z.testbit (score board t) E) eqn:Eb; [done|]. destruct H. apply Z.bits_inj'. intros n Hn.
    rewrite Z.land_spec, Z.pow2_bits_eqb, Z.bits_0 by done. destruct (Z.eqb_spec E n) as [->|]; [|apply andb_false_r].
    by rewrite Eb.
  - intros Hz. apply (f_equal (fun x => Z.testbit x E)) in Hz. rewrite Z.land_spec, Z.pow2_bits_true, H in Hz by done.
    by rewrite Z.bits_0 in Hz.
Qed.

Lemma BIT_testbit b : 0 <= b -> Z.testbit (BIT b) b = true.
Proof. intros. unfold BIT. rewrite Z.shiftl_1_l. by apply Z.pow2_bits_true. Qed.

(** A platform of the table is scored, and so is a variant. *)
Lemma platform_suits_score p : platform_suits board p = true -> exists v, plat_score board p = Some v.
Proof.
  unfold platform_suits, plat_score. rewrite !andb_true_iff, orb_true_iff, Z.eqb_sym.
  intros ((-> & H) & _). cbn [negb orb]. destruct (_ =? u32 _); cbn [negb andb]; [by eexists|].
  destruct H as [?| ->]; [done|]. by eexists.
Qed.

Lemma variant_suits_score p :
  variant_suits board p = true -> exists v, board_score board p = Some v /\ Z.testbit v VARIANT_MATCH = true.
Proof.
  unfold variant_suits, board_score. destruct p as [variant sub]. rewrite !andb_true_iff, orb_true_iff.
  intros (((-> & _) & _) & H). cbn [negb andb orb]. destruct (_ =? BoardPlatformSubType board); cbn [negb andb].
  - eexists. split; [done|]. rewrite bits_one, Z.lor_spec, BIT_testbit by done. done.
  - destruct H as [?| ->]; [done|]. eexists. split; [done|]. rewrite bits_one, Z.lor_spec, BIT_testbit by done. done.
Qed.

Lemma plat_score_soc p v : plat_score board p = Some v -> Z.testbit v SOC_MATCH = true.
Proof.
  unfold plat_score. destruct (_ || _); [done|]. intros Hv. apply (inj Some) in Hv as <-.
  by rewrite bits_one, Z.lor_spec, BIT_testbit.
Qed.

Lemma best_plat_soc l :
  existsb (platform_suits board) l = true -> Z.testbit (best_plat board l) SOC_MATCH = true.
Proof.
  assert (Hbit : forall l, best_plat board l = 0 \/ Z.testbit (best_plat board l) SOC_MATCH = true).
  { clear l. induction l as [|p l IH]; [by left|]. cbn [best_plat fold_right]. fold (best_plat board l).
    destruct (Z.max_spec (default 0 (plat_score board p)) (best_plat board l)) as [(_ & ->)|(_ & ->)]; [done|].
    destruct (plat_score board p) as [v|] eqn:Ev; [|by left]. right. by eapply plat_score_soc. }
  intros H. destruct (Hbit l) as [Hz|]; [|done]. exfalso. revert Hz H.
  induction l as [|p l IH]; [done|]. cbn [best_plat fold_right existsb]. fold (best_plat board l).
  intros Hz [H|H]%orb_true_iff; pose proof (best_plat_nonneg board l).
  - apply platform_suits_score in H as [v Hv]. rewrite Hv in Hz. change (default 0 (Some v)) with v in Hz.
    pose proof (plat_score_soc _ _ Hv) as Hb. pose proof (plat_score_nonneg _ _ _ Hv).
    assert (v = 0) as -> by lia. done.
  - apply IH; [|done]. lia.
Qed.

(** A tree of the table has the score that makes it wanted. *)
Lemma suits_score t :
  suits board t = true -> exists b, default (Some 0) (board_score board <$> ti_board t) = Some b /\
    (ti_board t <> None -> Z.testbit b VARIANT_MATCH = true) /\
    score board t = Z.lor (Z.lor (Z.lor (best_plat board (ti_msm t)) b) (best_pmic board (ti_pmic t)))
      (oem_score board (ti_oem t)).
Proof.
  unfold suits. rewrite !andb_true_iff, orb_true_iff, bool_decide_eq_true. intros (((Hm & Hb) & _) & _).
  assert (H : exists b, default (Some 0) (board_score board <$> ti_board t) = Some b /\
    (ti_board t <> None -> Z.testbit b VARIANT_MATCH = true)).
  { destruct (ti_board t) as [p|]; [|by exists 0]. apply variant_suits_score in Hb as (v & Hv & Ht).
    exists v. cbn. by rewrite Hv. }
  destruct H as (b & Hd & Ht). exists b. split; [done|]. split; [done|]. unfold score. rewrite Hd.
  destruct Hm as [->|Hm]; [done|]. apply best_plat_soc in Hm.
  destruct (Z.eqb_spec (best_plat board (ti_msm t)) 0) as [Hz|]; [by rewrite Hz in Hm|]. by rewrite andb_false_r.
Qed.

Lemma suits_wanted_soc t : suits board t = true -> ti_msm t <> [] -> wanted SOC_MATCH t.
Proof.
  intros H Hne. apply wanted_testbit; [done|]. destruct (suits_score t H) as (b & _ & _ & ->).
  unfold suits in H. rewrite !andb_true_iff, orb_true_iff, bool_decide_eq_true in H. destruct H as ((([|Hm] & _) & _) & _); [done|].
  by rewrite !Z.lor_spec, (best_plat_soc _ Hm).
Qed.

Lemma suits_wanted_variant t : suits board t = true -> ti_board t <> None -> wanted VARIANT_MATCH t.
Proof.
  intros H Hne. apply wanted_testbit; [done|]. destruct (suits_score t H) as (b & _ & Hb & ->).
  by rewrite !Z.lor_spec, (Hb Hne), orb_true_r.
Qed.

(** [best] is the best of [ts]: nothing, or the tree of the index at its
    address. *)
Definition best_of (E : Z) (addr : nat -> Z) (ts : list tree_ids) (best : DtInfo) (idx : option nat) : Prop :=
  match idx with
  | None => Dtb best = 0 /\ DtMatchVal best = 0 /\ Forall (fun t => ~ wanted E t) ts
  | Some i => exists t, ts !! i = Some t /\ wanted E t /\ Dtb best = addr i /\ DtMatchVal best = score board t /\
      Forall (fun t' => wanted E t' -> score board t' <= score board t) ts
  end.

Lemma best_step E addr ts best idx t cur :
  best_of E addr ts best idx -> DtMatchVal cur = score board t -> Dtb cur = addr (length ts) ->
  best_of E addr (ts ++ [t]) (if taken E best cur then cur else best)
    (if taken E best cur then Some (length ts) else idx).
Proof.
  intros Hb Hm Ha. pose proof (score_nonneg t) as H0. destruct (taken E best cur) eqn:Et.
  - apply andb_prop in Et as [Hw Hlt]. rewrite Hm in *. apply negb_true_iff, Z.eqb_neq in Hw.
    assert (Hle : DtMatchVal best <= score board t).
    { apply orb_true_iff in Hlt as [Hlt|[Hlt _]%andb_prop]; bools; lia. }
    exists t. rewrite list_lookup_middle by done. split_and!; [done..|]. apply Forall_app. split; [|by constructor].
    destruct idx as [i|]; cbn [best_of] in Hb.
    + destruct Hb as (t' & _ & _ & _ & Hm' & Hall). eapply Forall_impl; [exact Hall|].
      intros x Hx Hwx. specialize (Hx Hwx). lia.
    + destruct Hb as (_ & _ & Hall). eapply Forall_impl; [exact Hall|]. intros x Hx Hwx. by destruct (Hx Hwx).
  - unfold taken in Et. rewrite Hm in Et.
    assert (Hno : wanted E t -> score board t <= DtMatchVal best).
    { intros Hw. unfold wanted in Hw. rewrite (proj2 (Z.eqb_neq _ _) Hw) in Et. cbn [negb andb] in Et.
      apply orb_false_iff in Et as [Et _]. by apply Z.ltb_ge in Et. }
    destruct idx as [i|]; cbn [best_of] in *.
    + destruct Hb as (t' & Hi & Hw' & Ha' & Hm' & Hall). exists t'.
      split_and!; [by apply lookup_app_l_Some|done..|]. apply Forall_app. split; [done|]. constructor; [|done].
      intros Hw. rewrite <- Hm'. by apply Hno.
    + destruct Hb as (Ha' & Hm' & Hall). split; [done|]. split; [done|]. apply Forall_app. split; [done|].
      constructor; [|done]. intros Hw. pose proof (Hno Hw) as Hle.
      assert (Hz : score board t = 0) by lia. unfold wanted in Hw. by rewrite Hz in Hw.
Qed.
End Choose.

(** * An image of files *)

Section Image.
Context (Kernel : Z) (pre post : list Z) (files : list (list Z * tree_ids)).

Definition blobs : list (list Z) := map fst files.
Definition image : list Z := pre ++ mjoin blobs ++ post.
Definition image_end : Z := Kernel + Z.of_nat (length pre + length (mjoin blobs)).
(** The address of a file. *)
Definition addr (i : nat) : Z := Kernel + Z.of_nat (length pre + length (mjoin (take i blobs))).

(** The image lies in the address space, not at its start. *)
Record image_ok : Prop := {
  io_files : Forall (fun f => dtb_file f.1 f.2) files;
  io_post : Forall is_u8 post;
  io_kernel : 0 < Kernel;
  io_end : Kernel + Z.of_nat (length image) + 2 ^ 31 <= 2 ^ 64;
  io_size : Z.of_nat (length pre + length (mjoin blobs)) < 2 ^ 32;
}.
Context (I : image_ok).

Lemma file_split i b t :
  files !! i = Some (b, t) -> exists rest, Forall is_u8 rest /\
    image = (pre ++ mjoin (take i blobs)) ++ b ++ rest /\
    addr (S i) = addr i + Z.of_nat (length b) /\ addr i + Z.of_nat (length b) <= image_end.
Proof.
  intros Hi. assert (Hb : blobs !! i = Some b) by (unfold blobs; by rewrite list_lookup_fmap, Hi).
  exists (mjoin (drop (S i) blobs) ++ post). unfold addr, image_end, image.
  assert (Hs : mjoin blobs = mjoin (take i blobs) ++ b ++ mjoin (drop (S i) blobs)).
  { rewrite <- (take_drop_middle blobs i b Hb) at 1. by rewrite join_app. }
  assert (Ht : mjoin (take (S i) blobs) = mjoin (take i blobs) ++ b).
  { rewrite (take_S_r _ _ _ Hb), join_app. cbn [mjoin list_join]. by rewrite app_nil_r. }
  rewrite Ht, Hs, !length_app. split_and!; [|by rewrite <- !app_assoc|lia|lia].
  apply Forall_app. split; [|apply I]. pose proof (io_files I) as HF.
  apply Forall_forall. intros x Hx. apply list_elem_of_join in Hx as (l & Hx & Hl).
  assert (Hl' : l ∈ blobs) by (rewrite <- (take_drop (S i) blobs); apply elem_of_app; by right).
  clear Hl. rename Hl' into Hl. unfold blobs in Hl. apply list_elem_of_fmap in Hl as ([l' t'] & -> & Hl).
  rewrite Forall_forall in HF. specialize (HF _ Hl). cbn [fst snd] in *.
  pose proof (file_u8 _ _ HF) as Hu. rewrite Forall_forall in Hu. by apply Hu.
Qed.

Lemma addr_bounds i b t :
  files !! i = Some (b, t) ->
  0 < addr i /\ addr i + Z.of_nat (length b) <= image_end /\ 40 < Z.of_nat (length b) <= 2 ^ 31 - 4.
Proof.
  intros Hi. destruct (file_split i b t Hi) as (rest & _ & _ & _ & He).
  pose proof (io_kernel I). pose proof (io_files I) as HF. rewrite Forall_lookup in HF.
  specialize (HF _ _ Hi). cbn [fst snd] in HF. pose proof (file_short _ _ HF). pose proof (df_long _ _ HF).
  unfold addr in *. lia.
Qed.

Lemma image_end_bound : image_end + 2 ^ 31 <= 2 ^ 64.
Proof. pose proof (io_end I). unfold image_end, image in *. rewrite !length_app in *. lia. Qed.

(** The walk sees the file. *)
Lemma image_from_file i b t :
  files !! i = Some (b, t) -> exists rest, Forall is_u8 rest /\ image_from Kernel image (addr i) = b ++ rest.
Proof.
  intros Hi. destruct (file_split i b t Hi) as (rest & Hu & Him & _ & _). exists rest. split; [done|].
  unfold image_from. rewrite Him. unfold addr.
  replace (Z.to_nat _) with (length (pre ++ mjoin (take i blobs))) by (rewrite length_app; lia).
  by rewrite drop_app_length.
Qed.

Lemma dtb_at_file {R} Stack i b t s :
  files !! i = Some (b, t) -> 0 <= Stack -> Stack + 2 ^ 31 <= 2 ^ 64 ->
  dtb_at (R := R) Stack Kernel image image_end (addr i) s = (Go (Some (Z.of_nat (length b))), s).
Proof.
  intros Hi Hs0 Hs1. destruct (file_split i b t Hi) as (rest & Hu & Him & _ & He).
  pose proof (addr_bounds i b t Hi) as (Ha & _ & Hb). pose proof image_end_bound as Hend.
  pose proof (io_files I) as HF. rewrite Forall_lookup in HF. specialize (HF _ _ Hi). cbn [fst snd] in HF.
  destruct (file_header _ _ HF) as (off & size & offs & ssize & rsv & Hh & Hsz & Hst & Hr & Hr').
  assert (Hrd : buf_read image (addr i - Kernel) FDT_HEADER_SIZE = Some (take 40 b)).
  { rewrite Him. replace (addr i - Kernel) with (Z.of_nat (length (pre ++ mjoin (take i blobs))) + 0)
      by (rewrite length_app; unfold addr; lia).
    apply buf_read_shift, buf_read_left, buf_read_Some. unfold FDT_HEADER_SIZE. split_and!; [lia..|]. by rewrite drop_0. }
  unfold dtb_at. rewrite Hrd. munfold. unfold fdt_totalsize.
  pose proof (fdt32_word (R := R) _ _ _ s (hw_total _ _ _ _ _ _ Hh)) as Ht. munfold. rewrite Ht.
  rewrite (check_header_words (R := R) _ _ _ _ _ _ s Hh). cbn [Z.eqb negb].
  assert (0 <= rsv) by (pose proof (word_u32 _ _ _ (Forall_take _ _ _ (file_u8 _ _ HF)) Hr) as []; done).
  rewrite (check_ext_words (R := R) Stack _ _ _ _ _ _ rsv s Hh) by (done || lia).
  cbn [Z.eqb negb orb]. rewrite u64_small, Z.gtb_ltb by lia.
  by rewrite !(proj2 (Z.ltb_ge _ _)) by lia.
Qed.
End Image.

(** * The walk of [GetSocDtb] *)

(** [GetRticDtb] on a tree only touches what concerns the hypervisor. *)
Lemma rtic_at {R} Scm pool fdt off root strs total version s :
  tree_blob fdt off root strs total version ->
  exists b s', GetRticDtb (R := R) Scm pool fdt s = (Go b, s') /\
    DtbIdx s' = DtbIdx s /\ DtboNeed s' = DtboNeed s.
Proof.
  intros T. unfold GetRticDtb. rewrite (bind_go _ _ _ _ _ (root_path _ _ _ _ _ _ T s)). cbn [Z.ltb Z.compare].
  destruct (root_prop root strs (L "qcom,rtic-id")) as [v|] eqn:Ep; cycle 1.
  { rewrite (bind_go _ _ _ _ _ (getprop_none _ _ _ _ _ _ T _ _ Ep ltac:(no_nul))). by exists false, s. }
  destruct (getprop_some (R := R) _ _ _ _ _ _ T _ _ s Ep ltac:(no_nul)) as (p & Hr & Hv).
  rewrite (bind_go _ _ _ _ _ Hr). cbn [fst snd].
  destruct ((_ >? 0) && _) eqn:Ec; [|by exists false, s]. apply andb_prop in Ec as [E1 E2].
  rewrite Z.gtb_ltb in E1. bools. unfold RTIC_ID_SIZE in *.
  assert (H4 : 4 <= Z.of_nat (length v)).
  { rewrite Z.rem_mod_nonneg in E2 by lia. apply Z.mod_divide in E2 as [k Hk]; [|lia]. lia. }
  assert (Hw : exists w, word fdt p = Some w).
  { unfold word. pose proof Hv as (Hp & Hn & Hl & _)%buf_read_Some.
    destruct (buf_read_in_range fdt p 4) as (d & -> & _); [lia..|]. by eexists. }
  destruct Hw as [w Hw]. rewrite (bind_go _ _ _ _ _ (fdt32_word _ _ _ _ Hw)).
  destruct (negb (w =? RTIC_ID)); [by exists false, s|].
  destruct (root_prop root strs (L "MP_DATA")) as [m|] eqn:Em; cycle 1.
  { rewrite (bind_go _ _ _ _ _ (getprop_none _ _ _ _ _ _ T _ _ Em ltac:(no_nul))). by exists false, s. }
  destruct (getprop_some (R := R) _ _ _ _ _ _ T _ _ s Em ltac:(no_nul)) as (q & Hq & Hm).
  rewrite (bind_go _ _ _ _ _ Hq). cbn [fst snd].
  destruct (_ <=? 0); [by exists false, s|]. destruct (negb _); [by exists false, s|].
  rewrite Hm. munfold. unfold TxMpdatatoQhee. munfold.
  destruct (Hyp_Call_Done s); do 2 eexists; by split_and!.
Qed.

Section Soc.
Context {R : Type} (board : BoardInfo) (Scm : bool) (pool : Z -> bool) (Stack : Z).
Context (Kernel : Z) (pre post : list Z) (files : list (list Z * tree_ids)).
Context (I : image_ok Kernel pre post files).
Context (Hs0 : 0 <= Stack) (Hs1 : Stack + 2 ^ 31 <= 2 ^ 64).
Notation img := (image pre post files).
Notation address := (addr Kernel pre files).
Notation chosen := (best_of board SOC_MATCH address).

(** The index [DtbIdx] holds when a tree was taken. *)
Definition idx_is (idx : option nat) (old new : Z) : Prop :=
  new = match idx with Some i => Z.of_nat i | None => old end.

Lemma soc_tree_at i b t cur best idx old s :
  files !! i = Some (b, t) -> Z.of_nat i < 2 ^ 31 -> (exists a, info_of a cur) ->
  chosen (take i (map snd files)) best idx -> idx_is idx old (DtbIdx s) ->
  exists cur' best' idx' s',
    soc_tree (R := R) board Scm pool Kernel img (address i) (Z.of_nat i) (cur, best) s = (Go (cur', best'), s') /\
    (exists a, info_of a cur') /\ chosen (take (S i) (map snd files)) best' idx' /\ idx_is idx' old (DtbIdx s').
Proof.
  intros Hi Hsm [a0 Hc] Hb Hidx.
  destruct (image_from_file _ _ _ _ I i b t Hi) as (rest & Hu & Hfrom).
  pose proof (io_files _ _ _ _ I) as HF. rewrite Forall_lookup in HF. specialize (HF _ _ Hi). cbn [fst snd] in HF.
  destruct (df_tree _ _ HF) as (off & root & strs & version & T & Hids).
  apply (tree_blob_app _ rest) in T; [|done].
  unfold soc_tree. rewrite Hfrom.
  destruct (find_match_at (R := R) board _ _ _ _ _ _ _ T Hids (address i) (set_Dtb (address i) cur) best SOC_MATCH s)
    as (cur' & Ha & Hm & Hr); [by destruct Hc as (_ & ? & ?)|].
  rewrite (bind_go _ _ _ _ _ Hr). cbv beta iota.
  assert (Hts : take (S i) (map snd files) = take i (map snd files) ++ [t]).
  { apply take_S_r. by rewrite list_lookup_fmap, Hi. }
  assert (Hlen : length (take i (map snd files)) = i).
  { rewrite length_take, length_map. apply lookup_lt_Some in Hi. lia. }
  pose proof (best_step board SOC_MATCH address _ best idx t cur' Hb Hm) as Hstep. rewrite Hlen in Hstep.
  specialize (Hstep (proj1 Ha)). rewrite <- Hts in Hstep.
  set (tk := taken SOC_MATCH best cur') in *.
  set (s1 := if tk then mkLoc (DtboNeed s) (Z.of_nat i) (DtboIdx s) (DtbCount s) (Hyp_Call_Done s) (HypNotify s) else s).
  assert (H1 : (if tk then set_DtbIdx (R := R) (Z.of_nat i) else mret tt) s = (Go tt, s1)) by (unfold s1; by destruct tk).
  rewrite (bind_go _ _ _ _ _ H1).
  assert (Hidx1 : idx_is (if tk then Some i else idx) old (DtbIdx s1)) by (unfold s1; by destruct tk).
  assert (H2 : exists s2, (if negb (DtMatchVal cur' =? 0)
    then if negb (Z.land (DtMatchVal cur') (BIT SOC_MATCH) =? 0) && CheckAllBitsSet (DtMatchVal cur')
         then set_DtboNeed (R := R) false else mret tt
    else GetRticDtb Scm pool (b ++ rest);; mret tt) s1 = (Go tt, s2) /\ DtbIdx s2 = DtbIdx s1).
  { destruct (negb (DtMatchVal cur' =? 0)).
    - destruct (_ && _); by eexists.
    - destruct (rtic_at (R := R) Scm pool _ _ _ _ _ _ s1 T) as (x & s2 & Hx & Hd & _).
      exists s2. by rewrite (bind_go _ _ _ _ _ Hx). }
  destruct H2 as (s2 & H2 & Hd2). rewrite (bind_go _ _ _ _ _ H2).
  exists cur', (if tk then cur' else best), (if tk then Some i else idx), s2.
  split; [done|]. split; [by exists (address i)|]. split; [done|]. by rewrite Hd2.
Qed.

Lemma addr_last i : length files = i -> address i = image_end Kernel pre files.
Proof.
  intros Hi. unfold addr, image_end. rewrite take_ge; [done|]. unfold blobs. rewrite length_map. lia.
Qed.

(** Every file takes its bytes, so there are fewer files than addresses. *)
Lemma files_few : Z.of_nat (length files) < 2 ^ 31 /\
  (length files <= length pre + length (mjoin (blobs files)))%nat.
Proof.
  pose proof (io_files _ _ _ _ I) as HF. pose proof (io_size _ _ _ _ I) as Hs.
  assert (H : (40 * length files <= length (mjoin (blobs files)))%nat).
  { clear -HF. unfold blobs. induction HF as [|[b t] l Hb _ IH]; [simpl; lia|].
    change (mjoin (map fst ((b, t) :: l))) with (b ++ mjoin (map fst l)). rewrite length_app.
    pose proof (df_long _ _ Hb). cbn [fst length] in *. lia. }
  split; lia.
Qed.

Lemma soc_loop_at n : forall i fuel cur best idx old s,
  (i + n = length files)%nat -> (n < fuel)%nat -> (exists a, info_of a cur) ->
  chosen (take i (map snd files)) best idx -> idx_is idx old (DtbIdx s) ->
  exists cur' best' idx' s',
    soc_loop (R := R) board Scm pool Stack Kernel img fuel (image_end Kernel pre files) (address i) (Z.of_nat i)
      (cur, best) s = (Go (cur', best'), s') /\
    chosen (map snd files) best' idx' /\ idx_is idx' old (DtbIdx s').
Proof.
  pose proof (image_end_bound _ _ _ _ I) as Hend. pose proof files_few as [Hfew _].
  induction n as [|n IH]; intros i fuel cur best idx old s Hi Hf Hc Hb Hx; (destruct fuel as [|fuel]; [lia|]);
    cbn [soc_loop].
  - rewrite (addr_last i) by lia. pose proof (io_kernel _ _ _ _ I). unfold FDT_HEADER_SIZE.
    rewrite u64_small by (unfold image_end in *; lia). rewrite (proj2 (Z.ltb_ge _ _)) by lia. cbn [negb].
    rewrite take_ge in Hb by (rewrite length_map; lia). by exists cur, best, idx, s.
  - destruct (lookup_lt_is_Some_2 files i) as [[b t] Hft]; [lia|].
    destruct (addr_bounds _ _ _ _ I i b t Hft) as (Ha & He & Hl).
    destruct (file_split _ _ _ _ I i b t Hft) as (_ & _ & _ & Hnext & _).
    unfold FDT_HEADER_SIZE. rewrite u64_small, (proj2 (Z.ltb_lt _ _)) by lia. cbn [negb].
    rewrite (bind_go _ _ _ _ _ (dtb_at_file _ _ _ _ I Stack i b t s Hft Hs0 Hs1)).
    destruct (soc_tree_at i b t cur best idx old s Hft ltac:(lia) Hc Hb Hx)
      as (c1 & b1 & i1 & s1 & Hr & Hc1 & Hb1 & Hx1).
    rewrite (bind_go _ _ _ _ _ Hr). rewrite u64_small, s32_small by lia. rewrite <- Hnext.
    replace (Z.of_nat i + 1) with (Z.of_nat (S i)) by lia. apply (IH (S i) fuel c1 b1 i1 old s1); [lia|lia|done..].
Qed.

(** The walk over the whole image: some best tree is found, or there is none
    that fits. *)
Lemma get_soc_dtb_at s :
  pre <> [] ->
  exists r s', GetSocDtb (R := R) board Scm pool Stack Kernel img
      (Z.of_nat (length pre + length (mjoin (blobs files)))) (Z.of_nat (length pre)) s = (Go r, s') /\
    match r with
    | None => Forall (fun t => ~ wanted board SOC_MATCH t) (map snd files) /\ DtbIdx s' = DtbIdx s
    | Some a => exists i t, map snd files !! i = Some t /\ a = address i /\ DtbIdx s' = Z.of_nat i /\
        wanted board SOC_MATCH t /\
        Forall (fun t' => wanted board SOC_MATCH t' -> score board t' <= score board t) (map snd files)
    end.
Proof.
  intros Hpre. unfold GetSocDtb. assert (Hp : (0 < length pre)%nat) by (destruct pre; [done|simpl; lia]).
  pose proof (io_kernel _ _ _ _ I). pose proof (image_end_bound _ _ _ _ I) as Hend. unfold image_end in Hend.
  rewrite (proj2 (Z.eqb_neq _ _)) by lia. rewrite !u64_small by lia. rewrite (proj2 (Z.ltb_ge _ _)) by lia.
  pose proof files_few as [_ Hfew].
  destruct (soc_loop_at (length files) 0 (S (Z.to_nat (Z.of_nat (length pre + length (mjoin (blobs files))))))
    no_dt no_dt None (DtbIdx s) s) as (cur & best & idx & s' & Hr & Hb & Hx); [lia|lia|by exists 0|done|done|].
  unfold addr, image_end in Hr. cbn [take] in Hr. change (length (mjoin [])) with 0%nat in Hr.
  rewrite Nat.add_0_r in Hr. change (Z.of_nat 0) with 0 in Hr. rewrite (bind_go _ _ _ _ _ Hr). cbn [fst snd].
  exists (if Dtb best =? 0 then None else Some (Dtb best)), s'. split; [done|].
  destruct idx as [i|]; cbn [best_of] in Hb; unfold idx_is in Hx.
  - destruct Hb as (t & Hi & Hw & Ha & _ & Hall).
    assert (0 < address i) by (unfold addr; lia). rewrite Ha, (proj2 (Z.eqb_neq _ _)) by lia.
    by exists i, t.
  - destruct Hb as (-> & _ & Hall). by split.
Qed.
End Soc.

(** * The walk of [GetBoardDtb] *)

(** An overlay image: a table of entries, each of which points at a tree. *)
Record dtbo_image (img : list Z) (first : Z) (files : list (Z * list Z * tree_ids)) : Prop := {
  di_u8 : Forall is_u8 img;
  di_count : word img 16 = Some (Z.of_nat (length files));
  di_first : word img 20 = Some first;
  di_few : Z.of_nat (length files) < 2 ^ 31;
  di_entries : forall i o b t, files !! i = Some (o, b, t) ->
    word img (first + Z.of_nat i * DTBO_ENTRY_SIZE + 4) = Some o /\ dtb_file b t /\
    exists rest, drop (Z.to_nat o) img = b ++ rest;
}.

Section Overlays.
Context (board : BoardInfo) (base first : Z) (img : list Z) (files : list (Z * list Z * tree_ids)).
Context (D : dtbo_image img first files) (Hbase : 0 < base) (Hroom : base + 2 ^ 33 <= 2 ^ 64).
Notation trees := (map snd files).

(** The address of a tree of the table. *)
Definition overlay_at (i : nat) : Z := base + default 0 ((fun f => f.1.1) <$> files !! i).
Notation chosen := (best_of board VARIANT_MATCH overlay_at).

Lemma board_tree_at i o b t cur best idx old s :
  files !! i = Some (o, b, t) -> (exists a, info_of a cur) ->
  chosen (take i trees) best idx -> idx_is idx old (DtboIdx s) ->
  exists cur' best' idx' s',
    board_tree board base img first (Z.of_nat i) (cur, best) s = (Go (false, (cur', best')), s') /\
    (exists a, info_of a cur') /\ chosen (take (S i) trees) best' idx' /\ idx_is idx' old (DtboIdx s').
Proof.
  intros Hi [a0 Hc] Hb Hidx. destruct (di_entries _ _ _ D _ _ _ _ Hi) as (Hw & HF & rest & Hfrom).
  pose proof (di_few _ _ _ D) as Hfew. pose proof (lookup_lt_Some _ _ _ Hi) as Hlt.
  assert (Hu : Forall is_u8 rest).
  { pose proof (Forall_drop _ (Z.to_nat o) _ (di_u8 _ _ _ D)) as Hd. rewrite Hfrom in Hd. apply Forall_app in Hd as [_ Hd]. exact Hd. }
  pose proof (word_u32 _ _ _ (di_u8 _ _ _ D) Hw) as Ho. unfold is_u32 in Ho.
  destruct (df_tree _ _ HF) as (off & root & strs & version & T & Hids).
  destruct (file_header _ _ HF) as (foff & size & offs & ssize & rsv & Hh & Hsz & Hst & Hr & Hr').
  apply (tree_blob_app _ rest) in T; [|done].
  apply (header_take_app _ 40 rest) in Hh. apply (word_of_take _ 40 _ _ rest) in Hr.
  pose proof (file_short _ _ HF) as Hsh. pose proof (df_long _ _ HF) as Hlg.
  assert (Hrsv : 0 <= rsv).
  { eapply (word_u32 (b ++ rest)); [|exact Hr]. apply Forall_app. split; [by eapply file_u8|done]. }
  unfold board_tree, dtbo_DtOffset. rewrite (bind_go _ _ _ _ _ (fdt32_word _ _ _ _ Hw)).
  assert (Hadd : CHECK_ADD64 base o = false) by (unfold CHECK_ADD64, MAX_UINT64; apply Z.ltb_ge; lia).
  rewrite Hadd, Hfrom, u64_small by lia.
  rewrite (bind_go _ _ _ _ _ (check_header_words _ _ _ _ _ _ s Hh)). cbn [Z.eqb negb].
  rewrite (bind_go _ _ _ _ _ (check_ext_words (base + o) _ _ _ _ _ _ rsv s Hh
    ltac:(lia) Hsz Hst Hr ltac:(lia) ltac:(lia) ltac:(lia) ltac:(lia))). cbn [Z.eqb negb].
  destruct (find_match_at (R := option Z) board _ _ _ _ _ _ _ T Hids (base + o) (set_Dtb (base + o) cur) best VARIANT_MATCH s)
    as (cur' & Ha & Hm & Hrun); [by destruct Hc as (_ & ? & ?)|].
  rewrite (bind_go _ _ _ _ _ Hrun). cbv beta iota.
  assert (Hts : take (S i) trees = take i trees ++ [t]).
  { apply take_S_r. by rewrite list_lookup_fmap, Hi. }
  assert (Hlen : length (take i trees) = i) by (rewrite length_take, length_map; lia).
  pose proof (best_step board VARIANT_MATCH overlay_at _ best idx t cur' Hb Hm) as Hstep. rewrite Hlen in Hstep.
  assert (Hao : overlay_at i = base + o) by (unfold overlay_at; by rewrite Hi).
  rewrite Hao in Hstep. specialize (Hstep (proj1 Ha)). rewrite <- Hts in Hstep.
  set (tk := taken VARIANT_MATCH best cur') in *. rewrite s32_small by lia.
  exists cur', (if tk then cur' else best), (if tk then Some i else idx),
    (if tk then mkLoc (DtboNeed s) (DtbIdx s) (Z.of_nat i) (DtbCount s) (Hyp_Call_Done s) (HypNotify s) else s).
  split; [by destruct tk|]. split; [by exists (base + o)|]. split; [done|]. by destruct tk.
Qed.

Lemma board_loop_at n : forall i cur best idx old s,
  (i + n = length files)%nat -> (exists a, info_of a cur) ->
  chosen (take i trees) best idx -> idx_is idx old (DtboIdx s) ->
  exists cur' best' idx' s',
    for_up n (Z.of_nat i) (cur, best) (board_tree board base img first) s = (Go (cur', best'), s') /\
    chosen trees best' idx' /\ idx_is idx' old (DtboIdx s').
Proof.
  induction n as [|n IH]; intros i cur best idx old s Hi Hc Hb Hx; cbn [for_up].
  - rewrite take_ge in Hb by (rewrite length_map; lia). by exists cur, best, idx, s.
  - destruct (lookup_lt_is_Some_2 files i) as [[[o b] t] Hft]; [lia|].
    destruct (board_tree_at i o b t cur best idx old s Hft Hc Hb Hx) as (c1 & b1 & i1 & s1 & Hr & Hc1 & Hb1 & Hx1).
    rewrite (bind_go _ _ _ _ _ Hr). cbn [fst snd].
    replace (Z.of_nat i + 1) with (Z.of_nat (S i)) by lia. apply (IH (S i) c1 b1 i1 old s1); [lia|done..].
Qed.

Lemma get_board_dtb_at s :
  exists r s', GetBoardDtb board base img s = (Go r, s') /\
    match r with
    | None => Forall (fun t => ~ wanted board VARIANT_MATCH t) trees /\ DtboIdx s' = DtboIdx s
    | Some a => exists i t, trees !! i = Some t /\ a = overlay_at i /\ DtboIdx s' = Z.of_nat i /\
        wanted board VARIANT_MATCH t /\
        Forall (fun t' => wanted board VARIANT_MATCH t' -> score board t' <= score board t) trees
    end.
Proof.
  unfold GetBoardDtb, dtbo_DtEntryOffset, dtbo_DtEntryCount. rewrite (proj2 (Z.eqb_neq _ _)) by lia.
  rewrite (bind_go _ _ _ _ _ (fdt32_word _ _ _ _ (di_first _ _ _ D))).
  pose proof (word_u32 _ _ _ (di_u8 _ _ _ D) (di_first _ _ _ D)) as Hf. unfold is_u32 in Hf.
  assert (Hadd : CHECK_ADD64 base first = false) by (unfold CHECK_ADD64, MAX_UINT64; apply Z.ltb_ge; lia).
  rewrite Hadd, (bind_go _ _ _ _ _ (fdt32_word _ _ _ _ (di_count _ _ _ D))), Nat2Z.id.
  destruct (board_loop_at (length files) 0 no_dt no_dt None (DtboIdx s) s)
    as (cur & best & idx & s' & Hr & Hb & Hx); [lia|by exists 0|done|done|].
  change (Z.of_nat 0) with 0 in Hr. rewrite (bind_go _ _ _ _ _ Hr). cbn [fst snd].
  exists (if Dtb best =? 0 then None else Some (Dtb best)), s'. split; [done|].
  destruct idx as [i|]; cbn [best_of] in Hb; unfold idx_is in Hx.
  - destruct Hb as (t & Hi & Hw & Ha & _ & Hall). pose proof Hi as Hi'. rewrite list_lookup_fmap in Hi'.
    destruct (files !! i) as [[[o b] t']|] eqn:Ef; [|done].
    destruct (di_entries _ _ _ D _ _ _ _ Ef) as (Hwo & _).
    pose proof (word_u32 _ _ _ (di_u8 _ _ _ D) Hwo) as Ho. unfold is_u32 in Ho.
    assert (0 < overlay_at i) by (unfold overlay_at; rewrite Ef; simpl; lia).
    rewrite Ha, (proj2 (Z.eqb_neq _ _)) by lia. by exists i, t.
  - destruct Hb as (-> & _ & Hall). by split.
Qed.
End Overlays.

(** * The bit that no tree sets

    [CheckAllBitsSet] asks for sixteen exact PMIC models; the arrays of a
    tree's PMICs have [MAX_PMIC_IDX] = 15 elements. *)

Definition last_bit : Z := PMIC_MATCH_EXACT_MODEL_IDXF.
Definition lacks (v : Z) : Prop := Z.testbit v last_bit = false.

Lemma lacks_lor v b : lacks v -> 0 <= b -> b <> last_bit -> lacks (Z.lor v (BIT b)).
Proof.
  unfold lacks, last_bit, PMIC_MATCH_EXACT_MODEL_IDXF, BIT. intros Hv Hb Hne.
  rewrite Z.lor_spec, Hv, Z.shiftl_1_l, Z.pow2_bits_false by lia. done.
Qed.

Lemma lacks_not_all v : lacks v -> CheckAllBitsSet v = false.
Proof.
  unfold lacks, CheckAllBitsSet. intros Hv. apply Z.eqb_neq. intros Heq.
  apply (f_equal (fun x => Z.testbit x last_bit)) in Heq. rewrite Z.land_spec, Hv in Heq. discriminate Heq.
Qed.

Lemma lacks_add b d : lacks (DtMatchVal d) -> 0 <= b -> b <> last_bit -> lacks (DtMatchVal (add_match b d)).
Proof. apply lacks_lor. Qed.

Section Lacks.
Context {S R : Type} (board : BoardInfo) (fdt : list Z).

Lemma yields_pmic_step P i cur :
  length (pi_Model cur) = 15%nat /\ lacks (pi_MatchVal cur) ->
  yields (fun r => length (pi_Model r.2) = 15%nat /\ lacks (pi_MatchVal r.2))
    (pmic_step (S := S) (R := R) board fdt P i cur).
Proof.
  intros [Hl Hv]. unfold pmic_step. apply yields_skip. intros v. apply yields_skip. intros _.
  apply yields_skip. intros revs.
  apply (yields_bind (fun ms => length ms = 15%nat /\ 0 <= i < 15)).
  { unfold set_elem. destruct (_ && _) eqn:E; [|apply yields_stop]. apply yields_ret.
    apply andb_prop in E as [? ?]. bools. rewrite length_insert. lia. }
  intros ms [Hms Hi]. destruct (negb _ && negb _); [by apply yields_ret|].
  assert (H1 : forall c : bool, lacks (Z.lor (pi_MatchVal cur) (BIT ((if c then PMIC_MATCH_EXACT_MODEL_IDX0
      else PMIC_MATCH_DEFAULT_MODEL_IDX0) + i * PMIC_SHIFT_IDX)))).
  { intros c. apply lacks_lor; [done|..]; destruct c;
      unfold PMIC_MATCH_EXACT_MODEL_IDX0, PMIC_MATCH_DEFAULT_MODEL_IDX0, PMIC_SHIFT_IDX, last_bit,
        PMIC_MATCH_EXACT_MODEL_IDXF; lia. }
  assert (H2 : forall c k, 0 <= k <= 4 -> i < PMIC_IDX4 -> lacks c -> lacks (Z.lor c (BIT (k + i * PMIC_SHIFT_IDX)))).
  { unfold PMIC_IDX4, PMIC_SHIFT_IDX. intros c k Hk H4 Hc. apply lacks_lor; [done|lia|].
    unfold last_bit, PMIC_MATCH_EXACT_MODEL_IDXF. lia. }
  destruct (i <? PMIC_IDX4) eqn:E4; [|apply yields_ret; split; [done|apply H1]]. bools.
  destruct (Z.land v PMIC_REV_MASK =? _); [|destruct (Z.land v PMIC_REV_MASK <? _)]; apply yields_ret; cbn [snd pi_Model pi_MatchVal]; (split; [done|]).
  - apply H2; [done|done|apply H1].
  - apply H2; [done|done|apply H1].
  - apply H1.
Qed.

Lemma yields_best_pmic P n k :
  yields (fun b => lacks (pi_MatchVal b)) (ReadBestPmicMatch (S := S) (R := R) board fdt P n k).
Proof.
  unfold ReadBestPmicMatch. apply yields_for_up; [done|]. intros i best _ Hb.
  apply (yields_bind (fun b => lacks (pi_MatchVal b))); [|intros b Hb'; by apply yields_ret].
  unfold pmic_entry.
  apply (yields_bind (fun c => length (pi_Model c) = 15%nat /\ lacks (pi_MatchVal c))).
  { apply yields_for_up; [done|]. intros j c _ Hc. by apply yields_pmic_step. }
  intros cur [_ Hc]. destruct (_ <? _); [by apply yields_ret|]. destruct (_ =? _); [|by apply yields_ret].
  unfold pmic_tie. apply yields_for_up; [done|]. intros j b _ Hb'. do 2 (apply yields_skip; intros ?).
  apply yields_ret. cbn [snd]. by destruct (_ <? _).
Qed.

Lemma yields_platform cur p len k :
  lacks (DtMatchVal cur) ->
  yields (fun r => lacks (DtMatchVal r.2)) (GetPlatformMatchDtb (S := S) (R := R) board fdt cur p len k).
Proof.
  intros Hc. unfold GetPlatformMatchDtb. destruct p as [p|]; [|by apply yields_ret].
  destruct (_ && _); [|by apply yields_ret]. apply yields_skip. intros id.
  destruct (negb _); [by apply yields_ret|]. apply yields_skip. intros rev.
  repeat case_match; apply yields_ret; cbn [snd]; try done; apply lacks_add; try done;
    repeat (apply lacks_add; [|done|done]); done.
Qed.

Lemma yields_board cur p len :
  lacks (DtMatchVal cur) ->
  yields (fun r => lacks (DtMatchVal r.2)) (GetBoardMatchDtb (S := S) (R := R) board fdt cur p len).
Proof.
  intros Hc. unfold GetBoardMatchDtb. destruct p as [p|]; [|by apply yields_ret].
  destruct (_ && _); [|by apply yields_ret]. do 2 (apply yields_skip; intros ?).
  destruct (_ && _); apply yields_ret; [done|]. unfold match_subtype, match_variant. cbv zeta.
  repeat match goal with |- context [if ?b then _ else _] => destruct b end; cbn [snd]; try done;
    repeat (apply lacks_add; [|done|done]); done.
Qed.

Lemma yields_match_tree off cur :
  yields (fun c => lacks (DtMatchVal c)) (match_tree (S := S) (R := R) board fdt off cur).
Proof.
  unfold match_tree. apply (yields_bind (fun r => lacks (DtMatchVal r.2))).
  { unfold match_platform. apply yields_skip. intros [[p|] len]; [|by apply yields_ret]. cbn [fst snd].
    destruct (_ && _); [|by apply yields_ret].
    apply (yields_bind (fun st => lacks (DtMatchVal st.2))).
    - apply yields_for_up; [done|]. intros i [c temp] _ Ht. unfold plat_step.
      eapply yields_bind; [by apply yields_platform|]. intros [st c'] Hc'. apply yields_ret.
      cbn [snd]. by destruct (_ && _).
    - intros [c temp] Ht. by apply yields_ret. }
  intros [[] c] Hc; [|by apply yields_ret]. cbn [negb]. apply yields_skip. intros p.
  eapply yields_bind; [by apply yields_board|]. intros [st c2] Hc2.
  destruct (negb _); [by apply yields_ret|].
  apply (yields_bind (fun r => lacks (DtMatchVal r.2))).
  { unfold match_pmic. apply yields_skip. intros [[q|] len]; [|by apply yields_ret]. cbn [fst snd].
    destruct (_ >? 0); [|by apply yields_ret]. do 2 (apply yields_skip; intros ?).
    destruct (_ =? 0); [apply yields_stop|]. destruct (negb _); [by apply yields_ret|].
    eapply yields_bind; [apply yields_best_pmic|]. intros b Hb. do 2 (apply yields_skip; intros ?).
    apply yields_ret. cbn [snd set_pmic set_match DtMatchVal]. unfold lacks in *. cbn [snd] in Hc2.
    by rewrite Z.lor_spec, Hc2, Hb. }
  intros [[] c3] Hc3; [|by apply yields_ret]. cbn [negb]. cbn [snd] in Hc3.
  unfold match_oem. destruct (_ =? 0); [by apply yields_ret|]. apply yields_skip. intros [[q|] len]; cbn [fst snd].
  - destruct (_ >? 0); [apply yields_skip; intros b|]; apply yields_ret; apply lacks_add; try done; by destruct (_ =? _).
  - apply yields_ret. by apply lacks_add.
Qed.

Lemma yields_find_match cur best E :
  yields (fun r => lacks (DtMatchVal r.1.2)) (ReadDtbFindMatch (S := S) (R := R) board fdt cur best E).
Proof.
  unfold ReadDtbFindMatch. apply yields_skip. intros off. destruct (_ <? 0); [by apply yields_ret|].
  eapply yields_bind; [apply yields_match_tree|]. intros c Hc. by apply yields_ret.
Qed.
End Lacks.

(** What a tree is read with changes no state. *)
Section Reads.
Context {S R : Type} (P : S -> S -> Prop) {HP : PreOrder P} (board : BoardInfo) (fdt : list Z).

Lemma keeps_fdt_path_offset p : keeps P (fdt_path_offset (R := R) fdt p).
Proof.
  unfold fdt_path_offset. generalize (fdt_rounds fdt) as fuel. intros fuel. revert p.
  induction fuel as [|fuel IH]; intros p; cbn [path_offset]; keeps_tac; by apply keeps_path_loop.
Qed.
Lemma keeps_fdt_getprop o q : keeps P (fdt_getprop (R := R) fdt o q).
Proof. unfold fdt_getprop. by apply keeps_getprop_namelen. Qed.
Hint Resolve keeps_fdt_path_offset keeps_fdt_getprop : keeps.

Lemma keeps_check_ext a : keeps P (fdt_check_header_ext (R := R) a fdt).
Proof.
  unfold fdt_check_header_ext, fdt_off_dt_struct, fdt_size_dt_struct, fdt_off_dt_strings, fdt_size_dt_strings,
    fdt_totalsize, fdt_off_mem_rsvmap. keeps_tac.
Qed.

Lemma keeps_elem l i : keeps P (elem (R := R) l i).
Proof. unfold elem. keeps_tac. Qed.
Lemma keeps_set_elem l i v : keeps P (set_elem (R := R) l i v).
Proof. unfold set_elem. keeps_tac. Qed.
Hint Resolve keeps_elem keeps_set_elem : keeps.

Lemma keeps_best_pmic p n k : keeps P (ReadBestPmicMatch (R := R) board fdt p n k).
Proof. unfold ReadBestPmicMatch, pmic_entry, pmic_tie, pmic_step. keeps_tac. Qed.
Lemma keeps_copy_elems n a b : keeps P (copy_elems (R := R) n a b).
Proof. unfold copy_elems. keeps_tac. Qed.
Hint Resolve keeps_best_pmic keeps_copy_elems : keeps.

Lemma keeps_match_tree o cur : keeps P (match_tree (R := R) board fdt o cur).
Proof.
  unfold match_tree, match_platform, plat_step, GetPlatformMatchDtb, GetBoardMatchDtb, match_pmic, match_oem.
  keeps_tac.
Qed.
Hint Resolve keeps_match_tree : keeps.

Lemma keeps_find_match cur best E : keeps P (ReadDtbFindMatch (R := R) board fdt cur best E).
Proof. unfold ReadDtbFindMatch. keeps_tac. Qed.
End Reads.
#[export] Hint Resolve keeps_fdt_path_offset keeps_fdt_getprop keeps_check_ext keeps_find_match : keeps.

(** The overlay stays wanted. *)
Definition stays_needed (s s' : LocState) : Prop := DtboNeed s = true -> DtboNeed s' = true.
#[global] Instance stays_needed_preorder : PreOrder stays_needed.
Proof. split; unfold stays_needed; [by intros s|]. intros x y z ? ? ?. auto. Qed.

(** A body that keeps a relation, for a continuation that knows the value. *)
Lemma keeps_bind_yields {S R A B} (P : S -> S -> Prop) {HP : PreOrder P} (Q : A -> Prop)
    (m : M S R A) (k : A -> M S R B) :
  keeps P m -> yields Q m -> (forall a, Q a -> keeps P (k a)) -> keeps P (m ≫= k).
Proof.
  intros Hm Hy Hk s. unfold mbind, M_MBind, M_bind. specialize (Hm s). specialize (Hy s).
  destruct (m s) as [[a|r|h] s']; simpl in *; [|done..]. etrans; [exact Hm|]. apply Hk. by eapply Hy.
Qed.

Section Need.
Context {R : Type} (board : BoardInfo) (Scm : bool) (pool : Z -> bool) (Stack Kernel : Z) (img : list Z).

Lemma keeps_rtic fdt : keeps stays_needed (GetRticDtb (R := R) Scm pool fdt).
Proof. unfold GetRticDtb, TxMpdatatoQhee, notify. keeps_tac; by intros ?. Qed.
Hint Resolve keeps_rtic : keeps.

Lemma keeps_soc_tree a n st : keeps stays_needed (soc_tree (R := R) board Scm pool Kernel img a n st).
Proof.
  unfold soc_tree. destruct st as [cur best].
  eapply (keeps_bind_yields _ (fun r => lacks (DtMatchVal r.1.2)));
    [keeps_tac|apply yields_find_match|].
  intros [[found c] b] Hc. cbn [fst snd] in Hc. rewrite (lacks_not_all _ Hc), andb_false_r.
  unfold set_DtbIdx. keeps_tac; by intros ?.
Qed.
Hint Resolve keeps_soc_tree : keeps.

Lemma keeps_soc_loop fuel e a n st :
  keeps stays_needed (soc_loop (R := R) board Scm pool Stack Kernel img fuel e a n st).
Proof.
  revert a n st. induction fuel as [|fuel IH]; intros a n st; cbn [soc_loop]; unfold dtb_at, fdt_totalsize; keeps_tac.
Qed.
Hint Resolve keeps_soc_loop : keeps.

Lemma get_soc_dtb_need size off :
  keeps stays_needed (GetSocDtb (R := R) board Scm pool Stack Kernel img size off).
Proof. unfold GetSocDtb. keeps_tac. Qed.
End Need.
