(* ===== verification/DtUpdate.v ===== *)
(** The device tree the kernel gets
    ([QcomModulePkg/Library/BootLib/UpdateDeviceTree.c], with
    [UpdatePLLCodesInfoInternel] of [DisplayCtrl.c]).

    What the firmware answers (variables, the RAM partition, DDR and random
    number protocols) is the record [DtEnv]; [IsLEVariant] and
    [IsDynamicPartitionSupport] are build switches.  [Start] is the address of
    the blob, [rodata] the bytes that follow the string literals. *)
From Stdlib Require Import ZArith Lia.
From stdpp Require Import base list numbers option.
From S2P Require Import Prelude EfiBase Fdt FdtSpec FdtRw FdtWrite Carveout DtMatch Locate FdtUpdate.

Definition DTB_PAD_SIZE : Z := 2048.
Definition NUM_SPLASHMEM_PROP_ELEM : Z := 4.
Definition NUM_RAMDUMP_PROP_ELEM : Z := 2.
Definition NUM_RNG_SEED_WORDS : Z := 512.
Definition DISPLAY_PLL_CODES_MAX_SIZE : Z := 2048.
Definition MAX_DDR_REGIONS : Z := 6.
Definition MAX_DDR_REGION_PROP_MEM : Z := 10.
Definition DDR_REGION_NAME_LEN : Z := 8.
Definition DDR_REGION_NAME_SUFFIX : Z := 2.
(** [sizeof] of [struct ddr_details_entry_info] and [struct ddr_regions_data_info]. *)
Definition DDR_DETAILS_SIZE : Z := 216.
Definition DDR_REGIONS_SIZE : Z := 288.
Definition EFI_NO_MAPPING : EFI_STATUS := Eval cbv in ENCODE_ERROR 17.

Record DisplayDemuraInfoType := mkDemura {
  Version : Z;
  Demura0PanelID : Z; Demura0HFCAddr : Z; Demura0HFCSize : Z;
  Demura1PanelID : Z; Demura1HFCAddr : Z; Demura1HFCSize : Z;
}.

Record DDR_REGIONS_STRUCT_ENTRY := mkDdrRegion {
  start_address : Z; ddr_size : Z; granule_size : Z;
  segments_start_index : Z; segments_start_offset : Z;
}.

Record DtEnv := mkDtEnv {
  DisplaySplashBufferInfo : EFI_STATUS * (Z * Z);     (** status, [uFrameAddr], [uFrameSize] *)
  DisplayDemuraInfo : EFI_STATUS * DisplayDemuraInfoType;
  PLLCodesSize : EFI_STATUS * Z;                      (** the call that asks for the size *)
  PLLCodes : EFI_STATUS * Z * list Z;                 (** status, size, the words *)
  GranuleSize : EFI_STATUS * Z;
  RamPartitions : EFI_STATUS * list RamPartitionEntry; (** [ReadRamPartitions] *)
  DDRInfo : EFI_STATUS * Z;                           (** status, [device_type] *)
  RandomSeed : nat -> EFI_STATUS * Z;                 (** the answers in order *)
  DDrRegionsInfo : EFI_STATUS * (Z * list DDR_REGIONS_STRUCT_ENTRY);
  BootDevice : EFI_STATUS * list Z;                   (** [GetBootDevice] *)
}.

Section DtUpdate.
Context {R : Type}.
Variable pool : Z -> bool.
Variable env : DtEnv.
Variables (rodata : list Z) (Start : Z).
Variables IsLEVariant IsDynamicPartitionSupport : bool.

Definition path (s : String.string) : MD R Z :=
  on_nodes (fun b => FdtPathOffset pool b (literal rodata s)).
Definition get_property (offset : Z) (name : String.string) : MD R (option Z * Z) :=
  on_nodes (fun b => fdt_get_property b offset (L name)).
#[local] Arguments path s%_string_scope.
#[local] Arguments get_property offset name%_string_scope.

(** The value is written where it is, then set to itself. *)
Definition inplace_again (offset : Z) (name : list Z) (Prop_ PropLen : Z) : MD R EFI_STATUS :=
  ret ← on_blob (b ← get;
                 data ← need OutOfBounds (buf_read b (Prop_ + FDT_PROPERTY_SIZE) PropLen);
                 fdt_setprop_inplace offset name data PropLen);
  mret (if ret <? 0 then EFI_NO_MAPPING else EFI_SUCCESS).

Definition UpdateRamDumpMemInfo : MD R EFI_STATUS :=
  let '(Status, (uFrameAddr, _)) := DisplaySplashBufferInfo env in
  if negb (Status =? EFI_SUCCESS) then mret Status
  else
    OffSet ← path "/soc/disp_rdump_region";
    if OffSet <? 0 then mret EFI_NOT_FOUND
    else
      p ← get_property OffSet "reg";
      match p.1 with
      | None => mret EFI_NOT_FOUND
      | Some Prop_ =>
          if negb (u32 p.2 =? NUM_RAMDUMP_PROP_ELEM * 4) then mret EFI_BAD_BUFFER_SIZE
          else if CHECK_ADD64 (Start + Prop_ + FDT_PROPERTY_SIZE) 4 then mret EFI_BAD_BUFFER_SIZE
          else
            on_blob (store32 (Prop_ + FDT_PROPERTY_SIZE) uFrameAddr);;
            again ← inplace_again OffSet (L "reg") Prop_ p.2;
            mret (if EFI_ERROR again then again else Status)
      end.

Definition UpdateSplashMemInfo : MD R EFI_STATUS :=
  let '(Status, (uFrameAddr, uFrameSize)) := DisplaySplashBufferInfo env in
  if negb (Status =? EFI_SUCCESS) then mret Status
  else
    offset ← path "/reserved-memory/splash_region";
    if offset <? 0 then mret EFI_NOT_FOUND
    else
      p ← get_property offset "reg";
      match p.1 with
      | None => mret EFI_NOT_FOUND
      | Some Prop_ =>
          if negb (u32 p.2 =? NUM_SPLASHMEM_PROP_ELEM * 4) then mret EFI_BAD_BUFFER_SIZE
          else if CHECK_ADD64 (Start + Prop_ + FDT_PROPERTY_SIZE) 4 then mret EFI_BAD_BUFFER_SIZE
          else
            let tmp := Prop_ + FDT_PROPERTY_SIZE + 4 in
            on_blob (store32 tmp uFrameAddr);;
            if CHECK_ADD64 (Start + tmp) 8 then mret EFI_BAD_BUFFER_SIZE
            else
              on_blob (store32 (tmp + 8) uFrameSize);;
              again ← inplace_again offset (L "reg") Prop_ p.2;
              mret (if EFI_ERROR again then again else Status)
      end.

Definition UpdateDemuraRegion (Path : String.string) (HFCAddr HFCSize : Z) : MD R EFI_STATUS :=
  offset ← path Path;
  if offset <? 0 then mret EFI_SUCCESS
  else
    p ← get_property offset "reg";
    match p.1 with
    | None => mret EFI_NOT_FOUND
    | Some Prop_ =>
        if u32 p.2 <? 16 then mret EFI_INVALID_PARAMETER
        else
          on_blob (store32 (Prop_ + FDT_PROPERTY_SIZE + 4) HFCAddr);;
          on_blob (store32 (Prop_ + FDT_PROPERTY_SIZE + 12) HFCSize);;
          inplace_again offset (L "reg") Prop_ p.2
    end.

Definition UpdateDemuraPanelID (Path : String.string) (PanelID : Z) : MD R EFI_STATUS :=
  offset ← path Path;
  if offset <? 0 then mret EFI_SUCCESS
  else
    p ← get_property offset "qcom,demura-panel-id";
    match p.1 with
    | None => mret EFI_NOT_FOUND
    | Some Prop_ =>
        if u32 p.2 <? 8 then mret EFI_INVALID_PARAMETER
        else
          on_blob (store64 (Prop_ + FDT_PROPERTY_SIZE) PanelID);;
          inplace_again offset (L "qcom,demura-panel-id") Prop_ p.2
    end.
#[local] Arguments UpdateDemuraRegion Path%_string_scope.
#[local] Arguments UpdateDemuraPanelID Path%_string_scope.

Definition update_if (b : bool) (m : MD R EFI_STATUS) : MD R unit :=
  if b then _ ← m; mret tt else mret tt.

Definition UpdateDemuraInfo : MD R EFI_STATUS :=
  let '(Status, d) := DisplayDemuraInfo env in
  (if (Status =? EFI_SUCCESS) && (Version d >? 0) then
     update_if (negb (Demura0HFCAddr d =? 0) && negb (Demura0HFCSize d =? 0))
       (UpdateDemuraRegion "/reserved-memory/demura_region_0" (Demura0HFCAddr d) (Demura0HFCSize d));;
     update_if (negb (Demura1HFCAddr d =? 0) && negb (Demura1HFCSize d =? 0))
       (UpdateDemuraRegion "/reserved-memory/demura_region_1" (Demura1HFCAddr d) (Demura1HFCSize d));;
     update_if (negb (Demura0PanelID d =? 0))
       (UpdateDemuraPanelID "/soc/qcom,dsi-display-primary" (Demura0PanelID d));;
     update_if (negb (Demura1PanelID d =? 0))
       (UpdateDemuraPanelID "/soc/qcom,dsi-display-secondary" (Demura1PanelID d))
   else mret tt);;
  mret Status.

(** [UpdatePLLCodesInfo]: the words of the variable over the value. *)
Definition UpdatePLLCodesInfo : MD R EFI_STATUS :=
  let '(Status, Size) := PLLCodesSize env in
  if EFI_ERROR Status && negb (Status =? EFI_BUFFER_TOO_SMALL) then mret EFI_SUCCESS
  else if (Size =? 0) || (DISPLAY_PLL_CODES_MAX_SIZE <? Size) then mret EFI_OUT_OF_RESOURCES
  else
    let PllCodesInfoSize := Z.land (Size + 3) (Z.lnot 3) in
    if negb (pool PllCodesInfoSize) then mret EFI_OUT_OF_RESOURCES
    else
      let '(Status, SizeTmp, PllCodesInfo) := PLLCodes env in
      if EFI_ERROR Status || (SizeTmp =? 0) then mret Status
      else
        offset ← path "/soc/dsi_pll_codes";
        if offset <? 0 then mret EFI_NOT_FOUND
        else
          p ← get_property offset "reg";
          match p.1 with
          | None => mret EFI_NOT_FOUND
          | Some Prop_ =>
              if u64 p.2 <? PllCodesInfoSize then mret EFI_INVALID_PARAMETER
              else
                for_up (Z.to_nat (PllCodesInfoSize / 4)) 0 tt (fun i _ =>
                  on_blob (store32 (Prop_ + FDT_PROPERTY_SIZE + 4 * i) (default 0 (PllCodesInfo !! Z.to_nat i)));;
                  mret (false, tt));;
                again ← inplace_again offset (L "reg") Prop_ p.2;
                mret (if EFI_ERROR again then again else Status)
          end.

(** ** The memory node *)

Definition UpdateGranuleInfo : MD R unit :=
  let '(Status, Size) := GranuleSize env in
  if EFI_ERROR Status then mret tt
  else
    GranuleNodeOffset ← path "/mem-offline";
    if GranuleNodeOffset <? 0 then mret tt
    else
      _ ← FdtPropUpdateFunc GranuleNodeOffset (L "granule")
            (fdt_setprop_u32 GranuleNodeOffset (L "granule") Size);
      mret tt.

(** The first call replaces the property, later ones append. *)
Definition dev_tree_add_mem_info (offset addr size : Z) : MD R Z :=
  s ← get;
  (if mem_info_cnt s then
     _ ← FdtPropUpdateFunc offset (L "reg") (fdt_appendprop_u32 offset (L "reg") addr); mret tt
   else
     modify (fun s => mkDtState (dt_blob s) (dt_nodes s) true (mem_info_cntV64 s) (dt_seeds s));;
     _ ← FdtPropUpdateFunc offset (L "reg") (fdt_setprop_u32 offset (L "reg") addr); mret tt);;
  FdtPropUpdateFunc offset (L "reg") (fdt_appendprop_u32 offset (L "reg") size).

Definition dev_tree_add_mem_infoV64 (offset addr size : Z) : MD R Z :=
  s ← get;
  (if mem_info_cntV64 s then
     _ ← FdtPropUpdateFunc offset (L "reg") (fdt_appendprop_u64 offset (L "reg") addr); mret tt
   else
     modify (fun s => mkDtState (dt_blob s) (dt_nodes s) (mem_info_cnt s) true (dt_seeds s));;
     _ ← FdtPropUpdateFunc offset (L "reg") (fdt_setprop_u64 offset (L "reg") addr); mret tt);;
  FdtPropUpdateFunc offset (L "reg") (fdt_appendprop_u64 offset (L "reg") size).

(** One entry per partition; a failure is only logged. *)
Fixpoint add_partitions (MemoryCellLen offset : Z) (ps : list RamPartitionEntry) : MD R unit :=
  match ps with
  | [] => mret tt
  | p :: ps' =>
      _ ← (if MemoryCellLen =? 1
           then dev_tree_add_mem_info offset (u32 (Base p)) (u32 (AvailableLength p))
           else dev_tree_add_mem_infoV64 offset (Base p) (AvailableLength p));
      add_partitions MemoryCellLen offset ps'
  end.

(** [updated] is [UpdatedRamPartitions] when [UpdRamPartitionsAvail]. *)
Definition AddMemMap (updated : option (list RamPartitionEntry)) (MemNodeOffset : Z) : MD R EFI_STATUS :=
  q ← on_nodes (fun b => QueryMemoryCellSize b);
  if EFI_ERROR q.1 then mret q.1
  else
    let '(Status, parts) := match updated with Some ps => (EFI_SUCCESS, ps) | None => RamPartitions env end in
    if EFI_ERROR Status then mret Status
    else add_partitions (default 0 q.2) MemNodeOffset parts;; mret EFI_SUCCESS.

Definition target_dev_tree_mem (updated : option (list RamPartitionEntry)) (MemNodeOffset : Z) :
    MD R EFI_STATUS :=
  Status ← AddMemMap updated MemNodeOffset;
  if EFI_ERROR Status then mret Status else UpdateGranuleInfo;; mret Status.

(** [ddr_device_type]; the ranks are left out, [EnableUpdateRankChannel] is
    [FALSE] in the package. *)
Definition UpdateDDRInfo (offset : Z) : MD R EFI_STATUS :=
  if negb (pool DDR_DETAILS_SIZE) then mret EFI_OUT_OF_RESOURCES
  else
    let '(Status, DdrDeviceType) := DDRInfo env in
    if Status =? EFI_SUCCESS then
      _ ← FdtPropUpdateFunc offset (L "ddr_device_type")
            (fdt_appendprop_u32 offset (L "ddr_device_type") DdrDeviceType);
      mret EFI_SUCCESS
    else mret EFI_SUCCESS.

(** ** The chosen node *)

Definition GetRandomSeed : MD R (EFI_STATUS * Z) := fun s =>
  (Go (RandomSeed env (dt_seeds s)),
   mkDtState (dt_blob s) (dt_nodes s) (mem_info_cnt s) (mem_info_cntV64 s) (S (dt_seeds s))).

(** The words of [rng-seed]; an error ends the loop. *)
Definition add_rng_seeds (offset : Z) : MD R unit :=
  for_up (Z.to_nat (NUM_RNG_SEED_WORDS / 8)) 0 tt (fun _ _ =>
    r ← GetRandomSeed;
    if r.1 =? EFI_SUCCESS then
      ret ← FdtPropUpdateFunc offset (L "rng-seed") (fdt_appendprop_u64 offset (L "rng-seed") r.2);
      mret (negb (ret =? 0), tt)
    else mret (true, tt)).

Definition add_kaslr_seed (offset : Z) : MD R unit :=
  r ← GetRandomSeed;
  if r.1 =? EFI_SUCCESS then
    _ ← FdtPropUpdateFunc offset (L "kaslr-seed") (fdt_appendprop_u64 offset (L "kaslr-seed") r.2);
    mret tt
  else mret tt.

Definition add_initrd (offset ramdisk RamDiskSize : Z) : MD R EFI_STATUS :=
  if RamDiskSize =? 0 then mret EFI_SUCCESS
  else
    ret ← FdtPropUpdateFunc offset (L "linux,initrd-start")
            (fdt_setprop_u64 offset (L "linux,initrd-start") ramdisk);
    if negb (ret =? 0) then mret EFI_NOT_FOUND
    else
      ret ← FdtPropUpdateFunc offset (L "linux,initrd-end")
              (fdt_setprop_u64 offset (L "linux,initrd-end") (u64 (ramdisk + RamDiskSize)));
      mret (if negb (ret =? 0) then EFI_NOT_FOUND else EFI_SUCCESS).

(** The part of [UpdateDeviceTree] that writes into [/chosen]. *)
Definition UpdateChosen (cmdline : option (list Z)) (ramdisk RamDiskSize : Z) : MD R EFI_STATUS :=
  offset ← path "/chosen";
  if offset <? 0 then mret EFI_NOT_FOUND
  else
    ret ← (match cmdline with
           | Some cmdline =>
               FdtPropUpdateFunc offset (L "bootargs") (fdt_appendprop_string offset (L "bootargs") cmdline)
           | None => mret 0
           end);
    if negb (ret =? 0) then mret EFI_LOAD_ERROR
    else
      (if IsLEVariant then mret tt else add_rng_seeds offset);;
      add_kaslr_seed offset;;
      add_initrd offset ramdisk RamDiskSize.

(** ** The fstab nodes *)

(** The name of the boot device over the one in the path of the value. *)
Definition replace_bootdev (BootDevBuf : list Z) (data : Z) : MD R unit :=
  let BootLen := AsciiStrLen BootDevBuf in
  value ← on_nodes (fun b => string_at b data);
  match AsciiStrStr value (L "/soc/") with
  | None => mret tt
  | Some found =>
      let ReplaceStr := data + (Z.of_nat (length value) - Z.of_nat (length found)) + 5 in
      rest ← on_nodes (fun b => string_at b (ReplaceStr + 1));
      match AsciiStrStr rest (L "/") with
      | None => mret tt
      | Some next =>
          let NextStr := ReplaceStr + 1 + (Z.of_nat (length rest) - Z.of_nat (length next)) in
          let DevNodeBootDevLen := u32 (NextStr - ReplaceStr) in
          if DevNodeBootDevLen >=? BootLen then
            on_blob (copy_in ReplaceStr BootDevBuf BootLen);;
            let PaddingEnd := u32 (DevNodeBootDevLen - BootLen) in
            if negb (PaddingEnd =? 0) then
              n ← on_nodes (fun b => strlen_at b NextStr);
              on_blob (memmove (ReplaceStr + BootLen) NextStr n);;
              for_up (Z.to_nat PaddingEnd) 0 tt (fun Index _ =>
                n ← on_nodes (fun b => strlen_at b NextStr);
                on_blob (store (ReplaceStr + BootLen + n + Index) [32]);;
                mret (false, tt))
            else mret tt
          else mret tt
      end
  end.

Fixpoint fstab_loop (fuel : nat) (Property_ BootDevBuf : list Z) (SubNodeOffset : Z) (Status : EFI_STATUS) :
    MD R EFI_STATUS :=
  match fuel with
  | O => stop Forever
  | Datatypes.S fuel' =>
      if SubNodeOffset >=? 0 then
        p ← on_nodes (fun b => fdt_get_property b SubNodeOffset Property_);
        Status ←
          (match p.1 with
           | None => mret Status
           | Some Prop_ =>
               if IsDynamicPartitionSupport then
                 Status ← FdtSetProp SubNodeOffset Property_ (L "disabled" ++ [0]) 9;
                 mret (u64 Status)
               else replace_bootdev BootDevBuf (Prop_ + FDT_PROPERTY_SIZE);; mret Status
           end);
        next ← on_nodes (fun b => fdt_next_subnode b SubNodeOffset);
        fstab_loop fuel' Property_ BootDevBuf next Status
      else mret Status
  end.

Definition UpdateFstabNode : MD R EFI_STATUS :=
  ParentOffset ← path "/firmware/android/fstab";
  if ParentOffset <? 0 then mret EFI_NOT_FOUND
  else if negb IsDynamicPartitionSupport && negb (pool 32) then mret EFI_OUT_OF_RESOURCES
  else
    let '(Status, BootDevBuf) := if IsDynamicPartitionSupport then (EFI_SUCCESS, []) else BootDevice env in
    if negb (Status =? EFI_SUCCESS) then mret Status
    else
      first ← on_nodes (fun b => fdt_first_subnode b ParentOffset);
      s ← get;
      fstab_loop (fdt_rounds (dt_blob s)) (L (if IsDynamicPartitionSupport then "status" else "dev"))
        BootDevBuf first Status.

(** ** The regions of the DDR *)

Definition AddDDrRegionNode : MD R Z :=
  Offset ← path "/ddr-regions";
  if Offset <? 0 then
    Offset ← path "/";
    if Offset <? 0 then mret Offset else FdtAddSubnode pool Offset (L "ddr-regions")
  else mret Offset.

Definition region_words (r : DDR_REGIONS_STRUCT_ENTRY) : list Z :=
  [ Z.shiftr (start_address r) 32; Z.land (start_address r) 0xffffffff;
    Z.shiftr (ddr_size r) 32; Z.land (ddr_size r) 0xffffffff;
    Z.shiftr (segments_start_offset r) 32; Z.land (segments_start_offset r) 0xffffffff;
    0; Z.land (segments_start_index r) 0xffffffff;
    0; Z.land (granule_size r) 0xffffffff ].

(** [RegionName] for the region [Idx], one digit. *)
Definition region_name (Idx : Z) : MD R (list Z) :=
  r ← AsciiStrnCpyS (zeros DDR_REGION_NAME_LEN) DDR_REGION_NAME_LEN (L "region") 6;
  r ← AsciiStrnCatS r.2 DDR_REGION_NAME_LEN [48 + Idx] DDR_REGION_NAME_SUFFIX;
  mret r.2.

Fixpoint add_regions (Offset Idx : Z) (rs : list DDR_REGIONS_STRUCT_ENTRY) : MD R Z :=
  match rs with
  | [] => mret 0
  | r :: rs' =>
      RegionName ← region_name Idx;
      Ret ← FdtSetProp Offset RegionName (mjoin (map (be_put 4) (region_words r))) (MAX_DDR_REGION_PROP_MEM * 4);
      if negb (Ret =? 0) then mret Ret else add_regions Offset (Idx + 1) rs'
  end.

Definition AddDDrRegionNodeProp (info : Z * list DDR_REGIONS_STRUCT_ENTRY) (Offset : Z) : MD R Z :=
  let '(no_of_ddr_regions, ddr_region) := info in
  if no_of_ddr_regions >? MAX_DDR_REGIONS then mret (-1)
  else add_regions Offset 0 (take (Z.to_nat no_of_ddr_regions) ddr_region).

Definition AddDDrRegion : MD R EFI_STATUS :=
  if negb (pool DDR_REGIONS_SIZE) then mret EFI_OUT_OF_RESOURCES
  else
    let '(Status, info) := DDrRegionsInfo env in
    if negb (Status =? EFI_SUCCESS) then mret Status
    else
      Offset ← AddDDrRegionNode;
      if Offset <? 0 then mret EFI_OUT_OF_RESOURCES
      else
        Ret ← AddDDrRegionNodeProp info Offset;
        mret (if negb (Ret =? 0) then u64 Ret else EFI_SUCCESS).

(** ** [UpdateDeviceTree], up to the fstab nodes *)

(** The header, and room behind the tree.  The length of the command line is
    taken before it is tested for [NULL]. *)
Definition open_tree (cmdline : option (list Z)) : MD R EFI_STATUS :=
  ret ← on_nodes (fun b => fdt_check_header b);
  bad ← (if negb (ret =? 0) then mret true
         else ret ← on_nodes (fun b => fdt_check_header_ext Start b); mret (negb (ret =? 0)));
  if (bad : bool) then mret EFI_NOT_FOUND
  else
    totalsize ← on_nodes (fun b => fdt_totalsize b);
    cmdline ← need NullDeref cmdline;
    let PaddSize := ADD_OF totalsize (DTB_PAD_SIZE + AsciiStrLen cmdline) in
    if PaddSize =? 0 then mret EFI_BAD_BUFFER_SIZE
    else
      ret ← on_blob (fdt_open_into (s32 PaddSize));
      mret (if negb (ret =? 0) then EFI_BAD_BUFFER_SIZE else EFI_SUCCESS).

Definition UpdateDeviceTree_to_chosen (updated : option (list RamPartitionEntry))
    (cmdline : option (list Z)) (ramdisk RamDiskSize : Z) : MD R EFI_STATUS :=
  Status ← open_tree cmdline;
  if negb (Status =? EFI_SUCCESS) then mret Status
  else
    offset ← path "/memory";
    if offset <? 0 then mret EFI_NOT_FOUND
    else
      Status ← target_dev_tree_mem updated offset;
      if negb (Status =? EFI_SUCCESS) then mret Status
      else
        Status ← UpdateDDRInfo offset;
        if negb (Status =? EFI_SUCCESS) then mret Status
        else
          _ ← UpdateSplashMemInfo;
          _ ← UpdateDemuraInfo;
          _ ← UpdatePLLCodesInfo;
          _ ← UpdateRamDumpMemInfo;
          UpdateChosen cmdline ramdisk RamDiskSize.
End DtUpdate.
