(* ===== verification/DtGoods.v ===== *)
(** Partial goods: nodes of parts of the chip that are disabled
    ([QcomModulePkg/Library/BootLib/PartialGoods.c],
    [Include/Library/PartialGoods.h]); and with them [UpdateDeviceTree] of
    [UpdateDeviceTree.c] as a whole.

    The chip-info protocol is the record [ChipInfo]; [None] stands for an
    answer that leaves the caller's variable as it was.  The parts are numbered
    as in [Include/Protocol/EFIChipInfoTypes.h]. *)
From Stdlib Require Import ZArith Lia.
From stdpp Require Import base list numbers option.
From S2P Require Import Prelude EfiBase Fdt FdtSpec FdtRw FdtWrite Carveout DtMatch FdtUpdate DtUpdate.

Definition SUBSET_PART_CHIPINFO_BASE_REVISION : Z := 0x10002.
Definition EFI_CHIPINFO_PROTOCOL_REVISION_5 : Z := 0x10005.
Definition EFICHIPINFO_PART_GPU : Z := 1.
Definition EFICHIPINFO_PART_VIDEO : Z := 2.
Definition EFICHIPINFO_PART_CAMERA : Z := 3.
Definition EFICHIPINFO_PART_DISPLAY : Z := 4.
Definition EFICHIPINFO_PART_AUDIO : Z := 5.
Definition EFICHIPINFO_PART_MODEM : Z := 6.
Definition EFICHIPINFO_PART_WLAN : Z := 7.
Definition EFICHIPINFO_PART_COMP : Z := 8.
Definition EFICHIPINFO_PART_SENSORS : Z := 9.
Definition EFICHIPINFO_PART_NPU : Z := 10.
Definition EFICHIPINFO_PART_SPSS : Z := 11.
Definition EFICHIPINFO_PART_NAV : Z := 12.
Definition EFICHIPINFO_PART_COMPUTE_1 : Z := 13.
Definition EFICHIPINFO_PART_DISPLAY_1 : Z := 14.
Definition EFICHIPINFO_PART_NSP : Z := 15.
Definition EFICHIPINFO_PART_EVA : Z := 16.
Definition EFICHIPINFO_NUM_PARTS : Z := 17.

Record SubNodeListNew := mkSubNodeListNew {
  SubNodeName : String.string; PropertyName : String.string;
  PropertyStr : String.string; ReplaceStr : String.string;
}.
Record PartialGoods := mkPartialGoods { Val : Z; ParentNode : String.string; SubNode : SubNodeListNew }.
Record LabelStruct := mkLabelStruct {
  LabelName : String.string; LabelPropertyName : String.string; LabelReplaceStr : String.string;
}.
Record PartialGoodsWithLabel := mkPartialGoodsWithLabel { LabelVal : Z; LabelRef : LabelStruct }.

#[local] Arguments mkSubNodeListNew (_ _ _ _)%_string_scope.
#[local] Arguments mkPartialGoods _ _%_string_scope _.
#[local] Arguments mkLabelStruct (_ _ _)%_string_scope.

(** ** The tables *)

Definition PartialGoodsCpuType0 : list PartialGoods := [
  mkPartialGoods 0x1 "/cpus" (mkSubNodeListNew "cpu@0" "enable-method" "psci" "none");
  mkPartialGoods 0x2 "/cpus" (mkSubNodeListNew "cpu@100" "enable-method" "psci" "none");
  mkPartialGoods 0x4 "/cpus" (mkSubNodeListNew "cpu@200" "enable-method" "psci" "none");
  mkPartialGoods 0x8 "/cpus" (mkSubNodeListNew "cpu@300" "enable-method" "psci" "none");
  mkPartialGoods 0x10 "/cpus" (mkSubNodeListNew "cpu@400" "enable-method" "psci" "none");
  mkPartialGoods 0x20 "/cpus" (mkSubNodeListNew "cpu@500" "enable-method" "psci" "none");
  mkPartialGoods 0x40 "/cpus" (mkSubNodeListNew "cpu@600" "enable-method" "psci" "none");
  mkPartialGoods 0x80 "/cpus" (mkSubNodeListNew "cpu@700" "enable-method" "psci" "none")
].

Definition PartialGoodsCpuType1 : list PartialGoods := [
  mkPartialGoods 0x1 "/cpus" (mkSubNodeListNew "cpu@101" "enable-method" "psci" "none");
  mkPartialGoods 0x2 "/cpus" (mkSubNodeListNew "cpu@102" "enable-method" "psci" "none");
  mkPartialGoods 0x4 "/cpus" (mkSubNodeListNew "cpu@103" "enable-method" "psci" "none");
  mkPartialGoods 0x8 "/cpus" (mkSubNodeListNew "cpu@104" "enable-method" "psci" "none");
  mkPartialGoods 0x10 "/cpus" (mkSubNodeListNew "cpu@105" "enable-method" "psci" "none");
  mkPartialGoods 0x20 "/cpus" (mkSubNodeListNew "cpu@106" "enable-method" "psci" "none");
  mkPartialGoods 0x30 "/cpus" (mkSubNodeListNew "cpu@107" "enable-method" "psci" "none");
  mkPartialGoods 0x40 "/cpus" (mkSubNodeListNew "cpu@108" "enable-method" "psci" "none")
].

Definition PartialGoodsCpuType2 : list PartialGoods := [
  mkPartialGoods 0x1 "/cpus" (mkSubNodeListNew "cpu@0" "enable-method" "psci" "none");
  mkPartialGoods 0x2 "/cpus" (mkSubNodeListNew "cpu@1" "enable-method" "psci" "none");
  mkPartialGoods 0x4 "/cpus" (mkSubNodeListNew "cpu@2" "enable-method" "psci" "none");
  mkPartialGoods 0x8 "/cpus" (mkSubNodeListNew "cpu@3" "enable-method" "psci" "none");
  mkPartialGoods 0x10 "/cpus" (mkSubNodeListNew "cpu@100" "enable-method" "psci" "none");
  mkPartialGoods 0x20 "/cpus" (mkSubNodeListNew "cpu@101" "enable-method" "psci" "none");
  mkPartialGoods 0x40 "/cpus" (mkSubNodeListNew "cpu@102" "enable-method" "psci" "none");
  mkPartialGoods 0x80 "/cpus" (mkSubNodeListNew "cpu@103" "enable-method" "psci" "none")
].

Definition PartialGoodsCpuType : list (list PartialGoods) :=
  [PartialGoodsCpuType0; PartialGoodsCpuType1; PartialGoodsCpuType2].

Definition PartialGoodsMmType : list PartialGoods := [
  mkPartialGoods (BIT EFICHIPINFO_PART_GPU) "/soc" (mkSubNodeListNew "qcom,kgsl-3d0" "status" "ok" "no");
  mkPartialGoods (BIT EFICHIPINFO_PART_GPU) "/soc" (mkSubNodeListNew "qcom,gmu" "status" "ok" "no");
  mkPartialGoods (BIT EFICHIPINFO_PART_GPU) "/soc" (mkSubNodeListNew "kgsl-smmu" "status" "ok" "no");
  mkPartialGoods (BIT EFICHIPINFO_PART_GPU) "/soc" (mkSubNodeListNew "qcom,kgsl-iommu" "status" "ok" "no");
  mkPartialGoods (BIT EFICHIPINFO_PART_GPU) "/soc" (mkSubNodeListNew "qcom,gpu-coresight-cx" "status" "ok" "no");
  mkPartialGoods (BIT EFICHIPINFO_PART_GPU) "/soc" (mkSubNodeListNew "qcom,gpu-coresight-gx" "status" "ok" "no");
  mkPartialGoods (BIT EFICHIPINFO_PART_VIDEO) "/soc" (mkSubNodeListNew "qcom,vidc" "status" "ok" "no");
  mkPartialGoods (BIT EFICHIPINFO_PART_VIDEO) "/soc" (mkSubNodeListNew "qcom,vidc0" "status" "ok" "no");
  mkPartialGoods (BIT EFICHIPINFO_PART_VIDEO) "/soc" (mkSubNodeListNew "qcom,vidc1" "status" "ok" "no");
  mkPartialGoods (BIT EFICHIPINFO_PART_VIDEO) "/soc" (mkSubNodeListNew "qcom,videocc" "status" "ok" "no");
  mkPartialGoods (BIT EFICHIPINFO_PART_CAMERA) "/soc" (mkSubNodeListNew "qcom,cam-req-mgr" "status" "ok" "no");
  mkPartialGoods (BIT EFICHIPINFO_PART_CAMERA) "/soc" (mkSubNodeListNew "qcom,msm-cam" "status" "ok" "no");
  mkPartialGoods (BIT EFICHIPINFO_PART_CAMERA) "/soc" (mkSubNodeListNew "qcom,csiphy" "status" "ok" "no");
  mkPartialGoods (BIT EFICHIPINFO_PART_CAMERA) "/soc" (mkSubNodeListNew "qcom,csiphy0" "status" "ok" "no");
  mkPartialGoods (BIT EFICHIPINFO_PART_CAMERA) "/soc" (mkSubNodeListNew "qcom,csiphy1" "status" "ok" "no");
  mkPartialGoods (BIT EFICHIPINFO_PART_CAMERA) "/soc" (mkSubNodeListNew "qcom,csiphy2" "status" "ok" "no");
  mkPartialGoods (BIT EFICHIPINFO_PART_CAMERA) "/soc" (mkSubNodeListNew "qcom,csiphy3" "status" "ok" "no");
  mkPartialGoods (BIT EFICHIPINFO_PART_CAMERA) "/soc" (mkSubNodeListNew "qcom,csiphy4" "status" "ok" "no");
  mkPartialGoods (BIT EFICHIPINFO_PART_CAMERA) "/soc" (mkSubNodeListNew "qcom,csiphy5" "status" "ok" "no");
  mkPartialGoods (BIT EFICHIPINFO_PART_CAMERA) "/soc" (mkSubNodeListNew "qcom,csid0" "status" "ok" "no");
  mkPartialGoods (BIT EFICHIPINFO_PART_CAMERA) "/soc" (mkSubNodeListNew "qcom,csid1" "status" "ok" "no");
  mkPartialGoods (BIT EFICHIPINFO_PART_CAMERA) "/soc" (mkSubNodeListNew "qcom,csid-lite0" "status" "ok" "no");
  mkPartialGoods (BIT EFICHIPINFO_PART_CAMERA) "/soc" (mkSubNodeListNew "qcom,csid-lite1" "status" "ok" "no");
  mkPartialGoods (BIT EFICHIPINFO_PART_CAMERA) "/soc" (mkSubNodeListNew "qcom,cam_smmu" "status" "ok" "no");
  mkPartialGoods (BIT EFICHIPINFO_PART_CAMERA) "/soc" (mkSubNodeListNew "qcom,cam-cpas" "status" "ok" "no");
  mkPartialGoods (BIT EFICHIPINFO_PART_CAMERA) "/soc" (mkSubNodeListNew "qcom,cam-cdm-intf" "status" "ok" "no");
  mkPartialGoods (BIT EFICHIPINFO_PART_CAMERA) "/soc" (mkSubNodeListNew "qcom,cpas-cdm0" "status" "ok" "no");
  mkPartialGoods (BIT EFICHIPINFO_PART_CAMERA) "/soc" (mkSubNodeListNew "qcom,cpas-cdm1" "status" "ok" "no");
  mkPartialGoods (BIT EFICHIPINFO_PART_CAMERA) "/soc" (mkSubNodeListNew "qcom,cpas-cdm2" "status" "ok" "no");
  mkPartialGoods (BIT EFICHIPINFO_PART_CAMERA) "/soc" (mkSubNodeListNew "qcom,cam-cpas" "status" "ok" "no");
  mkPartialGoods (BIT EFICHIPINFO_PART_CAMERA) "/soc" (mkSubNodeListNew "qcom,cam-fd" "status" "ok" "no");
  mkPartialGoods (BIT EFICHIPINFO_PART_CAMERA) "/soc" (mkSubNodeListNew "qcom,fd" "status" "ok" "no");
  mkPartialGoods (BIT EFICHIPINFO_PART_CAMERA) "/soc" (mkSubNodeListNew "qcom,ife0" "status" "ok" "no");
  mkPartialGoods (BIT EFICHIPINFO_PART_CAMERA) "/soc" (mkSubNodeListNew "qcom,ife1" "status" "ok" "no");
  mkPartialGoods (BIT EFICHIPINFO_PART_CAMERA) "/soc" (mkSubNodeListNew "qcom,ife-lite0" "status" "ok" "no");
  mkPartialGoods (BIT EFICHIPINFO_PART_CAMERA) "/soc" (mkSubNodeListNew "qcom,ife-lite1" "status" "ok" "no");
  mkPartialGoods (BIT EFICHIPINFO_PART_CAMERA) "/soc" (mkSubNodeListNew "qcom,cci" "status" "ok" "no");
  mkPartialGoods (BIT EFICHIPINFO_PART_CAMERA) "/soc" (mkSubNodeListNew "qcom,cci0" "status" "ok" "no");
  mkPartialGoods (BIT EFICHIPINFO_PART_CAMERA) "/soc" (mkSubNodeListNew "qcom,cci1" "status" "ok" "no");
  mkPartialGoods (BIT EFICHIPINFO_PART_CAMERA) "/soc" (mkSubNodeListNew "qcom,cci2" "status" "ok" "no");
  mkPartialGoods (BIT EFICHIPINFO_PART_CAMERA) "/soc" (mkSubNodeListNew "qcom,jpegenc" "status" "ok" "no");
  mkPartialGoods (BIT EFICHIPINFO_PART_CAMERA) "/soc" (mkSubNodeListNew "qcom,jpegdma" "status" "ok" "no");
  mkPartialGoods (BIT EFICHIPINFO_PART_CAMERA) "/soc" (mkSubNodeListNew "qcom,camera-flash0" "status" "ok" "no");
  mkPartialGoods (BIT EFICHIPINFO_PART_CAMERA) "/soc" (mkSubNodeListNew "qcom,camera-flash1" "status" "ok" "no");
  mkPartialGoods (BIT EFICHIPINFO_PART_CAMERA) "/soc" (mkSubNodeListNew "qcom,camera-flash2" "status" "ok" "no");
  mkPartialGoods (BIT EFICHIPINFO_PART_CAMERA) "/soc" (mkSubNodeListNew "qcom,camera-flash3" "status" "ok" "no");
  mkPartialGoods (BIT EFICHIPINFO_PART_CAMERA) "/soc" (mkSubNodeListNew "qcom,cam-icp" "status" "ok" "no");
  mkPartialGoods (BIT EFICHIPINFO_PART_CAMERA) "/soc" (mkSubNodeListNew "qcom,cam-isp" "status" "ok" "no");
  mkPartialGoods (BIT EFICHIPINFO_PART_CAMERA) "/soc" (mkSubNodeListNew "qcom,a5" "status" "ok" "no");
  mkPartialGoods (BIT EFICHIPINFO_PART_CAMERA) "/soc" (mkSubNodeListNew "qcom,ipe0" "status" "ok" "no");
  mkPartialGoods (BIT EFICHIPINFO_PART_CAMERA) "/soc" (mkSubNodeListNew "qcom,bps" "status" "ok" "no");
  mkPartialGoods (BIT EFICHIPINFO_PART_CAMERA) "/soc" (mkSubNodeListNew "qcom,cam-jpeg" "status" "ok" "no");
  mkPartialGoods (BIT EFICHIPINFO_PART_CAMERA) "/soc" (mkSubNodeListNew "qcom,lrme" "status" "ok" "no");
  mkPartialGoods (BIT EFICHIPINFO_PART_CAMERA) "/soc" (mkSubNodeListNew "qcom,ipe1" "status" "ok" "no");
  mkPartialGoods (BIT EFICHIPINFO_PART_CAMERA) "/soc" (mkSubNodeListNew "qcom,vfe0" "status" "ok" "no");
  mkPartialGoods (BIT EFICHIPINFO_PART_CAMERA) "/soc" (mkSubNodeListNew "qcom,vfe1" "status" "ok" "no");
  mkPartialGoods (BIT EFICHIPINFO_PART_CAMERA) "/soc" (mkSubNodeListNew "qcom,csid2" "status" "ok" "no");
  mkPartialGoods (BIT EFICHIPINFO_PART_CAMERA) "/soc" (mkSubNodeListNew "qcom,cam-sync" "status" "ok" "no");
  mkPartialGoods (BIT EFICHIPINFO_PART_CAMERA) "/soc" (mkSubNodeListNew "qcom,rt-cdm0" "status" "ok" "no");
  mkPartialGoods (BIT EFICHIPINFO_PART_CAMERA) "/soc" (mkSubNodeListNew "qcom,rt-cdm1" "status" "ok" "no");
  mkPartialGoods (BIT EFICHIPINFO_PART_CAMERA) "/soc" (mkSubNodeListNew "qcom,rt-cdm2" "status" "ok" "no");
  mkPartialGoods (BIT EFICHIPINFO_PART_CAMERA) "/soc" (mkSubNodeListNew "qcom,rt-cdm3" "status" "ok" "no");
  mkPartialGoods (BIT EFICHIPINFO_PART_CAMERA) "/soc" (mkSubNodeListNew "qcom,rt-cdm4" "status" "ok" "no");
  mkPartialGoods (BIT EFICHIPINFO_PART_CAMERA) "/soc" (mkSubNodeListNew "qcom,icp" "status" "ok" "no");
  mkPartialGoods (BIT EFICHIPINFO_PART_CAMERA) "/soc" (mkSubNodeListNew "qcom,ife2" "status" "ok" "no");
  mkPartialGoods (BIT EFICHIPINFO_PART_CAMERA) "/soc" (mkSubNodeListNew "qcom,sfe0" "status" "ok" "no");
  mkPartialGoods (BIT EFICHIPINFO_PART_CAMERA) "/soc" (mkSubNodeListNew "qcom,jpegenc0" "status" "ok" "no");
  mkPartialGoods (BIT EFICHIPINFO_PART_CAMERA) "/soc" (mkSubNodeListNew "qcom,jpegdma0" "status" "ok" "no");
  mkPartialGoods (BIT EFICHIPINFO_PART_CAMERA) "/soc" (mkSubNodeListNew "qcom,sfe1" "status" "ok" "no");
  mkPartialGoods (BIT EFICHIPINFO_PART_CAMERA) "/soc" (mkSubNodeListNew "qcom,cam-res-mgr" "status" "ok" "no");
  mkPartialGoods (BIT EFICHIPINFO_PART_CAMERA) "/soc" (mkSubNodeListNew "qcom,tfe_csid0" "status" "ok" "no");
  mkPartialGoods (BIT EFICHIPINFO_PART_CAMERA) "/soc" (mkSubNodeListNew "qcom,tfe0" "status" "ok" "no");
  mkPartialGoods (BIT EFICHIPINFO_PART_CAMERA) "/soc" (mkSubNodeListNew "qcom,tfe_csid1" "status" "ok" "no");
  mkPartialGoods (BIT EFICHIPINFO_PART_CAMERA) "/soc" (mkSubNodeListNew "qcom,tfe1" "status" "ok" "no");
  mkPartialGoods (BIT EFICHIPINFO_PART_CAMERA) "/soc" (mkSubNodeListNew "qcom,tfe_csid2" "status" "ok" "no");
  mkPartialGoods (BIT EFICHIPINFO_PART_CAMERA) "/soc" (mkSubNodeListNew "qcom,tfe2" "status" "ok" "no");
  mkPartialGoods (BIT EFICHIPINFO_PART_CAMERA) "/soc" (mkSubNodeListNew "qcom,tfe_csid-lite0" "status" "ok" "no");
  mkPartialGoods (BIT EFICHIPINFO_PART_CAMERA) "/soc" (mkSubNodeListNew "qcom,tfe-lite0" "status" "ok" "no");
  mkPartialGoods (BIT EFICHIPINFO_PART_CAMERA) "/soc" (mkSubNodeListNew "qcom,cam-cre" "status" "ok" "no");
  mkPartialGoods (BIT EFICHIPINFO_PART_CAMERA) "/soc" (mkSubNodeListNew "qcom,cre" "status" "ok" "no");
  mkPartialGoods (BIT EFICHIPINFO_PART_CAMERA) "/soc" (mkSubNodeListNew "qcom,tpg13" "status" "ok" "no");
  mkPartialGoods (BIT EFICHIPINFO_PART_CAMERA) "/soc" (mkSubNodeListNew "qcom,tpg14" "status" "ok" "no");
  mkPartialGoods (BIT EFICHIPINFO_PART_CAMERA) "/soc" (mkSubNodeListNew "qcom,tpg15" "status" "ok" "no");
  mkPartialGoods (BIT EFICHIPINFO_PART_CAMERA) "/soc" (mkSubNodeListNew "qcom,tpg16" "status" "ok" "no");
  mkPartialGoods (BIT EFICHIPINFO_PART_DISPLAY) "/soc" (mkSubNodeListNew "qcom,mdss_mdp" "status" "ok" "no");
  mkPartialGoods (BIT EFICHIPINFO_PART_DISPLAY) "/soc" (mkSubNodeListNew "qcom,mdss_rotator" "status" "ok" "no");
  mkPartialGoods (BIT EFICHIPINFO_PART_DISPLAY) "/soc" (mkSubNodeListNew "qcom,mdss_dsi0_ctrl" "status" "ok" "no");
  mkPartialGoods (BIT EFICHIPINFO_PART_DISPLAY) "/soc" (mkSubNodeListNew "qcom,mdss_dsi1_ctrl" "status" "ok" "no");
  mkPartialGoods (BIT EFICHIPINFO_PART_DISPLAY) "/soc" (mkSubNodeListNew "qcom,mdss_dsi_ctrl0" "status" "ok" "no");
  mkPartialGoods (BIT EFICHIPINFO_PART_DISPLAY) "/soc" (mkSubNodeListNew "qcom,mdss_dsi_ctrl1" "status" "ok" "no");
  mkPartialGoods (BIT EFICHIPINFO_PART_DISPLAY) "/soc" (mkSubNodeListNew "qcom,mdss_dsi_phy0" "status" "ok" "no");
  mkPartialGoods (BIT EFICHIPINFO_PART_DISPLAY) "/soc" (mkSubNodeListNew "qcom,mdss_dsi_phy1" "status" "ok" "no");
  mkPartialGoods (BIT EFICHIPINFO_PART_DISPLAY) "/soc" (mkSubNodeListNew "qcom,mdss_dsi0_pll" "status" "ok" "no");
  mkPartialGoods (BIT EFICHIPINFO_PART_DISPLAY) "/soc" (mkSubNodeListNew "qcom,mdss_dsi1_pll" "status" "ok" "no");
  mkPartialGoods (BIT EFICHIPINFO_PART_DISPLAY) "/soc" (mkSubNodeListNew "qcom,mdss_dsi_pll" "status" "ok" "no");
  mkPartialGoods (BIT EFICHIPINFO_PART_DISPLAY) "/soc" (mkSubNodeListNew "qcom,dsi-display-primary" "status" "ok" "no");
  mkPartialGoods (BIT EFICHIPINFO_PART_DISPLAY) "/soc" (mkSubNodeListNew "qcom,dsi-display-secondary" "status" "ok" "no");
  mkPartialGoods (BIT EFICHIPINFO_PART_DISPLAY) "/soc" (mkSubNodeListNew "qcom,mdss_dp_pll" "status" "ok" "no");
  mkPartialGoods (BIT EFICHIPINFO_PART_DISPLAY) "/soc" (mkSubNodeListNew "qcom,msm-ext-disp" "status" "ok" "no");
  mkPartialGoods (BIT EFICHIPINFO_PART_DISPLAY) "/soc" (mkSubNodeListNew "qcom,sde_rscc" "status" "ok" "no");
  mkPartialGoods (BIT EFICHIPINFO_PART_DISPLAY) "/soc" (mkSubNodeListNew "qcom,dp_display" "status" "ok" "no");
  mkPartialGoods (BIT EFICHIPINFO_PART_DISPLAY) "/soc" (mkSubNodeListNew "qcom,dispcc" "status" "ok" "no");
  mkPartialGoods (BIT EFICHIPINFO_PART_DISPLAY) "/soc" (mkSubNodeListNew "qcom,msm_hdcp" "status" "ok" "no");
  mkPartialGoods (BIT EFICHIPINFO_PART_DISPLAY) "/soc" (mkSubNodeListNew "qcom,smmu_sde_sec_cb" "status" "ok" "no");
  mkPartialGoods (BIT EFICHIPINFO_PART_DISPLAY) "/soc" (mkSubNodeListNew "qcom,smmu_sde_unsec_cb" "status" "ok" "no");
  mkPartialGoods (BIT EFICHIPINFO_PART_DISPLAY) "/soc" (mkSubNodeListNew "qcom,wb-display" "status" "ok" "no");
  mkPartialGoods (BIT EFICHIPINFO_PART_AUDIO) "/soc" (mkSubNodeListNew "qcom,msm-adsp-loader" "status" "ok" "no");
  mkPartialGoods (BIT EFICHIPINFO_PART_AUDIO) "/soc" (mkSubNodeListNew "qcom,lpass" "status" "ok" "no");
  mkPartialGoods (BIT EFICHIPINFO_PART_AUDIO) "/soc" (mkSubNodeListNew "qcom,msm-adsprpc-mem" "status" "ok" "no");
  mkPartialGoods (BIT EFICHIPINFO_PART_AUDIO) "/soc" (mkSubNodeListNew "remoteproc-adsp" "status" "ok" "no");
  mkPartialGoods (BIT EFICHIPINFO_PART_MODEM) "/soc" (mkSubNodeListNew "qcom,mss" "status" "ok" "no");
  mkPartialGoods (Z.lor (Z.lor (BIT EFICHIPINFO_PART_MODEM) (BIT EFICHIPINFO_PART_WLAN)) (BIT EFICHIPINFO_PART_NAV)) "/soc" (mkSubNodeListNew "remoteproc-mss" "status" "ok" "no");
  mkPartialGoods (BIT EFICHIPINFO_PART_WLAN) "/soc" (mkSubNodeListNew "qcom,wpss" "status" "ok" "no");
  mkPartialGoods (BIT EFICHIPINFO_PART_WLAN) "/soc" (mkSubNodeListNew "remoteproc-wpss" "status" "ok" "no");
  mkPartialGoods (BIT EFICHIPINFO_PART_COMP) "/soc" (mkSubNodeListNew "qcom,turing" "status" "ok" "no");
  mkPartialGoods (BIT EFICHIPINFO_PART_COMP) "/soc" (mkSubNodeListNew "remoteproc-cdsp" "status" "ok" "no");
  mkPartialGoods (BIT EFICHIPINFO_PART_SENSORS) "/soc" (mkSubNodeListNew "qcom,ssc" "status" "ok" "no");
  mkPartialGoods (BIT EFICHIPINFO_PART_SENSORS) "/soc" (mkSubNodeListNew "remoteproc-slpi" "status" "ok" "no");
  mkPartialGoods (BIT EFICHIPINFO_PART_SPSS) "/soc" (mkSubNodeListNew "remoteproc-spss" "status" "ok" "no");
  mkPartialGoods (BIT EFICHIPINFO_PART_NPU) "/soc" (mkSubNodeListNew "qcom,npucc" "status" "ok" "no");
  mkPartialGoods (BIT EFICHIPINFO_PART_NPU) "/soc" (mkSubNodeListNew "qcom,npu" "status" "ok" "no");
  mkPartialGoods (BIT EFICHIPINFO_PART_NSP) "/soc" (mkSubNodeListNew "remoteproc-cdsp" "status" "ok" "no");
  mkPartialGoods (BIT EFICHIPINFO_PART_EVA) "/soc" (mkSubNodeListNew "qcom,cvp" "status" "ok" "no")
].

Definition PartialGoodsMmTypeWithLabel : list PartialGoodsWithLabel := [
  mkPartialGoodsWithLabel (BIT EFICHIPINFO_PART_GPU) (mkLabelStruct "gpucc" "status" "no");
  mkPartialGoodsWithLabel (BIT EFICHIPINFO_PART_GPU) (mkLabelStruct "gpu_cc_cx_gdsc" "status" "no");
  mkPartialGoodsWithLabel (BIT EFICHIPINFO_PART_GPU) (mkLabelStruct "gpu_cc_gx_gdsc" "status" "no");
  mkPartialGoodsWithLabel (BIT EFICHIPINFO_PART_GPU) (mkLabelStruct "funnel_gfx" "status" "no");
  mkPartialGoodsWithLabel (BIT EFICHIPINFO_PART_CAMERA) (mkLabelStruct "cam_cc_bps_gdsc" "status" "no");
  mkPartialGoodsWithLabel (BIT EFICHIPINFO_PART_CAMERA) (mkLabelStruct "cam_cc_ife_0_gdsc" "status" "no");
  mkPartialGoodsWithLabel (BIT EFICHIPINFO_PART_CAMERA) (mkLabelStruct "cam_cc_ife_1_gdsc" "status" "no");
  mkPartialGoodsWithLabel (BIT EFICHIPINFO_PART_CAMERA) (mkLabelStruct "cam_cc_ife_2_gdsc" "status" "no");
  mkPartialGoodsWithLabel (BIT EFICHIPINFO_PART_CAMERA) (mkLabelStruct "cam_cc_ipe_0_gdsc" "status" "no");
  mkPartialGoodsWithLabel (BIT EFICHIPINFO_PART_CAMERA) (mkLabelStruct "cam_cc_sbi_gdsc" "status" "no");
  mkPartialGoodsWithLabel (BIT EFICHIPINFO_PART_CAMERA) (mkLabelStruct "cam_cc_sfe_0_gdsc" "status" "no");
  mkPartialGoodsWithLabel (BIT EFICHIPINFO_PART_CAMERA) (mkLabelStruct "cam_cc_sfe_1_gdsc" "status" "no");
  mkPartialGoodsWithLabel (BIT EFICHIPINFO_PART_CAMERA) (mkLabelStruct "cam_cc_titan_top_gdsc" "status" "no");
  mkPartialGoodsWithLabel (BIT EFICHIPINFO_PART_CAMERA) (mkLabelStruct "camcc" "status" "no");
  mkPartialGoodsWithLabel (BIT EFICHIPINFO_PART_CAMERA) (mkLabelStruct "cam_rsc" "status" "no");
  mkPartialGoodsWithLabel (BIT EFICHIPINFO_PART_CAMERA) (mkLabelStruct "cam_cc_camss_top_gdsc" "status" "no");
  mkPartialGoodsWithLabel (BIT EFICHIPINFO_PART_DISPLAY) (mkLabelStruct "disp_rsc" "status" "no");
  mkPartialGoodsWithLabel (BIT EFICHIPINFO_PART_DISPLAY) (mkLabelStruct "disp_cc_mdss_core_gdsc" "status" "no");
  mkPartialGoodsWithLabel (BIT EFICHIPINFO_PART_DISPLAY) (mkLabelStruct "disp_cc_mdss_core_int2_gdsc" "status" "no");
  mkPartialGoodsWithLabel (BIT EFICHIPINFO_PART_DISPLAY) (mkLabelStruct "dispcc" "status" "no");
  mkPartialGoodsWithLabel (BIT EFICHIPINFO_PART_VIDEO) (mkLabelStruct "video_cc_mvs0_gdsc" "status" "no");
  mkPartialGoodsWithLabel (BIT EFICHIPINFO_PART_VIDEO) (mkLabelStruct "video_cc_mvs0c_gdsc" "status" "no");
  mkPartialGoodsWithLabel (BIT EFICHIPINFO_PART_VIDEO) (mkLabelStruct "video_cc_mvs1_gdsc" "status" "no");
  mkPartialGoodsWithLabel (BIT EFICHIPINFO_PART_VIDEO) (mkLabelStruct "video_cc_mvs1c_gdsc" "status" "no");
  mkPartialGoodsWithLabel (BIT EFICHIPINFO_PART_VIDEO) (mkLabelStruct "videocc" "status" "no");
  mkPartialGoodsWithLabel (BIT EFICHIPINFO_PART_EVA) (mkLabelStruct "video_cc_mvs0_gdsc" "status" "no");
  mkPartialGoodsWithLabel (BIT EFICHIPINFO_PART_EVA) (mkLabelStruct "video_cc_mvs0c_gdsc" "status" "no");
  mkPartialGoodsWithLabel (BIT EFICHIPINFO_PART_EVA) (mkLabelStruct "video_cc_mvs1_gdsc" "status" "no");
  mkPartialGoodsWithLabel (BIT EFICHIPINFO_PART_EVA) (mkLabelStruct "video_cc_mvs1c_gdsc" "status" "no");
  mkPartialGoodsWithLabel (BIT EFICHIPINFO_PART_EVA) (mkLabelStruct "videocc" "status" "no")
].

(** ** The protocol *)

Record ChipInfo := mkChipInfo {
  Revision : Z;
  GetDisabledCPUs : EFI_STATUS * option Z;
  GetSubsetCPUs : EFI_STATUS * option Z;
  IsPartDisabled : Z -> EFI_STATUS * option Z;
  GetSubsetPart : Z -> EFI_STATUS * option Z;
}.

Definition ReadCpuPartialGoods (chip : ChipInfo) : EFI_STATUS * Z :=
  let '(Status, Value) :=
    if EFI_CHIPINFO_PROTOCOL_REVISION_5 <=? Revision chip
    then ((GetDisabledCPUs chip).1, default 0 (GetDisabledCPUs chip).2) else (EFI_SUCCESS, 0) in
  let '(Status, Value) :=
    if (Revision chip <? EFI_CHIPINFO_PROTOCOL_REVISION_5) || (Status =? EFI_NOT_FOUND)
    then ((GetSubsetCPUs chip).1, default Value (GetSubsetCPUs chip).2) else (Status, Value) in
  (if Status =? EFI_NOT_FOUND then EFI_SUCCESS else Status, Value).

(** The answer for one part, [SubsetVal] being what the variable holds. *)
Definition read_part (chip : ChipInfo) (i SubsetVal : Z) (Status : EFI_STATUS) : EFI_STATUS * Z :=
  let '(Status, SubsetVal) :=
    if EFI_CHIPINFO_PROTOCOL_REVISION_5 <=? Revision chip
    then ((IsPartDisabled chip i).1, default 0 (IsPartDisabled chip i).2) else (Status, SubsetVal) in
  if (Revision chip <? EFI_CHIPINFO_PROTOCOL_REVISION_5) || (Status =? EFI_NOT_FOUND)
  then ((GetSubsetPart chip i).1, default 0 (GetSubsetPart chip i).2) else (Status, SubsetVal).

(** The parts from [i] on, [n] of them. *)
Fixpoint read_parts (n : nat) (chip : ChipInfo) (i SubsetVal Value : Z) (Status : EFI_STATUS) : EFI_STATUS * Z :=
  match n with
  | O => (Status, Value)
  | Datatypes.S n' =>
      let '(Status, SubsetVal) := read_part chip i SubsetVal Status in
      read_parts n' chip (i + 1) SubsetVal
        (if EFI_ERROR Status then Value else Z.lor Value (u32 (Z.shiftl SubsetVal i))) Status
  end.

Definition ReadMMPartialGoods (chip : ChipInfo) : EFI_STATUS * Z :=
  let '(Status, Value) := read_parts (Z.to_nat (EFICHIPINFO_NUM_PARTS - 1)) chip 1 0 0 EFI_SUCCESS in
  (if Status =? EFI_NOT_FOUND then EFI_SUCCESS else Status, Value).

(** ** The tree *)

Section Goods.
Context {R : Type}.
Variable pool : Z -> bool.
Variable rodata : list Z.

#[local] Arguments path {R} pool rodata s%_string_scope.

Definition fdt_subnode_offset (parentoffset : Z) (name : String.string) : MD R Z :=
  on_nodes (fun b => fdt_subnode_offset_namelen b parentoffset (L name) (AsciiStrLen (L name))).

(** All nodes of the table are there. *)
Fixpoint CheckCPUType (Table : list PartialGoods) : MD R EFI_STATUS :=
  match Table with
  | [] => mret EFI_SUCCESS
  | e :: Table' =>
      ParentOffset ← on_nodes (fun b => fdt_path_offset b (L (ParentNode e)));
      if ParentOffset <? 0 then mret EFI_NOT_FOUND
      else
        SubNodeOffset ← fdt_subnode_offset ParentOffset (SubNodeName (SubNode e));
        if SubNodeOffset <? 0 then mret EFI_NOT_FOUND else CheckCPUType Table'
  end.

(** The modem subsystem is disabled when all it holds is: with the modem and
    navigation, and WLAN too when the node says so. *)
Definition shared_part_kept (SubNodeOffset Value : Z) (e : PartialGoods) : MD R bool :=
  if Val e =? Z.lor (Z.lor (BIT EFICHIPINFO_PART_MODEM) (BIT EFICHIPINFO_PART_WLAN)) (BIT EFICHIPINFO_PART_NAV) then
    p ← on_nodes (fun b => fdt_get_property b SubNodeOffset (L "legacy-wlan"));
    let has i := negb (Z.land Value (BIT i) =? 0) in
    mret (match p.1 with
          | Some _ => negb (has EFICHIPINFO_PART_MODEM && has EFICHIPINFO_PART_WLAN && has EFICHIPINFO_PART_NAV)
          | None => negb (has EFICHIPINFO_PART_MODEM && has EFICHIPINFO_PART_NAV)
          end)
  else mret false.

(** A string as the value of a property; a failure is only logged. *)
Definition set_string (Offset : Z) (Name Str : String.string) : MD R unit :=
  _ ← FdtSetProp Offset (L Name) (L Str ++ [0]) (AsciiStrLen (L Str) + 1);
  mret tt.
#[local] Arguments set_string Offset (Name Str)%_string_scope.

(** One round of [FindNodeAndUpdateProperty]. *)
Definition update_entry (Value : Z) (e : PartialGoods) : MD R unit :=
  if Z.land Value (Val e) =? 0 then mret tt
  else
    ParentOffset ← path pool rodata (ParentNode e);
    if ParentOffset <? 0 then mret tt
    else
      SubNodeOffset ← fdt_subnode_offset ParentOffset (SubNodeName (SubNode e));
      if SubNodeOffset <? 0 then mret tt
      else
        kept ← shared_part_kept SubNodeOffset Value e;
        if (kept : bool) then mret tt
        else
          set_string SubNodeOffset (PropertyName (SubNode e)) (ReplaceStr (SubNode e));;
          if String.eqb (ParentNode e) "/cpus" then set_string SubNodeOffset "status" "fail" else mret tt.

Fixpoint FindNodeAndUpdateProperty (Table : list PartialGoods) (Value : Z) : MD R unit :=
  match Table with
  | [] => mret tt
  | e :: Table' => update_entry Value e;; FindNodeAndUpdateProperty Table' Value
  end.

(** One round of [FindLabelAndUpdateProperty]: the symbol names the node. *)
Definition update_label (Value : Z) (e : PartialGoodsWithLabel) : MD R unit :=
  if Z.land Value (LabelVal e) =? 0 then mret tt
  else
    SymbolsOffset ← path pool rodata "/__symbols__";
    if SymbolsOffset <? 0 then mret tt
    else
      LabelNodePath ← on_nodes (fun b => fdt_getprop b SymbolsOffset (L (LabelName (LabelRef e))));
      match LabelNodePath.1 with
      | None => mret tt
      | Some LabelNodePath =>
          NodeOffset ← on_nodes (fun b => target ← string_at b LabelNodePath; fdt_path_offset b target);
          if NodeOffset <? 0 then mret tt
          else set_string NodeOffset (LabelPropertyName (LabelRef e)) (LabelReplaceStr (LabelRef e))
      end.

Fixpoint FindLabelAndUpdateProperty (Table : list PartialGoodsWithLabel) (Value : Z) : MD R unit :=
  match Table with
  | [] => mret tt
  | e :: Table' => update_label Value e;; FindLabelAndUpdateProperty Table' Value
  end.

(** The first table whose nodes are all there, or the first one. *)
Fixpoint cpu_table (Tables : list (list PartialGoods)) : MD R (list PartialGoods) :=
  match Tables with
  | [] => mret PartialGoodsCpuType0
  | t :: Tables' =>
      Status ← CheckCPUType t;
      if Status =? EFI_SUCCESS then mret t else cpu_table Tables'
  end.

(** The nodes of both masks. *)
Definition update_masks (PartialGoodsMMValue PartialGoodsCpuValue : Z) : MD R EFI_STATUS :=
  (if negb (PartialGoodsMMValue =? 0) then
     FindNodeAndUpdateProperty PartialGoodsMmType PartialGoodsMMValue;;
     FindLabelAndUpdateProperty PartialGoodsMmTypeWithLabel PartialGoodsMMValue
   else mret tt);;
  if PartialGoodsCpuValue =? 0 then mret EFI_SUCCESS
  else
    Table ← cpu_table PartialGoodsCpuType;
    FindNodeAndUpdateProperty Table PartialGoodsCpuValue;;
    mret EFI_SUCCESS.

(** [pChipInfoProtocol] is what [LocateProtocol] answers. *)
Definition UpdatePartialGoodsNode (pChipInfoProtocol : EFI_STATUS * ChipInfo) : MD R EFI_STATUS :=
  let '(Status, chip) := pChipInfoProtocol in
  if EFI_ERROR Status then mret Status
  else if Revision chip <? SUBSET_PART_CHIPINFO_BASE_REVISION then mret Status
  else update_masks (ReadMMPartialGoods chip).2 (ReadCpuPartialGoods chip).2.

(** [UpdateDeviceTree].  The package switches partial goods and DDR regions on.
    The status of the partial goods goes through an [INT32]. *)
Definition UpdateDeviceTree (env : DtEnv) (chip : EFI_STATUS * ChipInfo) (Start : Z)
    (IsLEVariant IsDynamicPartitionSupport : bool) (updated : option (list RamPartitionEntry))
    (cmdline : option (list Z)) (ramdisk RamDiskSize : Z) : MD R EFI_STATUS :=
  Status ← UpdateDeviceTree_to_chosen pool env rodata Start IsLEVariant updated cmdline ramdisk RamDiskSize;
  if negb (Status =? EFI_SUCCESS) then mret Status
  else
    _ ← UpdateFstabNode pool env rodata IsDynamicPartitionSupport;
    ret ← UpdatePartialGoodsNode chip;
    let ret := s32 ret in
    if negb (ret =? 0) then mret (u64 ret)
    else
      Status ← (if IsLEVariant then mret EFI_SUCCESS else AddDDrRegion pool env rodata);
      if negb (Status =? EFI_SUCCESS) && negb (Status =? EFI_UNSUPPORTED) then mret Status
      else
        _ ← on_blob fdt_pack;
        mret EFI_SUCCESS.
End Goods.
