(* ===== verification/DtUpdateSpec.v ===== *)
(** What the stages of [UpdateDeviceTree] leave in the tree: the memory node and
    the chosen node. *)
From Stdlib Require Import ZArith Lia.
From stdpp Require Import base list numbers option sets sorting.
From S2P Require Import Prelude EfiBase Fdt FdtSpec FdtTree FdtRw FdtRwSpec FdtWrite FdtImage FdtProps FdtSet.
From S2P Require Import Carveout FdtUpdate FdtUpdateSpec DtUpdate.

(** The state holds the tree of an image. *)
Definition state_of (s : DtState) (i : image) : Prop := dt_blob s = render i.

(** The parts of the state an update leaves alone. *)
Definition same_flags (s s' : DtState) : Prop :=
  mem_info_cnt s' = mem_info_cnt s /\ mem_info_cntV64 s' = mem_info_cntV64 s /\ dt_seeds s' = dt_seeds s.

(** The list of first-level nodes goes with the nodes. *)
Definition follows (pre : list tok) (n : dnode) (suf : list tok) (s : DtState) (n' : dnode) (s' : DtState) : Prop :=
  forall marks, tracks pre n suf marks s -> tracks pre n' suf marks s'.

(** The change of a node, with the list of the nodes. *)
Record moves (s : DtState) (i : image) (pre : list tok) (n : dnode) (suf : list tok) (qs : list (list Z))
    (s' : DtState) (i' : image) (n' : dnode) : Prop := {
  mv_changed : changed i pre n suf qs i' n';
  mv_follows : follows pre n suf s n' s';
}.

(** The property, if it is there, has a value. *)
Definition solid (i : image) (n : dnode) (q : list Z) : Prop := forall old, value i n q = Some old -> old <> [].

(** The room an update may take. *)
Definition take_room (i : image) (n : dnode) (q : list Z) (len : Z) : Z :=
  match value i n q with Some _ => align4 len | None => zlen q + 13 + align4 len end.

Section Steps.
Context {R : Type}.
Implicit Types (s : DtState) (i : image) (pre suf : list tok) (n : dnode) (q v : list Z).

Definition name_ok q : Prop := Forall (fun c => is_u8 c /\ c <> 0) q /\ zlen q <= 40.

Lemma name_nonzero q : name_ok q -> Forall (fun c => c <> 0) q.
Proof. intros [Hq _]. eapply list.Forall_impl; [exact Hq|]. by intros ? []. Qed.

Lemma value_bound i pre n suf q old :
  image_of i (pre ++ flatten n ++ suf) -> value i n q = Some old -> zlen old <= 2 ^ 31 - 72.
Proof.
  intros Hi Hv. unfold value in Hv. rewrite lookup_split in Hv.
  destruct (split_prop (names i) (node_props n) q) as [[[ps1 p] ps2]|] eqn:E; [|done].
  cbn [fst snd fmap option_fmap option_map] in Hv. injection Hv as <-.
  destruct (prop_there i pre n suf Hi _ _ _ _ E) as (_ & _ & _ & _ & Hl & _). done.
Qed.

(** One update with room for it. *)
Lemma update_step s i pre n suf q f v Update :
  state_of s i -> image_of i (pre ++ flatten n ++ suf) -> name_ok q ->
  (exists c i', Update (render i) = (Go c, render i') /\ updated i pre n suf q f v c i') ->
  solid i n q -> v <> [] -> zlen (match value i n q with Some old => f old | None => v end) <= 2 ^ 31 - 32 ->
  update_need (names i) (node_props n) q f v <= room i ->
  exists s' i' n', FdtPropUpdateFunc (R := R) (pos pre) q Update s = (Go 0, s') /\ state_of s' i' /\
    same_flags s s' /\ moves s i pre n suf [q] s' i' n' /\
    value i' n' q = Some (match value i n q with Some old => f old | None => v end) /\
    room i - update_need (names i) (node_props n) q f v <= room i'.
Proof.
  intros Hs Hi Hq (c & i' & Hu & Hupd) Hold Hv Hl Hroom. pose proof (name_nonzero _ Hq) as Hq0.
  pose proof (prop_update_run (R := R) i pre n suf q Hi Hq0 s Update c f v i' Hs Hu Hupd) as Hrun.
  assert (c = 0) as -> by (destruct Hupd as (_ & [[-> _]|(_ & _ & Hn)]); [done|lia]).
  destruct (updated_changed _ _ _ _ _ _ _ _ Hi Hupd) as (o & Hch & Hval & Hr).
  eexists _, i', _. split; [exact Hrun|]. split; [done|]. split; [done|].
  split; [split; [exact Hch|]|by split]. intros marks Hm.
  apply update_tracks; try done. apply Hch.
Qed.

Lemma set_step s i pre n suf q v :
  state_of s i -> image_of i (pre ++ flatten n ++ suf) -> name_ok q -> Forall is_u8 v -> zlen v <= 2 ^ 31 - 32 ->
  solid i n q -> v <> [] -> zlen q + 13 + align4 (zlen v) <= room i ->
  exists s' i' n', FdtPropUpdateFunc (R := R) (pos pre) q (fdt_setprop (pos pre) q v (zlen v)) s = (Go 0, s') /\
    state_of s' i' /\ same_flags s s' /\ moves s i pre n suf [q] s' i' n' /\ value i' n' q = Some v /\
    room i - (zlen q + 13 + align4 (zlen v)) <= room i'.
Proof.
  intros Hs Hi Hq Hv Hvl Hold Hne Hroom. pose proof (need_set (names i) (node_props n) q v) as Hneed.
  unfold FDT_PROPERTY_SIZE in Hneed.
  destruct (update_step s i pre n suf q (fun _ => v) v (fdt_setprop (pos pre) q v (zlen v)) Hs Hi Hq)
    as (s' & i' & n' & H1 & H2 & H3 & H4 & H5 & H6).
  - apply setprop_run; [done|apply Hq|destruct Hq; lia|done|done].
  - done.
  - done.
  - by destruct (value i n q).
  - lia.
  - exists s', i', n'. split_and!; try done; try apply H3; [by destruct (value i n q)|lia].
Qed.

Lemma append_step join s i pre n suf q v :
  state_of s i -> image_of i (pre ++ flatten n ++ suf) -> name_ok q -> Forall is_u8 v -> zlen v <= 2 ^ 31 - 32 ->
  v <> [] -> solid i n q -> (forall old, value i n q = Some old -> zlen old + zlen v <= 2 ^ 31 - 32) ->
  take_room i n q (zlen v) <= room i ->
  exists s' i' n', FdtPropUpdateFunc (R := R) (pos pre) q (appendprop_with join (pos pre) q v (zlen v)) s = (Go 0, s') /\
    state_of s' i' /\ same_flags s s' /\ moves s i pre n suf [q] s' i' n' /\
    value i' n' q = Some (match value i n q with Some old => joined v join old | None => v end) /\
    room i - take_room i n q (zlen v) <= room i'.
Proof.
  intros Hs Hi Hq Hv Hvl Hne Hsol Hold Hroom.
  assert (Hjl : forall old, value i n q = Some old -> zlen (joined v join old) = zlen old + zlen v)
    by (intros old Ho; apply joined_length; intros _; by apply Hsol).
  assert (Hneed : update_need (names i) (node_props n) q (joined v join) v <= take_room i n q (zlen v)).
  { unfold update_need, take_room. unfold value in *. rewrite lookup_split in *.
    destruct (split_prop (names i) (node_props n) q) as [[[ps1 p] ps2]|]; cbn [fst snd fmap option_fmap option_map] in *.
    - rewrite (Hjl _ eq_refl). pose proof (align4_add_le (zlen p.2) (zlen v)). lia.
    - unfold FDT_PROPERTY_SIZE. lia. }
  destruct (update_step s i pre n suf q (joined v join) v (appendprop_with join (pos pre) q v (zlen v)) Hs Hi Hq)
    as (s' & i' & n' & H1 & H2 & H3 & H4 & H5 & H6).
  - apply appendprop_run; [done|apply Hq|destruct Hq; lia|done|done|].
    intros ps1 p ps2 Hsp. assert (Hval : value i n q = Some p.2) by (unfold value; by rewrite lookup_split, Hsp).
    split; [intros _; by apply Hsol|by apply Hold].
  - done.
  - done.
  - destruct (value i n q) as [old|]; [|lia]. rewrite (Hjl _ eq_refl). by apply Hold.
  - lia.
  - exists s', i', n'. split_and!; try done; try apply H3. lia.
Qed.
End Steps.

(** * The memory node *)

Section Memory.
Context {R : Type}.

(** The cells of the root, as [QueryMemoryCellSize] accepts them. *)
Lemma cell_size_run i root c nl :
  image_of i (tree_toks root) -> 1 <= c <= 2 ->
  value i root (L "#address-cells") = Some (be_put 4 c) -> value i root (L "#size-cells") = Some (be_put 4 c) ->
  QueryMemoryCellSize (R := R) (render i) nl = (Go (EFI_SUCCESS, Some c), nl).
Proof.
  intros Hi Hc Ha Hs. unfold QueryMemoryCellSize.
  assert (Hp : fdt_path_offset (R := R) (render i) (L "/") nl = (Go 0, nl)).
  { unfold fdt_path_offset, fdt_rounds. cbn [path_offset].
    erewrite bind_go by (eapply check_header_words, render_header, Hi). reflexivity. }
  rewrite (bind_go _ _ _ _ _ Hp). cbn [Z.ltb Z.compare].
  destruct (getprop_value (R := R) i [] root [TEnd] (L "#address-cells") (be_put 4 c) nl Hi) as (p1 & H1 & Hr1);
    [by repeat constructor|exact Ha|].
  destruct (getprop_value (R := R) i [] root [TEnd] (L "#size-cells") (be_put 4 c) nl Hi) as (p2 & H2 & Hr2);
    [by repeat constructor|exact Hs|].
  assert (Hw : forall p, buf_read (render i) p (zlen (be_put 4 c)) = Some (be_put 4 c) ->
    fdt32 (R := R) (render i) p nl = (Go c, nl)).
  { intros p Hr. apply fdt32_word. unfold word. change (zlen (be_put 4 c)) with 4 in Hr. rewrite Hr.
    cbn [fmap option_fmap option_map]. by rewrite be_get_put_small by lia. }
  change (pos []) with 0 in H1, H2. rewrite (bind_go _ _ _ _ _ H1). change (zlen (be_put 4 c) >? 0) with true. cbn iota beta.
  rewrite (bind_go _ _ _ _ _ (Hw _ Hr1)), (bind_go _ _ _ _ _ H2).
  change (zlen (be_put 4 c) >? 0) with true. cbn iota beta. rewrite (bind_go _ _ _ _ _ (Hw _ Hr2)).
  unfold DEFAULT_CELL_SIZE. rewrite Z.gtb_ltb, (proj2 (Z.ltb_ge _ _)), (proj2 (Z.eqb_neq c 0)) by lia.
  cbn [orb]. by rewrite Z.eqb_refl.
Qed.

(** An entry of [reg], of one or two cells a number. *)
Definition ram_entry (c : Z) (p : RamPartitionEntry) : list Z :=
  if c =? 1 then be_put 4 (u32 (Base p)) ++ be_put 4 (u32 (AvailableLength p))
  else be_put 8 (Base p) ++ be_put 8 (AvailableLength p).

Definition flag (c : Z) (s : DtState) : bool := if c =? 1 then mem_info_cnt s else mem_info_cntV64 s.

Definition add_one (c offset : Z) (p : RamPartitionEntry) : MD R Z :=
  if c =? 1 then dev_tree_add_mem_info offset (u32 (Base p)) (u32 (AvailableLength p))
  else dev_tree_add_mem_infoV64 offset (Base p) (AvailableLength p).

Lemma reg_ok : name_ok (L "reg").
Proof. split; [|done]. repeat constructor; done. Qed.

Lemma same_flags_trans s1 s2 s3 : same_flags s1 s2 -> same_flags s2 s3 -> same_flags s1 s3.
Proof. unfold same_flags. intuition congruence. Qed.

Lemma moves_again s i pre n suf qs s1 i1 n1 s2 i2 n2 :
  moves s i pre n suf qs s1 i1 n1 -> moves s1 i1 pre n1 suf qs s2 i2 n2 -> moves s i pre n suf qs s2 i2 n2.
Proof.
  intros [H1 F1] [H2 F2]. split; [|intros marks Hm; by apply F2, F1].
  destruct (changed_trans _ _ _ _ _ _ _ _ _ _ H1 H2) as [? ? ? ? Hv]. split; try done.
  intros q Hq. apply Hv. set_solver.
Qed.

Lemma moves_nodes s0 s i pre n suf qs s' i' n' :
  moves s0 i pre n suf qs s' i' n' -> dt_nodes s0 = dt_nodes s -> moves s i pre n suf qs s' i' n'.
Proof.
  intros [H F] He. split; [done|]. intros marks [H1 H2 H3]. apply F. split; [done|congruence|by rewrite He].
Qed.

Lemma be_put_solid w x : (w = 4 \/ w = 8)%nat -> be_put w x <> [].
Proof. intros Hw He. pose proof (length_be_put w x) as Hl. rewrite He in Hl. destruct Hw as [-> | ->]; done. Qed.

(** A word appended to [reg] or put in its place. *)
Lemma append_word s i pre n suf w x :
  state_of s i -> image_of i (pre ++ flatten n ++ suf) -> (w = 4 \/ w = 8)%nat -> solid i n (L "reg") ->
  (if decide (is_Some (value i n (L "reg"))) then 8 else 24) <= room i ->
  exists s' i' n', FdtPropUpdateFunc (R := R) (pos pre) (L "reg")
      (fdt_appendprop (pos pre) (L "reg") (be_put w x) (zlen (be_put w x))) s = (Go 0, s') /\
    state_of s' i' /\ same_flags s s' /\ moves s i pre n suf [L "reg"] s' i' n' /\
    value i' n' (L "reg") = Some (default [] (value i n (L "reg")) ++ be_put w x) /\
    room i - (if decide (is_Some (value i n (L "reg"))) then 8 else 24) <= room i'.
Proof.
  intros Hs Hi Hw Hsol Hroom.
  assert (Hl : zlen (be_put w x) <= 8 /\ align4 (zlen (be_put w x)) <= 8)
    by (rewrite length_be_put; destruct Hw as [-> | ->]; split; unfold align4; vm_compute; discriminate).
  assert (Ht : take_room i n (L "reg") (zlen (be_put w x)) <= if decide (is_Some (value i n (L "reg"))) then 8 else 24).
  { unfold take_room. change (zlen (L "reg")) with 3. case_decide as H.
    - destruct H as [old ->]. lia.
    - rewrite <- eq_None_not_Some in H. rewrite H. lia. }
  destruct (append_step (R := R) false s i pre n suf (L "reg") (be_put w x) Hs Hi reg_ok)
    as (s' & i' & n' & H1 & H2 & H3 & H4 & H5 & H6).
  - apply be_put_u8.
  - lia.
  - by apply be_put_solid.
  - done.
  - intros old Hold. pose proof (value_bound _ _ _ _ _ _ Hi Hold). lia.
  - lia.
  - exists s', i', n'. split_and!; try done; try apply H3; [|lia].
    rewrite H5. by destruct (value i n (L "reg")).
Qed.

Lemma set_word s i pre n suf w x :
  state_of s i -> image_of i (pre ++ flatten n ++ suf) -> (w = 4 \/ w = 8)%nat -> solid i n (L "reg") -> 24 <= room i ->
  exists s' i' n', FdtPropUpdateFunc (R := R) (pos pre) (L "reg")
      (fdt_setprop (pos pre) (L "reg") (be_put w x) (zlen (be_put w x))) s = (Go 0, s') /\
    state_of s' i' /\ same_flags s s' /\ moves s i pre n suf [L "reg"] s' i' n' /\
    value i' n' (L "reg") = Some (be_put w x) /\ room i - 24 <= room i'.
Proof.
  intros Hs Hi Hw Hsol Hroom.
  assert (Hl : zlen (be_put w x) <= 8 /\ align4 (zlen (be_put w x)) <= 8)
    by (rewrite length_be_put; destruct Hw as [-> | ->]; split; unfold align4; vm_compute; discriminate).
  destruct (set_step (R := R) s i pre n suf (L "reg") (be_put w x) Hs Hi reg_ok)
    as (s' & i' & n' & H1 & H2 & H3 & H4 & H5 & H6).
  - apply be_put_u8.
  - lia.
  - done.
  - by apply be_put_solid.
  - change (zlen (L "reg")) with 3. lia.
  - change (zlen (L "reg")) with 3 in H6. exists s', i', n'. split_and!; try done; try apply H3. lia.
Qed.

(** The two words of an entry: [first] puts the address in place of the value,
    otherwise it is appended. *)
Lemma two_words s i pre n suf w a b (first : bool) :
  state_of s i -> image_of i (pre ++ flatten n ++ suf) -> (w = 4 \/ w = 8)%nat -> solid i n (L "reg") ->
  (first = false -> is_Some (value i n (L "reg"))) -> (if first then 16 else 0) + 16 <= room i ->
  exists s1 s' i' n' z, FdtPropUpdateFunc (R := R) (pos pre) (L "reg")
      (if first then fdt_setprop (pos pre) (L "reg") (be_put w a) (zlen (be_put w a))
       else fdt_appendprop (pos pre) (L "reg") (be_put w a) (zlen (be_put w a))) s = (Go 0, s1) /\
    FdtPropUpdateFunc (R := R) (pos pre) (L "reg")
      (fdt_appendprop (pos pre) (L "reg") (be_put w b) (zlen (be_put w b))) s1 = (Go z, s') /\
    state_of s' i' /\ same_flags s s' /\ moves s i pre n suf [L "reg"] s' i' n' /\
    value i' n' (L "reg") =
      Some ((if first then [] else default [] (value i n (L "reg"))) ++ be_put w a ++ be_put w b) /\
    room i - ((if first then 16 else 0) + 16) <= room i'.
Proof.
  intros Hs Hi Hw Hsol Hval Hroom.
  assert (H1 : exists s1 i1 n1, FdtPropUpdateFunc (R := R) (pos pre) (L "reg")
      (if first then fdt_setprop (pos pre) (L "reg") (be_put w a) (zlen (be_put w a))
       else fdt_appendprop (pos pre) (L "reg") (be_put w a) (zlen (be_put w a))) s = (Go 0, s1) /\
      state_of s1 i1 /\ same_flags s s1 /\ moves s i pre n suf [L "reg"] s1 i1 n1 /\
      value i1 n1 (L "reg") = Some ((if first then [] else default [] (value i n (L "reg"))) ++ be_put w a) /\
      room i - ((if first then 16 else 0) + 8) <= room i1).
  { destruct first.
    - destruct (set_word s i pre n suf w a Hs Hi Hw Hsol) as (s1 & i1 & n1 & ? & ? & H1 & ? & ? & ?); [lia|].
      exists s1, i1, n1. split_and!; done || apply H1 || lia.
    - destruct (append_word s i pre n suf w a Hs Hi Hw Hsol) as (s1 & i1 & n1 & ? & ? & H1 & ? & ? & Hr);
        [rewrite decide_True by auto; lia|]. rewrite decide_True in Hr by auto.
      exists s1, i1, n1. split_and!; done || apply H1 || lia. }
  destruct H1 as (s1 & i1 & n1 & Hr1 & Hs1 & Hf1 & Hc1 & Hv1 & Hroom1).
  assert (His : is_Some (value i1 n1 (L "reg"))) by (rewrite Hv1; by eexists).
  assert (Hsol1 : solid i1 n1 (L "reg")).
  { intros old. rewrite Hv1. intros [= <-] He. apply app_eq_nil in He as [_ He]. by apply (be_put_solid w a). }
  destruct (append_word s1 i1 pre n1 suf w b Hs1 (ch_image _ _ _ _ _ _ _ (mv_changed _ _ _ _ _ _ _ _ _ Hc1)) Hw Hsol1)
    as (s2 & i2 & n2 & Hr2 & Hs2 & Hf2 & Hc2 & Hv2 & Hroom2); [rewrite decide_True by done; lia|].
  rewrite decide_True in Hroom2 by done.
  pose proof (same_flags_trans _ _ _ Hf1 Hf2) as Hf. pose proof (moves_again _ _ _ _ _ _ _ _ _ _ _ _ Hc1 Hc2) as Hc.
  exists s1, s2, i2, n2, 0. split_and!; try done; try apply Hf; [|lia].
  rewrite Hv2, Hv1. unfold default, id. by rewrite <- app_assoc.
Qed.

Lemma ram_entry_solid c p : ram_entry c p <> [].
Proof. unfold ram_entry. by case_match. Qed.

(** One entry: the first replaces what was there. *)
Lemma add_one_run c s i pre n suf p :
  state_of s i -> image_of i (pre ++ flatten n ++ suf) -> 1 <= c <= 2 -> solid i n (L "reg") ->
  (flag c s = true -> is_Some (value i n (L "reg"))) ->
  (if flag c s then 0 else 16) + 16 <= room i ->
  exists z s' i' n', add_one c (pos pre) p s = (Go z, s') /\ state_of s' i' /\ flag c s' = true /\ dt_seeds s' = dt_seeds s /\
    moves s i pre n suf [L "reg"] s' i' n' /\
    value i' n' (L "reg") =
      Some ((if flag c s then default [] (value i n (L "reg")) else []) ++ ram_entry c p) /\
    room i - ((if flag c s then 0 else 16) + 16) <= room i'.
Proof.
  intros Hs Hi Hc Hsol Hfl Hroom. unfold add_one, ram_entry, flag in *.
  destruct (Z.eqb_spec c 1) as [->|Hne].
  - unfold dev_tree_add_mem_info. erewrite bind_go by reflexivity. destruct (mem_info_cnt s) eqn:Ef.
    + destruct (two_words s i pre n suf 4 (u32 (Base p)) (u32 (AvailableLength p)) false Hs Hi)
        as (s1 & s2 & i2 & n2 & z & H1 & H2 & H3 & (H4 & _ & H4') & H5 & H6 & H7); [by left|done|auto|lia|].
      rewrite bind_assoc, (bind_go _ _ _ _ _ H1). erewrite bind_go by reflexivity.
      exists z, s2, i2, n2. split_and!; done || congruence || lia.
    + set (s0 := mkDtState (dt_blob s) (dt_nodes s) true (mem_info_cntV64 s) (dt_seeds s)).
      destruct (two_words s0 i pre n suf 4 (u32 (Base p)) (u32 (AvailableLength p)) true Hs Hi)
        as (s1 & s2 & i2 & n2 & z & H1 & H2 & H3 & (H4 & _ & H4') & H5 & H6 & H7); [by left|done|done|lia|].
      rewrite bind_assoc. erewrite bind_go by reflexivity. fold s0.
      rewrite bind_assoc, (bind_go _ _ _ _ _ H1). erewrite bind_go by reflexivity.
      pose proof (moves_nodes s0 s _ _ _ _ _ _ _ _ H5 eq_refl) as H5'.
      exists z, s2, i2, n2. split_and!; done || congruence || lia.
  - unfold dev_tree_add_mem_infoV64. erewrite bind_go by reflexivity. destruct (mem_info_cntV64 s) eqn:Ef.
    + destruct (two_words s i pre n suf 8 (Base p) (AvailableLength p) false Hs Hi)
        as (s1 & s2 & i2 & n2 & z & H1 & H2 & H3 & (_ & H4 & H4') & H5 & H6 & H7); [by right|done|auto|lia|].
      rewrite bind_assoc, (bind_go _ _ _ _ _ H1). erewrite bind_go by reflexivity.
      exists z, s2, i2, n2. split_and!; done || congruence || lia.
    + set (s0 := mkDtState (dt_blob s) (dt_nodes s) (mem_info_cnt s) true (dt_seeds s)).
      destruct (two_words s0 i pre n suf 8 (Base p) (AvailableLength p) true Hs Hi)
        as (s1 & s2 & i2 & n2 & z & H1 & H2 & H3 & (_ & H4 & H4') & H5 & H6 & H7); [by right|done|done|lia|].
      rewrite bind_assoc. erewrite bind_go by reflexivity. fold s0.
      rewrite bind_assoc, (bind_go _ _ _ _ _ H1). erewrite bind_go by reflexivity.
      pose proof (moves_nodes s0 s _ _ _ _ _ _ _ _ H5 eq_refl) as H5'.
      exists z, s2, i2, n2. split_and!; done || congruence || lia.
Qed.

(** All entries, in order. *)
Lemma add_partitions_run c ps : forall s i pre n suf,
  state_of s i -> image_of i (pre ++ flatten n ++ suf) -> 1 <= c <= 2 -> solid i n (L "reg") ->
  (flag c s = true -> is_Some (value i n (L "reg"))) ->
  (if flag c s then 0 else 16) + 16 * zlen ps <= room i ->
  exists s' i' n', add_partitions (R := R) c (pos pre) ps s = (Go tt, s') /\ state_of s' i' /\ dt_seeds s' = dt_seeds s /\
    moves s i pre n suf [L "reg"] s' i' n' /\ (ps <> [] -> flag c s' = true) /\
    value i' n' (L "reg") =
      (match ps with
       | [] => value i n (L "reg")
       | _ => Some ((if flag c s then default [] (value i n (L "reg")) else []) ++ mjoin (map (ram_entry c) ps))
       end) /\
    room i - ((if flag c s then 0 else 16) + 16 * zlen ps) <= room i'.
Proof.
  induction ps as [|p ps IH]; intros s i pre n suf Hs Hi Hc Hsol Hfl Hroom.
  - exists s, i, n. split_and!; try done.
    + split; [|by intros marks Hm]. destruct (changed_refl _ _ _ _ Hi) as [? ? ? ? Hv]. split; try done.
    + destruct (flag c s); cbn [length]; lia.
  - cbn [length] in *. destruct (add_one_run c s i pre n suf p Hs Hi Hc Hsol Hfl ltac:(lia))
      as (z & s1 & i1 & n1 & H1 & Hs1 & Hf1 & Hk1 & Hc1 & Hv1 & Hr1).
    assert (Hsol1 : solid i1 n1 (L "reg")).
    { intros old. rewrite Hv1. intros [= <-] He. apply app_eq_nil in He as [_ He]. by apply (ram_entry_solid c p). }
    destruct (IH s1 i1 pre n1 suf Hs1 (ch_image _ _ _ _ _ _ _ (mv_changed _ _ _ _ _ _ _ _ _ Hc1)) Hc Hsol1)
      as (s2 & i2 & n2 & H2 & Hs2 & Hk2 & Hc2 & Hf2 & Hv2 & Hr2); [intros _; rewrite Hv1; by eexists|rewrite Hf1; lia|].
    exists s2, i2, n2. rewrite Hf1 in *. split_and!.
    + cbn [add_partitions]. unfold add_one in H1. rewrite (bind_go _ _ _ _ _ H1). exact H2.
    + done.
    + congruence.
    + by eapply moves_again.
    + intros _. destruct ps as [|p' ps]; [|by apply Hf2]. cbn [add_partitions] in H2. by injection H2 as <-.
    + destruct ps as [|p' ps].
      * rewrite Hv2, Hv1. cbn [map mjoin list_join]. by rewrite app_nil_r.
      * rewrite Hv2, Hv1. unfold default, id. by rewrite <- app_assoc.
    + lia.
Qed.

(** The room the entries of the memory node need. *)
Definition mem_room (ps : list RamPartitionEntry) : Z := 16 + 16 * zlen ps.

Lemma mem_map_run env updated ps s i root pre n suf c :
  state_of s i -> image_of i (tree_toks root) -> tree_toks root = pre ++ flatten n ++ suf -> 1 <= c <= 2 ->
  value i root (L "#address-cells") = Some (be_put 4 c) -> value i root (L "#size-cells") = Some (be_put 4 c) ->
  match updated with Some u => ps = u | None => RamPartitions env = (EFI_SUCCESS, ps) end ->
  solid i n (L "reg") ->
  mem_info_cnt s = false -> mem_info_cntV64 s = false -> mem_room ps <= room i ->
  exists s' i' n', AddMemMap (R := R) env updated (pos pre) s = (Go EFI_SUCCESS, s') /\ state_of s' i' /\ dt_seeds s' = dt_seeds s /\
    moves s i pre n suf [L "reg"] s' i' n' /\
    value i' n' (L "reg") =
      (match ps with [] => value i n (L "reg") | _ => Some (mjoin (map (ram_entry c) ps)) end) /\
    room i - mem_room ps <= room i'.
Proof.
  intros Hs Hi Ht Hc Ha Hz Hps Hsol Hm1 Hm2 Hroom. unfold AddMemMap, mem_room in *.
  assert (Hq : on_nodes (R := R) (fun b => QueryMemoryCellSize b) s = (Go (EFI_SUCCESS, Some c), s)).
  { unfold on_nodes. cbn beta. rewrite Hs, (cell_size_run i root c (dt_nodes s) Hi Hc Ha Hz).
    cbn [fst snd]. by destruct s; cbn in Hs |- *; rewrite Hs. }
  rewrite (bind_go _ _ _ _ _ Hq). cbn [fst snd default].
  assert (Hf : flag c s = false) by (unfold flag; by destruct (c =? 1)).
  rewrite Ht in Hi. destruct (add_partitions_run c ps s i pre n suf Hs Hi Hc Hsol) as (s' & i' & n' & H1 & H2 & Hk & H3 & _ & H4 & H5);
    [rewrite Hf; discriminate|rewrite Hf; lia|]. rewrite Hf in H4, H5.
  exists s', i', n'. split; [|by split_and!]. change (EFI_ERROR EFI_SUCCESS) with false. cbn iota.
  destruct updated as [u|]; [subst u|rewrite Hps]; change (EFI_ERROR EFI_SUCCESS) with false; cbn iota;
    unfold default, id; by rewrite (bind_go _ _ _ _ _ H1).
Qed.
End Memory.
