(* ===== verification/DtChosenSpec.v ===== *)
(** What [UpdateChosen] leaves in the chosen node. *)
From Stdlib Require Import ZArith Lia.
From stdpp Require Import base list numbers option sets sorting.
From S2P Require Import Prelude EfiBase Fdt FdtSpec FdtTree FdtRw FdtRwSpec FdtWrite FdtImage FdtProps FdtSet.
From S2P Require Import Carveout FdtUpdate FdtUpdateSpec DtUpdate DtUpdateSpec.

(** The values of a node after one of them is set. *)
Definition put (q w : list Z) (f : list Z -> option (list Z)) : list Z -> option (list Z) :=
  fun q' => if bool_decide (q' = q) then Some w else f q'.
(** More bytes behind a value; none leave it alone. *)
Definition grow (q w : list Z) (f : list Z -> option (list Z)) : list Z -> option (list Z) :=
  fun q' => if bool_decide (q' = q /\ w <> []) then Some (default [] (f q) ++ w) else f q'.

(** The property is not there, or it has a value. *)
Definition filled (f : list Z -> option (list Z)) (q : list Z) : Prop := forall old, f q = Some old -> old <> [].

Lemma filled_put q w f q' : w <> [] -> filled f q' -> filled (put q w f) q'.
Proof. intros Hw Hf old. unfold put. case_bool_decide; [by intros [= <-]|apply Hf]. Qed.

Lemma filled_grow q w f q' : filled f q' -> filled (grow q w f) q'.
Proof.
  intros Hf old. unfold grow. case_bool_decide as H; [|apply Hf].
  intros [= <-] [_ He]%app_eq_nil. by destruct H.
Qed.

(** The node [n] became [n'], the rest of the tree stayed, the values of [n']
    are [vals], and the list of nodes went along. *)
Record becomes (s : DtState) (i : image) (pre : list tok) (n : dnode) (suf : list tok)
    (vals : list Z -> option (list Z)) (s' : DtState) (i' : image) (n' : dnode) : Prop := {
  bc_image : image_of i' (pre ++ flatten n' ++ suf);
  bc_name : node_name n' = node_name n;
  bc_children : node_children n' = node_children n;
  bc_extends : extends i i';
  bc_values : forall q, value i' n' q = vals q;
  bc_follows : follows pre n suf s n' s';
}.

Lemma becomes_refl s s' i pre n suf :
  image_of i (pre ++ flatten n ++ suf) -> dt_nodes s' = dt_nodes s -> becomes s i pre n suf (value i n) s' i n.
Proof. intros Hi He. split; try done. intros marks [H1 H2 H3]. split; [done|congruence|by rewrite He]. Qed.

Lemma becomes_trans s i pre n suf v1 s1 i1 n1 v2 s2 i2 n2 :
  becomes s i pre n suf v1 s1 i1 n1 -> becomes s1 i1 pre n1 suf v2 s2 i2 n2 -> becomes s i pre n suf v2 s2 i2 n2.
Proof.
  intros [? ? ? ? ? F1] [? ? ? ? ? F2]. split; try congruence; [by etrans|].
  intros marks Hm. by apply F2, F1.
Qed.

Lemma becomes_from s0 s i pre n suf vals s' i' n' :
  becomes s0 i pre n suf vals s' i' n' -> dt_nodes s0 = dt_nodes s -> becomes s i pre n suf vals s' i' n'.
Proof.
  intros [? ? ? ? ? F] He. split; try done. intros marks [H1 H2 H3].
  apply F. split; [done|congruence|by rewrite He].
Qed.

Lemma becomes_ext s i pre n suf v1 v2 s' i' n' :
  becomes s i pre n suf v1 s' i' n' -> (forall q, v1 q = v2 q) -> becomes s i pre n suf v2 s' i' n'.
Proof. intros [] H. split; try done. intros q. by rewrite <- H. Qed.

Lemma becomes_solid s i pre n suf vals s' i' n' q :
  becomes s i pre n suf vals s' i' n' -> filled vals q -> solid i' n' q.
Proof. intros Hb Hf old. rewrite (bc_values _ _ _ _ _ _ _ _ _ Hb). apply Hf. Qed.

Lemma moves_becomes s i pre n suf q w s' i' n' :
  moves s i pre n suf [q] s' i' n' -> value i' n' q = Some w -> becomes s i pre n suf (put q w (value i n)) s' i' n'.
Proof.
  intros [[? ? ? ? Hv] Hf] Hw. split; try done. intros q'. unfold put. case_bool_decide as E; [by subst|].
  apply Hv. set_solver.
Qed.

(** The words of the random number protocol from its [k]th answer on, at most
    [m], and how many answers are asked for. *)
Fixpoint seed_bytes (env : DtEnv) (k m : nat) : list Z :=
  match m with
  | O => []
  | Datatypes.S m' =>
      let r := RandomSeed env k in
      if r.1 =? EFI_SUCCESS then be_put 8 r.2 ++ seed_bytes env (Datatypes.S k) m' else []
  end.
Fixpoint seeds_asked (env : DtEnv) (k m : nat) : nat :=
  match m with
  | O => k
  | Datatypes.S m' =>
      if (RandomSeed env k).1 =? EFI_SUCCESS then seeds_asked env (Datatypes.S k) m' else Datatypes.S k
  end.

Lemma name_is s : forallb (fun c => (0 <? c) && (c <? 2 ^ 8)) (L s) && (zlen (L s) <=? 40) = true -> name_ok (L s).
Proof.
  intros [H1 H2]%andb_prop. bools. split; [|done]. apply list.Forall_forall. intros c Hc.
  rewrite forallb_forall in H1. apply list_elem_of_In in Hc. specialize (H1 c Hc). bools. unfold is_u8. lia.
Qed.

Lemma cstr_u8 s : Forall is_u8 s -> Forall is_u8 (cstr s).
Proof. induction 1 as [|c s Hc Hs IH]; cbn [cstr]; [done|]. case_match; [done|by constructor]. Qed.

#[local] Arguments path {R} pool rodata s%_string_scope.

Section Chosen.
Context {R : Type} (env : DtEnv).

(** Bytes behind a property. *)
Lemma append_be w s i pre n suf q x :
  state_of s i -> image_of i (pre ++ flatten n ++ suf) -> name_ok q -> (w = 4 \/ w = 8)%nat -> solid i n q ->
  (if decide (is_Some (value i n q)) then 8 else zlen q + 21) <= room i ->
  exists s' i' n', FdtPropUpdateFunc (R := R) (pos pre) q
      (fdt_appendprop (pos pre) q (be_put w x) (zlen (be_put w x))) s = (Go 0, s') /\
    state_of s' i' /\ same_flags s s' /\ becomes s i pre n suf (grow q (be_put w x) (value i n)) s' i' n' /\
    room i - (if decide (is_Some (value i n q)) then 8 else zlen q + 21) <= room i'.
Proof.
  intros Hs Hi Hq Hw Hsol Hroom. pose proof (be_put_solid w x Hw) as Hne.
  assert (Hl : zlen (be_put w x) <= 8 /\ align4 (zlen (be_put w x)) <= 8)
    by (rewrite length_be_put; destruct Hw as [-> | ->]; split; unfold align4; vm_compute; discriminate).
  assert (Ht : take_room i n q (zlen (be_put w x)) <= if decide (is_Some (value i n q)) then 8 else zlen q + 21).
  { unfold take_room. case_decide as H.
    - destruct H as [old ->]. lia.
    - rewrite <- eq_None_not_Some in H. rewrite H. lia. }
  destruct (append_step (R := R) false s i pre n suf q (be_put w x) Hs Hi Hq)
    as (s' & i' & n' & H1 & H2 & H3 & H4 & H5 & H6).
  - apply be_put_u8.
  - lia.
  - done.
  - done.
  - intros old Hold. pose proof (value_bound _ _ _ _ _ _ Hi Hold). lia.
  - lia.
  - exists s', i', n'. split; [exact H1|]. split; [done|]. split; [done|]. split; [|lia].
    assert (Hv : value i' n' q = Some (default [] (value i n q) ++ be_put w x)) by (rewrite H5; by destruct (value i n q)).
    eapply becomes_ext; [exact (moves_becomes _ _ _ _ _ _ _ _ _ _ H4 Hv)|].
    intros q'. unfold put, grow. do 2 case_bool_decide; try done; [|tauto].
    exfalso. match goal with H : ~ (_ /\ _) |- _ => apply H end. by split.
Qed.

Definition seeded (s s' : DtState) (k : nat) : Prop :=
  mem_info_cnt s' = mem_info_cnt s /\ mem_info_cntV64 s' = mem_info_cntV64 s /\ dt_seeds s' = k.

Lemma grow_nil q f q' : grow q [] f q' = f q'.
Proof. unfold grow. case_bool_decide; [|done]. tauto. Qed.

Lemma grow_grow q a b f q' : a <> [] -> grow q b (grow q a f) q' = grow q (a ++ b) f q'.
Proof.
  intros Ha. unfold grow. rewrite (bool_decide_true (q = q /\ a <> [])) by done.
  assert (Hab : a ++ b <> []) by (by destruct a). cbn [default].
  destruct (decide (q' = q)) as [->|Hne]; [|rewrite !bool_decide_false by tauto; done].
  rewrite (bool_decide_true (q = q /\ a ++ b <> [])), (bool_decide_true (q = q /\ a <> [])) by done.
  case_bool_decide as Hb; [unfold default, id; by rewrite <- app_assoc|].
  destruct b; [by rewrite app_nil_r|]. exfalso. apply Hb. by split.
Qed.

(** The rounds of the loop over the words of [rng-seed]. *)
Lemma rng_loop_run q pre suf m : forall start s i n,
  state_of s i -> image_of i (pre ++ flatten n ++ suf) -> name_ok q -> solid i n q ->
  (if decide (is_Some (value i n q)) then 0 else zlen q + 13) + 8 * Z.of_nat m <= room i ->
  exists s' i' n', for_up (R := R) m start tt (fun _ _ =>
      r ← GetRandomSeed env;
      if r.1 =? EFI_SUCCESS then
        ret ← FdtPropUpdateFunc (pos pre) q (fdt_appendprop_u64 (pos pre) q r.2);
        mret (negb (ret =? 0), tt)
      else mret (true, tt)) s = (Go tt, s') /\
    state_of s' i' /\ seeded s s' (seeds_asked env (dt_seeds s) m) /\
    becomes s i pre n suf (grow q (seed_bytes env (dt_seeds s) m) (value i n)) s' i' n' /\
    room i - ((if decide (is_Some (value i n q)) then 0 else zlen q + 13) + 8 * Z.of_nat m) <= room i'.
Proof.
  induction m as [|m IH]; intros start s i n Hs Hi Hq Hsol Hroom.
  - exists s, i, n. split; [done|]. split; [done|]. split; [done|]. split; [|case_decide; lia].
    eapply becomes_ext; [by apply becomes_refl|]. intros q'. by rewrite grow_nil.
  - cbn [for_up seed_bytes seeds_asked]. unfold GetRandomSeed at 1. rewrite bind_assoc.
    set (s0 := mkDtState (dt_blob s) (dt_nodes s) (mem_info_cnt s) (mem_info_cntV64 s) (Datatypes.S (dt_seeds s))).
    erewrite bind_go by reflexivity. fold s0. destruct ((RandomSeed env (dt_seeds s)).1 =? EFI_SUCCESS).
    + destruct (append_be 8 s0 i pre n suf q (RandomSeed env (dt_seeds s)).2 Hs Hi Hq)
        as (s1 & i1 & n1 & H1 & Hs1 & (F1 & F2 & F3) & Hb1 & Hr1); [by right|done|case_decide; lia|].
      assert (Hv1 : is_Some (value i1 n1 q)).
      { rewrite (bc_values _ _ _ _ _ _ _ _ _ Hb1). unfold grow. rewrite bool_decide_true by done. by eexists. }
      assert (Hsol1 : solid i1 n1 q) by (eapply becomes_solid; [exact Hb1|by apply filled_grow]).
      rewrite bind_assoc, (bind_go _ _ _ _ _ H1). erewrite bind_go by reflexivity. cbn [fst snd negb Z.eqb].
      destruct (IH (start + 1) s1 i1 n1 Hs1 (bc_image _ _ _ _ _ _ _ _ _ Hb1) Hq Hsol1)
        as (s2 & i2 & n2 & H2 & Hs2 & (G1 & G2 & G3) & Hb2 & Hr2);
        [rewrite decide_True by done; case_decide; lia|]. rewrite decide_True in Hr2 by done.
      cbn [dt_seeds s0 mem_info_cnt mem_info_cntV64] in F1, F2, F3. rewrite F3 in G3, Hb2.
      exists s2, i2, n2. split; [exact H2|]. split; [done|]. split; [split_and!; congruence|].
      split; [|case_decide; lia].
      pose proof (becomes_from s0 s _ _ _ _ _ _ _ _ Hb1 eq_refl) as Hb1'.
      eapply becomes_ext; [exact (becomes_trans _ _ _ _ _ _ _ _ _ _ _ _ _ Hb1' Hb2)|].
      intros q'. rewrite <- grow_grow by done. unfold grow at 1 3. by rewrite !(bc_values _ _ _ _ _ _ _ _ _ Hb1).
    + erewrite bind_go by reflexivity. exists s0, i, n. split; [done|]. split; [done|]. split; [done|].
      split; [|case_decide; lia].
      eapply becomes_ext; [by apply becomes_refl|]. intros q'. by rewrite grow_nil.
Qed.

(** What the command line makes of [bootargs]. *)
Definition bootargs_value (str : list Z) (old : option (list Z)) : list Z :=
  match old with
  | Some old => take (length old - 1) old ++ [0x20] ++ str ++ [0]
  | None => str ++ [0]
  end.

Lemma bootargs_solid str old : bootargs_value str old <> [].
Proof.
  unfold bootargs_value. destruct old as [old|]; intros He; apply app_eq_nil in He as [_ He]; [|done].
  by apply app_eq_nil in He as [? _].
Qed.

Lemma bootargs_run s i pre n suf str :
  state_of s i -> image_of i (pre ++ flatten n ++ suf) -> Forall is_u8 str -> solid i n (L "bootargs") ->
  let old := value i n (L "bootargs") in
  (forall w, old = Some w -> zlen w + zlen (cstr str) <= 2 ^ 31 - 33) -> zlen (cstr str) <= 2 ^ 31 - 33 ->
  zlen (cstr str) + 25 <= room i ->
  exists s' i' n', FdtPropUpdateFunc (R := R) (pos pre) (L "bootargs")
      (fdt_appendprop_string (pos pre) (L "bootargs") str) s = (Go 0, s') /\
    state_of s' i' /\ same_flags s s' /\
    becomes s i pre n suf (put (L "bootargs") (bootargs_value (cstr str) old) (value i n)) s' i' n' /\
    room i - (zlen (cstr str) + 25) <= room i'.
Proof.
  intros Hs Hi Hu Hsol old Hold Hl Hroom. unfold fdt_appendprop_string, AsciiStrLen, StrLen.
  rewrite s32_small by (pose proof (zlen_nonneg (cstr str)); lia).
  assert (Hz : zlen (cstr str) + 1 = zlen (cstr str ++ [0])) by (rewrite length_app; cbn [length]; lia). rewrite Hz.
  pose proof (align4_bounds (zlen (cstr str ++ [0]))) as Ha.
  assert (Ht : take_room i n (L "bootargs") (zlen (cstr str ++ [0])) <= zlen (cstr str) + 25).
  { unfold take_room. change (zlen (L "bootargs")) with 8. case_match; lia. }
  destruct (append_step (R := R) true s i pre n suf (L "bootargs") (cstr str ++ [0]) Hs Hi)
    as (s' & i' & n' & H1 & H2 & H3 & H4 & H5 & H6).
  - by apply name_is.
  - apply Forall_app. split; [by apply cstr_u8|by repeat constructor].
  - lia.
  - by intros [_ ?]%app_eq_nil.
  - done.
  - intros w Hw. specialize (Hold w Hw). lia.
  - lia.
  - exists s', i', n'. split; [exact H1|]. split; [done|]. split; [done|]. split; [|lia].
    assert (Hv : value i' n' (L "bootargs") = Some (bootargs_value (cstr str) old)).
    { rewrite H5. subst old. unfold bootargs_value, joined. destruct (value i n (L "bootargs")); [|done].
      by rewrite <- app_assoc. }
    exact (moves_becomes _ _ _ _ _ _ _ _ _ _ H4 Hv).
Qed.

(** Eight bytes in place of a value. *)
Lemma set_u64 s i pre n suf q x :
  state_of s i -> image_of i (pre ++ flatten n ++ suf) -> name_ok q -> solid i n q -> zlen q + 21 <= room i ->
  exists s' i' n', FdtPropUpdateFunc (R := R) (pos pre) q (fdt_setprop_u64 (pos pre) q x) s = (Go 0, s') /\
    state_of s' i' /\ same_flags s s' /\ becomes s i pre n suf (put q (be_put 8 x) (value i n)) s' i' n' /\
    room i - (zlen q + 21) <= room i'.
Proof.
  intros Hs Hi Hq Hsol Hroom.
  destruct (set_step (R := R) s i pre n suf q (be_put 8 x) Hs Hi Hq) as (s' & i' & n' & H1 & H2 & H3 & H4 & H5 & H6).
  - apply be_put_u8.
  - rewrite length_be_put. lia.
  - done.
  - done.
  - rewrite length_be_put. change (align4 (Z.of_nat 8)) with 8. lia.
  - rewrite length_be_put in H6. change (align4 (Z.of_nat 8)) with 8 in H6.
    exists s', i', n'. split; [exact H1|]. split; [done|]. split; [done|]. split; [|lia].
    exact (moves_becomes _ _ _ _ _ _ _ _ _ _ H4 H5).
Qed.

Lemma kaslr_run s i pre n suf :
  state_of s i -> image_of i (pre ++ flatten n ++ suf) -> solid i n (L "kaslr-seed") -> 31 <= room i ->
  exists s' i' n', add_kaslr_seed (R := R) env (pos pre) s = (Go tt, s') /\
    state_of s' i' /\ seeded s s' (seeds_asked env (dt_seeds s) 1) /\
    becomes s i pre n suf (grow (L "kaslr-seed") (seed_bytes env (dt_seeds s) 1) (value i n)) s' i' n' /\
    room i - 31 <= room i'.
Proof.
  intros Hs Hi Hsol Hroom. unfold add_kaslr_seed, GetRandomSeed. cbn [seed_bytes seeds_asked].
  set (s0 := mkDtState (dt_blob s) (dt_nodes s) (mem_info_cnt s) (mem_info_cntV64 s) (Datatypes.S (dt_seeds s))).
  erewrite bind_go by reflexivity. fold s0. destruct ((RandomSeed env (dt_seeds s)).1 =? EFI_SUCCESS).
  - destruct (append_be 8 s0 i pre n suf (L "kaslr-seed") (RandomSeed env (dt_seeds s)).2 Hs Hi)
      as (s1 & i1 & n1 & H1 & Hs1 & (F1 & F2 & F3) & Hb1 & Hr1); [by apply name_is|by right|done| |].
    { change (zlen (L "kaslr-seed")) with 10. case_decide; lia. }
    change (zlen (L "kaslr-seed")) with 10 in Hr1. rewrite (bind_go _ _ _ _ _ H1). exists s1, i1, n1.
    split; [done|]. split; [done|]. split; [done|]. rewrite app_nil_r.
    split; [exact (becomes_from s0 s _ _ _ _ _ _ _ _ Hb1 eq_refl)|case_decide; lia].
  - exists s0, i, n. split; [done|]. split; [done|]. split; [done|]. split; [|lia].
    eapply becomes_ext; [by apply becomes_refl|]. intros q'. by rewrite grow_nil.
Qed.

Definition initrd_values (ramdisk RamDiskSize : Z) (f : list Z -> option (list Z)) : list Z -> option (list Z) :=
  if RamDiskSize =? 0 then f
  else put (L "linux,initrd-end") (be_put 8 (u64 (ramdisk + RamDiskSize)))
         (put (L "linux,initrd-start") (be_put 8 ramdisk) f).

Lemma initrd_run s i pre n suf ramdisk RamDiskSize :
  state_of s i -> image_of i (pre ++ flatten n ++ suf) -> solid i n (L "linux,initrd-start") ->
  solid i n (L "linux,initrd-end") -> 76 <= room i ->
  exists s' i' n', add_initrd (R := R) (pos pre) ramdisk RamDiskSize s = (Go EFI_SUCCESS, s') /\
    state_of s' i' /\ becomes s i pre n suf (initrd_values ramdisk RamDiskSize (value i n)) s' i' n' /\
    room i - 76 <= room i'.
Proof.
  intros Hs Hi Hsol1 Hsol2 Hroom. unfold add_initrd, initrd_values. destruct (RamDiskSize =? 0).
  - exists s, i, n. split; [done|]. split; [done|]. split; [by apply becomes_refl|lia].
  - destruct (set_u64 s i pre n suf (L "linux,initrd-start") ramdisk Hs Hi)
      as (s1 & i1 & n1 & H1 & Hs1 & _ & Hb1 & Hr1);
      [by apply name_is|done|change (zlen (L "linux,initrd-start")) with 18; lia|].
    change (zlen (L "linux,initrd-start")) with 18 in Hr1.
    destruct (set_u64 s1 i1 pre n1 suf (L "linux,initrd-end") (u64 (ramdisk + RamDiskSize)) Hs1
      (bc_image _ _ _ _ _ _ _ _ _ Hb1)) as (s2 & i2 & n2 & H2 & Hs2 & _ & Hb2 & Hr2);
      [by apply name_is|eapply becomes_solid; [exact Hb1|by apply filled_put]
      |change (zlen (L "linux,initrd-end")) with 16; lia|].
    change (zlen (L "linux,initrd-end")) with 16 in Hr2.
    rewrite (bind_go _ _ _ _ _ H1). cbn [negb Z.eqb]. rewrite (bind_go _ _ _ _ _ H2).
    exists s2, i2, n2. split; [done|]. split; [done|]. split; [|lia].
    eapply becomes_ext; [exact (becomes_trans _ _ _ _ _ _ _ _ _ _ _ _ _ Hb1 Hb2)|].
    intros q'. unfold put at 1 2. by rewrite (bc_values _ _ _ _ _ _ _ _ _ Hb1).
Qed.

(** The values of the chosen node after the kernel's arguments, the seeds and
    the place of the ramdisk; [k] random numbers were asked for before. *)
Definition chosen_values (IsLEVariant : bool) (k : nat) (str : list Z) (ramdisk RamDiskSize : Z)
    (f : list Z -> option (list Z)) : list Z -> option (list Z) :=
  let k' := if IsLEVariant then k else seeds_asked env k 64 in
  initrd_values ramdisk RamDiskSize
    (grow (L "kaslr-seed") (seed_bytes env k' 1)
      ((if IsLEVariant then fun f => f else grow (L "rng-seed") (seed_bytes env k 64))
        (put (L "bootargs") (bootargs_value str (f (L "bootargs"))) f))).

Lemma initrd_values_ext r z f g q : (forall q, f q = g q) -> initrd_values r z f q = initrd_values r z g q.
Proof. intros H. unfold initrd_values, put. case_match; [done|]. repeat case_bool_decide; done. Qed.

Lemma grow_ext q w f g q' : (forall q, f q = g q) -> grow q w f q' = grow q w g q'.
Proof. intros H. unfold grow. by rewrite !H. Qed.

Lemma chosen_values_ext le k str r z f g q :
  (forall q, f q = g q) -> chosen_values le k str r z f q = chosen_values le k str r z g q.
Proof.
  intros H. unfold chosen_values. apply initrd_values_ext. clear q. intros q. apply grow_ext. clear q. intros q.
  assert (Hput : forall q, put (L "bootargs") (bootargs_value str (f (L "bootargs"))) f q =
    put (L "bootargs") (bootargs_value str (g (L "bootargs"))) g q) by (intros q'; unfold put; by rewrite !H).
  destruct le; [apply Hput|by apply grow_ext].
Qed.

(** The room the chosen node needs besides the command line. *)
Definition CHOSEN_ROOM : Z := 665.

(** The properties that are written. *)
Definition chosen_names : list (list Z) :=
  [L "bootargs"; L "rng-seed"; L "kaslr-seed"; L "linux,initrd-start"; L "linux,initrd-end"].

Lemma chosen_run (pool : Z -> bool) (rodata : list Z) (IsLEVariant : bool) s s1 i pre n suf str ramdisk RamDiskSize :
  state_of s i -> image_of i (pre ++ flatten n ++ suf) ->
  path (R := R) pool rodata "/chosen" s = (Go (pos pre), s1) ->
  Forall is_u8 str -> zlen (cstr str) <= 2 ^ 31 - 33 -> Forall (solid i n) chosen_names ->
  (forall w, value i n (L "bootargs") = Some w -> zlen w + zlen (cstr str) <= 2 ^ 31 - 33) ->
  zlen (cstr str) + CHOSEN_ROOM <= room i ->
  exists s' i' n', UpdateChosen (R := R) pool env rodata IsLEVariant (Some str) ramdisk RamDiskSize s =
      (Go EFI_SUCCESS, s') /\ state_of s' i' /\
    becomes s1 i pre n suf
      (chosen_values IsLEVariant (dt_seeds s) (cstr str) ramdisk RamDiskSize (value i n)) s' i' n' /\
    room i - (zlen (cstr str) + CHOSEN_ROOM) <= room i'.
Proof.
  intros Hs Hi Hp Hu Hl Hsol Hold Hroom. unfold CHOSEN_ROOM in *. unfold UpdateChosen. rewrite (bind_go _ _ _ _ _ Hp).
  unfold chosen_names in Hsol. rewrite !list.Forall_cons in Hsol. destruct Hsol as (S1 & S2 & S3 & S4 & S5 & _).
  assert (Hs1 : state_of s1 i /\ dt_seeds s1 = dt_seeds s).
  { unfold path, on_nodes in Hp. by injection Hp as _ <-. }
  destruct Hs1 as [Hs1 Hk1]. rewrite (proj2 (Z.ltb_ge _ _)) by apply pos_nonneg.
  destruct (bootargs_run s1 i pre n suf str Hs1 Hi Hu S1 Hold Hl ltac:(lia))
    as (s2 & i2 & n2 & H2 & Hs2 & (_ & _ & Hk2) & Hb2 & Hr2).
  rewrite (bind_go _ _ _ _ _ H2). cbn [negb Z.eqb]. rewrite Hk1 in Hk2.
  assert (Hput : forall q, solid i n q -> solid i2 n2 q).
  { intros q Hq. eapply becomes_solid; [exact Hb2|]. apply filled_put; [apply bootargs_solid|done]. }
  set (rng := if IsLEVariant then fun f : list Z -> option (list Z) => f
              else grow (L "rng-seed") (seed_bytes env (dt_seeds s) 64)).
  assert (Hrng : exists s3 i3 n3,
    (if IsLEVariant then mret tt else add_rng_seeds (R := R) env (pos pre)) s2 = (Go tt, s3) /\ state_of s3 i3 /\
    dt_seeds s3 = (if IsLEVariant then dt_seeds s else seeds_asked env (dt_seeds s) 64) /\
    becomes s2 i2 pre n2 suf (rng (value i2 n2)) s3 i3 n3 /\ room i2 - 533 <= room i3).
  { subst rng. destruct IsLEVariant.
    - exists s2, i2, n2. split_and!; [done..|apply becomes_refl; [apply (bc_image _ _ _ _ _ _ _ _ _ Hb2)|done]|lia].
    - destruct (rng_loop_run (L "rng-seed") pre suf 64 0 s2 i2 n2 Hs2 (bc_image _ _ _ _ _ _ _ _ _ Hb2))
        as (s3 & i3 & n3 & H3 & Hs3 & (_ & _ & Hk3) & Hb3 & Hr3); [by apply name_is|by apply Hput| |].
      { change (zlen (L "rng-seed")) with 8. case_decide; lia. }
      change (zlen (L "rng-seed")) with 8 in Hr3. rewrite Hk2 in Hk3, Hb3.
      exists s3, i3, n3. split_and!; [exact H3|done|done|done|case_decide; lia]. }
  destruct Hrng as (s3 & i3 & n3 & H3 & Hs3 & Hk3 & Hb3 & Hr3). rewrite (bind_go _ _ _ _ _ H3).
  assert (Hrs : forall q, solid i n q -> solid i3 n3 q).
  { intros q Hq. eapply becomes_solid; [exact Hb3|]. subst rng. apply Hput in Hq.
    destruct IsLEVariant; [done|by apply filled_grow]. }
  destruct (kaslr_run s3 i3 pre n3 suf Hs3 (bc_image _ _ _ _ _ _ _ _ _ Hb3) (Hrs _ S3) ltac:(lia))
    as (s4 & i4 & n4 & H4 & Hs4 & _ & Hb4 & Hr4). rewrite (bind_go _ _ _ _ _ H4). rewrite Hk3 in Hb4.
  assert (Hks : forall q, solid i n q -> solid i4 n4 q).
  { intros q Hq. eapply becomes_solid; [exact Hb4|]. apply filled_grow. by apply Hrs. }
  destruct (initrd_run s4 i4 pre n4 suf ramdisk RamDiskSize Hs4 (bc_image _ _ _ _ _ _ _ _ _ Hb4) (Hks _ S4) (Hks _ S5)
    ltac:(lia)) as (s5 & i5 & n5 & H5 & Hs5 & Hb5 & Hr5).
  exists s5, i5, n5. split; [exact H5|]. split; [done|]. split; [|lia].
  eapply becomes_ext; [exact (becomes_trans _ _ _ _ _ _ _ _ _ _ _ _ _ Hb2
    (becomes_trans _ _ _ _ _ _ _ _ _ _ _ _ _ Hb3 (becomes_trans _ _ _ _ _ _ _ _ _ _ _ _ _ Hb4 Hb5)))|].
  intros q. unfold chosen_values. apply initrd_values_ext. clear q. intros q.
  rewrite (bc_values _ _ _ _ _ _ _ _ _ Hb4). apply grow_ext. clear q. intros q.
  rewrite (bc_values _ _ _ _ _ _ _ _ _ Hb3). subst rng.
  destruct IsLEVariant; [|apply grow_ext; clear q; intros q]; apply (bc_values _ _ _ _ _ _ _ _ _ Hb2).
Qed.
End Chosen.
