(* ===== verification/DtTreeSpec.v ===== *)
(** [UpdateDeviceTree] on the whole tree: the tree with one first-level node
    replaced and the list of first-level nodes that goes with it, the room that
    is made for the changes, and the tree that is left after the chosen node. *)
From Stdlib Require Import ZArith Lia.
From stdpp Require Import base list numbers option sets sorting.
From S2P Require Import Prelude EfiBase Fdt FdtSpec FdtTree FdtRw FdtRwSpec LocateSpec FdtListSpec FdtWrite FdtImage FdtProps FdtSet FdtPack.
From S2P Require Import Carveout FdtUpdate FdtUpdateSpec DtMatch Locate DtUpdate DtUpdateSpec DtChosenSpec.

(** * The tree around a child of the root *)

Definition before (root : dnode) (a : nat) : list tok :=
  TBegin (node_name root) :: prop_toks (node_props root) ++ flatten_all (take a (node_children root)).
Definition after (root : dnode) (a : nat) : list tok :=
  flatten_all (drop (S a) (node_children root)) ++ [TEndNode; TEnd].
Definition with_child (root : dnode) (a : nat) (n : dnode) : dnode :=
  DNode (node_name root) (node_props root) (<[a := n]> (node_children root)).

Lemma before_pos root a : pos (before root a) = child_pos [] root a.
Proof. done. Qed.

Lemma flatten_all_app cs1 cs2 : flatten_all (cs1 ++ cs2) = flatten_all cs1 ++ flatten_all cs2.
Proof. unfold flatten_all. by rewrite map_app, join_app. Qed.

Lemma tree_child root a n :
  node_children root !! a = Some n -> tree_toks root = before root a ++ flatten n ++ after root a.
Proof.
  intros Ha. unfold before, after, tree_toks. destruct root as [nm ps cs]. cbn [flatten node_name node_props node_children] in *.
  change (mjoin (map flatten cs)) with (flatten_all cs). rewrite <- (take_drop_middle _ _ _ Ha) at 1.
  rewrite flatten_all_app. change (flatten_all (n :: drop (S a) cs)) with (flatten n ++ flatten_all (drop (S a) cs)).
  unfold prop_toks. simpl. by rewrite <- !app_assoc.
Qed.

Lemma with_child_before root a n : before (with_child root a n) a = before root a.
Proof. unfold before, with_child. cbn [node_name node_props node_children]. by rewrite take_insert_ge by done. Qed.

Lemma with_child_after root a n : after (with_child root a n) a = after root a.
Proof. unfold after, with_child. cbn [node_children]. by rewrite drop_insert_lt by lia. Qed.

Lemma with_child_toks root a n n' :
  node_children root !! a = Some n ->
  tree_toks (with_child root a n') = before root a ++ flatten n' ++ after root a.
Proof.
  intros Ha. rewrite (tree_child _ a n'), with_child_before, with_child_after; [done|].
  cbn [with_child node_children]. apply list_lookup_insert_eq. by eapply lookup_lt_Some.
Qed.

Lemma with_child_same root a n : node_children root !! a = Some n -> with_child root a n = root.
Proof. intros Ha. destruct root. unfold with_child. cbn in *. by rewrite list_insert_id. Qed.

(** ** The names of the first level *)

Definition child_names (root : dnode) : list (list Z) := map node_name (node_children root).

Lemma with_child_names root a n n' :
  node_children root !! a = Some n -> node_name n' = node_name n -> child_names (with_child root a n') = child_names root.
Proof.
  intros Ha Hn. unfold child_names. cbn [with_child node_children]. rewrite <- (list_insert_id (node_children root) a n Ha) at 2.
  change (map node_name) with (fmap (M := list) node_name). by rewrite !list_fmap_insert, Hn.
Qed.

Lemma names_back root root' j c :
  child_names root' = child_names root -> node_children root' !! j = Some c ->
  exists c0, node_children root !! j = Some c0 /\ node_name c0 = node_name c.
Proof.
  unfold child_names. intros He Hj. assert (Hl : (map node_name (node_children root')) !! j = Some (node_name c))
    by (change (map node_name) with (fmap (M := list) node_name); by rewrite list_lookup_fmap, Hj).
  rewrite He in Hl. change (map node_name) with (fmap (M := list) node_name) in Hl.
  rewrite list_lookup_fmap in Hl. destruct (node_children root !! j) as [c0|]; [|done].
  exists c0. split; [done|]. by injection Hl.
Qed.

Lemma names_apart_same root root' : child_names root' = child_names root -> names_apart root -> names_apart root'.
Proof.
  intros He [H1 H2]. split.
  - intros j j' c c' Hlt (c0 & Hj & <-)%(names_back _ _ _ _ He) (c0' & Hj' & <-)%(names_back _ _ _ _ He). by eapply H1.
  - intros j c (c0 & Hj & <-)%(names_back _ _ _ _ He). by eapply H2.
Qed.

Lemma alone_same root root' i q : child_names root' = child_names root -> alone root i q -> alone root' i q.
Proof. intros He H j c Hne (c0 & Hj & <-)%(names_back _ _ _ _ He). by eapply H. Qed.

(** ** The list as places around the child *)

Definition first_mark (root : dnode) (a : nat) (n : dnode) (j : nat) (c : dnode) : list Z * place :=
  (node_name c,
   if decide (j <= a)%nat then inl (before root j)
   else inr (flatten_all (node_children n) ++ TEndNode :: flatten_all (take (j - S a) (drop (S a) (node_children root))))).
Definition first_marks (root : dnode) (a : nat) (n : dnode) (k : nat) : list (list Z * place) :=
  rev (imap (first_mark root a n) (take k (node_children root))).

Lemma before_split root j a : (j <= a)%nat ->
  before root a = before root j ++ flatten_all (take (a - j) (drop j (node_children root))).
Proof.
  intros Hj. unfold before.
  assert (Ht : take a (node_children root) = take j (node_children root) ++ take (a - j) (drop j (node_children root)))
    by (rewrite take_take_drop; f_equal; lia).
  rewrite Ht, flatten_all_app. simpl. by rewrite <- app_assoc.
Qed.

Lemma first_marks_ok root a n k :
  node_children root !! a = Some n ->
  Forall (fun m => place_ok (before root a) n (after root a) m.2) (first_marks root a n k).
Proof.
  intros Ha. apply list.Forall_forall. intros m Hm. unfold first_marks in Hm.
  rewrite list_elem_of_In, <- in_rev, <- list_elem_of_In, elem_of_lookup_imap in Hm.
  destruct Hm as (j & c & -> & Hj). apply lookup_take_Some in Hj as [Hj _]. unfold first_mark. cbn [snd].
  case_decide as Hle; cbn [place_ok].
  - eexists. by apply before_split.
  - exists (flatten_all (drop (j - S a) (drop (S a) (node_children root))) ++ [TEndNode; TEnd]).
    unfold rest, after. rewrite <- app_assoc. f_equal. rewrite <- app_comm_cons. f_equal.
    rewrite app_assoc, <- flatten_all_app. by rewrite take_drop.
Qed.

(** Where the child [j] of the tree with the new node is. *)
Lemma first_mark_pos root a n n' j c :
  node_children root !! a = Some n -> node_children n' = node_children n ->
  node_children root !! j = Some c ->
  place_pos (before root a) n' (first_mark root a n j c).2 = child_pos [] (with_child root a n') j.
Proof.
  intros Ha Hc Hj. unfold first_mark. cbn [snd]. rewrite <- before_pos. case_decide as Hle; cbn [place_pos].
  - unfold before, with_child. cbn [node_name node_props node_children]. by rewrite take_insert_ge.
  - rewrite (before_split _ a j), with_child_before by lia. cbn [with_child node_children].
    assert (Hd : drop a (<[a := n']> (node_children root)) = n' :: drop (S a) (node_children root)).
    { rewrite (drop_S _ n' a) by (apply list_lookup_insert_eq; by eapply lookup_lt_Some).
      by rewrite drop_insert_lt by lia. }
    rewrite Hd. replace (j - a)%nat with (S (j - S a)) by lia. cbn [take].
    change (flatten_all (n' :: take (j - S a) (drop (S a) (node_children root)))) with
      (flatten n' ++ flatten_all (take (j - S a) (drop (S a) (node_children root)))).
    f_equal. unfold head. destruct n' as [nm' ps' cs']. cbn [node_name node_props node_children flatten] in *. subst cs'.
    change (mjoin (map flatten (node_children n))) with (flatten_all (node_children n)).
    unfold prop_toks. simpl. by rewrite <- !app_assoc.
Qed.

Lemma first_nodes_listing root a n n' k :
  node_children root !! a = Some n -> node_name n' = node_name n -> node_children n' = node_children n ->
  first_nodes (with_child root a n') k = listing (before root a) n' (first_marks root a n k).
Proof.
  intros Ha Hn Hc. unfold first_nodes, listing, first_marks. rewrite map_rev. f_equal.
  apply list_eq. intros j. change (map (fun m : list Z * place => mkFirst m.1 (place_pos (before root a) n' m.2)))
    with (fmap (M := list) (fun m : list Z * place => mkFirst m.1 (place_pos (before root a) n' m.2))).
  rewrite list_lookup_fmap, !list_lookup_imap. cbn [with_child node_children].
  destruct (decide (j < k)%nat) as [Hjk|Hjk]; [|by rewrite !lookup_take_ge by lia].
  rewrite !lookup_take_lt by done. destruct (decide (j = a)) as [->|Hja].
  - rewrite list_lookup_insert_eq by (by eapply lookup_lt_Some). rewrite Ha. cbn [fmap option_fmap option_map].
    rewrite (first_mark_pos root a n n' a n) by done. unfold first_mark. cbn [fst]. by rewrite Hn.
  - rewrite list_lookup_insert_ne by done. destruct (node_children root !! j) as [c|] eqn:Hj; [|done].
    cbn [fmap option_fmap option_map]. by rewrite (first_mark_pos root a n n' j c) by done.
Qed.

(** The state with the tree in it replaced. *)
Definition with_blob (s : DtState) (b : list Z) : DtState :=
  mkDtState b (dt_nodes s) (mem_info_cnt s) (mem_info_cntV64 s) (dt_seeds s).

Lemma open_tree_run {R} Start s i rs toks str :
  state_of s i -> image_of i toks -> toks <> [] -> reserves i rs -> 0 <= Start -> Start + im_total i < 2 ^ 64 ->
  let t := im_total i + DTB_PAD_SIZE + zlen (cstr str) in
  t <= 2 ^ 31 - 4 -> t <= zlen (render i) ->
  open_tree (R := R) Start (Some str) s = (Go EFI_SUCCESS, with_blob s (render (with_total i t))).
Proof.
  intros Hs Hi Hne Hrs Hst Hend t Ht Hl. pose proof (if_ok _ _ Hi) as Hok. unfold open_tree.
  pose proof (zlen_nonneg (cstr str)) as Hz.
  assert (Hpos : 0 < zlen (im_block i)).
  { pose proof (if_block _ _ Hi) as Hb. apply encs_pos in Hb. destruct toks as [|tk toks]; [done|].
    pose proof (pos_count (tk :: toks)) as Hc. cbn [length] in Hc. lia. }
  assert (Hself : forall (A : Type) (m : list Z -> M (list FDT_FIRST_LEVEL_NODE) R A) a,
    (forall nl, m (render i) nl = (Go a, nl)) -> on_nodes m s = (Go a, s)).
  { intros A m a Hm. unfold on_nodes. cbn zeta. rewrite Hs, Hm. cbn [fst snd].
    destruct s as [b nl c1 c2 k]. cbn in Hs |- *. by rewrite Hs. }
  erewrite bind_go by (apply Hself; intros nl; eapply check_header_words, render_header, Hok). cbn [negb Z.eqb].
  rewrite bind_assoc.
  erewrite bind_go; cycle 1.
  { apply Hself; intros nl. pose proof Hok as []. eapply (check_ext_words Start (render i) (im_total i) _ _ _ _ (im_rsvmap i));
      [by apply render_header|im_lia..| |im_lia|im_lia|im_lia|im_lia].
    by apply (word_header i Hok 4). }
  erewrite bind_go by reflexivity. cbn [negb Z.eqb].
  erewrite bind_go; cycle 1.
  { apply Hself; intros nl. unfold fdt_totalsize. by apply fdt32_word, (hw_total _ _ _ _ _ _ (render_header i Hok)). }
  erewrite bind_go by reflexivity. unfold AsciiStrLen, StrLen, ADD_OF, MAX_UINT32.
  unfold DTB_PAD_SIZE in *. assert (0 <= im_total i) by (destruct Hok; im_lia).
  rewrite Z.gtb_ltb, (proj2 (Z.ltb_lt _ _)) by lia. rewrite (proj2 (Z.eqb_neq _ 0)) by lia.
  replace (im_total i + (2048 + zlen (cstr str))) with t by lia. rewrite s32_small by lia.
  erewrite bind_go; cycle 1.
  { unfold on_blob. cbn zeta. rewrite Hs, (open_into_run i rs Hok Hrs t) by lia. reflexivity. }
  reflexivity.
Qed.

#[local] Arguments path {R} pool rodata s%_string_scope.

(** * The tree and its list *)

(** The state holds the tree, and the list names its first [k] nodes. *)
Record prepared (s : DtState) (i : image) (root : dnode) (k : nat) : Prop := {
  pr_state : state_of s i;
  pr_image : image_of i (tree_toks root);
  pr_nodes : dt_nodes s = first_nodes root k;
  pr_count : (k <= length (node_children root))%nat;
}.

Lemma image_tree_blob i root :
  image_of i (tree_toks root) -> tree_blob (render i) (im_off i) root (names i) (im_total i) 17.
Proof.
  intros Hi. pose proof (if_ok _ _ Hi) as Hok. destruct (render_header i Hok).
  split; [by apply image_toks|apply Hi|done|done|done| |].
  - exists (im_offs i), (zlen (im_tab i)). done.
  - intros o v Hin. apply tab_str_at; [done|]. apply (if_names _ _ Hi o v). apply elem_of_app. by left.
Qed.

(** A path to a first-level node. *)
Lemma path_run {R} (pool : Z -> bool) rodata s i root k q a n :
  (forall n, pool n = true) -> names_apart root -> prepared s i root k -> node_children root !! a = Some n ->
  node_name n = q -> alone root a q -> Forall (fun c => is_u8 c /\ c <> 0 /\ c <> 47) q -> q <> [] ->
  (64 <= length rodata)%nat ->
  exists s', on_nodes (R := R) (fun b => FdtPathOffset pool b (47 :: q ++ 0 :: rodata)) s =
      (Go (pos (before root a)), s') /\ prepared s' i root (Nat.max (S a) k) /\ same_flags s s'.
Proof.
  intros Hpool Hna [Hs Hi Hnl Hk] Ha Hn Hal Hq Hne Hmem.
  pose proof (path_offset_first (R := R) pool Hpool root Hna _ _ _ _ _ q rodata a n k (image_tree_blob _ _ Hi) Hq Hne)
    as Hrun. specialize (Hrun ltac:(rewrite length_app; cbn [length]; lia) Ha Hn Hal Hk).
  exists (mkDtState (dt_blob s) (first_nodes root (Nat.max (S a) k)) (mem_info_cnt s) (mem_info_cntV64 s) (dt_seeds s)).
  split; [|split; [split; [done|done|done|]|done]].
  - unfold on_nodes. cbn zeta. by rewrite Hnl, Hs, Hrun.
  - apply lookup_lt_Some in Ha. lia.
Qed.

Lemma moved_prepared s i root k a n s' i' n' :
  prepared s i root k -> node_children root !! a = Some n -> state_of s' i' ->
  image_of i' (before root a ++ flatten n' ++ after root a) -> node_name n' = node_name n ->
  node_children n' = node_children n -> follows (before root a) n (after root a) s n' s' ->
  prepared s' i' (with_child root a n') k.
Proof.
  intros [Hs Hi Hnl Hk] Ha Hs' Hi' Hn Hc Hf. split; [done|by rewrite (with_child_toks _ _ n)| |].
  - rewrite (first_nodes_listing root a n n' k Ha Hn Hc). apply (Hf (first_marks root a n k)).
    assert (Hl : dt_nodes s = listing (before root a) n (first_marks root a n k)).
    { rewrite Hnl, <- (first_nodes_listing root a n n k) by done. by rewrite with_child_same. }
    split; [by apply first_marks_ok|done|]. rewrite Hnl. by apply first_nodes_desc.
  - cbn [with_child node_children]. by rewrite length_insert.
Qed.

(** The values of a node that was not changed. *)
Lemma value_kept i i' pre n suf q :
  image_of i (pre ++ flatten n ++ suf) -> extends i i' -> value i' n q = value i n q.
Proof. intros Hi Hex. apply lookup_same. by eapply names_extends. Qed.

Lemma value_in_total i pre n suf q w :
  image_of i (pre ++ flatten n ++ suf) -> value i n q = Some w -> zlen w <= im_total i.
Proof.
  intros Hi. unfold value. rewrite lookup_split.
  destruct (split_prop (names i) (node_props n) q) as [[[ps1 p] ps2]|] eqn:E; [|done].
  cbn [fst snd fmap option_fmap option_map]. intros [= <-].
  destruct (prop_there i pre n suf Hi _ _ _ _ E) as (_ & _ & _ & _ & _ & _ & X & pad & Y & [Hok Hbl _ _ _ _ _]).
  assert (Hl : zlen p.2 <= zlen (im_block i)) by (rewrite Hbl, !length_app; lia). destruct Hok. im_lia.
Qed.

Lemma reserves_extends i i' rs : reserves i rs -> extends i i' -> reserves i' rs.
Proof.
  intros [Hok (g0 & g1 & Hf & Hm)] [? Hr ? ? Hfr ? _]. split; [done|]. exists g0, g1. by rewrite Hfr, Hr.
Qed.

(** * The memory node *)

(** Its values: the RAM partitions in [reg], the type of the RAM behind
    [ddr_device_type] when the firmware tells it. *)
Definition memory_values (env : DtEnv) (c : Z) (ps : list RamPartitionEntry) (f : list Z -> option (list Z)) :
    list Z -> option (list Z) :=
  let g := match ps with [] => f | _ => put (L "reg") (mjoin (map (ram_entry c) ps)) f end in
  if (DDRInfo env).1 =? EFI_SUCCESS then grow (L "ddr_device_type") (be_put 4 (DDRInfo env).2) g else g.

Lemma partitions_solid c ps : ps <> [] -> mjoin (map (ram_entry c) ps) <> [].
Proof.
  destruct ps as [|p ps]; [done|]. intros _. cbn [map mjoin list_join]. intros [He _]%app_eq_nil.
  by apply (ram_entry_solid c p).
Qed.

Lemma memory_run {R} pool env rodata updated ps s i root k a n c :
  (forall z, pool z = true) -> prepared s i root k -> node_children root !! a = Some n -> 1 <= c <= 2 ->
  value i root (L "#address-cells") = Some (be_put 4 c) -> value i root (L "#size-cells") = Some (be_put 4 c) ->
  match updated with Some u => ps = u | None => RamPartitions env = (EFI_SUCCESS, ps) end ->
  EFI_ERROR (GranuleSize env).1 = true ->
  solid i n (L "reg") -> solid i n (L "ddr_device_type") ->
  mem_info_cnt s = false -> mem_info_cntV64 s = false -> mem_room ps + 36 <= room i ->
  exists s1 s2 i' n', target_dev_tree_mem (R := R) pool env rodata updated (pos (before root a)) s = (Go EFI_SUCCESS, s1) /\
    UpdateDDRInfo (R := R) pool env (pos (before root a)) s1 = (Go EFI_SUCCESS, s2) /\ dt_seeds s2 = dt_seeds s /\
    prepared s2 i' (with_child root a n') k /\ node_name n' = node_name n /\ node_children n' = node_children n /\
    extends i i' /\ (forall q, value i' n' q = memory_values env c ps (value i n) q) /\
    room i - (mem_room ps + 36) <= room i'.
Proof.
  intros Hpool Hp Ha Hc Hac Hsc Hps Hgr Hsol Hsol2 Hm1 Hm2 Hroom. pose proof Hp as [Hs Hi Hnl Hk].
  destruct (mem_map_run (R := R) env updated ps s i root (before root a) n (after root a) c Hs Hi (tree_child _ _ _ Ha)
    Hc Hac Hsc Hps Hsol Hm1 Hm2 ltac:(lia)) as (s1 & i1 & n1 & H1 & Hs1 & Hk1 & Hmv1 & Hv1 & Hr1).
  assert (Ht : target_dev_tree_mem (R := R) pool env rodata updated (pos (before root a)) s = (Go EFI_SUCCESS, s1)).
  { unfold target_dev_tree_mem. rewrite (bind_go _ _ _ _ _ H1). change (EFI_ERROR EFI_SUCCESS) with false. cbn iota.
    unfold UpdateGranuleInfo. destruct (GranuleSize env) as [st sz]. cbn [fst] in Hgr. rewrite Hgr. by erewrite bind_go by reflexivity. }
  set (g := match ps with [] => value i n | _ => put (L "reg") (mjoin (map (ram_entry c) ps)) (value i n) end).
  assert (Hb1 : becomes s i (before root a) n (after root a) g s1 i1 n1).
  { destruct Hmv1 as [[X1 X2 X3 X4 X5] Hf]. split; try done. intros q. subst g.
    destruct ps as [|p ps].
    - destruct (decide (q = L "reg")) as [->|Hne]; [done|]. apply X5. set_solver.
    - unfold put. case_bool_decide as E; [by subst q|]. apply X5. set_solver. }
  assert (Hsol3 : solid i1 n1 (L "ddr_device_type")).
  { eapply becomes_solid; [exact Hb1|]. subst g. destruct ps as [|p ps]; [done|].
    apply filled_put; [by apply partitions_solid|done]. }
  assert (Hddr : exists s2 i2 n2, UpdateDDRInfo (R := R) pool env (pos (before root a)) s1 = (Go EFI_SUCCESS, s2) /\
    state_of s2 i2 /\ dt_seeds s2 = dt_seeds s /\ becomes s i (before root a) n (after root a) (memory_values env c ps (value i n)) s2 i2 n2 /\
    room i1 - 36 <= room i2).
  { unfold UpdateDDRInfo, memory_values. rewrite Hpool. cbn [negb]. fold g.
    destruct (DDRInfo env) as [st ty]. cbn [fst snd]. destruct (st =? EFI_SUCCESS).
    - destruct (append_be (R := R) 4 s1 i1 (before root a) n1 (after root a) (L "ddr_device_type") ty Hs1 (bc_image _ _ _ _ _ _ _ _ _ Hb1))
        as (s2 & i2 & n2 & H2 & Hs2 & (_ & _ & Hk2) & Hb2 & Hr2); [by apply name_is|by left|done| |].
      { change (zlen (L "ddr_device_type")) with 15. case_decide; lia. }
      change (zlen (L "ddr_device_type")) with 15 in Hr2. rewrite (bind_go _ _ _ _ _ H2).
      exists s2, i2, n2. split; [done|]. split; [done|]. split; [congruence|]. split; [|case_decide; lia].
      eapply becomes_ext; [exact (becomes_trans _ _ _ _ _ _ _ _ _ _ _ _ _ Hb1 Hb2)|].
      intros q. apply grow_ext, (bc_values _ _ _ _ _ _ _ _ _ Hb1).
    - exists s1, i1, n1. split; [done|]. split; [done|]. split; [done|]. split; [done|lia]. }
  destruct Hddr as (s2 & i2 & n2 & H2 & Hs2 & Hk2 & Hb2 & Hr2). exists s1, s2, i2, n2.
  split; [done|]. split; [done|]. split; [done|]. destruct Hb2. split; [by eapply moved_prepared|].
  split; [done|]. split; [done|]. split; [done|]. split; [done|lia].
Qed.

(** * From the header check to the chosen node *)

(** The firmware has no data of the display and no granule for the tree. *)
Record no_display (env : DtEnv) : Prop := {
  nd_splash : (DisplaySplashBufferInfo env).1 <> EFI_SUCCESS;
  nd_demura : (DisplayDemuraInfo env).1 <> EFI_SUCCESS;
  nd_pll : EFI_ERROR (PLLCodesSize env).1 = true /\ (PLLCodesSize env).1 <> EFI_BUFFER_TOO_SMALL;
  nd_granule : EFI_ERROR (GranuleSize env).1 = true;
}.

(** The display stages do nothing then. *)
Lemma display_run {R A} pool env rodata Start (m : MD R A) s :
  no_display env ->
  (_ ← UpdateSplashMemInfo pool env rodata Start; _ ← UpdateDemuraInfo pool env rodata;
   _ ← UpdatePLLCodesInfo pool env rodata; _ ← UpdateRamDumpMemInfo pool env rodata Start; m) s = m s.
Proof.
  intros [Hs Hd [Hp Hp'] _]. unfold UpdateSplashMemInfo, UpdateDemuraInfo, UpdatePLLCodesInfo, UpdateRamDumpMemInfo.
  destruct (DisplaySplashBufferInfo env) as [st [fa fs]], (DisplayDemuraInfo env) as [st' d], (PLLCodesSize env) as [st'' z].
  cbn [fst] in *. rewrite (proj2 (Z.eqb_neq st EFI_SUCCESS)), (proj2 (Z.eqb_neq st' EFI_SUCCESS)) by done.
  rewrite Hp, (proj2 (Z.eqb_neq st'' EFI_BUFFER_TOO_SMALL)) by done. cbn [negb andb].
  by repeat erewrite bind_go by reflexivity.
Qed.

Section Compose.
Context {R : Type} (pool : Z -> bool) (env : DtEnv) (rodata : list Z) (Start : Z) (IsLEVariant : bool).
Context (Hpool : forall z, pool z = true) (Hrodata : (64 <= length rodata)%nat).

(** What is asked of the tree and of the two nodes. *)
Record to_update (i : image) (root : dnode) (a b : nat) (mem cho : dnode) (c : Z) : Prop := {
  tu_apart : names_apart root;
  tu_mem : node_children root !! a = Some mem;
  tu_cho : node_children root !! b = Some cho;
  tu_mem_name : node_name mem = L "memory" /\ alone root a (L "memory");
  tu_cho_name : node_name cho = L "chosen" /\ alone root b (L "chosen");
  tu_cells : 1 <= c <= 2 /\ value i root (L "#address-cells") = Some (be_put 4 c) /\
    value i root (L "#size-cells") = Some (be_put 4 c);
  tu_mem_solid : solid i mem (L "reg") /\ solid i mem (L "ddr_device_type");
  tu_cho_solid : Forall (solid i cho) chosen_names;
}.

Lemma prepared_open s i root k t :
  prepared s i root k -> im_total i <= t <= 2 ^ 31 - 4 -> t <= zlen (render i) ->
  prepared (with_blob s (render (with_total i t))) (with_total i t) root k.
Proof.
  intros [Hs Hi Hnl Hk] Ht Hl. split; [done| |done|done].
  apply (image_of_same i); [done|apply with_total_ok; [apply Hi|done|done]|done|done].
Qed.

(** The two nodes at their values after the update. *)
Lemma update_run s i root k rs a b mem cho c updated ps str ramdisk RamDiskSize :
  prepared s i root k -> reserves i rs -> to_update i root a b mem cho c -> no_display env ->
  match updated with Some u => ps = u | None => RamPartitions env = (EFI_SUCCESS, ps) end ->
  mem_info_cnt s = false -> mem_info_cntV64 s = false ->
  0 <= Start -> Start + im_total i < 2 ^ 64 -> Forall is_u8 str ->
  let t := im_total i + DTB_PAD_SIZE + zlen (cstr str) in
  t <= 2 ^ 31 - 4 -> t <= zlen (render i) -> zlen ps <= 83 ->
  exists s' i' k' mem' cho',
    UpdateDeviceTree_to_chosen (R := R) pool env rodata Start IsLEVariant updated (Some str) ramdisk RamDiskSize s =
      (Go EFI_SUCCESS, s') /\
    prepared s' i' (with_child (with_child root a mem') b cho') k' /\ extends (with_total i t) i' /\
    2048 - (mem_room ps + 36 + CHOSEN_ROOM) <= room i' /\
    node_name mem' = node_name mem /\ node_children mem' = node_children mem /\
    node_name cho' = node_name cho /\ node_children cho' = node_children cho /\
    (forall q, value i' mem' q = memory_values env c ps (value i mem) q) /\
    (forall q, value i' cho' q =
       chosen_values env IsLEVariant (dt_seeds s) (cstr str) ramdisk RamDiskSize (value i cho) q).
Proof.
  intros Hp Hrs [Hna Ha Hb [Hmn Hma] [Hcn Hca] (Hc & Hac & Hsc) [Hm1 Hm2] Hcs] Hnd Hps Hf1 Hf2 Hst Hend Hu t Ht Hl Hn.
  pose proof Hp as [Hs Hi Hnl Hk]. unfold UpdateDeviceTree_to_chosen.
  pose proof (zlen_nonneg (cstr str)) as Hz0.
  assert (Ht0 : im_total i <= t) by (subst t; unfold DTB_PAD_SIZE; lia).
  pose proof (open_tree_run (R := R) Start s i rs (tree_toks root) str Hs Hi ltac:(by destruct root) Hrs Hst Hend Ht Hl) as Hopen.
  rewrite (bind_go _ _ _ _ _ Hopen). change (negb (EFI_SUCCESS =? EFI_SUCCESS)) with false. cbn iota.
  pose proof (prepared_open s i root k t Hp ltac:(lia) Hl) as Hp0.
  set (i0 := with_total i t) in *. set (s0 := with_blob s (render i0)) in *.
  assert (Hrs0 : reserves i0 rs) by exact Hrs.
  assert (Hroom0 : 2048 + zlen (cstr str) <= room i0).
  { pose proof (io_room _ (if_ok _ _ Hi)) as Hr. unfold i0, room, im_end, im_offs, im_off, with_total in *.
    cbn [im_total im_front im_block im_gap im_tab] in *. subst t. unfold DTB_PAD_SIZE in *. lia. }
  destruct (path_run (R := R) pool rodata s0 i0 root k (L "memory") a mem Hpool Hna Hp0 Ha Hmn Hma)
    as (s1 & Hpath1 & Hp1 & (G1 & G2 & G3)); [repeat constructor; done|done|done|].
  change (on_nodes (fun b : list Z => FdtPathOffset pool b (47 :: L "memory" ++ 0 :: rodata)))
    with (path (R := R) pool rodata "/memory") in Hpath1.
  rewrite (bind_go _ _ _ _ _ Hpath1), (proj2 (Z.ltb_ge _ _)) by apply pos_nonneg.
  destruct (memory_run (R := R) pool env rodata updated ps s1 i0 root (Nat.max (S a) k) a mem c Hpool Hp1 Ha Hc Hac Hsc Hps
    (nd_granule _ Hnd) Hm1 Hm2) as (s2 & s3 & i3 & mem' & H2 & H3 & Hk3 & Hp3 & Hmn' & Hmc' & Hex3 & Hv3 & Hr3);
    [by rewrite G1|by rewrite G2|unfold mem_room; lia|].
  rewrite (bind_go _ _ _ _ _ H2). change (negb (EFI_SUCCESS =? EFI_SUCCESS)) with false. cbn iota.
  rewrite (bind_go _ _ _ _ _ H3). change (negb (EFI_SUCCESS =? EFI_SUCCESS)) with false. cbn iota.
  rewrite (display_run pool env rodata Start _ _ Hnd).
  set (root1 := with_child root a mem') in *.
  assert (Hnames : child_names root1 = child_names root) by (by eapply with_child_names).
  assert (Hab : a <> b) by (intros ->; rewrite Hb in Ha; injection Ha as <-; rewrite Hmn in Hcn; discriminate).
  assert (Hb1 : node_children root1 !! b = Some cho) by (unfold root1; cbn [with_child node_children]; by rewrite list_lookup_insert_ne).
  destruct (path_run (R := R) pool rodata s3 i3 root1 (Nat.max (S a) k) (L "chosen") b cho Hpool
    (names_apart_same _ _ Hnames Hna) Hp3 Hb1 Hcn (alone_same _ _ _ _ Hnames Hca))
    as (s4 & Hpath2 & Hp4 & (_ & _ & G4)); [repeat constructor; done|done|done|].
  change (on_nodes (fun b : list Z => FdtPathOffset pool b (47 :: L "chosen" ++ 0 :: rodata)))
    with (path (R := R) pool rodata "/chosen") in Hpath2.
  assert (Hval : forall q, value i3 cho q = value i cho q).
  { intros q. pose proof (pr_image _ _ _ _ Hp0) as Hi0. rewrite (tree_child _ _ _ Hb) in Hi0. by apply (value_kept i0 i3 _ _ _ q Hi0). }
  pose proof (pr_image _ _ _ _ Hp4) as Hi4. pose proof Hi4 as Hi4'. rewrite (tree_child _ _ _ Hb1) in Hi4'.
  destruct (chosen_run (R := R) env pool rodata IsLEVariant s3 s4 i3 (before root1 b) cho (after root1 b) str ramdisk RamDiskSize
    (pr_state _ _ _ _ Hp3) Hi4' Hpath2 Hu) as (s5 & i5 & cho' & H5 & Hs5 & [Hi5 Hcn' Hcc' Hex5 Hv5 Hf5] & Hr5).
  - subst t. unfold DTB_PAD_SIZE in *. destruct (if_ok _ _ Hi). im_lia.
  - eapply list.Forall_impl; [exact Hcs|]. intros q Hq old. rewrite Hval. apply Hq.
  - intros w Hw. rewrite Hval in Hw. pose proof Hi as Hi'. rewrite (tree_child _ _ _ Hb) in Hi'.
    pose proof (value_in_total _ _ _ _ _ _ Hi' Hw). subst t. unfold DTB_PAD_SIZE in *. lia.
  - unfold mem_room, CHOSEN_ROOM in *. lia.
  - exists s5, i5, (Nat.max (S b) (Nat.max (S a) k)), mem', cho'.
    split; [exact H5|]. split; [by eapply moved_prepared|].
    split; [by etrans|]. split; [lia|]. do 4 (split; [done|]). split.
    + intros q. rewrite <- Hv3. pose proof (pr_image _ _ _ _ Hp3) as Hi3.
      assert (Ha1 : node_children root1 !! a = Some mem')
        by (apply list_lookup_insert_eq; by eapply lookup_lt_Some).
      rewrite (tree_child _ _ _ Ha1) in Hi3. by apply (value_kept i3 i5 _ _ _ q Hi3).
    + intros q. rewrite Hv5. replace (dt_seeds s3) with (dt_seeds s) by (rewrite Hk3, G3; done).
      by apply chosen_values_ext.
Qed.
End Compose.
