(* ===== verification/GoodsSpec.v ===== *)
(** Partial goods in a tree: a node two levels below the root that changes, and
    the tables as updates of the values of such nodes. *)
From Stdlib Require Import ZArith Lia.
From stdpp Require Import base list numbers option sets sorting.
From S2P Require Import Prelude EfiBase Fdt FdtSpec FdtTree FdtRw FdtRwSpec FdtListSpec FdtWrite FdtImage FdtProps FdtSet FdtPack.
From S2P Require Import Carveout FdtUpdate FdtUpdateSpec DtMatch DtUpdate DtUpdateSpec DtChosenSpec DtTreeSpec DtGoods.

Delimit Scope string_scope with string.

(** * The tree around a grandchild of the root *)

Definition before2 (root : dnode) (a : nat) (p : dnode) (b : nat) : list tok := before root a ++ before p b.
Definition after2 (root : dnode) (a : nat) (p : dnode) (b : nat) : list tok :=
  flatten_all (drop (S b) (node_children p)) ++ TEndNode :: after root a.
Definition with_grandchild (root : dnode) (a : nat) (p : dnode) (b : nat) (n : dnode) : dnode :=
  with_child root a (with_child p b n).

Lemma child_split p b n :
  node_children p !! b = Some n ->
  flatten p = before p b ++ flatten n ++ flatten_all (drop (S b) (node_children p)) ++ [TEndNode].
Proof.
  intros Hb. pose proof (tree_child p b n Hb) as Ht. unfold tree_toks, after in Ht.
  change [TEndNode; TEnd] with ([TEndNode] ++ [TEnd]) in Ht. rewrite !app_assoc in Ht.
  apply app_inj_tail in Ht as [Ht _]. by rewrite <- !app_assoc in Ht.
Qed.

Lemma with_child_lookup p b n n' : node_children p !! b = Some n -> node_children (with_child p b n') !! b = Some n'.
Proof. intros Hb. cbn [with_child node_children]. apply list_lookup_insert_eq. by eapply lookup_lt_Some. Qed.

Lemma grandchild_toks root a p b n n' :
  node_children root !! a = Some p -> node_children p !! b = Some n ->
  tree_toks (with_grandchild root a p b n') = before2 root a p b ++ flatten n' ++ after2 root a p b.
Proof.
  intros Ha Hb. unfold with_grandchild. rewrite (with_child_toks _ _ _ _ Ha).
  rewrite (child_split _ _ _ (with_child_lookup _ _ _ n' Hb)), with_child_before. unfold before2, after2.
  cbn [with_child node_children]. rewrite drop_insert_lt by lia. by rewrite <- !app_assoc.
Qed.

Lemma grandchild_same root a p b n :
  node_children root !! a = Some p -> node_children p !! b = Some n -> with_grandchild root a p b n = root.
Proof. intros Ha Hb. unfold with_grandchild. rewrite (with_child_same _ _ _ Hb). by apply with_child_same. Qed.

Lemma head_flatten pre n X : head pre n ++ flatten_all (node_children n) ++ TEndNode :: X = pre ++ flatten n ++ X.
Proof. unfold head. rewrite flatten_below. unfold below. simpl. by rewrite <- !app_assoc. Qed.

(** ** The list as places around the grandchild *)

Definition mark2 (root : dnode) (a : nat) (p : dnode) (b : nat) (n : dnode) (j : nat) (c : dnode) : list Z * place :=
  (node_name c,
   if decide (j <= a)%nat then inl (before root j)
   else inr (flatten_all (node_children n) ++ TEndNode :: flatten_all (drop (S b) (node_children p)) ++
             TEndNode :: flatten_all (take (j - S a) (drop (S a) (node_children root))))).
Definition marks2 (root : dnode) (a : nat) (p : dnode) (b : nat) (n : dnode) (k : nat) : list (list Z * place) :=
  rev (imap (mark2 root a p b n) (take k (node_children root))).

Lemma marks2_ok root a p b n k :
  Forall (fun m => place_ok (before2 root a p b) n (after2 root a p b) m.2) (marks2 root a p b n k).
Proof.
  apply list.Forall_forall. intros m Hm. unfold marks2 in Hm.
  rewrite list_elem_of_In, <- in_rev, <- list_elem_of_In, elem_of_lookup_imap in Hm.
  destruct Hm as (j & c & -> & Hj). apply lookup_take_Some in Hj as [Hj _]. unfold mark2. cbn [snd].
  case_decide as Hle; cbn [place_ok].
  - eexists. unfold before2. rewrite (before_split _ _ _ Hle). by rewrite <- app_assoc.
  - exists (flatten_all (drop (j - S a) (drop (S a) (node_children root))) ++ [TEndNode; TEnd]).
    unfold rest, after2, after. rewrite <- (take_drop (j - S a) (drop (S a) (node_children root))) at 1.
    rewrite flatten_all_app. simpl. by repeat (rewrite <- !app_assoc; simpl).
Qed.

Lemma mark2_pos root a p b n n' j c :
  node_children root !! a = Some p -> node_children p !! b = Some n -> node_children n' = node_children n ->
  node_children root !! j = Some c ->
  place_pos (before2 root a p b) n' (mark2 root a p b n j c).2 = child_pos [] (with_grandchild root a p b n') j.
Proof.
  intros Ha Hb Hc Hj. unfold mark2. cbn [snd]. rewrite <- before_pos. case_decide as Hle; cbn [place_pos].
  - unfold before, with_grandchild, with_child. cbn [node_name node_props node_children]. by rewrite take_insert_ge.
  - rewrite <- Hc, head_flatten. unfold with_grandchild. rewrite (before_split _ a j), with_child_before by lia.
    set (p' := with_child p b n').
    assert (Hd : drop a (<[a := p']> (node_children root)) = p' :: drop (S a) (node_children root)).
    { rewrite (drop_S _ p' a) by (apply list_lookup_insert_eq; by eapply lookup_lt_Some).
      by rewrite drop_insert_lt by lia. }
    change (node_children (with_child root a p')) with (<[a := p']> (node_children root)). rewrite Hd.
    replace (j - a)%nat with (S (j - S a)) by lia. cbn [take].
    change (flatten_all (p' :: take (j - S a) (drop (S a) (node_children root)))) with
      (flatten p' ++ flatten_all (take (j - S a) (drop (S a) (node_children root)))).
    unfold p'. rewrite (child_split _ _ _ (with_child_lookup _ _ _ n' Hb)), with_child_before.
    cbn [with_child node_children]. rewrite drop_insert_lt by lia. unfold before2.
    f_equal. by repeat (rewrite <- !app_assoc; simpl).
Qed.

Lemma first_nodes_listing2 root a p b n n' k :
  node_children root !! a = Some p -> node_children p !! b = Some n -> node_children n' = node_children n ->
  first_nodes (with_grandchild root a p b n') k = listing (before2 root a p b) n' (marks2 root a p b n k).
Proof.
  intros Ha Hb Hc. unfold first_nodes, listing, marks2. rewrite map_rev. f_equal.
  apply list_eq. intros j.
  change (map (fun m : list Z * place => mkFirst m.1 (place_pos (before2 root a p b) n' m.2)))
    with (fmap (M := list) (fun m : list Z * place => mkFirst m.1 (place_pos (before2 root a p b) n' m.2))).
  rewrite list_lookup_fmap, !list_lookup_imap. unfold with_grandchild at 2. cbn [with_child node_children].
  destruct (decide (j < k)%nat) as [Hjk|Hjk]; [|by rewrite !lookup_take_ge by lia].
  rewrite !lookup_take_lt by done. destruct (decide (j = a)) as [->|Hja].
  - rewrite list_lookup_insert_eq by (by eapply lookup_lt_Some). rewrite Ha. cbn [fmap option_fmap option_map].
    by rewrite (mark2_pos root a p b n n' a p) by done.
  - rewrite list_lookup_insert_ne by done. destruct (node_children root !! j) as [c|] eqn:Hj; [|done].
    cbn [fmap option_fmap option_map]. by rewrite (mark2_pos root a p b n n' j c) by done.
Qed.

Lemma grandchild_prepared s i root k a p b n s' i' n' :
  prepared s i root k -> node_children root !! a = Some p -> node_children p !! b = Some n -> state_of s' i' ->
  image_of i' (before2 root a p b ++ flatten n' ++ after2 root a p b) -> node_children n' = node_children n ->
  follows (before2 root a p b) n (after2 root a p b) s n' s' ->
  prepared s' i' (with_grandchild root a p b n') k.
Proof.
  intros [Hs Hi Hnl Hk] Ha Hb Hs' Hi' Hc Hf. split; [done|by rewrite (grandchild_toks _ _ _ _ n)| |].
  - rewrite (first_nodes_listing2 root a p b n n' k Ha Hb Hc). apply (Hf (marks2 root a p b n k)).
    assert (Hl : dt_nodes s = listing (before2 root a p b) n (marks2 root a p b n k)).
    { rewrite Hnl, <- (first_nodes_listing2 root a p b n n k) by done. by rewrite grandchild_same. }
    split; [by apply marks2_ok|done|]. rewrite Hnl. by apply first_nodes_desc.
  - unfold with_grandchild. cbn [with_child node_children]. by rewrite length_insert.
Qed.

(** * Trees of the same shape *)

(** The same nodes; the values of those two levels below the root may differ. *)
Definition like2 (n n' : dnode) : Prop := node_name n' = node_name n /\ node_children n' = node_children n.
Definition like1 (p p' : dnode) : Prop :=
  node_name p' = node_name p /\ node_props p' = node_props p /\ Forall2 like2 (node_children p) (node_children p').
Definition same_shape (root root' : dnode) : Prop :=
  node_name root' = node_name root /\ node_props root' = node_props root /\
  Forall2 like1 (node_children root) (node_children root').

#[global] Instance like2_preorder : PreOrder like2.
Proof. split; [done|]. intros n1 n2 n3 [H1 H2] [H3 H4]. split; congruence. Qed.
#[global] Instance like1_preorder : PreOrder like1.
Proof.
  split; [intros n; by split_and!; [done..|reflexivity]|]. intros n1 n2 n3 (H1 & H2 & H3) (H4 & H5 & H6). split_and!; [congruence..|by etrans].
Qed.
#[global] Instance same_shape_preorder : PreOrder same_shape.
Proof.
  split; [intros n; by split_and!; [done..|reflexivity]|]. intros n1 n2 n3 (H1 & H2 & H3) (H4 & H5 & H6). split_and!; [congruence..|by etrans].
Qed.

Lemma Forall2_insert_r {A} (P : A -> A -> Prop) `{!Reflexive P} l j x y :
  l !! j = Some x -> P x y -> Forall2 P l (<[j := y]> l).
Proof.
  intros Hj Hp. rewrite <- (list_insert_id l j x Hj) at 1. by apply Forall2_insert.
Qed.

Lemma grandchild_shape root a p b n n' :
  node_children root !! a = Some p -> node_children p !! b = Some n -> like2 n n' ->
  same_shape root (with_grandchild root a p b n').
Proof.
  intros Ha Hb Hl. split_and!; [done|done|]. unfold with_grandchild. cbn [with_child node_children].
  apply (Forall2_insert_r like1 _ _ _ _ Ha). split_and!; [done|done|]. cbn [with_child node_children].
  by apply (Forall2_insert_r like2 _ _ _ _ Hb).
Qed.

Lemma shape_names root root' : same_shape root root' -> child_names root' = child_names root.
Proof.
  intros (_ & _ & H). unfold child_names. induction H as [|p p' ps ps' (Hp & _) _ IH]; [done|].
  cbn [map]. by rewrite Hp, IH.
Qed.

(** What a name calls depends on the names alone. *)
Lemma called_names q cs cs' : map node_name cs' = map node_name cs -> called q cs' = called q cs.
Proof.
  revert cs'. induction cs as [|c cs IH]; intros [|c' cs'] H; try done. cbn [map] in H. injection H as Hn Hr.
  by rewrite !called_cons, Hn, (IH _ Hr).
Qed.

Lemma shape_child root root' a p' :
  same_shape root root' -> node_children root' !! a = Some p' ->
  exists p, node_children root !! a = Some p /\ like1 p p'.
Proof. intros (_ & _ & H) Ha. destruct (Forall2_lookup_r _ _ _ _ _ H Ha) as (p & Hp & Hl). by exists p. Qed.

Lemma like1_names p p' : like1 p p' -> child_names p' = child_names p.
Proof.
  intros (_ & _ & H). unfold child_names. induction H as [|n n' ns ns' (Hn & _) _ IH]; [done|].
  cbn [map]. by rewrite Hn, IH.
Qed.

Lemma called_lookup q cs b : called q cs = Some b -> exists n, cs !! b = Some n /\ calls q (node_name n) = true.
Proof.
  unfold called. destruct (list_find _ cs) as [[b' n]|] eqn:E; [|done]. cbn. intros [= ->].
  apply list_find_Some in E as (Hb & Hc & _). by exists n.
Qed.

(** * The values of the nodes two levels below the root *)

Definition tree_vals : Type := nat -> nat -> list Z -> option (list Z).
Definition vals_of (i : image) (root : dnode) : tree_vals := fun a b q =>
  match node_children root !! a with
  | Some p => match node_children p !! b with Some n => value i n q | None => None end
  | None => None
  end.
Definition put_at (a b : nat) (q w : list Z) (v : tree_vals) : tree_vals := fun a' b' q' =>
  if bool_decide (a' = a /\ b' = b /\ q' = q) then Some w else v a' b' q'.

Lemma vals_kept i i' root toks : image_of i toks -> tree_toks root = toks -> extends i i' ->
  forall a b q, vals_of i' root a b q = vals_of i root a b q.
Proof.
  intros Hi <- Hex a b q. unfold vals_of. destruct (node_children root !! a) as [p|] eqn:Ha; [|done].
  destruct (node_children p !! b) as [n|] eqn:Hb; [|done].
  rewrite <- (grandchild_same root a p b n Ha Hb), (grandchild_toks _ _ _ _ _ _ Ha Hb) in Hi.
  by eapply value_kept.
Qed.

Lemma vals_put i i' root a p b n n' q w toks :
  image_of i toks -> tree_toks root = toks -> extends i i' ->
  node_children root !! a = Some p -> node_children p !! b = Some n ->
  (forall q', value i' n' q' = put q w (value i n) q') ->
  forall a' b' q', vals_of i' (with_grandchild root a p b n') a' b' q' = put_at a b q w (vals_of i root) a' b' q'.
Proof.
  intros Hi Ht Hex Ha Hb Hv a' b' q'. unfold put_at.
  assert (Hother : forall a' b', ~ (a' = a /\ b' = b) ->
    vals_of i' (with_grandchild root a p b n') a' b' q' = vals_of i root a' b' q').
  { intros a1 b1 Hne. rewrite <- (vals_kept i i' root toks Hi Ht Hex). unfold vals_of, with_grandchild.
    cbn [with_child node_children]. destruct (decide (a1 = a)) as [->|Hna]; [|by rewrite list_lookup_insert_ne].
    rewrite list_lookup_insert_eq, Ha by (by eapply lookup_lt_Some). cbn [with_child node_children].
    rewrite list_lookup_insert_ne; [done|naive_solver]. }
  destruct (decide (a' = a /\ b' = b)) as [[-> ->]|Hne].
  - unfold vals_of, with_grandchild. rewrite (with_child_lookup _ _ _ _ Ha). cbn iota.
    rewrite (with_child_lookup _ _ _ _ Hb), Hv, Ha, Hb. unfold put.
    case_bool_decide as E1; case_bool_decide as E2; naive_solver.
  - rewrite Hother by done. rewrite bool_decide_false by naive_solver. done.
Qed.

(** ** A string as the value of a property *)

Section Run.
Context {R : Type}.

Lemma set_string_run s i root k a p b n Name Str :
  prepared s i root k -> node_children root !! a = Some p -> node_children p !! b = Some n ->
  name_ok (L Name) -> name_ok (L Str) -> filled (vals_of i root a b) (L Name) ->
  zlen (L Name) + zlen (L Str) + 17 <= room i ->
  exists s' i' n', set_string (R := R) (pos (before2 root a p b)) Name Str s = (Go tt, s') /\
    prepared s' i' (with_grandchild root a p b n') k /\ extends i i' /\ like2 n n' /\
    (forall a' b' q', vals_of i' (with_grandchild root a p b n') a' b' q' =
       put_at a b (L Name) (L Str ++ [0]) (vals_of i root) a' b' q') /\
    room i - (zlen (L Name) + zlen (L Str) + 17) <= room i'.
Proof.
  intros Hp Ha Hb Hn Hs Hf Hr. pose proof Hp as [Hst Hi _ _].
  pose proof Hi as Hi2. rewrite <- (grandchild_same root a p b n Ha Hb), (grandchild_toks _ _ _ _ _ _ Ha Hb) in Hi2.
  pose proof Hs as [Hu Hl].
  assert (Hz : zlen (L Str ++ [0]) = zlen (L Str) + 1) by (rewrite length_app; cbn [length]; lia).
  pose proof (align4_bounds (zlen (L Str ++ [0]))) as Hal.
  destruct (set_step (R := R) s i (before2 root a p b) n (after2 root a p b) (L Name) (L Str ++ [0]) Hst Hi2 Hn)
    as (s' & i' & n' & H1 & Hst' & Hfl & [[Hi' Hnm Hch Hex Hvs] Hfo] & Hv & Hroom).
  - apply list.Forall_app. split; [|by repeat constructor]. eapply list.Forall_impl; [exact Hu|]. by intros ? [].
  - lia.
  - intros old. specialize (Hf old). unfold vals_of in Hf. by rewrite Ha, Hb in Hf.
  - by destruct (L Str).
  - lia.
  - exists s', i', n'. split.
    { unfold set_string. assert (Hlen : AsciiStrLen (L Str) + 1 = zlen (L Str ++ [0])).
      { unfold AsciiStrLen, StrLen. rewrite cstr_id by (by apply name_nonzero). lia. }
      rewrite Hlen. change (FdtSetProp (R := R) (pos (before2 root a p b)) (L Name) (L Str ++ [0]) (zlen (L Str ++ [0])))
        with (FdtPropUpdateFunc (R := R) (pos (before2 root a p b)) (L Name)
          (fdt_setprop (pos (before2 root a p b)) (L Name) (L Str ++ [0]) (zlen (L Str ++ [0])))).
      by rewrite (bind_go _ _ _ _ _ H1). }
    split; [by eapply grandchild_prepared|]. split; [done|]. split; [by split|]. split; [|lia].
    apply (vals_put i i' root a p b n n' _ _ (tree_toks root) Hi eq_refl Hex Ha Hb).
    intros q'. unfold put. case_bool_decide as E; [by subst|]. apply Hvs. set_solver.
Qed.
End Run.

(** * Searches in the tree *)

(** A node of the first level whose name starts with [q] is called [q]. *)
Definition tidy (root : dnode) (q : list Z) : Prop :=
  forall j c, node_children root !! j = Some c -> q `prefix_of` node_name c -> node_name c = q.

Lemma tidy_same root root' q : child_names root' = child_names root -> tidy root q -> tidy root' q.
Proof. intros He H j c (c0 & Hj & Hn)%(names_back _ _ _ _ He) Hpre. rewrite <- Hn in *. by eapply H. Qed.

Lemma missing_same root root' q : child_names root' = child_names root -> missing root q -> missing root' q.
Proof. intros He H j c (c0 & Hj & Hn)%(names_back _ _ _ _ He) Hpre. rewrite <- Hn in Hpre. by eapply H. Qed.

Lemma calls_prefix q name : calls q name = true -> q `prefix_of` name.
Proof.
  unfold calls. rewrite orb_true_iff, andb_true_iff, !bool_decide_eq_true.
  intros [->|[_ [z ->]]]; [done|]. rewrite <- app_assoc. by eexists.
Qed.

Lemma called_none q cs j c : called q cs = None -> cs !! j = Some c -> calls q (node_name c) = false.
Proof.
  unfold called. intros Hn Hj. destruct (list_find _ cs) as [[? ?]|] eqn:E; [discriminate|].
  apply list_find_None in E. rewrite Forall_lookup in E. specialize (E _ _ Hj). cbn in E. by destruct (calls _ _).
Qed.

Section Search.
Context {R : Type} (pool : Z -> bool) (Hpool : forall n, pool n = true).
Context (rodata : list Z) (Hmem : (64 <= length rodata)%nat).

Lemma path_missing_run s i root k q extra :
  names_apart root -> prepared s i root k -> missing root q -> component q -> (length q <= 15)%nat ->
  (64 <= length extra)%nat -> hd0 extra = 0 \/ hd0 extra = 47 ->
  exists s' k', on_nodes (R := R) (fun b => FdtPathOffset pool b (47 :: q ++ extra)) s = (Go (-1), s') /\
    prepared s' i root k' /\ same_flags s s'.
Proof.
  intros Hna [Hs Hi Hnl Hk] Hm Hq Hl Hex Hh.
  pose proof (path_missing (R := R) pool Hpool root Hna _ _ _ _ _ q extra k (image_tree_blob _ _ Hi) Hq Hl
    ltac:(rewrite length_app; lia) Hh ltac:(intros ->; cbn [length] in Hex; lia) Hm Hk) as Hrun.
  exists (mkDtState (dt_blob s) (first_nodes root (length (node_children root))) (mem_info_cnt s) (mem_info_cntV64 s) (dt_seeds s)),
    (length (node_children root)).
  split; [|split; [by split|done]]. unfold on_nodes. cbn zeta. by rewrite Hnl, Hs, Hrun.
Qed.

Lemma path_tidy s i root k q :
  names_apart root -> prepared s i root k -> tidy root q -> component q -> (length q <= 15)%nat ->
  exists s' k', on_nodes (R := R) (fun b => FdtPathOffset pool b (47 :: q ++ 0 :: rodata)) s =
      (Go (match called q (node_children root) with Some a => pos (before root a) | None => -1 end), s') /\
    prepared s' i root k' /\ same_flags s s'.
Proof.
  intros Hna Hp Ht Hq Hl. destruct (called q (node_children root)) as [a|] eqn:E.
  - destruct (called_lookup _ _ _ E) as (n & Ha & Hc). apply calls_prefix in Hc. pose proof (Ht _ _ Ha Hc) as Hn.
    assert (Hal : alone root a q).
    { intros j c Hja Hj Hpre. pose proof (Ht _ _ Hj Hpre) as Hcn. destruct (decide (j < a)%nat) as [Hlt|Hge].
      - eapply (na_prefix _ Hna j a); [done..|]. by rewrite Hcn, Hn.
      - eapply (na_prefix _ Hna a j); [lia|done..|]. by rewrite Hcn, Hn. }
    destruct Hq as [Hq Hne].
    destruct (path_run (R := R) pool rodata s i root k q a n Hpool Hna Hp Ha Hn Hal Hq Hne Hmem) as (s' & ? & ? & ?).
    by exists s', (Nat.max (S a) k).
  - apply path_missing_run with (k := k); try done; [|cbn [length]; lia|by left].
    intros j c Hj Hpre. pose proof (Ht _ _ Hj Hpre) as Hn. pose proof (called_none _ _ _ _ E Hj) as Hc.
    unfold calls in Hc. by rewrite bool_decide_true in Hc by done.
Qed.

End Search.

Section Read.
Context {R : Type}.

Lemma on_nodes_read {A} (m : list Z -> M (list FDT_FIRST_LEVEL_NODE) R A) a s i :
  state_of s i -> (forall nl, m (render i) nl = (Go a, nl)) -> on_nodes m s = (Go a, s).
Proof.
  intros Hs Hm. unfold on_nodes. cbn zeta. rewrite Hs, Hm. cbn [fst snd]. destruct s as [b nl c1 c2 k].
  cbn in Hs |- *. by rewrite Hs.
Qed.

Lemma header_run {S} i root (s : S) : image_of i (tree_toks root) -> fdt_check_header (R := R) (render i) s = (Go 0, s).
Proof. intros Hi. eapply header_checked. by apply image_tree_blob. Qed.

Lemma subnode_run s i root k a p name :
  prepared s i root k -> node_children root !! a = Some p -> name_ok (L name) ->
  fdt_subnode_offset (R := R) (pos (before root a)) name s =
  (Go (match called (L name) (node_children p) with
       | Some b => pos (before2 root a p b)
       | None => - FDT_ERR_NOTFOUND
       end), s).
Proof.
  intros [Hs Hi _ _] Ha [Hq Hl]. unfold fdt_subnode_offset. apply (on_nodes_read _ _ _ _ Hs). intros nl.
  assert (Hlen : AsciiStrLen (L name) = zlen (L name)).
  { unfold AsciiStrLen, StrLen. rewrite cstr_id; [done|]. eapply list.Forall_impl; [exact Hq|]. by intros ? []. }
  rewrite Hlen. pose proof (image_tree_blob _ _ Hi) as T.
  pose proof (subnode_at (S := list FDT_FIRST_LEVEL_NODE) (R := R) (render i) (im_off i) (tree_toks root) (im_total i)
    ltac:(apply T) ltac:(apply T) (L name) [] Hq ltac:(lia) (before root a) p (after root a) nl
    (fun nl => header_run i root nl Hi) (tree_child _ _ _ Ha) ltac:(unfold after; set_solver)) as Hsub.
  by rewrite app_nil_r in Hsub.
Qed.

Lemma property_run s i root k a p b n q :
  prepared s i root k -> node_children root !! a = Some p -> node_children p !! b = Some n ->
  Forall (fun c => c <> 0) q ->
  exists r, on_nodes (R := R) (fun f => fdt_get_property f (pos (before2 root a p b)) q) s = (Go r, s) /\
    (is_Some r.1 <-> is_Some (value i n q)).
Proof.
  intros [Hs Hi _ _] Ha Hb Hq. pose proof Hi as Hi2.
  rewrite <- (grandchild_same root a p b n Ha Hb), (grandchild_toks _ _ _ _ _ _ Ha Hb) in Hi2.
  pose proof (fun nl => get_property_located (R := R) (render i) (im_off i) _ (im_total i) 17 (image_toks _ _ Hi2)
    (if_toks _ _ Hi2) (names i) (before2 root a p b) (after2 root a p b) n q (nl : list FDT_FIRST_LEVEL_NODE) eq_refl
    (image_props _ _ _ _ Hi2) Hq) as Hrun.
  destruct (Hrun []) as (r & _ & Hl). exists r. split.
  - apply (on_nodes_read _ _ _ _ Hs). intros nl. destruct (Hrun nl) as (r' & Hr' & Hl').
    assert (r' = r) as -> by (unfold located in *; by rewrite Hl, Hl'). exact Hr'.
  - unfold located in Hl. rewrite Hl. unfold value. rewrite lookup_split.
    destruct (split_prop (names i) (node_props n) q) as [[[ps1 x] ps2]|]; cbn; [by split; eexists|done].
Qed.
End Read.

(** * The tables *)

(** The node an entry means: the child [sub] of the first-level node [parent]. *)
Definition target (root : dnode) (e : PartialGoods) : option (nat * nat) :=
  a ← called (tail (L (ParentNode e))) (node_children root);
  p ← node_children root !! a;
  b ← called (L (SubNodeName (SubNode e))) (node_children p);
  Some (a, b).

(** The node that several parts share stays when one of them is there. *)
Definition kept (Value : Z) (e : PartialGoods) (vals : list Z -> option (list Z)) : bool :=
  let has i := negb (Z.land Value (BIT i) =? 0) in
  (Val e =? Z.lor (Z.lor (BIT EFICHIPINFO_PART_MODEM) (BIT EFICHIPINFO_PART_WLAN)) (BIT EFICHIPINFO_PART_NAV)) &&
  negb (has EFICHIPINFO_PART_MODEM && has EFICHIPINFO_PART_NAV &&
        (has EFICHIPINFO_PART_WLAN || negb (bool_decide (is_Some (vals (L "legacy-wlan")))))).

Definition selected (Value : Z) (e : PartialGoods) : bool := negb (Z.land Value (Val e) =? 0).
(** The entry disables the node. *)
Definition hits (Value : Z) (root : dnode) (v : tree_vals) (a b : nat) (e : PartialGoods) : bool :=
  selected Value e && bool_decide (target root e = Some (a, b)) && negb (kept Value e (v a b)).

(** The values with the nodes of a table disabled, by the properties [props]. *)
Definition disable (Value : Z) (root : dnode) (Table : list PartialGoods) (props : list (list Z * list Z))
    (v : tree_vals) : tree_vals := fun a b q =>
  if existsb (hits Value root v a b) Table
  then match find (fun x => bool_decide (x.1 = q)) props with Some x => Some x.2 | None => v a b q end
  else v a b q.

Definition entry_props (e : PartialGoods) : list (list Z * list Z) :=
  (L (PropertyName (SubNode e)), L (ReplaceStr (SubNode e)) ++ [0]) ::
  (if String.eqb (ParentNode e) "/cpus" then [(L "status", L "fail" ++ [0])] else []).

Definition is_string (s t : String.string) : Prop := s = t.
#[global] Arguments is_string s t%_string_scope.

(** An entry as those of the tables are. *)
Record entry_ok (e : PartialGoods) : Prop := {
  eo_kind : is_string (ParentNode e) "/soc" /\ is_string (PropertyName (SubNode e)) "status" \/
    is_string (ParentNode e) "/cpus" /\ is_string (PropertyName (SubNode e)) "enable-method";
  eo_sub : name_ok (L (SubNodeName (SubNode e)));
  eo_text : name_ok (L (ReplaceStr (SubNode e))) /\ zlen (L (ReplaceStr (SubNode e))) <= 4;
}.

(** The room an entry needs at most. *)
Definition entry_room (Value : Z) (root : dnode) (e : PartialGoods) : Z :=
  if selected Value e && bool_decide (is_Some (target root e)) then 61 else 0.
Definition table_room (Value : Z) (root : dnode) (Table : list PartialGoods) : Z :=
  foldr (fun e n => entry_room Value root e + n) 0 Table.

(** The first level can be searched, and the values that will be replaced are
    not empty. *)
Record goods_tree (root : dnode) (v : tree_vals) : Prop := {
  gt_apart : names_apart root;
  gt_soc : tidy root (L "soc");
  gt_cpus : tidy root (L "cpus");
  gt_status : forall a b, filled (v a b) (L "status");
  gt_method : forall a b, filled (v a b) (L "enable-method");
}.

(** What the updates leave as it is. *)
Lemma target_shape root root' e : same_shape root root' -> target root' e = target root e.
Proof.
  intros Hs. pose proof (shape_names _ _ Hs) as Hn. unfold target. rewrite (called_names _ _ _ Hn).
  destruct (called (tail (L (ParentNode e))) (node_children root)) as [a|]; [|done]. cbn.
  destruct (node_children root' !! a) as [p'|] eqn:E.
  - destruct (shape_child _ _ _ _ Hs E) as (p & -> & Hl). cbn. by rewrite (called_names _ _ _ (like1_names _ _ Hl)).
  - destruct Hs as (_ & _ & Hf). apply Forall2_length in Hf. apply lookup_ge_None in E.
    by rewrite lookup_ge_None_2 by lia.
Qed.

(** The entries mean the same nodes. *)
Definition same_targets (root root' : dnode) : Prop := forall e, target root' e = target root e.
Lemma shape_targets root root' : same_shape root root' -> same_targets root root'.
Proof. intros Hs e. by apply target_shape. Qed.

Lemma hits_ext Value root root' v v' a b e :
  same_targets root root' -> is_Some (v' a b (L "legacy-wlan")) <-> is_Some (v a b (L "legacy-wlan")) ->
  hits Value root' v' a b e = hits Value root v a b e.
Proof.
  intros Hs Hv. unfold hits, kept. rewrite Hs.
  by rewrite (bool_decide_ext _ _ Hv).
Qed.

Lemma entry_props_find e q w :
  entry_ok e -> find (fun x => bool_decide (x.1 = q)) (entry_props e) = Some w ->
  (q = L "status" \/ q = L "enable-method") /\ w.2 <> [].
Proof.
  intros [Hk _ _]. assert (Hn : is_string (PropertyName (SubNode e)) "status" \/ is_string (PropertyName (SubNode e)) "enable-method")
    by (destruct Hk as [[_ ?]|[_ ?]]; auto). unfold entry_props. cbn [find fst].
  case_bool_decide as E1.
  - intros [= <-]. cbn [snd]. split; [destruct Hn as [Hn|Hn]; rewrite Hn in E1; auto|]. by destruct (L (ReplaceStr (SubNode e))).
  - case_match; [|done]. cbn [find fst]. case_bool_decide as E2; [|done]. intros [= <-]. split; [by left|done].
Qed.

Lemma disable_legacy Value root e v a b :
  entry_ok e -> disable Value root [e] (entry_props e) v a b (L "legacy-wlan") = v a b (L "legacy-wlan").
Proof.
  intros Hok. unfold disable. case_match; [|done]. destruct (find _ _) as [w|] eqn:E; [|done].
  by destruct (entry_props_find _ _ _ Hok E) as [[?|?] _].
Qed.

(** One entry after the other is the whole table. *)
Lemma disable_cons Value root root' e Table props v v1 :
  same_shape root root' -> entry_ok e -> entry_props e = props ->
  (forall a b q, v1 a b q = disable Value root [e] props v a b q) ->
  forall a b q, disable Value root' Table props v1 a b q = disable Value root (e :: Table) props v a b q.
Proof.
  intros Hs Hok Hp Hv a b q. subst props.
  assert (Hh : forall Table, existsb (hits Value root' v1 a b) Table = existsb (hits Value root v a b) Table).
  { intros T. induction T as [|x T IH]; [done|]. cbn [existsb]. rewrite IH. f_equal. apply hits_ext; [by apply shape_targets|].
    by rewrite Hv, disable_legacy. }
  unfold disable at 1 2. rewrite Hh, Hv. cbn [existsb]. unfold disable. cbn [existsb]. rewrite orb_false_r.
  destruct (hits Value root v a b e), (existsb _ Table), (find _ _); done.
Qed.

Lemma disable_goods_tree Value root root' e v v1 :
  same_shape root root' -> entry_ok e -> (forall a b q, v1 a b q = disable Value root [e] (entry_props e) v a b q) ->
  goods_tree root v -> goods_tree root' v1.
Proof.
  intros Hs Hok Hv [H1 H2 H3 H4 H5]. pose proof (shape_names _ _ Hs) as Hn.
  assert (Hfill : forall a b q, filled (v a b) q -> filled (v1 a b) q).
  { intros a b q Hf old. rewrite Hv. unfold disable. case_match; [|apply Hf].
    destruct (find _ _) as [w|] eqn:E; [|apply Hf]. intros [= <-]. by destruct (entry_props_find _ _ _ Hok E). }
  split; [by eapply names_apart_same|by eapply tidy_same|by eapply tidy_same| |]; intros a b; apply Hfill; auto.
Qed.

(** * The loops *)

(** The state after an update: the tree of the same shape with the values [v]. *)
Record reached (i : image) (root : dnode) (v : tree_vals) (need : Z) (s' : DtState) (i' : image) (root' : dnode)
    (k' : nat) : Prop := {
  rc_prepared : prepared s' i' root' k';
  rc_shape : same_shape root root';
  rc_extends : extends i i';
  rc_vals : forall a b q, vals_of i' root' a b q = v a b q;
  rc_room : room i - need <= room i';
}.

Lemma reached_refl s i root v k :
  prepared s i root k -> (forall a b q, vals_of i root a b q = v a b q) -> reached i root v 0 s i root k.
Proof. intros Hp Hv. split; try done. lia. Qed.

Lemma reached_weaken i root v need need' s' i' root' k' :
  reached i root v need s' i' root' k' -> need <= need' -> reached i root v need' s' i' root' k'.
Proof. intros [? ? ? ? ?] Hn. split; try done. lia. Qed.

Lemma reached_trans i root v n1 s1 i1 root1 k1 v2 n2 s2 i2 root2 k2 :
  reached i root v n1 s1 i1 root1 k1 -> reached i1 root1 v2 n2 s2 i2 root2 k2 ->
  reached i root v2 (n1 + n2) s2 i2 root2 k2.
Proof. intros [? ? ? ? ?] [? ? ? ? ?]. split; try done; [by etrans|by etrans|lia]. Qed.

Lemma reached_ext i root v v' need s' i' root' k' :
  reached i root v need s' i' root' k' -> (forall a b q, v a b q = v' a b q) -> reached i root v' need s' i' root' k'.
Proof. intros [? ? ? Hv ?] He. split; try done. intros a b q. by rewrite Hv, He. Qed.

Lemma disable_nothing Value root Table props v :
  (forall a b e, e ∈ Table -> hits Value root v a b e = false) ->
  forall a b q, v a b q = disable Value root Table props v a b q.
Proof.
  intros Hn a b q. unfold disable. enough (existsb (hits Value root v a b) Table = false) as -> by done.
  apply not_true_is_false. rewrite existsb_exists. intros (e & He & Hh). rewrite Hn in Hh; [done|by apply list_elem_of_In].
Qed.

(** The values an entry writes, one after the other. *)
Lemma disable_one Value root e v a b :
  entry_ok e -> selected Value e = true -> target root e = Some (a, b) -> kept Value e (v a b) = false ->
  forall a' b' q,
    (if String.eqb (ParentNode e) "/cpus" then put_at a b (L "status") (L "fail" ++ [0]) else id)
      (put_at a b (L (PropertyName (SubNode e))) (L (ReplaceStr (SubNode e)) ++ [0]) v) a' b' q =
    disable Value root [e] (entry_props e) v a' b' q.
Proof.
  intros [Hkind _ _] Hs Ht Hk a' b' q. unfold disable. cbn [existsb]. rewrite orb_false_r. unfold hits.
  rewrite Hs, Ht. cbn [andb]. destruct (decide (a' = a /\ b' = b)) as [[-> ->]|Hne].
  - rewrite bool_decide_true, Hk by done. cbn [andb negb]. unfold entry_props, put_at, is_string in *.
    destruct Hkind as [[-> ->]|[-> ->]]; cbn [String.eqb Ascii.eqb Bool.eqb andb find fst snd id];
      repeat case_bool_decide; naive_solver.
  - rewrite bool_decide_false by (intros [= -> ->]; by apply Hne). cbn [andb].
    unfold put_at. destruct (String.eqb _ _); cbn [id]; rewrite ?bool_decide_false by naive_solver; done.
Qed.

Section Loops.
Context {R : Type} (pool : Z -> bool) (Hpool : forall n, pool n = true).
Context (rodata : list Z) (Hmem : (64 <= length rodata)%nat).

Lemma kept_run s i root k a p b n Value e :
  prepared s i root k -> node_children root !! a = Some p -> node_children p !! b = Some n ->
  shared_part_kept (R := R) (pos (before2 root a p b)) Value e s = (Go (kept Value e (vals_of i root a b)), s).
Proof.
  intros Hp Ha Hb. unfold shared_part_kept, kept, vals_of. rewrite Ha, Hb. case_match; [|done].
  destruct (property_run (R := R) s i root k a p b n (L "legacy-wlan") Hp Ha Hb) as (r & Hr & Hv); [by repeat constructor|].
  rewrite (bind_go _ _ _ _ _ Hr). destruct (r.1) as [x|].
  - rewrite bool_decide_true by (by apply Hv). do 3 f_equal.
    by destruct (negb (Z.land Value (BIT EFICHIPINFO_PART_MODEM) =? 0)), (negb (Z.land Value (BIT EFICHIPINFO_PART_WLAN) =? 0)),
      (negb (Z.land Value (BIT EFICHIPINFO_PART_NAV) =? 0)).
  - rewrite bool_decide_false by (intros Hs%Hv; by destruct Hs). do 3 f_equal.
    by destruct (negb (Z.land Value (BIT EFICHIPINFO_PART_MODEM) =? 0)), (negb (Z.land Value (BIT EFICHIPINFO_PART_WLAN) =? 0)),
      (negb (Z.land Value (BIT EFICHIPINFO_PART_NAV) =? 0)).
Qed.

(** The parent of an entry. *)
Lemma parent_run s i root k e :
  prepared s i root k -> goods_tree root (vals_of i root) -> entry_ok e ->
  exists s' k', path (R := R) pool rodata (ParentNode e) s =
      (Go (match called (tail (L (ParentNode e))) (node_children root) with Some a => pos (before root a) | None => -1 end), s') /\
    prepared s' i root k'.
Proof.
  intros Hp [Hna Hsoc Hcpus _ _] [Hk _ _]. unfold is_string in Hk.
  destruct Hk as [[-> _]|[-> _]].
  - destruct (path_tidy (R := R) pool Hpool rodata Hmem s i root k (L "soc") Hna Hp Hsoc) as (s' & k' & H1 & H2 & _);
      [split; [repeat constructor; done|done]|cbn; lia|]. by exists s', k'.
  - destruct (path_tidy (R := R) pool Hpool rodata Hmem s i root k (L "cpus") Hna Hp Hcpus) as (s' & k' & H1 & H2 & _);
      [split; [repeat constructor; done|done]|cbn; lia|]. by exists s', k'.
Qed.

Lemma is_name s : is_string s "status" \/ is_string s "enable-method" -> name_ok (L s) /\ zlen (L s) <= 13.
Proof.
  unfold is_string. intros [-> | ->]; (split; [apply name_is; reflexivity|vm_compute; discriminate]).
Qed.

Lemma pos_not_negative ts : (pos ts <? 0) = false.
Proof. apply Z.ltb_ge, Zle_0_nat. Qed.

(** The writes of an entry whose node is there and goes. *)
Lemma write_entry s i root k a p b n Value e :
  prepared s i root k -> node_children root !! a = Some p -> node_children p !! b = Some n ->
  goods_tree root (vals_of i root) -> entry_ok e -> selected Value e = true -> target root e = Some (a, b) ->
  kept Value e (vals_of i root a b) = false -> 61 <= room i ->
  exists s' i' root', (set_string (R := R) (pos (before2 root a p b)) (PropertyName (SubNode e)) (ReplaceStr (SubNode e));;
      if String.eqb (ParentNode e) "/cpus" then set_string (pos (before2 root a p b)) "status"%string "fail"%string else mret tt) s = (Go tt, s') /\
    reached i root (disable Value root [e] (entry_props e) (vals_of i root)) 61 s' i' root' k.
Proof.
  intros Hp Ha Hb Hg Hok Hsel Ht Hkept Hr. pose proof Hg as [_ _ _ Hst Hem]. pose proof Hok as [Hkind _ [Htx Htl]].
  assert (Hnm : is_string (PropertyName (SubNode e)) "status" \/ is_string (PropertyName (SubNode e)) "enable-method")
    by (destruct Hkind as [[_ ?]|[_ ?]]; auto).
  destruct (is_name _ Hnm) as [Hn1 Hn2].
  assert (Hfl : filled (vals_of i root a b) (L (PropertyName (SubNode e))))
    by (unfold is_string in Hnm; destruct Hnm as [-> | ->]; auto).
  destruct (set_string_run (R := R) s i root k a p b n _ (ReplaceStr (SubNode e)) Hp Ha Hb Hn1 Htx Hfl ltac:(lia))
    as (s1 & i1 & n1 & H1 & Hp1 & Hex1 & Hl1 & Hv1 & Hr1).
  rewrite (bind_go _ _ _ _ _ H1).
  pose proof (disable_one Value root e (vals_of i root) a b Hok Hsel Ht Hkept) as Hd.
  destruct (String.eqb (ParentNode e) "/cpus") eqn:Ec; cycle 1.
  { exists s1, i1, (with_grandchild root a p b n1). split; [done|]. split; [done| |done| |lia].
    - by apply grandchild_shape with (n := n).
    - intros a' b' q. rewrite Hv1. apply Hd. }
  set (root1 := with_grandchild root a p b n1) in *. set (p1 := with_child p b n1).
  assert (Ha1 : node_children root1 !! a = Some p1) by (by eapply with_child_lookup).
  assert (Hb1 : node_children p1 !! b = Some n1) by (by eapply with_child_lookup).
  assert (Hpos : before2 root1 a p1 b = before2 root a p b)
    by (unfold before2, root1, with_grandchild, p1; by rewrite !with_child_before).
  destruct (set_string_run (R := R) s1 i1 root1 k a p1 b n1 "status"%string "fail"%string Hp1 Ha1 Hb1)
    as (s2 & i2 & n2 & H2 & Hp2 & Hex2 & Hl2 & Hv2 & Hr2).
  { apply name_is. reflexivity. }
  { apply name_is. reflexivity. }
  { intros old. rewrite Hv1. unfold put_at. case_bool_decide; [|apply Hst]. intros [= <-]. by destruct (L (ReplaceStr _)). }
  { cbn. lia. }
  rewrite Hpos in H2. exists s2, i2, (with_grandchild root1 a p1 b n2). split; [exact H2|].
  split; [done| |by etrans| |cbn in Hr2; lia].
  - etrans; [by apply (grandchild_shape root a p b n n1)|]. by apply (grandchild_shape root1 a p1 b n1 n2).
  - intros a' b' q. rewrite Hv2, <- Hd. unfold put_at at 1 2. by case_bool_decide.
Qed.

Lemma entry_run s i root k Value e :
  prepared s i root k -> goods_tree root (vals_of i root) -> entry_ok e -> entry_room Value root e <= room i ->
  exists s' i' root' k', update_entry (R := R) pool rodata Value e s = (Go tt, s') /\
    reached i root (disable Value root [e] (entry_props e) (vals_of i root)) (entry_room Value root e) s' i' root' k'.
Proof.
  intros Hp Hg Hok Hr. pose proof Hp as [_ _ _ _]. unfold update_entry, entry_room in *.
  assert (Hsame : forall s' k' need, prepared s' i root k' -> 0 <= need ->
    (forall a b, hits Value root (vals_of i root) a b e = false) ->
    reached i root (disable Value root [e] (entry_props e) (vals_of i root)) need s' i root k').
  { intros s' k' need Hp' Hn Hh. eapply reached_weaken; [|exact Hn]. apply reached_refl; [done|].
    apply disable_nothing. intros a b e' He. apply list_elem_of_singleton in He as ->. apply Hh. }
  assert (Hneed : 0 <= if selected Value e && bool_decide (is_Some (target root e)) then 61 else 0) by (by case_match).
  destruct (Z.land Value (Val e) =? 0) eqn:Es.
  { exists s, i, root, k. split; [done|]. apply Hsame; [done|done|]. intros a b. unfold hits, selected. by rewrite Es. }
  assert (Hsel : selected Value e = true) by (unfold selected; by rewrite Es).
  destruct (parent_run s i root k e Hp Hg Hok) as (s1 & k1 & H1 & Hp1). rewrite (bind_go _ _ _ _ _ H1).
  destruct (called (tail (L (ParentNode e))) (node_children root)) as [a|] eqn:Ea; cycle 1.
  { exists s1, i, root, k1. split; [done|]. apply Hsame; [done|done|]. intros a b. unfold hits, target. rewrite Ea. cbn.
    by rewrite bool_decide_false, andb_false_r. }
  destruct (called_lookup _ _ _ Ea) as (p & Ha & _). rewrite pos_not_negative.
  rewrite (bind_go _ _ _ _ _ (subnode_run (R := R) s1 i root k1 a p _ Hp1 Ha (eo_sub _ Hok))).
  destruct (called (L (SubNodeName (SubNode e))) (node_children p)) as [b|] eqn:Eb; cycle 1.
  { exists s1, i, root, k1. split; [done|]. apply Hsame; [done|done|]. intros a' b'. unfold hits, target. rewrite Ea. cbn.
    rewrite Ha. cbn. rewrite Eb. cbn. by rewrite bool_decide_false, andb_false_r. }
  destruct (called_lookup _ _ _ Eb) as (n & Hb & _). rewrite pos_not_negative.
  assert (Ht : target root e = Some (a, b)) by (unfold target; rewrite Ea; cbn; rewrite Ha; cbn; by rewrite Eb).
  rewrite (bind_go _ _ _ _ _ (kept_run s1 i root k1 a p b n Value e Hp1 Ha Hb)).
  destruct (kept Value e (vals_of i root a b)) eqn:Ek.
  { exists s1, i, root, k1. split; [done|]. apply Hsame; [done|done|]. intros a' b'. unfold hits. rewrite Ht.
    destruct (decide (a' = a /\ b' = b)) as [[-> ->]|Hne]; [by rewrite Ek, andb_false_r|].
    rewrite bool_decide_false by (intros [= -> ->]; by apply Hne). by destruct (selected Value e). }
  rewrite Hsel, Ht, bool_decide_true in * by by eexists. cbn [andb] in *.
  destruct (write_entry s1 i root k1 a p b n Value e Hp1 Ha Hb Hg Hok Hsel Ht Ek Hr) as (s' & i' & root' & Hrun & Hre).
  by exists s', i', root', k1.
Qed.

Lemma table_run Value Table props : forall s i root k,
  prepared s i root k -> goods_tree root (vals_of i root) ->
  Forall (fun e => entry_ok e /\ entry_props e = props) Table -> table_room Value root Table <= room i ->
  exists s' i' root' k', FindNodeAndUpdateProperty (R := R) pool rodata Table Value s = (Go tt, s') /\
    reached i root (disable Value root Table props (vals_of i root)) (table_room Value root Table) s' i' root' k'.
Proof.
  induction Table as [|e Table IH]; intros s i root k Hp Hg Hall Hr.
  { exists s, i, root, k. split; [done|]. by apply reached_refl. }
  apply Forall_cons in Hall as [[Hok Hpr] Hall]. cbn [FindNodeAndUpdateProperty table_room foldr] in *.
  fold (table_room Value root Table) in *.
  assert (Hnn : forall T, 0 <= table_room Value root T).
  { intros T. induction T as [|x T IHT]; [done|]. cbn [table_room foldr]. fold (table_room Value root T).
    unfold entry_room. case_match; lia. }
  pose proof (Hnn Table) as Hnt.
  assert (He0 : 0 <= entry_room Value root e) by (unfold entry_room; by case_match).
  destruct (entry_run s i root k Value e Hp Hg Hok ltac:(lia)) as (s1 & i1 & root1 & k1 & H1 & Hre).
  rewrite (bind_go _ _ _ _ _ H1). pose proof Hre as [Hp1 Hsh Hex Hv Hrm].
  assert (Hroom : table_room Value root1 Table = table_room Value root Table).
  { clear -Hsh. induction Table as [|x T IHT]; [done|]. cbn [table_room foldr].
    fold (table_room Value root1 T) (table_room Value root T). rewrite IHT. unfold entry_room.
    by rewrite (target_shape _ _ _ Hsh). }
  destruct (IH s1 i1 root1 k1 Hp1) as (s2 & i2 & root2 & k2 & H2 & Hre2); [|done|lia|].
  { by eapply disable_goods_tree. }
  exists s2, i2, root2, k2. split; [exact H2|].
  eapply reached_ext; [eapply reached_trans; [exact Hre|]; rewrite Hroom in Hre2; exact Hre2|].
  apply (disable_cons Value root root1 e Table props); [done|done|done|]. by subst props.
Qed.
End Loops.

(** * The tables of the program *)

Definition MM_PROPS : list (list Z * list Z) := [(L "status", L "no" ++ [0])].
Definition CPU_PROPS : list (list Z * list Z) := [(L "enable-method", L "none" ++ [0]); (L "status", L "fail" ++ [0])].

Definition name_b (s : list Z) : bool := forallb (fun c => (0 <? c) && (c <? 2 ^ 8)) s && (zlen s <=? 40).
Definition entry_b (props : list (list Z * list Z)) (e : PartialGoods) : bool :=
  (String.eqb (ParentNode e) "/soc" && String.eqb (PropertyName (SubNode e)) "status" ||
   String.eqb (ParentNode e) "/cpus" && String.eqb (PropertyName (SubNode e)) "enable-method") &&
  name_b (L (SubNodeName (SubNode e))) && name_b (L (ReplaceStr (SubNode e))) &&
  (zlen (L (ReplaceStr (SubNode e))) <=? 4) && bool_decide (entry_props e = props).

Lemma entry_b_ok props Table :
  forallb (entry_b props) Table = true -> Forall (fun e => entry_ok e /\ entry_props e = props) Table.
Proof.
  intros H. apply list.Forall_forall. intros e He. rewrite forallb_forall in H.
  specialize (H e (proj1 (list_elem_of_In _ _) He)). unfold entry_b in H.
  rewrite !andb_true_iff, orb_true_iff, !andb_true_iff, !String.eqb_eq, bool_decide_eq_true, Z.leb_le in H.
  destruct H as ((((Hk & Hs) & Ht) & Hl) & Hp). split; [|done]. split; [exact Hk|by apply name_is|].
  split; [by apply name_is|done].
Qed.

Lemma mm_entries : Forall (fun e => entry_ok e /\ entry_props e = MM_PROPS) PartialGoodsMmType.
Proof. apply entry_b_ok. by vm_compute. Qed.

Lemma cpu_entries : Forall (Forall (fun e => entry_ok e /\ entry_props e = CPU_PROPS)) PartialGoodsCpuType.
Proof.
  do 3 (apply list.Forall_cons_2; [apply entry_b_ok; by vm_compute|]). apply list.Forall_nil_2.
Qed.

(** All nodes of the table are in the tree. *)
Definition all_there (root : dnode) (Table : list PartialGoods) : bool :=
  forallb (fun e => bool_decide (is_Some (target root e))) Table.
Definition cpu_choice (root : dnode) : list PartialGoods :=
  default PartialGoodsCpuType0 (find (all_there root) PartialGoodsCpuType).

Lemma cpu_choice_entries root : Forall (fun e => entry_ok e /\ entry_props e = CPU_PROPS) (cpu_choice root).
Proof.
  pose proof cpu_entries as H. unfold cpu_choice. destruct (find _ _) as [t|] eqn:E; cbn [default].
  - apply find_some in E as [E _]. rewrite Forall_forall in H. apply H. by apply list_elem_of_In.
  - by inversion H.
Qed.

(** What the chip answers for a part and for the processors: a firmware of
    revision 5 is asked with the newer calls, and with the older ones when it
    does not know the part. *)
Definition newer (chip : ChipInfo) (st : EFI_STATUS) : bool :=
  (EFI_CHIPINFO_PROTOCOL_REVISION_5 <=? Revision chip) && negb (st =? EFI_NOT_FOUND).
Definition part_answer (chip : ChipInfo) (p : Z) : EFI_STATUS * option Z :=
  if newer chip (IsPartDisabled chip p).1 then IsPartDisabled chip p else GetSubsetPart chip p.
Definition cpu_answer (chip : ChipInfo) : EFI_STATUS * option Z :=
  if newer chip (GetDisabledCPUs chip).1 then GetDisabledCPUs chip else GetSubsetCPUs chip.

(** A part is disabled when the answer for it says so: by a flag, or by any mask
    that is not zero. *)
Definition part_disabled (chip : ChipInfo) (p : Z) : bool :=
  let '(st, v) := part_answer chip p in negb (EFI_ERROR st) && negb (default 0 v =? 0).

(** The disabled parts from [p] on, [n] of them, as a set of bits; and those of
    the chip. *)
Fixpoint parts_from (n : nat) (chip : ChipInfo) (p : Z) : Z :=
  match n with
  | O => 0
  | Datatypes.S n' => Z.lor (if part_disabled chip p then BIT p else 0) (parts_from n' chip (p + 1))
  end.
Definition parts_disabled (chip : ChipInfo) : Z := parts_from (Z.to_nat (EFICHIPINFO_NUM_PARTS - 1)) chip 1.

(** The set of disabled processors. *)
Definition cpus_disabled (chip : ChipInfo) : Z :=
  let '(st, v) := cpu_answer chip in if EFI_ERROR st then 0 else default 0 v.

(** The answers the source reads as they are meant: those for the parts are
    flags, and an answer that is an error, or that is not used, leaves the set
    of processors alone. *)
Record answers_plain (chip : ChipInfo) : Prop := {
  ap_flags : forall p, EFI_ERROR (part_answer chip p).1 = false ->
    default 0 (part_answer chip p).2 = 0 \/ default 0 (part_answer chip p).2 = 1;
  ap_cpus : EFI_ERROR (cpu_answer chip).1 = true -> default 0 (cpu_answer chip).2 = 0;
  ap_unused : newer chip (GetDisabledCPUs chip).1 = false -> default 0 (GetDisabledCPUs chip).2 = 0;
}.

(** The nodes of the processors in their order: the entry [k] is processor [k]. *)
Definition numbered (Table : list PartialGoods) : list PartialGoods :=
  imap (fun k e => mkPartialGoods (BIT (Z.of_nat k)) (ParentNode e) (SubNode e)) Table.

(** The second table has wrong values for its last two processors; with it,
    only the first four are disabled. *)
Definition cpus_numbered (chip : ChipInfo) (root : dnode) : Prop :=
  cpu_choice root = PartialGoodsCpuType1 -> Z.land (cpus_disabled chip) 0xF0 = 0.

(** The values of the tree with the disabled parts taken out. *)
Definition goods_values (chip : ChipInfo) (root : dnode) (v : tree_vals) : tree_vals :=
  disable (cpus_disabled chip) root (numbered (cpu_choice root)) CPU_PROPS
    (disable (parts_disabled chip) root PartialGoodsMmType MM_PROPS v).
Definition goods_room (chip : ChipInfo) (root : dnode) : Z :=
  table_room (parts_disabled chip) root PartialGoodsMmType +
  table_room (cpus_disabled chip) root (cpu_choice root).

(** The source reads these sets. *)
Lemma read_part_answer chip p sv st :
  read_part chip p sv st = ((part_answer chip p).1, default 0 (part_answer chip p).2).
Proof.
  unfold read_part, part_answer, newer. destruct (Z.leb_spec EFI_CHIPINFO_PROTOCOL_REVISION_5 (Revision chip)).
  - rewrite (proj2 (Z.ltb_ge _ _)) by done. cbn [orb andb].
    by destruct ((IsPartDisabled chip p).1 =? EFI_NOT_FOUND).
  - by rewrite (proj2 (Z.ltb_lt _ _)) by done.
Qed.

Lemma read_parts_from chip n : forall p sv Value st,
  answers_plain chip -> 0 <= p -> p + Z.of_nat n <= 32 ->
  (read_parts n chip p sv Value st).2 = Z.lor Value (parts_from n chip p).
Proof.
  induction n as [|n IH]; intros p sv Value st Ha H0 H1; [by rewrite Z.lor_0_r|].
  cbn [read_parts parts_from]. rewrite read_part_answer, IH by (done || lia). unfold part_disabled.
  pose proof (ap_flags _ Ha p) as Hf. destruct (part_answer chip p) as [st' v]. cbn [fst snd] in *.
  destruct (EFI_ERROR st'); cbn [negb andb]; [by rewrite Z.lor_0_l|].
  destruct (Hf eq_refl) as [Hv | Hv]; rewrite Hv; cbn [Z.eqb negb].
  - rewrite Z.shiftl_0_l. change (u32 0) with 0. by rewrite Z.lor_0_r, Z.lor_0_l.
  - rewrite Z.lor_assoc. do 2 f_equal. unfold BIT. rewrite Z.shiftl_1_l. apply u32_small.
    split; [lia|]. by apply Z.pow_lt_mono_r; lia.
Qed.

Lemma read_mm chip : answers_plain chip -> (ReadMMPartialGoods chip).2 = parts_disabled chip.
Proof.
  intros Ha. unfold ReadMMPartialGoods, parts_disabled.
  rewrite <- (Z.lor_0_l (parts_from _ _ _)), <- (read_parts_from chip _ 1 0 0 EFI_SUCCESS Ha) by done.
  by destruct (read_parts _ _ _ _ _ _).
Qed.

Lemma read_cpus chip : answers_plain chip -> (ReadCpuPartialGoods chip).2 = cpus_disabled chip.
Proof.
  intros [_ Hc Hu]. revert Hc Hu. unfold ReadCpuPartialGoods, cpus_disabled, cpu_answer, newer.
  destruct (GetDisabledCPUs chip) as [st v], (GetSubsetCPUs chip) as [st' v'].
  destruct (Z.leb_spec EFI_CHIPINFO_PROTOCOL_REVISION_5 (Revision chip)); cbn [fst snd andb].
  - rewrite (proj2 (Z.ltb_ge _ _)) by done. cbn [orb]. destruct (st =? EFI_NOT_FOUND); cbn [negb fst snd]; intros Hc Hu.
    + destruct (EFI_ERROR st'), v'; cbn in *; try done; by rewrite ?Hc, ?Hu.
    + destruct (EFI_ERROR st); [by apply Hc|done].
  - rewrite (proj2 (Z.ltb_lt _ _)) by done. cbn [orb fst snd]. intros Hc _.
    destruct (EFI_ERROR st'), v'; cbn in *; try done; by rewrite ?Hc.
Qed.

Lemma selected_none m n e : Z.land m n = 0 -> Z.land n (Val e) = Val e -> selected m e = false.
Proof. intros Hm Hn. unfold selected. by rewrite <- Hn, Z.land_assoc, Hm. Qed.

Lemma numbered_hits chip root v a b :
  cpus_numbered chip root ->
  existsb (hits (cpus_disabled chip) root v a b) (cpu_choice root) =
  existsb (hits (cpus_disabled chip) root v a b) (numbered (cpu_choice root)).
Proof.
  unfold cpus_numbered. intros Hn.
  assert (Hc : cpu_choice root = PartialGoodsCpuType0 \/ cpu_choice root = PartialGoodsCpuType1 \/
    cpu_choice root = PartialGoodsCpuType2).
  { clear Hn. unfold cpu_choice, PartialGoodsCpuType. cbn [find]. repeat case_match; auto. }
  destruct Hc as [->|[Hc| ->]]; [done| |done]. specialize (Hn Hc). rewrite Hc. clear Hc.
  set (m := cpus_disabled chip) in *. clearbody m.
  assert (Hoff : forall e, Z.land 0xF0 (Val e) = Val e -> hits m root v a b e = false).
  { intros e He. unfold hits. by rewrite (selected_none m 0xF0 e Hn He). }
  change (numbered PartialGoodsCpuType1) with
    (take 6 PartialGoodsCpuType1 ++ drop 6 (numbered PartialGoodsCpuType1)).
  rewrite <- (take_drop 6 PartialGoodsCpuType1) at 1. rewrite !existsb_app. f_equal.
  cbn [drop PartialGoodsCpuType1 numbered imap existsb]. by rewrite !Hoff.
Qed.

Lemma goods_values_masks chip root v : answers_plain chip -> cpus_numbered chip root -> forall a b q,
  goods_values chip root v a b q =
  disable (cpus_disabled chip) root (cpu_choice root) CPU_PROPS
    (disable (parts_disabled chip) root PartialGoodsMmType MM_PROPS v) a b q.
Proof. intros Ha Hn a b q. unfold goods_values. unfold disable at 1 3. by rewrite <- numbered_hits. Qed.

Lemma disable_zero root Table props v a b q : v a b q = disable 0 root Table props v a b q.
Proof. apply disable_nothing. done. Qed.

Lemma table_room_nonneg Value root Table : 0 <= table_room Value root Table.
Proof.
  induction Table as [|x T IH]; [done|]. cbn [table_room foldr]. fold (table_room Value root T).
  unfold entry_room. case_match; lia.
Qed.

Lemma choice_shape root root' : same_targets root root' -> cpu_choice root' = cpu_choice root.
Proof.
  intros Hs. assert (Ht : forall T, all_there root' T = all_there root T).
  { intros T. unfold all_there. induction T as [|e T IH]; [done|]. cbn [forallb]. by rewrite IH, Hs. }
  unfold cpu_choice. cbn [find PartialGoodsCpuType]. by rewrite !Ht.
Qed.

Lemma disable_shape Value root root' Table props v v' :
  same_targets root root' -> (forall a b q, v' a b q = v a b q) ->
  forall a b q, disable Value root' Table props v' a b q = disable Value root Table props v a b q.
Proof.
  intros Hs Hv a b q. unfold disable. rewrite Hv.
  assert (Hh : existsb (hits Value root' v' a b) Table = existsb (hits Value root v a b) Table); [|by rewrite Hh].
  induction Table as [|x T IH]; [done|]. cbn [existsb]. rewrite IH. f_equal. apply hits_ext; [done|]. by rewrite Hv.
Qed.

Lemma room_shape Value root root' Table :
  same_targets root root' -> table_room Value root' Table = table_room Value root Table.
Proof.
  intros Hs. induction Table as [|x T IH]; [done|]. cbn [table_room foldr].
  fold (table_room Value root T) (table_room Value root' T). rewrite IH. unfold entry_room. by rewrite Hs.
Qed.

Section Node.
Context {R : Type} (pool : Z -> bool) (Hpool : forall n, pool n = true).
Context (rodata : list Z) (Hmem : (64 <= length rodata)%nat).

Lemma check_run Table s i root k :
  prepared s i root k -> Forall (fun e => entry_ok e) Table ->
  CheckCPUType (R := R) Table s = (Go (if all_there root Table then EFI_SUCCESS else EFI_NOT_FOUND), s).
Proof.
  intros Hp. induction 1 as [|e Table Hok Hall IH]; [done|]. cbn [CheckCPUType all_there forallb].
  fold (all_there root Table). pose proof Hp as [Hs Hi _ _].
  assert (Hcomp : exists q, L (ParentNode e) = 47 :: q /\ component q /\ (length q <= 15)%nat).
  { destruct Hok as [[[-> _]|[-> _]] _ _]; [exists (L "soc")|exists (L "cpus")];
      (split; [done|split; [split; [repeat constructor; done|done]|cbn; lia]]). }
  destruct Hcomp as (q & Hq & Hc & Hl). unfold target. rewrite Hq. cbn [tail].
  erewrite bind_go; cycle 1.
  { apply (on_nodes_read _ _ _ _ Hs). intros nl.
    apply (path_first (render i) (im_off i) root (names i) (im_total i) q nl (image_tree_blob _ _ Hi) Hc). lia. }
  destruct (called q (node_children root)) as [a|] eqn:Ea; [|by rewrite bool_decide_false].
  destruct (called_lookup _ _ _ Ea) as (p & Ha & _).
  change (child_pos [] root a) with (pos (before root a)). rewrite pos_not_negative.
  rewrite (bind_go _ _ _ _ _ (subnode_run (R := R) s i root k a p _ Hp Ha (eo_sub _ Hok))).
  cbn [mbind option_bind]. rewrite Ha. cbn [mbind option_bind].
  destruct (called (L (SubNodeName (SubNode e))) (node_children p)) as [b|]; [|by rewrite bool_decide_false].
  rewrite pos_not_negative. cbn [mbind option_bind]. rewrite bool_decide_true by by eexists. exact IH.
Qed.

Lemma cpu_table_run s i root k :
  prepared s i root k -> cpu_table (R := R) PartialGoodsCpuType s = (Go (cpu_choice root), s).
Proof.
  intros Hp. unfold cpu_choice. pose proof cpu_entries as H. revert H. generalize PartialGoodsCpuType as Ts.
  intros Ts H. induction H as [|t Ts Ht _ IH]; [done|]. cbn [cpu_table find].
  assert (Ht' : Forall (fun e => entry_ok e) t) by (eapply list.Forall_impl; [exact Ht|]; by intros ? []).
  rewrite (bind_go _ _ _ _ _ (check_run t s i root k Hp Ht')).
  by destruct (all_there root t).
Qed.

Lemma labels_run Value Table i root : forall s k,
  names_apart root -> missing root (L "__symbols__") -> prepared s i root k ->
  exists s' k', FindLabelAndUpdateProperty (R := R) pool rodata Table Value s = (Go tt, s') /\ prepared s' i root k'.
Proof.
  induction Table as [|e Table IH]; intros s k Hna Hm Hp; [by exists s, k|]. cbn [FindLabelAndUpdateProperty].
  assert (Hone : exists s' k', update_label (R := R) pool rodata Value e s = (Go tt, s') /\ prepared s' i root k').
  { unfold update_label. destruct (_ =? 0); [by exists s, k|].
    destruct (path_missing_run (R := R) pool Hpool rodata Hmem s i root k (L "__symbols__") (0 :: rodata) Hna Hp Hm)
      as (s' & k' & H1 & H2 & _); [split; [repeat constructor; done|done]|cbn; lia|cbn [length]; lia|by left|].
    change (on_nodes (fun b : list Z => FdtPathOffset pool b (47 :: L "__symbols__" ++ 0 :: rodata)))
      with (path (R := R) pool rodata "/__symbols__"%string) in H1.
    rewrite (bind_go _ _ _ _ _ H1). by exists s', k'. }
  destruct Hone as (s1 & k1 & H1 & Hp1). rewrite (bind_go _ _ _ _ _ H1). by apply (IH s1 k1).
Qed.

(** Both parts of the multimedia update. *)
Lemma mm_run Value s i root k :
  prepared s i root k -> goods_tree root (vals_of i root) -> missing root (L "__symbols__") ->
  table_room Value root PartialGoodsMmType <= room i ->
  exists s' i' root' k',
    (if negb (Value =? 0) then
       FindNodeAndUpdateProperty (R := R) pool rodata PartialGoodsMmType Value;;
       FindLabelAndUpdateProperty pool rodata PartialGoodsMmTypeWithLabel Value
     else mret tt) s = (Go tt, s') /\
    reached i root (disable Value root PartialGoodsMmType MM_PROPS (vals_of i root))
      (table_room Value root PartialGoodsMmType) s' i' root' k'.
Proof.
  intros Hp Hg Hm Hr. destruct (Z.eqb_spec Value 0) as [->|Hne]; cbn [negb].
  { exists s, i, root, k. split; [done|]. eapply reached_weaken; [apply reached_refl; [done|]|apply table_room_nonneg].
    intros a b q. apply disable_zero. }
  destruct (table_run (R := R) pool Hpool rodata Hmem Value PartialGoodsMmType MM_PROPS s i root k Hp Hg mm_entries Hr)
    as (s1 & i1 & root1 & k1 & H1 & [Hp1 Hsh Hex Hv Hrm]).
  rewrite (bind_go _ _ _ _ _ H1). pose proof (shape_names _ _ Hsh) as Hn.
  destruct (labels_run Value PartialGoodsMmTypeWithLabel i1 root1 s1 k1) as (s2 & k2 & H2 & Hp2);
    [by eapply names_apart_same; [|apply Hg]|by eapply missing_same|done|].
  exists s2, i1, root1, k2. by split.
Qed.

Lemma goods_tree_disable Value Table props root root' v v1 :
  same_shape root root' -> Forall (fun e => entry_ok e /\ entry_props e = props) Table ->
  (forall a b q, v1 a b q = disable Value root Table props v a b q) -> goods_tree root v -> goods_tree root' v1.
Proof.
  intros Hs Hall Hv [H1 H2 H3 H4 H5]. pose proof (shape_names _ _ Hs) as Hn.
  assert (Hfill : forall a b q, filled (v a b) q -> filled (v1 a b) q).
  { intros a b q Hf old. rewrite Hv. unfold disable. destruct (existsb _ Table) eqn:E; [|apply Hf].
    destruct (find _ _) as [w|] eqn:Ew; [|apply Hf]. intros [= <-].
    destruct Table as [|e Table]; [done|]. apply Forall_cons in Hall as [[Hok <-] _].
    by destruct (entry_props_find _ _ _ Hok Ew). }
  split; [by eapply names_apart_same|by eapply tidy_same|by eapply tidy_same| |]; intros a b; apply Hfill; auto.
Qed.

(** Both masks, one after the other. *)
Lemma masks_run mm cpu s i root k :
  prepared s i root k -> goods_tree root (vals_of i root) -> missing root (L "__symbols__") ->
  table_room mm root PartialGoodsMmType + table_room cpu root (cpu_choice root) <= room i ->
  exists s' i' root' k',
    update_masks (R := R) pool rodata mm cpu s = (Go EFI_SUCCESS, s') /\
    reached i root (disable cpu root (cpu_choice root) CPU_PROPS (disable mm root PartialGoodsMmType MM_PROPS (vals_of i root)))
      (table_room mm root PartialGoodsMmType + table_room cpu root (cpu_choice root)) s' i' root' k'.
Proof.
  intros Hp Hg Hm Hr. pose proof (table_room_nonneg cpu root (cpu_choice root)) as Hc0. unfold update_masks.
  destruct (mm_run mm s i root k Hp Hg Hm ltac:(lia)) as (s1 & i1 & root1 & k1 & H1 & Hre1).
  rewrite (bind_go _ _ _ _ _ H1). pose proof Hre1 as [Hp1 Hsh Hex Hv Hrm].
  destruct (Z.eqb_spec cpu 0) as [Hz|Hz].
  { exists s1, i1, root1, k1. split; [done|]. eapply reached_weaken; [eapply reached_ext; [exact Hre1|]|lia].
    intros a b q. rewrite Hz. apply disable_zero. }
  rewrite (bind_go _ _ _ _ _ (cpu_table_run s1 i1 root1 k1 Hp1)), (choice_shape _ _ (shape_targets _ _ Hsh)).
  destruct (table_run (R := R) pool Hpool rodata Hmem cpu (cpu_choice root) CPU_PROPS s1 i1 root1 k1 Hp1)
    as (s2 & i2 & root2 & k2 & H2 & Hre2).
  { by eapply goods_tree_disable; [exact Hsh|apply mm_entries|exact Hv|]. }
  { apply cpu_choice_entries. }
  { rewrite (room_shape _ _ _ _ (shape_targets _ _ Hsh)). lia. }
  exists s2, i2, root2, k2. rewrite (bind_go _ _ _ _ _ H2). split; [done|].
  rewrite (room_shape _ _ _ _ (shape_targets _ _ Hsh)) in Hre2.
  eapply reached_ext; [eapply reached_trans; [exact Hre1|exact Hre2]|].
  intros a b q. apply disable_shape; [by apply shape_targets|done].
Qed.

#[local] Strategy 100 [table_room disable].

(** [UpdatePartialGoodsNode] on a tree. *)
Lemma partial_goods_run s i root k chip :
  prepared s i root k -> goods_tree root (vals_of i root) -> missing root (L "__symbols__") ->
  SUBSET_PART_CHIPINFO_BASE_REVISION <= Revision chip -> answers_plain chip -> cpus_numbered chip root ->
  goods_room chip root <= room i ->
  exists s' i' root' k', UpdatePartialGoodsNode (R := R) pool rodata (EFI_SUCCESS, chip) s = (Go EFI_SUCCESS, s') /\
    reached i root (goods_values chip root (vals_of i root)) (goods_room chip root) s' i' root' k'.
Proof.
  intros Hp Hg Hm Hrev Ha Hn Hr.
  assert (Hrun : UpdatePartialGoodsNode (R := R) pool rodata (EFI_SUCCESS, chip) =
    if Revision chip <? SUBSET_PART_CHIPINFO_BASE_REVISION then mret EFI_SUCCESS
    else update_masks pool rodata (ReadMMPartialGoods chip).2 (ReadCpuPartialGoods chip).2) by done.
  rewrite Hrun, (proj2 (Z.ltb_ge _ _)), read_mm, read_cpus by done.
  destruct (masks_run (parts_disabled chip) (cpus_disabled chip) s i root k Hp Hg Hm Hr) as (s' & i' & root' & k' & H & Hre).
  exists s', i', root', k'. split; [exact H|]. eapply reached_ext; [exact Hre|].
  intros a b q. by rewrite goods_values_masks.
Qed.
End Node.

(** * [UpdateDeviceTree] as a whole *)

(** Below the first level the tree is the same. *)
Definition same_below (root root' : dnode) : Prop := Forall2 like2 (node_children root) (node_children root').

Lemma with_child_below root a n n' : node_children root !! a = Some n -> like2 n n' -> same_below root (with_child root a n').
Proof. intros Ha Hl. unfold same_below. cbn [with_child node_children]. by apply Forall2_insert_r with n. Qed.

Section Below.
Context (root root' : dnode) (Hb : same_below root root').

Lemma below_names : child_names root' = child_names root.
Proof.
  unfold child_names. apply list_eq_Forall2. apply Forall2_fmap_2, Forall2_flip.
  eapply Forall2_impl; [exact Hb|]. by intros x y [Hn _].
Qed.

Lemma below_children a : node_children <$> node_children root' !! a = node_children <$> node_children root !! a.
Proof.
  unfold same_below in Hb. destruct (node_children root !! a) as [n|] eqn:E.
  - destruct (Forall2_lookup_l _ _ _ _ _ Hb E) as (n' & -> & _ & Hc). cbn. by rewrite Hc.
  - apply lookup_ge_None in E. rewrite (Forall2_length _ _ _ Hb) in E. by rewrite lookup_ge_None_2.
Qed.

Lemma below_targets : same_targets root root'.
Proof.
  intros e. unfold target. pose proof below_names as Hn. unfold child_names in Hn. rewrite (called_names _ _ _ Hn).
  destruct (called _ (node_children root)) as [a|]; [|done]. cbn. pose proof (below_children a) as Hc.
  destruct (node_children root' !! a) as [n'|], (node_children root !! a) as [n|]; try done.
  cbn in Hc |- *. by injection Hc as ->.
Qed.

Lemma below_vals i a b q : vals_of i root' a b q = vals_of i root a b q.
Proof.
  unfold vals_of. pose proof (below_children a) as Hc.
  destruct (node_children root' !! a) as [n'|], (node_children root !! a) as [n|]; try done.
  cbn in Hc. by injection Hc as ->.
Qed.

Lemma below_goods_tree v v' : (forall a b q, v' a b q = v a b q) -> goods_tree root v -> goods_tree root' v'.
Proof.
  intros Hv [H1 H2 H3 H4 H5]. pose proof below_names as Hn.
  split; [by eapply names_apart_same|by eapply tidy_same|by eapply tidy_same| |]; intros a b old; rewrite Hv; [apply H4|apply H5].
Qed.

Lemma below_room chip : goods_room chip root' = goods_room chip root.
Proof. unfold goods_room. by rewrite (choice_shape _ _ below_targets), !(room_shape _ _ _ _ below_targets). Qed.

Lemma below_numbered chip : cpus_numbered chip root -> cpus_numbered chip root'.
Proof. unfold cpus_numbered. by rewrite (choice_shape _ _ below_targets). Qed.

Lemma below_values chip v v' : (forall a b q, v' a b q = v a b q) ->
  forall a b q, goods_values chip root' v' a b q = goods_values chip root v a b q.
Proof.
  intros Hv. unfold goods_values. rewrite (choice_shape _ _ below_targets). apply disable_shape; [apply below_targets|].
  apply disable_shape; [apply below_targets|done].
Qed.
End Below.

Section Whole.
Context {R : Type} (pool : Z -> bool) (Hpool : forall n, pool n = true).
Context (env : DtEnv) (rodata : list Z) (Hmem : (64 <= length rodata)%nat).
Context (Start : Z) (IsLEVariant IsDynamicPartitionSupport : bool).

(** No fstab nodes without the firmware node. *)
Lemma fstab_run s i root k :
  names_apart root -> prepared s i root k -> missing root (L "firmware") ->
  exists s' k', UpdateFstabNode (R := R) pool env rodata IsDynamicPartitionSupport s = (Go EFI_NOT_FOUND, s') /\
    prepared s' i root k'.
Proof.
  intros Hna Hp Hm.
  destruct (path_missing_run (R := R) pool Hpool rodata Hmem s i root k (L "firmware") (L "/android/fstab" ++ 0 :: rodata) Hna Hp Hm)
    as (s' & k' & Hrun & Hp' & _); [split; [repeat constructor; done|done]|cbn; lia| |by right|].
  { rewrite length_app. cbn [length]. lia. }
  exists s', k'. split; [|done]. unfold UpdateFstabNode.
  change (path (R := R) pool rodata "/firmware/android/fstab"%string)
    with (on_nodes (R := R) (fun b => FdtPathOffset pool b (47 :: L "firmware" ++ L "/android/fstab" ++ 0 :: rodata))).
  by rewrite (bind_go _ _ _ _ _ Hrun).
Qed.

(** Packing keeps the tree. *)
Lemma pack_prepared s i root k rs :
  prepared s i root k -> reserves i rs ->
  exists s' i', on_blob (R := R) fdt_pack s = (Go 0, s') /\ prepared s' i' root k /\ reserves i' rs /\
    room i' = 0 /\ im_tab i' = im_tab i.
Proof.
  intros [Hs Hi Hnl Hk] Hrs. destruct (pack_run (R := R) i rs (if_ok _ _ Hi) Hrs) as (tail & Hr & Hpok & _).
  exists (mkDtState (render (packed i rs tail)) (dt_nodes s) (mem_info_cnt s) (mem_info_cntV64 s) (dt_seeds s)), (packed i rs tail).
  split; [unfold on_blob; cbn zeta; by rewrite Hs, Hr|].
  split; [split; [done|by apply (image_of_same i)|done|done]|].
  split; [split; [apply Hrs|exists [], []; by rewrite app_nil_r]|]. split; [|done].
  pose proof (length_rsv_bytes rs). unfold room, im_end, im_offs, im_off, packed, rsv_size.
  cbn [im_total im_front im_block im_gap im_tab]. change (zlen []) with 0. lia.
Qed.

(** The end of [UpdateDeviceTree], after the chosen node. *)
Definition after_chosen (chip : EFI_STATUS * ChipInfo) : MD R EFI_STATUS :=
  _ ← UpdateFstabNode pool env rodata IsDynamicPartitionSupport;
  ret ← UpdatePartialGoodsNode pool rodata chip;
  let ret := s32 ret in
  if negb (ret =? 0) then mret (u64 ret)
  else
    Status ← (if IsLEVariant then mret EFI_SUCCESS else AddDDrRegion pool env rodata);
    if negb (Status =? EFI_SUCCESS) && negb (Status =? EFI_UNSUPPORTED) then mret Status
    else
      _ ← on_blob fdt_pack;
      mret EFI_SUCCESS.

Lemma after_chosen_run s i root k rs chip :
  prepared s i root k -> reserves i rs -> goods_tree root (vals_of i root) ->
  missing root (L "firmware") -> missing root (L "__symbols__") ->
  SUBSET_PART_CHIPINFO_BASE_REVISION <= Revision chip -> answers_plain chip -> cpus_numbered chip root ->
  goods_room chip root <= room i ->
  IsLEVariant = true \/ (DDrRegionsInfo env).1 = EFI_UNSUPPORTED ->
  exists s' i' root' k', after_chosen (EFI_SUCCESS, chip) s = (Go EFI_SUCCESS, s') /\
    prepared s' i' root' k' /\ reserves i' rs /\ room i' = 0 /\ same_shape root root' /\
    (exists i1, extends i i1 /\ im_tab i' = im_tab i1) /\
    (forall a b q, vals_of i' root' a b q = goods_values chip root (vals_of i root) a b q).
Proof.
  intros Hp Hrs Hg Hf Hm Hrev Ha Hnum Hr Hddr. unfold after_chosen.
  destruct (fstab_run s i root k (gt_apart _ _ Hg) Hp Hf) as (s1 & k1 & H1 & Hp1). rewrite (bind_go _ _ _ _ _ H1).
  destruct (partial_goods_run (R := R) pool Hpool rodata Hmem s1 i root k1 chip Hp1 Hg Hm Hrev Ha Hnum Hr)
    as (s2 & i2 & root2 & k2 & H2 & [Hp2 Hsh Hex Hv _]).
  rewrite (bind_go _ _ _ _ _ H2). change (s32 EFI_SUCCESS) with 0. cbn [negb Z.eqb].
  assert (Hrs2 : reserves i2 rs) by (by eapply reserves_extends).
  destruct (pack_prepared s2 i2 root2 k2 rs Hp2 Hrs2) as (s3 & i3 & H3 & Hp3 & Hrs3 & Hr3 & Ht3).
  exists s3, i3, root2, k2. split.
  - destruct IsLEVariant.
    + erewrite bind_go by reflexivity. cbn [negb andb Z.eqb EFI_SUCCESS]. by rewrite (bind_go _ _ _ _ _ H3).
    + destruct Hddr as [|Hddr]; [done|]. unfold AddDDrRegion. rewrite Hpool. cbn [negb].
      destruct (DDrRegionsInfo env) as [st info]. cbn [fst] in Hddr. subst st.
      change (negb (EFI_UNSUPPORTED =? EFI_SUCCESS)) with true. cbn iota.
      erewrite bind_go by reflexivity. change (negb (EFI_UNSUPPORTED =? EFI_SUCCESS) && negb (EFI_UNSUPPORTED =? EFI_UNSUPPORTED))
        with false. cbn iota. by rewrite (bind_go _ _ _ _ _ H3).
  - split; [done|]. split; [done|]. split; [done|]. split; [done|]. split; [by exists i2|].
    intros a b q. rewrite <- Hv. unfold vals_of, value, names. by rewrite Ht3.
Qed.

Lemma update_stages chip updated cmdline ramdisk RamDiskSize :
  UpdateDeviceTree (R := R) pool rodata env chip Start IsLEVariant IsDynamicPartitionSupport updated cmdline ramdisk RamDiskSize =
  (Status ← UpdateDeviceTree_to_chosen pool env rodata Start IsLEVariant updated cmdline ramdisk RamDiskSize;
   if negb (Status =? EFI_SUCCESS) then mret Status else after_chosen chip).
Proof. reflexivity. Qed.

#[local] Strategy expand [goods_room].
Lemma goods_room_nonneg chip root : 0 <= goods_room chip root.
Proof. apply Z.add_nonneg_nonneg; apply table_room_nonneg. Qed.
#[local] Strategy 100 [goods_values goods_room UpdateDeviceTree after_chosen UpdateDeviceTree_to_chosen].

Lemma few_partitions (ps : list RamPartitionEntry) chip root :
  mem_room ps + 36 + CHOSEN_ROOM + goods_room chip root <= DTB_PAD_SIZE -> zlen ps <= 83.
Proof.
  pose proof (goods_room_nonneg chip root) as Hg. revert Hg. generalize (goods_room chip root).
  unfold mem_room, CHOSEN_ROOM, DTB_PAD_SIZE. lia.
Qed.

(** The tree [UpdateDeviceTree] leaves: the memory node, the chosen node and the
    nodes of disabled parts have new values, and there is no room behind it. *)
Lemma whole_run s i root k rs a b mem cho c updated ps str ramdisk RamDiskSize chip :
  prepared s i root k -> reserves i rs -> to_update i root a b mem cho c -> no_display env ->
  match updated with Some u => ps = u | None => RamPartitions env = (EFI_SUCCESS, ps) end ->
  mem_info_cnt s = false -> mem_info_cntV64 s = false ->
  0 <= Start -> Start + im_total i < 2 ^ 64 -> Forall is_u8 str ->
  let t := im_total i + DTB_PAD_SIZE + zlen (cstr str) in
  t <= 2 ^ 31 - 4 -> t <= zlen (render i) ->
  goods_tree root (vals_of i root) -> missing root (L "firmware") -> missing root (L "__symbols__") ->
  SUBSET_PART_CHIPINFO_BASE_REVISION <= Revision chip -> answers_plain chip -> cpus_numbered chip root ->
  mem_room ps + 36 + CHOSEN_ROOM + goods_room chip root <= DTB_PAD_SIZE ->
  IsLEVariant = true \/ (DDrRegionsInfo env).1 = EFI_UNSUPPORTED ->
  exists s' i' root' k' mem' cho',
    UpdateDeviceTree (R := R) pool rodata env (EFI_SUCCESS, chip) Start IsLEVariant IsDynamicPartitionSupport updated
      (Some str) ramdisk RamDiskSize s = (Go EFI_SUCCESS, s') /\
    prepared s' i' root' k' /\ reserves i' rs /\ room i' = 0 /\
    same_shape (with_child (with_child root a mem') b cho') root' /\
    (exists new, im_tab i' = im_tab i ++ new) /\ like2 mem mem' /\ like2 cho cho' /\
    (forall q, value i' mem' q = memory_values env c ps (value i mem) q) /\
    (forall q, value i' cho' q =
       chosen_values env IsLEVariant (dt_seeds s) (cstr str) ramdisk RamDiskSize (value i cho) q) /\
    (forall x y q, vals_of i' root' x y q = goods_values chip root (vals_of i root) x y q).
Proof.
  intros Hp Hrs Htu Hnd Hps Hf1 Hf2 Hst Hend Hu t Ht Hl Hg Hf Hm Hrev Ha0 Hnum Hroom Hddr.
  pose proof (few_partitions _ _ _ Hroom) as Hn.
  destruct (update_run (R := R) pool env rodata Start IsLEVariant Hpool Hmem s i root k rs a b mem cho c updated ps str ramdisk
    RamDiskSize Hp Hrs Htu Hnd Hps Hf1 Hf2 Hst Hend Hu Ht Hl Hn)
    as (s1 & i1 & k1 & mem' & cho' & H1 & Hp1 & Hex1 & Hr1 & Hmn & Hmc & Hcn & Hcc & Hvm & Hvc).
  set (root1 := with_child (with_child root a mem') b cho') in *.
  assert (Ht0 : im_total i <= t) by (pose proof (zlen_nonneg (cstr str)); subst t; unfold DTB_PAD_SIZE; lia).
  assert (Hi0 : image_of (with_total i t) (tree_toks root)).
  { apply (image_of_same i); [apply Hp|apply with_total_ok; [apply (if_ok _ _ (pr_image _ _ _ _ Hp))|done|done]|done|done]. }
  pose proof (tu_mem _ _ _ _ _ _ _ Htu) as Ha. pose proof (tu_cho _ _ _ _ _ _ _ Htu) as Hb.
  assert (Hlm : like2 mem mem') by done. assert (Hlc : like2 cho cho') by done.
  assert (Hab : a <> b).
  { intros ->. pose proof (proj1 (tu_mem_name _ _ _ _ _ _ _ Htu)) as E1. pose proof (proj1 (tu_cho_name _ _ _ _ _ _ _ Htu)) as E2.
    rewrite Hb in Ha. injection Ha as <-. rewrite E1 in E2. discriminate. }
  assert (Hbelow : same_below root root1).
  { unfold same_below. etrans; [by apply (with_child_below root a mem)|]. apply with_child_below with cho; [|done].
    cbn [with_child node_children]. by rewrite list_lookup_insert_ne. }
  assert (Hvals : forall x y q, vals_of i1 root1 x y q = vals_of i root x y q).
  { intros x y q. rewrite (below_vals _ _ Hbelow).
    by apply (vals_kept (with_total i t) i1 root (tree_toks root)). }
  pose proof (below_names _ _ Hbelow) as Hnames.
  destruct (after_chosen_run s1 i1 root1 k1 rs chip Hp1) as (s2 & i2 & root2 & k2 & H2 & Hp2 & Hrs2 & Hr2 & Hsh & Htab & Hv2).
  - apply (reserves_extends (with_total i t)); [exact Hrs|exact Hex1].
  - by apply (below_goods_tree _ _ Hbelow (vals_of i root)).
  - by eapply missing_same.
  - by eapply missing_same.
  - done.
  - done.
  - by apply (below_numbered _ _ Hbelow).
  - rewrite (below_room _ _ Hbelow). eapply Z.le_trans; [|exact Hr1]. clear -Hroom. revert Hroom.
    generalize (goods_room chip root). unfold DTB_PAD_SIZE. lia.
  - done.
  - exists s2, i2, root2, k2, mem', cho'. split.
    { rewrite update_stages, (bind_go _ _ _ _ _ H1). exact H2. }
    split; [done|]. split; [done|]. split; [done|]. split; [done|].
    destruct Htab as (i3 & Hex3 & Ht3).
    assert (Hval : forall j n q, node_children root1 !! j = Some n -> value i2 n q = value i1 n q).
    { intros j n q Hj. pose proof (pr_image _ _ _ _ Hp1) as Hi1. rewrite (tree_child _ _ _ Hj) in Hi1.
      rewrite <- (value_kept i1 i3 _ _ _ q Hi1 Hex3). unfold value, names. by rewrite Ht3. }
    split. { rewrite Ht3. destruct (ex_tab _ _ Hex3) as [n2 ->]. destruct (ex_tab _ _ Hex1) as [n1 ->]. exists (n1 ++ n2). by rewrite app_assoc. }
    do 2 (split; [done|]). split; [|split].
    + intros q. rewrite (Hval a); [done|]. unfold root1. cbn [with_child node_children].
      rewrite list_lookup_insert_ne by done. apply list_lookup_insert_eq. by eapply lookup_lt_Some.
    + intros q. rewrite (Hval b); [done|]. unfold root1. cbn [with_child node_children].
      apply list_lookup_insert_eq. rewrite length_insert. by eapply lookup_lt_Some.
    + intros x y q. rewrite Hv2. by apply (below_values _ _ Hbelow).
Qed.
End Whole.
