(* ===== verification/DtUpdateClaims.v ===== *)
(** What is claimed of the tree the kernel gets, of the nodes of disabled parts
    of the chip, and of the search for first-level nodes. *)
From Stdlib Require Import ZArith Lia.
From stdpp Require Import base list numbers option sets sorting.
From S2P Require Import Prelude EfiBase Fdt FdtSpec FdtTree FdtRw FdtRwSpec FdtDemo FdtListSpec FdtWrite FdtImage FdtProps FdtPack.
From S2P Require Import Carveout FdtUpdate FdtUpdateSpec DtUpdate DtUpdateSpec DtChosenSpec DtTreeSpec DtGoods GoodsSpec.

(** C9: [UpdateDeviceTree], from the header check to the ramdisk, gives the
    kernel the tree it should.  It succeeds, and the tree it leaves is the one
    it was given but for two nodes: [reg] of the memory node holds all RAM
    partitions in order (a new [reg] replaces the old one; with cells of one
    word their low 32 bits) and [ddr_device_type] ends with the type of the RAM
    when the firmware tells it; [bootargs] of the chosen node is the old one
    without its last byte, a space and the command line, or the command line
    alone; [rng-seed] (64 numbers, not in LE builds) and [kaslr-seed] end with
    the random numbers the firmware gave, none after the first failure; and
    [linux,initrd-start] and [linux,initrd-end] say where the ramdisk is.  The
    memory reservations are kept, no update runs out of room, and the list names
    the same first-level nodes where they are now.
    The conditions: the tree has the nodes [memory] and [chosen] on the first
    level, no other first-level name starts with one of these two or with the
    name of a later node of that level, and none has a zero byte or a brace (the
    character 123); [#address-cells] and [#size-cells] of the root are equal, 1
    or 2; no property that is replaced or extended ([reg], [ddr_device_type],
    [bootargs], [rng-seed], [kaslr-seed], [linux,initrd-start] and [-end]) is
    there with an empty value; the list of first-level nodes is empty or names
    the first [k] of them; neither flag of an earlier memory update is set; the
    object has room for 2048 bytes and the command line and stays below 2^31
    bytes; there are at most 83 RAM partitions, given or told by the firmware;
    the firmware has no data of the display and no granule for the tree; and the
    pool does not run out. *)
Theorem device_tree_prepared {R} pool env rodata Start IsLEVariant s i root k rs a b mem cho c updated ps str
    ramdisk RamDiskSize :
  (forall z, pool z = true) -> (64 <= length rodata)%nat ->
  prepared s i root k -> reserves i rs -> to_update i root a b mem cho c -> no_display env ->
  match updated with Some u => ps = u | None => RamPartitions env = (EFI_SUCCESS, ps) end ->
  mem_info_cnt s = false -> mem_info_cntV64 s = false ->
  0 <= Start -> Start + im_total i < 2 ^ 64 -> Forall is_u8 str ->
  im_total i + DTB_PAD_SIZE + zlen (cstr str) <= 2 ^ 31 - 4 ->
  im_total i + DTB_PAD_SIZE + zlen (cstr str) <= zlen (render i) -> zlen ps <= 83 ->
  exists s' i' k' mem' cho',
    UpdateDeviceTree_to_chosen (R := R) pool env rodata Start IsLEVariant updated (Some str) ramdisk RamDiskSize s =
      (Go EFI_SUCCESS, s') /\
    prepared s' i' (with_child (with_child root a mem') b cho') k' /\ reserves i' rs /\
    im_total i' = im_total i + DTB_PAD_SIZE + zlen (cstr str) /\
    node_name mem' = node_name mem /\ node_children mem' = node_children mem /\
    node_name cho' = node_name cho /\ node_children cho' = node_children cho /\
    (forall q, value i' mem' q = memory_values env c ps (value i mem) q) /\
    (forall q, value i' cho' q =
       chosen_values env IsLEVariant (dt_seeds s) (cstr str) ramdisk RamDiskSize (value i cho) q).
Proof.
  intros Hpool Hr Hp Hrs Htu Hnd Hps Hf1 Hf2 H0 Hend Hu Ht Hl Hn.
  destruct (update_run (R := R) pool env rodata Start IsLEVariant Hpool Hr s i root k rs a b mem cho c updated ps str ramdisk
    RamDiskSize Hp Hrs Htu Hnd Hps Hf1 Hf2 H0 Hend Hu Ht Hl Hn)
    as (s' & i' & k' & mem' & cho' & Hrun & Hp' & Hex & _ & Hrest).
  exists s', i', k', mem', cho'. split; [done|]. split; [done|].
  split; [by apply (reserves_extends (with_total i _) i' rs Hrs Hex)|]. split; [apply (ex_total _ _ Hex)|exact Hrest].
Qed.

(** Two partitions, RAM of type 7, and random numbers without end. *)
Definition wr_env : DtEnv :=
  mkDtEnv (EFI_NOT_FOUND, (0, 0)) (EFI_NOT_FOUND, mkDemura 0 0 0 0 0 0 0) (EFI_NOT_FOUND, 0) (EFI_NOT_FOUND, 0, [])
    (EFI_NOT_FOUND, 0)
    (EFI_SUCCESS, [mkRam 0x80000000 0x40000000; mkRam 0x100000000 0x80000000])
    (EFI_SUCCESS, 7) (fun k => (EFI_SUCCESS, Z.of_nat k)) (EFI_NOT_FOUND, (0, [])) (EFI_NOT_FOUND, []).
Definition wr_start : DtState := mkDtState (render (wr_image 8)) [] false false 0.
Definition wr_pool : Z -> bool := fun _ => true.

Lemma wr_prepared : prepared wr_start (wr_image 8) wr_root 0.
Proof. split; [done|apply wr_tight|done|]. cbn. lia. Qed.

Definition wr_names : list (list Z) := [L "memory"; L "chosen"; L "soc"].

Lemma wr_apart : names_apart wr_root.
Proof.
  assert (Hn : forall j c, node_children wr_root !! j = Some c -> wr_names !! j = Some (node_name c)).
  { intros j c. destruct j as [|[|[|j]]]; cbn; by intros [= <-]. }
  split.
  - intros j j' c c' Hlt Hj%Hn Hj'%Hn [z Hz].
    destruct j as [|[|[|j]]], j' as [|[|[|j']]]; try lia; try done; cbn in Hj, Hj';
      injection Hj as Hj; injection Hj' as Hj'; rewrite <- Hj, <- Hj' in Hz; discriminate.
  - intros j c Hj%Hn. destruct j as [|[|[|j]]]; try done; cbn in Hj; injection Hj as <-; repeat constructor; done.
Qed.

Lemma wr_alone i q : q = L "memory" /\ i = 0%nat \/ q = L "chosen" /\ i = 1%nat -> alone wr_root i q.
Proof.
  intros Hq j c Hne Hj [z Hz].
  destruct j as [|[|[|j]]]; cbn in Hj; try (injection Hj as <-; destruct Hq as [[-> ->]|[-> ->]]; done || discriminate).
  discriminate.
Qed.

Lemma wr_to_update : to_update (wr_image 8) wr_root 0 1 wr_memory wr_chosen 2.
Proof.
  split; [apply wr_apart|done|done|split; [done|apply wr_alone; by left]|split; [done|apply wr_alone; by right]
    |split_and!; [lia|lia|done|done]| |].
  - split; intros old; vm_compute; by intros [= <-].
  - repeat constructor; intros old; vm_compute; by intros [= <-].
Qed.

Lemma device_tree_prepared_witness :
  exists s' i' k' mem' cho',
    UpdateDeviceTree_to_chosen (R := unit) wr_pool wr_env (zeros 64) 0x9000 false None (Some (L "root=/dev/sda"))
      0x84000000 0x200000 wr_start = (Go EFI_SUCCESS, s') /\
    prepared s' i' (with_child (with_child wr_root 0 mem') 1 cho') k' /\ reserves i' wr_rsv /\
    im_total i' = im_total (wr_image 8) + DTB_PAD_SIZE + zlen (cstr (L "root=/dev/sda")) /\
    node_name mem' = node_name wr_memory /\ node_children mem' = node_children wr_memory /\
    node_name cho' = node_name wr_chosen /\ node_children cho' = node_children wr_chosen /\
    (forall q, value i' mem' q = memory_values wr_env 2 (RamPartitions wr_env).2 (value (wr_image 8) wr_memory) q) /\
    (forall q, value i' cho' q =
       chosen_values wr_env false 0 (cstr (L "root=/dev/sda")) 0x84000000 0x200000 (value (wr_image 8) wr_chosen) q).
Proof.
  apply (device_tree_prepared wr_pool wr_env (zeros 64) 0x9000 false wr_start (wr_image 8) wr_root 0 wr_rsv 0 1
    wr_memory wr_chosen 2 None (RamPartitions wr_env).2 (L "root=/dev/sda") 0x84000000 0x200000).
  - reflexivity.
  - vm_compute. lia.
  - apply wr_prepared.
  - apply wr_reserves.
  - apply wr_to_update.
  - split; [discriminate|discriminate|split; [reflexivity|discriminate]|reflexivity].
  - reflexivity.
  - reflexivity.
  - reflexivity.
  - discriminate.
  - vm_compute. reflexivity.
  - repeat constructor; discriminate.
  - vm_compute. discriminate.
  - vm_compute. discriminate.
  - vm_compute. discriminate.
Defined.

(** The values of that run. *)
Example wr_bootargs :
  chosen_values wr_env false 0 (L "root=/dev/sda") 0x84000000 0x200000 (value (wr_image 8) wr_chosen) (L "bootargs") =
    Some (L "quiet root=/dev/sda" ++ [0]) /\
  memory_values wr_env 2 (RamPartitions wr_env).2 (value (wr_image 8) wr_memory) (L "reg") =
    Some (cells 0x80000000 0x40000000 ++ cells 0x100000000 0x80000000).
Proof. vm_compute. done. Qed.

(** C28: [UpdatePartialGoodsNode] takes the disabled parts of the chip out of the
    tree and changes nothing else.  It succeeds and leaves a tree of the same
    shape.  There a child of [/soc] that the multimedia table names under a
    disabled part has the [status] "no" (the node shared by the modem,
    navigation and, with [legacy-wlan], WLAN only when they are all disabled),
    the child of [/cpus] that belongs to a disabled processor has the
    [enable-method] "none" and the [status] "fail", and every other property of
    every node at that level is as it was.  The nodes of the processors are those
    of the first table whose nodes are all in the tree, or of the first one.
    A part is disabled when the chip answers so: [IsPartDisabled] from revision
    5 on, [GetSubsetPart] before it or when the part is not known.
    The conditions: the answers for the parts are flags, 0 or 1 (a mask of more
    bits is read wrongly), and an answer for the processors that is an error or
    not used leaves their set at 0; when the nodes are those of the second
    table, whose last two values are wrong, only the first four processors may
    be disabled; the first-level names are as for the other updates (none starts
    with the name of a later node, or with "soc" or "cpus" without being it, or
    with "__symbols__"); no node two levels below the root has an empty [status]
    or [enable-method]; there is room for the new properties; the protocol is
    there with a revision from 0x10002 on; the pool does not run out. *)
Theorem partial_goods_applied {R} pool rodata s i root k chip :
  (forall z, pool z = true) -> (64 <= length rodata)%nat -> prepared s i root k ->
  goods_tree root (vals_of i root) -> missing root (L "__symbols__") ->
  SUBSET_PART_CHIPINFO_BASE_REVISION <= Revision chip -> answers_plain chip -> cpus_numbered chip root ->
  goods_room chip root <= room i ->
  exists s' i' root' k',
    UpdatePartialGoodsNode (R := R) pool rodata (EFI_SUCCESS, chip) s = (Go EFI_SUCCESS, s') /\
    prepared s' i' root' k' /\ same_shape root root' /\ extends i i' /\
    (forall a b q, vals_of i' root' a b q = goods_values chip root (vals_of i root) a b q).
Proof.
  intros Hpool Hmem Hp Hg Hm Hrev Ha Hn Hr.
  destruct (partial_goods_run (R := R) pool Hpool rodata Hmem s i root k chip Hp Hg Hm Hrev Ha Hn Hr)
    as (s' & i' & root' & k' & Hrun & [Hp' Hsh Hex Hv _]).
  by exists s', i', root', k'.
Qed.

(** ** A tree with processors and a video core *)

Definition g_tab : list Z :=
  wr_tab ++ L "status" ++ [0] ++ L "enable-method" ++ [0].
Definition g_soc : dnode :=
  DNode (L "soc") [] [DNode (L "qcom,vidc@aa00000") [(40, L "ok" ++ [0])] []; DNode (L "timer") [] []].
Definition g_cpu (n : String.string) : dnode := DNode (L n) [(47, L "psci" ++ [0])] [].
#[local] Arguments g_cpu n%_string_scope.
Definition g_cpus : dnode := DNode (L "cpus") [] [g_cpu "cpu@0"; g_cpu "cpu@100"].
Definition g_root : dnode :=
  DNode [] [(13, be_put 4 2); (28, be_put 4 2)] [wr_memory; wr_chosen; g_soc; g_cpus].
Definition g_image (extra : Z) : image :=
  let block := enc (tree_toks g_root) in
  mkImage (40 + zlen (rsv_bytes wr_rsv) + zlen block + zlen g_tab + extra) 40 16 0
    (rsv_bytes wr_rsv) block [] g_tab (zeros 4000).
Definition g_state (extra : Z) : DtState := mkDtState (render (g_image extra)) [] false false 0.

(** The video core and the first processor are disabled. *)
Definition g_chip : ChipInfo :=
  mkChipInfo EFI_CHIPINFO_PROTOCOL_REVISION_5 (EFI_SUCCESS, Some 1) (EFI_NOT_FOUND, None)
    (fun p => (EFI_SUCCESS, Some (if p =? EFICHIPINFO_PART_VIDEO then 1 else 0))) (fun _ => (EFI_NOT_FOUND, None)).

Lemma g_plain : answers_plain g_chip.
Proof. split; [|done|done]. intros p _. cbn. destruct (p =? EFICHIPINFO_PART_VIDEO); auto. Qed.
Lemma g_numbered : cpus_numbered g_chip g_root.
Proof. intros _. reflexivity. Qed.

Lemma g_ok : image_of (g_image 200) (tree_toks g_root).
Proof. apply image_check_ok. vm_cast_no_check (eq_refl true). Qed.

Lemma g_prepared : prepared (g_state 200) (g_image 200) g_root 0.
Proof. split; [done|apply g_ok|done|]. cbn. lia. Qed.

Definition g_names : list (list Z) := [L "memory"; L "chosen"; L "soc"; L "cpus"].

Lemma g_child j c : node_children g_root !! j = Some c -> g_names !! j = Some (node_name c).
Proof. destruct j as [|[|[|[|j]]]]; cbn; by intros [= <-]. Qed.

Lemma g_apart : names_apart g_root.
Proof.
  split.
  - intros j j' c c' Hlt Hj%g_child Hj'%g_child [z Hz].
    destruct j as [|[|[|[|j]]]], j' as [|[|[|[|j']]]]; try lia; try done; cbn in Hj, Hj';
      injection Hj as Hj; injection Hj' as Hj'; rewrite <- Hj, <- Hj' in Hz; discriminate.
  - intros j c Hj%g_child. destruct j as [|[|[|[|j]]]]; try done; cbn in Hj; injection Hj as <-; repeat constructor; done.
Qed.

Lemma g_lacks q : bool_decide (Forall (fun n => ~ q `prefix_of` n) g_names) = true -> missing g_root q.
Proof.
  intros H%bool_decide_eq_true j c Hj%g_child Hp. rewrite list.Forall_forall in H.
  by apply (H (node_name c)); [eapply list_elem_of_lookup_2|].
Qed.

Lemma g_tidy q : bool_decide (Forall (fun n => q `prefix_of` n -> n = q) g_names) = true -> tidy g_root q.
Proof.
  intros H%bool_decide_eq_true j c Hj%g_child Hp. rewrite list.Forall_forall in H.
  apply (H (node_name c)); [by eapply list_elem_of_lookup_2|done].
Qed.

(** No node two levels below the root has the property with no value. *)
Definition filled_b (i : image) (root : dnode) (q : list Z) : bool :=
  forallb (fun p => forallb (fun n => match value i n q with Some [] => false | _ => true end) (node_children p))
    (node_children root).

Lemma filled_b_ok i root q : filled_b i root q = true -> forall a b, filled (vals_of i root a b) q.
Proof.
  intros H a b old. unfold vals_of. destruct (node_children root !! a) as [p|] eqn:Ha; [|done].
  destruct (node_children p !! b) as [n|] eqn:Hb; [|done]. unfold filled_b in H. rewrite forallb_forall in H.
  apply list_elem_of_lookup_2, list_elem_of_In in Ha. specialize (H _ Ha). rewrite forallb_forall in H.
  apply list_elem_of_lookup_2, list_elem_of_In in Hb. specialize (H _ Hb). intros Hv ->. by rewrite Hv in H.
Qed.

Lemma g_goods_tree extra : filled_b (g_image extra) g_root (L "status") && filled_b (g_image extra) g_root (L "enable-method") = true ->
  goods_tree g_root (vals_of (g_image extra) g_root).
Proof.
  intros [H1 H2]%andb_prop. split; [apply g_apart|by apply g_tidy; vm_compute|by apply g_tidy; vm_compute| |]; by apply filled_b_ok.
Qed.

Lemma partial_goods_applied_witness :
  exists s' i' root' k',
    UpdatePartialGoodsNode (R := unit) wr_pool (zeros 64) (EFI_SUCCESS, g_chip) (g_state 200) = (Go EFI_SUCCESS, s') /\
    prepared s' i' root' k' /\ same_shape g_root root' /\ extends (g_image 200) i' /\
    (forall a b q, vals_of i' root' a b q = goods_values g_chip g_root (vals_of (g_image 200) g_root) a b q).
Proof.
  apply (partial_goods_applied wr_pool (zeros 64) (g_state 200) (g_image 200) g_root 0 g_chip).
  - reflexivity.
  - vm_compute. lia.
  - apply g_prepared.
  - apply g_goods_tree. vm_compute. reflexivity.
  - apply g_lacks. vm_compute. reflexivity.
  - discriminate.
  - apply g_plain.
  - apply g_numbered.
  - vm_compute. discriminate.
Defined.

(** The values of that run. *)
Example g_values :
  let v := goods_values g_chip g_root (vals_of (g_image 200) g_root) in
  v 2%nat 0%nat (L "status") = Some (L "no" ++ [0]) /\ v 2%nat 1%nat (L "status") = None /\
  v 3%nat 0%nat (L "enable-method") = Some (L "none" ++ [0]) /\ v 3%nat 0%nat (L "status") = Some (L "fail" ++ [0]) /\
  v 3%nat 1%nat (L "enable-method") = Some (L "psci" ++ [0]) /\ v 3%nat 1%nat (L "status") = None.
Proof. vm_compute. done. Qed.

(** An old firmware that answers a mask: bit 1 for the video core, and it is
    the camera that is disabled. *)
Example subset_mask_disables_next :
  (ReadMMPartialGoods (mkChipInfo 0x10002 (EFI_NOT_FOUND, None) (EFI_NOT_FOUND, None) (fun _ => (EFI_NOT_FOUND, None))
     (fun p => (EFI_SUCCESS, Some (if p =? EFICHIPINFO_PART_VIDEO then 2 else 0))))).2 = DtMatch.BIT EFICHIPINFO_PART_CAMERA.
Proof. reflexivity. Qed.

(** C8: [UpdateDeviceTree] as a whole succeeds and leaves a packed tree: no room
    behind it, the memory reservations kept, the tree of the shape it had, the
    property names it had.  The memory node holds the RAM partitions, the chosen
    node the command line, the random seeds and the place of the ramdisk, as its
    first part ([device_tree_prepared]) leaves them; the nodes of disabled parts
    and processors are disabled as [partial_goods_applied] says, and all other
    nodes two levels below the root have the values they had.
    The conditions are those of the two.  Of the first: [memory] and [chosen] on
    the first level, whose names are told apart by their beginnings; equal
    [#address-cells] and [#size-cells] of 1 or 2; no empty value of a property
    that is replaced; no flag set by an earlier memory update; no data of the
    display.  Of the second: the chip-info protocol from revision 0x10002 on,
    flags 0 or 1 for the parts, an unused or failing answer for the processors
    without a value, only the first four processors disabled with the nodes of
    the second table, [/soc] and [/cpus] that can be searched for, no symbols,
    no empty [status] or [enable-method].  Besides, the tree has no [firmware]
    node (so no fstab), the firmware does not support the DDR regions or the
    build is an LE one, and the 2048 bytes it makes room for, besides the
    command line, do for all of it. *)
Theorem device_tree_updated {R} pool env rodata Start IsLEVariant IsDynamicPartitionSupport s i root k rs a b mem cho c
    updated ps str ramdisk RamDiskSize chip :
  (forall z, pool z = true) -> (64 <= length rodata)%nat ->
  prepared s i root k -> reserves i rs -> to_update i root a b mem cho c -> no_display env ->
  match updated with Some u => ps = u | None => RamPartitions env = (EFI_SUCCESS, ps) end ->
  mem_info_cnt s = false -> mem_info_cntV64 s = false ->
  0 <= Start -> Start + im_total i < 2 ^ 64 -> Forall is_u8 str ->
  im_total i + DTB_PAD_SIZE + zlen (cstr str) <= 2 ^ 31 - 4 ->
  im_total i + DTB_PAD_SIZE + zlen (cstr str) <= zlen (render i) ->
  goods_tree root (vals_of i root) -> missing root (L "firmware") -> missing root (L "__symbols__") ->
  SUBSET_PART_CHIPINFO_BASE_REVISION <= Revision chip -> answers_plain chip -> cpus_numbered chip root ->
  mem_room ps + 36 + CHOSEN_ROOM + goods_room chip root <= DTB_PAD_SIZE ->
  IsLEVariant = true \/ (DDrRegionsInfo env).1 = EFI_UNSUPPORTED ->
  exists s' i' root' k' mem' cho',
    UpdateDeviceTree (R := R) pool rodata env (EFI_SUCCESS, chip) Start IsLEVariant IsDynamicPartitionSupport updated
      (Some str) ramdisk RamDiskSize s = (Go EFI_SUCCESS, s') /\
    prepared s' i' root' k' /\ reserves i' rs /\ room i' = 0 /\
    same_shape (with_child (with_child root a mem') b cho') root' /\
    (exists new, im_tab i' = im_tab i ++ new) /\
    node_name mem' = node_name mem /\ node_children mem' = node_children mem /\
    node_name cho' = node_name cho /\ node_children cho' = node_children cho /\
    (forall q, value i' mem' q = memory_values env c ps (value i mem) q) /\
    (forall q, value i' cho' q =
       chosen_values env IsLEVariant (dt_seeds s) (cstr str) ramdisk RamDiskSize (value i cho) q) /\
    (forall x y q, vals_of i' root' x y q = goods_values chip root (vals_of i root) x y q).
Proof.
  intros Hpool Hmem Hp Hrs Htu Hnd Hps Hf1 Hf2 H0 Hend Hu Ht Hl Hg Hf Hm Hrev Ha Hn Hroom Hddr.
  destruct (whole_run (R := R) pool Hpool env rodata Hmem Start IsLEVariant IsDynamicPartitionSupport s i root k rs a b mem cho c
    updated ps str ramdisk RamDiskSize chip Hp Hrs Htu Hnd Hps Hf1 Hf2 H0 Hend Hu Ht Hl Hg Hf Hm Hrev Ha Hn Hroom Hddr)
    as (s' & i' & root' & k' & mem' & cho' & Hrun & Hp' & Hrs' & Hr' & Hsh & Htab & [Hmn Hmc] & [Hcn Hcc] & Hvm & Hvc & Hv).
  exists s', i', root', k', mem', cho'. do 10 (split; [assumption|]). split; [exact Hvm|]. split; [exact Hvc|exact Hv].
Qed.

(** The environment of the first part, without DDR regions. *)
Definition g_env : DtEnv :=
  mkDtEnv (EFI_NOT_FOUND, (0, 0)) (EFI_NOT_FOUND, mkDemura 0 0 0 0 0 0 0) (EFI_NOT_FOUND, 0) (EFI_NOT_FOUND, 0, [])
    (EFI_NOT_FOUND, 0) (RamPartitions wr_env) (EFI_SUCCESS, 7) (fun k => (EFI_SUCCESS, Z.of_nat k))
    (EFI_UNSUPPORTED, (0, [])) (EFI_NOT_FOUND, []).

Lemma g_alone i q : q = L "memory" /\ i = 0%nat \/ q = L "chosen" /\ i = 1%nat -> alone g_root i q.
Proof.
  intros Hq j c Hne Hj%g_child [z Hz].
  destruct j as [|[|[|[|j]]]]; cbn in Hj; try (injection Hj as Hj; rewrite <- Hj in Hz; destruct Hq as [[-> ->]|[-> ->]]; done || discriminate).
  discriminate.
Qed.

Lemma g_tight : image_of (g_image 8) (tree_toks g_root).
Proof. apply image_check_ok. vm_cast_no_check (eq_refl true). Qed.

Lemma g_to_update : to_update (g_image 8) g_root 0 1 wr_memory wr_chosen 2.
Proof.
  split; [apply g_apart|done|done|split; [done|apply g_alone; by left]|split; [done|apply g_alone; by right]
    |split_and!; [lia|lia|done|done]| |].
  - split; intros old; vm_compute; by intros [= <-].
  - repeat constructor; intros old; vm_compute; by intros [= <-].
Qed.

Lemma device_tree_updated_witness :
  exists s' i' root' k' mem' cho',
    UpdateDeviceTree (R := unit) wr_pool (zeros 64) g_env (EFI_SUCCESS, g_chip) 0x9000 false true None
      (Some (L "root=/dev/sda")) 0x84000000 0x200000 (g_state 8) = (Go EFI_SUCCESS, s') /\
    prepared s' i' root' k' /\ reserves i' wr_rsv /\ room i' = 0 /\
    same_shape (with_child (with_child g_root 0 mem') 1 cho') root' /\
    (exists new, im_tab i' = im_tab (g_image 8) ++ new) /\
    node_name mem' = node_name wr_memory /\ node_children mem' = node_children wr_memory /\
    node_name cho' = node_name wr_chosen /\ node_children cho' = node_children wr_chosen /\
    (forall q, value i' mem' q = memory_values g_env 2 (RamPartitions g_env).2 (value (g_image 8) wr_memory) q) /\
    (forall q, value i' cho' q =
       chosen_values g_env false (dt_seeds (g_state 8)) (cstr (L "root=/dev/sda")) 0x84000000 0x200000 (value (g_image 8) wr_chosen) q) /\
    (forall x y q, vals_of i' root' x y q = goods_values g_chip g_root (vals_of (g_image 8) g_root) x y q).
Proof.
  apply (device_tree_updated wr_pool g_env (zeros 64) 0x9000 false true (g_state 8) (g_image 8) g_root 0 wr_rsv 0 1
    wr_memory wr_chosen 2 None (RamPartitions g_env).2 (L "root=/dev/sda") 0x84000000 0x200000 g_chip).
  - reflexivity.
  - vm_compute. lia.
  - split; [done|apply g_tight|done|]. cbn. lia.
  - split; [by repeat constructor|]. exists [], []. split; [by rewrite app_nil_r|done].
  - apply g_to_update.
  - split; [discriminate|discriminate|split; [reflexivity|discriminate]|reflexivity].
  - reflexivity.
  - reflexivity.
  - reflexivity.
  - discriminate.
  - vm_compute. reflexivity.
  - repeat constructor; discriminate.
  - vm_compute. discriminate.
  - vm_compute. discriminate.
  - apply g_goods_tree. vm_compute. reflexivity.
  - apply g_lacks. vm_compute. reflexivity.
  - apply g_lacks. vm_compute. reflexivity.
  - discriminate.
  - apply g_plain.
  - apply g_numbered.
  - vm_compute. discriminate.
  - right. reflexivity.
Defined.

(** Without the chip-info protocol the status that comes back, whatever the
    tree, is no error: its highest bit is lost. *)
Lemma goods_status_truncated {R} pool env rodata IsLEVariant IsDynamicPartitionSupport s i root k chip :
  (forall z, pool z = true) -> (64 <= length rodata)%nat ->
  names_apart root -> prepared s i root k -> missing root (L "firmware") ->
  (after_chosen (R := R) pool env rodata IsLEVariant IsDynamicPartitionSupport (EFI_NOT_FOUND, chip) s).1 = Go 14 /\
  EFI_ERROR 14 = false.
Proof.
  intros Hpool Hmem Hna Hp Hf. split; [|done].
  destruct (fstab_run (R := R) pool Hpool env rodata Hmem IsDynamicPartitionSupport s i root k Hna Hp Hf) as (s1 & k1 & H1 & _).
  unfold after_chosen. by rewrite (bind_go _ _ _ _ _ H1).
Qed.

(** C25: [FdtPathOffset] finds a first-level node and fills the list as it goes.
    When the list names the first [k] children of the root (the last one first)
    and no other child's name starts with the name asked for, it returns the
    offset of that node.  The list then names the first children up to it, or
    the first [k] when it was on it already, in descending order of the
    offsets.  The names of the first level must not start with one another (a
    later one), and the pool must not run out. *)
Theorem first_level_path_found {R} pool fdt off root strs total version q extra i c k :
  (forall n, pool n = true) -> names_apart root -> tree_blob fdt off root strs total version ->
  Forall (fun c => is_u8 c /\ c <> 0 /\ c <> 47) q -> q <> [] -> (64 <= length (q ++ 0%Z :: extra))%nat ->
  node_children root !! i = Some c -> node_name c = q -> alone root i q ->
  (k <= length (node_children root))%nat ->
  FdtPathOffset (R := R) pool fdt (47 :: q ++ 0 :: extra) (first_nodes root k) =
    (Go (child_pos [] root i), first_nodes root (Nat.max (Datatypes.S i) k)) /\
  desc (first_nodes root (Nat.max (Datatypes.S i) k)).
Proof.
  intros Hpool Hna HT Hq Hne Hmem Hi Hc Hal Hk. split; [by eapply path_offset_first|].
  apply first_nodes_desc. apply lookup_lt_Some in Hi. lia.
Qed.

Lemma first_level_path_found_witness :
  FdtPathOffset (R := unit) wr_pool (render (wr_image 8)) (47 :: L "chosen" ++ 0 :: zeros 64) (first_nodes wr_root 1) =
    (Go (child_pos [] wr_root 1), first_nodes wr_root 2) /\
  desc (first_nodes wr_root 2).
Proof.
  apply (first_level_path_found wr_pool (render (wr_image 8)) (im_off (wr_image 8)) wr_root (names (wr_image 8))
    (im_total (wr_image 8)) 17 (L "chosen") (zeros 64) 1 wr_chosen 1).
  - reflexivity.
  - apply wr_apart.
  - apply (image_tree_blob (wr_image 8) wr_root wr_tight).
  - repeat constructor; discriminate.
  - discriminate.
  - vm_compute. lia.
  - reflexivity.
  - reflexivity.
  - apply wr_alone. by right.
  - cbn. lia.
Defined.
