(* ===== verification/DtClaims.v ===== *)
(** What the choice of a device tree promises. *)
From Stdlib Require Import ZArith Lia.
From stdpp Require Import base list numbers option sets.
From S2P Require Import Prelude EfiBase Fdt FdtSpec FdtTree FdtRw FdtRwSpec FdtDemo DtMatch Locate DtQueue DtQueueSpec DtSpec LocateSpec.

(** * A board and three trees *)

Definition demo_pmic : EFI_PM_DEVICE_INFO := mkPmic 0x30 2 0 0.
Definition demo_board : BoardInfo :=
  mkBoard 8 0x10000 0 0 356 0x20001 0 0 0 (fun _ => demo_pmic) (fun _ => Some demo_pmic).

Definition id_strings : list Z :=
  L "qcom,msm-id" ++ [0] ++ L "qcom,board-id" ++ [0] ++ L "qcom,pmic-id" ++ [0] ++ L "qcom,oem-id" ++ [0].
Definition id_strs (o : Z) : list Z :=
  if o =? 0 then L "qcom,msm-id" else if o =? 12 then L "qcom,board-id"
  else if o =? 26 then L "qcom,pmic-id" else L "qcom,oem-id".
Definition id_root (t : tree_ids) : dnode :=
  DNode []
    ((match ti_msm t with [] => [] | l => [(0, words (pairs l))] end) ++
     (match ti_board t with None => [] | Some p => [(12, words (pairs [p]))] end) ++
     (match ti_pmic t with [] => [] | l => [(26, words (mjoin l))] end) ++
     (match ti_oem t with None => [] | Some v => [(39, be_put 4 v)] end)) [].
Definition id_file (t : tree_ids) : list Z := mk_blob (tree_block (id_root t)) id_strings.

Definition ids_old : tree_ids := mkIds [(339, 0x20000); (356, 0x20000)] (Some (8, 0)) [] 4 None.
Definition ids_new : tree_ids := mkIds [(356, 0x20001)] (Some (8, 0)) [[0x20030; 0; 0; 0]] 4 None.
Definition ids_other : tree_ids := mkIds [(339, 0x20001)] (Some (8, 0)) [] 4 None.
Definition demo_ids : list tree_ids := [ids_old; ids_new; ids_other].
Definition demo_files : list (list Z * tree_ids) := Eval vm_compute in map (fun t => (id_file t, t)) demo_ids.

(** A file of ids, checked. *)
Definition file_check (b : list Z) (t : tree_ids) : bool :=
  let n := Z.of_nat (length b) in
  tree_check b 56 (id_root t) id_strs n 17 && (40 <? n) && word_is b 16 (fun rsv => rsv <=? n) &&
  word_is b 12 (fun o => word_is b 32 (fun k => 0 <? o + k)).

Lemma file_check_ok b t :
  file_check b t = true -> has_ids (root_prop (id_root t) id_strs) t -> dtb_file b t.
Proof.
  unfold file_check. intros (((H & ?)%andb_prop & ?)%andb_prop & ?)%andb_prop I. split.
  - exists 56, (id_root t), id_strs, 17. split; [by apply tree_check_ok|done].
  - match goal with Hw : word_is b 12 _ = true |- _ => apply word_is_ok in Hw as (o & Ho & Hk) end.
    apply word_is_ok in Hk as (k & Hk & Hpos). exists o, k. bools. done.
  - bools. done.
  - match goal with Hw : word_is b 16 _ = true |- _ => apply word_is_ok in Hw as (r & Hr & Hle) end.
    exists r. bools. done.
Qed.

Lemma demo_ids_ok : Forall (fun t => has_ids (root_prop (id_root t) id_strs) t) demo_ids.
Proof.
  unfold demo_ids. rewrite !Forall_cons, Forall_nil.
  split_and!; [..|done];
    (split; [reflexivity|by exists []|reflexivity|by repeat constructor|simpl; lia|by right|reflexivity| |]);
    cbn; unfold is_u32; rewrite ?Forall_cons, ?Forall_nil; split_and!; done || lia.
Qed.

Lemma demo_files_ok : Forall (fun f => dtb_file f.1 f.2) demo_files.
Proof.
  pose proof demo_ids_ok as H. unfold demo_ids in H. rewrite !Forall_cons in H. destruct H as (H1 & H2 & H3 & _).
  unfold demo_files. rewrite !Forall_cons, Forall_nil.
  split_and!; [apply file_check_ok; [vm_compute; reflexivity|assumption]..|done].
Qed.

Definition demo_kernel : Z := 0x80080000.
Definition demo_pre : list Z := zeros 16.
Definition demo_post : list Z := zeros 4.

Lemma demo_image_ok : image_ok demo_kernel demo_pre demo_post demo_files.
Proof.
  split; [exact demo_files_ok|by repeat constructor|done|vm_compute; discriminate|vm_compute; reflexivity].
Qed.

(** C6: When the image behind the kernel is a sequence of device trees (any
    number of them), [GetSocDtb] ends without a fault.  It returns [NULL] only
    when no tree that names its platforms suits the board by the selection table
    above [ReadDtbFindMatch]; otherwise it returns the address of a tree that
    suits the board, has the bit [SOC_MATCH] and has the largest match value of
    all trees that name their platforms and suit the board, and [DtbIdx] is its
    position.  The match value depends on the tree's own ids and the board
    alone: what was read of the trees before it, and never reset, has no part.
    Condition: no tree with the bit contradicts the table (in a PMIC model or an
    OEM id, in being newer than the board, or in a variant 0).  The ids are laid
    out as [has_ids] says: whole platform and board entries, the PMICs in whole
    entries of [qcom,pmic-id-size] (1 to 15) words, of four when that property
    is absent. *)
Theorem soc_dtb_best {R} board Scm pool Stack Kernel pre post files s :
  image_ok Kernel pre post files -> pre <> [] -> 0 <= Stack -> Stack + 2 ^ 31 <= 2 ^ 64 ->
  Forall (fun t => wanted board SOC_MATCH t -> suits board t = true) (map snd files) ->
  exists r s', GetSocDtb (R := R) board Scm pool Stack Kernel (image pre post files)
      (Z.of_nat (length pre + length (mjoin (blobs files)))) (Z.of_nat (length pre)) s = (Go r, s') /\
    match r with
    | None => Forall (fun t => suits board t = true -> ti_msm t = []) (map snd files) /\ DtbIdx s' = DtbIdx s
    | Some a => exists i t, map snd files !! i = Some t /\ a = addr Kernel pre files i /\
        DtbIdx s' = Z.of_nat i /\ wanted board SOC_MATCH t /\ suits board t = true /\
        Forall (fun t' => suits board t' = true -> ti_msm t' <> [] -> score board t' <= score board t) (map snd files)
    end.
Proof.
  intros I Hpre Hs0 Hs1 Htab.
  destruct (get_soc_dtb_at (R := R) board Scm pool Stack Kernel pre post files I Hs0 Hs1 s Hpre)
    as (r & s' & Hr & H). exists r, s'. split; [done|]. destruct r as [a|].
  - destruct H as (i & t & Hi & Ha & Hx & Hw & Hall). exists i, t. do 4 (split; [done|]).
    split; [by eapply (Forall_lookup_1 _ _ i t Htab)|]. eapply Forall_impl; [exact Hall|].
    intros t' Ht' Hsu Hne. by apply Ht', suits_wanted_soc.
  - destruct H as [Hall Hx]. split; [|done]. eapply Forall_impl; [exact Hall|]. intros t Hn Hsu.
    destruct (ti_msm t) eqn:E; [done|]. destruct Hn. apply suits_wanted_soc; [done|by rewrite E].
Qed.

Definition demo_loc : LocState := mkLoc true (-1) (-1) 0 false [].

Lemma demo_soc_suits : Forall (fun t => wanted demo_board SOC_MATCH t -> suits demo_board t = true) (map snd demo_files).
Proof. repeat constructor; intros Hw; first [reflexivity|exfalso; revert Hw; vm_compute; congruence]. Defined.

Lemma soc_dtb_best_witness :
  exists r s', GetSocDtb (R := unit) demo_board true (fun _ => true) 0x1000 demo_kernel
      (image demo_pre demo_post demo_files) (Z.of_nat (length demo_pre + length (mjoin (blobs demo_files))))
      (Z.of_nat (length demo_pre)) demo_loc = (Go r, s') /\
    match r with
    | None => Forall (fun t => suits demo_board t = true -> ti_msm t = []) (map snd demo_files) /\
        DtbIdx s' = DtbIdx demo_loc
    | Some a => exists i t, map snd demo_files !! i = Some t /\ a = addr demo_kernel demo_pre demo_files i /\
        DtbIdx s' = Z.of_nat i /\ wanted demo_board SOC_MATCH t /\ suits demo_board t = true /\
        Forall (fun t' => suits demo_board t' = true -> ti_msm t' <> [] -> score demo_board t' <= score demo_board t)
          (map snd demo_files)
    end.
Proof. apply soc_dtb_best; [exact demo_image_ok|done|done|done|exact demo_soc_suits]. Defined.

(** The second tree names the revision of the chip. *)
Example demo_soc_dtb :
  exists s', GetSocDtb (R := unit) demo_board true (fun _ => true) 0x1000 demo_kernel
      (image demo_pre demo_post demo_files) (Z.of_nat (length demo_pre + length (mjoin (blobs demo_files))))
      (Z.of_nat (length demo_pre)) demo_loc = (Go (Some (addr demo_kernel demo_pre demo_files 1)), s') /\
    DtbIdx s' = 1.
Proof. eexists. split; [vm_compute; reflexivity|reflexivity]. Qed.

(** * The overlays *)

(** A table of overlays in front of the trees. *)
Definition table_file (count first : Z) (entries trees : list Z) : list Z :=
  words [0xd7b7ab1e; 0; 32; DTBO_ENTRY_SIZE; count; first; 2048; 0] ++ entries ++ trees.
Definition table_entry (b : list Z) (o : Z) : list Z :=
  words [Z.of_nat (length b); o; 0; 0; 0; 0; 0; 0].

Definition overlay_old : list Z := Eval vm_compute in id_file ids_old.
Definition overlay_new : list Z := Eval vm_compute in id_file ids_new.
Definition demo_overlays : list (Z * list Z * tree_ids) := Eval vm_compute in
  [(96, overlay_old, ids_old); (96 + Z.of_nat (length overlay_old), overlay_new, ids_new)].
Definition demo_dtbo : list Z := Eval vm_compute in
  table_file 2 32 (mjoin (map (fun f => table_entry f.1.2 f.1.1) demo_overlays)) (overlay_old ++ overlay_new).

Lemma demo_dtbo_ok : dtbo_image demo_dtbo 32 demo_overlays.
Proof.
  pose proof demo_files_ok as HF. split.
  - apply (Forall_b byte_b); [apply byte_b_ok|vm_compute; reflexivity].
  - vm_compute. reflexivity.
  - vm_compute. reflexivity.
  - done.
  - intros i o b t Hi. destruct i as [|[|i]]; [..|done]; injection Hi as <- <- <-.
    + split; [vm_compute; reflexivity|].
      split; [by apply (Forall_inv HF)|]. exists overlay_new. vm_compute. reflexivity.
    + split; [vm_compute; reflexivity|].
      split; [by apply (Forall_inv (Forall_inv_tail HF))|]. exists []. vm_compute. reflexivity.
Qed.

(** C26: [GetBoardDtb] on a table of overlays, each a device tree, ends without
    a fault.  It returns [NULL] only when no overlay that names its board suits
    the board by the selection table above [ReadDtbFindMatch]; otherwise it
    returns the address of an overlay that suits the board, has the bit
    [VARIANT_MATCH] and has the largest match value of all overlays that name
    their board and suit it; [DtboIdx] is the entry of the table.  Conditions: no
    overlay with the bit contradicts the table (in a PMIC model or an OEM id, or
    in being newer than the board), and the ids are laid out as [has_ids] says,
    the PMICs in whole entries of [qcom,pmic-id-size] (1 to 15) words, of four
    when that property is absent. *)
Theorem board_dtb_best board base first img files s :
  dtbo_image img first files -> 0 < base -> base + 2 ^ 33 <= 2 ^ 64 ->
  Forall (fun t => wanted board VARIANT_MATCH t -> suits board t = true) (map snd files) ->
  exists r s', GetBoardDtb board base img s = (Go r, s') /\
    match r with
    | None => Forall (fun t => suits board t = true -> ti_board t = None) (map snd files) /\ DtboIdx s' = DtboIdx s
    | Some a => exists i t, map snd files !! i = Some t /\ a = overlay_at base files i /\
        DtboIdx s' = Z.of_nat i /\ wanted board VARIANT_MATCH t /\ suits board t = true /\
        Forall (fun t' => suits board t' = true -> ti_board t' <> None -> score board t' <= score board t) (map snd files)
    end.
Proof.
  intros D H0 H1 Htab.
  destruct (get_board_dtb_at board base first img files D H0 H1 s) as (r & s' & Hr & H).
  exists r, s'. split; [done|]. destruct r as [a|].
  - destruct H as (i & t & Hi & Ha & Hx & Hw & Hall). exists i, t. do 4 (split; [done|]).
    split; [by eapply (Forall_lookup_1 _ _ i t Htab)|]. eapply Forall_impl; [exact Hall|].
    intros t' Ht' Hsu Hne. by apply Ht', suits_wanted_variant.
  - destruct H as [Hall Hx]. split; [|done]. eapply Forall_impl; [exact Hall|]. intros t Hn Hsu.
    destruct (ti_board t) eqn:E; [|done]. destruct Hn. apply suits_wanted_variant; [done|by rewrite E].
Qed.

Lemma demo_board_suits :
  Forall (fun t => wanted demo_board VARIANT_MATCH t -> suits demo_board t = true) (map snd demo_overlays).
Proof. repeat constructor; intros Hw; first [reflexivity|exfalso; revert Hw; vm_compute; congruence]. Defined.

Lemma board_dtb_best_witness :
  exists r s', GetBoardDtb demo_board 0x90000000 demo_dtbo demo_loc = (Go r, s') /\
    match r with
    | None => Forall (fun t => suits demo_board t = true -> ti_board t = None) (map snd demo_overlays) /\
        DtboIdx s' = DtboIdx demo_loc
    | Some a => exists i t, map snd demo_overlays !! i = Some t /\ a = overlay_at 0x90000000 demo_overlays i /\
        DtboIdx s' = Z.of_nat i /\ wanted demo_board VARIANT_MATCH t /\ suits demo_board t = true /\
        Forall (fun t' => suits demo_board t' = true -> ti_board t' <> None ->
          score demo_board t' <= score demo_board t) (map snd demo_overlays)
    end.
Proof. apply (board_dtb_best _ _ 32); [exact demo_dtbo_ok|done|done|exact demo_board_suits]. Defined.

(** * The exact match *)

(** Whatever bytes follow the kernel, [GetSocDtb] never clears [DtboNeed],
    so the overlay partition is searched even when a tree agrees with the board
    in everything: the mask of [CheckAllBitsSet] has the bit of a sixteenth
    PMIC, and a tree has room for fifteen. *)
Theorem dtbo_never_skipped {R} board Scm pool Stack Kernel img size off s :
  DtboNeed s = true ->
  DtboNeed (GetSocDtb (R := R) board Scm pool Stack Kernel img size off s).2 = true.
Proof. apply get_soc_dtb_need. Qed.

Lemma dtbo_never_skipped_witness :
  DtboNeed demo_loc = true /\
  DtboNeed (GetSocDtb (R := unit) demo_board true (fun _ => true) 0x1000 demo_kernel
    (image demo_pre demo_post demo_files) 600 16 demo_loc).2 = true.
Proof. split; [reflexivity|apply dtbo_never_skipped; reflexivity]. Defined.

(** * The queue *)

(** The queue after the entries were looked at in this order. *)
Definition queued (board : BoardInfo) (entries : list dt_entry) : list dt_entry :=
  fold_left (fun q e => (platform_dt_absolute_match board true e q).2) entries [].

Lemma queued_filter board entries : queued board entries = filter (fun e => absolute_match board e = true) entries.
Proof.
  unfold queued. enough (H : forall q, fold_left (fun q e => (platform_dt_absolute_match board true e q).2) entries q =
    q ++ filter (fun e => absolute_match board e = true) entries) by by rewrite H.
  induction entries as [|e l IH]; intros q; [by rewrite app_nil_r|]. cbn [fold_left].
  rewrite IH, filter_cons. unfold platform_dt_absolute_match. rewrite andb_true_r.
  destruct (absolute_match board e) eqn:E; cbn [snd].
  - rewrite decide_True by done. by rewrite <- app_assoc.
  - by rewrite decide_False.
Qed.

(** C22: Of the id combinations of the trees, the older path keeps those that
    fit the board, and [platform_dt_match_best] returns the first one that is
    best: of the right foundry (or, when there is none, of no foundry), of
    these of the right PMIC models (or of none), and of these the
    lexicographically largest in chip revision, board version and the four PMIC
    revisions.  The nine passes over the list with their deletions on the way
    amount to this. *)
Theorem best_entry_lexicographic board entries :
  Forall entry_ok entries ->
  platform_dt_match_best board (queued board entries) =
    (head (best_entries board (filter (fun e => absolute_match board e = true) entries)),
     best_entries board (filter (fun e => absolute_match board e = true) entries)).
Proof.
  intros Hok. rewrite queued_filter. apply match_best_spec.
  apply Forall_forall. intros e [He Hin]%list_elem_of_filter. split; [done|]. by eapply Forall_forall in Hok.
Qed.

Definition demo_entry (rev p0 : Z) : dt_entry := mkEntry 356 8 0 rev [p0; 0x30; 0x30; 0x30] 0x81000000 100 1.

Lemma best_entry_lexicographic_witness :
  platform_dt_match_best demo_board (queued demo_board [demo_entry 0x20000 0x20030; demo_entry 0x20001 0x30]) =
    (head (best_entries demo_board (filter (fun e => absolute_match demo_board e = true)
       [demo_entry 0x20000 0x20030; demo_entry 0x20001 0x30])),
     best_entries demo_board (filter (fun e => absolute_match demo_board e = true)
       [demo_entry 0x20000 0x20030; demo_entry 0x20001 0x30])).
Proof.
  apply best_entry_lexicographic.
  repeat constructor; try done; intros [|[|[|[|i]]]]; unfold pmic; cbn; done || lia.
Defined.

Example demo_best_entry :
  (platform_dt_match_best demo_board
     (queued demo_board [demo_entry 0x20000 0x20030; demo_entry 0x20001 0x30; demo_entry 0x20001 0x10030])).1 =
  Some (demo_entry 0x20001 0x10030).
Proof. vm_compute. reflexivity. Qed.

(** * Ties and mismatches *)

Definition tie_info (soc minor a : Z) : DtInfo :=
  mkDt 356 soc 0 8 0 minor 0 0 (zeros MAX_PMIC_IDX) (zeros MAX_PMIC_IDX) (BIT SOC_MATCH) a.

(** Equal scores: the later tree wins as soon as one of its fields is larger,
    so each of these two trees wins when it comes second. *)
Example ties_depend_on_order :
  taken SOC_MATCH (tie_info 1 2 0x1000) (tie_info 2 1 0x2000) = true /\
  taken SOC_MATCH (tie_info 2 1 0x2000) (tie_info 1 2 0x1000) = true.
Proof. by split. Qed.

(** A tree whose PMIC is another model is wanted all the same; it even beats
    one that does not name its PMICs. *)
Definition ids_wrong_pmic : tree_ids := mkIds [(356, 0x20001)] (Some (8, 0)) [[0x20031; 0; 0; 0]] 4 None.
Definition ids_no_pmic : tree_ids := mkIds [(356, 0x20001)] (Some (8, 0)) [] 4 None.

Example wrong_pmic_preferred :
  score demo_board ids_no_pmic < score demo_board ids_wrong_pmic /\ wanted demo_board SOC_MATCH ids_wrong_pmic.
Proof. split; [vm_compute; reflexivity|]. unfold wanted. vm_compute. discriminate. Qed.

(** The property [qcom,pmic-id-size] as a divisor. *)
Definition size_strings : list Z := L "qcom,pmic-id" ++ [0] ++ L "qcom,pmic-id-size" ++ [0].
Definition size_root (n : Z) : dnode := DNode [] [(0, words [0x30; 0x30; 0x30; 0x30]); (13, be_put 4 n)] [].

Example pmic_size_zero :
  (match_pmic (S := unit) (R := unit) demo_board (mk_blob (tree_block (size_root 0)) size_strings) 0 no_dt tt).1 =
    Halt DivByZero /\
  (match_pmic (S := unit) (R := unit) demo_board (mk_blob (tree_block (size_root 1)) size_strings) 0 no_dt tt).1 <>
    Halt DivByZero.
Proof. split; vm_compute; [reflexivity|discriminate]. Qed.
