(* ===== verification/CmdPath.v ===== *)
(** Where the kernel finds its root: the parts of [UpdateCmdLine.c] that name a
    partition as the kernel will see it ([GetSystemPath],
    [GetSystemPathByPname], [GetResumeCmdLine]), and the queries of
    [LinuxLoaderLib.c] the command line needs ([GetBootDevice],
    [IsMdtpActive]). *)
From Stdlib Require Import ZArith Lia.
From stdpp Require Import base list numbers option.
From S2P Require Import Prelude EfiBase Convert Firmware World LoaderLib Board Ptable DevInfo Gpt Slots Recovery Fastboot FastbootCmds Setup.

Definition MAX_PATH_SIZE : Z := 72.
Definition MAX_NUM_PARTITIONS : Z := 128.
Definition BOOT_DEV_MAX_LEN : Z := 32.
Definition LunCharMapping : list Z := L "abcdefgh".

(** The switches of the build that only these files look at. *)
Class CmdConfig := {
  RW_ROOTFS : bool;
  INIT_BIN : list Z;
  AUDIO_FRAMEWORK : list Z;
  UBUNTU_AB_OTA : bool;
  NAND_SQUASHFS_SUPPORT : bool;
  VERITY_LE : bool;
  ENABLE_EARLY_SERVICES : bool;
  BUILD_USES_RECOVERY_AS_BOOT : bool;
  TARGET_LINUX_BOOT_CPU_ID : bool;
  EnableMdtpSupport : bool;
  EARLY_ETH_ENABLED : bool;
  EARLY_USB_ENABLED : bool;
  INTEGRITY_IMA_ENABLED : bool;
}.

Section Path.
Context `{F : Firmware} `{B : BuildConfig} `{C : CmdConfig}.

Definition IsNANDSquashFsSupport : bool := NAND_SQUASHFS_SUPPORT.

(** The partition the path is for: with the suffix of the slot when there are
    slots. *)
Definition partition_name {R} (MultiSlotBoot BootIntoRecovery : bool) (CurSlot ReqPartition : list Z) :
    MW R (list Z) :=
  let Name := if IsLEVariant && BootIntoRecovery then L "recoveryfs" else ReqPartition in
  r ← StrnCpyS (zeros MAX_GPT_NAME_SIZE) MAX_GPT_NAME_SIZE Name (StrLen Name);
  let PartitionName := r.2 in
  let suffixed := r ← StrnCatS PartitionName MAX_GPT_NAME_SIZE CurSlot (StrLen CurSlot); mret r.2 in
  if UBUNTU_AB_OTA then mret PartitionName
  else if negb MultiSlotBoot then mret PartitionName
  else
    t ← CheckRootDeviceType;
    if bool_decide (t = NAND) then mret PartitionName
    else if StrCmp CurSlot (L "_a") =? 0 then
      ri ← IsRecoveryInfo;
      if (ri : bool) then mret PartitionName else suffixed
    else suffixed.

(** The path of a partition on NAND. *)
Definition nand_path {R} (MultiSlotBoot : bool) (CurSlot : list Z) (Index : Z) : MW R (list Z) :=
  if IsNANDSquashFsSupport then
    w ← get;
    let PartitionCount := GetPartitionCount (pt w) in
    let MtdBlkIndex :=
      if MultiSlotBoot && (StrnCmp (L "_b") CurSlot (StrLen CurSlot) =? 0)
      then PartitionCount else u32 (PartitionCount - 1) in
    mret (L " rootfstype=squashfs root=/dev/mtdblock" ++ fmt_d MtdBlkIndex ++ L " ubi.mtd=" ++ fmt_d (Index - 1))
  else if MultiSlotBoot then
    CurSlot ← GetCurrentSlotSuffix;
    mret (L " rootfstype=ubifs rootflags=bulk_read root=ubi0:rootfs" ++ cstr CurSlot ++ L " ubi.mtd=" ++
          fmt_d (Index - 1))
  else
    CurSlot ← GetCurrentSlotSuffix;
    mret (L " rootfstype=ubifs rootflags=bulk_read root=ubi0:rootfs ubi.mtd=" ++ fmt_d (Index - 1)).

(** [*SysPath] and the length that is returned. *)
Definition path_result {R} (text : list Z) : MW R (option (list Z) * Z) :=
  SysPath ← AsciiSPrint (zeros MAX_PATH_SIZE) MAX_PATH_SIZE text;
  mret (Some SysPath, AsciiStrLen SysPath).

Definition GetSystemPath {R} (MultiSlotBoot BootIntoRecovery : bool) (ReqPartition Key : option (list Z))
    (FlashlessBoot NetworkBoot : bool) : MW R (option (list Z) * Z) :=
  CurSlot ← GetCurrentSlotSuffix;
  ok ← ask (fun x => AllocateZeroPool x MAX_PATH_SIZE);
  if negb ok then mret (None, 0)
  else if FlashlessBoot || NetworkBoot then path_result (L " rootfstype=squashfs root=/dev/ram0")
  else
    match ReqPartition, Key with
    | Some ReqPartition, Some Key =>
        PartitionName ← partition_name MultiSlotBoot BootIntoRecovery CurSlot ReqPartition;
        w ← get;
        let Index := GetPartitionIndex (pt w) PartitionName in
        if (Index =? INVALID_PTN) || (Index >=? MAX_NUM_PARTITIONS) then mret (None, 0)
        else
          Lun ← need OutOfBounds (GetPartitionLunFromIndex (pt w) Index);
          RootDevStr ← GetRootDeviceType;
          let named n := StrCmp n RootDevStr =? 0 in
          if named (L "Unknown") then mret (None, 0)
          else if named (L "EMMC") then
            path_result (L " " ++ cstr Key ++ L "=/dev/mmcblk0p" ++ fmt_d Index)
          else if named (L "NAND") then
            text ← nand_path MultiSlotBoot CurSlot Index;
            path_result text
          else if named (L "UFS") then
            c ← need OutOfBounds (LunCharMapping !! Z.to_nat Lun);
            path_result (L " " ++ cstr Key ++ L "=/dev/sd" ++ [c] ++
              fmt_d (GetPartitionIdxInLun (pt w) PartitionName Lun))
          else mret (None, 0)
    | _, _ => mret (None, 0)
    end.

Definition GetResumeCmdLine {R} : MW R (option (list Z) * Z) :=
  MultiSlotBoot ← PartitionHasMultiSlot SWAP_PARTITION_NAME;
  GetSystemPath MultiSlotBoot false (Some SWAP_PARTITION_NAME) (Some (L "resume")) false false.

Definition GetSystemPathByPname {R} (MultiSlotBoot BootIntoRecovery : bool)
    (ReqPartition Key : option (list Z)) : MW R (option (list Z) * Z) :=
  CurSlot ← GetCurrentSlotSuffix;
  ok ← ask (fun x => AllocateZeroPool x MAX_PATH_SIZE);
  if negb ok then mret (None, 0)
  else
    match ReqPartition, Key with
    | Some ReqPartition, Some Key =>
        let Name := if IsLEVariant && BootIntoRecovery then L "recoveryfs" else ReqPartition in
        r ← StrnCpyS (zeros MAX_GPT_NAME_SIZE) MAX_GPT_NAME_SIZE Name (StrLen Name);
        PartitionName ←
          (if MultiSlotBoot
           then r ← StrnCatS r.2 MAX_GPT_NAME_SIZE CurSlot (StrLen CurSlot); mret r.2
           else mret r.2);
        w ← get;
        let Index := GetPartitionIndex (pt w) PartitionName in
        if (Index =? INVALID_PTN) || (Index >=? MAX_NUM_PARTITIONS) then mret (None, 0)
        else
          Lun ← need OutOfBounds (GetPartitionLunFromIndex (pt w) Index);
          RootDevStr ← GetRootDeviceType;
          let named n := StrCmp n RootDevStr =? 0 in
          if named (L "Unknown") then mret (None, 0)
          else if named (L "EMMC") then
            path_result (L " " ++ cstr Key ++ L "=/dev/mmcblk0p" ++ fmt_d Index)
          else if named (L "UFS") then
            c ← need OutOfBounds (LunCharMapping !! Z.to_nat Lun);
            path_result (L " " ++ cstr Key ++ L "=/dev/sd" ++ [c] ++
              fmt_d (GetPartitionIdxInLun (pt w) PartitionName Lun))
          else mret (None, 0)
    | _, _ => mret (None, 0)
    end.

(** * Queries *)

(** The status, and [BootDevBuf] of [Len] characters. *)
Definition GetBootDevice {R} (BootDevBuf : list Z) (Len : Z) : MW R (EFI_STATUS * list Z) :=
  r ← ask (fun x => GetVariable x (L "BootDeviceBaseAddr") 8);
  if negb (r.1 =? EFI_SUCCESS) then mret (r.1, BootDevBuf)
  else
    let BootDevAddr := le_get (take 8 r.2.2) in
    BootDeviceType ← GetRootDeviceType;
    if is_device BootDeviceType (L "UFS") then
      b ← AsciiSPrint BootDevBuf Len (fmt_x BootDevAddr ++ L ".ufshc");
      mret (r.1, ToLower b)
    else if is_device BootDeviceType (L "EMMC") then
      b ← AsciiSPrint BootDevBuf Len (fmt_x BootDevAddr ++ L ".sdhci");
      mret (r.1, ToLower b)
    else mret (EFI_NOT_FOUND, BootDevBuf).

Definition MDTP_STATE_DISABLED : Z := 0.
Definition MDTP_STATE_INACTIVE : Z := 1.

(** The status and [*MdtpActive], from what locating the protocol and asking
    it give. *)
Definition IsMdtpActive (LocateMdtp : EFI_STATUS) (MdtpGetState : EFI_STATUS * Z) : EFI_STATUS * bool :=
  if EFI_ERROR LocateMdtp then (LocateMdtp, false)
  else if EFI_ERROR MdtpGetState.1 then (MdtpGetState.1, false)
  else (MdtpGetState.1, negb (MdtpGetState.2 =? MDTP_STATE_DISABLED) &&
                        negb (MdtpGetState.2 =? MDTP_STATE_INACTIVE)).
End Path.
