(* ===== verification/CmdLine.v ===== *)
(** The kernel command line and the dynamic part of the boot configuration:
    [UpdateCmdLine] of [UpdateCmdLine.c].  The function works in two passes:
    it first adds up the lengths of everything it may append and collects the
    parameters that go to the boot configuration, then it allocates a buffer of
    that length and appends the pieces with [AsciiStrCatS], which leaves the
    buffer alone when a piece does not fit.

    Strings and arrays are lists of characters; a literal is written without
    its terminator. *)
From Stdlib Require Import ZArith Lia.
From stdpp Require Import base list numbers option.
From S2P Require Import Prelude EfiBase Convert Firmware World LoaderLib Board Ptable DevInfo Gpt Slots Recovery Fastboot FastbootCmds Setup Fdt FdtRw Carveout DtMatch Locate CmdPath.

(** * The texts *)

Definition DynamicBootDeviceCmdLine : list Z := Eval cbv in L " androidboot.boot_devices=soc/".
Definition BootDeviceCmdLine : list Z := Eval cbv in L " androidboot.bootdevice=".
Definition UsbSerialCmdLine : list Z := Eval cbv in L " androidboot.serialno=".
Definition AndroidBootMode : list Z := Eval cbv in L " androidboot.mode=".
Definition LogLevel : list Z := Eval cbv in L " quite".
Definition BatteryChgPause : list Z := Eval cbv in L " androidboot.mode=charger".
Definition MdtpActiveFlag : list Z := Eval cbv in L " mdtp".
Definition PartActiveBoot : list Z := Eval cbv in L " part.activeboot=boot".
Definition AlarmBootCmdLine : list Z := Eval cbv in L " androidboot.alarmboot=true".
(** The initial value of the array [SystemdSlotEnv]; 34 is the quote. *)
Definition systemd_slot_env : list Z := Eval cbv in
  L " systemd.setenv=" ++ [34] ++ L "SLOT_SUFFIX=_a" ++ [34].
Definition NoPasr : list Z := Eval cbv in L " mem_offline.nopasr=1".
Definition SilentBootEnbCmdLine : list Z := Eval cbv in L " silent_boot.mode=silent".
Definition SilentBootDisCmdLine : list Z := Eval cbv in L " silent_boot.mode=nonsilent".
Definition SilentBootForCmdLine : list Z := Eval cbv in L " silent_boot.mode=forcedsilent".
Definition SilentBootNForCmdLine : list Z := Eval cbv in L " silent_boot.mode=forcednonsilent".
Definition AndroidSlotSuffix : list Z := Eval cbv in L " androidboot.slot_suffix=".
Definition SkipRamFs : list Z := Eval cbv in L " skip_initramfs".
Definition AndroidBootAudioFW : list Z := Eval cbv in L " androidboot.audio=".
Definition AndroidBootDtboIdx : list Z := Eval cbv in L " androidboot.dtbo_idx=".
Definition AndroidBootDtbIdx : list Z := Eval cbv in L " androidboot.dtb_idx=".
Definition AndroidBootForceNormalBoot : list Z := Eval cbv in L " androidboot.force_normal_boot=".
Definition AndroidBootFstabSuffix : list Z := Eval cbv in L " androidboot.fstab_suffix=".
Definition FstabSuffixEmmc : list Z := Eval cbv in L "emmc".
Definition FstabSuffixNetworkBoot : list Z := Eval cbv in L "network_boot".
Definition FstabSuffixDefault : list Z := Eval cbv in L "default".
Definition MemOff : list Z := Eval cbv in L " mem=".
Definition MemHpState : list Z := Eval cbv in L " memhp_default_state=online".
Definition MovableNode : list Z := Eval cbv in L " movable_node".
Definition WarmResetArgs : list Z := Eval cbv in L " reboot=w".
Definition BOOT_BASE_BAND : list Z := Eval cbv in L " androidboot.baseband=".

Definition SIZE_OF_DELIM : Z := 2.
Definition SERIAL_NUM_SIZE : Z := 64.
Definition MEM_OFF_SIZE : Z := 16.
Definition MEM_OFF_MIN : Z := 0x180000000.
Definition MAX_SLOT_SUFFIX_SZ : Z := 3.
Definition CHIP_BASE_BAND_LEN : Z := 4.
Definition MAX_DISPLAY_CMD_LINE : Z := 256.
Definition MAX_HW_FENCE_CMD_LINE : Z := 32.
Definition MAX_GPU_CMD_LINE : Z := 256.
Definition MAX_AUDIO_FW_LENGTH : Z := 16.
Definition MAX_DTBO_IDX_STR : Z := 64.
Definition BOOT_CPU_PARAM_LEN : Z := 13.
Definition BOOT_HEADER_VERSION_THREE : Z := 3.
Definition BOOT_CONFIG_NODE_SIZE : Z := 32.
Definition LIST_ENTRY_SIZE : Z := 16.
Definition SILENT_MODE : Z := 0xA.
Definition NON_SILENT_MODE : Z := 0xB.
Definition FORCED_SILENT : Z := 0xC.
Definition FORCED_NON_SILENT : Z := 0xD.
(** A debug level that is returned as a status. *)
Definition EFI_D_ERROR : EFI_STATUS := 0x80000000.

(** * State *)

(** The statics of [UpdateCmdLine.c], of the parts it asks, and the two
    lengths [UpdateCmdLine] adds up. *)
Record CmdState `{Firmware} := mkCmd {
  cs_w : World;
  cs_loc : LocState;
  cs_nodes : list FDT_FIRST_LEVEL_NODE;
  (** the array with its length variable, such as [DisplayCmdLineLen] *)
  DisplayCmdLine : list Z * Z;
  HwFenceCmdLine : list Z * Z;
  GpuCmdLine : list Z * Z;
  AudioFrameWork : list Z;
  BootForceNormalBoot : Z;
  SystemdSlotEnv : list Z;
  BootConfigList : list (list Z);
  CmdLineLen : Z;
  BootConfigLen : Z;
  FinalCmdLine : option (list Z);
  FinalBootConfig : option (list Z * Z);
}.

(** The arguments of [UpdateCmdLine], with the fields of [BootParamlist] it
    reads: the command line of the image, the size of the ramdisk and the
    device tree. *)
Record CmdArgs := mkArgs {
  a_CmdLine : option (list Z);
  a_RamdiskSize : Z;
  a_fdt : list Z;
  a_FfbmStr : option (list Z);
  a_Recovery : bool;
  a_FlashlessBoot : bool;
  a_NetworkBoot : bool;
  a_AlarmBoot : bool;
  a_VBCmdLine : option (list Z);
  a_HeaderVersion : Z;
  a_SilentMode : Z;
}.

(** What other parts answer that are not modelled. *)
Record CmdWorld := mkCmdWorld {
  (** [LocateProtocol] and [MdtpGetState] of the MDTP protocol *)
  q_LocateMdtp : EFI_STATUS;
  q_MdtpState : EFI_STATUS * Z;
  (** [GetLEVerityCmdLine]: the status, the text and its length *)
  q_LEVerity : list Z -> EFI_STATUS * (option (list Z) * Z);
  (** [BoardPlatformChipBaseBand]; it may be [NULL] *)
  q_ChipBaseBand : option (list Z);
  (** [RecoveryHasNoKernel] *)
  q_RecoveryHasNoKernel : bool;
  (** [GetDdrSize], and the RAM partitions without the carve-outs, if any *)
  q_DdrSize : EFI_STATUS * Z;
  q_UpdRam : option (list RamPartitionEntry);
  (** the six texts of [GetEarlyEthInfoFromPartition] *)
  q_EarlyEth : list (list Z);
  (** [GetEarlyUsbCmdlineParam], [GetIntegrityIMACmdline] *)
  q_EarlyUsb : list Z;
  q_IMA : list Z;
  q_BootCpuId : Z;
  (** the bytes in memory behind the character [BootForceNormalBoot] *)
  q_behind : list Z;
}.

Section Cmd.
Context `{F : Firmware} `{B : BuildConfig} `{C : CmdConfig}.
Abbreviation MC := (M CmdState).

Definition set_w (w : World) (s : CmdState) : CmdState :=
  mkCmd _ w (cs_loc s) (cs_nodes s) (DisplayCmdLine s) (HwFenceCmdLine s) (GpuCmdLine s) (AudioFrameWork s)
    (BootForceNormalBoot s) (SystemdSlotEnv s) (BootConfigList s) (CmdLineLen s) (BootConfigLen s)
    (FinalCmdLine s) (FinalBootConfig s).
Definition set_nodes (n : list FDT_FIRST_LEVEL_NODE) (s : CmdState) : CmdState :=
  mkCmd _ (cs_w s) (cs_loc s) n (DisplayCmdLine s) (HwFenceCmdLine s) (GpuCmdLine s) (AudioFrameWork s)
    (BootForceNormalBoot s) (SystemdSlotEnv s) (BootConfigList s) (CmdLineLen s) (BootConfigLen s)
    (FinalCmdLine s) (FinalBootConfig s).
Definition set_texts (d h g : list Z * Z) (a : list Z) (s : CmdState) : CmdState :=
  mkCmd _ (cs_w s) (cs_loc s) (cs_nodes s) d h g a
    (BootForceNormalBoot s) (SystemdSlotEnv s) (BootConfigList s) (CmdLineLen s) (BootConfigLen s)
    (FinalCmdLine s) (FinalBootConfig s).
Definition set_force (c : Z) (s : CmdState) : CmdState :=
  mkCmd _ (cs_w s) (cs_loc s) (cs_nodes s) (DisplayCmdLine s) (HwFenceCmdLine s) (GpuCmdLine s) (AudioFrameWork s)
    c (SystemdSlotEnv s) (BootConfigList s) (CmdLineLen s) (BootConfigLen s)
    (FinalCmdLine s) (FinalBootConfig s).
Definition set_slot_env (e : list Z) (s : CmdState) : CmdState :=
  mkCmd _ (cs_w s) (cs_loc s) (cs_nodes s) (DisplayCmdLine s) (HwFenceCmdLine s) (GpuCmdLine s) (AudioFrameWork s)
    (BootForceNormalBoot s) e (BootConfigList s) (CmdLineLen s) (BootConfigLen s)
    (FinalCmdLine s) (FinalBootConfig s).
Definition set_list (l : list (list Z)) (s : CmdState) : CmdState :=
  mkCmd _ (cs_w s) (cs_loc s) (cs_nodes s) (DisplayCmdLine s) (HwFenceCmdLine s) (GpuCmdLine s) (AudioFrameWork s)
    (BootForceNormalBoot s) (SystemdSlotEnv s) l (CmdLineLen s) (BootConfigLen s)
    (FinalCmdLine s) (FinalBootConfig s).
Definition set_lens (c b : Z) (s : CmdState) : CmdState :=
  mkCmd _ (cs_w s) (cs_loc s) (cs_nodes s) (DisplayCmdLine s) (HwFenceCmdLine s) (GpuCmdLine s) (AudioFrameWork s)
    (BootForceNormalBoot s) (SystemdSlotEnv s) (BootConfigList s) c b
    (FinalCmdLine s) (FinalBootConfig s).
Definition set_final (d : option (list Z)) (s : CmdState) : CmdState :=
  mkCmd _ (cs_w s) (cs_loc s) (cs_nodes s) (DisplayCmdLine s) (HwFenceCmdLine s) (GpuCmdLine s) (AudioFrameWork s)
    (BootForceNormalBoot s) (SystemdSlotEnv s) (BootConfigList s) (CmdLineLen s) (BootConfigLen s)
    d (FinalBootConfig s).
Definition set_config (d : option (list Z * Z)) (s : CmdState) : CmdState :=
  mkCmd _ (cs_w s) (cs_loc s) (cs_nodes s) (DisplayCmdLine s) (HwFenceCmdLine s) (GpuCmdLine s) (AudioFrameWork s)
    (BootForceNormalBoot s) (SystemdSlotEnv s) (BootConfigList s) (CmdLineLen s) (BootConfigLen s)
    (FinalCmdLine s) d.

(** A call of a part that works on its own statics. *)
Definition on_world {R A} (m : MW A A) : MC R A := fun s =>
  match m (cs_w s) with
  | (Go a, w) | (Return a, w) => (Go a, set_w w s)
  | (Halt h, w) => (Halt h, set_w w s)
  end.
Definition on_nodes {R A} (m : M (list FDT_FIRST_LEVEL_NODE) A A) : MC R A := fun s =>
  match m (cs_nodes s) with
  | (Go a, n) | (Return a, n) => (Go a, set_nodes n s)
  | (Halt h, n) => (Halt h, set_nodes n s)
  end.
Definition alloc {R} (n : Z) : MC R bool := on_world (ask (fun x => AllocateZeroPool x n)).
Definition world {R} : MC R World := s ← get; mret (cs_w s).

Definition IsLVBootslotEnabled : bool := SUPPORT_AB_BOOT_LXC.
Definition IsLEVerity : bool := VERITY_LE.
Definition EarlyServicesEnabled : bool := ENABLE_EARLY_SERVICES.
Definition IsBuildUseRecoveryAsBoot : bool := BUILD_USES_RECOVERY_AS_BOOT.
Definition BootCpuSelectionEnabled : bool := TARGET_LINUX_BOOT_CPU_ID.
Definition IsBuildAsSystemRootImage (a : CmdArgs) : bool := a_RamdiskSize a =? 0.
Definition RootCmdLine : list Z := if RW_ROOTFS then L " rootwait rw init=" else L " rootwait ro init=".
Definition InitCmdline : list Z := INIT_BIN.

(** ** Strings *)

(** [NULL] as the source is refused. *)
Definition AsciiStrCpyS {S R} (Destination : list Z) (DestMax : Z) (Source : option (list Z)) :
    M S R (EFI_STATUS * list Z) :=
  match Source with
  | None => mret (EFI_INVALID_PARAMETER, Destination)
  | Some Source =>
      if negb (DestMax <=? RSIZE_MAX) then mret (EFI_INVALID_PARAMETER, Destination)
      else if DestMax =? 0 then mret (EFI_INVALID_PARAMETER, Destination)
      else if negb (StrnLenS Source DestMax <? DestMax) then mret (EFI_BUFFER_TOO_SMALL, Destination)
      else
        d ← copy_chars Destination 0 Source (StrLen Source);
        mret (EFI_SUCCESS, d)
  end.

Definition AsciiStrCatS {S R} (Destination : list Z) (DestMax : Z) (Source : option (list Z)) :
    M S R (EFI_STATUS * list Z) :=
  let DestLen := StrnLenS Destination DestMax in
  let CopyLen := DestMax - DestLen in
  match Source with
  | None => mret (EFI_INVALID_PARAMETER, Destination)
  | Some Source =>
      if negb (DestMax <=? RSIZE_MAX) then mret (EFI_INVALID_PARAMETER, Destination)
      else if DestMax =? 0 then mret (EFI_INVALID_PARAMETER, Destination)
      else if CopyLen =? 0 then mret (EFI_BAD_BUFFER_SIZE, Destination)
      else if negb (StrnLenS Source CopyLen <? CopyLen) then mret (EFI_BUFFER_TOO_SMALL, Destination)
      else
        d ← copy_chars Destination DestLen Source (StrLen Source);
        mret (EFI_SUCCESS, d)
  end.

Fixpoint AsciiStriCmp (FirstString SecondString : list Z) : Z :=
  let UpperFirst := AsciiCharToUpper (hd0 FirstString) in
  let UpperSecond := AsciiCharToUpper (hd0 SecondString) in
  match FirstString, SecondString with
  | f :: FirstString', s :: SecondString' =>
      if negb (f =? 0) && negb (s =? 0) && (UpperFirst =? UpperSecond)
      then AsciiStriCmp FirstString' SecondString' else UpperFirst - UpperSecond
  | _, _ => UpperFirst - UpperSecond
  end.

(** * The boot configuration *)

(** Which parameters are written to the boot configuration. *)
Definition IsAndroidBootParam (param : list Z) (ParamLen HeaderVersion : Z) : bool :=
  if ParamLen <? 12 then false
  else if negb SUPPORT_AB_BOOT_LXC && (HeaderVersion <=? BOOT_HEADER_VERSION_THREE) then false
  else bool_decide (is_Some (AsciiStrStr param (L "androidboot."))).

Definition ADD_PARAM_LEN {R} (BootConfigFlag : bool) (ParamLen : Z) : MC R unit :=
  modify (fun s =>
    set_lens (u32 (CmdLineLen s + ParamLen))
      (if BootConfigFlag then u32 (BootConfigLen s + (ParamLen + SIZE_OF_DELIM)) else BootConfigLen s) s).

(** [CmdLineLen += n] *)
Definition add_len {R} (n : Z) : MC R unit := ADD_PARAM_LEN false n.

(** The loop of [RemoveSpace], in place; returns the array and [NewIter]. *)
Definition remove_step {S R} (Iter : Z) (st : list Z * Z) : M S R (bool * (list Z * Z)) :=
  let '(param, NewIter) := st in
  c ← need OutOfBounds (if 0 <=? Iter then param !! Z.to_nat Iter else None);
  if negb (c =? 32) then
    param ← store param NewIter [c];
    mret (false, (param, u32 (NewIter + 1)))
  else mret (false, (param, u32 (u32 (NewIter - 1) + 1))).

Definition RemoveSpace {S R} (param : list Z) (ParamLen : Z) : M S R (list Z) :=
  st ← for_up (Z.to_nat ParamLen) 0 (param, 0) remove_step;
  store st.1 st.2 [0].

(** The array and the length of the string in it. *)
Definition ChangeFormattoBootConfig {S R} (Param : list Z) (ParamLen : Z) : M S R (list Z * Z) :=
  Param ← RemoveSpace Param ParamLen;
  mret (Param, AsciiStrLen Param).

(** The array of the new node. *)
Definition AllocateBootConfigNode {R} (ParamLen : Z) : MC R (option (list Z)) :=
  ok ← alloc BOOT_CONFIG_NODE_SIZE;
  if negb ok then mret None
  else
    ok ← alloc (u32 (ParamLen + SIZE_OF_DELIM));
    mret (if (ok : bool) then Some (zeros (u32 (ParamLen + SIZE_OF_DELIM))) else None).

Definition AddtoBootConfigList {R} (BootConfigFlag : bool) (ParamKey : list Z) (ParamValue : option (list Z))
    (ParamKeyLen ParamValueLen : Z) : MC R unit :=
  if negb BootConfigFlag then mret tt
  else
    node ← AllocateBootConfigNode (u32 (ParamKeyLen + SIZE_OF_DELIM + SIZE_OF_DELIM + ParamValueLen));
    match node with
    | None => mret tt
    | Some param =>
        key ← need OutOfBounds (buf_read ParamKey 0 ParamKeyLen);
        param ← store param 0 key;
        param ← (match ParamValue with
                 | None => mret param
                 | Some v =>
                     value ← need OutOfBounds (buf_read v 0 ParamValueLen);
                     store param ParamKeyLen value
                 end);
        r ← ChangeFormattoBootConfig param (u32 (ParamKeyLen + ParamValueLen));
        modify (fun s => set_list (BootConfigList s ++ [r.1]) s)
    end.

(** The three steps with which [UpdateCmdLine] accounts for a parameter: its
    length, its entry, and the length of its value. *)
Definition count_param {R} (HeaderVersion : Z) (key : list Z) (value : option (list Z)) : MC R unit :=
  let ParamLen := AsciiStrLen key in
  let BootConfigFlag := IsAndroidBootParam key ParamLen HeaderVersion in
  ADD_PARAM_LEN BootConfigFlag ParamLen;;
  match value with
  | None => AddtoBootConfigList BootConfigFlag key None ParamLen 0
  | Some v =>
      AddtoBootConfigList BootConfigFlag key (Some v) ParamLen (AsciiStrLen v);;
      ADD_PARAM_LEN BootConfigFlag (AsciiStrLen v)
  end.

(** The loop of [UpdateBootConfigParams] over the list. *)
Fixpoint config_loop {S R} (BootConfigLen : Z) (Dst : list Z) (l : list (list Z)) : M S R (list Z) :=
  match l with
  | [] => mret Dst
  | param :: l' =>
      r ← AsciiStrCatS Dst BootConfigLen (Some param);
      r ← AsciiStrCatS r.2 BootConfigLen (Some [10]);
      config_loop BootConfigLen r.2 l'
  end.

Definition UpdateBootConfigParams : MC EFI_STATUS EFI_STATUS :=
  s ← get;
  let BootConfigLen := u32 (BootConfigLen s + SIZE_OF_DELIM) in
  if BootConfigLen =? 0 then early EFI_D_ERROR
  else
    ok ← alloc (u32 (BootConfigLen + SIZE_OF_DELIM));
    if negb ok then early EFI_OUT_OF_RESOURCES
    else
      Dst ← store (zeros (u32 (BootConfigLen + SIZE_OF_DELIM))) 0 [10; 0];
      Dst ← config_loop BootConfigLen Dst (BootConfigList s);
      Dst ← store Dst (AsciiStrLen Dst + 1) [0];
      modify (set_config (Some (Dst, u32 (AsciiStrLen Dst + 1))));;
      mret EFI_SUCCESS.

Definition ClearBootConfigList {R} : MC R unit := modify (set_list []).

(** * Texts from elsewhere *)

(** A variable of the firmware into a static array with its length. *)
Definition read_text {R} (name : list Z) (text : list Z * Z) : MC R (EFI_STATUS * (list Z * Z)) :=
  r ← on_world (ask (fun x => GetVariable x name text.2));
  if negb (r.1 =? EFI_SUCCESS) then mret (r.1, (text.1, r.2.1))
  else b ← store text.1 0 r.2.2; mret (r.1, (b, r.2.1)).

Definition GetDisplayCmdline {R} : MC R unit :=
  s ← get;
  r ← read_text (L "DisplayPanelConfiguration") (DisplayCmdLine s);
  modify (fun s => set_texts r.2 (HwFenceCmdLine s) (GpuCmdLine s) (AudioFrameWork s) s).

Definition GetHwFenceCmdline {R} : MC R unit :=
  s ← get;
  r ← read_text (L "HwFenceConfiguration") (HwFenceCmdLine s);
  modify (fun s => set_texts (DisplayCmdLine s) r.2 (GpuCmdLine s) (AudioFrameWork s) s).

Definition GetGpuCmdline {R} : MC R EFI_STATUS :=
  s ← get;
  r ← read_text (L "GpuConfiguration") (GpuCmdLine s);
  modify (fun s => set_texts (DisplayCmdLine s) (HwFenceCmdLine s) r.2 (AudioFrameWork s) s);;
  mret r.1.

(** [ReadAudioFrameWork] of [DeviceInfo.c]: the text and its length. *)
Definition ReadAudioFrameWork (w : World) : EFI_STATUS * (list Z * Z) :=
  if FirstReadDevInfo (dv w) then (EFI_NOT_STARTED, ([], 0))
  else (EFI_SUCCESS, (AudioFramework (DevInfo (dv w)), MAX_AUDIO_FW_LENGTH)).

Definition GetAudioFrameWork {R} : MC R unit :=
  let Length := AsciiStrLen AUDIO_FRAMEWORK in
  if negb (Length >? 0) then mret tt
  else
    s ← get;
    r ← AsciiStrCpyS (AudioFrameWork s) (Length + 1) (Some AUDIO_FRAMEWORK);
    let FrameWork := r.2 in
    let '(Status, (Src, Length)) := ReadAudioFrameWork (cs_w s) in
    r ← (if (Status =? EFI_SUCCESS) && negb (Length =? 0)
         then AsciiStrCpyS FrameWork Length (Some Src) else mret (Status, FrameWork));
    modify (fun s => set_texts (DisplayCmdLine s) (HwFenceCmdLine s) (GpuCmdLine s) r.2 s).

(** The search of [GetMemoryLimit] in the table at [MemTable]: [i] is
    unsigned, so that the loop only ends at an entry that fits. *)
Fixpoint offline_loop {S R} (fuel : nat) (fdt : list Z) (MemTable i DdrSize MemLimit : Z) : M S R Z :=
  match fuel with
  | O => stop Forever
  | Datatypes.S fuel' =>
      v ← fdt64 fdt (MemTable + 8 * i);
      if v <=? DdrSize then
        off ← fdt64 fdt (MemTable + 8 * u32 (i + 1));
        mret (u64 (MemLimit - off))
      else offline_loop fuel' fdt MemTable (u32 (i - 2)) DdrSize MemLimit
  end.

(** The status and [MemOffAmt]. *)
Definition GetMemoryLimit {R} (q : CmdWorld) (fdt : list Z) : MC R (EFI_STATUS * list Z) :=
  let Unsupported := mret (EFI_UNSUPPORTED, zeros MEM_OFF_SIZE) in
  if IsLEVariant then Unsupported
  else if EFI_ERROR (q_DdrSize q).1 then mret ((q_DdrSize q).1, zeros MEM_OFF_SIZE)
  else
    let DdrSize :=
      match q_UpdRam q with
      | None => (q_DdrSize q).2
      | Some ps => fold_left (fun n p => u64 (n + AvailableLength p)) ps 0
      end in
    w ← world;
    MemOfflineOffset ← on_nodes (FdtPathOffset (AllocateZeroPool (fw w)) fdt (L "/mem-offline"));
    st ← fdt_getprop fdt MemOfflineOffset (L "status");
    disabled ← (match st.1 with
                | None => mret false
                | Some p =>
                    b ← need OutOfBounds (buf_read fdt p (Z.max 0 (Z.of_nat (length fdt) - p)));
                    mret (AsciiStrnCmp b (L "disabled") st.2 =? 0)
                end);
    if (disabled : bool) then Unsupported
    else if (DdrSize <? MEM_OFF_MIN) || (MemOfflineOffset <? 0) then Unsupported
    else
      t ← fdt_getprop fdt MemOfflineOffset (L "offline-sizes");
      match t.1 with
      | None => Unsupported
      | Some MemTable =>
          if t.2 <? 0 then Unsupported
          else
            first ← fdt64 fdt MemTable;
            MemLimit ←
              (if first <=? DdrSize
               then offline_loop (Datatypes.S (length fdt)) fdt MemTable (u32 (t.2 / 8 - 2)) DdrSize DdrSize
               else mret DdrSize);
            MemOffAmt ← AsciiSPrint (zeros MEM_OFF_SIZE) MEM_OFF_SIZE (fmt_llu MemLimit ++ L "B");
            mret (EFI_SUCCESS, MemOffAmt)
      end.

(** * The first pass: lengths and boot configuration *)

(** The fields of [UpdateCmdLineParamList] that are not constant. *)
Record UpdateCmdLineParamList := mkParam {
  MultiSlotBoot : bool;
  MdtpActive : bool;
  PauseAtBootUp : bool;
  StrSerialNum : list Z;
  BootDevBuf : option (list Z);
  DtboIdxStr : list Z;
  DtbIdxStr : list Z;
  LEVerityCmdLine : option (list Z);
  FstabSuffix : list Z;
  MemOffAmt : option (list Z);
  p_NoPasr : bool;
  ResumeCmdLine : option (list Z);
  SilentBootModeCmdLine : option (list Z);
  BootCpuCmdLine : list Z;
  ModemPathCmdLine : option (list Z);
}.

Section Passes.
Variables (a : CmdArgs) (q : CmdWorld).
Local Abbreviation V := (a_HeaderVersion a).
Local Abbreviation old := (a_HeaderVersion a <=? BOOT_HEADER_VERSION_THREE).

Definition HaveCmdLine : bool := match a_CmdLine a with Some c => negb (hd0 c =? 0) | None => false end.
Definition the_CmdLine : list Z := default [] (a_CmdLine a).
Definition HaveFfbm : bool := match a_FfbmStr a with Some f => negb (hd0 f =? 0) | None => false end.

(** The command line of the image and of verified boot, and the verity
    arguments. *)
Definition count_given {R} : MC R (option (list Z)) :=
  (if HaveCmdLine then modify (fun s => set_lens (AsciiStrLen the_CmdLine) (BootConfigLen s) s) else mret tt);;
  (match a_VBCmdLine a with
   | None => mret tt
   | Some vb => ADD_PARAM_LEN (IsAndroidBootParam vb (AsciiStrLen vb) V) (AsciiStrLen vb)
   end);;
  if HaveCmdLine && IsLEVerity then
    let r := q_LEVerity q the_CmdLine in
    add_len r.2.2;;
    mret r.2.1
  else mret None.

(** The boot device, when it is known. *)
Definition count_device : MC EFI_STATUS (option (list Z)) :=
  ok ← alloc BOOT_DEV_MAX_LEN;
  if negb ok then early EFI_OUT_OF_RESOURCES
  else
    r ← on_world (GetBootDevice (zeros BOOT_DEV_MAX_LEN) BOOT_DEV_MAX_LEN);
    if negb (r.1 =? EFI_SUCCESS) then mret None
    else
      count_param V BootDeviceCmdLine (Some r.2);;
      w ← world;
      (if IsDynamicPartitionSupport (pt w) then count_param V DynamicBootDeviceCmdLine (Some r.2) else mret tt);;
      mret (Some r.2).

(** The boot mode; returns [PauseAtBootUp]. *)
Definition count_mode {R} : MC R bool :=
  w ← world;
  let BatteryStatus := (TargetPauseForBatteryCharge (fw w)).2 in
  if HaveFfbm then
    count_param V AndroidBootMode (a_FfbmStr a);;
    count_param V LogLevel None;;
    mret false
  else if BatteryStatus && IsChargingScreenEnable w && negb (a_Recovery a) then
    count_param V BatteryChgPause None;;
    mret true
  else if a_AlarmBoot a then count_param V AlarmBootCmdLine None;; mret false
  else mret false.

(** A parameter with room for the suffix of a slot behind it. *)
Definition count_suffixed {R} (key : list Z) (add : bool) : MC R unit :=
  let ParamLen := u32 (AsciiStrLen key + MAX_SLOT_SUFFIX_SZ) in
  let BootConfigFlag := IsAndroidBootParam key ParamLen V in
  ADD_PARAM_LEN BootConfigFlag ParamLen;;
  if add then AddtoBootConfigList BootConfigFlag key None ParamLen 0 else mret tt.

(** Whether the root file system is named on the command line. *)
Definition root_needed (Multi : bool) (w : World) : bool :=
  (IsBuildAsSystemRootImage a && negb Multi) || (Multi && negb (IsBootDevImage w)).

(** From the activation of MDTP to the root file system; returns
    [MultiSlotBoot]. *)
Definition count_slot {R} (Mdtp : bool) : MC R bool :=
  (if Mdtp then count_param V MdtpActiveFlag None else mret tt);;
  t ← on_world CheckRootDeviceType;
  (if bool_decide (t = NAND) then count_suffixed PartActiveBoot true else mret tt);;
  Multi ← on_world (PartitionHasMultiSlot (L "boot"));
  s ← get;
  (if Multi && negb (IsBootDevImage (cs_w s)) then
     if IsLEVariant && negb IsLVBootslotEnabled then count_param V (SystemdSlotEnv s) None
     else count_suffixed AndroidSlotSuffix false
   else mret tt);;
  (if root_needed Multi (cs_w s) then
     count_param V RootCmdLine None;;
     count_param V InitCmdline None;;
     if negb (IsDynamicPartitionSupport (pt (cs_w s))) && negb (a_Recovery a)
     then count_param V SkipRamFs None else mret tt
   else mret tt);;
  mret Multi.

(** The texts of display, fence, GPU and audio. *)
Definition count_texts {R} : MC R unit :=
  GetDisplayCmdline;;
  s ← get; count_param V (DisplayCmdLine s).1 None;;
  GetHwFenceCmdline;;
  s ← get; count_param V (HwFenceCmdLine s).1 None;;
  Status ← GetGpuCmdline;
  (if Status =? EFI_SUCCESS then s ← get; count_param V (GpuCmdLine s).1 None else mret tt);;
  if negb (a_FlashlessBoot a) && negb (a_NetworkBoot a) then
    GetAudioFrameWork;;
    s ← get;
    if negb (AsciiStrLen (AudioFrameWork s) =? 0) then count_param V AndroidBootAudioFW (Some (AudioFrameWork s))
    else mret tt
  else mret tt.

(** The index of an overlay or a tree, if there is one. *)
Definition count_idx {R} (key : list Z) (Idx : Z) : MC R (list Z) :=
  if Idx =? INVALID_PTN then mret (zeros MAX_DTBO_IDX_STR)
  else
    t ← AsciiSPrint (zeros MAX_DTBO_IDX_STR) MAX_DTBO_IDX_STR (key ++ fmt_d Idx);
    count_param V t None;;
    mret t.

Definition count_indices {R} : MC R (list Z * list Z) :=
  if IsLEVariant then mret (zeros MAX_DTBO_IDX_STR, zeros MAX_DTBO_IDX_STR)
  else
    s ← get;
    dtbo ← count_idx AndroidBootDtboIdx (DtboIdx (cs_loc s));
    s ← get;
    dtb ← count_idx AndroidBootDtbIdx (DtbIdx (cs_loc s));
    mret (dtbo, dtb).

(** The conditions of the two passes on [androidboot.force_normal_boot]
    differ in where the test for recovery stands. *)
Definition force_counted (Multi : bool) (w : World) : bool :=
  ((IsBuildUseRecoveryAsBoot || q_RecoveryHasNoKernel q) && IsDynamicPartitionSupport (pt w) &&
   negb (a_Recovery a)) || (negb Multi && negb IsBuildUseRecoveryAsBoot).

Definition count_force {R} (Multi : bool) : MC R unit :=
  (if negb (q_RecoveryHasNoKernel q) && negb (a_Recovery a) then modify (set_force 49) else mret tt);;
  s ← get;
  if force_counted Multi (cs_w s) then
    let ParamLen := AsciiStrLen AndroidBootForceNormalBoot in
    let BootConfigFlag := IsAndroidBootParam AndroidBootForceNormalBoot ParamLen V in
    ADD_PARAM_LEN BootConfigFlag ParamLen;;
    AddtoBootConfigList BootConfigFlag AndroidBootForceNormalBoot (Some [BootForceNormalBoot s]) ParamLen 1;;
    ADD_PARAM_LEN BootConfigFlag 1
  else mret tt.

(** Returns [FstabSuffix]. *)
Definition count_fstab {R} : MC R (list Z) :=
  let ParamLen := AsciiStrLen AndroidBootFstabSuffix in
  let BootConfigFlag := IsAndroidBootParam AndroidBootFstabSuffix ParamLen V in
  ADD_PARAM_LEN BootConfigFlag ParamLen;;
  RootDevStr ← on_world GetRootDeviceType;
  let FstabSuffix :=
    if AsciiStriCmp FstabSuffixEmmc RootDevStr =? 0 then FstabSuffixEmmc
    else if negb (AsciiStriCmp FstabSuffixEmmc RootDevStr =? 0) && a_NetworkBoot a then FstabSuffixNetworkBoot
    else FstabSuffixDefault in
  AddtoBootConfigList BootConfigFlag AndroidBootFstabSuffix (Some FstabSuffix) ParamLen (AsciiStrLen FstabSuffix);;
  ADD_PARAM_LEN BootConfigFlag (AsciiStrLen FstabSuffix);;
  mret FstabSuffix.

(** The memory limit: [MemOffAmt] and whether [NoPasr] is set. *)
Definition count_memory {R} : MC R (option (list Z) * bool) :=
  r ← GetMemoryLimit q (a_fdt a);
  if (r.1 =? EFI_SUCCESS) && HaveCmdLine then
    if bool_decide (is_Some (AsciiStrStr the_CmdLine MemOff)) then
      ADD_PARAM_LEN (IsAndroidBootParam NoPasr (AsciiStrLen NoPasr) V) (AsciiStrLen NoPasr);;
      mret (None, true)
    else
      count_param V MemOff None;;
      count_param V r.2 None;;
      count_param V MemHpState None;;
      count_param V MovableNode None;;
      mret (Some r.2, false)
  else mret (None, false).

(** Returns [SilentBootModeCmdLine]. *)
Definition silent_text : option (list Z) :=
  let m := a_SilentMode a in
  if m =? SILENT_MODE then Some SilentBootEnbCmdLine
  else if m =? NON_SILENT_MODE then Some SilentBootDisCmdLine
  else if m =? FORCED_SILENT then Some SilentBootForCmdLine
  else if m =? FORCED_NON_SILENT then Some SilentBootNForCmdLine
  else None.

(** The early services, the CPU, the terminator and the resume path; returns
    [BootCpuCmdLine] and [ResumeCmdLine]. *)
Definition count_rest {R} : MC R (list Z * option (list Z)) :=
  (if a_FlashlessBoot a || a_NetworkBoot a then count_param V WarmResetArgs None else mret tt);;
  (match silent_text with Some t => add_len (AsciiStrLen t) | None => mret tt end);;
  (if EARLY_ETH_ENABLED then foldr (fun t m => add_len (AsciiStrLen t);; m) (mret tt) (q_EarlyEth q) else mret tt);;
  (if EARLY_USB_ENABLED then add_len (AsciiStrLen (q_EarlyUsb q)) else mret tt);;
  (if INTEGRITY_IMA_ENABLED then add_len (AsciiStrLen (q_IMA q)) else mret tt);;
  cpu ← (if BootCpuSelectionEnabled then
           t ← AsciiSPrint (zeros BOOT_CPU_PARAM_LEN) BOOT_CPU_PARAM_LEN (L " boot_cpu=" ++ fmt_d (q_BootCpuId q));
           count_param V t None;;
           mret t
         else mret []);
  add_len 1;;
  w ← world;
  resume ← (if IsHibernationEnabled (pt w) then
              r ← on_world GetResumeCmdLine;
              add_len r.2;;
              mret r.1
            else mret None);
  mret (cpu, resume).

(** * The second pass: the text *)

(** [AsciiStrCatS (Dst, MaxCmdLineLen, Src)]; the status is not looked at. *)
Definition cat {R} (MaxCmdLineLen : Z) (Src : option (list Z)) : MC R unit :=
  s ← get;
  Dst ← need NullDeref (FinalCmdLine s);
  r ← AsciiStrCatS Dst MaxCmdLineLen Src;
  modify (set_final (Some r.2)).

(** Some pieces one after the other. *)
Definition cats_to {R} (Max : Z) (l : list (list Z)) : MC R unit :=
  foldr (fun t m => cat Max (Some t);; m) (mret tt) l.
Definition cats_when {R} (Max : Z) (b : bool) (l : list (list Z)) : MC R unit :=
  if b then cats_to Max l else mret tt.

Section Text.
Context {R : Type}.
Variables (p : UpdateCmdLineParamList) (Max : Z).
Local Abbreviation cats := (@cats_to R Max).
Local Abbreviation when := (@cats_when R Max).

(** [ParseVBCmdLine], then the whole of it as one entry. *)
Definition ParseVBCmdLine (VBCmdLine : list Z) : list Z :=
  map (fun c => if c =? 32 then 10 else c) VBCmdLine.

Definition text_given : MC R unit :=
  (if HaveCmdLine then
     s ← get;
     Dst ← need NullDeref (FinalCmdLine s);
     r ← AsciiStrCpyS Dst Max (Some the_CmdLine);
     modify (set_final (Some r.2))
   else mret tt);;
  match a_VBCmdLine a with
  | None => mret tt
  | Some vb =>
      if old then cats [vb]
      else
        let BootConfigFlag := IsAndroidBootParam vb (AsciiStrLen vb) V in
        let vb := ParseVBCmdLine (cstr vb) in
        AddtoBootConfigList BootConfigFlag vb None (AsciiStrLen vb) 0
  end.

Definition text_device : MC R unit :=
  (if a_FlashlessBoot a then cats [WarmResetArgs]
   else when (a_NetworkBoot a) [WarmResetArgs; AndroidBootFstabSuffix; FstabSuffix p]);;
  match BootDevBuf p with
  | Some dev =>
      if old then
        cats [BootDeviceCmdLine; dev; AndroidBootFstabSuffix; FstabSuffix p];;
        w ← world;
        when (IsDynamicPartitionSupport (pt w)) [DynamicBootDeviceCmdLine; dev]
      else mret tt
  | None => mret tt
  end.

Definition text_mode : MC R unit :=
  when old [UsbSerialCmdLine; StrSerialNum p];;
  if HaveFfbm then when old [AndroidBootMode; default [] (a_FfbmStr a)];; cats [LogLevel]
  else if PauseAtBootUp p then when old [BatteryChgPause]
  else if a_AlarmBoot a then when old [AlarmBootCmdLine]
  else mret tt.

Definition text_baseband : MC R unit :=
  if old then
    cats [BOOT_BASE_BAND];;
    r ← AsciiStrnCpyS (zeros CHIP_BASE_BAND_LEN) CHIP_BASE_BAND_LEN (default [] (q_ChipBaseBand q))
           (CHIP_BASE_BAND_LEN - 1);
    cats [ToLower r.2]
  else mret tt.

Definition text_texts : MC R unit :=
  s ← get;
  cats [(DisplayCmdLine s).1; (HwFenceCmdLine s).1; (GpuCmdLine s).1];;
  when (MdtpActive p) [MdtpActiveFlag].

(** The active boot partition on NAND. *)
Definition text_nand : MC R unit :=
  t ← on_world CheckRootDeviceType;
  if bool_decide (t = NAND) then
    cats [PartActiveBoot];;
    if MultiSlotBoot p then
      CurrentSlot ← on_world GetCurrentSlotSuffix;
      ri ← on_world IsRecoveryInfo;
      if negb ri || negb (StrCmp CurrentSlot (L "_a") =? 0) then
        suffix ← AsciiSPrint (zeros 6) 6 (cstr CurrentSlot);
        cats [suffix]
      else mret tt
    else mret tt
  else mret tt.

(** The last character of the suffix into [SystemdSlotEnv], which is then
    appended. *)
Definition text_slot_env (SlotSuffixAscii : list Z) : MC R unit :=
  s ← get;
  c ← need OutOfBounds (SlotSuffixAscii !! 1%nat);
  env ← store (SystemdSlotEnv s) (AsciiStrLen (SystemdSlotEnv s) - 2) [c];
  modify (set_slot_env env);;
  cats [env].

Definition text_slot : MC R unit :=
  if MultiSlotBoot p then
    w ← world;
    if negb (IsBootDevImage w) then
      Suffix ← on_world GetCurrentSlotSuffix;
      SlotSuffixAscii ← UnicodeStrToAsciiStr Suffix (zeros MAX_SLOT_SUFFIX_SZ);
      if IsLEVariant && negb IsLVBootslotEnabled then text_slot_env SlotSuffixAscii
      else if old then cats [AndroidSlotSuffix; SlotSuffixAscii]
      else
        AddtoBootConfigList (IsAndroidBootParam AndroidSlotSuffix (AsciiStrLen AndroidSlotSuffix) V)
          AndroidSlotSuffix (Some SlotSuffixAscii) (AsciiStrLen AndroidSlotSuffix) (AsciiStrLen SlotSuffixAscii)
    else
      ri ← on_world IsRecoveryInfo;
      if ri && IsLEVariant then
        Suffix ← on_world GetCurrentSlotSuffix;
        SlotSuffixAscii ← UnicodeStrToAsciiStr Suffix (zeros MAX_SLOT_SUFFIX_SZ);
        text_slot_env SlotSuffixAscii
      else mret tt
  else mret tt.

Definition text_root : MC R unit :=
  w ← world;
  if root_needed (MultiSlotBoot p) w then
    when (negb (IsDynamicPartitionSupport (pt w)) && negb (a_Recovery a)) [SkipRamFs];;
    cats [RootCmdLine; InitCmdline]
  else mret tt.

Definition force_written (w : World) : bool :=
  negb (a_Recovery a) &&
  (((IsBuildUseRecoveryAsBoot || q_RecoveryHasNoKernel q) && IsDynamicPartitionSupport (pt w)) ||
   (negb (MultiSlotBoot p) && negb IsBuildUseRecoveryAsBoot)).

(** The indices, and the character [BootForceNormalBoot] as a string: it runs
    on into the bytes behind it. *)
Definition text_force : MC R unit :=
  when old [DtboIdxStr p];;
  when old [DtbIdxStr p];;
  w ← world;
  if force_written w then
    (if V <? BOOT_HEADER_VERSION_THREE then modify (set_force 49) else mret tt);;
    s ← get;
    when old [AndroidBootForceNormalBoot; BootForceNormalBoot s :: q_behind q]
  else mret tt.

Definition text_rest : MC R unit :=
  (match LEVerityCmdLine p with Some t => cats [t] | None => mret tt end);;
  (match MemOffAmt p with
   | Some m => cats [MemOff; m; MemHpState; MovableNode]
   | None => when (p_NoPasr p) [NoPasr]
   end);;
  when EARLY_ETH_ENABLED (q_EarlyEth q);;
  when EARLY_USB_ENABLED [q_EarlyUsb q];;
  when INTEGRITY_IMA_ENABLED [q_IMA q];;
  w ← world;
  (if IsHibernationEnabled (pt w) then cat Max (ResumeCmdLine p) else mret tt);;
  (match SilentBootModeCmdLine p with Some t => cats [t] | None => mret tt end);;
  when BootCpuSelectionEnabled [BootCpuCmdLine p];;
  match ModemPathCmdLine p with
  | Some t => when EarlyServicesEnabled [t]
  | None => mret tt
  end.
End Text.

Definition UpdateCmdLineParams (p : UpdateCmdLineParamList) : MC EFI_STATUS EFI_STATUS :=
  s ← get;
  let Max := CmdLineLen s in
  ok ← alloc Max;
  if negb ok then early EFI_OUT_OF_RESOURCES
  else
    modify (set_final (Some (zeros Max)));;
    text_given Max;;
    text_device p Max;;
    text_mode p Max;;
    text_baseband Max;;
    text_texts p Max;;
    text_nand p Max;;
    text_slot p Max;;
    text_root p Max;;
    text_force p Max;;
    text_rest p Max;;
    mret EFI_SUCCESS.

(** The first pass. *)
Definition count_all : MC EFI_STATUS UpdateCmdLineParamList :=
  serial ← on_world (BoardSerialNum (zeros SERIAL_NUM_SIZE) SERIAL_NUM_SIZE);
  if negb (serial.1 =? EFI_SUCCESS) then early serial.1
  else
    modify (set_lens 0 0);;
    let Mdtp :=
      if EnableMdtpSupport then
        let r := IsMdtpActive (q_LocateMdtp q) (q_MdtpState q) in
        if EFI_ERROR r.1 then true else r.2
      else false in
    verity ← count_given;
    dev ← count_device;
    count_param V UsbSerialCmdLine (Some serial.2);;
    pause ← count_mode;
    (if negb (bool_decide (is_Some (q_ChipBaseBand q))) then early EFI_NOT_FOUND else mret tt);;
    count_param V BOOT_BASE_BAND (q_ChipBaseBand q);;
    Multi ← count_slot Mdtp;
    count_texts;;
    modem ← (if EarlyServicesEnabled then
               r ← on_world (GetSystemPathByPname Multi (a_Recovery a) (Some (L "modem")) (Some (L "modem")));
               add_len r.2;;
               mret r.1
             else mret None);
    idx ← count_indices;
    count_force Multi;;
    fstab ← count_fstab;
    mem ← count_memory;
    rest ← count_rest;
    mret (mkParam Multi Mdtp pause serial.2 dev idx.1 idx.2 verity fstab mem.1 mem.2 rest.2 silent_text rest.1 modem).

Definition UpdateCmdLine : MC EFI_STATUS EFI_STATUS :=
  ok ← alloc LIST_ENTRY_SIZE;
  if negb ok then early EFI_OUT_OF_RESOURCES
  else
    modify (set_list []);;
    p ← count_all;
    Status ← call (UpdateCmdLineParams p);
    if negb (Status =? EFI_SUCCESS) then early Status
    else
      Status ← call UpdateBootConfigParams;
      if negb (Status =? EFI_SUCCESS) then early Status
      else ClearBootConfigList;; mret EFI_SUCCESS.
End Passes.
End Cmd.
