(* ===== verification/CmdCount.v ===== *)
(** Facts about the command line: buffers that hold a text and zeros behind it,
    [AsciiStrCatS] on them, [RemoveSpace] as a filter; and what the first pass
    of [UpdateCmdLine] does: each block counts a list of items, a parameter with
    an entry in the boot configuration where it belongs there, or room on the
    command line. *)
From Stdlib Require Import ZArith Lia.
From stdpp Require Import base list numbers option.
From S2P Require Import Prelude EfiBase Convert Firmware World LoaderLib Board Ptable DevInfo Gpt Slots SlotSpec Recovery Fastboot.
From S2P Require Import FastbootCmds Setup Fdt FdtRw Carveout DtMatch Locate CmdPath CmdLine.

(** * A text in a buffer *)

(** A buffer of [n] characters with [t] at its start. *)
Definition pad (n : Z) (t : list Z) : list Z := t ++ zeros (n - Z.of_nat (length t)).

Definition text_of (l : list (list Z)) : list Z := concat (map cstr l).

Lemma text_of_app l1 l2 : text_of (l1 ++ l2) = text_of l1 ++ text_of l2.
Proof. unfold text_of. by rewrite map_app, concat_app. Qed.

Lemma text_of_nonzero l : Forall (fun c => c <> 0) (text_of l).
Proof.
  induction l as [|t l IH]; [constructor|]. unfold text_of. simpl.
  apply Forall_app. split; [apply cstr_nonzero|exact IH].
Qed.

Lemma length_pad n t : Z.of_nat (length t) <= n -> Z.of_nat (length (pad n t)) = n.
Proof. intros H. unfold pad, zeros. rewrite length_app, length_replicate. lia. Qed.

Lemma cstr_pad n t :
  Forall (fun c => c <> 0) t -> Z.of_nat (length t) < n -> cstr (pad n t) = t.
Proof.
  intros Ht Hn. unfold pad, zeros.
  destruct (Z.to_nat (n - Z.of_nat (length t))) as [|k] eqn:E; [lia|].
  simpl. by apply cstr_app_0.
Qed.

(** Behind the text, with the terminator. *)
Lemma pad_write n t u :
  Z.of_nat (length t + length u) < n ->
  buf_write (pad n t) (Z.of_nat (length t)) (u ++ [0]) = Some (pad n (t ++ u)).
Proof.
  intros Hn. apply buf_write_Some. rewrite length_pad by lia. split; [lia|].
  split; [rewrite length_app; simpl; lia|].
  rewrite Nat2Z.id. unfold pad. rewrite take_app_length, drop_app_ge by lia.
  replace (length t + length (u ++ [0%Z]) - length t)%nat with (length (u ++ [0%Z])) by lia.
  unfold zeros. rewrite drop_replicate, !length_app. simpl.
  rewrite <-!(assoc (++)). do 2 f_equal.
  replace (Z.to_nat (n - Z.of_nat (length t + length u)))
    with (Datatypes.S (Z.to_nat (n - Z.of_nat (length t)) - (length u + 1)))%nat by lia.
  done.
Qed.

Section Strings.
Context {S R : Type}.
Implicit Types (s : S) (t src : list Z).

(** [AsciiStrCatS] appends a text that fits, and leaves the buffer as it is
    when it does not. *)
Lemma cat_fits n Max t src s :
  Forall (fun c => c <> 0) t -> Max <= n -> Max <= RSIZE_MAX ->
  Z.of_nat (length t) + StrLen src < Max ->
  (AsciiStrCatS (pad n t) Max (Some src) : M S R _) s = (Go (EFI_SUCCESS, pad n (t ++ cstr src)), s).
Proof.
  intros Ht Hn HM Hf. pose proof (Nat2Z.is_nonneg (length (cstr src))) as Hp. unfold StrLen in Hf.
  unfold AsciiStrCatS, StrnLenS, StrLen. rewrite cstr_pad by (done || lia).
  rewrite (proj2 (Z.eqb_neq Max 0)) by lia. rewrite (proj2 (Z.ltb_lt _ _)) by lia.
  rewrite (proj2 (Z.leb_le Max RSIZE_MAX)) by lia. simpl negb. cbn iota.
  rewrite (proj2 (Z.eqb_neq (Max - _) 0)) by lia.
  rewrite (proj2 (Z.ltb_lt (Z.of_nat (length (cstr src))) _)) by lia.
  rewrite (proj2 (Z.ltb_lt (Z.of_nat (length (cstr src))) _)) by lia. simpl negb. cbn iota.
  unfold copy_chars. rewrite Nat2Z.id, firstn_all, pad_write by lia. done.
Qed.

Lemma cat_too_long n Max t src s :
  Forall (fun c => c <> 0) t -> Max <= n -> Max <= RSIZE_MAX ->
  Z.of_nat (length t) < Max <= Z.of_nat (length t) + StrLen src ->
  (AsciiStrCatS (pad n t) Max (Some src) : M S R _) s = (Go (EFI_BUFFER_TOO_SMALL, pad n t), s).
Proof.
  intros Ht Hn HM Hf. unfold StrLen in Hf.
  unfold AsciiStrCatS, StrnLenS, StrLen. rewrite cstr_pad by (done || lia).
  rewrite (proj2 (Z.eqb_neq Max 0)) by lia. rewrite (proj2 (Z.ltb_lt _ _)) by lia.
  rewrite (proj2 (Z.leb_le Max RSIZE_MAX)) by lia. simpl negb. cbn iota.
  rewrite (proj2 (Z.eqb_neq (Max - _) 0)) by lia.
  rewrite (proj2 (Z.ltb_ge (Z.of_nat (length (cstr src))) _)) by lia.
  by rewrite (proj2 (Z.ltb_ge _ _)) by lia.
Qed.

Lemma cpy_fits Max src s :
  Max <= RSIZE_MAX -> StrLen src < Max ->
  (AsciiStrCpyS (zeros Max) Max (Some src) : M S R _) s = (Go (EFI_SUCCESS, pad Max (cstr src)), s).
Proof.
  intros HM Hf. pose proof (Nat2Z.is_nonneg (length (cstr src))) as Hp. unfold StrLen in Hf.
  unfold AsciiStrCpyS, StrnLenS, StrLen.
  rewrite (proj2 (Z.leb_le Max RSIZE_MAX)) by lia. simpl negb. cbn iota.
  rewrite (proj2 (Z.eqb_neq Max 0)) by lia. cbn iota.
  rewrite (proj2 (Z.ltb_lt (Z.of_nat (length (cstr src))) Max)) by lia. cbn iota.
  rewrite (proj2 (Z.ltb_lt (Z.of_nat (length (cstr src))) Max)) by lia. simpl negb. cbn iota.
  unfold copy_chars. rewrite Nat2Z.id, firstn_all.
  pose proof (pad_write Max [] (cstr src)) as E. unfold pad at 1 in E. simpl in E.
  rewrite Z.sub_0_r in E. change (Z.of_nat 0) with 0 in E. rewrite E by lia. done.
Qed.

(** * [RemoveSpace] *)

Definition no_space (l : list Z) : list Z := filter (fun c => c <> 32) l.

(** The array after the loop: what is kept of the characters seen, then the
    array as it was. *)
Definition kept_so_far (param : list Z) (i : nat) : list Z :=
  no_space (take i param) ++ drop (length (no_space (take i param))) param.

Lemma length_no_space l : (length (no_space l) <= length l)%nat.
Proof. apply length_filter. Qed.

Lemma kept_lookup param i : (i < length param)%nat -> kept_so_far param i !! i = param !! i.
Proof.
  intros Hi. unfold kept_so_far. pose proof (length_no_space (take i param)) as Hl.
  rewrite length_take in Hl. rewrite lookup_app_r by lia. rewrite lookup_drop. f_equal. lia.
Qed.

Lemma no_space_step param i c :
  param !! i = Some c ->
  no_space (take (Datatypes.S i) param) = no_space (take i param) ++ (if c =? 32 then [] else [c]).
Proof.
  intros Hc. unfold no_space. rewrite (take_S_r _ _ _ Hc), list.filter_app. f_equal.
  unfold filter. simpl. case_decide; destruct (Z.eqb_spec c 32); done.
Qed.

Lemma kept_write param i c :
  param !! i = Some c -> c <> 32 ->
  buf_write (kept_so_far param i) (Z.of_nat (length (no_space (take i param)))) [c] =
  Some (kept_so_far param (Datatypes.S i)).
Proof.
  intros Hc Hn. pose proof (lookup_lt_Some _ _ _ Hc) as Hi.
  pose proof (length_no_space (take i param)) as Hl. rewrite length_take in Hl.
  apply buf_write_Some. split; [lia|]. split.
  { unfold kept_so_far. rewrite length_app, length_drop. simpl. lia. }
  rewrite Nat2Z.id. unfold kept_so_far. rewrite (no_space_step _ _ _ Hc).
  rewrite (proj2 (Z.eqb_neq c 32)) by done. rewrite take_app_length.
  rewrite drop_app_ge by lia. rewrite drop_drop, length_app. simpl.
  rewrite <-(assoc (++)). simpl. do 3 f_equal. lia.
Qed.

Lemma remove_step_runs param i s :
  (i < length param)%nat -> Z.of_nat (length param) < 2 ^ 32 ->
  (remove_step (Z.of_nat i) (kept_so_far param i, Z.of_nat (length (no_space (take i param)))) : M S R _) s =
  (Go (false, (kept_so_far param (Datatypes.S i),
               Z.of_nat (length (no_space (take (Datatypes.S i) param))))), s).
Proof.
  intros Hi H32. destruct (lookup_lt_is_Some_2 param i Hi) as [c Hc].
  pose proof (length_no_space (take i param)) as Hl. rewrite length_take in Hl.
  unfold remove_step. rewrite (proj2 (Z.leb_le 0 _)), Nat2Z.id, kept_lookup, Hc by lia.
  destruct (Z.eqb_spec c 32) as [Ec|Hne].
  - munfold. rewrite Ec. simpl. do 4 f_equal.
    + unfold kept_so_far. by rewrite (no_space_step _ _ _ Hc), Ec, app_nil_r.
    + rewrite (no_space_step _ _ _ Hc), Ec, app_nil_r. unfold u32.
      rewrite Zplus_mod_idemp_l, Z.mod_small by lia. lia.
  - munfold. rewrite (proj2 (Z.eqb_neq c 32)) by done. simpl negb. cbn iota.
    unfold store. rewrite (kept_write _ _ _ Hc Hne). munfold. do 4 f_equal.
    rewrite (no_space_step _ _ _ Hc), (proj2 (Z.eqb_neq c 32)), length_app by done.
    rewrite u32_small by lia. simpl. lia.
Qed.

(** [RemoveSpace] works in place; what it leaves is the array with the
    characters that are not spaces moved to the front and terminated. *)
Lemma RemoveSpace_runs param n s :
  (n < length param)%nat -> Z.of_nat (length param) < 2 ^ 32 ->
  (RemoveSpace param (Z.of_nat n) : M S R _) s =
  (Go (no_space (take n param) ++ 0 :: drop (Datatypes.S (length (no_space (take n param)))) param), s).
Proof.
  intros Hn H32. unfold RemoveSpace. rewrite Nat2Z.id.
  assert (Hloop : forall k i, (i + k = n)%nat ->
    (for_up k (Z.of_nat i) (kept_so_far param i, Z.of_nat (length (no_space (take i param)))) remove_step
      : M S R _) s =
    (Go (kept_so_far param n, Z.of_nat (length (no_space (take n param)))), s)).
  { induction k as [|k IH]; intros i Hi; cbn [for_up]; [by replace i with n by lia|].
    rewrite (bind_go _ _ _ _ _ (remove_step_runs param i s ltac:(lia) H32)). cbn beta iota.
    replace (Z.of_nat i + 1) with (Z.of_nat (Datatypes.S i)) by lia. apply IH. lia. }
  specialize (Hloop n 0%nat eq_refl). simpl in Hloop.
  rewrite (bind_go _ _ _ _ _ Hloop). simpl.
  pose proof (length_no_space (take n param)) as Hl. rewrite length_take in Hl.
  destruct (buf_write_in_range (kept_so_far param n) (Z.of_nat (length (no_space (take n param)))) [0])
    as [d Hd].
  { lia. }
  { unfold kept_so_far. rewrite length_app, length_drop. simpl. lia. }
  unfold store. rewrite Hd. apply buf_write_Some in Hd as (_&_&->). munfold. do 2 f_equal.
  rewrite Nat2Z.id. unfold kept_so_far. rewrite take_app_length, drop_app_ge by lia.
  rewrite drop_drop. simpl. do 3 f_equal. lia.
Qed.
End Strings.

(** * Items *)

Inductive item :=
  | Param (key : list Z) (value : option (list Z))
  | Room (flag : bool) (n : Z).

Definition value_text (value : option (list Z)) : list Z :=
  match value with Some v => cstr v | None => [] end.

(** An entry of the boot configuration: the parameter without its spaces, in the
    array that was allocated for it. *)
Definition entry (kv : list Z) : list Z :=
  no_space kv ++ 0 :: drop (Datatypes.S (length (no_space kv))) (kv ++ zeros 6).

Definition item_len (i : item) : Z :=
  match i with
  | Param key value => StrLen key + Z.of_nat (length (value_text value))
  | Room _ n => n
  end.

Definition items_len (l : list item) : Z := foldr (fun i n => item_len i + n) 0 l.

Lemma items_len_app l1 l2 : items_len (l1 ++ l2) = items_len l1 + items_len l2.
Proof. induction l1; simpl; lia. Qed.

Lemma no_space_nonzero l : Forall (fun c => c <> 0) l -> Forall (fun c => c <> 0) (no_space l).
Proof.
  rewrite !list.Forall_forall. intros H c [_ Hc]%list_elem_of_filter. by apply H.
Qed.

Lemma cstr_entry kv : Forall (fun c => c <> 0) kv -> cstr (entry kv) = no_space kv.
Proof. intros H. apply cstr_app_0. by apply no_space_nonzero. Qed.

Lemma length_cstr_le l : StrLen l <= Z.of_nat (length l).
Proof. unfold StrLen. pose proof (length_cstr l). lia. Qed.

Lemma read_cstr l : buf_read l 0 (StrLen l) = Some (cstr l).
Proof.
  pose proof (length_cstr_le l) as H. unfold StrLen in *. apply buf_read_Some.
  split; [lia|]. split; [lia|]. split; [lia|]. simpl. rewrite Nat2Z.id, drop_0.
  clear H. induction l as [|c l IH]; [done|]. simpl. case_match; simpl; [done|]. by f_equal.
Qed.

Lemma fill_key (k v : list Z) :
  buf_write (zeros (Z.of_nat (length k) + Z.of_nat (length v) + 6)) 0 k = Some (k ++ zeros (Z.of_nat (length v) + 6)).
Proof.
  apply buf_write_Some. split; [lia|]. unfold zeros. rewrite length_replicate. split; [lia|].
  simpl. rewrite drop_replicate. do 2 f_equal. lia.
Qed.

Lemma fill_value (k v : list Z) :
  buf_write (k ++ zeros (Z.of_nat (length v) + 6)) (Z.of_nat (length k)) v = Some ((k ++ v) ++ zeros 6).
Proof.
  apply buf_write_Some. split; [lia|]. unfold zeros. rewrite length_app, length_replicate. split; [lia|].
  rewrite Nat2Z.id, take_app_length, drop_app_ge by lia. rewrite drop_replicate, <-(assoc (++)).
  do 3 f_equal. lia.
Qed.

Lemma format_runs {S R} (kv : list Z) (s : S) :
  Z.of_nat (length kv) <= RSIZE_MAX ->
  (ChangeFormattoBootConfig (kv ++ zeros 6) (Z.of_nat (length kv)) : M S R _) s =
  (Go (entry kv, AsciiStrLen (entry kv)), s).
Proof.
  unfold RSIZE_MAX. intros H. unfold ChangeFormattoBootConfig. erewrite bind_go; [reflexivity|].
  rewrite RemoveSpace_runs; [by rewrite take_app_length|..];
    rewrite length_app; unfold zeros; rewrite length_replicate; lia.
Qed.

Section Count.
Context `{F : Firmware} `{B : BuildConfig} `{C : CmdConfig}.
Variable V : Z.

Definition item_cfg (i : item) : Z :=
  match i with
  | Param key value =>
      if IsAndroidBootParam key (AsciiStrLen key) V then
        StrLen key + SIZE_OF_DELIM + match value with Some v => StrLen v + SIZE_OF_DELIM | None => 0 end
      else 0
  | Room flag n => if flag then n + SIZE_OF_DELIM else 0
  end.

Definition item_entries (i : item) : list (list Z) :=
  match i with
  | Param key value =>
      if IsAndroidBootParam key (AsciiStrLen key) V then [entry (cstr key ++ value_text value)] else []
  | Room _ _ => []
  end.

Definition items_cfg (l : list item) : Z := foldr (fun i n => item_cfg i + n) 0 l.
Definition items_entries (l : list item) : list (list Z) := concat (map item_entries l).

Lemma items_cfg_app l1 l2 : items_cfg (l1 ++ l2) = items_cfg l1 + items_cfg l2.
Proof. induction l1; simpl; lia. Qed.
Lemma items_entries_app l1 l2 : items_entries (l1 ++ l2) = items_entries l1 ++ items_entries l2.
Proof. unfold items_entries. by rewrite map_app, concat_app. Qed.

(** The state in which [l] has been counted. *)
Definition count (l : list item) (e : CmdState) : CmdState :=
  set_list (items_entries l) (set_lens (u32 (items_len l)) (u32 (items_cfg l)) e).

Lemma count_snoc l i e :
  count (l ++ [i]) e =
  set_list (items_entries l ++ item_entries i)
    (set_lens (u32 (items_len l + item_len i)) (u32 (items_cfg l + item_cfg i)) e).
Proof.
  unfold count. rewrite items_len_app, items_cfg_app, items_entries_app.
  cbn [items_len items_cfg foldr]. unfold items_entries at 2. cbn [map concat].
  by rewrite app_nil_r, !Z.add_0_r.
Qed.

Definition small (l : list item) : Prop :=
  Forall (fun i => 0 <= item_len i <= RSIZE_MAX) l.

Lemma small_app l1 l2 : small (l1 ++ l2) <-> small l1 /\ small l2.
Proof. apply Forall_app. Qed.

(** No allocation fails. *)
Definition roomy (w : World) : Prop := forall n, AllocateZeroPool (fw w) n = true.

Lemma set_list_id s : set_list (BootConfigList s) s = s.
Proof. by destruct s. Qed.
Lemma set_w_id s : set_w (cs_w s) s = s.
Proof. by destruct s. Qed.

Lemma alloc_runs {R} n s : roomy (cs_w s) -> (alloc n : M CmdState R _) s = (Go true, s).
Proof. intros H. unfold alloc, on_world, ask. by rewrite H, set_w_id. Qed.

Lemma u32_add a b : u32 (u32 a + b) = u32 (a + b).
Proof. unfold u32. by rewrite Zplus_mod_idemp_l. Qed.

(** An entry is added when the flag is set. *)
Lemma add_entry_runs {R} flag key value n s :
  roomy (cs_w s) -> n = match value with Some v => StrLen v | None => 0 end ->
  StrLen key + n <= RSIZE_MAX ->
  (AddtoBootConfigList flag key value (StrLen key) n : M CmdState R _) s =
  (Go tt, set_list (BootConfigList s ++ if flag then [entry (cstr key ++ value_text value)] else []) s).
Proof.
  intros Hr -> Hs. unfold AddtoBootConfigList. destruct flag; cbn beta iota delta [negb].
  2: { by rewrite app_nil_r, set_list_id. }
  set (n := match value with Some v => StrLen v | None => 0 end) in *.
  assert (Hn : n = Z.of_nat (length (value_text value))) by (destruct value; done).
  assert (Hk : 0 <= StrLen key) by (unfold StrLen; lia). unfold RSIZE_MAX in Hs.
  assert (Hnode : (AllocateBootConfigNode (u32 (StrLen key + SIZE_OF_DELIM + SIZE_OF_DELIM + n))
      : M CmdState R _) s = (Go (Some (zeros (StrLen key + n + 6))), s)).
  { unfold AllocateBootConfigNode. rewrite (bind_go _ _ _ _ _ (alloc_runs _ _ Hr)). cbn beta iota delta [negb].
    rewrite (bind_go _ _ _ _ _ (alloc_runs _ _ Hr)). rewrite u32_add. unfold SIZE_OF_DELIM.
    rewrite u32_small by lia. munfold. do 4 f_equal. lia. }
  rewrite (bind_go _ _ _ _ _ Hnode). cbn iota. rewrite read_cstr.
  assert (Hput : forall k : list Z -> M CmdState R unit,
    (param ← store (zeros (StrLen key + n + 6)) 0 (cstr key);
     param ← (match value with
              | None => mret param
              | Some v => value ← need OutOfBounds (buf_read v 0 n); store param (StrLen key) value
              end); k param) s = k ((cstr key ++ value_text value) ++ zeros 6) s).
  { intros k. unfold StrLen, store. rewrite Hn, fill_key. munfold. destruct value as [v|]; simpl in *.
    - pose proof (read_cstr v) as Hv. unfold StrLen in Hv. rewrite Hv. by rewrite fill_value.
    - by rewrite app_nil_r. }
  erewrite (bind_go (need _ _)) by done. rewrite Hput.
  assert (Hlen : StrLen key + n = Z.of_nat (length (cstr key ++ value_text value)))
    by (rewrite length_app; unfold StrLen; lia).
  rewrite u32_small, Hlen by lia. by rewrite (bind_go _ _ _ _ _ (format_runs (cstr key ++ value_text value) s ltac:(unfold RSIZE_MAX; lia))).
Qed.

(** * Blocks that count *)

(** From the state [e], whatever has been counted before, [m] counts [l], ends
    with [v] and leaves the statics of [e']. *)
Definition counts {R A} (m : M CmdState R A) (e : CmdState) (v : A) (l : list item) (e' : CmdState) : Prop :=
  small l -> forall l0, m (count l0 e) = (Go v, count (l0 ++ l) e').

Lemma counts_ret {R A} (v : A) e : counts (mret v : M CmdState R A) e v [] e.
Proof. intros _ l0. by rewrite app_nil_r. Qed.

Lemma counts_bind {R A D} (m : M CmdState R A) (k : A -> M CmdState R D) e x l1 e1 v l2 e2 :
  counts m e x l1 e1 -> counts (k x) e1 v l2 e2 -> counts (m ≫= k) e v (l1 ++ l2) e2.
Proof.
  intros Hm Hk [H1 H2]%small_app l0. rewrite (bind_go _ _ _ _ _ (Hm H1 l0)).
  by rewrite (Hk H2 (l0 ++ l1)), (assoc (++)).
Qed.

Lemma counts_get {R A} (k : CmdState -> M CmdState R A) e v l e' :
  (forall l0, counts (k (count l0 e)) e v l e') -> counts (s ← get; k s) e v l e'.
Proof. intros Hk Hl l0. unfold get. munfold. by apply Hk. Qed.

Lemma counts_world {R A} (k : World -> M CmdState R A) e v l e' :
  counts (k (cs_w e)) e v l e' -> counts (w ← world; k w) e v l e'.
Proof. intros Hk Hl l0. unfold world, get. munfold. by apply Hk. Qed.

(** A query that is answered and changes nothing. *)
Definition asks {A} (w : World) (m : MW A A) (v : A) : Prop := m w = (Go v, w) \/ m w = (Return v, w).

Definition told {A} (w : World) (m : MW A A) (v : A) : Prop := m w = (Go v, w).
Lemma told_asks {A} (w : World) (m : MW A A) v : told w m v -> asks w m v.
Proof. by left. Qed.

Lemma asks_runs {R A} (m : MW A A) (v : A) s : asks (cs_w s) m v -> (on_world m : M CmdState R A) s = (Go v, s).
Proof. unfold on_world. by intros [-> | ->]; rewrite set_w_id. Qed.

Lemma counts_ask {R A} (m : MW A A) (v : A) e : asks (cs_w e) m v -> counts (on_world m : M CmdState R A) e v [] e.
Proof. intros H _ l0. rewrite (asks_runs m v) by exact H. by rewrite app_nil_r. Qed.

Lemma counts_room {R} flag n e : counts (ADD_PARAM_LEN flag n : M CmdState R _) e tt [Room flag n] e.
Proof.
  intros _ l0. rewrite count_snoc. unfold ADD_PARAM_LEN, modify, count, set_lens, set_list. simpl.
  rewrite u32_add, app_nil_r. repeat f_equal. destruct flag; [by rewrite u32_add|by rewrite Z.add_0_r].
Qed.

Lemma counts_add_len {R} n e : counts (add_len n : M CmdState R _) e tt [Room false n] e.
Proof. apply counts_room. Qed.

Lemma counts_param {R} key value e :
  roomy (cs_w e) -> counts (count_param V key value : M CmdState R _) e tt [Param key value] e.
Proof.
  intros Hr Hs l0. apply Forall_cons_1 in Hs as [Hs _]. cbn [item_len] in Hs.
  unfold count_param, ADD_PARAM_LEN. erewrite bind_go by (unfold modify; reflexivity).
  set (flag := IsAndroidBootParam key (AsciiStrLen key) V).
  assert (Hadd : forall s n, cs_w s = cs_w e -> n = match value with Some v => StrLen v | None => 0 end ->
    (AddtoBootConfigList flag key value (AsciiStrLen key) n : M CmdState R _) s =
    (Go tt, set_list (BootConfigList s ++ if flag then [entry (cstr key ++ value_text value)] else []) s)).
  { intros s n Hw Hn. apply add_entry_runs; [by rewrite Hw|done|]. subst n.
    unfold StrLen in *. destruct value; cbn [value_text length] in *; lia. }
  rewrite count_snoc. destruct value as [v|].
  - erewrite bind_go by (apply Hadd; done). unfold modify, count, set_lens, set_list. simpl.
    fold flag. unfold AsciiStrLen, StrLen in *. clear Hadd.
    rewrite u32_add, <-Z.add_assoc, u32_add. destruct flag; [rewrite !u32_add|].
    all: do 2 f_equal; unfold SIZE_OF_DELIM; rewrite <-?Z.add_assoc, ?u32_add; f_equal; lia.
  - rewrite Hadd by done. unfold count, set_lens, set_list. simpl.
    fold flag. unfold AsciiStrLen, StrLen in *. clear Hadd. rewrite u32_add.
    destruct flag; [rewrite !u32_add|]. all: do 2 f_equal; unfold SIZE_OF_DELIM; f_equal; lia.
Qed.

Lemma counts_if {R A} (b : bool) (m : M CmdState R A) v e l :
  counts m e v l e -> counts (if b then m else mret v) e v (if b then l else []) e.
Proof. destruct b; [done|]. intros _. apply counts_ret. Qed.

Lemma counts_eq {R A} (m : M CmdState R A) e v v' l l' e' :
  counts m e v l e' -> v = v' -> l = l' -> counts m e v' l' e'.
Proof. by intros ? -> ->. Qed.

Lemma counts_modify {R} (f : CmdState -> CmdState) e :
  (forall l, f (count l e) = count l (f e)) -> counts (modify f : M CmdState R _) e tt [] (f e).
Proof. intros H _ l0. unfold modify. by rewrite H, app_nil_r. Qed.

Lemma counts_lens {R A} (m : M CmdState R A) e v e' :
  (forall l, m (count l e) = (Go v, count l e')) -> counts m e v [] e'.
Proof. intros H _ l0. by rewrite H, app_nil_r. Qed.
End Count.
