(* ===== verification/CmdPass.v ===== *)
(** The first pass of [UpdateCmdLine], block by block: what other parts answer,
    the items that are counted, and that each block counts them. *)
From Stdlib Require Import ZArith Lia.
From stdpp Require Import base list numbers option.
From S2P Require Import Prelude EfiBase Convert Firmware World LoaderLib Board Ptable DevInfo Gpt Slots Recovery Fastboot FastbootCmds Setup Fdt FdtRw Carveout DtMatch Locate SlotSpec CmdPath CmdLine CmdCount.

(** * What other parts answer *)

Record Answers := mkAnswers {
  k_serial : list Z;
  k_device : EFI_STATUS * list Z;
  k_type : MemCardType;
  k_multi : bool;
  k_modem : option (list Z) * Z;
  k_resume : option (list Z) * Z;
  k_suffix : list Z;
  k_ri : bool;
  k_limit : EFI_STATUS * list Z;
  k_nodes : list FDT_FIRST_LEVEL_NODE;
}.

(** A string written to the start of an array. *)
Definition set_cstr (array t : list Z) : list Z := cstr t ++ 0 :: drop (Datatypes.S (length (cstr t))) array.

Lemma cpy_runs {S R} (d src : list Z) Max (s : S) :
  0 < Max <= RSIZE_MAX -> Max <= Z.of_nat (length d) ->
  (AsciiStrCpyS d Max (Some src) : M S R _) s =
  (Go (if StrLen src <? Max then (EFI_SUCCESS, set_cstr d src) else (EFI_BUFFER_TOO_SMALL, d)), s).
Proof.
  intros HM Hd. unfold AsciiStrCpyS, StrnLenS.
  rewrite (proj2 (Z.leb_le Max RSIZE_MAX)) by lia. cbn beta iota delta [negb].
  rewrite (proj2 (Z.eqb_neq Max 0)) by lia. cbn iota.
  destruct (Z.ltb_spec (StrLen src) Max) as [H|H].
  2: { by rewrite Z.ltb_irrefl. }
  rewrite (proj2 (Z.ltb_lt (StrLen src) Max)) by lia. cbn beta iota delta [negb].
  unfold copy_chars, StrLen in *. rewrite Nat2Z.id, firstn_all.
  destruct (buf_write_in_range d 0 (cstr src ++ [0])) as [d' Hw]; [lia|rewrite length_app; simpl; lia|].
  rewrite Hw. apply buf_write_Some in Hw as (_&_&->). munfold. do 3 f_equal.
  unfold set_cstr. rewrite length_app. simpl. rewrite <-(assoc (++)). simpl. do 3 f_equal. lia.
Qed.

Lemma sprint_runs {S R} n t (s : S) :
  0 < n -> (AsciiSPrint (zeros n) n t : M S R _) s = (Go (pad n (take (Z.to_nat (n - 1)) t)), s).
Proof.
  intros Hn. unfold AsciiSPrint. set (u := take _ t).
  assert (Hu : (length u <= Z.to_nat (n - 1))%nat) by (unfold u; rewrite length_take; lia).
  pose proof (pad_write n [] u) as E. unfold pad at 1 in E. simpl in E. rewrite Z.sub_0_r in E.
  change (Z.of_nat 0) with 0 in E. by rewrite E by lia.
Qed.

Lemma length_digits fuel r v acc : (length (digits fuel r v acc) <= fuel + length acc)%nat.
Proof.
  revert v acc. induction fuel as [|fuel IH]; intros v acc; cbn [digits]; [lia|].
  case_match; [simpl; lia|]. etrans; [apply IH|simpl; lia].
Qed.

Lemma length_fmt_d v : (length (fmt_d v) <= 21)%nat.
Proof.
  unfold fmt_d. pose proof (length_digits 20 10 (u32 v) []) as H1.
  pose proof (length_digits 20 10 (2 ^ 32 - u32 v) []) as H2. change (length []) with 0%nat in *.
  destruct (u32 v <? 2 ^ 31); cbn [length]; lia.
Qed.

Section Pass.
Context `{F : Firmware} `{B : BuildConfig} `{C : CmdConfig}.
Variables (a : CmdArgs) (q : CmdWorld) (e : CmdState) (k : Answers).
Local Abbreviation V := (a_HeaderVersion a).
Local Abbreviation w := (cs_w e).
Local Abbreviation cmd := (the_CmdLine a).
Local Abbreviation counts := (CmdCount.counts V).
Local Abbreviation Res := EFI_STATUS.

(** A text the firmware gives, in its static array. *)
Definition variable (name : list Z) (text : list Z * Z) : EFI_STATUS * (Z * list Z) :=
  GetVariable (fw w) name text.2.
Definition shown (name : list Z) (text : list Z * Z) : list Z * Z :=
  let r := variable name text in
  (if r.1 =? EFI_SUCCESS then r.2.2 ++ drop (length r.2.2) text.1 else text.1, r.2.1).
Definition text_fits (name : list Z) (text : list Z * Z) : Prop :=
  (variable name text).1 = EFI_SUCCESS -> (length (variable name text).2.2 <= length text.1)%nat.

Definition display : list Z * Z := shown (L "DisplayPanelConfiguration") (DisplayCmdLine e).
Definition fence : list Z * Z := shown (L "HwFenceConfiguration") (HwFenceCmdLine e).
Definition gpu_status : EFI_STATUS := (variable (L "GpuConfiguration") (GpuCmdLine e)).1.
Definition gpu : list Z * Z := shown (L "GpuConfiguration") (GpuCmdLine e).

Definition set_when (array t : list Z) (Max : Z) : list Z := if StrLen t <? Max then set_cstr array t else array.
Definition framework : list Z :=
  if AsciiStrLen AUDIO_FRAMEWORK >? 0 then
    let f := set_cstr (AudioFrameWork e) AUDIO_FRAMEWORK in
    if FirstReadDevInfo (dv w) then f
    else set_when f (AudioFramework (DevInfo (dv w))) MAX_AUDIO_FW_LENGTH
  else AudioFrameWork e.

(** The statics after each block. *)
Definition framework_read : bool := negb (a_FlashlessBoot a) && negb (a_NetworkBoot a).
Definition audio : list Z := if framework_read then framework else AudioFrameWork e.
Definition e_texts : CmdState := set_texts display fence gpu audio e.
Definition e_force : CmdState :=
  if negb (q_RecoveryHasNoKernel q) && negb (a_Recovery a) then set_force 49 e_texts else e_texts.
Definition e_nodes : CmdState := set_nodes (k_nodes k) e_force.

(** ** The hypotheses *)

Record answered : Prop := {
  an_roomy : roomy w;
  an_serial : asks w (BoardSerialNum (zeros SERIAL_NUM_SIZE) SERIAL_NUM_SIZE) (EFI_SUCCESS, k_serial k);
  an_device : asks w (GetBootDevice (zeros BOOT_DEV_MAX_LEN) BOOT_DEV_MAX_LEN) (k_device k);
  an_type : asks w CheckRootDeviceType (k_type k);
  an_root : asks w GetRootDeviceType (DeviceTypeName (k_type k));
  an_multi : asks w (PartitionHasMultiSlot (L "boot")) (k_multi k);
  an_suffix : asks w GetCurrentSlotSuffix (k_suffix k);
  an_ri : asks w IsRecoveryInfo (k_ri k);
  an_modem : EarlyServicesEnabled = true ->
    told w (GetSystemPathByPname (k_multi k) (a_Recovery a) (Some (L "modem")) (Some (L "modem"))) (k_modem k);
  an_resume : IsHibernationEnabled (pt w) = true -> told w GetResumeCmdLine (k_resume k);
  an_limit : forall s, cs_w s = w -> cs_nodes s = cs_nodes e ->
    (GetMemoryLimit q (a_fdt a) : M CmdState Res _) s = (Go (k_limit k), set_nodes (k_nodes k) s);
  an_band : is_Some (q_ChipBaseBand q);
  an_display : text_fits (L "DisplayPanelConfiguration") (DisplayCmdLine e);
  an_fence : text_fits (L "HwFenceConfiguration") (HwFenceCmdLine e);
  an_gpu : text_fits (L "GpuConfiguration") (GpuCmdLine e);
  an_audio : Z.of_nat (length (AudioFrameWork e)) = MAX_AUDIO_FW_LENGTH /\
             AsciiStrLen AUDIO_FRAMEWORK < MAX_AUDIO_FW_LENGTH;
  an_force : BootForceNormalBoot e <> 0;
}.

(** ** The items *)

Definition cmd_items : list item := if HaveCmdLine a then [Room false (AsciiStrLen cmd)] else [].
Definition vb_items : list item :=
  match a_VBCmdLine a with
  | None => []
  | Some vb => [Room (IsAndroidBootParam vb (AsciiStrLen vb) V) (AsciiStrLen vb)]
  end.
Definition verity_items : list item :=
  if HaveCmdLine a && IsLEVerity then [Room false (q_LEVerity q cmd).2.2] else [].
Definition verity : option (list Z) := if HaveCmdLine a && IsLEVerity then (q_LEVerity q cmd).2.1 else None.

Definition known : bool := (k_device k).1 =? EFI_SUCCESS.
Definition dev_items : list item :=
  if known then [Param BootDeviceCmdLine (Some (k_device k).2)] else [].
Definition dyn_items : list item :=
  if known && IsDynamicPartitionSupport (pt w) then [Param DynamicBootDeviceCmdLine (Some (k_device k).2)] else [].
Definition device : option (list Z) := if known then Some (k_device k).2 else None.
Definition serial_items : list item := [Param UsbSerialCmdLine (Some (k_serial k))].

Definition charging : bool :=
  (TargetPauseForBatteryCharge (fw w)).2 && IsChargingScreenEnable w && negb (a_Recovery a).
Definition pause : bool := negb (HaveFfbm a) && charging.
Definition mode_items : list item :=
  if HaveFfbm a then [Param AndroidBootMode (a_FfbmStr a); Param LogLevel None]
  else if charging then [Param BatteryChgPause None]
  else if a_AlarmBoot a then [Param AlarmBootCmdLine None] else [].
Definition band_items : list item := [Param BOOT_BASE_BAND (q_ChipBaseBand q)].

Definition mdtp : bool :=
  if EnableMdtpSupport then
    let r := IsMdtpActive (q_LocateMdtp q) (q_MdtpState q) in if EFI_ERROR r.1 then true else r.2
  else false.
Definition mdtp_items : list item := if mdtp then [Param MdtpActiveFlag None] else [].
Definition nand : bool := bool_decide (k_type k = NAND).
Definition nand_items : list item :=
  if nand then [Room false (AsciiStrLen PartActiveBoot + MAX_SLOT_SUFFIX_SZ)] else [].
Definition le_slots : bool := IsLEVariant && negb IsLVBootslotEnabled.
Definition suffix_room : Z := AsciiStrLen AndroidSlotSuffix + MAX_SLOT_SUFFIX_SZ.
Definition slot_items : list item :=
  if k_multi k && negb (IsBootDevImage w) then
    if le_slots then [Param (SystemdSlotEnv e) None]
    else [Room (IsAndroidBootParam AndroidSlotSuffix suffix_room V) suffix_room]
  else [].
Definition skips : bool := negb (IsDynamicPartitionSupport (pt w)) && negb (a_Recovery a).
Definition root_items : list item :=
  if root_needed a (k_multi k) w then
    [Param RootCmdLine None; Param InitCmdline None] ++ (if skips then [Param SkipRamFs None] else [])
  else [].
Definition gpu_items : list item := if gpu_status =? EFI_SUCCESS then [Param gpu.1 None] else [].
Definition audio_items : list item :=
  if framework_read && negb (AsciiStrLen framework =? 0) then [Param AndroidBootAudioFW (Some framework)] else [].
Definition text_items : list item := [Param display.1 None; Param fence.1 None] ++ gpu_items ++ audio_items.
Definition modem_items : list item := if EarlyServicesEnabled then [Room false (k_modem k).2] else [].
Definition modem : option (list Z) := if EarlyServicesEnabled then (k_modem k).1 else None.

(** The text of an index. *)
Definition idx_text (key : list Z) (Idx : Z) : list Z :=
  if IsLEVariant || (Idx =? INVALID_PTN) then zeros MAX_DTBO_IDX_STR else pad MAX_DTBO_IDX_STR (key ++ fmt_d Idx).
Definition idx_items (key : list Z) (Idx : Z) : list item :=
  if IsLEVariant || (Idx =? INVALID_PTN) then [] else [Param (idx_text key Idx) None].
Definition dtbo_text : list Z := idx_text AndroidBootDtboIdx (DtboIdx (cs_loc e)).
Definition dtb_text : list Z := idx_text AndroidBootDtbIdx (DtbIdx (cs_loc e)).
Definition dtbo_items : list item := idx_items AndroidBootDtboIdx (DtboIdx (cs_loc e)).
Definition dtb_items : list item := idx_items AndroidBootDtbIdx (DtbIdx (cs_loc e)).

Definition force_items : list item :=
  if force_counted a q (k_multi k) w
  then [Param AndroidBootForceNormalBoot (Some [BootForceNormalBoot e_force])] else [].
Definition fstab : list Z :=
  if AsciiStriCmp FstabSuffixEmmc (DeviceTypeName (k_type k)) =? 0 then FstabSuffixEmmc
  else if a_NetworkBoot a then FstabSuffixNetworkBoot else FstabSuffixDefault.
Definition fstab_items : list item := [Param AndroidBootFstabSuffix (Some fstab)].

Definition limited : bool := ((k_limit k).1 =? EFI_SUCCESS) && HaveCmdLine a.
Definition has_mem : bool := bool_decide (is_Some (AsciiStrStr cmd MemOff)).
Definition nopasr_items : list item :=
  [Room (IsAndroidBootParam NoPasr (AsciiStrLen NoPasr) V) (AsciiStrLen NoPasr)].
Definition memory_items : list item :=
  if limited then
    if has_mem then nopasr_items
    else [Param MemOff None; Param (k_limit k).2 None; Param MemHpState None; Param MovableNode None]
  else [].
Definition amount : option (list Z) := if limited && negb has_mem then Some (k_limit k).2 else None.

Definition warm : bool := a_FlashlessBoot a || a_NetworkBoot a.
Definition warm_items : list item := if warm then [Param WarmResetArgs None] else [].
Definition silent_items : list item :=
  match silent_text a with Some t => [Room false (AsciiStrLen t)] | None => [] end.
Definition eth_items : list item :=
  if EARLY_ETH_ENABLED then map (fun t => Room false (AsciiStrLen t)) (q_EarlyEth q) else [].
Definition usb_items : list item := if EARLY_USB_ENABLED then [Room false (AsciiStrLen (q_EarlyUsb q))] else [].
Definition ima_items : list item := if INTEGRITY_IMA_ENABLED then [Room false (AsciiStrLen (q_IMA q))] else [].
Definition cpu : list Z :=
  if BootCpuSelectionEnabled then
    pad BOOT_CPU_PARAM_LEN (take (Z.to_nat (BOOT_CPU_PARAM_LEN - 1)) (L " boot_cpu=" ++ fmt_d (q_BootCpuId q)))
  else [].
Definition cpu_items : list item := if BootCpuSelectionEnabled then [Param cpu None] else [].
Definition hibernates : bool := IsHibernationEnabled (pt w).
Definition resume_items : list item := if hibernates then [Room false (k_resume k).2] else [].
Definition resume : option (list Z) := if hibernates then (k_resume k).1 else None.

(** All that is counted, with the terminator. *)
Definition counted : list item :=
  (cmd_items ++ vb_items ++ verity_items) ++ (dev_items ++ dyn_items) ++ serial_items ++ mode_items ++ band_items ++
  (mdtp_items ++ nand_items ++ slot_items ++ root_items) ++ text_items ++ modem_items ++
  (dtbo_items ++ dtb_items) ++ force_items ++ fstab_items ++ memory_items ++
  (warm_items ++ silent_items ++ eth_items ++ usb_items ++ ima_items ++ cpu_items ++ [Room false 1] ++ resume_items).

Definition params : UpdateCmdLineParamList :=
  mkParam (k_multi k) mdtp pause (k_serial k) device dtbo_text dtb_text verity fstab amount
    (limited && has_mem) resume (silent_text a) cpu modem.

(** ** The blocks *)

Context (An : answered).

Lemma count_given_runs {R} :
  small (cmd_items ++ vb_items ++ verity_items) ->
  (count_given a q : M CmdState R _) (count V [] e) = (Go verity, count V (cmd_items ++ vb_items ++ verity_items) e).
Proof.
  intros [Hs1 Hs2]%small_app. unfold count_given.
  assert (H1 : ((if HaveCmdLine a then modify (fun s => set_lens (AsciiStrLen cmd) (BootConfigLen s) s) else mret tt)
      : M CmdState R _) (count V [] e) = (Go tt, count V cmd_items e)).
  { revert Hs1. unfold cmd_items. destruct (HaveCmdLine a); [|done]. intros [Hs _]%Forall_cons_1.
    unfold modify, count, set_lens, set_list. simpl in *. unfold RSIZE_MAX in *.
    rewrite Z.add_0_r, (u32_small (AsciiStrLen cmd)) by lia. done. }
  rewrite (bind_go _ _ _ _ _ H1).
  assert (H2 : counts (match a_VBCmdLine a with
      | None => mret tt
      | Some vb => ADD_PARAM_LEN (IsAndroidBootParam vb (AsciiStrLen vb) V) (AsciiStrLen vb)
      end : M CmdState R _) e tt vb_items e).
  { unfold vb_items. destruct (a_VBCmdLine a); [apply counts_room|apply counts_ret]. }
  assert (H3 : counts (if HaveCmdLine a && IsLEVerity
      then add_len (q_LEVerity q cmd).2.2;; mret (q_LEVerity q cmd).2.1 else mret None : M CmdState R _)
      e verity verity_items e).
  { unfold verity, verity_items. destruct (_ && _); [|apply counts_ret].
    change [Room false ?n] with ([Room false n] ++ []).
    eapply counts_bind; [apply counts_add_len|apply counts_ret]. }
  exact (counts_bind _ _ _ _ _ _ _ _ _ _ H2 H3 Hs2 cmd_items).
Qed.

Lemma count_device_counts : counts (count_device a) e device (dev_items ++ dyn_items) e.
Proof.
  unfold count_device. change (?l1 ++ ?l2) with ([] ++ l1 ++ l2).
  eapply counts_bind. { apply counts_lens. intros l. apply alloc_runs, An. }
  cbn beta iota delta [negb]. change (?l1 ++ ?l2) with ([] ++ l1 ++ l2).
  eapply counts_bind. { apply counts_ask, An. }
  unfold device, dev_items, dyn_items. fold known. destruct known; cbn beta iota delta [negb andb]; [|apply counts_ret].
  eapply counts_bind; [apply counts_param, An|]. apply counts_world.
  eapply counts_eq; [|done|apply app_nil_r].
  eapply counts_bind; [|apply counts_ret]. apply counts_if, counts_param, An.
Qed.

Lemma count_mode_counts {R} : counts (count_mode a : M CmdState R _) e pause mode_items e.
Proof.
  unfold count_mode, pause, mode_items, charging. apply counts_world.
  destruct (HaveFfbm a); [|destruct (_ && _); [|destruct (a_AlarmBoot a)]]; [..|apply counts_ret].
  - eapply (counts_bind _ _ _ _ _ [_] _ _ [_]); [apply counts_param, An|].
    eapply (counts_bind _ _ _ _ _ [_] _ _ []); [apply counts_param, An|apply counts_ret].
  - eapply (counts_bind _ _ _ _ _ [_] _ _ []); [apply counts_param, An|apply counts_ret].
  - eapply (counts_bind _ _ _ _ _ [_] _ _ []); [apply counts_param, An|apply counts_ret].
Qed.

Lemma part_active_room {R} :
  counts (count_suffixed a PartActiveBoot true : M CmdState R _) e tt
    [Room false (AsciiStrLen PartActiveBoot + MAX_SLOT_SUFFIX_SZ)] e.
Proof.
  unfold count_suffixed.
  change (u32 (AsciiStrLen PartActiveBoot + MAX_SLOT_SUFFIX_SZ)) with (AsciiStrLen PartActiveBoot + MAX_SLOT_SUFFIX_SZ).
  assert (Hf : IsAndroidBootParam PartActiveBoot (AsciiStrLen PartActiveBoot + MAX_SLOT_SUFFIX_SZ) V = false).
  { unfold IsAndroidBootParam. case_match; [done|]. by case_match. }
  rewrite Hf. eapply (counts_bind _ _ _ _ _ [_] _ _ []); [apply counts_room|apply counts_ret].
Qed.

Lemma count_slot_counts {R} :
  counts (count_slot a mdtp : M CmdState R _) e (k_multi k)
    (mdtp_items ++ nand_items ++ slot_items ++ root_items) e.
Proof.
  unfold count_slot. eapply counts_bind; [apply counts_if, counts_param, An|].
  eapply (counts_bind _ _ _ _ _ []); [apply counts_ask, An|].
  eapply counts_bind; [apply counts_if, part_active_room|].
  eapply (counts_bind _ _ _ _ _ []); [apply counts_ask, An|]. apply counts_get. intros l0.
  cbn [count set_list set_lens cs_w SystemdSlotEnv].
  eapply counts_bind.
  { apply counts_if. unfold le_slots.
    destruct (_ && _); [apply counts_param, An|].
    unfold count_suffixed.
    change (u32 (AsciiStrLen AndroidSlotSuffix + MAX_SLOT_SUFFIX_SZ)) with suffix_room.
    eapply (counts_bind _ _ _ _ _ [_] _ _ []); [apply counts_room|apply counts_ret]. }
  eapply counts_eq; [|done|apply app_nil_r].
  eapply counts_bind; [|apply counts_ret]. unfold root_items. apply counts_if.
  change ([Param RootCmdLine None; ?p] ++ ?l) with ([Param RootCmdLine None] ++ [p] ++ l).
  eapply counts_bind; [apply counts_param, An|]. eapply counts_bind; [apply counts_param, An|].
  apply counts_if, counts_param, An.
Qed.

Lemma read_text_runs {R} name text s :
  cs_w s = w -> text_fits name text ->
  (read_text name text : M CmdState R _) s = (Go ((variable name text).1, shown name text), s).
Proof.
  intros Hw Hf. unfold read_text, shown. erewrite bind_go by (apply asks_runs; left; reflexivity).
  rewrite Hw. fold (variable name text). unfold text_fits in Hf.
  destruct (Z.eqb_spec (variable name text).1 EFI_SUCCESS) as [E|E]; [|done]. specialize (Hf E).
  cbn beta iota delta [negb]. unfold store.
  destruct (buf_write_in_range text.1 0 (variable name text).2.2) as [d Hd]; [lia|lia|].
  rewrite Hd. apply buf_write_Some in Hd as (_&_&->). done.
Qed.

Lemma GetAudioFrameWork_runs {R} s :
  cs_w s = w -> AudioFrameWork s = AudioFrameWork e ->
  (GetAudioFrameWork : M CmdState R _) s =
  (Go tt, set_texts (DisplayCmdLine s) (HwFenceCmdLine s) (GpuCmdLine s) framework s).
Proof.
  intros Hw Ha. destruct (an_audio An) as [Hl Hc]. unfold GetAudioFrameWork, framework.
  destruct (AsciiStrLen AUDIO_FRAMEWORK >? 0) eqn:E; cbn beta iota delta [negb].
  2: { rewrite <-Ha. by destruct s. }
  assert (HL : forall d t, Z.of_nat (length d) = MAX_AUDIO_FW_LENGTH -> StrLen t < MAX_AUDIO_FW_LENGTH ->
    Z.of_nat (length (set_cstr d t)) = MAX_AUDIO_FW_LENGTH).
  { intros d t H1 H2. unfold set_cstr, StrLen in *. rewrite length_app. simpl. rewrite length_drop. lia. }
  unfold AsciiStrLen, MAX_AUDIO_FW_LENGTH in *. unfold get. rewrite (bind_go _ _ s s s) by done.
  rewrite Ha, Hw. erewrite bind_go by (apply cpy_runs; unfold RSIZE_MAX; bools; lia).
  rewrite (proj2 (Z.ltb_lt _ _)) by lia. unfold ReadAudioFrameWork.
  destruct (FirstReadDevInfo (dv w)); cbn beta iota; [done|].
  change (_ && _) with true. cbn beta iota.
  erewrite bind_go by (apply cpy_runs; [unfold RSIZE_MAX, MAX_AUDIO_FW_LENGTH; lia|]; simpl;
    rewrite HL; unfold MAX_AUDIO_FW_LENGTH; (done || lia)).
  unfold modify, set_when, MAX_AUDIO_FW_LENGTH. cbn beta. by destruct (StrLen _ <? 16).
Qed.

Lemma count_texts_counts {R} : counts (count_texts a : M CmdState R _) e tt text_items (e_texts).
Proof.
  unfold count_texts, text_items.
  set (e1 := set_texts display (HwFenceCmdLine e) (GpuCmdLine e) (AudioFrameWork e) e).
  set (e2 := set_texts display fence (GpuCmdLine e) (AudioFrameWork e) e).
  set (e3 := set_texts display fence gpu (AudioFrameWork e) e).
  assert (H1 : counts (GetDisplayCmdline : M CmdState R _) e tt [] e1).
  { apply counts_lens. intros l. unfold GetDisplayCmdline. rewrite (bind_go get _ _ _ _ eq_refl).
    by erewrite bind_go by (apply read_text_runs; [done|apply An]). }
  assert (H2 : counts (GetHwFenceCmdline : M CmdState R _) e1 tt [] e2).
  { apply counts_lens. intros l. unfold GetHwFenceCmdline. rewrite (bind_go get _ _ _ _ eq_refl).
    by erewrite bind_go by (apply read_text_runs; [done|apply An]). }
  assert (H3 : counts (GetGpuCmdline : M CmdState R _) e2 gpu_status [] e3).
  { apply counts_lens. intros l. unfold GetGpuCmdline. rewrite (bind_go get _ _ _ _ eq_refl).
    by erewrite bind_go by (apply read_text_runs; [done|apply An]). }
  change ([Param ?d None; ?f] ++ ?l) with ([] ++ [Param d None] ++ [] ++ [f] ++ [] ++ l).
  eapply counts_bind; [exact H1|]. apply counts_get. intros ?.
  eapply counts_bind; [apply (counts_param _ _ _ e1), An|].
  eapply counts_bind; [exact H2|]. apply counts_get. intros ?.
  eapply counts_bind; [apply (counts_param _ _ _ e2), An|].
  eapply counts_bind; [exact H3|].
  eapply counts_bind.
  { apply counts_if. apply counts_get. intros ?. apply (counts_param _ _ _ e3), An. }
  unfold audio_items, e_texts, audio, framework_read.
  destruct (_ && _); [|apply counts_ret]. cbn beta iota delta [andb].
  set (e4 := set_texts display fence gpu framework e).
  eapply (counts_bind _ _ _ _ tt [] e4).
  { apply counts_lens. intros l. by apply GetAudioFrameWork_runs. }
  apply counts_get. intros l. cbn [count set_list set_lens AudioFrameWork e4 set_texts].
  destruct (negb _); [|apply counts_ret]. apply (counts_param _ _ _ e4), An.
Qed.

Lemma count_idx_counts {R} key Idx e0 :
  cs_w e0 = w -> (length key <= 40)%nat -> IsLEVariant = false ->
  counts (count_idx a key Idx : M CmdState R _) e0 (idx_text key Idx) (idx_items key Idx) e0.
Proof.
  intros Hw Hk Hle. unfold count_idx, idx_items, idx_text. rewrite Hle.
  destruct (Idx =? INVALID_PTN); cbn [orb]; [apply counts_ret|]. pose proof (length_fmt_d Idx) as Hf.
  eapply (counts_bind _ _ _ _ (pad MAX_DTBO_IDX_STR (key ++ fmt_d Idx)) [] e0).
  { apply counts_lens. intros l. rewrite sprint_runs by done.
    by rewrite take_ge by (rewrite length_app; unfold MAX_DTBO_IDX_STR; lia). }
  eapply (counts_bind _ _ _ _ _ [_] _ _ []); [|apply counts_ret]. apply counts_param. rewrite Hw. apply An.
Qed.

Lemma count_indices_counts {R} :
  counts (count_indices a : M CmdState R _) e_texts (dtbo_text, dtb_text) (dtbo_items ++ dtb_items) e_texts.
Proof.
  unfold count_indices, dtbo_text, dtb_text, dtbo_items, dtb_items.
  destruct IsLEVariant eqn:Hle.
  { unfold idx_text, idx_items. rewrite Hle. cbn [orb app]. apply counts_ret. }
  apply counts_get. intros l. cbn [count set_list set_lens cs_loc e_texts set_texts].
  eapply counts_bind; [apply count_idx_counts; [done|simpl; lia|done]|].
  apply counts_get. intros l'. cbn [count set_list set_lens cs_loc e_texts set_texts].
  eapply counts_eq; [|done|apply app_nil_r].
  eapply counts_bind; [apply count_idx_counts; [done|simpl; lia|done]|]. apply counts_ret.
Qed.

Lemma e_force_w : cs_w e_force = w.
Proof. unfold e_force. by case_match. Qed.
Lemma e_force_nodes : cs_nodes e_force = cs_nodes e.
Proof. unfold e_force. by case_match. Qed.

Lemma count_force_counts {R} : counts (count_force a q (k_multi k) : M CmdState R _) e_texts tt force_items e_force.
Proof.
  unfold count_force, force_items. eapply (counts_bind _ _ _ _ tt [] e_force).
  { unfold e_force. destruct (_ && _); [by apply counts_modify|apply counts_ret]. }
  apply counts_get. intros l. change (cs_w (count V l e_force)) with (cs_w e_force). rewrite e_force_w.
  destruct (force_counted _ _ _ _); [|apply counts_ret].
  change (BootForceNormalBoot (count V l e_force)) with (BootForceNormalBoot e_force).
  assert (Hc : BootForceNormalBoot e_force <> 0) by (unfold e_force; case_match; [done|apply An]).
  pose proof (counts_param V (R := R) AndroidBootForceNormalBoot (Some [BootForceNormalBoot e_force]) e_force) as H.
  unfold count_param in H. replace (AsciiStrLen [BootForceNormalBoot e_force]) with 1 in H.
  - apply H. rewrite e_force_w. apply An.
  - unfold AsciiStrLen, StrLen. simpl. by rewrite (proj2 (Z.eqb_neq _ 0)).
Qed.

Lemma count_fstab_counts {R} : counts (count_fstab a : M CmdState R _) e_force fstab fstab_items e_force.
Proof.
  intros Hs l0. assert (Hw : cs_w e_force = w) by apply e_force_w.
  assert (H : (count_param V AndroidBootFstabSuffix (Some fstab) : M CmdState R _) (count V l0 e_force) =
              (Go tt, count V (l0 ++ fstab_items) e_force)).
  { apply counts_param; [|done]. rewrite Hw. apply An. }
  unfold count_param in H. apply bind_inv_go in H as ([]&s1&H1&H). apply bind_inv_go in H as ([]&s2&H2&H3).
  unfold count_fstab. rewrite (bind_go _ _ _ _ _ H1).
  erewrite bind_go.
  2: { apply asks_runs. replace (cs_w s1) with w; [apply An|]. by injection H1 as <-. }
  assert (E : (if AsciiStriCmp FstabSuffixEmmc (DeviceTypeName (k_type k)) =? 0 then FstabSuffixEmmc
    else if negb (AsciiStriCmp FstabSuffixEmmc (DeviceTypeName (k_type k)) =? 0) && a_NetworkBoot a
         then FstabSuffixNetworkBoot else FstabSuffixDefault) = fstab).
  { unfold fstab. by destruct (_ =? 0). }
  cbn beta zeta. rewrite E, (bind_go _ _ _ _ _ H2), (bind_go _ _ _ _ _ H3). done.
Qed.

Lemma count_memory_counts :
  counts (count_memory a q : M CmdState Res _) e_force (amount, limited && has_mem) memory_items e_nodes.
Proof.
  unfold count_memory. eapply (counts_bind _ _ _ _ (k_limit k) [] e_nodes).
  { apply counts_lens. intros l. rewrite (an_limit An); [done|apply e_force_w|apply e_force_nodes]. }
  assert (Hr : roomy (cs_w e_nodes)) by (unfold e_nodes; simpl; rewrite e_force_w; apply An).
  unfold amount, memory_items. fold limited. destruct limited; [|apply counts_ret]. fold has_mem.
  destruct has_mem; cbn [andb negb].
  - eapply (counts_bind _ _ _ _ _ [_] _ _ []); [apply counts_room|apply counts_ret].
  - do 3 (eapply (counts_bind _ _ _ _ _ [_]); [by apply counts_param|]).
    eapply (counts_bind _ _ _ _ _ [_] _ _ []); [by apply counts_param|apply counts_ret].
Qed.

Lemma add_lens_counts {R} (ts : list (list Z)) e0 :
  counts (foldr (fun t m => add_len (AsciiStrLen t);; m) (mret tt) ts : M CmdState R _) e0 tt
    (map (fun t => Room false (AsciiStrLen t)) ts) e0.
Proof.
  induction ts as [|t ts IH]; [apply counts_ret|].
  eapply (counts_bind _ _ _ _ _ [_]); [apply counts_add_len|exact IH].
Qed.

Lemma count_rest_counts {R} :
  counts (count_rest a q : M CmdState R _) e_nodes (cpu, resume)
    (warm_items ++ silent_items ++ eth_items ++ usb_items ++ ima_items ++ cpu_items ++ [Room false 1] ++ resume_items)
    e_nodes.
Proof.
  assert (Hw : cs_w e_nodes = w) by apply e_force_w.
  assert (Hr : roomy (cs_w e_nodes)) by (rewrite Hw; apply An).
  unfold count_rest. eapply counts_bind; [by apply counts_if, counts_param|].
  eapply counts_bind.
  { unfold silent_items. instantiate (2 := tt).
    destruct (silent_text a); [apply counts_add_len|apply counts_ret]. }
  eapply counts_bind; [apply counts_if, add_lens_counts|].
  eapply counts_bind; [apply counts_if, counts_add_len|].
  eapply counts_bind; [apply counts_if, counts_add_len|].
  eapply counts_bind.
  { instantiate (2 := cpu). unfold cpu_items, cpu. destruct BootCpuSelectionEnabled; [|apply counts_ret].
    eapply (counts_bind _ _ _ _ _ []); [apply counts_lens; intros l; by apply sprint_runs|].
    eapply (counts_bind _ _ _ _ _ [_] _ _ []); [by apply counts_param|apply counts_ret]. }
  eapply counts_bind; [apply counts_add_len|]. apply counts_world. rewrite Hw.
  eapply counts_eq; [|done|apply app_nil_r]. eapply counts_bind; [|apply counts_ret].
  unfold resume_items, resume. fold hibernates. destruct hibernates eqn:E; [|apply counts_ret].
  eapply (counts_bind _ _ _ _ (k_resume k) []).
  { apply counts_ask, told_asks. rewrite Hw. by apply An. }
  eapply (counts_bind _ _ _ _ _ [_] _ _ []); [apply counts_add_len|apply counts_ret].
Qed.

(** The first pass, from the state with an empty list. *)
Lemma count_all_runs s :
  small counted -> cs_w s = w -> set_lens 0 0 s = count V [] e ->
  count_all a q s = (Go params, count V counted e_nodes).
Proof.
  intros Hs Hw He. unfold count_all. erewrite bind_go by (apply asks_runs; rewrite Hw; apply An).
  cbn [fst snd]. change (EFI_SUCCESS =? EFI_SUCCESS) with true. cbn beta iota delta [negb].
  erewrite bind_go by (unfold modify; reflexivity). rewrite He. fold mdtp. cbn beta zeta.
  unfold counted in Hs. apply small_app in Hs as [Hs1 Hs2].
  rewrite (bind_go _ _ _ _ _ (count_given_runs Hs1)).
  match goal with |- ?m _ = _ => enough (H : counts m e params _ e_nodes) by exact (H Hs2 _) end.
  eapply counts_bind; [apply count_device_counts|].
  eapply (counts_bind _ _ _ _ _ serial_items); [apply counts_param, An|].
  eapply counts_bind; [apply count_mode_counts|].
  rewrite bool_decide_true by apply An. cbn beta iota delta [negb].
  eapply (counts_bind _ _ _ _ _ []); [apply counts_ret|].
  eapply (counts_bind _ _ _ _ _ band_items); [apply counts_param, An|].
  eapply counts_bind; [apply count_slot_counts|].
  eapply counts_bind; [apply count_texts_counts|].
  eapply (counts_bind _ _ _ _ modem).
  { unfold modem, modem_items. destruct EarlyServicesEnabled eqn:E; [|apply counts_ret].
    eapply (counts_bind _ _ _ _ (k_modem k) []); [by apply counts_ask, told_asks, An|].
    eapply (counts_bind _ _ _ _ _ [_] _ _ []); [apply counts_add_len|apply counts_ret]. }
  eapply counts_bind; [apply count_indices_counts|]. eapply counts_bind; [apply count_force_counts|].
  eapply counts_bind; [apply count_fstab_counts|]. eapply counts_bind; [apply count_memory_counts|].
  eapply counts_eq; [|done|apply app_nil_r].
  eapply counts_bind; [apply count_rest_counts|]. apply counts_ret.
Qed.
End Pass.
