(* ===== verification/CmdText.v ===== *)
(** The second pass of [UpdateCmdLine], block by block: the pieces that are
    appended, that each block appends them when they fit, and that all of them
    fit into what the first pass has counted. *)
From Stdlib Require Import ZArith Lia.
From stdpp Require Import base list numbers option.
From S2P Require Import Prelude EfiBase Convert Firmware World LoaderLib Board Ptable DevInfo Gpt Slots Recovery Fastboot FastbootCmds Setup Fdt FdtRw Carveout DtMatch Locate SlotSpec CmdPath CmdLine CmdCount CmdPass.

#[local] Arguments cats_to : simpl never.

Lemma set_final_id `{F : Firmware} s : set_final (FinalCmdLine s) s = s.
Proof. by destruct s. Qed.

Section Put.
Context `{F : Firmware} `{B : BuildConfig} `{C : CmdConfig} {Res : Type}.
Variable Max : Z.
Hypothesis HMax : Max <= RSIZE_MAX.

(** The state with the text [t] in the buffer and the entries [es]. *)
Definition put (t : list Z) (es : list (list Z)) (e : CmdState) : CmdState :=
  set_list es (set_final (Some (pad Max t)) e).

(** From the statics of [e], [m] appends the pieces [ls] and adds the entries
    [es], when the pieces fit. *)
Definition puts {A} (m : M CmdState Res A) (e : CmdState) (v : A) (ls es : list (list Z)) (e' : CmdState) : Prop :=
  forall t es0, Forall (fun c => c <> 0) t -> Z.of_nat (length t + length (text_of ls)) < Max ->
  m (put t es0 e) = (Go v, put (t ++ text_of ls) (es0 ++ es) e').

Lemma puts_ret {A} (v : A) e : puts (mret v) e v [] [] e.
Proof. intros t es0 _ _. by rewrite !app_nil_r. Qed.

Lemma puts_bind {A D} (m : M CmdState Res A) (f : A -> M CmdState Res D) e x l1 s1 e1 v l2 s2 e2 :
  puts m e x l1 s1 e1 -> puts (f x) e1 v l2 s2 e2 -> puts (m ≫= f) e v (l1 ++ l2) (s1 ++ s2) e2.
Proof.
  intros Hm Hf t es0 Ht Hl. rewrite text_of_app, length_app in Hl.
  rewrite (bind_go _ _ _ _ _ (Hm t es0 Ht ltac:(lia))).
  rewrite Hf; [|apply Forall_app; split; [done|apply text_of_nonzero]|rewrite length_app; lia].
  by rewrite text_of_app, !(assoc (++)).
Qed.

Lemma puts_if {A} (b : bool) (m : M CmdState Res A) v e l s :
  puts m e v l s e -> puts (if b then m else mret v) e v (if b then l else []) (if b then s else []) e.
Proof. destruct b; [done|]. intros _. apply puts_ret. Qed.

Lemma puts_pure {A} (m : M CmdState Res A) e v e' :
  (forall t es, m (put t es e) = (Go v, put t es e')) -> puts m e v [] [] e'.
Proof. intros H t es0 _ _. by rewrite H, !app_nil_r. Qed.

Lemma puts_get {A} (f : CmdState -> M CmdState Res A) e v l s e' :
  (forall t es, puts (f (put t es e)) e v l s e') -> puts (x ← get; f x) e v l s e'.
Proof. intros Hf t es0 Ht Hl. unfold get. munfold. by apply Hf. Qed.

Lemma puts_world {A} (f : World -> M CmdState Res A) e v l s e' :
  puts (f (cs_w e)) e v l s e' -> puts (x ← world; f x) e v l s e'.
Proof. intros Hf t es0 Ht Hl. unfold world, get. munfold. by apply Hf. Qed.

Lemma puts_ask {A} (m : MW A A) (v : A) e : asks (cs_w e) m v -> puts (on_world m) e v [] [] e.
Proof. intros H. apply puts_pure. intros t es. by apply asks_runs. Qed.

Lemma puts_eq {A} (m : M CmdState Res A) e v l l' s s' e' :
  puts m e v l s e' -> text_of l = text_of l' -> s = s' -> puts m e v l' s' e'.
Proof. unfold puts. by intros H <- <-. Qed.

Lemma puts_cat t0 e : puts (cat Max (Some t0)) e tt [t0] [] e.
Proof.
  intros t es0 Ht Hl. unfold text_of in *. cbn [map concat] in *. rewrite app_nil_r in *.
  unfold cat. rewrite (bind_go get _ _ _ _ eq_refl). erewrite (bind_go (need _ _)) by done.
  erewrite bind_go by (apply cat_fits; [done|reflexivity|done|unfold StrLen; lia]).
  unfold modify, put, set_final, set_list. simpl. by rewrite app_nil_r.
Qed.

Lemma puts_cats l e : puts (cats_to Max l) e tt l [] e.
Proof.
  induction l as [|t l IH]; [apply puts_ret|].
  exact (puts_bind _ _ _ _ [t] [] _ _ l [] _ (puts_cat t e) IH).
Qed.

Lemma puts_when (b : bool) l e : puts (cats_when Max b l) e tt (if b then l else []) [] e.
Proof. unfold cats_when. destruct b; [apply puts_cats|apply puts_ret]. Qed.

Lemma puts_null e : puts (cat Max None) e tt [] [] e.
Proof. by apply puts_pure. Qed.

(** A parameter goes to the boot configuration. *)
Lemma puts_add flag key value n e :
  roomy (cs_w e) -> n = match value with Some v => StrLen v | None => 0 end ->
  StrLen key + n <= RSIZE_MAX ->
  puts (AddtoBootConfigList flag key value (AsciiStrLen key) n) e tt []
    (if flag then [entry (cstr key ++ value_text value)] else []) e.
Proof.
  intros Hr Hn Hl t es0 _ _. unfold AsciiStrLen. rewrite add_entry_runs by done.
  unfold text_of. simpl. by rewrite app_nil_r.
Qed.
End Put.

(** * The pieces *)

Section Pieces.
Context `{F : Firmware} `{B : BuildConfig} `{C : CmdConfig}.
Variables (a : CmdArgs) (q : CmdWorld) (e : CmdState) (k : Answers).
Local Abbreviation V := (a_HeaderVersion a).
Local Abbreviation old := (a_HeaderVersion a <=? BOOT_HEADER_VERSION_THREE).
Local Abbreviation w := (cs_w e).
Local Abbreviation Res := EFI_STATUS.

Definition opt (o : option (list Z)) : list (list Z) := match o with Some t => [t] | None => [] end.

Definition vb_text : list (list Z) := if old then opt (a_VBCmdLine a) else [].
Definition vb_entries : list (list Z) :=
  match a_VBCmdLine a with
  | Some vb =>
      if negb old && IsAndroidBootParam vb (AsciiStrLen vb) V then [entry (ParseVBCmdLine (cstr vb))] else []
  | None => []
  end.
Definition warm_text : list (list Z) := if warm a then [WarmResetArgs] else [].
Definition net : bool := negb (a_FlashlessBoot a) && a_NetworkBoot a.
Definition fstab_text : list (list Z) := [AndroidBootFstabSuffix; fstab a k].
Definition net_text : list (list Z) := if net then fstab_text else [].
Definition dev_text : list (list Z) := [BootDeviceCmdLine; (k_device k).2].
Definition dyn_text : list (list Z) :=
  if IsDynamicPartitionSupport (pt w) then [DynamicBootDeviceCmdLine; (k_device k).2] else [].
Definition device_text : list (list Z) := if known k && old then dev_text ++ fstab_text ++ dyn_text else [].
Definition serial_text : list (list Z) := if old then [UsbSerialCmdLine; k_serial k] else [].
Definition mode_text : list (list Z) :=
  if HaveFfbm a then (if old then [AndroidBootMode; default [] (a_FfbmStr a)] else []) ++ [LogLevel]
  else if charging a e then (if old then [BatteryChgPause] else [])
  else if a_AlarmBoot a then (if old then [AlarmBootCmdLine] else []) else [].
(** The first three letters, in lower case. *)
Definition band : list Z := ToLower (pad CHIP_BASE_BAND_LEN (take 3 (cstr (default [] (q_ChipBaseBand q))))).
Definition band_text : list (list Z) := if old then [BOOT_BASE_BAND; band] else [].
Definition panel_text : list (list Z) := [(display e).1; (fence e).1; (gpu e).1].
Definition mdtp_text : list (list Z) := if mdtp q then [MdtpActiveFlag] else [].
Definition nand_text : list (list Z) :=
  if nand k then
    [PartActiveBoot] ++
    (if k_multi k && (negb (k_ri k) || negb (StrCmp (k_suffix k) (L "_a") =? 0)) then [k_suffix k] else [])
  else [].

Definition suffix_ascii : list Z := pad MAX_SLOT_SUFFIX_SZ (map u8 (cstr (k_suffix k))).
(** [SystemdSlotEnv] with the letter of the slot. *)
Definition slot_env : list Z :=
  let n := Z.to_nat (AsciiStrLen (SystemdSlotEnv e) - 2) in
  take n (SystemdSlotEnv e) ++ [default 0 (suffix_ascii !! 1%nat)] ++ drop (n + 1) (SystemdSlotEnv e).
Definition suffix_text : list (list Z) := if old then [AndroidSlotSuffix; suffix_ascii] else [].
Definition env_written : bool :=
  k_multi k && (if negb (IsBootDevImage w) then le_slots else k_ri k && IsLEVariant).
Definition suffix_written : bool := k_multi k && negb (IsBootDevImage w) && negb le_slots.
Definition slot_text : list (list Z) :=
  (if env_written then [slot_env] else []) ++ (if suffix_written then suffix_text else []).
Definition slot_entries : list (list Z) :=
  if suffix_written && negb old && IsAndroidBootParam AndroidSlotSuffix (AsciiStrLen AndroidSlotSuffix) V
  then [entry (cstr AndroidSlotSuffix ++ cstr suffix_ascii)] else [].
Definition root_text : list (list Z) :=
  if root_needed a (k_multi k) w then (if skips a e then [SkipRamFs] else []) ++ [RootCmdLine; InitCmdline] else [].
Definition dtbo_pieces : list (list Z) := if old then [dtbo_text e] else [].
Definition dtb_pieces : list (list Z) := if old then [dtb_text e] else [].
Definition written : bool := force_written a q (params a q e k) w.
Definition force_char : Z :=
  if V <? BOOT_HEADER_VERSION_THREE then 49 else BootForceNormalBoot (e_force a q e).
Definition force_text : list (list Z) :=
  if written && old then [AndroidBootForceNormalBoot; force_char :: q_behind q] else [].
Definition verity_text : list (list Z) := opt (verity a q).
Definition memory_text : list (list Z) :=
  match amount a k with
  | Some m => [MemOff; m; MemHpState; MovableNode]
  | None => if limited a k && has_mem a then [NoPasr] else []
  end.
Definition eth_text : list (list Z) := if EARLY_ETH_ENABLED then q_EarlyEth q else [].
Definition usb_text : list (list Z) := if EARLY_USB_ENABLED then [q_EarlyUsb q] else [].
Definition ima_text : list (list Z) := if INTEGRITY_IMA_ENABLED then [q_IMA q] else [].
Definition resume_text : list (list Z) := opt (resume e k).
Definition silent_pieces : list (list Z) := opt (silent_text a).
Definition cpu_text : list (list Z) := if BootCpuSelectionEnabled then [cpu q] else [].
Definition modem_text : list (list Z) := opt (modem k).

(** All that the second pass appends to the command line of the image. *)
Definition pieces : list (list Z) :=
  vb_text ++ (warm_text ++ net_text ++ device_text) ++ (serial_text ++ mode_text) ++ band_text ++
  (panel_text ++ mdtp_text) ++ nand_text ++ slot_text ++ root_text ++ (dtbo_pieces ++ dtb_pieces ++ force_text) ++
  (verity_text ++ memory_text ++ eth_text ++ usb_text ++ ima_text ++ resume_text ++ silent_pieces ++ cpu_text ++
   modem_text).

(** All that is asked for: the audio framework as well, which the first pass
    counts and the second one does not append. *)
Definition audio_text : list (list Z) :=
  if old && negb (bool_decide (audio_items a e = [])) then [AndroidBootAudioFW; framework e] else [].
Definition asked : list (list Z) :=
  vb_text ++ (warm_text ++ net_text ++ device_text) ++ (serial_text ++ mode_text) ++ band_text ++
  (panel_text ++ audio_text ++ mdtp_text) ++ nand_text ++ slot_text ++ root_text ++
  (dtbo_pieces ++ dtb_pieces ++ force_text) ++
  (verity_text ++ memory_text ++ eth_text ++ usb_text ++ ima_text ++ resume_text ++ silent_pieces ++ cpu_text ++
   modem_text).

(** The framework goes to the boot configuration, or there is none. *)
Definition audio_done : Prop := old = false \/ audio_items a e = [].

Lemma asked_pieces : audio_done -> asked = pieces.
Proof.
  unfold asked, pieces, audio_text. intros [-> | ->]; [done|]. rewrite bool_decide_true by done.
  by rewrite andb_false_r.
Qed.

Definition given_pieces : list (list Z) := if HaveCmdLine a then [the_CmdLine a] else [].

(** What the second pass needs. *)
Record writable : Prop := {
  wr_suffix : StrLen (k_suffix k) <= 2;
  wr_env : 2 <= AsciiStrLen (SystemdSlotEnv e);
}.

(** ** The blocks *)

Variable Max : Z.
Hypothesis HMax : Max <= RSIZE_MAX.
Context (An : answered a q e k) (Wr : writable).
Local Abbreviation p := (params a q e k).
Local Abbreviation does := (puts (Res := Res) Max).

Variable e2 : CmdState.
Hypothesis He2 : e2 = count V (counted a q e k) (e_nodes a q e k).

Lemma e2_w : cs_w e2 = w.
Proof. rewrite He2. apply e_force_w. Qed.
Lemma e2_texts :
  DisplayCmdLine e2 = display e /\ HwFenceCmdLine e2 = fence e /\ GpuCmdLine e2 = gpu e.
Proof. rewrite He2. simpl. unfold e_force. by case_match. Qed.
Lemma e2_env : SystemdSlotEnv e2 = SystemdSlotEnv e.
Proof. rewrite He2. simpl. unfold e_force. by case_match. Qed.
Lemma e2_force : BootForceNormalBoot e2 = BootForceNormalBoot (e_force a q e).
Proof. by rewrite He2. Qed.

Lemma ParseVB_nonzero s : Forall (fun c => c <> 0) (ParseVBCmdLine (cstr s)).
Proof.
  unfold ParseVBCmdLine. apply Forall_map. eapply Forall_impl; [|apply cstr_nonzero].
  intros c Hc. simpl. by case_match.
Qed.

Lemma text_given_runs es :
  Z.of_nat (length (text_of given_pieces) + length (text_of vb_text)) < Max ->
  (forall vb, a_VBCmdLine a = Some vb -> AsciiStrLen vb <= RSIZE_MAX) ->
  (text_given a Max : M CmdState Res _) (put Max [] es e2) =
  (Go tt, put Max (text_of given_pieces ++ text_of vb_text) (es ++ vb_entries) e2).
Proof.
  intros Hl Hvb. unfold text_given.
  assert (H1 : forall (b : bool) (c : list Z), (b = true -> StrLen c < Max) ->
    ((if b then
     s ← get;
     Dst ← need NullDeref (FinalCmdLine s);
     r ← AsciiStrCpyS Dst Max (Some c);
     modify (set_final (Some r.2))
   else mret tt) : M CmdState Res _) (put Max [] es e2) = (Go tt, put Max (text_of (if b then [c] else [])) es e2)).
  { intros [] c Hc; [|done]. rewrite (bind_go get _ _ _ _ eq_refl). erewrite (bind_go (need _ _)) by done.
    assert (Ez : pad Max [] = zeros Max) by (unfold pad; simpl; by rewrite Z.sub_0_r).
    simpl FinalCmdLine. rewrite Ez. erewrite bind_go by (apply cpy_fits; auto).
    unfold text_of. simpl. by rewrite app_nil_r. }
  assert (Hc : HaveCmdLine a = true -> StrLen (the_CmdLine a) < Max).
  { unfold StrLen, given_pieces in *. intros E. rewrite E in Hl. unfold text_of in Hl. simpl in Hl.
    rewrite app_nil_r in Hl. lia. }
  rewrite (bind_go _ _ _ _ _ (H1 (HaveCmdLine a) (the_CmdLine a) Hc)).
  fold given_pieces.
  match goal with |- ?m _ = _ => enough (H : does m e2 tt vb_text vb_entries e2)
    by (apply H; [apply text_of_nonzero|lia]) end.
  unfold vb_text, vb_entries. destruct (a_VBCmdLine a) as [vb|] eqn:Evb; simpl opt.
  2: { destruct old; apply puts_ret. }
  destruct old; simpl negb; cbn [andb]; [by apply puts_cats|].
  eapply puts_eq; [apply puts_add|done|].
  - rewrite e2_w. apply An.
  - done.
  - specialize (Hvb vb eq_refl). unfold AsciiStrLen, StrLen in *. rewrite cstr_id by apply ParseVB_nonzero.
    unfold ParseVBCmdLine. rewrite length_map. lia.
  - rewrite cstr_id by apply ParseVB_nonzero. simpl. by rewrite app_nil_r.
Qed.

Lemma text_device_puts : does (text_device a p Max) e2 tt (warm_text ++ net_text ++ device_text) [] e2.
Proof.
  unfold text_device. rewrite (assoc (++)). eapply (puts_bind _ _ _ _ _ _ []).
  - unfold warm_text, net_text, warm, net. destruct (a_FlashlessBoot a); simpl.
    + by apply puts_cats.
    + eapply puts_eq; [by apply puts_when|by destruct (a_NetworkBoot a)|done].
  - unfold device_text, params, device. simpl. destruct (known k); cbn [andb]; [|apply puts_ret].
    destruct old; [|apply puts_ret].
    eapply puts_eq; [eapply (puts_bind _ _ _ _ _ _ []); [by apply puts_cats|]|..].
    + apply puts_world. rewrite e2_w. by apply puts_when.
    + by unfold dyn_text.
    + done.
Qed.

Lemma text_mode_puts : does (text_mode a p Max) e2 tt (serial_text ++ mode_text) [] e2.
Proof.
  unfold text_mode, serial_text, mode_text, params. simpl. unfold pause.
  eapply (puts_bind _ _ _ _ _ _ []); [by apply puts_when|].
  destruct (HaveFfbm a); simpl.
  - eapply (puts_bind _ _ _ _ _ _ []); [by apply puts_when|by apply puts_cats].
  - destruct (charging a e); [by apply puts_when|]. destruct (a_AlarmBoot a); [by apply puts_when|apply puts_ret].
Qed.

Lemma text_baseband_puts : does (text_baseband a q Max) e2 tt band_text [] e2.
Proof.
  unfold text_baseband, band_text. destruct old; [|apply puts_ret].
  eapply (puts_bind _ _ _ _ _ [_] [] _ _ [_] []); [by apply puts_cats|].
  set (c := default [] (q_ChipBaseBand q)).
  eapply (puts_bind _ _ _ _ (EFI_SUCCESS, pad CHIP_BASE_BAND_LEN (take 3 (cstr c))) [] [] _ _ [_] []).
  2: { by apply puts_cats. }
  apply puts_pure. intros t es. unfold AsciiStrnCpyS, StrnCpyS, CHIP_BASE_BAND_LEN.
  change (4 - 1) with 3. change (4 `min` 3) with 3. change (4 <=? RSIZE_MAX) with true.
  change (3 <=? RSIZE_MAX) with true. change (4 =? 0) with false. change (4 <=? 3) with false.
  cbn beta iota zeta delta [negb andb].
  set (n := StrnLenS c 3). assert (Hn : n = Z.min (StrLen c) 3).
  { unfold n, StrnLenS. cbn. case_match; bools; lia. }
  rewrite (proj2 (Z.ltb_ge 3 n)) by lia. unfold copy_chars.
  assert (Et : take (Z.to_nat n) (cstr c) = take 3 (cstr c)).
  { rewrite Hn. unfold StrLen. destruct (decide (3 <= length (cstr c))%nat).
    - rewrite Z.min_r by lia. done.
    - rewrite Z.min_l, Nat2Z.id, !take_ge by lia. done. }
  rewrite Et. pose proof (pad_write 4 [] (take 3 (cstr c))) as E.
  unfold pad at 1 in E. change (4 - Z.of_nat (length [])) with 4 in E. change (Z.of_nat (length [])) with 0 in E.
  rewrite app_nil_l in E. rewrite E; [done|].
  rewrite length_take. cbn [length]. lia.
Qed.

Lemma text_texts_puts : does (text_texts p Max) e2 tt (panel_text ++ mdtp_text) [] e2.
Proof.
  unfold text_texts, params. simpl. apply puts_get. intros t es.
  destruct e2_texts as (Ed & Eh & Eg). cbn [put set_list set_final DisplayCmdLine HwFenceCmdLine GpuCmdLine].
  rewrite Ed, Eh, Eg. apply (puts_bind _ _ _ _ tt panel_text [] e2 tt mdtp_text []); [by apply puts_cats|by apply puts_when].
Qed.

Lemma puts_asked {A D} (m : MW A A) (x : A) (f : A -> M CmdState Res D) e0 v l s e1 :
  asks (cs_w e0) m x -> does (f x) e0 v l s e1 -> does (y ← on_world m; f y) e0 v l s e1.
Proof. intros H Hf. by apply (puts_bind _ _ _ _ x [] [] e0 _ l s); [apply puts_ask|]. Qed.

Lemma text_nand_puts : does (text_nand p Max) e2 tt nand_text [] e2.
Proof.
  unfold text_nand, nand_text, nand, params. simpl.
  eapply puts_asked; [rewrite e2_w; apply An|]. case_bool_decide; [|apply puts_ret].
  eapply (puts_bind _ _ _ _ _ [_] [] _ _ _ []); [by apply puts_cats|].
  destruct (k_multi k); [|apply puts_ret]. cbn [andb].
  eapply puts_asked; [rewrite e2_w; apply An|]. eapply puts_asked; [rewrite e2_w; apply An|].
  destruct (_ || _); [|apply puts_ret]. pose proof (wr_suffix Wr) as Hs. unfold StrLen in Hs.
  eapply (puts_bind _ _ _ _ (pad 6 (cstr (k_suffix k))) [] [] _ _ [_] []).
  { apply puts_pure. intros t es. rewrite sprint_runs by lia. by rewrite take_ge by lia. }
  eapply puts_eq; [by apply puts_cats| |done].
  unfold text_of. simpl. by rewrite cstr_pad by (apply cstr_nonzero || lia).
Qed.

(** The statics after the slot. *)
Definition e_slot : CmdState := if env_written then set_slot_env slot_env e2 else e2.
Lemma e_slot_w : cs_w e_slot = w.
Proof. unfold e_slot. by case_match; apply e2_w. Qed.

Lemma to_ascii {S} (s : S) :
  (UnicodeStrToAsciiStr (k_suffix k) (zeros MAX_SLOT_SUFFIX_SZ) : M S Res _) s = (Go suffix_ascii, s).
Proof.
  pose proof (wr_suffix Wr) as Hs. unfold StrLen in Hs. unfold UnicodeStrToAsciiStr, suffix_ascii.
  pose proof (pad_write 3 [] (map u8 (cstr (k_suffix k)))) as E.
  unfold pad at 1 in E. change (3 - Z.of_nat (length [])) with 3 in E. change (Z.of_nat (length [])) with 0 in E.
  unfold MAX_SLOT_SUFFIX_SZ. rewrite app_nil_l in E. rewrite E; [done|]. rewrite length_map. simpl. lia.
Qed.

Lemma text_slot_env_puts : does (text_slot_env Max suffix_ascii) e2 tt [slot_env] [] (set_slot_env slot_env e2).
Proof.
  pose proof (wr_suffix Wr) as Hs. pose proof (wr_env Wr) as He. unfold StrLen in Hs.
  unfold text_slot_env. apply puts_get. intros t es. cbn [put set_list set_final SystemdSlotEnv]. rewrite e2_env.
  destruct (lookup_lt_is_Some_2 suffix_ascii 1) as [c Hc].
  { pose proof (length_pad 3 (map u8 (cstr (k_suffix k)))) as H. rewrite length_map in H.
    unfold suffix_ascii, MAX_SLOT_SUFFIX_SZ. lia. }
  assert (Hw : buf_write (SystemdSlotEnv e) (AsciiStrLen (SystemdSlotEnv e) - 2) [c] = Some slot_env).
  { pose proof (length_cstr_le (SystemdSlotEnv e)) as Hl. unfold AsciiStrLen in *. apply buf_write_Some.
    split; [lia|]. split; [simpl; lia|]. unfold slot_env. by rewrite Hc. }
  rewrite Hc. eapply (puts_bind _ _ _ _ c [] []); [by apply puts_pure|].
  cbn beta. unfold store. rewrite Hw. eapply (puts_bind _ _ _ _ slot_env [] []); [by apply puts_pure|].
  eapply (puts_bind _ _ _ _ tt [] [] (set_slot_env slot_env e2)); [by apply puts_pure|by apply puts_cats].
Qed.

Lemma text_slot_puts : does (text_slot a p Max) e2 tt slot_text slot_entries e_slot.
Proof.
  unfold text_slot, slot_text, slot_entries, e_slot, env_written, suffix_written, params. simpl.
  destruct (k_multi k); cbn [andb]; [|apply puts_ret]. apply puts_world. rewrite e2_w.
  destruct (IsBootDevImage w); cbn [andb negb].
  - eapply puts_asked; [rewrite e2_w; apply An|]. destruct (_ && _); [|apply puts_ret].
    eapply puts_asked; [rewrite e2_w; apply An|].
    eapply (puts_bind _ _ _ _ suffix_ascii [] []); [apply puts_pure; intros; apply to_ascii|].
    apply text_slot_env_puts.
  - eapply puts_asked; [rewrite e2_w; apply An|].
    eapply (puts_bind _ _ _ _ suffix_ascii [] []); [apply puts_pure; intros; apply to_ascii|].
    fold le_slots. destruct le_slots; cbn [andb negb app]; [apply text_slot_env_puts|].
    unfold suffix_text. destruct old; cbn [andb negb]; [by apply puts_cats|].
    apply (puts_add Max _ AndroidSlotSuffix (Some suffix_ascii)); [rewrite e2_w; apply An|done|].
    pose proof (wr_suffix Wr) as Hs. pose proof (length_cstr_le suffix_ascii) as Hl.
    pose proof (length_pad 3 (map u8 (cstr (k_suffix k)))) as H. rewrite length_map in H. unfold StrLen in Hs.
    unfold suffix_ascii at 2, MAX_SLOT_SUFFIX_SZ in Hl. rewrite H in Hl by lia.
    change (StrLen AndroidSlotSuffix) with 25. unfold RSIZE_MAX, AsciiStrLen in *. lia.
Qed.

Lemma text_root_puts : does (text_root a p Max) e_slot tt root_text [] e_slot.
Proof.
  unfold text_root, root_text, params. simpl. apply puts_world. rewrite e_slot_w.
  destruct (root_needed _ _ _); [|apply puts_ret].
  eapply (puts_bind _ _ _ _ _ _ [] _ _ _ []); [by apply puts_when|by apply puts_cats].
Qed.

(** The statics at the end. *)
Definition e_end : CmdState :=
  if written && (V <? BOOT_HEADER_VERSION_THREE) then set_force 49 e_slot else e_slot.
Lemma e_end_w : cs_w e_end = w.
Proof. unfold e_end. by case_match; apply e_slot_w. Qed.

Lemma text_force_puts :
  does (text_force a q p Max) e_slot tt (dtbo_pieces ++ dtb_pieces ++ force_text) [] e_end.
Proof.
  unfold text_force. eapply (puts_bind _ _ _ _ _ _ [] _ _ _ []); [by apply puts_when|].
  eapply (puts_bind _ _ _ _ _ _ [] _ _ _ []); [by apply puts_when|].
  apply puts_world. rewrite e_slot_w. unfold force_text, e_end. fold written.
  destruct written; cbn [andb]; [|apply puts_ret].
  set (e3 := if V <? BOOT_HEADER_VERSION_THREE then set_force 49 e_slot else e_slot).
  eapply (puts_bind _ _ _ _ tt [] [] e3).
  { unfold e3. destruct (V <? _); [by apply puts_pure|apply puts_ret]. }
  apply puts_get. intros t es. cbn [put set_list set_final BootForceNormalBoot].
  assert (Ec : BootForceNormalBoot e3 = force_char).
  { unfold e3, force_char. destruct (V <? _); [done|]. rewrite <-e2_force. unfold e_slot. by case_match. }
  rewrite Ec. by apply puts_when.
Qed.

Lemma puts_opt {e0} (o : option (list Z)) :
  does (match o with Some t => cats_to Max [t] | None => mret tt end) e0 tt (opt o) [] e0.
Proof. destruct o; [by apply puts_cats|apply puts_ret]. Qed.

Lemma text_rest_puts :
  does (text_rest q p Max) e_end tt
    (verity_text ++ memory_text ++ eth_text ++ usb_text ++ ima_text ++ resume_text ++ silent_pieces ++ cpu_text ++
     modem_text) [] e_end.
Proof.
  unfold text_rest. eapply (puts_bind _ _ _ _ _ _ [] _ _ _ []); [apply puts_opt|].
  eapply (puts_bind _ _ _ _ tt _ [] _ _ _ []).
  { unfold memory_text. simpl. destruct (amount a k); [by apply puts_cats|by apply puts_when]. }
  do 3 (eapply (puts_bind _ _ _ _ _ _ [] _ _ _ []); [by apply puts_when|]).
  apply puts_world. rewrite e_end_w. eapply (puts_bind _ _ _ _ tt _ [] _ _ _ []).
  { unfold resume_text. simpl. unfold resume, hibernates. destruct (IsHibernationEnabled (pt w)); [|apply puts_ret].
    destruct (k_resume k).1; [by apply puts_cat|apply puts_null]. }
  eapply (puts_bind _ _ _ _ _ _ [] _ _ _ []); [apply puts_opt|].
  eapply (puts_bind _ _ _ _ _ _ [] _ _ _ []); [by apply puts_when|].
  unfold modem_text. simpl. unfold modem. destruct EarlyServicesEnabled; simpl; [|apply puts_ret].
  destruct (k_modem k).1 as [t|]; [by apply (puts_cats Max HMax [t])|apply puts_ret].
Qed.

(** ** The second pass *)

Lemma UpdateCmdLineParams_runs :
  CmdLineLen e2 = Max -> 0 < Max ->
  Z.of_nat (length (text_of (given_pieces ++ pieces))) < Max ->
  (forall vb, a_VBCmdLine a = Some vb -> AsciiStrLen vb <= RSIZE_MAX) ->
  UpdateCmdLineParams a q p e2 =
  (Go EFI_SUCCESS,
   put Max (text_of (given_pieces ++ pieces)) (BootConfigList e2 ++ vb_entries ++ slot_entries) e_end).
Proof.
  intros HM HM0 Hl Hvb. unfold UpdateCmdLineParams. rewrite (bind_go get _ _ _ _ eq_refl). cbn zeta. rewrite HM.
  rewrite (bind_go _ _ _ _ _ (alloc_runs _ _ ltac:(rewrite e2_w; apply An))). cbn beta iota delta [negb].
  erewrite (bind_go (modify _)) by (unfold modify; reflexivity).
  assert (Hput : set_final (Some (zeros Max)) e2 = put Max [] (BootConfigList e2) e2).
  { unfold put, pad, zeros, set_list, set_final. simpl. by rewrite Z.sub_0_r. }
  rewrite Hput. unfold pieces in *. rewrite !text_of_app, !length_app in Hl.
  rewrite (bind_go _ _ _ _ _ (text_given_runs (BootConfigList e2) ltac:(lia) Hvb)).
  rewrite (text_of_app given_pieces), (text_of_app vb_text), (assoc (++) (text_of given_pieces)).
  rewrite (assoc (++) (BootConfigList e2)).
  match goal with |- ?m _ = _ => enough (H : does m e2 EFI_SUCCESS _ slot_entries e_end)
    by (apply H; [apply Forall_app; split; apply text_of_nonzero|rewrite !text_of_app, !length_app; lia]) end.
  eapply (puts_bind _ _ _ _ _ _ [] _ _ _ slot_entries); [apply text_device_puts|].
  eapply (puts_bind _ _ _ _ _ _ [] _ _ _ slot_entries); [apply text_mode_puts|].
  eapply (puts_bind _ _ _ _ _ _ [] _ _ _ slot_entries); [apply text_baseband_puts|].
  eapply (puts_bind _ _ _ _ _ (panel_text ++ mdtp_text) [] _ _ _ slot_entries); [apply text_texts_puts|].
  eapply (puts_bind _ _ _ _ _ _ [] _ _ _ slot_entries); [apply text_nand_puts|].
  rewrite <-(app_nil_r slot_entries). eapply puts_bind; [apply text_slot_puts|].
  eapply (puts_bind _ _ _ _ _ _ [] _ _ _ []); [apply text_root_puts|].
  eapply (puts_bind _ _ _ _ _ _ [] _ _ _ []); [apply text_force_puts|].
  eapply puts_eq; [eapply (puts_bind _ _ _ _ _ _ [] _ _ [] []); [apply text_rest_puts|apply puts_ret]| |done].
  by rewrite app_nil_r.
Qed.
End Pieces.
