(* ===== verification/CmdFit.v ===== *)
(** The two passes of [UpdateCmdLine] together: what the first pass counts has
    room for all the second pass appends, on the command line and in the boot
    configuration. *)
From Stdlib Require Import ZArith Lia.
From stdpp Require Import base list numbers option sets.
From S2P Require Import Prelude EfiBase Convert Firmware World LoaderLib Board Ptable DevInfo Gpt Slots Recovery Fastboot FastbootCmds Setup Fdt FdtRw Carveout DtMatch Locate SlotSpec CmdPath CmdLine CmdCount CmdPass CmdText.

(** * Lengths *)

Definition plen (l : list (list Z)) : Z := Z.of_nat (length (text_of l)).

Lemma plen_app l1 l2 : plen (l1 ++ l2) = plen l1 + plen l2.
Proof. unfold plen. rewrite text_of_app, length_app. lia. Qed.
Lemma plen_cons t l : plen (t :: l) = StrLen t + plen l.
Proof. unfold plen, StrLen, text_of. simpl. rewrite length_app. lia. Qed.
Lemma plen_nil : plen [] = 0.
Proof. done. Qed.
Lemma plen_nonneg l : 0 <= plen l.
Proof. unfold plen. lia. Qed.
Lemma StrLen_nonneg s : 0 <= StrLen s.
Proof. unfold StrLen. lia. Qed.

Lemma length_cstr_app l1 l2 : (length (cstr (l1 ++ l2)) <= length l1 + length (cstr l2))%nat.
Proof. induction l1 as [|c l1 IH]; simpl; [done|]. case_match; simpl; lia. Qed.

Lemma StrLen_pad n t : StrLen (pad n t) <= Z.of_nat (length t).
Proof.
  unfold StrLen, pad, zeros. pose proof (length_cstr_app t (replicate (Z.to_nat (n - Z.of_nat (length t))) 0)) as H.
  destruct (Z.to_nat _); simpl in *; lia.
Qed.

Lemma StrLen_ToLower s : StrLen (ToLower s) <= StrLen s.
Proof.
  unfold StrLen. induction s as [|c s IH]; [done|]. cbn [ToLower cstr].
  destruct (Z.eqb_spec c 0) as [->|Hc]; [done|]. cbn [cstr length]. case_match; cbn [length]; lia.
Qed.

(** The returned length is the length of the path. *)
Definition path_len (r : option (list Z) * Z) : Prop :=
  r.2 = match r.1 with Some t => StrLen t | None => 0 end.

Section Paths.
Context `{F : Firmware} `{B : BuildConfig} `{C : CmdConfig} {R : Type}.

Lemma path_result_len t : yields path_len (path_result t : MW R _).
Proof. apply yields_skip. intros t'. by apply yields_ret. Qed.

Ltac path_tac :=
  repeat first
    [ apply path_result_len
    | solve [by apply yields_ret]
    | match goal with
      | |- yields _ (if ?b then _ else _) => destruct b
      | |- yields _ (match ?x with _ => _ end) => destruct x
      | |- yields _ (mbind _ _) => apply yields_skip; intros ?
      end ].

Lemma GetSystemPath_len Multi Recovery Req Key Flashless Network :
  yields path_len (GetSystemPath Multi Recovery Req Key Flashless Network : MW R _).
Proof. unfold GetSystemPath. path_tac. Qed.
Lemma GetSystemPathByPname_len Multi Recovery Req Key :
  yields path_len (GetSystemPathByPname Multi Recovery Req Key : MW R _).
Proof. unfold GetSystemPathByPname. path_tac. Qed.
Lemma GetResumeCmdLine_len : yields path_len (GetResumeCmdLine : MW R _).
Proof. apply yields_skip. intros ?. apply GetSystemPath_len. Qed.
End Paths.

Ltac len_tac :=
  rewrite ?plen_app, ?plen_cons, ?plen_nil; cbn [items_len foldr item_len value_text app];
  unfold AsciiStrLen, StrLen in *; cbn [length]; lia.

(** ** Lines *)

(** The entries, one on a line. *)
Definition lines (l : list (list Z)) : list Z := concat (map (fun t => cstr t ++ [10]) l).
Definition llen (l : list (list Z)) : Z := Z.of_nat (length (lines l)).

Lemma lines_app l1 l2 : lines (l1 ++ l2) = lines l1 ++ lines l2.
Proof. unfold lines. by rewrite map_app, concat_app. Qed.
Lemma llen_app l1 l2 : llen (l1 ++ l2) = llen l1 + llen l2.
Proof. unfold llen. rewrite lines_app, length_app. lia. Qed.
Lemma llen_cons t l : llen (t :: l) = Z.of_nat (length (cstr t)) + 1 + llen l.
Proof. unfold llen, lines. simpl. rewrite !length_app. simpl. lia. Qed.
Lemma llen_nil : llen [] = 0.
Proof. done. Qed.

(** A length that is not negative. *)
Definition room_ok (i : item) : Prop := match i with Room _ n => 0 <= n | Param _ _ => True end.

Lemma pad_zero n t :
  Z.of_nat (length t) + 1 < n -> buf_write (pad n t) (Z.of_nat (length t) + 1) [0] = Some (pad n t).
Proof.
  intros H. apply buf_write_Some. rewrite length_pad by lia. split; [lia|]. split; [simpl; lia|].
  unfold pad, zeros. replace (Z.to_nat (n - Z.of_nat (length t))) with (2 + Z.to_nat (n - Z.of_nat (length t) - 2))%nat by lia.
  replace (Z.to_nat (Z.of_nat (length t) + 1)) with (length t + 1)%nat by lia.
  rewrite take_app_ge, drop_app_ge by (simpl; lia).
  replace (length t + 1 - length t)%nat with 1%nat by lia.
  replace (length t + 1 + length [0%Z] - length t)%nat with 2%nat by (simpl; lia).
  simpl. by rewrite <-(assoc (++)).
Qed.

Lemma lines_nonzero l : Forall (fun c => c <> 0) (lines l).
Proof.
  induction l as [|t l IH]; [constructor|]. change (lines (t :: l)) with ((cstr t ++ [10]) ++ lines l).
  apply Forall_app. split; [|done]. apply Forall_app. split; [apply cstr_nonzero|]. by constructor.
Qed.

Lemma lines_free l : Forall (fun t => 32 ∉ cstr t) l -> 32 ∉ lines l.
Proof.
  induction 1 as [|t l Ht _ IH]; [by apply not_elem_of_nil|].
  change (lines (t :: l)) with ((cstr t ++ [10]) ++ lines l). set_solver.
Qed.

Lemma config_loop_runs {S R} n Max l : forall t (s : S),
  Forall (fun c => c <> 0) t -> Max <= n -> Max <= RSIZE_MAX -> Z.of_nat (length t) + llen l < Max ->
  (config_loop Max (pad n t) l : M S R _) s = (Go (pad n (t ++ lines l)), s).
Proof.
  induction l as [|p l IH]; intros t s Ht Hn HM Hl; cbn [config_loop].
  { unfold lines. simpl. by rewrite app_nil_r. }
  rewrite llen_cons in Hl. pose proof (Nat2Z.is_nonneg (length (lines l))). unfold llen in *.
  erewrite bind_go by (apply cat_fits; [done|done|done|unfold StrLen; lia]). cbn [snd].
  assert (Ht' : Forall (fun c => c <> 0) (t ++ cstr p)) by (apply Forall_app; split; [done|apply cstr_nonzero]).
  erewrite bind_go by (apply cat_fits; [exact Ht'|done|done|change (StrLen [10]) with 1; rewrite length_app; lia]).
  cbn [snd]. change (cstr [10]) with [10]. rewrite IH; [|apply Forall_app; split; [done|by constructor]|done|done|].
  - change (lines (p :: l)) with ((cstr p ++ [10]) ++ lines l). by rewrite !(assoc (++)).
  - rewrite !length_app. simpl. lia.
Qed.

Section Config.
Context `{F : Firmware} `{B : BuildConfig} `{C : CmdConfig}.

Lemma item_cfg_nonneg V i : room_ok i -> 0 <= item_cfg V i.
Proof.
  destruct i as [key [v|]|[] n]; cbn [item_cfg room_ok]; intros H; [..|unfold SIZE_OF_DELIM; lia|done].
  all: pose proof (StrLen_nonneg key); try pose proof (StrLen_nonneg v); unfold SIZE_OF_DELIM; case_match; lia.
Qed.

Lemma items_cfg_nonneg V l : Forall room_ok l -> 0 <= items_cfg V l.
Proof.
  induction 1 as [|i l Hi _ IH]; [done|]. change (items_cfg V (i :: l)) with (item_cfg V i + items_cfg V l).
  pose proof (item_cfg_nonneg V i Hi). lia.
Qed.

(** The entries of the items have room. *)
Lemma items_lines_fit V l : Forall room_ok l -> llen (items_entries V l) <= items_cfg V l.
Proof.
  induction 1 as [|i l Hi _ IH]; [done|]. change (items_cfg V (i :: l)) with (item_cfg V i + items_cfg V l).
  change (items_entries V (i :: l)) with (item_entries V i ++ items_entries V l). rewrite llen_app.
  enough (llen (item_entries V i) <= item_cfg V i) by lia. pose proof (item_cfg_nonneg V i Hi) as H0.
  destruct i as [key value|flag n]; [|exact H0]. cbn [item_entries item_cfg] in *.
  destruct (IsAndroidBootParam _ _ _); [|done]. rewrite llen_cons, llen_nil.
  rewrite cstr_entry by (apply Forall_app; split; [|destruct value; [|constructor]]; apply cstr_nonzero).
  pose proof (length_no_space (cstr key ++ value_text value)) as H. rewrite length_app in H.
  destruct value; cbn [value_text length] in *; unfold StrLen, SIZE_OF_DELIM in *; lia.
Qed.

(** [UpdateBootConfigParams] writes all the entries, when they have room. *)
Lemma UpdateBootConfigParams_runs s N :
  roomy (cs_w s) -> BootConfigLen s = u32 N -> 0 <= N -> N + SIZE_OF_DELIM <= RSIZE_MAX ->
  llen (BootConfigList s) <= N ->
  UpdateBootConfigParams s =
  (Go EFI_SUCCESS,
   set_config (Some (pad (N + 4) ([10] ++ lines (BootConfigList s)), llen (BootConfigList s) + 2)) s).
Proof.
  intros Hr HN HN0 HNR Hl. unfold UpdateBootConfigParams, SIZE_OF_DELIM, RSIZE_MAX in *.
  rewrite (bind_go get _ _ _ _ eq_refl). rewrite HN, (u32_small N), (u32_small (N + 2)) by lia. cbn zeta.
  rewrite (proj2 (Z.eqb_neq _ _)) by lia. rewrite (bind_go _ _ _ _ _ (alloc_runs _ _ Hr)).
  cbn beta iota delta [negb]. rewrite (u32_small (N + 2 + 2)) by lia.
  replace (N + 2 + 2) with (N + 4) by lia.
  assert (Hfirst : buf_write (zeros (N + 4)) 0 [10; 0] = Some (pad (N + 4) [10])).
  { pose proof (pad_write (N + 4) [] [10]) as E. unfold pad at 1 in E. change (Z.of_nat (length [])) with 0 in E.
    rewrite Z.sub_0_r in E. simpl in E. apply E. lia. }
  unfold store. rewrite Hfirst. erewrite (bind_go (need _ _)) by done.
  erewrite bind_go.
  2: { apply config_loop_runs; [by constructor|lia|unfold RSIZE_MAX; lia|simpl; lia]. }
  set (t := [10] ++ lines (BootConfigList s)).
  assert (Ht : Forall (fun c => c <> 0) t) by (constructor; [done|apply lines_nonzero]).
  assert (Hlen : Z.of_nat (length t) = llen (BootConfigList s) + 1) by (unfold t, llen; simpl; lia).
  assert (Hc : AsciiStrLen (pad (N + 4) t) = llen (BootConfigList s) + 1).
  { unfold AsciiStrLen, StrLen. rewrite cstr_pad by (done || lia). lia. }
  rewrite Hc, <-Hlen, pad_zero by lia. erewrite (bind_go (need _ _)) by done.
  unfold llen in *. rewrite Hc. rewrite u32_small by lia.
  erewrite bind_go by (unfold modify; reflexivity). unfold mret, M_MRet, M_ret. do 4 f_equal. lia.
Qed.
End Config.

Section Fit.
Context `{F : Firmware} `{B : BuildConfig} `{C : CmdConfig}.
Variables (a : CmdArgs) (q : CmdWorld) (e : CmdState) (k : Answers).
Local Abbreviation V := (a_HeaderVersion a).
Local Abbreviation old := (a_HeaderVersion a <=? BOOT_HEADER_VERSION_THREE).
Local Abbreviation w := (cs_w e).

(** What keeps the two passes in step. *)
Record in_step : Prop := {
  st_net : net a && known k && old = false;
  st_env : k_multi k && IsBootDevImage w && k_ri k && IsLEVariant = false;
  st_behind : hd0 (q_behind q) = 0;
  st_gpu : gpu_status e <> EFI_SUCCESS -> hd0 (GpuCmdLine e).1 = 0;
  st_verity : match (q_LEVerity q (the_CmdLine a)).2 with
              | (Some t, n) => StrLen t <= n
              | (None, n) => 0 <= n
              end;
}.
Context (An : answered a q e k) (Wr : writable e k) (St : in_step).

Lemma modem_len : EarlyServicesEnabled = true -> path_len (k_modem k).
Proof. intros E. exact (GetSystemPathByPname_len _ _ _ _ _ _ _ (an_modem _ _ _ _ An E)). Qed.
Lemma resume_len : IsHibernationEnabled (pt w) = true -> path_len (k_resume k).
Proof. intros E. exact (GetResumeCmdLine_len _ _ _ (an_resume _ _ _ _ An E)). Qed.

Lemma given_fits : plen (given_pieces a) = items_len (cmd_items a).
Proof. unfold given_pieces, cmd_items. destruct (HaveCmdLine a); len_tac. Qed.
Lemma vb_fits : plen (vb_text a) <= items_len (vb_items a).
Proof.
  unfold vb_text, vb_items, opt. destruct (a_VBCmdLine a), old; len_tac.
Qed.
Lemma warm_fits : plen (warm_text a) <= items_len (warm_items a).
Proof. unfold warm_text, warm_items. destruct (warm a); len_tac. Qed.
Lemma device_fits :
  plen (net_text a k) + plen (device_text a e k) <=
  items_len (dev_items k) + items_len (dyn_items e k) + items_len (fstab_items a k).
Proof.
  pose proof (st_net St) as H. unfold net_text, device_text, dev_text, dyn_text, fstab_text, dev_items, dyn_items, fstab_items.
  destruct (net a), (known k), old, (IsDynamicPartitionSupport (pt w)); try done; cbn [andb]; len_tac.
Qed.
Lemma serial_fits : plen (serial_text a k) <= items_len (serial_items k).
Proof. unfold serial_text, serial_items. destruct old; len_tac. Qed.
Lemma mode_fits : plen (mode_text a e) <= items_len (mode_items a e).
Proof.
  unfold mode_text, mode_items, HaveFfbm.
  destruct (a_FfbmStr a) as [f|]; [destruct (negb _)|]; simpl default;
    [|destruct (charging a e), (a_AlarmBoot a)..]; destruct old; len_tac.
Qed.
Lemma band_fits : plen (band_text a q) <= items_len (band_items q).
Proof.
  unfold band_text, band_items. destruct (an_band _ _ _ _ An) as [c Hc].
  assert (Hb : StrLen (band q) <= StrLen c).
  { unfold band. rewrite Hc. simpl default. etrans; [apply StrLen_ToLower|]. etrans; [apply StrLen_pad|].
    rewrite length_take. unfold StrLen. lia. }
  rewrite Hc. destruct old; len_tac.
Qed.
Lemma panel_fits : plen (panel_text e) <= items_len (text_items a e).
Proof.
  unfold panel_text, text_items. rewrite !items_len_app.
  assert (Ha : 0 <= items_len (audio_items a e)) by (unfold audio_items; destruct (_ && _); len_tac).
  assert (Hg : StrLen (gpu e).1 <= items_len (gpu_items e)).
  { unfold gpu_items. destruct (Z.eqb_spec (gpu_status e) EFI_SUCCESS) as [E|E]; [len_tac|].
    pose proof (st_gpu St E) as H. unfold gpu, shown, gpu_status in *.
    rewrite (proj2 (Z.eqb_neq _ _) E). simpl. unfold StrLen. by rewrite cstr_hd0_0. }
  revert Ha Hg. len_tac.
Qed.
Lemma mdtp_fits : plen (mdtp_text q) <= items_len (mdtp_items q).
Proof. unfold mdtp_text, mdtp_items. destruct (mdtp q); len_tac. Qed.
Lemma nand_fits : plen (nand_text k) <= items_len (nand_items k).
Proof.
  pose proof (wr_suffix _ _ Wr) as Hs. unfold nand_text, nand_items, MAX_SLOT_SUFFIX_SZ.
  destruct (nand k); [destruct (_ && _)|]; len_tac.
Qed.

Lemma suffix_len : StrLen (suffix_ascii k) <= 2.
Proof.
  pose proof (wr_suffix _ _ Wr) as Hs. unfold suffix_ascii. etrans; [apply StrLen_pad|].
  rewrite length_map. exact Hs.
Qed.
Lemma env_len : StrLen (slot_env e k) <= StrLen (SystemdSlotEnv e).
Proof.
  pose proof (wr_env _ _ Wr) as He. unfold slot_env, AsciiStrLen, StrLen in *.
  set (n := Z.to_nat _). rewrite (assoc (++)).
  match goal with |- Z.of_nat (length (cstr (?l1 ++ ?l2))) <= _ => pose proof (length_cstr_app l1 l2) as H end.
  rewrite cstr_drop, length_drop, length_app, length_take in H by lia. simpl in H.
  pose proof (length_cstr (SystemdSlotEnv e)). lia.
Qed.
Lemma slot_fits : plen (slot_text a e k) <= items_len (slot_items a e k).
Proof.
  pose proof (st_env St) as H. pose proof suffix_len as Hs. pose proof env_len as He.
  unfold slot_text, slot_items, env_written, suffix_written, suffix_text, suffix_room, MAX_SLOT_SUFFIX_SZ.
  destruct (k_multi k), (IsBootDevImage w), le_slots, old; cbn [andb negb] in *;
    rewrite ?H; cbn [andb negb app]; len_tac.
Qed.
Lemma root_fits : plen (root_text a e k) <= items_len (root_items a e k).
Proof.
  unfold root_text, root_items. destruct (root_needed _ _ _); [destruct (skips a e)|]; len_tac.
Qed.
Lemma idx_fits key Idx : StrLen (idx_text key Idx) <= items_len (idx_items key Idx).
Proof.
  unfold idx_items. destruct (_ || _) eqn:E; [|len_tac]. unfold idx_text. rewrite E. done.
Qed.
Lemma dtbo_fits : plen (dtbo_pieces a e) <= items_len (dtbo_items e).
Proof.
  unfold dtbo_pieces, dtbo_items, dtbo_text. pose proof (idx_fits AndroidBootDtboIdx (DtboIdx (cs_loc e))) as H.
  pose proof (StrLen_nonneg (idx_text AndroidBootDtboIdx (DtboIdx (cs_loc e)))).
  destruct old; rewrite ?plen_cons, ?plen_nil; lia.
Qed.
Lemma dtb_fits : plen (dtb_pieces a e) <= items_len (dtb_items e).
Proof.
  unfold dtb_pieces, dtb_items, dtb_text. pose proof (idx_fits AndroidBootDtbIdx (DtbIdx (cs_loc e))) as H.
  pose proof (StrLen_nonneg (idx_text AndroidBootDtbIdx (DtbIdx (cs_loc e)))).
  destruct old; rewrite ?plen_cons, ?plen_nil; lia.
Qed.
Lemma written_counted : written a q e k = true -> force_counted a q (k_multi k) w = true.
Proof.
  unfold written, force_written, force_counted. simpl.
  destruct (a_Recovery a), IsBuildUseRecoveryAsBoot, (q_RecoveryHasNoKernel q), (IsDynamicPartitionSupport (pt w)),
    (k_multi k); done.
Qed.
Lemma force_fits : plen (force_text a q e k) <= items_len (force_items a q e k).
Proof.
  unfold force_text, force_items. destruct (written a q e k) eqn:Hw; cbn [andb].
  - rewrite (written_counted Hw).
    assert (Hc : BootForceNormalBoot (e_force a q e) <> 0).
    { unfold e_force. case_match; [done|apply An]. }
    destruct old; rewrite ?plen_cons, ?plen_nil; cbn [items_len foldr item_len value_text].
    all: unfold StrLen; cbn [cstr]; rewrite (proj2 (Z.eqb_neq (BootForceNormalBoot _) 0)) by done.
    + rewrite (cstr_hd0_0 (q_behind q)) by apply St. cbn [length]. case_match; cbn [length]; lia.
    + cbn [length]. lia.
  - destruct (force_counted _ _ _ _); len_tac.
Qed.
Lemma verity_fits : plen (verity_text a q) <= items_len (verity_items a q).
Proof.
  pose proof (st_verity St) as H. unfold verity_text, verity, verity_items.
  destruct (_ && _); [|done]. destruct (q_LEVerity q (the_CmdLine a)).2 as [[t|] n]; cbn [opt fst snd] in *; len_tac.
Qed.
Lemma memory_fits : plen (memory_text a k) <= items_len (memory_items a k).
Proof.
  unfold memory_text, amount, memory_items, nopasr_items.
  destruct (limited a k), (has_mem a); cbn [andb negb]; len_tac.
Qed.
Lemma eth_fits : plen (eth_text q) <= items_len (eth_items q).
Proof.
  unfold eth_text, eth_items. destruct EARLY_ETH_ENABLED; [|done].
  induction (q_EarlyEth q) as [|t l IH]; [done|]. rewrite plen_cons. cbn [map].
  change (items_len (?x :: ?l)) with (item_len x + items_len l). cbn [item_len]. unfold AsciiStrLen in *. lia.
Qed.
Lemma services_fit : plen (usb_text q) + plen (ima_text q) <= items_len (usb_items q) + items_len (ima_items q).
Proof.
  unfold usb_text, usb_items, ima_text, ima_items. destruct EARLY_USB_ENABLED, INTEGRITY_IMA_ENABLED; len_tac.
Qed.
Lemma resume_fits : plen (resume_text e k) <= items_len (resume_items e k).
Proof.
  unfold resume_text, resume, resume_items. pose proof resume_len as H. unfold hibernates.
  destruct (IsHibernationEnabled (pt w)); [|done]. specialize (H eq_refl). unfold path_len in H.
  destruct (k_resume k) as [[t|] n]; cbn [opt fst snd] in *; subst; len_tac.
Qed.
Lemma modem_fits : plen (modem_text k) <= items_len (modem_items k).
Proof.
  unfold modem_text, modem, modem_items. pose proof modem_len as H.
  destruct EarlyServicesEnabled; [|done]. specialize (H eq_refl). unfold path_len in H.
  destruct (k_modem k) as [[t|] n]; cbn [opt fst snd] in *; subst; len_tac.
Qed.
Lemma silent_fits : plen (silent_pieces a) <= items_len (silent_items a).
Proof. unfold silent_pieces, silent_items. destruct (silent_text a); cbn [opt]; len_tac. Qed.
Lemma cpu_fits : plen (cpu_text q) <= items_len (cpu_items q).
Proof. unfold cpu_text, cpu_items. destruct BootCpuSelectionEnabled; len_tac. Qed.

(** Everything fits, with the terminator. *)
Lemma all_fits : plen (given_pieces a ++ pieces a q e k) < items_len (counted a q e k).
Proof.
  unfold pieces, counted. rewrite !plen_app, !items_len_app. change (items_len [Room false 1]) with 1.
  pose proof given_fits. pose proof vb_fits. pose proof warm_fits. pose proof device_fits. pose proof serial_fits.
  pose proof mode_fits. pose proof band_fits. pose proof panel_fits. pose proof mdtp_fits. pose proof nand_fits.
  pose proof slot_fits. pose proof root_fits. pose proof dtbo_fits. pose proof dtb_fits. pose proof force_fits.
  pose proof verity_fits. pose proof memory_fits. pose proof eth_fits. pose proof services_fit.
  pose proof resume_fits. pose proof modem_fits. pose proof silent_fits. pose proof cpu_fits. lia.
Qed.

(** ** The boot configuration *)

(** All entries of the boot configuration. *)
Definition entries : list (list Z) :=
  items_entries V (counted a q e k) ++ vb_entries a ++ slot_entries a e k.

Lemma no_space_free kv : 32 ∉ no_space kv.
Proof. unfold no_space. by intros [Hc _]%list_elem_of_filter. Qed.

(** No space is left in an entry. *)
Lemma entries_free : Forall (fun t => 32 ∉ cstr t) entries.
Proof.
  assert (He : forall kv, Forall (fun c => c <> 0) kv -> 32 ∉ cstr (entry kv)).
  { intros kv H. rewrite cstr_entry by done. apply no_space_free. }
  unfold entries. rewrite !Forall_app. split; [|split].
  - unfold items_entries. induction (counted a q e k) as [|i l IH]; [constructor|]. simpl.
    apply Forall_app. split; [|exact IH]. destruct i as [key value|]; simpl; [|constructor].
    case_match; constructor; [|constructor]. apply He, Forall_app. split; [apply cstr_nonzero|].
    destruct value; [apply cstr_nonzero|constructor].
  - unfold vb_entries. destruct (a_VBCmdLine a); [|constructor]. case_match; constructor; [|constructor].
    apply He, ParseVB_nonzero.
  - unfold slot_entries. case_match; constructor; [|constructor].
    apply He, Forall_app. split; apply cstr_nonzero.
Qed.

Lemma vb_line_fits : llen (vb_entries a) <= items_cfg V (vb_items a).
Proof.
  unfold vb_entries, vb_items. destruct (a_VBCmdLine a) as [vb|]; [|done].
  change (items_cfg V [?i]) with (item_cfg V i + 0). cbn [item_cfg].
  pose proof (StrLen_nonneg vb). unfold AsciiStrLen.
  destruct (IsAndroidBootParam vb (StrLen vb) V); [|destruct old; done].
  destruct old; cbn [andb negb]; [unfold llen, SIZE_OF_DELIM; simpl; lia|].
  rewrite llen_cons, llen_nil, cstr_entry by apply ParseVB_nonzero.
  pose proof (length_no_space (ParseVBCmdLine (cstr vb))) as H'. unfold ParseVBCmdLine in *. rewrite length_map in H'.
  unfold StrLen, SIZE_OF_DELIM. lia.
Qed.

Lemma slot_line_fits :
  Forall room_ok (slot_items a e k) ->
  llen (items_entries V (slot_items a e k)) + llen (slot_entries a e k) <= items_cfg V (slot_items a e k).
Proof.
  intros H0%(items_lines_fit V). unfold slot_entries.
  destruct (suffix_written e k && negb old && _) eqn:E; [clear H0|rewrite llen_nil; lia].
  apply andb_true_iff in E as [[Hs Ho]%andb_true_iff Hp].
  assert (Hi : slot_items a e k = [Room (IsAndroidBootParam AndroidSlotSuffix suffix_room V) suffix_room]).
  { unfold suffix_written, slot_items in *. destruct (k_multi k), (IsBootDevImage w), le_slots; done. }
  rewrite Hi. change (items_cfg V [?i]) with (item_cfg V i + 0). cbn [item_cfg].
  change (llen (items_entries V _)) with 0.
  assert (Hf : IsAndroidBootParam AndroidSlotSuffix suffix_room V = true).
  { revert Hp. unfold IsAndroidBootParam. change (AsciiStrLen AndroidSlotSuffix <? 12) with false.
    by change (suffix_room <? 12) with false. }
  rewrite Hf, llen_cons, llen_nil.
  rewrite cstr_entry by (apply Forall_app; split; apply cstr_nonzero).
  pose proof suffix_len as Hl. pose proof (length_no_space (cstr AndroidSlotSuffix ++ cstr (suffix_ascii k))) as H.
  rewrite length_app in H. unfold suffix_room, AsciiStrLen, StrLen, MAX_SLOT_SUFFIX_SZ, SIZE_OF_DELIM in *. lia.
Qed.

Lemma counted_room_ok : Forall room_ok (counted a q e k).
Proof.
  unfold counted. rewrite !Forall_app.
  assert (Hv : Forall room_ok (verity_items a q)).
  { pose proof (st_verity St) as H. unfold verity_items. destruct (_ && _); [|constructor].
    constructor; [|constructor]. cbn [room_ok]. destruct (q_LEVerity q (the_CmdLine a)).2 as [[t|] n]; [|done].
    pose proof (StrLen_nonneg t). simpl in *. lia. }
  assert (Hm : Forall room_ok (modem_items k)).
  { unfold modem_items. pose proof modem_len as H. destruct EarlyServicesEnabled; [|constructor].
    specialize (H eq_refl). constructor; [|constructor]. cbn [room_ok]. rewrite H.
    destruct (k_modem k).1; [apply StrLen_nonneg|done]. }
  assert (Hr : Forall room_ok (resume_items e k)).
  { unfold resume_items, hibernates. pose proof resume_len as H.
    destruct (IsHibernationEnabled _); [|constructor].
    specialize (H eq_refl). constructor; [|constructor]. cbn [room_ok]. rewrite H.
    destruct (k_resume k).1; [apply StrLen_nonneg|done]. }
  assert (He : Forall room_ok (eth_items q)).
  { unfold eth_items. destruct EARLY_ETH_ENABLED; [|constructor]. apply Forall_map, Forall_true. intros t. simpl.
    apply StrLen_nonneg. }
  repeat match goal with |- _ /\ _ => split end; try assumption.
  all: unfold cmd_items, vb_items, dev_items, dyn_items, serial_items, mode_items, band_items, mdtp_items, nand_items,
    slot_items, root_items, text_items, gpu_items, audio_items, dtbo_items, dtb_items, idx_items, force_items,
    fstab_items, memory_items, nopasr_items, warm_items, silent_items, usb_items, ima_items, cpu_items.
  all: repeat case_match; simpl; repeat constructor; cbn [room_ok]; try apply StrLen_nonneg; done.
Qed.

Lemma config_fits : llen entries <= items_cfg V (counted a q e k).
Proof.
  pose proof counted_room_ok as H. pose proof vb_line_fits as Hvb. unfold entries, counted in *.
  rewrite !Forall_app in H. destruct_and! H.
  repeat match goal with H : Forall room_ok ?l |- _ =>
    lazymatch l with slot_items _ _ _ => apply slot_line_fits in H | _ => apply (items_lines_fit V) in H end end.
  assert (Ev : items_entries V (vb_items a) = []) by (unfold vb_items; by destruct (a_VBCmdLine a)).
  rewrite !items_entries_app, !llen_app, !items_cfg_app. rewrite Ev in *. rewrite llen_nil in *. lia.
Qed.

Lemma small_of_total l : Forall room_ok l -> items_len l <= RSIZE_MAX -> small l.
Proof.
  assert (Hi : forall i, room_ok i -> 0 <= item_len i).
  { intros [key value|flag n]; cbn [room_ok item_len]; [|done]. pose proof (StrLen_nonneg key). lia. }
  induction 1 as [|i l Hok Hl IH]; intros Ht; [constructor|].
  change (items_len (i :: l)) with (item_len i + items_len l) in Ht.
  assert (0 <= items_len l).
  { clear IH Ht. induction Hl as [|j l Hj _ IHl]; [done|].
    change (items_len (j :: l)) with (item_len j + items_len l). specialize (Hi j Hj). lia. }
  specialize (Hi i Hok). constructor; [lia|apply IH; lia].
Qed.

(** ** [UpdateCmdLine] *)

(** The buffers are no longer than the string routines accept. *)
Definition bounded : Prop :=
  items_len (counted a q e k) <= RSIZE_MAX /\ items_cfg V (counted a q e k) + SIZE_OF_DELIM <= RSIZE_MAX.

Lemma UpdateCmdLine_runs :
  bounded ->
  exists s', UpdateCmdLine a q e = (Go EFI_SUCCESS, s') /\
    FinalCmdLine s' = Some (pad (items_len (counted a q e k)) (text_of (given_pieces a ++ pieces a q e k))) /\
    FinalBootConfig s' = Some (pad (items_cfg V (counted a q e k) + 4) ([10] ++ lines entries), llen entries + 2) /\
    BootConfigList s' = [].
Proof.
  intros [Hl Hc]. pose proof counted_room_ok as Hok. pose proof all_fits as Hfit. pose proof config_fits as Hcfg.
  pose proof (small_of_total _ Hok Hl) as Hs. pose proof (items_cfg_nonneg V _ Hok) as Hc0.
  pose proof (plen_nonneg (given_pieces a ++ pieces a q e k)) as Hp0.
  set (e2 := count V (counted a q e k) (e_nodes a q e k)).
  assert (H1 : count_all a q (set_list [] e) = (Go (params a q e k), e2)) by (by apply count_all_runs).
  assert (HM : CmdLineLen e2 = items_len (counted a q e k)).
  { unfold e2. simpl. unfold RSIZE_MAX in *. apply u32_small. lia. }
  assert (Hvb : forall vb, a_VBCmdLine a = Some vb -> AsciiStrLen vb <= RSIZE_MAX).
  { intros vb E. unfold small, counted in Hs. rewrite !Forall_app in Hs. destruct Hs as [[_ [Hvb _]] _].
    unfold vb_items in Hvb. rewrite E in Hvb. inversion Hvb; subst. simpl in *. lia. }
  pose proof (UpdateCmdLineParams_runs a q e k _ Hl An Wr e2 eq_refl HM ltac:(lia) Hfit Hvb) as H2.
  set (s2 := put _ _ _ _) in H2.
  assert (Hw2 : cs_w s2 = w) by apply e_end_w, eq_refl.
  assert (Hlen2 : BootConfigLen s2 = u32 (items_cfg V (counted a q e k))).
  { unfold s2, put. simpl. unfold e_end, e_slot. by repeat case_match. }
  assert (H3 : UpdateBootConfigParams s2 = (Go EFI_SUCCESS,
    set_config (Some (pad (items_cfg V (counted a q e k) + 4) ([10] ++ lines entries), llen entries + 2)) s2)).
  { apply (UpdateBootConfigParams_runs s2 (items_cfg V (counted a q e k))); try done; try lia.
    rewrite Hw2. apply An. }
  eexists. split; [|split; [|split]].
  - unfold UpdateCmdLine. rewrite (bind_go _ _ _ _ _ (alloc_runs _ _ (an_roomy _ _ _ _ An))).
    cbn beta iota delta [negb]. erewrite (bind_go (modify _)) by (unfold modify; reflexivity).
    rewrite (bind_go _ _ _ _ _ H1).
    erewrite (bind_go (call _)) by (unfold call; rewrite H2; reflexivity).
    change (EFI_SUCCESS =? EFI_SUCCESS) with true. cbn beta iota delta [negb].
    erewrite (bind_go (call _)) by (unfold call; rewrite H3; reflexivity).
    change (EFI_SUCCESS =? EFI_SUCCESS) with true. cbn beta iota delta [negb].
    unfold ClearBootConfigList. erewrite (bind_go (modify _)) by (unfold modify; reflexivity). reflexivity.
  - done.
  - done.
  - done.
Qed.
End Fit.
