(* ===== verification/CmdClaims.v ===== *)
(** What the kernel is told: nothing the boot loader means to append to the
    command line or the boot configuration is lost, as long as the two passes
    of [UpdateCmdLine] stay in step. *)
From Stdlib Require Import ZArith Lia.
From stdpp Require Import base list numbers option sets.
From S2P Require Import Prelude EfiBase Convert Firmware World LoaderLib Board Ptable DevInfo Gpt Slots Recovery Fastboot FastbootCmds Setup Demo Fdt FdtRw Carveout DtMatch Locate SlotSpec CmdPath CmdLine CmdCount CmdPass CmdText CmdFit.

Section Claims.
Context `{F : Firmware} `{B : BuildConfig} `{C : CmdConfig}.

(** C10: [UpdateCmdLine] succeeds and loses nothing of what it is asked for: the
    text of the final command line is the command line of the image followed by
    every piece the configuration, the board and the boot mode ask for, in the
    order of [asked], although [AsciiStrCatS] drops a piece that does not fit and
    its status is not looked at; the buffer is exactly as long as what the first
    pass has counted.
    The conditions: there is no audio framework, or the header version is 4 or
    later (else [androidboot.audio] is counted and not appended, [audio_done]);
    [in_step]: no network boot of a known device with header version up to 3, no
    boot device image ([IsBootDevImage]) in an LE build with several slots and a
    recovery, a zero byte behind
    [BootForceNormalBoot], an empty GPU text when the firmware does not answer
    for it, and a verity text no longer than its reported length; [writable]: a
    slot suffix of at most two characters and a systemd slot text of at least
    two; [bounded]: what is counted stays within [RSIZE_MAX]; [answered]: memory
    does not run out and the other parts answer, their texts within their
    arrays. *)
Theorem cmdline_complete a q s k :
  answered a q s k -> writable s k -> in_step a q s k -> bounded a q s k -> audio_done a s ->
  exists s' buf, UpdateCmdLine a q s = (Go EFI_SUCCESS, s') /\ FinalCmdLine s' = Some buf /\
    cstr buf = text_of (given_pieces a ++ asked a q s k) /\
    Z.of_nat (length buf) = items_len (counted a q s k).
Proof.
  intros An Wr St Bd Au. pose proof (all_fits a q s k An Wr St) as Hf.
  rewrite (asked_pieces a q s k Au).
  destruct (UpdateCmdLine_runs a q s k An Wr St Bd) as (s'&Hr&Hc&_). exists s'. eexists.
  split; [done|]. split; [done|]. unfold plen in Hf.
  split; [by apply cstr_pad; [apply text_of_nonzero|]|by apply length_pad; lia].
Qed.

(** C27: The boot configuration is complete as well: an empty line, then every
    entry on a line of its own (the parameters that belong there, those of
    verified boot and of the slot included), with no space left anywhere, and
    the length that is reported is that of the text and its terminator.
    The conditions: no network boot of a known device with header version up to
    3, no boot device image ([IsBootDevImage]) in an LE build with several slots
    and a recovery, a zero byte behind [BootForceNormalBoot], an empty GPU text when the firmware does not
    answer for it, a verity text no longer than its reported length
    ([in_step]); a slot suffix of at most two characters and a systemd slot text
    of at least two ([writable]); lengths within [RSIZE_MAX] ([bounded]); memory
    that does not run out and answers within their arrays ([answered]). *)
Theorem bootconfig_complete a q s k :
  answered a q s k -> writable s k -> in_step a q s k -> bounded a q s k ->
  exists s' buf n, UpdateCmdLine a q s = (Go EFI_SUCCESS, s') /\ FinalBootConfig s' = Some (buf, n) /\
    cstr buf = [10] ++ lines (entries a q s k) /\ 32 ∉ cstr buf /\ n = StrLen buf + 1.
Proof.
  intros An Wr St Bd. pose proof (config_fits a q s k An Wr St) as Hf.
  destruct (UpdateCmdLine_runs a q s k An Wr St Bd) as (s'&Hr&_&Hc&_). exists s'. do 2 eexists.
  split; [done|]. split; [done|].
  assert (E : cstr (pad (items_cfg (a_HeaderVersion a) (counted a q s k) + 4) ([10] ++ lines (entries a q s k))) =
              [10] ++ lines (entries a q s k)).
  { apply cstr_pad; [constructor; [done|apply lines_nonzero]|]. unfold llen in Hf. simpl. lia. }
  unfold StrLen. rewrite E. split; [done|]. split; [|simpl; unfold llen; lia].
  intros H. apply elem_of_cons in H as [H|H]; [done|].
  by apply (lines_free _ (entries_free a q s k)).
Qed.
End Claims.

(** [RemoveSpace] is a filter: compacting the first [n] characters of an
    array in place, with its indices as unsigned numbers, leaves those that are
    not spaces in their order, a terminator behind them, and the rest of the
    array as it was. *)
Theorem remove_space_filters {S R} (param : list Z) (n : nat) (s : S) :
  (n < length param)%nat -> Z.of_nat (length param) < 2 ^ 32 ->
  (RemoveSpace param (Z.of_nat n) : M S R _) s =
  (Go (no_space (take n param) ++ 0 :: drop (Datatypes.S (length (no_space (take n param)))) param), s).
Proof. apply RemoveSpace_runs. Qed.

(** ** The memory that stays online *)

(** The 64-bit big-endian word at [p]. *)
Definition word_at (fdt : list Z) (p : Z) : option Z := be_get <$> buf_read fdt p 8.

(** The table at [t]: pairs of a memory size and what is taken offline. *)
Definition table_at (fdt : list Z) (t : Z) (l : list (Z * Z)) : Prop :=
  forall i p, l !! i = Some p ->
  word_at fdt (t + 8 * (2 * Z.of_nat i)) = Some p.1 /\ word_at fdt (t + 8 * (2 * Z.of_nat i + 1)) = Some p.2.

Definition fitting (DdrSize : Z) (l : list (Z * Z)) : list (Z * Z) := filter (fun p => p.1 <= DdrSize) l.

Lemma fdt64_word {S R} fdt p v (s : S) : word_at fdt p = Some v -> (fdt64 fdt p : M S R Z) s = (Go v, s).
Proof. unfold word_at, fdt64. destruct (buf_read fdt p 8); [|done]. by intros [= <-]. Qed.

Lemma table_at_app fdt t l1 l2 : table_at fdt t (l1 ++ l2) -> table_at fdt t l1.
Proof. intros H i p Hi. apply H. by apply lookup_app_l_Some. Qed.

(** The search of [GetMemoryLimit], whose index is unsigned and whose loop
    has no other end: on a table whose first entry fits the memory it stops,
    and takes off what the last entry that fits says. *)
Theorem offline_last_fit {S R} fdt t DdrSize MemLimit l size off first fuel (s : S) :
  table_at fdt t l -> 2 * Z.of_nat (length l) < 2 ^ 32 ->
  head l = Some first -> first.1 <= DdrSize -> (length l <= fuel)%nat ->
  last (fitting DdrSize l) = Some (size, off) ->
  (offline_loop fuel fdt t (u32 (2 * Z.of_nat (length l) - 2)) DdrSize MemLimit : M S R Z) s =
  (Go (u64 (MemLimit - off)), s).
Proof.
  revert fuel. induction l as [|[sz o] l IH] using rev_ind; intros fuel Ht H32 Hh Hf Hfuel Hl; [done|].
  rewrite length_app in *. simpl in Hfuel. destruct fuel as [|fuel]; [lia|]. cbn [length] in *.
  destruct (Ht (length l) (sz, o)) as [H1 H2]; [by rewrite lookup_app_r, Nat.sub_diag by lia|].
  rewrite u32_small by lia. cbn [offline_loop].
  replace (2 * Z.of_nat (length l + 1) - 2) with (2 * Z.of_nat (length l)) by lia.
  rewrite (bind_go _ _ _ _ _ (fdt64_word _ _ _ _ H1)).
  unfold fitting in Hl. rewrite list.filter_app in Hl. cbn [fst] in *.
  destruct (Z.leb_spec sz DdrSize) as [Hs|Hs].
  - rewrite filter_cons_True, filter_nil, last_snoc in Hl by done. injection Hl as -> ->.
    rewrite u32_small by lia. by rewrite (bind_go _ _ _ _ _ (fdt64_word _ _ _ _ H2)).
  - rewrite filter_cons_False, filter_nil, app_nil_r in Hl by (simpl; lia).
    apply IH; [by eapply table_at_app|lia| |done|lia|done].
    destruct l; [|done]. injection Hh as <-. simpl in Hf. lia.
Qed.

(** * A command line to try it on *)

#[export] Instance demo_cmd_build : CmdConfig :=
  {| RW_ROOTFS := false; INIT_BIN := L "/init"; AUDIO_FRAMEWORK := L "audioreach"; UBUNTU_AB_OTA := false;
     NAND_SQUASHFS_SUPPORT := false; VERITY_LE := false; ENABLE_EARLY_SERVICES := true;
     BUILD_USES_RECOVERY_AS_BOOT := false; TARGET_LINUX_BOOT_CPU_ID := true; EnableMdtpSupport := false;
     EARLY_ETH_ENABLED := false; EARLY_USB_ENABLED := true; INTEGRITY_IMA_ENABLED := false |}.

Definition demo_cmd : CmdState (H := MemFirmware.fw) :=
  mkCmd _ demo (mkLoc true 2 5 1 false []) [] (zeros 256, 256) (zeros 32, 32) (zeros 256, 256) (zeros 16) 48
    (systemd_slot_env ++ [0]) [] 0 0 None None.

Definition demo_args (version : Z) : CmdArgs :=
  mkArgs (Some (L "console=ttyS0" ++ [0])) 4096 [] None false false false true
    (Some (L " androidboot.vbmeta.device_state=locked" ++ [0])) version SILENT_MODE.

Definition demo_q : CmdWorld :=
  mkCmdWorld EFI_NOT_FOUND (EFI_SUCCESS, 0) (fun _ => (EFI_SUCCESS, (None, 0))) (Some (L "MSM" ++ [0])) false
    (EFI_DEVICE_ERROR, 0) None [] (L " g_qdss" ++ [0]) (zeros 16) 4 [0].

Definition demo_answers : Answers :=
  mkAnswers (pad 64 (L "12ab34cd")) (EFI_SUCCESS, pad 32 (L "1d84000.sdhci")) EMMC true (None, 0) (None, 0)
    (L "_a" ++ [0]) false (EFI_DEVICE_ERROR, zeros MEM_OFF_SIZE) [].

(** An equation by evaluation, without writing the results out. *)
Ltac by_vm := lazymatch goal with |- ?x = ?y => exact (@eq_refl _ y <: x = y) end.

Lemma demo_answered v : answered (demo_args v) demo_q demo_cmd demo_answers.
Proof.
  constructor.
  - intros n. reflexivity.
  - left. by_vm.
  - left. by_vm.
  - left. by_vm.
  - left. by_vm.
  - left. by_vm.
  - left. by_vm.
  - left. by_vm.
  - intros _. unfold told. by_vm.
  - intros H. vm_compute in H. discriminate H.
  - intros s Hw Hn. destruct s. simpl in Hw, Hn. subst. reflexivity.
  - eexists. reflexivity.
  - intros H. vm_compute in H. discriminate H.
  - intros H. vm_compute in H. discriminate H.
  - intros H. vm_compute in H. discriminate H.
  - split; reflexivity.
  - discriminate.
Qed.

Lemma demo_writable : writable demo_cmd demo_answers.
Proof. split; vm_compute; discriminate. Qed.

Lemma demo_in_step v : in_step (demo_args v) demo_q demo_cmd demo_answers.
Proof. split; try reflexivity. discriminate. Qed.

Lemma demo_bounded v : v = 3 \/ v = 4 -> bounded (demo_args v) demo_q demo_cmd demo_answers.
Proof. intros [-> | ->]; split; vm_compute; discriminate. Qed.

Lemma cmdline_complete_witness :
  exists s' buf, UpdateCmdLine (demo_args 3) demo_q demo_cmd = (Go EFI_SUCCESS, s') /\ FinalCmdLine s' = Some buf /\
    cstr buf =
      L "console=ttyS0 androidboot.vbmeta.device_state=locked androidboot.bootdevice=1d84000.sdhci" ++
      L " androidboot.fstab_suffix=emmc androidboot.serialno=12ab34cd androidboot.alarmboot=true" ++
      L " androidboot.baseband=msm androidboot.slot_suffix=_a skip_initramfs rootwait ro init=/init" ++
      L " androidboot.dtbo_idx=5 androidboot.dtb_idx=2 g_qdss silent_boot.mode=silent boot_cpu=4".
Proof.
  destruct (cmdline_complete (demo_args 3) demo_q demo_cmd demo_answers) as (s'&buf&H1&H2&H3&_).
  - apply demo_answered.
  - apply demo_writable.
  - apply demo_in_step.
  - apply demo_bounded. by left.
  - right. by_vm.
  - exists s', buf. split; [exact H1|]. split; [exact H2|]. rewrite H3. vm_compute. reflexivity.
Defined.

(** The baseband keeps its capitals here, and the text of verified boot starts
    with a line of its own. *)
Lemma bootconfig_complete_witness :
  exists s' buf n, UpdateCmdLine (demo_args 4) demo_q demo_cmd = (Go EFI_SUCCESS, s') /\
    FinalBootConfig s' = Some (buf, n) /\
    cstr buf =
      concat (map (fun t => t ++ [10])
        [[]; L "androidboot.bootdevice=1d84000.sdhci"; L "androidboot.serialno=12ab34cd";
         L "androidboot.alarmboot=true"; L "androidboot.baseband=MSM"; L "androidboot.dtbo_idx=5";
         L "androidboot.dtb_idx=2"; L "androidboot.fstab_suffix=emmc"; [];
         L "androidboot.vbmeta.device_state=locked"; L "androidboot.slot_suffix=_a"]).
Proof.
  destruct (bootconfig_complete (demo_args 4) demo_q demo_cmd demo_answers) as (s'&buf&n&H1&H2&H3&_).
  - apply demo_answered.
  - apply demo_writable.
  - apply demo_in_step.
  - apply demo_bounded. by right.
  - exists s', buf, n. split; [exact H1|]. split; [exact H2|]. rewrite H3. vm_compute. reflexivity.
Defined.

Lemma remove_space_filters_witness :
  (RemoveSpace (L " a b " ++ [0; 7]) 5 : M unit unit _) tt = (Go (L "ab" ++ [0] ++ L "b " ++ [0; 7]), tt).
Proof. exact (remove_space_filters (L " a b " ++ [0; 7]) 5 tt ltac:(simpl; lia) ltac:(reflexivity)). Defined.

(** Three entries: from 1, 4 and 16 on; with 8 the second one counts. *)
Definition demo_table : list Z :=
  concat (map (fun v => replicate 7 0 ++ [v]) [1; 0; 4; 2; 16; 6]).

Lemma offline_last_fit_witness :
  (offline_loop 4 demo_table 0 (u32 4) 8 8 : M unit unit Z) tt = (Go 6, tt).
Proof.
  refine (offline_last_fit demo_table 0 8 8 [(1, 0); (4, 2); (16, 6)] 4 2 (1, 0) 4 tt _ _ _ _ _ _).
  - intros [|[|[|i]]] p H; [injection H as <-; split; vm_compute; reflexivity..|discriminate].
  - reflexivity.
  - reflexivity.
  - discriminate.
  - simpl. lia.
  - vm_compute. reflexivity.
Defined.

(** ** Out of step

    On a network boot of a known device the name of the file-system table is
    appended a second time, but its length is counted once: what comes last is
    dropped, and [UpdateCmdLine] reports success. *)
Definition demo_net : CmdArgs :=
  mkArgs (Some (L "console=ttyS0" ++ [0])) 4096 [] None false false true true
    (Some (L " androidboot.vbmeta.device_state=locked" ++ [0])) 3 SILENT_MODE.

Example network_boot_drops :
  match UpdateCmdLine demo_net demo_q demo_cmd with
  | (Go st, s') =>
      st = EFI_SUCCESS /\
      is_Some (AsciiStrStr (text_of (pieces demo_net demo_q demo_cmd demo_answers)) (L " silent_boot.mode=silent")) /\
      option_map (fun b => AsciiStrStr b (L " silent_boot.mode=silent")) (FinalCmdLine s') = Some None
  | _ => False
  end.
Proof. vm_compute. split; [reflexivity|]. split; [eexists; reflexivity|reflexivity]. Qed.
